(* ===== verification/_CoqProject ===== *)
-Q . S2P
Prelude.v
Console.v
LibString.v
Inet.v
InetSpec.v
Bytes.v
LwipMem.v
LwipMemSpec.v
LwipPool.v
Pbuf.v
PbufSpec.v
PbufHeap.v
E1000.v
Mmu.v
Thread.v
ThreadSpec.v
SysArch.v
SysArchSpec.v
BlockCache.v
BlockCacheSpec.v
Fs.v
FsSpec.v
FsDir.v
FsInit.v
Format.v
FormatSpec.v
Serv.v
FileLib.v
FileSpec.v
Pipe.v
Printf.v
Machine.v
KernLib.v
Spinlock.v
PageAlloc.v
PageTable.v
Vm.v
FreeList.v
VmSpec.v
UserMem.v
Env.v
EnvVm.v
EnvInv.v
EnvSpec.v
Boot.v
BootSpec.v
Stab.v
Sched.v
SchedSpec.v
Syscall.v
SyscallSpec.v
UserAccess.v
Trap.v
TrapSpec.v
UserLib.v
ForkSpec.v
UserSteps.v
PipeLib.v
