(* ===== verification/Prelude.v ===== *)
(** * The JOS kernel: a verification development

    JOS is a small multiprocessor kernel for the x86 in the style of an
    exokernel: the kernel gives environments (its processes) pages, mappings,
    messages and a processor, and user-level code builds copy-on-write [fork],
    files, descriptors and pipes from them.

    ** The program

    - Boot ([kern/pmap.c], [kern/env.c]): [mem_init] finds the memory, sets up
      [pages], the free list and the kernel's address space; [env_init] sets up
      the table of environments.
    - Memory ([kern/pmap.c]): an allocator of physical pages with reference
      counts, two-level page tables, and the check of user pointers.
    - Environments ([kern/env.c], [kern/sched.c]): creation, destruction and
      round-robin scheduling under one kernel lock ([kern/spinlock.c]).
    - Traps and system calls ([kern/trap.c], [kern/syscall.c]): the entry from
      user mode, page faults passed to a user-level handler, the calls.
    - Devices ([kern/console.c], [kern/e1000.c], [fs/ide.c], [kern/time.c]).
    - User-level systems: the file server ([fs/]) with its block cache, and the
      library ([lib/]) with the system call stubs, [fork], descriptors, files,
      pipes, strings and formatted output.
    - The network server ([net/]) with the stack lwIP ([net/lwip/]), of which
      the memory management, packet buffers, checksums and addresses are here,
      and the threads, semaphores and mailboxes below it ([net/lwip/jos/arch/]).

    ** The files

    - [Prelude]: integers of machine width, bit operations, generic lemmas.
    - [Console], [E1000]: the console with its input buffer, screen and
      keyboard, and the driver of the network card with its descriptor rings,
      run against a model of the card.
    - [LibString], [Printf]: [lib/string.c] over byte memory; [lib/printfmt.c]
      and [vsnprintf].
    - [Inet], [InetSpec]: byte order, addresses as text, broadcast addresses and
      Internet checksums ([net/lwip/core/ipv4/]).
    - [Bytes]: words in byte memory.  [LwipMem]: the heap [mem.c] and the pools
      [memp.c] of [net/lwip/core/], in the monad [NetM] over the bytes of the
      server ([NRet] a value, [NPanic] a failed assertion, [NSpin] no end).
      [LwipMemSpec], [LwipPool]: the heap as a map of objects, the pools as sets
      of elements.
    - [Pbuf], [PbufSpec], [PbufHeap]: [net/lwip/core/pbuf.c], chains of buffers
      as packets, and their life in the heap.
    - [Mmu]: constants and address arithmetic of [inc/mmu.h],
      [inc/memlayout.h], [inc/types.h].
    - [Thread], [ThreadSpec]: the cooperative threads of [thread.c] and
      [threadq.h], in the monad [ThreadM] over queues and contexts; a jump
      buffer is the place where its thread goes on.
    - [SysArch], [SysArchSpec]: semaphores and mailboxes of [sys_arch.c] on
      these threads, in the monad [SysM]; the operations are divided where a
      thread yields, and a step relation interleaves them.
    - [BlockCache], [BlockCacheSpec]: [fs/bc.c] and [fs/ide.c], and the proof
      that the cache is a memory with a durable part.
    - [Fs], [FsSpec]: [fs/fs.c]: bitmap, blocks, directories, reading, writing.
      [FsDir]: paths as walks in a tree of directories; [FsInit]: [fs_init] on
      a disk with a file system.
    - [Format], [FormatSpec]: the image builder [fs/fsformat.c] in a monad
      [HostM] over the image, and that the server serves what it built.
    - [Serv], [FileLib], [FileSpec]: the server [fs/serv.c], the client side
      [lib/file.c] and [lib/fd.c], and what a client observes.
    - [Pipe]: [devpipe_read] and [devpipe_write] of [lib/pipe.c] as programs of
      single memory accesses, interleaved by a step relation.
    - [Machine]: the kernel state as the record [kstate] (physical memory,
      [pages], [envs], CPUs with [%cr3] and TLB, lock, devices), the monad [K]
      of kernel code ([Ret] a value, or [Exit]: panic, entering user mode,
      halting, ...), memory accesses through the page tables of [%cr3].
    - [KernLib], [Spinlock]: bytes, [memcpy], [cprintf], the clock; the lock.
    - [PageAlloc], [PageTable], [FreeList]: [kern/pmap.c], one definition per
      function.  [Vm]: the invariant [vm_inv] (every reference count is the
      number of uses, page tables are private) and the abstract address space
      [vmap].  [VmSpec], [UserMem], [UserAccess]: the page-table operations and
      the check of user pointers against it.
    - [Env], [EnvVm], [EnvInv], [EnvSpec]: [kern/env.c] and the system
      invariant [sys_inv] (environments own their directories, free lists are
      exact, identifiers are unique).
    - [Boot], [BootSpec]: [mem_init], and that boot establishes [sys_inv].
    - [Stab]: the symbol search of [kern/kdebug.c].
    - [Sched], [SchedSpec], [Syscall], [SyscallSpec], [Trap], [TrapSpec]: the
      scheduler, every system call and its dispatcher, and the trap handler.
    - [UserLib], [ForkSpec]: user code in the monad [U] over the kernel model
      (a user access goes through the page table, a fault is a value); the
      stubs of [lib/syscall.c], [lib/pgfault.c] and [lib/fork.c].
    - [UserSteps], [PipeLib]: single steps of a running program; the descriptor
      table as pages of the address space, [pipe], [close] and [dup] of
      [lib/pipe.c] and [lib/fd.c].

    ** The theorems

    - Page tables refine abstract address spaces with exact reference counts;
      what [user_mem_check] accepts can be accessed.
    - [sys_inv] holds after boot and is kept by creating, destroying and
      scheduling environments, by the memory and message calls, and by traps;
      each operation is described on all its branches, failures included.
    - A clock interrupt continues in some runnable environment; a page fault
      runs the handler with the registers saved; a fatal trap destroys the
      environment completely.
    - [fork] gives the child a copy-on-write image, the page-fault handler
      makes pages private, and nobody else is affected.
    - [pipe] and [dup] are done completely or not at all, and a closed end is
      noticed by the other one.
    - The lock excludes, the pipe and the rings of the network card keep their
      order, in every interleaving.
    - The cache refines a memory with a disk; files read back what was written,
      down from a descriptor through the server; allocation is exact; the
      files of an image that [fsformat] built are opened and read back.
    - Strings, formatting and symbol search against reference definitions.
    - The heap of lwIP refines a map of objects, its pools lose no element, the
      checksums are those of RFC 1071 however a packet is divided, and packets
      are copied, joined, allocated and freed byte for byte.
    - Threads take turns; in every interleaving a mailbox is a queue of at most
      32 messages and no operation that has begun panics or faults; a thread
      that waits for a message without a limit fetches it when it is resumed.
      Assumed of the threads' own code ([allowed]): semaphores that belong to
      mailboxes are used by the mailbox operations only, and nothing is freed
      while a thread waits for it.  The clock never goes back and stays below
      2^32 - 1 ms.

    Several theorems record behaviour that the comments of the code exclude;
    they are stated as the code behaves.

    ** Bounds and fuel

    Loops over a fixed range are recursions over a list or a number of pages.
    Loops over links and loops that wait carry fuel; running out of it is the
    separate result [SpinForever] (or [None]), and the theorems show that the
    fuel given suffices: the number of pages for the free list, [NENV] for the
    scheduler, the length of a string for string functions, twice the region
    for the symbol search, the number of blocks that fit into the heap of lwIP
    for walks in it, 100000 for chains of buffers, which are fewer.  Physical memory has at most 65536 pages (256 MB),
    the direct map's size.  Theorems about pipes are for less than 2^31 bytes,
    after which the code's [int] positions overflow.

    ** Not modelled

    - The self-tests [check_page_alloc], [check_page], [check_kern_pgdir],
      [check_page_installed_pgdir] of [mem_init], and [fs/test.c].
    - Assembly ([boot/boot.S], [kern/entry.S], [kern/mpentry.S],
      [lib/pfentry.S], [lib/entry.S]), the boot loader [boot/main.c], and the
      table [kern/entrypgdir.c]: their effect is the initial state.
    - Starting and interrupting other CPUs and the buses ([kern/mpconfig.c],
      [kern/lapic.c], [kern/picirq.c], [kern/pci.c], [kern/init.c]): port and
      memory-mapped I/O with devices only.
    - The kernel monitor [kern/monitor.c].
    - In [lib/]: [spawn], [malloc], [ipc], sockets, console device, arguments
      and [readline]; they use the modelled calls only.
    - Of the network server: its main program and network interface
      ([net/*.c], [net/lwip/jos/jif/]), the timeouts of [core/sys.c], and the
      protocols above packet buffers (ARP, IP, ICMP, UDP, TCP, DHCP and the
      interfaces for programs).
    - The programs in [user/].
    - Earlier copies of files kept in the tree ([fs/fs_m.c], [kern/env_g.c],
      [kern/e1000_m.c], [temp 2/]). *)

From Stdlib Require Export ZArith Lia.
From stdpp Require Export base tactics option list gmap strings numbers.

Global Open Scope Z_scope.

(** ** Machine integers

    A [w]-bit unsigned integer is a [Z] in [[0, 2^w)]; every C operation that
    can leave the range is written with its wrap-around. *)

Definition u32 (x : Z) : Z := x mod 4294967296.
Definition u16 (x : Z) : Z := x mod 65536.
Definition u8 (x : Z) : Z := x mod 256.

(** The [int] with the same 32 bits as [x]. *)
Definition s32 (x : Z) : Z :=
  let y := u32 x in if y <? 2147483648 then y else y - 4294967296.

(** [x & m] used as a condition. *)
Definition hasbits (x m : Z) : bool := negb (Z.land x m =? 0).

Declare Scope c_scope.
Infix ".&" := Z.land (at level 40, left associativity) : c_scope.
Infix ".|" := Z.lor (at level 50, left associativity) : c_scope.
Global Open Scope c_scope.

Lemma u32_range x : 0 <= u32 x < 4294967296.
Proof. unfold u32. apply Z.mod_pos_bound. lia. Qed.

Lemma u16_range x : 0 <= u16 x < 65536.
Proof. unfold u16. apply Z.mod_pos_bound. lia. Qed.

Lemma u8_range x : 0 <= u8 x < 256.
Proof. unfold u8. apply Z.mod_pos_bound. lia. Qed.

Lemma u32_small x : 0 <= x < 4294967296 -> u32 x = x.
Proof. intros. unfold u32. apply Z.mod_small. lia. Qed.

Lemma u16_small x : 0 <= x < 65536 -> u16 x = x.
Proof. intros. unfold u16. apply Z.mod_small. lia. Qed.

Lemma u8_small x : 0 <= x < 256 -> u8 x = x.
Proof. intros. unfold u8. apply Z.mod_small. lia. Qed.

Lemma u32_idem x : u32 (u32 x) = u32 x.
Proof. apply u32_small, u32_range. Qed.

Lemma s32_small x : 0 <= x < 2147483648 -> s32 x = x.
Proof.
  intros. unfold s32. rewrite u32_small by lia.
  destruct (Z.ltb_spec x 2147483648); lia.
Qed.

Lemma s32_range x : -2147483648 <= s32 x < 2147483648.
Proof.
  unfold s32. pose proof (u32_range x).
  destruct (Z.ltb_spec (u32 x) 2147483648); lia.
Qed.

(** ** Bits as division and remainder *)

Lemma land_low x n : 0 <= n -> Z.land x (Z.ones n) = x mod 2 ^ n.
Proof. intros. by apply Z.land_ones. Qed.

Lemma land_0xFFF x : Z.land x 4095 = x mod 4096.
Proof. exact (land_low x 12 ltac:(lia)). Qed.

Lemma land_0x3FF x : Z.land x 1023 = x mod 1024.
Proof. exact (land_low x 10 ltac:(lia)). Qed.

Lemma land_lnot_0xFFF x : Z.land x (Z.lnot 4095) = x - x mod 4096.
Proof.
  rewrite <- Z.ldiff_land. change 4095 with (Z.ones 12).
  rewrite Z.ldiff_ones_r by lia. rewrite Z.shiftl_mul_pow2, Z.shiftr_div_pow2 by lia.
  change (2 ^ 12) with 4096. pose proof (Z.div_mod x 4096). lia.
Qed.

Lemma shiftr12 x : Z.shiftr x 12 = x / 4096.
Proof. by rewrite Z.shiftr_div_pow2. Qed.

Lemma shiftr22 x : Z.shiftr x 22 = x / 4194304.
Proof. by rewrite Z.shiftr_div_pow2. Qed.

Lemma shiftl12 x : Z.shiftl x 12 = x * 4096.
Proof. by rewrite Z.shiftl_mul_pow2. Qed.

Lemma shiftl22 x : Z.shiftl x 22 = x * 4194304.
Proof. by rewrite Z.shiftl_mul_pow2. Qed.

(** Bits above [n] of a number below [2^n] are clear. *)
Lemma testbit_small x n i : 0 <= x < 2 ^ n -> 0 <= n <= i -> Z.testbit x i = false.
Proof.
  intros Hx Hi. destruct (Z.eq_dec x 0) as [->|]; [apply Z.bits_0|].
  apply Z.bits_above_log2; [lia|].
  apply Z.lt_le_trans with n; [|lia]. apply Z.log2_lt_pow2; lia.
Qed.

(** A page-aligned address and a value below [4096] have no common bit. *)
Lemma land_page_low p f : 0 <= f < 4096 -> Z.land (p * 4096) f = 0.
Proof.
  intros Hf. apply Z.bits_inj'. intros i Hi. rewrite Z.land_spec, Z.bits_0.
  destruct (Z.lt_ge_cases i 12).
  - change 4096 with (2 ^ 12). by rewrite Z.mul_pow2_bits_low.
  - rewrite (testbit_small f 12 i) by lia. by rewrite andb_false_r.
Qed.

Lemma lor_page_low p f : 0 <= f < 4096 -> Z.lor (p * 4096) f = p * 4096 + f.
Proof.
  intros Hf. pose proof (Z.add_lor_land (p * 4096) f) as H.
  rewrite land_page_low in H by done. lia.
Qed.

Lemma lor_small a b n : 0 <= n -> 0 <= a < 2 ^ n -> 0 <= b < 2 ^ n -> 0 <= Z.lor a b < 2 ^ n.
Proof.
  intros Hn Ha Hb. split; [apply Z.lor_nonneg; lia|].
  destruct (Z.eq_dec (Z.lor a b) 0) as [->|Hz]; [lia|].
  apply Z.log2_lt_pow2; [pose proof (proj2 (Z.lor_nonneg a b)); lia|].
  rewrite Z.log2_lor by lia.
  destruct (Z.eq_dec a 0) as [->|]; destruct (Z.eq_dec b 0) as [->|];
    rewrite ?Z.max_lub_lt_iff.
  - by rewrite Z.lor_0_l in Hz.
  - split; [|apply Z.log2_lt_pow2; lia]. apply Z.le_lt_trans with (Z.log2 b).
    + change (Z.log2 0) with 0. apply Z.log2_nonneg.
    + apply Z.log2_lt_pow2; lia.
  - split; [apply Z.log2_lt_pow2; lia|]. apply Z.le_lt_trans with (Z.log2 a).
    + change (Z.log2 0) with 0. apply Z.log2_nonneg.
    + apply Z.log2_lt_pow2; lia.
  - split; apply Z.log2_lt_pow2; lia.
Qed.

(** ** Rewriting of boolean tests *)

Create HintDb jos.

Ltac bool_prop :=
  repeat match goal with
  | H : context [negb ?b] |- _ => progress (rewrite ?negb_true_iff, ?negb_false_iff in H)
  | H : (_ && _)%bool = true |- _ => apply andb_prop in H as [? ?]
  | H : (_ || _)%bool = false |- _ => apply orb_false_iff in H as [? ?]
  | H : (_ =? _) = true |- _ => apply Z.eqb_eq in H
  | H : (_ =? _) = false |- _ => apply Z.eqb_neq in H
  | H : (_ <? _) = true |- _ => apply Z.ltb_lt in H
  | H : (_ <? _) = false |- _ => apply Z.ltb_ge in H
  | H : (_ <=? _) = true |- _ => apply Z.leb_le in H
  | H : (_ <=? _) = false |- _ => apply Z.leb_gt in H
  end.
