(* ===== verification/Console.v ===== *)
(** * The console ([kern/console.c])

    Keyboard decoding, the circular input buffer fed by the keyboard and
    serial interrupts and drained by [cons_getc], and the text-mode display.
    The devices are queues: bytes waiting at the serial port, scan codes
    waiting at the keyboard controller, and the bytes sent to the serial and
    parallel ports.  The status bit a driver polls for input is set exactly
    when the queue is not empty; the bounded waits for the transmitters have
    no effect of their own. *)

From S2P Require Import Prelude.

Abbreviation CRT_COLS := 80 (only parsing).
Abbreviation CRT_SIZE := 2000 (only parsing).
Abbreviation CONSBUFSIZE := 512 (only parsing).

Abbreviation NO := 0 (only parsing).
Abbreviation SHIFT := 1 (only parsing).
Abbreviation CTL := 2 (only parsing).
Abbreviation ALT := 4 (only parsing).
Abbreviation CAPSLOCK := 8 (only parsing).
Abbreviation NUMLOCK := 16 (only parsing).
Abbreviation SCROLLLOCK := 32 (only parsing).
Abbreviation E0ESC := 64 (only parsing).

Record console := mkCons {
  cons_buf : gmap Z Z; (* [cons.buf] *)
  cons_rpos : Z;
  cons_wpos : Z;
  serial_exists : bool;
  kbd_shift : Z; (* the static [shift] of [kbd_proc_data] *)
  crt_buf : gmap Z Z;
  crt_pos : Z;
  serial_in : list Z; (* waiting at COM1 *)
  kbd_in : list Z; (* waiting at the keyboard controller *)
  serial_out : list Z; (* sent, newest first *)
  lpt_out : list Z;
  rebooted : bool (* port 0x92 was written *)
}.

Definition console0 : console := mkCons ∅ 0 0 true 0 ∅ 0 [] [] [] [] false.

Definition set_input (b : gmap Z Z) (r w : Z) (c : console) : console :=
  mkCons b r w (serial_exists c) (kbd_shift c) (crt_buf c) (crt_pos c) (serial_in c)
    (kbd_in c) (serial_out c) (lpt_out c) (rebooted c).

Definition set_serial_in (l : list Z) (c : console) : console :=
  mkCons (cons_buf c) (cons_rpos c) (cons_wpos c) (serial_exists c) (kbd_shift c) (crt_buf c)
    (crt_pos c) l (kbd_in c) (serial_out c) (lpt_out c) (rebooted c).

Definition set_kbd (sh : Z) (l : list Z) (rb : bool) (c : console) : console :=
  mkCons (cons_buf c) (cons_rpos c) (cons_wpos c) (serial_exists c) sh (crt_buf c)
    (crt_pos c) (serial_in c) l (serial_out c) (lpt_out c) rb.

Definition set_crt (b : gmap Z Z) (p : Z) (c : console) : console :=
  mkCons (cons_buf c) (cons_rpos c) (cons_wpos c) (serial_exists c) (kbd_shift c) b p
    (serial_in c) (kbd_in c) (serial_out c) (lpt_out c) (rebooted c).

Definition set_out (so lo : list Z) (c : console) : console :=
  mkCons (cons_buf c) (cons_rpos c) (cons_wpos c) (serial_exists c) (kbd_shift c) (crt_buf c)
    (crt_pos c) (serial_in c) (kbd_in c) so lo (rebooted c).

(** ** Keyboard maps *)

(** The character codes of a string. *)
Fixpoint codes (s : string) : list Z :=
  match s with
  | EmptyString => []
  | String a s' => Z.of_nat (Ascii.nat_of_ascii a) :: codes s'
  end.

(** A C array with a positional prefix and designated entries, zero elsewhere. *)
Definition table (pre : list Z) (des : list (Z * Z)) (i : Z) : Z :=
  match list_find (λ p : Z * Z, fst p = i) des with
  | Some (_, (_, v)) => v
  | None => if (0 <=? i) then default NO (pre !! Z.to_nat i) else NO
  end.

Definition shiftcode : Z -> Z :=
  table [] [(0x1D, CTL); (0x2A, SHIFT); (0x36, SHIFT); (0x38, ALT); (0x9D, CTL); (0xB8, ALT)].

Definition togglecode : Z -> Z :=
  table [] [(0x3A, CAPSLOCK); (0x45, NUMLOCK); (0x46, SCROLLLOCK)].

(** [KEY_HOME] = 0xE0, [KEY_END] = 0xE1, [KEY_UP] = 0xE2, [KEY_DN] = 0xE3,
    [KEY_LF] = 0xE4, [KEY_RT] = 0xE5, [KEY_PGUP] = 0xE6, [KEY_PGDN] = 0xE7,
    [KEY_INS] = 0xE8, [KEY_DEL] = 0xE9. *)
Definition arrow_keys : list (Z * Z) :=
  [(0xC8, 0xE2); (0xC9, 0xE6); (0xCB, 0xE4); (0xCD, 0xE5); (0xCF, 0xE1);
   (0xD0, 0xE3); (0xD1, 0xE7); (0xD2, 0xE8); (0xD3, 0xE9)].

(** The keypad's part of the first two maps, from 0x3A. *)
Definition keypad : list Z := replicate 13 NO ++ codes "789-456+1230.".

Definition normalmap : Z -> Z :=
  table ([NO; 0x1B] ++ codes "1234567890-=" ++ [8; 9] ++ codes "qwertyuiop[]" ++
         [10; NO] ++ codes "asdfghjkl;'`" ++ [NO] ++ codes "\zxcvbnm,./" ++ [NO] ++ codes "*" ++
         [NO] ++ codes " " ++ keypad)
        ((0xC7, 0xE0) :: (0x9C, 10) :: (0xB5, 47) :: arrow_keys).

Definition shiftmap : Z -> Z :=
  table ([NO; 27] ++ codes "!@#$%^&*()_+" ++ [8; 9] ++ codes "QWERTYUIOP{}" ++
         [10; NO] ++ codes "ASDFGHJKL:" ++ [34] ++ codes "~" ++ [NO] ++ codes "|ZXCVBNM<>?" ++
         [NO] ++ codes "*" ++ [NO] ++ codes " " ++ keypad)
        ((0xC7, 0xE0) :: (0x9C, 10) :: (0xB5, 47) :: arrow_keys).

(** The macro [C(x)], in a [uint8_t]. *)
Definition C (s : string) : list Z := (λ x, u8 (x - 64)) <$> codes s.

Definition ctlmap : Z -> Z :=
  table (replicate 16 NO ++ C "QWERTYUIOP" ++ [NO; NO; 13; NO] ++ C "ASDFGHJKL" ++
         [NO; NO; NO; NO] ++ C "\ZXCVBNM" ++ [NO; NO] ++ C "/" ++ [NO; NO])
        ((0x97, 0xE0) :: (0xB5, u8 (47 - 64)) :: arrow_keys).

(** [charcode[i]] *)
Definition charcode (i : Z) : Z -> Z :=
  if i =? 0 then normalmap else if i =? 1 then shiftmap else ctlmap.

(** ** Input *)

Definition serial_proc_data (c : console) : Z * console :=
  match serial_in c with
  | [] => (-1, c)
  | b :: l => (b, set_serial_in l c)
  end.

(** The shift state and the character of one scan code. *)
Definition kbd_decode (shift data : Z) : Z * Z :=
  if data =? 0xE0 then (0, shift .| E0ESC)
  else if hasbits data 0x80 then
    let data := if hasbits shift E0ESC then data else data .& 0x7F in
    (0, Z.ldiff shift (shiftcode data .| E0ESC))
  else
    let esc := hasbits shift E0ESC in
    let data := if esc then data .| 0x80 else data in
    let shift := if esc then Z.ldiff shift E0ESC else shift in
    let shift := shift .| shiftcode data in
    let shift := Z.lxor shift (togglecode data) in
    let c := charcode (shift .& (CTL .| SHIFT)) data in
    let c :=
      if hasbits shift CAPSLOCK then
        if (97 <=? c) && (c <=? 122) then c - 32
        else if (65 <=? c) && (c <=? 90) then c + 32 else c
      else c in
    (c, shift).

Definition kbd_proc_data (c : console) : Z * console :=
  match kbd_in c with
  | [] => (-1, c)
  | data :: l =>
      let '(ch, shift) := kbd_decode (kbd_shift c) data in
      let pressed := negb (data =? 0xE0) && negb (hasbits data 0x80) in
      let reboot := pressed && (shift .& (CTL .| ALT) =? CTL .| ALT) && (ch =? 0xE9) in
      (ch, set_kbd shift l (rebooted c || reboot) c)
  end.

(** [cons.buf[cons.wpos++] = c], with the wrap. *)
Definition cons_push (ch : Z) (c : console) : console :=
  let w := cons_wpos c + 1 in
  set_input (<[cons_wpos c := u8 ch]> (cons_buf c)) (cons_rpos c)
    (if w =? CONSBUFSIZE then 0 else w) c.

(** The loop of [cons_intr]; every call of [proc] takes one byte from a
    device queue, so the queue's length plus one is fuel enough. *)
Fixpoint cons_intr (fuel : nat) (proc : console -> Z * console) (c : console) : console :=
  match fuel with
  | O => c
  | S n =>
      let '(ch, c') := proc c in
      if ch =? -1 then c'
      else cons_intr n proc (if ch =? 0 then c' else cons_push ch c')
  end.

Definition serial_intr (c : console) : console :=
  if serial_exists c then cons_intr (S (length (serial_in c))) serial_proc_data c else c.

Definition kbd_intr (c : console) : console :=
  cons_intr (S (length (kbd_in c))) kbd_proc_data c.

Definition cons_getc (c : console) : Z * console :=
  let c := kbd_intr (serial_intr c) in
  if negb (cons_rpos c =? cons_wpos c) then
    let r := cons_rpos c + 1 in
    (default 0 (cons_buf c !! cons_rpos c),
     set_input (cons_buf c) (if r =? CONSBUFSIZE then 0 else r) (cons_wpos c) c)
  else (0, c).

(** ** Output *)

Definition serial_putc (ch : Z) (c : console) : console :=
  set_out (u8 ch :: serial_out c) (lpt_out c) c.

Definition lpt_putc (ch : Z) (c : console) : console :=
  set_out (serial_out c) (u8 ch :: lpt_out c) c.

(** Scrolling: the rows move up and the last row is blanked. *)
Definition crt_scroll (b : gmap Z Z) : gmap Z Z :=
  list_to_map ((λ i, (i, if i <? CRT_SIZE - CRT_COLS then default 0 (b !! (i + CRT_COLS))
                         else 0x0720)) <$> seqZ 0 CRT_SIZE).

(** [cga_putc]; [tab] is what a tab does. *)
Definition cga_putc_with (tab : console -> console) (ch : Z) (c : console) : console :=
  let ch := if Z.ldiff ch 0xFF =? 0 then ch .| 0x0700 else ch in
  let k := ch .& 0xff in
  let c :=
    if k =? 8 then
      if 0 <? crt_pos c then
        set_crt (<[crt_pos c - 1 := Z.ldiff ch 0xff .| 32]> (crt_buf c)) (crt_pos c - 1) c
      else c
    else if (k =? 10) || (k =? 13) then
      let p := if k =? 10 then u16 (crt_pos c + CRT_COLS) else crt_pos c in
      set_crt (crt_buf c) (u16 (p - p mod CRT_COLS)) c
    else if k =? 9 then tab c
    else set_crt (<[crt_pos c := u16 ch]> (crt_buf c)) (u16 (crt_pos c + 1)) c in
  if CRT_SIZE <=? crt_pos c then
    set_crt (crt_scroll (crt_buf c)) (u16 (crt_pos c - CRT_COLS)) c
  else c.

Definition cons_putc_with (tab : console -> console) (ch : Z) (c : console) : console :=
  cga_putc_with tab ch (lpt_putc ch (serial_putc ch c)).

(** [cons_putc(' ')] prints a character that is no tab. *)
Definition cons_putc_space : console -> console := cons_putc_with id 32.

Definition tab5 (c : console) : console :=
  cons_putc_space (cons_putc_space (cons_putc_space (cons_putc_space (cons_putc_space c)))).

Definition cga_putc : Z -> console -> console := cga_putc_with tab5.

Definition cons_putc (ch : Z) (c : console) : console := cons_putc_with tab5 ch c.

Definition cputchar (ch : Z) (c : console) : console := cons_putc ch c.

(** ** The input buffer is a queue *)

Definition cons_wf (c : console) : Prop :=
  0 <= cons_rpos c < CONSBUFSIZE /\ 0 <= cons_wpos c < CONSBUFSIZE.

(** The characters waiting, oldest first. *)
Definition cons_queue (c : console) : list Z :=
  (λ i, default 0 (cons_buf c !! ((cons_rpos c + i) mod CONSBUFSIZE))) <$>
    seqZ 0 ((cons_wpos c - cons_rpos c) mod CONSBUFSIZE).

Definition cons_room (c : console) : Z :=
  CONSBUFSIZE - 1 - (cons_wpos c - cons_rpos c) mod CONSBUFSIZE.

Lemma cons_queue_length c : Z.of_nat (length (cons_queue c)) = CONSBUFSIZE - 1 - cons_room c.
Proof.
  unfold cons_queue, cons_room. rewrite length_fmap, length_seqZ.
  pose proof (Z.mod_pos_bound (cons_wpos c - cons_rpos c) 512). lia.
Qed.

Lemma wrap_mod w : 0 <= w < CONSBUFSIZE -> (if w + 1 =? CONSBUFSIZE then 0 else w + 1) = (w + 1) mod CONSBUFSIZE.
Proof.
  intros. destruct (Z.eqb_spec (w + 1) CONSBUFSIZE) as [->|]; [done|].
  rewrite Z.mod_small; lia.
Qed.

Lemma cons_push_wf ch c : cons_wf c -> cons_wf (cons_push ch c).
Proof.
  intros [Hr Hw]. split; simpl; [done|]. rewrite wrap_mod by done. by apply Z.mod_pos_bound.
Qed.

Lemma seqZ_snoc m n : 0 <= n -> seqZ m (n + 1) = seqZ m n ++ [m + n].
Proof. intros. rewrite seqZ_app by lia. f_equal. Qed.

(** Where the next character goes. *)
Lemma wpos_next c : cons_wf c ->
  (cons_rpos c + (cons_wpos c - cons_rpos c) mod CONSBUFSIZE) mod CONSBUFSIZE = cons_wpos c.
Proof.
  intros [Hr Hw]. rewrite Z.add_mod_idemp_r by lia.
  replace (cons_rpos c + (cons_wpos c - cons_rpos c)) with (cons_wpos c) by lia.
  apply Z.mod_small. lia.
Qed.

Lemma cons_push_queue ch c :
  cons_wf c -> 0 < cons_room c ->
  cons_queue (cons_push ch c) = cons_queue c ++ [u8 ch] /\
  cons_room (cons_push ch c) = cons_room c - 1.
Proof.
  intros Hwf Hroom. pose proof (wpos_next c Hwf) as Hnext. destruct Hwf as [Hr Hw].
  set (n := (cons_wpos c - cons_rpos c) mod CONSBUFSIZE).
  pose proof (Z.mod_pos_bound (cons_wpos c - cons_rpos c) 512 ltac:(lia)) as Hn. fold n in Hn, Hnext.
  assert (Hn' : (cons_wpos (cons_push ch c) - cons_rpos c) mod CONSBUFSIZE = n + 1).
  { simpl. rewrite wrap_mod by done. rewrite Zminus_mod_idemp_l.
    replace (cons_wpos c + 1 - cons_rpos c) with (cons_wpos c - cons_rpos c + 1) by lia.
    rewrite <- Zplus_mod_idemp_l. fold n. apply Z.mod_small. unfold cons_room in Hroom. fold n in Hroom. lia. }
  split; [|unfold cons_room; change (cons_rpos (cons_push ch c)) with (cons_rpos c); rewrite Hn'; fold n; lia].
  unfold cons_queue. change (cons_rpos (cons_push ch c)) with (cons_rpos c). rewrite Hn'. fold n.
  rewrite seqZ_snoc by lia. rewrite fmap_app. f_equal.
  - apply list_fmap_ext. intros i j Hj. apply list_elem_of_lookup_2 in Hj. apply elem_of_seqZ in Hj.
    simpl. rewrite lookup_insert_ne; [done|]. intros E. rewrite <- Hnext in E.
    apply (f_equal (λ x, (x - cons_rpos c) mod 512)) in E. rewrite !Zminus_mod_idemp_l in E.
    
    unfold cons_room in Hroom. fold n in Hroom.
    replace (cons_rpos c + n - cons_rpos c) with n in E by lia.
    replace (cons_rpos c + j - cons_rpos c) with j in E by lia.
    rewrite !Z.mod_small in E by lia. lia.
  - simpl. change (match n with 0 => 0 | Z.pos y => Z.pos y | Z.neg y => Z.neg y end) with (0 + n).
    rewrite Z.add_0_l, Hnext, lookup_insert_eq. done.
Qed.

Definition cons_pushes (l : list Z) (c : console) : console := fold_left (λ c ch, cons_push ch c) l c.

Lemma cons_pushes_queue l : forall c,
  cons_wf c -> Z.of_nat (length l) <= cons_room c ->
  cons_wf (cons_pushes l c) /\ cons_queue (cons_pushes l c) = cons_queue c ++ (u8 <$> l).
Proof.
  induction l as [|ch l IH]; intros c Hwf Hl; simpl; [by rewrite app_nil_r|].
  simpl in Hl. destruct (cons_push_queue ch c Hwf ltac:(lia)) as [Hq Hr].
  destruct (IH (cons_push ch c)) as [H1 H2]; [by apply cons_push_wf|lia|].
  split; [done|]. rewrite H2, Hq, <- app_assoc. done.
Qed.

Lemma cons_intr_S n proc c :
  cons_intr (S n) proc c =
    let '(ch, c') := proc c in
    if ch =? -1 then c' else cons_intr n proc (if ch =? 0 then c' else cons_push ch c').
Proof. done. Qed.

(** [cons_intr] empties the serial port into the buffer. *)
Lemma cons_intr_serial l : forall c,
  serial_in c = l -> Forall (λ b, 0 <= b < 256) l ->
  cons_intr (S (length l)) serial_proc_data c =
    cons_pushes (filter (λ b, b <> 0) l) (set_serial_in [] c).
Proof.
  induction l as [|b l IH]; intros c Hs Hl.
  - simpl. unfold serial_proc_data. rewrite Hs. simpl. by destruct c; simpl in *; subst.
  - apply list.Forall_cons in Hl as [Hb Hl]. rewrite cons_intr_S. cbn [length].
    replace (serial_proc_data c) with (b, set_serial_in l c) by (unfold serial_proc_data; by rewrite Hs).
    cbv iota beta. destruct (Z.eqb_spec b (-1)); [lia|]. destruct (Z.eqb_spec b 0) as [->|Hn].
    + rewrite filter_cons_False by (intros []; done). by rewrite IH.
    + rewrite filter_cons_True by done. by rewrite IH.
Qed.

Lemma u8_bytes l : Forall (λ b, 0 <= b < 256) l -> u8 <$> l = l.
Proof. induction 1; simpl; [done|]. rewrite u8_small by done. by f_equal. Qed.

Lemma cons_pop_queue c :
  cons_wf c ->
  match cons_queue c with
  | [] => cons_rpos c = cons_wpos c
  | ch :: q =>
      cons_rpos c <> cons_wpos c /\ default 0 (cons_buf c !! cons_rpos c) = ch /\
      forall r, r = (cons_rpos c + 1) mod CONSBUFSIZE ->
        cons_queue (set_input (cons_buf c) r (cons_wpos c) c) = q
  end.
Proof.
  intros [Hr Hw]. unfold cons_queue at 1.
  pose proof (Z.mod_pos_bound (cons_wpos c - cons_rpos c) 512 ltac:(lia)) as Hn.
  destruct (decide (cons_rpos c = cons_wpos c)) as [E|E].
  - rewrite E, Z.sub_diag. done.
  - set (n := (cons_wpos c - cons_rpos c) mod CONSBUFSIZE) in *.
    assert (n <> 0).
    { intros E0. pose proof (wpos_next c (conj Hr Hw)) as Hx. fold n in Hx.
      rewrite E0, Z.add_0_r, Z.mod_small in Hx by lia. done. }
    rewrite seqZ_cons by lia. simpl. rewrite Z.add_0_r, Z.mod_small by lia. split; [done|].
    split; [done|]. intros r ->. unfold cons_queue. simpl.
    assert ((cons_wpos c - (cons_rpos c + 1) mod CONSBUFSIZE) mod CONSBUFSIZE = Z.pred n) as ->.
    { rewrite Zminus_mod_idemp_r. replace (cons_wpos c - (cons_rpos c + 1))
        with (cons_wpos c - cons_rpos c + -1) by lia.
      rewrite <- Zplus_mod_idemp_l. fold n. rewrite Z.mod_small; lia. }
    change (Z.succ 0) with (1 + 0). rewrite <- (fmap_add_seqZ 1 0), <- list_fmap_compose.
    apply list_fmap_ext. intros i j _. unfold compose. rewrite Z.add_mod_idemp_l by lia.
    by rewrite Z.add_assoc.
Qed.

Lemma serial_intr_queue c :
  cons_wf c -> serial_exists c = true -> Forall (λ b, 0 <= b < 256) (serial_in c) ->
  Z.of_nat (length (filter (λ b, b <> 0) (serial_in c))) <= cons_room c ->
  cons_wf (serial_intr c) /\
  cons_queue (serial_intr c) = cons_queue c ++ filter (λ b, b <> 0) (serial_in c).
Proof.
  intros Hwf He Hb Hl. unfold serial_intr. rewrite He, (cons_intr_serial (serial_in c)) by done.
  destruct (cons_pushes_queue (filter (λ b, b <> 0) (serial_in c)) (set_serial_in [] c) Hwf Hl)
    as [H1 H2].
  split; [done|]. rewrite H2, u8_bytes; [done|].
  rewrite list.Forall_forall in *. intros b [_ Hin]%list_elem_of_filter. by apply Hb.
Qed.

Lemma cons_pushes_frame l c :
  kbd_in (cons_pushes l c) = kbd_in c /\ serial_in (cons_pushes l c) = serial_in c /\
  cons_rpos (cons_pushes l c) = cons_rpos c.
Proof.
  revert c. induction l as [|ch l IH]; intros c; [done|].
  simpl. destruct (IH (cons_push ch c)) as (-> & -> & ->). done.
Qed.

Lemma serial_intr_frame c :
  serial_exists c = true -> Forall (λ b, 0 <= b < 256) (serial_in c) ->
  kbd_in (serial_intr c) = kbd_in c /\ serial_in (serial_intr c) = [] /\
  cons_rpos (serial_intr c) = cons_rpos c.
Proof.
  intros He Hb. unfold serial_intr. rewrite He, (cons_intr_serial (serial_in c)) by done.
  destruct (cons_pushes_frame (filter (λ b, b <> 0) (serial_in c)) (set_serial_in [] c))
    as (-> & -> & ->). done.
Qed.

Lemma kbd_intr_idle c : kbd_in c = [] -> kbd_intr c = c.
Proof. intros H. unfold kbd_intr. rewrite H. simpl. unfold kbd_proc_data. by rewrite H. Qed.

(** Pushing more than fits: the write position only counts modulo the size. *)
Lemma cons_pushes_wpos l : forall c,
  cons_wf c ->
  cons_wpos (cons_pushes l c) = (cons_wpos c + Z.of_nat (length l)) mod CONSBUFSIZE.
Proof.
  induction l as [|ch l IH]; intros c Hwf.
  - simpl. rewrite Z.add_0_r, Z.mod_small; [done|apply Hwf].
  - cbn [cons_pushes fold_left]. change (fold_left _ l ?x) with (cons_pushes l x).
    rewrite IH by (by apply cons_push_wf). cbn [cons_wpos cons_push set_input].
    rewrite wrap_mod by apply Hwf. rewrite Z.add_mod_idemp_l by lia. f_equal. simpl. lia.
Qed.

(** ** The display *)

Definition crt_wf (c : console) : Prop :=
  0 <= crt_pos c < CRT_SIZE /\ forall i, is_Some (crt_buf c !! i) -> 0 <= i < CRT_SIZE.

Lemma list_to_map_fmap_dom (f : Z -> Z) l i :
  is_Some ((list_to_map ((λ i, (i, f i)) <$> l) : gmap Z Z) !! i) -> i ∈ l.
Proof.
  intros [x Hx]. apply elem_of_list_to_map_2 in Hx.
  by apply list_elem_of_fmap in Hx as (j & [= -> _] & Hj).
Qed.

Lemma crt_scroll_dom b i : is_Some (crt_scroll b !! i) -> 0 <= i < CRT_SIZE.
Proof. intros H. apply list_to_map_fmap_dom, elem_of_seqZ in H. lia. Qed.

(** The end of [cga_putc] brings a position on the line below the last back. *)
Lemma crt_scroll_wf c :
  0 <= crt_pos c < CRT_SIZE + CRT_COLS ->
  (forall i, is_Some (crt_buf c !! i) -> 0 <= i < CRT_SIZE) ->
  crt_wf (if CRT_SIZE <=? crt_pos c then
            set_crt (crt_scroll (crt_buf c)) (u16 (crt_pos c - CRT_COLS)) c else c).
Proof.
  intros Hp Hb. destruct (Z.leb_spec CRT_SIZE (crt_pos c)).
  - split; simpl; [rewrite u16_small by lia; lia|]. apply crt_scroll_dom.
  - split; [lia|done].
Qed.

Lemma cga_putc_with_wf tab ch c :
  (forall c, crt_wf c -> crt_wf (tab c)) -> crt_wf c -> crt_wf (cga_putc_with tab ch c).
Proof.
  intros Ht [Hp Hb]. unfold cga_putc_with. cbv zeta.
  assert (Hin : forall p v, 0 <= p < CRT_SIZE -> forall i,
            is_Some (<[p := v]> (crt_buf c) !! i) -> 0 <= i < CRT_SIZE).
  { intros p v Hp' i. destruct (decide (p = i)) as [->|]; [done|]. rewrite lookup_insert_ne by done. auto. }
  set (k := _ .& 0xff). destruct (k =? 8); [|destruct ((k =? 10) || (k =? 13)); [|destruct (k =? 9)]].
  - destruct (Z.ltb_spec 0 (crt_pos c)); apply crt_scroll_wf; simpl; try lia; [apply Hin; lia|done].
  - apply crt_scroll_wf; [|done]. simpl.
    destruct (k =? 10); rewrite ?(u16_small (crt_pos c + 80)) by lia.
    + pose proof (Z.mod_pos_bound (crt_pos c + 80) 80). pose proof (Z.mod_le (crt_pos c + 80) 80).
      rewrite u16_small; lia.
    + pose proof (Z.mod_pos_bound (crt_pos c) 80). pose proof (Z.mod_le (crt_pos c) 80).
      rewrite u16_small; lia.
  - destruct (Ht c (conj Hp Hb)) as [Hp' Hb']. apply crt_scroll_wf; [lia|done].
  - apply crt_scroll_wf; simpl; [rewrite u16_small; lia|]. apply Hin. lia.
Qed.

Lemma cons_putc_wf ch c : crt_wf c -> crt_wf (cons_putc ch c).
Proof.
  assert (Hs : forall tab ch c, (forall c, crt_wf c -> crt_wf (tab c)) -> crt_wf c ->
            crt_wf (cons_putc_with tab ch c)).
  { intros tab ch' c' Ht Hc. by apply cga_putc_with_wf. }
  intros Hc. apply Hs; [|done]. intros c' Hc'. unfold tab5, cons_putc_space. by repeat apply Hs.
Qed.

(** ** Properties *)

(** The console input buffer is a first-in first-out queue of 511
    characters.  As long as the characters waiting at the serial port fit,
    [cons_getc] takes all of them into the queue in order, without NULs, and
    returns the oldest character; it returns 0 only when none is waiting. *)
Theorem cons_getc_fifo c :
  cons_wf c -> serial_exists c = true -> kbd_in c = [] ->
  Forall (λ b, 0 <= b < 256) (serial_in c) ->
  Z.of_nat (length (filter (λ b, b <> 0) (serial_in c))) <= cons_room c ->
  exists ch c', cons_getc c = (ch, c') /\ cons_wf c' /\ serial_in c' = [] /\
    match cons_queue c ++ filter (λ b, b <> 0) (serial_in c) with
    | [] => ch = 0 /\ cons_queue c' = []
    | ch0 :: q => ch = ch0 /\ cons_queue c' = q
    end.
Proof.
  intros Hwf He Hk Hb Hl. destruct (serial_intr_queue c Hwf He Hb Hl) as [Hwf' Hq].
  destruct (serial_intr_frame c He Hb) as (Hk' & Hs' & _). rewrite <- Hq.
  unfold cons_getc. rewrite kbd_intr_idle by congruence.
  pose proof (cons_pop_queue _ Hwf') as Hp. cbv zeta.
  destruct (cons_queue (serial_intr c)) as [|ch q] eqn:Eq.
  - rewrite Hp, Z.eqb_refl. simpl. eexists _, _. done.
  - destruct Hp as (Hne & Hch & Hq'). apply Z.eqb_neq in Hne. rewrite Hne. simpl.
    eexists _, _. split; [done|]. rewrite wrap_mod by apply Hwf'. split; [|split; [done|split; [done|by apply Hq']]].
    destruct Hwf' as [Hr Hw]. split; simpl; [by apply Z.mod_pos_bound|done].
Qed.

Lemma cons_getc_fifo_witness :
  exists c', cons_getc (set_serial_in (codes "hi") console0) = (104, c') /\ cons_queue c' = [105].
Proof.
  destruct (cons_getc_fifo (set_serial_in (codes "hi") console0)) as (ch & c' & H1 & _ & _ & H2 & H3);
    [split; vm_compute; intuition congruence|reflexivity|reflexivity| |vm_compute; congruence|].
  - repeat constructor; vm_compute; congruence.
  - exists c'. rewrite H1. split; [f_equal; exact H2|exact H3].
Defined.

(** The buffer has no test for being full: 512 characters that arrive
    between two reads of an empty buffer are all lost, and [cons_getc]
    returns 0 as if there were no input. *)
Theorem cons_buffer_overflow c :
  cons_wf c -> serial_exists c = true -> kbd_in c = [] -> cons_queue c = [] ->
  Forall (λ b, 0 <= b < 256) (serial_in c) ->
  length (filter (λ b, b <> 0) (serial_in c)) = 512%nat ->
  exists c', cons_getc c = (0, c') /\ serial_in c' = [] /\ cons_queue c' = [].
Proof.
  intros Hwf He Hk Hq Hb Hl. destruct (serial_intr_frame c He Hb) as (Hk' & Hs' & Hr').
  assert (Hw : cons_wpos (serial_intr c) = cons_wpos c).
  { unfold serial_intr. rewrite He, (cons_intr_serial (serial_in c)) by done.
    rewrite cons_pushes_wpos by done. rewrite Hl. change (Z.of_nat 512) with (1 * 512).
    rewrite Z.mod_add by lia. apply Z.mod_small. apply Hwf. }
  pose proof (cons_pop_queue c Hwf) as Hp. rewrite Hq in Hp.
  unfold cons_getc. rewrite kbd_intr_idle by congruence. cbv zeta.
  rewrite Hr', Hw, Hp, Z.eqb_refl. simpl. eexists. split; [done|]. split; [done|].
  unfold cons_queue. by rewrite Hw, Hr', Hp, Z.sub_diag.
Qed.

Lemma cons_buffer_overflow_witness :
  exists c', cons_getc (set_serial_in (replicate 512 97) console0) = (0, c') /\
    serial_in c' = [] /\ cons_queue c' = [].
Proof.
  apply cons_buffer_overflow; try reflexivity.
  - split; vm_compute; intuition congruence.
  - cbn [serial_in set_serial_in]. apply list.Forall_forall. intros x Hx.
    apply elem_of_replicate_inv in Hx. subst x. lia.
Defined.

(** Whatever is printed, the cursor stays on the screen and every write
    to the display memory is inside its 25 by 80 cells. *)
Theorem cons_putc_on_screen l c :
  crt_wf c -> crt_wf (fold_left (λ c ch, cputchar ch c) l c).
Proof.
  revert c. induction l as [|ch l IH]; intros c Hc; [done|]. apply IH. by apply cons_putc_wf.
Qed.

Lemma cons_putc_on_screen_witness : crt_wf (fold_left (λ c ch, cputchar ch c) [9; 10; 65; 8] console0).
Proof.
  apply (cons_putc_on_screen [9; 10; 65; 8] console0). split; [vm_compute; intuition congruence|].
  intros i Hx. change (is_Some ((∅ : gmap Z Z) !! i)) in Hx. rewrite lookup_empty in Hx.
  destruct Hx as [x Hx]. discriminate Hx.
Defined.
