(* ===== verification/LibString.v ===== *)
(** * String routines ([lib/string.c])

    The library is linked into the kernel and into every user program.  The
    memory of the program is a function from addresses to bytes; a pointer is
    an address, and pointer arithmetic stays within the address space, as C
    requires.  The loops that look for a terminating NUL take fuel, the
    theorems show that one more unit than the length of the string suffices. *)

From S2P Require Import Prelude.

Definition bmem := Z -> Z.

Definition put (a v : Z) (m : bmem) : bmem := λ b, if b =? a then v else m b.

(** The value of a [char], which is signed. *)
Definition schar (b : Z) : Z := if b <? 128 then b else b - 256.

(** ** Strings *)

Fixpoint strlen_loop (fuel : nat) (m : bmem) (s n : Z) : option Z :=
  match fuel with
  | O => None
  | S f => if m s =? 0 then Some n else strlen_loop f m (s + 1) (s32 (n + 1))
  end.

Definition strlen (fuel : nat) (m : bmem) (s : Z) : option Z := strlen_loop fuel m s 0.

Fixpoint strnlen_loop (size : nat) (m : bmem) (s n : Z) : Z :=
  match size with
  | O => n
  | S size' => if m s =? 0 then n else strnlen_loop size' m (s + 1) (s32 (n + 1))
  end.

Definition strnlen (m : bmem) (s size : Z) : Z := strnlen_loop (Z.to_nat size) m s 0.

Fixpoint strcpy_loop (fuel : nat) (m : bmem) (dst src : Z) : option bmem :=
  match fuel with
  | O => None
  | S f =>
      let c := m src in
      let m := put dst c m in
      if c =? 0 then Some m else strcpy_loop f m (dst + 1) (src + 1)
  end.

Definition strcpy (fuel : nat) (m : bmem) (dst src : Z) : option bmem := strcpy_loop fuel m dst src.

Definition strcat (fuel : nat) (m : bmem) (dst src : Z) : option bmem :=
  len ← strlen fuel m dst;
  strcpy fuel m (dst + len) src.

Fixpoint strncpy_loop (n : nat) (m : bmem) (dst src : Z) : bmem :=
  match n with
  | O => m
  | S n' =>
      let m := put dst (m src) m in
      strncpy_loop n' m (dst + 1) (if m src =? 0 then src else src + 1)
  end.

Definition strncpy (m : bmem) (dst src size : Z) : bmem := strncpy_loop (Z.to_nat size) m dst src.

(** The copying loop of [strlcpy], [n] characters left; the final [dst]. *)
Fixpoint strlcpy_loop (n : nat) (m : bmem) (dst src : Z) : bmem * Z :=
  match n with
  | O => (m, dst)
  | S n' => if m src =? 0 then (m, dst) else strlcpy_loop n' (put dst (m src) m) (dst + 1) (src + 1)
  end.

Definition strlcpy (m : bmem) (dst src size : Z) : bmem * Z :=
  if 0 <? size then
    let '(m, d) := strlcpy_loop (Z.to_nat (size - 1)) m dst src in
    (put d 0 m, d - dst)
  else (m, 0).

Fixpoint strcmp (fuel : nat) (m : bmem) (p q : Z) : option Z :=
  match fuel with
  | O => None
  | S f =>
      if negb (m p =? 0) && (m p =? m q) then strcmp f m (p + 1) (q + 1) else Some (m p - m q)
  end.

Fixpoint strncmp_loop (n : nat) (m : bmem) (p q : Z) : Z :=
  match n with
  | O => 0
  | S n' => if negb (m p =? 0) && (m p =? m q) then strncmp_loop n' m (p + 1) (q + 1) else m p - m q
  end.

Definition strncmp (m : bmem) (p q n : Z) : Z := strncmp_loop (Z.to_nat n) m p q.

Fixpoint strchr (fuel : nat) (m : bmem) (s c : Z) : option Z :=
  match fuel with
  | O => None
  | S f => if m s =? 0 then Some 0 else if m s =? c then Some s else strchr f m (s + 1) c
  end.

Fixpoint strfind (fuel : nat) (m : bmem) (s c : Z) : option Z :=
  match fuel with
  | O => None
  | S f => if m s =? 0 then Some s else if m s =? c then Some s else strfind f m (s + 1) c
  end.

(** ** Memory blocks *)

(** [rep stosb] and [rep stosl]: [n] stores of [w] bytes, upwards; [c] is the
    value of the register, stored with its low byte first. *)
Fixpoint store_le (w : nat) (m : bmem) (a c : Z) : bmem :=
  match w with
  | O => m
  | S w' => store_le w' (put a (c .& 0xFF) m) (a + 1) (Z.shiftr c 8)
  end.

Fixpoint rep_stos (n w : nat) (m : bmem) (d c : Z) : bmem :=
  match n with
  | O => m
  | S n' => rep_stos n' w (store_le w m d c) (d + Z.of_nat w) c
  end.

Definition memset (m : bmem) (v c n : Z) : bmem :=
  if n =? 0 then m
  else if (v mod 4 =? 0) && (n mod 4 =? 0) then
    let c := c .& 0xFF in
    let c := Z.shiftl c 24 .| Z.shiftl c 16 .| Z.shiftl c 8 .| c in
    rep_stos (Z.to_nat (n / 4)) 4 m v c
  else rep_stos (Z.to_nat n) 1 m v c.

(** One [movsb] or [movsl]: [w] bytes are loaded, then stored. *)
Definition move_bytes (w : Z) (m : bmem) (d s : Z) : bmem :=
  λ a, if (d <=? a) && (a <? d + w) then m (s + (a - d)) else m a.

(** [rep movs], with the direction flag clear ([step = w]) or set ([step = -w]). *)
Fixpoint rep_movs (n : nat) (w step : Z) (m : bmem) (d s : Z) : bmem :=
  match n with
  | O => m
  | S n' => rep_movs n' w step (move_bytes w m d s) (d + step) (s + step)
  end.

Definition memmove (m : bmem) (dst src n : Z) : bmem :=
  if (src <? dst) && (dst <? src + n) then
    let s := src + n in
    let d := dst + n in
    if (s mod 4 =? 0) && (d mod 4 =? 0) && (n mod 4 =? 0)
    then rep_movs (Z.to_nat (n / 4)) 4 (-4) m (d - 4) (s - 4)
    else rep_movs (Z.to_nat n) 1 (-1) m (d - 1) (s - 1)
  else
    if (src mod 4 =? 0) && (dst mod 4 =? 0) && (n mod 4 =? 0)
    then rep_movs (Z.to_nat (n / 4)) 4 4 m dst src
    else rep_movs (Z.to_nat n) 1 1 m dst src.

Definition memcpy (m : bmem) (dst src n : Z) : bmem := memmove m dst src n.

Fixpoint memcmp_loop (n : nat) (m : bmem) (s1 s2 : Z) : Z :=
  match n with
  | O => 0
  | S n' => if m s1 =? m s2 then memcmp_loop n' m (s1 + 1) (s2 + 1) else m s1 - m s2
  end.

Definition memcmp (m : bmem) (v1 v2 n : Z) : Z := memcmp_loop (Z.to_nat n) m v1 v2.

Fixpoint memfind_loop (n : nat) (m : bmem) (s c : Z) : Z :=
  match n with
  | O => s
  | S n' => if m s =? u8 c then s else memfind_loop n' m (s + 1) c
  end.

Definition memfind (m : bmem) (s c n : Z) : Z := memfind_loop (Z.to_nat n) m s c.

(** ** [strtol] *)

Fixpoint skip_blanks (fuel : nat) (m : bmem) (s : Z) : option Z :=
  match fuel with
  | O => None
  | S f => if (m s =? 32) || (m s =? 9) then skip_blanks f m (s + 1) else Some s
  end.

(** The digit a character stands for in [strtol]. *)
Definition digit_of (c : Z) : option Z :=
  if (48 <=? c) && (c <=? 57) then Some (c - 48)
  else if (97 <=? c) && (c <=? 122) then Some (c - 97 + 10)
  else if (65 <=? c) && (c <=? 90) then Some (c - 65 + 10)
  else None.

(** The value read and the end. *)
Fixpoint strtol_digits (fuel : nat) (m : bmem) (s base val : Z) : option (Z * Z) :=
  match fuel with
  | O => None
  | S f =>
      match digit_of (m s) with
      | None => Some (val, s)
      | Some dig =>
          if base <=? dig then Some (val, s)
          else strtol_digits f m (s + 1) base (s32 (val * base + dig))
      end
  end.

(** The base prefix: the position after it and the base. *)
Definition strtol_base (m : bmem) (s base : Z) : Z * Z :=
  if ((base =? 0) || (base =? 16)) && ((m s =? 48) && (m (s + 1) =? 120)) then (s + 2, 16)
  else if (base =? 0) && (m s =? 48) then (s + 1, 8)
  else if base =? 0 then (s, 10)
  else (s, base).

Definition strtol (fuel : nat) (m : bmem) (s base : Z) : option (Z * Z) :=
  s ← skip_blanks fuel m s;
  let '(s, neg) := if m s =? 43 then (s + 1, false) else if m s =? 45 then (s + 1, true) else (s, false) in
  let '(s, base) := strtol_base m s base in
  '(val, e) ← strtol_digits fuel m s base 0;
  Some (if (neg : bool) then s32 (- val) else val, e).

(** ** Copying and filling *)

(** What a copy of [n] bytes should do. *)
Definition copied (m : bmem) (dst src n : Z) : bmem :=
  λ a, if (dst <=? a) && (a <? dst + n) then m (src + (a - dst)) else m a.

Ltac cases_range :=
  repeat match goal with
  | |- context [?x <=? ?y] => destruct (Z.leb_spec x y)
  | |- context [?x <? ?y] => destruct (Z.ltb_spec x y)
  end; cbn [andb].

Lemma rep_movs_up w m dst src n :
  0 < w -> dst <= src \/ src + Z.of_nat n * w <= dst ->
  forall a, rep_movs n w w m dst src a = copied m dst src (Z.of_nat n * w) a.
Proof.
  intros Hw. revert m dst src. induction n as [|n IH]; intros m dst src Ho a; cbn [rep_movs].
  - unfold copied. cases_range; lia || done.
  - rewrite IH by lia. unfold copied, move_bytes. cases_range; try lia; f_equal; lia.
Qed.

Lemma rep_movs_down w m dst src n :
  0 < w -> src <= dst ->
  forall a, rep_movs n w (- w) m (dst + (Z.of_nat n - 1) * w) (src + (Z.of_nat n - 1) * w) a =
    copied m dst src (Z.of_nat n * w) a.
Proof.
  intros Hw Ho. revert m. induction n as [|n IH]; intros m a; cbn [rep_movs].
  - unfold copied. cases_range; lia || done.
  - replace (dst + (Z.of_nat (S n) - 1) * w + - w) with (dst + (Z.of_nat n - 1) * w) by lia.
    replace (src + (Z.of_nat (S n) - 1) * w + - w) with (src + (Z.of_nat n - 1) * w) by lia.
    rewrite IH. unfold copied, move_bytes. cases_range; try lia; try f_equal; lia.
Qed.

Lemma words_bytes n : 0 <= n -> n mod 4 = 0 -> Z.of_nat (Z.to_nat (n / 4)) * 4 = n.
Proof. intros. rewrite Z2Nat.id by (apply Z.div_pos; lia). pose proof (Z.div_mod n 4). lia. Qed.

Lemma copied_empty m d s n a : n <= 0 -> copied m d s n a = m a.
Proof. intros. unfold copied. cases_range; lia || done. Qed.

(** The bytes of the register [rep stosl] stores. *)
Lemma splat_bytes c :
  let x := c .& 0xFF in
  let r := Z.shiftl x 24 .| Z.shiftl x 16 .| Z.shiftl x 8 .| x in
  forall k, 0 <= k < 4 -> Z.shiftr r (8 * k) .& 0xFF = x.
Proof.
  intros x r k Hk. assert (Hx : forall i, 8 <= i -> Z.testbit x i = false).
  { intros i Hi. subst x. rewrite Z.land_spec, (testbit_small 255 8 i) by (simpl; lia). apply andb_false_r. }
  assert (Hneg : forall i, i < 0 -> Z.testbit x i = false) by (intros; by apply Z.testbit_neg_r).
  apply Z.bits_inj'. intros i Hi. rewrite Z.land_spec, Z.shiftr_spec by done. change 255 with (Z.ones 8).
  destruct (Z.lt_ge_cases i 8) as [Hlt|Hge].
  - rewrite Z.ones_spec_low, andb_true_r by lia. subst r. rewrite !Z.lor_spec, !Z.shiftl_spec by lia.
    assert (k = 0 \/ k = 1 \/ k = 2 \/ k = 3) as [->|[->|[->| ->]]] by lia;
      repeat match goal with
      | |- context [Z.testbit x ?e] =>
          lazymatch e with i => fail | _ => first
            [rewrite (Hneg e) by lia | rewrite (Hx e) by lia | replace e with i by lia] end
      end; rewrite ?orb_false_r, ?orb_false_l; done.
  - rewrite Z.ones_spec_high, andb_false_r by lia. symmetry. by apply Hx.
Qed.

Lemma store_le_spec w c b : forall m d e,
  (forall k, 0 <= k < Z.of_nat w -> Z.shiftr c (8 * (e + k)) .& 0xFF = b) -> 0 <= e ->
  forall a, store_le w m d (Z.shiftr c (8 * e)) a = if (d <=? a) && (a <? d + Z.of_nat w) then b else m a.
Proof.
  induction w as [|w IH]; intros m d e Hb He a; cbn [store_le].
  - cases_range; lia || done.
  - rewrite Z.shiftr_shiftr by lia. replace (8 * e + 8) with (8 * (e + 1)) by lia.
    rewrite IH; [|intros k Hk; rewrite <- (Hb (k + 1)) by lia; do 3 f_equal; lia|lia].
    rewrite <- (Hb 0) by lia. rewrite Z.add_0_r. unfold put. destruct (Z.eqb_spec a d); cases_range; lia || done.
Qed.

Lemma rep_stos_spec w c b n : forall m d,
  (forall k, 0 <= k < Z.of_nat w -> Z.shiftr c (8 * k) .& 0xFF = b) ->
  forall a, rep_stos n w m d c a = if (d <=? a) && (a <? d + Z.of_nat n * Z.of_nat w) then b else m a.
Proof.
  induction n as [|n IH]; intros m d Hb a; cbn [rep_stos].
  - cases_range; lia || done.
  - rewrite IH by done. pose proof (store_le_spec w c b m d 0 Hb ltac:(lia) a) as H.
    change (8 * 0) with 0 in H. rewrite Z.shiftr_0_r in H. rewrite H. cases_range; lia || done.
Qed.

(** [memmove] copies the block as it was before the call, also when the
    source and the destination overlap and whether words or bytes are moved,
    and changes no other byte. *)
Lemma memmove_copied m dst src n :
  0 <= n -> forall a, memmove m dst src n a = copied m dst src n a.
Proof.
  intros Hn a. unfold memmove.
  destruct (Z.ltb_spec src dst), (Z.ltb_spec dst (src + n)); cbn [andb];
    (match goal with |- context [if ?b then _ else _] => destruct b eqn:E end; bool_prop).
  - pose proof (words_bytes n Hn ltac:(done)) as Hw.
    transitivity (copied m dst src (Z.of_nat (Z.to_nat (n / 4)) * 4) a); [|by rewrite Hw].
    rewrite <- rep_movs_down by lia. f_equal; lia.
  - transitivity (copied m dst src (Z.of_nat (Z.to_nat n) * 1) a); [|by rewrite Z2Nat.id, Z.mul_1_r by lia].
    rewrite <- rep_movs_down by lia. f_equal; lia.
  - rewrite rep_movs_up; rewrite ?words_bytes by done; [done|lia..].
  - rewrite rep_movs_up by lia. by rewrite Z2Nat.id, Z.mul_1_r by lia.
  - rewrite rep_movs_up by lia. by rewrite words_bytes.
  - rewrite rep_movs_up by lia. by rewrite Z2Nat.id, Z.mul_1_r by lia.
  - rewrite rep_movs_up by lia. by rewrite words_bytes.
  - rewrite rep_movs_up by lia. by rewrite Z2Nat.id, Z.mul_1_r by lia.
Qed.

(** ** NUL-terminated strings *)

(** The [n] bytes at [a]. *)
Definition range (m : bmem) (n : nat) (a : Z) : list Z := map (λ k, m (a + Z.of_nat k)) (seq 0 n).

Lemma range_S m n a : range m (S n) a = m a :: range m n (a + 1).
Proof.
  unfold range. cbn [seq map]. rewrite Z.add_0_r. f_equal. rewrite <- seq_shift, map_map. apply map_ext. intros k. f_equal. lia.
Qed.

Lemma range_ext m m' n a : (forall x, m' x = m x) -> range m' n a = range m n a.
Proof. intros H. apply map_ext. intros k. apply H. Qed.

Lemma range_length m n p : length (range m n p) = n.
Proof. unfold range. by rewrite length_map, length_seq. Qed.

Lemma range_app m n k p : range m (n + k) p = range m n p ++ range m k (p + Z.of_nat n).
Proof.
  revert p. induction n as [|n IH]; intros p; [by rewrite Z.add_0_r|]. cbn [Nat.add]. rewrite !range_S, IH. cbn [app]. do 3 f_equal. lia.
Qed.

Lemma range_same m m' n p : (forall x, p <= x < p + Z.of_nat n -> m' x = m x) -> range m' n p = range m n p.
Proof. intros H. apply map_ext_in. intros k [_ Hk]%in_seq. apply H. lia. Qed.

(** The string [w] is at [p]. *)
Fixpoint cstr (m : bmem) (p : Z) (w : list Z) : Prop :=
  match w with
  | [] => m p = 0
  | c :: w' => m p = c /\ 0 < c < 256 /\ cstr m (p + 1) w'
  end.

Lemma cstr_ext m m' p w :
  (forall a, p <= a <= p + Z.of_nat (length w) -> m' a = m a) -> cstr m p w -> cstr m' p w.
Proof.
  revert p. induction w as [|c w IH]; intros p He; cbn [cstr length] in *.
  - rewrite He by lia. done.
  - rewrite He by lia. intros (Hc & Hr & Hw). split; [done|]. split; [done|].
    apply IH; [|done]. intros a Ha. apply He. lia.
Qed.

Lemma strlen_loop_spec m w fuel : forall p n,
  cstr m p w -> (length w < fuel)%nat -> 0 <= n -> n + Z.of_nat (length w) < 2147483648 ->
  strlen_loop fuel m p n = Some (n + Z.of_nat (length w)).
Proof.
  revert fuel. induction w as [|c w IH]; intros [|fuel] p n Hw Hf Hn Hb; cbn [cstr length strlen_loop] in *; try lia.
  - rewrite Hw. simpl. f_equal. lia.
  - destruct Hw as (-> & Hc & Hw). destruct (Z.eqb_spec c 0); [lia|].
    rewrite s32_small, IH by (done || lia). f_equal. lia.
Qed.

(** Lexicographic order on strings. *)
Fixpoint lex_lt (v w : list Z) : bool :=
  match v, w with
  | _, [] => false
  | [], _ :: _ => true
  | a :: v', b :: w' => (a <? b) || ((a =? b) && lex_lt v' w')
  end.

Lemma strlcpy_loop_spec m n : forall w m1 dst src,
  cstr m src w -> (forall a, src <= a <= src + Z.of_nat (length w) -> m1 a = m a) ->
  dst + Z.of_nat n <= src \/ src + Z.of_nat (length w) < dst ->
  let k := Z.min (Z.of_nat (length w)) (Z.of_nat n) in
  exists m', strlcpy_loop n m1 dst src = (m', dst + k) /\
    (forall a, m' a = if (dst <=? a) && (a <? dst + k) then m (src + (a - dst)) else m1 a).
Proof.
  induction n as [|n IH]; intros w m1 dst src Hw Hm Ho k; cbn [strlcpy_loop].
  - exists m1. split; [f_equal; lia|]. intros a. cases_range; lia || done.
  - destruct w as [|c w]; cbn [cstr length] in *.
    + rewrite Hm, Hw by lia. simpl. exists m1. split; [f_equal; lia|]. intros a. cases_range; lia || done.
    + destruct Hw as (Hc & Hr & Hw). rewrite Hm, Hc by lia. destruct (Z.eqb_spec c 0); [lia|].
      destruct (IH w (put dst c m1) (dst + 1) (src + 1)) as (m' & -> & Hm').
      * done.
      * intros a Ha. unfold put. destruct (Z.eqb_spec a dst); [lia|]. apply Hm. lia.
      * lia.
      * exists m'. split; [f_equal; lia|]. intros a. rewrite Hm'. unfold put. destruct (Z.eqb_spec a dst) as [->|].
        -- cases_range; try lia. rewrite <- Hc. f_equal. lia.
        -- cases_range; try lia; f_equal; lia.
Qed.

Lemma cstr_copied m m' src dst w n :
  cstr m src w -> (forall a, m' a = if (dst <=? a) && (a <? dst + Z.of_nat n) then m (src + (a - dst)) else 0) ->
  (n <= length w)%nat -> cstr m' dst (take n w).
Proof.
  revert src dst w m'. induction n as [|n IH]; intros src dst w m' Hw Hm Hn.
  - simpl. rewrite Hm. cases_range; lia || done.
  - destruct w as [|c w]; [simpl in Hn; lia|]. cbn [cstr length take] in *. destruct Hw as (Hc & Hr & Hw).
    split; [rewrite Hm; cases_range; try lia; rewrite <- Hc; f_equal; lia|]. split; [done|].
    pose proof (IH (src + 1) (dst + 1) w (λ a, if a =? dst then 0 else m' a) Hw) as H.
    eapply cstr_ext; [|apply H; [|lia]].
    + intros a Ha. simpl. destruct (Z.eqb_spec a dst); [lia|done].
    + intros a. simpl. rewrite Hm. destruct (Z.eqb_spec a dst); cases_range; try lia; f_equal; lia.
Qed.

(** ** Properties *)

Definition mem_sample : bmem := λ a, u8 (a * 7).

(** [memset] fills exactly the block with the byte, whether it stores
    words or bytes. *)
Theorem memset_correct m v c n :
  0 <= n -> forall a, memset m v c n a = if (v <=? a) && (a <? v + n) then u8 c else m a.
Proof.
  intros Hn a. unfold memset. assert (Hc : c .& 0xFF = u8 c) by exact (land_low c 8 ltac:(lia)).
  destruct (Z.eqb_spec n 0); [cases_range; lia || done|]. destruct (_ && _) eqn:E; bool_prop.
  - rewrite (rep_stos_spec 4 _ (c .& 0xFF)).
    + change (Z.of_nat 4) with 4. by rewrite words_bytes, Hc.
    + intros k Hk. by apply (splat_bytes c).
  - rewrite (rep_stos_spec 1 _ (c .& 0xFF)).
    + change (Z.of_nat 1) with 1. by rewrite Z2Nat.id, Z.mul_1_r, Hc by lia.
    + intros k Hk. replace k with 0 by lia. done.
Qed.

Lemma memset_correct_witness : memset mem_sample 64 300 8 71 = 44 /\ memset mem_sample 64 300 7 71 = mem_sample 71.
Proof. split; rewrite memset_correct by lia; reflexivity. Defined.

(** [strcmp] decides the order of two strings: 0 exactly for equal
    strings, negative exactly when the first comes first lexicographically. *)
Theorem strcmp_correct m v w fuel p q :
  cstr m p v -> cstr m q w -> (length v < fuel)%nat ->
  exists r, strcmp fuel m p q = Some r /\ (r = 0 <-> v = w) /\ (r < 0 <-> lex_lt v w = true).
Proof.
  revert fuel w p q. induction v as [|a v IH]; intros [|fuel] w p q Hv Hw Hf; cbn [length] in Hf; try lia.
  - exists (m p - m q). cbn [cstr strcmp] in *. rewrite Hv. cbn [negb andb]. split; [done|].
    destruct w as [|b w]; cbn [cstr lex_lt] in *.
    + rewrite Hw. split; [done|]. split; [lia|done].
    + destruct Hw as (-> & Hb & _). split; split; try lia; done.
  - cbn [cstr strcmp] in *. destruct Hv as (Ha & Har & Hv). rewrite Ha. destruct (Z.eqb_spec a 0); [lia|].
    cbn [negb andb]. destruct w as [|b w]; cbn [cstr lex_lt] in *.
    + rewrite Hw. destruct (Z.eqb_spec a 0); [lia|]. exists (a - 0). split; [done|]. split; split; try lia; done.
    + destruct Hw as (-> & Hb & Hw). destruct (Z.eqb_spec a b) as [->|Hne].
      * destruct (IH fuel w _ _ Hv Hw ltac:(lia)) as (r & -> & H0 & Hlt). exists r. split; [done|].
        rewrite Z.ltb_irrefl. cbn [orb andb]. split; [|done]. rewrite H0. split; congruence.
      * exists (a - b). split; [done|]. rewrite orb_false_r. split; [split; [lia|congruence]|].
        rewrite Z.ltb_lt. lia.
Qed.

Definition str_sample : bmem := λ a, default 0 ([97; 98; 99; 0; 97; 98; 100; 0]%Z !! Z.to_nat a).

Lemma strcmp_correct_witness :
  exists r, strcmp 4 str_sample 0 4 = Some r /\ (r < 0 <-> lex_lt [97; 98; 99] [97; 98; 100] = true).
Proof.
  destruct (strcmp_correct str_sample [97; 98; 99] [97; 98; 100] 4 0 4) as (r & H1 & _ & H2).
  - repeat split; reflexivity || lia.
  - repeat split; reflexivity || lia.
  - apply Nat.lt_succ_diag_r.
  - exists r. split; [exact H1|exact H2].
Defined.

(** [strlcpy] leaves a terminated prefix of the source in the buffer, as
    long as the buffer allows, returns its length, and writes nothing outside
    the buffer. *)
Theorem strlcpy_correct m w dst src size :
  cstr m src w -> 0 < size -> dst + size <= src \/ src + Z.of_nat (length w) < dst ->
  exists m' k, strlcpy m dst src size = (m', Z.of_nat k) /\
    Z.of_nat k = Z.min (Z.of_nat (length w)) (size - 1) /\ cstr m' dst (take k w) /\
    forall a, a < dst \/ dst + size <= a -> m' a = m a.
Proof.
  intros Hw Hs Ho. unfold strlcpy. destruct (Z.ltb_spec 0 size); [|lia].
  destruct (strlcpy_loop_spec m (Z.to_nat (size - 1)) w m dst src) as (m' & -> & Hm'); [done|done|lia|].
  set (k := Z.to_nat (Z.min (Z.of_nat (length w)) (size - 1))).
  replace (Z.min (Z.of_nat (length w)) (Z.of_nat (Z.to_nat (size - 1)))) with (Z.of_nat k) in * by lia.
  exists (put (dst + Z.of_nat k) 0 m'), k. split; [f_equal; lia|]. split; [lia|]. split.
  - eapply (cstr_ext (λ a, if (dst <=? a) && (a <? dst + Z.of_nat k) then m (src + (a - dst)) else 0)).
    + intros a Ha. rewrite length_take in Ha. unfold put. rewrite Hm'.
      destruct (Z.eqb_spec a (dst + Z.of_nat k)); cases_range; lia || done.
    + eapply cstr_copied; [done|done|lia].
  - intros a Ha. unfold put. rewrite Hm'. destruct (Z.eqb_spec a (dst + Z.of_nat k)); cases_range; lia || done.
Qed.

Lemma strlcpy_correct_witness :
  exists m' k, strlcpy str_sample 16 0 3 = (m', Z.of_nat k) /\ cstr m' 16 (take k [97; 98; 99]).
Proof.
  destruct (strlcpy_correct str_sample [97; 98; 99] 16 0 3) as (m' & k & H1 & _ & H2 & _).
  - repeat split; reflexivity || lia.
  - lia.
  - right. simpl. lia.
  - exists m', k. split; [exact H1|exact H2].
Defined.
