(* ===== verification/Inet.v ===== *)
(** * Byte order, addresses and checksums of the network stack

    [net/lwip/core/ipv4/inet.c], [ip_addr.c] and [inet_chksum.c] with the
    macros of [ip_addr.h], for a little-endian machine and version 1 of the
    checksum.  Strings are lists of characters without the final zero; a chain
    of buffers ([struct pbuf]) is a list of payloads, each an address with a
    length.  *)

From S2P Require Import Prelude LibString.

(** ** Byte order *)

Definition htons (n : Z) : Z := Z.lor (Z.shiftl (n .& 0xff) 8) (Z.shiftr (n .& 0xff00) 8).
Definition ntohs (n : Z) : Z := htons n.

Definition htonl (n : Z) : Z :=
  Z.lor (Z.lor (Z.lor (Z.shiftl (n .& 0xff) 24) (Z.shiftl (n .& 0xff00) 8)) (Z.shiftr (n .& 0xff0000) 8)) (Z.shiftr (n .& 0xff000000) 24).
Definition ntohl (n : Z) : Z := htonl n.

(** ** Addresses as text *)

Definition in_range (c lo up : Z) : bool := (lo <=? u8 c) && (u8 c <=? up).
Definition isprint (c : Z) : bool := in_range c 0x20 0x7f.
Definition isdigit (c : Z) : bool := in_range c 48 57.
Definition isxdigit (c : Z) : bool := isdigit c || in_range c 97 102 || in_range c 65 70.
Definition islower (c : Z) : bool := in_range c 97 122.
Definition isspace (c : Z) : bool := (c =? 32) || (c =? 12) || (c =? 10) || (c =? 13) || (c =? 9) || (c =? 11).

(** The character that [cp] points to. *)
Definition cur (cp : list Z) : Z := match cp with [] => 0 | c :: _ => c end.

(** The inner loop of [inet_aton]: the number at [cp], and where it ends. *)
Fixpoint aton_number (base val : Z) (cp : list Z) : Z * list Z :=
  match cp with
  | [] => (val, [])
  | c :: cp' =>
      if isdigit c then aton_number base (u32 (val * base + (c - 48))) cp'
      else if (base =? 16) && isxdigit c then
        aton_number base (Z.lor (u32 (Z.shiftl val 4)) (c + 10 - (if islower c then 97 else 65))) cp'
      else (val, cp)
  end.

(** The prefix that selects the base. *)
Definition aton_base (cp : list Z) : Z * list Z :=
  if cur cp =? 48 then
    let cp := tail cp in
    if (cur cp =? 120) || (cur cp =? 88) then (16, tail cp) else (8, cp)
  else (10, cp).

(** The outer loop: [parts] are the numbers that were stored, [room] is how
    many more can be.  The result is the parts, the last number and the rest
    of the text. *)
Fixpoint aton_parts (room : nat) (parts : list Z) (cp : list Z) : option (list Z * Z * list Z) :=
  if isdigit (cur cp) then
    let '(base, cp) := aton_base cp in
    let '(val, cp) := aton_number base 0 cp in
    if cur cp =? 46 then
      match room with
      | O => None
      | S room' => aton_parts room' (parts ++ [val]) (tail cp)
      end
    else Some (parts, val, cp)
  else None.

(** [inet_aton]: the address in network order, or [None] where it returns 0. *)
Definition inet_aton (cp : list Z) : option Z :=
  match aton_parts 3 [] cp with
  | None => None
  | Some (parts, val, cp) =>
      let c := cur cp in
      if negb (c =? 0) && (negb (isprint c) || negb (isspace c)) then None
      else
        match parts with
        | [] => Some (htonl val)
        | [p0] => if 0xffffff <? val then None else Some (htonl (Z.lor val (u32 (Z.shiftl p0 24))))
        | [p0; p1] =>
            if 0xffff <? val then None
            else Some (htonl (Z.lor val (Z.lor (u32 (Z.shiftl p0 24)) (u32 (Z.shiftl p1 16)))))
        | [p0; p1; p2] =>
            if 0xff <? val then None
            else Some (htonl (Z.lor val (Z.lor (Z.lor (u32 (Z.shiftl p0 24)) (u32 (Z.shiftl p1 16))) (u32 (Z.shiftl p2 8)))))
        | _ => None
        end
  end.

Definition INADDR_NONE : Z := 0xffffffff.

Definition inet_addr (cp : list Z) : Z := match inet_aton cp with Some a => a | None => INADDR_NONE end.

(** The digits of a byte, the last one first, as [inet_ntoa] puts them into
    [inv]: at most three. *)
Fixpoint ntoa_digits (n : nat) (ap : Z) : list Z :=
  match n with
  | O => []
  | S n' => (48 + ap mod 10) :: (if ap / 10 =? 0 then [] else ntoa_digits n' (ap / 10))
  end.

(** The bytes of the address are taken in the order of memory; the last dot is
    overwritten by the end of the string. *)
Definition inet_ntoa (s_addr : Z) : list Z :=
  let part i := rev (ntoa_digits 3 (u8 (Z.shiftr s_addr (8 * i)))) ++ [46] in
  removelast (part 0 ++ part 1 ++ part 2 ++ part 3).

(** ** Networks *)

Record netif := mkNetif { if_flags : Z; if_addr : Z; if_netmask : Z }.

Definition NETIF_FLAG_BROADCAST : Z := 0x02.
Definition IP_ADDR_ANY_VALUE : Z := 0.
Definition IP_ADDR_BROADCAST_VALUE : Z := 0xffffffff.
Definition not32 (x : Z) : Z := u32 (Z.lnot x).

Definition ip_addr_netcmp (addr1 addr2 mask : Z) : bool := (addr1 .& mask) =? (addr2 .& mask).

Definition ip_addr_isbroadcast (addr : Z) (n : netif) : bool :=
  if (not32 addr =? IP_ADDR_ANY_VALUE) || (addr =? IP_ADDR_ANY_VALUE) then true
  else if (if_flags n .& NETIF_FLAG_BROADCAST) =? 0 then false
  else if addr =? if_addr n then false
  else ip_addr_netcmp addr (if_addr n) (if_netmask n)
       && ((addr .& not32 (if_netmask n)) =? (IP_ADDR_BROADCAST_VALUE .& not32 (if_netmask n))).

Definition ip_addr_ismulticast (addr : Z) : bool := (addr .& ntohl 0xf0000000) =? ntohl 0xe0000000.
Definition IP4_ADDR (a b c d : Z) : Z :=
  htonl (Z.lor (Z.lor (Z.lor (Z.shiftl (a .& 0xff) 24) (Z.shiftl (b .& 0xff) 16)) (Z.shiftl (c .& 0xff) 8)) (d .& 0xff)).

(** ** Checksums *)

Definition SWAP_BYTES_IN_WORD (w : Z) : Z := Z.lor (Z.shiftl (w .& 0xff) 8) (Z.shiftr (w .& 0xff00) 8).
Definition FOLD_U32T (u : Z) : Z := u32 (Z.shiftr u 16 + (u .& 0xffff)).

Section Chksum.
Variable m : bmem.

(** The loop of [lwip_standard_chksum] and the odd byte behind it. *)
Fixpoint chksum_loop (len : nat) (octetptr acc : Z) : Z :=
  match len with
  | O => acc
  | S O => u32 (acc + u16 (Z.shiftl (m octetptr) 8))
  | S (S len') => chksum_loop len' (octetptr + 2) (u32 (acc + Z.lor (u16 (Z.shiftl (m octetptr) 8)) (m (octetptr + 1))))
  end.

Definition lwip_standard_chksum (dataptr len : Z) : Z :=
  let acc := chksum_loop (Z.to_nat (u16 len)) dataptr 0 in
  let acc := FOLD_U32T acc in
  let acc := if negb ((acc .& 0xffff0000) =? 0) then FOLD_U32T acc else acc in
  htons (u16 acc).

Definition inet_chksum (dataptr len : Z) : Z := u16 (Z.lnot (lwip_standard_chksum dataptr len)).

(** The loop over a chain of buffers. *)
Fixpoint chksum_chain (acc : Z) (swapped : bool) (q : list (Z * Z)) : Z * bool :=
  match q with
  | [] => (acc, swapped)
  | (payload, len) :: q' =>
      let acc := FOLD_U32T (u32 (acc + lwip_standard_chksum payload len)) in
      if len mod 2 =? 0 then chksum_chain acc swapped q'
      else chksum_chain (SWAP_BYTES_IN_WORD acc) (negb swapped) q'
  end.

Definition inet_chksum_pbuf (p : list (Z * Z)) : Z :=
  let '(acc, swapped) := chksum_chain 0 false p in
  let acc := if swapped then SWAP_BYTES_IN_WORD acc else acc in
  u16 (Z.lnot (acc .& 0xffff)).

(** The pseudo header and the final folding. *)
Definition chksum_pseudo (acc src dest proto proto_len : Z) : Z :=
  let acc := u32 (acc + (src .& 0xffff)) in
  let acc := u32 (acc + (Z.shiftr src 16 .& 0xffff)) in
  let acc := u32 (acc + (dest .& 0xffff)) in
  let acc := u32 (acc + (Z.shiftr dest 16 .& 0xffff)) in
  let acc := u32 (acc + htons (u16 proto)) in
  let acc := u32 (acc + htons proto_len) in
  let acc := FOLD_U32T acc in
  let acc := FOLD_U32T acc in
  u16 (Z.lnot (acc .& 0xffff)).

Definition inet_chksum_pseudo (p : list (Z * Z)) (src dest proto proto_len : Z) : Z :=
  let '(acc, swapped) := chksum_chain 0 false p in
  let acc := if swapped then SWAP_BYTES_IN_WORD acc else acc in
  chksum_pseudo acc src dest proto proto_len.

(** The loop over the first [chksum_len] bytes of a chain; [None] is the
    failed assertion. *)
Fixpoint chksum_chain_partial (acc : Z) (swapped : bool) (q : list (Z * Z)) (chksum_len : Z) : option (Z * bool) :=
  match q with
  | [] => Some (acc, swapped)
  | (payload, len) :: q' =>
      if 0 <? chksum_len then
        let chklen := if chksum_len <? len then chksum_len else len in
        let acc := u32 (acc + lwip_standard_chksum payload chklen) in
        let chksum_len := u16 (chksum_len - chklen) in
        if chksum_len <? 0x7fff then
          let acc := FOLD_U32T acc in
          if len mod 2 =? 0 then chksum_chain_partial acc swapped q' chksum_len
          else chksum_chain_partial (SWAP_BYTES_IN_WORD acc) (negb swapped) q' chksum_len
        else None
      else Some (acc, swapped)
  end.

Definition inet_chksum_pseudo_partial (p : list (Z * Z)) (src dest proto proto_len chksum_len : Z) : option Z :=
  match chksum_chain_partial 0 false p chksum_len with
  | None => None
  | Some (acc, swapped) =>
      let acc := if swapped then SWAP_BYTES_IN_WORD acc else acc in
      Some (chksum_pseudo acc src dest proto proto_len)
  end.
End Chksum.
