(* ===== verification/InetSpec.v ===== *)
(** * Checksums and addresses of the network stack: correctness

    The checksums of a buffer, of a chain of buffers and with the pseudo header
    are the ones' complement checksum of RFC 1071, and a checksum that was
    stored verifies.  Addresses are read back from the text they are printed
    as, and broadcast addresses are recognised. *)

From S2P Require Import Prelude LibString Inet.

(** ** Bytes of words *)

Lemma lor_shift a b k : 0 <= k -> 0 <= b < 2 ^ k -> Z.lor (Z.shiftl a k) b = a * 2 ^ k + b.
Proof.
  intros Hk Hb. rewrite <- (Z.shiftl_mul_pow2 a k) by done. pose proof (Z.add_lor_land (Z.shiftl a k) b) as E.
  assert (Z.land (Z.shiftl a k) b = 0); [|lia]. apply Z.bits_inj'. intros i Hi. rewrite Z.land_spec, Z.bits_0.
  destruct (Z.lt_ge_cases i k); [by rewrite Z.shiftl_spec_low|]. by rewrite (testbit_small b k i), andb_false_r by lia.
Qed.

Lemma byte_of n k : 0 <= k -> Z.shiftr (Z.land n (Z.shiftl 255 k)) k = (n / 2 ^ k) mod 256.
Proof.
  intros Hk. rewrite Z.shiftr_land, Z.shiftr_shiftl_l, Z.sub_diag, Z.shiftl_0_r by done. rewrite Z.shiftr_div_pow2 by done. exact (land_low _ 8 ltac:(lia)).
Qed.

Lemma htons_swap n : htons n = (n mod 256) * 256 + (n / 256) mod 256.
Proof.
  unfold htons. change 0xff00 with (Z.shiftl 255 8). change 0xff with (Z.ones 8). rewrite byte_of, land_low by lia.
  rewrite lor_shift by (pose proof (Z.mod_pos_bound (n / 2 ^ 8) 256); lia). done.
Qed.

Lemma swap_htons w : SWAP_BYTES_IN_WORD w = htons w.
Proof. done. Qed.

Lemma htons_range n : 0 <= htons n < 65536.
Proof. rewrite htons_swap. pose proof (Z.mod_pos_bound n 256). pose proof (Z.mod_pos_bound (n / 256) 256). lia. Qed.

Lemma halves n : 0 <= n < 65536 -> 0 <= n / 256 < 256 /\ 0 <= n mod 256 < 256 /\ n = 256 * (n / 256) + n mod 256.
Proof. intros H. split; [split; [apply Z.div_pos|apply Z.div_lt_upper_bound]; lia|]. split; [by apply Z.mod_pos_bound|by apply Z.div_mod]. Qed.

Lemma htons_halves h l : 0 <= h < 256 -> 0 <= l < 256 -> htons (256 * h + l) = 256 * l + h.
Proof.
  intros Hh Hl. rewrite htons_swap. replace (256 * h + l) with (l + h * 256) by lia. rewrite Z_mod_plus_full, Z_div_plus_full, (Z.div_small l), !Z.mod_small by lia. lia.
Qed.

Lemma htons_htons n : 0 <= n < 65536 -> htons (htons n) = n.
Proof. intros H. destruct (halves n H) as (H1 & H2 & E). rewrite E at 1. rewrite !htons_halves by done. lia. Qed.

(** ** The ones' complement sum of RFC 1071 *)

(** The sum of the 16-bit words in network order; a last odd byte is padded. *)
Fixpoint sum16 (l : list Z) : Z :=
  match l with
  | a :: b :: l' => 256 * a + b + sum16 l'
  | [a] => 256 * a
  | [] => 0
  end.

(** Adding the carries back in. *)
Definition ocsum (x : Z) : Z := if x =? 0 then 0 else 1 + (x - 1) mod 65535.

(** Sums that have the same ones' complement value. *)
Definition oceq (x y : Z) : Prop := 0 <= x /\ 0 <= y /\ x mod 65535 = y mod 65535 /\ (x = 0 <-> y = 0).

#[export] Instance oceq_per : RelationClasses.PER oceq.
Proof. split; unfold oceq; [intros x y|intros x y z]; intuition congruence. Qed.

Lemma oceq_refl x : 0 <= x -> oceq x x.
Proof. intros H. by repeat split. Qed.

Lemma oceq_add x y x' y' : oceq x x' -> oceq y y' -> oceq (x + y) (x' + y').
Proof.
  intros (H1 & H2 & H3 & H4) (G1 & G2 & G3 & G4). split; [lia|]. split; [lia|]. split; [|lia].
  rewrite Z.add_mod, H3, G3, <- Z.add_mod by lia. done.
Qed.

Lemma oceq_mul c x y : 0 < c -> oceq x y -> oceq (c * x) (c * y).
Proof.
  intros Hc (H1 & H2 & H3 & H4). split; [lia|]. split; [lia|]. split; [|lia]. rewrite Z.mul_mod, H3, <- Z.mul_mod by lia. done.
Qed.

(** 2^16 is one. *)
Lemma oceq_wrap x : 0 <= x -> oceq (65536 * x) x.
Proof.
  intros H. split; [lia|]. split; [done|]. split; [|lia]. replace (65536 * x) with (x + x * 65535) by lia. by rewrite Z_mod_plus_full.
Qed.

Lemma ocsum_range x : 0 <= ocsum x <= 65535.
Proof. unfold ocsum. destruct (Z.eqb_spec x 0); [lia|]. pose proof (Z.mod_pos_bound (x - 1) 65535). lia. Qed.

Lemma ocsum_eq x : 0 <= x -> oceq (ocsum x) x.
Proof.
  intros H. pose proof (ocsum_range x). split; [lia|]. split; [done|]. unfold ocsum in *. destruct (Z.eqb_spec x 0) as [->|Hx]; [done|].
  pose proof (Z.mod_pos_bound (x - 1) 65535). split; [|lia]. rewrite Z.add_mod_idemp_r by lia. f_equal. lia.
Qed.

Lemma ocsum_unique x y : oceq x y -> 0 <= x <= 65535 -> x = ocsum y.
Proof.
  intros (H1 & H2 & H3 & H4) Hx. unfold ocsum. destruct (Z.eqb_spec y 0) as [->|Hy]; [lia|].
  assert (E : (x - 1) mod 65535 = (y - 1) mod 65535) by (rewrite Zminus_mod, H3, <- Zminus_mod; done). rewrite <- E, Z.mod_small; lia.
Qed.

Lemma oceq_ocsum x y : oceq x y -> ocsum x = ocsum y.
Proof. intros H. apply ocsum_unique; [|apply ocsum_range]. destruct H as (H1 & H2). transitivity x; [by apply ocsum_eq|done]. Qed.

(** *** Folding and swapping *)

Lemma fold_eq x : 0 <= x < 4294967296 -> FOLD_U32T x = x / 65536 + x mod 65536 /\ oceq (FOLD_U32T x) x.
Proof.
  intros H. unfold FOLD_U32T. change 0xffff with (Z.ones 16). rewrite land_low, Z.shiftr_div_pow2 by lia. change (2 ^ 16) with 65536.
  pose proof (Z.div_mod x 65536). pose proof (Z.mod_pos_bound x 65536). assert (0 <= x / 65536 < 65536) by (split; [apply Z.div_pos|apply Z.div_lt_upper_bound]; lia).
  rewrite u32_small by lia. split; [done|]. split; [lia|]. split; [lia|]. split; [|lia]. rewrite (Z.div_mod x 65536) at 3 by lia.
  replace (65536 * (x / 65536) + x mod 65536) with (x / 65536 + x mod 65536 + x / 65536 * 65535) by lia. by rewrite Z_mod_plus_full.
Qed.

Lemma swap_eq x : 0 <= x < 65536 -> oceq (htons x) (256 * x).
Proof.
  intros H. rewrite htons_swap. pose proof (Z.div_mod x 256). pose proof (Z.mod_pos_bound x 256).
  assert (0 <= x / 256 < 256) by (split; [apply Z.div_pos|apply Z.div_lt_upper_bound]; lia). rewrite (Z.mod_small (x / 256)) by done.
  split; [lia|]. split; [lia|]. split; [|lia]. rewrite (Z.div_mod x 256) at 3 by lia.
  replace (256 * (256 * (x / 256) + x mod 256)) with (x mod 256 * 256 + x / 256 + x / 256 * 65535) by lia. by rewrite Z_mod_plus_full.
Qed.

(** *** One buffer *)

Definition is_byte (b : Z) : Prop := 0 <= b < 256.

Lemma sum16_nonneg n : forall l, (length l <= n)%nat -> Forall is_byte l -> 0 <= sum16 l <= 65535 * ((Z.of_nat (length l) + 1) / 2).
Proof.
  induction n as [|n IH]; intros l Hl H; [destruct l; [done|cbn in Hl; lia]|]. destruct l as [|a [|b l]]; [done|..]; cbn [length] in Hl.
  - apply list.Forall_cons in H as [Ha _]. unfold is_byte in Ha. cbn [sum16 length]. change ((Z.of_nat 1 + 1) / 2) with 1. lia.
  - apply list.Forall_cons in H as [Ha [Hb H]%list.Forall_cons]. cbn [sum16]. destruct (IH l ltac:(lia) H) as [H1 H2]. unfold is_byte in *.
    split; [lia|]. cbn [length]. replace (Z.of_nat (S (S (length l))) + 1) with (Z.of_nat (length l) + 1 + 1 * 2) by lia. rewrite Z_div_plus_full by lia. lia.
Qed.

Lemma bytes_range m n p : (forall x, is_byte (m x)) -> Forall is_byte (range m n p).
Proof. intros H. apply List.Forall_map, list.Forall_forall. intros x _. apply H. Qed.

Lemma chksum_loop_sum m n : (forall x, is_byte (m x)) -> forall k len p acc, (len <= k)%nat -> (len <= n)%nat -> 0 <= acc ->
  acc + 65535 * ((Z.of_nat len + 1) / 2) < 4294967296 -> chksum_loop m len p acc = acc + sum16 (range m len p).
Proof.
  intros Hm. induction k as [|k IH]; intros len p acc Hk Hn Ha Hlt; [replace len with 0%nat by lia; cbn; lia|].
  destruct len as [|[|len]]; cbn [chksum_loop]; [cbn; lia| |].
  - pose proof (Hm p) as Hb. unfold is_byte in Hb. rewrite range_S. cbn [range seq map sum16]. rewrite Z.shiftl_mul_pow2 by lia. change (2 ^ 8) with 256.
    change ((Z.of_nat 1 + 1) / 2) with 1 in Hlt. rewrite u16_small, u32_small by lia. lia.
  - pose proof (Hm p) as H1. pose proof (Hm (p + 1)) as H2. unfold is_byte in H1, H2. rewrite !range_S. cbn [sum16].
    replace (Z.of_nat (S (S len)) + 1) with (Z.of_nat len + 1 + 1 * 2) in Hlt by lia. rewrite Z_div_plus_full in Hlt by lia.
    pose proof (Z.div_pos (Z.of_nat len + 1) 2 ltac:(lia) ltac:(lia)).
    rewrite (u16_small (Z.shiftl _ _)), lor_shift by (rewrite ?Z.shiftl_mul_pow2; lia). change (2 ^ 8) with 256.
    rewrite u32_small by lia. rewrite IH by lia. replace (p + 1 + 1) with (p + 2) by lia. lia.
Qed.

Lemma high_half y : 0 <= y < 4294967296 -> (Z.land y 0xffff0000 =? 0) = (y <? 65536).
Proof.
  intros Hy. destruct (Z.ltb_spec y 65536).
  - apply Z.eqb_eq. apply Z.bits_inj'. intros i Hi. change 0xffff0000 with (Z.shiftl (Z.ones 16) 16). rewrite Z.land_spec, Z.bits_0.
    destruct (Z.lt_ge_cases i 16); [by rewrite Z.shiftl_spec_low, andb_false_r|]. by rewrite (testbit_small y 16 i) by lia.
  - apply Z.eqb_neq. intros E. apply (f_equal (λ x, Z.shiftr x 16)) in E. rewrite Z.shiftr_land in E. change (Z.shiftr 0xffff0000 16) with (Z.ones 16) in E.
    rewrite land_low, Z.shiftr_div_pow2 in E by lia. change (2 ^ 16) with 65536 in E.
    pose proof (Z.div_le_lower_bound y 65536 1 ltac:(lia) ltac:(lia)). pose proof (Z.div_lt_upper_bound y 65536 65536 ltac:(lia) ltac:(lia)).
    rewrite Z.mod_small in E by lia. change (Z.shiftr 0 16) with 0 in E. lia.
Qed.

Lemma fold_small y : 0 <= y <= 131070 -> 0 <= FOLD_U32T y <= 65535.
Proof.
  intros Hy. destruct (fold_eq y ltac:(lia)) as [-> _]. pose proof (Z.div_mod y 65536). pose proof (Z.mod_pos_bound y 65536).
  pose proof (Z.div_pos y 65536). pose proof (Z.div_lt_upper_bound y 65536 2). lia.
Qed.

Lemma fold_bound x : 0 <= x < 4294967296 -> 0 <= FOLD_U32T x <= 131070.
Proof.
  intros Hx. destruct (fold_eq x Hx) as [-> _]. pose proof (Z.mod_pos_bound x 65536). pose proof (Z.div_pos x 65536). pose proof (Z.div_lt_upper_bound x 65536 65536). lia.
Qed.

Lemma standard_chksum_sum m p len : (forall x, is_byte (m x)) -> 0 <= len < 65536 ->
  lwip_standard_chksum m p len = htons (ocsum (sum16 (range m (Z.to_nat len) p))).
Proof.
  intros Hm Hl. unfold lwip_standard_chksum. rewrite (u16_small len) by done.
  pose proof (Z.div_le_mono (len + 1) 65536 2 ltac:(lia) ltac:(lia)) as Hd. change (65536 / 2) with 32768 in Hd.
  rewrite (chksum_loop_sum m (Z.to_nat len) Hm (Z.to_nat len)) by (rewrite ?Z2Nat.id; lia). rewrite Z.add_0_l.
  destruct (sum16_nonneg (Z.to_nat len) (range m (Z.to_nat len) p)) as [H1 H2]; [by rewrite range_length|by apply bytes_range|].
  rewrite range_length, Z2Nat.id in H2 by lia. set (x := sum16 _) in *. destruct (fold_eq x ltac:(lia)) as [_ E2].
  pose proof (fold_bound x ltac:(lia)) as B1. f_equal. set (y := FOLD_U32T x) in *. rewrite high_half by lia.
  destruct (Z.ltb_spec y 65536); cbn [negb].
  - rewrite u16_small by lia. apply ocsum_unique; [done|lia].
  - pose proof (fold_small y ltac:(lia)) as B2. rewrite u16_small by lia. apply ocsum_unique; [|lia]. transitivity y; [|done]. apply fold_eq. lia.
Qed.

(** *** Concatenation *)

Lemma sum16_pos l : Forall is_byte l -> 0 <= sum16 l.
Proof. intros H. by apply (sum16_nonneg (length l) l). Qed.

(** Bytes at odd positions count 256 times less. *)
Lemma sum16_shift n : forall a l, (length l <= n)%nat -> is_byte a -> Forall is_byte l -> oceq (sum16 (a :: l)) (256 * a + 256 * sum16 l).
Proof.
  induction n as [|n IH]; intros a l Hl Ha H; (destruct l as [|b l]; [cbn [sum16]; rewrite Z.mul_0_r, Z.add_0_r; apply oceq_refl; unfold is_byte in Ha; lia|]); cbn [length] in Hl; [lia|].
  apply list.Forall_cons in H as [Hb H]. unfold is_byte in Ha, Hb. pose proof (sum16_pos l H). destruct l as [|c l].
  - cbn [sum16]. replace (256 * (256 * b)) with (65536 * b) by lia. rewrite Z.add_0_r. apply oceq_add; [apply oceq_refl; lia|]. symmetry. apply oceq_wrap. lia.
  - apply list.Forall_cons in H as [Hc H]. change (sum16 (a :: b :: c :: l)) with (256 * a + b + sum16 (c :: l)). change (sum16 (b :: c :: l)) with (256 * b + c + sum16 l).
    cbn [length] in Hl. rewrite <- Z.add_assoc. apply oceq_add; [apply oceq_refl; lia|].
    replace (256 * (256 * b + c + sum16 l)) with (65536 * b + (256 * c + 256 * sum16 l)) by lia.
    apply oceq_add; [symmetry; apply oceq_wrap; lia|]. apply IH; [lia|done..].
Qed.

Lemma sum16_app n : forall l l', (length l <= n)%nat -> Forall is_byte l -> Forall is_byte l' ->
  oceq (sum16 (l ++ l')) (sum16 l + (if Nat.even (length l) then sum16 l' else 256 * sum16 l')).
Proof.
  induction n as [|n IH]; intros l l' Hl H H'; pose proof (sum16_pos l' H'); (destruct l as [|a [|b l]]; [cbn; by apply oceq_refl|..]); cbn [length] in Hl; try lia.
  - apply list.Forall_cons in H as [Ha _]. by apply (sum16_shift (length l')).
  - apply list.Forall_cons in H as [Ha [Hb H]%list.Forall_cons]. cbn [app sum16 length Nat.even]. rewrite <- (Z.add_assoc _ (sum16 l)).
    unfold is_byte in Ha, Hb. apply oceq_add; [apply oceq_refl; lia|]. apply IH; [lia|done..].
Qed.

(** *** Chains of buffers *)

Definition chain_bytes (m : bmem) (q : list (Z * Z)) : list Z := flat_map (λ b, range m (Z.to_nat b.2) b.1) q.

Definition chain_ok (q : list (Z * Z)) : Prop := Forall (λ b, 0 <= b.2 < 65536) q.

Lemma chain_bytes_ok m q : (forall x, is_byte (m x)) -> Forall is_byte (chain_bytes m q).
Proof. intros Hm. induction q as [|b q IH]; [constructor|]. cbn. apply list.Forall_app. split; [by apply bytes_range|done]. Qed.

Lemma htons_ocsum x : 0 <= x -> oceq (htons (ocsum x)) (256 * x).
Proof. intros H. pose proof (ocsum_range x). transitivity (256 * ocsum x); [apply swap_eq; lia|]. by apply oceq_mul, ocsum_eq. Qed.

Lemma htons_ocsum_256 x : 0 <= x -> ocsum (256 * x) = htons (ocsum x).
Proof. intros H. symmetry. apply ocsum_unique; [by apply htons_ocsum|]. pose proof (htons_range (ocsum x)). lia. Qed.

(** The sum of [l] as the loop holds it. *)
Definition held (sw : bool) (l : list Z) : Z := if sw then sum16 l else 256 * sum16 l.

Lemma held_nonneg sw l : Forall is_byte l -> 0 <= held sw l.
Proof. intros H. pose proof (sum16_pos l H). unfold held. destruct sw; lia. Qed.

Lemma held_swap sw l x : Forall is_byte l -> 0 <= x <= 65535 -> oceq x (held sw l) -> oceq (SWAP_BYTES_IN_WORD x) (held (negb sw) l).
Proof.
  intros H Hx Hh. pose proof (sum16_pos l H). rewrite swap_htons. transitivity (256 * x); [apply swap_eq; lia|]. transitivity (256 * held sw l); [by apply oceq_mul|].
  destruct sw; cbn [held negb]; [apply oceq_refl; lia|]. rewrite Z.mul_assoc. by apply oceq_wrap.
Qed.

Lemma held_add sw l l' x c : Forall is_byte l -> Forall is_byte l' -> sw = Nat.odd (length l) -> oceq x (held sw l) -> oceq c (256 * sum16 l') ->
  oceq (x + c) (held sw (l ++ l')).
Proof.
  intros H H' Hsw Hx Hc. pose proof (sum16_app (length l) l l' ltac:(lia) H H') as Ha. pose proof (sum16_pos l H). pose proof (sum16_pos l' H').
  transitivity (held sw l + 256 * sum16 l'); [by apply oceq_add|]. rewrite <- Nat.negb_odd, <- Hsw in Ha. symmetry. destruct sw; cbn [held negb] in *; [done|].
  rewrite <- Z.mul_add_distr_l. apply oceq_mul; [lia|done].
Qed.

Lemma even_nat n : Nat.even n = (Z.of_nat n mod 2 =? 0).
Proof.
  destruct (Nat.Even_or_Odd n) as [[k ->]|[k ->]].
  - rewrite Nat.even_mul. cbn [Nat.even orb]. symmetry. apply Z.eqb_eq. replace (Z.of_nat (2 * k)) with (0 + Z.of_nat k * 2) by lia. by rewrite Z_mod_plus_full.
  - rewrite Nat.even_add, Nat.even_mul. cbn [Nat.even orb Bool.eqb]. symmetry. apply Z.eqb_neq. replace (Z.of_nat (2 * k + 1)) with (1 + Z.of_nat k * 2) by lia. by rewrite Z_mod_plus_full.
Qed.

Lemma chksum_chain_held m q : (forall x, is_byte (m x)) -> chain_ok q -> forall acc sw l,
  0 <= acc <= 65535 -> Forall is_byte l -> sw = Nat.odd (length l) -> oceq acc (held sw l) ->
  exists acc' sw', chksum_chain m acc sw q = (acc', sw') /\ 0 <= acc' <= 65535 /\ oceq acc' (held sw' (l ++ chain_bytes m q)).
Proof.
  intros Hm Hq. induction Hq as [|[p len] q Hlen Hq IH]; intros acc sw l Ha Hl Hsw Hacc.
  - exists acc, sw. cbn. by rewrite app_nil_r.
  - cbn [chksum_chain chain_bytes flat_map]. cbn [snd fst] in *. set (l1 := range m (Z.to_nat len) p). assert (H1 : Forall is_byte l1) by (by apply bytes_range).
    pose proof (sum16_pos l1 H1). assert (Hc : oceq (lwip_standard_chksum m p len) (256 * sum16 l1)) by (rewrite standard_chksum_sum by done; by apply htons_ocsum).
    assert (Hr : 0 <= lwip_standard_chksum m p len <= 65535) by (rewrite standard_chksum_sum by done; pose proof (htons_range (ocsum (sum16 (range m (Z.to_nat len) p)))); lia).
    set (c := lwip_standard_chksum m p len) in *. rewrite (u32_small (acc + c)) by lia. pose proof (held_add sw l l1 acc c Hl H1 Hsw Hacc Hc) as Hh.
    assert (Hf : oceq (FOLD_U32T (acc + c)) (held sw (l ++ l1))) by (transitivity (acc + c); [apply fold_eq; lia|done]).
    pose proof (fold_small (acc + c) ltac:(lia)) as Hb. assert (H2 : Forall is_byte (l ++ l1)) by (by apply list.Forall_app). rewrite app_assoc.
    assert (Ho : Nat.odd (length (l ++ l1)) = xorb sw (negb (len mod 2 =? 0))).
    { unfold l1. rewrite length_app, range_length, Nat.odd_add, <- Hsw. f_equal. rewrite <- Nat.negb_even, even_nat, Z2Nat.id by lia. done. }
    destruct (len mod 2 =? 0); [apply IH; try done; by rewrite Ho, xorb_false_r|].
    apply IH; [rewrite swap_htons; pose proof (htons_range (FOLD_U32T (acc + c))); lia|done|rewrite Ho; by destruct sw|by apply held_swap].
Qed.

(** The sum over a chain, in the order of memory. *)
Lemma chksum_chain_sum m q : (forall x, is_byte (m x)) -> chain_ok q ->
  (let '(acc, swapped) := chksum_chain m 0 false q in if swapped then SWAP_BYTES_IN_WORD acc else acc) = htons (ocsum (sum16 (chain_bytes m q))).
Proof.
  intros Hm Hq. destruct (chksum_chain_held m q Hm Hq 0 false []) as (acc & sw & -> & Hr & Ho); [lia|constructor|done|by apply oceq_refl|]. cbn [app] in Ho.
  pose proof (chain_bytes_ok m q Hm) as Hb. rewrite <- htons_ocsum_256 by (by apply sum16_pos). destruct sw; apply ocsum_unique; try done.
  - by apply (held_swap true).
  - rewrite swap_htons. pose proof (htons_range acc). lia.
Qed.

(** *** The pseudo header *)

(** The bytes of the pseudo header: both addresses as they are in memory, a
    zero, the protocol and the length in network order. *)
Definition bytes4 (w : Z) : list Z := [w mod 256; (w / 256) mod 256; (w / 65536) mod 256; w / 16777216].
Definition pseudo_header (src dest proto proto_len : Z) : list Z :=
  bytes4 src ++ bytes4 dest ++ [0; proto; proto_len / 256; proto_len mod 256].

Lemma low_half x : Z.land x 0xffff = x mod 65536.
Proof. exact (land_low x 16 ltac:(lia)). Qed.

Lemma bytes4_eq w : 0 <= w < 4294967296 ->
  Forall is_byte (bytes4 w) /\ oceq ((w .& 0xffff) + (Z.shiftr w 16 .& 0xffff)) (256 * sum16 (bytes4 w)).
Proof.
  intros Hw. set (h := w / 65536). set (l := w mod 65536). assert (Hh : 0 <= h < 65536) by (split; [apply Z.div_pos|apply Z.div_lt_upper_bound]; lia).
  pose proof (Z.mod_pos_bound w 65536 ltac:(lia)) as Hl. fold l in Hl.
  destruct (halves h Hh) as (A1 & A2 & A3), (halves l Hl) as (B1 & B2 & B3).
  assert (E : bytes4 w = [l mod 256; l / 256; h mod 256; h / 256]).
  { pose proof (Z.div_mod w 65536 ltac:(lia)) as Ew. fold h l in Ew. unfold bytes4. f_equal; [|f_equal; [|do 2 f_equal]].
    - replace w with (l + h * 256 * 256) by lia. by rewrite Z_mod_plus_full.
    - replace w with (l + h * 256 * 256) by lia. by rewrite Z_div_plus_full, Z_mod_plus_full, Z.mod_small by lia.
    - unfold h. by rewrite Z.div_div by lia. }
  rewrite E. split; [repeat constructor; unfold is_byte; lia|]. rewrite !low_half. rewrite Z.shiftr_div_pow2 by lia. change (2 ^ 16) with 65536. fold h l.
  rewrite (Z.mod_small h 65536) by done. cbn [sum16]. rewrite B3 at 1. rewrite A3 at 1.
  replace (256 * (256 * (l mod 256) + l / 256 + (256 * (h mod 256) + h / 256 + 0))) with (256 * (l / 256) + 65536 * (l mod 256) + (256 * (h / 256) + 65536 * (h mod 256))) by lia.
  repeat apply oceq_add; try (apply oceq_refl; lia); symmetry; apply oceq_wrap; lia.
Qed.

Lemma pseudo_fields proto proto_len : 0 <= proto < 256 -> 0 <= proto_len < 65536 ->
  oceq (htons (u16 proto) + htons proto_len) (256 * sum16 [0; proto; proto_len / 256; proto_len mod 256]).
Proof.
  intros Hp Hn. destruct (halves proto_len Hn) as (A1 & A2 & A3). cbn [sum16]. rewrite (u16_small proto) by lia.
  replace (256 * (256 * 0 + proto + (256 * (proto_len / 256) + proto_len mod 256 + 0))) with (256 * proto + 256 * proto_len) by lia.
  apply oceq_add; apply swap_eq; lia.
Qed.

Lemma pseudo_header_eq src dest proto proto_len : 0 <= src < 4294967296 -> 0 <= dest < 4294967296 -> 0 <= proto < 256 -> 0 <= proto_len < 65536 ->
  Forall is_byte (pseudo_header src dest proto proto_len) /\
  oceq ((src .& 0xffff) + (Z.shiftr src 16 .& 0xffff) + ((dest .& 0xffff) + (Z.shiftr dest 16 .& 0xffff)) + (htons (u16 proto) + htons proto_len))
    (256 * sum16 (pseudo_header src dest proto proto_len)).
Proof.
  intros Hs Hd Hp Hn. destruct (bytes4_eq src Hs) as [B1 E1], (bytes4_eq dest Hd) as [B2 E2]. pose proof (pseudo_fields proto proto_len Hp Hn) as E3.
  assert (B3 : Forall is_byte [0; proto; proto_len / 256; proto_len mod 256]) by (destruct (halves proto_len Hn) as (A1 & A2 & _); repeat constructor; unfold is_byte; lia).
  split; [by repeat (apply list.Forall_app; split)|]. pose proof (oceq_add _ _ _ _ (oceq_add _ _ _ _ E1 E2) E3) as E. rewrite <- !Z.mul_add_distr_l in E.
  replace (sum16 (pseudo_header src dest proto proto_len)) with (sum16 (bytes4 src) + sum16 (bytes4 dest) + sum16 [0; proto; proto_len / 256; proto_len mod 256]); [done|].
  unfold pseudo_header, bytes4. cbn [app sum16]. ring.
Qed.

(** The checksum of RFC 1071 over [l], as a 16-bit value in memory order. *)
Definition rfc1071 (l : list Z) : Z := u16 (Z.lnot (htons (ocsum (sum16 l)))).

Lemma chksum_pseudo_sum acc src dest proto proto_len l : Forall is_byte l -> acc = htons (ocsum (sum16 l)) ->
  0 <= src < 4294967296 -> 0 <= dest < 4294967296 -> 0 <= proto < 256 -> 0 <= proto_len < 65536 ->
  chksum_pseudo acc src dest proto proto_len = rfc1071 (pseudo_header src dest proto proto_len ++ l).
Proof.
  intros Hl -> Hs Hd Hp Hn. destruct (pseudo_header_eq src dest proto proto_len Hs Hd Hp Hn) as [Bh Eh]. pose proof (sum16_pos l Hl) as Hpos. pose proof (sum16_pos _ Bh) as Hpos'.
  assert (R : forall x, 0 <= x < 4294967296 -> 0 <= (x .& 0xffff) <= 65535 /\ 0 <= (Z.shiftr x 16 .& 0xffff) <= 65535).
  { intros x Hx. rewrite !low_half. pose proof (Z.mod_pos_bound x 65536). pose proof (Z.mod_pos_bound (Z.shiftr x 16) 65536). lia. }
  destruct (R src Hs) as [R1 R2], (R dest Hd) as [R3 R4]. pose proof (htons_range (u16 proto)). pose proof (htons_range proto_len). pose proof (htons_range (ocsum (sum16 l))).
  unfold chksum_pseudo, rfc1071. 
  do 6 (match goal with |- context [u32 (?x + ?y)] => lazymatch x with context [u32 _] => fail | _ => rewrite (u32_small (x + y)) by lia end end).
  set (x := _ + htons proto_len).
  assert (Hx : 0 <= x < 4294967296) by (unfold x; lia). pose proof (fold_bound x Hx). pose proof (fold_small _ (fold_bound x Hx)) as Hf.
  assert (E : FOLD_U32T (FOLD_U32T x) = htons (ocsum (sum16 (pseudo_header src dest proto proto_len ++ l)))).
  { rewrite <- htons_ocsum_256 by (apply sum16_pos, list.Forall_app; done). apply ocsum_unique; [|done].
    transitivity (FOLD_U32T x); [apply fold_eq; lia|]. transitivity x; [by apply fold_eq|].
    transitivity (256 * (sum16 (pseudo_header src dest proto proto_len) + sum16 l)).
    - unfold x. rewrite Z.mul_add_distr_l, (Z.add_comm (256 * _)). pose proof (oceq_add _ _ _ _ (htons_ocsum (sum16 l) Hpos) Eh) as Ex. rewrite <- !Z.add_assoc in *. exact Ex.
    - apply oceq_mul; [lia|]. symmetry. by apply (sum16_app 12). }
  rewrite low_half, Z.mod_small, E by lia. done.
Qed.

(** ** The checksums are those of RFC 1071 *)

(** C37: The checksums are those of RFC 1071: over a buffer, over a chain however the bytes are divided among its
    buffers, and with the pseudo header of UDP and TCP. *)
Theorem checksums_rfc1071 m : (forall x, 0 <= m x < 256) ->
  (forall p len, 0 <= len < 65536 -> inet_chksum m p len = rfc1071 (range m (Z.to_nat len) p)) /\
  (forall q, chain_ok q -> inet_chksum_pbuf m q = rfc1071 (chain_bytes m q)) /\
  (forall q src dest proto proto_len, chain_ok q -> 0 <= src < 4294967296 -> 0 <= dest < 4294967296 -> 0 <= proto < 256 -> 0 <= proto_len < 65536 ->
    inet_chksum_pseudo m q src dest proto proto_len = rfc1071 (pseudo_header src dest proto proto_len ++ chain_bytes m q)).
Proof.
  intros Hm. split; [|split].
  - intros p len Hl. unfold inet_chksum. by rewrite standard_chksum_sum.
  - intros q Hq. pose proof (chksum_chain_sum m q Hm Hq) as E. unfold inet_chksum_pbuf. destruct (chksum_chain m 0 false q) as [acc sw]. rewrite E.
    rewrite low_half, Z.mod_small by apply htons_range. done.
  - intros q src dest proto proto_len Hq Hs Hd Hp Hn. pose proof (chksum_chain_sum m q Hm Hq) as E. unfold inet_chksum_pseudo. destruct (chksum_chain m 0 false q) as [acc sw].
    apply chksum_pseudo_sum; try done. by apply chain_bytes_ok.
Qed.

(** ** A stored checksum verifies *)

(** A word at an even position counts as it is. *)
Lemma sum16_word m len k p : (forall x, is_byte (m x)) -> 0 <= k -> k mod 2 = 0 -> k + 2 <= len ->
  oceq (sum16 (range m (Z.to_nat len) p)) (sum16 (range m (Z.to_nat k) p) + (256 * m (p + k) + m (p + k + 1) + sum16 (range m (Z.to_nat (len - k - 2)) (p + k + 2)))).
Proof.
  intros Hm H0 Hk Hl. replace (Z.to_nat len) with (Z.to_nat k + S (S (Z.to_nat (len - k - 2))))%nat by lia. rewrite range_app, !range_S, Z2Nat.id by lia.
  replace (p + k + 1 + 1) with (p + k + 2) by lia.
  pose proof (sum16_app (Z.to_nat k) (range m (Z.to_nat k) p) (m (p + k) :: m (p + k + 1) :: range m (Z.to_nat (len - k - 2)) (p + k + 2))) as E.
  rewrite range_length, even_nat, Z2Nat.id, Hk in E by lia. apply E; [lia|by apply bytes_range|]. repeat constructor; try apply Hm. by apply bytes_range.
Qed.

Lemma store_le2 m a c x : 0 <= c < 65536 -> store_le 2 m a c x = if x =? a then c mod 256 else if x =? a + 1 then c / 256 else m x.
Proof.
  intros Hc. destruct (halves c Hc) as (H1 & _). cbn [store_le]. unfold put. change 0xFF with (Z.ones 8). rewrite !land_low, Z.shiftr_div_pow2 by lia. change (2 ^ 8) with 256.
  rewrite (Z.mod_small (c / 256)) by done. destruct (Z.eqb_spec x (a + 1)), (Z.eqb_spec x a); done || lia.
Qed.

Lemma lnot16 x : 0 <= x < 65536 -> u16 (Z.lnot x) = 65535 - x.
Proof. intros H. unfold u16, Z.lnot. replace (Z.pred (- x)) with (65535 - x + -1 * 65536) by lia. rewrite Z_mod_plus_full, Z.mod_small; lia. Qed.

Lemma htons_not x : 0 <= x < 65536 -> htons (65535 - htons x) = 65535 - x.
Proof.
  intros Hx. destruct (halves x Hx) as (H1 & H2 & E). rewrite E at 1. rewrite htons_halves by done.
  replace (65535 - (256 * (x mod 256) + x / 256)) with (256 * (255 - x mod 256) + (255 - x / 256)) by lia. rewrite htons_halves by lia. lia.
Qed.

(** A sum with its complement is minus zero. *)
Lemma ocsum_complement s x : oceq s x -> ocsum (65535 - ocsum s + x) = 65535.
Proof.
  intros Hs. pose proof (ocsum_range s). destruct Hs as (H1 & H2 & H3 & H4). pose proof (ocsum_eq s H1) as (_ & _ & E & Hz).
  symmetry. apply ocsum_unique; [|lia]. split; [lia|]. split; [lia|]. split; [|lia]. rewrite Zplus_mod, Zminus_mod, E, H3.
  rewrite <- Zminus_mod, <- Zplus_mod. f_equal. lia.
Qed.

(** A checksum field at an even offset: it is cleared, the checksum of the
    block is computed and stored there; then the checksum of the block is 0,
    which is what the receiver tests. *)
Theorem checksum_verifies m p len k : (forall x, 0 <= m x < 256) -> 0 <= k -> k mod 2 = 0 -> k + 2 <= len -> len < 65536 ->
  let m0 := store_le 2 m (p + k) 0 in
  inet_chksum (store_le 2 m0 (p + k) (inet_chksum m0 p len)) p len = 0.
Proof.
  intros Hm H0 Hk Hl Hlen m0. assert (E0 : forall x, m0 x = if x =? p + k then 0 else if x =? p + k + 1 then 0 else m x) by (intros x; by apply store_le2).
  assert (Hm0 : forall x, is_byte (m0 x)) by (intros x; rewrite E0; unfold is_byte; repeat case_match; lia || apply Hm).
  set (S0 := sum16 (range m0 (Z.to_nat len) p)). pose proof (ocsum_range S0) as Ho. pose proof (htons_range (ocsum S0)) as Hh.
  assert (Ec : inet_chksum m0 p len = 65535 - htons (ocsum S0)) by (unfold inet_chksum; rewrite standard_chksum_sum, lnot16 by (done || lia); done).
  rewrite Ec. set (c := 65535 - htons (ocsum S0)) in *. assert (Hc : 0 <= c < 65536) by lia. destruct (halves c Hc) as (C1 & C2 & C3).
  set (m1 := store_le 2 m0 (p + k) c). assert (E1 : forall x, m1 x = if x =? p + k then c mod 256 else if x =? p + k + 1 then c / 256 else m0 x) by (intros x; by apply store_le2).
  assert (Hm1 : forall x, is_byte (m1 x)) by (intros x; rewrite E1; unfold is_byte; repeat case_match; lia || apply Hm0).
  unfold inet_chksum. rewrite standard_chksum_sum by (done || lia). rewrite (oceq_ocsum _ _ (sum16_word m1 len k p Hm1 H0 Hk Hl)).
  rewrite (range_same m0 m1 (Z.to_nat k)), (range_same m0 m1 (Z.to_nat (len - k - 2))) by (intros x Hx; rewrite E1, !(proj2 (Z.eqb_neq _ _)) by lia; done).
  rewrite !E1, Z.eqb_refl, (proj2 (Z.eqb_neq (p + k + 1) (p + k))), Z.eqb_refl by lia.
  pose proof (sum16_word m0 len k p Hm0 H0 Hk Hl) as Hs. fold S0 in Hs. rewrite !E0, Z.eqb_refl, (proj2 (Z.eqb_neq (p + k + 1) (p + k))), Z.eqb_refl in Hs by lia.
  assert (Ew : 256 * (c mod 256) + c / 256 = 65535 - ocsum S0) by (rewrite <- (htons_not (ocsum S0)), <- (htons_halves (c / 256) (c mod 256)), <- C3 by lia; done).
  set (A := sum16 (range m0 (Z.to_nat k) p)) in *. set (B := sum16 (range m0 (Z.to_nat (len - k - 2)) (p + k + 2))) in *.
  replace (A + (256 * (c mod 256) + c / 256 + B)) with (65535 - ocsum S0 + (A + (256 * 0 + 0 + B))) by lia. by rewrite ocsum_complement.
Qed.

(** ** Addresses *)

Lemma lor_add a b k : 0 <= k -> a mod 2 ^ k = 0 -> 0 <= b < 2 ^ k -> Z.lor a b = a + b.
Proof.
  intros Hk Ha Hb. pose proof (Z.pow_pos_nonneg 2 k ltac:(lia) Hk). pose proof (Z.div_mod a (2 ^ k)). replace a with (Z.shiftl (a / 2 ^ k) k) at 1 by (rewrite Z.shiftl_mul_pow2; lia).
  rewrite lor_shift by done. lia.
Qed.

(** The number with bytes [a], [b], [c], [d]. *)
Definition word4 (a b c d : Z) : Z := 16777216 * a + 65536 * b + 256 * c + d.

Lemma lor_word4 a b c d : is_byte a -> is_byte b -> is_byte c -> is_byte d ->
  Z.lor (Z.lor (Z.lor (16777216 * a) (65536 * b)) (256 * c)) d = word4 a b c d.
Proof.
  unfold is_byte, word4. intros Ha Hb Hc Hd. rewrite (lor_add (16777216 * a) _ 24); [|lia|rewrite Z.mul_comm; apply Z_mod_mult|change (2 ^ 24) with 16777216; lia].
  rewrite (lor_add _ (256 * c) 16); [|lia| |change (2 ^ 16) with 65536; lia].
  - rewrite (lor_add _ d 8); [lia|lia| |done]. replace (_ + 256 * c) with ((65536 * a + 256 * b + c) * 2 ^ 8) by (change (2 ^ 8) with 256; lia). apply Z_mod_mult.
  - replace (_ + 65536 * b) with ((256 * a + b) * 2 ^ 16) by (change (2 ^ 16) with 65536; lia). apply Z_mod_mult.
Qed.

Lemma word4_bytes a b c d : is_byte a -> is_byte b -> is_byte c -> is_byte d ->
  word4 a b c d mod 256 = d /\ (word4 a b c d / 256) mod 256 = c /\ (word4 a b c d / 65536) mod 256 = b /\ (word4 a b c d / 16777216) mod 256 = a.
Proof.
  unfold is_byte, word4. intros Ha Hb Hc Hd. set (w := _ + d).
  assert (E1 : w mod 256 = d /\ w / 256 = 65536 * a + 256 * b + c).
  { replace w with (d + (65536 * a + 256 * b + c) * 256) by (unfold w; lia). rewrite Z_mod_plus_full, Z_div_plus_full, Z.mod_small, Z.div_small by lia. lia. }
  assert (E2 : w / 65536 = 256 * a + b).
  { change 65536 with (256 * 256). rewrite <- Z.div_div, (proj2 E1) by lia. replace (65536 * a + 256 * b + c) with (c + (256 * a + b) * 256) by lia. rewrite Z_div_plus_full, Z.div_small by lia. lia. }
  assert (E3 : w / 16777216 = a).
  { change 16777216 with (65536 * 256). rewrite <- Z.div_div, E2 by lia. rewrite (Z.add_comm (256 * a)), (Z.mul_comm 256), Z_div_plus_full, Z.div_small by lia. lia. }
  destruct E1 as [E0 E1]. rewrite E0, E1, E2, E3. split_and!; [done|..|by apply Z.mod_small].
  - replace (_ + c) with (c + (256 * a + b) * 256) by lia. rewrite Z_mod_plus_full. by apply Z.mod_small.
  - replace (_ + b) with (b + a * 256) by lia. rewrite Z_mod_plus_full. by apply Z.mod_small.
Qed.

Lemma land_byte n k : 0 <= k -> Z.land n (Z.shiftl 255 k) = Z.shiftl ((n / 2 ^ k) mod 256) k.
Proof.
  intros Hk. rewrite <- (byte_of n k Hk). apply Z.bits_inj'. intros i Hi. destruct (Z.lt_ge_cases i k) as [Hl|Hg].
  - by rewrite Z.land_spec, !Z.shiftl_spec_low, andb_false_r by done.
  - rewrite Z.shiftl_spec, Z.shiftr_spec by lia. f_equal. lia.
Qed.

Lemma htonl_word4 a b c d : is_byte a -> is_byte b -> is_byte c -> is_byte d -> htonl (word4 a b c d) = word4 d c b a.
Proof.
  intros Ha Hb Hc Hd. destruct (word4_bytes a b c d Ha Hb Hc Hd) as (E0 & E1 & E2 & E3). unfold htonl.
  change 0xff with (Z.ones 8) at 1. change 0xff00 with (Z.shiftl 255 8). change 0xff0000 with (Z.shiftl 255 16). change 0xff000000 with (Z.shiftl 255 24).
  rewrite land_low, !land_byte by lia. change (2 ^ 8) with 256. change (2 ^ 16) with 65536. change (2 ^ 24) with 16777216. rewrite E0, E1, E2, E3.
  rewrite Z.shiftr_shiftl_l, (Z.shiftl_shiftl c) by lia. change (Z.shiftr (Z.shiftl a 24) 24) with (Z.shiftr (Z.shiftl a 24) 24). rewrite Z.shiftr_shiftl_l by lia.
  rewrite !Z.shiftl_mul_pow2 by lia. change (2 ^ (8 + 8)) with 65536. change (2 ^ (16 - 8)) with 256. change (2 ^ (24 - 24)) with 1. change (2 ^ 24) with 16777216.
  rewrite <- lor_word4 by done. f_equal; [f_equal; [f_equal|]|]; lia.
Qed.

Lemma word4_split n : 0 <= n < 4294967296 -> exists a b c d, is_byte a /\ is_byte b /\ is_byte c /\ is_byte d /\ n = word4 a b c d.
Proof.
  intros Hn. pose proof (Z.div_mod n 65536 ltac:(lia)) as En. pose proof (Z.mod_pos_bound n 65536 ltac:(lia)) as Hl.
  assert (Hh : 0 <= n / 65536 < 65536) by (split; [apply Z.div_pos|apply Z.div_lt_upper_bound]; lia).
  destruct (halves _ Hh) as (A1 & A2 & A3), (halves _ Hl) as (B1 & B2 & B3). exists (n / 65536 / 256), ((n / 65536) mod 256), (n mod 65536 / 256), ((n mod 65536) mod 256).
  do 4 (split; [done|]). unfold word4. lia.
Qed.

Lemma htonl_htonl n : 0 <= n < 4294967296 -> htonl (htonl n) = n.
Proof. intros (a & b & c & d & Ha & Hb & Hc & Hd & ->)%word4_split. by rewrite !htonl_word4. Qed.

(** *** Reading a number that was printed *)

Definition dec (b : Z) : list Z := rev (ntoa_digits 3 b).

Definition ends (rest : list Z) : Prop := rest = [] \/ exists r, rest = 46 :: r.

Lemma read_dec b : is_byte b -> forall rest, ends rest ->
  isdigit (cur (dec b ++ rest)) = true /\ (let '(base, cp) := aton_base (dec b ++ rest) in aton_number base 0 cp) = (b, rest).
Proof.
  intros Hb. assert (H : Forall (λ b, forall rest, ends rest -> isdigit (cur (dec b ++ rest)) = true /\
    (let '(base, cp) := aton_base (dec b ++ rest) in aton_number base 0 cp) = (b, rest)) (seqZ 0 256)).
  { repeat (apply list.Forall_cons; split; [intros rest [->|[r ->]]; split; vm_compute; reflexivity|]). constructor. }
  rewrite list.Forall_forall in H. apply H. apply elem_of_seqZ. unfold is_byte in Hb. lia.
Qed.

Lemma parts_dec room parts b rest : is_byte b -> ends rest ->
  aton_parts room parts (dec b ++ rest) =
    if cur rest =? 46 then match room with O => None | S r => aton_parts r (parts ++ [b]) (tail rest) end else Some (parts, b, rest).
Proof.
  intros Hb Hr. destruct (read_dec b Hb rest Hr) as [Hd E]. destruct room; cbn [aton_parts]; rewrite Hd; destruct (aton_base (dec b ++ rest)) as [base cp]; by rewrite E.
Qed.

Lemma ntoa_word4 a b c d : is_byte a -> is_byte b -> is_byte c -> is_byte d ->
  inet_ntoa (word4 d c b a) = dec a ++ 46 :: dec b ++ 46 :: dec c ++ 46 :: dec d ++ [].
Proof.
  intros Ha Hb Hc Hd. destruct (word4_bytes d c b a Hd Hc Hb Ha) as (E0 & E1 & E2 & E3). unfold inet_ntoa, u8.
  rewrite !Z.shiftr_div_pow2 by lia. change (2 ^ (8 * 0)) with 1. change (2 ^ (8 * 1)) with 256. change (2 ^ (8 * 2)) with 65536. change (2 ^ (8 * 3)) with 16777216.
  rewrite Z.div_1_r, E0, E1, E2, E3. fold (dec a) (dec b) (dec c) (dec d).
  replace ((dec a ++ [46]) ++ (dec b ++ [46]) ++ (dec c ++ [46]) ++ dec d ++ [46]) with ((dec a ++ 46 :: dec b ++ 46 :: dec c ++ 46 :: dec d) ++ [46])
    by (rewrite <- !app_assoc; cbn [app]; rewrite <- !app_assoc; cbn [app]; by rewrite <- !app_assoc).
  by rewrite removelast_last, app_nil_r.
Qed.

(** Every address is read back from its text. *)
Theorem inet_aton_ntoa addr : 0 <= addr < 4294967296 -> inet_aton (inet_ntoa addr) = Some addr /\ inet_addr (inet_ntoa addr) = addr.
Proof.
  intros (d & c & b & a & Hd & Hc & Hb & Ha & ->)%word4_split. assert (E : inet_aton (inet_ntoa (word4 d c b a)) = Some (word4 d c b a)); [|by unfold inet_addr; rewrite E].
  rewrite ntoa_word4 by done. unfold inet_aton. 
  do 4 (rewrite parts_dec by (done || (right; eexists; reflexivity) || by left); cbn [cur tail Z.eqb Pos.eqb app negb andb]).
  unfold is_byte in *. rewrite (proj2 (Z.ltb_ge 255 d)) by lia. f_equal. rewrite !Z.shiftl_mul_pow2 by lia. rewrite !u32_small by lia. change (2 ^ 24) with 16777216. change (2 ^ 16) with 65536. change (2 ^ 8) with 256.
  rewrite Z.lor_comm, (Z.mul_comm a), (Z.mul_comm b), (Z.mul_comm c), lor_word4, htonl_word4 by done. done.
Qed.

Lemma inet_aton_ntoa_witness : inet_aton (inet_ntoa 0x0100007f) = Some 0x0100007f /\ inet_ntoa 0x0100007f = [49; 50; 55; 46; 48; 46; 48; 46; 49].
Proof. split; [apply (inet_aton_ntoa 0x0100007f); lia|reflexivity]. Defined.

(** ** Networks *)

(** The broadcast address of the network that [n] is on: a host part of ones. *)
Definition net_broadcast (n : netif) : Z := Z.lor (if_addr n .& if_netmask n) (not32 (if_netmask n)).

Lemma not32_bit x i : 0 <= i -> Z.testbit (not32 x) i = (i <? 32) && negb (Z.testbit x i).
Proof.
  intros Hi. unfold not32, u32. change 4294967296 with (2 ^ 32). destruct (Z.ltb_spec i 32); cbn [andb].
  - by rewrite Z.mod_pow2_bits_low, Z.lnot_spec by lia.
  - by rewrite Z.mod_pow2_bits_high by lia.
Qed.

Lemma net_broadcast_spec addr n : 0 <= addr < 4294967296 ->
  addr = net_broadcast n <-> Z.land addr (if_netmask n) = Z.land (if_addr n) (if_netmask n) /\ Z.land addr (not32 (if_netmask n)) = not32 (if_netmask n).
Proof.
  intros Ha. unfold net_broadcast. split.
  - intros ->. split; apply Z.bits_inj'; intros i Hi; rewrite ?Z.land_spec, ?Z.lor_spec, ?Z.land_spec, !not32_bit by done;
      destruct (Z.testbit (if_addr n) i), (Z.testbit (if_netmask n) i), (i <? 32); done.
  - intros [E1 E2]. apply Z.bits_inj'. intros i Hi. apply (f_equal (λ x, Z.testbit x i)) in E1, E2. rewrite Z.land_spec in E1, E2. rewrite Z.lor_spec, <- E1, not32_bit in * by done.
    destruct (Z.ltb_spec i 32); cbn [andb] in *.
    + destruct (Z.testbit addr i), (Z.testbit (if_netmask n) i); done.
    + rewrite (testbit_small addr 32 i) by lia. done.
Qed.

(** An address is a broadcast address when it is all zeros or all ones, or when
    the interface can broadcast and it is the broadcast address of its network,
    but not the interface's own address. *)
Theorem isbroadcast_correct addr n : 0 <= addr < 4294967296 ->
  ip_addr_isbroadcast addr n = true <->
    addr = 0 \/ addr = 0xffffffff \/ (Z.land (if_flags n) NETIF_FLAG_BROADCAST <> 0 /\ addr <> if_addr n /\ addr = net_broadcast n).
Proof.
  intros Ha. unfold ip_addr_isbroadcast, IP_ADDR_ANY_VALUE. assert (En : (not32 addr =? 0) = (addr =? 0xffffffff)).
  { destruct (Z.eqb_spec addr 0xffffffff) as [->|Hn]; [done|]. apply Z.eqb_neq. unfold not32, u32, Z.lnot. replace (Z.pred (- addr)) with (4294967295 - addr + -1 * 4294967296) by lia.
    rewrite Z_mod_plus_full, Z.mod_small; lia. }
  rewrite En. destruct (Z.eqb_spec addr 0xffffffff); [cbn [orb]; naive_solver|]. destruct (Z.eqb_spec addr 0); [cbn [orb]; naive_solver|]. cbn [orb].
  destruct (Z.eqb_spec (if_flags n .& NETIF_FLAG_BROADCAST) 0); [naive_solver|]. destruct (Z.eqb_spec addr (if_addr n)); [naive_solver|].
  assert (Em : Z.land IP_ADDR_BROADCAST_VALUE (not32 (if_netmask n)) = not32 (if_netmask n)).
  { rewrite Z.land_comm. change IP_ADDR_BROADCAST_VALUE with (Z.ones 32). rewrite land_low by lia. apply Z.mod_small. apply (u32_range (Z.lnot (if_netmask n))). }
  rewrite Em. unfold ip_addr_netcmp. rewrite andb_true_iff, !Z.eqb_eq, <- net_broadcast_spec by done. naive_solver.
Qed.

Lemma isbroadcast_correct_witness : ip_addr_isbroadcast 0xff00000a (mkNetif 2 0x0f02000a 0x00ffffff) = false /\ ip_addr_isbroadcast 0xff02000a (mkNetif 2 0x0f02000a 0x00ffffff) = true.
Proof.
  split; [reflexivity|]. apply (isbroadcast_correct 0xff02000a (mkNetif 2 0x0f02000a 0x00ffffff)); [lia|]. right. right. split_and!; done.
Defined.

(** A small memory for the witnesses. *)
Definition chk_sample : bmem := λ x, u8 (7 * x + 3).

Lemma chk_sample_bytes x : 0 <= chk_sample x < 256.
Proof. apply u8_range. Qed.

Lemma checksums_rfc1071_witness :
  inet_chksum_pbuf chk_sample [(10, 3); (100, 4); (20, 1)] = rfc1071 [73; 80; 87; 191; 198; 205; 212; 143] /\ rfc1071 [73; 80; 87; 191; 198; 205; 212; 143] = 37571.
Proof.
  split; [|reflexivity]. pose proof (proj1 (proj2 (checksums_rfc1071 chk_sample chk_sample_bytes)) [(10, 3); (100, 4); (20, 1)]) as E. apply E. repeat constructor; cbn; lia.
Defined.

Lemma checksum_verifies_witness :
  let m0 := store_le 2 chk_sample 10 0 in inet_chksum m0 0 20 = 29618 /\ inet_chksum (store_le 2 m0 10 (inet_chksum m0 0 20)) 0 20 = 0.
Proof. split; [reflexivity|]. apply (checksum_verifies chk_sample 0 20 10 chk_sample_bytes); lia || reflexivity. Defined.
