(* ===== verification/Bytes.v ===== *)
(** * Words in byte memory

    Little-endian loads to match the stores [store_le], and the rewriting of a
    load behind stores. *)

From S2P Require Import Prelude LibString.

Fixpoint load_le (w : nat) (m : bmem) (a : Z) : Z :=
  match w with
  | O => 0
  | S w' => m a + 256 * load_le w' m (a + 1)
  end.

Lemma load_ext w : forall m m' a, (forall x, a <= x < a + Z.of_nat w -> m' x = m x) -> load_le w m' a = load_le w m a.
Proof.
  induction w as [|w IH]; intros m m' a H; [done|]. cbn [load_le]. rewrite (H a), (IH m m' (a + 1)) by (done || lia || (intros; apply H; lia)). done.
Qed.

Lemma store_other w : forall m a c x, ~ (a <= x < a + Z.of_nat w) -> store_le w m a c x = m x.
Proof.
  induction w as [|w IH]; intros m a c x Hx; [done|]. cbn [store_le]. rewrite IH by lia. unfold put. destruct (Z.eqb_spec x a); [lia|done].
Qed.

Lemma load_other w w' m a c b : b + Z.of_nat w <= a \/ a + Z.of_nat w' <= b -> load_le w (store_le w' m a c) b = load_le w m b.
Proof. intros H. apply load_ext. intros x Hx. apply store_other. lia. Qed.

Lemma load_same w : forall m a c, load_le w (store_le w m a c) a = c mod 256 ^ Z.of_nat w.
Proof.
  induction w as [|w IH]; intros m a c; [by rewrite Z.mod_1_r|]. cbn [store_le load_le]. rewrite IH, store_other by lia. unfold put. rewrite Z.eqb_refl.
  change 0xFF with (Z.ones 8). rewrite land_low, Z.shiftr_div_pow2 by lia. change (2 ^ 8) with 256.
  rewrite Nat2Z.inj_succ, Z.pow_succ_r by lia. rewrite Z.rem_mul_r by lia. lia.
Qed.

Lemma load_range w : forall m a, (forall x, 0 <= m x < 256) -> 0 <= load_le w m a < 256 ^ Z.of_nat w.
Proof.
  induction w as [|w IH]; intros m a H; [done|]. cbn [load_le]. pose proof (IH m (a + 1) H). pose proof (H a). rewrite Nat2Z.inj_succ, Z.pow_succ_r by lia. lia.
Qed.

Lemma store_bytes w : forall m a c, (forall x, 0 <= m x < 256) -> forall x, 0 <= store_le w m a c x < 256.
Proof.
  induction w as [|w IH]; intros m a c H x; [apply H|]. cbn [store_le]. apply IH. intros y. unfold put. destruct (y =? a); [|apply H].
  change 0xFF with (Z.ones 8). rewrite land_low by lia. by apply Z.mod_pos_bound.
Qed.

(** Stores at places that do not meet commute with every load. *)
Ltac mem_load :=
  repeat first
    [ rewrite load_other by (cbn [Z.of_nat Pos.of_succ_nat Pos.succ]; lia)
    | rewrite load_same ].
