(* ===== verification/LwipMem.v ===== *)
(** * The memory of the network server ([net/lwip/core/mem.c], [memp.c])

    The heap [ram] with its list of [struct mem], and the pools of elements of
    fixed size.  Both are kept in the bytes of the server's memory, as the code
    keeps them: a [struct mem] is [next] and [prev], words that count from
    [ram], and the byte [used]; a free element of a pool starts with the
    address of the next one.  The addresses of [ram_heap] and [memp_memory] are
    chosen by the linker, the sizes of the elements by the compiler.  The
    threads of the server give up the processor only where they wait, and the
    semaphore [mem_sem] is taken and given back within each operation; it is
    left out. *)

From S2P Require Import Prelude LibString Bytes.

(** ** The state and the monad *)

Record lw := mkLw {
  lw_mem : bmem;
  ram : Z;
  ram_end : Z;
  lfree : Z;
  memp_tab : list Z
}.

Definition set_lw_mem (v : bmem) (s : lw) : lw := mkLw v (ram s) (ram_end s) (lfree s) (memp_tab s).
Definition set_lfree (v : Z) (s : lw) : lw := mkLw (lw_mem s) (ram s) (ram_end s) v (memp_tab s).
Definition set_memp_tab (v : list Z) (s : lw) : lw := mkLw (lw_mem s) (ram s) (ram_end s) (lfree s) v.

(** A result, a failed assertion, or a loop that does not end. *)
Inductive nres (A : Type) :=
| NRet (a : A) (s : lw)
| NPanic (msg : string)
| NSpin.
Arguments NRet {A} _ _.
Arguments NPanic {A} _.
Arguments NSpin {A}.

Definition NetM (A : Type) : Type := lw -> nres A.

#[export] Instance N_ret : MRet NetM := λ A a s, NRet a s.
#[export] Instance N_bind : MBind NetM := λ A B f m s,
  match m s with
  | NRet a s' => f a s'
  | NPanic msg => NPanic msg
  | NSpin => NSpin
  end.

Definition npanic {A} (msg : string) : NetM A := λ _, NPanic msg.
Definition nspin {A} : NetM A := λ _, NSpin.
Definition nget {A} (f : lw -> A) : NetM A := λ s, NRet (f s) s.
Definition nmodify (f : lw -> lw) : NetM unit := λ s, NRet tt (f s).
Definition nload (w : nat) (a : Z) : NetM Z := nget (λ s, load_le w (lw_mem s) a).
Definition nstore (w : nat) (a v : Z) : NetM unit := nmodify (λ s, set_lw_mem (store_le w (lw_mem s) a v) s).

Definition LWIP_ASSERT (message : string) (assertion : bool) : NetM unit :=
  if assertion then mret tt else npanic message.

(** ** Alignment *)

Definition MEM_ALIGNMENT : Z := 4.
Definition LWIP_MEM_ALIGN_SIZE (size : Z) : Z := u32 (u32 (size + MEM_ALIGNMENT - 1) .& Z.lnot (MEM_ALIGNMENT - 1)).
Definition LWIP_MEM_ALIGN (addr : Z) : Z := u32 (u32 (addr + MEM_ALIGNMENT - 1) .& Z.lnot (MEM_ALIGNMENT - 1)).

(** ** The heap *)

Definition TCP_MSS : Z := 1460.
Definition TCP_SND_BUF : Z := 16 * TCP_MSS.
Definition TCP_SND_QUEUELEN : Z := 2 * TCP_SND_BUF / TCP_MSS.
Definition MEMP_NUM_TCP_SEG : Z := TCP_SND_QUEUELEN.
Definition PER_TCP_PCB_BUFFER : Z := 16 * 4096.
Definition MEM_SIZE : Z := PER_TCP_PCB_BUFFER * MEMP_NUM_TCP_SEG + 4096 * MEMP_NUM_TCP_SEG.

Definition MIN_SIZE : Z := 12.
Definition MIN_SIZE_ALIGNED : Z := LWIP_MEM_ALIGN_SIZE MIN_SIZE.
Definition SIZEOF_STRUCT_MEM : Z := LWIP_MEM_ALIGN_SIZE 12.
Definition MEM_SIZE_ALIGNED : Z := LWIP_MEM_ALIGN_SIZE MEM_SIZE.

(** The fields of [struct mem]. *)
Definition mem_next (mem : Z) : NetM Z := nload 4 mem.
Definition mem_prev (mem : Z) : NetM Z := nload 4 (mem + 4).
Definition mem_used (mem : Z) : NetM Z := nload 1 (mem + 8).
Definition set_next (mem v : Z) : NetM unit := nstore 4 mem v.
Definition set_prev (mem v : Z) : NetM unit := nstore 4 (mem + 4) v.
Definition set_used (mem v : Z) : NetM unit := nstore 1 (mem + 8) v.

(** [&ram[i]] *)
Definition ram_at (i : Z) : NetM Z := nget (λ s, u32 (ram s + i)).
(** [(u8_t * )mem - ram] *)
Definition ram_off (mem : Z) : NetM Z := nget (λ s, u32 (mem - ram s)).

(** "plug hole forward" *)
Definition plug_forward (mem : Z) : NetM unit :=
  e ← nget ram_end;
  n ← mem_next mem;
  nmem ← ram_at n;
  nu ← mem_used nmem;
  if negb (mem =? nmem) && (nu =? 0) && negb (nmem =? e) then
    l ← nget lfree;
    (if l =? nmem then nmodify (set_lfree mem) else mret tt) ;;
    nn ← mem_next nmem;
    set_next mem nn ;;
    nn ← mem_next nmem;
    nnmem ← ram_at nn;
    o ← ram_off mem;
    set_prev nnmem o
  else mret tt.

(** "plug hole backward" *)
Definition plug_backward (mem : Z) : NetM unit :=
  p ← mem_prev mem;
  pmem ← ram_at p;
  pu ← mem_used pmem;
  if negb (pmem =? mem) && (pu =? 0) then
    l ← nget lfree;
    (if l =? mem then nmodify (set_lfree pmem) else mret tt) ;;
    n ← mem_next mem;
    set_next pmem n ;;
    n ← mem_next mem;
    nmem ← ram_at n;
    o ← ram_off pmem;
    set_prev nmem o
  else mret tt.

Definition plug_holes (mem : Z) : NetM unit :=
  r ← nget ram;
  e ← nget ram_end;
  LWIP_ASSERT "plug_holes: mem >= ram" (r <=? mem) ;;
  LWIP_ASSERT "plug_holes: mem < ram_end" (mem <? e) ;;
  u ← mem_used mem;
  LWIP_ASSERT "plug_holes: mem->used == 0" (u =? 0) ;;
  n ← mem_next mem;
  LWIP_ASSERT "plug_holes: mem->next <= MEM_SIZE_ALIGNED" (n <=? MEM_SIZE_ALIGNED) ;;
  plug_forward mem ;;
  plug_backward mem.

Definition mem_init (ram_heap : Z) : NetM unit :=
  LWIP_ASSERT "Sanity check alignment" ((SIZEOF_STRUCT_MEM .& (MEM_ALIGNMENT - 1)) =? 0) ;;
  nmodify (λ s, mkLw (lw_mem s) (LWIP_MEM_ALIGN ram_heap) (ram_end s) (lfree s) (memp_tab s)) ;;
  mem ← nget ram;
  set_next mem MEM_SIZE_ALIGNED ;;
  set_prev mem 0 ;;
  set_used mem 0 ;;
  e ← ram_at MEM_SIZE_ALIGNED;
  nmodify (λ s, mkLw (lw_mem s) (ram s) e (lfree s) (memp_tab s)) ;;
  set_used e 1 ;;
  set_next e MEM_SIZE_ALIGNED ;;
  set_prev e MEM_SIZE_ALIGNED ;;
  nmodify (set_lfree mem).

(** The test behind the second assertion of [mem_free] never succeeds, because
    the assertion failed before. *)
Definition mem_free (rmem : Z) : NetM unit :=
  if rmem =? 0 then mret tt
  else
    LWIP_ASSERT "mem_free: sanity check alignment" ((rmem .& (MEM_ALIGNMENT - 1)) =? 0) ;;
    r ← nget ram;
    e ← nget ram_end;
    LWIP_ASSERT "mem_free: legal memory" ((r <=? rmem) && (rmem <? e)) ;;
    if (rmem <? r) || (e <=? rmem) then mret tt
    else
      let mem := u32 (rmem - SIZEOF_STRUCT_MEM) in
      u ← mem_used mem;
      LWIP_ASSERT "mem_free: mem->used" (negb (u =? 0)) ;;
      set_used mem 0 ;;
      l ← nget lfree;
      (if mem <? l then nmodify (set_lfree mem) else mret tt) ;;
      plug_holes mem.

(** "The next struct is unused, we can simply move it at little" *)
Definition realloc_move (mem ptr mem2 newsize : Z) : NetM unit :=
  next ← mem_next mem2;
  let ptr2 := u32 (ptr + SIZEOF_STRUCT_MEM + newsize) in
  l ← nget lfree;
  mem2' ← ram_at ptr2;
  (if l =? mem2 then nmodify (set_lfree mem2') else mret tt) ;;
  set_used mem2' 0 ;;
  set_next mem2' next ;;
  set_prev mem2' ptr ;;
  set_next mem ptr2 ;;
  n2 ← mem_next mem2';
  if negb (n2 =? MEM_SIZE_ALIGNED) then nmem ← ram_at n2; set_prev nmem ptr2 else mret tt.

(** "Next struct is used but there's room for another struct mem" *)
Definition realloc_cut (mem ptr newsize : Z) : NetM unit :=
  let ptr2 := u32 (ptr + SIZEOF_STRUCT_MEM + newsize) in
  mem2 ← ram_at ptr2;
  l ← nget lfree;
  (if mem2 <? l then nmodify (set_lfree mem2) else mret tt) ;;
  set_used mem2 0 ;;
  n ← mem_next mem;
  set_next mem2 n ;;
  set_prev mem2 ptr ;;
  set_next mem ptr2 ;;
  n2 ← mem_next mem2;
  if negb (n2 =? MEM_SIZE_ALIGNED) then nmem ← ram_at n2; set_prev nmem ptr2 else mret tt.

Definition mem_realloc (rmem newsize : Z) : NetM Z :=
  let newsize := LWIP_MEM_ALIGN_SIZE newsize in
  let newsize := if newsize <? MIN_SIZE_ALIGNED then MIN_SIZE_ALIGNED else newsize in
  if MEM_SIZE_ALIGNED <? newsize then mret 0
  else
    r ← nget ram;
    e ← nget ram_end;
    LWIP_ASSERT "mem_realloc: legal memory" ((r <=? rmem) && (rmem <? e)) ;;
    if (rmem <? r) || (e <=? rmem) then mret rmem
    else
      let mem := u32 (rmem - SIZEOF_STRUCT_MEM) in
      ptr ← ram_off mem;
      n ← mem_next mem;
      let size := u32 (n - ptr - SIZEOF_STRUCT_MEM) in
      LWIP_ASSERT "mem_realloc can only shrink memory" (newsize <=? size) ;;
      if size <? newsize then mret 0
      else if newsize =? size then mret rmem
      else
        mem2 ← ram_at n;
        u2 ← mem_used mem2;
        (if u2 =? 0 then realloc_move mem ptr mem2 newsize
         else if u32 (newsize + SIZEOF_STRUCT_MEM + MIN_SIZE_ALIGNED) <=? size then realloc_cut mem ptr newsize
         else mret tt) ;;
        mret rmem.

(** The blocks are at least [SIZEOF_STRUCT_MEM] apart, which bounds the walks. *)
Definition heap_fuel : nat := S (Z.to_nat (MEM_SIZE_ALIGNED / SIZEOF_STRUCT_MEM)).

(** [while (lfree->used && lfree != ram_end) lfree = &ram[lfree->next];] *)
Fixpoint lfree_loop (fuel : nat) : NetM unit :=
  match fuel with
  | O => nspin
  | S fuel' =>
      l ← nget lfree;
      e ← nget ram_end;
      u ← mem_used l;
      if negb (u =? 0) && negb (l =? e) then
        n ← mem_next l;
        l' ← ram_at n;
        nmodify (set_lfree l') ;;
        lfree_loop fuel'
      else mret tt
  end.

(** The block [mem] at [ptr] is marked as used, and divided when it is large. *)
Definition malloc_mark (ptr size mem : Z) : NetM unit :=
  n ← mem_next mem;
  if u32 (size + SIZEOF_STRUCT_MEM + MIN_SIZE_ALIGNED) <=? u32 (n - (ptr + SIZEOF_STRUCT_MEM)) then
    let ptr2 := u32 (ptr + SIZEOF_STRUCT_MEM + size) in
    mem2 ← ram_at ptr2;
    set_used mem2 0 ;;
    n ← mem_next mem;
    set_next mem2 n ;;
    set_prev mem2 ptr ;;
    set_next mem ptr2 ;;
    set_used mem 1 ;;
    n2 ← mem_next mem2;
    if negb (n2 =? MEM_SIZE_ALIGNED) then nmem ← ram_at n2; set_prev nmem ptr2 else mret tt
  else set_used mem 1.

(** The body of the search, for a block that is large enough. *)
Definition malloc_take (ptr size mem : Z) : NetM Z :=
  malloc_mark ptr size mem ;;
  l ← nget lfree;
  (if mem =? l then
     lfree_loop heap_fuel ;;
     l ← nget lfree;
     e ← nget ram_end;
     u ← mem_used l;
     LWIP_ASSERT "mem_malloc: !lfree->used" ((l =? e) || (u =? 0))
   else mret tt) ;;
  e ← nget ram_end;
  LWIP_ASSERT "mem_malloc: allocated memory not above ram_end." (u32 (mem + SIZEOF_STRUCT_MEM + size) <=? e) ;;
  LWIP_ASSERT "mem_malloc: allocated memory properly aligned." (u32 (mem + SIZEOF_STRUCT_MEM) mod MEM_ALIGNMENT =? 0) ;;
  LWIP_ASSERT "mem_malloc: sanity check alignment" ((mem .& (MEM_ALIGNMENT - 1)) =? 0) ;;
  mret (u32 (mem + SIZEOF_STRUCT_MEM)).

Fixpoint malloc_loop (fuel : nat) (ptr size : Z) : NetM Z :=
  match fuel with
  | O => nspin
  | S fuel' =>
      if ptr <? u32 (MEM_SIZE_ALIGNED - size) then
        mem ← ram_at ptr;
        u ← mem_used mem;
        n ← mem_next mem;
        if (u =? 0) && (size <=? u32 (n - (ptr + SIZEOF_STRUCT_MEM))) then malloc_take ptr size mem
        else malloc_loop fuel' n size
      else mret 0
  end.

Definition mem_malloc (size : Z) : NetM Z :=
  if size =? 0 then mret 0
  else
    let size := LWIP_MEM_ALIGN_SIZE size in
    let size := if size <? MIN_SIZE_ALIGNED then MIN_SIZE_ALIGNED else size in
    if MEM_SIZE_ALIGNED <? size then mret 0
    else
      l ← nget lfree;
      ptr ← ram_off l;
      malloc_loop heap_fuel ptr size.

Definition mem_calloc (count size : Z) : NetM Z :=
  p ← mem_malloc (u32 (count * size));
  (if negb (p =? 0) then nmodify (λ s, set_lw_mem (memset (lw_mem s) p 0 (u32 (count * size))) s) else mret tt) ;;
  mret p.

(** ** The pools *)

Inductive memp_t :=
| MEMP_RAW_PCB | MEMP_UDP_PCB | MEMP_TCP_PCB | MEMP_TCP_PCB_LISTEN | MEMP_TCP_SEG | MEMP_REASSDATA | MEMP_NETBUF | MEMP_NETCONN
| MEMP_TCPIP_MSG_API | MEMP_TCPIP_MSG_INPKT | MEMP_ARP_QUEUE | MEMP_SYS_TIMEOUT | MEMP_PBUF | MEMP_PBUF_POOL.

Definition memp_index (type : memp_t) : nat :=
  match type with
  | MEMP_RAW_PCB => 0 | MEMP_UDP_PCB => 1 | MEMP_TCP_PCB => 2 | MEMP_TCP_PCB_LISTEN => 3 | MEMP_TCP_SEG => 4 | MEMP_REASSDATA => 5
  | MEMP_NETBUF => 6 | MEMP_NETCONN => 7 | MEMP_TCPIP_MSG_API => 8 | MEMP_TCPIP_MSG_INPKT => 9 | MEMP_ARP_QUEUE => 10
  | MEMP_SYS_TIMEOUT => 11 | MEMP_PBUF => 12 | MEMP_PBUF_POOL => 13
  end.

Definition MEMP_MAX : nat := 14.

(** The loop over the elements of one pool: [tab] is [memp_tab[i]], [memp] the
    next element. *)
Fixpoint memp_init_pool (num : nat) (size tab memp : Z) : NetM (Z * Z) :=
  match num with
  | O => mret (tab, memp)
  | S num' =>
      nstore 4 memp tab ;;
      memp_init_pool num' size memp (u32 (memp + size))
  end.

(** [pools] are the numbers and sizes of the elements ([memp_num] and
    [memp_sizes]). *)
Fixpoint memp_init_loop (pools : list (Z * Z)) (memp : Z) : NetM unit :=
  match pools with
  | [] => mret tt
  | (num, size) :: pools' =>
      r ← memp_init_pool (Z.to_nat num) size 0 memp;
      nmodify (λ s, set_memp_tab (memp_tab s ++ [r.1]) s) ;;
      memp_init_loop pools' r.2
  end.

Definition memp_init (pools : list (Z * Z)) (memp_memory : Z) : NetM unit :=
  nmodify (set_memp_tab []) ;;
  memp_init_loop pools (LWIP_MEM_ALIGN memp_memory).

Definition memp_head (type : memp_t) : NetM Z := nget (λ s, default 0 (memp_tab s !! memp_index type)).
Definition set_memp_head (type : memp_t) (v : Z) : NetM unit := nmodify (λ s, set_memp_tab (<[memp_index type := v]> (memp_tab s)) s).

Definition memp_malloc (type : memp_t) : NetM Z :=
  memp ← memp_head type;
  if negb (memp =? 0) then
    n ← nload 4 memp;
    set_memp_head type n ;;
    LWIP_ASSERT "memp_malloc: memp properly aligned" (memp mod MEM_ALIGNMENT =? 0) ;;
    mret memp
  else mret memp.

Definition memp_free (type : memp_t) (mem : Z) : NetM unit :=
  if mem =? 0 then mret tt
  else
    LWIP_ASSERT "memp_free: mem properly aligned" (mem mod MEM_ALIGNMENT =? 0) ;;
    h ← memp_head type;
    nstore 4 mem h ;;
    set_memp_head type mem.
