(* ===== verification/LwipMemSpec.v ===== *)
(** * The heap of the network server: correctness

    The heap is a row of blocks.  [mem_malloc] takes the first free block that
    is large enough and leaves the rest of it free; [mem_free] makes a block
    free and joins it with free neighbours; [mem_realloc] shrinks a block in
    place.  No operation touches the contents of blocks in use. *)

From S2P Require Import Prelude LibString Bytes LwipMem.

(** ** Steps *)

Lemma nbind_assoc {A B C} (m : NetM A) (f : A -> NetM B) (g : B -> NetM C) s : ((m ≫= f) ≫= g) s = (m ≫= λ a, f a ≫= g) s.
Proof. unfold mbind, N_bind. by destruct (m s). Qed.

Lemma nbind_ret {A B} (a : A) (f : A -> NetM B) s : (mret a ≫= f) s = f a s.
Proof. done. Qed.

Lemma nbind_get {A B} (g : lw -> A) (f : A -> NetM B) s : (nget g ≫= f) s = f (g s) s.
Proof. done. Qed.

Lemma nbind_modify {B} g (f : unit -> NetM B) s : (nmodify g ≫= f) s = f tt (g s).
Proof. done. Qed.

Lemma nbind_load {B} w a (f : Z -> NetM B) s : (nload w a ≫= f) s = f (load_le w (lw_mem s) a) s.
Proof. done. Qed.

Lemma nbind_store {B} w a v (f : unit -> NetM B) s : (nstore w a v ≫= f) s = f tt (set_lw_mem (store_le w (lw_mem s) a v) s).
Proof. done. Qed.

Lemma nbind_assert {B} msg b (f : unit -> NetM B) s : b = true -> (LWIP_ASSERT msg b ≫= f) s = f tt s.
Proof. by intros ->. Qed.

Ltac nsteps :=
  repeat first [rewrite nbind_assoc | rewrite nbind_ret | rewrite nbind_get | rewrite nbind_modify | rewrite nbind_load | rewrite nbind_store];
  cbn [lw_mem ram ram_end lfree memp_tab set_lw_mem set_lfree].

Lemma nbind_run {A B} (m : NetM A) (f : A -> NetM B) s a s' : m s = NRet a s' -> (m ≫= f) s = f a s'.
Proof. intros E. unfold mbind, N_bind. by rewrite E. Qed.

(** ** Layouts

    A block is its size, with the [struct mem] in front of it, and whether it
    is in use. *)

Definition layout := list (Z * bool).

Fixpoint total (bs : layout) : Z := match bs with [] => 0 | b :: bs' => b.1 + total bs' end.

Fixpoint lastoff (prev o : Z) (bs : layout) : Z := match bs with [] => prev | b :: bs' => lastoff o (o + b.1) bs' end.

(** Where the first free block is. *)
Fixpoint free_off (bs : layout) : Z := match bs with (sz, true) :: bs' => sz + free_off bs' | _ => 0 end.

(** No two free blocks in a row. *)
Fixpoint plugged (bs : layout) : Prop :=
  match bs with
  | (_, u) :: bs' => match bs' with (_, u') :: _ => u || u' = true | [] => True end /\ plugged bs'
  | [] => True
  end.

Definition block_ok (b : Z * bool) : Prop := 24 <= b.1 /\ b.1 mod 4 = 0.

Definition uz (u : bool) : Z := if u then 1 else 0.

(** The [struct mem] at [a]. *)
Definition header (m : bmem) (a next prev : Z) (u : bool) : Prop :=
  load_le 4 m a = next /\ load_le 4 m (a + 4) = prev /\ load_le 1 m (a + 8) = uz u.

Notation MEM := 2228224.

Lemma mem_size : MEM_SIZE_ALIGNED = MEM.
Proof. reflexivity. Qed.

Lemma struct_size : SIZEOF_STRUCT_MEM = 12.
Proof. reflexivity. Qed.

Lemma min_size : MIN_SIZE_ALIGNED = 12.
Proof. reflexivity. Qed.

Lemma total_app bs1 bs2 : total (bs1 ++ bs2) = total bs1 + total bs2.
Proof. induction bs1 as [|b bs1 IH]; [done|]. cbn [app total]. rewrite IH. lia. Qed.

Lemma total_nonneg bs : Forall block_ok bs -> 0 <= total bs.
Proof. induction 1 as [|b bs [Hb _] _ IH]; cbn [total]; lia. Qed.

Lemma total_mod bs : Forall block_ok bs -> total bs mod 4 = 0.
Proof. induction 1 as [|b bs [_ Hb] _ IH]; [done|]. cbn [total]. rewrite Z.add_mod, Hb, IH by lia. done. Qed.

Lemma lastoff_app bs1 : forall prev o bs2, lastoff prev o (bs1 ++ bs2) = lastoff (lastoff prev o bs1) (o + total bs1) bs2.
Proof.
  induction bs1 as [|b bs1 IH]; intros prev o bs2; cbn [app lastoff total]; [by rewrite Z.add_0_r|]. rewrite IH. f_equal. lia.
Qed.

Lemma plugged_app bs1 : forall bs2, plugged (bs1 ++ bs2) -> plugged bs1 /\ plugged bs2.
Proof.
  induction bs1 as [|[sz u] bs1 IH]; intros bs2 H; [done|]. cbn [app plugged] in *. destruct H as [H1 H2%IH]. destruct bs1 as [|[sz' u'] bs1]; naive_solver.
Qed.

(** A block and what follows it are exchanged. *)
Lemma plugged_change bs1 sz u bs2 sz' u' bs2' : plugged (bs1 ++ (sz, u) :: bs2) -> (u = true -> u' = true) -> plugged ((sz', u') :: bs2') -> plugged (bs1 ++ (sz', u') :: bs2').
Proof.
  intros H Hu H'. induction bs1 as [|[a b] bs1 IH]; [done|]. destruct H as [H1 H2]. split; [|by apply IH].
  destruct bs1 as [|[c d] bs1]; [|done]. cbn [app] in *. destruct b, u, u'; naive_solver.
Qed.

(** What becomes of a free block of size [sz] from which [size] bytes are taken. *)
Definition taken (size sz : Z) : layout := if size + 36 <=? sz then [(size + 12, true); (sz - size - 12, false)] else [(sz, true)].

(** The first free block that has room for [size] bytes is taken: its offset
    and the layout that is left. *)
Fixpoint take_fit (size : Z) (bs : layout) : option (Z * layout) :=
  match bs with
  | [] => None
  | (sz, u) :: bs' =>
      if negb u && (size + 12 <=? sz) then Some (0, taken size sz ++ bs')
      else match take_fit size bs' with Some (o, r) => Some (sz + o, (sz, u) :: r) | None => None end
  end.

Lemma take_fit_small size bs : Forall block_ok bs -> total bs < size + 12 -> take_fit size bs = None.
Proof.
  induction 1 as [|[sz u] bs [Hb _] Hok IH]; intros Ht; [done|]. cbn [total fst take_fit] in *. pose proof (total_nonneg bs Hok).
  rewrite (proj2 (Z.leb_gt _ _)), andb_false_r, IH by lia. done.
Qed.

(** The blocks in front of the lowest free one. *)
Lemma free_off_split size bs : exists bs1 bs2, bs = bs1 ++ bs2 /\ free_off bs = total bs1 /\
  take_fit size bs = match take_fit size bs2 with Some (o, r) => Some (total bs1 + o, bs1 ++ r) | None => None end.
Proof.
  induction bs as [|[sz u] bs (bs1 & bs2 & E1 & E2 & E3)]; [by exists [], []|]. destruct u.
  - exists ((sz, true) :: bs1), bs2. cbn [app free_off total fst take_fit negb andb]. rewrite E1 at 1. split; [done|]. split; [lia|]. rewrite E3. destruct (take_fit size bs2) as [[o r]|]; [|done].
    do 2 f_equal. lia.
  - exists [], ((sz, false) :: bs). split; [done|]. split; [done|]. destruct (take_fit size ((sz, false) :: bs)) as [[o r]|]; done.
Qed.

(** The size for which a block is sought. *)
Definition rounded (size : Z) : Z := Z.max 12 ((size + 3) / 4 * 4).

Lemma align_size size : 0 <= size < 4294967293 -> LWIP_MEM_ALIGN_SIZE size = (size + 3) / 4 * 4.
Proof.
  intros H. unfold LWIP_MEM_ALIGN_SIZE, MEM_ALIGNMENT. replace (size + 4 - 1) with (size + 3) by lia. rewrite (u32_small (size + 3)) by lia. change (4 - 1) with (Z.ones 2).
  rewrite <- Z.ldiff_land, Z.ldiff_ones_r, Z.shiftl_mul_pow2, Z.shiftr_div_pow2 by lia. change (2 ^ 2) with 4.
  apply u32_small. pose proof (Z.div_mod (size + 3) 4 ltac:(lia)). pose proof (Z.mod_pos_bound (size + 3) 4 ltac:(lia)). lia.
Qed.

Lemma rounded_ok size : 0 <= size -> 12 <= rounded size /\ rounded size mod 4 = 0 /\ size <= rounded size.
Proof.
  intros H. unfold rounded. pose proof (Z.div_mod (size + 3) 4 ltac:(lia)). pose proof (Z.mod_pos_bound (size + 3) 4 ltac:(lia)). split; [lia|]. split; [|lia].
  destruct (Z.max_spec 12 ((size + 3) / 4 * 4)) as [[_ ->]|[_ ->]]; [by apply Z_mod_mult|done].
Qed.

(** Free blocks in a row are joined. *)
Fixpoint plug (bs : layout) : layout :=
  match bs with
  | [] => []
  | (sz, u) :: bs' =>
      match plug bs' with
      | (sz2, u2) :: r => if u || u2 then (sz, u) :: (sz2, u2) :: r else (sz + sz2, false) :: r
      | [] => [(sz, u)]
      end
  end.

Lemma plug_id bs : plugged bs -> plug bs = bs.
Proof. induction bs as [|[sz u] bs IH]; [done|]. intros [H1 H2]. cbn [plug]. rewrite IH by done. destruct bs as [|[sz2 u2] r]; [done|]. by rewrite H1. Qed.

Lemma plug_app bs1 bs2 : plugged (bs1 ++ plug bs2) -> plug (bs1 ++ bs2) = bs1 ++ plug bs2.
Proof.
  induction bs1 as [|[sz u] bs1 IH]; [done|]. cbn [app plugged plug]. intros [H1 H2]. rewrite IH by done. destruct (bs1 ++ plug bs2) as [|[sz2 u2] r]; [done|]. by rewrite H1.
Qed.

Lemma plugged_join bs1 bs2 : plugged bs1 -> plugged bs2 -> (forall bs a, bs1 <> bs ++ [(a, false)]) -> plugged (bs1 ++ bs2).
Proof.
  induction bs1 as [|[a u] bs1 IH]; intros H1 H2 Hl; [done|]. destruct H1 as [H1 H1']. split.
  - destruct bs1 as [|[c d] bs1]; [|done]. cbn [app]. destruct bs2 as [|[c d] bs2]; [done|]. destruct u; [done|]. by destruct (Hl [] a).
  - apply IH; try done. intros bs c ->. by apply (Hl ((a, u) :: bs) c).
Qed.

Lemma free_off_plug bs : free_off (plug bs) = free_off bs.
Proof.
  induction bs as [|[sz u] bs IH]; [done|]. cbn [plug free_off]. rewrite <- IH. destruct (plug bs) as [|[sz2 u2] r]; destruct u; try done. cbn [orb]. by destruct u2.
Qed.

Lemma free_off_cases bs1 : Forall block_ok bs1 ->
  (forall bs2, free_off (bs1 ++ bs2) = total bs1 + free_off bs2) \/
  (0 <= free_off bs1 < total bs1 /\ forall bs2, free_off (bs1 ++ bs2) = free_off bs1).
Proof.
  induction 1 as [|[sz u] bs1 [Hb _] Hok IH]; [by left|]. cbn [fst] in Hb. pose proof (total_nonneg bs1 Hok). cbn [app free_off total fst]. destruct u; [|by right; split; [lia|]].
  destruct IH as [IH|[H1 IH]]; [left|right; split; [lia|]]; intros bs2; rewrite IH; lia.
Qed.

Lemma free_off_le bs sz r : Forall block_ok bs -> free_off (bs ++ (sz, false) :: r) <= total bs.
Proof. intros H. destruct (free_off_cases bs H) as [Hc|[Hc1 Hc2]]; [rewrite Hc; cbn; lia|]. rewrite Hc2. lia. Qed.

Lemma free_off_nonneg bs : Forall block_ok bs -> 0 <= free_off bs.
Proof. induction 1 as [|[sz u] bs [Hb _] _ IH]; [done|]. cbn [free_off fst] in *. destruct u; lia. Qed.

Lemma blocks_count bs : Forall block_ok bs -> 24 * Z.of_nat (length bs) <= total bs.
Proof. induction 1 as [|b bs [Hb _] _ IH]; [done|]. cbn [length total]. lia. Qed.

Section Heap.
Variable base : Z.

(** The list of [struct mem] from offset [o] on, whose first one has [prev]. *)
Fixpoint headers (m : bmem) (prev o : Z) (bs : layout) : Prop :=
  match bs with
  | [] => True
  | b :: bs' => header m (base + o) (o + b.1) prev b.2 /\ headers m o (o + b.1) bs'
  end.

Lemma headers_app m bs1 : forall prev o bs2,
  headers m prev o (bs1 ++ bs2) <-> headers m prev o bs1 /\ headers m (lastoff prev o bs1) (o + total bs1) bs2.
Proof using Type.
  induction bs1 as [|b bs1 IH]; intros prev o bs2; cbn [app headers lastoff total]; [rewrite Z.add_0_r; tauto|].
  rewrite IH, Z.add_assoc. tauto.
Qed.

Lemma header_ext m m' a n p u : (forall x, a <= x < a + 12 -> m' x = m x) -> header m a n p u -> header m' a n p u.
Proof using Type. intros H (E1 & E2 & E3). split_and!; (erewrite load_ext; [done|]); intros x Hx; apply H; lia. Qed.

Lemma headers_ext m m' bs : forall prev o, Forall block_ok bs -> (forall x, base + o <= x < base + o + total bs -> m' x = m x) ->
  headers m prev o bs -> headers m' prev o bs.
Proof using Type.
  induction bs as [|b bs IH]; intros prev o Hok H; [done|]. apply list.Forall_cons in Hok as [[Hb _] Hok]. pose proof (total_nonneg bs Hok). cbn [headers total] in *.
  intros [H1 H2]. split; [eapply header_ext; [|done]; intros x Hx; apply H; lia|]. apply IH; [done| |done]. intros x Hx. apply H. lia.
Qed.

(** The first of the blocks gets another [prev]. *)
Lemma headers_reprev m m' prev prev' o bs : Forall block_ok bs ->
  (forall x, base + o <= x < base + o + total bs -> ~ (base + o + 4 <= x < base + o + 8) -> m' x = m x) ->
  (bs <> [] -> load_le 4 m' (base + o + 4) = prev') -> headers m prev o bs -> headers m' prev' o bs.
Proof using Type.
  intros Hok H Hp. destruct bs as [|b bs]; [done|]. apply list.Forall_cons in Hok as [[Hb _] Hok]. pose proof (total_nonneg bs Hok). cbn [headers total] in *.
  intros [(E1 & E2 & E3) H2]. split.
  - split_and!; [|by apply Hp|]; (erewrite load_ext; [done|]); intros x Hx; apply H; lia.
  - apply (headers_ext m); [done| |done]. intros x Hx. apply H; lia.
Qed.

(** Some blocks in the middle are replaced by others. *)
Lemma headers_splice m m' bs1 mid mid' bs2 : Forall block_ok bs1 -> Forall block_ok bs2 -> total mid' = total mid ->
  headers m 0 0 (bs1 ++ mid ++ bs2) ->
  (forall x, base <= x < base + total bs1 -> m' x = m x) ->
  headers m' (lastoff 0 0 bs1) (total bs1) mid' ->
  (forall x, base + total bs1 + total mid <= x < base + total bs1 + total mid + total bs2 ->
     ~ (base + total bs1 + total mid + 4 <= x < base + total bs1 + total mid + 8) -> m' x = m x) ->
  (bs2 <> [] -> load_le 4 m' (base + total bs1 + total mid + 4) = lastoff (lastoff 0 0 bs1) (total bs1) mid') ->
  headers m' 0 0 (bs1 ++ mid' ++ bs2).
Proof using Type.
  intros Hok1 Hok2 Ht H H1 Hm H2 Hp. rewrite !headers_app in *. destruct H as (Hh1 & Hhm & Hh2). rewrite !Z.add_0_l in *.
  split; [apply (headers_ext m); [done| |done]; intros x Hx; apply H1; lia|]. split; [done|].
  apply (headers_reprev m) with (prev := lastoff (lastoff 0 0 bs1) (total bs1) mid); [done|..|by rewrite Ht].
  - intros x Hx Hn. apply H2; lia.
  - intros Hne. rewrite <- Hp by done. f_equal. lia.
Qed.

(** The state of the allocator. *)
Record heap_ok (s : lw) (bs : layout) : Prop := {
  hk_base : base mod 4 = 0 /\ 0 < base /\ base + MEM + 12 <= 4294967296;
  hk_ram : ram s = base;
  hk_end : ram_end s = base + MEM;
  hk_headers : headers (lw_mem s) 0 0 bs;
  hk_total : total bs = MEM;
  hk_blocks : Forall block_ok bs;
  hk_plugged : plugged bs;
  hk_lfree : lfree s = base + free_off bs;
  hk_used : load_le 1 (lw_mem s) (base + MEM + 8) = 1
}.

(** [x] belongs to the contents of a block in use. *)
Fixpoint used_byte (o : Z) (bs : layout) (x : Z) : Prop :=
  match bs with
  | [] => False
  | (sz, u) :: bs' => (u = true /\ base + o + 12 <= x < base + o + sz) \/ used_byte (o + sz) bs' x
  end.

Lemma used_byte_app bs1 : forall o bs2 x, used_byte o (bs1 ++ bs2) x <-> used_byte o bs1 x \/ used_byte (o + total bs1) bs2 x.
Proof using Type.
  induction bs1 as [|[sz u] bs1 IH]; intros o bs2 x; cbn [app used_byte total fst]; [rewrite Z.add_0_r; tauto|]. rewrite IH, Z.add_assoc. tauto.
Qed.

Lemma used_byte_range bs : forall o x, Forall block_ok bs -> used_byte o bs x -> base + o + 12 <= x < base + o + total bs.
Proof using Type.
  induction bs as [|[sz u] bs IH]; intros o x Hok H; [done|]. apply list.Forall_cons in Hok as [[Hb _] Hok]. cbn [fst total] in *. pose proof (total_nonneg bs Hok).
  destruct H as [[_ H]|H%IH]; [lia|lia|done].
Qed.

(** What an operation leaves alone: everything outside the heap, and what was
    in use. *)
Definition kept (bs : layout) (s s' : lw) : Prop :=
  forall x, x < base \/ base + MEM + 12 <= x \/ used_byte 0 bs x -> lw_mem s' x = lw_mem s x.

Lemma lfree_loop_run bs : forall prev o fuel s, Forall block_ok bs -> ram s = base -> ram_end s = base + MEM -> headers (lw_mem s) prev o bs ->
  o + total bs = MEM -> load_le 1 (lw_mem s) (base + MEM + 8) = 1 -> 0 < base -> base + MEM + 12 <= 4294967296 -> 0 <= o -> lfree s = base + o -> (length bs < fuel)%nat ->
  lfree_loop fuel s = NRet tt (set_lfree (base + o + free_off bs) s).
Proof using Type.
  assert (Hset : forall s l, lfree s = l -> set_lfree l s = s) by (by intros [] ? <-).
  induction bs as [|[sz u] bs IH]; intros prev o fuel s Hok Hr He Hh Ht Hu Hb0 Hb Ho Hl Hf; (destruct fuel as [|fuel]; [lia|]); cbn [lfree_loop]; rewrite !nbind_get; unfold mem_used; rewrite nbind_load, Hl.
  - cbn [total] in Ht. replace o with MEM by lia. rewrite Hu, He, Z.eqb_refl. cbn [negb andb Z.eqb free_off]. rewrite Hset; [done|lia].
  - apply list.Forall_cons in Hok as [[Hb1 _] Hok]. cbn [headers total fst snd] in *. destruct Hh as [(E1 & E2 & E3) Hh]. rewrite E3. pose proof (total_nonneg bs Hok).
    destruct u; cbn [uz free_off]; [|cbn [Z.eqb negb andb]; rewrite Hset by lia; done]. rewrite (proj2 (Z.eqb_neq (base + o) (ram_end s))) by lia. cbn [Z.eqb negb andb].
    unfold mem_next, ram_at. rewrite nbind_load, nbind_get, nbind_modify, E1, Hr, u32_small by lia.
    cbn [length] in Hf. rewrite (IH o (o + sz)) by (done || lia || (cbn [lfree set_lfree]; lia)). f_equal. unfold set_lfree. cbn [lw_mem ram ram_end memp_tab]. f_equal. lia.
Qed.

(** A block is divided into one in use, which is marked when it was free, and a
    free one. *)
Definition split_mem (mark : bool) (m : bmem) (o size n : Z) : bmem :=
  let m := store_le 1 m (base + (o + 12 + size) + 8) 0 in
  let m := store_le 4 m (base + (o + 12 + size)) n in
  let m := store_le 4 m (base + (o + 12 + size) + 4) o in
  let m := store_le 4 m (base + o) (o + 12 + size) in
  let m := if mark then store_le 1 m (base + o + 8) 1 else m in
  if n =? MEM then m else store_le 4 m (base + n + 4) (o + 12 + size).

Lemma split_headers mark m o size n prev : 0 <= o -> 12 <= size -> o + size + 36 <= n -> n <= MEM -> load_le 4 m (base + o + 4) = prev ->
  (mark = false -> load_le 1 m (base + o + 8) = 1) ->
  headers (split_mem mark m o size n) prev o [(size + 12, true); (n - o - size - 12, false)] /\
  (n <> MEM -> load_le 4 (split_mem mark m o size n) (base + n + 4) = o + 12 + size) /\
  forall x, ~ (base + o <= x < base + o + 12) -> ~ (base + o + 12 + size <= x < base + o + 24 + size) -> ~ (base + n + 4 <= x < base + n + 8) ->
    split_mem mark m o size n x = m x.
Proof using Type.
  intros Ho Hs Hn Hm Hp Hmk. unfold split_mem. cbn [headers fst snd]. split; [|split].
  - unfold header. replace (o + (size + 12)) with (o + 12 + size) by lia. destruct mark, (n =? MEM); split_and!; try done; mem_load; rewrite ?Z.mod_small by lia; done || lia || (cbn [uz]; rewrite ?Hmk by done; lia).
  - intros Hne. rewrite (proj2 (Z.eqb_neq _ _)) by done. mem_load. apply Z.mod_small. lia.
  - intros x H1 H2 H3. destruct mark, (n =? MEM); rewrite ?store_other by (cbn [Z.of_nat Pos.of_succ_nat Pos.succ]; lia); done.
Qed.

Definition take_mem (m : bmem) (o size sz : Z) : bmem := if size + 36 <=? sz then split_mem true m o size (o + sz) else store_le 1 m (base + o + 8) 1.

Lemma taken_total size sz : total (taken size sz) = sz.
Proof using Type. unfold taken. destruct (_ <=? _); cbn [total fst]; lia. Qed.

(** The memory after taking a block. *)
Lemma take_headers s bs1 sz bs2 size : heap_ok s (bs1 ++ (sz, false) :: bs2) -> 12 <= size -> size + 12 <= sz ->
  let m' := take_mem (lw_mem s) (total bs1) size sz in
  headers m' 0 0 (bs1 ++ taken size sz ++ bs2) /\ load_le 1 m' (base + MEM + 8) = 1 /\
  (forall x, x < base \/ base + MEM + 12 <= x \/ used_byte 0 (bs1 ++ (sz, false) :: bs2) x -> m' x = lw_mem s x).
Proof using Type.
  intros H Hs Hf m'. pose proof (hk_blocks _ _ H) as [Hok1 [[Hb _] Hok2]%list.Forall_cons]%list.Forall_app. cbn [fst] in Hb. pose proof (hk_headers _ _ H) as Hh.
  pose proof (hk_total _ _ H) as Ht. rewrite total_app in Ht. cbn [total fst] in Ht. pose proof (total_nonneg bs1 Hok1). pose proof (total_nonneg bs2 Hok2).
  set (o := total bs1) in *. pose proof Hh as [_ [(E1 & E2 & E3) E4]]%headers_app. cbn [fst snd] in *. rewrite Z.add_0_l in *. fold o in E1, E2, E3, E4.
  assert (Hu : forall x, used_byte 0 (bs1 ++ (sz, false) :: bs2) x -> x < base + o \/ base + o + sz + 12 <= x).
  { intros x [Hx|[Hx|Hx]]%used_byte_app; [apply (used_byte_range bs1) in Hx; [lia|done]|by destruct Hx|]. apply (used_byte_range bs2) in Hx; [lia|done]. }
  assert (Hfr : forall x, x < base + o \/ (base + o + sz <= x /\ ~ (base + o + sz + 4 <= x < base + o + sz + 8)) \/ base + MEM + 8 <= x -> m' x = lw_mem s x).
  { intros x Hx. unfold m', take_mem. destruct (Z.leb_spec (size + 36) sz).
    - destruct (split_headers true (lw_mem s) o size (o + sz) (lastoff 0 0 bs1)) as (_ & _ & Hx'); try lia. apply Hx'; lia.
    - apply store_other. cbn. lia. }
  split; [|split].
  - apply (headers_splice (lw_mem s) m' bs1 [(sz, false)] (taken size sz) bs2); try done; cbn [total fst]; rewrite ?taken_total, ?Z.add_0_r; fold o.
    + done.
    + intros x Hx. apply Hfr. lia.
    + unfold m', take_mem, taken. destruct (Z.leb_spec (size + 36) sz).
      * destruct (split_headers true (lw_mem s) o size (o + sz) (lastoff 0 0 bs1)) as (Hx & _); try done; try lia. by replace (o + sz - o - size - 12) with (sz - size - 12) in Hx by lia.
      * cbn [headers fst snd]. split; [|done]. split_and!; mem_load; done.
    + intros x Hx Hn. apply Hfr. lia.
    + intros Hne. destruct bs2 as [|b2 bs2]; [done|]. apply list.Forall_cons in Hok2 as [[Hb2 _] Hok2]. pose proof (total_nonneg bs2 Hok2). cbn [total] in Ht. cbn [headers] in E4. destruct E4 as [(_ & E4 & _) _].
      unfold m', take_mem, taken. destruct (Z.leb_spec (size + 36) sz); cbn [lastoff fst].
      * destruct (split_headers true (lw_mem s) o size (o + sz) (lastoff 0 0 bs1)) as (_ & Hx & _); try done; try lia. rewrite <- (Z.add_assoc base), Hx by lia. lia.
      * mem_load. by rewrite Z.add_assoc in E4.
  - rewrite <- (hk_used _ _ H). apply load_ext. intros x Hx. apply Hfr. cbn in Hx. lia.
  - intros x [Hx|[Hx|Hx]]; apply Hfr; [lia|lia|]. apply Hu in Hx. lia.
Qed.

Lemma heap_ram s bs i : heap_ok s bs -> 0 <= i <= MEM -> u32 (ram s + i) = base + i.
Proof using Type. intros H Hi. destruct (hk_base _ _ H) as (_ & H1 & H2). rewrite (hk_ram _ _ H). apply u32_small. lia. Qed.

(** The layout that is left satisfies the invariant. *)
Lemma taken_ok s bs1 sz bs2 size : heap_ok s (bs1 ++ (sz, false) :: bs2) -> 12 <= size -> size mod 4 = 0 -> size + 12 <= sz ->
  Forall block_ok (bs1 ++ taken size sz ++ bs2) /\ total (bs1 ++ taken size sz ++ bs2) = MEM /\ plugged (bs1 ++ taken size sz ++ bs2).
Proof using Type.
  intros H Hs Ha Hf. pose proof (hk_blocks _ _ H) as [Hok1 [[Hb Hbm] Hok2]%list.Forall_cons]%list.Forall_app. cbn [fst] in *.
  pose proof (hk_total _ _ H) as Ht. pose proof (hk_plugged _ _ H) as Hp. rewrite !total_app in *. cbn [total fst] in Ht. rewrite taken_total. split_and!; [|lia|].
  - apply list.Forall_app. split; [done|]. apply list.Forall_app. split; [|done]. unfold taken. destruct (Z.leb_spec (size + 36) sz); repeat constructor; cbn [fst]; try lia; try done.
    + by rewrite <- Z.add_mod_idemp_l, Ha by lia.
    + rewrite Zminus_mod, (Zminus_mod sz), Hbm, Ha. done.
  - pose proof (plugged_app _ _ Hp) as [_ Hp2]. unfold taken. destruct (Z.leb_spec (size + 36) sz); cbn [app];
      apply (plugged_change bs1 sz false bs2); try done; cbn [plugged] in *; destruct bs2 as [|[? ?] ?]; naive_solver.
Qed.

Lemma malloc_mark_run s bs1 sz bs2 size : heap_ok s (bs1 ++ (sz, false) :: bs2) -> 12 <= size -> size + 12 <= sz ->
  malloc_mark (total bs1) size (base + total bs1) s = NRet tt (set_lw_mem (take_mem (lw_mem s) (total bs1) size sz) s).
Proof using Type.
  intros H Hs Hf. pose proof (hk_blocks _ _ H) as [Hok1 [[Hb _] Hok2]%list.Forall_cons]%list.Forall_app. cbn [fst] in Hb. destruct (hk_base _ _ H) as (B1 & B2 & B3).
  pose proof (hk_total _ _ H) as Ht. rewrite total_app in Ht. cbn [total fst] in Ht. pose proof (total_nonneg bs1 Hok1). pose proof (total_nonneg bs2 Hok2).
  set (o := total bs1) in *. pose proof (hk_headers _ _ H) as [_ [(E1 & E2 & E3) _]]%headers_app. cbn [fst snd] in *. rewrite Z.add_0_l in *. fold o in E1, E2, E3.
  unfold malloc_mark, mem_next, ram_at, set_used, set_next, set_prev, take_mem. rewrite nbind_load, struct_size, min_size, mem_size, E1, !(u32_small (size + _ + _)), (u32_small (o + sz - _)) by lia.
  replace (size + 12 + 12 <=? o + sz - (o + 12)) with (size + 36 <=? sz) by (destruct (Z.leb_spec (size + 36) sz), (Z.leb_spec (size + 12 + 12) (o + sz - (o + 12))); done || lia).
  destruct (Z.leb_spec (size + 36) sz); [|done]. nsteps. rewrite (u32_small (o + 12 + size)), (heap_ram _ _ _ H) by lia.
  mem_load. rewrite E1, (Z.mod_small (o + sz)) by (cbn; lia). unfold split_mem. destruct (Z.eqb_spec (o + sz) MEM); cbn [negb].
  - unfold mret, N_ret, set_lw_mem. cbn [lw_mem ram ram_end lfree memp_tab]. done.
  - nsteps. rewrite (heap_ram _ _ _ H) by lia. done.
Qed.

Lemma heap_fuel_ok bs : Forall block_ok bs -> total bs <= MEM -> (length bs < heap_fuel)%nat.
Proof using Type. intros H Ht. pose proof (blocks_count bs H). unfold heap_fuel. change (MEM_SIZE_ALIGNED / SIZEOF_STRUCT_MEM) with 185685. lia. Qed.

Lemma free_off_free m bs : forall prev o, headers m prev o bs -> free_off bs = total bs \/ load_le 1 m (base + o + free_off bs + 8) = 0.
Proof using Type.
  induction bs as [|[sz u] bs IH]; intros prev o Hh; [by left|]. cbn [headers fst snd total free_off] in *. destruct Hh as [(_ & _ & E) Hh]. destruct u.
  - destruct (IH _ _ Hh) as [Hf|Hf]; [left; lia|]. right. rewrite <- Hf. f_equal. lia.
  - right. by rewrite Z.add_0_r.
Qed.

(** The lowest free block, after a block in front of which all are in use was taken. *)
Lemma malloc_lfree s bs1 sz bs2 size m' : heap_ok s (bs1 ++ (sz, false) :: bs2) ->
  headers m' 0 0 (bs1 ++ taken size sz ++ bs2) -> load_le 1 m' (base + MEM + 8) = 1 -> Forall block_ok (bs1 ++ taken size sz ++ bs2) -> total (bs1 ++ taken size sz ++ bs2) = MEM ->
  let s1 := set_lw_mem m' s in
  exists l, (if base + total bs1 =? lfree s1 then
     lfree_loop heap_fuel ;;
     l ← nget lfree;
     e ← nget ram_end;
     u ← mem_used l;
     LWIP_ASSERT "mem_malloc: !lfree->used" ((l =? e) || (u =? 0))
   else mret tt) s1 = NRet tt (set_lfree l s1) /\ l = base + free_off (bs1 ++ taken size sz ++ bs2).
Proof using Type.
  intros H Hh He Hok Ht s1. destruct (hk_base _ _ H) as (B1 & B2 & B3). pose proof Hok as [Hok1 Hok2]%list.Forall_app. rewrite total_app in Ht.
  pose proof (total_nonneg _ Hok1) as T1. pose proof (total_nonneg _ Hok2) as T2.
  cbn [lfree set_lw_mem s1]. rewrite (hk_lfree _ _ H). eexists. split; [|reflexivity]. destruct (free_off_cases bs1 Hok1) as [Hc|[Hc1 Hc2]].
  - rewrite !Hc. cbn [free_off]. rewrite Z.add_0_r, Z.eqb_refl. apply headers_app in Hh as [_ Hh]. rewrite Z.add_0_l in Hh.
    pose proof (lfree_loop_run (taken size sz ++ bs2) _ (total bs1) heap_fuel s1 Hok2 (hk_ram _ _ H) (hk_end _ _ H) Hh ltac:(lia) He B2 B3 T1) as E.
    rewrite Z.add_assoc. rewrite (nbind_run _ _ _ _ _ (E ltac:(cbn; rewrite (hk_lfree _ _ H), Hc; cbn [free_off]; lia) (heap_fuel_ok _ Hok2 ltac:(lia)))).
    rewrite !nbind_get. unfold mem_used. rewrite nbind_load. cbn [lfree ram_end lw_mem set_lfree set_lw_mem s1]. rewrite (hk_end _ _ H).
    destruct (free_off_free _ _ _ _ Hh) as [Ef|Ef]; [|by rewrite Ef, orb_true_r]. rewrite (proj2 (Z.eqb_eq _ (base + MEM))) by lia. done.
  - rewrite !Hc2, (proj2 (Z.eqb_neq _ _)) by lia. unfold mret, N_ret, s1, set_lfree, set_lw_mem. cbn [lw_mem ram ram_end lfree memp_tab]. by rewrite (hk_lfree _ _ H), Hc2.
Qed.

Lemma malloc_take_run s bs1 sz bs2 size : heap_ok s (bs1 ++ (sz, false) :: bs2) -> 12 <= size -> size mod 4 = 0 -> size + 12 <= sz ->
  exists s', malloc_take (total bs1) size (base + total bs1) s = NRet (base + total bs1 + 12) s' /\
    heap_ok s' (bs1 ++ taken size sz ++ bs2) /\ kept (bs1 ++ (sz, false) :: bs2) s s'.
Proof using Type.
  intros H Hs Ha Hf. destruct (take_headers s bs1 sz bs2 size H Hs Hf) as (Hh & He & Hk). destruct (taken_ok s bs1 sz bs2 size H Hs Ha Hf) as (Hok' & Ht' & Hp').
  destruct (hk_base _ _ H) as (B1 & B2 & B3). pose proof (hk_blocks _ _ H) as [Hok1 [_ Hok2]%list.Forall_cons]%list.Forall_app.
  pose proof (hk_total _ _ H) as Ht. rewrite total_app in Ht. cbn [total fst] in Ht. pose proof (total_nonneg bs1 Hok1) as T1. pose proof (total_nonneg bs2 Hok2) as T2. pose proof (total_mod bs1 Hok1) as T3.
  unfold malloc_take. rewrite (nbind_run _ _ _ _ _ (malloc_mark_run s bs1 sz bs2 size H Hs Hf)), nbind_get.
  destruct (malloc_lfree s bs1 sz bs2 size _ H Hh He Hok' Ht') as (l & El & ->). rewrite (nbind_run _ _ _ _ _ El), nbind_get.
  cbn [ram_end set_lfree set_lw_mem]. rewrite (hk_end _ _ H), struct_size, (u32_small (base + total bs1 + 12 + size)), (u32_small (base + total bs1 + 12)) by lia.
  assert (Em : (base + total bs1) mod 4 = 0) by (rewrite Z.add_mod, B1, T3 by lia; done).
  rewrite !nbind_assert; [|apply Z.eqb_eq; change (MEM_ALIGNMENT - 1) with (Z.ones 2); by rewrite land_low by lia|apply Z.eqb_eq; unfold MEM_ALIGNMENT; by rewrite Z.add_mod, Em by lia|apply Z.leb_le; lia].
  eexists. split; [reflexivity|]. split; [|done]. constructor; try done; apply H.
Qed.

Lemma malloc_loop_run size bs2 : forall bs1 fuel s, heap_ok s (bs1 ++ bs2) -> 12 <= size <= MEM -> size mod 4 = 0 -> (length bs2 < fuel)%nat ->
  match take_fit size bs2 with
  | None => malloc_loop fuel (total bs1) size s = NRet 0 s
  | Some (o, bs2') => exists s', malloc_loop fuel (total bs1) size s = NRet (base + (total bs1 + o) + 12) s' /\ heap_ok s' (bs1 ++ bs2') /\ kept (bs1 ++ bs2) s s'
  end.
Proof using Type.
  induction bs2 as [|[sz u] bs2 IH]; intros bs1 fuel s H Hs Ha Hf; (destruct fuel as [|fuel]; [lia|]); cbn [malloc_loop]; rewrite mem_size, (u32_small (MEM - size)) by lia;
    pose proof (hk_total _ _ H) as Ht; rewrite total_app in Ht; pose proof (hk_blocks _ _ H) as [Hok1 Hok2]%list.Forall_app; pose proof (total_nonneg bs1 Hok1) as T1.
  - cbn [total] in Ht. rewrite (proj2 (Z.ltb_ge _ _)) by lia. done.
  - pose proof Hok2 as [[Hb _] Hok2']%list.Forall_cons. pose proof (total_nonneg bs2 Hok2') as T2. destruct (Z.ltb_spec (total bs1) (MEM - size)).
    2: { rewrite take_fit_small by (done || lia). done. }
    cbn [total fst take_fit] in *. pose proof (hk_headers _ _ H) as [_ [(E1 & _ & E3) _]]%headers_app. cbn [fst snd] in *. rewrite Z.add_0_l in *.
    unfold ram_at, mem_used, mem_next. rewrite nbind_get, !nbind_load, (heap_ram _ _ _ H) by lia. rewrite E1, E3, struct_size, u32_small by lia.
    replace (uz u =? 0) with (negb u) by (by destruct u). replace (size <=? total bs1 + sz - (total bs1 + 12)) with (size + 12 <=? sz)
      by (destruct (Z.leb_spec (size + 12) sz), (Z.leb_spec size (total bs1 + sz - (total bs1 + 12))); done || lia).
    destruct (negb u && (size + 12 <=? sz)) eqn:Efit; bool_prop.
    + destruct u; [done|]. destruct (malloc_take_run s bs1 sz bs2 size H) as (s' & E & H' & Hk); try lia; try done. exists s'. by rewrite Z.add_0_r.
    + cbn [length] in Hf. specialize (IH (bs1 ++ [(sz, u)]) fuel s). rewrite <- !app_assoc in IH. cbn [app] in IH. specialize (IH H Hs Ha ltac:(lia)).
      assert (Et : total (bs1 ++ [(sz, u)]) = total bs1 + sz) by (rewrite total_app; cbn; lia). rewrite Et in IH. destruct (take_fit size bs2) as [[o r]|]; [|done].
      destruct IH as (s' & E & H' & Hk). exists s'. rewrite <- app_assoc in H'. cbn [app] in H'. split; [|done]. rewrite E. f_equal. lia.
Qed.

Lemma mem_malloc_run size bs s : heap_ok s bs -> 0 < size <= MEM ->
  match take_fit (rounded size) bs with
  | None => mem_malloc size s = NRet 0 s
  | Some (o, bs') => exists s', mem_malloc size s = NRet (base + o + 12) s' /\ heap_ok s' bs' /\ kept bs s s'
  end.
Proof using Type.
  intros H Hs. destruct (rounded_ok size ltac:(lia)) as (R1 & R2 & R3). unfold mem_malloc. rewrite (proj2 (Z.eqb_neq size 0)), align_size, min_size, mem_size by lia.
  assert (Er : (if (size + 3) / 4 * 4 <? 12 then 12 else (size + 3) / 4 * 4) = rounded size) by (unfold rounded; destruct (Z.ltb_spec ((size + 3) / 4 * 4) 12); lia). rewrite Er.
  assert (R4 : rounded size <= MEM). { unfold rounded. pose proof (Z.div_le_mono (size + 3) (MEM + 3) 4 ltac:(lia) ltac:(lia)) as Hd. change ((MEM + 3) / 4) with 557056 in Hd. lia. }
  rewrite (proj2 (Z.ltb_ge MEM _)) by done. destruct (free_off_split (rounded size) bs) as (bs1 & bs2 & -> & E2 & ->). rewrite nbind_get. unfold ram_off. rewrite nbind_get, (hk_lfree _ _ H), (hk_ram _ _ H), E2.
  pose proof (hk_total _ _ H) as Ht. rewrite total_app in Ht. pose proof (hk_blocks _ _ H) as [Hok1 Hok2]%list.Forall_app. pose proof (total_nonneg bs1 Hok1). pose proof (total_nonneg bs2 Hok2).
  replace (base + total bs1 - base) with (total bs1) by lia. rewrite u32_small by lia.
  pose proof (malloc_loop_run (rounded size) bs2 bs1 heap_fuel s H ltac:(lia) R2 (heap_fuel_ok _ Hok2 ltac:(lia))) as Hl. by destruct (take_fit (rounded size) bs2) as [[o r]|].
Qed.

(** ** Freeing *)

(** The lists in memory, whatever is joined. *)
Record heap_mem (m : bmem) (bs : layout) : Prop := {
  hm_headers : headers m 0 0 bs;
  hm_total : total bs = MEM;
  hm_blocks : Forall block_ok bs;
  hm_used : load_le 1 m (base + MEM + 8) = 1
}.

(** Two blocks at [o] are joined: [next] of the first goes to [n]. *)
Definition join_mem (m : bmem) (o n : Z) : bmem := store_le 4 (store_le 4 m (base + o) n) (base + n + 4) o.

Lemma join_heap m bs1 a u b bs2 : heap_mem m (bs1 ++ (a, u) :: (b, false) :: bs2) ->
  heap_mem (join_mem m (total bs1) (total bs1 + a + b)) (bs1 ++ (a + b, u) :: bs2) /\
  forall x, ~ (base + total bs1 <= x < base + total bs1 + 4) -> ~ (base + (total bs1 + a + b) + 4 <= x < base + (total bs1 + a + b) + 8) ->
    join_mem m (total bs1) (total bs1 + a + b) x = m x.
Proof using Type.
  intros [Hh Ht Hok He]. rewrite total_app in Ht. cbn [total fst] in Ht. pose proof Hok as [Hok1 [[Ha Ham] [[Hb Hbm] Hok2]%list.Forall_cons]%list.Forall_cons]%list.Forall_app. cbn [fst] in *.
  pose proof (total_nonneg bs1 Hok1). pose proof (total_nonneg bs2 Hok2). set (o := total bs1) in *. set (m' := join_mem m o (o + a + b)).
  assert (Hfr : forall x, ~ (base + o <= x < base + o + 4) -> ~ (base + (o + a + b) + 4 <= x < base + (o + a + b) + 8) -> m' x = m x).
  { intros x H1 H2. unfold m', join_mem. rewrite !store_other by (cbn; lia). done. }
  split; [|done]. constructor.
  - change ((a + b, u) :: bs2) with ([(a + b, u)] ++ bs2). apply (headers_splice m m' bs1 [(a, u); (b, false)] [(a + b, u)] bs2); try done; cbn [total fst]; fold o; rewrite ?Z.add_0_r.
    + lia.
    + intros x Hx. apply Hfr; lia.
    + pose proof Hh as [_ [(E1 & E2 & E3) _]]%headers_app. rewrite Z.add_0_l in *. fold o in E1, E2, E3. cbn [headers fst snd] in *. split; [|done]. unfold m', join_mem. split_and!; mem_load; try done.
      rewrite Z.mod_small by (cbn; lia). lia.
    + intros x Hx Hn. apply Hfr; lia.
    + intros _. cbn [lastoff]. unfold m', join_mem. replace (base + o + (a + b) + 4) with (base + (o + a + b) + 4) by lia. rewrite load_same. apply Z.mod_small. cbn; lia.
  - rewrite total_app. cbn [total fst]. fold o. lia.
  - apply list.Forall_app. split; [done|]. constructor; [|done]. split; cbn [fst]; [lia|]. by rewrite Z.add_mod, Ham, Hbm by lia.
  - rewrite <- He. apply load_ext. intros x Hx. apply Hfr; cbn in Hx; lia.
Qed.

Lemma join_kept s bs1 a u b bs2 : heap_mem (lw_mem s) (bs1 ++ (a, u) :: (b, false) :: bs2) ->
  kept (bs1 ++ (a, u) :: (b, false) :: bs2) s (set_lw_mem (join_mem (lw_mem s) (total bs1) (total bs1 + a + b)) s).
Proof using Type.
  intros H x Hx. cbn [lw_mem set_lw_mem]. pose proof (hm_total _ _ H) as Ht. rewrite total_app in Ht. cbn [total fst] in Ht.
  pose proof (hm_blocks _ _ H) as [Hok1 [[Ha _] [[Hb _] Hok2]%list.Forall_cons]%list.Forall_cons]%list.Forall_app. cbn [fst] in *. pose proof (total_nonneg bs1 Hok1). pose proof (total_nonneg bs2 Hok2).
  destruct (join_heap _ _ _ _ _ _ H) as [_ Hfr]. assert (Hu : used_byte 0 (bs1 ++ (a, u) :: (b, false) :: bs2) x ->
    x < base + total bs1 \/ base + total bs1 + 12 <= x < base + total bs1 + a \/ base + (total bs1 + a + b) + 12 <= x).
  { intros [Hx'|[[_ Hx']|[[Hx' _]|Hx']]]%used_byte_app; [apply used_byte_range in Hx'; [lia|done]|lia|done|apply used_byte_range in Hx'; [lia|done]]. }
  apply Hfr; intros Hn; destruct Hx as [Hx|[Hx|Hx%Hu]]; lia.
Qed.

Lemma kept_refl bs s : kept bs s s.
Proof using Type. by intros x _. Qed.

Lemma kept_trans bs s s1 s2 : kept bs s s1 -> kept bs s1 s2 -> kept bs s s2.
Proof using Type. intros H1 H2 x Hx. rewrite H2, H1; done. Qed.

(** [bs'] has the blocks in use that [bs] has. *)
Lemma kept_weaken bs bs' s s' : (forall x, used_byte 0 bs x -> used_byte 0 bs' x) -> kept bs' s s' -> kept bs s s'.
Proof using Type. intros H Hk x Hx. apply Hk. destruct Hx as [Hx|[Hx|Hx]]; auto. Qed.

Definition forward (sz : Z) (bs2 : layout) : layout := match bs2 with (b, false) :: r => (sz + b, false) :: r | _ => (sz, false) :: bs2 end.

Lemma plug_forward_run s bs1 sz bs2 : ram s = base -> ram_end s = base + MEM -> 0 < base -> base + MEM + 12 <= 4294967296 ->
  heap_mem (lw_mem s) (bs1 ++ (sz, false) :: bs2) -> lfree s <= base + total bs1 ->
  exists m', plug_forward (base + total bs1) s = NRet tt (set_lw_mem m' s) /\ heap_mem m' (bs1 ++ forward sz bs2) /\ kept (bs1 ++ (sz, false) :: bs2) s (set_lw_mem m' s).
Proof using Type.
  intros Hr He B2 B3 H Hl. pose proof (hm_total _ _ H) as Ht. rewrite total_app in Ht. cbn [total fst] in Ht. assert (Hset : set_lw_mem (lw_mem s) s = s) by (by destruct s).
  pose proof (hm_blocks _ _ H) as [Hok1 [[Ha _] Hok2]%list.Forall_cons]%list.Forall_app. cbn [fst] in *. pose proof (total_nonneg bs1 Hok1). pose proof (total_nonneg bs2 Hok2).
  pose proof (hm_headers _ _ H) as [_ [(E1 & E2 & E3) E4]]%headers_app. rewrite Z.add_0_l in *. cbn [fst snd] in *. set (o := total bs1) in *.
  unfold plug_forward, mem_next, mem_used, ram_at, ram_off, set_next, set_prev. rewrite nbind_get, nbind_load, E1, nbind_get, Hr, u32_small, nbind_load, He by lia.
  rewrite (proj2 (Z.eqb_neq (base + o) (base + (o + sz)))) by lia. cbn [negb andb].
  destruct bs2 as [|[b u] bs2].
  - cbn [total] in Ht. replace (o + sz) with MEM by lia. rewrite (hm_used _ _ H). exists (lw_mem s). rewrite Hset. split; [done|]. split; [done|apply kept_refl].
  - cbn [headers fst snd] in E4. destruct E4 as [(F1 & F2 & F3) _]. rewrite F3. apply list.Forall_cons in Hok2 as [[Hb _] Hok2]. cbn [fst total] in *. pose proof (total_nonneg bs2 Hok2).
    rewrite (proj2 (Z.eqb_neq (base + (o + sz)) (base + MEM))) by lia. destruct u; cbn [uz Z.eqb negb andb forward].
    + exists (lw_mem s). rewrite Hset. split; [done|]. split; [done|apply kept_refl].
    + rewrite nbind_get, (proj2 (Z.eqb_neq (lfree s) (base + (o + sz)))) by lia. nsteps. mem_load. rewrite F1, Hr, u32_small, u32_small by lia.
      replace (base + o - base) with o by lia. exists (join_mem (lw_mem s) o (o + sz + b)). split; [done|]. split; [by apply join_heap|by apply join_kept].
Qed.

(** The last block of [bs1], when it is free, is joined with what follows. *)
Lemma plug_backward_run s bs1 sz bs2 : ram s = base -> 0 < base -> base + MEM + 12 <= 4294967296 ->
  heap_mem (lw_mem s) (bs1 ++ (sz, false) :: bs2) ->
  (forall bs a, bs1 = bs ++ [(a, false)] -> lfree s <= base + total bs) ->
  exists m' bs', plug_backward (base + total bs1) s = NRet tt (set_lw_mem m' s) /\ heap_mem m' bs' /\ kept (bs1 ++ (sz, false) :: bs2) s (set_lw_mem m' s) /\
    ((forall bs a, bs1 <> bs ++ [(a, false)]) /\ bs' = bs1 ++ (sz, false) :: bs2 \/ exists bs a, bs1 = bs ++ [(a, false)] /\ bs' = bs ++ (a + sz, false) :: bs2).
Proof using Type.
  intros Hr B2 B3 H Hl. pose proof (hm_total _ _ H) as Ht. rewrite total_app in Ht. cbn [total fst] in Ht. assert (Hset : set_lw_mem (lw_mem s) s = s) by (by destruct s).
  pose proof (hm_blocks _ _ H) as [Hok1 [[Ha _] Hok2]%list.Forall_cons]%list.Forall_app. cbn [fst] in *. pose proof (total_nonneg bs1 Hok1). pose proof (total_nonneg bs2 Hok2).
  pose proof (hm_headers _ _ H) as [E0 [(E1 & E2 & E3) E4]]%headers_app. rewrite Z.add_0_l in *. cbn [fst snd] in *.
  unfold plug_backward, mem_next, mem_prev, mem_used, ram_at, ram_off, set_next, set_prev. rewrite nbind_load, E2, nbind_get, Hr.
  destruct bs1 as [|[a u] bs1 _] using rev_ind.
  - cbn [lastoff total]. rewrite u32_small, Z.eqb_refl by lia. rewrite nbind_load. cbn [negb andb]. exists (lw_mem s), ((sz, false) :: bs2). rewrite Hset. split; [done|]. split; [done|]. split; [apply kept_refl|].
    left. split; [|done]. by intros [] ?.
  - apply list.Forall_app in Hok1 as [Hok1 [[Hb _] _]%list.Forall_cons]. cbn [fst] in Hb. rewrite lastoff_app, total_app in *. cbn [lastoff total fst] in *. pose proof (total_nonneg bs1 Hok1).
    apply headers_app in E0 as [_ [(F1 & F2 & F3) _]]. rewrite !Z.add_0_l, ?Z.add_0_r in *. cbn [fst snd] in *. rewrite u32_small, nbind_load, F3 by lia.
    rewrite (proj2 (Z.eqb_neq (base + total bs1) (base + (total bs1 + a)))) by lia. destruct u; cbn [uz Z.eqb negb andb].
    + exists (lw_mem s), ((bs1 ++ [(a, true)]) ++ (sz, false) :: bs2). rewrite Hset. split; [done|]. split; [done|]. split; [apply kept_refl|]. left. split; [|done]. intros bs c [_ E]%app_inj_tail. done.
    + rewrite nbind_get. pose proof (Hl bs1 a eq_refl). rewrite (proj2 (Z.eqb_neq (lfree s) (base + (total bs1 + a)))) by lia. nsteps. mem_load. rewrite E1, Hr, u32_small, u32_small by lia.
      replace (base + total bs1 - base) with (total bs1) by lia. exists (join_mem (lw_mem s) (total bs1) (total bs1 + a + sz)), (bs1 ++ (a + sz, false) :: bs2). rewrite <- app_assoc in *. cbn [app] in *.
      split; [done|]. split; [by apply join_heap|]. split; [by apply join_kept|]. right. by exists bs1, a.
Qed.

Lemma forward_plug sz bs2 : plugged bs2 -> plug ((sz, false) :: bs2) = forward sz bs2 /\ plugged (forward sz bs2).
Proof using Type.
  intros H. cbn [plug]. rewrite (plug_id bs2 H). destruct bs2 as [|[b [|]] r]; cbn [forward orb plugged] in *; [done|naive_solver|]. split; [done|]. destruct r as [|[c d] r]; naive_solver.
Qed.

Lemma plug_result bs1 sz bs2 sz' bs2' bs' : plugged bs1 -> plugged bs2 -> forward sz bs2 = (sz', false) :: bs2' ->
  ((forall bs a, bs1 <> bs ++ [(a, false)]) /\ bs' = bs1 ++ (sz', false) :: bs2' \/ exists bs a, bs1 = bs ++ [(a, false)] /\ bs' = bs ++ (a + sz', false) :: bs2') ->
  plug (bs1 ++ (sz, false) :: bs2) = bs' /\ plugged bs'.
Proof using Type.
  intros H1 H2 Ef H. destruct (forward_plug sz bs2 H2) as [Ep Hp]. destruct H as [[Hl ->]|(bs & a & -> & ->)].
  - assert (Hj : plugged (bs1 ++ plug ((sz, false) :: bs2))) by (rewrite Ep; by apply plugged_join). rewrite plug_app, Ep, <- Ef in * by done. by rewrite Ef in *.
  - assert (Ea : plug ((a, false) :: (sz, false) :: bs2) = (a + sz', false) :: bs2') by (change (plug ((a, false) :: (sz, false) :: bs2)) with
      (match plug ((sz, false) :: bs2) with (c, d) :: r => if d then (a, false) :: (c, d) :: r else (a + c, false) :: r | [] => [(a, false)] end); by rewrite Ep, Ef).
    assert (Hj : plugged (bs ++ (a + sz', false) :: bs2')).
    { apply (plugged_change bs a false []); [done..|]. rewrite Ef in Hp. cbn [plugged] in *. destruct bs2' as [|[c d] r]; naive_solver. }
    split; [|done]. rewrite <- app_assoc. cbn [app]. rewrite plug_app; rewrite Ea; done.
Qed.

(** The byte [used] is cleared. *)
Lemma free_mark s bs1 sz bs2 : heap_ok s (bs1 ++ (sz, true) :: bs2) ->
  let m' := store_le 1 (lw_mem s) (base + total bs1 + 8) 0 in
  heap_mem m' (bs1 ++ (sz, false) :: bs2) /\ kept (bs1 ++ (sz, true) :: bs2) s (set_lw_mem m' s).
Proof using Type.
  intros H m'. pose proof (hk_blocks _ _ H) as [Hok1 [[Hb Hbm] Hok2]%list.Forall_cons]%list.Forall_app. cbn [fst] in *. pose proof (hk_total _ _ H) as Ht.
  rewrite total_app in Ht. cbn [total fst] in Ht. pose proof (total_nonneg bs1 Hok1). pose proof (total_nonneg bs2 Hok2).
  pose proof (hk_headers _ _ H) as Hh. pose proof Hh as [_ [(E1 & E2 & E3) E4]]%headers_app. rewrite Z.add_0_l in *. cbn [fst snd] in *.
  assert (Hfr : forall x, ~ (base + total bs1 <= x < base + total bs1 + 12) -> m' x = lw_mem s x) by (intros x Hx; unfold m'; rewrite store_other by (cbn; lia); done).
  split.
  - constructor.
    + change ((sz, false) :: bs2) with ([(sz, false)] ++ bs2). apply (headers_splice (lw_mem s) m' bs1 [(sz, true)] [(sz, false)] bs2); try done; cbn [total fst]; rewrite ?Z.add_0_r.
      * intros x Hx. apply Hfr. lia.
      * cbn [headers fst snd]. split; [|done]. unfold m'. split_and!; mem_load; done.
      * intros x Hx _. apply Hfr. lia.
      * intros Hne. cbn [lastoff]. destruct bs2 as [|b2 bs2]; [done|]. destruct E4 as [(_ & E4 & _) _]. rewrite Z.add_assoc in E4. rewrite (load_ext 4 (lw_mem s)); [done|]. intros x Hx. apply Hfr. cbn in Hx. lia.
    + rewrite total_app. cbn [total fst]. lia.
    + apply list.Forall_app. split; [done|]. by constructor.
    + rewrite <- (hk_used _ _ H). apply load_ext. intros x Hx. apply Hfr. cbn in Hx. lia.
  - intros x Hx. cbn [lw_mem set_lw_mem]. apply Hfr. intros Hn. destruct Hx as [Hx|[Hx|[Hx|[[_ Hx]|Hx]]%used_byte_app]]; try lia; (apply used_byte_range in Hx; [lia|done]).
Qed.

Lemma plug_holes_run s bs1 sz bs2 : ram s = base -> ram_end s = base + MEM -> 0 < base -> base + MEM + 12 <= 4294967296 ->
  heap_mem (lw_mem s) (bs1 ++ (sz, false) :: bs2) -> plugged bs1 -> plugged bs2 -> lfree s = base + free_off (bs1 ++ (sz, false) :: bs2) ->
  exists m', plug_holes (base + total bs1) s = NRet tt (set_lw_mem m' s) /\ heap_mem m' (plug (bs1 ++ (sz, false) :: bs2)) /\
    plugged (plug (bs1 ++ (sz, false) :: bs2)) /\ kept (bs1 ++ (sz, false) :: bs2) s (set_lw_mem m' s).
Proof using Type.
  intros Hr He B2 B3 H Hp1 Hp2 Hl. pose proof (hm_total _ _ H) as Ht. rewrite total_app in Ht. cbn [total fst] in Ht.
  pose proof (hm_blocks _ _ H) as [Hok1 [[Hb _] Hok2]%list.Forall_cons]%list.Forall_app. cbn [fst] in *. pose proof (total_nonneg bs1 Hok1). pose proof (total_nonneg bs2 Hok2).
  pose proof (hm_headers _ _ H) as [_ [(F1 & F2 & F3) _]]%headers_app. rewrite Z.add_0_l in *. cbn [fst snd] in *.
  unfold plug_holes, mem_used, mem_next. rewrite !nbind_get, Hr, He. rewrite !nbind_assert by (apply Z.leb_le || apply Z.ltb_lt; lia). rewrite nbind_load, F3, nbind_assert, nbind_load, F1, mem_size by done.
  rewrite nbind_assert by (apply Z.leb_le; lia). pose proof (free_off_le bs1 sz bs2 Hok1) as Lf.
  destruct (plug_forward_run s bs1 sz bs2 Hr He B2 B3 H ltac:(lia)) as (m1 & E1 & Hm1 & Hk1). rewrite (nbind_run _ _ _ _ _ E1).
  assert (Ef : exists sz' bs2', forward sz bs2 = (sz', false) :: bs2') by (destruct bs2 as [|[b [|]] r]; cbn [forward]; eauto). destruct Ef as (sz' & bs2' & Ef). rewrite Ef in Hm1.
  destruct (plug_backward_run (set_lw_mem m1 s) bs1 sz' bs2' Hr B2 B3 Hm1) as (m2 & bs' & E2 & Hm2 & Hk2 & Hb').
  { intros bs a Hbs. cbn [lfree set_lw_mem]. subst bs1. apply list.Forall_app in Hok1 as [Hok1 _]. rewrite <- app_assoc in Hl. cbn [app] in Hl. pose proof (free_off_le bs a ((sz, false) :: bs2) Hok1). lia. }
  destruct (plug_result bs1 sz bs2 sz' bs2' bs' Hp1 Hp2 Ef Hb') as [Ep Hp]. rewrite Ep. exists m2. split; [by rewrite E2|]. split; [done|]. split; [done|].
  apply (kept_trans _ _ _ _ Hk1). refine (kept_weaken _ _ _ _ _ Hk2). intros x. rewrite <- Ef, !used_byte_app. intros [Hx|Hx]; [by left|right].
  destruct bs2 as [|[b [|]] r]; cbn [forward used_byte] in *; try done. right. rewrite Z.add_assoc. destruct Hx as [[Hx _]|[[Hx _]|Hx]]; done.
Qed.

Lemma mem_free_run s bs1 sz bs2 : heap_ok s (bs1 ++ (sz, true) :: bs2) ->
  exists s', mem_free (base + total bs1 + 12) s = NRet tt s' /\ heap_ok s' (plug (bs1 ++ (sz, false) :: bs2)) /\ kept (bs1 ++ (sz, false) :: bs2) s s'.
Proof using Type.
  intros H. pose proof (hk_blocks _ _ H) as [Hok1 [[Hb Hbm] Hok2]%list.Forall_cons]%list.Forall_app. cbn [fst] in *. pose proof (hk_total _ _ H) as Ht.
  rewrite total_app in Ht. cbn [total fst] in Ht. pose proof (total_nonneg bs1 Hok1). pose proof (total_nonneg bs2 Hok2). destruct (hk_base _ _ H) as (B1 & B2 & B3).
  pose proof (hk_plugged _ _ H) as Hp. apply plugged_app in Hp as [Hp1 [_ Hp2]]. destruct (free_mark s bs1 sz bs2 H) as [Hm Hk].
  pose proof (hk_headers _ _ H) as [_ [(E1 & E2 & E3) _]]%headers_app. rewrite Z.add_0_l in *. cbn [fst snd] in *. pose proof (total_mod bs1 Hok1) as T3.
  unfold mem_free. rewrite (proj2 (Z.eqb_neq _ 0)) by lia. rewrite nbind_assert.
  2: { apply Z.eqb_eq. change (MEM_ALIGNMENT - 1) with (Z.ones 2). rewrite land_low by lia. change (2 ^ 2) with 4. rewrite Z.add_mod, (Z.add_mod base), B1, T3 by lia. done. }
  rewrite !nbind_get, (hk_ram _ _ H), (hk_end _ _ H). rewrite nbind_assert by (apply andb_true_intro; split; [apply Z.leb_le|apply Z.ltb_lt]; lia).
  rewrite (proj2 (Z.ltb_ge _ base)), (proj2 (Z.leb_gt (base + MEM) _)) by lia. cbn [orb]. rewrite struct_size. replace (base + total bs1 + 12 - 12) with (base + total bs1) by lia. rewrite u32_small by lia.
  unfold mem_used, set_used. rewrite nbind_load, E3, nbind_assert, nbind_store, nbind_get by done. cbn [lfree set_lw_mem]. set (m' := store_le 1 (lw_mem s) (base + total bs1 + 8) 0) in *.
  set (l := base + free_off (bs1 ++ (sz, false) :: bs2)).
  assert (El : (if base + total bs1 <? lfree s then nmodify (set_lfree (base + total bs1)) else mret tt) (set_lw_mem m' s) = NRet tt (set_lfree l (set_lw_mem m' s))).
  { rewrite (hk_lfree _ _ H). unfold l. pose proof (free_off_nonneg bs2 Hok2). destruct (free_off_cases bs1 Hok1) as [Hc|[Hc1 Hc2]].
    - rewrite !Hc. cbn [free_off]. rewrite Z.add_0_r. destruct (Z.ltb_spec (base + total bs1) (base + (total bs1 + (sz + free_off bs2)))) as [_|Hge]; [done|lia].
    - rewrite !Hc2. destruct (Z.ltb_spec (base + total bs1) (base + free_off bs1)); [lia|]. unfold mret, N_ret, set_lfree, set_lw_mem. cbn [lw_mem ram ram_end memp_tab]. by rewrite (hk_lfree _ _ H), Hc2. }
  rewrite (nbind_run _ _ _ _ _ El). destruct (plug_holes_run (set_lfree l (set_lw_mem m' s)) bs1 sz bs2 (hk_ram _ _ H) (hk_end _ _ H) B2 B3 Hm Hp1 Hp2 eq_refl) as (m2 & E & [G1 G2 G3 G4] & Hpl & Hk2).
  eexists. split; [exact E|]. split.
  - constructor; try done; try apply H. cbn [lfree set_lfree set_lw_mem]. by rewrite free_off_plug.
  - intros x Hx. pose proof (Hk2 x Hx) as E'. cbn [lw_mem set_lfree set_lw_mem] in *. rewrite E'. apply (Hk x). destruct Hx as [Hx|[Hx|Hx]]; [auto..|]. right. right.
    rewrite used_byte_app in *. destruct Hx as [Hx|[[Hx _]|Hx]]; [by left|done|]. right. right. done.
Qed.

(** ** Shrinking *)

(** What becomes of a block in use of size [sz], in front of [bs2], that is to
    keep [new] bytes. *)
Definition shrunk (new sz : Z) (bs2 : layout) : layout :=
  if new =? sz - 12 then (sz, true) :: bs2
  else
    match bs2 with
    | (b, false) :: r => (new + 12, true) :: (b + (sz - 12 - new), false) :: r
    | _ => if new + 36 <=? sz then (new + 12, true) :: (sz - new - 12, false) :: bs2 else (sz, true) :: bs2
    end.

(** The end of a block, and perhaps a free one behind it, become free. *)
Lemma cut_heap s bs1 sz mid bs2 new n : heap_ok s (bs1 ++ (sz, true) :: mid ++ bs2) -> Forall (λ b, b.2 = false) mid -> n = total bs1 + sz + total mid ->
  12 <= new -> new mod 4 = 0 -> new + 12 <= sz -> new + 36 <= sz + total mid ->
  let m' := split_mem false (lw_mem s) (total bs1) new n in
  let bs' := bs1 ++ (new + 12, true) :: (sz + total mid - new - 12, false) :: bs2 in
  heap_mem m' bs' /\ kept bs' s (set_lw_mem m' s).
Proof using Type.
  intros H Hmid En H1 H1m H2 H3 m' bs'. pose proof (hk_blocks _ _ H) as [Hok1 [[Hb Hbm] [Hokm Hok2]%list.Forall_app]%list.Forall_cons]%list.Forall_app. cbn [fst] in *.
  pose proof (hk_total _ _ H) as Ht. rewrite total_app in Ht. cbn [total fst] in Ht. rewrite total_app in Ht. pose proof (total_nonneg bs1 Hok1). pose proof (total_nonneg bs2 Hok2). pose proof (total_nonneg mid Hokm).
  pose proof (total_mod mid Hokm) as Tm. set (o := total bs1) in *. pose proof (hk_headers _ _ H) as Hh. pose proof Hh as [_ [(E1 & E2 & E3) _]]%headers_app. rewrite Z.add_0_l in *. fold o in E1, E2, E3. cbn [fst snd] in *.
  destruct (split_headers false (lw_mem s) o new n (lastoff 0 0 bs1)) as (S1 & S2 & S3); try done; try lia. fold m' in S1, S2, S3. replace (n - o - new - 12) with (sz + total mid - new - 12) in S1 by lia.
  split.
  - constructor.
    + change bs' with (bs1 ++ [(new + 12, true); (sz + total mid - new - 12, false)] ++ bs2).
      apply (headers_splice (lw_mem s) m' bs1 ((sz, true) :: mid) _ bs2); try done; cbn [total fst]; fold o.
      * lia.
      * intros x Hx. apply S3; lia.
      * intros x Hx Hn. apply S3; lia.
      * intros Hne. cbn [lastoff fst]. replace (base + o + (sz + total mid) + 4) with (base + n + 4) by lia. rewrite S2; [lia|]. destruct bs2 as [|b2 bs2]; [done|]. apply list.Forall_cons in Hok2 as [[Hb2 _] Hok2].
        pose proof (total_nonneg bs2 Hok2). cbn [total] in Ht. lia.
    + unfold bs'. rewrite total_app. cbn [total fst]. fold o. lia.
    + unfold bs'. apply list.Forall_app. split; [done|]. repeat constructor; cbn [fst]; try lia; try done.
      * by rewrite <- Z.add_mod_idemp_l, H1m by lia.
      * rewrite Zminus_mod, (Zminus_mod (sz + total mid)), (Z.add_mod sz), Hbm, Tm, H1m by lia. done.
    + rewrite <- (hk_used _ _ H). apply load_ext. intros x Hx. apply S3; cbn in Hx; lia.
  - intros x Hx. cbn [lw_mem set_lw_mem]. assert (Hu : used_byte 0 bs' x -> x < base + o \/ base + o + 12 <= x < base + o + 12 + new \/ base + n + 12 <= x).
    { unfold bs'. intros [Hx'|[[_ Hx']|[[Hx' _]|Hx']]]%used_byte_app; [apply used_byte_range in Hx'; [lia|done]|fold o in Hx'; lia|done|apply used_byte_range in Hx'; [fold o in Hx'; lia|done]]. }
    apply S3; intros Hn; destruct Hx as [Hx|[Hx|Hx%Hu]]; lia.
Qed.

Lemma realloc_move_run s bs1 sz b bs2 new : heap_ok s (bs1 ++ (sz, true) :: (b, false) :: bs2) -> 12 <= new -> new mod 4 = 0 -> new + 12 < sz ->
  let bs' := bs1 ++ (new + 12, true) :: (b + (sz - 12 - new), false) :: bs2 in
  exists s', realloc_move (base + total bs1) (total bs1) (base + (total bs1 + sz)) new s = NRet tt s' /\ heap_ok s' bs' /\ kept bs' s s'.
Proof using Type.
  intros H H1 H1m H2 bs'. pose proof (hk_blocks _ _ H) as [Hok1 [[Hb _] [[Hb2 _] Hok2]%list.Forall_cons]%list.Forall_cons]%list.Forall_app. cbn [fst] in *. pose proof (hk_total _ _ H) as Ht.
  rewrite total_app in Ht. cbn [total fst] in Ht. pose proof (total_nonneg bs1 Hok1). pose proof (total_nonneg bs2 Hok2). destruct (hk_base _ _ H) as (B1 & B2 & B3).
  pose proof (hk_headers _ _ H) as [_ [(E1 & E2 & E3) [(F1 & F2 & F3) _]]]%headers_app. rewrite Z.add_0_l in *. cbn [fst snd] in *. set (o := total bs1) in *.
  destruct (cut_heap s bs1 sz [(b, false)] bs2 new (o + sz + b) H) as [Hm Hk]; try done; cbn [total fst]; fold o; try lia; [by repeat constructor|].
  cbn [total fst] in Hm, Hk. replace (sz + (b + 0) - new - 12) with (b + (sz - 12 - new)) in Hm, Hk by lia. fold o in Hm, Hk. fold bs' in Hm, Hk.
  unfold realloc_move, mem_next, ram_at, set_used, set_next, set_prev. rewrite nbind_load, F1, !nbind_get, struct_size, (u32_small (o + 12 + new)), (heap_ram _ _ _ H) by lia.
  set (l := base + free_off bs').
  assert (El : (if lfree s =? base + (o + sz) then nmodify (set_lfree (base + (o + 12 + new))) else mret tt) s = NRet tt (set_lfree l s)).
  { rewrite (hk_lfree _ _ H). unfold l, bs'. destruct (free_off_cases bs1 Hok1) as [Hc|[Hc1 Hc2]].
    - rewrite !Hc. cbn [free_off]. fold o. rewrite (proj2 (Z.eqb_eq _ _)) by lia. unfold nmodify. do 2 f_equal. lia.
    - rewrite !Hc2. fold o in Hc1. rewrite (proj2 (Z.eqb_neq _ _)) by lia. unfold mret, N_ret. f_equal. destruct s. unfold set_lfree. cbn in *. f_equal. rewrite <- (Hc2 ((sz, true) :: (b, false) :: bs2)). apply H. }
  rewrite (nbind_run _ _ _ _ _ El). nsteps. rewrite mem_size. mem_load. rewrite (Z.mod_small (o + sz + b)) by (cbn; lia).
  assert (Hfin : heap_ok (set_lw_mem (split_mem false (lw_mem s) o new (o + sz + b)) (set_lfree l s)) bs').
  { destruct Hm as [G1 G2 G3 G4]. constructor; try done; try apply H. pose proof (hk_plugged _ _ H) as Hp. apply (plugged_change bs1 sz true ((b, false) :: bs2)); [done..|].
    apply plugged_app in Hp as [_ (_ & Hp)]. cbn [plugged] in *. destruct bs2 as [|[? ?] ?]; naive_solver. }
  unfold split_mem in *. destruct (Z.eqb_spec (o + sz + b) MEM); cbn [negb].
  - eexists. split; [reflexivity|]. done.
  - nsteps. rewrite (heap_ram _ _ _ H) by lia. eexists. split; [reflexivity|]. done.
Qed.

Lemma realloc_cut_run s bs1 sz bs2 new : heap_ok s (bs1 ++ (sz, true) :: bs2) -> 12 <= new -> new mod 4 = 0 -> new + 36 <= sz ->
  (forall b r, bs2 <> (b, false) :: r) ->
  let bs' := bs1 ++ (new + 12, true) :: (sz - new - 12, false) :: bs2 in
  exists s', realloc_cut (base + total bs1) (total bs1) new s = NRet tt s' /\ heap_ok s' bs' /\ kept bs' s s'.
Proof using Type.
  intros H H1 H1m H2 Hne bs'. pose proof (hk_blocks _ _ H) as [Hok1 [[Hb _] Hok2]%list.Forall_cons]%list.Forall_app. cbn [fst] in *. pose proof (hk_total _ _ H) as Ht.
  rewrite total_app in Ht. cbn [total fst] in Ht. pose proof (total_nonneg bs1 Hok1). pose proof (total_nonneg bs2 Hok2). destruct (hk_base _ _ H) as (B1 & B2 & B3).
  pose proof (hk_headers _ _ H) as [_ [(E1 & E2 & E3) _]]%headers_app. rewrite Z.add_0_l in *. cbn [fst snd] in *. set (o := total bs1) in *.
  destruct (cut_heap s bs1 sz [] bs2 new (o + sz) H) as [Hm Hk]; try done; cbn [total fst]; fold o; try lia.
  cbn [total fst] in Hm, Hk. replace (sz + 0 - new - 12) with (sz - new - 12) in Hm, Hk by lia. fold o in Hm, Hk. fold bs' in Hm, Hk.
  unfold realloc_cut, mem_next, ram_at, set_used, set_next, set_prev. rewrite !nbind_get, struct_size, (u32_small (o + 12 + new)), (heap_ram _ _ _ H) by lia.
  set (l := base + free_off bs'). pose proof (free_off_nonneg bs2 Hok2).
  assert (El : (if base + (o + 12 + new) <? lfree s then nmodify (set_lfree (base + (o + 12 + new))) else mret tt) s = NRet tt (set_lfree l s)).
  { rewrite (hk_lfree _ _ H). unfold l, bs'. destruct (free_off_cases bs1 Hok1) as [Hc|[Hc1 Hc2]].
    - rewrite !Hc. cbn [free_off]. fold o. rewrite (proj2 (Z.ltb_lt _ _)) by lia. unfold nmodify. do 2 f_equal. lia.
    - rewrite !Hc2. fold o in Hc1. rewrite (proj2 (Z.ltb_ge _ _)) by lia. unfold mret, N_ret. f_equal. destruct s. unfold set_lfree. cbn in *. f_equal. rewrite <- (Hc2 ((sz, true) :: bs2)). apply H. }
  rewrite (nbind_run _ _ _ _ _ El). nsteps. rewrite mem_size. mem_load. rewrite E1, (Z.mod_small (o + sz)) by (cbn; lia).
  assert (Hfin : heap_ok (set_lw_mem (split_mem false (lw_mem s) o new (o + sz)) (set_lfree l s)) bs').
  { destruct Hm as [G1 G2 G3 G4]. constructor; try done; try apply H. pose proof (hk_plugged _ _ H) as Hp. apply (plugged_change bs1 sz true bs2); [done..|].
    apply plugged_app in Hp as [_ Hp]. cbn [plugged] in *. destruct bs2 as [|[c [|]] r]; [naive_solver..|]. by destruct (Hne c r). }
  unfold split_mem in *. destruct (Z.eqb_spec (o + sz) MEM); cbn [negb].
  - eexists. split; [reflexivity|]. done.
  - nsteps. rewrite (heap_ram _ _ _ H) by lia. eexists. split; [reflexivity|]. done.
Qed.

Lemma mem_realloc_run s bs1 sz bs2 newsize : heap_ok s (bs1 ++ (sz, true) :: bs2) -> 0 <= newsize -> rounded newsize <= sz - 12 ->
  exists s', mem_realloc (base + total bs1 + 12) newsize s = NRet (base + total bs1 + 12) s' /\
    heap_ok s' (bs1 ++ shrunk (rounded newsize) sz bs2) /\ kept (bs1 ++ shrunk (rounded newsize) sz bs2) s s'.
Proof using Type.
  intros H Hn Hle. pose proof (hk_blocks _ _ H) as [Hok1 [[Hb Hbm] Hok2]%list.Forall_cons]%list.Forall_app. cbn [fst] in *. pose proof (hk_total _ _ H) as Ht.
  rewrite total_app in Ht. cbn [total fst] in Ht. pose proof (total_nonneg bs1 Hok1). pose proof (total_nonneg bs2 Hok2). destruct (hk_base _ _ H) as (B1 & B2 & B3).
  destruct (rounded_ok newsize Hn) as (R1 & R2 & R3). pose proof (hk_headers _ _ H) as [_ [(E1 & E2 & E3) E4]]%headers_app. rewrite Z.add_0_l in *. cbn [fst snd] in *.
  unfold mem_realloc. rewrite align_size, min_size, mem_size by lia.
  assert (Er : (if (newsize + 3) / 4 * 4 <? 12 then 12 else (newsize + 3) / 4 * 4) = rounded newsize) by (unfold rounded; destruct (Z.ltb_spec ((newsize + 3) / 4 * 4) 12); lia). rewrite Er.
  set (new := rounded newsize) in *. rewrite (proj2 (Z.ltb_ge MEM new)), !nbind_get, (hk_ram _ _ H), (hk_end _ _ H) by lia.
  rewrite nbind_assert by (apply andb_true_intro; split; [apply Z.leb_le|apply Z.ltb_lt]; lia). rewrite (proj2 (Z.ltb_ge _ base)), (proj2 (Z.leb_gt (base + MEM) _)) by lia. cbn [orb].
  rewrite struct_size. replace (base + total bs1 + 12 - 12) with (base + total bs1) by lia. rewrite u32_small by lia. unfold ram_off, mem_next. rewrite nbind_get, nbind_load, (hk_ram _ _ H), E1.
  replace (base + total bs1 - base) with (total bs1) by lia. rewrite (u32_small (total bs1)), (u32_small (total bs1 + sz - total bs1 - 12)) by lia.
  replace (total bs1 + sz - total bs1 - 12) with (sz - 12) by lia. rewrite nbind_assert by (apply Z.leb_le; lia). rewrite (proj2 (Z.ltb_ge (sz - 12) new)) by lia. unfold shrunk.
  destruct (Z.eqb_spec new (sz - 12)); [exists s; split; [done|]; split; [done|apply kept_refl]|].
  unfold ram_at. rewrite nbind_get, (heap_ram _ _ _ H) by lia. unfold mem_used. rewrite nbind_load, u32_small by lia.
  replace (new + 12 + 12 <=? sz - 12) with (new + 36 <=? sz) by (destruct (Z.leb_spec (new + 36) sz), (Z.leb_spec (new + 12 + 12) (sz - 12)); done || lia).
  assert (Hused : load_le 1 (lw_mem s) (base + (total bs1 + sz) + 8) = match bs2 with (b, false) :: _ => 0 | _ => 1 end).
  { destruct bs2 as [|[b u] r]; [|destruct E4 as [(_ & _ & F) _]; rewrite F; by destruct u]. cbn [total] in Ht. replace (total bs1 + sz) with MEM by lia. apply H. }
  rewrite Hused. destruct bs2 as [|[b [|]] r]; cbn [Z.eqb].
  3: { destruct (realloc_move_run s bs1 sz b r new H) as (s' & E & H' & Hk); try done; try lia. exists s'. by rewrite (nbind_run _ _ _ _ _ E). }
  all: destruct (Z.leb_spec (new + 36) sz); [|exists s; split; [done|]; split; [done|apply kept_refl]].
  - destruct (realloc_cut_run s bs1 sz [] new H) as (s' & E & H' & Hk); try done; try lia. exists s'. by rewrite (nbind_run _ _ _ _ _ E).
  - destruct (realloc_cut_run s bs1 sz ((b, true) :: r) new H) as (s' & E & H' & Hk); try done; try lia. exists s'. by rewrite (nbind_run _ _ _ _ _ E).
Qed.

Lemma mem_init_run ram_heap s : base = LWIP_MEM_ALIGN ram_heap -> base mod 4 = 0 /\ 0 < base /\ base + MEM + 12 <= 4294967296 ->
  exists s', mem_init ram_heap s = NRet tt s' /\ heap_ok s' [(MEM, false)] /\ memp_tab s' = memp_tab s /\ (forall x, x < base \/ base + MEM + 12 <= x -> lw_mem s' x = lw_mem s x).
Proof using Type.
  intros Eb (B1 & B2 & B3). unfold mem_init. rewrite nbind_assert by done. unfold set_next, set_prev, set_used, ram_at. nsteps. rewrite mem_size, <- Eb, (u32_small (base + MEM)) by lia.
  eexists. split; [reflexivity|]. split.
  - constructor; try done; cbn [lw_mem ram ram_end lfree set_lfree set_lw_mem headers fst snd free_off total].
    + split; [|done]. unfold header. rewrite Z.add_0_r. split_and!; mem_load; done.
    + constructor; [split; [cbn; lia|done]|constructor].
    + lia.
    + mem_load. done.
  - split; [done|]. intros x Hx. cbn [lw_mem set_lfree set_lw_mem]. rewrite !store_other by (cbn; lia). done.
Qed.

(** ** Objects *)

(** A block in use whose contents are the [n] bytes at [p]. *)
Fixpoint used_block (o : Z) (bs : layout) (p n : Z) : Prop :=
  match bs with
  | [] => False
  | (sz, u) :: bs' => (u = true /\ p = base + o + 12 /\ n = sz - 12) \/ used_block (o + sz) bs' p n
  end.

Lemma used_block_app bs1 : forall o bs2 p n, used_block o (bs1 ++ bs2) p n <-> used_block o bs1 p n \/ used_block (o + total bs1) bs2 p n.
Proof using Type.
  induction bs1 as [|[sz u] bs1 IH]; intros o bs2 p n; cbn [app used_block total fst]; [rewrite Z.add_0_r; tauto|]. rewrite IH, Z.add_assoc. tauto.
Qed.

Lemma used_block_range bs : forall o p n, Forall block_ok bs -> used_block o bs p n -> base + o + 12 <= p /\ p + n <= base + o + total bs /\ 12 <= n.
Proof using Type.
  induction bs as [|[sz u] bs IH]; intros o p n Hok H; [done|]. apply list.Forall_cons in Hok as [[Hb _] Hok]. cbn [fst total] in *. pose proof (total_nonneg bs Hok).
  destruct H as [(_ & -> & ->)|H%IH]; [lia|lia|done].
Qed.

Lemma used_block_byte bs : forall o p n x, used_block o bs p n -> p <= x < p + n -> used_byte o bs x.
Proof using Type.
  induction bs as [|[sz u] bs IH]; intros o p n x H Hx; [done|]. destruct H as [(-> & -> & ->)|H]; [left; split; [done|lia]|right; by apply (IH _ p n)].
Qed.

Lemma used_block_split bs : forall o p n, used_block o bs p n -> exists bs1 bs2, bs = bs1 ++ (n + 12, true) :: bs2 /\ p = base + (o + total bs1) + 12.
Proof using Type.
  induction bs as [|[sz u] bs IH]; intros o p n H; [done|]. destruct H as [(-> & -> & ->)|(bs1 & bs2 & -> & ->)%IH].
  - exists [], bs. cbn [app total]. rewrite Z.add_0_r. split; [|done]. do 2 f_equal. lia.
  - exists ((sz, u) :: bs1), bs2. cbn [app total fst]. split; [done|]. lia.
Qed.

Lemma used_block_plug bs : forall o p n, used_block o (plug bs) p n <-> used_block o bs p n.
Proof using Type.
  induction bs as [|[sz u] bs IH]; intros o p n; [done|]. cbn [plug used_block]. rewrite <- IH. destruct (plug bs) as [|[sz2 u2] r]; [done|]. destruct u, u2; cbn [orb used_block]; try tauto.
  rewrite Z.add_assoc. naive_solver.
Qed.

(** Different blocks in use do not overlap. *)
Lemma used_block_apart bs : forall o p n p' n', Forall block_ok bs -> used_block o bs p n -> used_block o bs p' n' -> (p = p' /\ n = n') \/ p + n <= p' \/ p' + n' <= p.
Proof using Type.
  induction bs as [|[sz u] bs IH]; intros o p n p' n' Hok H H'; [done|]. apply list.Forall_cons in Hok as [[Hb _] Hok]. cbn [fst] in Hb.
  destruct H as [(_ & -> & ->)|H], H' as [(_ & -> & ->)|H']; [by left| | |by apply (IH (o + sz))].
  - apply used_block_range in H'; [lia|done].
  - apply used_block_range in H; [lia|done].
Qed.

(** The server's objects: what was allocated, by its address, with its bytes. *)
Notation objects := (gmap Z (list Z)).

Record store_ok (s : lw) (A : objects) (bs : layout) : Prop := {
  so_heap : heap_ok s bs;
  so_dom : forall p, is_Some (A !! p) <-> exists n, used_block 0 bs p n;
  so_data : forall p n l, used_block 0 bs p n -> A !! p = Some l -> Z.of_nat (length l) <= n /\ range (lw_mem s) (length l) p = l
}.

Definition holds (s : lw) (A : objects) : Prop := exists bs, store_ok s A bs.

(** The data of a block are still there after an operation that keeps it. *)
Lemma data_kept s s' bs p n l : kept bs s s' -> used_block 0 bs p n -> Z.of_nat (length l) <= n -> range (lw_mem s) (length l) p = l -> range (lw_mem s') (length l) p = l.
Proof using Type.
  intros Hk Hu Hl E. rewrite <- E at 2. apply range_same. intros x Hx. apply Hk. right. right. apply (used_block_byte _ _ p n); [done|lia].
Qed.

Lemma take_fit_split size bs : forall o bs', take_fit size bs = Some (o, bs') ->
  exists bs1 sz bs2, bs = bs1 ++ (sz, false) :: bs2 /\ o = total bs1 /\ size + 12 <= sz /\ bs' = bs1 ++ taken size sz ++ bs2.
Proof using Type.
  induction bs as [|[sz u] bs IH]; intros o bs' H; [done|]. cbn [take_fit] in H. destruct (negb u && (size + 12 <=? sz)) eqn:E.
  - bool_prop. destruct u; [done|]. injection H as <- <-. exists [], sz, bs. cbn. split_and!; done || lia.
  - destruct (take_fit size bs) as [[o1 r]|]; [|done]. injection H as <- <-. destruct (IH o1 r eq_refl) as (bs1 & sz' & bs2 & -> & -> & Hs & ->). by exists ((sz, u) :: bs1), sz', bs2.
Qed.

Lemma used_block_taken o size sz bs2 : size + 12 <= sz -> exists n0, size <= n0 /\ forall q n,
  used_block o (taken size sz ++ bs2) q n <-> (q = base + o + 12 /\ n = n0) \/ used_block (o + sz) bs2 q n.
Proof using Type.
  intros Hs. unfold taken. destruct (Z.leb_spec (size + 36) sz); cbn [app used_block].
  - exists size. split; [lia|]. intros q n. replace (o + (size + 12) + (sz - size - 12)) with (o + sz) by lia. replace (size + 12 - 12) with size by lia. naive_solver.
  - exists (sz - 12). split; [lia|]. intros q n. naive_solver.
Qed.

Lemma malloc_holds s A bs size : store_ok s A bs -> 0 < size <= MEM ->
  match take_fit (rounded size) bs with
  | None => mem_malloc size s = NRet 0 s
  | Some _ => exists p s' l, mem_malloc size s = NRet p s' /\ 0 < p /\ p mod 4 = 0 /\ A !! p = None /\ Z.of_nat (length l) = size /\ holds s' (<[p := l]> A)
  end.
Proof using Type.
  intros [H Hd Hl] Hs. pose proof (mem_malloc_run size bs s H Hs) as Hrun. destruct (take_fit (rounded size) bs) as [[o bs']|] eqn:Ef; [|done].
  destruct Hrun as (s' & E & H' & Hk). destruct (take_fit_split _ _ _ _ Ef) as (bs1 & sz & bs2 & -> & -> & Hsz & ->). destruct (rounded_ok size ltac:(lia)) as (R1 & R2 & R3).
  destruct (used_block_taken (total bs1) (rounded size) sz bs2 Hsz) as (n0 & Hn0 & Hub). pose proof (hk_blocks _ _ H) as [Hok1 [[Hb _] Hok2]%list.Forall_cons]%list.Forall_app. cbn [fst] in Hb.
  destruct (hk_base _ _ H) as (B1 & B2 & B3). pose proof (total_nonneg bs1 Hok1). set (p := base + total bs1 + 12) in *.
  assert (Hnew : forall q n, used_block 0 (bs1 ++ taken (rounded size) sz ++ bs2) q n <-> (q = p /\ n = n0) \/ used_block 0 (bs1 ++ (sz, false) :: bs2) q n).
  { intros q n. rewrite !used_block_app, Z.add_0_l. cbn [used_block]. rewrite <- used_block_app, Hub. naive_solver. }
  assert (Hfresh : forall n, ~ used_block 0 (bs1 ++ (sz, false) :: bs2) p n).
  { intros n [Hx|[[Hx _]|Hx]]%used_block_app; [|done|]; (apply used_block_range in Hx; [unfold p in Hx; lia|done]). }
  exists p, s', (range (lw_mem s') (Z.to_nat size) p). assert (Hlen : length (range (lw_mem s') (Z.to_nat size) p) = Z.to_nat size) by (unfold range; by rewrite length_map, length_seq).
  split; [done|]. split; [unfold p; lia|]. split; [unfold p; rewrite Z.add_mod, (Z.add_mod base), B1, (total_mod bs1 Hok1) by lia; done|].
  assert (HA : A !! p = None). { destruct (A !! p) as [l|] eqn:Ea; [|done]. destruct (proj1 (Hd p) ltac:(by eexists)) as [n Hn]. by destruct (Hfresh n). }
  split; [done|]. split; [lia|]. exists (bs1 ++ taken (rounded size) sz ++ bs2). constructor; [done|..].
  - intros q. rewrite lookup_insert_is_Some, Hd. split.
    + intros [<-|[_ [n Hn]]]; [exists n0|exists n]; apply Hnew; auto.
    + intros [n [[-> _]|Hn]%Hnew]; [by left|]. destruct (decide (p = q)) as [->|]; [by left|right; eauto].
  - intros q n l [[-> ->]|Hq]%Hnew; [rewrite lookup_insert_eq|].
    + intros [= <-]. rewrite Hlen. split; [lia|done].
    + assert (q <> p) by (intros ->; by apply (Hfresh n)). rewrite lookup_insert_ne by done. intros HAq. destruct (Hl q n l Hq HAq) as [Hle Er]. split; [done|].
      by apply (data_kept s s' (bs1 ++ (sz, false) :: bs2) q n).
Qed.

Lemma free_holds s A p : holds s A -> is_Some (A !! p) -> exists s', mem_free p s = NRet tt s' /\ holds s' (delete p A).
Proof using Type.
  intros [bs [H Hd Hl]] Hp. destruct (proj1 (Hd p) Hp) as [n Hn]. destruct (used_block_split _ _ _ _ Hn) as (bs1 & bs2 & -> & Ep). rewrite Z.add_0_l in Ep.
  pose proof (hk_blocks _ _ H) as [Hok1 [[Hb _] Hok2]%list.Forall_cons]%list.Forall_app. cbn [fst] in Hb. pose proof (total_nonneg bs1 Hok1).
  destruct (mem_free_run s bs1 (n + 12) bs2 H) as (s' & E & H' & Hk). exists s'. rewrite Ep at 1. split; [done|].
  assert (Hnew : forall q k, used_block 0 (plug (bs1 ++ (n + 12, false) :: bs2)) q k <-> q <> p /\ used_block 0 (bs1 ++ (n + 12, true) :: bs2) q k).
  { intros q k. rewrite used_block_plug, !used_block_app, Z.add_0_l. cbn [used_block]. split.
    - intros [Hx|[[Hx _]|Hx]]; [|done|]; (split; [apply used_block_range in Hx; [lia|done]|auto]).
    - intros [Hne [Hx|[(_ & Hx & _)|Hx]]]; auto. by destruct Hne; rewrite Ep. }
  exists (plug (bs1 ++ (n + 12, false) :: bs2)). constructor; [done|..].
  - intros q. rewrite lookup_delete_is_Some, Hd. split; [intros [Hne [k Hk']]; exists k; by apply Hnew|intros [k [Hne Hk']%Hnew]; split; [done|by exists k]].
  - intros q k l Hq. pose proof Hq as [Hne Hq']%Hnew. rewrite lookup_delete_ne by done. intros HA. destruct (Hl q k l Hq' HA) as [Hle Er]. split; [done|].
    apply (data_kept s s' (bs1 ++ (n + 12, false) :: bs2) q k); try done. by apply used_block_plug.
Qed.

Lemma used_block_shrunk o new sz bs2 : new + 12 <= sz -> exists n0, new <= n0 <= sz - 12 /\ forall q n,
  used_block o (shrunk new sz bs2) q n <-> (q = base + o + 12 /\ n = n0) \/ used_block (o + sz) bs2 q n.
Proof using Type.
  intros Hs. assert (Hcut : forall r, (forall q n, used_block (o + sz) r q n <-> used_block (o + sz) bs2 q n) -> exists n0, new <= n0 <= sz - 12 /\ forall q n,
    used_block o ((new + 12, true) :: (sz - new - 12, false) :: r) q n <-> (q = base + o + 12 /\ n = n0) \/ used_block (o + sz) bs2 q n).
  { intros r Hr. exists new. split; [lia|]. intros q n. rewrite <- Hr. cbn [used_block]. replace (new + 12 - 12) with new by lia. replace (o + (new + 12) + (sz - new - 12)) with (o + sz) by lia. naive_solver. }
  assert (Hsame : exists n0, new <= n0 <= sz - 12 /\ forall q n, used_block o ((sz, true) :: bs2) q n <-> (q = base + o + 12 /\ n = n0) \/ used_block (o + sz) bs2 q n).
  { exists (sz - 12). split; [lia|]. intros q n. cbn [used_block]. naive_solver. }
  unfold shrunk. destruct (new =? sz - 12); [done|]. destruct bs2 as [|[b [|]] r]; [destruct (new + 36 <=? sz); [by apply Hcut|done]..|].
  exists new. split; [lia|]. intros q n. cbn [used_block]. replace (new + 12 - 12) with new by lia. replace (o + (new + 12) + (b + (sz - 12 - new))) with (o + sz + b) by lia. naive_solver.
Qed.

Lemma rounded_le size n : size <= n -> n mod 4 = 0 -> 12 <= n -> rounded size <= n.
Proof using Type.
  intros H Hm H12. unfold rounded. pose proof (Z.div_mod n 4 ltac:(lia)). pose proof (Z.div_le_mono (size + 3) (n + 3) 4 ltac:(lia) ltac:(lia)) as Hd.
  assert ((n + 3) / 4 = n / 4) by (rewrite (Z.div_mod n 4) at 1 by lia; rewrite Hm; replace (4 * (n / 4) + 0 + 3) with (3 + n / 4 * 4) by lia; rewrite Z_div_plus_full by lia; done). lia.
Qed.

Lemma realloc_holds s A p l newsize : holds s A -> A !! p = Some l -> 0 <= newsize <= Z.of_nat (length l) ->
  exists s', mem_realloc p newsize s = NRet p s' /\ holds s' (<[p := take (Z.to_nat newsize) l]> A).
Proof using Type.
  intros [bs [H Hd Hl]] Hp Hn. destruct (proj1 (Hd p) ltac:(by eexists)) as [n Hu]. destruct (Hl p n l Hu Hp) as [Hle Er]. destruct (used_block_split _ _ _ _ Hu) as (bs1 & bs2 & -> & Ep). rewrite Z.add_0_l in Ep.
  pose proof (hk_blocks _ _ H) as [Hok1 [[Hb Hbm] Hok2]%list.Forall_cons]%list.Forall_app. cbn [fst] in *. pose proof (total_nonneg bs1 Hok1).
  assert (Hr : rounded newsize <= n). { apply rounded_le; [lia| |lia]. rewrite <- Hbm. by rewrite <- Z.add_mod_idemp_r, Z.add_0_r by lia. }
  destruct (mem_realloc_run s bs1 (n + 12) bs2 newsize H) as (s' & E & H' & Hk); [lia..|]. exists s'. split; [by rewrite Ep|].
  destruct (rounded_ok newsize ltac:(lia)) as (_ & _ & R3). destruct (used_block_shrunk (total bs1) (rounded newsize) (n + 12) bs2 ltac:(lia)) as (n0 & Hn0 & Hub).
  assert (Hnew : forall q k, used_block 0 (bs1 ++ shrunk (rounded newsize) (n + 12) bs2) q k <-> (q = p /\ k = n0) \/ (q <> p /\ used_block 0 (bs1 ++ (n + 12, true) :: bs2) q k)).
  { intros q k. rewrite !used_block_app, Z.add_0_l, Hub, Ep. cbn [used_block]. split.
    - intros [Hx|[Hx|Hx]]; [right|by left|right]; (split; [apply used_block_range in Hx; [lia|done]|auto]).
    - intros [Hx|[Hne [Hx|[(_ & Hx & _)|Hx]]]]; auto. done. }
  exists (bs1 ++ shrunk (rounded newsize) (n + 12) bs2). constructor; [done|..].
  - intros q. rewrite lookup_insert_is_Some, Hd. split.
    + intros [<-|[Hne [k Hk']]]; [exists n0; apply Hnew; auto|exists k; apply Hnew; auto].
    + intros [k [[-> _]|[Hne Hk']]%Hnew]; [by left|right; eauto].
  - intros q k l' Hq. pose proof Hq as [[-> ->]|[Hne Hq']]%Hnew.
    + rewrite lookup_insert_eq. intros [= <-]. rewrite length_take. split; [lia|]. rewrite Nat.min_l by lia. transitivity (range (lw_mem s) (Z.to_nat newsize) p).
      * apply range_same. intros x Hx. apply Hk. right. right. apply (used_block_byte _ _ p n0); [done|lia].
      * rewrite <- Er. replace (length l) with (Z.to_nat newsize + (length l - Z.to_nat newsize))%nat by lia. by rewrite range_app, take_app_length' by (by rewrite range_length).
    + rewrite lookup_insert_ne by done. intros HA. destruct (Hl q k l' Hq' HA) as [Hle' Er']. split; [done|]. by apply (data_kept s s' (bs1 ++ shrunk (rounded newsize) (n + 12) bs2) q k).
Qed.

Lemma range_put m v n : forall i p, (i < n)%nat -> range (put (p + Z.of_nat i) v m) n p = <[i := v]> (range m n p).
Proof using Type.
  induction n as [|n IH]; intros i p Hi; [lia|]. rewrite !range_S. unfold put at 1. destruct i as [|i]; cbn [insert list_insert].
  - rewrite Z.add_0_r, Z.eqb_refl. f_equal. apply range_same. intros x Hx. unfold put. by rewrite (proj2 (Z.eqb_neq _ _)) by lia.
  - rewrite (proj2 (Z.eqb_neq _ _)) by lia. f_equal. replace (p + Z.of_nat (S i)) with (p + 1 + Z.of_nat i) by lia. apply IH. lia.
Qed.

Lemma headers_put m x v bs : forall prev o, Forall block_ok bs -> used_byte o bs x -> headers m prev o bs -> headers (put x v m) prev o bs.
Proof using Type.
  induction bs as [|[sz u] bs IH]; intros prev o Hok Hx H; [done|]. pose proof (used_byte_range _ _ _ Hok Hx) as Hr. apply list.Forall_cons in Hok as [[Hb _] Hok]. cbn [fst snd headers] in *. destruct H as [H1 H2]. split.
  - apply (header_ext m); [|done]. intros y Hy. unfold put. by rewrite (proj2 (Z.eqb_neq _ _)) by lia.
  - destruct Hx as [[_ Hx]|Hx]; [|by apply IH]. apply (headers_ext m); [done| |done]. intros y Hy. unfold put. by rewrite (proj2 (Z.eqb_neq _ _)) by lia.
Qed.

(** A client writes to its own object only. *)
Lemma write_holds s A p l i v : holds s A -> A !! p = Some l -> (i < length l)%nat ->
  holds (set_lw_mem (put (p + Z.of_nat i) v (lw_mem s)) s) (<[p := <[i := v]> l]> A).
Proof using Type.
  intros [bs [H Hd Hl]] Hp Hi. destruct (proj1 (Hd p) ltac:(by eexists)) as [n Hu]. destruct (Hl p n l Hu Hp) as [Hle Er].
  pose proof (used_block_range _ _ _ _ (hk_blocks _ _ H) Hu) as Hr. pose proof (hk_total _ _ H) as Ht. exists bs. constructor.
  - pose proof H as []. constructor; try done.
    + apply headers_put; try done. by apply (used_block_byte _ _ p n); [|lia].
    + rewrite <- hk_used0. apply load_ext. intros x Hx. cbn [lw_mem set_lw_mem]. unfold put. rewrite (proj2 (Z.eqb_neq _ _)) by lia. done.
  - intros q. rewrite lookup_insert_is_Some', Hd. naive_solver.
  - intros q k l' Hq. cbn [lw_mem set_lw_mem]. destruct (decide (q = p)) as [->|Hne].
    + rewrite lookup_insert_eq. intros [= <-]. destruct (Hl p k l Hq Hp) as [Hle' _]. rewrite length_insert. split; [done|]. by rewrite range_put, Er.
    + rewrite lookup_insert_ne by done. intros HA. destruct (Hl q k l' Hq HA) as [Hle' Er']. split; [done|]. rewrite <- Er' at 2. apply range_same. intros x Hx. unfold put.
      pose proof (used_block_apart _ _ _ _ _ _ (hk_blocks _ _ H) Hu Hq). rewrite (proj2 (Z.eqb_neq _ _)) by naive_solver lia. done.
Qed.
End Heap.

Lemma take_fit_none size bs : take_fit size bs = None -> Forall (λ b, b.2 = false -> b.1 < size + 12) bs.
Proof.
  induction bs as [|[sz u] bs IH]; [constructor|]. cbn [take_fit]. destruct (negb u && (size + 12 <=? sz)) eqn:E; [done|]. destruct (take_fit size bs) as [[]|]; [done|]. intros _. constructor; [|by apply IH].
  intros Hu. cbn [fst snd] in *. subst u. cbn [negb andb] in E. bool_prop. lia.
Qed.

(** When nothing is in use the heap is one block. *)
Lemma nothing_used base s bs : store_ok base s ∅ bs -> bs = [(MEM, false)].
Proof.
  intros [H Hd _]. pose proof (hk_total _ _ _ H) as Ht. pose proof (hk_plugged _ _ _ H) as Hp.
  assert (Hf : Forall (λ b, b.2 = false) bs).
  { apply list.Forall_forall. intros [sz [|]] Hin; [|done]. exfalso. apply list_elem_of_split in Hin as (bs1 & bs2 & ->).
    destruct (proj2 (Hd (base + total bs1 + 12))) as [l Hl]; [|by rewrite lookup_empty in Hl]. exists (sz - 12). apply used_block_app. right. left. rewrite Z.add_0_l. done. }
  destruct bs as [|[sz u] [|[sz2 u2] r]]; [done| |].
  - apply list.Forall_cons in Hf as [Hu _]. cbn in Ht, Hu. subst u. do 2 f_equal. lia.
  - apply list.Forall_cons in Hf as [Hu [Hu2 _]%list.Forall_cons]. cbn in Hu, Hu2. subst. by destruct Hp as [Hp _].
Qed.

Lemma align_addr addr : 0 < addr -> addr + MEM + 15 <= 4294967296 ->
  LWIP_MEM_ALIGN addr mod 4 = 0 /\ 0 < LWIP_MEM_ALIGN addr /\ LWIP_MEM_ALIGN addr + MEM + 12 <= 4294967296.
Proof.
  intros H1 H2. change (LWIP_MEM_ALIGN addr) with (LWIP_MEM_ALIGN_SIZE addr). rewrite align_size by lia. pose proof (Z.div_mod (addr + 3) 4 ltac:(lia)). pose proof (Z.mod_pos_bound (addr + 3) 4 ltac:(lia)).
  split; [by apply Z_mod_mult|]. lia.
Qed.

Lemma init_holds ram_heap s : 0 < ram_heap -> ram_heap + MEM + 15 <= 4294967296 ->
  exists s', mem_init ram_heap s = NRet tt s' /\ holds (LWIP_MEM_ALIGN ram_heap) s' ∅.
Proof.
  intros H1 H2. destruct (mem_init_run (LWIP_MEM_ALIGN ram_heap) ram_heap s eq_refl (align_addr ram_heap H1 H2)) as (s' & E & H & _). exists s'. split; [done|]. exists [(MEM, false)]. constructor; [done| |].
  - intros p. rewrite lookup_empty. split; [by intros [? ?]|]. intros [n [[? _]|[]]]. done.
  - intros p n l _. by rewrite lookup_empty.
Qed.

(** ** The heap keeps objects *)

(** C31: The heap is a map from addresses to objects; [holds base s A]: the objects [A] are in the memory of [s].  A new heap has
    none.  [mem_malloc] adds an object at a fresh, aligned address, or returns
    NULL because every free block is too small; [mem_free] removes an object;
    [mem_realloc] cuts off its end; a write to one object changes no other one. *)
Theorem heap_keeps_objects ram_heap : 0 < ram_heap -> ram_heap + MEM + 15 <= 4294967296 ->
  let base := LWIP_MEM_ALIGN ram_heap in
  (forall s, exists s', mem_init ram_heap s = NRet tt s' /\ holds base s' ∅) /\
  (forall s A p l, holds base s A -> A !! p = Some l -> range (lw_mem s) (length l) p = l) /\
  (forall s A size, holds base s A -> 0 < size <= MEM_SIZE_ALIGNED ->
     (mem_malloc size s = NRet 0 s /\ exists bs, store_ok base s A bs /\ Forall (λ b, b.2 = false -> b.1 < rounded size + SIZEOF_STRUCT_MEM) bs) \/
     exists p s' l, mem_malloc size s = NRet p s' /\ 0 < p /\ p mod MEM_ALIGNMENT = 0 /\ A !! p = None /\ Z.of_nat (length l) = size /\ holds base s' (<[p := l]> A)) /\
  (forall s A p, holds base s A -> is_Some (A !! p) -> exists s', mem_free p s = NRet tt s' /\ holds base s' (delete p A)) /\
  (forall s A p l newsize, holds base s A -> A !! p = Some l -> 0 <= newsize <= Z.of_nat (length l) ->
     exists s', mem_realloc p newsize s = NRet p s' /\ holds base s' (<[p := take (Z.to_nat newsize) l]> A)) /\
  (forall s A p l i v, holds base s A -> A !! p = Some l -> (i < length l)%nat ->
     holds base (set_lw_mem (put (p + Z.of_nat i) v (lw_mem s)) s) (<[p := <[i := v]> l]> A)).
Proof.
  intros H1 H2 base. split_and!.
  - intros s. by apply init_holds.
  - intros s A p l [bs [H Hd Hl]] Hp. destruct (proj1 (Hd p) ltac:(by eexists)) as [n Hn]. by apply (Hl p n l).
  - intros s A size [bs H] Hs. pose proof (malloc_holds base s A bs size H Hs) as Hm. destruct (take_fit (rounded size) bs) eqn:Ef; [by right|]. left. split; [done|]. exists bs. split; [done|by apply take_fit_none].
  - intros s A p. apply free_holds.
  - intros s A p l newsize. apply realloc_holds.
  - intros s A p l i v. apply write_holds.
Qed.

(** Once every object has been freed, the whole heap can be allocated again. *)
Theorem heap_not_fragmented base s size : holds base s ∅ -> 0 < size <= MEM_SIZE_ALIGNED - SIZEOF_STRUCT_MEM ->
  exists p s' l, mem_malloc size s = NRet p s' /\ 0 < p /\ Z.of_nat (length l) = size /\ holds base s' {[p := l]}.
Proof.
  intros [bs H] Hs. rewrite mem_size, struct_size in Hs. pose proof (malloc_holds base s ∅ bs size H ltac:(lia)) as Hm. rewrite (nothing_used _ _ _ H) in Hm.
  pose proof (rounded_le size 2228212 ltac:(lia) eq_refl ltac:(lia)). cbn [take_fit negb andb] in Hm. rewrite (proj2 (Z.leb_le (rounded size + 12) MEM)) in Hm by lia.
  destruct Hm as (p & s' & l & E & Hp & _ & _ & Hl & Hh). by exists p, s', l.
Qed.

(** A memory before [mem_init]. *)
Definition lw_sample : lw := mkLw (λ _, 0) 0 0 0 [].

Lemma heap_keeps_objects_witness : exists s1 p s2 l s3,
  mem_init 4097 lw_sample = NRet tt s1 /\ mem_malloc 100 s1 = NRet p s2 /\ length l = 100%nat /\ range (lw_mem s2) 100 p = l /\
  mem_free p (set_lw_mem (put (p + 5) 77 (lw_mem s2)) s2) = NRet tt s3 /\ holds 4100 s3 ∅.
Proof.
  destruct (heap_keeps_objects 4097 ltac:(lia) ltac:(lia)) as (Hi & Hr & Hm & Hf & _ & Hw). change (LWIP_MEM_ALIGN 4097) with 4100 in *.
  destruct (Hi lw_sample) as (s1 & E1 & H1). destruct (Hm s1 ∅ 100 H1 ltac:(vm_compute; split; congruence)) as [[_ (bs & Hb & Hn)]|(p & s2 & l & E2 & _ & _ & _ & Hl & H2)].
  { exfalso. rewrite (nothing_used _ _ _ Hb) in Hn. apply list.Forall_cons in Hn as [Hn _]. vm_compute in Hn. by specialize (Hn eq_refl). }
  assert (Hlen : length l = 100%nat) by lia. pose proof (Hw s2 _ p l 5%nat 77 H2 (lookup_insert_eq _ _ _) ltac:(lia)) as H3.
  destruct (Hf _ _ p H3 ltac:(rewrite lookup_insert_eq; by eexists)) as (s3 & E3 & H4). exists s1, p, s2, l, s3. split_and!; try done.
  - rewrite <- Hlen. apply (Hr s2 _ p l H2), lookup_insert_eq.
  - by rewrite delete_insert_eq, delete_insert_eq, delete_empty in H4.
Defined.

Lemma heap_not_fragmented_witness : exists s p s' l, mem_init 4097 lw_sample = NRet tt s /\ mem_malloc 2228212 s = NRet p s' /\ Z.of_nat (length l) = 2228212 /\ holds 4100 s' {[p := l]}.
Proof.
  destruct (init_holds 4097 lw_sample) as (s & E & H); [lia..|]. destruct (heap_not_fragmented _ s 2228212 H) as (p & s' & l & E' & _ & Hl & H'); [vm_compute; split; congruence|]. by exists s, p, s', l.
Defined.
