(* ===== verification/LwipPool.v ===== *)
(** * The pools of the network server: correctness

    [memp_init] divides the memory into elements; [memp_malloc] and
    [memp_free] move elements between the free list of their pool and the
    users, and writes to an element in use do not disturb the lists. *)

From S2P Require Import Prelude LibString Bytes LwipMem LwipMemSpec.

(** A list of free elements from [h] on. *)
Fixpoint mlist (m : bmem) (h : Z) (l : list Z) : Prop :=
  match l with
  | [] => h = 0
  | a :: l' => h = a /\ a <> 0 /\ mlist m (load_le 4 m a) l'
  end.

Lemma mlist_ext m m' l : forall h, (forall a x, a ∈ l -> a <= x < a + 4 -> m' x = m x) -> mlist m h l -> mlist m' h l.
Proof.
  induction l as [|a l IH]; intros h H; [done|]. intros (-> & Ha & Hl). split_and!; [done|done|]. rewrite (load_ext 4 m).
  - apply IH; [|done]. intros b x Hb. apply H. by right.
  - intros x Hx. apply (H a); [by left|cbn in Hx; lia].
Qed.

(** The elements of the pools. *)
Definition elems (start : Z) (num : nat) (size : Z) : list Z := map (λ k, start + size * Z.of_nat k) (seq 0 num).

Fixpoint pool_elems (pools : list (Z * Z)) (start : Z) : list (list Z) :=
  match pools with
  | [] => []
  | (num, size) :: pools' => elems start (Z.to_nat num) size :: pool_elems pools' (start + num * size)
  end.

Fixpoint pools_size (pools : list (Z * Z)) : Z := match pools with [] => 0 | (num, size) :: pools' => num * size + pools_size pools' end.

Definition pool_ok (p : Z * Z) : Prop := 0 <= p.1 /\ 4 <= p.2 /\ p.2 mod 4 = 0.

(** *** Where the elements are *)

Lemma pools_size_nonneg pools : Forall pool_ok pools -> 0 <= pools_size pools.
Proof. induction 1 as [|[num size] pools (H1 & H2 & _) _ IH]; [done|]. cbn [pools_size fst snd] in *. nia. Qed.

Lemma elem_of_elems start num size a : a ∈ elems start num size <-> exists k, 0 <= k < Z.of_nat num /\ a = start + size * k.
Proof.
  unfold elems. rewrite list_elem_of_In, in_map_iff. split.
  - intros (k & <- & [_ Hk]%in_seq). exists (Z.of_nat k). split; [lia|done].
  - intros (k & Hk & ->). exists (Z.to_nat k). rewrite Z2Nat.id by lia. split; [done|]. apply in_seq. lia.
Qed.

Lemma pool_elem_range pools : forall start i E size a, Forall pool_ok pools -> pool_elems pools start !! i = Some E -> pools.*2 !! i = Some size -> a ∈ E ->
  start <= a /\ a + size <= start + pools_size pools /\ 4 <= size /\ (start mod 4 = 0 -> a mod 4 = 0).
Proof.
  induction pools as [|[num sz] pools IH]; intros start i E size a Hok HE Hs Ha; [done|]. apply list.Forall_cons in Hok as [(H1 & H2 & H3) Hok]. cbn [pools_size fst snd] in *.
  pose proof (pools_size_nonneg pools Hok). destruct i as [|i]; cbn in HE, Hs.
  - injection HE as <-. injection Hs as <-. apply elem_of_elems in Ha as (k & Hk & ->). split; [nia|]. split; [nia|]. split; [done|]. intros Hst. rewrite Z.add_mod, Hst, Z.mul_mod, H3 by lia. done.
  - destruct (IH _ _ _ _ _ Hok HE Hs Ha) as (G1 & G2 & G3 & G4). split; [nia|]. split; [lia|]. split; [done|]. intros Hst. apply G4. rewrite Z.add_mod, Hst, Z.mul_mod, H3, Z.mul_0_r by lia. done.
Qed.

(** Different elements are apart. *)
Lemma pool_elem_apart pools : forall start i j E E' size size' a b, Forall pool_ok pools ->
  pool_elems pools start !! i = Some E -> pools.*2 !! i = Some size -> a ∈ E -> pool_elems pools start !! j = Some E' -> pools.*2 !! j = Some size' -> b ∈ E' ->
  (i = j /\ a = b) \/ a + size <= b \/ b + size' <= a.
Proof.
  induction pools as [|[num sz] pools IH]; intros start i j E E' size size' a b Hok HE Hs Ha HE' Hs' Hb; [done|]. pose proof Hok as [(H1 & H2 & H3) Hok']%list.Forall_cons. cbn [fst snd] in *.
  destruct i as [|i], j as [|j]; cbn in HE, Hs, HE', Hs'.
  - simplify_eq. apply elem_of_elems in Ha as (k & Hk & ->), Hb as (k' & Hk' & ->). destruct (decide (k = k')) as [->|]; [by left|right; nia].
  - injection HE as <-. injection Hs as <-. apply elem_of_elems in Ha as (k & Hk & ->). destruct (pool_elem_range _ _ _ _ _ _ Hok' HE' Hs' Hb) as (G & _). right. left. nia.
  - injection HE' as <-. injection Hs' as <-. apply elem_of_elems in Hb as (k & Hk & ->). destruct (pool_elem_range _ _ _ _ _ _ Hok' HE Hs Ha) as (G & _). right. right. nia.
  - destruct (IH _ _ _ _ _ _ _ _ _ Hok' HE Hs Ha HE' Hs' Hb) as [[-> ->]|Hx]; [by left|by right].
Qed.

Lemma elems_nodup start num size : 0 < size -> NoDup (elems start num size).
Proof. intros H. unfold elems. apply NoDup_ListNoDup, Finite.Injective_map_NoDup; [intros k k' E; nia|]. apply seq_NoDup. Qed.

(** *** The beginning *)

Lemma elems_S start num size : elems start (S num) size = start :: elems (start + size) num size.
Proof. unfold elems. cbn [seq map]. f_equal; [lia|]. rewrite <- seq_shift, map_map. apply map_ext. intros k. lia. Qed.

Lemma memp_init_pool_run size num : 4 <= size -> forall l tab memp s, 0 < memp -> memp + Z.of_nat num * size < 4294967296 ->
  mlist (lw_mem s) tab l -> 0 <= tab < 4294967296 -> (forall a, a ∈ l -> a + 4 <= memp) ->
  exists m' tab', memp_init_pool num size tab memp s = NRet (tab', memp + Z.of_nat num * size) (set_lw_mem m' s) /\
    mlist m' tab' (rev (elems memp num size) ++ l) /\ 0 <= tab' < 4294967296 /\ forall x, x < memp \/ memp + Z.of_nat num * size <= x -> m' x = lw_mem s x.
Proof.
  intros Hs. induction num as [|num IH]; intros l tab memp s Hm Hb Hl Ht Hla.
  - exists (lw_mem s), tab. cbn [memp_init_pool Z.of_nat]. rewrite Z.mul_0_l, Z.add_0_r. destruct s. split; [done|]. split; [exact Hl|]. done.
  - cbn [memp_init_pool]. rewrite nbind_store, u32_small by nia. set (m1 := store_le 4 (lw_mem s) memp tab).
    destruct (IH (memp :: l) memp (memp + size) (set_lw_mem m1 s)) as (m' & tab' & E & H1 & H2 & H3); [nia|nia| |nia| |].
    + cbn [lw_mem set_lw_mem mlist]. split_and!; [done|lia|]. unfold m1. rewrite load_same, Z.mod_small by (cbn; lia). apply (mlist_ext (lw_mem s)); [|done]. intros a x Ha Hx. apply store_other. pose proof (Hla a Ha). cbn. lia.
    + intros a Ha. apply list_elem_of_In in Ha as [<-|Ha%list_elem_of_In]; [lia|]. pose proof (Hla a Ha). lia.
    + exists m', tab'. rewrite E. cbn [lw_mem set_lw_mem] in H3. split; [f_equal; f_equal; lia|]. split; [|split; [done|]].
      * rewrite elems_S. cbn [rev]. rewrite <- app_assoc. done.
      * intros x Hx. rewrite H3 by lia. apply store_other. cbn. nia.
Qed.

Lemma memp_init_loop_run pools : Forall pool_ok pools -> forall memp s, 0 < memp -> memp + pools_size pools < 4294967296 ->
  exists m' hs, memp_init_loop pools memp s = NRet tt (set_memp_tab (memp_tab s ++ hs) (set_lw_mem m' s)) /\ length hs = length pools /\
    (forall i E, pool_elems pools memp !! i = Some E -> exists h, hs !! i = Some h /\ mlist m' h (rev E) /\ 0 <= h < 4294967296) /\
    forall x, x < memp \/ memp + pools_size pools <= x -> m' x = lw_mem s x.
Proof.
  induction 1 as [|[num size] pools (Hn & Hs & _) Hok IH]; intros memp s Hm Hb.
  - exists (lw_mem s), []. cbn [memp_init_loop]. rewrite app_nil_r. by destruct s.
  - cbn [memp_init_loop pools_size fst snd] in *. pose proof (pools_size_nonneg pools Hok).
    destruct (memp_init_pool_run size (Z.to_nat num) Hs [] 0 memp s Hm) as (m1 & tab & E1 & L1 & R1 & F1); [rewrite Z2Nat.id; lia|done|lia|by intros a Ha%list_elem_of_In|].
    rewrite Z2Nat.id in * by done. rewrite app_nil_r in L1. rewrite (nbind_run _ _ _ _ _ E1), nbind_modify. cbn [fst snd].
    destruct (IH (memp + num * size) (set_memp_tab (memp_tab (set_lw_mem m1 s) ++ [tab]) (set_lw_mem m1 s))) as (m' & hs & E & Hl & Hh & F); [nia|lia|].
    exists m', (tab :: hs). rewrite E. cbn [memp_tab set_memp_tab set_lw_mem lw_mem] in *. split; [unfold set_memp_tab, set_lw_mem; cbn; by rewrite <- app_assoc|]. split; [cbn; lia|]. split.
    + intros [|i] E'; cbn [pool_elems lookup list_lookup]; [|by apply Hh]. intros [= <-]. exists tab. split; [done|]. split; [|done]. apply (mlist_ext m1); [|done].
      intros a x Ha Hx. apply F. left. apply list_elem_of_In, in_rev, list_elem_of_In, elem_of_elems in Ha as (k & Hk & ->). nia.
    + intros x Hx. rewrite F by (cbn; nia). apply F1. nia.
Qed.

(** *** Elements in use *)

(** [T] has the elements in use of each pool. *)
Definition pools_hold (pools : list (Z * Z)) (start : Z) (s : lw) (T : list (list Z)) : Prop :=
  length (memp_tab s) = length pools /\ length T = length pools /\
  forall i E, pool_elems pools start !! i = Some E ->
    exists f t h, T !! i = Some t /\ memp_tab s !! i = Some h /\ 0 <= h < 4294967296 /\ mlist (lw_mem s) h f /\ f ++ t ≡ₚ E.

Section Pools.
Context (pools : list (Z * Z)) (start : Z).
Hypothesis Hok : Forall pool_ok pools.
Hypothesis Hst : start mod 4 = 0 /\ 0 < start /\ start + pools_size pools < 4294967296.

Lemma pool_lookup i E : pool_elems pools start !! i = Some E -> exists num size, pools !! i = Some (num, size) /\ length E = Z.to_nat num /\ NoDup E.
Proof using Hok Hst.
  clear Hst. revert start i. induction Hok as [|[num size] l (H1 & H2 & _) H IH]; intros st [|i]; cbn [pool_elems lookup list_lookup]; [done..| |].
  - intros [= <-]. exists num, size. split; [done|]. unfold elems at 1. rewrite length_map, length_seq. split; [done|]. apply elems_nodup. cbn in H2. lia.
  - intros E'. by apply (IH ltac:(done) (st + num * size)).
Qed.

Lemma pool_elem i E a : pool_elems pools start !! i = Some E -> a ∈ E -> exists size, pools.*2 !! i = Some size /\
  start <= a /\ a + size <= start + pools_size pools /\ 4 <= size /\ a mod 4 = 0.
Proof using Hok Hst.
  intros HE Ha. destruct (pool_lookup i E HE) as (num & size & Hp & _). exists size. assert (Hs : pools.*2 !! i = Some size) by (by rewrite list_lookup_fmap, Hp). split; [done|].
  destruct (pool_elem_range pools start i E size a Hok HE Hs Ha) as (H1 & H2 & H3 & H4). repeat (split; [done|]). apply H4, Hst.
Qed.

(** The bytes of an element are not in another one. *)
Lemma pool_apart i j E E' a b : pool_elems pools start !! i = Some E -> a ∈ E -> pool_elems pools start !! j = Some E' -> b ∈ E' ->
  (i = j /\ a = b) \/ exists size size', pools.*2 !! i = Some size /\ pools.*2 !! j = Some size' /\ (a + size <= b \/ b + size' <= a).
Proof using Hok Hst.
  intros HE Ha HE' Hb. destruct (pool_elem i E a HE Ha) as (size & Hs & _), (pool_elem j E' b HE' Hb) as (size' & Hs' & _).
  destruct (pool_elem_apart pools start i j E E' size size' a b Hok HE Hs Ha HE' Hs' Hb) as [Hx|Hx]; [by left|right; by exists size, size'].
Qed.

(** Bytes of an element in use are changed. *)
Lemma pools_write s T i E t p size m' : pools_hold pools start s T -> pool_elems pools start !! i = Some E -> T !! i = Some t -> p ∈ t -> pools.*2 !! i = Some size ->
  (forall x, ~ (p <= x < p + size) -> m' x = lw_mem s x) -> pools_hold pools start (set_lw_mem m' s) T.
Proof using Hok Hst.
  intros (H1 & H2 & H3) HE HT Hp Hs Hm. split_and!; [done..|]. intros j E' HE'. destruct (H3 j E' HE') as (f & t' & h & G1 & G2 & G3 & G4 & G5). exists f, t', h. cbn [memp_tab lw_mem set_lw_mem]. split; [done|]. split; [done|]. split; [done|]. split; [|done].
  apply (mlist_ext (lw_mem s)); [|done]. intros b x Hb Hx. apply Hm. intros Hx'. cbn [lw_mem set_lw_mem] in *.
  assert (HbE : b ∈ E') by (rewrite <- G5; apply elem_of_app; by left).
  destruct (H3 i E HE) as (fi & ti & hi & I1 & _ & _ & I4 & I5). rewrite HT in I1. injection I1 as <-. assert (HpE : p ∈ E) by (rewrite <- I5; apply elem_of_app; by right).
  destruct (pool_apart i j E E' p b HE HpE HE' HbE) as [[-> ->]|(sz & sz' & S1 & S2 & S3)].
  - rewrite HE in HE'. injection HE' as <-. rewrite HT in G1. injection G1 as <-. destruct (pool_lookup j E HE) as (_ & _ & _ & _ & Hnd). rewrite <- G5 in Hnd. apply list.NoDup_app in Hnd as (_ & Hd & _). by apply (Hd b).
  - destruct (pool_elem j E' b HE' HbE) as (sz2 & T1 & _ & _ & T2 & _). simplify_eq. lia.
Qed.

Lemma memp_malloc_hold s T type E t : pools_hold pools start s T -> pool_elems pools start !! memp_index type = Some E -> T !! memp_index type = Some t ->
  (memp_malloc type s = NRet 0 s /\ t ≡ₚ E) \/
  exists p s', memp_malloc type s = NRet p s' /\ p ∈ E /\ p ∉ t /\ p mod 4 = 0 /\ lw_mem s' = lw_mem s /\ pools_hold pools start s' (<[memp_index type := p :: t]> T).
Proof using Hok Hst.
  intros (H1 & H2 & H3) HE HT. destruct (H3 _ _ HE) as (f & t' & h & G1 & G2 & G3 & G4 & G5). rewrite HT in G1. injection G1 as <-.
  unfold memp_malloc, memp_head. rewrite nbind_get, G2. cbn [default from_option id]. destruct f as [|a f]; cbn [mlist] in G4.
  - left. subst h. split; [done|by rewrite <- G5].
  - right. destruct G4 as (-> & Ha & G4). rewrite (proj2 (Z.eqb_neq a 0)) by done. cbn [negb]. unfold set_memp_head. rewrite nbind_load, nbind_modify.
    assert (HaE : a ∈ E) by (rewrite <- G5; by left). destruct (pool_elem _ E a HE HaE) as (sz & S1 & S2 & S3 & S4 & S5). rewrite nbind_assert by (by apply Z.eqb_eq).
    destruct (pool_lookup _ E HE) as (_ & _ & _ & _ & Hnd). rewrite <- G5 in Hnd. cbn [app] in Hnd. apply list.NoDup_cons in Hnd as [Hat Hnd].
    eexists a, _. split; [reflexivity|]. split; [done|]. split; [intros Hx; apply Hat, elem_of_app; by right|]. split; [done|]. split; [done|].
    unfold pools_hold. cbn [memp_tab set_memp_tab lw_mem]. split; [by rewrite length_insert|]. split; [by rewrite length_insert|]. intros j E' HE'. destruct (decide (j = memp_index type)) as [->|Hne].
    + rewrite HE in HE'. injection HE' as <-. exists f, (a :: t), (load_le 4 (lw_mem s) a). pose proof (lookup_lt_Some _ _ _ HT). pose proof (lookup_lt_Some _ _ _ G2).
      split; [by rewrite list_lookup_insert_eq|]. split; [by rewrite list_lookup_insert_eq|]. split; [|split; [done|by rewrite <- G5, <- Permutation_middle]].
      destruct f as [|b f]; [by rewrite G4|]. destruct G4 as (-> & _ & _). destruct (pool_elem _ E b HE ltac:(rewrite <- G5; by right; left)) as (? & _ & ? & ? & ? & _). lia.
    + destruct (H3 j E' HE') as (f' & t' & h' & I). exists f', t', h'. by rewrite !list_lookup_insert_ne by done.
Qed.

Lemma memp_free_hold s T type E t p : pools_hold pools start s T -> pool_elems pools start !! memp_index type = Some E -> T !! memp_index type = Some t -> p ∈ t ->
  exists s' t', memp_free type p s = NRet tt s' /\ t ≡ₚ p :: t' /\ pools_hold pools start s' (<[memp_index type := t']> T).
Proof using Hok Hst.
  intros H HE HT Hp. pose proof H as (H1 & H2 & H3). destruct (H3 _ _ HE) as (f & t1 & h & G1 & G2 & G3 & G4 & G5). rewrite HT in G1. injection G1 as <-.
  assert (HpE : p ∈ E) by (rewrite <- G5; apply elem_of_app; by right). destruct (pool_elem _ E p HE HpE) as (sz & S1 & S2 & S3 & S4 & S5).
  destruct (proj1 (elem_of_Permutation t p) Hp) as [t' Ht'].   unfold memp_free, memp_head. rewrite (proj2 (Z.eqb_neq p 0)), nbind_assert by (lia || by apply Z.eqb_eq). rewrite nbind_get, G2, nbind_store. cbn [default from_option id].
  set (m' := store_le 4 (lw_mem s) p h). assert (Hw : pools_hold pools start (set_lw_mem m' s) T).
  { apply (pools_write s T (memp_index type) E t p sz); try done. intros x Hx. apply store_other. cbn. lia. }
  eexists _, t'. split; [reflexivity|]. split; [done|]. destruct Hw as (_ & _ & W3). unfold pools_hold. cbn [memp_tab set_memp_tab set_lw_mem lw_mem] in *. rewrite !length_insert. split; [done|]. split; [done|].
  intros j E' HE'. destruct (decide (j = memp_index type)) as [->|Hne].
  - rewrite HE in HE'. injection HE' as <-. destruct (W3 _ _ HE) as (f1 & t1 & h1 & I1 & I2 & I3 & I4 & I5). simplify_eq. exists (p :: f1), t', p. pose proof (lookup_lt_Some _ _ _ HT). pose proof (lookup_lt_Some _ _ _ G2).
    split; [by rewrite list_lookup_insert_eq|]. split; [by rewrite list_lookup_insert_eq|]. split; [lia|]. split; [|by rewrite <- I5, Ht', <- Permutation_middle].
    cbn [mlist]. split; [done|]. split; [lia|]. unfold m' at 2. rewrite load_same, Z.mod_small by (cbn; lia). done.
  - destruct (W3 j E' HE') as (f' & t2 & h' & I). exists f', t2, h'. by rewrite !list_lookup_insert_ne by done.
Qed.
End Pools.

Lemma memp_init_hold pools memory s : Forall pool_ok pools -> 0 < memory -> memory + 3 + pools_size pools < 4294967296 ->
  exists s', memp_init pools memory s = NRet tt s' /\ pools_hold pools (LWIP_MEM_ALIGN memory) s' (replicate (length pools) []).
Proof.
  intros Hok H1 H2. pose proof (pools_size_nonneg pools Hok). change (LWIP_MEM_ALIGN memory) with (LWIP_MEM_ALIGN_SIZE memory). unfold memp_init. change (LWIP_MEM_ALIGN memory) with (LWIP_MEM_ALIGN_SIZE memory).
  rewrite nbind_modify, align_size by lia. pose proof (Z.div_mod (memory + 3) 4 ltac:(lia)). pose proof (Z.mod_pos_bound (memory + 3) 4 ltac:(lia)).
  destruct (memp_init_loop_run pools Hok ((memory + 3) / 4 * 4) (set_memp_tab [] s)) as (m' & hs & E & Hl & Hh & _); [lia..|]. eexists. split; [exact E|].
  unfold pools_hold. cbn [memp_tab set_memp_tab set_lw_mem lw_mem app]. split; [done|]. split; [by rewrite length_replicate|]. intros i E' HE. destruct (Hh i E' HE) as (h & G1 & G2 & G3).
  exists (rev E'), [], h. rewrite app_nil_r. split; [apply lookup_replicate_2; rewrite <- Hl; by apply lookup_lt_Some in G1|]. split; [done|]. split; [done|]. split; [done|]. symmetry. apply Permutation_rev.
Qed.

(** C38: The pools keep their elements: every element of a pool is free or in use
    ([T] lists those in use).  [memp_malloc] gives an aligned element that was
    not in use, and NULL only when all are; [memp_free] gives it back; writes
    to an element in use change nothing of that. *)
Theorem pools_keep_elements pools memory : Forall pool_ok pools -> length pools = MEMP_MAX -> 0 < memory -> memory + 3 + pools_size pools < 4294967296 ->
  let start := LWIP_MEM_ALIGN memory in
  (forall s, exists s', memp_init pools memory s = NRet tt s' /\ pools_hold pools start s' (replicate MEMP_MAX [])) /\
  (forall s T type E t, pools_hold pools start s T -> pool_elems pools start !! memp_index type = Some E -> T !! memp_index type = Some t ->
     (memp_malloc type s = NRet 0 s /\ t ≡ₚ E) \/
     exists p s', memp_malloc type s = NRet p s' /\ p ∈ E /\ p ∉ t /\ p mod MEM_ALIGNMENT = 0 /\ lw_mem s' = lw_mem s /\ pools_hold pools start s' (<[memp_index type := p :: t]> T)) /\
  (forall s T type E t p, pools_hold pools start s T -> pool_elems pools start !! memp_index type = Some E -> T !! memp_index type = Some t -> p ∈ t ->
     exists s' t', memp_free type p s = NRet tt s' /\ t ≡ₚ p :: t' /\ pools_hold pools start s' (<[memp_index type := t']> T)) /\
  (forall s T type E t p size m', pools_hold pools start s T -> pool_elems pools start !! memp_index type = Some E -> T !! memp_index type = Some t -> p ∈ t ->
     pools.*2 !! memp_index type = Some size -> (forall x, ~ (p <= x < p + size) -> m' x = lw_mem s x) -> pools_hold pools start (set_lw_mem m' s) T).
Proof.
  intros Hok Hl H1 H2 start. pose proof (pools_size_nonneg pools Hok).
  assert (Hst : start mod 4 = 0 /\ 0 < start /\ start + pools_size pools < 4294967296).
  { unfold start. change (LWIP_MEM_ALIGN memory) with (LWIP_MEM_ALIGN_SIZE memory). rewrite align_size by lia. pose proof (Z.div_mod (memory + 3) 4 ltac:(lia)). pose proof (Z.mod_pos_bound (memory + 3) 4 ltac:(lia)).
    split; [by apply Z_mod_mult|]. lia. }
  split; [intros s; rewrite <- Hl; by apply memp_init_hold|]. split; [|split].
  - intros s T type E t. by apply memp_malloc_hold.
  - intros s T type E t p. by apply memp_free_hold.
  - intros s T type E t p size m'. by apply pools_write.
Qed.

Definition pools_sample : list (Z * Z) := replicate 12 (2, 8) ++ [(64, 16); (512, 2016)].

Lemma pools_keep_elements_witness : exists s1 p s2 s3 t,
  memp_init pools_sample 5001 lw_sample = NRet tt s1 /\ memp_malloc MEMP_PBUF s1 = NRet p s2 /\ p mod 4 = 0 /\ memp_free MEMP_PBUF p s2 = NRet tt s3 /\
  pools_hold pools_sample 5004 s3 (<[12%nat := t]> (<[12%nat := [p]]> (replicate MEMP_MAX []))) /\ t = [].
Proof.
  destruct (pools_keep_elements pools_sample 5001) as (Hi & Hm & Hf & _); [repeat constructor; cbn; lia|reflexivity|lia|vm_compute; reflexivity|]. change (LWIP_MEM_ALIGN 5001) with 5004 in *.
  destruct (Hi lw_sample) as (s1 & E1 & H1). assert (HE : exists E, pool_elems pools_sample 5004 !! 12%nat = Some E /\ E <> []) by (eexists; split; [reflexivity|by vm_compute]). destruct HE as (E & HE & Hne).
  destruct (Hm s1 _ MEMP_PBUF E [] H1 HE eq_refl) as [[_ Hp]|(p & s2 & E2 & _ & _ & Ha & _ & H2)]; [exfalso; apply Hne; symmetry in Hp; apply Permutation_nil_r in Hp; exact Hp|].
  destruct (Hf s2 _ MEMP_PBUF E [p] p H2 HE eq_refl ltac:(by left)) as (s3 & t & E3 & Ht & H3). exists s1, p, s2, s3, t.
  split; [exact E1|]. split; [exact E2|]. split; [exact Ha|]. split; [exact E3|]. split; [exact H3|]. clear -Ht.
  apply Permutation_length in Ht. destruct t; [reflexivity|]. cbn in Ht. lia.
Defined.
