(* ===== verification/Pbuf.v ===== *)
(** * Packet buffers ([net/lwip/core/pbuf.c])

    A [struct pbuf] is in the memory of the server with its fields at their
    offsets: [next] and [payload], words; [tot_len] and [len], 16 bits; [type]
    and [flags], bytes; [ref], 16 bits.  The walks along [next] carry fuel for
    more buffers than fit into the heap and the pools. *)

From S2P Require Import Prelude LibString Bytes LwipMem.

Definition PBUF_TRANSPORT_HLEN : Z := 20.
Definition PBUF_IP_HLEN : Z := 20.
Definition PBUF_LINK_HLEN : Z := 14.

Inductive pbuf_layer := PBUF_TRANSPORT | PBUF_IP | PBUF_LINK | PBUF_RAW.

Definition PBUF_RAM : Z := 0.
Definition PBUF_ROM : Z := 1.
Definition PBUF_REF : Z := 2.
Definition PBUF_POOL : Z := 3.

Definition SIZEOF_STRUCT_PBUF : Z := LWIP_MEM_ALIGN_SIZE 16.
Definition PBUF_POOL_BUFSIZE : Z := 2000.
Definition PBUF_POOL_BUFSIZE_ALIGNED : Z := LWIP_MEM_ALIGN_SIZE PBUF_POOL_BUFSIZE.

Definition pb_next (p : Z) : NetM Z := nload 4 p.
Definition pb_payload (p : Z) : NetM Z := nload 4 (p + 4).
Definition pb_tot_len (p : Z) : NetM Z := nload 2 (p + 8).
Definition pb_len (p : Z) : NetM Z := nload 2 (p + 10).
Definition pb_type (p : Z) : NetM Z := nload 1 (p + 12).
Definition pb_ref (p : Z) : NetM Z := nload 2 (p + 14).
Definition set_pb_next (p v : Z) : NetM unit := nstore 4 p v.
Definition set_pb_payload (p v : Z) : NetM unit := nstore 4 (p + 4) v.
Definition set_pb_tot_len (p v : Z) : NetM unit := nstore 2 (p + 8) v.
Definition set_pb_len (p v : Z) : NetM unit := nstore 2 (p + 10) v.
Definition set_pb_type (p v : Z) : NetM unit := nstore 1 (p + 12) v.
Definition set_pb_flags (p v : Z) : NetM unit := nstore 1 (p + 13) v.
Definition set_pb_ref (p v : Z) : NetM unit := nstore 2 (p + 14) v.

(** At most 2228224 / 24 blocks of the heap and 576 elements of the pools. *)
Definition chain_fuel : nat := Z.to_nat 100000.

(** ** Freeing *)

Definition sane_type (type : Z) : bool :=
  (type =? PBUF_RAM) || (type =? PBUF_ROM) || (type =? PBUF_REF) || (type =? PBUF_POOL).

Fixpoint pbuf_free_loop (fuel : nat) (p count : Z) : NetM Z :=
  match fuel with
  | O => nspin
  | S fuel' =>
      if p =? 0 then mret count
      else
        r ← pb_ref p;
        LWIP_ASSERT "pbuf_free: p->ref > 0" (0 <? r) ;;
        let ref := u16 (r - 1) in
        set_pb_ref p ref ;;
        if ref =? 0 then
          q ← pb_next p;
          type ← pb_type p;
          (if type =? PBUF_POOL then memp_free MEMP_PBUF_POOL p
           else if (type =? PBUF_ROM) || (type =? PBUF_REF) then memp_free MEMP_PBUF p
           else mem_free p) ;;
          pbuf_free_loop fuel' q (u8 (count + 1))
        else pbuf_free_loop fuel' 0 count
  end.

Definition pbuf_free (p : Z) : NetM Z :=
  if p =? 0 then npanic "p != NULL"
  else
    type ← pb_type p;
    LWIP_ASSERT "pbuf_free: sane type" (sane_type type) ;;
    pbuf_free_loop chain_fuel p 0.

(** ** Allocation *)

Definition layer_offset (layer : pbuf_layer) : Z :=
  match layer with
  | PBUF_TRANSPORT => PBUF_TRANSPORT_HLEN + PBUF_IP_HLEN + PBUF_LINK_HLEN
  | PBUF_IP => PBUF_IP_HLEN + PBUF_LINK_HLEN
  | PBUF_LINK => PBUF_LINK_HLEN
  | PBUF_RAW => 0
  end.

(** The assertion about the payload of the first buffer, which every round of
    the loop repeats. *)
Definition payload_fits (p : Z) : NetM unit :=
  pl ← pb_payload p;
  l ← pb_len p;
  LWIP_ASSERT "check p->payload + p->len does not overflow pbuf" (u32 (pl + l) <=? u32 (p + SIZEOF_STRUCT_PBUF + PBUF_POOL_BUFSIZE_ALIGNED)).

(** The tail of a chain from the pool: [false] when the pool is empty. *)
Fixpoint pool_tail (fuel : nat) (p r rem_len : Z) : NetM bool :=
  match fuel with
  | O => nspin
  | S fuel' =>
      if 0 <? rem_len then
        q ← memp_malloc MEMP_PBUF_POOL;
        if q =? 0 then
          pbuf_free p ;;
          mret false
        else
          set_pb_type q PBUF_POOL ;;
          set_pb_flags q 0 ;;
          set_pb_next q 0 ;;
          set_pb_next r q ;;
          LWIP_ASSERT "rem_len < max_u16_t" (rem_len <? 0xffff) ;;
          set_pb_tot_len q (u16 rem_len) ;;
          set_pb_len q (Z.min (u16 rem_len) PBUF_POOL_BUFSIZE_ALIGNED) ;;
          set_pb_payload q (u32 (q + SIZEOF_STRUCT_PBUF)) ;;
          LWIP_ASSERT "pbuf_alloc: pbuf q->payload properly aligned" (u32 (q + SIZEOF_STRUCT_PBUF) mod MEM_ALIGNMENT =? 0) ;;
          payload_fits p ;;
          set_pb_ref q 1 ;;
          ql ← pb_len q;
          pool_tail fuel' p q (rem_len - ql)
      else mret true
  end.

Definition pbuf_alloc_pool (offset length : Z) : NetM Z :=
  p ← memp_malloc MEMP_PBUF_POOL;
  if p =? 0 then mret 0
  else
    set_pb_type p PBUF_POOL ;;
    set_pb_next p 0 ;;
    set_pb_payload p (LWIP_MEM_ALIGN (u32 (p + (SIZEOF_STRUCT_PBUF + offset)))) ;;
    pl ← pb_payload p;
    LWIP_ASSERT "pbuf_alloc: pbuf p->payload properly aligned" (pl mod MEM_ALIGNMENT =? 0) ;;
    set_pb_tot_len p length ;;
    set_pb_len p (Z.min length (PBUF_POOL_BUFSIZE_ALIGNED - LWIP_MEM_ALIGN_SIZE offset)) ;;
    payload_fits p ;;
    set_pb_ref p 1 ;;
    l ← pb_len p;
    ok ← pool_tail (S (Z.to_nat length)) p p (length - l);
    mret (if (ok : bool) then p else 0).

Definition pbuf_alloc_ram (offset length : Z) : NetM Z :=
  p ← mem_malloc (u32 (LWIP_MEM_ALIGN_SIZE (SIZEOF_STRUCT_PBUF + offset) + LWIP_MEM_ALIGN_SIZE length));
  if p =? 0 then mret 0
  else
    set_pb_payload p (LWIP_MEM_ALIGN (u32 (p + SIZEOF_STRUCT_PBUF + offset))) ;;
    set_pb_tot_len p length ;;
    set_pb_len p length ;;
    set_pb_next p 0 ;;
    set_pb_type p PBUF_RAM ;;
    pl ← pb_payload p;
    LWIP_ASSERT "pbuf_alloc: pbuf->payload properly aligned" (pl mod MEM_ALIGNMENT =? 0) ;;
    mret p.

Definition pbuf_alloc_ref (length type : Z) : NetM Z :=
  p ← memp_malloc MEMP_PBUF;
  if p =? 0 then mret 0
  else
    set_pb_payload p 0 ;;
    set_pb_tot_len p length ;;
    set_pb_len p length ;;
    set_pb_next p 0 ;;
    set_pb_type p type ;;
    mret p.

Definition pbuf_alloc (layer : pbuf_layer) (length type : Z) : NetM Z :=
  let offset := layer_offset layer in
  p ← (if type =? PBUF_POOL then pbuf_alloc_pool offset length
       else if type =? PBUF_RAM then pbuf_alloc_ram offset length
       else if (type =? PBUF_ROM) || (type =? PBUF_REF) then pbuf_alloc_ref length type
       else npanic "pbuf_alloc: erroneous type");
  if p =? 0 then mret 0
  else
    set_pb_ref p 1 ;;
    set_pb_flags p 0 ;;
    mret p.

(** ** Shrinking, headers *)

(** The loop that steps over the buffers that remain. *)
Fixpoint realloc_skip (fuel : nat) (q rem_len grow : Z) : NetM (Z * Z) :=
  match fuel with
  | O => nspin
  | S fuel' =>
      ql ← pb_len q;
      if ql <? rem_len then
        let rem_len := u16 (rem_len - ql) in
        LWIP_ASSERT "grow < max_u16_t" (grow <? 0xffff) ;;
        t ← pb_tot_len q;
        set_pb_tot_len q (u16 (t + u16 grow)) ;;
        q ← pb_next q;
        LWIP_ASSERT "pbuf_realloc: q != NULL" (negb (q =? 0)) ;;
        realloc_skip fuel' q rem_len grow
      else mret (q, rem_len)
  end.

Definition pbuf_realloc (p new_len : Z) : NetM unit :=
  LWIP_ASSERT "pbuf_realloc: p != NULL" (negb (p =? 0)) ;;
  type ← pb_type p;
  LWIP_ASSERT "pbuf_realloc: sane p->type" (sane_type type) ;;
  t ← pb_tot_len p;
  if t <=? new_len then mret tt
  else
    r ← realloc_skip chain_fuel p new_len (new_len - t);
    let '(q, rem_len) := r in
    type ← pb_type q;
    l ← pb_len q;
    q ← (if (type =? PBUF_RAM) && negb (rem_len =? l) then
           pl ← pb_payload q;
           q' ← mem_realloc q (u32 (pl - q + rem_len));
           LWIP_ASSERT "mem_realloc give q == NULL" (negb (q' =? 0)) ;;
           mret q'
         else mret q);
    set_pb_len q rem_len ;;
    l ← pb_len q;
    set_pb_tot_len q l ;;
    n ← pb_next q;
    (if negb (n =? 0) then pbuf_free n ;; mret tt else mret tt) ;;
    set_pb_next q 0.

(** [header_size_increment] is a 16-bit signed number; the result is 1 on
    failure. *)
Definition pbuf_header (p header_size_increment : Z) : NetM Z :=
  LWIP_ASSERT "p != NULL" (negb (p =? 0)) ;;
  if (header_size_increment =? 0) || (p =? 0) then mret 0
  else
    l ← pb_len p;
    let increment_magnitude := u16 (if header_size_increment <? 0 then - header_size_increment else header_size_increment) in
    (if header_size_increment <? 0 then LWIP_ASSERT "increment_magnitude <= p->len" (increment_magnitude <=? l) else mret tt) ;;
    type ← pb_type p;
    payload ← pb_payload p;
    ok ← (if (type =? PBUF_RAM) || (type =? PBUF_POOL) then
            set_pb_payload p (u32 (payload - header_size_increment)) ;;
            pl ← pb_payload p;
            if pl <? u32 (p + SIZEOF_STRUCT_PBUF) then
              set_pb_payload p payload ;;
              mret false
            else mret true
          else if (type =? PBUF_REF) || (type =? PBUF_ROM) then
            if (header_size_increment <? 0) && (increment_magnitude <=? l) then
              set_pb_payload p (u32 (payload - header_size_increment)) ;;
              mret true
            else mret false
          else npanic "bad pbuf type");
    if (ok : bool) then
      l ← pb_len p;
      set_pb_len p (u16 (l + header_size_increment)) ;;
      t ← pb_tot_len p;
      set_pb_tot_len p (u16 (t + header_size_increment)) ;;
      mret 0
    else mret 1.

(** ** Chains *)

Fixpoint clen_loop (fuel : nat) (p len : Z) : NetM Z :=
  match fuel with
  | O => nspin
  | S fuel' => if p =? 0 then mret len else n ← pb_next p; clen_loop fuel' n (u8 (len + 1))
  end.

Definition pbuf_clen (p : Z) : NetM Z := clen_loop chain_fuel p 0.

Definition pbuf_ref (p : Z) : NetM unit :=
  if negb (p =? 0) then r ← pb_ref p; set_pb_ref p (u16 (r + 1)) else mret tt.

(** [for (p = h; p->next != NULL; p = p->next) p->tot_len += t->tot_len;] *)
Fixpoint cat_loop (fuel : nat) (p t : Z) : NetM Z :=
  match fuel with
  | O => nspin
  | S fuel' =>
      n ← pb_next p;
      if n =? 0 then mret p
      else
        a ← pb_tot_len p;
        b ← pb_tot_len t;
        set_pb_tot_len p (u16 (a + b)) ;;
        n ← pb_next p;
        cat_loop fuel' n t
  end.

(** What follows the loop, at the last buffer [p] of the head. *)
Definition cat_last (t p : Z) : NetM unit :=
  a ← pb_tot_len p;
  l ← pb_len p;
  LWIP_ASSERT "p->tot_len == p->len (of last pbuf in chain)" (a =? l) ;;
  n ← pb_next p;
  LWIP_ASSERT "p->next == NULL" (n =? 0) ;;
  b ← pb_tot_len t;
  set_pb_tot_len p (u16 (a + b)) ;;
  set_pb_next p t.

Definition pbuf_cat (h t : Z) : NetM unit :=
  LWIP_ASSERT "(h != NULL) && (t != NULL) (programmer violates API)" (negb (h =? 0) && negb (t =? 0)) ;;
  p ← cat_loop chain_fuel h t;
  cat_last t p.

Definition pbuf_chain (h t : Z) : NetM unit :=
  pbuf_cat h t ;;
  pbuf_ref t.

Definition pbuf_dechain (p : Z) : NetM Z :=
  q ← pb_next p;
  tail_gone ← (if negb (q =? 0) then
                 qt ← pb_tot_len q;
                 t ← pb_tot_len p;
                 l ← pb_len p;
                 LWIP_ASSERT "p->tot_len == p->len + q->tot_len" (qt =? t - l) ;;
                 set_pb_tot_len q (u16 (t - l)) ;;
                 set_pb_next p 0 ;;
                 set_pb_tot_len p l ;;
                 pbuf_free q
               else mret 1);
  t ← pb_tot_len p;
  l ← pb_len p;
  LWIP_ASSERT "p->tot_len == p->len" (t =? l) ;;
  mret (if 0 <? tail_gone then 0 else q).

(** ** Copies *)

Definition ERR_OK : Z := 0.

(** [LWIP_ERROR] stops the server before its handler, which would return an
    error code, is reached. *)
Definition not_queue (p : Z) : NetM unit :=
  if negb (p =? 0) then
    l ← pb_len p;
    t ← pb_tot_len p;
    n ← pb_next p;
    if l =? t then LWIP_ASSERT "pbuf_copy() does not allow packet queues!" (n =? 0) else mret tt
  else mret tt.

Definition ncopy (dst src n : Z) : NetM unit := nmodify (λ s, set_lw_mem (memcpy (lw_mem s) dst src n) s).

Fixpoint copy_loop (fuel : nat) (p_to p_from offset_to offset_from : Z) : NetM Z :=
  match fuel with
  | O => nspin
  | S fuel' =>
      LWIP_ASSERT "p_to != NULL" (negb (p_to =? 0)) ;;
      tl ← pb_len p_to;
      fl ← pb_len p_from;
      let len := u16 (if fl - offset_from <=? tl - offset_to then fl - offset_from else tl - offset_to) in
      tp ← pb_payload p_to;
      fp ← pb_payload p_from;
      ncopy (u32 (tp + offset_to)) (u32 (fp + offset_from)) len ;;
      let offset_to := u16 (offset_to + len) in
      let offset_from := u16 (offset_from + len) in
      tl ← pb_len p_to;
      LWIP_ASSERT "offset_to <= p_to->len" (offset_to <=? tl) ;;
      nt ← pb_next p_to;
      let '(p_to, offset_to) := if offset_to =? tl then (nt, 0) else (p_to, offset_to) in
      fl ← pb_len p_from;
      LWIP_ASSERT "offset_from <= p_from->len" (offset_from <=? fl) ;;
      nf ← pb_next p_from;
      let '(p_from, offset_from) := if fl <=? offset_from then (nf, 0) else (p_from, offset_from) in
      not_queue p_from ;;
      not_queue p_to ;;
      if p_from =? 0 then mret ERR_OK else copy_loop fuel' p_to p_from offset_to offset_from
  end.

Definition pbuf_copy (p_to p_from : Z) : NetM Z :=
  tt' ← pb_tot_len p_to;
  ft ← pb_tot_len p_from;
  LWIP_ASSERT "pbuf_copy: target not big enough to hold source" (negb (p_to =? 0) && negb (p_from =? 0) && (ft <=? tt')) ;;
  copy_loop (chain_fuel + chain_fuel) p_to p_from 0 0.

Fixpoint copy_partial_loop (fuel : nat) (p dataptr left len offset copied_total : Z) : NetM Z :=
  match fuel with
  | O => nspin
  | S fuel' =>
      if negb (len =? 0) && negb (p =? 0) then
        l ← pb_len p;
        if negb (offset =? 0) && (l <=? offset) then
          n ← pb_next p;
          copy_partial_loop fuel' n dataptr left len (u16 (offset - l)) copied_total
        else
          let buf_copy_len := u16 (l - offset) in
          let buf_copy_len := if len <? buf_copy_len then len else buf_copy_len in
          pl ← pb_payload p;
          ncopy (u32 (dataptr + left)) (u32 (pl + offset)) buf_copy_len ;;
          n ← pb_next p;
          copy_partial_loop fuel' n dataptr (u16 (left + buf_copy_len)) (u16 (len - buf_copy_len)) 0 (u16 (copied_total + buf_copy_len))
      else mret copied_total
  end.

Definition pbuf_copy_partial (buf dataptr len offset : Z) : NetM Z :=
  LWIP_ASSERT "netbuf_copy_partial: invalid buf" (negb (buf =? 0)) ;;
  LWIP_ASSERT "netbuf_copy_partial: invalid dataptr" (negb (dataptr =? 0)) ;;
  copy_partial_loop chain_fuel buf dataptr 0 len offset 0.
