(* ===== verification/PbufSpec.v ===== *)
(** * Packet buffers: correctness

    A chain of buffers is a list of them, and a packet is the concatenation of
    their data.  [pbuf_copy_partial] copies any part of a packet,
    [pbuf_cat] and [pbuf_chain] concatenate packets, and [pbuf_header] hides
    and reveals headers. *)

From S2P Require Import Prelude LibString Bytes LwipMem LwipMemSpec Pbuf.

(** ** Chains in memory *)

Record pb := mkPb { b_addr : Z; b_payload : Z; b_len : Z }.

Definition b_data (m : bmem) (b : pb) : list Z := range m (Z.to_nat (b_len b)) (b_payload b).

Fixpoint chain_len (l : list pb) : Z := match l with [] => 0 | b :: l' => b_len b + chain_len l' end.

Definition packet (m : bmem) (l : list pb) : list Z := flat_map (b_data m) l.

(** [l] is the chain at [p]; every [tot_len] is the length of the rest. *)
Fixpoint pchain (m : bmem) (p : Z) (l : list pb) : Prop :=
  match l with
  | [] => p = 0
  | b :: l' =>
      p = b_addr b /\ 0 < p /\ 0 <= b_len b /\ load_le 4 m (p + 4) = b_payload b /\ load_le 2 m (p + 8) = chain_len (b :: l') /\
      load_le 2 m (p + 10) = b_len b /\ pchain m (load_le 4 m p) l'
  end.

Lemma pchain_head m b l n : 0 < b_addr b -> 0 <= b_len b -> load_le 4 m (b_addr b) = n -> load_le 4 m (b_addr b + 4) = b_payload b ->
  load_le 2 m (b_addr b + 8) = b_len b + chain_len l -> load_le 2 m (b_addr b + 10) = b_len b -> pchain m n l -> pchain m (b_addr b) (b :: l).
Proof. by intros ? ? <- ? ? ? ?. Qed.

(** The payload is inside the address space. *)
Definition in_space (b : pb) : Prop := 0 <= b_payload b < 4294967296 /\ b_payload b + b_len b <= 4294967296.

Definition apart (a n b k : Z) : Prop := a + n <= b \/ b + k <= a.

(** The [n] bytes at [a] are no part of the chain. *)
Definition clear_of (a n : Z) (l : list pb) : Prop := Forall (λ b, apart a n (b_addr b) 16 /\ apart a n (b_payload b) (b_len b)) l.

Lemma pchain_ext m m' l : forall p, Forall (λ b, forall x, b_addr b <= x < b_addr b + 16 -> m' x = m x) l -> pchain m p l -> pchain m' p l.
Proof.
  induction l as [|b l IH]; intros p Hx H; [done|]. apply list.Forall_cons in Hx as [Hx Hl]. destruct H as (-> & H1 & H2 & H3 & H4 & H5 & H6). cbn [pchain].
  assert (E : forall w o, 0 <= o -> o + Z.of_nat w <= 16 -> load_le w m' (b_addr b + o) = load_le w m (b_addr b + o)) by (intros w o Ho Hw; apply load_ext; intros x Hx'; apply Hx; lia).
  pose proof (E 4%nat 0 ltac:(lia) ltac:(cbn; lia)) as E0. rewrite Z.add_0_r in E0. rewrite E0, !E by (cbn; lia). split_and!; try done. by apply IH.
Qed.

Lemma packet_ext m m' l : Forall (λ b, forall x, b_payload b <= x < b_payload b + b_len b -> m' x = m x) l -> packet m' l = packet m l.
Proof.
  induction 1 as [|b l Hb _ IH]; [done|]. unfold packet in *. cbn [flat_map]. rewrite IH. f_equal. apply range_same. intros x Hx. apply Hb. lia.
Qed.

Lemma chain_len_nonneg m l : forall p, pchain m p l -> 0 <= chain_len l.
Proof. induction l as [|b l IH]; intros p H; [done|]. destruct H as (_ & _ & H & _ & _ & _ & H'). apply IH in H'. cbn [chain_len]. lia. Qed.

Lemma packet_length m l p : pchain m p l -> Z.of_nat (length (packet m l)) = chain_len l.
Proof.
  revert p. induction l as [|b l IH]; intros p H; [done|]. destruct H as (_ & _ & H & _ & _ & _ & H'). unfold packet in *. cbn [flat_map chain_len]. rewrite length_app. unfold b_data at 1. rewrite range_length.
  apply IH in H'. lia.
Qed.

Lemma clear_ext m m' a n l p : (forall x, ~ (a <= x < a + n) -> m' x = m x) -> clear_of a n l -> pchain m p l -> pchain m' p l /\ packet m' l = packet m l.
Proof.
  intros Hm Hc H. split.
  - apply (pchain_ext m); [|done]. eapply list.Forall_impl; [exact Hc|]. intros b [H1 _] x Hx. apply Hm. unfold apart in H1. lia.
  - apply packet_ext. eapply list.Forall_impl; [exact Hc|]. intros b [_ H1] x Hx. apply Hm. unfold apart in H1. lia.
Qed.

Lemma clear_sub a n l a' n' : a <= a' -> a' + n' <= a + n -> clear_of a n l -> clear_of a' n' l.
Proof. intros H1 H2 H. eapply list.Forall_impl; [exact H|]. unfold apart. intros b. lia. Qed.

Lemma range_sub m n p o c : (o + c <= n)%nat -> take c (drop o (range m n p)) = range m c (p + Z.of_nat o).
Proof.
  intros H. replace n with (o + (c + (n - o - c)))%nat by lia. rewrite range_app, drop_app_length' by (by rewrite range_length).
  by rewrite range_app, take_app_length' by (by rewrite range_length).
Qed.

Lemma take_parts (D R : list Z) o c n : (o + c <= length D)%nat -> (n = 0 \/ o + c = length D)%nat -> take c (drop o D) ++ take n R = take (c + n) (drop o (D ++ R)).
Proof.
  intros H1 H2. rewrite drop_app_le by lia. destruct H2 as [->|H2].
  - rewrite take_0, app_nil_r, Nat.add_0_r, take_app_le by (rewrite length_drop; lia). done.
  - rewrite take_ge by (rewrite length_drop; lia). by rewrite take_app_add' by (rewrite length_drop; lia).
Qed.

(** ** Copying a part of a packet *)

Lemma copied_range m d s n : 0 <= n -> range (memcpy m d s n) (Z.to_nat n) d = range m (Z.to_nat n) s.
Proof.
  intros Hn. unfold range. apply map_ext_in. intros k [_ Hk]%in_seq. unfold memcpy. rewrite memmove_copied by done. unfold copied. rewrite (proj2 (Z.leb_le _ _)), (proj2 (Z.ltb_lt _ _)) by lia. cbn [andb]. f_equal. lia.
Qed.

Lemma copied_other m d s n x : 0 <= n -> ~ (d <= x < d + n) -> memcpy m d s n x = m x.
Proof. intros Hn Hx. unfold memcpy. rewrite memmove_copied by done. unfold copied. destruct (Z.leb_spec d x), (Z.ltb_spec x (d + n)); done || lia. Qed.

Lemma copy_partial_run dataptr l : forall fuel p left len offset copied s, pchain (lw_mem s) p l -> Forall in_space l -> (length l < fuel)%nat ->
  0 <= left -> 0 <= len -> 0 <= offset < 65536 -> 0 <= copied -> left + len < 65536 -> copied + len < 65536 -> chain_len l < 65536 -> 0 <= dataptr -> dataptr + left + len <= 4294967296 ->
  clear_of (dataptr + left) len l ->
  let n := Z.max 0 (Z.min len (chain_len l - offset)) in
  exists m', copy_partial_loop fuel p dataptr left len offset copied s = NRet (copied + n) (set_lw_mem m' s) /\
    range m' (Z.to_nat n) (dataptr + left) = take (Z.to_nat n) (drop (Z.to_nat offset) (packet (lw_mem s) l)) /\
    (forall x, ~ (dataptr + left <= x < dataptr + left + n) -> m' x = lw_mem s x).
Proof.
  induction l as [|b l IH]; intros fuel p left len offset copied s Hch Hsp Hf H1 H2 H3 H4 H5 H6 H7 H8 H9 Hcl n; (destruct fuel as [|fuel]; [lia|]); cbn [copy_partial_loop];
    assert (Hset : set_lw_mem (lw_mem s) s = s) by (by destruct s).
  - cbn [pchain] in Hch. subst p. rewrite andb_false_r. exists (lw_mem s). cbn [chain_len] in n. replace n with 0 by lia. rewrite Hset, Z.add_0_r. done.
  - pose proof Hch as (-> & Hp & Hb & Epl & Etl & El & Hl). apply list.Forall_cons in Hsp as [[Hs1 Hs2] Hsp]. pose proof Hcl as [[_ Hc2] Hcl']%list.Forall_cons. pose proof (chain_len_nonneg _ _ _ Hl) as Hcn. cbn [chain_len length] in *.
    destruct (Z.eqb_spec len 0) as [->|Hlen].
    { cbn [negb andb]. exists (lw_mem s). replace n with 0 by lia. rewrite Hset, Z.add_0_r. done. }
    cbn [negb andb]. rewrite (proj2 (Z.eqb_neq (b_addr b) 0)) by lia. cbn [negb]. unfold pb_len, pb_next, pb_payload. rewrite nbind_load, El.
    assert (Hd : length (b_data (lw_mem s) b) = Z.to_nat (b_len b)) by apply range_length.
    destruct (negb (offset =? 0) && (b_len b <=? offset)) eqn:Eskip; bool_prop.
    + rewrite nbind_load, u16_small by lia. destruct (IH fuel _ left len (offset - b_len b) copied s Hl Hsp) as (m' & E & Er & Hfr); try lia; [done|].
      replace (chain_len l - (offset - b_len b)) with (b_len b + chain_len l - offset) in * by lia. fold n in E, Er, Hfr. exists m'. split; [done|]. split; [|done]. rewrite Er. f_equal.
      unfold packet. cbn [flat_map]. rewrite drop_app_ge by lia. f_equal. lia.
    + set (c := Z.min len (b_len b - offset)). assert (Hof : offset <= b_len b) by (destruct (Z.eqb_spec offset 0); [lia|]; cbn [negb andb] in Eskip; bool_prop; lia).
      rewrite (u16_small (b_len b - offset)) by lia. assert (Ec : (if len <? b_len b - offset then len else b_len b - offset) = c) by (unfold c; destruct (Z.ltb_spec len (b_len b - offset)); lia). rewrite Ec.
      rewrite nbind_load, Epl. unfold ncopy. rewrite nbind_modify, nbind_load. set (m1 := memcpy (lw_mem s) (u32 (dataptr + left)) (u32 (b_payload b + offset)) c). cbn [lw_mem set_lw_mem].
      rewrite (u16_small (left + c)), (u16_small (len - c)), (u16_small (copied + c)) by lia.
      assert (Eo : u32 (b_payload b + offset) = b_payload b + offset) by (apply u32_small; destruct (Z.eqb_spec offset 0); cbn [negb andb] in Eskip; bool_prop; lia).
      assert (Ed : u32 (dataptr + left) = dataptr + left) by (apply u32_small; lia). unfold m1. rewrite Eo, Ed. clear m1. set (m1 := memcpy (lw_mem s) (dataptr + left) (b_payload b + offset) c).
      assert (Hm1 : forall x, ~ (dataptr + left <= x < dataptr + left + c) -> m1 x = lw_mem s x) by (intros x Hx; apply copied_other; lia).
      pose proof (clear_sub (dataptr + left) len _ (dataptr + left) c ltac:(lia) ltac:(lia) Hcl) as Hcc. pose proof (clear_ext _ _ _ _ _ _ Hm1 Hcc Hch) as [(_ & _ & _ & _ & _ & _ & Hl1) _].
      apply list.Forall_cons in Hcc as [_ Hcc]. destruct (clear_ext _ _ _ _ _ _ Hm1 Hcc Hl) as [_ Epk].
      destruct (IH fuel (load_le 4 m1 (b_addr b)) (left + c) (len - c) 0 (copied + c) (set_lw_mem m1 s) Hl1 Hsp) as (m' & E & Er & Hfr); try lia; [apply (clear_sub (dataptr + left) len); [lia..|done]|].
      rewrite Z.sub_0_r in *. set (n' := Z.max 0 (Z.min (len - c) (chain_len l))) in *. assert (En : n = c + n') by lia. cbn [lw_mem set_lw_mem] in Er, Hfr. exists m'. split; [rewrite E, En; f_equal; lia|]. split.
      * rewrite En, Z2Nat.inj_add, range_app by lia. rewrite Z2Nat.id by lia. replace (dataptr + left + c) with (dataptr + (left + c)) by lia. rewrite Er, Epk.
        rewrite (range_same m1 m') by (intros x Hx; apply Hfr; lia). unfold m1. rewrite copied_range by lia. unfold packet. cbn [flat_map].
        change (Z.to_nat 0) with 0%nat. rewrite drop_0. rewrite <- take_parts by (rewrite Hd; lia). f_equal. unfold b_data. rewrite range_sub by lia. f_equal. lia.
      * intros x Hx. rewrite Hfr by lia. apply Hm1. lia.
Qed.

(** C35: [pbuf_copy_partial] copies the part of the packet that starts at
    [offset], at most [len] bytes of it, whatever buffers it is spread over,
    returns how many bytes these are, and changes nothing else. *)
Theorem pbuf_copy_partial_correct s p l dataptr len offset : pchain (lw_mem s) p l -> l <> [] -> Forall in_space l -> (length l < chain_fuel)%nat -> chain_len l < 65536 ->
  0 <= len < 65536 -> 0 <= offset < 65536 -> 0 < dataptr -> dataptr + len <= 4294967296 -> clear_of dataptr len l ->
  let part := take (Z.to_nat len) (drop (Z.to_nat offset) (packet (lw_mem s) l)) in
  exists m', pbuf_copy_partial p dataptr len offset s = NRet (Z.of_nat (length part)) (set_lw_mem m' s) /\
    range m' (length part) dataptr = part /\
    (forall x, ~ (dataptr <= x < dataptr + Z.of_nat (length part)) -> m' x = lw_mem s x).
Proof.
  intros Hch Hne Hsp Hf Hl Hlen Hoff Hd Hd' Hcl part. pose proof (packet_length _ _ _ Hch) as El.
  assert (Hp : p <> 0) by (destruct l; [done|]; destruct Hch as (_ & Hp & _); lia).
  assert (En : length part = Z.to_nat (Z.max 0 (Z.min len (chain_len l - offset)))) by (unfold part; rewrite length_take, length_drop; lia).
  unfold pbuf_copy_partial. rewrite (proj2 (Z.eqb_neq p 0)), (proj2 (Z.eqb_neq dataptr 0)) by lia. rewrite !nbind_assert by done.
  destruct (copy_partial_run dataptr l chain_fuel p 0 len offset 0 s) as (m' & E & Er & Hfr); try done; try lia; [by rewrite Z.add_0_r|].
  rewrite Z.add_0_r in Er, Hfr. exists m'. rewrite En, Z2Nat.id by lia. split; [done|]. split; [|done]. rewrite Er. unfold part.
  destruct (Z.leb_spec len (chain_len l - offset)); [by rewrite Z.max_r, Z.min_l by lia|].
  rewrite !take_ge; [done|rewrite length_drop; lia..].
Qed.

(** ** Concatenation *)

(** The buffers and their data do not overlap, data with data excepted: it may
    be shared. *)
Fixpoint proper (l : list pb) : Prop :=
  match l with
  | [] => True
  | b :: l' => apart (b_addr b) 16 (b_payload b) (b_len b) /\ clear_of (b_addr b) 16 l' /\ Forall (λ b', apart (b_addr b') 16 (b_payload b) (b_len b)) l' /\ proper l'
  end.

Definition outside (x : Z) (l : list pb) : Prop := Forall (λ b, ~ (b_addr b <= x < b_addr b + 16)) l.

Lemma chain_len_app l1 l2 : chain_len (l1 ++ l2) = chain_len l1 + chain_len l2.
Proof. induction l1 as [|b l IH]; [done|]. cbn [app chain_len]. lia. Qed.

Lemma clear_outside b l x : clear_of (b_addr b) 16 l -> b_addr b <= x < b_addr b + 16 -> outside x l.
Proof. intros H Hx. eapply list.Forall_impl; [exact H|]. intros b' [H1 _]. unfold apart in H1. lia. Qed.

Lemma proper_outside l1 l2 : proper (l1 ++ l2) -> Forall (λ b, forall x, b_payload b <= x < b_payload b + b_len b -> outside x l1) (l1 ++ l2).
Proof.
  induction l1 as [|b l IH]; intros H; [apply list.Forall_forall; intros; by constructor|]. cbn [app proper] in H. destruct H as (H1 & H2 & H3 & H4). constructor.
  - intros x Hx. constructor; [unfold apart in H1; lia|]. apply list.Forall_app in H3 as [H3 _]. eapply list.Forall_impl; [exact H3|]. unfold apart. intros b'. lia.
  - specialize (IH H4). apply list.Forall_forall. intros b' Hb' x Hx. unfold clear_of in H2. rewrite list.Forall_forall in IH, H2. constructor; [|by eapply IH]. destruct (H2 b' Hb') as [_ H5]. unfold apart in H5. lia.
Qed.

Lemma cat_run t lt : lt <> [] -> forall lh b fuel h s, pchain (lw_mem s) h (b :: lh) -> pchain (lw_mem s) t lt -> proper (b :: lh ++ lt) -> chain_len (b :: lh ++ lt) < 65536 -> t < 4294967296 -> (length lh < fuel)%nat ->
  exists m', (cat_loop fuel h t ≫= cat_last t) s = NRet tt (set_lw_mem m' s) /\ pchain m' h (b :: lh ++ lt) /\ (forall x, outside x (b :: lh) -> m' x = lw_mem s x).
Proof.
  intros Hlt. induction lh as [|b2 lh IH]; intros b fuel h s Hh Ht Hpr Hlen Ht4 Hf; (destruct fuel as [|fuel]; [cbn in Hf; lia|]); cbn [cat_loop]; pose proof Hh as (-> & Hp & Hb & Epl & Etl & El & Hn);
    destruct Hpr as (P1 & P2 & P3 & P4); assert (Etb : load_le 2 (lw_mem s) (t + 8) = chain_len lt) by (destruct lt; [done|]; by destruct Ht as (-> & _ & _ & _ & ? & _));
    unfold pb_next, pb_tot_len, set_pb_tot_len; nsteps.
  - cbn [pchain] in Hn. rewrite Hn. cbn [Z.eqb]. nsteps. unfold cat_last, pb_tot_len, pb_len, pb_next, set_pb_tot_len, set_pb_next. nsteps. rewrite Etl, El. cbn [chain_len].
    rewrite (proj2 (Z.eqb_eq _ _)) by lia. rewrite nbind_assert by done. nsteps. rewrite Hn. rewrite nbind_assert by done. nsteps. rewrite Etb. eexists. split; [done|]. cbn [app chain_len lw_mem set_lw_mem] in *.
    set (m' := store_le 4 _ _ _). assert (Hm : forall x, ~ (b_addr b <= x < b_addr b + 16) -> m' x = lw_mem s x) by (intros x Hx; unfold m'; rewrite !store_other by (cbn; lia); done).
    pose proof (chain_len_nonneg _ _ _ Ht). assert (Ht' : pchain m' t lt) by (apply (clear_ext (lw_mem s) m' (b_addr b) 16); done).
    split; [|intros x Hx; apply list.Forall_cons in Hx as [Hx _]; by apply Hm]. assert (0 < t) by (destruct lt; [done|]; destruct Ht as (_ & ? & _); done).
    apply (pchain_head m' b lt t); try done; unfold m'; mem_load; try done; rewrite ?u16_small, Z.mod_small by (cbn; lia); lia.
  - cbn [app] in *. pose proof Hn as (Hn1 & Hn2 & _). rewrite (proj2 (Z.eqb_neq (load_le 4 (lw_mem s) (b_addr b)) 0)) by lia. nsteps. rewrite Etl, Etb, load_other by (cbn; lia).
    set (m1 := store_le 2 (lw_mem s) (b_addr b + 8) _). assert (Hm1 : forall x, ~ (b_addr b <= x < b_addr b + 16) -> m1 x = lw_mem s x) by (intros x Hx; unfold m1; rewrite store_other by (cbn; lia); done).
    pose proof P2 as [_ [_ P2t]%list.Forall_app]%list.Forall_cons. assert (P2h : clear_of (b_addr b) 16 (b2 :: lh)) by (apply (list.Forall_app _ (b2 :: lh) lt); exact P2).
    destruct (IH b2 fuel (load_le 4 (lw_mem s) (b_addr b)) (set_lw_mem m1 s)) as (m' & E & Hc & Hfr); cbn [lw_mem set_lw_mem]; try done.
    { by apply (clear_ext (lw_mem s) m1 (b_addr b) 16). }
    { by apply (clear_ext (lw_mem s) m1 (b_addr b) 16). }
    { cbn [chain_len] in *. lia. }
    { cbn [length] in Hf. lia. }
    cbn [lw_mem set_lw_mem] in *. exists m'. split; [exact E|]. split.
    + pose proof (chain_len_nonneg _ _ _ Hc). assert (Hlo : forall w o, 0 <= o -> o + Z.of_nat w <= 16 -> load_le w m' (b_addr b + o) = load_le w m1 (b_addr b + o)) by (intros w o Ho Hw; apply load_ext; intros x Hx; apply Hfr, (clear_outside b); [done|lia]).
      pose proof (Hlo 4%nat 0 ltac:(lia) ltac:(cbn; lia)) as E0. rewrite Z.add_0_r in E0.
      apply (pchain_head m' b _ (load_le 4 (lw_mem s) (b_addr b))); try done; rewrite ?E0, ?Hlo by (cbn; lia); unfold m1; mem_load; try done.
      cbn [chain_len] in *. rewrite !chain_len_app in *. rewrite u16_small, Z.mod_small by (cbn; lia). lia.
    + intros x [Hx1 Hx2]%list.Forall_cons. rewrite Hfr by done. by apply Hm1.
Qed.

(** C36: [pbuf_cat] makes of two packets one that holds the data of the first
    followed by the data of the second, with every [tot_len] adjusted, and
    writes to nothing but the buffers of the first. *)
Theorem pbuf_cat_correct s h t lh lt : pchain (lw_mem s) h lh -> pchain (lw_mem s) t lt -> lh <> [] -> lt <> [] -> proper (lh ++ lt) ->
  chain_len (lh ++ lt) < 65536 -> t < 4294967296 -> (length lh <= chain_fuel)%nat ->
  exists m', pbuf_cat h t s = NRet tt (set_lw_mem m' s) /\ pchain m' h (lh ++ lt) /\ packet m' (lh ++ lt) = packet (lw_mem s) lh ++ packet (lw_mem s) lt /\
    (forall x, outside x lh -> m' x = lw_mem s x).
Proof.
  intros Hh Ht Nh Nt Hpr Hlen Ht4 Hf. destruct lh as [|b lh]; [done|]. pose proof Hh as (Eh & Hp & _).
  assert (0 < t) by (destruct lt; [done|]; destruct Ht as (_ & ? & _); done).
  unfold pbuf_cat. rewrite nbind_assert by (rewrite (proj2 (Z.eqb_neq h 0)), (proj2 (Z.eqb_neq t 0)) by lia; done).
  destruct (cat_run t lt Nt lh b chain_fuel h s) as (m' & E & Hc & Hfr); try done. exists m'. split; [done|]. split; [done|]. split; [|done].
  unfold packet. rewrite <- flat_map_app. apply packet_ext. eapply list.Forall_impl; [by apply (proper_outside (b :: lh))|]. intros b' Hb x Hx. by apply Hfr, Hb.
Qed.

(** ** Headers *)

Definition moved (inc : Z) (b : pb) : pb := mkPb (b_addr b) (b_payload b - inc) (b_len b + inc).

Section headers.
  Context (s : lw) (b : pb) (l : list pb) (inc : Z).
  Hypothesis Hc : pchain (lw_mem s) (b_addr b) (b :: l).
  Hypothesis Hcl : clear_of (b_addr b) 16 l.
  Hypothesis Hty : load_le 1 (lw_mem s) (b_addr b + 12) = PBUF_RAM \/ load_le 1 (lw_mem s) (b_addr b + 12) = PBUF_POOL.
  Hypothesis Hinc : -32768 <= inc < 32768 /\ inc <> 0.
  Hypothesis Hpl : b_addr b + 16 <= b_payload b < 4294967296 /\ 0 <= b_payload b - inc < 4294967296.

Let m1 := store_le 4 (lw_mem s) (b_addr b + 4) (b_payload b - inc).

Lemma header_steps : -inc <= b_len b ->
  pbuf_header (b_addr b) inc s =
    if b_payload b - inc <? b_addr b + 16 then NRet 1 (set_lw_mem (store_le 4 m1 (b_addr b + 4) (b_payload b)) s)
    else NRet 0 (set_lw_mem (store_le 2 (store_le 2 m1 (b_addr b + 10) (u16 (b_len b + inc))) (b_addr b + 8) (u16 (chain_len (b :: l) + inc))) s).
Proof.
  intros Hle. destruct Hc as (_ & Hp & Hb & Epl & Etl & El & _). unfold pbuf_header. rewrite (proj2 (Z.eqb_neq (b_addr b) 0)), (proj2 (Z.eqb_neq inc 0)) by lia. rewrite nbind_assert by done. cbn [orb].
  unfold pb_len, pb_type, pb_payload, pb_tot_len, set_pb_payload, set_pb_len, set_pb_tot_len. nsteps. rewrite El.
  assert (Ha : (if inc <? 0 then LWIP_ASSERT "increment_magnitude <= p->len" (u16 (if inc <? 0 then - inc else inc) <=? b_len b) else mret tt) s = NRet tt s)
    by (destruct (Z.ltb_spec inc 0); [rewrite u16_small, (proj2 (Z.leb_le _ _)) by lia|]; done).
  rewrite (nbind_run _ _ _ _ _ Ha). nsteps. rewrite Epl.
  assert (Ht : (load_le 1 (lw_mem s) (b_addr b + 12) =? PBUF_RAM) || (load_le 1 (lw_mem s) (b_addr b + 12) =? PBUF_POOL) = true) by (destruct Hty as [-> | ->]; done). rewrite Ht. nsteps.
  rewrite load_same, (u32_small (b_payload b - inc)), (u32_small (b_addr b + SIZEOF_STRUCT_PBUF)), Z.mod_small by (change SIZEOF_STRUCT_PBUF with 16; cbn; lia). change (b_addr b + SIZEOF_STRUCT_PBUF) with (b_addr b + 16).
  destruct (Z.ltb_spec (b_payload b - inc) (b_addr b + 16)); nsteps; [done|]. mem_load. rewrite El, Etl. done.
Qed.

Lemma header_chain m' x : (forall x, ~ (b_addr b <= x < b_addr b + 16) -> m' x = lw_mem s x) -> load_le 4 m' (b_addr b) = load_le 4 (lw_mem s) (b_addr b) ->
  load_le 4 m' (b_addr b + 4) = b_payload b - x -> load_le 2 m' (b_addr b + 8) = chain_len (b :: l) + x -> load_le 2 m' (b_addr b + 10) = b_len b + x -> -x <= b_len b ->
  pchain m' (b_addr b) (moved x b :: l).
Proof using Hc Hcl.
  intros Hm E0 E4 E8 E10 Hx. destruct Hc as (_ & Hp & Hb & _ & _ & _ & Hn). apply (pchain_head m' (moved x b) l (load_le 4 (lw_mem s) (b_addr b))); cbn [moved b_addr b_payload b_len chain_len] in *; try done; try lia.
  by apply (clear_ext (lw_mem s) m' (b_addr b) 16).
Qed.

Lemma header_moves : -inc <= b_len b -> chain_len (b :: l) + inc < 65536 -> b_addr b + 16 <= b_payload b - inc ->
  exists m', pbuf_header (b_addr b) inc s = NRet 0 (set_lw_mem m' s) /\ pchain m' (b_addr b) (moved inc b :: l) /\
    (forall x, ~ (b_addr b <= x < b_addr b + 16) -> m' x = lw_mem s x) /\ load_le 1 m' (b_addr b + 12) = load_le 1 (lw_mem s) (b_addr b + 12).
Proof.
  intros Hle Hlen Hroom. rewrite header_steps by done. rewrite (proj2 (Z.ltb_ge _ _)) by lia. eexists. split; [done|]. set (m' := store_le 2 _ _ _). pose proof Hc as (_ & Hp & Hb & _ & _ & _ & Hn). pose proof (chain_len_nonneg _ _ _ Hn). cbn [chain_len] in *.
  assert (Hm : forall x, ~ (b_addr b <= x < b_addr b + 16) -> m' x = lw_mem s x) by (intros x Hx; unfold m', m1; rewrite !store_other by (cbn; lia); done).
  split; [|split; [done|unfold m', m1; by mem_load]]. apply header_chain; try done; unfold m', m1; mem_load; rewrite ?u16_small, ?Z.mod_small by (cbn; lia); done || (cbn [chain_len]; lia).
Qed.

End headers.

Lemma moved_packet m m' n b l : 0 <= n <= b_len b -> (forall x, ~ (b_addr b <= x < b_addr b + 16) -> m' x = m x) -> proper (b :: l) ->
  packet m' (moved (-n) b :: l) = drop (Z.to_nat n) (packet m (b :: l)).
Proof.
  intros Hn Hm (P1 & P2 & _ & _). unfold packet. cbn [flat_map].
  assert (E : flat_map (b_data m') l = flat_map (b_data m) l) by (apply packet_ext; eapply list.Forall_impl; [exact P2|]; intros b' [_ Hb] x Hx; apply Hm; unfold apart in Hb; lia).
  rewrite E, drop_app_le by (unfold b_data; rewrite range_length; lia). f_equal. unfold b_data, moved. cbn [b_len b_payload].
  rewrite <- (take_ge (drop _ _) (Z.to_nat (b_len b - n))) by (rewrite length_drop, range_length; lia). rewrite range_sub by lia.
  replace (b_len b + - n) with (b_len b - n) by lia. replace (b_payload b - - n) with (b_payload b + Z.of_nat (Z.to_nat n)) by lia. apply range_same. intros x Hx. apply Hm. unfold apart in P1. lia.
Qed.

Lemma moved_0 b : moved (-0) b = b.
Proof. destruct b. unfold moved. cbn. f_equal; lia. Qed.

(** [pbuf_header] with [-n] hides the first [n] bytes of the packet and
    with [n] reveals them again: the chain and the packet are as before. *)
Theorem pbuf_header_hides s b l n : pchain (lw_mem s) (b_addr b) (b :: l) -> proper (b :: l) -> chain_len (b :: l) < 65536 ->
  load_le 1 (lw_mem s) (b_addr b + 12) = PBUF_RAM \/ load_le 1 (lw_mem s) (b_addr b + 12) = PBUF_POOL ->
  b_addr b + 16 <= b_payload b -> b_payload b + n < 4294967296 -> 0 < n < 32768 -> n <= b_len b ->
  exists m1 m2, pbuf_header (b_addr b) (-n) s = NRet 0 (set_lw_mem m1 s) /\ pchain m1 (b_addr b) (moved (-n) b :: l) /\
    packet m1 (moved (-n) b :: l) = drop (Z.to_nat n) (packet (lw_mem s) (b :: l)) /\
    pbuf_header (b_addr b) n (set_lw_mem m1 s) = NRet 0 (set_lw_mem m2 s) /\ pchain m2 (b_addr b) (b :: l) /\ packet m2 (b :: l) = packet (lw_mem s) (b :: l).
Proof.
  intros Hc Hpr Hlen Hty Hpl Hsp Hn Hle. pose proof Hpr as (P1 & P2 & _). pose proof Hc as (_ & Hp & _). destruct (header_moves s b l (-n)) as (m1 & E1 & C1 & F1 & T1); try done; try lia.
  destruct (header_moves (set_lw_mem m1 s) (moved (-n) b) l n) as (m2 & E2 & C2 & F2 & _); cbn [lw_mem set_lw_mem moved b_addr b_payload b_len chain_len] in *; try done; try lia.
  replace (moved n (moved (- n) b)) with b in C2 by (destruct b; unfold moved; cbn; f_equal; lia).
  exists m1, m2. split; [done|]. split; [done|]. split; [apply moved_packet; [lia|done..]|]. split; [done|]. split; [done|].
  apply (moved_packet (lw_mem s) m2 0 b l) in Hpr; [|lia|intros x Hx; by rewrite F2, F1]. by rewrite moved_0 in Hpr.
Qed.

(** A buffer without room for the header is left as it was. *)
Theorem pbuf_header_no_room s b l n : pchain (lw_mem s) (b_addr b) (b :: l) -> proper (b :: l) ->
  load_le 1 (lw_mem s) (b_addr b + 12) = PBUF_RAM \/ load_le 1 (lw_mem s) (b_addr b + 12) = PBUF_POOL ->
  b_addr b + 16 <= b_payload b < 4294967296 -> 0 < n < 32768 -> n <= b_payload b -> b_payload b - n < b_addr b + 16 ->
  exists m', pbuf_header (b_addr b) n s = NRet 1 (set_lw_mem m' s) /\ pchain m' (b_addr b) (b :: l) /\ packet m' (b :: l) = packet (lw_mem s) (b :: l).
Proof.
  intros Hc Hpr Hty Hpl Hn Hle Hroom. pose proof Hpr as (P1 & P2 & _). pose proof Hc as (_ & Hp & Hb & Epl & Etl & El & _). rewrite (header_steps s b l) by (done || lia). rewrite (proj2 (Z.ltb_lt _ _)) by lia. eexists. split; [done|]. set (m' := store_le 4 _ _ _).
  assert (Hm : forall x, ~ (b_addr b <= x < b_addr b + 16) -> m' x = lw_mem s x) by (intros x Hx; unfold m'; rewrite !store_other by (cbn; lia); done).
  split.
  - rewrite <- (moved_0 b) at 2. apply (header_chain s); try done; unfold m'; mem_load; rewrite ?Z.mod_small, ?Z.add_0_r, ?Z.sub_0_r by (cbn; lia); done || lia.
  - pose proof (moved_packet (lw_mem s) m' 0 b l ltac:(lia) Hm Hpr) as E. by rewrite moved_0 in E.
Qed.

(** A packet of two buffers, the second of which shares no byte with it. *)
Definition two_bufs : lw :=
  let m := store_le 4 (store_le 4 (store_le 2 (store_le 2 (λ x, if (8388636 <=? x) && (x <? 8388642) then x - 8388600 else 0) 8388616 10) 8388618 6) 8388612 8388636) 8388608 8388672 in
  let m := store_le 2 (store_le 2 (store_le 4 m 8388676 8388708) 8388680 4) 8388682 4 in
  mkLw m 0 0 0 [].

(** The same buffers as two packets. *)
Definition two_packets : lw := set_lw_mem (store_le 4 (store_le 2 (lw_mem two_bufs) 8388616 6) 8388608 0) two_bufs.

Definition buf1 := mkPb 8388608 8388636 6.
Definition buf2 := mkPb 8388672 8388708 4.

Lemma two_bufs_chain : pchain (lw_mem two_bufs) 8388608 [buf1; buf2].
Proof. vm_compute. repeat split; congruence. Qed.

Lemma two_bufs_short : (2 < chain_fuel)%nat.
Proof. unfold chain_fuel. lia. Qed.

Lemma pbuf_copy_partial_correct_witness : exists m', pbuf_copy_partial 8388608 4096 4 3 two_bufs = NRet 4 (set_lw_mem m' two_bufs) /\ range m' 4 4096 = [39; 40; 41; 0].
Proof.
  destruct (pbuf_copy_partial_correct two_bufs 8388608 [buf1; buf2] 4096 4 3 two_bufs_chain) as (m' & E1 & E2 & _); [discriminate| |exact two_bufs_short|cbn; lia|lia..| |].
  - repeat constructor; vm_compute; congruence.
  - repeat constructor; vm_compute; congruence.
  - assert (E : take (Z.to_nat 4) (drop (Z.to_nat 3) (packet (lw_mem two_bufs) [buf1; buf2])) = [39; 40; 41; 0]) by (vm_compute; reflexivity).
    rewrite E in E1, E2. exists m'. split; [exact E1|exact E2].
Defined.

Lemma pbuf_cat_correct_witness : exists m', pbuf_cat 8388608 8388672 two_packets = NRet tt (set_lw_mem m' two_packets) /\ pchain m' 8388608 [buf1; buf2] /\ packet m' [buf1; buf2] = [36; 37; 38; 39; 40; 41; 0; 0; 0; 0].
Proof.
  destruct (pbuf_cat_correct two_packets 8388608 8388672 [buf1] [buf2]) as (m' & E1 & E2 & E3 & _); [vm_compute; repeat split; congruence..|discriminate|discriminate| |cbn; lia|lia| |].
  - cbn [app proper]. repeat split; repeat constructor; vm_compute; congruence.
  - pose proof two_bufs_short. cbn [length]. lia.
  - assert (E : packet (lw_mem two_packets) [buf1] ++ packet (lw_mem two_packets) [buf2] = [36; 37; 38; 39; 40; 41; 0; 0; 0; 0]) by (vm_compute; reflexivity).
    rewrite E in E3. exists m'. split; [exact E1|]. split; [exact E2|exact E3].
Defined.

Lemma pbuf_header_hides_witness : exists m1 m2, pbuf_header 8388608 (-2) two_bufs = NRet 0 (set_lw_mem m1 two_bufs) /\ pbuf_header 8388608 2 (set_lw_mem m1 two_bufs) = NRet 0 (set_lw_mem m2 two_bufs) /\
  packet m1 [moved (-2) buf1; buf2] = [38; 39; 40; 41; 0; 0; 0; 0] /\ packet m2 [buf1; buf2] = [36; 37; 38; 39; 40; 41; 0; 0; 0; 0].
Proof.
  destruct (pbuf_header_hides two_bufs buf1 [buf2] 2 two_bufs_chain) as (m1 & m2 & E1 & _ & E2 & E3 & _ & E4); [|cbn; lia|left; done|cbn; lia..|].
  - cbn [proper]. repeat split; repeat constructor; vm_compute; congruence.
  - assert (E : packet (lw_mem two_bufs) [buf1; buf2] = [36; 37; 38; 39; 40; 41; 0; 0; 0; 0]) by (vm_compute; reflexivity).
    rewrite E in E2, E4. exists m1, m2. split; [exact E1|]. split; [exact E3|]. split; [exact E2|exact E4].
Defined.
