(* ===== verification/PbufHeap.v ===== *)
(** * Packet buffers in the heap: correctness

    [pbuf_alloc] and [pbuf_free] for the buffers whose data follow them
    ([PBUF_RAM]), on top of what [LwipMemSpec] shows of the heap. *)

From S2P Require Import Prelude LibString Bytes LwipMem LwipMemSpec Pbuf PbufSpec.

Section Ram.
Context (base : Z).

Lemma store_holds w : forall s A p l a c, holds base s A -> A !! p = Some l -> p <= a -> a + Z.of_nat w <= p + Z.of_nat (length l) ->
  exists l', length l' = length l /\ holds base (set_lw_mem (store_le w (lw_mem s) a c) s) (<[p := l']> A).
Proof.
  induction w as [|w IH]; intros s A p l a c H Hp Ha Hw.
  - exists l. rewrite insert_id by done. cbn [store_le]. by destruct s.
  - cbn [store_le]. set (o := Z.to_nat (a - p)). pose proof (write_holds base s A p l o (c .& 0xFF) H Hp ltac:(lia)) as H1. replace (p + Z.of_nat o) with a in H1 by lia.
    destruct (IH _ _ p (<[o := c .& 0xFF]> l) (a + 1) (c ≫ 8) H1) as (l' & El & H'); [by rewrite lookup_insert_eq|lia|rewrite length_insert; lia|].
    rewrite length_insert in El. exists l'. split; [done|]. by rewrite insert_insert_eq in H'.
Qed.

(** Stores into an object: width, address and value. *)
Definition stores (l : list (nat * Z * Z)) (m : bmem) : bmem := fold_left (λ m '(w, a, c), store_le w m a c) l m.

Lemma stores_holds st : forall s A p l, holds base s A -> A !! p = Some l -> Forall (λ '(w, a, _), p <= a /\ a + Z.of_nat w <= p + Z.of_nat (length l)) st ->
  exists l', length l' = length l /\ holds base (set_lw_mem (stores st (lw_mem s)) s) (<[p := l']> A).
Proof.
  induction st as [|[[w a] c] st IH]; intros s A p l H Hp Hst.
  - exists l. rewrite insert_id by done. cbn [stores fold_left]. by destruct s.
  - apply list.Forall_cons in Hst as [[Ha Hw] Hst]. destruct (store_holds w s A p l a c H Hp Ha Hw) as (l1 & El & H1).
    destruct (IH _ _ p l1 H1) as (l' & El' & H'); [by rewrite lookup_insert_eq|by rewrite El|]. exists l'. rewrite insert_insert_eq in H'. split; [lia|exact H'].
Qed.

Lemma object_space s A p l : holds base s A -> A !! p = Some l -> 0 < p /\ p + Z.of_nat (length l) <= 4294967296 - 12.
Proof.
  intros [bs [H Hd Hl]] Hp. destruct (proj1 (Hd p) ltac:(by eexists)) as [n Hu]. destruct (Hl p n l Hu Hp) as [Hle _].
  pose proof (used_block_range _ _ _ _ _ (hk_blocks _ _ _ H) Hu). pose proof (hk_total _ _ _ H). pose proof (hk_base _ _ _ H). lia.
Qed.

(** What [pbuf_alloc] reserves in front of the data. *)
Definition room (layer : pbuf_layer) : Z := LWIP_MEM_ALIGN_SIZE (SIZEOF_STRUCT_PBUF + layer_offset layer).

Lemma room_ok layer : 0 <= layer_offset layer /\ 16 + layer_offset layer <= room layer <= 72 /\ room layer mod 4 = 0.
Proof. destruct layer; vm_compute; repeat split; congruence. Qed.

Lemma room_payload p layer : p mod 4 = 0 -> 0 < p -> p + room layer + 3 < 4294967296 -> LWIP_MEM_ALIGN (u32 (p + SIZEOF_STRUCT_PBUF + layer_offset layer)) = p + room layer.
Proof.
  intros Hm Hp Hs. change (LWIP_MEM_ALIGN ?x) with (LWIP_MEM_ALIGN_SIZE x). apply Z.mod_divide in Hm as [k ->]; [|lia]. destruct (room_ok layer) as (Ho & Hr & _). change SIZEOF_STRUCT_PBUF with 16.
  rewrite u32_small, align_size by lia. unfold room. change SIZEOF_STRUCT_PBUF with 16. rewrite align_size by lia. replace (k * 4 + 16 + layer_offset layer + 3) with (16 + layer_offset layer + 3 + k * 4) by lia.
  rewrite Z_div_plus_full by lia. lia.
Qed.

Lemma alloc_ram_run s A bs layer len : store_ok base s A bs -> 0 <= len < 65536 ->
  (pbuf_alloc layer len PBUF_RAM s = NRet 0 s) \/
  exists p m' s1 l, pbuf_alloc layer len PBUF_RAM s = NRet p (set_lw_mem m' s1) /\ A !! p = None /\ p mod 4 = 0 /\ room layer + len <= Z.of_nat (length l) /\ holds base (set_lw_mem m' s1) (<[p := l]> A) /\
    pchain m' p [mkPb p (p + room layer) len] /\ load_le 2 m' (p + 14) = 1 /\ load_le 1 m' (p + 12) = PBUF_RAM.
Proof.
  intros H Hlen. destruct (room_ok layer) as (Ho & Hr & Hr4). unfold pbuf_alloc. change (PBUF_RAM =? PBUF_POOL) with false. change (PBUF_RAM =? PBUF_RAM) with true. cbv iota. unfold pbuf_alloc_ram. fold (room layer).
  set (sz := u32 (room layer + LWIP_MEM_ALIGN_SIZE len)). assert (Hsz : room layer + len <= sz <= 72 + 65536).
  { unfold sz. rewrite align_size by lia. pose proof (Z.div_mod (len + 3) 4 ltac:(lia)). pose proof (Z.mod_pos_bound (len + 3) 4 ltac:(lia)). rewrite u32_small by lia. lia. }
  pose proof (malloc_holds base s A bs sz H ltac:(lia)) as Hm. destruct (take_fit (rounded sz) bs) as [r|].
  2: { left. rewrite nbind_assoc, (nbind_run _ _ _ _ _ Hm). done. }
  right. destruct Hm as (p & s1 & l & E & Hp & Hp4 & Hfr & Hl & H1). destruct (object_space _ _ p l H1) as [_ Hsp]; [by rewrite lookup_insert_eq|].
  rewrite nbind_assoc, (nbind_run _ _ _ _ _ E). rewrite (proj2 (Z.eqb_neq p 0)) by lia. rewrite room_payload by (done || lia).
  unfold set_pb_payload, set_pb_tot_len, set_pb_len, set_pb_next, set_pb_type, set_pb_ref, set_pb_flags, pb_payload. nsteps.
  mem_load. rewrite (Z.mod_small (p + room layer) (256 ^ Z.of_nat 4)) by (cbn; lia). rewrite nbind_assert by (apply Z.eqb_eq; change MEM_ALIGNMENT with 4; rewrite Z.add_mod, Hp4, Hr4 by lia; done). rewrite nbind_ret, (proj2 (Z.eqb_neq p 0)) by lia. nsteps.
  set (st := [(4%nat, p + 4, p + room layer); (2%nat, p + 8, len); (2%nat, p + 10, len); (4%nat, p, 0); (1%nat, p + 12, PBUF_RAM); (2%nat, p + 14, 1); (1%nat, p + 13, 0)]).
  destruct (stores_holds st s1 _ p l H1) as (l' & El & H'); [by rewrite lookup_insert_eq|unfold st; repeat constructor; cbn; lia|]. rewrite insert_insert_eq in H'.
  exists p, (stores st (lw_mem s1)), s1, l'. split; [reflexivity|]. split; [done|]. split; [done|]. split; [lia|]. split; [done|]. unfold stores, st. cbn [fold_left]. split.
  - apply (pchain_head _ (mkPb p (p + room layer) len) [] 0); cbn [b_addr b_payload b_len chain_len]; mem_load; rewrite ?Z.mod_small by (cbn; lia); done || lia.
  - split; mem_load; done.
Qed.

Lemma pbuf_free_ram s A p l : holds base s A -> A !! p = Some l -> (16 <= length l)%nat -> load_le 2 (lw_mem s) (p + 14) = 1 -> load_le 1 (lw_mem s) (p + 12) = PBUF_RAM -> load_le 4 (lw_mem s) p = 0 ->
  exists s', pbuf_free p s = NRet 1 s' /\ holds base s' (delete p A).
Proof.
  intros H Hp Hl Hr Ht Hn. destruct (object_space s A p l H Hp) as [Hp0 _]. unfold pbuf_free, pb_type. rewrite (proj2 (Z.eqb_neq p 0)) by lia. nsteps. rewrite Ht, nbind_assert by done.
  assert (Ef : chain_fuel = S (S (Z.to_nat 99998))) by (unfold chain_fuel; lia). rewrite Ef. cbn [pbuf_free_loop]. rewrite (proj2 (Z.eqb_neq p 0)) by lia. unfold pb_ref, pb_next, pb_type, set_pb_ref. nsteps. rewrite Hr, nbind_assert by done. nsteps.
  change (u16 (1 - 1) =? 0) with true. cbv iota. nsteps. mem_load. rewrite Ht, Hn. change (PBUF_RAM =? PBUF_POOL) with false. change ((PBUF_RAM =? PBUF_ROM) || (PBUF_RAM =? PBUF_REF)) with false. cbv iota.
  destruct (store_holds 2 s A p l (p + 14) (u16 (1 - 1)) H Hp) as (l' & El & H'); [lia|cbn; lia|]. destruct (free_holds _ _ _ p H') as (s' & E & H2); [by rewrite lookup_insert_eq; eexists|].
  rewrite (nbind_run _ _ _ _ _ E). exists s'. split; [done|]. by rewrite delete_insert_eq in H2.
Qed.

End Ram.

(** C34: The life of a buffer of the heap.  [pbuf_alloc] gives a new object of
    the heap, in which there is the buffer, room for the headers of the layer
    and below it and, aligned, the data; [pbuf_free] gives the object back and
    all other objects are as before.  It returns NULL when the heap has no room,
    and then nothing has changed. *)
Theorem pbuf_ram_life base s A layer len : holds base s A -> 0 <= len < 65536 ->
  pbuf_alloc layer len PBUF_RAM s = NRet 0 s \/
  exists p s1 l s2, let b := mkPb p (p + room layer) len in
    pbuf_alloc layer len PBUF_RAM s = NRet p s1 /\ A !! p = None /\ holds base s1 (<[p := l]> A) /\ pchain (lw_mem s1) p [b] /\
    p + SIZEOF_STRUCT_PBUF + layer_offset layer <= b_payload b /\ b_payload b + len <= p + Z.of_nat (length l) /\ b_payload b mod MEM_ALIGNMENT = 0 /\
    pbuf_free p s1 = NRet 1 s2 /\ holds base s2 A.
Proof.
  intros [bs H] Hlen. destruct (alloc_ram_run base s A bs layer len H Hlen) as [E|(p & m' & s1 & l & E & Hfr & Hp4 & Hl & H1 & Hc & Hr & Ht)]; [by left|right]. destruct (room_ok layer) as (Ho & Hro & Hr4).
  pose proof Hc as (_ & _ & _ & _ & _ & _ & Hn). destruct (pbuf_free_ram base _ _ p l H1 ltac:(by rewrite lookup_insert_eq) ltac:(lia) Hr Ht Hn) as (s2 & E2 & H2). rewrite delete_insert_id in H2 by done.
  exists p, (set_lw_mem m' s1), l, s2. cbn [b_payload]. change SIZEOF_STRUCT_PBUF with 16. split; [done|]. split; [done|]. split; [done|]. split; [done|]. split; [lia|]. split; [lia|]. split; [|done].
  change MEM_ALIGNMENT with 4. by rewrite Z.add_mod, Hp4, Hr4 by lia.
Qed.

Definition heap_sample : lw := match mem_init 4097 lw_sample with NRet _ s => s | _ => lw_sample end.

Lemma heap_sample_gives : match pbuf_alloc PBUF_TRANSPORT 100 PBUF_RAM heap_sample with NRet p _ => p =? 0 | _ => true end = false.
Proof. vm_compute. reflexivity. Qed.

Lemma pbuf_ram_life_witness : exists p s1 s2, pbuf_alloc PBUF_TRANSPORT 100 PBUF_RAM heap_sample = NRet p s1 /\ pchain (lw_mem s1) p [mkPb p (p + 72) 100] /\ pbuf_free p s1 = NRet 1 s2 /\ holds 4100 s2 ∅.
Proof.
  destruct (init_holds 4097 lw_sample) as (s & E & H); [lia..|]. change (LWIP_MEM_ALIGN 4097) with 4100 in H. assert (Es : heap_sample = s) by (unfold heap_sample; rewrite E; reflexivity). rewrite <- Es in H.
  destruct (pbuf_ram_life 4100 heap_sample ∅ PBUF_TRANSPORT 100 H) as [E0|(p & s1 & l & s2 & E1 & _ & _ & Hc & _ & _ & _ & E2 & H2)]; [lia|exfalso; pose proof heap_sample_gives as Hn; rewrite E0 in Hn; discriminate Hn|].
  exists p, s1, s2. split; [exact E1|]. split; [exact Hc|]. split; [exact E2|exact H2].
Defined.
