(* ===== verification/E1000.v ===== *)
(** * The network card driver ([kern/e1000.c])

    The driver's descriptor rings and packet buffers, byte for byte in the
    memory the card reads and writes, the card's registers, [pci_nic_attach],
    [nic_transmit] and [e1000_receive].  The card itself is described by the
    two steps its manual documents: while the transmitter is enabled and the
    transmit head differs from the tail it fetches the descriptor at the head
    of the ring whose base the registers hold, and the packet bytes from the
    address in that descriptor; while the receiver is enabled and the receive
    head differs from the tail it stores an incoming packet at the address in
    the descriptor at the head.  A call of the driver is one step; the card's
    steps come between calls.  (Padding of short packets and the checksum,
    which the card appends on the wire, are not part of the packets here.) *)

From S2P Require Import Prelude LibString Bytes.

Abbreviation NTXDESC := 40 (only parsing).
Abbreviation NRXDESC := 128 (only parsing).
Abbreviation PKT_BUF_SIZE := 2048 (only parsing).

(** Register indices *)
Abbreviation E1000_TDBAL := 0xE00 (only parsing).
Abbreviation E1000_TDBAH := 0xE01 (only parsing).
Abbreviation E1000_TDLEN := 0xE02 (only parsing).
Abbreviation E1000_TDH := 0xE04 (only parsing).
Abbreviation E1000_TDT := 0xE06 (only parsing).
Abbreviation E1000_TCTL := 0x100 (only parsing).
Abbreviation E1000_TIPG := 0x104 (only parsing).
Abbreviation E1000_RAL := 0x1500 (only parsing).
Abbreviation E1000_RAH := 0x1501 (only parsing).
Abbreviation E1000_RDBAL := 0xA00 (only parsing).
Abbreviation E1000_RDBAH := 0xA01 (only parsing).
Abbreviation E1000_RDLEN := 0xA02 (only parsing).
Abbreviation E1000_RDH := 0xA04 (only parsing).
Abbreviation E1000_RDT := 0xA06 (only parsing).
Abbreviation E1000_RCTL := 0x40 (only parsing).

Abbreviation E1000_TCTL_EN := 2 (only parsing).
Abbreviation E1000_RCTL_EN := 2 (only parsing).
Abbreviation E1000_TXD_RS := 8 (only parsing).
Abbreviation E1000_TXD_DD := 1 (only parsing).
Abbreviation E1000_TXD_EOP := 1 (only parsing).
Abbreviation E1000_RXD_STATUS_DD := 1 (only parsing).
Abbreviation E1000_RXD_STATUS_EOP := 2 (only parsing).

(** The physical addresses the linker gave the arrays [tx_desc], [rxq],
    [tx_pkts_buf] and [rx_pkts]. *)
Record nic_arrays := mkArr { tx_desc_pa : Z; rxq_pa : Z; tx_pkts_pa : Z; rx_pkts_pa : Z }.

Record nic := mkNic {
  net_reg : gmap Z Z; (* the memory-mapped registers, by index *)
  dma : bmem; (* the bytes of the arrays, by physical address *)
  arr : nic_arrays;
  tx_fifo : list Z (* in the card: the bytes of a packet whose end was not fetched yet *)
}.

(** At boot: the arrays are zero. *)
Definition nic0 (a : nic_arrays) : nic := mkNic ∅ (λ _, 0) a [].

Definition reg (n : nic) (r : Z) : Z := default 0 (net_reg n !! r).

Definition set_reg (r v : Z) (n : nic) : nic := mkNic (<[r := u32 v]> (net_reg n)) (dma n) (arr n) (tx_fifo n).

Definition upd_reg (r : Z) (f : Z -> Z) (n : nic) : nic := set_reg r (f (reg n r)) n.

Definition set_dma (m : bmem) (n : nic) : nic := mkNic (net_reg n) m (arr n) (tx_fifo n).

(** A [w]-byte store, and the bytes [l] copied to [a]. *)
Definition st (w : nat) (a v : Z) (n : nic) : nic := set_dma (store_le w (dma n) a v) n.

Definition poke (m : bmem) (a : Z) (l : list Z) : bmem :=
  λ x, if (a <=? x) && (x <? a + Z.of_nat (length l)) then default 0 (l !! Z.to_nat (x - a)) else m x.

Definition pokes (a : Z) (l : list Z) (n : nic) : nic := set_dma (poke (dma n) a l) n.

(** [struct tx_desc] and [struct rx_desc]: 16 bytes, the address in the first
    8, the length in the next two, [cmd] at 11 and [status] at 12. *)
Definition txd_at (n : nic) (i : Z) : Z := tx_desc_pa (arr n) + 16 * i.
Definition tx_addr (n : nic) (i : Z) : Z := load_le 8 (dma n) (txd_at n i).
Definition tx_length (n : nic) (i : Z) : Z := load_le 2 (dma n) (txd_at n i + 8).
Definition tx_cmd (n : nic) (i : Z) : Z := load_le 1 (dma n) (txd_at n i + 11).
Definition tx_status (n : nic) (i : Z) : Z := load_le 1 (dma n) (txd_at n i + 12).

Definition rxd_at (n : nic) (i : Z) : Z := rxq_pa (arr n) + 16 * i.
Definition rx_addr (n : nic) (i : Z) : Z := load_le 8 (dma n) (rxd_at n i).
Definition rx_length (n : nic) (i : Z) : Z := load_le 2 (dma n) (rxd_at n i + 8).
Definition rx_status (n : nic) (i : Z) : Z := load_le 1 (dma n) (rxd_at n i + 12).

(** Packet buffers. *)
Definition tx_buf (n : nic) (i : Z) : Z := tx_pkts_pa (arr n) + PKT_BUF_SIZE * i.
Definition rx_buf (n : nic) (i : Z) : Z := rx_pkts_pa (arr n) + PKT_BUF_SIZE * i.

(** ** The driver *)

(** The bodies of the two initialisation loops. *)
Definition init_txd (n : nic) (i : Z) : nic :=
  let n := st 8 (txd_at n i) (tx_buf n i) n in
  st 1 (txd_at n i + 12) (tx_status n i .| E1000_TXD_DD) n.

Definition init_rxd (n : nic) (i : Z) : nic := st 8 (rxd_at n i) (rx_buf n i) n.

(** Control registers and ring registers of the transmitter, the transmit
    descriptors, then the same for the receiver. *)
Definition tx_regs_init (n : nic) : nic :=
  let n := set_reg E1000_TDBAL (tx_desc_pa (arr n)) n in
  let n := set_reg E1000_TDLEN (NTXDESC * 16) n in
  let n := set_reg E1000_TDH 0 n in
  let n := set_reg E1000_TDT 0 n in
  let n := upd_reg E1000_TCTL (λ v, v .| 0x2) n in
  let n := upd_reg E1000_TCTL (λ v, v .| 0x8) n in
  let n := upd_reg E1000_TCTL (λ v, v .| Z.shiftl 0x10 4) n in
  let n := upd_reg E1000_TCTL (λ v, v .| Z.shiftl 0x40 12) n in
  let n := upd_reg E1000_TIPG (λ v, v .| 0xA) n in
  let n := upd_reg E1000_TIPG (λ v, v .| Z.shiftl 0x4 10) n in
  upd_reg E1000_TIPG (λ v, v .| Z.shiftl 0x6 20) n.

Definition rx_regs_init (n : nic) : nic :=
  let n := set_reg E1000_RAL 0x12005452 n in
  let n := set_reg E1000_RAH (0x00005634 .| 0x80000000) n in
  let n := set_reg E1000_RDBAL (rxq_pa (arr n)) n in
  let n := set_reg E1000_RDBAH 0 n in
  let n := set_reg E1000_RDLEN (NRXDESC * 16) n in
  let n := set_reg E1000_RDH 0 n in
  set_reg E1000_RDT (NRXDESC - 1) n.

Definition rctl_init (n : nic) : nic :=
  let n := upd_reg E1000_RCTL (λ v, v .& 0xffffff3f) n in
  let n := upd_reg E1000_RCTL (λ v, Z.ldiff v 0x02000000) n in
  let n := upd_reg E1000_RCTL (λ v, v .& 0xfffcffff) n in
  let n := upd_reg E1000_RCTL (λ v, v .| 0x04000000) n in
  let n := upd_reg E1000_RCTL (λ v, Z.ldiff v 0x00000020) n in
  upd_reg E1000_RCTL (λ v, v .| 0x2) n.

(** [pci_nic_attach], after the registers were mapped. *)
Definition pci_nic_attach (n : nic) : nic :=
  let n := tx_regs_init n in
  let n := fold_left init_txd (seqZ 0 NTXDESC) n in
  let n := rx_regs_init n in
  let n := fold_left init_rxd (seqZ 0 NRXDESC) n in
  rctl_init n.

(** The tests of [nic_transmit]: the packet fits and the tail descriptor is free. *)
Definition nic_tx_ok (len : Z) (n : nic) : bool :=
  negb (PKT_BUF_SIZE <? len) && hasbits (tx_status n (reg n E1000_TDT)) E1000_TXD_DD.

(** [nic_transmit], for the bytes [data] found at [pkt_addr]. *)
Definition nic_transmit (data : list Z) (len : Z) (n : nic) : Z * nic :=
  if negb (nic_tx_ok len n) then (-1, n)
  else
    let i := reg n E1000_TDT in
    let n := pokes (tx_buf n i) (take (Z.to_nat len) data) n in
    let n := st 1 (txd_at n i + 12) (Z.ldiff (tx_status n i) E1000_TXD_DD) n in
    let n := st 1 (txd_at n i + 11) (tx_cmd n i .| E1000_TXD_EOP) n in
    let n := st 1 (txd_at n i + 11) (tx_cmd n i .| E1000_TXD_RS) n in
    let n := st 2 (txd_at n i + 8) len n in
    (0, set_reg E1000_TDT ((i + 1) mod NTXDESC) n).

(** The descriptor [e1000_receive] looks at, and its tests. *)
Definition rx_tail (n : nic) : Z := (reg n E1000_RDT + 1) mod NRXDESC.

Definition nic_rx_ok (n : nic) : bool :=
  hasbits (rx_status n (rx_tail n)) E1000_RXD_STATUS_DD &&
  hasbits (rx_status n (rx_tail n)) E1000_RXD_STATUS_EOP.

(** [e1000_receive]: the packet's bytes when there is one, and the new state. *)
Definition e1000_receive (n : nic) : Z * list Z * nic :=
  if negb (nic_rx_ok n) then (-1, [], n)
  else
    let i := rx_tail n in
    let pkt := range (dma n) (Z.to_nat (rx_length n i)) (rx_buf n i) in
    let n := st 1 (rxd_at n i + 12) 0 n in
    (0, pkt, set_reg E1000_RDT i n).

(** ** The card *)

(** The descriptor the transmitter fetches next, from the base registers. *)
Definition card_txd (n : nic) : Z := reg n E1000_TDBAL + 2 ^ 32 * reg n E1000_TDBAH + 16 * reg n E1000_TDH.

(** One step of the transmitter, [None] when it is idle: the bytes the head
    descriptor points to are fetched; at the end of a packet it goes out; the
    descriptor is marked done when it asks for a report; the head moves on. *)
Definition card_tx (n : nic) : option (list (list Z) * nic) :=
  if negb (hasbits (reg n E1000_TCTL) E1000_TCTL_EN) || (reg n E1000_TDH =? reg n E1000_TDT) then None
  else
    let d := card_txd n in
    let cmd := load_le 1 (dma n) (d + 11) in
    let data := tx_fifo n ++ range (dma n) (Z.to_nat (load_le 2 (dma n) (d + 8))) (load_le 8 (dma n) d) in
    let eop := hasbits cmd E1000_TXD_EOP in
    let n := if hasbits cmd E1000_TXD_RS then st 1 (d + 12) (load_le 1 (dma n) (d + 12) .| E1000_TXD_DD) n else n in
    let n := mkNic (net_reg n) (dma n) (arr n) (if eop then [] else data) in
    Some (if eop then [data] else [], set_reg E1000_TDH ((reg n E1000_TDH + 1) mod (reg n E1000_TDLEN / 16)) n).

Definition card_rxd (n : nic) : Z := reg n E1000_RDBAL + 2 ^ 32 * reg n E1000_RDBAH + 16 * reg n E1000_RDH.

(** The receiver takes a packet that fits in one buffer, [None] when it
    cannot: its bytes go to the address in the head descriptor. *)
Definition card_rx (pkt : list Z) (n : nic) : option nic :=
  if negb (hasbits (reg n E1000_RCTL) E1000_RCTL_EN) || (reg n E1000_RDH =? reg n E1000_RDT) ||
     (PKT_BUF_SIZE <? Z.of_nat (length pkt)) then None
  else
    let d := card_rxd n in
    let n := pokes (load_le 8 (dma n) d) pkt n in
    let n := st 2 (d + 8) (Z.of_nat (length pkt)) n in
    let n := st 1 (d + 12) (E1000_RXD_STATUS_DD .| E1000_RXD_STATUS_EOP) n in
    Some (set_reg E1000_RDH ((reg n E1000_RDH + 1) mod (reg n E1000_RDLEN / 16)) n).

(** ** Rings *)

Lemma ring_inj N h i j :
  0 <= i < N -> 0 <= j < N -> (h + i) mod N = (h + j) mod N -> i = j.
Proof.
  intros Hi Hj E. apply (f_equal (λ x, (x - h) mod N)) in E. rewrite !Zminus_mod_idemp_l in E.
  replace (h + i - h) with i in E by lia. replace (h + j - h) with j in E by lia.
  by rewrite !Z.mod_small in E by lia.
Qed.

Lemma ring_succ N h i : N <> 0 -> ((h + 1) mod N + i) mod N = (h + (i + 1)) mod N.
Proof. intros. rewrite Z.add_mod_idemp_l by done. f_equal. lia. Qed.

Lemma ring_0 N h : 0 <= h < N -> (h + 0) mod N = h.
Proof. intros. rewrite Z.add_0_r. by apply Z.mod_small. Qed.

Lemma hasbits_lor_self a b : b <> 0 -> hasbits (a .| b) b = true.
Proof.
  intros. unfold hasbits. rewrite negb_true_iff, Z.eqb_neq, Z.land_lor_distr_l, Z.lor_eq_0_iff, Z.land_diag.
  by intros [_ E].
Qed.

Lemma reg_set_eq r v n : reg (set_reg r v n) r = u32 v.
Proof. unfold reg. simpl. by rewrite lookup_insert_eq. Qed.

Lemma reg_set_ne r r' v n : r <> r' -> reg (set_reg r v n) r' = reg n r'.
Proof. intros. unfold reg. simpl. by rewrite lookup_insert_ne. Qed.

Lemma ldiff_clear a b : hasbits (Z.ldiff a b) b = false.
Proof.
  unfold hasbits. apply negb_false_iff, Z.eqb_eq. apply Z.bits_inj'. intros n Hn.
  rewrite Z.land_spec, Z.ldiff_spec, Z.bits_0. destruct (Z.testbit a n), (Z.testbit b n); done.
Qed.

(** A flag of a byte is not lost by the store. *)
Lemma hasbits_byte a b : b .& 255 = b -> hasbits (a mod 256 ^ Z.of_nat 1) b = hasbits a b.
Proof.
  intros E. change (256 ^ Z.of_nat 1) with (2 ^ 8). rewrite <- land_low by lia. unfold hasbits.
  rewrite <- Z.land_assoc, (Z.land_comm (Z.ones 8)). change (Z.ones 8) with 255. by rewrite E.
Qed.

(** Nor of a register. *)
Lemma hasbits_u32 a : hasbits (u32 a) 2 = hasbits a 2.
Proof. unfold u32. change 4294967296 with (2 ^ 32). rewrite <- land_low by lia. unfold hasbits. by rewrite <- Z.land_assoc. Qed.

Lemma hasbits_lor_keep a b c : hasbits a c = true -> hasbits (a .| b) c = true.
Proof.
  unfold hasbits. rewrite !negb_true_iff, !Z.eqb_neq, Z.land_lor_distr_l, Z.lor_eq_0_iff. tauto.
Qed.

Lemma poke_other m a l x : ~ (a <= x < a + Z.of_nat (length l)) -> poke m a l x = m x.
Proof.
  intros H. unfold poke. destruct (Z.leb_spec a x), (Z.ltb_spec x (a + Z.of_nat (length l))); try done. lia.
Qed.

Lemma range_poke m a l : range (poke m a l) (length l) a = l.
Proof.
  apply list_eq. intros i. unfold range. rewrite list_lookup_fmap. destruct (decide (i < length l)%nat) as [Hi|Hi].
  - rewrite lookup_seq_lt by done. simpl. unfold poke. rewrite (proj2 (Z.leb_le _ _)), (proj2 (Z.ltb_lt _ _)) by lia. simpl.
    replace (Z.to_nat (a + Z.of_nat i - a)) with i by lia. destruct (lookup_lt_is_Some_2 l i Hi) as [x ->]. done.
  - rewrite lookup_seq_ge, lookup_ge_None_2 by lia. done.
Qed.

(** ** The arrays in memory *)

Definition apart (a la b lb : Z) : Prop := a + la <= b \/ b + lb <= a.

(** The arrays lie in 32-bit memory and do not overlap. *)
Definition layout (a : nic_arrays) : Prop :=
  (0 <= tx_desc_pa a /\ tx_desc_pa a + 640 <= 2 ^ 32) /\ (0 <= rxq_pa a /\ rxq_pa a + 2048 <= 2 ^ 32) /\
  (0 <= tx_pkts_pa a /\ tx_pkts_pa a + 81920 <= 2 ^ 32) /\ (0 <= rx_pkts_pa a /\ rx_pkts_pa a + 262144 <= 2 ^ 32) /\
  apart (tx_desc_pa a) 640 (rxq_pa a) 2048 /\ apart (tx_desc_pa a) 640 (tx_pkts_pa a) 81920 /\
  apart (tx_desc_pa a) 640 (rx_pkts_pa a) 262144 /\ apart (rxq_pa a) 2048 (tx_pkts_pa a) 81920 /\
  apart (rxq_pa a) 2048 (rx_pkts_pa a) 262144 /\ apart (tx_pkts_pa a) 81920 (rx_pkts_pa a) 262144.

(** The bytes of descriptor and buffer [j] of either ring. *)
Definition tx_slot (a : nic_arrays) (j x : Z) : Prop :=
  tx_desc_pa a + 16 * j <= x < tx_desc_pa a + 16 * j + 16 \/
  tx_pkts_pa a + 2048 * j <= x < tx_pkts_pa a + 2048 * j + 2048.
Definition rx_slot (a : nic_arrays) (j x : Z) : Prop :=
  rxq_pa a + 16 * j <= x < rxq_pa a + 16 * j + 16 \/
  rx_pkts_pa a + 2048 * j <= x < rx_pkts_pa a + 2048 * j + 2048.

Ltac slots := unfold layout, apart, tx_slot, rx_slot in *; lia.

Lemma tx_slots_apart a i j x : layout a -> 0 <= i < 40 -> 0 <= j < 40 -> i <> j -> tx_slot a i x -> ~ tx_slot a j x.
Proof. slots. Qed.

Lemma rx_slots_apart a i j x : layout a -> 0 <= i < 128 -> 0 <= j < 128 -> i <> j -> rx_slot a i x -> ~ rx_slot a j x.
Proof. slots. Qed.

Lemma tx_rx_apart a i j x : layout a -> 0 <= i < 40 -> 0 <= j < 128 -> tx_slot a i x -> ~ rx_slot a j x.
Proof. slots. Qed.

(** ** The transmit ring *)

(** Descriptor [j] is free for the driver. *)
Definition tx_free (n : nic) (j : Z) : Prop := hasbits (tx_status n j) E1000_TXD_DD = true /\ tx_addr n j = tx_buf n j.

(** Descriptor [j] is the card's, with the whole packet [p]. *)
Record tx_busy (n : nic) (j : Z) (p : list Z) : Prop := {
  tb_dd : hasbits (tx_status n j) E1000_TXD_DD = false;
  tb_rs : hasbits (tx_cmd n j) E1000_TXD_RS = true;
  tb_eop : hasbits (tx_cmd n j) E1000_TXD_EOP = true;
  tb_addr : tx_addr n j = tx_buf n j;
  tb_fits : Z.of_nat (length p) <= PKT_BUF_SIZE;
  tb_len : tx_length n j = Z.of_nat (length p);
  tb_data : range (dma n) (length p) (tx_buf n j) = p
}.

(** The packets [q] wait between head and tail, in order; the other
    descriptors are free. *)
Record tx_ring (n : nic) (q : list (list Z)) : Prop := {
  tr_layout : layout (arr n);
  tr_en : hasbits (reg n E1000_TCTL) E1000_TCTL_EN = true;
  tr_base : reg n E1000_TDBAL = tx_desc_pa (arr n) /\ reg n E1000_TDBAH = 0;
  tr_fifo : tx_fifo n = [];
  tr_len : reg n E1000_TDLEN = NTXDESC * 16;
  tr_head : 0 <= reg n E1000_TDH < NTXDESC;
  tr_count : Z.of_nat (length q) <= NTXDESC;
  tr_tail : reg n E1000_TDT = (reg n E1000_TDH + Z.of_nat (length q)) mod NTXDESC;
  tr_busy : forall i p, q !! i = Some p ->
    tx_busy n ((reg n E1000_TDH + Z.of_nat i) mod NTXDESC) p;
  tr_free : forall i, Z.of_nat (length q) <= i < NTXDESC ->
    tx_free n ((reg n E1000_TDH + i) mod NTXDESC)
}.

(** The same arrays, and the same bytes in slot [j]. *)
Definition tx_same (n n' : nic) (j : Z) : Prop := arr n' = arr n /\ forall x, tx_slot (arr n) j x -> dma n' x = dma n x.

Lemma tx_same_fields n n' j : tx_same n n' j ->
  tx_addr n' j = tx_addr n j /\ tx_length n' j = tx_length n j /\ tx_cmd n' j = tx_cmd n j /\
  tx_status n' j = tx_status n j /\ tx_buf n' j = tx_buf n j.
Proof.
  intros [Ha Hd]. unfold tx_addr, tx_length, tx_cmd, tx_status, tx_buf, txd_at in *. rewrite Ha.
  split_and!; try done; apply load_ext; intros x Hx; apply Hd; slots.
Qed.

Lemma tx_same_free n n' j : tx_same n n' j -> tx_free n j -> tx_free n' j.
Proof. intros H [A B]. destruct (tx_same_fields _ _ _ H) as (E1 & _ & _ & E2 & E3). unfold tx_free. by rewrite E1, E2, E3. Qed.

Lemma tx_same_busy n n' j p : tx_same n n' j -> tx_busy n j p -> tx_busy n' j p.
Proof.
  intros H []. destruct (tx_same_fields _ _ _ H) as (E1 & E2 & E3 & E4 & E5). constructor; rewrite ?E1, ?E2, ?E3, ?E4, ?E5; try done.
  rewrite (range_same (dma n)); [done|]. intros x Hx. apply H. unfold tx_buf in Hx. slots.
Qed.

(** What [nic_transmit] does when its tests succeed: it touches one slot and the tail. *)
Lemma nic_transmit_ok data n :
  nic_tx_ok (Z.of_nat (length data)) n = true ->
  exists n', nic_transmit data (Z.of_nat (length data)) n = (0, n') /\
    reg n' E1000_TDT = u32 ((reg n E1000_TDT + 1) mod NTXDESC) /\
    (forall r, r <> E1000_TDT -> reg n' r = reg n r) /\ arr n' = arr n /\ tx_fifo n' = tx_fifo n /\
    (forall x, ~ tx_slot (arr n) (reg n E1000_TDT) x -> dma n' x = dma n x) /\
    (layout (arr n) -> 0 <= reg n E1000_TDT < NTXDESC -> tx_addr n (reg n E1000_TDT) = tx_buf n (reg n E1000_TDT) ->
     tx_busy n' (reg n E1000_TDT) data).
Proof.
  intros Hok. unfold nic_transmit. rewrite Hok. simpl negb. cbv iota zeta. eexists. split; [done|].
  apply andb_true_iff in Hok as [Hl _]. apply negb_true_iff, Z.ltb_ge in Hl.
  set (t := reg n E1000_TDT) in *. rewrite Nat2Z.id, firstn_all.
  split; [apply reg_set_eq|]. split; [intros r Hr; by rewrite reg_set_ne|]. split; [done|]. split; [done|].
  unfold st, pokes, tx_status, tx_cmd, tx_buf, txd_at. cbn [set_reg set_dma dma arr]. split.
  - intros x Hx. rewrite !store_other by slots. apply poke_other. slots.
  - intros Hy Ht Ha.
    assert (Hpk : forall w b, tx_desc_pa (arr n) + 16 * t <= b -> b + Z.of_nat w <= tx_desc_pa (arr n) + 16 * t + 16 ->
              load_le w (poke (dma n) (tx_pkts_pa (arr n) + 2048 * t) data) b = load_le w (dma n) b).
    { intros w b H1 H2. apply load_ext. intros x Hx. apply poke_other. slots. }
    constructor; unfold tx_status, tx_cmd, tx_addr, tx_length, tx_buf, txd_at in *; cbn [set_reg set_dma dma arr] in *; mem_load.
    + rewrite hasbits_byte by done. apply ldiff_clear.
    + rewrite hasbits_byte by done. by apply hasbits_lor_self.
    + rewrite hasbits_byte by done. apply hasbits_lor_keep. rewrite hasbits_byte by done. by apply hasbits_lor_self.
    + by rewrite Hpk by (cbn [Z.of_nat Pos.of_succ_nat Pos.succ]; lia).
    + done.
    + change (256 ^ Z.of_nat 2) with 65536. apply Z.mod_small. lia.
    + rewrite (range_same (poke (dma n) (tx_pkts_pa (arr n) + 2048 * t) data)); [apply range_poke|].
      intros x Hx. by rewrite !store_other by slots.
Qed.

Lemma tail_range {n q} : tx_ring n q -> 0 <= reg n E1000_TDT < NTXDESC.
Proof. intros H. rewrite (tr_tail _ _ H). by apply Z.mod_pos_bound. Qed.

(** Queueing one packet. *)
Lemma tx_ring_transmit n q data :
  tx_ring n q -> Z.of_nat (length q) < NTXDESC -> Z.of_nat (length data) <= PKT_BUF_SIZE ->
  exists n', nic_transmit data (Z.of_nat (length data)) n = (0, n') /\ tx_ring n' (q ++ [data]) /\
    (forall r, r <> E1000_TDT -> reg n' r = reg n r) /\ arr n' = arr n /\
    (forall x, ~ tx_slot (arr n) (reg n E1000_TDT) x -> dma n' x = dma n x).
Proof.
  intros H Hq Hlen. set (t := reg n E1000_TDT). set (h := reg n E1000_TDH).
  assert (Htail : t = (h + Z.of_nat (length q)) mod NTXDESC) by apply (tr_tail _ _ H).
  pose proof (tr_free _ _ H (Z.of_nat (length q)) ltac:(lia)) as [Hdd Hbuf]. fold h in Hdd, Hbuf. rewrite <- Htail in Hdd, Hbuf.
  assert (Hok : nic_tx_ok (Z.of_nat (length data)) n = true).
  { unfold nic_tx_ok. rewrite andb_true_iff, negb_true_iff, Z.ltb_ge. split; [lia|done]. }
  destruct (nic_transmit_ok data n Hok) as (n' & He & Ht' & Hr & Ha & Hfi & Hoth & Hb).
  pose proof (tail_range H) as Htr. specialize (Hb (tr_layout _ _ H) Htr Hbuf). fold t in Ht', Hoth, Hb.
  exists n'. split; [done|]. split; [|done]. assert (Hh : reg n' E1000_TDH = h) by (by apply Hr).
  assert (Hsame : forall i, 0 <= i < NTXDESC -> i <> Z.of_nat (length q) -> tx_same n n' ((h + i) mod NTXDESC)).
  { intros i Hi Hi'. split; [done|]. intros x Hx. apply Hoth. revert Hx.
    apply tx_slots_apart; [apply (tr_layout _ _ H)|by apply Z.mod_pos_bound|done|]. intros E. rewrite Htail in E. apply ring_inj in E; [done|lia|lia]. }
  constructor; rewrite ?Hh, ?Ha, ?Hfi, ?length_app; cbn [length].
  - apply (tr_layout _ _ H).
  - rewrite Hr by done. apply (tr_en _ _ H).
  - rewrite !Hr by done. apply (tr_base _ _ H).
  - apply (tr_fifo _ _ H).
  - rewrite Hr by done. apply (tr_len _ _ H).
  - apply (tr_head _ _ H).
  - lia.
  - rewrite Ht', Htail. rewrite u32_small.
    + rewrite Z.add_mod_idemp_l by lia. f_equal. lia.
    + pose proof (Z.mod_pos_bound ((h + Z.of_nat (length q)) mod NTXDESC + 1) 40). lia.
  - intros i p Hp. apply lookup_app_Some in Hp as [Hp|[Hi Hp]].
    + pose proof (tr_busy _ _ H i p Hp). apply lookup_lt_Some in Hp. apply (tx_same_busy n); [apply Hsame; lia|done].
    + apply list_lookup_singleton_Some in Hp as [Hi0 <-].
      replace (Z.of_nat i) with (Z.of_nat (length q)) by lia. by rewrite <- Htail.
  - intros i Hi. apply (tx_same_free n); [apply Hsame; lia|]. apply (tr_free _ _ H). lia.
Qed.

(** The card fetches the oldest packet from its buffer, whole, and reports. *)
Lemma card_tx_ring n p q : tx_ring n (p :: q) -> reg n E1000_TDH <> reg n E1000_TDT ->
  exists n', card_tx n = Some ([p], n') /\ reg n' E1000_TDH = (reg n E1000_TDH + 1) mod NTXDESC /\
    (forall r, r <> E1000_TDH -> reg n' r = reg n r) /\ arr n' = arr n /\ tx_fifo n' = [] /\
    tx_free n' (reg n E1000_TDH) /\ (forall x, ~ tx_slot (arr n) (reg n E1000_TDH) x -> dma n' x = dma n x).
Proof.
  intros H Hne. pose proof (tr_busy _ _ H 0 p eq_refl) as Hb. pose proof (tr_head _ _ H) as Hh.
  rewrite ring_0 in Hb by done. set (h := reg n E1000_TDH) in *. destruct Hb as [_ Hrs Heop Haddr _ Hlen Hdata].
  assert (Hd : card_txd n = txd_at n h).
  { unfold card_txd, txd_at. destruct (tr_base _ _ H) as [-> ->]. fold h. lia. }
  unfold card_tx. fold h. rewrite (tr_en _ _ H), (proj2 (Z.eqb_neq _ _) Hne), Hd. cbn [negb orb]. cbv zeta iota.
  change (load_le 1 (dma n) (txd_at n h + 11)) with (tx_cmd n h). change (load_le 2 (dma n) (txd_at n h + 8)) with (tx_length n h).
  change (load_le 8 (dma n) (txd_at n h)) with (tx_addr n h).
  rewrite Hrs, Heop, Haddr, Hlen, Nat2Z.id, Hdata, (tr_fifo _ _ H). cbn [app]. eexists. split; [done|].
  split; [|split; [|split; [done|split; [done|split]]]].
  - rewrite reg_set_eq. change (reg (mkNic _ _ _ _) E1000_TDLEN) with (reg n E1000_TDLEN). rewrite (tr_len _ _ H).
    change (NTXDESC * 16 / 16) with 40. change (reg (mkNic _ _ _ _) E1000_TDH) with h.
    pose proof (Z.mod_pos_bound (h + 1) 40). rewrite u32_small; lia.
  - intros r Hr. by rewrite reg_set_ne.
  - unfold tx_free, tx_status, tx_addr, tx_buf, txd_at in *. cbn [set_reg st set_dma dma arr]. mem_load. split; [|done].
    rewrite hasbits_byte by done. by apply hasbits_lor_self.
  - intros x Hx. cbn [set_reg st set_dma dma]. apply store_other. unfold txd_at. slots.
Qed.

Lemma tx_ring_send n p q :
  tx_ring n (p :: q) -> reg n E1000_TDH <> reg n E1000_TDT ->
  exists n', card_tx n = Some ([p], n') /\ tx_ring n' q /\
    (forall r, r <> E1000_TDH -> reg n' r = reg n r) /\ arr n' = arr n /\
    (forall x, ~ tx_slot (arr n) (reg n E1000_TDH) x -> dma n' x = dma n x).
Proof.
  intros H Hne. destruct (card_tx_ring n p q H Hne) as (n1 & E & Hh & Hreg & Ha & Hfi & Hfr & Hoth).
  exists n1. split; [done|]. split; [|done]. set (h := reg n E1000_TDH) in *.
  pose proof (tr_count _ _ H) as Hc. cbn [length] in Hc. pose proof (tr_head _ _ H) as Hhr. fold h in Hhr.
  assert (Hsame : forall i, 0 <= i < NTXDESC - 1 -> tx_same n n1 ((h + (i + 1)) mod NTXDESC)).
  { intros i Hi. split; [done|]. intros x Hx. apply Hoth. revert Hx.
    apply tx_slots_apart; [apply (tr_layout _ _ H)|by apply Z.mod_pos_bound|done|].
    intros E'. rewrite <- (ring_0 NTXDESC h) in E' at 2 by done. apply ring_inj in E'; lia. }
  constructor; rewrite ?Hh, ?Ha.
  - apply (tr_layout _ _ H).
  - rewrite Hreg by done. apply (tr_en _ _ H).
  - rewrite !Hreg by done. apply (tr_base _ _ H).
  - done.
  - rewrite Hreg by done. apply (tr_len _ _ H).
  - by apply Z.mod_pos_bound.
  - lia.
  - rewrite Hreg, (tr_tail _ _ H) by done. cbn [length]. rewrite ring_succ by done. f_equal. fold h. lia.
  - intros i x Hx. rewrite ring_succ by done. pose proof (tr_busy _ _ H (S i) x Hx) as Hb. apply lookup_lt_Some in Hx.
    apply (tx_same_busy n); [apply Hsame; lia|]. fold h in Hb. by replace (Z.of_nat i + 1) with (Z.of_nat (S i)) by lia.
  - intros i Hi. rewrite ring_succ by done. destruct (decide (i = NTXDESC - 1)) as [->|].
    + change (NTXDESC - 1 + 1) with (1 * 40). by rewrite Z.mod_add, Z.mod_small by lia.
    + apply (tx_same_free n); [apply Hsame; lia|]. apply (tr_free _ _ H). cbn [length]. lia.
Qed.

(** The card is idle exactly when head and tail are equal. *)
Lemma card_tx_idle n q : tx_ring n q -> reg n E1000_TDH = reg n E1000_TDT -> card_tx n = None.
Proof. intros H E. unfold card_tx. by rewrite E, Z.eqb_refl, orb_true_r. Qed.

Lemma tx_ring_nil n : tx_ring n [] -> card_tx n = None.
Proof. intros H. apply (card_tx_idle n []); [done|]. rewrite (tr_tail _ _ H). symmetry. apply ring_0, (tr_head _ _ H). Qed.

(** A full ring: the card sees head and tail equal, the driver no free descriptor. *)
Lemma tx_ring_full n q :
  tx_ring n q -> Z.of_nat (length q) = NTXDESC ->
  reg n E1000_TDH = reg n E1000_TDT /\ forall len, nic_tx_ok len n = false.
Proof.
  intros H Hq. pose proof (tr_head _ _ H) as Hh.
  assert (Ht : reg n E1000_TDT = reg n E1000_TDH).
  { rewrite (tr_tail _ _ H), Hq. replace 40 with (1 * 40) at 1 by done.
    rewrite Z.mod_add by lia. by apply Z.mod_small. }
  split; [done|]. intros len. unfold nic_tx_ok. rewrite Ht.
  destruct q as [|p q]; [simpl in Hq; lia|]. destruct (tr_busy _ _ H 0 p eq_refl) as [Hdd _ _ _ _ _ _].
  rewrite ring_0 in Hdd by done. by rewrite Hdd, andb_false_r.
Qed.

Lemma tx_ring_moves n p q : tx_ring n (p :: q) -> Z.of_nat (length (p :: q)) < NTXDESC -> reg n E1000_TDH <> reg n E1000_TDT.
Proof.
  intros H Hq E. pose proof (tr_head _ _ H) as Hh. rewrite (tr_tail _ _ H) in E. rewrite <- (ring_0 NTXDESC (reg n E1000_TDH)) in E at 1 by done.
  apply ring_inj in E; cbn [length] in *; lia.
Qed.

Definition tx_regs : list Z := [E1000_TCTL; E1000_TDBAL; E1000_TDBAH; E1000_TDLEN; E1000_TDH; E1000_TDT].

(** The transmit ring depends on its registers and slots only. *)
Lemma tx_ring_frame n n' q :
  tx_ring n q -> arr n' = arr n -> tx_fifo n' = tx_fifo n -> (forall r, r ∈ tx_regs -> reg n' r = reg n r) ->
  (forall j x, 0 <= j < NTXDESC -> tx_slot (arr n) j x -> dma n' x = dma n x) -> tx_ring n' q.
Proof.
  intros [] Ha Hf Hr Hd. assert (Hs : forall i, tx_same n n' (i mod NTXDESC)).
  { intros i. split; [done|]. intros x. apply Hd. by apply Z.mod_pos_bound. }
  constructor; rewrite ?Ha, ?Hf, ?(Hr E1000_TCTL), ?(Hr E1000_TDBAL), ?(Hr E1000_TDBAH), ?(Hr E1000_TDLEN), ?(Hr E1000_TDH), ?(Hr E1000_TDT)
    by (unfold tx_regs; set_solver); try done.
  - intros i p Hp. apply (tx_same_busy n); auto.
  - intros i Hi. apply (tx_same_free n); auto.
Qed.

(** ** The receive ring *)

(** Descriptor [j] is the card's, or holds the packet [p] for the driver. *)
Definition rx_card (n : nic) (j : Z) : Prop := rx_status n j = 0 /\ rx_addr n j = rx_buf n j.

Record rx_done (n : nic) (j : Z) (p : list Z) : Prop := {
  rd_status : rx_status n j = 3;
  rd_addr : rx_addr n j = rx_buf n j;
  rd_fits : Z.of_nat (length p) <= PKT_BUF_SIZE;
  rd_len : rx_length n j = Z.of_nat (length p);
  rd_data : range (dma n) (length p) (rx_buf n j) = p
}.

(** The packets [q] wait for the driver, in order, from the descriptor after
    the tail; the others are the card's. *)
Record rx_ring (n : nic) (q : list (list Z)) : Prop := {
  rr_layout : layout (arr n);
  rr_en : hasbits (reg n E1000_RCTL) E1000_RCTL_EN = true;
  rr_base : reg n E1000_RDBAL = rxq_pa (arr n) /\ reg n E1000_RDBAH = 0;
  rr_len : reg n E1000_RDLEN = NRXDESC * 16;
  rr_tail : 0 <= reg n E1000_RDT < NRXDESC;
  rr_count : Z.of_nat (length q) < NRXDESC;
  rr_head : reg n E1000_RDH = (rx_tail n + Z.of_nat (length q)) mod NRXDESC;
  rr_done : forall i p, q !! i = Some p -> rx_done n ((rx_tail n + Z.of_nat i) mod NRXDESC) p;
  rr_card : forall i, Z.of_nat (length q) <= i < NRXDESC -> rx_card n ((rx_tail n + i) mod NRXDESC)
}.

Definition rx_same (n n' : nic) (j : Z) : Prop := arr n' = arr n /\ forall x, rx_slot (arr n) j x -> dma n' x = dma n x.

Lemma rx_same_fields n n' j : rx_same n n' j ->
  rx_addr n' j = rx_addr n j /\ rx_length n' j = rx_length n j /\ rx_status n' j = rx_status n j /\ rx_buf n' j = rx_buf n j.
Proof.
  intros [Ha Hd]. unfold rx_addr, rx_length, rx_status, rx_buf, rxd_at in *. rewrite Ha.
  split_and!; try done; apply load_ext; intros x Hx; apply Hd; slots.
Qed.

Lemma rx_same_card n n' j : rx_same n n' j -> rx_card n j -> rx_card n' j.
Proof. intros H [A B]. destruct (rx_same_fields _ _ _ H) as (E1 & _ & E2 & E3). unfold rx_card. by rewrite E1, E2, E3. Qed.

Lemma rx_same_done n n' j p : rx_same n n' j -> rx_done n j p -> rx_done n' j p.
Proof.
  intros H []. destruct (rx_same_fields _ _ _ H) as (E1 & E2 & E3 & E4). constructor; rewrite ?E1, ?E2, ?E3, ?E4; try done.
  rewrite (range_same (dma n)); [done|]. intros x Hx. apply H. unfold rx_buf in Hx. slots.
Qed.

Lemma rx_tail_range n : 0 <= rx_tail n < NRXDESC.
Proof. unfold rx_tail. by apply Z.mod_pos_bound. Qed.

Definition rx_regs : list Z := [E1000_RCTL; E1000_RDBAL; E1000_RDBAH; E1000_RDLEN; E1000_RDH; E1000_RDT].

Lemma rx_ring_frame n n' q :
  rx_ring n q -> arr n' = arr n -> (forall r, r ∈ rx_regs -> reg n' r = reg n r) ->
  (forall j x, 0 <= j < NRXDESC -> rx_slot (arr n) j x -> dma n' x = dma n x) -> rx_ring n' q.
Proof.
  intros [] Ha Hr Hd. assert (Hs : forall i, rx_same n n' (i mod NRXDESC)).
  { intros i. split; [done|]. intros x. apply Hd. by apply Z.mod_pos_bound. }
  assert (Ht : rx_tail n' = rx_tail n) by (unfold rx_tail; rewrite Hr by (unfold rx_regs; set_solver); done).
  constructor; rewrite ?Ha, ?Ht, ?(Hr E1000_RCTL), ?(Hr E1000_RDBAL), ?(Hr E1000_RDBAH), ?(Hr E1000_RDLEN), ?(Hr E1000_RDH), ?(Hr E1000_RDT)
    by (unfold rx_regs; set_solver); try done.
  - intros i p Hp. apply (rx_same_done n); auto.
  - intros i Hi. apply (rx_same_card n); auto.
Qed.

(** The card stores a packet in the slot at its head. *)
Lemma card_rx_slot n q pkt n' : rx_ring n q -> card_rx pkt n = Some n' ->
  Z.of_nat (length pkt) <= PKT_BUF_SIZE /\ Z.of_nat (length q) < NRXDESC - 1 /\
  reg n' E1000_RDH = (reg n E1000_RDH + 1) mod NRXDESC /\ (forall r, r <> E1000_RDH -> reg n' r = reg n r) /\
  arr n' = arr n /\ tx_fifo n' = tx_fifo n /\ rx_done n' (reg n E1000_RDH) pkt /\
  (forall x, ~ rx_slot (arr n) (reg n E1000_RDH) x -> dma n' x = dma n x).
Proof.
  intros H. set (h := reg n E1000_RDH). pose proof (rr_head _ _ H) as Hh. pose proof (rr_count _ _ H) as Hc.
  assert (Hhr : 0 <= h < NRXDESC) by (subst h; rewrite Hh; by apply Z.mod_pos_bound).
  assert (Haddr : rx_addr n h = rx_buf n h).
  { subst h. rewrite Hh. apply (rr_card _ _ H). lia. }
  assert (Hd : card_rxd n = rxd_at n h) by (unfold card_rxd, rxd_at; destruct (rr_base _ _ H) as [-> ->]; fold h; lia).
  pose proof (rr_layout _ _ H) as Hy. unfold card_rx. rewrite (rr_en _ _ H), Hd. cbn [negb orb].
  destruct (Z.eqb_spec (reg n E1000_RDH) (reg n E1000_RDT)) as [|Hne]; [done|].
  destruct (Z.ltb_spec PKT_BUF_SIZE (Z.of_nat (length pkt))) as [|Hl]; [done|]. cbv zeta iota. cbn [orb].
  change (load_le 8 (dma n) (rxd_at n h)) with (rx_addr n h). rewrite Haddr. intros [= <-].
  split; [done|]. split; [|split; [|split; [|split; [done|split; [done|split]]]]].
  - destruct (decide (Z.of_nat (length q) = NRXDESC - 1)) as [E|]; [|lia]. exfalso. apply Hne.
    rewrite Hh, E. unfold rx_tail. rewrite Z.add_mod_idemp_l by lia.
    replace (reg n E1000_RDT + 1 + (NRXDESC - 1)) with (reg n E1000_RDT + 1 * 128) by lia.
    rewrite Z.mod_add by lia. apply Z.mod_small. apply (rr_tail _ _ H).
  - rewrite reg_set_eq. change (reg (st _ _ _ _) E1000_RDLEN) with (reg n E1000_RDLEN). rewrite (rr_len _ _ H).
    change (NRXDESC * 16 / 16) with 128. change (reg (st _ _ _ _) E1000_RDH) with h.
    pose proof (Z.mod_pos_bound (h + 1) 128). rewrite u32_small; lia.
  - intros r Hr. by rewrite reg_set_ne.
  - unfold rx_addr, rxd_at, rx_buf in *.
    constructor; unfold rx_status, rx_addr, rx_length, rx_buf, rxd_at in *; cbn [set_reg st pokes set_dma dma arr] in *; mem_load; try done.
    + rewrite <- Haddr. apply load_ext. intros x Hx. rewrite Haddr. apply poke_other. change (Z.of_nat 8) with 8 in Hx. slots.
    + change (256 ^ Z.of_nat 2) with 65536. apply Z.mod_small. lia.
    + rewrite (range_same (poke (dma n) (rx_pkts_pa (arr n) + 2048 * h) pkt)); [apply range_poke|].
      intros x Hx. by rewrite !store_other by slots.
  - intros x Hx. cbn [set_reg st pokes set_dma dma]. unfold rxd_at, rx_buf. rewrite !store_other by slots. apply poke_other. slots.
Qed.

(** It can, while fewer than 127 packets wait. *)
Lemma card_rx_takes n r pkt : rx_ring n r -> Z.of_nat (length r) < NRXDESC - 1 -> Z.of_nat (length pkt) <= PKT_BUF_SIZE -> card_rx pkt n <> None.
Proof.
  intros H Hr Hl. unfold card_rx. rewrite (rr_en _ _ H), (proj2 (Z.ltb_ge _ _) Hl). cbn [negb orb].
  destruct (Z.eqb_spec (reg n E1000_RDH) (reg n E1000_RDT)) as [E|]; [exfalso|done].
  pose proof (rr_tail _ _ H) as Ht. rewrite (rr_head _ _ H) in E. unfold rx_tail in E. rewrite Z.add_mod_idemp_l in E by lia.
  rewrite <- Z.add_assoc in E. rewrite <- (ring_0 NRXDESC (reg n E1000_RDT)) in E at 2 by done. apply ring_inj in E; lia.
Qed.

Lemma rx_ring_store n q pkt n' : rx_ring n q -> card_rx pkt n = Some n' -> rx_ring n' (q ++ [pkt]).
Proof.
  intros H Hs. destruct (card_rx_slot _ _ _ _ H Hs) as (Hl & Hlt & Hh' & Hreg & Ha & _ & Hdone & Hoth).
  set (h := reg n E1000_RDH) in *. pose proof (rr_head _ _ H) as Hh. fold h in Hh.
  assert (Ht : rx_tail n' = rx_tail n) by (unfold rx_tail; by rewrite Hreg). pose proof (rx_tail_range n) as Htr.
  assert (Hsame : forall i, 0 <= i < NRXDESC -> i <> Z.of_nat (length q) -> rx_same n n' ((rx_tail n + i) mod NRXDESC)).
  { intros i Hi Hi'. split; [done|]. intros x Hx. apply Hoth. revert Hx.
    apply rx_slots_apart; [apply (rr_layout _ _ H)|by apply Z.mod_pos_bound|rewrite Hh; by apply Z.mod_pos_bound|].
    intros E. rewrite Hh in E. apply ring_inj in E; lia. }
  constructor; rewrite ?Ht, ?Ha, ?length_app; cbn [length].
  - apply (rr_layout _ _ H).
  - rewrite Hreg by done. apply (rr_en _ _ H).
  - rewrite !Hreg by done. apply (rr_base _ _ H).
  - rewrite Hreg by done. apply (rr_len _ _ H).
  - rewrite Hreg by done. apply (rr_tail _ _ H).
  - lia.
  - rewrite Hh', Hh, Z.add_mod_idemp_l by lia. f_equal. lia.
  - intros i p Hp. apply lookup_app_Some in Hp as [Hp|[Hi Hp]].
    + pose proof (rr_done _ _ H i p Hp). apply lookup_lt_Some in Hp. apply (rx_same_done n); [apply Hsame; lia|done].
    + apply list_lookup_singleton_Some in Hp as [Hi0 <-].
      replace (Z.of_nat i) with (Z.of_nat (length q)) by lia. by rewrite <- Hh.
  - intros i Hi. apply (rx_same_card n); [apply Hsame; lia|]. apply (rr_card _ _ H). lia.
Qed.

(** A ring whose oldest slot went back to the card. *)
Lemma rx_ring_taken n p q n1 :
  rx_ring n (p :: q) -> arr n1 = arr n -> (forall r, r <> E1000_RDT -> reg n1 r = reg n r) -> reg n1 E1000_RDT = rx_tail n ->
  rx_card n1 (rx_tail n) -> (forall x, ~ rx_slot (arr n) (rx_tail n) x -> dma n1 x = dma n x) -> rx_ring n1 q.
Proof.
  intros H Ha Hreg Hrt Hfree Hoth. pose proof (rx_tail_range n) as Htr. set (t := rx_tail n) in *.
  pose proof (rr_count _ _ H) as Hc. cbn [length] in Hc.
  assert (Ht : rx_tail n1 = (t + 1) mod NRXDESC) by (unfold rx_tail; by rewrite Hrt).
  assert (Hsame : forall i, 0 <= i < NRXDESC - 1 -> rx_same n n1 ((t + (i + 1)) mod NRXDESC)).
  { intros i Hi. split; [done|]. intros x Hx. apply Hoth. revert Hx.
    apply rx_slots_apart; [apply (rr_layout _ _ H)|by apply Z.mod_pos_bound|done|].
    intros E. rewrite <- (ring_0 NRXDESC t) in E at 2 by done. apply ring_inj in E; lia. }
  constructor; rewrite ?Ht, ?Ha.
  - apply (rr_layout _ _ H).
  - rewrite Hreg by done. apply (rr_en _ _ H).
  - rewrite !Hreg by done. apply (rr_base _ _ H).
  - rewrite Hreg by done. apply (rr_len _ _ H).
  - by rewrite Hrt.
  - lia.
  - rewrite Hreg, (rr_head _ _ H) by done. cbn [length]. fold t. rewrite ring_succ by done. f_equal. lia.
  - intros i x Hx. rewrite ring_succ by done. pose proof (rr_done _ _ H (S i) x Hx) as Hd. apply lookup_lt_Some in Hx.
    apply (rx_same_done n); [apply Hsame; lia|]. fold t in Hd. by replace (Z.of_nat i + 1) with (Z.of_nat (S i)) by lia.
  - intros i Hi. rewrite ring_succ by done. destruct (decide (i = NRXDESC - 1)) as [->|].
    + change (NRXDESC - 1 + 1) with (1 * 128). by rewrite Z.mod_add, Z.mod_small by lia.
    + apply (rx_same_card n); [apply Hsame; lia|]. apply (rr_card _ _ H). cbn [length]. lia.
Qed.

(** The driver takes the oldest packet, and nothing when none waits. *)
Lemma rx_ring_receive n q :
  rx_ring n q ->
  match q with
  | [] => e1000_receive n = (-1, [], n)
  | p :: q' => exists n', e1000_receive n = (0, p, n') /\ rx_ring n' q' /\
      (forall r, r <> E1000_RDT -> reg n' r = reg n r) /\ arr n' = arr n /\ tx_fifo n' = tx_fifo n /\
      (forall x, ~ rx_slot (arr n) (rx_tail n) x -> dma n' x = dma n x)
  end.
Proof.
  intros H. pose proof (rx_tail_range n) as Htr. set (t := rx_tail n) in *. unfold e1000_receive. fold t.
  destruct q as [|p q].
  - destruct (rr_card _ _ H 0 ltac:(simpl; lia)) as [Hs _]. fold t in Hs. rewrite ring_0 in Hs by done.
    assert (nic_rx_ok n = false) as ->; [|done]. unfold nic_rx_ok. fold t. by rewrite Hs.
  - pose proof (rr_done _ _ H 0 p eq_refl) as Hd. fold t in Hd. change (Z.of_nat 0) with 0 in Hd.
    rewrite ring_0 in Hd by done. destruct Hd as [Hs Haddr _ Hl Hp].
    assert (nic_rx_ok n = true) as -> by (unfold nic_rx_ok; fold t; by rewrite Hs).
    cbn [negb]. cbv zeta iota. rewrite Hl, Nat2Z.id, Hp. eexists. split; [done|]. set (n1 := set_reg _ _ _).
    assert (Hreg : forall r, r <> E1000_RDT -> reg n1 r = reg n r) by (intros r Hr; subst n1; by rewrite reg_set_ne).
    assert (Hoth : forall x, ~ rx_slot (arr n) t x -> dma n1 x = dma n x).
    { intros x Hx. subst n1. cbn [set_reg st set_dma dma]. apply store_other. unfold rxd_at. slots. }
    split; [|done]. assert (Hrt : reg n1 E1000_RDT = t) by (subst n1; rewrite reg_set_eq, u32_small; lia).
    assert (Hfree : rx_card n1 t).
    { subst n1. unfold rx_card, rx_status, rx_addr, rx_buf, rxd_at in *. cbn [set_reg st set_dma dma arr]. mem_load. done. }
    by apply (rx_ring_taken n p q n1 H).
Qed.

(** ** Initialisation *)

Lemma reg_upd_ne r r' f n : r <> r' -> reg (upd_reg r f n) r' = reg n r'.
Proof. apply reg_set_ne. Qed.

(** Both initialisation loops prepare every slot of their ring. *)
Lemma init_txd_slot n i : layout (arr n) -> 0 <= i < NTXDESC ->
  tx_free (init_txd n i) i /\ (forall r, reg (init_txd n i) r = reg n r) /\ arr (init_txd n i) = arr n /\
  tx_fifo (init_txd n i) = tx_fifo n /\ (forall x, ~ tx_slot (arr n) i x -> dma (init_txd n i) x = dma n x).
Proof.
  intros Hy Hi. unfold init_txd. split; [|split; [done|split; [done|split; [done|]]]].
  - unfold tx_free, tx_status, tx_addr, tx_buf, txd_at in *. cbn [st set_dma dma arr]. mem_load. split.
    + rewrite hasbits_byte by done. by apply hasbits_lor_self.
    + apply Z.mod_small. change (256 ^ Z.of_nat 8) with (2 ^ 64). slots.
  - intros x Hx. unfold tx_status, txd_at in *. cbn [st set_dma dma arr]. rewrite !store_other; [done|slots..].
Qed.

Lemma tx_loop l : forall n n',
  n' = fold_left init_txd l n -> layout (arr n) -> Forall (λ i, 0 <= i < NTXDESC) l ->
  (forall r, reg n' r = reg n r) /\ arr n' = arr n /\ tx_fifo n' = tx_fifo n /\
  (forall j, 0 <= j < NTXDESC -> j ∈ l \/ tx_free n j -> tx_free n' j) /\
  (forall x, (forall j, 0 <= j < NTXDESC -> ~ tx_slot (arr n) j x) -> dma n' x = dma n x).
Proof.
  induction l as [|i l IH]; intros n n' En Hy Hl; simpl in En; [subst; split_and!; try done; set_solver|].
  apply Forall_cons_1 in Hl as [Hi Hl]. destruct (init_txd_slot n i Hy Hi) as (A1 & A2 & A3 & A4 & A5).
  destruct (IH (init_txd n i) n' En) as (H1 & H2 & H3 & H4 & H5); [by rewrite A3|done|]. split_and!; try congruence.
  - intros j Hj Hjl. apply H4; [done|]. destruct (decide (i = j)) as [<-|Hne]; [by right|].
    rewrite elem_of_cons in Hjl. destruct Hjl as [[?|?]|Hf]; [congruence|by left|]. right. apply (tx_same_free n); [|done].
    split; [done|]. intros x Hx. apply A5. revert Hx. by apply tx_slots_apart.
  - intros x Hx. rewrite H5, A5; [done|by apply Hx|]. by rewrite A3.
Qed.

Lemma rx_loop l : forall n n',
  n' = fold_left init_rxd l n -> layout (arr n) -> Forall (λ i, 0 <= i < NRXDESC) l ->
  (forall r, reg n' r = reg n r) /\ arr n' = arr n /\ tx_fifo n' = tx_fifo n /\
  (forall j, 0 <= j < NRXDESC -> rx_status n' j = rx_status n j /\ (j ∈ l \/ rx_addr n j = rx_buf n j -> rx_addr n' j = rx_buf n' j)) /\
  (forall x, (forall j, 0 <= j < NRXDESC -> ~ rx_slot (arr n) j x) -> dma n' x = dma n x).
Proof.
  induction l as [|i l IH]; intros n n' En Hy Hl; simpl in En; [subst; split_and!; try done; set_solver|].
  apply Forall_cons_1 in Hl as [Hi Hl]. destruct (IH (init_rxd n i) n' En) as (H1 & H2 & H3 & H4 & H5); [done|done|].
  assert (Hoth : forall x, ~ rx_slot (arr n) i x -> dma (init_rxd n i) x = dma n x).
  { intros x Hx. unfold init_rxd, rxd_at. cbn [st set_dma dma]. apply store_other. slots. }
  split_and!; try done.
  - intros j Hj. destruct (H4 j Hj) as [E1 E2]. rewrite E1. destruct (decide (i = j)) as [<-|Hne].
    + split; [unfold init_rxd, rx_status, rxd_at; cbn [st set_dma dma arr]; by mem_load|]. intros _. apply E2. right.
      unfold init_rxd, rx_addr, rx_buf, rxd_at. cbn [st set_dma dma arr]. mem_load. apply Z.mod_small. change (256 ^ Z.of_nat 8) with (2 ^ 64). slots.
    + assert (Hs : rx_same n (init_rxd n i) j).
      { split; [done|]. intros x Hx. apply Hoth. revert Hx. by apply rx_slots_apart. }
      destruct (rx_same_fields _ _ _ Hs) as (F1 & _ & F3 & F4). split; [done|]. intros Hjl. apply E2.
      rewrite F1, F4. rewrite elem_of_cons in Hjl. destruct Hjl as [[?|?]|?]; [congruence|by left|by right].
  - intros x Hx. rewrite H5, Hoth by auto. done.
Qed.

Ltac regs := repeat first [rewrite reg_upd_ne by done | rewrite reg_set_eq | rewrite reg_set_ne by done].

Lemma upd_keep r b n : hasbits (reg n r) 2 = true -> hasbits (reg (upd_reg r (λ v, v .| b) n) r) 2 = true.
Proof. intros H. unfold upd_reg. rewrite reg_set_eq, hasbits_u32. by apply hasbits_lor_keep. Qed.

Lemma tx_regs_init_ok n : layout (arr n) ->
  let n' := tx_regs_init n in
  reg n' E1000_TDLEN = NTXDESC * 16 /\ reg n' E1000_TDH = 0 /\ reg n' E1000_TDT = 0 /\ reg n' E1000_TDBAL = tx_desc_pa (arr n) /\
  reg n' E1000_TDBAH = reg n E1000_TDBAH /\ hasbits (reg n' E1000_TCTL) E1000_TCTL_EN = true /\
  arr n' = arr n /\ tx_fifo n' = tx_fifo n /\ dma n' = dma n.
Proof.
  intros Hy. cbv zeta. unfold tx_regs_init. split_and!; try done; try (regs; done).
  - regs. apply u32_small. slots.
  - do 3 rewrite reg_upd_ne by done. do 3 apply upd_keep. unfold upd_reg. rewrite reg_set_eq, hasbits_u32. by apply hasbits_lor_self.
Qed.

Lemma rx_regs_init_ok n : layout (arr n) ->
  let n' := rx_regs_init n in
  reg n' E1000_RDLEN = NRXDESC * 16 /\ reg n' E1000_RDH = 0 /\ reg n' E1000_RDT = NRXDESC - 1 /\ reg n' E1000_RDBAL = rxq_pa (arr n) /\
  reg n' E1000_RDBAH = 0 /\ arr n' = arr n /\ tx_fifo n' = tx_fifo n /\ dma n' = dma n /\ (forall r, r ∈ tx_regs -> reg n' r = reg n r).
Proof.
  intros Hy. cbv zeta. unfold rx_regs_init. split_and!; try done; try (regs; done).
  - regs. apply u32_small. slots.
  - intros r Hr. unfold tx_regs in Hr. rewrite !elem_of_cons, elem_of_nil in Hr. destruct_or! Hr; subst; by regs || done.
Qed.

Lemma rctl_init_ok n :
  hasbits (reg (rctl_init n) E1000_RCTL) E1000_RCTL_EN = true /\ arr (rctl_init n) = arr n /\ tx_fifo (rctl_init n) = tx_fifo n /\
  dma (rctl_init n) = dma n /\ (forall r, r <> E1000_RCTL -> reg (rctl_init n) r = reg n r).
Proof.
  unfold rctl_init. split; [|split_and!; try done; intros r Hr; by rewrite !reg_upd_ne].
  unfold upd_reg at 1. rewrite reg_set_eq, hasbits_u32. by apply hasbits_lor_self.
Qed.

(** The rings a machine state with these registers and slots has. *)
Lemma tx_ring_empty n :
  layout (arr n) -> hasbits (reg n E1000_TCTL) E1000_TCTL_EN = true -> reg n E1000_TDBAL = tx_desc_pa (arr n) -> reg n E1000_TDBAH = 0 ->
  tx_fifo n = [] -> reg n E1000_TDLEN = NTXDESC * 16 -> reg n E1000_TDH = 0 -> reg n E1000_TDT = 0 ->
  (forall j, 0 <= j < NTXDESC -> tx_free n j) -> tx_ring n [].
Proof.
  intros Hy He Hb Hbh Hfi HL HH HT Hf. constructor; rewrite ?HL, ?HH, ?HT; try done.
  intros i Hi. apply Hf. by apply Z.mod_pos_bound.
Qed.

Lemma rx_ring_empty n :
  layout (arr n) -> hasbits (reg n E1000_RCTL) E1000_RCTL_EN = true -> reg n E1000_RDBAL = rxq_pa (arr n) -> reg n E1000_RDBAH = 0 ->
  reg n E1000_RDLEN = NRXDESC * 16 -> reg n E1000_RDH = 0 -> reg n E1000_RDT = NRXDESC - 1 ->
  (forall j, 0 <= j < NRXDESC -> rx_card n j) -> rx_ring n [].
Proof.
  intros Hy He Hb Hbh HL HH HT Hs. constructor; unfold rx_tail; rewrite ?HL, ?HH, ?HT; try done.
  intros i Hi. apply Hs. by apply Z.mod_pos_bound.
Qed.

(** Both rings are empty and the card runs after [pci_nic_attach]; the
    received descriptors must not be marked before, and the transmitter's high
    base register is 0 after a reset. *)
Lemma attach_rings n :
  layout (arr n) -> tx_fifo n = [] -> reg n E1000_TDBAH = 0 -> (forall j, 0 <= j < NRXDESC -> rx_status n j = 0) ->
  tx_ring (pci_nic_attach n) [] /\ rx_ring (pci_nic_attach n) [].
Proof.
  intros Hy Hfi Hbh Hrx. unfold pci_nic_attach. cbv zeta. assert (Hseq : forall k, Forall (λ i, 0 <= i < k) (seqZ 0 k)).
  { intros k. apply list.Forall_forall. intros i Hi%elem_of_seqZ. lia. }
  destruct (tx_regs_init_ok n Hy) as (A1 & A2 & A3 & A4 & A5 & A6 & A7 & A8 & A9). revert A1 A2 A3 A4 A5 A6 A7 A8 A9.
  generalize (tx_regs_init n). intros n1 A1 A2 A3 A4 A5 A6 A7 A8 A9. assert (Hy1 : layout (arr n1)) by (by rewrite A7).
  destruct (tx_loop (seqZ 0 NTXDESC) n1 _ eq_refl Hy1 (Hseq _)) as (B1 & B2 & B3 & B4 & B5). revert B1 B2 B3 B4 B5.
  generalize (fold_left init_txd (seqZ 0 NTXDESC) n1). intros n2 B1 B2 B3 B4 B5. assert (Hy2 : layout (arr n2)) by (by rewrite B2).
  destruct (rx_regs_init_ok n2 Hy2) as (C1 & C2 & C3 & C4 & C5 & C6 & C7 & C8 & C9).
  revert C1 C2 C3 C4 C5 C6 C7 C8 C9. generalize (rx_regs_init n2). intros n3 C1 C2 C3 C4 C5 C6 C7 C8 C9.
  assert (Hy3 : layout (arr n3)) by (by rewrite C6).
  destruct (rx_loop (seqZ 0 NRXDESC) n3 _ eq_refl Hy3 (Hseq _)) as (D1 & D2 & D3 & D4 & D5). revert D1 D2 D3 D4 D5.
  generalize (fold_left init_rxd (seqZ 0 NRXDESC) n3). intros n4 D1 D2 D3 D4 D5.
  destruct (rctl_init_ok n4) as (E1 & E2 & E3 & E4 & E5). assert (Hsl : forall j, 0 <= j < NRXDESC -> rx_same n4 (rctl_init n4) j) by (intros; split; [done|by rewrite E4]).
  assert (HT : tx_ring n2 []).
  { apply tx_ring_empty; rewrite ?B1, ?B2, ?B3, ?A4, ?A5, ?A7, ?A8; try done. intros j Hj. apply B4; [done|]. left. by apply elem_of_seqZ. }
  split.
  - apply (tx_ring_frame n2); try congruence.
    + intros r Hr. rewrite E5, D1, C9; try done. intros ->. unfold tx_regs in Hr. by repeat (apply elem_of_cons in Hr as [?|Hr]; [done|]); apply elem_of_nil in Hr.
    + intros j x Hj Hx. rewrite E4, D5, C8; [done|]. intros i Hi. revert Hx. rewrite C6. by apply tx_rx_apart.
  - apply rx_ring_empty; rewrite ?E5, ?D1, ?E2, ?D2 by done; try congruence. intros j Hj. apply (rx_same_card n4); [by apply Hsl|].
    destruct (D4 j Hj) as [F1 F2]. split; [|apply F2; left; by apply elem_of_seqZ]. rewrite F1, <- (Hrx j Hj).
    unfold rx_status, rxd_at. rewrite C6, B2, A7, C8. apply load_ext. intros x Hx. rewrite B5, A9; [done|]. intros i Hi Ht.
    change (Z.of_nat 1) with 1 in Hx. rewrite A7 in Ht. clear -Hx Ht Hi Hj Hy. slots.
Qed.

(** ** Runs of driver and card *)

(** Calls of the driver and steps of the card in any order: the packets
    accepted by the driver and sent by the card, and those stored by the card
    and returned by the driver, oldest first. *)
Inductive nic_run (n : nic) : list (list Z) -> list (list Z) -> list (list Z) -> list (list Z) -> nic -> Prop :=
  | run_nil : nic_run n [] [] [] [] n
  | run_queue acc sent stored rcvd n1 data n2 :
      nic_run n acc sent stored rcvd n1 -> nic_transmit data (Z.of_nat (length data)) n1 = (0, n2) ->
      nic_run n (acc ++ [data]) sent stored rcvd n2
  | run_refuse acc sent stored rcvd n1 data len n2 :
      nic_run n acc sent stored rcvd n1 -> nic_transmit data len n1 = (-1, n2) -> nic_run n acc sent stored rcvd n2
  | run_send acc sent stored rcvd n1 pkts n2 :
      nic_run n acc sent stored rcvd n1 -> card_tx n1 = Some (pkts, n2) -> nic_run n acc (sent ++ pkts) stored rcvd n2
  | run_store acc sent stored rcvd n1 pkt n2 :
      nic_run n acc sent stored rcvd n1 -> card_rx pkt n1 = Some n2 -> nic_run n acc sent (stored ++ [pkt]) rcvd n2
  | run_receive acc sent stored rcvd n1 pkt n2 :
      nic_run n acc sent stored rcvd n1 -> e1000_receive n1 = (0, pkt, n2) -> nic_run n acc sent stored (rcvd ++ [pkt]) n2
  | run_nothing acc sent stored rcvd n1 pkt n2 :
      nic_run n acc sent stored rcvd n1 -> e1000_receive n1 = (-1, pkt, n2) -> nic_run n acc sent stored rcvd n2.

Definition rings (n : nic) (q r : list (list Z)) : Prop := tx_ring n q /\ rx_ring n r.

Lemma nic_transmit_refused data len n n' : nic_transmit data len n = (-1, n') -> n' = n.
Proof. unfold nic_transmit. destruct (negb _); intros [=]; done. Qed.

Lemma nic_transmit_accepted data len n n' : nic_transmit data len n = (0, n') -> nic_tx_ok len n = true.
Proof. unfold nic_transmit. destruct (nic_tx_ok len n); [done|]. intros [=]. Qed.

(** A register of one ring is none of the other's. *)
Ltac other_reg := intros x Hx; match goal with H : forall r, r <> _ -> reg _ r = reg _ r |- _ => apply H end; intros ->;
  unfold rx_regs, tx_regs in Hx; rewrite !elem_of_cons, elem_of_nil in Hx; destruct_or! Hx; done.

Lemma rings_transmit n q r data : rings n q r -> Z.of_nat (length data) <= PKT_BUF_SIZE -> Z.of_nat (length q) < NTXDESC ->
  exists n', nic_transmit data (Z.of_nat (length data)) n = (0, n') /\ rings n' (q ++ [data]) r.
Proof.
  intros [HT HR] Hd Hq. destruct (tx_ring_transmit n q data HT Hq Hd) as (n' & E & HT' & Hreg & Ha & Hoth).
  exists n'. split; [done|]. split; [done|]. apply (rx_ring_frame n); [done|done|other_reg|].
  intros j x Hj Hx. apply Hoth. intros Ht. revert Hx. apply (tx_rx_apart _ _ _ _ (tr_layout _ _ HT) (tail_range HT) Hj Ht).
Qed.

Lemma rings_accepts n q r (data : list Z) : rings n q r -> nic_tx_ok (Z.of_nat (length data)) n = true ->
  Z.of_nat (length data) <= PKT_BUF_SIZE /\ Z.of_nat (length q) < NTXDESC.
Proof.
  intros [HT _] Hok. pose proof (tr_count _ _ HT). split.
  - apply andb_true_iff in Hok as [Hl _]. by apply negb_true_iff, Z.ltb_ge in Hl.
  - destruct (decide (Z.of_nat (length q) = NTXDESC)) as [E|]; [|lia]. destruct (tx_ring_full _ _ HT E) as [_ Hf]. by rewrite Hf in Hok.
Qed.

Lemma rings_send n q r : rings n q r ->
  match q with
  | p :: q' => if decide (Z.of_nat (length q) = NTXDESC) then card_tx n = None
      else exists n', card_tx n = Some ([p], n') /\ rings n' q' r
  | [] => card_tx n = None
  end.
Proof.
  intros [HT HR]. destruct q as [|p q]; [by apply tx_ring_nil|]. case_decide as E.
  { apply (card_tx_idle n _ HT). by apply (tx_ring_full n (p :: q)). }
  pose proof (tr_count _ _ HT) as Hc. destruct (tx_ring_send n p q HT) as (n' & Es & HT' & Hreg & Ha & Hoth); [by apply (tx_ring_moves n p q); [|lia]|].
  exists n'. split; [done|]. split; [done|]. apply (rx_ring_frame n); [done|done|other_reg|].
  intros j x Hj Hx. apply Hoth. intros Ht. revert Hx. apply (tx_rx_apart _ _ _ _ (tr_layout _ _ HT) (tr_head _ _ HT) Hj Ht).
Qed.

Lemma rings_store n q r pkt n' : rings n q r -> card_rx pkt n = Some n' -> rings n' q (r ++ [pkt]).
Proof.
  intros [HT HR] E. split; [|by eapply rx_ring_store]. destruct (card_rx_slot _ _ _ _ HR E) as (_ & _ & _ & Hreg & Ha & Hfi & _ & Hoth).
  apply (tx_ring_frame n); [done..|other_reg|]. intros j x Hj Hx. apply Hoth. revert Hx. apply tx_rx_apart; [apply (tr_layout _ _ HT)|done|].
  rewrite (rr_head _ _ HR). by apply Z.mod_pos_bound.
Qed.

Lemma rings_receive n q r : rings n q r ->
  match r with
  | [] => e1000_receive n = (-1, [], n)
  | p :: r' => exists n', e1000_receive n = (0, p, n') /\ rings n' q r'
  end.
Proof.
  intros [HT HR]. pose proof (rx_ring_receive n r HR) as H. destruct r as [|p r]; [done|].
  destruct H as (n' & E & HR' & Hreg & Ha & Hfi & Hoth). exists n'. split; [done|]. split; [|done].
  apply (tx_ring_frame n); [done..|other_reg|]. intros j x Hj Hx. apply Hoth. revert Hx.
  apply tx_rx_apart; [apply (tr_layout _ _ HT)|done|apply rx_tail_range].
Qed.

Lemma nic_run_rings n acc sent stored rcvd n' :
  nic_run n acc sent stored rcvd n' -> rings n [] [] -> exists q r, acc = sent ++ q /\ stored = rcvd ++ r /\ rings n' q r.
Proof.
  intros Hrun Hn. induction Hrun as [|acc sent stored rcvd n1 data n2 _ (q & r & -> & -> & H) E|acc sent stored rcvd n1 data len n2 _ (q & r & -> & -> & H) E|
    acc sent stored rcvd n1 pkts n2 _ (q & r & -> & -> & H) E|acc sent stored rcvd n1 pkt n2 _ (q & r & -> & -> & H) E|
    acc sent stored rcvd n1 pkt n2 _ (q & r & -> & -> & H) E|acc sent stored rcvd n1 pkt n2 _ (q & r & -> & -> & H) E].
  - by exists [], [].
  - destruct (rings_accepts n1 q r data H) as [Hd Hq]; [by eapply nic_transmit_accepted|].
    destruct (rings_transmit n1 q r data H Hd Hq) as (n3 & E' & H'). rewrite E in E'. injection E' as <-.
    exists (q ++ [data]), r. by rewrite app_assoc.
  - apply nic_transmit_refused in E as ->. by exists q, r.
  - pose proof (rings_send n1 q r H) as Hs. destruct q as [|p q]; [congruence|]. case_decide; [congruence|].
    destruct Hs as (n3 & E' & H'). rewrite E in E'. injection E' as -> <-. exists q, r. by rewrite <- app_assoc.
  - exists q, (r ++ [pkt]). rewrite app_assoc. split_and!; [done..|]. by eapply rings_store.
  - pose proof (rings_receive n1 q r H) as Hs. destruct r as [|p r]; [congruence|].
    destruct Hs as (n3 & E' & H'). rewrite E in E'. injection E' as -> <-. exists q, r. by rewrite <- app_assoc.
  - pose proof (rings_receive n1 q r H) as Hs. destruct r as [|p r]; [|destruct Hs as (n3 & E' & _); congruence].
    rewrite E in Hs. injection Hs as -> <-. by exists q, [].
Qed.

Lemma attach_rings0 a : layout a -> rings (pci_nic_attach (nic0 a)) [] [].
Proof. intros Hy. by apply attach_rings. Qed.

(** ** Properties *)

(** C28: from [pci_nic_attach] on, in every order of the driver's calls and
    the card's steps, where the card finds descriptors and packets through
    its base registers and the addresses in the descriptors only: the packets
    the card sent are the first ones the driver accepted and the packets the
    driver returned the first ones the card stored, byte for byte and in
    order, so that none is lost, repeated, altered or mixed with another;
    [nic_transmit] accepts a packet of up to 2048 bytes exactly when fewer
    than 40 accepted packets wait; the card sends the oldest waiting packet
    next unless none or 40 of them wait; and [e1000_receive] returns the
    oldest stored packet, -1 exactly when none waits. *)
Theorem nic_in_order a acc sent stored rcvd n :
  layout a -> nic_run (pci_nic_attach (nic0 a)) acc sent stored rcvd n ->
  exists q r, acc = sent ++ q /\ stored = rcvd ++ r /\ Z.of_nat (length q) <= NTXDESC /\ Z.of_nat (length r) < NRXDESC /\
    (forall data, Z.of_nat (length data) <= PKT_BUF_SIZE ->
       (exists n', nic_transmit data (Z.of_nat (length data)) n = (0, n')) <-> Z.of_nat (length q) < NTXDESC) /\
    match q with
    | p :: _ => if decide (Z.of_nat (length q) = NTXDESC) then card_tx n = None else exists n', card_tx n = Some ([p], n')
    | [] => card_tx n = None
    end /\
    match r with
    | p :: _ => exists n', e1000_receive n = (0, p, n')
    | [] => e1000_receive n = (-1, [], n)
    end.
Proof.
  intros Hy Hrun. destruct (nic_run_rings _ _ _ _ _ _ Hrun (attach_rings0 a Hy)) as (q & r & Hq & Hr & H).
  exists q, r. split; [done|]. split; [done|]. split; [apply (tr_count _ _ (proj1 H))|]. split; [apply (rr_count _ _ (proj2 H))|]. split; [|split].
  - intros data Hd. split.
    + intros (n' & E). apply (rings_accepts n q r data H). by eapply nic_transmit_accepted.
    + intros Hlt. destruct (rings_transmit n q r data H Hd Hlt) as (n' & E & _). by exists n'.
  - pose proof (rings_send n q r H) as Hs. destruct q as [|p q]; [done|]. case_decide; [done|]. destruct Hs as (n' & E & _). by exists n'.
  - pose proof (rings_receive n q r H) as Hs. destruct r as [|p r]; [done|]. destruct Hs as (n' & E & _). by exists n'.
Qed.

Definition arr_sample : nic_arrays := mkArr 0x110000 0x111000 0x112000 0x130000.

Lemma arr_sample_layout : layout arr_sample.
Proof. unfold layout, apart, arr_sample. cbn [tx_desc_pa rxq_pa tx_pkts_pa rx_pkts_pa]. lia. Qed.

(** Two packets accepted, the first sent, one stored and received: the second waits. *)
Lemma nic_in_order_witness :
  exists n n', nic_run (pci_nic_attach (nic0 arr_sample)) [[1; 2]; [3]] [[1; 2]] [[4]] [[4]] n /\ card_tx n = Some ([[3]], n').
Proof.
  destruct (rings_transmit _ _ _ [1; 2] (attach_rings0 arr_sample arr_sample_layout)) as (n1 & E1 & H1); [done|done|].
  destruct (rings_transmit _ _ _ [3] H1) as (n2 & E2 & H2); [done|done|].
  destruct (rings_send _ _ _ H2) as (n3 & E3 & H3).
  destruct (card_rx [4] n3) as [n4|] eqn:E4.
  2:{ exfalso. revert E4. apply card_rx_takes with (r := []); [apply H3|done..]. }
  pose proof (rings_store _ _ _ _ _ H3 E4) as H4. destruct (rings_receive _ _ _ H4) as (n5 & E5 & H5).
  assert (Hrun : nic_run (pci_nic_attach (nic0 arr_sample)) [[1; 2]; [3]] [[1; 2]] [[4]] [[4]] n5).
  { apply (run_receive _ _ _ _ [] n4 [4]); [|exact E5]. apply (run_store _ _ [[1; 2]] [] [] n3 [4]); [|exact E4].
    apply (run_send _ _ [] [] [] n2 [[1; 2]]); [|exact E3]. apply (run_queue _ [[1; 2]] [] [] [] n1 [3]); [|exact E2].
    apply (run_queue _ [] [] [] [] (pci_nic_attach (nic0 arr_sample)) [1; 2]); [apply run_nil|exact E1]. }
  destruct (nic_in_order arr_sample _ _ _ _ n5 arr_sample_layout Hrun) as (q & r & Hq & _ & _ & _ & _ & Hs & _).
  injection Hq as <-. destruct Hs as (n6 & E6). exists n5, n6. split; [exact Hrun|exact E6].
Defined.

(** The driver uses all 40 descriptors, but the card reads equal head and
    tail as an empty ring: when 39 packets wait, one more is accepted, and
    from then on the card sends nothing and the driver refuses every packet. *)
Theorem tx_ring_deadlock n q data :
  tx_ring n q -> Z.of_nat (length q) = NTXDESC - 1 -> Z.of_nat (length data) <= PKT_BUF_SIZE ->
  exists n', nic_transmit data (Z.of_nat (length data)) n = (0, n') /\
    card_tx n' = None /\
    (forall data' len', nic_transmit data' len' n' = (-1, n')).
Proof.
  intros H Hq Hd. destruct (tx_ring_transmit n q data) as (n' & He & Hr & _); [done|lia..|].
  destruct (tx_ring_full n' (q ++ [data])) as [Ht Hf]; [done|rewrite length_app; simpl; lia|].
  exists n'. split; [done|]. split; [by apply (card_tx_idle n' _ Hr)|].
  intros data' len'. unfold nic_transmit. by rewrite Hf.
Qed.

Fixpoint transmits (k : nat) (n : nic) : nic :=
  match k with O => n | S k' => snd (nic_transmit [7] 1 (transmits k' n)) end.

Lemma transmits_ring k n : (k <= 40)%nat -> tx_ring n [] -> tx_ring (transmits k n) (replicate k [7]).
Proof.
  intros Hk H. induction k as [|k IH]; [done|].
  destruct (tx_ring_transmit (transmits k n) (replicate k [7]) [7]) as (n' & He & Hr & _);
    [apply IH; lia|rewrite length_replicate; lia|done|].
  simpl transmits. change 1 with (Z.of_nat (length [7])). rewrite He. simpl snd. by rewrite replicate_S_end.
Qed.

Lemma tx_ring_deadlock_witness :
  exists n', nic_transmit [7] 1 (transmits 39 (pci_nic_attach (nic0 arr_sample))) = (0, n') /\
    card_tx n' = None /\
    (forall data' len', nic_transmit data' len' n' = (-1, n')).
Proof.
  apply (tx_ring_deadlock _ (replicate 39 [7]) [7]);
    [|reflexivity|vm_compute; congruence].
  apply transmits_ring; [lia|]. apply attach_rings0, arr_sample_layout.
Defined.
