(* ===== verification/Mmu.v ===== *)
(** * Address arithmetic and constants

    The macros and constants of [inc/types.h], [inc/mmu.h], [inc/memlayout.h],
    [inc/env.h] and [inc/error.h] that the kernel uses, and the facts about
    them the other files share.  Constants are notations, so that the
    arithmetic tactics see their values. *)

From S2P Require Import Prelude.

(** ** Constants *)

Abbreviation NPDENTRIES := 1024 (only parsing).
Abbreviation NPTENTRIES := 1024 (only parsing).
Abbreviation PGSIZE := 4096 (only parsing).
Abbreviation PGSHIFT := 12 (only parsing).
Abbreviation PTSIZE := 4194304 (only parsing).
Abbreviation PTXSHIFT := 12 (only parsing).
Abbreviation PDXSHIFT := 22 (only parsing).

Abbreviation PTE_P := 1 (only parsing).
Abbreviation PTE_W := 2 (only parsing).
Abbreviation PTE_U := 4 (only parsing).
Abbreviation PTE_PWT := 8 (only parsing).
Abbreviation PTE_PCD := 16 (only parsing).
Abbreviation PTE_D := 64 (only parsing).
Abbreviation PTE_AVAIL := 0xE00 (only parsing).
Abbreviation PTE_SYSCALL := (PTE_AVAIL .| PTE_P .| PTE_W .| PTE_U) (only parsing).

Abbreviation GD_KT := 8 (only parsing).
Abbreviation GD_KD := 16 (only parsing).
Abbreviation GD_UT := 24 (only parsing).
Abbreviation GD_UD := 32 (only parsing).

Abbreviation FL_IF := 0x200 (only parsing).
Abbreviation FL_IOPL_3 := 0x3000 (only parsing).

Abbreviation KERNBASE := 0xF0000000 (only parsing).
Abbreviation IOPHYSMEM := 0x0A0000 (only parsing).
Abbreviation EXTPHYSMEM := 0x100000 (only parsing).
Abbreviation KSTACKTOP := KERNBASE (only parsing).
Abbreviation KSTKSIZE := 32768 (only parsing).
Abbreviation KSTKGAP := 32768 (only parsing).
Abbreviation MMIOLIM := 0xEFC00000 (only parsing).
Abbreviation MMIOBASE := 0xEF800000 (only parsing).
Abbreviation ULIM := MMIOBASE (only parsing).
Abbreviation UVPT := 0xEF400000 (only parsing).
Abbreviation UPAGES := 0xEF000000 (only parsing).
Abbreviation UENVS := 0xEEC00000 (only parsing).
Abbreviation UTOP := UENVS (only parsing).
Abbreviation UXSTACKTOP := UTOP (only parsing).
Abbreviation USTACKTOP := 0xEEBFE000 (only parsing).
Abbreviation MPENTRY_PADDR := 0x7000 (only parsing).

Abbreviation LOG2NENV := 10 (only parsing).
Abbreviation NENV := 1024 (only parsing).
Abbreviation NCPU := 8 (only parsing).

Abbreviation E_UNSPECIFIED := 1 (only parsing).
Abbreviation E_BAD_ENV := 2 (only parsing).
Abbreviation E_INVAL := 3 (only parsing).
Abbreviation E_NO_MEM := 4 (only parsing).
Abbreviation E_NO_FREE_ENV := 5 (only parsing).
Abbreviation E_FAULT := 6 (only parsing).
Abbreviation E_IPC_NOT_RECV := 7 (only parsing).
Abbreviation E_EOF := 8 (only parsing).
Abbreviation E_NO_DISK := 9 (only parsing).
Abbreviation E_MAX_OPEN := 10 (only parsing).
Abbreviation E_NOT_FOUND := 11 (only parsing).
Abbreviation E_BAD_PATH := 12 (only parsing).
Abbreviation E_FILE_EXISTS := 13 (only parsing).
Abbreviation E_NOT_EXEC := 14 (only parsing).
Abbreviation E_NOT_SUPP := 15 (only parsing).

(** ** Macros *)

(** [ROUNDDOWN(a, n)] and [ROUNDUP(a, n)] of [inc/types.h]. *)
Definition ROUNDDOWN (a n : Z) : Z := let a' := u32 a in u32 (a' - a' mod n).

Definition ROUNDUP (a n : Z) : Z := ROUNDDOWN (u32 (a + n - 1)) n.

(** [PGNUM], [PDX], [PTX], [PGOFF], [PGADDR] and [PTE_ADDR] of [inc/mmu.h]. *)
Definition PGNUM (la : Z) : Z := Z.shiftr la PTXSHIFT.

Definition PDX (la : Z) : Z := Z.shiftr la PDXSHIFT .& 1023.

Definition PTX (la : Z) : Z := Z.shiftr la PTXSHIFT .& 1023.

Definition PGOFF (la : Z) : Z := la .& 4095.

Definition PGADDR (d t o : Z) : Z := Z.shiftl d PDXSHIFT .| Z.shiftl t PTXSHIFT .| o.

Definition PTE_ADDR (pte : Z) : Z := pte .& Z.lnot 4095.

(** [ENVX] of [inc/env.h]. *)
Definition ENVX (envid : Z) : Z := envid .& (NENV - 1).

(** ** The macros as arithmetic *)

Lemma PGNUM_div a : PGNUM a = a / 4096.
Proof. apply shiftr12. Qed.

Lemma PDX_div a : PDX a = a / 4194304 mod 1024.
Proof. unfold PDX. by rewrite land_0x3FF, shiftr22. Qed.

Lemma PTX_div a : PTX a = a / 4096 mod 1024.
Proof. unfold PTX. by rewrite land_0x3FF, shiftr12. Qed.

Lemma PGOFF_mod a : PGOFF a = a mod 4096.
Proof. apply land_0xFFF. Qed.

Lemma PTE_ADDR_sub a : PTE_ADDR a = a - a mod 4096.
Proof. apply land_lnot_0xFFF. Qed.

Lemma ENVX_mod i : ENVX i = i mod 1024.
Proof. apply land_0x3FF. Qed.

Lemma PGADDR_sum d t o :
  0 <= t < 1024 -> 0 <= o < 4096 -> PGADDR d t o = d * 4194304 + t * 4096 + o.
Proof.
  intros. unfold PGADDR. rewrite shiftl22, shiftl12.
  replace (d * 4194304) with (d * 1024 * 4096) by lia.
  assert (Hor : d * 1024 * 4096 .| t * 4096 = (d * 1024 + t) * 4096).
  { rewrite <- !shiftl12, <- Z.shiftl_lor. f_equal.
    pose proof (Z.add_lor_land (d * 1024) t) as H2.
    assert (Z.land (d * 1024) t = 0) as H3; [|lia].
    apply Z.bits_inj'. intros i Hi. rewrite Z.land_spec, Z.bits_0.
    destruct (Z.lt_ge_cases i 10).
    - change 1024 with (2 ^ 10). by rewrite Z.mul_pow2_bits_low.
    - rewrite (testbit_small t 10 i) by lia. by rewrite andb_false_r. }
  rewrite Hor, lor_page_low by lia. lia.
Qed.

Lemma PDX_range a : 0 <= PDX a < 1024.
Proof. rewrite PDX_div. apply Z.mod_pos_bound. lia. Qed.

Lemma PTX_range a : 0 <= PTX a < 1024.
Proof. rewrite PTX_div. apply Z.mod_pos_bound. lia. Qed.

(** The two indexes of an address are the quotient and remainder of its page number. *)
Lemma PDX_of_PGNUM a : 0 <= a < 4294967296 -> PDX a = PGNUM a / 1024.
Proof.
  intros. rewrite PDX_div, PGNUM_div, Z.div_div by lia.
  apply Z.mod_small. split; [apply Z.div_pos; lia|apply Z.div_lt_upper_bound; lia].
Qed.

Lemma PTX_of_PGNUM a : PTX a = PGNUM a mod 1024.
Proof. by rewrite PTX_div, PGNUM_div. Qed.

Lemma PTE_ADDR_page p f : 0 <= f < 4096 -> PTE_ADDR (p * 4096 + f) = p * 4096.
Proof. intros. rewrite PTE_ADDR_sub. rewrite Z.add_comm, Z.mod_add, Z.mod_small; lia. Qed.

Lemma PTE_ADDR_eq pte : PTE_ADDR pte = pte / 4096 * 4096.
Proof. rewrite PTE_ADDR_sub. pose proof (Z.div_mod pte 4096). lia. Qed.

(** ** Flags of an entry *)

Lemma land_page_flags p f m :
  0 <= f < 4096 -> 0 <= m < 4096 -> (p * 4096 + f) .& m = f .& m.
Proof.
  intros. rewrite <- lor_page_low, Z.land_lor_distr_l by done.
  by rewrite land_page_low.
Qed.

Lemma hasbits_page p f m :
  0 <= f < 4096 -> 0 <= m < 4096 -> hasbits (p * 4096 + f) m = hasbits f m.
Proof. intros. unfold hasbits. by rewrite land_page_flags. Qed.

Lemma hasbits_mod pte m : 0 <= m < 4096 -> hasbits pte m = hasbits (pte mod 4096) m.
Proof.
  intros. pose proof (Z.div_mod pte 4096 ltac:(lia)) as Hd.
  rewrite Hd at 1. rewrite Z.mul_comm. apply hasbits_page; [|done].
  apply Z.mod_pos_bound. lia.
Qed.

Lemma hasbits_0 m : hasbits 0 m = false.
Proof. unfold hasbits. by rewrite Z.land_0_l. Qed.

Lemma hasbits_P_odd x : hasbits x PTE_P = Z.odd x.
Proof.
  unfold hasbits. change 1 with (Z.ones 1). rewrite Z.land_ones by lia.
  change (2 ^ 1) with 2. rewrite Zmod_odd. by destruct (Z.odd x).
Qed.

(** The flag [m] is set in every value it was or-ed into. *)
Lemma hasbits_lor_r x m : m <> 0 -> hasbits (x .| m) m = true.
Proof.
  intros. unfold hasbits. rewrite Z.land_comm, Z.land_lor_distr_r, Z.land_diag.
  assert (m .& x .| m = m) as ->.
  { apply Z.bits_inj'. intros i Hi. rewrite Z.lor_spec, Z.land_spec.
    by destruct (Z.testbit m i), (Z.testbit x i). }
  by apply negb_true_iff, Z.eqb_neq.
Qed.

(** ** Rounding *)

Lemma ROUNDDOWN_page a :
  0 <= a < 4294967296 -> ROUNDDOWN a PGSIZE = a / 4096 * 4096.
Proof.
  intros. unfold ROUNDDOWN. rewrite (u32_small a) by lia. cbv zeta.
  pose proof (Z.div_mod a 4096). pose proof (Z.mod_pos_bound a 4096).
  rewrite u32_small by lia. lia.
Qed.

Lemma ROUNDUP_page a :
  0 <= a <= 4294967296 - 4096 -> ROUNDUP a PGSIZE = (a + 4095) / 4096 * 4096.
Proof.
  intros. unfold ROUNDUP. replace (a + 4096 - 1) with (a + 4095) by lia.
  rewrite u32_small by lia. apply ROUNDDOWN_page. lia.
Qed.

(** Rounding up within the last page of the address space wraps to zero. *)
Lemma ROUNDUP_page_wrap a :
  4294967296 - 4096 < a < 4294967296 -> ROUNDUP a PGSIZE = 0.
Proof.
  intros. unfold ROUNDUP.
  replace (u32 (a + 4096 - 1)) with (a + 4096 - 1 - 4294967296).
  2:{ unfold u32. replace (a + 4096 - 1) with (a + 4096 - 1 - 4294967296 + 1 * 4294967296) at 2 by lia.
      rewrite Z.mod_add, Z.mod_small; lia. }
  rewrite ROUNDDOWN_page by lia. rewrite Z.div_small; lia.
Qed.

Lemma ROUNDUP_spec a :
  0 <= a <= 4294967296 - 4096 ->
  a <= ROUNDUP a PGSIZE < a + 4096 /\ ROUNDUP a PGSIZE mod 4096 = 0.
Proof.
  intros. rewrite ROUNDUP_page by lia. rewrite Z.mod_mul by lia.
  pose proof (Z.div_mod (a + 4095) 4096). pose proof (Z.mod_pos_bound (a + 4095) 4096). lia.
Qed.
