(* ===== verification/Thread.v ===== *)
(** * The threads of the network server ([net/lwip/jos/arch/thread.c], [threadq.h])

    Threads of one environment that give up the processor in [thread_yield]
    only.  The contexts are kept by their addresses, with the links of the
    queues in them.  A jump buffer holds where a thread goes on: at the start
    of [thread_entry], or where it called [jos_setjmp], of which the type [K]
    of places is a parameter.  What [malloc] returns is an argument. *)

From S2P Require Import Prelude Mmu.

Definition THREAD_NUM_ONHALT : Z := 4.
Definition name_size : nat := 32.
Definition stack_size : Z := PGSIZE.

Section Threads.
Context {K : Type}.

Inductive jmp_buf := at_entry (esp : Z) | at_setjmp (k : K).

Record thread_context := mkTc {
  tc_tid : Z;
  tc_stack_bottom : Z;
  tc_name : list Z;
  tc_entry : Z;
  tc_arg : Z;
  tc_jb : jmp_buf;
  tc_wait_addr : Z;
  tc_wakeup : bool;
  tc_onhalt : list Z;
  tc_queue_link : Z
}.

Definition set_tc_jb (v : jmp_buf) (c : thread_context) : thread_context :=
  mkTc (tc_tid c) (tc_stack_bottom c) (tc_name c) (tc_entry c) (tc_arg c) v (tc_wait_addr c) (tc_wakeup c) (tc_onhalt c) (tc_queue_link c).
Definition set_tc_wait_addr (v : Z) (c : thread_context) : thread_context :=
  mkTc (tc_tid c) (tc_stack_bottom c) (tc_name c) (tc_entry c) (tc_arg c) (tc_jb c) v (tc_wakeup c) (tc_onhalt c) (tc_queue_link c).
Definition set_tc_wakeup (v : bool) (c : thread_context) : thread_context :=
  mkTc (tc_tid c) (tc_stack_bottom c) (tc_name c) (tc_entry c) (tc_arg c) (tc_jb c) (tc_wait_addr c) v (tc_onhalt c) (tc_queue_link c).
Definition set_tc_onhalt (v : list Z) (c : thread_context) : thread_context :=
  mkTc (tc_tid c) (tc_stack_bottom c) (tc_name c) (tc_entry c) (tc_arg c) (tc_jb c) (tc_wait_addr c) (tc_wakeup c) v (tc_queue_link c).
Definition set_tc_queue_link (v : Z) (c : thread_context) : thread_context :=
  mkTc (tc_tid c) (tc_stack_bottom c) (tc_name c) (tc_entry c) (tc_arg c) (tc_jb c) (tc_wait_addr c) (tc_wakeup c) (tc_onhalt c) v.

Record thread_queue := mkTq { tq_first : Z; tq_last : Z }.

Record tstate := mkTs {
  tcs : gmap Z thread_context;
  max_tid : Z;
  cur_tc : Z;
  t_queue : thread_queue;
  kill_queue : thread_queue
}.

Definition set_tcs (v : gmap Z thread_context) (s : tstate) : tstate := mkTs v (max_tid s) (cur_tc s) (t_queue s) (kill_queue s).
Definition set_max_tid (v : Z) (s : tstate) : tstate := mkTs (tcs s) v (cur_tc s) (t_queue s) (kill_queue s).
Definition set_cur_tc (v : Z) (s : tstate) : tstate := mkTs (tcs s) (max_tid s) v (t_queue s) (kill_queue s).

(** The two queues. *)
Inductive which := Ready | Killed.
Definition queue (w : which) (s : tstate) : thread_queue := match w with Ready => t_queue s | Killed => kill_queue s end.
Definition set_queue (w : which) (q : thread_queue) (s : tstate) : tstate :=
  match w with
  | Ready => mkTs (tcs s) (max_tid s) (cur_tc s) q (kill_queue s)
  | Killed => mkTs (tcs s) (max_tid s) (cur_tc s) (t_queue s) q
  end.

(** A result, a panic, or an access through a pointer to no context. *)
Inductive tres (A : Type) :=
| TRet (a : A) (s : tstate)
| TPanic (msg : string)
| TFault.
Arguments TRet {A} _ _.
Arguments TPanic {A} _.
Arguments TFault {A}.

Definition ThreadM (A : Type) : Type := tstate -> tres A.

#[export] Instance T_ret : MRet ThreadM := λ A a s, TRet a s.
#[export] Instance T_bind : MBind ThreadM := λ A B f m s,
  match m s with
  | TRet a s' => f a s'
  | TPanic msg => TPanic msg
  | TFault => TFault
  end.

Definition tget {A} (f : tstate -> A) : ThreadM A := λ s, TRet (f s) s.
Definition tmodify (f : tstate -> tstate) : ThreadM unit := λ s, TRet tt (f s).
Definition tpanic {A} (msg : string) : ThreadM A := λ _, TPanic msg.

(** [tc->field] *)
Definition tload {A} (tc : Z) (f : thread_context -> A) : ThreadM A := λ s,
  match tcs s !! tc with Some c => TRet (f c) s | None => TFault end.
Definition tstore (tc : Z) (f : thread_context -> thread_context) : ThreadM unit := λ s,
  match tcs s !! tc with Some c => TRet tt (set_tcs (<[tc := f c]> (tcs s)) s) | None => TFault end.

(** ** Queues *)

Definition threadq_init (w : which) : ThreadM unit := tmodify (set_queue w (mkTq 0 0)).

Definition threadq_push (w : which) (tc : Z) : ThreadM unit :=
  tstore tc (set_tc_queue_link 0) ;;
  q ← tget (queue w);
  if tq_first q =? 0 then tmodify (set_queue w (mkTq tc tc))
  else
    tstore (tq_last q) (set_tc_queue_link tc) ;;
    tmodify (set_queue w (mkTq (tq_first q) tc)).

Definition threadq_pop (w : which) : ThreadM Z :=
  q ← tget (queue w);
  if tq_first q =? 0 then mret 0
  else
    n ← tload (tq_first q) tc_queue_link;
    tmodify (set_queue w (mkTq n (tq_last q))) ;;
    tstore (tq_first q) (set_tc_queue_link 0) ;;
    mret (tq_first q).

(** ** Threads *)

Definition thread_init : ThreadM unit :=
  threadq_init Ready ;;
  tmodify (set_max_tid 0).

Definition thread_id : ThreadM Z :=
  c ← tget cur_tc;
  tload c tc_tid.

(** The walks along the ready queue; fuel is the number of contexts. *)
Fixpoint wakeup_loop (fuel : nat) (addr tc : Z) : ThreadM unit :=
  match fuel with
  | O => λ _, TFault
  | S fuel' =>
      if tc =? 0 then mret tt
      else
        a ← tload tc tc_wait_addr;
        (if a =? addr then tstore tc (set_tc_wakeup true) else mret tt) ;;
        n ← tload tc tc_queue_link;
        wakeup_loop fuel' addr n
  end.

Definition thread_wakeup (addr : Z) : ThreadM unit :=
  q ← tget t_queue;
  n ← tget (λ s, size (tcs s));
  wakeup_loop (S n) addr (tq_first q).

Fixpoint pending_loop (fuel : nat) (tc n : Z) : ThreadM Z :=
  match fuel with
  | O => λ _, TFault
  | S fuel' =>
      if tc =? 0 then mret n
      else
        w ← tload tc tc_wakeup;
        l ← tload tc tc_queue_link;
        pending_loop fuel' l (if (w : bool) then n + 1 else n)
  end.

Definition thread_wakeups_pending : ThreadM Z :=
  q ← tget t_queue;
  n ← tget (λ s, size (tcs s));
  pending_loop (S n) (tq_first q) 0.

Definition thread_onhalt (fun' : Z) : ThreadM Z :=
  c ← tget cur_tc;
  l ← tload c tc_onhalt;
  if THREAD_NUM_ONHALT <=? Z.of_nat (length l) then mret (- E_NO_MEM)
  else
    tstore c (set_tc_onhalt (l ++ [fun'])) ;;
    mret 0.

Definition alloc_tid : ThreadM Z :=
  tid ← tget max_tid;
  tmodify (set_max_tid (u32 (tid + 1))) ;;
  if u32 (tid + 1) =? 0xffffffff then tpanic "alloc_tid: no more thread ids" else mret tid.

(** [strncpy] of the characters of a name, and the last byte. *)
Definition thread_set_name (name : list Z) : list Z :=
  take (name_size - 1) (name ++ replicate (name_size - 1) 0) ++ [0].

(** [tc] and [stack] are what the two calls of [malloc] return; [free] forgets
    the context. *)
Definition thread_create (tc stack : Z) (name : list Z) (entry arg : Z) : ThreadM (Z * Z) :=
  if tc =? 0 then mret (- E_NO_MEM, 0)
  else
    tid ← alloc_tid;
    if stack =? 0 then mret (- E_NO_MEM, 0)
    else
      let stacktop := u32 (u32 (stack + stack_size) - 4) in
      tmodify (λ s, set_tcs (<[tc := mkTc tid stack (thread_set_name name) entry arg (at_entry stacktop) 0 false [] 0]> (tcs s)) s) ;;
      threadq_push Ready tc ;;
      mret (0, tid).

(** The calls [tc->tc_onhalt[i](tc->tc_tid)] are returned. *)
Definition thread_clean (tc : Z) : ThreadM (list (Z * Z)) :=
  if tc =? 0 then mret []
  else
    l ← tload tc tc_onhalt;
    tid ← tload tc tc_tid;
    tmodify (λ s, set_tcs (delete tc (tcs s)) s) ;;
    mret (map (λ f, (f, tid)) l).

(** Where control goes: the jump buffer of the next thread, or [None] when
    there is no other thread and [thread_yield] returns. *)
Definition thread_yield (here : K) : ThreadM (option jmp_buf) :=
  next_tc ← threadq_pop Ready;
  if next_tc =? 0 then mret None
  else
    c ← tget cur_tc;
    (if negb (c =? 0) then tstore c (set_tc_jb (at_setjmp here)) ;; threadq_push Ready c else mret tt) ;;
    tmodify (set_cur_tc next_tc) ;;
    jb ← tload next_tc tc_jb;
    mret (Some jb).

(** [None]: there is no other thread, and [exit] is called. *)
Definition thread_halt (here : K) : ThreadM (list (Z * Z) * option jmp_buf) :=
  k ← threadq_pop Killed;
  calls ← thread_clean k;
  c ← tget cur_tc;
  threadq_push Killed c ;;
  tmodify (set_cur_tc 0) ;;
  jb ← thread_yield here;
  mret (calls, jb).

(** ** Waiting

    [thread_wait] is divided at its call of [thread_yield]: what precedes the
    loop, the test of the loop with its [break]s, and what follows it.  [word]
    is [*addr]. *)

Definition thread_wait_begin (addr : Z) : ThreadM unit :=
  c ← tget cur_tc;
  tstore c (set_tc_wait_addr addr) ;;
  tstore c (set_tc_wakeup false).

Definition thread_wait_goes_on (addr val msec s p word : Z) : ThreadM bool :=
  if p <? msec then
    if p <? s then mret false
    else if negb (addr =? 0) && negb (word =? val) then mret false
    else
      c ← tget cur_tc;
      w ← tload c tc_wakeup;
      mret (negb w)
  else mret false.

Definition thread_wait_end : ThreadM unit :=
  c ← tget cur_tc;
  tstore c (set_tc_wait_addr 0) ;;
  tstore c (set_tc_wakeup false).

End Threads.

Arguments TRet {K A} _ _.
Arguments TPanic {K A} _.
Arguments TFault {K A}.
