(* ===== verification/ThreadSpec.v ===== *)
(** * The threads of the network server: correctness

    The queues are lists, threads take turns, and each operation changes the
    contexts it is meant to change only. *)

From S2P Require Import Prelude Mmu Thread.

Section Spec.
Context {K : Type}.
Notation tc := (@thread_context K).
Notation state := (@tstate K).
Implicit Types (m : gmap Z tc) (s : state) (c : tc).

(** ** Queues as lists *)

Fixpoint links (m : gmap Z tc) (p : Z) (l : list Z) : Prop :=
  match l with
  | [] => p = 0
  | a :: l' => p = a /\ a <> 0 /\ exists c, m !! a = Some c /\ links m (tc_queue_link c) l'
  end.

Definition queue_ok (m : gmap Z tc) (q : thread_queue) (l : list Z) : Prop :=
  links m (tq_first q) l /\ (l <> [] -> list.last l = Some (tq_last q)) /\ NoDup l.

(** The contexts but for the links. *)
Definition bodies (m : gmap Z tc) : gmap Z tc := set_tc_queue_link 0 <$> m.

Lemma links_ext m m' l : forall p, (forall a, a ∈ l -> m' !! a = m !! a) -> links m p l -> links m' p l.
Proof.
  induction l as [|a l IH]; intros p H Hl; [done|]. destruct Hl as (-> & Ha & c & Hc & Hl). split_and!; [done|done|]. exists c. rewrite H by (by left). split; [done|]. apply IH; [|done]. intros b Hb. apply H. by right.
Qed.

Lemma links_snoc m l tc0 : forall p, links m p l -> NoDup l -> tc0 ∉ l -> tc0 <> 0 -> forall x, list.last l = Some x ->
  forall c c0, m !! x = Some c -> m !! tc0 = Some c0 -> tc_queue_link c0 = 0 -> links (<[x := set_tc_queue_link tc0 c]> m) p (l ++ [tc0]).
Proof.
  induction l as [|a l IH]; intros p Hl Hnd Hn H0 x Hx c c0 Hc Hc0 Hz; [done|]. destruct Hl as (-> & Ha & ca & Hca & Hl). apply list.NoDup_cons in Hnd as [Hal Hnd]. apply not_elem_of_cons in Hn as [Hne Hn]. cbn [app links]. split; [done|]. split; [done|].
  destruct l as [|b l].
  - cbn in Hx. injection Hx as <-. exists (set_tc_queue_link tc0 c). rewrite lookup_insert_eq. split; [done|]. cbn. split; [done|]. split; [done|]. exists c0. rewrite lookup_insert_ne by done. done.
  - assert (x ∈ b :: l) by (by apply last_Some_elem_of). exists ca. rewrite lookup_insert_ne by (intros ->; done). split; [done|]. by apply (IH _ Hl Hnd Hn H0 x Hx c c0).
Qed.

Lemma links_dom m l : forall p a, links m p l -> a ∈ l -> a <> 0 /\ is_Some (m !! a).
Proof.
  induction l as [|b l IH]; intros p a Hl Ha; [by apply not_elem_of_nil in Ha|]. destruct Hl as (-> & Hb & c & Hc & Hl). apply elem_of_cons in Ha as [->|Ha]; [by split; [|eexists]|by apply (IH _ _ Hl)].
Qed.

Lemma bodies_link m a c x : m !! a = Some c -> bodies (<[a := set_tc_queue_link x c]> m) = bodies m.
Proof.
  intros Hc. unfold bodies. rewrite fmap_insert. apply insert_id. rewrite lookup_fmap, Hc. done.
Qed.

Lemma bodies_dom m m' a : bodies m' = bodies m -> is_Some (m' !! a) <-> is_Some (m !! a).
Proof. intros E. apply (f_equal (lookup a)) in E. unfold bodies in E. rewrite !lookup_fmap in E. destruct (m !! a), (m' !! a); cbn in E; split; intros []; by (eexists || discriminate E). Qed.

Lemma push_run w tc0 s l : queue_ok (tcs s) (queue w s) l -> tc0 ∉ l -> tc0 <> 0 -> is_Some (tcs s !! tc0) ->
  exists m' q', threadq_push w tc0 s = TRet tt (set_queue w q' (set_tcs m' s)) /\ queue_ok m' q' (l ++ [tc0]) /\ bodies m' = bodies (tcs s) /\
    (forall a, a ∉ tc0 :: l -> m' !! a = tcs s !! a).
Proof.
  intros (Hl & Hlast & Hnd) Hn H0 [c0 Hc0]. unfold threadq_push, mbind, T_bind, tstore. rewrite Hc0. set (m1 := <[tc0 := set_tc_queue_link 0 c0]> (tcs s)). assert (Eq : queue w (set_tcs m1 s) = queue w s) by (by destruct w).
  unfold tget. rewrite Eq. assert (Hl1 : links m1 (tq_first (queue w s)) l) by (apply (links_ext (tcs s)); [|done]; intros a Ha; unfold m1; rewrite lookup_insert_ne by (intros ->; done); done).
  assert (Hnd' : NoDup (l ++ [tc0])) by (apply list.NoDup_app; split_and!; [done|intros a Ha Hb; apply list_elem_of_singleton in Hb as ->; done|by apply NoDup_singleton]).
  destruct l as [|a l].
  - cbn [links] in Hl1. rewrite Hl1. cbn [Z.eqb]. exists m1, (mkTq tc0 tc0). split; [by destruct w|]. split; [|split; [by apply bodies_link|intros a Ha; apply not_elem_of_cons in Ha as [Ha _]; unfold m1; by rewrite lookup_insert_ne]].
    split; [|split; [done|done]]. cbn [app links tq_first]. split; [done|]. split; [done|]. exists (set_tc_queue_link 0 c0). unfold m1. by rewrite lookup_insert_eq.
  - pose proof Hl1 as (Ef & Ha & _). rewrite Ef, (proj2 (Z.eqb_neq a 0)) by done. specialize (Hlast ltac:(done)). set (x := tq_last (queue w s)) in *.
    assert (Hx : x ∈ a :: l) by (by apply last_Some_elem_of). destruct (links_dom _ _ _ x Hl1 Hx) as [_ [cx Hcx]]. cbn [tcs set_tcs]. rewrite Hcx.
    exists (<[x := set_tc_queue_link tc0 cx]> m1), (mkTq a tc0). split; [by destruct w|]. split; [split; [|split]|].
    + cbn [tq_first]. rewrite Ef in Hl1. eapply links_snoc; try done; [by unfold m1; rewrite lookup_insert_eq|done].
    + intros _. by rewrite list.last_snoc.
    + done.
    + split; [rewrite bodies_link by done; by apply bodies_link|]. intros b Hb. apply not_elem_of_cons in Hb as [Hb1 Hb2]. rewrite lookup_insert_ne by (intros ->; done). unfold m1. by rewrite lookup_insert_ne.
Qed.

Lemma pop_run w s a l : queue_ok (tcs s) (queue w s) (a :: l) ->
  exists m' q', threadq_pop w s = TRet a (set_queue w q' (set_tcs m' s)) /\ queue_ok m' q' l /\ bodies m' = bodies (tcs s) /\ (forall b, b <> a -> m' !! b = tcs s !! b).
Proof.
  intros ((Ef & Ha & c & Hc & Hl) & Hlast & Hnd). unfold threadq_pop, mbind, T_bind, tget. rewrite Ef, (proj2 (Z.eqb_neq a 0)) by done. unfold tload. rewrite Hc. unfold tmodify, tstore.
  assert (Et : tcs (set_queue w (mkTq (tc_queue_link c) (tq_last (queue w s))) s) = tcs s) by (by destruct w). rewrite Et, Hc.
  exists (<[a := set_tc_queue_link 0 c]> (tcs s)), (mkTq (tc_queue_link c) (tq_last (queue w s))). split; [by destruct w|]. apply list.NoDup_cons in Hnd as [Hal Hnd]. split; [split; [|split; [|done]]|].
  - cbn [tq_first]. apply (links_ext (tcs s)); [|done]. intros b Hb. rewrite lookup_insert_ne by (intros ->; done). done.
  - intros Hne. cbn [tq_last]. rewrite <- Hlast by done. destruct l; [done|]. done.
  - split; [by apply bodies_link|]. intros b Hb. by rewrite lookup_insert_ne.
Qed.

Lemma pop_empty w s : queue_ok (tcs s) (queue w s) [] -> threadq_pop w s = TRet 0 s.
Proof. intros (Ef & _). cbn in Ef. unfold threadq_pop, mbind, T_bind, tget. by rewrite Ef. Qed.

(** ** The threads

    [l] are the threads that are ready, in order, and [k] those that have
    stopped and are not cleaned up yet. *)

Record threads_ok (s : state) (l k : list Z) : Prop := {
  ok_ready : queue_ok (tcs s) (t_queue s) l;
  ok_killed : queue_ok (tcs s) (kill_queue s) k;
  ok_apart : NoDup (l ++ k);
  ok_cur : cur_tc s <> 0 -> cur_tc s ∉ l ++ k /\ is_Some (tcs s !! cur_tc s)
}.

Lemma queue_ext m m' q l : (forall a, a ∈ l -> m' !! a = m !! a) -> queue_ok m q l -> queue_ok m' q l.
Proof. intros H (H1 & H2 & H3). split; [by apply (links_ext m)|done]. Qed.

Lemma set_queue_same (w : which) q q' s : set_queue w q (set_queue w q' s) = set_queue w q s.
Proof. by destruct w. Qed.

Definition body (c : tc) : tc := set_tc_queue_link 0 c.

Lemma bodies_lookup m m' a c : bodies m' = bodies m -> m !! a = Some c -> exists c', m' !! a = Some c' /\ body c' = body c.
Proof.
  intros E Hc. apply (f_equal (lookup a)) in E. unfold bodies in E. rewrite !lookup_fmap, Hc in E. destruct (m' !! a) as [c'|]; [|discriminate E]. exists c'. split; [done|]. by apply (inj Some) in E.
Qed.

Lemma bodies_insert m a c : bodies (<[a := c]> m) = <[a := body c]> (bodies m).
Proof. apply fmap_insert. Qed.

(** [thread_yield] with another thread that is ready. *)
Lemma yield_run here s n l k c cn : threads_ok s (n :: l) k -> tcs s !! cur_tc s = Some c -> cur_tc s <> 0 -> tcs s !! n = Some cn ->
  exists s', thread_yield here s = TRet (Some (tc_jb cn)) s' /\ cur_tc s' = n /\ max_tid s' = max_tid s /\ threads_ok s' (l ++ [cur_tc s]) k /\
    bodies (tcs s') = <[cur_tc s := set_tc_jb (at_setjmp here) (body c)]> (bodies (tcs s)).
Proof.
  intros [Hr Hk Hnd Hcur] Hc H0 Hn. destruct (Hcur H0) as [Hnin _]. pose proof Hr as ((_ & Hn0 & _) & _ & _). unfold thread_yield, mbind, T_bind.
  destruct (pop_run Ready s n l Hr) as (m1 & q1 & E1 & Q1 & B1 & F1). rewrite E1, (proj2 (Z.eqb_neq n 0)) by done. cbn [set_queue set_tcs cur_tc]. unfold tget. cbn [cur_tc].  rewrite (proj2 (Z.eqb_neq (cur_tc s) 0)) by done. cbn [negb].
  assert (Hcn : cur_tc s <> n) by (intros E; apply Hnin; rewrite E; by left). unfold tstore at 1. cbn [tcs]. rewrite F1, Hc by done. unfold set_tcs. cbn [tcs max_tid cur_tc t_queue kill_queue].
  set (m2 := <[cur_tc s := set_tc_jb (at_setjmp here) c]> m1). set (s2 := mkTs m2 (max_tid s) (cur_tc s) q1 (kill_queue s)). assert (Hcl : cur_tc s ∉ l) by (intros Hx; apply Hnin; cbn; apply elem_of_cons; right; apply elem_of_app; by left).
  destruct (push_run Ready (cur_tc s) s2 l) as (m3 & q3 & E3 & Q3 & B3 & F3); [|done|done|by unfold s2, m2; cbn [tcs]; rewrite lookup_insert_eq; eexists|].
  { apply (queue_ext m1); [|exact Q1]. intros a Ha. unfold s2, m2. cbn [tcs]. rewrite lookup_insert_ne by (intros <-; done). done. }
  rewrite E3. unfold tmodify, set_cur_tc, tload, set_queue, set_tcs. cbn [tcs max_tid cur_tc t_queue kill_queue s2].
  assert (Hb : bodies m3 = <[cur_tc s := set_tc_jb (at_setjmp here) (body c)]> (bodies (tcs s))). { rewrite B3. unfold s2, m2. cbn [tcs]. rewrite bodies_insert, B1. done. }
  destruct (bodies_lookup (tcs s) m1 n cn B1 Hn) as (cn' & Hcn' & Ebn). destruct (bodies_lookup m2 m3 n cn') as (cn3 & Hcn3 & Ebn3); [done|unfold m2; by rewrite lookup_insert_ne|]. rewrite Hcn3.
  assert (Ej : tc_jb cn3 = tc_jb cn). { apply (f_equal tc_jb) in Ebn, Ebn3. cbn in Ebn, Ebn3. congruence. } rewrite Ej.
  eexists. split; [reflexivity|]. split; [done|]. split; [done|]. split; [|done]. cbn [tcs] in *.
  apply list.NoDup_app in Hnd as (Hnd1 & Hnd2 & Hnd3). pose proof Hnd1 as [Hnl Hndl]%list.NoDup_cons. constructor; cbn [tcs t_queue kill_queue cur_tc].
  - exact Q3.
  - apply (queue_ext (tcs s)); [|done]. intros a Ha. rewrite F3.
    + unfold s2, m2. cbn [tcs]. rewrite lookup_insert_ne by (intros <-; apply Hnin; apply elem_of_app; by right). apply F1. intros ->. apply (Hnd2 n); [by left|done].
    + intros [->|Hx]%elem_of_cons; [apply Hnin; apply elem_of_app; by right|apply (Hnd2 a); [by right|done]].
  - rewrite <- app_assoc. apply list.NoDup_app. split; [done|]. split.
    + intros a Ha [->|Hb']%elem_of_cons; [done|apply (Hnd2 a); [by right|done]].
    + apply list.NoDup_cons. split; [|done]. intros Hx. apply Hnin, elem_of_app. by right.
  - intros _. split; [|by eexists]. rewrite <- app_assoc. intros [Hx|[Hx|Hx]%elem_of_cons]%elem_of_app; [done|by subst|apply (Hnd2 n); [by left|done]].
Qed.

Lemma yield_alone here s k : threads_ok s [] k -> thread_yield here s = TRet None s.
Proof. intros [Hr _ _ _]. unfold thread_yield, mbind, T_bind. by rewrite (pop_empty Ready s Hr). Qed.

Lemma ready_context s l k a : threads_ok s l k -> a ∈ l -> exists c, tcs s !! a = Some c.
Proof. intros [(Hr & _) _ _ _] Ha. by destruct (links_dom _ _ _ a Hr Ha) as [_ H]. Qed.

(** The threads yield one after the other, [n] times. *)
Fixpoint yields (here : K) (n : nat) (s : state) : tres unit :=
  match n with
  | O => TRet tt s
  | S n' => match thread_yield here s with TRet _ s' => yields here n' s' | TPanic msg => TPanic msg | TFault => TFault end
  end.

Lemma turns here : forall i s l k x cx, threads_ok s l k -> cur_tc s <> 0 -> l !! i = Some x -> tcs s !! x = Some cx ->
  exists s1 l1 c1, yields here i s = TRet tt s1 /\ threads_ok s1 (x :: l1) k /\ cur_tc s1 <> 0 /\ tcs s1 !! cur_tc s1 = Some c1 /\ exists cx1, tcs s1 !! x = Some cx1 /\ tc_jb cx1 = tc_jb cx.
Proof.
  induction i as [|i IH]; intros s l k x cx Hok H0 Hx Hcx; pose proof (proj2 (ok_cur _ _ _ Hok H0)) as [c Hc]; destruct l as [|n l]; try done.
  - injection Hx as <-. exists s, l, c. split; [done|]. split; [done|]. split; [done|]. split; [done|]. by exists cx.
  - destruct (ready_context s (n :: l) k n Hok ltac:(by left)) as [cn Hcn]. destruct (yield_run here s n l k c cn Hok Hc H0 Hcn) as (s' & E & Ecur & _ & Hok' & Hb). cbn [lookup list_lookup] in Hx.
    pose proof Hok as [((_ & Hn0 & _) & _) _ Hnd Hcur]. assert (Hxc : x <> cur_tc s). { intros ->. apply (proj1 (Hcur H0)). apply elem_of_cons. right. apply elem_of_app. left. by eapply list_elem_of_lookup_2. }
    assert (Hb' : bodies (tcs s') !! x = Some (body cx)) by (rewrite Hb, lookup_insert_ne by done; unfold bodies; by rewrite lookup_fmap, Hcx).
    unfold bodies in Hb'. rewrite lookup_fmap in Hb'. destruct (tcs s' !! x) as [cx'|] eqn:Ex; [|discriminate Hb']. apply (inj Some) in Hb'.
    destruct (IH s' (l ++ [cur_tc s]) k x cx' Hok') as (s1 & l1 & c1 & E1 & Hok1 & H01 & Hc1 & cx1 & Hx1 & Ej); [by rewrite Ecur|by apply lookup_app_l_Some|done|].
    exists s1, l1, c1. cbn [yields]. rewrite E. split; [done|]. split; [done|]. split; [done|]. split; [done|]. exists cx1. split; [done|]. rewrite Ej. by apply (f_equal tc_jb) in Hb'.
Qed.

(** Threads take turns: the [i]-th of the threads that are ready is resumed by
    the [i+1]-th yield, where its jump buffer says. *)
Theorem threads_take_turns here s l k i x cx : threads_ok s l k -> cur_tc s <> 0 -> l !! i = Some x -> tcs s !! x = Some cx ->
  exists s1 s2, yields here i s = TRet tt s1 /\ thread_yield here s1 = TRet (Some (tc_jb cx)) s2 /\ cur_tc s2 = x.
Proof.
  intros Hok H0 Hx Hcx. destruct (turns here i s l k x cx Hok H0 Hx Hcx) as (s1 & l1 & c1 & E1 & Hok1 & H01 & Hc1 & cx1 & Hx1 & Ej).
  destruct (yield_run here s1 x l1 k c1 cx1 Hok1 Hc1 H01 Hx1) as (s2 & E2 & Ecur & _). exists s1, s2. by rewrite <- Ej.
Qed.

(** ** Starting, waking and stopping threads *)

Lemma create_run s l k tc0 stack name entry arg : threads_ok s l k -> tc0 <> 0 -> tcs s !! tc0 = None -> cur_tc s <> tc0 -> stack <> 0 -> 0 <= max_tid s < 0xfffffffe ->
  let new := mkTc (max_tid s) stack (thread_set_name name) entry arg (at_entry (u32 (u32 (stack + stack_size) - 4))) 0 false [] 0 in
  exists s', thread_create tc0 stack name entry arg s = TRet (0, max_tid s) s' /\ threads_ok s' (l ++ [tc0]) k /\ max_tid s' = max_tid s + 1 /\ cur_tc s' = cur_tc s /\
    bodies (tcs s') = <[tc0 := new]> (bodies (tcs s)).
Proof.
  intros [Hr Hk Hnd Hcur] H0 Hf Hct Hst Hm new. assert (Hnl : forall q l', queue_ok (tcs s) q l' -> tc0 ∉ l') by (intros q l' (Hl & _) Hx; destruct (links_dom _ _ _ _ Hl Hx) as [_ [c Hc]]; by rewrite Hf in Hc).
  unfold thread_create. rewrite (proj2 (Z.eqb_neq tc0 0)), (proj2 (Z.eqb_neq stack 0)) by done. unfold alloc_tid, mbind, T_bind, tget, tmodify. rewrite (u32_small (max_tid s + 1)) by lia. rewrite (proj2 (Z.eqb_neq _ _)) by lia. cbn [mret T_ret set_max_tid tcs].
  set (s1 := set_tcs _ _). destruct (push_run Ready tc0 s1 l) as (m' & q' & E & Q & B & F); [|by apply (Hnl (t_queue s))|done|by unfold s1; cbn; rewrite lookup_insert_eq; eexists|].
  { apply (queue_ext (tcs s)); [|done]. intros a Ha. unfold s1. cbn [tcs set_tcs]. rewrite lookup_insert_ne; [done|]. intros <-. by apply (Hnl (t_queue s) l). }
  rewrite E. eexists. split; [done|]. cbn [set_queue set_tcs tcs max_tid cur_tc s1].
  split; [|split; [done|split; [done|rewrite B; unfold s1; cbn [tcs set_tcs]; by rewrite bodies_insert]]]. apply list.NoDup_app in Hnd as (Hn1 & Hn2 & Hn3). constructor; cbn [set_queue set_tcs tcs t_queue kill_queue cur_tc].
  - done.
  - apply (queue_ext (tcs s)); [|done]. intros a Ha. assert (a <> tc0) by (intros ->; by apply (Hnl (kill_queue s) k)). rewrite F; [unfold s1; cbn [tcs set_tcs]; by rewrite lookup_insert_ne|]. intros [?|Hx]%elem_of_cons; [done|by apply (Hn2 a)].
  - rewrite <- app_assoc. apply list.NoDup_app. split; [done|]. split; [|apply list.NoDup_cons; split; [by apply (Hnl (kill_queue s))|done]]. intros a Ha [->|Hx]%elem_of_cons; [by apply (Hnl (t_queue s) l)|by apply (Hn2 a)].
  - intros Hc0. destruct (Hcur Hc0) as [G1 G2]. split; [rewrite <- app_assoc; intros [Hx|[Hx|Hx]%elem_of_cons]%elem_of_app; [apply G1, elem_of_app; by left|done|apply G1, elem_of_app; by right]|].
    rewrite (bodies_dom _ _ _ B). unfold s1. cbn [tcs set_tcs]. by rewrite lookup_insert_ne.
Qed.

Definition woken (addr : Z) (c : tc) : tc := if tc_wait_addr c =? addr then set_tc_wakeup true c else c.

Lemma wakeup_run addr : forall l fuel p s, links (tcs s) p l -> NoDup l -> (length l < fuel)%nat ->
  exists m', wakeup_loop fuel addr p s = TRet tt (set_tcs m' s) /\ forall a, m' !! a = (if decide (a ∈ l) then woken addr else id) <$> tcs s !! a.
Proof.
  induction l as [|a l IH]; intros fuel p s Hl Hnd Hf; (destruct fuel as [|fuel]; [cbn in Hf; lia|]); cbn [wakeup_loop].
  - cbn in Hl. rewrite Hl. exists (tcs s). split; [by destruct s|]. intros a. by destruct (tcs s !! a).
  - destruct Hl as (-> & Ha & c & Hc & Hl). apply list.NoDup_cons in Hnd as [Hal Hnd]. cbn [length] in Hf. rewrite (proj2 (Z.eqb_neq a 0)) by done. unfold mbind, T_bind. unfold tload at 1. rewrite Hc.
    set (m1 := <[a := woken addr c]> (tcs s)). assert (E1 : (if tc_wait_addr c =? addr then tstore a (set_tc_wakeup true) else mret tt) s = TRet tt (set_tcs m1 s)).
    { unfold m1, woken. destruct (tc_wait_addr c =? addr); [unfold tstore; by rewrite Hc|]. rewrite insert_id by done. by destruct s. }
    rewrite E1. unfold tload. cbn [tcs set_tcs]. unfold m1 at 1. rewrite lookup_insert_eq. assert (El : tc_queue_link (woken addr c) = tc_queue_link c) by (unfold woken; by destruct (_ =? _)). rewrite El.
    destruct (IH fuel (tc_queue_link c) (set_tcs m1 s)) as (m' & E & Hm); [|done|lia|].
    { apply (links_ext (tcs s)); [|done]. intros b Hb. unfold m1. cbn [tcs set_tcs]. rewrite lookup_insert_ne; [done|]. by intros ->. }
    exists m'. split; [exact E|]. intros b. rewrite Hm. cbn [tcs set_tcs]. unfold m1. destruct (decide (b = a)) as [->|Hne].
    + rewrite lookup_insert_eq, Hc, decide_False, decide_True by (done || by left). done.
    + rewrite lookup_insert_ne by done. destruct (decide (b ∈ l)), (decide (b ∈ a :: l)) as [Hx|Hx]; try done; [by destruct Hx; right|by apply elem_of_cons in Hx as [?|?]].
Qed.

Lemma queue_size s l k : threads_ok s l k -> (length l <= size (tcs s))%nat.
Proof.
  intros [(Hl & _ & Hnd) _ _ _]. rewrite <- size_dom. rewrite <- (size_list_to_set (C := gset Z)) by done. apply subseteq_size. intros a Ha%elem_of_list_to_set. apply elem_of_dom. by destruct (links_dom _ _ _ a Hl Ha).
Qed.

(** [thread_wakeup] marks the ready threads that wait for [addr] and nothing
    else. *)
Lemma wakeup_state s l k addr : threads_ok s l k ->
  exists m', thread_wakeup addr s = TRet tt (set_tcs m' s) /\ threads_ok (set_tcs m' s) l k /\ forall a, m' !! a = (if decide (a ∈ l) then woken addr else id) <$> tcs s !! a.
Proof.
  intros Hok. pose proof (queue_size s l k Hok) as Hsz. pose proof Hok as [(Hl & Hlast & Hnd) Hk Hap Hcur]. unfold thread_wakeup, mbind, T_bind, tget.
  destruct (wakeup_run addr l (S (size (tcs s))) (tq_first (t_queue s)) s Hl Hnd ltac:(lia)) as (m' & E & Hm). exists m'. split; [done|]. split; [|done].
  assert (Hb : forall a c, tcs s !! a = Some c -> exists c', m' !! a = Some c' /\ tc_queue_link c' = tc_queue_link c).
  { intros a c Hc. rewrite Hm, Hc. eexists. split; [done|]. destruct (decide (a ∈ l)); [unfold woken; by destruct (_ =? _)|done]. }
  assert (Hq : forall l' p, links (tcs s) p l' -> links m' p l').
  { induction l' as [|a l' IH]; intros p Hp; [done|]. destruct Hp as (-> & Ha & c & Hc & Hp). destruct (Hb a c Hc) as (c' & Hc' & El). split; [done|]. split; [done|]. exists c'. rewrite El. split; [done|]. by apply IH. }
  constructor; cbn [tcs set_tcs t_queue kill_queue cur_tc].
  - split; [by apply Hq|done].
  - destruct Hk as (H1 & H2 & H3). split; [by apply Hq|done].
  - done.
  - intros H0. destruct (Hcur H0) as [G1 [c Hc]]. split; [done|]. destruct (Hb _ _ Hc) as (c' & Hc' & _). by exists c'.
Qed.

(** ** Jump buffers *)

Definition jbs (m : gmap Z tc) : gmap Z (@jmp_buf K) := tc_jb <$> m.

Lemma jbs_bodies m : jbs m = tc_jb <$> bodies m.
Proof. unfold jbs, bodies. rewrite <- map_fmap_compose. by apply map_fmap_ext. Qed.

Lemma yield_next here s n l k : threads_ok s (n :: l) k -> cur_tc s <> 0 ->
  exists s' jb, thread_yield here s = TRet (Some jb) s' /\ jbs (tcs s) !! n = Some jb /\ cur_tc s' = n /\ n <> 0 /\ threads_ok s' (l ++ [cur_tc s]) k /\ jbs (tcs s') = <[cur_tc s := at_setjmp here]> (jbs (tcs s)).
Proof.
  intros Hok H0. pose proof (proj2 (ok_cur _ _ _ Hok H0)) as [c Hc]. destruct (ready_context s (n :: l) k n Hok ltac:(by left)) as [cn Hcn]. destruct (yield_run here s n l k c cn Hok Hc H0 Hcn) as (s' & E & Ecur & _ & Hok' & Hb).
  exists s', (tc_jb cn). split; [done|]. split; [unfold jbs; by rewrite lookup_fmap, Hcn|]. split; [done|]. split; [by destruct Hok as [((_ & Hn & _) & _) _ _ _]|]. split; [done|]. by rewrite (jbs_bodies (tcs s')), (jbs_bodies (tcs s)), Hb, fmap_insert.
Qed.

Lemma store_cur f s l k : threads_ok s l k -> cur_tc s <> 0 -> (forall c, tc_queue_link (f c) = tc_queue_link c /\ tc_jb (f c) = tc_jb c) ->
  exists m', tstore (cur_tc s) f s = TRet tt (set_tcs m' s) /\ threads_ok (set_tcs m' s) l k /\ jbs m' = jbs (tcs s).
Proof.
  intros [Hr Hk Hap Hcur] H0 Hf. destruct (Hcur H0) as [Hnin [c Hc]]. unfold tstore. rewrite Hc. exists (<[cur_tc s := f c]> (tcs s)). split; [done|]. split.
  - constructor; cbn [tcs set_tcs t_queue kill_queue cur_tc]; try done; [| |intros _; split; [done|by rewrite lookup_insert_eq; eexists]].
    + apply (queue_ext (tcs s)); [|done]. intros a Ha. rewrite lookup_insert_ne; [done|]. intros <-. apply Hnin, elem_of_app. by left.
    + apply (queue_ext (tcs s)); [|done]. intros a Ha. rewrite lookup_insert_ne; [done|]. intros <-. apply Hnin, elem_of_app. by right.
  - unfold jbs. rewrite fmap_insert, (proj2 (Hf c)). apply insert_id. by rewrite lookup_fmap, Hc.
Qed.

Lemma wait_mark addr s l k : threads_ok s l k -> cur_tc s <> 0 ->
  exists m', (tstore (cur_tc s) (set_tc_wait_addr addr) ;; tstore (cur_tc s) (set_tc_wakeup false)) s = TRet tt (set_tcs m' s) /\ threads_ok (set_tcs m' s) l k /\ jbs m' = jbs (tcs s).
Proof.
  intros Hok H0. destruct (store_cur (set_tc_wait_addr addr) s l k Hok H0 ltac:(done)) as (m1 & E1 & Hok1 & J1). destruct (store_cur (set_tc_wakeup false) (set_tcs m1 s) l k Hok1 H0 ltac:(done)) as (m2 & E2 & Hok2 & J2).
  exists m2. cbn [tcs set_tcs cur_tc] in *. unfold mbind, T_bind. rewrite E1. split; [exact E2|]. split; [exact Hok2|]. by rewrite J2.
Qed.

Lemma wait_begin_run addr s l k : threads_ok s l k -> cur_tc s <> 0 -> exists m', thread_wait_begin addr s = TRet tt (set_tcs m' s) /\ threads_ok (set_tcs m' s) l k /\ jbs m' = jbs (tcs s).
Proof. apply wait_mark. Qed.

Lemma wait_end_run s l k : threads_ok s l k -> cur_tc s <> 0 -> exists m', thread_wait_end s = TRet tt (set_tcs m' s) /\ threads_ok (set_tcs m' s) l k /\ jbs m' = jbs (tcs s).
Proof. apply wait_mark. Qed.

Lemma wait_test_run addr val msec st p word s l k : threads_ok s l k -> cur_tc s <> 0 -> exists b, thread_wait_goes_on addr val msec st p word s = TRet b s /\ (addr <> 0 -> word <> val -> b = false).
Proof.
  intros Hok H0. destruct (proj2 (ok_cur _ _ _ Hok H0)) as [c Hc]. unfold thread_wait_goes_on. destruct (p <? msec); [|by exists false]. destruct (p <? st); [by exists false|].
  destruct (negb (addr =? 0) && negb (word =? val)) eqn:E; [by exists false|]. unfold mbind, T_bind, tget, tload. rewrite Hc. eexists. split; [done|]. intros H1 H2. by rewrite (proj2 (Z.eqb_neq addr 0)), (proj2 (Z.eqb_neq word val)) in E.
Qed.

Lemma wakeup_jbs addr s l k : threads_ok s l k -> exists m', thread_wakeup addr s = TRet tt (set_tcs m' s) /\ threads_ok (set_tcs m' s) l k /\ jbs m' = jbs (tcs s).
Proof.
  intros Hok. pose proof (queue_size s l k Hok) as Hsz. destruct (wakeup_state s l k addr Hok) as (m' & E & Hok' & Hm). exists m'. split; [done|]. split; [done|]. apply map_eq. intros a. unfold jbs. rewrite !lookup_fmap, Hm. destruct (tcs s !! a) as [c|]; [|done].
  cbn. f_equal. destruct (decide (a ∈ l)); [unfold woken; by destruct (_ =? _)|done].
Qed.

Lemma links_fun m l : forall p l', links m p l -> links m p l' -> l = l'.
Proof.
  induction l as [|a l IH]; intros p [|b l'] H H'; [done| | |].
  - cbn in H. destruct H' as (-> & H' & _). done.
  - cbn in H'. destruct H as (-> & H & _). done.
  - destruct H as (-> & _ & c & Hc & H), H' as (-> & _ & c' & Hc' & H'). assert (c' = c) as -> by congruence. f_equal. by apply (IH (tc_queue_link c)).
Qed.

Lemma threads_fun s l k l' k' : threads_ok s l k -> threads_ok s l' k' -> l = l' /\ k = k'.
Proof. intros [(H1 & _) (H2 & _) _ _] [(H3 & _) (H4 & _) _ _]. split; by eapply links_fun. Qed.

Lemma onhalt_run f s l k : threads_ok s l k -> cur_tc s <> 0 -> exists r m', thread_onhalt f s = TRet r (set_tcs m' s) /\ threads_ok (set_tcs m' s) l k /\ jbs m' = jbs (tcs s).
Proof.
  intros Hok H0. destruct (proj2 (ok_cur _ _ _ Hok H0)) as [c Hc]. unfold thread_onhalt, mbind, T_bind, tget, tload. rewrite Hc. destruct (_ <=? _); [exists (- E_NO_MEM), (tcs s); by destruct s|].
  destruct (store_cur (set_tc_onhalt (tc_onhalt c ++ [f])) s l k Hok H0 ltac:(done)) as (m' & E & H). exists 0, m'. rewrite E. done.
Qed.

(** *** Stopping *)

(** The thread that stopped before is cleaned up. *)
Lemma clean_run s l k : threads_ok s l k ->
  exists calls m' q', (k0 ← threadq_pop Killed; thread_clean k0) s = TRet calls (set_queue Killed q' (set_tcs m' s)) /\ queue_ok m' q' (tail k) /\ (forall a, a ∉ k -> m' !! a = tcs s !! a).
Proof.
  intros [Hr Hk Hap Hcur]. unfold mbind, T_bind. destruct k as [|d k].
  - rewrite (pop_empty Killed s Hk). exists [], (tcs s), (kill_queue s). split; [by destruct s|]. done.
  - destruct (pop_run Killed s d k Hk) as (m1 & q1 & E & Q & B & F). rewrite E. pose proof Hk as ((_ & Hd & cd & Hcd & _) & _ & Hnd). apply list.NoDup_cons in Hnd as [Hdk _]. destruct (bodies_lookup _ _ d cd B Hcd) as (cd' & Hcd' & _).
    unfold thread_clean, mbind, T_bind. rewrite (proj2 (Z.eqb_neq d 0)) by done. unfold tload. cbn [set_queue set_tcs tcs]. rewrite Hcd'. cbn [tcs]. rewrite Hcd'. unfold tmodify. eexists _, (delete d m1), q1. split; [reflexivity|]. split.
    + apply (queue_ext m1); [|done]. intros a Ha. rewrite lookup_delete_ne; [done|]. by intros ->.
    + intros a Ha. apply not_elem_of_cons in Ha as [Ha _]. rewrite lookup_delete_ne by done. by apply F.
Qed.

Lemma halt_run here s l k : threads_ok s l k -> cur_tc s <> 0 ->
  exists calls m' q q', thread_halt here s = (jb ← thread_yield here; mret (calls, jb)) (mkTs m' (max_tid s) 0 q q') /\ threads_ok (mkTs m' (max_tid s) 0 q q') l (tail k ++ [cur_tc s]) /\ (forall a, a ∈ l -> jbs m' !! a = jbs (tcs s) !! a).
Proof.
  intros Hok H0. pose proof Hok as [Hr Hk Hap Hcur]. destruct (Hcur H0) as [Hnin [c Hc]]. apply not_elem_of_app in Hnin as [Hnl Hnk]. apply list.NoDup_app in Hap as (Hn1 & Hn2 & Hn3).
  destruct (clean_run s l k Hok) as (calls & m1 & q1 & E1 & Q1 & F1). set (s1 := set_queue Killed q1 (set_tcs m1 s)) in *. assert (Htk : forall a, a ∈ tail k -> a ∈ k) by (intros a; destruct k; [done|by right]).
  destruct (push_run Killed (cur_tc s) s1 (tail k)) as (m2 & q2 & E2 & Q2 & B2 & F2); [done|by intros Hx%Htk|done|by unfold s1; cbn [tcs set_queue set_tcs]; rewrite F1, Hc|].
  assert (Hl : forall a, a ∈ l -> m2 !! a = tcs s !! a). { intros a Ha. rewrite F2; [unfold s1; cbn [tcs set_queue set_tcs]; apply F1; intros Hx; by apply (Hn2 a)|]. intros [->|Hx%Htk]%elem_of_cons; [done|by apply (Hn2 a)]. }
  exists calls, m2, (t_queue s), q2. split; [|split].
  - unfold thread_halt. unfold mbind, T_bind in *. destruct (threadq_pop Killed s) as [k0 s0| |]; [|discriminate E1..]. rewrite E1. unfold tget. change (cur_tc s1) with (cur_tc s). rewrite E2. done.
  - constructor; cbn [tcs t_queue kill_queue cur_tc]; [by apply (queue_ext (tcs s))|done| |done]. apply list.NoDup_app. split; [done|]. split.
    + intros a Ha [Hx%Htk|Hx%list_elem_of_singleton]%elem_of_app; [by apply (Hn2 a)|by subst].
    + by destruct Q2 as (_ & _ & ?).
  - intros a Ha. unfold jbs. by rewrite !lookup_fmap, Hl.
Qed.

(** A stopped thread leaves the processor to the next one that is ready. *)
Lemma yield_stopped here m mt q q' n l k : threads_ok (mkTs m mt 0 q q') (n :: l) k ->
  exists s' jb, thread_yield here (mkTs m mt 0 q q') = TRet (Some jb) s' /\ jbs m !! n = Some jb /\ cur_tc s' = n /\ n <> 0 /\ threads_ok s' l k /\ (forall a, a ∈ l -> jbs (tcs s') !! a = jbs m !! a).
Proof.
  intros [Hr Hk Hap _]. destruct (pop_run Ready _ n l Hr) as (m1 & q1 & E & Q & B & F). pose proof Hr as ((_ & Hn & cn & Hcn & _) & _ & Hnd). cbn [tcs] in *. destruct (bodies_lookup _ _ n cn B Hcn) as (cn' & Hcn' & Eb). apply list.NoDup_cons in Hnd as [Hnl Hnd].
  cbn [app] in Hap. apply list.NoDup_cons in Hap as [Hnlk Hap]. unfold thread_yield, mbind, T_bind. rewrite E, (proj2 (Z.eqb_neq n 0)) by done. unfold tget, tmodify, tload, set_queue, set_tcs, set_cur_tc. cbn [tcs cur_tc max_tid t_queue kill_queue Z.eqb negb]. unfold mret, T_ret. cbn [tcs cur_tc max_tid t_queue kill_queue]. rewrite Hcn'.
  eexists _, (tc_jb cn). split; [by apply (f_equal tc_jb) in Eb; cbn in Eb; rewrite Eb|]. split; [unfold jbs; by rewrite lookup_fmap, Hcn|]. cbn [tcs cur_tc]. split; [done|]. split; [done|]. split.
  - constructor; cbn [tcs t_queue kill_queue cur_tc]; [done| |done|intros _; split; [done|by eexists]]. apply (queue_ext m); [|done]. intros a Ha. apply F. intros ->. apply Hnlk, elem_of_app. by right.
  - intros a Ha. unfold jbs. rewrite !lookup_fmap, F; [done|]. by intros ->.
Qed.

End Spec.
