(* ===== verification/SysArch.v ===== *)
(** * Semaphores and mailboxes of the network server ([net/lwip/jos/arch/sys_arch.c])

    The operations run on the threads of [Thread].  A thread that waits for a
    semaphore gives up the processor in [thread_yield], called by
    [thread_wait], called by [sys_arch_sem_wait]; the local variables of these
    and what follows the wait are kept in its jump buffer, as a [place].  The
    code between two yields is a computation of [SysM].  The readings of the
    clock are a function of their number. *)

From S2P Require Import Prelude Mmu Thread.

Definition NSEM : Z := 256.
Definition NMBOX : Z := 128.
Definition MBOXSLOTS : Z := 32.
Definition SYS_SEM_NULL : Z := -1.
Definition SYS_MBOX_NULL : Z := -1.
Definition SYS_ARCH_TIMEOUT : Z := 0xffffffff.
Definition SYS_ARCH_NOWAIT : Z := 0xfffffffe.
Definition ERR_MEM : Z := -1.

Record sys_sem_entry := mkSem { sem_freed : bool; sem_gen : Z; sem_counter : Z; sem_waiters : Z }.

(** The word [v] that overlays [counter] and [waiters]. *)
Definition sem_v (e : sys_sem_entry) : Z := sem_counter e + 65536 * sem_waiters e.

Record sys_mbox_entry := mkMb {
  mb_freed : bool;
  mb_head : Z;
  mb_nextq : Z;
  mb_msg : list Z;
  mb_queued : Z;
  mb_free : Z
}.

(** What follows the return of [sys_arch_sem_wait]: its caller, or the rest of
    [sys_mbox_trypost] or [sys_arch_mbox_fetch]. *)
Inductive after := ADone | APost (asserted : bool) (mbox msg : Z) | AFetch (mbox : Z).

(** The variables of [sys_arch_sem_wait]. *)
Record waiting := mkWait { w_sem : Z; w_tm : Z; w_waited : Z; w_gen : Z; w_after : after }.

(** Where a thread is in [thread_yield]: called by [thread_wait] with its [val],
    [msec] and [s] and the time [a] of its caller, or called directly. *)
Inductive place := InWait (w : waiting) (a val msec s : Z) | InClient.

(** Where the running thread is: at the head of the loop of
    [sys_arch_sem_wait], at the head of the loop of [thread_wait], at the start
    of a thread, or in its own code with the last result. *)
Inductive control := CSem (w : waiting) | CWait (w : waiting) (a val msec s p : Z) | CEntry | CClient (r : Z).

(** What happened to a mailbox. *)
Inductive event := Created (mbox : Z) | Freed (mbox : Z) | Posted (mbox msg : Z) | Fetched (mbox msg : Z).

Record sys := mkSys {
  sy_threads : @tstate place;
  sems : gmap Z sys_sem_entry;
  sem_free : list Z;
  mboxes : gmap Z sys_mbox_entry;
  mbox_free : list Z;
  thread_tab : gmap Z (list (Z * Z));
  ticks : nat;
  events : list event
}.

Definition set_threads (v : tstate) (s : sys) : sys := mkSys v (sems s) (sem_free s) (mboxes s) (mbox_free s) (thread_tab s) (ticks s) (events s).
Definition set_sems (v : gmap Z sys_sem_entry) (s : sys) : sys := mkSys (sy_threads s) v (sem_free s) (mboxes s) (mbox_free s) (thread_tab s) (ticks s) (events s).
Definition set_sem_free (v : list Z) (s : sys) : sys := mkSys (sy_threads s) (sems s) v (mboxes s) (mbox_free s) (thread_tab s) (ticks s) (events s).
Definition set_mboxes (v : gmap Z sys_mbox_entry) (s : sys) : sys := mkSys (sy_threads s) (sems s) (sem_free s) v (mbox_free s) (thread_tab s) (ticks s) (events s).
Definition set_mbox_free (v : list Z) (s : sys) : sys := mkSys (sy_threads s) (sems s) (sem_free s) (mboxes s) v (thread_tab s) (ticks s) (events s).
Definition set_ticks (v : nat) (s : sys) : sys := mkSys (sy_threads s) (sems s) (sem_free s) (mboxes s) (mbox_free s) (thread_tab s) v (events s).
Definition set_events (v : list event) (s : sys) : sys := mkSys (sy_threads s) (sems s) (sem_free s) (mboxes s) (mbox_free s) (thread_tab s) (ticks s) v.

Definition set_thread_tab (v : gmap Z (list (Z * Z))) (s : sys) : sys := mkSys (sy_threads s) (sems s) (sem_free s) (mboxes s) (mbox_free s) v (ticks s) (events s).

Inductive sres (A : Type) :=
| SRet (a : A) (s : sys)
| SPanic (msg : string)
| SFault.
Arguments SRet {A} _ _.
Arguments SPanic {A} _.
Arguments SFault {A}.

Definition SysM (A : Type) : Type := sys -> sres A.

#[export] Instance S_ret : MRet SysM := λ A a s, SRet a s.
#[export] Instance S_bind : MBind SysM := λ A B f m s,
  match m s with
  | SRet a s' => f a s'
  | SPanic msg => SPanic msg
  | SFault => SFault
  end.

Definition sget {A} (f : sys -> A) : SysM A := λ s, SRet (f s) s.
Definition smodify (f : sys -> sys) : SysM unit := λ s, SRet tt (f s).
Definition spanic {A} (msg : string) : SysM A := λ _, SPanic msg.
Definition sassert (msg : string) (b : bool) : SysM unit := if b then mret tt else spanic msg.
Definition lift {A} (m : ThreadM A) : SysM A := λ s,
  match m (sy_threads s) with
  | TRet a t => SRet a (set_threads t s)
  | TPanic msg => SPanic msg
  | TFault => SFault
  end.
Definition emit (e : event) : SysM unit := smodify (λ s, set_events (events s ++ [e]) s).

(** [sems[i]] and [mboxes[i]]: outside the arrays there is no entry. *)
Definition sem_at (i : Z) : SysM sys_sem_entry := λ s, match sems s !! i with Some e => SRet e s | None => SFault end.
Definition set_sem (i : Z) (e : sys_sem_entry) : SysM unit := smodify (λ s, set_sems (<[i := e]> (sems s)) s).
Definition mbox_at (i : Z) : SysM sys_mbox_entry := λ s, match mboxes s !! i with Some e => SRet e s | None => SFault end.
Definition set_mbox (i : Z) (e : sys_mbox_entry) : SysM unit := smodify (λ s, set_mboxes (<[i := e]> (mboxes s)) s).

Section Sys.
(** The readings of the clock, and the address of [sems]. *)
Context (clock : nat -> Z) (sems_addr : Z).

Definition sys_time_msec : SysM Z :=
  n ← sget ticks;
  smodify (set_ticks (S n)) ;;
  mret (clock n).

(** [&sems[i].v] *)
Definition sem_addr (i : Z) : Z := sems_addr + 20 * i + 8.

(** ** Initialisation *)

Fixpoint sem_init_loop (n : nat) (i : Z) : SysM unit :=
  match n with
  | O => mret tt
  | S n' =>
      e ← sem_at i;
      set_sem i (mkSem true (sem_gen e) (sem_counter e) (sem_waiters e)) ;;
      smodify (λ s, set_sem_free (i :: sem_free s) s) ;;
      sem_init_loop n' (i + 1)
  end.

Fixpoint mbox_init_loop (n : nat) (i : Z) : SysM unit :=
  match n with
  | O => mret tt
  | S n' =>
      e ← mbox_at i;
      set_mbox i (mkMb true (mb_head e) (mb_nextq e) (mb_msg e) (mb_queued e) (mb_free e)) ;;
      smodify (λ s, set_mbox_free (i :: mbox_free s) s) ;;
      mbox_init_loop n' (i + 1)
  end.

Definition sys_init : SysM unit :=
  sem_init_loop (Z.to_nat NSEM) 0 ;;
  mbox_init_loop (Z.to_nat NMBOX) 0.

(** ** Semaphores *)

Definition sys_sem_new (count : Z) : SysM Z :=
  l ← sget sem_free;
  match l with
  | [] => mret SYS_SEM_NULL
  | i :: l' =>
      smodify (set_sem_free l') ;;
      se ← sem_at i;
      sassert "se->freed" (sem_freed se) ;;
      set_sem i (mkSem false (s32 (sem_gen se + 1)) count (sem_waiters se)) ;;
      mret i
  end.

Definition sys_sem_free (sem : Z) : SysM unit :=
  se ← sem_at sem;
  sassert "!sems[sem].freed" (negb (sem_freed se)) ;;
  set_sem sem (mkSem true (s32 (sem_gen se + 1)) (sem_counter se) (sem_waiters se)) ;;
  smodify (λ s, set_sem_free (sem :: sem_free s) s).

Definition sys_sem_signal (sem : Z) : SysM unit :=
  se ← sem_at sem;
  sassert "!sems[sem].freed" (negb (sem_freed se)) ;;
  let c := u16 (sem_counter se + 1) in
  if negb (sem_waiters se =? 0) then
    set_sem sem (mkSem (sem_freed se) (sem_gen se) c 0) ;;
    lift (thread_wakeup (sem_addr sem))
  else set_sem sem (mkSem (sem_freed se) (sem_gen se) c (sem_waiters se)).

(** ** The ends of the operations on mailboxes *)

(** After the wait in [sys_mbox_trypost], whose result is not looked at. *)
Definition trypost_rest (mbox msg : Z) : SysM Z :=
  m ← mbox_at mbox;
  if mb_nextq m =? mb_head m then mret ERR_MEM
  else
    let slot := mb_nextq m in
    let head := if mb_head m =? -1 then slot else mb_head m in
    set_mbox mbox (mkMb (mb_freed m) head (Z.rem (slot + 1) MBOXSLOTS) (<[Z.to_nat slot := msg]> (mb_msg m)) (mb_queued m) (mb_free m)) ;;
    emit (Posted mbox msg) ;;
    sys_sem_signal (mb_queued m) ;;
    mret 0.

(** [sys_mbox_post] asserts the result. *)
Definition post_rest (asserted : bool) (mbox msg : Z) : SysM Z :=
  r ← trypost_rest mbox msg;
  sassert "sys_mbox_trypost(mbox, msg) == ERR_OK" (negb asserted || (r =? 0)) ;;
  mret r.

(** After the wait in [sys_arch_mbox_fetch]. *)
Definition fetch_rest (mbox waited : Z) : SysM Z :=
  if waited =? SYS_ARCH_TIMEOUT then mret waited
  else
    m ← mbox_at mbox;
    let slot := mb_head m in
    if slot =? -1 then spanic "lwip: sys_arch_mbox_fetch: no message"
    else
      emit (Fetched mbox (default 0 (mb_msg m !! Z.to_nat slot))) ;;
      let head := Z.rem (slot + 1) MBOXSLOTS in
      set_mbox mbox (mkMb (mb_freed m) (if head =? mb_nextq m then -1 else head) (mb_nextq m) (mb_msg m) (mb_queued m) (mb_free m)) ;;
      sys_sem_signal (mb_free m) ;;
      mret waited.

Definition finish (k : after) (waited : Z) : SysM control :=
  r ← match k with ADone => mret waited | APost b mbox msg => post_rest b mbox msg | AFetch mbox => fetch_rest mbox waited end;
  mret (CClient r).

(** ** Waiting *)

(** One round of the loop of [sys_arch_sem_wait]. *)
Definition sem_round (w : waiting) : SysM control :=
  if (w_tm w =? 0) || (w_waited w <? w_tm w) then
    se ← sem_at (w_sem w);
    if 0 <? sem_counter se then
      set_sem (w_sem w) (mkSem (sem_freed se) (sem_gen se) (sem_counter se - 1) (sem_waiters se)) ;;
      finish (w_after w) (w_waited w)
    else if w_tm w =? SYS_ARCH_NOWAIT then finish (w_after w) SYS_ARCH_TIMEOUT
    else
      a ← sys_time_msec;
      let sleep_until := if negb (w_tm w =? 0) then u32 (a + u32 (w_tm w - w_waited w)) else 0xffffffff in
      let se := mkSem (sem_freed se) (sem_gen se) (sem_counter se) 1 in
      set_sem (w_sem w) se ;;
      s ← sys_time_msec;
      lift (thread_wait_begin (sem_addr (w_sem w))) ;;
      mret (CWait w a (sem_v se) sleep_until s s)
  else finish (w_after w) SYS_ARCH_TIMEOUT.

(** A thread goes on behind its call of [thread_yield]. *)
Definition resume (jb : jmp_buf) : SysM control :=
  match jb with
  | at_entry _ => mret CEntry
  | at_setjmp InClient => mret (CClient 0)
  | at_setjmp (InWait w a val msec s) =>
      p ← sys_time_msec;
      mret (CWait w a val msec s p)
  end.

(** [thread_yield], from [here] on. *)
Definition yield (here : place) : SysM control :=
  jb ← lift (thread_yield here);
  resume (match jb with Some jb => jb | None => at_setjmp here end).

(** One round of the loop of [thread_wait], and what follows the loop. *)
Definition wait_round (w : waiting) (a val msec s p : Z) : SysM control :=
  se ← sem_at (w_sem w);
  on ← lift (thread_wait_goes_on (sem_addr (w_sem w)) val msec s p (sem_v se));
  if (on : bool) then yield (InWait w a val msec s)
  else
    lift thread_wait_end ;;
    if negb (w_gen w =? sem_gen se) then finish (w_after w) SYS_ARCH_TIMEOUT
    else
      b ← sys_time_msec;
      mret (CSem (mkWait (w_sem w) (w_tm w) (u32 (w_waited w + u32 (b - a))) (w_gen w) (w_after w))).

Definition sem_wait (sem tm : Z) (k : after) : SysM control :=
  se ← sem_at sem;
  sassert "!sems[sem].freed" (negb (sem_freed se)) ;;
  mret (CSem (mkWait sem tm 0 (sem_gen se) k)).

Definition sys_arch_sem_wait (sem tm_msec : Z) : SysM control := sem_wait sem tm_msec ADone.

(** ** Mailboxes *)

Definition sys_mbox_free (mbox : Z) : SysM unit :=
  m ← mbox_at mbox;
  sassert "!mboxes[mbox].freed" (negb (mb_freed m)) ;;
  sys_sem_free (mb_queued m) ;;
  sys_sem_free (mb_free m) ;;
  smodify (λ s, set_mbox_free (mbox :: mbox_free s) s) ;;
  set_mbox mbox (mkMb true (mb_head m) (mb_nextq m) (mb_msg m) (mb_queued m) (mb_free m)) ;;
  emit (Freed mbox).

Definition sys_mbox_new (size : Z) : SysM Z :=
  sassert "size < MBOXSLOTS" (size <? MBOXSLOTS) ;;
  l ← sget mbox_free;
  match l with
  | [] => mret SYS_MBOX_NULL
  | i :: l' =>
      smodify (set_mbox_free l') ;;
      m ← mbox_at i;
      sassert "mbe->freed" (mb_freed m) ;;
      q ← sys_sem_new 0;
      f ← sys_sem_new MBOXSLOTS;
      set_mbox i (mkMb false (-1) 0 (mb_msg m) q f) ;;
      emit (Created i) ;;
      if (q =? SYS_SEM_NULL) || (f =? SYS_SEM_NULL) then
        sys_mbox_free i ;;
        mret SYS_MBOX_NULL
      else mret i
  end.

Definition mbox_send (asserted : bool) (mbox msg : Z) : SysM control :=
  m ← mbox_at mbox;
  sassert "!mboxes[mbox].freed" (negb (mb_freed m)) ;;
  sem_wait (mb_free m) 0 (APost asserted mbox msg).

Definition sys_mbox_trypost : Z -> Z -> SysM control := mbox_send false.
Definition sys_mbox_post : Z -> Z -> SysM control := mbox_send true.

Definition sys_arch_mbox_fetch (mbox tm_msec : Z) : SysM control :=
  m ← mbox_at mbox;
  sassert "!mboxes[mbox].freed" (negb (mb_freed m)) ;;
  sem_wait (mb_queued m) tm_msec (AFetch mbox).

Definition sys_arch_mbox_tryfetch (mbox : Z) : SysM control := sys_arch_mbox_fetch mbox SYS_ARCH_NOWAIT.

(** ** Threads *)

Definition thread_hash_size : Z := 257.

(** The address of [timeout_cleanup]. *)
Context (timeout_cleanup_fn lwip_thread_entry : Z).

(** [t] is what [malloc] returns for a new [struct sys_thread]; the address of
    the entry is returned. *)
Definition sys_arch_timeouts (t : Z) : SysM Z :=
  tid ← lift thread_id;
  tab ← sget thread_tab;
  let b := tid mod thread_hash_size in
  let l := default [] (tab !! b) in
  match find (λ e, e.1 =? tid) l with
  | Some e => mret e.2
  | None =>
      if t =? 0 then spanic "sys_arch_timeouts: cannot malloc"
      else
        r ← lift (thread_onhalt timeout_cleanup_fn);
        if r <? 0 then spanic "thread_onhalt failed"
        else
          smodify (set_thread_tab (<[b := (tid, t) :: l]> tab)) ;;
          mret t
  end.

Fixpoint remove_tid (tid : Z) (l : list (Z * Z)) : list (Z * Z) :=
  match l with
  | [] => []
  | e :: l' => if e.1 =? tid then l' else e :: remove_tid tid l'
  end.

Definition timeout_cleanup (tid : Z) : SysM unit :=
  tab ← sget thread_tab;
  let b := tid mod thread_hash_size in
  smodify (set_thread_tab (<[b := remove_tid tid (default [] (tab !! b))]> tab)).

(** [lt], [tc] and [stack] are what [malloc] returns. *)
Definition sys_thread_new (lt tc stack : Z) (name : list Z) (stacksize : Z) : SysM Z :=
  if lt =? 0 then spanic "sys_thread_new: cannot allocate thread struct"
  else if PGSIZE <? stacksize then spanic "large stack"
  else
    r ← lift (thread_create tc stack name lwip_thread_entry lt);
    if r.1 <? 0 then spanic "lwip: sys_thread_new: cannot create" else mret r.2.

(** The functions that [thread_halt] calls for the thread it cleans up. *)
Fixpoint onhalt_calls (l : list (Z * Z)) : SysM unit :=
  match l with
  | [] => mret tt
  | (f, tid) :: l' =>
      (if f =? timeout_cleanup_fn then timeout_cleanup tid else mret tt) ;;
      onhalt_calls l'
  end.

(** A thread stops; [None] when there is no other one. *)
Definition halt : SysM (option control) :=
  r ← lift (thread_halt InClient);
  onhalt_calls r.1 ;;
  match r.2 with
  | Some jb => c ← resume jb; mret (Some c)
  | None => mret None
  end.
End Sys.
