(* ===== verification/SysArchSpec.v ===== *)
(** * Mailboxes of the network server: correctness

    In every interleaving of the threads the mailboxes are bounded queues: the
    messages come out in the order in which they went in, no message is lost
    and none is fetched twice, and a thread that waits for a message goes on
    when there is one. *)

From S2P Require Import Prelude Mmu Thread ThreadSpec SysArch.

(** ** The specification: queues of at most 32 messages *)

Notation queues := (gmap Z (list Z)).

Inductive accept : queues -> event -> queues -> Prop :=
| accept_created qs i : qs !! i = None -> accept qs (Created i) (<[i := []]> qs)
| accept_freed qs i l : qs !! i = Some l -> accept qs (Freed i) (delete i qs)
| accept_posted qs i l m : qs !! i = Some l -> Z.of_nat (length l) < MBOXSLOTS -> accept qs (Posted i m) (<[i := l ++ [m]]> qs)
| accept_fetched qs i m l : qs !! i = Some (m :: l) -> accept qs (Fetched i m) (<[i := l]> qs).

Inductive accepts : list event -> queues -> Prop :=
| accepts_nil : accepts [] ∅
| accepts_snoc tr qs e qs' : accepts tr qs -> accept qs e qs' -> accepts (tr ++ [e]) qs'.

(** ** The ring of slots *)

Record ring (e : sys_mbox_entry) (l : list Z) : Prop := {
  ring_size : length (mb_msg e) = 32%nat;
  ring_len : (length l <= 32)%nat;
  ring_next : 0 <= mb_nextq e < 32;
  ring_head : match l with [] => mb_head e = -1 | _ => 0 <= mb_head e < 32 /\ mb_nextq e = (mb_head e + Z.of_nat (length l)) mod 32 end;
  ring_data : forall i m, l !! i = Some m -> mb_msg e !! Z.to_nat ((mb_head e + Z.of_nat i) mod 32) = Some m
}.

Lemma ring_not_full e l : ring e l -> (length l < 32)%nat -> mb_nextq e <> mb_head e.
Proof.
  intros [_ _ Hn Hh _] Hl E. destruct l as [|m l]; [lia|]. destruct Hh as [Hh En]. rewrite E in En. pose proof (Z.div_mod (mb_head e + Z.of_nat (length (m :: l))) 32 ltac:(lia)). cbn [length] in *. lia.
Qed.

Definition posted (e : sys_mbox_entry) (m : Z) : sys_mbox_entry :=
  mkMb (mb_freed e) (if mb_head e =? -1 then mb_nextq e else mb_head e) (Z.rem (mb_nextq e + 1) MBOXSLOTS) (<[Z.to_nat (mb_nextq e) := m]> (mb_msg e)) (mb_queued e) (mb_free e).

Lemma rem_mod_32 x : 0 <= x -> Z.rem x MBOXSLOTS = x mod 32.
Proof. intros H. apply Z.rem_mod_nonneg; [done|]. unfold MBOXSLOTS. lia. Qed.

Lemma ring_post e l m : ring e l -> (length l < 32)%nat -> ring (posted e m) (l ++ [m]).
Proof.
  intros [Hs Hl Hn Hh Hd] Hlt. set (h := if mb_head e =? -1 then mb_nextq e else mb_head e). assert (Hh' : 0 <= h < 32 /\ mb_nextq e = (h + Z.of_nat (length l)) mod 32).
  { unfold h. destruct l as [|m0 l]; [rewrite Hh; cbn [Z.eqb Pos.eqb length Z.of_nat]; rewrite Z.add_0_r, Z.mod_small by lia; done|]. destruct Hh as [Hh En]. rewrite (proj2 (Z.eqb_neq _ _)) by lia. done. }
  destruct Hh' as [Hh1 Hh2]. constructor; unfold posted; cbn [mb_msg mb_head mb_nextq]; fold h.
  - by rewrite length_insert.
  - rewrite length_app. cbn. lia.
  - rewrite rem_mod_32 by lia. apply Z.mod_pos_bound. lia.
  - assert (E : Z.rem (mb_nextq e + 1) MBOXSLOTS = (h + Z.of_nat (length (l ++ [m]))) mod 32) by (rewrite rem_mod_32, Hh2, length_app by lia; cbn [length]; rewrite Zplus_mod_idemp_l; f_equal; lia).
    destruct (l ++ [m]) eqn:El; [by destruct l|]. done.
  - intros i x Hi. destruct (Nat.lt_ge_cases i (length l)) as [Hlt'|Hge].
    + rewrite lookup_app_l in Hi by lia. assert (Eh : h = mb_head e) by (unfold h; destruct l; [cbn in Hlt'; lia|]; rewrite (proj2 (Z.eqb_neq _ _)) by lia; done). rewrite list_lookup_insert_ne; [rewrite Eh; by apply Hd|].
      intros E. apply Z2Nat.inj in E; [|lia|apply Z.mod_pos_bound; lia]. rewrite Hh2 in E. pose proof (Z.div_mod (h + Z.of_nat (length l)) 32 ltac:(lia)). pose proof (Z.div_mod (h + Z.of_nat i) 32 ltac:(lia)). lia.
    + rewrite lookup_app_r in Hi by lia. destruct (i - length l)%nat as [|j] eqn:Ej; [|by destruct j]. injection Hi as <-. replace i with (length l) by lia. rewrite <- Hh2, list_lookup_insert_eq; [done|]. lia.
Qed.

Definition fetched (e : sys_mbox_entry) : sys_mbox_entry :=
  let head := Z.rem (mb_head e + 1) MBOXSLOTS in
  mkMb (mb_freed e) (if head =? mb_nextq e then -1 else head) (mb_nextq e) (mb_msg e) (mb_queued e) (mb_free e).

Lemma ring_fetch e m l : ring e (m :: l) -> mb_head e <> -1 /\ mb_msg e !! Z.to_nat (mb_head e) = Some m /\ ring (fetched e) l.
Proof.
  intros [Hs Hl Hn [Hh En] Hd]. split; [lia|]. pose proof (Hd 0%nat m eq_refl) as H0. cbn [Z.of_nat] in H0. rewrite Z.add_0_r, Z.mod_small in H0 by lia. split; [done|]. cbn [length] in *.
  set (h := Z.rem (mb_head e + 1) MBOXSLOTS). assert (Eh : h = (mb_head e + 1) mod 32) by (apply rem_mod_32; lia). pose proof (Z.mod_pos_bound (mb_head e + 1) 32 ltac:(lia)).
  assert (En' : mb_nextq e = (h + Z.of_nat (length l)) mod 32) by (rewrite En, Eh, Zplus_mod_idemp_l; f_equal; lia). assert (Hz : h = mb_nextq e <-> l = []).
  { split; [|intros ->; cbn [length Z.of_nat] in En'; rewrite Z.add_0_r, Z.mod_small in En' by lia; done]. intros E. rewrite <- E in En'. destruct l as [|x l]; [done|]. pose proof (Z.div_mod (h + Z.of_nat (length (x :: l))) 32 ltac:(lia)). cbn [length] in *. lia. }
  constructor; unfold fetched; cbn [mb_msg mb_head mb_nextq]; fold h; [done|lia|done| |].
  - destruct l as [|x l]; [by rewrite (proj2 (Z.eqb_eq h (mb_nextq e)) (proj2 Hz eq_refl))|]. rewrite (proj2 (Z.eqb_neq h (mb_nextq e))) by (intros E; by apply Hz in E). split; [lia|done].
  - intros i x Hi. destruct l as [|y l]; [done|]. rewrite (proj2 (Z.eqb_neq h (mb_nextq e))) by (intros E; by apply Hz in E). rewrite <- (Hd (S i) x Hi). rewrite Eh, Zplus_mod_idemp_l. do 2 f_equal. f_equal. lia.
Qed.

(** ** The invariant of semaphores and mailboxes *)

(** Semaphore [x] counts the messages ([b]) or the free slots of mailbox [i]. *)
Definition owns (s : sys) (x i : Z) (b : bool) : Prop :=
  exists e, mboxes s !! i = Some e /\ mb_freed e = false /\ (if b then mb_queued e else mb_free e) = x.

Definition live (s : sys) (x gen : Z) : Prop := exists e, sems s !! x = Some e /\ sem_freed e = false /\ sem_gen e = gen.

Definition counts (s : sys) (x n : Z) : Prop := exists e, sems s !! x = Some e /\ sem_freed e = false /\ sem_counter e = n.

Record base_ok (s : sys) (qs : queues) : Prop := {
  b_nodup : NoDup (sem_free s);
  b_freed : forall x, x ∈ sem_free s -> exists e, sems s !! x = Some e /\ sem_freed e = true;
  b_range : forall x e, sems s !! x = Some e -> 0 <= x /\ 0 <= sem_counter e < 65536 /\ 0 <= sem_waiters e <= 1;
  b_slots : forall i e, mboxes s !! i = Some e -> length (mb_msg e) = 32%nat;
  b_live : forall i, is_Some (qs !! i) <-> exists e, mboxes s !! i = Some e /\ mb_freed e = false;
  b_ring : forall i e l, mboxes s !! i = Some e -> qs !! i = Some l -> ring e l /\ counts s (mb_queued e) (Z.of_nat (length l)) /\ counts s (mb_free e) (32 - Z.of_nat (length l));
  b_owner : forall x i j b b', owns s x i b -> owns s x j b' -> i = j /\ b = b';
  b_events : accepts (events s) qs
}.

(** What a step that frees the semaphores [X] keeps for the others. *)
Record stable (X : list Z) (s s' : sys) : Prop := {
  st_live : forall x gen, x ∉ X -> live s x gen -> live s' x gen;
  st_keep : forall x i b, x ∉ X -> owns s x i b -> owns s' x i b;
  st_new : forall x i b gen, x ∉ X -> live s x gen -> owns s' x i b -> owns s x i b;
  st_ticks : (ticks s <= ticks s')%nat
}.

Lemma stable_refl s : stable [] s s.
Proof. by constructor. Qed.

Lemma stable_trans X s1 s2 s3 : stable X s1 s2 -> stable X s2 s3 -> stable X s1 s3.
Proof.
  intros [L1 K1 N1 T1] [L2 K2 N2 T2]. constructor; [by eauto|by eauto| |lia]. intros x i b gen Hx Hl Ho. eapply N1; [done|done|]. eapply N2; [done|by apply L1|done].
Qed.

(** A step that touches neither semaphores nor mailboxes. *)
Lemma same_base s s' qs : sems s' = sems s -> sem_free s' = sem_free s -> mboxes s' = mboxes s -> events s' = events s -> base_ok s qs -> base_ok s' qs.
Proof. intros E1 E2 E3 E4 []. constructor; unfold owns, counts in *; rewrite ?E1, ?E2, ?E3, ?E4; done. Qed.

Lemma same_stable s s' : sems s' = sems s -> mboxes s' = mboxes s -> (ticks s <= ticks s')%nat -> stable [] s s'.
Proof. intros E1 E2 E3. constructor; unfold owns, live; rewrite ?E1, ?E2; done. Qed.

(** A semaphore changes, but not whether it is free: its count only when no
    mailbox owns it. *)
Lemma sem_change s qs x e e' : base_ok s qs -> sems s !! x = Some e -> sem_freed e' = sem_freed e -> sem_gen e' = sem_gen e -> 0 <= sem_counter e' < 65536 -> 0 <= sem_waiters e' <= 1 ->
  (sem_counter e' = sem_counter e \/ forall i b, ~ owns s x i b) -> let s' := set_sems (<[x := e']> (sems s)) s in base_ok s' qs /\ stable [] s s'.
Proof.
  intros H Hx Ef Eg Hc Hw Ho s'. pose proof H as []. split.
  - constructor; try done; cbn [sems sem_free mboxes events s' set_sems] in *.
    + intros y Hy. destruct (b_freed0 y Hy) as (ey & Hey & Hf). destruct (decide (y = x)) as [->|]; [|by exists ey; rewrite lookup_insert_ne]. rewrite lookup_insert_eq. exists e'. split; [done|congruence].
    + intros y ey. destruct (decide (y = x)) as [->|]; [rewrite lookup_insert_eq; intros [= <-]; pose proof (b_range0 x e Hx); lia|rewrite lookup_insert_ne by done; apply b_range0].
    + intros i m l Hm Hl. destruct (b_ring0 i m l Hm Hl) as (H1 & H2 & H3). split; [done|]. assert (Hown : forall b n, counts s (if (b : bool) then mb_queued m else mb_free m) n -> counts s' (if (b : bool) then mb_queued m else mb_free m) n).
      { intros b n (ey & Hey & Hfy & Hcy). unfold counts, s'. cbn [sems set_sems]. destruct (decide ((if b then mb_queued m else mb_free m) = x)) as [Eb|]; [|exists ey; by rewrite lookup_insert_ne].
        rewrite Eb in *. rewrite lookup_insert_eq. rewrite Hx in Hey. injection Hey as <-. exists e'. split; [done|]. split; [congruence|]. destruct Ho as [Ho|Ho]; [congruence|]. destruct (Ho i b). exists m. split; [done|]. split; [|done].  destruct (proj1 (b_live0 i) ltac:(by eexists)) as (m' & Hm' & Hmf). congruence. }
      split; [by apply (Hown true)|by apply (Hown false)].
  - constructor; try done. intros y gen _ (ey & Hey & Hfy & Hgy). unfold live, s'. cbn [sems set_sems]. destruct (decide (y = x)) as [->|]; [|exists ey; by rewrite lookup_insert_ne]. rewrite lookup_insert_eq. exists e'. split; [done|]. split; congruence.
Qed.

(** A message goes into a mailbox or out of it. *)
Lemma mbox_change s s' qs i e e' l l' ev : base_ok s qs -> mboxes s !! i = Some e -> qs !! i = Some l -> ring e' l' -> mb_freed e' = false -> mb_queued e' = mb_queued e -> mb_free e' = mb_free e ->
  mboxes s' = <[i := e']> (mboxes s) -> sem_free s' = sem_free s -> events s' = events s ++ [ev] -> ticks s' = ticks s -> accept qs ev (<[i := l']> qs) ->
  counts s' (mb_queued e) (Z.of_nat (length l')) -> counts s' (mb_free e) (32 - Z.of_nat (length l')) ->
  (forall x y, sems s !! x = Some y -> exists y', sems s' !! x = Some y' /\ sem_freed y' = sem_freed y /\ sem_gen y' = sem_gen y) ->
  (forall x y, sems s' !! x = Some y -> 0 <= x /\ 0 <= sem_counter y < 65536 /\ 0 <= sem_waiters y <= 1) ->
  (forall x, x <> mb_queued e -> x <> mb_free e -> sems s' !! x = sems s !! x) -> base_ok s' (<[i := l']> qs) /\ stable [] s s'.
Proof.
  intros H He Hl Hr Hf Eq Efr Em Es Eev Et Hacc Cq Cf Hsem Hrg Hoth. pose proof H as []. destruct (proj1 (b_live0 i) ltac:(by eexists)) as (e0 & He0 & Hf0). assert (e0 = e) as -> by congruence.
  assert (Hown : forall x j b, owns s' x j b <-> owns s x j b).
  { intros x j b. unfold owns. rewrite Em. destruct (decide (j = i)) as [->|]; [|by rewrite lookup_insert_ne]. rewrite lookup_insert_eq. split.
    - intros (y & [= <-] & _ & Hy). exists e. split; [done|]. split; [done|]. destruct b; congruence.
    - intros (y & Hy & _ & Hb). exists e'. split; [done|]. split; [done|]. destruct b; congruence. }
  split; constructor.
  - by rewrite Es.
  - rewrite Es. intros x Hx. destruct (b_freed0 x Hx) as (y & Hy & Hfy). destruct (Hsem x y Hy) as (y' & Hy' & E & _). exists y'. split; [done|congruence].
  - exact Hrg.
  - intros j y. rewrite Em. destruct (decide (j = i)) as [->|]; [rewrite lookup_insert_eq; intros [= <-]; apply Hr|rewrite lookup_insert_ne by done; apply b_slots0].
  - intros j. rewrite Em. destruct (decide (j = i)) as [->|]; [|rewrite !lookup_insert_ne by done; apply b_live0]. rewrite !lookup_insert_eq. split; [intros _; by exists e'|by eexists].
  - intros j y lj. rewrite Em. destruct (decide (j = i)) as [->|Hne].
    + rewrite !lookup_insert_eq. intros [= <-] [= <-]. rewrite Eq, Efr. done.
    + rewrite !lookup_insert_ne by done. intros Hy Hlj. destruct (b_ring0 j y lj Hy Hlj) as (G1 & G2 & G3). split; [done|]. destruct (proj1 (b_live0 j) ltac:(by eexists)) as (y0 & Hy0 & Hfy). assert (y0 = y) as -> by congruence.
      assert (Hd : forall b b', (if (b : bool) then mb_queued y else mb_free y) <> (if (b' : bool) then mb_queued e else mb_free e)).
      { intros b b' E. destruct (b_owner0 (if b then mb_queued y else mb_free y) j i b b') as [Eji _]; [by exists y|by exists e|done]. }
      assert (Hk : forall b n, counts s (if (b : bool) then mb_queued y else mb_free y) n -> counts s' (if (b : bool) then mb_queued y else mb_free y) n).
      { intros b n Hc. unfold counts. rewrite Hoth; [done|apply (Hd b true)|apply (Hd b false)]. }
      split; [by apply (Hk true)|by apply (Hk false)].
  - intros x j j' b b'. rewrite !Hown. apply b_owner0.
  - rewrite Eev. by econstructor.
  - intros x gen _ (y & Hy & Hfy & Hg). destruct (Hsem x y Hy) as (y' & Hy' & E1 & E2). exists y'. split; [done|]. split; congruence.
  - intros x j b _. apply Hown.
  - intros x j b gen _ _. apply Hown.
  - by rewrite Et.
Qed.

(** ** Threads that wait *)

Section Spec.
Context (clock : nat -> Z) (sems_addr cleanup entry : Z).
Hypothesis clock_mono : forall i j, (i <= j)%nat -> clock i <= clock j.
Hypothesis clock_range : forall i, 0 <= clock i < SYS_ARCH_TIMEOUT.
Hypothesis addr_pos : 0 < sems_addr.

Notation time s := (clock (ticks s)).

Definition wait_ok (s : sys) (w : waiting) : Prop :=
  live s (w_sem w) (w_gen w) /\ 0 <= w_sem w /\ 0 <= w_waited w /\ 0 <= w_tm w < 4294967296 /\
  match w_after w with
  | ADone => forall i b, ~ owns s (w_sem w) i b
  | APost _ i _ => owns s (w_sem w) i false /\ w_tm w = 0
  | AFetch i => owns s (w_sem w) i true
  end.

(** The word was seen with the count 0 and [waiters] set. *)
Definition place_ok (s : sys) (p : place) : Prop :=
  match p with
  | InWait w a val _ _ => wait_ok s w /\ w_waited w <= a <= time s /\ val = 65536
  | InClient => True
  end.

Definition control_ok (s : sys) (c : control) : Prop :=
  match c with
  | CSem w => wait_ok s w /\ w_waited w <= time s
  | CWait w a val msec st _ => place_ok s (InWait w a val msec st)
  | _ => True
  end.

Record inv (s : sys) (l k : list Z) (qs : queues) : Prop := {
  i_base : base_ok s qs;
  i_threads : threads_ok (sy_threads s) l k;
  i_cur : cur_tc (sy_threads s) <> 0;
  i_places : forall a p, a ∈ l -> jbs (tcs (sy_threads s)) !! a = Some (at_setjmp p) -> place_ok s p
}.

Definition waits_in (X : list Z) (p : place) : Prop := match p with InWait w _ _ _ _ => w_sem w ∈ X | InClient => False end.

Lemma wait_stable X s s' w : stable X s s' -> w_sem w ∉ X -> wait_ok s w -> wait_ok s' w.
Proof.
  intros [L Kp N _] Hn (H1 & H2 & H3 & H4 & H5). split; [by apply L|]. split; [done|]. split; [done|]. split; [done|]. destruct (w_after w) as [|b i m|i].
  - intros i b Ho. apply (H5 i b). by eapply N.
  - destruct H5 as [H5 H6]. split; [by apply Kp|done].
  - by apply Kp.
Qed.

Lemma time_mono X s s' : stable X s s' -> time s <= time s'.
Proof. intros [_ _ _ T]. by apply clock_mono. Qed.

Lemma place_stable X s s' p : stable X s s' -> ~ waits_in X p -> place_ok s p -> place_ok s' p.
Proof.
  intros Hs Hn. destruct p as [w a val msec st|]; [|done]. intros (H1 & H2 & H3). split; [by apply (wait_stable X s)|]. pose proof (time_mono X s s' Hs). split; [lia|done].
Qed.

(** A step keeps the invariant when it keeps that of the mailboxes and the
    places where threads wait. *)
Lemma inv_step X s s' l k qs qs' : inv s l k qs -> base_ok s' qs' -> stable X s s' -> threads_ok (sy_threads s') l k -> cur_tc (sy_threads s') = cur_tc (sy_threads s) ->
  jbs (tcs (sy_threads s')) = jbs (tcs (sy_threads s)) -> (forall a p, a ∈ l -> jbs (tcs (sy_threads s)) !! a = Some (at_setjmp p) -> ~ waits_in X p) -> inv s' l k qs'.
Proof.
  intros [Hb Ht Hc Hp] Hb' Hs Ht' Ec Ej Hx. constructor; [done|done|by rewrite Ec|]. intros a p Ha Hap. rewrite Ej in Hap. apply (place_stable X s); [done|by eapply Hx|by eapply Hp].
Qed.

Lemma waits_nil p : ~ waits_in [] p.
Proof. destruct p; cbn; [apply not_elem_of_nil|tauto]. Qed.

Lemma signal_run s l k x e : threads_ok (sy_threads s) l k -> sems s !! x = Some e -> sem_freed e = false ->
  exists m', let t' := set_tcs m' (sy_threads s) in
    sys_sem_signal sems_addr x s = SRet tt (set_threads t' (set_sems (<[x := mkSem false (sem_gen e) (u16 (sem_counter e + 1)) 0]> (sems s)) s)) /\ threads_ok t' l k /\ jbs m' = jbs (tcs (sy_threads s)).
Proof.
  intros Ht He Hf. unfold sys_sem_signal, mbind, S_bind. unfold sem_at at 1. rewrite He, Hf. cbn [negb sassert]. unfold mret, S_ret, set_sem, smodify. destruct (Z.eqb_spec (sem_waiters e) 0) as [E|E]; cbn [negb].
  - exists (tcs (sy_threads s)). rewrite E. replace (set_tcs (tcs (sy_threads s)) (sy_threads s)) with (sy_threads s) by (by destruct (sy_threads s)). split; [|done]. by destruct s.
  - destruct (wakeup_jbs (sem_addr sems_addr x) (sy_threads s) l k Ht) as (m' & E1 & Ht' & Ej). exists m'. unfold lift. cbn [sy_threads set_sems]. rewrite E1. done.
Qed.

(** *** The rest of posting and fetching, after the wait *)

Lemma owner_entry s qs x i b : base_ok s qs -> owns s x i b -> exists e l, mboxes s !! i = Some e /\ mb_freed e = false /\ qs !! i = Some l /\ (if b then mb_queued e else mb_free e) = x /\
  ring e l /\ counts s (mb_queued e) (Z.of_nat (length l)) /\ counts s (mb_free e) (32 - Z.of_nat (length l)) /\ mb_queued e <> mb_free e.
Proof.
  intros [] (e & He & Hf & Hx). destruct (proj2 (b_live0 i) ltac:(by exists e)) as [l Hl]. destruct (b_ring0 i e l He Hl) as (H1 & H2 & H3). exists e, l. repeat (split; [done|]).
  intros E. destruct (b_owner0 (mb_queued e) i i true false) as [_ ?]; [by exists e|by exists e|done].
Qed.

(** The count of a semaphore [x] of a mailbox has gone down, and the other
    semaphore [y] is signalled while the mailbox changes. *)
Lemma transfer_run s l k qs x y ex ey i e e' l0 l' ev : inv s l k qs -> sems s !! x = Some ex -> sem_freed ex = false -> sems s !! y = Some ey -> sem_freed ey = false -> x <> y -> 0 < sem_counter ex ->
  mboxes s !! i = Some e -> qs !! i = Some l0 -> ring e' l' -> mb_freed e' = false -> mb_queued e' = mb_queued e -> mb_free e' = mb_free e ->
  (x = mb_queued e /\ y = mb_free e /\ sem_counter ex - 1 = Z.of_nat (length l') /\ sem_counter ey + 1 = 32 - Z.of_nat (length l') \/
   x = mb_free e /\ y = mb_queued e /\ sem_counter ex - 1 = 32 - Z.of_nat (length l') /\ sem_counter ey + 1 = Z.of_nat (length l')) ->
  accept qs ev (<[i := l']> qs) ->
  let s1 := set_sems (<[x := mkSem (sem_freed ex) (sem_gen ex) (sem_counter ex - 1) (sem_waiters ex)]> (sems s)) s in
  let s2 := set_events (events s1 ++ [ev]) (set_mboxes (<[i := e']> (mboxes s1)) s1) in
  exists s', sys_sem_signal sems_addr y s2 = SRet tt s' /\ inv s' l k (<[i := l']> qs) /\ stable [] s s' /\ events s' = events s ++ [ev].
Proof.
  intros Hi Hx Hxf Hy Hyf Hxy Hc He Hl Hr Hef Eq Ef Hcnt Hacc s1 s2. pose proof Hi as [Hb Ht Hcur Hpl]. pose proof (ring_len _ _ Hr) as Hlen. pose proof (b_range _ _ Hb x ex Hx) as Rx. pose proof (b_range _ _ Hb y ey Hy) as Ry.
  destruct (signal_run s2 l k y ey Ht) as (m' & E & Ht' & Ej); [cbn [s2 s1 sems set_sems set_mboxes set_events]; by rewrite lookup_insert_ne|done|]. cbv zeta in E. rewrite u16_small in E by lia. set (s' := set_threads _ _) in E. exists s'. split; [exact E|].
  assert (Hs : sems s' = <[y := mkSem false (sem_gen ey) (sem_counter ey + 1) 0]> (<[x := mkSem (sem_freed ex) (sem_gen ex) (sem_counter ex - 1) (sem_waiters ex)]> (sems s))) by done.
  assert (Hsx : sems s' !! x = Some (mkSem (sem_freed ex) (sem_gen ex) (sem_counter ex - 1) (sem_waiters ex))) by (rewrite Hs, lookup_insert_ne by done; by rewrite lookup_insert_eq).
  assert (Hsy : sems s' !! y = Some (mkSem false (sem_gen ey) (sem_counter ey + 1) 0)) by (rewrite Hs; by rewrite lookup_insert_eq).
  destruct (mbox_change s s' qs i e e' l0 l' ev) as [Hb' Hst]; try done.
  - destruct Hcnt as [(-> & -> & C1 & C2)|(-> & -> & C1 & C2)]; by eexists; (split; [eassumption|]).
  - destruct Hcnt as [(-> & -> & C1 & C2)|(-> & -> & C1 & C2)]; by eexists; (split; [eassumption|]).
  - intros z ez Hz. rewrite Hs. destruct (decide (z = y)) as [->|]; [rewrite lookup_insert_eq; eexists; split; [done|]; cbn; split; congruence|]. rewrite lookup_insert_ne by done.
    destruct (decide (z = x)) as [->|]; [rewrite lookup_insert_eq; eexists; split; [done|]; cbn; split; congruence|]. rewrite lookup_insert_ne by done. by exists ez.
  - intros z ez. rewrite Hs. destruct (decide (z = y)) as [->|]; [rewrite lookup_insert_eq; intros [= <-]; cbn; lia|]. rewrite lookup_insert_ne by done.
    destruct (decide (z = x)) as [->|]; [rewrite lookup_insert_eq; intros [= <-]; cbn; lia|]. rewrite lookup_insert_ne by done. apply (b_range _ _ Hb).
  - intros z Hz1 Hz2. rewrite Hs. destruct Hcnt as [(-> & -> & _)|(-> & -> & _)]; by rewrite !lookup_insert_ne.
  - split; [|split; [exact Hst|done]]. apply (inv_step [] s s' l k qs); try done. intros a p _ _. apply waits_nil.
Qed.

Lemma post_run s l k qs f ef asserted i m : inv s l k qs -> owns s f i false -> sems s !! f = Some ef -> sem_freed ef = false -> 0 < sem_counter ef ->
  let s1 := set_sems (<[f := mkSem (sem_freed ef) (sem_gen ef) (sem_counter ef - 1) (sem_waiters ef)]> (sems s)) s in
  exists s' l0, post_rest sems_addr asserted i m s1 = SRet 0 s' /\ qs !! i = Some l0 /\ inv s' l k (<[i := l0 ++ [m]]> qs) /\ stable [] s s' /\ events s' = events s ++ [Posted i m].
Proof.
  intros Hi Ho Hf Hff Hc s1. destruct (owner_entry s qs f i false (i_base _ _ _ _ Hi) Ho) as (e & l0 & He & Hef & Hl & Ex & Hr & (eq & Hq & Hqf & Hqc) & (ef' & Hf' & _ & Hfc) & Hne). rewrite Ex in Hf'. assert (ef' = ef) as -> by congruence. rewrite Ex in *.
  assert (Hlt : (length l0 < 32)%nat) by lia. unfold post_rest, trypost_rest, mbind, S_bind. unfold mbox_at at 1. cbn [s1 mboxes set_sems]. rewrite He. rewrite (proj2 (Z.eqb_neq _ _)) by (by apply (ring_not_full e l0)). unfold set_mbox, emit, smodify. cbv zeta. fold (posted e m).
  destruct (transfer_run s l k qs f (mb_queued e) ef eq i e (posted e m) l0 (l0 ++ [m]) (Posted i m)) as (s' & E & Hi' & Hst & Hev); try done.
  - by apply ring_post.
  - right. rewrite length_app. cbn [length]. split; [done|]. split; [done|]. lia.
  - constructor; [done|]. unfold MBOXSLOTS. lia.
  - fold s1 in E. cbn [events set_mboxes]. rewrite E. unfold mret, S_ret. cbn [Z.eqb]. rewrite orb_true_r. cbn [sassert]. exists s', l0. split; [done|]. split; [done|]. done.
Qed.

Lemma fetch_run s l k qs q eq i waited : inv s l k qs -> owns s q i true -> sems s !! q = Some eq -> sem_freed eq = false -> 0 < sem_counter eq -> waited <> SYS_ARCH_TIMEOUT ->
  let s1 := set_sems (<[q := mkSem (sem_freed eq) (sem_gen eq) (sem_counter eq - 1) (sem_waiters eq)]> (sems s)) s in
  exists s' m l0, fetch_rest sems_addr i waited s1 = SRet waited s' /\ qs !! i = Some (m :: l0) /\ inv s' l k (<[i := l0]> qs) /\ stable [] s s' /\ events s' = events s ++ [Fetched i m].
Proof.
  intros Hi Ho Hq Hqf Hc Hw s1. destruct (owner_entry s qs q i true (i_base _ _ _ _ Hi) Ho) as (e & l0 & He & Hef & Hl & Ex & Hr & (eq' & Hq' & _ & Hqc) & (ef & Hf & Hff & Hfc) & Hne). rewrite Ex in Hq'. assert (eq' = eq) as -> by congruence. rewrite Ex in *.
  destruct l0 as [|m l0]; [cbn in Hqc; lia|]. destruct (ring_fetch e m l0 Hr) as (Hh & Hm & Hr'). cbn [length] in *. pose proof (ring_len _ _ Hr'). unfold fetch_rest, mbind, S_bind. rewrite (proj2 (Z.eqb_neq waited _)) by done. unfold mbox_at at 1. cbn [s1 mboxes set_sems]. rewrite He. cbv zeta.
  rewrite (proj2 (Z.eqb_neq _ _)) by done. unfold set_mbox, emit, smodify. rewrite Hm. cbn [default from_option id]. fold (fetched e).
  destruct (transfer_run s l k qs q (mb_free e) eq ef i e (fetched e) (m :: l0) l0 (Fetched i m)) as (s' & E & Hi' & Hst & Hev); try done.
  - left. split; [done|]. split; [done|]. lia.
  - by constructor.
  - fold s1 in E. cbn [mboxes set_events]. change (set_mboxes (<[i := fetched e]> (mboxes s1)) (set_events (events s1 ++ [Fetched i m]) s1)) with (set_events (events s1 ++ [Fetched i m]) (set_mboxes (<[i := fetched e]> (mboxes s1)) s1)). rewrite E. by exists s', m, l0.
Qed.

(** *** The loops *)

Lemma base_round s qs w e : base_ok s qs -> sems s !! w_sem w = Some e -> sem_freed e = false -> sem_counter e = 0 ->
  let s' := set_sems (<[w_sem w := mkSem (sem_freed e) (sem_gen e) (sem_counter e) 1]> (sems s)) s in base_ok s' qs /\ stable [] s s'.
Proof. intros Hb He Hf Hc. apply (sem_change s qs (w_sem w) e); cbn; auto; lia. Qed.

Lemma same_inv s s' l k qs : inv s l k qs -> sems s' = sems s -> sem_free s' = sem_free s -> mboxes s' = mboxes s -> events s' = events s -> (ticks s <= ticks s')%nat ->
  threads_ok (sy_threads s') l k -> cur_tc (sy_threads s') = cur_tc (sy_threads s) -> jbs (tcs (sy_threads s')) = jbs (tcs (sy_threads s)) -> inv s' l k qs.
Proof.
  intros Hi E1 E2 E3 E4 E5 Ht Ec Ej. pose proof Hi as [Hb _ _ _]. apply (inv_step [] s s' l k qs); try done; [by apply (same_base s)|by apply same_stable|]. intros a p _ _. apply waits_nil.
Qed.

Lemma finish_timeout s l k qs w : inv s l k qs -> (forall b i m, w_after w <> APost b i m) -> finish sems_addr (w_after w) SYS_ARCH_TIMEOUT s = SRet (CClient SYS_ARCH_TIMEOUT) s.
Proof. intros Hi Hp. unfold finish, mbind, S_bind. destruct (w_after w) as [|b i m|i]; [done|by destruct (Hp b i m)|done]. Qed.

Lemma take_run s l k qs w e : inv s l k qs -> wait_ok s w -> w_waited w <> SYS_ARCH_TIMEOUT -> sems s !! w_sem w = Some e -> 0 < sem_counter e ->
  let s1 := set_sems (<[w_sem w := mkSem (sem_freed e) (sem_gen e) (sem_counter e - 1) (sem_waiters e)]> (sems s)) s in
  exists s' r qs', finish sems_addr (w_after w) (w_waited w) s1 = SRet (CClient r) s' /\ inv s' l k qs'.
Proof.
  intros Hi ((e0 & He0 & Hf & Hg) & _ & _ & _ & Ha) Hw He Hc s1. assert (e0 = e) as -> by congruence. pose proof (b_range _ _ (i_base _ _ _ _ Hi) _ _ He) as Hr. unfold finish, mbind, S_bind. destruct (w_after w) as [|b i m|i].
  - exists s1, (w_waited w), qs. split; [done|]. destruct (sem_change s qs (w_sem w) e (mkSem (sem_freed e) (sem_gen e) (sem_counter e - 1) (sem_waiters e)) (i_base _ _ _ _ Hi) He) as [Hb' Hst]; cbn; try done; try lia; [by right|].
    pose proof Hi as [_ Ht Hcur _]. apply (inv_step [] s s1 l k qs); try done. intros a p _ _. apply waits_nil.
  - destruct (post_run s l k qs (w_sem w) e b i m Hi (proj1 Ha) He Hf Hc) as (s' & l0 & E & _ & Hi' & _). fold s1 in E. rewrite E. by exists s', 0, (<[i := l0 ++ [m]]> qs).
  - destruct (fetch_run s l k qs (w_sem w) e i (w_waited w) Hi Ha He Hf Hc Hw) as (s' & m & l0 & E & _ & Hi' & _). fold s1 in E. rewrite E. by exists s', (w_waited w), (<[i := l0]> qs).
Qed.

Lemma sem_round_run s l k qs w : inv s l k qs -> control_ok s (CSem w) -> exists c s' qs', sem_round clock sems_addr w s = SRet c s' /\ inv s' l k qs' /\ control_ok s' c.
Proof.
  intros Hi [Hw Ht]. pose proof Hw as ((e & He & Hf & Hg) & Hx & Hw0 & Htm & Ha). pose proof (clock_range (ticks s)). pose proof Hi as [Hb Hth Hcur _]. unfold sem_round.
  destruct ((w_tm w =? 0) || (w_waited w <? w_tm w)) eqn:Eloop.
  2: { rewrite (finish_timeout s l k qs w Hi); [by exists (CClient SYS_ARCH_TIMEOUT), s, qs|]. intros b i m E. rewrite E in Ha. destruct Ha as [_ Ha]. by rewrite Ha in Eloop. }
  unfold mbind, S_bind. unfold sem_at at 1. rewrite He. destruct (Z.ltb_spec 0 (sem_counter e)) as [Hc|Hc].
  { destruct (take_run s l k qs w e Hi Hw ltac:(lia) He Hc) as (s' & r & qs' & E & Hi'). unfold set_sem, smodify. rewrite E. by exists (CClient r), s', qs'. }
  destruct (Z.eqb_spec (w_tm w) SYS_ARCH_NOWAIT) as [En|En].
  { rewrite (finish_timeout s l k qs w Hi); [by exists (CClient SYS_ARCH_TIMEOUT), s, qs|]. intros b i m E. rewrite E in Ha. destruct Ha as [_ Ha]. by rewrite Ha in En. }
  assert (Hc0 : sem_counter e = 0) by (pose proof (b_range _ _ Hb _ _ He); lia). unfold sys_time_msec, set_sem, mbind, S_bind, sget, smodify, mret, S_ret.
  set (s1 := set_ticks (S _) (set_sems _ _)). destruct (wait_begin_run (sem_addr sems_addr (w_sem w)) (sy_threads s) l k Hth Hcur) as (m' & E & Hth' & Ej). unfold lift. change (sy_threads s1) with (sy_threads s). rewrite E.
  eexists _, _, qs. split; [reflexivity|]. set (s' := set_threads _ s1). destruct (base_round s qs w e Hb He Hf Hc0) as [Hb' Hst]. cbv zeta in Hb', Hst. set (s0 := set_sems _ s) in Hb', Hst.
  assert (Hi0 : inv s0 l k qs) by (apply (inv_step [] s s0 l k qs); try done; intros a p _ _; apply waits_nil).
  assert (Hi' : inv s' l k qs) by (apply (same_inv s0 s' l k qs Hi0); try done; cbn; lia). split; [done|]. assert (Hst' : stable [] s s'). { apply (stable_trans _ s s0 s'); [done|]. apply same_stable; [done|done|]. cbn. lia. }
  split; [by apply (wait_stable [] s); [|apply not_elem_of_nil|]|]. split; [|unfold sem_v; cbn; by rewrite Hc0]. split; [done|]. cbn. apply clock_mono. lia.
Qed.

Lemma tick_run s l k qs : inv s l k qs -> sys_time_msec clock s = SRet (time s) (set_ticks (S (ticks s)) s) /\ inv (set_ticks (S (ticks s)) s) l k qs /\ stable [] s (set_ticks (S (ticks s)) s).
Proof.
  intros Hi. pose proof Hi as [_ Ht _ _]. split; [done|]. split; [|apply same_stable; [done|done|cbn; lia]]. apply (same_inv s); try done. cbn. lia.
Qed.

Lemma resume_run s l k qs jb : inv s l k qs -> (forall p, jb = at_setjmp p -> place_ok s p) -> exists c s', resume clock jb s = SRet c s' /\ inv s' l k qs /\ control_ok s' c.
Proof.
  intros Hi Hp. destruct jb as [esp|[w a val msec st|]]; [by exists CEntry, s| |by exists (CClient 0), s]. specialize (Hp _ eq_refl). destruct (tick_run s l k qs Hi) as (E & Hi' & Hst).
  unfold resume, mbind, S_bind. rewrite E. eexists _, _. split; [reflexivity|]. split; [done|]. apply (place_stable [] s); [done|apply waits_nil|done].
Qed.

Lemma yield_ok s l k qs here : inv s l k qs -> place_ok s here -> exists c s' l', yield clock here s = SRet c s' /\ inv s' l' k qs /\ control_ok s' c.
Proof.
  intros Hi Hh. pose proof Hi as [Hb Ht Hcur Hp]. unfold yield, mbind, S_bind. destruct l as [|n l].
  - unfold lift. rewrite (yield_alone here _ k Ht). replace (set_threads (sy_threads s) s) with s by (by destruct s). destruct (resume_run s [] k qs (at_setjmp here) Hi) as (c & s' & E & H); [by intros p [= <-]|]. by exists c, s', [].
  - destruct (yield_next here _ n l k Ht Hcur) as (t' & jb & E & Hjb & Ec & Hn & Ht' & Ej). unfold lift. rewrite E. set (s1 := set_threads t' s). assert (Hst : stable [] s s1) by (apply same_stable; done).
    assert (Hi1 : inv s1 (l ++ [cur_tc (sy_threads s)]) k qs).
    { constructor; [by apply (same_base s)|done|by cbn; rewrite Ec|]. intros a p Ha Hap. cbn [sy_threads set_threads s1] in Hap. rewrite Ej in Hap. apply (place_stable [] s); [done|apply waits_nil|]. destruct (decide (a = cur_tc (sy_threads s))) as [->|Hne].
      - rewrite lookup_insert_eq in Hap. by injection Hap as <-.
      - rewrite lookup_insert_ne in Hap by done. apply (Hp a); [|done]. apply elem_of_app in Ha as [Ha|Ha%list_elem_of_singleton]; [by right|done]. }
    destruct (resume_run s1 _ k qs jb Hi1) as (c & s' & E' & H); [|by exists c, s', (l ++ [cur_tc (sy_threads s)])]. intros p ->. apply (place_stable [] s); [done|apply waits_nil|]. apply (Hp n); [by left|done].
Qed.

Lemma sem_addr_pos x : 0 <= x -> sem_addr sems_addr x <> 0.
Proof. unfold sem_addr. lia. Qed.

Lemma wait_round_run s l k qs w a val msec st p : inv s l k qs -> control_ok s (CWait w a val msec st p) ->
  exists c s' l', wait_round clock sems_addr w a val msec st p s = SRet c s' /\ inv s' l' k qs /\ control_ok s' c /\
    (forall e, sems s !! w_sem w = Some e -> 0 < sem_counter e -> exists waited, c = CSem (mkWait (w_sem w) (w_tm w) waited (w_gen w) (w_after w)) /\ sems s' = sems s /\ mboxes s' = mboxes s /\ events s' = events s).
Proof.
  intros Hi Hc. pose proof Hc as (Hw & Ha & ->). pose proof Hw as ((e & He & Hf & Hg) & Hx & Hw0 & Htm & Haf). pose proof Hi as [Hb Ht Hcur Hp]. unfold wait_round, mbind, S_bind. unfold sem_at at 1. rewrite He.
  destruct (wait_test_run (sem_addr sems_addr (w_sem w)) 65536 msec st p (sem_v e) _ l k Ht Hcur) as (b & Eb & Hbf). unfold lift at 1. rewrite Eb. replace (set_threads (sy_threads s) s) with s by (by destruct s).
  pose proof (b_range _ _ Hb _ _ He) as Hr. assert (Hpos : 0 < sem_counter e -> b = false). { intros Hpos. apply Hbf; [by apply sem_addr_pos|]. unfold sem_v. lia. } destruct b.
  - destruct (yield_ok s l k qs (InWait w a 65536 msec st) Hi Hc) as (c & s' & l' & E & H1 & H2). exists c, s', l'. split; [done|]. split; [done|]. split; [done|]. intros e' He' Hpos'. assert (e' = e) as -> by congruence. by specialize (Hpos Hpos').
  - destruct (wait_end_run _ l k Ht Hcur) as (m' & E & Ht' & Ej). unfold lift. rewrite E. set (s1 := set_threads _ s). rewrite (proj2 (Z.eqb_eq _ _)) by done. cbn [negb].
    assert (Hi1 : inv s1 l k qs) by (by apply (same_inv s)). destruct (tick_run s1 l k qs Hi1) as (E2 & Hi2 & Hst2). rewrite E2. set (s2 := set_ticks _ s1) in *. eexists _, s2, l. split; [reflexivity|]. split; [done|].
    assert (Hst : stable [] s s2) by (apply (stable_trans _ s s1); [by apply same_stable|done]). pose proof (clock_range (ticks s)) as Hcr. unfold SYS_ARCH_TIMEOUT in Hcr. change (time s1) with (time s). rewrite (u32_small (time s - a)), u32_small by lia. split.
    + split; [|cbn; pose proof (clock_mono (ticks s) (S (ticks s)) ltac:(lia)); lia]. pose proof (wait_stable [] s s2 w Hst ltac:(apply not_elem_of_nil) Hw) as (G1 & G2 & G3 & G4 & G5). split; [done|]. split; [done|]. split; [cbn; lia|]. done.
    + intros e' He' Hpos'. by eexists.
Qed.

(** *** Creating and freeing *)

Lemma freed_not_owned s qs x e : base_ok s qs -> sems s !! x = Some e -> sem_freed e = true -> forall i b, ~ owns s x i b.
Proof.
  intros Hb He Hf i b Ho. destruct (owner_entry s qs x i b Hb Ho) as (m & l & _ & _ & _ & Ex & _ & (e1 & H1 & F1 & _) & (e2 & H2 & F2 & _) & _). destruct b; rewrite Ex in *; congruence.
Qed.

Lemma sem_new_run s qs c : base_ok s qs -> 0 <= c < 65536 ->
  (sys_sem_new c s = SRet SYS_SEM_NULL s) \/
  exists x e, let s' := set_sems (<[x := mkSem false (s32 (sem_gen e + 1)) c (sem_waiters e)]> (sems s)) (set_sem_free (tail (sem_free s)) s) in
    sys_sem_new c s = SRet x s' /\ base_ok s' qs /\ stable [] s s' /\ (forall i b, ~ owns s' x i b) /\ x ∉ tail (sem_free s) /\ 0 <= x /\ sems s !! x = Some e /\ sem_freed e = true.
Proof.
  intros Hb Hc. pose proof Hb as []. unfold sys_sem_new, mbind, S_bind, sget. destruct (sem_free s) as [|x l] eqn:El; [by left|right]. destruct (b_freed0 x ltac:(by left)) as (e & He & Hf). apply list.NoDup_cons in b_nodup0 as [Hxl Hnd].
  exists x, e. unfold smodify, sem_at. cbn [sems set_sem_free]. rewrite He, Hf. cbn [sassert]. pose proof (freed_not_owned s qs x e Hb He Hf) as Hno. pose proof (b_range0 x e He). split; [done|]. cbn [tail]. set (s' := set_sems _ _).
  split; [|split; [|split; [exact Hno|split_and!; [done|lia|done|done]]]].
  - constructor; try done; cbn [sem_free sems mboxes s' set_sems set_sem_free].
    + intros y Hy. destruct (b_freed0 y ltac:(by right)) as (ey & Hey & Hfy). exists ey. rewrite lookup_insert_ne; [done|]. by intros ->.
    + intros y ey. destruct (decide (y = x)) as [->|]; [rewrite lookup_insert_eq; intros [= <-]; cbn; lia|rewrite lookup_insert_ne by done; apply b_range0].
    + intros i m l0 Hm Hl. destruct (b_ring0 i m l0 Hm Hl) as (G1 & (e1 & H1 & F1 & C1) & (e2 & H2 & F2 & C2)). split; [done|]. unfold counts. cbn [sems s' set_sems]. split; [exists e1|exists e2]; (rewrite lookup_insert_ne; [done|]); intros ->; congruence.
  - constructor; try done. intros y gen _ (ey & Hey & Hfy & Hgy). exists ey. cbn [sems s' set_sems]. rewrite lookup_insert_ne; [done|]. intros ->. congruence.
Qed.

Lemma sem_free_run s qs x e : base_ok s qs -> (forall i b, ~ owns s x i b) -> sems s !! x = Some e -> sem_freed e = false ->
  let s' := set_sem_free (x :: sem_free s) (set_sems (<[x := mkSem true (s32 (sem_gen e + 1)) (sem_counter e) (sem_waiters e)]> (sems s)) s) in
  sys_sem_free x s = SRet tt s' /\ base_ok s' qs /\ stable [x] s s'.
Proof.
  intros Hb Hno He Hf s'. pose proof Hb as []. split; [|split].
  - unfold sys_sem_free, mbind, S_bind, sem_at. rewrite He, Hf. done.
  - constructor; try done; cbn [sem_free sems mboxes s' set_sems set_sem_free].
    + apply list.NoDup_cons. split; [|done]. intros Hx. destruct (b_freed0 x Hx) as (e' & He' & Hf'). congruence.
    + intros y Hy. destruct (decide (y = x)) as [->|]; [rewrite lookup_insert_eq; by eexists|]. rewrite lookup_insert_ne by done. apply elem_of_cons in Hy as [->|Hy]; [done|by apply b_freed0].
    + intros y ey. destruct (decide (y = x)) as [->|]; [rewrite lookup_insert_eq; intros [= <-]; pose proof (b_range0 x e He); cbn; lia|rewrite lookup_insert_ne by done; apply b_range0].
    + intros i m l0 Hm Hl. destruct (b_ring0 i m l0 Hm Hl) as (G1 & G2 & G3). destruct (proj1 (b_live0 i) ltac:(by eexists)) as (m' & Hm' & Hmf). assert (m' = m) as -> by congruence. split; [done|].
      unfold counts in *. cbn [sems s' set_sems set_sem_free]. split; (rewrite lookup_insert_ne; [done|]); intros E; [apply (Hno i true)|apply (Hno i false)]; by exists m.
  - constructor; try done. intros y gen Hy (ey & Hey & Hfy & Hgy). exists ey. cbn [sems s' set_sems set_sem_free]. rewrite lookup_insert_ne; [done|]. intros ->. apply Hy. by left.
Qed.

Definition mark_freed (e : sys_mbox_entry) : sys_mbox_entry := mkMb true (mb_head e) (mb_nextq e) (mb_msg e) (mb_queued e) (mb_free e).

(** A mailbox is given up, before its semaphores are freed. *)
Lemma disown s qs i e l : base_ok s qs -> mboxes s !! i = Some e -> mb_freed e = false -> qs !! i = Some l ->
  let s' := set_events (events s ++ [Freed i]) (set_mboxes (<[i := mark_freed e]> (mboxes s)) s) in
  base_ok s' (delete i qs) /\ stable [mb_free e; mb_queued e] s s' /\ (forall j b, ~ owns s' (mb_queued e) j b) /\ (forall j b, ~ owns s' (mb_free e) j b).
Proof.
  intros Hb He Hf Hl s'. pose proof Hb as []. assert (Hown : forall x j b, owns s' x j b <-> owns s x j b /\ j <> i).
  { intros x j b. unfold owns. cbn [mboxes s' set_mboxes set_events]. destruct (decide (j = i)) as [->|]; [rewrite lookup_insert_eq; split; [by intros (y & [= <-] & ? & _)|by intros [_ ?]]|rewrite lookup_insert_ne by done; naive_solver]. }
  assert (Hq : forall b j b', ~ owns s' (if (b : bool) then mb_queued e else mb_free e) j b').
  { intros b j b' [Ho Hne]%Hown. destruct (b_owner0 _ j i b' b Ho) as [-> _]; [by exists e|done]. }
  split; [|split; [|split; [apply (Hq true)|apply (Hq false)]]].
  - constructor; try done; cbn [mboxes events sems sem_free s' set_mboxes set_events].
    + intros j y. destruct (decide (j = i)) as [->|]; [rewrite lookup_insert_eq; intros [= <-]; by apply (b_slots0 i e)|rewrite lookup_insert_ne by done; apply b_slots0].
    + intros j. destruct (decide (j = i)) as [->|]; [rewrite lookup_delete_eq, lookup_insert_eq; split; [by intros []|by intros (y & [= <-] & ?)]|rewrite lookup_delete_ne, lookup_insert_ne by done; apply b_live0].
    + intros j y lj. destruct (decide (j = i)) as [->|]; [by rewrite lookup_delete_eq|]. rewrite lookup_insert_ne, lookup_delete_ne by done. apply b_ring0.
    + intros x j j' b b' [H1 _]%Hown [H2 _]%Hown. by apply (b_owner0 x).
    + econstructor; [done|]. by econstructor.
  - constructor; try done; intros x j b.
    + intros Hx Ho. apply Hown. split; [done|]. intros ->. apply Hx. destruct Ho as (y & Hy & _ & Ey). assert (y = e) as -> by congruence. destruct b; subst x; [by right; left|by left].
    + intros gen _ _ Ho. by apply Hown in Ho as [? _].
Qed.

Lemma stable_weaken X Y s s' : (forall x, x ∈ X -> x ∈ Y) -> stable X s s' -> stable Y s s'.
Proof. intros H [L Kp N T]. constructor; [intros x gen Hx|intros x i b Hx|intros x i b gen Hx|done]; [apply L|apply Kp|apply N]; eauto. Qed.

Lemma mbox_free_run s l k qs i e : inv s l k qs -> mboxes s !! i = Some e -> mb_freed e = false ->
  (forall a p, a ∈ l -> jbs (tcs (sy_threads s)) !! a = Some (at_setjmp p) -> ~ waits_in [mb_free e; mb_queued e] p) ->
  exists s', sys_mbox_free i s = SRet tt s' /\ inv s' l k (delete i qs).
Proof.
  intros Hi He Hf Hnw. pose proof Hi as [Hb Ht Hcur Hp]. destruct (owner_entry s qs (mb_queued e) i true Hb ltac:(by exists e)) as (e' & l0 & He' & _ & Hl & _ & _ & (eq & Hq & Hqf & _) & (ef & Hef & Hff & _) & Hne). assert (e' = e) as -> by congruence.
  destruct (disown s qs i e l0 Hb He Hf Hl) as (Hb0 & Hst0 & Hnq & Hnf). set (s0 := set_events _ _) in *. destruct (sem_free_run s0 _ (mb_queued e) eq Hb0 Hnq Hq Hqf) as (_ & Hb1 & Hst1). set (s1 := set_sem_free _ _) in Hb1, Hst1.
  destruct (sem_free_run s1 _ (mb_free e) ef Hb1 Hnf) as (_ & Hb2 & Hst2); [cbn; by rewrite lookup_insert_ne|done|]. set (s2 := set_sem_free _ _) in Hb2, Hst2.
  exists (set_mbox_free (i :: mbox_free s) s2). split.
  - unfold sys_mbox_free, sys_sem_free, set_sem, set_mbox, emit, smodify, sassert, mbind, S_bind, mbox_at, sem_at, mret, S_ret. rewrite He, Hf. cbn [negb]. rewrite Hq, Hqf. cbn [negb sems set_sems set_sem_free]. rewrite lookup_insert_ne by done. rewrite Hef, Hff. done.
  - assert (Hst : stable [mb_free e; mb_queued e] s s2). { apply (stable_trans _ s s0); [done|]. apply (stable_trans _ s0 s1).
      - eapply stable_weaken; [|exact Hst1]. intros x ->%list_elem_of_singleton. by right; left.
      - eapply stable_weaken; [|exact Hst2]. intros x ->%list_elem_of_singleton. by left. }
    assert (Hi2 : inv s2 l k (delete i qs)) by (by apply (inv_step [mb_free e; mb_queued e] s s2 l k qs)). by apply (same_inv s2).
Qed.

(** A mailbox with new semaphores. *)
Lemma adopt s qs i e q f eq ef : base_ok s qs -> mboxes s !! i = Some e -> mb_freed e = true -> q <> f -> (forall j b, ~ owns s q j b) -> (forall j b, ~ owns s f j b) ->
  sems s !! q = Some eq -> sem_freed eq = false -> sem_counter eq = 0 -> sems s !! f = Some ef -> sem_freed ef = false -> sem_counter ef = 32 ->
  base_ok (set_events (events s ++ [Created i]) (set_mboxes (<[i := mkMb false (-1) 0 (mb_msg e) q f]> (mboxes s)) s)) (<[i := []]> qs).
Proof.
  intros Hb He Hf Hqf Hnq Hnf Hq Hqf' Hqc Hef Hff Hfc. pose proof Hb as []. set (s' := set_events _ _). assert (Hn : qs !! i = None). { destruct (qs !! i) eqn:E; [|done]. destruct (proj1 (b_live0 i) ltac:(by eexists)) as (e' & He' & Hf'). congruence. }
  assert (Hown : forall x j b, owns s' x j b -> (j = i /\ x = (if b then q else f)) \/ (j <> i /\ owns s x j b)).
  { intros x j b (y & Hy & Hfy & Ex). cbn [mboxes s' set_mboxes set_events] in Hy. destruct (decide (j = i)) as [->|]; [rewrite lookup_insert_eq in Hy; injection Hy as <-; left; by destruct b|rewrite lookup_insert_ne in Hy by done; right; split; [done|by exists y]]. }
  constructor; try done; cbn [mboxes events sems sem_free s' set_mboxes set_events].
  - intros j y. destruct (decide (j = i)) as [->|]; [rewrite lookup_insert_eq; intros [= <-]; by apply (b_slots0 i e)|rewrite lookup_insert_ne by done; apply b_slots0].
  - intros j. destruct (decide (j = i)) as [->|]; [rewrite !lookup_insert_eq; split; [intros _; by eexists|by eexists]|rewrite !lookup_insert_ne by done; apply b_live0].
  - intros j y lj. destruct (decide (j = i)) as [->|]; [|rewrite !lookup_insert_ne by done; apply b_ring0]. rewrite !lookup_insert_eq. intros [= <-] [= <-]. cbn [mb_queued mb_free length Z.of_nat]. split; [|split; [by exists eq|by exists ef]].
    constructor; cbn; [by apply (b_slots0 i e)|lia|lia|done|by intros j y].
  - intros x j j' b b' [[-> Ex]|[Hj Ho]]%Hown [[-> Ex']|[Hj' Ho']]%Hown.
    + split; [done|]. destruct b, b'; congruence.
    + exfalso. subst x. destruct b; [by apply (Hnq j' b')|by apply (Hnf j' b')].
    + exfalso. subst x. destruct b'; [by apply (Hnq j b)|by apply (Hnf j b)].
    + by apply (b_owner0 x).
  - econstructor; [done|]. by constructor.
Qed.

(** Without a second semaphore [sys_mbox_new] ends in a fault. *)
Lemma mbox_free_null s i e : sems s !! SYS_SEM_NULL = None -> mboxes s !! i = Some e -> mb_freed e = false -> mb_queued e = SYS_SEM_NULL \/ mb_free e = SYS_SEM_NULL ->
  (mb_queued e <> SYS_SEM_NULL -> exists eq, sems s !! mb_queued e = Some eq /\ sem_freed eq = false) -> sys_mbox_free i s = SFault.
Proof.
  intros Hnone He Hf Hn Hq. unfold sys_mbox_free, sys_sem_free, set_sem, set_mbox, emit, smodify, sassert, mbind, S_bind, mbox_at, sem_at, mret, S_ret. rewrite He, Hf. cbn [negb].
  destruct (decide (mb_queued e = SYS_SEM_NULL)) as [->|Hne]; [by rewrite Hnone|]. destruct Hn as [Hn|Hn]; [done|].
  destruct (Hq Hne) as (eq & Eq & Fq). rewrite Eq, Fq. cbn [negb sems set_sems set_sem_free]. rewrite Hn, lookup_insert_ne by done. by rewrite Hnone.
Qed.

Lemma no_null s qs : base_ok s qs -> sems s !! SYS_SEM_NULL = None.
Proof. intros []. destruct (sems s !! SYS_SEM_NULL) eqn:E; [|done]. apply b_range0 in E. unfold SYS_SEM_NULL in E. lia. Qed.

Lemma mbox_new_run s l k qs size r s' : inv s l k qs -> sys_mbox_new size s = SRet r s' -> exists qs', inv s' l k qs'.
Proof.
  intros Hi. pose proof Hi as [Hb Ht Hcur Hp]. unfold sys_mbox_new, mbind, S_bind, sget, smodify, sassert. destruct (size <? MBOXSLOTS); [|done]. unfold mret, S_ret. destruct (mbox_free s) as [|i lf] eqn:El; [intros [= <- <-]; by exists qs|].
  set (s1 := set_mbox_free lf s). unfold mbox_at at 1. change (mboxes s1) with (mboxes s). destruct (mboxes s !! i) as [e|] eqn:He; [|done]. destruct (mb_freed e) eqn:Hf; [|done].
  assert (Hi1 : inv s1 l k qs) by (by apply (same_inv s)). pose proof (i_base _ _ _ _ Hi1) as Hb1. unfold set_mbox, emit, smodify.
  destruct (sem_new_run s1 qs 0 Hb1 ltac:(lia)) as [Eq|(q & eq & Eq & Hb2 & Hst2 & Hnq & Hql & Hq0 & Heq & Hfq)]; rewrite Eq.
  { destruct (sem_new_run s1 qs MBOXSLOTS Hb1 ltac:(unfold MBOXSLOTS; lia)) as [Ef|(f & ef & Ef & Hb3 & _)]; rewrite Ef; cbn [orb Z.eqb Pos.eqb SYS_SEM_NULL];
      (erewrite mbox_free_null; [done| |cbn; by rewrite lookup_insert_eq|done|by left|done]); [by apply (no_null s1 qs)|by apply (no_null _ qs Hb3)]. }
  set (s2 := set_sems _ _) in *. assert (Hi2 : inv s2 l k qs) by (apply (inv_step [] s1 s2 l k qs); try done; intros a p _ _; apply waits_nil).
  destruct (sem_new_run s2 qs MBOXSLOTS Hb2 ltac:(unfold MBOXSLOTS; lia)) as [Ef|(f & ef & Ef & Hb3 & Hst3 & Hnf & Hfl & Hf0 & Hef & Hff)]; rewrite Ef.
  { rewrite orb_true_r. erewrite mbox_free_null; [done| |cbn; by rewrite lookup_insert_eq|done|by right|]; [by apply (no_null s2 qs)|]. intros _. cbn [mb_queued]. eexists. split; [cbn; by rewrite lookup_insert_eq|done]. }
  set (s3 := set_sems _ (set_sem_free _ s2)) in *.
  assert (Hs2 : sems s2 !! q = Some (mkSem false (s32 (sem_gen eq + 1)) 0 (sem_waiters eq))) by (unfold s2; cbn [sems set_sems]; by rewrite lookup_insert_eq). assert (Hqf : q <> f) by (intros E; rewrite <- E in Hef; rewrite Hs2 in Hef; by injection Hef as <-).
  assert (Hef1 : sems s1 !! f = Some ef) by (rewrite <- Hef; unfold s2; cbn [sems set_sems]; by rewrite lookup_insert_ne).
  rewrite (proj2 (Z.eqb_neq q SYS_SEM_NULL)), (proj2 (Z.eqb_neq f SYS_SEM_NULL)) by (unfold SYS_SEM_NULL; lia). intros [= <- <-]. exists (<[i := []]> qs). set (s4 := set_events _ _).
  apply (inv_step [] s1 s4 l k qs _ Hi1); try done.
  - refine (adopt s3 qs i e q f (mkSem false (s32 (sem_gen eq + 1)) 0 (sem_waiters eq)) (mkSem false (s32 (sem_gen ef + 1)) MBOXSLOTS (sem_waiters ef)) Hb3 He Hf Hqf Hnq Hnf _ eq_refl eq_refl _ eq_refl eq_refl); cbn [sems s3 set_sems]; [by rewrite lookup_insert_ne|by rewrite lookup_insert_eq].
  - pose proof (stable_trans [] s1 s2 s3 Hst2 Hst3) as [L _ _ _]. constructor; [exact L| | |done].
    + intros x j b _ (y & Hy & Hfy & Ex). exists y. cbn [mboxes s4 set_events set_mboxes]. rewrite lookup_insert_ne; [done|]. intros <-. change (mboxes s1) with (mboxes s) in Hy. congruence.
    + intros x j b gen _ (ex & Hex & Hfx & _) (y & Hy & Hfy & Ex). cbn [mboxes s4 set_events set_mboxes] in Hy. destruct (decide (j = i)) as [->|]; [|rewrite lookup_insert_ne in Hy by done; by exists y]. rewrite lookup_insert_eq in Hy. injection Hy as <-. cbn [mb_queued mb_free] in Ex. destruct b; subst x; congruence.
  - intros a p _ _. apply waits_nil.
Qed.

(** ** The threads of the server

    A thread is anywhere in the operations, or in code of its own, where it
    chooses its next operation. *)

Inductive op :=
| OSend (asserted : bool) (mbox msg : Z)
| OFetch (mbox tm_msec : Z)
| OSignal (sem : Z)
| OSemWait (sem tm_msec : Z)
| OSemNew (count : Z)
| OSemFree (sem : Z)
| OMboxNew (size : Z)
| OMboxFree (mbox : Z)
| OTimeouts (t : Z)
| OThread (lt tc stack : Z) (name : list Z) (stacksize : Z)
| OYield
| OHalt.

Definition back (m : SysM Z) : SysM (option control) := r ← m; mret (Some (CClient r)).
Definition goes (m : SysM control) : SysM (option control) := c ← m; mret (Some c).

Definition operate (o : op) : SysM (option control) :=
  match o with
  | OSend asserted mbox msg => goes (mbox_send asserted mbox msg)
  | OFetch mbox tm_msec => goes (sys_arch_mbox_fetch mbox tm_msec)
  | OSignal sem => back (sys_sem_signal sems_addr sem ;; mret 0)
  | OSemWait sem tm_msec => goes (sys_arch_sem_wait sem tm_msec)
  | OSemNew count => back (sys_sem_new count)
  | OSemFree sem => back (sys_sem_free sem ;; mret 0)
  | OMboxNew size => back (sys_mbox_new size)
  | OMboxFree mbox => back (sys_mbox_free mbox ;; mret 0)
  | OTimeouts t => back (sys_arch_timeouts cleanup t)
  | OThread lt tc stack name stacksize => back (sys_thread_new entry lt tc stack name stacksize)
  | OYield => goes (yield clock InClient)
  | OHalt => halt clock cleanup
  end.

Definition unowned (s : sys) (x : Z) : Prop := forall i b, ~ owns s x i b.

Definition nobody_waits (s : sys) (l X : list Z) : Prop :=
  forall a p, a ∈ l -> jbs (tcs (sy_threads s)) !! a = Some (at_setjmp p) -> ~ waits_in X p.

(** How the operations are used: the semaphores of a mailbox by its operations
    only, nothing is freed for which a thread waits, and [malloc] returns
    memory that is not in use. *)
Definition allowed (s : sys) (l : list Z) (o : op) : Prop :=
  match o with
  | OFetch _ tm => 0 <= tm < 4294967296
  | OSignal x => unowned s x
  | OSemWait x tm => unowned s x /\ 0 <= tm < 4294967296
  | OSemNew c => 0 <= c < 256
  | OSemFree x => unowned s x /\ nobody_waits s l [x]
  | OMboxFree i => forall e, mboxes s !! i = Some e -> nobody_waits s l [mb_free e; mb_queued e]
  | OThread _ tc _ _ _ => tcs (sy_threads s) !! tc = None /\ 0 <= max_tid (sy_threads s) < 0xfffffffe
  | _ => True
  end.

Inductive step : control * sys -> control * sys -> Prop :=
| step_sem w s c s' : sem_round clock sems_addr w s = SRet c s' -> step (CSem w, s) (c, s')
| step_wait w a val msec st p s c s' : wait_round clock sems_addr w a val msec st p s = SRet c s' -> step (CWait w a val msec st p, s) (c, s')
| step_entry s : step (CEntry, s) (CClient 0, s)
| step_client r o s l k c s' : threads_ok (sy_threads s) l k -> allowed s l o -> operate o s = SRet (Some c) s' -> step (CClient r, s) (c, s').

Definition ok (σ : control * sys) : Prop := exists l k qs, inv σ.2 l k qs /\ control_ok σ.2 σ.1.

Lemma sem_wait_run s x tm k c s' : sem_wait x tm k s = SRet c s' -> exists gen, s' = s /\ c = CSem (mkWait x tm 0 gen k) /\ live s x gen.
Proof.
  unfold sem_wait, mbind, S_bind, sem_at, sassert. destruct (sems s !! x) as [e|] eqn:E; [|done]. destruct (sem_freed e) eqn:Ef; [done|]. intros [= <- <-]. exists (sem_gen e). split; [done|]. split; [done|]. by exists e.
Qed.

Lemma begin_ok s l k qs x tm a c s' : inv s l k qs -> sem_wait x tm a s = SRet c s' -> 0 <= tm < 4294967296 ->
  match a with ADone => unowned s x | APost _ i _ => owns s x i false /\ tm = 0 | AFetch i => owns s x i true end -> s' = s /\ control_ok s c.
Proof.
  intros Hi E Htm Ha. destruct (sem_wait_run s x tm a c s' E) as (gen & -> & -> & Hl). split; [done|]. pose proof (clock_range (ticks s)). pose proof Hl as (e & He & _). apply (b_range _ _ (i_base _ _ _ _ Hi)) in He. split; [|cbn; lia]. split; [done|]. cbn. split; [lia|]. split; [lia|]. done.
Qed.

Lemma back_inv m s oc s' : back m s = SRet oc s' -> exists r, m s = SRet r s' /\ oc = Some (CClient r).
Proof. unfold back, mbind, S_bind. destruct (m s) as [r s1| |]; [|done..]. intros [= <- <-]. by exists r. Qed.

Lemma goes_inv m s oc s' : goes m s = SRet oc s' -> exists c, m s = SRet c s' /\ oc = Some c.
Proof. unfold goes, mbind, S_bind. destruct (m s) as [r s1| |]; [|done..]. intros [= <- <-]. by exists r. Qed.

Lemma then_inv (m : SysM unit) (r : Z) s r' s' : (m ;; mret r) s = SRet r' s' -> m s = SRet tt s'.
Proof. unfold mbind, S_bind. destruct (m s) as [[] s1| |]; [|done..]. by intros [= <- <-]. Qed.

Lemma client_inv s l k qs r : inv s l k qs -> ok (CClient r, s).
Proof. intros H. by exists l, k, qs. Qed.

Lemma signal_ok s l k qs x s' : inv s l k qs -> unowned s x -> sys_sem_signal sems_addr x s = SRet tt s' -> inv s' l k qs.
Proof.
  intros Hi Hu E. pose proof Hi as [Hb Ht Hcur Hp]. assert (Hl : exists e, sems s !! x = Some e /\ sem_freed e = false). { unfold sys_sem_signal, mbind, S_bind, sem_at, sassert in E. destruct (sems s !! x) as [e|] eqn:He; [|done]. exists e. split; [done|]. by destruct (sem_freed e). }
  destruct Hl as (e & He & Hf). destruct (signal_run s l k x e Ht He Hf) as (m' & E' & Ht' & Ej). cbv zeta in E'. rewrite E in E'. injection E' as ->. pose proof (b_range _ _ Hb x e He). pose proof (u16_range (sem_counter e + 1)).
  destruct (sem_change s qs x e (mkSem false (sem_gen e) (u16 (sem_counter e + 1)) 0) Hb He) as [Hb' Hst]; cbn; try done; try lia; [by right|]. set (s1 := set_sems _ s) in *. apply (inv_step [] s _ l k qs); try done; [by apply (same_base s1)|apply (stable_trans _ s s1); [done|by apply same_stable]|]. intros a p _ _. apply waits_nil.
Qed.

Lemma sem_free_ok s l k qs x s' : inv s l k qs -> unowned s x -> nobody_waits s l [x] -> sys_sem_free x s = SRet tt s' -> inv s' l k qs.
Proof.
  intros Hi Hu Hn E. pose proof Hi as [Hb Ht Hcur Hp]. assert (Hl : exists e, sems s !! x = Some e /\ sem_freed e = false). { unfold sys_sem_free, mbind, S_bind, sem_at, sassert in E. destruct (sems s !! x) as [e|] eqn:He; [|done]. exists e. split; [done|]. by destruct (sem_freed e). }
  destruct Hl as (e & He & Hf). destruct (sem_free_run s qs x e Hb Hu He Hf) as (E' & Hb' & Hst). rewrite E in E'. injection E' as ->. by apply (inv_step [x] s _ l k qs).
Qed.

Lemma sem_new_ok s l k qs c r s' : inv s l k qs -> 0 <= c < 256 -> sys_sem_new c s = SRet r s' -> inv s' l k qs.
Proof.
  intros Hi Hc E. pose proof Hi as [Hb Ht Hcur Hp]. destruct (sem_new_run s qs c Hb ltac:(lia)) as [E'|(x & e & E' & Hb' & Hst & _)]; rewrite E in E'; injection E' as -> ->; [done|]. apply (inv_step [] s _ l k qs); try done. intros a p _ _. apply waits_nil.
Qed.

Lemma mbox_free_ok s l k qs i s' : inv s l k qs -> (forall e, mboxes s !! i = Some e -> nobody_waits s l [mb_free e; mb_queued e]) -> sys_mbox_free i s = SRet tt s' -> exists qs', inv s' l k qs'.
Proof.
  intros Hi Hn E. assert (Hl : exists e, mboxes s !! i = Some e /\ mb_freed e = false). { unfold sys_mbox_free, mbind, S_bind, mbox_at, sassert in E. destruct (mboxes s !! i) as [e|] eqn:He; [|done]. exists e. split; [done|]. by destruct (mb_freed e). }
  destruct Hl as (e & He & Hf). destruct (mbox_free_run s l k qs i e Hi He Hf (Hn e He)) as (s1 & E' & Hi'). rewrite E in E'. injection E' as ->. by eexists.
Qed.

Lemma timeouts_ok s l k qs t r s' : inv s l k qs -> sys_arch_timeouts cleanup t s = SRet r s' -> inv s' l k qs.
Proof.
  intros Hi E. pose proof Hi as [Hb Ht Hcur Hp]. unfold sys_arch_timeouts, mbind, S_bind, lift in E. destruct (proj2 (ok_cur _ _ _ Ht Hcur)) as [c Hc]. unfold thread_id, mbind, T_bind, tget, tload in E. rewrite Hc in E. replace (set_threads (sy_threads s) s) with s in E by (by destruct s). unfold sget in E.
  destruct (find _ _) as [x|]; [by injection E as <- <-|]. destruct (t =? 0); [done|]. destruct (onhalt_run cleanup _ l k Ht Hcur) as (r1 & m' & E1 & Ht1 & Ej). rewrite E1 in E. destruct (r1 <? 0); [done|]. injection E as <- <-. by apply (same_inv s).
Qed.

Lemma create_ok s l k qs lt tc stack name sz r s' : inv s l k qs -> tcs (sy_threads s) !! tc = None -> 0 <= max_tid (sy_threads s) < 0xfffffffe -> sys_thread_new entry lt tc stack name sz s = SRet r s' -> exists l', inv s' l' k qs.
Proof.
  intros Hi Hf Hm E. pose proof Hi as [Hb Ht Hcur Hp]. unfold sys_thread_new, mbind, S_bind, lift in E. destruct (lt =? 0); [done|]. destruct (PGSIZE <? sz); [done|].
  destruct (Z.eqb_spec tc 0) as [->|Htc]; [done|]. assert (Hne : cur_tc (sy_threads s) <> tc) by (intros Ec; destruct (proj2 (ok_cur _ _ _ Ht Hcur)) as [c Hc]; congruence).
  destruct (Z.eqb_spec stack 0) as [->|Hst].
  { unfold thread_create, alloc_tid, mbind, T_bind, tget, tmodify in E. rewrite (proj2 (Z.eqb_neq tc 0)), u32_small, (proj2 (Z.eqb_neq (_ + 1) _)) in E by (done || lia). done. }
  destruct (create_run (sy_threads s) l k tc stack name entry lt Ht Htc Hf Hne Hst Hm) as (t' & E1 & Ht' & Em & Ec & Eb). rewrite E1 in E. cbn in E. injection E as <- <-. exists (l ++ [tc]). constructor; [by apply (same_base s)|done|cbn; by rewrite Ec|].
  intros a p Ha Hj. cbn [sy_threads set_threads] in Hj. rewrite jbs_bodies, Eb, fmap_insert in Hj. destruct (decide (a = tc)) as [->|Hna]; [rewrite lookup_insert_eq in Hj; by injection Hj|]. rewrite lookup_insert_ne, <- jbs_bodies in Hj by done.
  apply (place_stable [] s); [by apply same_stable|apply waits_nil|]. apply (Hp a); [|done]. by apply elem_of_app in Ha as [?|?%list_elem_of_singleton].
Qed.

Lemma calls_run l : forall s, exists tab, onhalt_calls cleanup l s = SRet tt (set_thread_tab tab s).
Proof.
  induction l as [|[f tid] l IH]; intros s; [exists (thread_tab s); by destruct s|]. cbn [onhalt_calls]. unfold mbind, S_bind. destruct (f =? cleanup).
  - unfold timeout_cleanup, mbind, S_bind, sget, smodify. set (tab := <[_ := _]> _). destruct (IH (set_thread_tab tab s)) as [tab' E]. by exists tab'.
  - destruct (IH s) as [tab E]. by exists tab.
Qed.

Lemma halt_ok s l k qs c s' : inv s l k qs -> halt clock cleanup s = SRet (Some c) s' -> ok (c, s').
Proof.
  intros Hi E. pose proof Hi as [Hb Ht Hcur Hp]. unfold halt, mbind, S_bind, lift in E. destruct (halt_run InClient _ l k Ht Hcur) as (calls & m' & q & q' & E1 & Ht1 & Ej). unfold mbind, T_bind in E1. rewrite E1 in E. destruct l as [|n l].
  - rewrite (yield_alone InClient _ _ Ht1) in E. cbn in E. destruct (calls_run calls (set_threads (mkTs m' (max_tid (sy_threads s)) 0 q q') s)) as [tab Et]. by rewrite Et in E.
  - destruct (yield_stopped InClient _ _ _ _ n l _ Ht1) as (t' & jb & E2 & Hjb & Ec & Hn & Ht2 & Ej2). rewrite E2 in E. unfold mret, T_ret in E. cbn [fst snd] in E. destruct (calls_run calls (set_threads t' s)) as [tab Et]. rewrite Et in E. set (s1 := set_thread_tab tab _) in *.
    assert (Hst : stable [] s s1) by (by apply same_stable).
    assert (Hi1 : inv s1 l (tail k ++ [cur_tc (sy_threads s)]) qs). { constructor; [by apply (same_base s)|done|cbn; by rewrite Ec|]. intros a p Ha Hap. apply (place_stable [] s); [done|apply waits_nil|]. apply (Hp a); [by right|]. rewrite <- Ej by (by right). rewrite <- Ej2 by done. exact Hap. }
    destruct (resume_run s1 _ _ qs jb Hi1) as (c' & s2 & E3 & Hi2 & Hc2). { intros p ->. apply (place_stable [] s); [done|apply waits_nil|]. apply (Hp n); [by left|]. rewrite <- Ej by (by left). done. }
    rewrite E3 in E. injection E as -> ->. by exists l, (tail k ++ [cur_tc (sy_threads s)]), qs.
Qed.

Lemma mbox_begin s l k qs x e i b : inv s l k qs -> mboxes s !! i = Some e -> mb_freed e = false -> (if (b : bool) then mb_queued e else mb_free e) = x -> owns s x i b.
Proof. intros _ H1 H2 H3. by exists e. Qed.

Lemma client_ok s l k qs o c s' : inv s l k qs -> allowed s l o -> operate o s = SRet (Some c) s' -> ok (c, s').
Proof.
  intros Hi Ha E. destruct o; cbn [operate allowed] in *; try (apply goes_inv in E as (c0 & E & [= ->])); try (apply back_inv in E as (r & E & [= ->])).
  - unfold mbox_send, mbind, S_bind, mbox_at, sassert in E. destruct (mboxes s !! mbox) as [e|] eqn:He; [|done]. destruct (mb_freed e) eqn:Hf; [done|]. destruct (begin_ok s l k qs _ _ _ _ _ Hi E ltac:(lia)) as [-> Hc]; [split; [by exists e|done]|by exists l, k, qs].
  - unfold sys_arch_mbox_fetch, mbind, S_bind, mbox_at, sassert in E. destruct (mboxes s !! mbox) as [e|] eqn:He; [|done]. destruct (mb_freed e) eqn:Hf; [done|]. destruct (begin_ok s l k qs _ _ _ _ _ Hi E Ha) as [-> Hc]; [by exists e|by exists l, k, qs].
  - apply then_inv in E. eapply client_inv, signal_ok; done.
  - destruct Ha as [Hu Htm]. destruct (begin_ok s l k qs _ _ _ _ _ Hi E Htm) as [-> Hc]; [done|by exists l, k, qs].
  - eapply client_inv, sem_new_ok; done.
  - apply then_inv in E. destruct Ha. eapply client_inv, sem_free_ok; done.
  - destruct (mbox_new_run s l k qs size r s' Hi E) as [qs' Hi']. by eapply client_inv.
  - apply then_inv in E. destruct (mbox_free_ok s l k qs mbox s' Hi Ha E) as [qs' Hi']. by eapply client_inv.
  - eapply client_inv, timeouts_ok; done.
  - destruct Ha as [Ha Hm]. destruct (create_ok s l k qs _ _ _ _ _ _ _ Hi Ha Hm E) as [l' Hi']. by eapply client_inv.
  - destruct (yield_ok s l k qs InClient Hi ltac:(done)) as (c1 & s1 & l1 & E1 & Hi1 & Hc1). rewrite E in E1. injection E1 as -> ->. by exists l1, k, qs.
  - by eapply halt_ok.
Qed.

Lemma step_ok σ σ' : ok σ -> step σ σ' -> ok σ'.
Proof.
  intros (l & k & qs & Hi & Hc) Hs. destruct Hs as [w s c s' E|w a val msec st p s c s' E|s|r o s l' k' c s' Ht Ha E]; cbn [fst snd] in *.
  - destruct (sem_round_run s l k qs w Hi Hc) as (c1 & s1 & qs1 & E1 & H). rewrite E in E1. injection E1 as -> ->. by exists l, k, qs1.
  - destruct (wait_round_run s l k qs w a val msec st p Hi Hc) as (c1 & s1 & l1 & E1 & H1 & H2 & _). rewrite E in E1. injection E1 as -> ->. by exists l1, k, qs.
  - by exists l, k, qs.
  - destruct (threads_fun _ _ _ _ _ Ht (i_threads _ _ _ _ Hi)) as [-> ->]. by eapply client_ok.
Qed.

(** *** The beginning *)

Definition sem_zero : sys_sem_entry := mkSem false 0 0 0.
Definition mbox_zero : sys_mbox_entry := mkMb false 0 0 (replicate 32 0) 0 0.

(** The static arrays before [sys_init], with the threads [t]. *)
Definition sys_boot (t : tstate) : sys :=
  mkSys t (list_to_map ((λ i, (i, sem_zero)) <$> seqZ 0 NSEM)) [] (list_to_map ((λ i, (i, mbox_zero)) <$> seqZ 0 NMBOX)) [] ∅ 0 [].

Lemma sem_init_run n : forall i s, (forall j, i <= j < i + Z.of_nat n -> sems s !! j = Some sem_zero) -> NoDup (sem_free s) -> (forall x, x ∈ sem_free s -> x < i) ->
  exists m f, sem_init_loop n i s = SRet tt (set_sem_free f (set_sems m s)) /\ NoDup f /\ (forall x, x ∈ f <-> x ∈ sem_free s \/ i <= x < i + Z.of_nat n) /\
    (forall x, m !! x = if decide (i <= x < i + Z.of_nat n) then Some (mkSem true 0 0 0) else sems s !! x).
Proof.
  induction n as [|n IH]; intros i s Hs Hnd Hlt.
  - exists (sems s), (sem_free s). split; [by destruct s|]. split; [done|]. split; [intros x; split; [by left|intros [?|?]; [done|lia]]|]. intros x. rewrite decide_False by lia. done.
  - cbn [sem_init_loop]. unfold mbind, S_bind, sem_at. rewrite Hs by lia. unfold set_sem, smodify. cbn [sem_gen sem_counter sem_waiters sem_zero]. set (s1 := set_sem_free _ _).
    destruct (IH (i + 1) s1) as (m & f & E & Hnd' & Hf & Hm).
    + intros j Hj. cbn. rewrite lookup_insert_ne by lia. apply Hs. lia.
    + cbn. apply list.NoDup_cons. split; [intros Hx; apply Hlt in Hx; lia|done].
    + cbn. intros x [->|Hx]%elem_of_cons; [lia|]. apply Hlt in Hx. lia.
    + exists m, f. rewrite E. split; [done|]. split; [done|]. split.
      * intros x. rewrite Hf. cbn [sem_free s1 set_sem_free set_sems]. rewrite elem_of_cons. split; [intros [[->|?]|?]; [right; lia|by left|right; lia]|intros [?|?]; [left; by right|]]. destruct (decide (x = i)) as [->|]; [left; by left|right; lia].
      * intros x. rewrite Hm. cbn [sems s1 set_sem_free set_sems]. destruct (decide (x = i)) as [->|]; [rewrite decide_False, decide_True by lia; by rewrite lookup_insert_eq|]. rewrite lookup_insert_ne by done. destruct (decide (i + 1 <= x < i + 1 + Z.of_nat n)), (decide (i <= x < i + Z.of_nat (S n))); done || lia.
Qed.

Lemma mbox_init_run n : forall i s, (forall j, i <= j < i + Z.of_nat n -> mboxes s !! j = Some mbox_zero) ->
  exists m f, mbox_init_loop n i s = SRet tt (set_mbox_free f (set_mboxes m s)) /\
    (forall x, m !! x = if decide (i <= x < i + Z.of_nat n) then Some (mark_freed mbox_zero) else mboxes s !! x).
Proof.
  induction n as [|n IH]; intros i s Hs.
  - exists (mboxes s), (mbox_free s). split; [by destruct s|]. intros x. rewrite decide_False by lia. done.
  - cbn [mbox_init_loop]. unfold mbind, S_bind, mbox_at. rewrite Hs by lia. unfold set_mbox, smodify. set (s1 := set_mbox_free _ _). destruct (IH (i + 1) s1) as (m & f & E & Hm).
    + intros j Hj. cbn. rewrite lookup_insert_ne by lia. apply Hs. lia.
    + exists m, f. rewrite E. split; [done|]. intros x. rewrite Hm. cbn [mboxes s1 set_mbox_free set_mboxes]. destruct (decide (x = i)) as [->|]; [rewrite decide_False, decide_True by lia; by rewrite lookup_insert_eq|]. rewrite lookup_insert_ne by done. destruct (decide (i + 1 <= x < i + 1 + Z.of_nat n)), (decide (i <= x < i + Z.of_nat (S n))); done || lia.
Qed.

Lemma array_lookup {A} (x : A) n i : 0 <= i < n -> (list_to_map ((λ i, (i, x)) <$> seqZ 0 n) : gmap Z A) !! i = Some x.
Proof.
  intros Hi. apply elem_of_list_to_map_1.
  - rewrite <- list_fmap_compose. change (NoDup (id <$> seqZ 0 n)). rewrite list_fmap_id. apply NoDup_seqZ.
  - apply list_elem_of_fmap. exists i. split; [done|]. apply elem_of_seqZ. lia.
Qed.

Lemma array_inv {A} (x y : A) n i : (list_to_map ((λ i, (i, x)) <$> seqZ 0 n) : gmap Z A) !! i = Some y -> 0 <= i < n /\ y = x.
Proof. intros H%elem_of_list_to_map_2. apply list_elem_of_fmap in H as (j & [= -> ->] & Hj). apply elem_of_seqZ in Hj. split; [lia|done]. Qed.

Lemma init_ok t l k : threads_ok t l k -> cur_tc t <> 0 -> (forall a p, a ∈ l -> jbs (tcs t) !! a = Some (at_setjmp p) -> p = InClient) ->
  exists s0, sys_init (sys_boot t) = SRet tt s0 /\ inv s0 l k ∅.
Proof.
  intros Ht Hcur Hp. unfold sys_init, mbind, S_bind. destruct (sem_init_run (Z.to_nat NSEM) 0 (sys_boot t)) as (m & f & E1 & Hnd & Hf & Hm); [intros j Hj; apply array_lookup; lia|constructor|intros x Hx; by apply not_elem_of_nil in Hx|]. rewrite E1. set (s1 := set_sem_free f _).
  destruct (mbox_init_run (Z.to_nat NMBOX) 0 s1) as (m2 & f2 & E2 & Hm2); [intros j Hj; apply array_lookup; lia|]. rewrite E2. eexists. split; [reflexivity|]. rewrite !Z2Nat.id in * by done. set (s2 := set_mbox_free f2 _).
  assert (Hsem : forall x e, sems s2 !! x = Some e -> 0 <= x /\ e = mkSem true 0 0 0). { intros x e. cbn. rewrite Hm. destruct (decide _); [intros [= <-]; split; [lia|done]|]. cbn. intros H. apply array_inv in H. lia. }
  assert (Hmb : forall i e, mboxes s2 !! i = Some e -> e = mark_freed mbox_zero). { intros i e. cbn. rewrite Hm2. destruct (decide _); [by intros [= <-]|]. cbn. intros H. apply array_inv in H. lia. }
  assert (Hno : forall x i b, ~ owns s2 x i b). { intros x i b (e & He & Hfe & _). apply Hmb in He as ->. done. }
  constructor; [constructor|done|done|].
  - done.
  - intros x Hx. change (sems s2) with m. destruct (proj1 (Hf x) Hx) as [Hx'|Hx']; [by destruct (not_elem_of_nil x)|]. exists (mkSem true 0 0 0). rewrite Hm, decide_True by exact Hx'. split; reflexivity.
  - intros x e He. apply Hsem in He as [H ->]. cbn. lia.
  - intros i e He. apply Hmb in He as ->. done.
  - intros i. rewrite lookup_empty. split; [by intros []|]. intros (e & He & Hfe). apply Hmb in He as ->. done.
  - intros i e l0 _. by rewrite lookup_empty.
  - intros x i j b b' Ho. destruct (Hno _ _ _ Ho).
  - constructor.
  - intros a p Ha Hj. cbn in Hj. by rewrite (Hp a p Ha Hj).
Qed.

Lemma accept_fun qs e q1 q2 : accept qs e q1 -> accept qs e q2 -> q1 = q2.
Proof. destruct 1; inversion 1; subst; congruence || simplify_eq; done. Qed.

Lemma accepts_inv tr0 q : accepts tr0 q -> (tr0 = [] /\ q = ∅) \/ exists tr qs e, tr0 = tr ++ [e] /\ accepts tr qs /\ accept qs e q.
Proof. destruct 1 as [|tr qs e qs' H Ha]; [by left|right; by exists tr, qs, e]. Qed.

Lemma accepts_fun tr q1 q2 : accepts tr q1 -> accepts tr q2 -> q1 = q2.
Proof.
  intros H. revert q2. induction H as [|tr qs e qs' H IH Ha]; intros q2 H2; destruct (accepts_inv _ _ H2) as [[E ->]|(tr2 & qs2 & e2 & E & H3 & Ha2)].
  - done.
  - by destruct tr2.
  - by destruct tr.
  - apply app_inj_tail in E as [-> ->]. rewrite (IH qs2 H3) in Ha. by apply (accept_fun qs2 e2).
Qed.

Lemma reach_ok σ σ' : ok σ -> rtc step σ σ' -> ok σ'.
Proof. intros H Hr. induction Hr as [|? ? ? Hs _ IH]; [done|]. apply IH. by eapply step_ok. Qed.
End Spec.

(** The server: the clock goes on and has not run over, and at the beginning no
    thread waits. *)
Record server (clock : nat -> Z) (sems_addr : Z) (t : tstate) (l k : list Z) : Prop := {
  sv_mono : forall i j, (i <= j)%nat -> clock i <= clock j;
  sv_range : forall i, 0 <= clock i < SYS_ARCH_TIMEOUT;
  sv_addr : 0 < sems_addr;
  sv_threads : threads_ok t l k;
  sv_cur : cur_tc t <> 0;
  sv_places : forall a p, a ∈ l -> jbs (tcs t) !! a = Some (at_setjmp p) -> p = InClient
}.

(** C32: In every interleaving of the threads the mailboxes are queues.  After
    [sys_init], whatever [allowed] operations the threads do, the messages posted to and fetched
    from every mailbox are those of a queue of at most 32 messages, which is
    what the slots of the mailbox hold, and no thread that is inside an
    operation on a mailbox or a semaphore runs into a panic or a fault. *)
Theorem mailboxes_are_queues clock sems_addr cleanup entry t l k : server clock sems_addr t l k ->
  exists s0, sys_init (sys_boot t) = SRet tt s0 /\ forall c s, rtc (step clock sems_addr cleanup entry) (CClient 0, s0) (c, s) ->
    exists qs, accepts (events s) qs /\ (forall i e, mboxes s !! i = Some e -> mb_freed e = false -> exists q, qs !! i = Some q /\ ring e q) /\
      match c with
      | CSem w => exists c' s', sem_round clock sems_addr w s = SRet c' s'
      | CWait w a val msec st p => exists c' s', wait_round clock sems_addr w a val msec st p s = SRet c' s'
      | _ => True
      end.
Proof.
  intros [H1 H2 H3 H4 H5 H6]. destruct (init_ok clock t l k H4 H5 H6) as (s0 & E0 & Hi0). exists s0. split; [exact E0|]. clear E0. intros c s Hr.
  destruct (reach_ok clock sems_addr cleanup entry H1 H2 H3 _ _ (client_inv clock s0 l k ∅ 0 Hi0) Hr) as (l' & k' & qs & Hi & Hc). cbn [fst snd] in *. exists qs. pose proof Hi as [[] _ _ _]. split; [done|]. split.
  - intros i e He Hf. destruct (proj2 (b_live0 i) ltac:(by exists e)) as [q Hq]. exists q. split; [done|]. by apply (b_ring0 i e q He Hq).
  - destruct c as [w|w a val msec st p| |]; [| |done..].
    + destruct (sem_round_run clock sems_addr H1 H2 s l' k' qs w Hi Hc) as (c' & s' & qs' & E & _). by exists c', s'.
    + destruct (wait_round_run clock sems_addr H1 H2 H3 s l' k' qs w a val msec st p Hi Hc) as (c' & s' & l'' & E & _). by exists c', s'.
Qed.

(** C33: No wake-up is lost.  A thread that waits for a message without a limit
    and is resumed while the mailbox holds one leaves the wait at once and
    fetches the oldest message. *)
Theorem waiting_thread_fetches clock sems_addr cleanup entry t l k s0 s w a val msec st p i m q qs : server clock sems_addr t l k -> sys_init (sys_boot t) = SRet tt s0 ->
  rtc (step clock sems_addr cleanup entry) (CClient 0, s0) (CWait w a val msec st p, s) -> w_after w = AFetch i -> w_tm w = 0 -> accepts (events s) qs -> qs !! i = Some (m :: q) ->
  exists w' s1 r s2, wait_round clock sems_addr w a val msec st p s = SRet (CSem w') s1 /\ sem_round clock sems_addr w' s1 = SRet (CClient r) s2 /\ events s2 = events s ++ [Fetched i m].
Proof.
  intros [H1 H2 H3 H4 H5 H6] E0 Hr Ea Et Hacc Hq. destruct (init_ok clock t l k H4 H5 H6) as (s0' & E0' & Hi0). rewrite E0 in E0'. injection E0' as <-. clear E0.
  destruct (reach_ok clock sems_addr cleanup entry H1 H2 H3 _ _ (client_inv clock s0 l k ∅ 0 Hi0) Hr) as (l' & k' & qs' & Hi & Hc). cbn [fst snd] in *. rewrite (accepts_fun _ _ _ Hacc (b_events _ _ (i_base _ _ _ _ _ Hi))) in *. clear Hacc.
  pose proof Hc as ((_ & _ & _ & _ & Ho) & _). rewrite Ea in Ho. destruct (owner_entry s qs' _ i true (i_base _ _ _ _ _ Hi) Ho) as (e & q' & He & _ & Hq' & Ex & _ & (eq & Heq & Hfq & Hcq) & _). rewrite Hq in Hq'. injection Hq' as <-. rewrite Ex in Heq. cbn [length] in Hcq.
  destruct (wait_round_run clock sems_addr H1 H2 H3 s l' k' qs' w a val msec st p Hi Hc) as (c & s1 & l1 & E1 & Hi1 & Hc1 & Hpos). destruct (Hpos eq Heq ltac:(lia)) as (waited & -> & Es & Em & Eev). rewrite Ea, Et in *.
  set (w' := mkWait (w_sem w) 0 waited (w_gen w) (AFetch i)) in *. destruct Hc1 as [(_ & _ & _ & _ & Ho1) Hw1]. pose proof (H2 (ticks s1)). rewrite <- Es in Heq.
  destruct (fetch_run clock sems_addr H1 s1 l1 k' qs' (w_sem w) eq i waited Hi1 Ho1 Heq Hfq ltac:(lia)) as (s2 & m' & q' & E2 & Hq2 & _ & _ & Eev2); [cbn in Hw1; lia|]. rewrite Hq in Hq2. injection Hq2 as <- <-.
  exists w', s1, waited, s2. split; [done|]. split; [|by rewrite Eev2, Eev]. unfold sem_round, mbind, S_bind. cbn [w_tm w_sem w_after w_waited w' Z.eqb orb]. unfold sem_at at 1. rewrite Heq, (proj2 (Z.ltb_lt 0 _)) by lia. unfold set_sem, smodify, finish, mbind, S_bind. by rewrite E2.
Qed.

(** ** A run *)

Section Run.
Context (clock : nat -> Z) (sems_addr cleanup entry : Z).

(** Operations that are always allowed. *)
Definition plain (o : op) : bool :=
  match o with OSend _ _ _ | OMboxNew _ | OYield => true | OFetch _ tm => (0 <=? tm) && (tm <? 4294967296) | _ => false end.

(** Steps with the given operations of the threads, in order. *)
Fixpoint exec (n : nat) (ops : list op) (c : control) (s : sys) : option (control * sys) :=
  match n with
  | O => Some (c, s)
  | S n' =>
      match c, ops with
      | CSem w, _ => match sem_round clock sems_addr w s with SRet c' s' => exec n' ops c' s' | _ => None end
      | CWait w a val msec st p, _ => match wait_round clock sems_addr w a val msec st p s with SRet c' s' => exec n' ops c' s' | _ => None end
      | CEntry, _ => exec n' ops (CClient 0) s
      | CClient _, o :: ops' => if plain o then match operate clock sems_addr cleanup entry o s with SRet (Some c') s' => exec n' ops' c' s' | _ => None end else None
      | CClient _, [] => None
      end
  end.

Lemma plain_allowed s l o : plain o = true -> allowed s l o.
Proof. destruct o; cbn; try done. intros H. bool_prop. lia. Qed.

Lemma exec_steps (H1 : forall i j, (i <= j)%nat -> clock i <= clock j) (H2 : forall i, 0 <= clock i < SYS_ARCH_TIMEOUT) (H3 : 0 < sems_addr) n : forall ops c s σ,
  ok clock (c, s) -> exec n ops c s = Some σ -> rtc (step clock sems_addr cleanup entry) (c, s) σ.
Proof.
  induction n as [|n IH]; intros ops c s σ Hok E; [injection E as <-; apply rtc_refl|]. assert (Hgo : forall ops' c' s', step clock sems_addr cleanup entry (c, s) (c', s') -> exec n ops' c' s' = Some σ -> rtc (step clock sems_addr cleanup entry) (c, s) σ).
  { intros ops' c' s' Hs E'. eapply rtc_l; [exact Hs|]. eapply IH; [|exact E']. eapply step_ok; done. }
  cbn [exec] in E. destruct c as [w|w a val msec st p| |r].
  - destruct (sem_round clock sems_addr w s) as [c' s'| |] eqn:Er; [|discriminate E..]. eapply Hgo; [by constructor|exact E].
  - destruct (wait_round clock sems_addr w a val msec st p s) as [c' s'| |] eqn:Er; [|discriminate E..]. eapply Hgo; [by constructor|exact E].
  - eapply Hgo; [by constructor|exact E].
  - destruct ops as [|o ops]; [discriminate E|]. destruct (plain o) eqn:Ep; [|discriminate E]. destruct (operate clock sems_addr cleanup entry o s) as [[c'|] s'| |] eqn:Er; [|discriminate E..].
    destruct Hok as (l & k & qs & Hi & _). eapply Hgo; [|exact E]. eapply step_client; [exact (i_threads _ _ _ _ _ Hi)|by apply plain_allowed|exact Er].
Qed.
End Run.

Definition tc_sample (tid link : Z) : @thread_context place := mkTc tid 0 [] 0 0 (at_entry 0) 0 false [] link.
Definition two_threads : tstate := mkTs (<[4096 := tc_sample 0 0]> {[8192 := tc_sample 1 0]}) 2 4096 (mkTq 8192 8192) (mkTq 0 0).
Definition clock_sample (n : nat) : Z := Z.min 1000 (Z.of_nat n).

Lemma server_sample : server clock_sample 65536 two_threads [8192] [].
Proof.
  constructor; [unfold clock_sample; lia|unfold clock_sample, SYS_ARCH_TIMEOUT; lia|lia| |done|].
  - constructor; [|split; [done|split; [done|constructor]]|by apply NoDup_singleton|].
    + split; [|split; [done|by apply NoDup_singleton]]. cbn [links two_threads t_queue tq_first]. split; [done|]. split; [done|]. by exists (tc_sample 1 0).
    + intros _. split; [|by eexists]. cbn. by intros H%list_elem_of_singleton.
  - intros a p Ha%list_elem_of_singleton. subst a. done.
Qed.

Definition start : sys := match sys_init (sys_boot two_threads) with SRet _ s => s | _ => sys_boot two_threads end.

Lemma start_init : sys_init (sys_boot two_threads) = SRet tt start.
Proof. vm_compute. reflexivity. Qed.

Lemma sret_inj {A} (a b : A) s s' : SRet a s = SRet b s' -> s = s'.
Proof. by intros [= _ ->]. Qed.

Lemma start_ok : ok clock_sample (CClient 0, start).
Proof.
  destruct server_sample as [H1 H2 H3 H4 H5 H6]. destruct (init_ok clock_sample two_threads [8192] [] H4 H5 H6) as (s0 & E & Hi). rewrite start_init in E. apply sret_inj in E. rewrite <- E in Hi. exact (client_inv clock_sample start _ _ _ 0 Hi).
Qed.

(** The first thread makes a mailbox and waits for a message, the second posts
    one and yields. *)
Definition run_sample : option (control * sys) := exec clock_sample 65536 1 2 8 [OMboxNew 16; OFetch 127 0; OSend true 127 77; OYield] (CClient 0) start.

Definition run_wait : waiting := mkWait 255 0 0 1 (AFetch 127).
Definition run_state : sys := match run_sample with Some σ => σ.2 | None => start end.

Lemma run_reached : rtc (step clock_sample 65536 1 2) (CClient 0, start) (CWait run_wait 0 65536 4294967295 1 2, run_state).
Proof.
  destruct server_sample as [H1 H2 H3 _ _ _]. apply (exec_steps clock_sample 65536 1 2 H1 H2 H3 8 [OMboxNew 16; OFetch 127 0; OSend true 127 77; OYield]); [exact start_ok|]. vm_compute. reflexivity.
Qed.

Lemma run_events : events run_state = [Created 127; Posted 127 77] /\ exists e, mboxes run_state !! 127 = Some e /\ mb_freed e = false.
Proof. split; [vm_compute; reflexivity|]. eexists. split; vm_compute; reflexivity. Qed.

Lemma run_queue : accepts (events run_state) {[127 := [77]]}.
Proof.
  rewrite (proj1 run_events). apply (accepts_snoc [Created 127] {[127 := []]}); [apply (accepts_snoc [] ∅); [constructor|by apply accept_created]|]. replace {[127 := [77]]} with (<[127 := [] ++ [77]]> ({[127 := []]} : queues)) by (by rewrite insert_singleton). apply accept_posted; [done|]. unfold MBOXSLOTS. cbn. lia.
Qed.

Lemma mailboxes_are_queues_witness : exists qs q e, accepts [Created 127; Posted 127 77] qs /\ mboxes run_state !! 127 = Some e /\ qs !! 127 = Some q /\ ring e q.
Proof.
  destruct (mailboxes_are_queues clock_sample 65536 1 2 two_threads [8192] [] server_sample) as (s0 & E & H). rewrite start_init in E. apply sret_inj in E. rewrite <- E in H. clear E.
  destruct (H _ _ run_reached) as (qs & Ha & Hm & _). destruct run_events as [Eev (e & He & Hf)]. destruct (Hm 127 e He Hf) as (q & Hq & Hr). exists qs, q, e. rewrite <- Eev. split; [exact Ha|]. split; [exact He|]. split; [exact Hq|exact Hr].
Defined.

Lemma waiting_thread_fetches_witness : exists w' s1 r s2, wait_round clock_sample 65536 run_wait 0 65536 4294967295 1 2 run_state = SRet (CSem w') s1 /\ sem_round clock_sample 65536 w' s1 = SRet (CClient r) s2 /\ events s2 = [Created 127; Posted 127 77; Fetched 127 77].
Proof.
  destruct (waiting_thread_fetches clock_sample 65536 1 2 two_threads [8192] [] start run_state run_wait 0 65536 4294967295 1 2 127 77 [] {[127 := [77]]} server_sample start_init run_reached eq_refl eq_refl run_queue eq_refl) as (w' & s1 & r & s2 & E1 & E2 & E3).
  rewrite (proj1 run_events) in E3. exists w', s1, r, s2. split; [exact E1|]. split; [exact E2|exact E3].
Defined.
