(* ===== verification/BlockCache.v ===== *)
(** * The disk and the block cache of the file server ([fs/ide.c], [fs/bc.c])

    The file server maps disk block [n] at [DISKMAP + n * BLKSIZE].  A block is
    read from the disk when the server first touches its page: the page fault
    handler [bc_pgfault] allocates the page and fills it.  The processor marks
    a page that is written as dirty; [flush_block] writes a dirty block back.

    The state of the server is the disk, its memory by address, and which
    blocks are mapped and dirty.  Loads and stores of the server's code go
    through the page fault handler.  The IDE controller is the disk it drives:
    a sector can be bad, which the controller reports after the sectors before
    it were transferred.  Messages are not modelled. *)

From S2P Require Import Prelude LibString Mmu.

Abbreviation DISKMAP := 0x10000000 (only parsing).
Abbreviation DISKSIZE := 0xC0000000 (only parsing).
Abbreviation BLKSIZE := 4096 (only parsing).
Abbreviation SECTSIZE := 512 (only parsing).
Abbreviation BLKSECTS := 8 (only parsing).
Abbreviation BLKBITSIZE := 32768 (only parsing).
Abbreviation FSREQ := 0x0FFFF000 (only parsing).

(** [super] and [bitmap] are the two global pointers; [fs_pages] is the number
    of pages the kernel can still hand out. *)
Record fsrv := mkFsrv {
  d_disk : bmem;
  d_bad : Z -> bool;
  fs_mem : bmem;
  bc_mapped : gset Z;
  bc_dirty : gset Z;
  fs_pages : Z;
  super : Z;
  bitmap : Z
}.

Definition set_disk (v : bmem) (s : fsrv) : fsrv :=
  mkFsrv v (d_bad s) (fs_mem s) (bc_mapped s) (bc_dirty s) (fs_pages s) (super s) (bitmap s).
Definition set_fs_mem (v : bmem) (s : fsrv) : fsrv :=
  mkFsrv (d_disk s) (d_bad s) v (bc_mapped s) (bc_dirty s) (fs_pages s) (super s) (bitmap s).
Definition set_mapped (v : gset Z) (s : fsrv) : fsrv :=
  mkFsrv (d_disk s) (d_bad s) (fs_mem s) v (bc_dirty s) (fs_pages s) (super s) (bitmap s).
Definition set_dirty (v : gset Z) (s : fsrv) : fsrv :=
  mkFsrv (d_disk s) (d_bad s) (fs_mem s) (bc_mapped s) v (fs_pages s) (super s) (bitmap s).
Definition set_pages_left (v : Z) (s : fsrv) : fsrv :=
  mkFsrv (d_disk s) (d_bad s) (fs_mem s) (bc_mapped s) (bc_dirty s) v (super s) (bitmap s).
Definition set_super (v : Z) (s : fsrv) : fsrv :=
  mkFsrv (d_disk s) (d_bad s) (fs_mem s) (bc_mapped s) (bc_dirty s) (fs_pages s) v (bitmap s).
Definition set_bitmap (v : Z) (s : fsrv) : fsrv :=
  mkFsrv (d_disk s) (d_bad s) (fs_mem s) (bc_mapped s) (bc_dirty s) (fs_pages s) (super s) v.

(** ** The server's monad: a result, or [panic] *)

Inductive fres (A : Type) :=
  | FRet (a : A) (s : fsrv)
  | FPanic (msg : string).
Arguments FRet {A} a s.
Arguments FPanic {A} msg.

Definition F (A : Type) : Type := fsrv -> fres A.

#[export] Instance F_ret : MRet F := λ A a s, FRet a s.
#[export] Instance F_bind : MBind F := λ A B f m s,
  match m s with
  | FRet a s' => f a s'
  | FPanic msg => FPanic msg
  end.

Definition fpanic {A} (msg : string) : F A := λ _, FPanic msg.
Definition fget {A} (f : fsrv -> A) : F A := λ s, FRet (f s) s.
Definition fmodify (f : fsrv -> fsrv) : F unit := λ s, FRet tt (f s).
Definition fassert (b : bool) (msg : string) : F unit := if b then mret tt else fpanic msg.

(** ** The IDE disk *)

(** The controller gets 28 bits of the sector number and counts up from it. *)
Definition ide_sector (secno : Z) : Z := secno .& 0x0FFFFFFF.

Definition copy_in (a len from : Z) (src m : bmem) : bmem :=
  λ x, if (a <=? x) && (x <? a + len) then src (x - a + from) else m x.

(** The block an address of the disk map belongs to. *)
Definition blk (a : Z) : Z := (a - DISKMAP) / BLKSIZE.

Fixpoint ide_read_loop (n : nat) (sec dst : Z) : F Z :=
  match n with
  | O => mret 0
  | S n' =>
      bad ← fget (λ s, d_bad s sec);
      if (bad : bool) then mret (-1)
      else
        fmodify (λ s, set_dirty ({[blk dst]} ∪ bc_dirty s)
                        (set_fs_mem (copy_in dst SECTSIZE (sec * SECTSIZE) (d_disk s) (fs_mem s)) s)) ;;
        ide_read_loop n' (sec + 1) (dst + SECTSIZE)
  end.

Definition ide_read (secno dst nsecs : Z) : F Z :=
  fassert (nsecs <=? 256) "assertion failed: nsecs <= 256" ;;
  ide_read_loop (Z.to_nat nsecs) (ide_sector secno) dst.

Fixpoint ide_write_loop (n : nat) (sec src : Z) : F Z :=
  match n with
  | O => mret 0
  | S n' =>
      bad ← fget (λ s, d_bad s sec);
      if (bad : bool) then mret (-1)
      else
        fmodify (λ s, set_disk (copy_in (sec * SECTSIZE) SECTSIZE src (fs_mem s) (d_disk s)) s) ;;
        ide_write_loop n' (sec + 1) (src + SECTSIZE)
  end.

Definition ide_write (secno src nsecs : Z) : F Z :=
  fassert (nsecs <=? 256) "assertion failed: nsecs <= 256" ;;
  ide_write_loop (Z.to_nat nsecs) (ide_sector secno) src.

(** ** Mapped memory *)

Definition va_is_mapped (va : Z) (s : fsrv) : bool := bool_decide (blk va ∈ bc_mapped s).
Definition va_is_dirty (va : Z) (s : fsrv) : bool := bool_decide (blk va ∈ bc_dirty s).

(** The 32-bit word at [a] of memory that is there. *)
Definition word_at (m : bmem) (a : Z) : Z :=
  m a + 256 * m (a + 1) + 65536 * m (a + 2) + 16777216 * m (a + 3).

Definition in_diskmap (a : Z) : bool := (DISKMAP <=? a) && (a <? DISKMAP + DISKSIZE).

(** The page of [a] is there: a cached block, or the page of the request. *)
Definition present (a : Z) (s : fsrv) : bool :=
  if in_diskmap a then va_is_mapped a s else (FSREQ <=? a) && (a <? DISKMAP).

(** [sys_page_alloc] and [sys_page_map] of a page onto itself, which clears the
    dirty bit. *)
Definition page_alloc_at (a : Z) : F bool := λ s,
  if 0 <? fs_pages s
  then FRet true (set_fs_mem (λ x, if (a <=? x) && (x <? a + BLKSIZE) then 0 else fs_mem s x)
         (set_mapped ({[blk a]} ∪ bc_mapped s)
           (set_dirty (bc_dirty s ∖ {[blk a]}) (set_pages_left (fs_pages s - 1) s))))
  else FRet false s.

Definition clear_dirty (a : Z) : F unit := fmodify (λ s, set_dirty (bc_dirty s ∖ {[blk a]}) s).

(** The handler reads [super->s_nblocks] and the bitmap itself; [fuel] counts
    nested faults. *)
Fixpoint bc_pgfault (fuel : nat) (addr : Z) {struct fuel} : F unit :=
  match fuel with
  | O => fpanic "nested page faults"
  | S fu =>
      let blockno := blk addr in
      fassert (in_diskmap addr) "page fault in FS" ;;
      sup ← fget super;
      n ← (if sup =? 0 then mret 0 else fload32_with fu (sup + 4));
      if negb (sup =? 0) && (n <=? blockno) then fpanic "reading non-existent block"
      else
        let addr := ROUNDDOWN addr BLKSIZE in
        ok ← page_alloc_at addr;
        fassert ok "bg_pgfault: sys_page_alloc" ;;
        r ← ide_read (u32 (blockno * BLKSECTS)) addr BLKSECTS;
        fassert (r =? 0) "bc_pgfault, ide_read" ;;
        clear_dirty addr ;;
        bm ← fget bitmap;
        if bm =? 0 then mret tt
        else
          n ← (if sup =? 0 then mret 0 else fload32_with fu (sup + 4));
          if (sup =? 0) || (n <=? blockno) then mret tt
          else
            w ← fload32_with fu (bm + 4 * (blockno / 32));
            fassert (negb (hasbits w (Z.shiftl 1 (blockno mod 32)))) "reading free block"
  end
with fload32_with (fuel : nat) (a : Z) {struct fuel} : F Z :=
  match fuel with
  | O => fpanic "nested page faults"
  | S fu =>
      p ← fget (present a);
      (if (p : bool) then mret tt else bc_pgfault fu a) ;;
      fget (λ s, word_at (fs_mem s) a)
  end.

(** A fault on an ordinary block can fault on its bitmap block, and that one on
    the first bitmap block. *)
Definition touch (a : Z) : F unit :=
  p ← fget (present a);
  if (p : bool) then mret tt else bc_pgfault 6 a.

Definition fload8 (a : Z) : F Z := touch a ;; fget (λ s, fs_mem s a).

Definition fstore8 (a b : Z) : F unit :=
  touch a ;;
  fmodify (λ s, set_fs_mem (put a (u8 b) (fs_mem s)) (if in_diskmap a then set_dirty ({[blk a]} ∪ bc_dirty s) s else s)).

Definition fload32 (a : Z) : F Z := touch a ;; fget (λ s, word_at (fs_mem s) a).

Definition put32 (a v : Z) (m : bmem) : bmem :=
  put (a + 3) (u8 (Z.shiftr v 24)) (put (a + 2) (u8 (Z.shiftr v 16)) (put (a + 1) (u8 (Z.shiftr v 8)) (put a (u8 v) m))).

Definition fstore32 (a v : Z) : F unit :=
  touch a ;;
  fmodify (λ s, set_fs_mem (put32 a v (fs_mem s)) (if in_diskmap a then set_dirty ({[blk a]} ∪ bc_dirty s) s else s)).

Fixpoint fload_list (n : nat) (a : Z) : F (list Z) :=
  match n with
  | O => mret []
  | S n' => b ← fload8 a; l ← fload_list n' (a + 1); mret (b :: l)
  end.

Fixpoint fstore_list (a : Z) (l : list Z) : F unit :=
  match l with
  | [] => mret tt
  | b :: l' => fstore8 a b ;; fstore_list (a + 1) l'
  end.

(** [memmove(dst, src, n)] *)
Definition fmemmove (dst src n : Z) : F unit := l ← fload_list (Z.to_nat n) src; fstore_list dst l.

(** [strcmp(a, name) == 0] for a local string. *)
Fixpoint fstreq (a : Z) (name : list Z) : F bool :=
  b ← fload8 a;
  match name with
  | [] => mret (b =? 0)
  | c :: name' => if negb (b =? 0) && (b =? c) then fstreq (a + 1) name' else mret false
  end.

(** ** [fs/bc.c] *)

Definition nblocks : F Z := sup ← fget super; fload32 (sup + 4).

Definition diskaddr (blockno : Z) : F Z :=
  sup ← fget super;
  n ← (if negb (blockno =? 0) && negb (sup =? 0) then nblocks else mret 0);
  if (blockno =? 0) || (negb (sup =? 0) && (n <=? blockno)) then fpanic "bad block number in diskaddr"
  else mret (u32 (DISKMAP + blockno * BLKSIZE)).

Definition flush_block (addr : Z) : F unit :=
  fassert (in_diskmap addr) "flush_block of bad va" ;;
  let blockno := blk addr in
  let addr := ROUNDDOWN addr BLKSIZE in
  m ← fget (va_is_mapped addr);
  if negb m then mret tt
  else
    d ← fget (va_is_dirty addr);
    if negb d then mret tt
    else
      ide_write (u32 (blockno * BLKSECTS)) addr BLKSECTS ;;
      clear_dirty addr.

(** [sys_page_unmap(0, addr)] *)
Definition page_unmap (addr : Z) : F unit := fmodify (λ s,
  if va_is_mapped addr s
  then set_mapped (bc_mapped s ∖ {[blk addr]}) (set_dirty (bc_dirty s ∖ {[blk addr]}) (set_pages_left (fs_pages s + 1) s))
  else s).

(** "OOPS!" and a newline, with the terminating NUL. *)
Definition oops : list Z := [79; 79; 80; 83; 33; 10; 0].

Abbreviation sizeof_Super := 264 (only parsing).

Definition check_bc : F unit :=
  a ← diskaddr 1;
  backup ← fload_list (Z.to_nat sizeof_Super) a;
  fstore_list a oops ;;
  flush_block a ;;
  m ← fget (va_is_mapped a);
  fassert m "assertion failed: va_is_mapped(diskaddr(1))" ;;
  d ← fget (va_is_dirty a);
  fassert (negb d) "assertion failed: !va_is_dirty(diskaddr(1))" ;;
  page_unmap a ;;
  m ← fget (va_is_mapped a);
  fassert (negb m) "assertion failed: !va_is_mapped(diskaddr(1))" ;;
  e ← fstreq a [79; 79; 80; 83; 33; 10];
  fassert e "assertion failed: strcmp(diskaddr(1), OOPS!) == 0" ;;
  fstore_list a backup ;;
  flush_block a.

(** Reading the super block caches it. *)
Definition bc_init : F unit :=
  check_bc ;;
  a ← diskaddr 1;
  fload_list (Z.to_nat sizeof_Super) a ;;
  mret tt.
