(* ===== verification/BlockCacheSpec.v ===== *)
(** * What the block cache promises

    Seen through the cache, the disk is a memory: the logical content of an
    address is the cached byte, or the byte on the disk.  Loads return it,
    stores change it at one address, page faults and [flush_block] leave it
    alone; after [flush_block] it is on the disk. *)

From S2P Require Import Prelude LibString Mmu BlockCache.

(** ** The monad *)

Lemma fbind_Ret {A B} (m : F A) (f : A -> F B) s a s' : m s = FRet a s' -> (m ≫= f) s = f a s'.
Proof. intros H. unfold mbind, F_bind. by rewrite H. Qed.

Lemma fbind_assoc {A B C} (m : F A) (f : A -> F B) (g : B -> F C) s :
  ((m ≫= f) ≫= g) s = (m ≫= (λ a, f a ≫= g)) s.
Proof. unfold mbind, F_bind. by destruct (m s). Qed.

Lemma fbind_get {A B} (f : fsrv -> A) (k : A -> F B) s : (fget f ≫= k) s = k (f s) s.
Proof. done. Qed.

Lemma fbind_modify {B} (f : fsrv -> fsrv) (k : unit -> F B) s : (fmodify f ≫= k) s = k tt (f s).
Proof. done. Qed.

Lemma fbind_mret {A B} (a : A) (k : A -> F B) s : (mret a ≫= k) s = k a s.
Proof. done. Qed.

Lemma fbind_assert {B} b msg (k : unit -> F B) s : b = true -> (fassert b msg ≫= k) s = k tt s.
Proof. by intros ->. Qed.

Tactic Notation "fstep" "by" tactic3(t) := erewrite fbind_Ret by t; cbv beta iota.

(** ** The logical content of the disk *)

Definition lview (s : fsrv) : bmem :=
  λ a, if in_diskmap a && negb (va_is_mapped a s) then d_disk s (a - DISKMAP) else fs_mem s a.

Abbreviation SUPER := (DISKMAP + BLKSIZE) (only parsing).
Abbreviation BITMAP := (DISKMAP + 2 * BLKSIZE) (only parsing).

Definition nb (L : bmem) : Z := word_at L (SUPER + 4).
Definition isfree (L : bmem) (b : Z) : bool := hasbits (word_at L (BITMAP + 4 * (b / 32))) (Z.shiftl 1 (b mod 32)).

(** A block that may be touched. *)
Definition used (L : bmem) (b : Z) : Prop := 1 <= b < nb L /\ isfree L b = false.

(** The state of the server after [fs_init]: the super block and the first
    bitmap block are cached, clean blocks agree with the disk, there is memory
    for every block and no bad sector; blocks 0, 1 and those of the bitmap are
    in use. *)
Record healthy (s : fsrv) : Prop := {
  h_super : super s = SUPER;
  h_bitmap : bitmap s = BITMAP;
  h_good : forall x, d_bad s x = false;
  h_nb : 2 < nb (lview s) <= 786432;
  h_res1 : 1 ∈ bc_mapped s;
  h_res2 : 2 ∈ bc_mapped s;
  h_range : forall b, b ∈ bc_mapped s -> 0 <= b < nb (lview s);
  h_pages : nb (lview s) <= Z.of_nat (size (bc_mapped s)) + fs_pages s;
  h_dirty : bc_dirty s ⊆ bc_mapped s;
  h_clean : forall a, in_diskmap a = true -> blk a ∈ bc_mapped s -> blk a ∉ bc_dirty s ->
              fs_mem s a = d_disk s (a - DISKMAP);
  h_meta : forall i, -2 <= i -> i * BLKBITSIZE < nb (lview s) -> isfree (lview s) (2 + i) = false
}.

(** [s'] is [s] with the same logical content and more blocks cached. *)
Record same_view (s s' : fsrv) : Prop := {
  sv_healthy : healthy s';
  sv_view : forall a, lview s' a = lview s a;
  sv_mapped : bc_mapped s ⊆ bc_mapped s'
}.

Lemma word_at_ext m m' a : (forall x, a <= x < a + 4 -> m' x = m x) -> word_at m' a = word_at m a.
Proof. intros H. unfold word_at. by rewrite !H by lia. Qed.

Lemma nb_ext L L' : (forall a, L' a = L a) -> nb L' = nb L.
Proof. intros H. by apply word_at_ext. Qed.

Lemma isfree_ext L L' b : (forall a, L' a = L a) -> isfree L' b = isfree L b.
Proof. intros H. unfold isfree. by rewrite (word_at_ext L L'). Qed.

Lemma used_ext L L' b : (forall a, L' a = L a) -> used L b -> used L' b.
Proof. intros H [? ?]. unfold used. by rewrite (nb_ext L L' H), (isfree_ext L L' b H). Qed.

Lemma same_view_refl s : healthy s -> same_view s s.
Proof. intros H. by constructor. Qed.

Lemma same_view_trans s1 s2 s3 : same_view s1 s2 -> same_view s2 s3 -> same_view s1 s3.
Proof.
  intros [H1 V1 M1] [H2 V2 M2]. constructor; [done| |set_solver]. intros a. by rewrite V2, V1.
Qed.

(** Addresses of the disk map. *)
Lemma blk_addr b o : 0 <= o < BLKSIZE -> blk (DISKMAP + b * BLKSIZE + o) = b.
Proof.
  intros Ho. unfold blk. replace (DISKMAP + b * BLKSIZE + o - DISKMAP) with (b * BLKSIZE + o) by lia.
  rewrite Z.div_add_l, Z.div_small by lia. lia.
Qed.

Lemma blk_spec a : DISKMAP + blk a * BLKSIZE <= a < DISKMAP + blk a * BLKSIZE + BLKSIZE.
Proof.
  unfold blk. pose proof (Z.div_mod (a - DISKMAP) BLKSIZE ltac:(lia)).
  pose proof (Z.mod_pos_bound (a - DISKMAP) BLKSIZE ltac:(lia)). lia.
Qed.

Lemma blk_unique a b : DISKMAP + b * BLKSIZE <= a < DISKMAP + b * BLKSIZE + BLKSIZE -> blk a = b.
Proof. intros H. pose proof (blk_spec a). lia. Qed.

Lemma diskmap_blk a : 0 <= blk a < 786432 -> in_diskmap a = true.
Proof. intros H. pose proof (blk_spec a). unfold in_diskmap. apply andb_true_iff. rewrite Z.leb_le, Z.ltb_lt. lia. Qed.

Lemma rounddown_blk a : in_diskmap a = true -> ROUNDDOWN a BLKSIZE = DISKMAP + blk a * BLKSIZE.
Proof.
  unfold in_diskmap. rewrite andb_true_iff, Z.leb_le, Z.ltb_lt. intros H. rewrite ROUNDDOWN_page by lia.
  pose proof (blk_spec a). rewrite <- (Z.div_unique a 4096 (65536 + blk a) (a - (DISKMAP + blk a * BLKSIZE))); lia.
Qed.

(** ** Reading a block *)

Lemma ide_sector_small b : 0 <= b < 786432 -> ide_sector (u32 (b * BLKSECTS)) = b * BLKSECTS.
Proof.
  intros Hb. rewrite u32_small by lia. unfold ide_sector. change 0x0FFFFFFF with (Z.ones 28).
  rewrite Z.land_ones by lia. apply Z.mod_small. lia.
Qed.

Lemma ide_read_loop_ok b n : forall sec dst s,
  (forall x, d_bad s x = false) ->
  DISKMAP + b * BLKSIZE <= dst -> dst + SECTSIZE * Z.of_nat n <= DISKMAP + b * BLKSIZE + BLKSIZE ->
  exists D m, ide_read_loop n sec dst s = FRet 0 (set_dirty D (set_fs_mem m s)) /\
    D ∖ {[b]} = bc_dirty s ∖ {[b]} /\
    forall x, m x = if (dst <=? x) && (x <? dst + SECTSIZE * Z.of_nat n) then d_disk s (x - dst + sec * SECTSIZE) else fs_mem s x.
Proof.
  induction n as [|n IH]; intros sec dst s Hg Hlo Hhi.
  - exists (bc_dirty s), (fs_mem s). split; [by destruct s|]. split; [done|]. intros x.
    destruct (Z.leb_spec dst x), (Z.ltb_spec x (dst + SECTSIZE * Z.of_nat 0)); cbn [andb]; done || lia.
  - cbn [ide_read_loop]. rewrite fbind_get, Hg, fbind_modify.
    rewrite (blk_unique dst b) by lia.
    set (s1 := set_dirty _ _). destruct (IH (sec + 1) (dst + SECTSIZE) s1) as (D & m & E & HD & Hm); [done|lia|lia|].
    exists D, m. split; [rewrite E; done|]. split.
    + rewrite HD. subst s1. cbn [bc_dirty set_dirty]. set_solver.
    + intros x. rewrite Hm. subst s1. cbn [d_disk fs_mem set_dirty set_fs_mem]. unfold copy_in.
      destruct (Z.leb_spec (dst + SECTSIZE) x), (Z.ltb_spec x (dst + SECTSIZE + SECTSIZE * Z.of_nat n)),
        (Z.leb_spec dst x), (Z.ltb_spec x (dst + SECTSIZE)), (Z.ltb_spec x (dst + SECTSIZE * Z.of_nat (S n)));
        cbn [andb]; try lia; try done; f_equal; lia.
Qed.

Lemma ide_read_block b s :
  (forall x, d_bad s x = false) -> 0 <= b < 786432 ->
  exists D m, ide_read (u32 (b * BLKSECTS)) (DISKMAP + b * BLKSIZE) BLKSECTS s = FRet 0 (set_dirty D (set_fs_mem m s)) /\
    D ∖ {[b]} = bc_dirty s ∖ {[b]} /\
    forall x, m x = if bool_decide (blk x = b) then d_disk s (x - DISKMAP) else fs_mem s x.
Proof.
  intros Hg Hb. unfold ide_read. rewrite fbind_assert, ide_sector_small by done.
  destruct (ide_read_loop_ok b 8 (b * BLKSECTS) (DISKMAP + b * BLKSIZE) s) as (D & m & E & HD & Hm); [done|lia|lia|].
  exists D, m. split; [done|]. split; [done|]. intros x. rewrite Hm. pose proof (blk_spec x).
  case_bool_decide as E'; destruct (Z.leb_spec (DISKMAP + b * BLKSIZE) x),
    (Z.ltb_spec x (DISKMAP + b * BLKSIZE + SECTSIZE * Z.of_nat 8)); cbn [andb]; try lia; try done.
  f_equal. lia.
Qed.

(** A state that differs from [s] in that block [b] was read in. *)
Lemma fill_same_view s s' b :
  healthy s -> 0 <= b < nb (lview s) -> b ∉ bc_mapped s ->
  d_disk s' = d_disk s -> d_bad s' = d_bad s -> super s' = super s -> bitmap s' = bitmap s ->
  bc_mapped s' = {[b]} ∪ bc_mapped s -> fs_pages s' = fs_pages s - 1 -> bc_dirty s' = bc_dirty s ∖ {[b]} ->
  (forall x, fs_mem s' x = if bool_decide (blk x = b) then d_disk s (x - DISKMAP) else fs_mem s x) ->
  same_view s s'.
Proof.
  intros H Hb Hn E1 E2 E3 E4 E5 E6 E7 Em. pose proof (h_nb _ H) as Hnb.
  assert (Hv : forall a, lview s' a = lview s a).
  { intros a. unfold lview, va_is_mapped. rewrite E1, E5, Em. destruct (in_diskmap a) eqn:Ed; cbn [andb].
    - destruct (decide (blk a = b)) as [Eb|Eb].
      + rewrite (bool_decide_eq_true_2 (blk a = b)), Eb by done. rewrite bool_decide_eq_true_2 by set_solver.
        by rewrite bool_decide_eq_false_2.
      + rewrite (bool_decide_eq_false_2 (blk a = b)) by done.
        by rewrite (bool_decide_ext (blk a ∈ {[b]} ∪ bc_mapped s) (blk a ∈ bc_mapped s)) by set_solver.
    - case_bool_decide as Eb; [|done]. exfalso. rewrite diskmap_blk in Ed; [done|lia]. }
  pose proof (nb_ext _ _ Hv) as Enb. constructor; [|done|set_solver]. constructor.
  - rewrite E3. apply H.
  - rewrite E4. apply H.
  - intros x. rewrite E2. apply H.
  - by rewrite Enb.
  - pose proof (h_res1 _ H). set_solver.
  - pose proof (h_res2 _ H). set_solver.
  - intros b'. rewrite E5, Enb, elem_of_union, elem_of_singleton. intros [-> |Hb']; [done|by apply (h_range _ H)].
  - rewrite Enb, E5, size_union, size_singleton, E6 by set_solver. pose proof (h_pages _ H). lia.
  - pose proof (h_dirty _ H). rewrite E5, E7. set_solver.
  - intros a Ha Hin Hd. rewrite E1, Em. case_bool_decide as Eb; [done|].
    apply (h_clean _ H); [done| |]; [rewrite E5 in Hin; set_solver|rewrite E7 in Hd; set_solver].
  - intros i Hi. rewrite Enb, (isfree_ext _ _ _ Hv). by apply (h_meta _ H).
Qed.

Lemma pages_left s b : healthy s -> 0 <= b < nb (lview s) -> b ∉ bc_mapped s -> 0 < fs_pages s.
Proof.
  intros H Hb Hn. pose proof (h_pages _ H).
  assert (Hsub : {[b]} ∪ bc_mapped s ⊆ list_to_set (seqZ 0 (nb (lview s)))).
  { intros x. rewrite elem_of_list_to_set, elem_of_seqZ, elem_of_union, elem_of_singleton.
    intros [-> |Hx]; [lia|]. pose proof (h_range _ H x Hx). lia. }
  apply subseteq_size in Hsub. rewrite size_union, size_singleton in Hsub by set_solver.
  rewrite size_list_to_set in Hsub by apply NoDup_seqZ. rewrite length_seqZ in Hsub. lia.
Qed.

(** Block [b] was read in. *)
Record filled (b : Z) (s s1 : fsrv) : Prop := {
  fi_disk : d_disk s1 = d_disk s;
  fi_bad : d_bad s1 = d_bad s;
  fi_super : super s1 = super s;
  fi_bitmap : bitmap s1 = bitmap s;
  fi_mapped : bc_mapped s1 = {[b]} ∪ bc_mapped s;
  fi_pages : fs_pages s1 = fs_pages s - 1;
  fi_dirty : bc_dirty s1 = bc_dirty s ∖ {[b]};
  fi_mem : forall x, fs_mem s1 x = if bool_decide (blk x = b) then d_disk s (x - DISKMAP) else fs_mem s x
}.

(** The middle part of the page fault handler. *)
Lemma fill_run s b :
  (forall x, d_bad s x = false) -> 0 <= b < 786432 -> 0 < fs_pages s ->
  exists s1, filled b s s1 /\ forall B (k : F B),
    (ok ← page_alloc_at (DISKMAP + b * BLKSIZE);
     fassert ok "bg_pgfault: sys_page_alloc" ;;
     r ← ide_read (u32 (b * BLKSECTS)) (DISKMAP + b * BLKSIZE) BLKSECTS;
     fassert (r =? 0) "bc_pgfault, ide_read" ;;
     clear_dirty (DISKMAP + b * BLKSIZE) ;; k) s = k s1.
Proof.
  intros Hg Hb Hp. assert (Ebk : blk (DISKMAP + b * BLKSIZE) = b) by (apply blk_unique; lia).
  set (s0 := set_fs_mem (λ x, if (DISKMAP + b * BLKSIZE <=? x) && (x <? DISKMAP + b * BLKSIZE + BLKSIZE) then 0 else fs_mem s x)
         (set_mapped ({[b]} ∪ bc_mapped s) (set_dirty (bc_dirty s ∖ {[b]}) (set_pages_left (fs_pages s - 1) s)))).
  assert (E0 : page_alloc_at (DISKMAP + b * BLKSIZE) s = FRet true s0).
  { unfold page_alloc_at. rewrite Ebk. by destruct (Z.ltb_spec 0 (fs_pages s)); [|lia]. }
  destruct (ide_read_block b s0) as (D & m & E1 & HD & Hm); [done|lia|].
  exists (set_dirty (D ∖ {[b]}) (set_dirty D (set_fs_mem m s0))). split.
  - constructor; try done; cbn [bc_dirty set_dirty].
    + rewrite HD. cbn [s0 bc_dirty set_dirty set_fs_mem set_mapped set_pages_left]. set_solver.
    + intros x. cbn [fs_mem set_dirty set_fs_mem]. rewrite Hm. case_bool_decide as Ex; [done|].
      cbn [s0 fs_mem set_fs_mem]. pose proof (blk_spec x).
      destruct (Z.leb_spec (DISKMAP + b * BLKSIZE) x), (Z.ltb_spec x (DISKMAP + b * BLKSIZE + BLKSIZE)); cbn [andb]; try done.
      exfalso. apply Ex, blk_unique. lia.
  - intros B k. fstep by (exact E0). rewrite fbind_assert by done. fstep by (exact E1). rewrite fbind_assert by done.
    unfold clear_dirty. rewrite fbind_modify, Ebk. done.
Qed.

(** The same on a healthy server. *)
Lemma fault_fill {B} s a (k : F B) :
  healthy s -> 0 <= blk a < nb (lview s) -> blk a ∉ bc_mapped s ->
  exists s1, same_view s s1 /\ blk a ∈ bc_mapped s1 /\
    (ok ← page_alloc_at (DISKMAP + blk a * BLKSIZE);
     fassert ok "bg_pgfault: sys_page_alloc" ;;
     r ← ide_read (u32 (blk a * BLKSECTS)) (DISKMAP + blk a * BLKSIZE) BLKSECTS;
     fassert (r =? 0) "bc_pgfault, ide_read" ;;
     clear_dirty (DISKMAP + blk a * BLKSIZE) ;; k) s = k s1.
Proof.
  intros H Hb Hn. pose proof (h_nb _ H). destruct (fill_run s (blk a)) as (s1 & [F1 F2 F3 F4 F5 F6 F7 F8] & Ek);
    [apply (h_good _ H)|lia|pose proof (pages_left s _ H Hb Hn); lia|].
  exists s1. split; [by apply (fill_same_view s s1 (blk a))|]. split; [rewrite F5; set_solver|apply Ek].
Qed.

(** ** The page fault handler *)

Lemma present_mapped a s : in_diskmap a = true -> present a s = bool_decide (blk a ∈ bc_mapped s).
Proof. intros E. unfold present. by rewrite E. Qed.

Lemma lview_mapped s a : blk a ∈ bc_mapped s -> lview s a = fs_mem s a.
Proof. intros H. unfold lview, va_is_mapped. by rewrite bool_decide_eq_true_2, andb_false_r. Qed.

(** A word that lies within a block. *)
Definition word_in (a : Z) : Prop := a mod 4 = 0 /\ 0 <= blk a < 786432.

Lemma word_in_blk a x : a mod 4 = 0 -> a <= x < a + 4 -> blk x = blk a.
Proof.
  intros H4 Hx. apply blk_unique. pose proof (blk_spec a). pose proof (Z.div_mod a 4 ltac:(lia)).
  set (k := a / 4) in *. set (q := blk a) in *. lia.
Qed.

Lemma word_mapped s a : a mod 4 = 0 -> blk a ∈ bc_mapped s -> word_at (fs_mem s) a = word_at (lview s) a.
Proof.
  intros H4 Hb. apply word_at_ext. intros x Hx. symmetry. apply lview_mapped. by rewrite (word_in_blk a x).
Qed.

Lemma load_mapped fu s a :
  word_in a -> blk a ∈ bc_mapped s -> fload32_with (S fu) a s = FRet (word_at (lview s) a) s.
Proof.
  intros [H4 Hr] Hb. cbn [fload32_with]. rewrite fbind_get, present_mapped by (by apply diskmap_blk).
  rewrite bool_decide_eq_true_2, fbind_mret by done. unfold fget. by rewrite word_mapped.
Qed.

Lemma super_word s fu : healthy s -> fload32_with (S fu) (super s + 4) s = FRet (nb (lview s)) s.
Proof. intros H. rewrite (h_super _ H). apply load_mapped; [done|apply (h_res1 _ H)]. Qed.

(** The bitmap word of block [b]. *)
Definition bword (b : Z) : Z := BITMAP + 4 * (b / 32).

Lemma bword_in b : 0 <= b < 786432 -> word_in (bword b) /\ blk (bword b) = 2 + b / 32768.
Proof.
  intros Hb. unfold word_in, bword. assert (E : b / 32768 = b / 32 / 1024) by (by rewrite Z.div_div).
  assert (Hq : blk (BITMAP + 4 * (b / 32)) = 2 + b / 32768).
  { apply blk_unique. rewrite E. pose proof (Z.div_mod (b / 32) 1024 ltac:(lia)).
    pose proof (Z.mod_pos_bound (b / 32) 1024 ltac:(lia)). lia. }
  rewrite Hq. split; [|done]. split.
  - replace (BITMAP + 4 * (b / 32)) with (0 + (67110912 + b / 32) * 4) by lia. by rewrite Z.mod_add.
  - pose proof (Z.div_pos b 32768 ltac:(lia) ltac:(lia)). pose proof (Z.div_lt_upper_bound b 32768 786430 ltac:(lia) ltac:(lia)). lia.
Qed.

(** The handler when reading the bitmap word gives [w]. *)
Lemma bc_pgfault_run fu s a :
  healthy s -> 0 <= blk a < nb (lview s) -> blk a ∉ bc_mapped s -> isfree (lview s) (blk a) = false ->
  (forall s1, same_view s s1 -> blk a ∈ bc_mapped s1 ->
     exists s2, same_view s1 s2 /\ fload32_with (S fu) (bword (blk a)) s1 = FRet (word_at (lview s1) (bword (blk a))) s2) ->
  exists s2, bc_pgfault (S (S fu)) a s = FRet tt s2 /\ same_view s s2 /\ blk a ∈ bc_mapped s2.
Proof.
  intros H Hb Hn Hf Hw. pose proof (h_nb _ H) as Hnb. assert (Hd : in_diskmap a = true) by (apply diskmap_blk; lia).
  assert (Hs0 : super s =? 0 = false) by (by rewrite (h_super _ H)).
  set (k := bm ← fget bitmap; if bm =? 0 then mret tt else
          n ← (if super s =? 0 then mret 0 else fload32_with (S fu) (super s + 4));
          if (super s =? 0) || (n <=? blk a) then mret tt
          else w ← fload32_with (S fu) (bm + 4 * (blk a / 32));
               fassert (negb (hasbits w (Z.shiftl 1 (blk a mod 32)))) "reading free block").
  destruct (fault_fill s a k H Hb Hn) as (s1 & H1 & Hm1 & E1).
  destruct (Hw s1 H1 Hm1) as (s2 & H2 & E2). pose proof H1 as [Hh1 Hv1 _].
  assert (Ek : k s1 = FRet tt s2).
  { unfold k. rewrite fbind_get, (h_bitmap _ Hh1), Hs0. change (BITMAP =? 0) with false. cbv iota. cbn [orb].
    assert (super s = super s1) as -> by (by rewrite (h_super _ H), (h_super _ Hh1)).
    fstep by (by apply super_word). rewrite (nb_ext _ _ Hv1). destruct (Z.leb_spec (nb (lview s)) (blk a)); [lia|].
    fstep by (exact E2). rewrite (word_at_ext _ _ (bword (blk a)) (λ x _, Hv1 x)).
    change (hasbits (word_at (lview s) (bword (blk a))) (Z.shiftl 1 (blk a mod 32))) with (isfree (lview s) (blk a)).
    by rewrite Hf. }
  exists s2. split; [|split; [by eapply same_view_trans|pose proof (sv_mapped _ _ H2); set_solver]].
  rewrite <- Ek, <- E1. unfold k. cbn [bc_pgfault]. rewrite fbind_assert by done. rewrite fbind_get, Hs0.
  fstep by (by apply super_word). destruct (Z.leb_spec (nb (lview s)) (blk a)); [lia|]. cbn [negb andb].
  by rewrite (rounddown_blk a Hd).
Qed.

(** A block whose bitmap block is cached, and the general case. *)
Lemma bc_pgfault_near fu s a :
  healthy s -> 0 <= blk a < nb (lview s) -> blk a ∉ bc_mapped s -> isfree (lview s) (blk a) = false ->
  2 + blk a / 32768 ∈ bc_mapped s ->
  exists s2, bc_pgfault (S (S fu)) a s = FRet tt s2 /\ same_view s s2 /\ blk a ∈ bc_mapped s2.
Proof.
  intros H Hb Hn Hf Hbb. pose proof (h_nb _ H). apply bc_pgfault_run; try done. intros s1 H1 _. exists s1.
  destruct (bword_in (blk a) ltac:(lia)) as [Hin Eb]. pose proof (sv_mapped _ _ H1).
  split; [apply same_view_refl, H1|]. apply load_mapped; [done|]. rewrite Eb. set_solver.
Qed.

Lemma bc_pgfault_ok fu s a :
  healthy s -> 0 <= blk a < nb (lview s) -> blk a ∉ bc_mapped s -> isfree (lview s) (blk a) = false ->
  exists s2, bc_pgfault (S (S (S (S fu)))) a s = FRet tt s2 /\ same_view s s2 /\ blk a ∈ bc_mapped s2.
Proof.
  intros H Hb Hn Hf. pose proof (h_nb _ H). destruct (bword_in (blk a) ltac:(lia)) as [Hin Eb].
  apply bc_pgfault_run; try done. intros s1 H1 _. pose proof H1 as [Hh1 Hv1 Hm1].
  destruct (decide (blk (bword (blk a)) ∈ bc_mapped s1)) as [Hin1|Hin1].
  - exists s1. split; [by apply same_view_refl|by apply load_mapped].
  - pose proof (Z.div_pos (blk a) 32768 ltac:(lia) ltac:(lia)).
    assert (Hlt : blk a / 32768 * BLKBITSIZE < nb (lview s1)).
    { rewrite (nb_ext _ _ Hv1). pose proof (Z.mul_div_le (blk a) 32768 ltac:(lia)). lia. }
    assert (Hsm : blk a / 32768 < 24) by (apply Z.div_lt_upper_bound; lia).
    destruct (bc_pgfault_near fu s1 (bword (blk a)) Hh1) as (s2 & E2 & Hs2 & Hm2); try done.
    + rewrite Eb. pose proof (h_nb _ Hh1). destruct (decide (blk a / 32768 = 0)) as [->|]; lia.
    + rewrite Eb. apply (h_meta _ Hh1); [lia|done].
    + rewrite Eb, (Z.div_small (2 + _)) by lia. apply (h_res2 _ Hh1).
    + exists s2. split; [done|]. cbn [fload32_with].
      rewrite fbind_get, present_mapped by (apply diskmap_blk; apply Hin). rewrite bool_decide_eq_false_2 by done.
      fstep by (exact E2). unfold fget. rewrite word_mapped by (apply Hin || done).
      by rewrite (word_at_ext _ _ _ (λ x _, sv_view _ _ Hs2 x)).
Qed.

Lemma touch_ok s a :
  healthy s -> used (lview s) (blk a) ->
  exists s', touch a s = FRet tt s' /\ same_view s s' /\ blk a ∈ bc_mapped s'.
Proof.
  intros H [Hb Hf]. pose proof (h_nb _ H). unfold touch. rewrite fbind_get, present_mapped by (apply diskmap_blk; lia).
  case_bool_decide as Hm; [exists s; split; [done|]; split; [by apply same_view_refl|done]|].
  apply bc_pgfault_ok; try done. lia.
Qed.

(** ** Loads and stores *)

Lemma fload8_ok s a :
  healthy s -> used (lview s) (blk a) -> exists s', fload8 a s = FRet (lview s a) s' /\ same_view s s'.
Proof.
  intros H Hu. destruct (touch_ok s a H Hu) as (s' & E & Hs & Hm). exists s'. split; [|done].
  unfold fload8. fstep by (exact E). unfold fget. by rewrite <- (sv_view _ _ Hs), lview_mapped.
Qed.

Lemma fload32_ok s a :
  healthy s -> used (lview s) (blk a) -> a mod 4 = 0 ->
  exists s', fload32 a s = FRet (word_at (lview s) a) s' /\ same_view s s'.
Proof.
  intros H Hu H4. destruct (touch_ok s a H Hu) as (s' & E & Hs & Hm). exists s'. split; [|done].
  unfold fload32. fstep by (exact E). unfold fget. rewrite word_mapped by done.
  by rewrite (word_at_ext _ _ _ (λ x _, sv_view _ _ Hs x)).
Qed.

(** The parts of the content that the cache itself relies on. *)
Definition meta_ok (n : Z) (L : bmem) : Prop :=
  nb L = n /\ forall i, -2 <= i -> i * BLKBITSIZE < n -> isfree L (2 + i) = false.

Lemma healthy_meta s : healthy s -> meta_ok (nb (lview s)) (lview s).
Proof. intros H. split; [done|]. apply (h_meta _ H). Qed.

(** [s'] has the logical content [L]. *)
Record wrote (L : bmem) (s s' : fsrv) : Prop := {
  wr_healthy : healthy s';
  wr_view : forall x, lview s' x = L x;
  wr_mapped : bc_mapped s ⊆ bc_mapped s'
}.

Lemma poke_ok s b m' L :
  healthy s -> b ∈ bc_mapped s -> (forall x, blk x <> b -> m' x = fs_mem s x) ->
  (forall x, L x = if decide (blk x = b) then m' x else lview s x) -> meta_ok (nb (lview s)) L ->
  wrote L s (set_fs_mem m' (set_dirty ({[b]} ∪ bc_dirty s) s)).
Proof.
  intros H Hb Hm HL [Hn Hmeta]. set (s' := set_fs_mem _ _).
  assert (Hv : forall x, lview s' x = L x).
  { intros x. rewrite HL. unfold lview, va_is_mapped. cbn [s' set_fs_mem set_dirty bc_mapped d_disk fs_mem].
    case_decide as E; [rewrite bool_decide_eq_true_2, andb_false_r by (by rewrite E); done|].
    destruct (in_diskmap x && _); [done|]. by apply Hm. }
  assert (Hnb : nb (lview s') = nb (lview s)) by (by rewrite (nb_ext L (lview s'))).
  constructor; [|done|done]. constructor; rewrite ?Hnb; try apply H.
  - cbn [s' set_fs_mem set_dirty bc_mapped bc_dirty]. pose proof (h_dirty _ H). set_solver.
  - cbn [s' set_fs_mem set_dirty bc_mapped bc_dirty d_disk fs_mem]. intros a Ha Hin Hd.
    rewrite Hm by set_solver. apply (h_clean _ H); [done|done|set_solver].
  - intros i Hi Hlt. rewrite (isfree_ext L) by done. auto.
Qed.

Lemma wrote_after s s1 s' L : same_view s s1 -> wrote L s1 s' -> wrote L s s'.
Proof. intros Hs [H1 H2 H3]. constructor; try done. pose proof (sv_mapped _ _ Hs). set_solver. Qed.

Lemma put32_other a v m x : ~ (a <= x < a + 4) -> put32 a v m x = m x.
Proof. intros H. unfold put32, put. by rewrite !(proj2 (Z.eqb_neq x _)) by lia. Qed.

Lemma put32_agree a v m m' x : m' x = m x -> put32 a v m' x = put32 a v m x.
Proof. intros H. unfold put32, put. by destruct (x =? a + 3), (x =? a + 2), (x =? a + 1), (x =? a). Qed.

Lemma fstore32_ok s a v :
  healthy s -> used (lview s) (blk a) -> a mod 4 = 0 -> meta_ok (nb (lview s)) (put32 a v (lview s)) ->
  exists s', fstore32 a v s = FRet tt s' /\ wrote (put32 a v (lview s)) s s'.
Proof.
  intros H Hu H4 Hmeta. destruct (touch_ok s a H Hu) as (s1 & E & Hs & Hm).
  unfold fstore32. fstep by (exact E). pose proof (h_nb _ H). destruct Hu as [Hr _].
  rewrite diskmap_blk by lia. eexists. split; [done|]. apply (wrote_after _ s1); [done|].
  pose proof Hs as [Hh1 Hv1 _]. apply poke_ok; try done.
  - intros x Hx. apply put32_other. intros Hw. by apply Hx, word_in_blk.
  - intros x. case_decide as Ex.
    + apply put32_agree. by rewrite <- (lview_mapped s1 x), Hv1 by (by rewrite Ex).
    + rewrite put32_other; [by rewrite Hv1|]. intros Hw. by apply Ex, word_in_blk.
  - by rewrite (nb_ext _ _ Hv1).
Qed.

Lemma fstore8_ok s a b :
  healthy s -> used (lview s) (blk a) -> meta_ok (nb (lview s)) (put a (u8 b) (lview s)) ->
  exists s', fstore8 a b s = FRet tt s' /\ wrote (put a (u8 b) (lview s)) s s'.
Proof.
  intros H Hu Hmeta. destruct (touch_ok s a H Hu) as (s1 & E & Hs & Hm).
  unfold fstore8. fstep by (exact E). pose proof (h_nb _ H). destruct Hu as [Hr _].
  rewrite diskmap_blk by lia. eexists. split; [done|]. apply (wrote_after _ s1); [done|].
  pose proof Hs as [Hh1 Hv1 _]. apply poke_ok; try done.
  - intros x Hx. unfold put. by destruct (Z.eqb_spec x a); [subst|].
  - intros x. unfold put. case_decide as Ex.
    + destruct (x =? a); [done|]. by rewrite <- (lview_mapped s1 x), Hv1 by (by rewrite Ex).
    + destruct (Z.eqb_spec x a); [subst; done|]. by rewrite Hv1.
  - by rewrite (nb_ext _ _ Hv1).
Qed.

(** ** Writing back *)

Lemma ide_write_loop_ok n : forall sec src s,
  (forall x, d_bad s x = false) ->
  exists dk, ide_write_loop n sec src s = FRet 0 (set_disk dk s) /\
    forall y, dk y = if (sec * SECTSIZE <=? y) && (y <? sec * SECTSIZE + SECTSIZE * Z.of_nat n)
                     then fs_mem s (y - sec * SECTSIZE + src) else d_disk s y.
Proof.
  induction n as [|n IH]; intros sec src s Hg.
  - exists (d_disk s). split; [by destruct s|]. intros y.
    destruct (Z.leb_spec (sec * SECTSIZE) y), (Z.ltb_spec y (sec * SECTSIZE + SECTSIZE * Z.of_nat 0)); cbn [andb]; done || lia.
  - cbn [ide_write_loop]. rewrite fbind_get, Hg, fbind_modify.
    set (s1 := set_disk _ s). destruct (IH (sec + 1) (src + SECTSIZE) s1) as (dk & E & Hd); [done|].
    exists dk. split; [rewrite E; done|]. intros y. rewrite Hd. subst s1. cbn [d_disk fs_mem set_disk]. unfold copy_in.
    destruct (Z.leb_spec ((sec + 1) * SECTSIZE) y), (Z.ltb_spec y ((sec + 1) * SECTSIZE + SECTSIZE * Z.of_nat n)),
      (Z.leb_spec (sec * SECTSIZE) y), (Z.ltb_spec y (sec * SECTSIZE + SECTSIZE)),
      (Z.ltb_spec y (sec * SECTSIZE + SECTSIZE * Z.of_nat (S n))); cbn [andb]; try lia; try done; f_equal; lia.
Qed.

(** The disk after a flush of block [b]. *)
Definition flushed (b : Z) (s s' : fsrv) : Prop :=
  same_view s s' /\ b ∉ bc_dirty s' /\
  (forall x, in_diskmap x = true -> d_disk s' (x - DISKMAP) = if decide (blk x = b) then lview s x else d_disk s (x - DISKMAP)).

Lemma flush_healthy s dk b :
  healthy s -> b ∈ bc_mapped s ->
  (forall y, dk y = if decide (blk (y + DISKMAP) = b) then fs_mem s (y + DISKMAP) else d_disk s y) ->
  flushed b s (set_dirty (bc_dirty s ∖ {[b]}) (set_disk dk s)).
Proof.
  intros H Hb Hdk. set (s' := set_dirty _ _).
  assert (Hdk' : forall x, dk (x - DISKMAP) = if decide (blk x = b) then fs_mem s x else d_disk s (x - DISKMAP)).
  { intros x. rewrite Hdk. by replace (x - DISKMAP + DISKMAP) with x by lia. }
  assert (Hv : forall a, lview s' a = lview s a).
  { intros a. unfold lview, va_is_mapped. cbn [s' set_dirty set_disk bc_mapped d_disk fs_mem]. rewrite Hdk'.
    case_bool_decide as Em; cbn [negb]; rewrite ?andb_false_r, ?andb_true_r; [done|].
    destruct (in_diskmap a); [|done]. by rewrite decide_False by congruence. }
  split; [|split; [cbn [s' bc_dirty set_dirty]; set_solver|]].
  - constructor; [|done|done]. pose proof (nb_ext _ _ Hv) as Hnb. constructor; rewrite ?Hnb; try apply H.
    + cbn [s' set_dirty set_disk bc_mapped bc_dirty]. pose proof (h_dirty _ H). set_solver.
    + cbn [s' set_dirty set_disk bc_mapped bc_dirty d_disk fs_mem]. intros a Ha Hin Hd. rewrite Hdk'.
      case_decide as E; [done|]. apply (h_clean _ H); [done|done|set_solver].
    + intros i Hi Hlt. rewrite (isfree_ext (lview s)) by done. by apply (h_meta _ H).
  - intros x Hx. cbn [s' set_dirty set_disk d_disk]. rewrite Hdk'. case_decide as E; [|done].
    by rewrite lview_mapped by (by rewrite E).
Qed.

(** Writing a block to the disk. *)
Lemma write_back s b :
  (forall x, d_bad s x = false) -> 0 <= b < 786432 ->
  exists dk, ide_write (u32 (b * BLKSECTS)) (DISKMAP + b * BLKSIZE) BLKSECTS s = FRet 0 (set_disk dk s) /\
    forall y, dk y = if decide (blk (y + DISKMAP) = b) then fs_mem s (y + DISKMAP) else d_disk s y.
Proof.
  intros Hg Hb. unfold ide_write. rewrite fbind_assert, ide_sector_small by done.
  destruct (ide_write_loop_ok 8 (b * BLKSECTS) (DISKMAP + b * BLKSIZE) s Hg) as (dk & E & Hdk). exists dk. split; [done|].
  intros y. rewrite Hdk. pose proof (blk_spec (y + DISKMAP)).
  destruct (Z.leb_spec (b * BLKSECTS * SECTSIZE) y), (Z.ltb_spec y (b * BLKSECTS * SECTSIZE + SECTSIZE * Z.of_nat 8)); cbn [andb]; case_decide as E';
    try done; try (exfalso; lia). f_equal. lia.
Qed.

Lemma flush_block_ok s a :
  healthy s -> in_diskmap a = true -> exists s', flush_block a s = FRet tt s' /\ flushed (blk a) s s'.
Proof.
  intros H Ha. unfold flush_block. rewrite fbind_assert by done. rewrite (rounddown_blk a Ha).
  assert (Ebk : blk (DISKMAP + blk a * BLKSIZE) = blk a) by (apply blk_unique; lia).
  rewrite fbind_get. unfold va_is_mapped. rewrite Ebk. case_bool_decide as Em; cbn [negb].
  - rewrite fbind_get. unfold va_is_dirty. rewrite Ebk. case_bool_decide as Ed; cbn [negb].
    + pose proof (h_range _ H _ Em) as Hr. pose proof (h_nb _ H). destruct (write_back s (blk a) (h_good _ H)) as (dk & E & Hdk); [lia|].
      fstep by (exact E). unfold clear_dirty. rewrite Ebk. eexists. split; [done|]. by apply (flush_healthy s dk).
    + exists s. split; [done|]. split; [by apply same_view_refl|]. split; [done|]. intros x Hx. case_decide as E; [|done].
      rewrite lview_mapped by (by rewrite E). symmetry. apply (h_clean _ H); [done|by rewrite E..].
  - exists s. split; [done|]. split; [by apply same_view_refl|]. split; [pose proof (h_dirty _ H); set_solver|].
    intros x Hx. case_decide as E; [|done]. unfold lview, va_is_mapped. rewrite Hx, bool_decide_eq_false_2 by (by rewrite E). done.
Qed.

(** ** A sample: a disk of 64 blocks, the first four in use *)

(** The super block says 64 blocks; the bitmap marks the blocks from 4 on free.
    The file behind the super block has four bytes, in block 3; further up in
    that block is the entry of a file with an indirect block. *)
Definition disk_sample : bmem :=
  put32 (BLKSIZE + 4) 64 (put32 (2 * BLKSIZE) 0xFFFFFFF0 (put32 (2 * BLKSIZE + 4) 0xFFFFFFFF
    (put32 (BLKSIZE + 136) 4 (put32 (BLKSIZE + 144) 3 (put32 (3 * BLKSIZE) 0x21534F4A
      (put32 (3 * BLKSIZE + 1200) 3 (λ _, 0))))))).

Definition fs_sample : fsrv :=
  mkFsrv disk_sample (λ _, false) (λ a, disk_sample (a - DISKMAP)) {[1; 2]} ∅ 64 SUPER BITMAP.

Lemma fs_sample_view a : lview fs_sample a = disk_sample (a - DISKMAP).
Proof. unfold lview. by destruct (in_diskmap a && _). Qed.

Lemma fs_sample_healthy : healthy fs_sample.
Proof.
  assert (Hv : forall a, lview fs_sample a = (λ x, disk_sample (x - DISKMAP)) a) by apply fs_sample_view.
  assert (Hnb : nb (lview fs_sample) = 64) by (rewrite (nb_ext _ _ Hv); reflexivity).
  assert (Hin : forall b, b ∈ bc_mapped fs_sample -> b = 1 \/ b = 2).
  { cbn [bc_mapped fs_sample]. intros b. by rewrite elem_of_union, !elem_of_singleton. }
  constructor; rewrite ?Hnb.
  - reflexivity.
  - reflexivity.
  - reflexivity.
  - lia.
  - cbn [bc_mapped fs_sample]. set_solver.
  - cbn [bc_mapped fs_sample]. set_solver.
  - intros b Hb. apply Hin in Hb. lia.
  - cbn [fs_pages fs_sample]. lia.
  - cbn [bc_mapped bc_dirty fs_sample]. set_solver.
  - reflexivity.
  - intros i Hi Hlt. rewrite (isfree_ext _ _ _ Hv). assert (i = -2 \/ i = -1 \/ i = 0) as [-> |[-> | ->]] by lia; reflexivity.
Qed.

(** ** Properties *)

(** C18: the block cache is a memory.  For an address in a block that is in use
    a load returns its logical content, whether the block is cached or not,
    and changes no content; a store changes the content at that address only;
    after [flush_block] the content of the block is on the disk, the block is
    clean and the rest of the disk and every content are unchanged.  All three
    keep the cache coherent. *)
Theorem block_cache_memory s a b :
  healthy s -> used (lview s) (blk a) ->
  (exists s', fload8 a s = FRet (lview s a) s' /\ healthy s' /\ forall x, lview s' x = lview s x) /\
  (meta_ok (nb (lview s)) (put a (u8 b) (lview s)) ->
   exists s', fstore8 a b s = FRet tt s' /\ healthy s' /\ forall x, lview s' x = put a (u8 b) (lview s) x) /\
  exists s', flush_block a s = FRet tt s' /\ healthy s' /\ blk a ∉ bc_dirty s' /\
    (forall x, lview s' x = lview s x) /\
    (forall x, in_diskmap x = true -> blk x = blk a -> d_disk s' (x - DISKMAP) = lview s x) /\
    (forall x, in_diskmap x = true -> blk x <> blk a -> d_disk s' (x - DISKMAP) = d_disk s (x - DISKMAP)).
Proof.
  intros H Hu. split_and!.
  - destruct (fload8_ok s a H Hu) as (s' & E & [Hs Hv _]). by exists s'.
  - intros Hm. destruct (fstore8_ok s a b H Hu Hm) as (s' & E & [Hs Hv _]). by exists s'.
  - destruct Hu as [Hr _]. pose proof (h_nb _ H).
    destruct (flush_block_ok s a H (diskmap_blk a ltac:(lia))) as (s' & E & [Hh Hv _] & Hd & Hk). exists s'.
    split_and!; try done; intros x Hx Hb; rewrite Hk by done; by case_decide.
Qed.

Lemma block_cache_memory_witness :
  (exists s', fload8 (BITMAP + 1) fs_sample = FRet 255 s') /\
  (exists s', fstore8 (BITMAP + 4000) 7 fs_sample = FRet tt s' /\ lview s' (BITMAP + 4000) = 7) /\
  exists s', flush_block (BITMAP + 1) fs_sample = FRet tt s' /\ d_disk s' 8193 = 255.
Proof.
  assert (Hv : forall a, lview fs_sample a = (λ x, disk_sample (x - DISKMAP)) a) by apply fs_sample_view.
  assert (Hu : used (lview fs_sample) 2) by (apply (used_ext _ _ _ Hv); split; [vm_compute; split; congruence|reflexivity]).
  split; [|split].
  - destruct (block_cache_memory fs_sample (BITMAP + 1) 0 fs_sample_healthy Hu) as [(s' & E & _) _].
    exists s'. rewrite E, Hv. reflexivity.
  - destruct (block_cache_memory fs_sample (BITMAP + 4000) 7 fs_sample_healthy Hu) as (_ & Hs & _).
    destruct Hs as (s' & E & _ & Hv').
    + assert (Hp : forall a, put (BITMAP + 4000) (u8 7) (lview fs_sample) a = put (BITMAP + 4000) 7 (λ x, disk_sample (x - DISKMAP)) a).
      { intros a. unfold put. destruct (a =? _); [reflexivity|apply Hv]. }
      assert (Hn : nb (lview fs_sample) = 64) by (rewrite (nb_ext _ _ Hv); reflexivity).
      split; [rewrite (nb_ext _ _ Hp), Hn; reflexivity|]. intros i Hi Hlt. rewrite Hn in Hlt. rewrite (isfree_ext _ _ _ Hp).
      assert (i = -2 \/ i = -1 \/ i = 0) as [-> |[-> | ->]] by lia; reflexivity.
    + exists s'. split; [exact E|]. rewrite Hv'. reflexivity.
  - destruct (block_cache_memory fs_sample (BITMAP + 1) 0 fs_sample_healthy Hu) as (_ & _ & s' & E & _ & _ & _ & Hk & _).
    exists s'. split; [exact E|]. change 8193 with (BITMAP + 1 - DISKMAP). rewrite (Hk (BITMAP + 1) eq_refl eq_refl), Hv. reflexivity.
Defined.
