(* ===== verification/Fs.v ===== *)
(** * The file system ([fs/fs.c])

    Pointers to [struct File] are addresses in the disk map; a path is the list
    of its characters.  [struct File] is 256 bytes: the name, [f_size] at 128,
    [f_type] at 132, the ten direct block numbers at 136 and [f_indirect] at
    176. *)

From S2P Require Import Prelude LibString Mmu BlockCache.

Abbreviation FS_MAGIC := 0x4A0530AE (only parsing).
Abbreviation MAXNAMELEN := 128 (only parsing).
Abbreviation MAXPATHLEN := 1024 (only parsing).
Abbreviation NDIRECT := 10 (only parsing).
Abbreviation NINDIRECT := 1024 (only parsing).
Abbreviation BLKFILES := 16 (only parsing).
Abbreviation sizeof_File := 256 (only parsing).
Abbreviation FTYPE_DIR := 1 (only parsing).

(** Members of a [struct File]. *)
Abbreviation F_SIZE := 128 (only parsing).
Abbreviation F_TYPE := 132 (only parsing).
Abbreviation F_DIRECT := 136 (only parsing).
Abbreviation F_INDIRECT := 176 (only parsing).

(** [f_size] is signed. *)
Definition f_size (f : Z) : F Z := w ← fload32 (f + F_SIZE); mret (s32 w).

(** ** The super block and the bitmap *)

Definition check_super : F unit :=
  sup ← fget super;
  magic ← fload32 sup;
  fassert (magic =? FS_MAGIC) "bad file system magic number" ;;
  n ← nblocks;
  fassert (n <=? DISKSIZE / BLKSIZE) "file system is too large".

Definition block_is_free (blockno : Z) : F bool :=
  sup ← fget super;
  if sup =? 0 then mret false
  else
    n ← nblocks;
    if n <=? blockno then mret false
    else
      bm ← fget bitmap;
      w ← fload32 (bm + 4 * (blockno / 32));
      mret (hasbits w (Z.shiftl 1 (blockno mod 32))).

Definition free_block (blockno : Z) : F unit :=
  fassert (negb (blockno =? 0)) "attempt to free zero block" ;;
  bm ← fget bitmap;
  let a := bm + 4 * (blockno / 32) in
  w ← fload32 a;
  fstore32 a (w .| Z.shiftl 1 (blockno mod 32)).

(** The search does not write, so that the bound is read once. *)
Fixpoint alloc_loop (n : nat) (i : Z) : F Z :=
  match n with
  | O => mret (- E_NO_DISK)
  | S n' =>
      free ← block_is_free i;
      if (free : bool) then
        bm ← fget bitmap;
        let a := bm + 4 * (i / 32) in
        w ← fload32 a;
        fstore32 a (Z.ldiff w (Z.shiftl 1 (i mod 32))) ;;
        flush_block bm ;;
        mret i
      else alloc_loop n' (i + 1)
  end.

Definition alloc_block : F Z := n ← nblocks; alloc_loop (Z.to_nat n) 0.

Fixpoint check_bitmap_loop (n : nat) (i : Z) : F unit :=
  match n with
  | O => mret tt
  | S n' =>
      free ← block_is_free (2 + i);
      fassert (negb free) "assertion failed: !block_is_free(2+i)" ;;
      check_bitmap_loop n' (i + 1)
  end.

(** The first loop runs while [i * BLKBITSIZE < s_nblocks]. *)
Definition check_bitmap : F unit :=
  n ← nblocks;
  check_bitmap_loop (Z.to_nat ((n + BLKBITSIZE - 1) / BLKBITSIZE)) 0 ;;
  free ← block_is_free 0;
  fassert (negb free) "assertion failed: !block_is_free(0)" ;;
  free ← block_is_free 1;
  fassert (negb free) "assertion failed: !block_is_free(1)".

(** The disk that [ide_set_disk] selects is the one of the state. *)
Definition fs_init : F unit :=
  bc_init ;;
  a ← diskaddr 1;
  fmodify (set_super a) ;;
  check_super ;;
  a ← diskaddr 2;
  fmodify (set_bitmap a) ;;
  check_bitmap.

(** ** Blocks of a file *)

(** [memset(a, 0, BLKSIZE)] for the address of a block. *)
Definition clear_block (a : Z) : F unit :=
  touch a ;;
  fmodify (λ s, set_dirty ({[blk a]} ∪ bc_dirty s)
    (set_fs_mem (λ x, if (a <=? x) && (x <? a + BLKSIZE) then 0 else fs_mem s x) s)).

(** The result and the pointer; the slot of an indirect block is computed from
    the address of [f_indirect] itself. *)
Definition file_block_walk (f filebno : Z) (alloc : bool) : F (Z * Z) :=
  let slot := u32 (f + F_INDIRECT + 4 * (filebno - NDIRECT)) in
  if filebno <? NDIRECT then mret (0, u32 (f + F_DIRECT + 4 * filebno))
  else if filebno <? NDIRECT + NINDIRECT then
    ind ← fload32 (f + F_INDIRECT);
    if negb (ind =? 0) then mret (0, slot)
    else if alloc then
      r ← alloc_block;
      if r <? 0 then mret (- E_NO_DISK, 0)
      else
        fstore32 (f + F_INDIRECT) r ;;
        a ← diskaddr r;
        clear_block a ;;
        mret (0, slot)
    else mret (- E_NOT_FOUND, 0)
  else mret (- E_INVAL, 0).

Definition file_get_block (f filebno : Z) : F (Z * Z) :=
  r ← file_block_walk f filebno true;
  if r.1 <? 0 then mret (r.1, 0)
  else
    let blkno := r.2 in
    n ← fload32 blkno;
    r ← (if n =? 0 then
           r ← alloc_block;
           if r <? 0 then mret r else fstore32 blkno r ;; mret 0
         else mret 0);
    if r <? 0 then mret (r, 0)
    else
      n ← fload32 blkno;
      a ← diskaddr n;
      mret (0, a).

(** ** Directories *)

(** The 16 entries of a directory block, from entry [j] on. *)
Fixpoint find_entry (n : nat) (f : Z) (test : Z -> F bool) : F (option Z) :=
  match n with
  | O => mret None
  | S n' =>
      b ← test f;
      if (b : bool) then mret (Some f) else find_entry n' (f + sizeof_File) test
  end.

(** The blocks of a directory from [i] on: an error, the entry, or none. *)
Fixpoint find_block (n : nat) (dir i : Z) (test : Z -> F bool) : F (Z * option Z) :=
  match n with
  | O => mret (0, None)
  | S n' =>
      r ← file_get_block dir i;
      if r.1 <? 0 then mret (r.1, None)
      else
        e ← find_entry (Z.to_nat BLKFILES) r.2 test;
        match e with
        | Some f => mret (0, Some f)
        | None => find_block n' dir (i + 1) test
        end
  end.

(** [assert((dir->f_size % BLKSIZE) == 0); nblock = dir->f_size / BLKSIZE] *)
Definition dir_blocks (dir : Z) : F Z :=
  size ← f_size dir;
  fassert (Z.rem size BLKSIZE =? 0) "assertion failed: (dir->f_size % BLKSIZE) == 0" ;;
  mret (u32 (Z.quot size BLKSIZE)).

Definition dir_lookup (dir : Z) (name : list Z) : F (Z * Z) :=
  nblock ← dir_blocks dir;
  r ← find_block (Z.to_nat nblock) dir 0 (λ f, fstreq f name);
  match r with
  | (_, Some f) => mret (0, f)
  | (e, None) => if e <? 0 then mret (e, 0) else mret (- E_NOT_FOUND, 0)
  end.

Definition dir_alloc_file (dir : Z) : F (Z * Z) :=
  nblock ← dir_blocks dir;
  r ← find_block (Z.to_nat nblock) dir 0 (λ f, c ← fload8 f; mret (c =? 0));
  match r with
  | (_, Some f) => mret (0, f)
  | (e, None) =>
      if e <? 0 then mret (e, 0)
      else
        size ← f_size dir;
        fstore32 (dir + F_SIZE) (u32 (size + BLKSIZE)) ;;
        file_get_block dir nblock
  end.

(** ** Paths *)

Abbreviation SLASH := 47 (only parsing).

Fixpoint skip_slash (p : list Z) : list Z :=
  match p with
  | c :: p' => if c =? SLASH then skip_slash p' else p
  | [] => []
  end.

(** The characters up to the next slash, and the rest. *)
Fixpoint path_elem (p : list Z) : list Z * list Z :=
  match p with
  | c :: p' => if c =? SLASH then ([], p) else let '(n, r) := path_elem p' in (c :: n, r)
  | [] => ([], [])
  end.

(** What [walk_path] leaves: its result, [*pdir], [*pf] and [lastelem]. *)
Record walked := mkWalk { w_ret : Z; w_dir : Z; w_file : Z; w_last : list Z }.

Fixpoint walk_loop (fuel : nat) (path : list Z) (dir f : Z) : F walked :=
  match path with
  | [] => mret (mkWalk 0 dir f [])
  | _ =>
      match fuel with
      | O => fpanic "path"
      | S fu =>
          let dir := f in
          let '(name, rest) := path_elem path in
          if MAXNAMELEN <=? Z.of_nat (length name) then mret (mkWalk (- E_BAD_PATH) 0 0 [])
          else
            let path := skip_slash rest in
            type ← fload32 (dir + F_TYPE);
            if negb (type =? FTYPE_DIR) then mret (mkWalk (- E_NOT_FOUND) 0 0 [])
            else
              r ← dir_lookup dir name;
              if r.1 <? 0 then
                if (r.1 =? - E_NOT_FOUND) && bool_decide (path = [])
                then mret (mkWalk r.1 dir 0 name)
                else mret (mkWalk r.1 0 0 [])
              else walk_loop fu path dir r.2
      end
  end.

(** Each round uses up a character of the path. *)
Definition walk_path (path : list Z) : F walked :=
  sup ← fget super;
  let path := skip_slash path in
  walk_loop (length path) path 0 (sup + 8).

(** ** Files *)

(** A loop over block numbers. *)
Fixpoint ffor (n : nat) (i : Z) (body : Z -> F unit) : F unit :=
  match n with
  | O => mret tt
  | S n' => body i ;; ffor n' (i + 1) body
  end.

(** [(size + BLKSIZE - 1) / BLKSIZE] *)
Definition size_blocks (size : Z) : Z := Z.quot (s32 (size + BLKSIZE - 1)) BLKSIZE.

Definition file_flush (f : Z) : F unit :=
  size ← f_size f;
  ffor (Z.to_nat (size_blocks size)) 0 (λ i,
    r ← file_block_walk f i false;
    if r.1 <? 0 then mret tt
    else
      n ← fload32 r.2;
      if n =? 0 then mret tt else a ← diskaddr n; flush_block a) ;;
  flush_block f ;;
  ind ← fload32 (f + F_INDIRECT);
  if ind =? 0 then mret tt else a ← diskaddr ind; flush_block a.

Definition file_create (path : list Z) : F (Z * Z) :=
  w ← walk_path path;
  if w_ret w =? 0 then mret (- E_FILE_EXISTS, 0)
  else if negb (w_ret w =? - E_NOT_FOUND) || (w_dir w =? 0) then mret (w_ret w, 0)
  else
    r ← dir_alloc_file (w_dir w);
    if r.1 <? 0 then mret (r.1, 0)
    else
      fstore_list r.2 (w_last w ++ [0]) ;;
      file_flush (w_dir w) ;;
      mret (0, r.2).

Definition file_open (path : list Z) : F (Z * Z) := w ← walk_path path; mret (w_ret w, w_file w).

(** The copying loops of [file_read] and [file_write]: [copy blk bn buf] moves
    [bn] bytes between the buffer and the address [blk] in the cache. *)
Fixpoint file_copy (fuel : nat) (copy : Z -> Z -> Z -> F unit) (f buf pos stop : Z) : F Z :=
  match fuel with
  | O => fpanic "file_copy"
  | S fu =>
      if u32 pos <? stop then
        r ← file_get_block f (u32 (Z.quot pos BLKSIZE));
        if r.1 <? 0 then mret r.1
        else
          let off := Z.rem pos BLKSIZE in
          let bn := Z.min (u32 (BLKSIZE - off)) (u32 (stop - pos)) in
          copy (u32 (r.2 + off)) bn buf ;;
          file_copy fu copy f (u32 (buf + bn)) (s32 (pos + bn)) stop
      else mret 0
  end.

(** Both return the number of bytes or a negative error; an iteration copies at
    least one byte. *)
Definition file_read (f buf count offset : Z) : F Z :=
  size ← f_size f;
  if size <=? offset then mret 0
  else
    let count := Z.min count (u32 (size - offset)) in
    r ← file_copy (S (Z.to_nat count)) (λ a bn buf, fmemmove buf a bn) f buf offset (u32 (offset + count));
    if r <? 0 then mret r else mret (s32 count).

Definition file_free_block (f filebno : Z) : F Z :=
  r ← file_block_walk f filebno false;
  if r.1 <? 0 then mret r.1
  else
    n ← fload32 r.2;
    (if n =? 0 then mret tt else free_block n ;; fstore32 r.2 0) ;;
    mret 0.

Definition file_truncate_blocks (f newsize : Z) : F unit :=
  size ← f_size f;
  let old_nblocks := u32 (size_blocks size) in
  let new_nblocks := u32 (size_blocks newsize) in
  ffor (Z.to_nat (old_nblocks - new_nblocks)) new_nblocks (λ bno, file_free_block f bno ;; mret tt) ;;
  ind ← fload32 (f + F_INDIRECT);
  if (new_nblocks <=? NDIRECT) && negb (ind =? 0) then
    free_block ind ;;
    fstore32 (f + F_INDIRECT) 0
  else mret tt.

Definition file_set_size (f newsize : Z) : F Z :=
  size ← f_size f;
  (if newsize <? size then file_truncate_blocks f newsize else mret tt) ;;
  fstore32 (f + F_SIZE) (u32 newsize) ;;
  flush_block f ;;
  mret 0.

Definition file_write (f buf count offset : Z) : F Z :=
  size ← f_size f;
  r ← (if u32 size <? u32 (offset + count) then file_set_size f (s32 (offset + count)) else mret 0);
  if r <? 0 then mret r
  else
    r ← file_copy (S (Z.to_nat count)) (λ a bn buf, fmemmove a buf bn) f buf offset (u32 (offset + count));
    if r <? 0 then mret r else mret (s32 count).

Definition fs_sync : F unit :=
  n ← nblocks;
  ffor (Z.to_nat (n - 1)) 1 (λ i, a ← diskaddr i; flush_block a).
