(* ===== verification/FsSpec.v ===== *)
(** * What the file system promises

    Over the logical content of the disk that [BlockCacheSpec] provides: the
    bitmap as a set of free blocks, allocation and freeing, and reading and
    writing files through their block numbers. *)

From S2P Require Import Prelude LibString Mmu BlockCache BlockCacheSpec Fs.

(** ** Words and bits *)

Lemma word_at_put32 a v m : word_at (put32 a v m) a = u32 v.
Proof.
  unfold word_at, put32, put. rewrite !Z.eqb_refl.
  rewrite !(proj2 (Z.eqb_neq a _)), !(proj2 (Z.eqb_neq (a + 1) _)), !(proj2 (Z.eqb_neq (a + 2) _)) by lia.
  unfold u8, u32. rewrite !Z.shiftr_div_pow2 by lia. change (2 ^ 24) with 16777216. change (2 ^ 16) with 65536. change (2 ^ 8) with 256.
  replace (v / 65536) with (v / 256 / 256) by (by rewrite Z.div_div).
  replace (v / 16777216) with (v / 256 / 256 / 256) by (by rewrite !Z.div_div).
  Z.to_euclidean_division_equations. lia.
Qed.

Lemma word_at_put32_other a v m a' : a' + 4 <= a \/ a + 4 <= a' -> word_at (put32 a v m) a' = word_at m a'.
Proof. intros H. apply word_at_ext. intros x Hx. apply put32_other. lia. Qed.

Lemma hasbits_bit w k : 0 <= k -> hasbits w (Z.shiftl 1 k) = Z.testbit w k.
Proof.
  intros Hk. unfold hasbits. rewrite Z.shiftl_1_l. destruct (Z.testbit w k) eqn:E.
  - apply negb_true_iff, Z.eqb_neq. intros H0. assert (Z.testbit (w .& 2 ^ k) k = true); [|by rewrite H0, Z.bits_0 in *].
    by rewrite Z.land_spec, E, Z.pow2_bits_true.
  - apply negb_false_iff, Z.eqb_eq. apply Z.bits_inj'. intros j Hj. rewrite Z.land_spec, Z.bits_0, Z.pow2_bits_eqb by done.
    destruct (Z.eqb_spec k j) as [<-|]; [by rewrite E|by rewrite andb_false_r].
Qed.

Lemma testbit_u32 v k : 0 <= k < 32 -> Z.testbit (u32 v) k = Z.testbit v k.
Proof. intros Hk. unfold u32. change 4294967296 with (2 ^ 32). by rewrite Z.mod_pow2_bits_low by lia. Qed.

Lemma isfree_bit L b : isfree L b = Z.testbit (word_at L (bword b)) (b mod 32).
Proof. apply hasbits_bit. by apply Z.mod_pos_bound. Qed.

(** The bitmap after the word of block [b] was replaced. *)
Lemma isfree_put L b v x :
  isfree (put32 (bword b) v L) x =
    if decide (x / 32 = b / 32) then Z.testbit v (x mod 32) else isfree L x.
Proof.
  rewrite !isfree_bit. unfold bword. case_decide as E.
  - rewrite E, word_at_put32. apply testbit_u32. by apply Z.mod_pos_bound.
  - f_equal. apply word_at_put32_other. lia.
Qed.

Lemma same_block x b : x / 32 = b / 32 -> x mod 32 = b mod 32 -> x = b.
Proof. intros. rewrite (Z.div_mod x 32), (Z.div_mod b 32) by lia. lia. Qed.

Lemma bit_eqb k j : 0 <= k -> 0 <= j -> Z.testbit (Z.shiftl 1 k) j = (k =? j).
Proof. intros. rewrite Z.shiftl_1_l. by apply Z.pow2_bits_eqb. Qed.

(** Setting and clearing the bit of a block. *)
Lemma isfree_set L b x :
  isfree (put32 (bword b) (word_at L (bword b) .| Z.shiftl 1 (b mod 32)) L) x = isfree L x || bool_decide (x = b).
Proof.
  rewrite isfree_put. pose proof (Z.mod_pos_bound x 32 ltac:(lia)). pose proof (Z.mod_pos_bound b 32 ltac:(lia)).
  case_decide as E.
  - rewrite Z.lor_spec, bit_eqb by lia. rewrite isfree_bit. unfold bword. rewrite E. f_equal.
    destruct (Z.eqb_spec (b mod 32) (x mod 32)) as [Em|Em]; symmetry; [apply bool_decide_eq_true_2|apply bool_decide_eq_false_2];
      [by apply same_block|congruence].
  - rewrite bool_decide_eq_false_2 by congruence. by rewrite orb_false_r.
Qed.

Lemma isfree_clear L b x :
  isfree (put32 (bword b) (Z.ldiff (word_at L (bword b)) (Z.shiftl 1 (b mod 32))) L) x = isfree L x && negb (bool_decide (x = b)).
Proof.
  rewrite isfree_put. pose proof (Z.mod_pos_bound x 32 ltac:(lia)). pose proof (Z.mod_pos_bound b 32 ltac:(lia)).
  case_decide as E.
  - rewrite Z.ldiff_spec, bit_eqb by lia. rewrite isfree_bit. unfold bword. rewrite E. f_equal. f_equal.
    destruct (Z.eqb_spec (b mod 32) (x mod 32)) as [Em|Em]; symmetry; [apply bool_decide_eq_true_2|apply bool_decide_eq_false_2];
      [by apply same_block|congruence].
  - rewrite bool_decide_eq_false_2 by congruence. by rewrite andb_true_r.
Qed.

(** ** The bitmap *)

Lemma nblocks_ok s : healthy s -> nblocks s = FRet (nb (lview s)) s.
Proof.
  intros H. unfold nblocks, fload32, touch. rewrite fbind_get, fbind_assoc, fbind_get, (h_super _ H).
  rewrite present_mapped, bool_decide_eq_true_2 by (done || apply (h_res1 _ H)). rewrite fbind_mret.
  unfold fget. by rewrite word_mapped by (done || apply (h_res1 _ H)).
Qed.

(** The bitmap block of a block of the disk is in use. *)
Lemma bword_used s b : healthy s -> 0 <= b < nb (lview s) -> used (lview s) (blk (bword b)) /\ bword b mod 4 = 0.
Proof.
  intros H Hb. pose proof (h_nb _ H). destruct (bword_in b ltac:(lia)) as [[H4 _] ->]. split; [|done].
  pose proof (Z.div_pos b 32768 ltac:(lia) ltac:(lia)). pose proof (Z.mul_div_le b 32768 ltac:(lia)).
  split; [|apply (h_meta _ H); lia]. destruct (decide (b / 32768 = 0)) as [->|]; lia.
Qed.

Lemma block_is_free_ok s b :
  healthy s -> 0 <= b < nb (lview s) ->
  exists s', block_is_free b s = FRet (isfree (lview s) b) s' /\ same_view s s'.
Proof.
  intros H Hb. destruct (bword_used s b H Hb) as [Hu H4]. destruct (fload32_ok s _ H Hu H4) as (s' & E & Hs).
  exists s'. split; [|done]. unfold block_is_free. rewrite fbind_get, (h_super _ H). change (SUPER =? 0) with false. cbv iota.
  fstep by (by apply nblocks_ok). destruct (Z.leb_spec (nb (lview s)) b); [lia|].
  rewrite fbind_get, (h_bitmap _ H). fstep by (exact E). done.
Qed.

Lemma nb_put_bitmap b v L : 0 <= b -> nb (put32 (bword b) v L) = nb L.
Proof.
  intros Hb. apply word_at_put32_other. left. unfold bword. pose proof (Z.div_pos b 32 ltac:(lia) ltac:(lia)). lia.
Qed.

(** Changing the bitmap of a block that the cache does not rely on. *)
Lemma meta_bitmap s b v :
  healthy s -> 0 <= b < nb (lview s) ->
  (forall i, -2 <= i -> i * BLKBITSIZE < nb (lview s) -> isfree (put32 (bword b) v (lview s)) (2 + i) = false) ->
  meta_ok (nb (lview s)) (put32 (bword b) v (lview s)).
Proof.
  intros H Hb Hm. split; [|done]. apply nb_put_bitmap. lia.
Qed.

(** The blocks behind the bitmap. *)
Definition data_block (n b : Z) : Prop := b < n /\ n <= (b - 2) * BLKBITSIZE.

Lemma free_block_ok s b :
  healthy s -> data_block (nb (lview s)) b ->
  exists s', free_block b s = FRet tt s' /\ healthy s' /\ nb (lview s') = nb (lview s) /\
    (forall x, isfree (lview s') x = isfree (lview s) x || bool_decide (x = b)) /\
    (forall a, ~ (bword b <= a < bword b + 4) -> lview s' a = lview s a).
Proof.
  intros H [Hlt Hd]. pose proof (h_nb _ H). assert (Hb : 0 <= b < nb (lview s)) by lia.
  destruct (bword_used s b H Hb) as [Hu H4]. destruct (fload32_ok s _ H Hu H4) as (s1 & E1 & [Hh1 Hv1 _]).
  unfold free_block. rewrite fbind_assert by (destruct (Z.eqb_spec b 0); [lia|done]). rewrite fbind_get, (h_bitmap _ H).
  fold (bword b). fstep by (exact E1).
  rewrite <- (nb_ext _ _ Hv1) in Hb. destruct (bword_used s1 b Hh1 Hb) as [Hu1 _].
  rewrite <- (word_at_ext (lview s) (lview s1)) by (intros; apply Hv1).
  destruct (fstore32_ok s1 (bword b) (word_at (lview s1) (bword b) .| Z.shiftl 1 (b mod 32)) Hh1 Hu1 H4) as (s2 & E2 & [Hh2 Hv2 _]).
  { apply meta_bitmap; [done..|]. intros i Hi Hlt'. rewrite isfree_set. rewrite (h_meta _ Hh1) by done.
    apply bool_decide_eq_false_2. rewrite (nb_ext _ _ Hv1) in Hlt'. lia. }
  exists s2. split; [done|]. split; [done|]. split; [rewrite (nb_ext _ _ Hv2), <- (nb_ext _ _ Hv1)|split].
  - apply nb_put_bitmap. lia.
  - intros x. rewrite (isfree_ext _ _ _ Hv2), isfree_set. by rewrite (isfree_ext _ _ _ Hv1).
  - intros a Ha. by rewrite Hv2, put32_other, Hv1.
Qed.

Lemma free_data s b : healthy s -> 0 <= b < nb (lview s) -> isfree (lview s) b = true -> data_block (nb (lview s)) b.
Proof.
  intros H Hb Hf. split; [lia|]. apply Z.nlt_ge. intros Hlt. pose proof (h_meta _ H (b - 2) ltac:(lia) Hlt) as Hm.
  replace (2 + (b - 2)) with b in Hm by lia. congruence.
Qed.

(** Block [b] was taken out of the bitmap; the first bitmap block is on the
    disk. *)
Record taken (b : Z) (s s' : fsrv) : Prop := {
  tk_healthy : healthy s';
  tk_nb : nb (lview s') = nb (lview s);
  tk_free : forall x, isfree (lview s') x = isfree (lview s) x && negb (bool_decide (x = b));
  tk_frame : forall a, ~ (bword b <= a < bword b + 4) -> lview s' a = lview s a;
  tk_disk : forall a, blk a = 2 -> d_disk s' (a - DISKMAP) = lview s' a
}.

Lemma taken_after b s s1 s' : same_view s s1 -> taken b s1 s' -> taken b s s'.
Proof.
  intros [_ Hv _] [H1 H2 H3 H4 H5]. constructor; [done|by rewrite H2, (nb_ext _ _ Hv)| | |done].
  - intros x. by rewrite H3, (isfree_ext _ _ _ Hv).
  - intros a Ha. by rewrite H4, Hv.
Qed.

(** Taking a free block. *)
Lemma take_block s b :
  healthy s -> 0 <= b < nb (lview s) -> isfree (lview s) b = true ->
  exists s',
    (bm ← fget bitmap;
     let a := bm + 4 * (b / 32) in
     w ← fload32 a;
     fstore32 a (Z.ldiff w (Z.shiftl 1 (b mod 32))) ;;
     flush_block bm ;;
     mret b) s = FRet b s' /\ taken b s s'.
Proof.
  intros H Hb Hf. destruct (bword_used s b H Hb) as [Hu H4]. destruct (fload32_ok s _ H Hu H4) as (s1 & E1 & Hs1).
  rewrite fbind_get, (h_bitmap _ H). cbv zeta. fold (bword b). fstep by (exact E1).
  pose proof Hs1 as [Hh1 Hv1 _]. rewrite <- (word_at_ext (lview s) (lview s1)) by (intros; apply Hv1).
  rewrite <- (nb_ext _ _ Hv1) in Hb. rewrite <- (isfree_ext _ _ _ Hv1) in Hf. destruct (bword_used s1 b Hh1 Hb) as [Hu1 _].
  destruct (fstore32_ok s1 (bword b) (Z.ldiff (word_at (lview s1) (bword b)) (Z.shiftl 1 (b mod 32))) Hh1 Hu1 H4) as (s2 & E2 & [Hh2 Hv2 _]).
  { apply meta_bitmap; [done..|]. intros i Hi Hlt'. rewrite isfree_clear. by rewrite (h_meta _ Hh1). }
  fstep by (exact E2). destruct (flush_block_ok s2 BITMAP Hh2 eq_refl) as (s3 & E3 & [Hh3 Hv3 _] & _ & Hdk).
  fstep by (exact E3). exists s3. split; [done|]. apply (taken_after _ _ s1); [done|].
  constructor; [done|by rewrite (nb_ext _ _ Hv3), (nb_ext _ _ Hv2), nb_put_bitmap by lia| | |].
  - intros x. by rewrite (isfree_ext _ _ _ Hv3), (isfree_ext _ _ _ Hv2), isfree_clear.
  - intros a Ha. by rewrite Hv3, Hv2, put32_other.
  - intros a Ha. rewrite Hdk by (apply diskmap_blk; lia). change (blk BITMAP) with 2. rewrite decide_True, Hv3 by done. done.
Qed.

(** The result of a search from block [i] on. *)
Definition alloc_spec (i : Z) (s : fsrv) (r : Z) (s' : fsrv) : Prop :=
  (i <= r < nb (lview s) /\ isfree (lview s) r = true /\ (forall x, i <= x < r -> isfree (lview s) x = false) /\ taken r s s') \/
  (r = - E_NO_DISK /\ (forall x, i <= x < nb (lview s) -> isfree (lview s) x = false) /\ same_view s s').

Lemma alloc_loop_ok n : forall i s,
  healthy s -> 0 <= i -> Z.of_nat n = nb (lview s) - i -> exists r s', alloc_loop n i s = FRet r s' /\ alloc_spec i s r s'.
Proof.
  induction n as [|n IH]; intros i s H Hi Hn.
  - exists (- E_NO_DISK), s. split; [done|]. right. split; [done|]. split; [lia|]. by apply same_view_refl.
  - cbn [alloc_loop]. destruct (block_is_free_ok s i H ltac:(lia)) as (s1 & E1 & Hs1). fstep by (exact E1).
    pose proof Hs1 as [Hh1 Hv1 _]. pose proof (nb_ext _ _ Hv1) as Hn1. destruct (isfree (lview s) i) eqn:Ef.
    + destruct (take_block s1 i Hh1 ltac:(lia)) as (s2 & E2 & Ht); [by rewrite (isfree_ext _ _ _ Hv1)|].
      exists i, s2. split; [exact E2|]. left. split; [lia|]. split; [done|]. split; [lia|]. by apply (taken_after _ _ s1).
    + destruct (IH (i + 1) s1 Hh1 ltac:(lia) ltac:(lia)) as (r & s2 & E2 & Hsp). exists r, s2. split; [exact E2|].
      assert (Hx : forall x, i <= x -> x = i \/ i + 1 <= x) by lia.
      destruct Hsp as [(Hr & Hf & Hl & Ht)|(-> & Hl & Ht)]; [left|right].
      * split; [lia|]. split; [by rewrite <- (isfree_ext _ _ _ Hv1)|]. split; [|by apply (taken_after _ _ s1)].
        intros x Hxr. destruct (Hx x ltac:(lia)) as [->|]; [done|]. rewrite <- (isfree_ext _ _ _ Hv1). apply Hl. lia.
      * split; [done|]. split; [|by apply (same_view_trans _ s1)].
        intros x Hxr. destruct (Hx x ltac:(lia)) as [->|]; [done|]. rewrite <- (isfree_ext _ _ _ Hv1). apply Hl. lia.
Qed.

Lemma alloc_block_ok s : healthy s -> exists r s', alloc_block s = FRet r s' /\ alloc_spec 0 s r s'.
Proof.
  intros H. unfold alloc_block. fstep by (by apply nblocks_ok). pose proof (h_nb _ H). apply alloc_loop_ok; [done|lia..].
Qed.

(** ** Memory outside the super block's count and the bitmap *)

Definition offmeta (n a : Z) : Prop :=
  (a < SUPER + 4 \/ SUPER + 8 <= a < BITMAP \/ n <= (blk a - 2) * BLKBITSIZE).

(** The same blocks are free. *)
Definition same_map (L L' : bmem) : Prop := nb L' = nb L /\ forall b, 0 <= b < nb L -> isfree L' b = isfree L b.

Lemma offmeta_bword n b x : 0 <= b < n -> n <= 786432 -> bword b <= x < bword b + 4 -> ~ offmeta n x.
Proof.
  intros Hb Hn Hx. destruct (bword_in b ltac:(lia)) as [[H4 _] Hk]. pose proof (word_in_blk _ _ H4 Hx) as Ex.
  pose proof (Z.mul_div_le b 32768 ltac:(lia)). pose proof (blk_spec x). pose proof (Z.div_pos b 32768 ltac:(lia) ltac:(lia)).
  unfold offmeta. lia.
Qed.

Lemma offmeta_same L L' :
  2 < nb L <= 786432 -> (forall a, offmeta (nb L) a \/ L' a = L a) -> same_map L L'.
Proof.
  intros Hn Ha. split.
  - apply word_at_ext. intros x Hx. destruct (Ha x) as [[?|[?|?]]|]; [lia..| |done].
    assert (blk x = 1) by (apply blk_unique; lia). lia.
  - intros b Hb. unfold isfree. f_equal. apply word_at_ext. intros x Hx. destruct (Ha x) as [Ho|]; [|done].
    exfalso. by apply (offmeta_bword _ _ _ Hb ltac:(lia) Hx).
Qed.

Lemma same_map_meta s L : healthy s -> same_map (lview s) L -> meta_ok (nb (lview s)) L.
Proof.
  intros H [Hn Hf]. split; [done|]. intros i Hi Hlt. pose proof (h_nb _ H). rewrite Hf by lia. by apply (h_meta _ H).
Qed.

Lemma same_map_used L L' b : same_map L L' -> used L b -> used L' b.
Proof. intros [Hn Hf] [Hb Hu]. split; [by rewrite Hn|]. by rewrite Hf by lia. Qed.

(** Memory that the server can access: the page of the request and the blocks
    in use. *)
Definition access (L : bmem) (a : Z) : Prop := FSREQ <= a < DISKMAP \/ used L (blk a).

Lemma access_ext L L' a : (forall x, L' x = L x) -> access L a -> access L' a.
Proof. intros HL [?|?]; [by left|right; by apply (used_ext L)]. Qed.

Lemma access_same L L' a : same_map L L' -> access L a -> access L' a.
Proof. intros HL [?|?]; [by left|right; by apply (same_map_used L)]. Qed.

Lemma page_blk a : FSREQ <= a < DISKMAP -> blk a = -1 /\ in_diskmap a = false.
Proof.
  intros Ha. split; [apply blk_unique; lia|]. unfold in_diskmap. by rewrite (proj2 (Z.leb_gt _ _)) by lia.
Qed.

Lemma touch_page s a : FSREQ <= a < DISKMAP -> touch a s = FRet tt s.
Proof.
  intros Ha. unfold touch, present. rewrite fbind_get, (proj2 (page_blk a Ha)).
  by rewrite (proj2 (Z.leb_le _ _)), (proj2 (Z.ltb_lt _ _)) by lia.
Qed.

Lemma load_any s a : healthy s -> access (lview s) a -> exists s', fload8 a s = FRet (lview s a) s' /\ same_view s s'.
Proof.
  intros H [Ha|Hu]; [|by apply fload8_ok]. exists s. split; [|by apply same_view_refl].
  unfold fload8. fstep by (by apply touch_page). unfold fget, lview. by rewrite (proj2 (page_blk a Ha)).
Qed.

Lemma put_offmeta s a b : healthy s -> offmeta (nb (lview s)) a -> same_map (lview s) (put a b (lview s)).
Proof.
  intros H Ho. apply offmeta_same; [apply (h_nb _ H)|]. intros x. unfold put. destruct (Z.eqb_spec x a); [subst; by left|by right].
Qed.

(** A store to the page of the request does not concern the cache. *)
Lemma poke_page s m' L :
  healthy s -> (forall x, ~ (FSREQ <= x < DISKMAP) -> m' x = fs_mem s x /\ L x = lview s x) ->
  (forall x, FSREQ <= x < DISKMAP -> L x = m' x) -> wrote L s (set_fs_mem m' s).
Proof.
  intros H Hout Hin. set (s' := set_fs_mem _ s).
  assert (Hv : forall x, lview s' x = L x).
  { intros x. destruct (decide (FSREQ <= x < DISKMAP)) as [Hx|Hx].
    - rewrite Hin by done. unfold lview. by rewrite (proj2 (page_blk x Hx)).
    - destruct (Hout x Hx) as [E ->]. unfold lview, va_is_mapped. cbn [s' set_fs_mem bc_mapped d_disk fs_mem]. by rewrite E. }
  assert (Hsm : same_map (lview s) L).
  { apply offmeta_same; [apply (h_nb _ H)|]. intros x. destruct (decide (FSREQ <= x < DISKMAP)); [left; left; lia|right; by apply Hout]. }
  assert (Hn' : nb (lview s') = nb (lview s)) by (rewrite (nb_ext _ _ Hv); apply Hsm).
  constructor; [|done|done]. constructor; rewrite ?Hn'; try apply H.
  - intros x Hx Hm Hnd. cbn [s' set_fs_mem fs_mem d_disk]. destruct (Hout x) as [-> _]; [|by apply (h_clean _ H)].
    intros Hp. by rewrite (proj2 (page_blk x Hp)) in Hx.
  - intros i Hi Hlt. pose proof (h_nb _ H). rewrite (isfree_ext _ _ _ Hv), (proj2 Hsm) by lia. by apply (h_meta _ H).
Qed.

Lemma page_store32 s a v :
  healthy s -> FSREQ <= a -> a + 4 <= DISKMAP -> exists s', fstore32 a v s = FRet tt s' /\ wrote (put32 a v (lview s)) s s'.
Proof.
  intros H Hlo Hhi. eexists. unfold fstore32. fstep by (apply touch_page; lia). unfold fmodify.
  rewrite (proj2 (page_blk a ltac:(lia))). split; [done|]. apply poke_page; [done|..].
  - intros x Hx. by rewrite !put32_other by lia.
  - intros x Hx. apply put32_agree. unfold lview. by rewrite (proj2 (page_blk x Hx)).
Qed.

Lemma page_load32 s a : FSREQ <= a -> a + 4 <= DISKMAP -> fload32 a s = FRet (word_at (lview s) a) s.
Proof.
  intros Hlo Hhi. unfold fload32. fstep by (apply touch_page; lia). unfold fget. f_equal. symmetry. apply word_at_ext.
  intros x Hx. unfold lview. by rewrite (proj2 (page_blk x ltac:(lia))).
Qed.

Lemma store_any s a b :
  healthy s -> access (lview s) a -> offmeta (nb (lview s)) a ->
  exists s', fstore8 a b s = FRet tt s' /\ wrote (put a (u8 b) (lview s)) s s'.
Proof.
  intros H [Ha|Hu] Ho.
  - eexists. unfold fstore8. fstep by (by apply touch_page). unfold fmodify. rewrite (proj2 (page_blk a Ha)).
    split; [done|]. apply poke_page; [done|..]; intros x Hx; unfold put; destruct (Z.eqb_spec x a); try (subst; done).
    unfold lview. by rewrite (proj2 (page_blk x Hx)).
  - apply fstore8_ok; try done. apply same_map_meta, put_offmeta; done.
Qed.

(** ** Copies *)

Lemma load_list_ok n : forall a s,
  healthy s -> (forall x, a <= x < a + Z.of_nat n -> access (lview s) x) ->
  exists s', fload_list n a s = FRet (range (lview s) n a) s' /\ same_view s s'.
Proof.
  induction n as [|n IH]; intros a s H Ha; [exists s; split; [done|by apply same_view_refl]|].
  cbn [fload_list]. destruct (load_any s a H) as (s1 & E1 & Hs1); [apply Ha; lia|]. fstep by (exact E1).
  pose proof Hs1 as [Hh1 Hv1 _]. destruct (IH (a + 1) s1 Hh1) as (s2 & E2 & Hs2).
  { intros x Hx. apply (access_ext (lview s)); [done|]. apply Ha. lia. }
  fstep by (exact E2). exists s2. rewrite range_S, (range_ext (lview s)) by done. split; [done|]. by apply (same_view_trans _ s1).
Qed.

(** A memory with the bytes [l] from [a] on. *)
Fixpoint puts (a : Z) (l : list Z) (m : bmem) : bmem :=
  match l with [] => m | b :: l' => puts (a + 1) l' (put a (u8 b) m) end.

Lemma puts_ext l : forall a m m', (forall x, m' x = m x) -> forall x, puts a l m' x = puts a l m x.
Proof.
  induction l as [|b l IH]; intros a m m' H x; [apply H|]. cbn [puts]. apply IH. intros y. unfold put. by destruct (y =? a).
Qed.

Lemma puts_range m0 n : forall a b m x,
  puts a (range m0 n b) m x = if (a <=? x) && (x <? a + Z.of_nat n) then u8 (m0 (x - a + b)) else m x.
Proof.
  induction n as [|n IH]; intros a b m x.
  - cbn [range seq map puts]. destruct (Z.leb_spec a x), (Z.ltb_spec x (a + Z.of_nat 0)); done || lia.
  - rewrite range_S. cbn [puts]. rewrite IH. unfold put.
    destruct (Z.eqb_spec x a) as [->|]; [replace (a - a + b) with b by lia|replace (x - (a + 1) + (b + 1)) with (x - a + b) by lia].
    + destruct (Z.leb_spec (a + 1) a), (Z.leb_spec a a), (Z.ltb_spec a (a + Z.of_nat (S n))); done || lia.
    + destruct (Z.leb_spec (a + 1) x), (Z.leb_spec a x), (Z.ltb_spec x (a + 1 + Z.of_nat n)), (Z.ltb_spec x (a + Z.of_nat (S n)));
        done || lia.
Qed.

Lemma wrote_trans L L' s s1 s2 : wrote L s s1 -> wrote L' s1 s2 -> wrote L' s s2.
Proof. intros [? ? ?] [? ? ?]. constructor; [done..|set_solver]. Qed.

Lemma wrote_ext L L' s s' : (forall x, L' x = L x) -> wrote L s s' -> wrote L' s s'.
Proof. intros H [H1 H2 H3]. constructor; [done| |done]. intros x. by rewrite H. Qed.

Lemma store_list_ok l : forall a s,
  healthy s -> (forall x, a <= x < a + Z.of_nat (length l) -> access (lview s) x /\ offmeta (nb (lview s)) x) ->
  exists s', fstore_list a l s = FRet tt s' /\ wrote (puts a l (lview s)) s s'.
Proof.
  induction l as [|b l IH]; intros a s H Ha; [exists s; by split|].
  cbn [fstore_list length puts] in *. destruct (Ha a ltac:(lia)) as [Hac Ho].
  destruct (store_any s a b H Hac Ho) as (s1 & E1 & Hw). fstep by (exact E1). pose proof Hw as [Hh1 Hv1 _].
  pose proof (put_offmeta s a (u8 b) H Ho) as Hsm.
  destruct (IH (a + 1) s1 Hh1) as (s2 & E2 & Hw2).
  { intros x Hx. destruct (Ha x ltac:(lia)) as [? ?]. rewrite (nb_ext _ _ Hv1), (proj1 Hsm). split; [|done].
    apply (access_ext (put a (u8 b) (lview s))); [done|]. by apply (access_same (lview s)). }
  exists s2. split; [exact E2|]. apply (wrote_trans _ _ _ _ _ Hw). apply (wrote_ext (puts (a + 1) l (lview s1))); [|done].
  apply puts_ext. intros x. by rewrite Hv1.
Qed.

(** The memory after a copy. *)
Definition copied (dst src n : Z) (m : bmem) : bmem :=
  λ x, if (dst <=? x) && (x <? dst + n) then u8 (m (x - dst + src)) else m x.

Lemma fmemmove_ok dst src n s :
  healthy s -> 0 <= n -> (forall x, src <= x < src + n -> access (lview s) x) ->
  (forall x, dst <= x < dst + n -> access (lview s) x /\ offmeta (nb (lview s)) x) ->
  exists s', fmemmove dst src n s = FRet tt s' /\ wrote (copied dst src n (lview s)) s s'.
Proof.
  intros H Hn Hsrc Hdst. unfold fmemmove. destruct (load_list_ok (Z.to_nat n) src s H) as (s1 & E1 & Hs1).
  { intros x Hx. apply Hsrc. lia. }
  fstep by (exact E1). pose proof Hs1 as [Hh1 Hv1 _].
  destruct (store_list_ok (range (lview s) (Z.to_nat n) src) dst s1 Hh1) as (s2 & E2 & Hw).
  { unfold range at 1. rewrite length_map, length_seq. intros x Hx. rewrite (nb_ext _ _ Hv1).
    destruct (Hdst x ltac:(lia)). split; [by apply (access_ext (lview s))|done]. }
  exists s2. split; [exact E2|]. apply (wrote_after _ s1); [done|]. refine (wrote_ext _ _ _ _ _ Hw).
  intros x. rewrite (puts_ext _ _ _ _ Hv1), puts_range. unfold copied. by rewrite Z2Nat.id by lia.
Qed.

(** ** Files with direct blocks *)

(** A [struct File] lies in one block, which is in use, behind the super
    block's count and outside the bitmap. *)
Record file_ok (L : bmem) (f : Z) : Prop := {
  fo_align : f mod 4 = 0;
  fo_used : used L (blk f);
  fo_in : forall x, f <= x < f + sizeof_File -> blk x = blk f /\ offmeta (nb L) x
}.

Definition slot (L : bmem) (f i : Z) : Z := word_at L (f + F_DIRECT + 4 * i).
Definition size_of (L : bmem) (f : Z) : Z := word_at L (f + F_SIZE).

(** Different entries name different blocks, in use, none of them the block of
    the [struct File]. *)
Record file_wf (L : bmem) (f : Z) : Prop := {
  wf_ok : file_ok L f;
  wf_slot : forall i, 0 <= i < NDIRECT -> slot L f i <> 0 ->
    used L (slot L f i) /\ data_block (nb L) (slot L f i) /\ slot L f i <> blk f;
  wf_inj : forall i j, 0 <= i < NDIRECT -> 0 <= j < NDIRECT -> slot L f i <> 0 -> slot L f i = slot L f j -> i = j
}.

(** Byte [p] of the file. *)
Definition byte_addr (L : bmem) (f p : Z) : Z := DISKMAP + slot L f (p / BLKSIZE) * BLKSIZE + p mod BLKSIZE.
Definition fbyte (L : bmem) (f p : Z) : Z := L (byte_addr L f p).

Lemma word_mod4 f k : f mod 4 = 0 -> (f + 4 * k) mod 4 = 0.
Proof. intros H. by rewrite Z.mul_comm, Z_mod_plus_full. Qed.

(** A word of the [struct File]. *)
Lemma file_word s f k :
  healthy s -> file_ok (lview s) f -> 0 <= k < 64 ->
  used (lview s) (blk (f + 4 * k)) /\ (f + 4 * k) mod 4 = 0 /\ 0 <= f + 4 * k < 4294967296.
Proof.
  intros H [Ha Hu Hi] Hk. destruct (Hi (f + 4 * k) ltac:(lia)) as [-> _]. split; [done|]. split; [by apply word_mod4|].
  pose proof (blk_spec f). destruct Hu as [Hb _]. pose proof (h_nb _ H). lia.
Qed.

Lemma load_file s f k :
  healthy s -> file_ok (lview s) f -> 0 <= k < 64 ->
  exists s', fload32 (f + 4 * k) s = FRet (word_at (lview s) (f + 4 * k)) s' /\ same_view s s'.
Proof. intros H Hf Hk. destruct (file_word s f k H Hf Hk) as (? & ? & _). by apply fload32_ok. Qed.

Lemma store_file s f k v :
  healthy s -> file_ok (lview s) f -> 0 <= k < 64 ->
  exists s', fstore32 (f + 4 * k) v s = FRet tt s' /\ wrote (put32 (f + 4 * k) v (lview s)) s s' /\
    same_map (lview s) (put32 (f + 4 * k) v (lview s)).
Proof.
  intros H Hf Hk. destruct (file_word s f k H Hf Hk) as (Hu & H4 & _).
  assert (Hsm : same_map (lview s) (put32 (f + 4 * k) v (lview s))).
  { apply offmeta_same; [apply (h_nb _ H)|]. intros a. destruct (decide (f + 4 * k <= a < f + 4 * k + 4)).
    - left. apply (fo_in _ _ Hf). lia.
    - right. by apply put32_other. }
  destruct (fstore32_ok s _ v H Hu H4) as (s' & E & Hw); [by apply same_map_meta|]. by exists s'.
Qed.

Lemma slot_word L f i : slot L f i = word_at L (f + 4 * (34 + i)).
Proof. unfold slot. f_equal. lia. Qed.

Lemma slot_ext L L' f i : (forall x, f <= x < f + sizeof_File -> L' x = L x) -> 0 <= i < NDIRECT -> slot L' f i = slot L f i.
Proof. intros H Hi. apply word_at_ext. intros x Hx. apply H. lia. Qed.

Lemma same_map_of L L' : (forall a, L' a = L a) -> same_map L L'.
Proof. intros H. split; [by apply nb_ext|]. intros b _. by apply isfree_ext. Qed.

Lemma file_ok_same L L' f : same_map L L' -> file_ok L f -> file_ok L' f.
Proof.
  intros Hsm [H1 H2 H3]. constructor; [done|by apply (same_map_used L)|]. by rewrite (proj1 Hsm).
Qed.

Lemma diskaddr_ok s b : healthy s -> 1 <= b < nb (lview s) -> diskaddr b s = FRet (DISKMAP + b * BLKSIZE) s.
Proof.
  intros H Hb. unfold diskaddr. rewrite fbind_get, (h_super _ H). change (SUPER =? 0) with false.
  rewrite (proj2 (Z.eqb_neq b 0)) by lia. cbn [negb andb orb]. fstep by (by apply nblocks_ok).
  rewrite (proj2 (Z.leb_gt _ b)) by lia. pose proof (h_nb _ H). by rewrite u32_small by lia.
Qed.

(** [L'] has the blocks of [L] and perhaps more blocks of file [f], which were
    free. *)
Record more (f : Z) (L L' : bmem) : Prop := {
  mo_nb : nb L' = nb L;
  mo_wf : file_wf L' f;
  mo_used : forall b, used L b -> used L' b;
  mo_kept : forall j, 0 <= j < NDIRECT -> slot L f j <> 0 -> slot L' f j = slot L f j;
  mo_fresh : forall j, 0 <= j < NDIRECT -> slot L f j = 0 -> slot L' f j = 0 \/ isfree L (slot L' f j) = true
}.

(** Nothing else differs but the bitmap. *)
Record grown (f : Z) (L L' : bmem) : Prop := {
  g_more : more f L L';
  g_frame : forall a, offmeta (nb L) a -> ~ (f + F_DIRECT <= a < f + F_INDIRECT) -> L' a = L a
}.

Lemma file_ok_used L L' f : nb L' = nb L -> (forall b, used L b -> used L' b) -> file_ok L f -> file_ok L' f.
Proof. intros Hn Hu [H1 H2 H3]. constructor; [done|auto|]. by rewrite Hn. Qed.

(** The same slots, count and no fewer blocks in use. *)
Lemma file_wf_kept L L' f :
  nb L' = nb L -> (forall b, used L b -> used L' b) -> (forall i, 0 <= i < NDIRECT -> slot L' f i = slot L f i) ->
  file_wf L f -> file_wf L' f.
Proof.
  intros Hn Hu Hs [H1 H2 H3]. constructor; [by apply (file_ok_used L)| |].
  - intros i Hi Hz. rewrite Hs in * by done. rewrite Hn. destruct (H2 i Hi Hz) as (? & ? & ?). auto.
  - intros i j Hi Hj. rewrite !Hs by done. by apply H3.
Qed.

Lemma grown_view f L L' : (forall a, L' a = L a) -> file_wf L f -> grown f L L'.
Proof.
  intros H Hw. pose proof (nb_ext _ _ H) as Hn. pose proof (λ b, used_ext L L' b H) as Hu.
  assert (Hs : forall i, 0 <= i < NDIRECT -> slot L' f i = slot L f i) by (intros; by apply slot_ext).
  split; [constructor|done]; try done; [by apply (file_wf_kept L)|auto|]. intros j Hj Hz. left. by rewrite Hs.
Qed.

Lemma slot_put L f i j v : slot (put32 (f + 4 * (34 + i)) v L) f j = if decide (j = i) then u32 v else slot L f j.
Proof.
  rewrite !slot_word. case_decide as E; [subst; apply word_at_put32|]. apply word_at_put32_other. lia.
Qed.

(** Putting a fresh block into an empty slot. *)
Lemma grown_fresh f i r s s1 L2 :
  healthy s -> file_wf (lview s) f -> 0 <= i < NDIRECT -> slot (lview s) f i = 0 ->
  0 <= r < nb (lview s) -> isfree (lview s) r = true -> taken r s s1 ->
  (forall x, L2 x = put32 (f + 4 * (34 + i)) r (lview s1) x) -> same_map (lview s1) L2 ->
  grown f (lview s) L2 /\ slot L2 f i = r.
Proof.
  intros H Hw Hi Hz Hr Hf [H1 Hn1 Hf1 Hfr1 _] HL2 Hsm. pose proof (h_nb _ H).
  assert (Hsame : forall x, offmeta (nb (lview s)) x -> lview s1 x = lview s x).
  { intros x Hx. apply Hfr1. intros Hb. by apply (offmeta_bword _ _ _ Hr ltac:(lia) Hb). }
  assert (Hs : forall j, 0 <= j < NDIRECT -> slot L2 f j = if decide (j = i) then r else slot (lview s) f j).
  { intros j Hj. rewrite (slot_ext (put32 (f + 4 * (34 + i)) r (lview s1)) L2), slot_put by done. case_decide; [by apply u32_small; lia|].
    apply slot_ext; [|done]. intros x Hx. apply Hsame, (fo_in _ _ (wf_ok _ _ Hw)). lia. }
  assert (Hn2 : nb L2 = nb (lview s)) by (by rewrite (proj1 Hsm)).
  assert (Hu1 : forall b, used (lview s) b -> used (lview s1) b).
  { intros b [? Hb]. split; [by rewrite Hn1|]. by rewrite Hf1, Hb. }
  assert (Hu : forall b, used (lview s) b -> used L2 b) by (intros b Hb; by apply (same_map_used (lview s1)), Hu1).
  pose proof (free_data s r H Hr Hf) as Hd.
  assert (Hnew : used L2 r).
  { apply (same_map_used (lview s1)); [done|]. split; [rewrite Hn1; unfold data_block in Hd; lia|].
    by rewrite Hf1, bool_decide_eq_true_2, andb_false_r. }
  assert (Hdiff : forall b, used (lview s) b -> b <> r) by (intros b [_ Hb] ->; congruence).
  split; [|by rewrite Hs, decide_True by done].
  split; [|intros a Ha Hna; rewrite HL2, put32_other by lia; by apply Hsame]. constructor; try done.
  - constructor; [apply (file_ok_used (lview s)); [done..|apply Hw]| |].
    + intros j Hj. rewrite Hs, Hn2 by done. case_decide; intros Hj0.
      * split; [done|]. split; [done|]. intros ->. exact (Hdiff _ (fo_used _ _ (wf_ok _ _ Hw)) eq_refl).
      * destruct (wf_slot _ _ Hw j Hj Hj0) as (? & ? & ?). auto.
    + intros j k Hj Hk. rewrite !Hs by done. repeat case_decide; subst; try done; intros Hj0 E.
      * exfalso. apply (Hdiff (slot (lview s) f k)); [|done]. apply (wf_slot _ _ Hw k Hk). congruence.
      * exfalso. apply (Hdiff (slot (lview s) f j)); [|done]. by apply (wf_slot _ _ Hw j Hj).
      * by apply (wf_inj _ _ Hw).
  - intros j Hj Hj0. rewrite Hs by done. by case_decide; [subst|].
  - intros j Hj Hj0. rewrite Hs by done. case_decide; [by right|by left].
Qed.

Lemma more_trans f L L1 L2 : more f L L1 -> more f L1 L2 -> more f L L2.
Proof.
  intros [n1 w1 u1 k1 f1] [n2 w2 u2 k2 f2]. constructor; [congruence|done|auto| |].
  - intros j Hj Hz. rewrite k2; [by apply k1|done|]. by rewrite k1.
  - intros j Hj Hz. destruct (decide (slot L1 f j = 0)) as [E|E].
    + destruct (f2 j Hj E) as [?|Hf]; [by left|]. destruct (decide (slot L2 f j = 0)) as [?|En]; [by left|right].
      destruct (isfree L (slot L2 f j)) eqn:Ef; [done|]. destruct (wf_slot _ _ w2 j Hj En) as [[Hr _] _].
      destruct (u1 (slot L2 f j)) as [_ Hu]; [split; [by rewrite <- n1, <- n2|done]|]. congruence.
    + rewrite k2 by done. by apply f1.
Qed.

Lemma grown_trans f L L1 L2 : grown f L L1 -> grown f L1 L2 -> grown f L L2.
Proof.
  intros [m1 r1] [m2 r2]. split; [by apply (more_trans _ _ L1)|]. intros a Ha Hna. rewrite r2; [by apply r1|by rewrite (mo_nb _ _ _ m1)|done].
Qed.

Lemma file_wf_view L L' f : (forall a, L' a = L a) -> file_wf L f -> file_wf L' f.
Proof. intros H Hw. apply (mo_wf f L), (grown_view f L L' H Hw). Qed.

(** Filling an empty slot. *)
Lemma alloc_slot s f i :
  healthy s -> file_wf (lview s) f -> 0 <= i < NDIRECT -> slot (lview s) f i = 0 ->
  exists r s', (r ← alloc_block; if r <? 0 then mret r else fstore32 (f + 4 * (34 + i)) r ;; mret 0) s = FRet r s' /\
    ((r = - E_NO_DISK /\ same_view s s') \/ (r = 0 /\ healthy s' /\ grown f (lview s) (lview s') /\ slot (lview s') f i <> 0)).
Proof.
  intros H Hw Hi Hz. pose proof (wf_ok _ _ Hw) as Hf. destruct (alloc_block_ok s H) as (r & s2 & E2 & Hsp). fstep by (exact E2).
  destruct Hsp as [(Hr & Hfree & _ & Ht)|(-> & _ & Hs2)].
  - rewrite (proj2 (Z.ltb_ge r 0)) by lia. pose proof Ht as [Hh2 Hn2 Hf2 _ _].
    assert (Hf2' : file_ok (lview s2) f).
    { apply (file_ok_used (lview s)); [done| |done]. intros b [? Hb]. split; [by rewrite Hn2|]. by rewrite Hf2, Hb. }
    destruct (store_file s2 f (34 + i) r Hh2 Hf2' ltac:(lia)) as (s3 & E3 & [Hh3 Hv3 _] & [Ha Hb]). fstep by (exact E3).
    destruct (grown_fresh f i r s s2 (lview s3)) as [Hg Hsl]; try done.
    { split; [by rewrite (nb_ext _ _ Hv3)|]. intros b Hbn. by rewrite (isfree_ext _ _ _ Hv3), Hb. }
    exists 0, s3. split; [done|]. right. rewrite Hsl. pose proof (free_data s r H Hr Hfree) as [_ ?]. pose proof (h_nb _ H).
    split_and!; [done..|lia].
  - exists (- E_NO_DISK), s2. split; [done|]. by left.
Qed.

Lemma slot_addr s f i :
  healthy s -> file_ok (lview s) f -> 0 <= i < NDIRECT -> used (lview s) (slot (lview s) f i) ->
  exists s', (n ← fload32 (f + 4 * (34 + i)); a ← diskaddr n; mret (0, a)) s = FRet (0, DISKMAP + slot (lview s) f i * BLKSIZE) s' /\
    same_view s s'.
Proof.
  intros H Hf Hi [Hb _]. destruct (load_file s f (34 + i) H Hf ltac:(lia)) as (s1 & E1 & Hs1). fstep by (exact E1).
  rewrite <- slot_word. exists s1. split; [|done].
  fstep by (apply diskaddr_ok; [apply Hs1|by rewrite (nb_ext _ _ (sv_view _ _ Hs1))]). done.
Qed.

(** A block that is there: the rest of the [struct File] does not matter. *)
Lemma file_get_block_there s f i :
  healthy s -> file_ok (lview s) f -> 0 <= i < NDIRECT -> slot (lview s) f i <> 0 -> used (lview s) (slot (lview s) f i) ->
  exists s', file_get_block f i s = FRet (0, DISKMAP + slot (lview s) f i * BLKSIZE) s' /\ same_view s s'.
Proof.
  intros H Hf Hi Hz Hu. destruct (file_word s f (34 + i) H Hf ltac:(lia)) as (_ & _ & Hr32).
  unfold file_get_block, file_block_walk. rewrite (proj2 (Z.ltb_lt i _)) by lia. rewrite fbind_mret. cbn [fst snd].
  change (0 <? 0) with false. cbv iota. replace (f + F_DIRECT + 4 * i) with (f + 4 * (34 + i)) by lia. rewrite u32_small by lia.
  destruct (load_file s f (34 + i) H Hf ltac:(lia)) as (s1 & E1 & Hs1). fstep by (exact E1). rewrite <- slot_word.
  pose proof Hs1 as [Hh1 Hv1 _]. rewrite (proj2 (Z.eqb_neq _ _) Hz), fbind_mret. change (0 <? 0) with false. cbv iota.
  assert (Es1 : slot (lview s1) f i = slot (lview s) f i) by (by apply slot_ext).
  destruct (slot_addr s1 f i Hh1) as (s2 & E2 & Hs2); [by apply (file_ok_same (lview s)); [apply same_map_of|]|done|rewrite Es1; by apply (used_ext (lview s))|].
  exists s2. rewrite Es1 in E2. split; [exact E2|]. by apply (same_view_trans _ s1).
Qed.

(** Block [i] of a file: the address of its data; an empty slot gets a block
    that was free, or the disk is full. *)
Lemma file_get_block_ok s f i :
  healthy s -> file_wf (lview s) f -> 0 <= i < NDIRECT ->
  exists r s', file_get_block f i s = FRet r s' /\
    ((r = (- E_NO_DISK, 0) /\ slot (lview s) f i = 0 /\ same_view s s') \/
     (r = (0, DISKMAP + slot (lview s') f i * BLKSIZE) /\ healthy s' /\ grown f (lview s) (lview s') /\ slot (lview s') f i <> 0 /\
      (slot (lview s) f i <> 0 -> same_view s s'))).
Proof.
  intros H Hw Hi. pose proof (wf_ok _ _ Hw) as Hf. destruct (decide (slot (lview s) f i = 0)) as [Hz|Hz].
  2:{ destruct (file_get_block_there s f i H Hf Hi Hz (proj1 (wf_slot _ _ Hw i Hi Hz))) as (s2 & E2 & Hs2). pose proof Hs2 as [Hh2 Hv2 _].
    assert (Es2 : slot (lview s2) f i = slot (lview s) f i) by (by apply slot_ext). eexists _, s2. split; [exact E2|]. right. rewrite Es2.
    split_and!; [done..|by apply grown_view|done|done]. }
  destruct (file_word s f (34 + i) H Hf ltac:(lia)) as (_ & _ & Hr32).
  unfold file_get_block, file_block_walk. rewrite (proj2 (Z.ltb_lt i _)) by lia. rewrite fbind_mret. cbn [fst snd].
  change (0 <? 0) with false. cbv iota. replace (f + F_DIRECT + 4 * i) with (f + 4 * (34 + i)) by lia. rewrite u32_small by lia.
  destruct (load_file s f (34 + i) H Hf ltac:(lia)) as (s1 & E1 & Hs1). fstep by (exact E1). rewrite <- slot_word, Hz. change (0 =? 0) with true. cbv iota.
  pose proof Hs1 as [Hh1 Hv1 _]. pose proof (file_wf_view _ _ _ Hv1 Hw) as Hw1.
  destruct (alloc_slot s1 f i Hh1 Hw1 Hi) as (r & s2 & E2 & [(-> & Hs2)|(-> & Hh2 & Hg & Hn0)]); [by rewrite (slot_ext (lview s))| |].
  - fstep by (exact E2). eexists _, s2. split; [done|]. left. split; [done|]. split; [done|]. by apply (same_view_trans _ s1).
  - fstep by (exact E2). change (0 <? 0) with false. cbv iota. pose proof (mo_wf _ _ _ (g_more _ _ _ Hg)) as Hw2.
    destruct (slot_addr s2 f i Hh2 (wf_ok _ _ Hw2) Hi (proj1 (wf_slot _ _ Hw2 i Hi Hn0))) as (s3 & E3 & [Hh3 Hv3 _]).
    pose proof (slot_ext (lview s2) (lview s3) f i (λ x _, Hv3 x) Hi) as Es. eexists _, s3. split; [exact E3|]. right. rewrite Es.
    split_and!; [done..| |done|done]. apply (grown_trans _ _ (lview s1)); [by apply grown_view|].
    apply (grown_trans _ _ (lview s2)); [done|]. apply grown_view; [done|apply Hg].
Qed.

(** ** Reading and writing *)

(** The bytes that one round copies. *)
Definition chunk (pos stop : Z) : Z := Z.min (BLKSIZE - pos mod BLKSIZE) (stop - pos).

Lemma chunk_spec pos stop :
  0 <= pos < stop -> 1 <= chunk pos stop /\ pos + chunk pos stop <= stop /\ pos mod BLKSIZE + chunk pos stop <= BLKSIZE /\
    forall p, pos <= p < pos + chunk pos stop -> p / BLKSIZE = pos / BLKSIZE /\ p mod BLKSIZE = pos mod BLKSIZE + (p - pos).
Proof.
  intros H. unfold chunk. pose proof (Z.mod_pos_bound pos BLKSIZE ltac:(lia)). pose proof (Z.div_mod pos BLKSIZE ltac:(lia)).
  split_and!; [lia..|]. intros p Hp. rewrite (Z.mod_eq p) by lia. rewrite <- (Z.div_unique p BLKSIZE (pos / BLKSIZE) (pos mod BLKSIZE + (p - pos))); lia.
Qed.

(** One round of the loop, for a file of direct blocks. *)
Lemma file_copy_round fu copy f buf pos stop s :
  0 <= pos < stop -> stop <= NDIRECT * BLKSIZE -> 0 <= buf <= DISKMAP ->
  file_copy (S fu) copy f buf pos stop s =
    (r ← file_get_block f (pos / BLKSIZE);
     if r.1 <? 0 then mret r.1
     else
       copy (u32 (r.2 + pos mod BLKSIZE)) (chunk pos stop) buf ;;
       file_copy fu copy f (buf + chunk pos stop) (pos + chunk pos stop) stop) s.
Proof.
  intros Hp Hs Hb. destruct (chunk_spec pos stop Hp) as (H1 & H2 & H3 & _). pose proof (Z.mod_pos_bound pos BLKSIZE ltac:(lia)).
  cbn [file_copy]. rewrite (u32_small pos), (proj2 (Z.ltb_lt pos stop)) by lia. rewrite Z.quot_div_nonneg, Z.rem_mod_nonneg by lia.
  pose proof (Z.div_pos pos BLKSIZE ltac:(lia) ltac:(lia)). pose proof (Z.div_le_upper_bound pos BLKSIZE pos ltac:(lia) ltac:(lia)).
  rewrite (u32_small (pos / BLKSIZE)) by lia. rewrite (u32_small (BLKSIZE - _)), (u32_small (stop - pos)) by lia.
  fold (chunk pos stop). rewrite (u32_small (buf + _)), (s32_small (pos + _)) by lia. done.
Qed.

Lemma byte_addr_chunk L f pos stop p :
  0 <= pos < stop -> pos <= p < pos + chunk pos stop ->
  byte_addr L f p = DISKMAP + slot L f (pos / BLKSIZE) * BLKSIZE + pos mod BLKSIZE + (p - pos).
Proof.
  intros H Hp. destruct (chunk_spec pos stop H) as (_ & _ & _ & Hc). destruct (Hc p Hp) as [E1 E2]. unfold byte_addr. rewrite E1, E2. lia.
Qed.

Lemma byte_addr_blk L f p : blk (byte_addr L f p) = slot L f (p / BLKSIZE).
Proof. apply blk_addr, Z.mod_pos_bound. lia. Qed.

Lemma direct_index pos stop : 0 <= pos < stop -> stop <= NDIRECT * BLKSIZE -> 0 <= pos / BLKSIZE < NDIRECT.
Proof. intros. split; [apply Z.div_pos; lia|]. apply Z.div_lt_upper_bound; lia. Qed.

(** The memory after bytes [pos] to [stop] of the file were read to [buf]. *)
Definition read_to (L : bmem) (f buf pos stop : Z) : bmem :=
  λ x, if (buf <=? x) && (x <? buf + (stop - pos)) then u8 (fbyte L f (pos + (x - buf))) else L x.

Lemma read_to_ext L L' f buf pos stop :
  (forall x, L' x = L x) -> forall x, read_to L f buf pos stop x = read_to L' f buf pos stop x.
Proof.
  intros H x. unfold read_to, fbyte, byte_addr, slot. rewrite !H. by rewrite !(word_at_ext L L') by auto.
Qed.

(** The blocks of bytes [pos] to [stop] are there. *)
Definition has_blocks (L : bmem) (f pos stop : Z) : Prop := forall p, pos <= p < stop -> slot L f (p / BLKSIZE) <> 0.

Lemma disk_part_map L L' : 2 < nb L <= 786432 -> (forall x, DISKMAP <= x -> L' x = L x) -> same_map L L'.
Proof.
  intros Hn H. apply offmeta_same; [done|]. intros a. destruct (decide (DISKMAP <= a)); [right; auto|left; left; lia].
Qed.

(** Files do not depend on the page of the request. *)
Lemma disk_part_file L L' f :
  2 < nb L <= 786432 -> (forall x, DISKMAP <= x -> L' x = L x) -> file_wf L f ->
  file_wf L' f /\ (forall i, 0 <= i < NDIRECT -> slot L' f i = slot L f i) /\
  (forall p, 0 <= p < NDIRECT * BLKSIZE -> slot L f (p / BLKSIZE) <> 0 -> fbyte L' f p = fbyte L f p).
Proof.
  intros Hn H Hw. pose proof (disk_part_map L L' Hn H) as Hsm. destruct (fo_used _ _ (wf_ok _ _ Hw)) as [Hb _]. pose proof (blk_spec f).
  assert (Hs : forall i, 0 <= i < NDIRECT -> slot L' f i = slot L f i).
  { intros i Hi. apply slot_ext; [|done]. intros x Hx. apply H. lia. }
  split; [|split; [done|]].
  - apply (file_wf_kept L); [apply Hsm| |done..]. intros b. by apply same_map_used.
  - intros p Hp Hz. pose proof (direct_index p _ (conj (proj1 Hp) (proj2 Hp)) (Z.le_refl _)) as Hi. unfold fbyte, byte_addr.
    rewrite Hs by done. apply H. destruct (wf_slot _ _ Hw _ Hi Hz) as [[? _] _]. pose proof (Z.mod_pos_bound p BLKSIZE ltac:(lia)). lia.
Qed.

(** The blocks of bytes [pos] to [stop] are there and in use. *)
Definition readable (L : bmem) (f pos stop : Z) : Prop :=
  file_ok L f /\ forall p, pos <= p < stop -> slot L f (p / BLKSIZE) <> 0 /\ used L (slot L f (p / BLKSIZE)).

Lemma wf_readable L f pos stop : file_wf L f -> 0 <= pos -> stop <= NDIRECT * BLKSIZE -> has_blocks L f pos stop -> readable L f pos stop.
Proof.
  intros Hw Hp Hs Hb. split; [apply Hw|]. intros p Hpp. pose proof (Hb p Hpp) as Hz. split; [done|].
  apply (wf_slot _ _ Hw); [apply (direct_index p stop); lia|done].
Qed.

(** They do not depend on the page of the request. *)
Lemma disk_part_readable L L' f pos stop :
  2 < nb L <= 786432 -> (forall x, DISKMAP <= x -> L' x = L x) -> 0 <= pos -> stop <= NDIRECT * BLKSIZE -> readable L f pos stop ->
  readable L' f pos stop /\ forall p, pos <= p < stop -> fbyte L' f p = fbyte L f p.
Proof.
  intros Hn H Hp Hs [Hf Hb]. pose proof (disk_part_map L L' Hn H) as Hsm. destruct (fo_used _ _ Hf) as [Hbl _]. pose proof (blk_spec f).
  assert (Hsl : forall p, pos <= p < stop -> slot L' f (p / BLKSIZE) = slot L f (p / BLKSIZE)).
  { intros p Hpp. apply slot_ext; [intros x Hx; apply H; lia|apply (direct_index p stop); lia]. }
  split; [split; [by apply (file_ok_same L)|]|].
  - intros p Hpp. rewrite Hsl by done. destruct (Hb p Hpp) as [? ?]. split; [done|]. by apply (same_map_used L).
  - intros p Hpp. unfold fbyte, byte_addr. rewrite Hsl by done. apply H. destruct (Hb p Hpp) as [_ [? _]].
    pose proof (Z.mod_pos_bound p BLKSIZE ltac:(lia)). lia.
Qed.

Lemma readable_view L L' f pos stop : (forall x, L' x = L x) -> 0 <= pos -> stop <= NDIRECT * BLKSIZE -> readable L f pos stop -> readable L' f pos stop.
Proof.
  intros H Hp Hs [Hf Hb]. split; [by apply (file_ok_same L); [apply same_map_of|]|]. intros p Hpp. destruct (Hb p Hpp) as [? ?].
  rewrite (slot_ext L) by (done || apply (direct_index p stop); lia). split; [done|]. by apply (used_ext L).
Qed.

(** The first round of a read and the rest. *)
Lemma read_to_chunk L f buf pos stop :
  2 < nb L <= 786432 -> 0 <= pos < stop -> stop <= NDIRECT * BLKSIZE -> readable L f pos stop ->
  buf + (stop - pos) <= DISKMAP -> let c := chunk pos stop in
  let L1 := copied buf (DISKMAP + slot L f (pos / BLKSIZE) * BLKSIZE + pos mod BLKSIZE) c L in
  (forall x, DISKMAP <= x -> L1 x = L x) /\
  forall x, read_to L1 f (buf + c) (pos + c) stop x = read_to L f buf pos stop x.
Proof.
  intros Hn Hp Hs Hb Hbuf c L1. destruct (chunk_spec pos stop Hp) as (H1 & H2 & _ & _).
  assert (Hd : forall x, DISKMAP <= x -> L1 x = L x).
  { intros x Hx. unfold L1, copied. rewrite (proj2 (Z.ltb_ge x _)), andb_false_r by lia. done. }
  split; [done|]. destruct (disk_part_readable L L1 f pos stop Hn Hd ltac:(lia) Hs Hb) as [_ Hby]. intros x. unfold read_to.
  replace (buf + c + (stop - (pos + c))) with (buf + (stop - pos)) by lia.
  destruct (Z.leb_spec buf x), (Z.leb_spec (buf + c) x), (Z.ltb_spec x (buf + (stop - pos))); cbn [andb]; try lia.
  - f_equal. replace (pos + c + (x - (buf + c))) with (pos + (x - buf)) by lia. apply Hby. lia.
  - unfold L1, copied. rewrite (proj2 (Z.ltb_ge x _)), andb_false_r by lia. done.
  - unfold L1, copied. rewrite (proj2 (Z.leb_le buf x)), (proj2 (Z.ltb_lt x _)) by lia. cbn [andb]. f_equal. unfold fbyte. f_equal.
    rewrite (byte_addr_chunk L f pos stop) by lia. lia.
  - unfold L1, copied. rewrite (proj2 (Z.leb_gt buf x)) by lia. done.
Qed.

Lemma copied_ext dst src n m m' : (forall x, m' x = m x) -> forall x, copied dst src n m' x = copied dst src n m x.
Proof. intros H x. unfold copied. by rewrite !H. Qed.

Lemma read_round s f buf pos stop (k : F Z) :
  healthy s -> 0 <= pos < stop -> stop <= NDIRECT * BLKSIZE -> readable (lview s) f pos stop ->
  FSREQ <= buf -> buf + (stop - pos) <= DISKMAP ->
  exists s', (r ← file_get_block f (pos / BLKSIZE);
     if r.1 <? 0 then mret r.1 else fmemmove buf (u32 (r.2 + pos mod BLKSIZE)) (chunk pos stop) ;; k) s = k s' /\
    wrote (copied buf (DISKMAP + slot (lview s) f (pos / BLKSIZE) * BLKSIZE + pos mod BLKSIZE) (chunk pos stop) (lview s)) s s'.
Proof.
  intros H Hp Hs [Hf Hb] Hlo Hhi. destruct (chunk_spec pos stop Hp) as (H1 & H2 & H3 & _).
  pose proof (direct_index pos stop Hp Hs) as Hi. destruct (Hb pos ltac:(lia)) as [Hz Hu].
  destruct (file_get_block_there s f _ H Hf Hi Hz Hu) as (s1 & E1 & Hs1). fstep by (exact E1).
  pose proof Hs1 as [Hh1 Hv1 _]. cbn [fst snd]. change (0 <? 0) with false. cbv iota.
  pose proof (h_nb _ H) as Hn. pose proof (proj1 Hu) as Hur.
  pose proof (Z.mod_pos_bound pos BLKSIZE ltac:(lia)). rewrite u32_small by lia.
  set (src := DISKMAP + _ + _). destruct (fmemmove_ok buf src (chunk pos stop) s1 Hh1 ltac:(lia)) as (s2 & E2 & Hw2).
  - intros x Hx. right. apply (used_ext (lview s)); [done|]. rewrite (blk_unique x (slot (lview s) f (pos / BLKSIZE))) by lia. done.
  - intros x Hx. split; left; lia.
  - fstep by (exact E2). exists s2. split; [done|]. apply (wrote_after _ s1); [done|]. refine (wrote_ext _ _ _ _ _ Hw2).
    intros x. symmetry. by apply copied_ext.
Qed.

Lemma read_loop n : forall f buf pos stop s,
  healthy s -> 0 <= pos <= stop -> stop <= NDIRECT * BLKSIZE -> readable (lview s) f pos stop ->
  FSREQ <= buf -> buf + (stop - pos) <= DISKMAP -> stop - pos < Z.of_nat n ->
  exists s', file_copy n (λ a bn buf, fmemmove buf a bn) f buf pos stop s = FRet 0 s' /\ wrote (read_to (lview s) f buf pos stop) s s'.
Proof.
  induction n as [|n IH]; intros f buf pos stop s H Hp Hs Hb Hlo Hhi Hfu; [lia|].
  destruct (decide (pos = stop)) as [->|Hne].
  - exists s. cbn [file_copy]. rewrite u32_small, Z.ltb_irrefl by lia. split; [done|]. constructor; [done| |done].
    intros x. unfold read_to. destruct (Z.leb_spec buf x), (Z.ltb_spec x (buf + (stop - stop))); done || lia.
  - rewrite file_copy_round by lia. destruct (chunk_spec pos stop ltac:(lia)) as (H1 & H2 & _). pose proof (h_nb _ H) as Hn.
    edestruct (read_round s f buf pos stop) as (s1 & -> & Hw1); [done|lia|done..|].
    destruct (read_to_chunk (lview s) f buf pos stop Hn ltac:(lia) Hs Hb Hhi) as [Hd Hrt]. set (L1 := copied _ _ _ _) in *.
    pose proof Hw1 as [Hh1 Hv1 _]. destruct (disk_part_readable (lview s) L1 f pos stop Hn Hd ltac:(lia) Hs Hb) as [[HfL HbL] _].
    destruct (IH f (buf + chunk pos stop) (pos + chunk pos stop) stop s1) as (s2 & E2 & Hw2); [done|lia|done| |lia..|].
    + apply (readable_view L1); [done|lia|done|]. split; [done|]. intros p Hpp. apply HbL. lia.
    + exists s2. split; [exact E2|]. apply (wrote_trans _ _ _ _ _ Hw1). refine (wrote_ext _ _ _ _ _ Hw2). intros x. rewrite <- Hrt.
      by apply read_to_ext.
Qed.

(** [L'] is [L] after bytes [pos] to [q] of the file were written from [buf]. *)
Record written (f buf pos q : Z) (L L' : bmem) : Prop := {
  w_more : more f L L';
  w_new : forall p, pos <= p < q -> slot L' f (p / BLKSIZE) <> 0 /\ fbyte L' f p = u8 (L (buf + (p - pos)));
  w_old : forall p, 0 <= p < NDIRECT * BLKSIZE -> ~ (pos <= p < q) -> slot L f (p / BLKSIZE) <> 0 -> fbyte L' f p = fbyte L f p;
  w_rest : forall a, offmeta (nb L) a -> ~ (f + F_DIRECT <= a < f + F_INDIRECT) ->
    (forall i, 0 <= i < NDIRECT -> slot L' f i <> 0 -> blk a <> slot L' f i) -> L' a = L a
}.

(** The page of the request is not part of a file. *)
Lemma page_rest L f a :
  file_wf L f -> FSREQ <= a < DISKMAP ->
  ~ (f + F_DIRECT <= a < f + F_INDIRECT) /\ forall i, 0 <= i < NDIRECT -> slot L f i <> 0 -> blk a <> slot L f i.
Proof.
  intros Hw Ha. destruct (page_blk a Ha) as [-> _]. split.
  - destruct (fo_used _ _ (wf_ok _ _ Hw)) as [? _]. pose proof (blk_spec f). lia.
  - intros i Hi Hz. destruct (wf_slot _ _ Hw i Hi Hz) as [[? _] _]. lia.
Qed.

Lemma written_page f buf pos q L L' a : written f buf pos q L L' -> FSREQ <= a < DISKMAP -> L' a = L a.
Proof.
  intros H Ha. destruct (page_rest L' f a (mo_wf _ _ _ (w_more _ _ _ _ _ _ H)) Ha) as [H1 H2]. apply (w_rest _ _ _ _ _ _ H); [|done..].
  left. lia.
Qed.

Lemma written_trans f buf pos m q L L1 L2 :
  0 <= pos <= m -> m <= q <= NDIRECT * BLKSIZE -> FSREQ <= buf -> buf + (q - pos) <= DISKMAP ->
  written f buf pos m L L1 -> written f (buf + (m - pos)) m q L1 L2 -> written f buf pos q L L2.
Proof.
  intros Hm Hq Hlo Hhi W1 W2. pose proof W1 as [m1 n1 o1 r1]. pose proof W2 as [m2 n2 o2 r2].
  assert (Hk : forall p, 0 <= p < NDIRECT * BLKSIZE -> slot L1 f (p / BLKSIZE) <> 0 -> slot L2 f (p / BLKSIZE) = slot L1 f (p / BLKSIZE)).
  { intros p Hp. apply (mo_kept _ _ _ m2). by apply (direct_index p (NDIRECT * BLKSIZE)). }
  constructor; [by apply (more_trans _ _ L1)| | |].
  - intros p Hp. destruct (decide (p < m)).
    + destruct (n1 p ltac:(lia)) as [Hz Hb]. rewrite Hk by (done || lia). split; [done|]. rewrite o2 by (done || lia). done.
    + destruct (n2 p ltac:(lia)) as [Hz Hb]. split; [done|]. rewrite Hb, (written_page _ _ _ _ _ _ _ W1) by lia. do 2 f_equal. lia.
  - intros p Hp Hn Hz. pose proof (direct_index p (NDIRECT * BLKSIZE) Hp ltac:(lia)).
    rewrite o2; [apply o1; [done|lia|done]|done|lia|]. by rewrite (mo_kept _ _ _ m1).
  - intros a Ha Hna Hs. rewrite r2; [apply r1; [done..|]|by rewrite (mo_nb _ _ _ m1)|done..].
    intros i Hi Hz. rewrite <- (mo_kept _ _ _ m2) by done. apply Hs; [done|]. by rewrite (mo_kept _ _ _ m2).
Qed.

Lemma data_offmeta n a : data_block n (blk a) -> offmeta n a.
Proof. intros [_ H]. right. by right. Qed.

(** A copy into block [i] of the file. *)
Lemma copy_into_block f i dst buf n L :
  2 < nb L <= 786432 -> file_wf L f -> 0 <= i < NDIRECT -> slot L f i <> 0 ->
  DISKMAP + slot L f i * BLKSIZE <= dst -> dst + n <= DISKMAP + slot L f i * BLKSIZE + BLKSIZE ->
  let L' := copied dst buf n L in
  (forall x, blk x <> slot L f i -> L' x = L x) /\ (forall j, 0 <= j < NDIRECT -> slot L' f j = slot L f j) /\ more f L L'.
Proof.
  intros Hnb Hw Hi Hz H1 H2 L'. destruct (wf_slot _ _ Hw _ Hi Hz) as (Hu & Hd & Hnf). set (b := slot L f i) in *.
  assert (Hout : forall x, blk x <> b -> L' x = L x).
  { intros x Hx. unfold L', copied. destruct (Z.leb_spec dst x), (Z.ltb_spec x (dst + n)); cbn [andb]; try done.
    exfalso. apply Hx, blk_unique. lia. }
  assert (Hsm : same_map L L').
  { apply offmeta_same; [done|]. intros a. destruct (decide (blk a = b)) as [E|]; [left; apply data_offmeta; by rewrite E|right; auto]. }
  assert (Hsl : forall j, 0 <= j < NDIRECT -> slot L' f j = slot L f j).
  { intros j Hj. apply slot_ext; [|done]. intros x Hx. apply Hout. destruct (fo_in _ _ (wf_ok _ _ Hw) x Hx) as [-> _]. done. }
  split; [done|]. split; [done|]. constructor; [apply Hsm| |intros ?; by apply same_map_used|auto|intros j Hj Hj0; left; by rewrite Hsl].
  apply (file_wf_kept L); [apply Hsm|intros ?; by apply same_map_used|done..].
Qed.

(** One round: a block for the bytes, and the copy. *)
Lemma written_chunk f buf pos stop L L1 :
  file_wf L f -> 0 <= pos < stop -> stop <= NDIRECT * BLKSIZE -> FSREQ <= buf -> buf + (stop - pos) <= DISKMAP ->
  2 < nb L1 <= 786432 -> grown f L L1 -> slot L1 f (pos / BLKSIZE) <> 0 ->
  written f buf pos (pos + chunk pos stop) L
    (copied (DISKMAP + slot L1 f (pos / BLKSIZE) * BLKSIZE + pos mod BLKSIZE) buf (chunk pos stop) L1).
Proof.
  intros Hw Hp Hs Hlo Hhi Hnb [Hm Hfr] Hz. pose proof (direct_index pos stop Hp Hs) as Hi. pose proof (mo_wf _ _ _ Hm) as Hw1.
  destruct (chunk_spec pos stop Hp) as (H1 & H2 & H3 & Hc). pose proof (Z.mod_pos_bound pos BLKSIZE ltac:(lia)).
  destruct (copy_into_block f _ (DISKMAP + slot L1 f (pos / BLKSIZE) * BLKSIZE + pos mod BLKSIZE) buf (chunk pos stop) L1 Hnb Hw1 Hi Hz)
    as (Hout & Hsl & Hmore); [lia..|].
  set (b := slot L1 f (pos / BLKSIZE)) in *. set (dst := DISKMAP + _ + _) in *. set (L2 := copied _ _ _ _) in *.
  assert (Hba : forall p, 0 <= p < NDIRECT * BLKSIZE -> byte_addr L2 f p = byte_addr L1 f p).
  { intros p Hpp. unfold byte_addr. rewrite Hsl; [done|]. by apply (direct_index p (NDIRECT * BLKSIZE)). }
  constructor; [by apply (more_trans _ _ L1)| | |].
  - intros p Hpc. pose proof (direct_index p stop ltac:(lia) Hs). rewrite Hsl by done. destruct (Hc p Hpc) as [-> _].
    split; [done|]. unfold fbyte. rewrite Hba, (byte_addr_chunk L1 f pos stop) by lia. fold b. fold dst.
    unfold L2, copied. rewrite (proj2 (Z.leb_le _ _)), (proj2 (Z.ltb_lt _ _)) by lia. cbn [andb]. f_equal.
    replace (dst + (p - pos) - dst + buf) with (buf + (p - pos)) by lia. apply Hfr; [left; lia|]. apply (page_rest L f); [done|lia].
  - intros p Hpp Hn Hpz. pose proof (direct_index p (NDIRECT * BLKSIZE) Hpp ltac:(lia)) as Hpi.
    pose proof (mo_kept _ _ _ Hm _ Hpi Hpz) as Ek. unfold fbyte. rewrite Hba by done.
    assert (Eb : byte_addr L1 f p = byte_addr L f p) by (unfold byte_addr; by rewrite Ek). rewrite <- Eb.
    destruct (wf_slot _ _ Hw _ Hpi Hpz) as (_ & Hpd & Hpf).
    transitivity (L1 (byte_addr L1 f p)).
    + destruct (decide (p / BLKSIZE = pos / BLKSIZE)) as [E|E].
      * unfold L2, copied, byte_addr. rewrite E. fold b. rewrite (Z.mod_eq p), E by lia. pose proof (Z.mod_eq pos BLKSIZE ltac:(lia)).
        destruct (Z.leb_spec dst (DISKMAP + b * BLKSIZE + (p - BLKSIZE * (pos / BLKSIZE)))),
          (Z.ltb_spec (DISKMAP + b * BLKSIZE + (p - BLKSIZE * (pos / BLKSIZE))) (dst + chunk pos stop)); done || lia.
      * apply Hout. rewrite byte_addr_blk. intros E'. apply E, (wf_inj _ _ Hw1); [done..|by rewrite Ek|done].
    + apply Hfr; [apply data_offmeta; by rewrite Eb, byte_addr_blk|]. intros Hin.
      destruct (fo_in _ _ (wf_ok _ _ Hw) (byte_addr L1 f p) ltac:(lia)) as [E' _]. rewrite Eb, byte_addr_blk in E'. done.
  - intros a Ha Hna Hsa. rewrite Hout; [by apply Hfr|]. unfold b. rewrite <- Hsl by done. apply Hsa; [done|]. by rewrite Hsl.
Qed.

Lemma fbyte_ext L L' f p : (forall x, L' x = L x) -> fbyte L' f p = fbyte L f p.
Proof. intros H. unfold fbyte, byte_addr, slot. by rewrite H, (word_at_ext L L') by auto. Qed.

Lemma written_none f buf pos L L' : file_wf L f -> (forall a, L' a = L a) -> written f buf pos pos L L'.
Proof.
  intros Hw H. constructor; [apply (grown_view f L L' H Hw)|lia| |done]. intros p _ _ _. by apply fbyte_ext.
Qed.

(** The result of a write up to [q]. *)
Definition write_result (r q pos stop : Z) : Prop := (r = 0 /\ q = stop) \/ (r = - E_NO_DISK /\ pos <= q < stop).

Lemma write_loop n : forall f buf pos stop s,
  healthy s -> file_wf (lview s) f -> 0 <= pos <= stop -> stop <= NDIRECT * BLKSIZE ->
  FSREQ <= buf -> buf + (stop - pos) <= DISKMAP -> stop - pos < Z.of_nat n ->
  exists r q s', file_copy n (λ a bn buf, fmemmove a buf bn) f buf pos stop s = FRet r s' /\ healthy s' /\
    write_result r q pos stop /\ written f buf pos q (lview s) (lview s').
Proof.
  induction n as [|n IH]; intros f buf pos stop s H Hw Hp Hs Hlo Hhi Hfu; [lia|].
  destruct (decide (pos = stop)) as [->|Hne].
  - exists 0, stop, s. cbn [file_copy]. rewrite u32_small, Z.ltb_irrefl by lia. split_and!; [done..|by left|by apply written_none].
  - rewrite file_copy_round by lia. destruct (chunk_spec pos stop ltac:(lia)) as (H1 & H2 & H3 & _).
    pose proof (direct_index pos stop ltac:(lia) Hs) as Hi.
    destruct (file_get_block_ok s f _ H Hw Hi) as (r & s1 & E1 & [(-> & _ & Hs1)|(-> & Hh1 & Hg & Hz & _)]); fstep by (exact E1).
    + exists (- E_NO_DISK), pos, s1. split; [done|]. split; [apply Hs1|]. split; [right; lia|]. apply written_none; [done|apply Hs1].
    + cbn [fst snd]. change (0 <? 0) with false. cbv iota. pose proof (mo_wf _ _ _ (g_more _ _ _ Hg)) as Hw1.
      destruct (wf_slot _ _ Hw1 _ Hi Hz) as (Hu & Hd & _). pose proof (proj1 Hu) as Hur. pose proof (h_nb _ Hh1) as Hn.
      pose proof (Z.mod_pos_bound pos BLKSIZE ltac:(lia)). rewrite u32_small by lia. set (dst := DISKMAP + _ + _) in *.
      destruct (fmemmove_ok dst buf (chunk pos stop) s1 Hh1 ltac:(lia)) as (s2 & E2 & [Hh2 Hv2 _]).
      { intros x Hx. left. lia. }
      { intros x Hx. pose proof (blk_unique x (slot (lview s1) f (pos / BLKSIZE)) ltac:(lia)) as Ex.
        split; [right; by rewrite Ex|apply data_offmeta; by rewrite Ex]. }
      fstep by (exact E2). pose proof (written_chunk f buf pos stop _ _ Hw ltac:(lia) Hs Hlo Hhi Hn Hg Hz) as Hwr.
      fold dst in Hwr. set (L2 := copied _ _ _ _) in *. set (m := pos + chunk pos stop) in *.
      assert (Hwr2 : written f buf pos m (lview s) (lview s2)).
      { apply (written_trans f buf pos m m _ L2); [lia..|done|]. apply written_none; [apply Hwr|done]. }
      destruct (IH f (buf + chunk pos stop) m stop s2) as (r & q & s3 & E3 & Hh3 & Hr & Hw3); [done|apply Hwr2|lia..|].
      exists r, q, s3. split; [exact E3|]. split; [done|]. unfold write_result in *. split; [lia|].
      apply (written_trans f buf pos m q _ (lview s2)); [lia..|done|]. by replace (buf + (m - pos)) with (buf + chunk pos stop) by lia.
Qed.

Lemma size_word f : f + F_SIZE = f + 4 * 32.
Proof. lia. Qed.

(** Changing [f_size]. *)
Lemma resize_file s f n L' :
  healthy s -> file_wf (lview s) f -> 0 <= n < 4294967296 -> (forall x, L' x = put32 (f + F_SIZE) n (lview s) x) ->
  more f (lview s) L' /\ size_of L' f = n /\
  (forall i, 0 <= i < NDIRECT -> slot L' f i = slot (lview s) f i) /\
  (forall p, 0 <= p < NDIRECT * BLKSIZE -> slot (lview s) f (p / BLKSIZE) <> 0 -> fbyte L' f p = fbyte (lview s) f p).
Proof.
  intros H Hw Hn HL. pose proof (fo_in _ _ (wf_ok _ _ Hw)) as Hin.
  assert (Hsl : forall i, 0 <= i < NDIRECT -> slot L' f i = slot (lview s) f i).
  { intros i Hi. unfold slot. rewrite (word_at_ext _ _ _ (λ x _, HL x)). apply word_at_put32_other. lia. }
  assert (Hsm : same_map (lview s) L').
  { apply offmeta_same; [apply (h_nb _ H)|]. intros a. destruct (decide (f + F_SIZE <= a < f + F_SIZE + 4)).
    - left. apply Hin. lia.
    - right. by rewrite HL, put32_other. }
  split_and!; [|unfold size_of; by rewrite (word_at_ext _ _ _ (λ x _, HL x)), word_at_put32, u32_small|done|].
  - pose proof (λ b, same_map_used _ _ b Hsm) as Hu. constructor; [apply Hsm| |done|auto|intros j Hj Hj0; left; by rewrite Hsl].
    by apply (file_wf_kept (lview s)); [apply Hsm|..].
  - intros p Hp Hz. pose proof (direct_index p (NDIRECT * BLKSIZE) Hp ltac:(lia)) as Hi.
    assert (Ea : byte_addr L' f p = byte_addr (lview s) f p) by (unfold byte_addr; by rewrite Hsl).
    unfold fbyte. rewrite Ea, HL. apply put32_other. intros Hx. destruct (Hin (byte_addr (lview s) f p) ltac:(lia)) as [E _].
    rewrite byte_addr_blk in E. by apply (wf_slot _ _ Hw _ Hi Hz).
Qed.

Lemma f_size_ok s f :
  healthy s -> file_ok (lview s) f -> exists s', f_size f s = FRet (s32 (size_of (lview s) f)) s' /\ same_view s s'.
Proof.
  intros H Hf. unfold f_size, size_of. rewrite size_word. destruct (load_file s f 32 H Hf ltac:(lia)) as (s' & E & Hs).
  fstep by (exact E). by exists s'.
Qed.

(** Making a file longer. *)
Lemma grow_size s f n :
  healthy s -> file_wf (lview s) f -> 0 <= size_of (lview s) f <= n -> n <= NDIRECT * BLKSIZE ->
  exists s', file_set_size f n s = FRet 0 s' /\ healthy s' /\ forall x, lview s' x = put32 (f + F_SIZE) n (lview s) x.
Proof.
  intros H Hw Hn Hmax. pose proof (wf_ok _ _ Hw) as Hf. destruct (f_size_ok s f H Hf) as (s1 & E1 & [Hh1 Hv1 _]).
  unfold file_set_size. fstep by (exact E1). rewrite s32_small, (proj2 (Z.ltb_ge n _)) by lia. rewrite fbind_mret, u32_small by lia.
  pose proof (file_ok_same _ _ _ (same_map_of _ _ Hv1) Hf) as Hf1. rewrite size_word.
  destruct (store_file s1 f 32 n Hh1 Hf1 ltac:(lia)) as (s2 & E2 & [Hh2 Hv2 _] & _). fstep by (exact E2).
  destruct (fo_used _ _ Hf1) as [Hb _]. pose proof (h_nb _ Hh1).
  destruct (flush_block_ok s2 f Hh2 (diskmap_blk f ltac:(lia))) as (s3 & E3 & [Hh3 Hv3 _] & _). fstep by (exact E3).
  exists s3. split; [done|]. split; [done|]. intros x. rewrite Hv3, Hv2. by apply put32_agree.
Qed.

(** The file is long enough before the bytes are copied. *)
Lemma write_size s f stop :
  healthy s -> file_wf (lview s) f -> 0 <= size_of (lview s) f -> 0 <= stop <= NDIRECT * BLKSIZE -> size_of (lview s) f <= NDIRECT * BLKSIZE ->
  exists s', (size ← f_size f; if u32 size <? u32 stop then file_set_size f (s32 stop) else mret 0) s = FRet 0 s' /\ healthy s' /\
    more f (lview s) (lview s') /\ size_of (lview s') f = Z.max (size_of (lview s) f) stop /\
    (forall i, 0 <= i < NDIRECT -> slot (lview s') f i = slot (lview s) f i) /\
    (forall p, 0 <= p < NDIRECT * BLKSIZE -> slot (lview s) f (p / BLKSIZE) <> 0 -> fbyte (lview s') f p = fbyte (lview s) f p) /\
    (forall a, ~ (f + F_SIZE <= a < f + F_SIZE + 4) -> lview s' a = lview s a).
Proof.
  intros H Hw Hz Hs Hmax. destruct (f_size_ok s f H (wf_ok _ _ Hw)) as (s1 & E1 & [Hh1 Hv1 _]). fstep by (exact E1).
  rewrite !s32_small, !u32_small by lia. assert (Es : size_of (lview s1) f = size_of (lview s) f) by (by apply word_at_ext).
  destruct (Z.ltb_spec (size_of (lview s) f) stop).
  - destruct (grow_size s1 f stop Hh1 (file_wf_view _ _ _ Hv1 Hw) ltac:(lia) ltac:(lia)) as (s2 & E2 & Hh2 & Hv2).
    assert (Hv : forall x, lview s2 x = put32 (f + F_SIZE) stop (lview s) x) by (intros x; rewrite Hv2; by apply put32_agree).
    destruct (resize_file s f stop (lview s2) H Hw ltac:(lia) Hv) as (? & ? & ? & ?). exists s2. split_and!; try done; [lia|].
    intros a Ha. by rewrite Hv, put32_other.
  - exists s1. split_and!; try done.
    + apply (grown_view f _ _ Hv1 Hw).
    + lia.
    + intros i Hi. by apply slot_ext.
    + intros p _ _. by apply fbyte_ext.
Qed.

Lemma file_read_there s f buf count offset :
  healthy s -> 0 <= size_of (lview s) f <= NDIRECT * BLKSIZE -> 0 <= offset -> 0 <= count ->
  readable (lview s) f offset (Z.min (offset + count) (size_of (lview s) f)) -> FSREQ <= buf -> buf + count <= DISKMAP ->
  let n := Z.max 0 (Z.min count (size_of (lview s) f - offset)) in
  exists s', file_read f buf count offset s = FRet n s' /\ wrote (read_to (lview s) f buf offset (offset + n)) s s'.
Proof.
  intros H Hz Ho Hc Hb Hlo Hhi n. destruct (f_size_ok s f H (proj1 Hb)) as (s1 & E1 & Hs1). pose proof Hs1 as [Hh1 Hv1 _].
  unfold file_read. fstep by (exact E1). rewrite s32_small by lia. destruct (Z.leb_spec (size_of (lview s) f) offset).
  - exists s1. replace n with 0 by lia. split; [done|]. constructor; [done| |apply Hs1]. intros x. rewrite Hv1. unfold read_to.
    destruct (Z.leb_spec buf x), (Z.ltb_spec x (buf + (offset + 0 - offset))); done || lia.
  - rewrite u32_small by lia. replace (Z.min count _) with n by lia. rewrite (u32_small (offset + n)) by lia.
    destruct (read_loop (S (Z.to_nat n)) f buf offset (offset + n) s1 Hh1) as (s2 & E2 & Hw2); [lia|lia| |lia..|].
    { apply (readable_view (lview s)); [done|lia|lia|]. destruct Hb as [Hf Hb]. split; [done|]. intros p Hp. apply Hb. lia. }
    fstep by (exact E2). change (0 <? 0) with false. cbv iota. rewrite s32_small by lia. exists s2. split; [done|].
    apply (wrote_after _ s1); [done|]. refine (wrote_ext _ _ _ _ _ Hw2). by apply read_to_ext.
Qed.

Lemma file_read_run s f buf count offset :
  healthy s -> file_wf (lview s) f -> 0 <= size_of (lview s) f <= NDIRECT * BLKSIZE -> 0 <= offset -> 0 <= count ->
  has_blocks (lview s) f offset (Z.min (offset + count) (size_of (lview s) f)) -> FSREQ <= buf -> buf + count <= DISKMAP ->
  let n := Z.max 0 (Z.min count (size_of (lview s) f - offset)) in
  exists s', file_read f buf count offset s = FRet n s' /\ wrote (read_to (lview s) f buf offset (offset + n)) s s'.
Proof. intros H Hw Hz Ho Hc Hb. apply file_read_there; try done. apply wf_readable; try done. lia. Qed.

(** What [file_write] leaves. *)
Record file_written (f buf offset q stop : Z) (L L' : bmem) : Prop := {
  fw_more : more f L L';
  fw_size : size_of L' f = Z.max (size_of L f) stop;
  fw_new : forall p, offset <= p < q -> slot L' f (p / BLKSIZE) <> 0 /\ fbyte L' f p = u8 (L (buf + (p - offset)));
  fw_old : forall p, 0 <= p < NDIRECT * BLKSIZE -> ~ (offset <= p < q) -> slot L f (p / BLKSIZE) <> 0 -> fbyte L' f p = fbyte L f p;
  fw_rest : forall a, used L (blk a) -> data_block (nb L) (blk a) -> blk a <> blk f ->
    (forall i, 0 <= i < NDIRECT -> slot L f i <> blk a) -> L' a = L a
}.

Lemma file_written_of f buf offset q stop L L1 L2 :
  file_wf L f -> 0 <= offset -> q <= stop -> stop <= NDIRECT * BLKSIZE -> FSREQ <= buf -> buf + (stop - offset) <= DISKMAP ->
  more f L L1 -> size_of L1 f = Z.max (size_of L f) stop ->
  (forall i, 0 <= i < NDIRECT -> slot L1 f i = slot L f i) ->
  (forall p, 0 <= p < NDIRECT * BLKSIZE -> slot L f (p / BLKSIZE) <> 0 -> fbyte L1 f p = fbyte L f p) ->
  (forall a, ~ (f + F_SIZE <= a < f + F_SIZE + 4) -> L1 a = L a) ->
  written f buf offset q L1 L2 -> file_written f buf offset q stop L L2.
Proof.
  intros Hw Ho Hq Hs Hlo Hhi Hm Hz Hsl Hby Hfr [m2 n2 o2 r2]. pose proof (more_trans _ _ _ _ Hm m2) as Hm2.
  pose proof (fo_in _ _ (wf_ok _ _ Hw)) as Hin. pose proof (proj1 (fo_used _ _ (wf_ok _ _ Hw))) as Hb. pose proof (blk_spec f).
  constructor; [done| | | |].
  - rewrite <- Hz. apply word_at_ext. intros x Hx. destruct (Hin x ltac:(lia)) as [Ex Hox].
    apply r2; [by rewrite (mo_nb _ _ _ Hm)|lia|]. intros i Hi Hn. rewrite Ex. symmetry. by apply (wf_slot _ _ (mo_wf _ _ _ m2)).
  - intros p Hp. destruct (n2 p Hp) as [? E]. split; [done|]. rewrite E, Hfr by lia. done.
  - intros p Hp Hn Hpz. rewrite o2, Hby; try done. by rewrite Hsl by (by apply (direct_index p (NDIRECT * BLKSIZE))).
  - intros a Hu Hd Hnf Hns. assert (Hna : ~ (f <= a < f + sizeof_File)) by (intros Ha; by destruct (Hin a Ha)).
    rewrite r2; [apply Hfr; lia|rewrite (mo_nb _ _ _ Hm); by apply data_offmeta|lia|].
    intros i Hi Hn E. destruct (decide (slot L f i = 0)) as [E0|E0].
    + destruct (mo_fresh _ _ _ Hm2 i Hi E0) as [?|Hf]; [done|]. rewrite <- E in Hf. by rewrite (proj2 Hu) in Hf.
    + apply (Hns i Hi). by rewrite E, (mo_kept _ _ _ Hm2).
Qed.

Lemma file_write_run s f buf count offset :
  healthy s -> file_wf (lview s) f -> 0 <= size_of (lview s) f <= NDIRECT * BLKSIZE -> 0 <= offset -> 0 <= count ->
  offset + count <= NDIRECT * BLKSIZE -> FSREQ <= buf -> buf + count <= DISKMAP ->
  exists r q s', file_write f buf count offset s = FRet r s' /\ healthy s' /\
    ((r = count /\ q = offset + count) \/ (r = - E_NO_DISK /\ offset <= q < offset + count)) /\
    file_written f buf offset q (offset + count) (lview s) (lview s').
Proof.
  intros H Hw Hz Ho Hc Hs Hlo Hhi.
  destruct (write_size s f (offset + count) H Hw ltac:(lia) ltac:(lia) ltac:(lia)) as (s1 & E1 & Hh1 & Hm1 & Hz1 & Hsl1 & Hby1 & Hfr1).
  destruct (write_loop (S (Z.to_nat count)) f buf offset (offset + count) s1 Hh1 (mo_wf _ _ _ Hm1)) as (r & q & s2 & E2 & Hh2 & Hr & Hw2); [lia..|].
  assert (E : file_write f buf count offset s = FRet (if r <? 0 then r else count) s2).
  { unfold file_write. rewrite <- fbind_assoc. fstep by (exact E1). change (0 <? 0) with false. cbv iota. rewrite u32_small by lia.
    fstep by (exact E2). destruct (r <? 0); [done|]. by rewrite s32_small by lia. }
  exists (if r <? 0 then r else count), q, s2. split; [done|]. split; [done|].
  assert (Hq : q <= offset + count) by (unfold write_result in Hr; lia).
  split; [destruct Hr as [[-> ->]|[-> ?]]; [by left|by right]|]. by apply (file_written_of f buf offset q _ _ (lview s1)); try lia.
Qed.

(** ** The sample disk *)

Abbreviation sample_file := (SUPER + 8) (only parsing).

Lemma sample_view : forall a, lview fs_sample a = (λ x, disk_sample (x - DISKMAP)) a.
Proof. apply fs_sample_view. Qed.

Lemma sample_nb : nb (lview fs_sample) = 64.
Proof. rewrite (nb_ext _ _ sample_view). reflexivity. Qed.

Lemma sample_slots i : 0 <= i < NDIRECT -> slot (lview fs_sample) sample_file i = if i =? 0 then 3 else 0.
Proof.
  intros Hi. rewrite (slot_ext _ _ _ _ (λ x _, sample_view x) Hi).
  assert (i = 0 \/ i = 1 \/ i = 2 \/ i = 3 \/ i = 4 \/ i = 5 \/ i = 6 \/ i = 7 \/ i = 8 \/ i = 9) as Hc by lia.
  destruct_or! Hc; subst i; reflexivity.
Qed.

Lemma sample_used b : 1 <= b < 4 -> used (lview fs_sample) b.
Proof.
  intros Hb. apply (used_ext _ _ _ sample_view). split; [change (nb _) with 64; lia|].
  assert (b = 1 \/ b = 2 \/ b = 3) as Hc by lia. destruct_or! Hc; subst b; reflexivity.
Qed.

Lemma sample_wf : file_wf (lview fs_sample) sample_file.
Proof.
  constructor.
  - constructor; [reflexivity|change (blk _) with 1; apply sample_used; lia|]. intros x Hx. change (blk sample_file) with 1.
    split; [apply blk_unique; lia|]. right. left. lia.
  - intros i Hi. rewrite sample_slots, sample_nb by done. destruct (i =? 0); [|done]. intros _.
    split; [apply sample_used; lia|]. split; [unfold data_block; lia|done].
  - intros i j Hi Hj. rewrite !sample_slots by done. destruct (Z.eqb_spec i 0), (Z.eqb_spec j 0); subst; done.
Qed.

Lemma sample_size : size_of (lview fs_sample) sample_file = 4.
Proof. unfold size_of. rewrite (word_at_ext _ _ _ (λ x _, sample_view x)). reflexivity. Qed.

(** ** Properties *)

(** [alloc_block] takes the first free block: it marks this block and no
    other in use, changes nothing else, and the first bitmap block is on the
    disk when it returns; [free_block] gives the block back.  When no block is
    free it returns -E_NO_DISK and changes nothing. *)
Theorem alloc_block_correct s :
  healthy s ->
  exists r s', alloc_block s = FRet r s' /\ healthy s' /\
    ((0 <= r < nb (lview s) /\ isfree (lview s) r = true /\ (forall x, 0 <= x < r -> isfree (lview s) x = false) /\
      (forall x, isfree (lview s') x = isfree (lview s) x && negb (bool_decide (x = r))) /\
      (forall a, ~ (bword r <= a < bword r + 4) -> lview s' a = lview s a) /\
      (forall a, blk a = 2 -> d_disk s' (a - DISKMAP) = lview s' a) /\
      exists s'', free_block r s' = FRet tt s'' /\ healthy s'' /\ forall x, isfree (lview s'') x = isfree (lview s) x) \/
     (r = - E_NO_DISK /\ (forall x, 0 <= x < nb (lview s) -> isfree (lview s) x = false) /\ forall a, lview s' a = lview s a)).
Proof.
  intros H. destruct (alloc_block_ok s H) as (r & s' & E & [(Hr & Hf & Hl & [Hh Hn Hfr Hm Hd])|(-> & Hl & [Hh Hv _])]); exists r, s' || exists (- E_NO_DISK), s'.
  - split; [done|]. split; [done|]. left. pose proof (free_data s r H Hr Hf) as Hdb. rewrite <- Hn in Hdb.
    destruct (free_block_ok s' r Hh Hdb) as (s'' & E' & Hh' & _ & Hf' & _). split_and!; [lia..|done|done|done|done|done|].
    exists s''. split; [done|]. split; [done|]. intros x. rewrite Hf', Hfr. case_bool_decide; [subst; by rewrite Hf|].
    by rewrite andb_true_r, orb_false_r.
  - split; [done|]. split; [done|]. by right.
Qed.

Lemma alloc_block_correct_witness : exists s', alloc_block fs_sample = FRet 4 s' /\ isfree (lview s') 4 = false /\ isfree (lview s') 5 = true.
Proof.
  destruct (alloc_block_correct fs_sample fs_sample_healthy) as (r & s' & E & _ & [(Hr & Hf & Hl & Hfr & _)|(_ & Hl & _)]).
  - rewrite sample_nb in Hr. rewrite (isfree_ext _ _ _ sample_view) in Hf.
    assert (Hlt : forall x, 0 <= x < r -> isfree (λ x, disk_sample (x - DISKMAP)) x = false).
    { intros x Hx. rewrite <- (isfree_ext _ _ _ sample_view). by apply Hl. }
    assert (r = 4) as ->.
    { destruct (decide (r < 4)) as [Hr4|]; [|destruct (decide (4 < r)); [|lia]].
      - assert (r = 0 \/ r = 1 \/ r = 2 \/ r = 3) as Hc by lia. destruct_or! Hc; subst r; discriminate Hf.
      - specialize (Hlt 4 ltac:(lia)). discriminate Hlt. }
    exists s'. split; [exact E|]. rewrite !Hfr, !(isfree_ext _ _ _ sample_view). split; reflexivity.
  - specialize (Hl 4). rewrite sample_nb, (isfree_ext _ _ _ sample_view) in Hl. specialize (Hl ltac:(lia)). discriminate Hl.
Defined.

(** [file_read] of a file of direct blocks returns the number of bytes of
    the file behind [offset], at most [count], puts these bytes of the file
    into the buffer and changes nothing else. *)
Theorem file_read_correct s f buf count offset :
  healthy s -> file_wf (lview s) f -> 0 <= size_of (lview s) f <= NDIRECT * BLKSIZE -> 0 <= offset -> 0 <= count ->
  has_blocks (lview s) f offset (Z.min (offset + count) (size_of (lview s) f)) -> FSREQ <= buf -> buf + count <= DISKMAP ->
  let n := Z.max 0 (Z.min count (size_of (lview s) f - offset)) in
  exists s', file_read f buf count offset s = FRet n s' /\ healthy s' /\
    (forall k, 0 <= k < n -> lview s' (buf + k) = u8 (fbyte (lview s) f (offset + k))) /\
    (forall x, ~ (buf <= x < buf + n) -> lview s' x = lview s x).
Proof.
  intros H Hw Hz Ho Hc Hb Hlo Hhi n. destruct (file_read_run s f buf count offset H Hw Hz Ho Hc Hb Hlo Hhi) as (s' & E & [Hh Hv _]).
  fold n in E, Hv. exists s'. split; [done|]. split; [done|].
  split; intros k Hk; rewrite Hv; unfold read_to; replace (offset + n - offset) with n by lia.
  - rewrite (proj2 (Z.leb_le _ _)), (proj2 (Z.ltb_lt _ _)) by lia. cbn [andb]. do 2 f_equal. lia.
  - destruct (Z.leb_spec buf k), (Z.ltb_spec k (buf + n)); done || lia.
Qed.

Lemma file_read_correct_witness :
  exists s', file_read sample_file FSREQ 100 1 fs_sample = FRet 3 s' /\ lview s' FSREQ = 79 /\ lview s' (FSREQ + 2) = 33.
Proof.
  destruct (file_read_correct fs_sample sample_file FSREQ 100 1 fs_sample_healthy sample_wf) as (s' & E & _ & Hk & _);
    [rewrite sample_size; lia|lia|lia| |lia|lia|].
  - intros p. rewrite sample_size. intros Hp. rewrite (Z.div_small p) by lia. rewrite sample_slots by lia. cbn. lia.
  - rewrite sample_size in E, Hk. change (Z.max 0 (Z.min 100 (4 - 1))) with 3 in E, Hk. exists s'. split; [exact E|].
    assert (Hb : forall p, fbyte (lview fs_sample) sample_file p = fbyte (λ x, disk_sample (x - DISKMAP)) sample_file p).
    { intros p. by apply fbyte_ext, sample_view. }
    split; [replace FSREQ with (FSREQ + 0) by lia; rewrite (Hk 0), Hb by lia|rewrite (Hk 2), Hb by lia]; reflexivity.
Defined.

(** C19: [file_write] on a file of direct blocks writes all [count] bytes, or
    returns -E_NO_DISK after the first ones.  The bytes written are the
    buffer's, the size covers them, the other bytes of the file and the data
    of every other block in use are unchanged, new blocks of the file were free
    and no two entries share a block. *)
Theorem file_write_correct s f buf count offset :
  healthy s -> file_wf (lview s) f -> 0 <= size_of (lview s) f <= NDIRECT * BLKSIZE -> 0 <= offset -> 0 <= count ->
  offset + count <= NDIRECT * BLKSIZE -> FSREQ <= buf -> buf + count <= DISKMAP ->
  exists r q s', file_write f buf count offset s = FRet r s' /\ healthy s' /\ file_wf (lview s') f /\
    ((r = count /\ q = offset + count) \/ (r = - E_NO_DISK /\ offset <= q < offset + count)) /\
    size_of (lview s') f = Z.max (size_of (lview s) f) (offset + count) /\
    (forall p, offset <= p < q -> fbyte (lview s') f p = u8 (lview s (buf + (p - offset)))) /\
    (forall p, 0 <= p < NDIRECT * BLKSIZE -> ~ (offset <= p < q) -> slot (lview s) f (p / BLKSIZE) <> 0 ->
       fbyte (lview s') f p = fbyte (lview s) f p) /\
    (forall a, used (lview s) (blk a) -> data_block (nb (lview s)) (blk a) -> blk a <> blk f ->
       (forall i, 0 <= i < NDIRECT -> slot (lview s) f i <> blk a) -> lview s' a = lview s a).
Proof.
  intros H Hw Hz Ho Hc Hs Hlo Hhi. destruct (file_write_run s f buf count offset H Hw Hz Ho Hc Hs Hlo Hhi) as (r & q & s' & E & Hh & Hr & [m z n o w]).
  exists r, q, s'. split_and!; try done; [apply m|]. intros p Hp. by apply n.
Qed.

Lemma file_write_correct_witness :
  exists r q s', file_write sample_file FSREQ 6 4094 fs_sample = FRet r s' /\ size_of (lview s') sample_file = 4100 /\ 4094 <= q /\
    fbyte (lview s') sample_file 0 = 74.
Proof.
  destruct (file_write_correct fs_sample sample_file FSREQ 6 4094 fs_sample_healthy sample_wf) as (r & q & s' & E & _ & _ & Hr & Hz & _ & Ho & _);
    [rewrite sample_size; lia|lia..|].
  exists r, q, s'. split; [exact E|]. rewrite sample_size in Hz. split; [exact Hz|]. split; [lia|].
  rewrite (Ho 0); [rewrite (fbyte_ext _ _ _ _ sample_view); reflexivity|lia|lia|].
  change (0 / BLKSIZE) with 0. rewrite sample_slots by lia. cbn. lia.
Defined.

(** What [file_write] wrote, [file_read] returns: after a write of all
    [count] bytes, a read of [count] bytes at the same offset puts the bytes
    of the first buffer into the second. *)
Theorem file_write_read s f buf buf' count offset s' :
  healthy s -> file_wf (lview s) f -> 0 <= size_of (lview s) f <= NDIRECT * BLKSIZE -> 0 <= offset -> 0 <= count ->
  offset + count <= NDIRECT * BLKSIZE -> FSREQ <= buf -> buf + count <= DISKMAP -> FSREQ <= buf' -> buf' + count <= DISKMAP ->
  file_write f buf count offset s = FRet count s' ->
  exists s'', file_read f buf' count offset s' = FRet count s'' /\
    forall k, 0 <= k < count -> lview s'' (buf' + k) = u8 (lview s (buf + k)).
Proof.
  intros H Hw Hz Ho Hc Hs Hlo Hhi Hlo' Hhi' Ew.
  destruct (file_write_run s f buf count offset H Hw Hz Ho Hc Hs Hlo Hhi) as (r & q & s1 & E & Hh & Hr & [m z n o w]).
  rewrite E in Ew. injection Ew as -> ->. assert (q = offset + count) as -> by lia.
  destruct (file_read_run s' f buf' count offset Hh (mo_wf _ _ _ m)) as (s2 & E2 & [Hh2 Hv2 _]); [lia..| |lia|lia|].
  { intros p Hp. apply n. lia. }
  rewrite z in E2, Hv2. replace (Z.max 0 _) with count in E2, Hv2 by lia. exists s2. split; [done|]. intros k Hk. rewrite Hv2.
  unfold read_to. rewrite (proj2 (Z.leb_le _ _)), (proj2 (Z.ltb_lt _ _)) by lia. cbn [andb].
  destruct (n (offset + (buf' + k - buf')) ltac:(lia)) as [_ ->]. unfold u8. rewrite Z.mod_mod by lia. do 2 f_equal. lia.
Qed.

(** The request page with the bytes to write. *)
Definition fs_sample_req : fsrv := set_fs_mem (puts FSREQ [72; 105; 33] (fs_mem fs_sample)) fs_sample.

Lemma sample_req_ok :
  healthy fs_sample_req /\ file_wf (lview fs_sample_req) sample_file /\ size_of (lview fs_sample_req) sample_file = 4.
Proof.
  assert (Hw : wrote (puts FSREQ [72; 105; 33] (lview fs_sample)) fs_sample fs_sample_req).
  { destruct (store_list_ok [72; 105; 33] FSREQ fs_sample fs_sample_healthy) as (s' & E & Hw).
    - cbn [length]. intros x Hx. split; left; lia.
    - replace fs_sample_req with s'; [done|]. injection E as <-. reflexivity. }
  destruct Hw as [Hh Hv _]. assert (Hd : forall x, DISKMAP <= x -> lview fs_sample_req x = lview fs_sample x).
  { intros x Hx. rewrite Hv. cbn [puts]. unfold put. by rewrite !(proj2 (Z.eqb_neq x _)) by lia. }
  split; [done|]. split; [apply (disk_part_file (lview fs_sample)); [rewrite sample_nb; lia|done|apply sample_wf]|].
  rewrite <- sample_size. apply word_at_ext. intros x Hx. apply Hd. lia.
Qed.

Lemma file_write_read_witness :
  exists s' s'', file_write sample_file FSREQ 3 4095 fs_sample_req = FRet 3 s' /\
    file_read sample_file (FSREQ + 8) 3 4095 s' = FRet 3 s'' /\ lview s'' (FSREQ + 8) = 72 /\ lview s'' (FSREQ + 10) = 33.
Proof.
  destruct sample_req_ok as (Hh & Hw & Hz).
  assert (Hr : match file_write sample_file FSREQ 3 4095 fs_sample_req with FRet r _ => r | _ => 0 end = 3) by (vm_compute; reflexivity).
  destruct (file_write sample_file FSREQ 3 4095 fs_sample_req) as [r s'|] eqn:E; [|discriminate Hr]. subst r.
  destruct (file_write_read fs_sample_req sample_file FSREQ (FSREQ + 8) 3 4095 s' Hh Hw) as (s'' & E' & Hk); try lia; [exact E|].
  exists s', s''. split; [reflexivity|]. split; [exact E'|].
  split; [replace (FSREQ + 8) with (FSREQ + 8 + 0) by lia; rewrite (Hk 0) by lia|
          replace (FSREQ + 10) with (FSREQ + 8 + 2) by lia; rewrite (Hk 2) by lia]; vm_compute; reflexivity.
Defined.

(** C30: for a block number behind the direct ones, with an indirect block,
    [file_block_walk] returns an address computed from that of [f_indirect]:
    block 10 has the slot that holds [f_indirect] itself, and the slots from
    block 30 on lie behind the [struct File], in the next directory entry. *)
Theorem file_block_walk_indirect s f bn alloc :
  healthy s -> file_ok (lview s) f -> NDIRECT <= bn < NDIRECT + NINDIRECT -> word_at (lview s) (f + F_INDIRECT) <> 0 ->
  exists a s', file_block_walk f bn alloc s = FRet (0, a) s' /\ (forall x, lview s' x = lview s x) /\
    (bn = NDIRECT -> a = f + F_INDIRECT) /\ (bn < 30 -> f + F_INDIRECT <= a < f + sizeof_File) /\ (30 <= bn -> f + sizeof_File <= a).
Proof.
  intros H Hf Hbn Hi. exists (f + F_INDIRECT + 4 * (bn - NDIRECT)).
  replace (f + F_INDIRECT) with (f + 4 * 44) in * by lia. destruct (file_word s f 44 H Hf ltac:(lia)) as ([Hb _] & _).
  pose proof (h_nb _ H). pose proof (blk_spec (f + 4 * 44)).
  destruct (load_file s f 44 H Hf ltac:(lia)) as (s' & E & Hs). exists s'. split_and!; [|apply Hs|lia..].
  unfold file_block_walk. replace (f + F_INDIRECT) with (f + 4 * 44) by lia.
  rewrite (proj2 (Z.ltb_ge bn NDIRECT)), (proj2 (Z.ltb_lt bn _)) by lia. fstep by (exact E). rewrite (proj2 (Z.eqb_neq _ 0)) by done.
  cbn [negb]. by rewrite u32_small by lia.
Qed.

Lemma file_block_walk_indirect_witness :
  exists a s', file_block_walk (DISKMAP + 3 * BLKSIZE + 1024) 30 true fs_sample = FRet (0, a) s' /\ DISKMAP + 3 * BLKSIZE + 1280 <= a.
Proof.
  destruct (file_block_walk_indirect fs_sample (DISKMAP + 3 * BLKSIZE + 1024) 30 true fs_sample_healthy) as (a & s' & E & _ & _ & _ & Ha).
  - constructor; [reflexivity|change (blk _) with 3; apply sample_used; lia|]. intros x Hx. change (blk (DISKMAP + _ + _)) with 3.
    assert (Ex : blk x = 3) by (apply blk_unique; lia). split; [exact Ex|]. apply data_offmeta. rewrite Ex, sample_nb. unfold data_block. lia.
  - lia.
  - rewrite (word_at_ext _ _ _ (λ x _, sample_view x)). discriminate.
  - exists a, s'. split; [exact E|]. specialize (Ha ltac:(lia)). lia.
Defined.
