(* ===== verification/FsDir.v ===== *)
(** * Directories, paths and starting the file system

    Looking up a name in a directory is a search in the list of its entries;
    [walk_path] follows the components of a path from the root.  Both are
    described on the logical content of the disk. *)

From S2P Require Import Prelude LibString Mmu BlockCache BlockCacheSpec Fs FsSpec.

(** ** Names *)

Lemma find_app {A} (f : A -> bool) l1 l2 : find f (l1 ++ l2) = match find f l1 with Some x => Some x | None => find f l2 end.
Proof. induction l1 as [|x l1 IH]; [done|]. cbn [app find]. by destruct (f x). Qed.

Lemma find_same {A} (f g : A -> bool) l : (forall x, f x = g x) -> find f l = find g l.
Proof. intros H. induction l as [|x l IH]; [done|]. cbn [find]. by rewrite H, IH. Qed.

(** The string at [a] is [name]. *)
Fixpoint streq (L : bmem) (a : Z) (name : list Z) : bool :=
  match name with
  | [] => L a =? 0
  | c :: name' => negb (L a =? 0) && (L a =? c) && streq L (a + 1) name'
  end.

Lemma streq_ext L L' a name : (forall x, L' x = L x) -> streq L' a name = streq L a name.
Proof. intros H. revert a. induction name as [|c name IH]; intros a; cbn [streq]; rewrite H; [done|]. by rewrite IH. Qed.

Lemma streq_range L name : forall a, Forall (λ c, c <> 0) name ->
  streq L a name = true <-> range L (length name) a = name /\ L (a + Z.of_nat (length name)) = 0.
Proof.
  induction name as [|c name IH]; intros a Hn; cbn [streq length].
  - rewrite Z.add_0_r, Z.eqb_eq. split; [done|]. by intros [_ ?].
  - apply list.Forall_cons in Hn as [Hc Hn]. rewrite range_S, !andb_true_iff, negb_true_iff, Z.eqb_neq, Z.eqb_eq, IH by done.
    replace (a + Z.of_nat (S (length name))) with (a + 1 + Z.of_nat (length name)) by lia. split.
    + intros ((? & ->) & -> & ?). done.
    + intros ([= -> ->] & ?). done.
Qed.

Lemma fstreq_ok name : forall a s,
  healthy s -> (forall x, a <= x <= a + Z.of_nat (length name) -> access (lview s) x) ->
  exists s', fstreq a name s = FRet (streq (lview s) a name) s' /\ same_view s s'.
Proof.
  induction name as [|c name IH]; intros a s H Ha; cbn [fstreq streq length] in *;
    (destruct (load_any s a H) as (s1 & E1 & Hs1); [apply Ha; lia|]); fstep by (exact E1).
  { by exists s1. }
  destruct (negb (lview s a =? 0) && (lview s a =? c)); cbn [andb]; [|by exists s1].
  pose proof Hs1 as [Hh1 Hv1 _]. destruct (IH (a + 1) s1 Hh1) as (s2 & E2 & Hs2).
  { intros x Hx. apply (access_ext (lview s)); [done|]. apply Ha. lia. }
  exists s2. rewrite E2, (streq_ext (lview s)) by done. split; [done|]. by apply (same_view_trans _ s1).
Qed.

(** ** Directories *)

(** The entries of the block at [a], and those of the first [n] blocks. *)
Definition block_entries (a : Z) : list Z := map (λ j, a + j * sizeof_File) (seqZ 0 BLKFILES).
Definition dir_entries (L : bmem) (dir n : Z) : list Z :=
  flat_map (λ i, block_entries (DISKMAP + slot L dir i * BLKSIZE)) (seqZ 0 n).

(** A directory of [n] direct blocks. *)
Record dir_wf (L : bmem) (dir n : Z) : Prop := {
  dw_wf : file_wf L dir;
  dw_size : size_of L dir = n * BLKSIZE;
  dw_n : 0 <= n <= NDIRECT;
  dw_slot : forall i, 0 <= i < n -> slot L dir i <> 0
}.

Lemma dir_wf_view L L' dir n : (forall a, L' a = L a) -> dir_wf L dir n -> dir_wf L' dir n.
Proof.
  intros H [Hw Hz Hn Hs]. constructor; [by apply (file_wf_view L)| |done|].
  - rewrite <- Hz. by apply word_at_ext.
  - intros i Hi. rewrite (slot_ext L) by (done || lia). by apply Hs.
Qed.

Lemma dir_entries_view L L' dir n : (forall a, L' a = L a) -> n <= NDIRECT -> dir_entries L' dir n = dir_entries L dir n.
Proof.
  intros H Hn. unfold dir_entries. rewrite !flat_map_concat_map. f_equal. apply map_ext_in. intros i Hi%list_elem_of_In%elem_of_seqZ.
  by rewrite (slot_ext L) by (done || lia).
Qed.

Lemma find_entry_ok name n : forall j a s,
  healthy s -> 0 <= j -> j + Z.of_nat n = BLKFILES -> (length name < 256)%nat ->
  (forall x, a <= x < a + BLKSIZE -> used (lview s) (blk x)) ->
  exists s', find_entry n (a + j * sizeof_File) (λ f, fstreq f name) s =
    FRet (find (λ e, streq (lview s) e name) (map (λ j, a + j * sizeof_File) (seqZ j (Z.of_nat n)))) s' /\ same_view s s'.
Proof.
  induction n as [|n IH]; intros j a s H Hj Hn Hl Ha.
  { exists s. split; [done|by apply same_view_refl]. }
  cbn [find_entry]. rewrite seqZ_cons by lia. cbn [map find].
  destruct (fstreq_ok name (a + j * sizeof_File) s H) as (s1 & E1 & Hs1); [intros x Hx; right; apply Ha; lia|]. fstep by (exact E1).
  destruct (streq (lview s) (a + j * sizeof_File) name); [by exists s1|].
  pose proof Hs1 as [Hh1 Hv1 _]. destruct (IH (j + 1) a s1 Hh1 ltac:(lia) ltac:(lia) Hl) as (s2 & E2 & Hs2).
  { intros x Hx. apply (used_ext (lview s)); [done|]. by apply Ha. }
  exists s2. replace (a + j * sizeof_File + sizeof_File) with (a + (j + 1) * sizeof_File) by lia. rewrite E2.
  replace (Z.succ j) with (j + 1) by lia. replace (Z.pred (Z.of_nat (S n))) with (Z.of_nat n) by lia.
  split; [|by apply (same_view_trans _ s1)]. f_equal. apply find_same. intros e. by apply streq_ext.
Qed.

(** The data of a directory can be read. *)
Lemma dir_block_used L dir n i x :
  dir_wf L dir n -> 0 <= i < n -> DISKMAP + slot L dir i * BLKSIZE <= x < DISKMAP + slot L dir i * BLKSIZE + BLKSIZE -> used L (blk x).
Proof.
  intros [Hw _ Hn Hs] Hi Hx. rewrite (blk_unique x (slot L dir i)) by done. apply (wf_slot _ _ Hw i); [lia|]. by apply Hs.
Qed.

Lemma find_block_ok name dir m n : forall i s,
  healthy s -> dir_wf (lview s) dir n -> 0 <= i -> i + Z.of_nat m = n -> (length name < 256)%nat ->
  exists s', find_block m dir i (λ f, fstreq f name) s =
    FRet (0, find (λ e, streq (lview s) e name) (flat_map (λ i, block_entries (DISKMAP + slot (lview s) dir i * BLKSIZE)) (seqZ i (Z.of_nat m)))) s' /\ same_view s s'.
Proof.
  induction m as [|m IH]; intros i s H Hd Hi Hn Hl.
  { exists s. split; [done|by apply same_view_refl]. }
  cbn [find_block]. rewrite seqZ_cons by lia. cbn [flat_map]. pose proof (dw_n _ _ _ Hd).
  destruct (file_get_block_ok s dir i H (dw_wf _ _ _ Hd) ltac:(lia)) as (r & s1 & E1 & [(_ & Hz & _)|(-> & Hh1 & _ & _ & Hs1)]).
  { exfalso. revert Hz. apply (dw_slot _ _ _ Hd). lia. }
  specialize (Hs1 (dw_slot _ _ _ Hd i ltac:(lia))). pose proof (sv_view _ _ Hs1) as Hv1. fstep by (exact E1). cbn [fst snd Z.ltb Z.compare].
  rewrite (slot_ext (lview s) (lview s1)) by (done || lia). set (a := DISKMAP + slot (lview s) dir i * BLKSIZE).
  destruct (find_entry_ok name 16 0 a s1 Hh1 ltac:(lia) ltac:(lia) Hl) as (s2 & E2 & Hs2).
  { intros x Hx. apply (used_ext (lview s)); [done|]. apply (dir_block_used _ dir n i); [done|lia|done]. }
  replace (a + 0 * sizeof_File) with a in E2 by lia. fstep by (exact E2). rewrite find_app.
  rewrite (find_same _ (λ e, streq (lview s) e name)) by (intros; by apply streq_ext). unfold block_entries at 1. change (Z.of_nat 16) with BLKFILES.
  pose proof (same_view_trans _ _ _ Hs1 Hs2) as Hs. set (o := find (λ e : Z, streq (lview s) e name) (map _ _)). destruct o as [e|]; [by exists s2|].
  pose proof Hs as [Hh Hv _]. destruct (IH (i + 1) s2 Hh (dir_wf_view _ _ _ _ Hv Hd) ltac:(lia) ltac:(lia) Hl) as (s3 & E3 & Hs3).
  exists s3. split; [|by apply (same_view_trans _ s2)]. rewrite E3. replace (Z.succ i) with (i + 1) by lia. replace (Z.pred (Z.of_nat (S m))) with (Z.of_nat m) by lia.
  do 2 f_equal. rewrite (find_same _ (λ e, streq (lview s) e name)) by (intros; by apply streq_ext). f_equal.
  rewrite !flat_map_concat_map. f_equal. apply map_ext_in. intros k Hk%list_elem_of_In%elem_of_seqZ. by rewrite (slot_ext (lview s)) by (done || lia).
Qed.

(** The entry with the name. *)
Definition lookup_name (L : bmem) (dir n : Z) (name : list Z) : option Z := find (λ e, streq L e name) (dir_entries L dir n).

Lemma dir_lookup_ok s dir n name :
  healthy s -> dir_wf (lview s) dir n -> (length name < 128)%nat ->
  exists s', dir_lookup dir name s =
    FRet (match lookup_name (lview s) dir n name with Some e => (0, e) | None => (- E_NOT_FOUND, 0) end) s' /\ same_view s s'.
Proof.
  intros H Hd Hl. pose proof Hd as [Hw Hz Hn _]. unfold dir_lookup, dir_blocks, f_size.
  destruct (load_file s dir 32 H (wf_ok _ _ Hw) ltac:(lia)) as (s1 & E1 & Hs1). change (4 * 32) with F_SIZE in E1. fold (size_of (lview s) dir) in E1.
  assert (Eb : (size ← (w ← fload32 (dir + F_SIZE); mret (s32 w)); fassert (Z.rem size BLKSIZE =? 0) "assertion failed: (dir->f_size % BLKSIZE) == 0" ;; mret (u32 (Z.quot size BLKSIZE))) s = FRet n s1).
  { rewrite fbind_assoc. fstep by (exact E1). rewrite fbind_mret, Hz, s32_small by lia.
    rewrite fbind_assert by (by rewrite Z.rem_mul by lia). rewrite Z.quot_mul, u32_small by lia. done. }
  fstep by (exact Eb). pose proof Hs1 as [Hh1 Hv1 _].
  destruct (find_block_ok name dir (Z.to_nat n) n 0 s1 Hh1 (dir_wf_view _ _ _ _ Hv1 Hd) ltac:(lia) ltac:(lia) ltac:(lia)) as (s2 & E2 & Hs2).
  fstep by (exact E2). exists s2. split; [|by apply (same_view_trans _ s1)]. rewrite Z2Nat.id by lia.
  fold (dir_entries (lview s1) dir n). rewrite (dir_entries_view (lview s)) by (done || lia).
  rewrite (find_same _ (λ e, streq (lview s) e name)) by (intros; by apply streq_ext). fold (lookup_name (lview s) dir n name).
  by destruct (lookup_name (lview s) dir n name).
Qed.

(** ** Paths *)

(** The components of a path; empty ones do not count. *)
Fixpoint components_from (cur path : list Z) : list (list Z) :=
  let close l := match cur with [] => l | _ => cur :: l end in
  match path with
  | [] => close []
  | c :: path' => if c =? SLASH then close (components_from [] path') else components_from (cur ++ [c]) path'
  end.

Definition components (path : list Z) : list (list Z) := components_from [] path.

Lemma components_skip path : components (skip_slash path) = components path.
Proof. unfold components. induction path as [|c path IH]; [done|]. cbn [skip_slash]. destruct (c =? SLASH) eqn:E; cbn [components_from]; by rewrite E. Qed.

Lemma components_elem path : forall cur, cur ++ path <> [] -> cur <> [] \/ head path <> Some SLASH ->
  components_from cur path = (cur ++ (path_elem path).1) :: components (path_elem path).2.
Proof.
  induction path as [|c path IH]; intros cur Hne Hh; cbn [components_from path_elem].
  - rewrite app_nil_r in *. destruct cur; [done|]. done.
  - destruct (Z.eqb_spec c SLASH) as [->|Hc].
    + destruct Hh as [Hh|Hh]; [|done]. cbn [fst snd]. rewrite app_nil_r. destruct cur; [done|]. done.
    + rewrite IH; [|by destruct cur|left; by destruct cur]. destruct (path_elem path) as [n r]. cbn [fst snd]. by rewrite <- app_assoc.
Qed.

Lemma skip_slash_head path : head (skip_slash path) <> Some SLASH.
Proof. induction path as [|c path IH]; [done|]. cbn [skip_slash]. destruct (Z.eqb_spec c SLASH); [done|]. by intros [= ->]. Qed.

Lemma path_elem_length path : (length (path_elem path).2 + length (path_elem path).1 = length path)%nat.
Proof.
  induction path as [|c path IH]; [done|]. cbn [path_elem]. destruct (c =? SLASH); [cbn; lia|]. destruct (path_elem path). cbn in *. lia.
Qed.

Lemma skip_slash_length path : (length (skip_slash path) <= length path)%nat.
Proof. induction path as [|c path IH]; [done|]. cbn [skip_slash length]. destruct (c =? SLASH); cbn [length]; lia. Qed.

(** Following the components from [f], which was found in [dir]; [nblk] is the
    number of blocks of a directory. *)
Fixpoint resolve (L : bmem) (dir f : Z) (path : list (list Z)) : walked :=
  match path with
  | [] => mkWalk 0 dir f []
  | name :: rest =>
      if MAXNAMELEN <=? Z.of_nat (length name) then mkWalk (- E_BAD_PATH) 0 0 []
      else if negb (word_at L (f + F_TYPE) =? FTYPE_DIR) then mkWalk (- E_NOT_FOUND) 0 0 []
      else
        match lookup_name L f (size_of L f / BLKSIZE) name with
        | Some e => resolve L f e rest
        | None => match rest with [] => mkWalk (- E_NOT_FOUND) f 0 name | _ => mkWalk (- E_NOT_FOUND) 0 0 [] end
        end
  end.

(** Everything that is reached from [f] by names is well formed: entries that are
    directories are in [D]. *)
Record tree (L : bmem) (D : Z -> Prop) : Prop := {
  tr_dir : forall d, D d -> dir_wf L d (size_of L d / BLKSIZE);
  tr_entry : forall d e, D d -> e ∈ dir_entries L d (size_of L d / BLKSIZE) -> word_at L (e + F_TYPE) = FTYPE_DIR -> D e
}.

Lemma components_nil path : head path <> Some SLASH -> components path = [] -> path = [].
Proof. intros Hh E. destruct path as [|c path]; [done|]. unfold components in E. rewrite components_elem in E by (done || by right). done. Qed.

(** The type of a file can be read. *)
Definition readable (L : bmem) (f : Z) : Prop := (f + F_TYPE) mod 4 = 0 /\ used L (blk (f + F_TYPE)).

Lemma file_readable L f : file_ok L f -> readable L f.
Proof.
  intros [Ha Hu Hi]. split; [change F_TYPE with (4 * 33); by apply word_mod4|]. by rewrite (proj1 (Hi (f + F_TYPE) ltac:(lia))).
Qed.

Lemma entry_readable L dir n e : dir_wf L dir n -> e ∈ dir_entries L dir n -> readable L e.
Proof.
  intros Hd He. unfold dir_entries, block_entries in He. apply list_elem_of_In, in_flat_map in He as (i & Hi%list_elem_of_In%elem_of_seqZ & He).
  apply in_map_iff in He as (j & <- & Hj%list_elem_of_In%elem_of_seqZ). split.
  - replace (_ + F_TYPE) with ((67108864 + slot L dir i * 1024 + j * 64 + 33) * 4) by lia. apply Z_mod_mult.
  - apply (dir_block_used L dir n i); [done|lia|lia].
Qed.

Lemma walk_loop_ok L D : tree L D -> forall fuel path dir f s,
  healthy s -> (forall a, lview s a = L a) -> head path <> Some SLASH -> (length path <= fuel)%nat ->
  readable L f -> (word_at L (f + F_TYPE) = FTYPE_DIR -> D f) ->
  exists s', walk_loop fuel path dir f s = FRet (resolve L dir f (components path)) s' /\ same_view s s'.
Proof.
  intros T. induction fuel as [|fuel IH]; intros path dir f s H Hv Hh Hl Hr HD.
  { destruct path; [|cbn in Hl; lia]. exists s. split; [done|by apply same_view_refl]. }
  destruct path as [|c path]; [exists s; split; [done|by apply same_view_refl]|]. cbn [walk_loop].
  unfold components. rewrite components_elem by (done || by right). rewrite app_nil_l. set (p := c :: path) in *.
  pose proof (path_elem_length p) as Hpl. pose proof (components_elem p [] ltac:(done) ltac:(by right)) as Hne.
  destruct (path_elem p) as [name rest] eqn:Ep. cbn [fst snd] in *. cbn [resolve].
  destruct (Z.leb_spec MAXNAMELEN (Z.of_nat (length name))) as [|Hnl]; [exists s; split; [done|by apply same_view_refl]|].
  destruct Hr as [Ha Hu]. destruct (fload32_ok s (f + F_TYPE) H) as (s1 & E1 & Hs1); [by apply (used_ext L)|done|]. fstep by (exact E1).
  rewrite (word_at_ext L (lview s)) by (intros; apply Hv). destruct (Z.eqb_spec (word_at L (f + F_TYPE)) FTYPE_DIR) as [Ht|Ht]; cbn [negb]; [|by exists s1].
  pose proof (tr_dir _ _ T f (HD Ht)) as Hd. pose proof Hs1 as [Hh1 Hv1 _].
  assert (Hv1' : forall a, lview s1 a = L a) by (intros; by rewrite Hv1).
  destruct (dir_lookup_ok s1 f _ name Hh1 (dir_wf_view _ _ _ _ Hv1' Hd) ltac:(lia)) as (s2 & E2 & Hs2). fstep by (exact E2).
  assert (El : lookup_name (lview s1) f (size_of L f / BLKSIZE) name = lookup_name L f (size_of L f / BLKSIZE) name).
  { unfold lookup_name. rewrite (dir_entries_view L) by (done || apply (dw_n _ _ _ Hd)). apply find_same. intros e. by apply streq_ext. }
  rewrite El. pose proof (same_view_trans _ _ _ Hs1 Hs2) as Hs. pose proof Hs as [Hh2 Hv2 _].
  destruct (lookup_name L f (size_of L f / BLKSIZE) name) as [e|] eqn:Ee; cbn [fst snd].
  - change (0 <? 0) with false. cbv iota. apply find_some in Ee as [He%list_elem_of_In _]. pose proof (skip_slash_length rest).
    destruct (IH (skip_slash rest) f e s2 Hh2) as (s3 & E3 & Hs3); try done; [intros; by rewrite Hv2|apply skip_slash_head| |by apply (entry_readable L f _ e Hd)| |].
    + assert (name <> []); [|destruct name; [done|cbn [length] in *; lia]]. intros ->. unfold p in Ep. cbn [path_elem] in Ep.
      destruct (Z.eqb_spec c SLASH) as [->|]; [by destruct Hh|]. by destruct (path_elem path).
    + apply (tr_entry _ _ T f); [by apply HD|done].
    + exists s3. rewrite E3, components_skip. split; [done|]. by apply (same_view_trans _ s2).
  - change (- E_NOT_FOUND <? 0) with true. cbv iota. rewrite Z.eqb_refl. cbn [andb]. exists s2. split; [|done]. rewrite <- (components_skip rest).
    case_bool_decide as Er; [by rewrite Er|]. destruct (components (skip_slash rest)) eqn:Ec; [|done].
    exfalso. apply Er, components_nil; [apply skip_slash_head|done].
Qed.

(** Opening a path is following its components from the root directory, where
    repeated, leading and trailing slashes do not count. *)
Lemma file_open_run s D path :
  healthy s -> tree (lview s) D -> D (SUPER + 8) ->
  exists s', file_open path s = FRet (let w := resolve (lview s) 0 (SUPER + 8) (components path) in (w_ret w, w_file w)) s' /\ same_view s s'.
Proof.
  intros H T HD. unfold file_open, walk_path. rewrite fbind_assoc, fbind_get, (h_super _ H). pose proof (tr_dir _ _ T _ HD) as Hd.
  destruct (walk_loop_ok (lview s) D T (length (skip_slash path)) (skip_slash path) 0 (SUPER + 8) s) as (s' & E & Hs); try done.
  { apply skip_slash_head. }
  { apply file_readable, (dw_wf _ _ _ Hd). }
  exists s'. fstep by (exact E). by rewrite components_skip.
Qed.
