(* ===== verification/FsInit.v ===== *)
(** * Starting the file system

    [fs_init] on a disk with a file system: the self-test of the block cache
    leaves the disk as it was, and the super block and the bitmap that it
    finds give a healthy server whose view is the content of the disk. *)

From S2P Require Import Prelude LibString Mmu BlockCache BlockCacheSpec Fs FsSpec FsDir.

(** ** The server before it has a super block

    Only block 1 is touched.  [L] is its content; it is on the disk only, or cached. *)

Record resting (s0 : fsrv) (L : bmem) (s : fsrv) : Prop := {
  re_super : super s = 0;
  re_bitmap : bitmap s = 0;
  re_bad : d_bad s = d_bad s0;
  re_mapped : bc_mapped s = ∅;
  re_dirty : bc_dirty s = ∅;
  re_pages : fs_pages s = fs_pages s0;
  re_block : forall a, blk a = 1 -> d_disk s (a - DISKMAP) = L a;
  re_disk : forall a, blk a <> 1 -> d_disk s (a - DISKMAP) = d_disk s0 (a - DISKMAP)
}.

Record cached (s0 : fsrv) (L : bmem) (s : fsrv) : Prop := {
  ca_super : super s = 0;
  ca_bitmap : bitmap s = 0;
  ca_bad : d_bad s = d_bad s0;
  ca_mapped : bc_mapped s = {[1]};
  ca_dirty : bc_dirty s ⊆ {[1]};
  ca_pages : fs_pages s = fs_pages s0 - 1;
  ca_block : forall a, blk a = 1 -> fs_mem s a = L a;
  ca_clean : 1 ∉ bc_dirty s -> forall a, blk a = 1 -> d_disk s (a - DISKMAP) = L a;
  ca_disk : forall a, blk a <> 1 -> d_disk s (a - DISKMAP) = d_disk s0 (a - DISKMAP)
}.

Lemma blk1_in a : blk a = 1 -> in_diskmap a = true.
Proof. intros E. apply diskmap_blk. lia. Qed.

Section Start.
  Context {s0 : fsrv}.

Lemma resting_touch L s a : (forall x, d_bad s0 x = false) -> 0 < fs_pages s0 -> resting s0 L s -> blk a = 1 -> exists s', touch a s = FRet tt s' /\ cached s0 L s'.
  Proof using Type.
    intros Hg Hp H Ea. pose proof (blk1_in a Ea) as Hin. unfold touch. rewrite fbind_get, present_mapped, Ea, (re_mapped _ _ _ H) by done.
    rewrite bool_decide_eq_false_2 by set_solver. cbn [bc_pgfault]. rewrite Ea, fbind_assert, fbind_get, (re_super _ _ _ H) by done.
    change (0 =? 0) with true. cbn [negb andb]. cbv iota. rewrite fbind_mret, rounddown_blk, Ea by done.
    destruct (fill_run s 1) as (s1 & [F1 F2 F3 F4 F5 F6 F7 F8] & Ek); [by rewrite (re_bad _ _ _ H)|lia|by rewrite (re_pages _ _ _ H)|]. rewrite Ek.
    rewrite fbind_get, F4, (re_bitmap _ _ _ H). change (0 =? 0) with true. cbv iota. exists s1. split; [done|].
    constructor; rewrite ?F1, ?F2, ?F3, ?F4, ?F5, ?F6, ?F7; try apply H.
    - rewrite (re_mapped _ _ _ H). set_solver.
    - rewrite (re_dirty _ _ _ H). set_solver.
    - by rewrite (re_pages _ _ _ H).
    - intros x Hx. rewrite F8, bool_decide_eq_true_2 by done. by apply H.
    - intros _. apply H.
  Qed.

Lemma cached_touch L s a : cached s0 L s -> blk a = 1 -> touch a s = FRet tt s.
  Proof using Type.
    intros H Ea. unfold touch. by rewrite fbind_get, present_mapped, Ea, (ca_mapped _ _ _ H), bool_decide_eq_true_2 by (set_solver || by apply blk1_in).
  Qed.

Lemma cached_load8 L s a : cached s0 L s -> blk a = 1 -> fload8 a s = FRet (L a) s.
  Proof using Type. intros H Ea. unfold fload8. fstep by (by apply (cached_touch L)). unfold fget. by rewrite (ca_block _ _ _ H). Qed.

Lemma cached_load_list L s n : cached s0 L s -> forall a, (forall x, a <= x < a + Z.of_nat n -> blk x = 1) -> fload_list n a s = FRet (range L n a) s.
  Proof using Type.
    intros H. induction n as [|n IH]; intros a Ha; [done|]. cbn [fload_list]. fstep by (apply (cached_load8 L); [done|apply Ha; lia]).
    fstep by (apply IH; intros x Hx; apply Ha; lia). by rewrite range_S.
  Qed.

Lemma cached_streq L s name : cached s0 L s -> forall a, (forall x, a <= x <= a + Z.of_nat (length name) -> blk x = 1) ->
    fstreq a name s = FRet (streq L a name) s.
  Proof using Type.
    intros H. induction name as [|c name IH]; intros a Ha; cbn [fstreq streq length] in *; (fstep by (apply (cached_load8 L); [done|apply Ha; lia])); [done|].
    destruct (negb (L a =? 0) && (L a =? c)); cbn [andb]; [|done]. apply IH. intros x Hx. apply Ha. lia.
  Qed.

Lemma cached_store_list l : forall a L s, cached s0 L s -> (forall x, a <= x < a + Z.of_nat (length l) -> blk x = 1) ->
    exists s', fstore_list a l s = FRet tt s' /\ cached s0 (puts a l L) s'.
  Proof using Type.
    induction l as [|b l IH]; intros a L s H Ha; [by exists s|]. cbn [fstore_list length puts] in *.
    assert (Eb : blk a = 1) by (apply Ha; lia). unfold fstore8. rewrite fbind_assoc. fstep by (by apply (cached_touch L)).
    rewrite fbind_modify, (blk1_in a Eb), Eb. apply IH; [|intros x Hx; apply Ha; lia].
    constructor; try apply H; cbn [set_fs_mem set_dirty bc_dirty fs_mem d_disk].
    - pose proof (ca_dirty _ _ _ H). set_solver.
    - intros x Hx. unfold put. by rewrite (ca_block _ _ _ H).
    - intros []. set_solver.
  Qed.

(** Writing the block back. *)
Lemma cached_flush L s : (forall x, d_bad s0 x = false) -> cached s0 L s ->
    exists s', flush_block SUPER s = FRet tt s' /\ cached s0 L s' /\ bc_dirty s' = ∅.
  Proof using Type.
    intros Hg H. unfold flush_block. rewrite fbind_assert by done. change (blk SUPER) with 1. change (ROUNDDOWN SUPER BLKSIZE) with (DISKMAP + 1 * BLKSIZE).
    rewrite fbind_get. unfold va_is_mapped. change (blk (DISKMAP + 1 * BLKSIZE)) with 1. rewrite (ca_mapped _ _ _ H), bool_decide_eq_true_2 by set_solver. cbn [negb].
    rewrite fbind_get. unfold va_is_dirty. change (blk (DISKMAP + 1 * BLKSIZE)) with 1. pose proof (ca_dirty _ _ _ H) as Hd. case_bool_decide as Ed; cbn [negb].
    - destruct (write_back s 1) as (dk & E & Hdk); [by rewrite (ca_bad _ _ _ H)|lia|]. fstep by (exact E). eexists. split; [done|].
      assert (Hdk' : forall a, dk (a - DISKMAP) = if decide (blk a = 1) then fs_mem s a else d_disk s (a - DISKMAP)).
      { intros a. rewrite Hdk. by replace (a - DISKMAP + DISKMAP) with a by lia. }
      split; [|cbn [bc_dirty set_dirty set_disk]; set_solver]. constructor; try apply H; cbn [set_disk set_dirty bc_dirty d_disk fs_mem].
      + set_solver.
      + intros _ a Ha. rewrite Hdk', decide_True by done. by apply H.
      + intros a Ha. rewrite Hdk', decide_False by done. by apply H.
    - exists s. split; [done|]. split; [done|]. set_solver.
  Qed.

Lemma cached_unmap L s : cached s0 L s -> bc_dirty s = ∅ -> exists s', page_unmap SUPER s = FRet tt s' /\ resting s0 L s'.
  Proof using Type.
    intros H Hd. unfold page_unmap, fmodify. eexists. split; [done|]. unfold va_is_mapped. change (blk SUPER) with 1.
    rewrite (ca_mapped _ _ _ H), bool_decide_eq_true_2 by set_solver.
    constructor; try apply H; cbn [set_mapped set_dirty set_pages_left bc_mapped bc_dirty fs_pages d_disk].
    - set_solver.
    - set_solver.
    - rewrite (ca_pages _ _ _ H). lia.
    - set_solver.
  Qed.
End Start.

(** The first access to a block that is not cached. *)
Lemma load_list_touch n a s s' : touch a s = FRet tt s' -> touch a s' = FRet tt s' -> fload_list (S n) a s = fload_list (S n) a s'.
Proof. intros E E'. cbn [fload_list]. unfold fload8. rewrite !fbind_assoc. by rewrite (fbind_Ret _ _ _ _ _ E), (fbind_Ret _ _ _ _ _ E'). Qed.

Lemma streq_touch a name s s' : touch a s = FRet tt s' -> touch a s' = FRet tt s' -> fstreq a name s = fstreq a name s'.
Proof.
  intros E E'. destruct name; cbn [fstreq]; unfold fload8; rewrite !fbind_assoc; by rewrite (fbind_Ret _ _ _ _ _ E), (fbind_Ret _ _ _ _ _ E').
Qed.

Lemma diskaddr_start b s : super s = 0 -> 1 <= b < 786432 -> diskaddr b s = FRet (DISKMAP + b * BLKSIZE) s.
Proof.
  intros E Hb. unfold diskaddr. rewrite fbind_get, E. change (0 =? 0) with true. rewrite (proj2 (Z.eqb_neq b 0)) by lia. cbn [negb andb orb].
  rewrite fbind_mret. by rewrite u32_small by lia.
Qed.

Lemma super_blk n x : SUPER <= x < SUPER + n -> n <= BLKSIZE -> blk x = 1.
Proof. intros. apply blk_unique. lia. Qed.

(** [check_bc] leaves the disk as it was, if the super block consists of bytes. *)
Lemma check_bc_run s : super s = 0 -> bitmap s = 0 -> bc_mapped s = ∅ -> bc_dirty s = ∅ -> (forall x, d_bad s x = false) -> 0 < fs_pages s ->
  (forall x, 0 <= d_disk s x < 256) ->
  exists s', check_bc s = FRet tt s' /\ cached s (λ a, d_disk s (a - DISKMAP)) s' /\ bc_dirty s' = ∅.
Proof.
  intros E1 E2 E3 E4 Hg Hp Hb. set (L := λ a, d_disk s (a - DISKMAP)). assert (R0 : resting s L s) by (by constructor).
  unfold check_bc. fstep by (by apply diskaddr_start). change (DISKMAP + 1 * BLKSIZE) with SUPER.
  destruct (resting_touch L s SUPER Hg Hp R0 eq_refl) as (s1 & T1 & C1).
  assert (El : fload_list (Z.to_nat sizeof_Super) SUPER s = FRet (range L (Z.to_nat sizeof_Super) SUPER) s1).
  { change (Z.to_nat sizeof_Super) with (S 263). rewrite (load_list_touch _ _ _ _ T1 (cached_touch L s1 SUPER C1 eq_refl)).
    apply (cached_load_list L s1 _ C1). intros x Hx. apply (super_blk 264); lia. }
  fstep by (exact El). destruct (cached_store_list oops SUPER L s1 C1) as (s2 & T2 & C2); [intros x Hx; apply (super_blk 264); cbn in Hx; lia|].
  fstep by (exact T2). destruct (cached_flush _ s2 Hg C2) as (s3 & T3 & C3 & D3). fstep by (exact T3).
  assert (M3 : va_is_mapped SUPER s3 = true) by (apply bool_decide_eq_true_2; rewrite (ca_mapped _ _ _ C3); set_solver).
  assert (N3 : va_is_dirty SUPER s3 = false) by (apply bool_decide_eq_false_2; rewrite D3; apply not_elem_of_empty).
  rewrite fbind_get, M3, fbind_assert, fbind_get, N3, fbind_assert by done.
  destruct (cached_unmap _ s3 C3 D3) as (s4 & T4 & R4). fstep by (exact T4).
  assert (M4 : va_is_mapped SUPER s4 = false) by (apply bool_decide_eq_false_2; rewrite (re_mapped _ _ _ R4); apply not_elem_of_empty).
  rewrite fbind_get, M4, fbind_assert by done.
  destruct (resting_touch _ s4 SUPER Hg Hp R4 eq_refl) as (s5 & T5 & C5).
  assert (Es : fstreq SUPER [79; 79; 80; 83; 33; 10] s4 = FRet true s5).
  { rewrite (streq_touch _ _ _ _ T5 (cached_touch _ s5 SUPER C5 eq_refl)). rewrite (cached_streq _ s5 _ C5); [reflexivity|].
    intros x Hx. apply (super_blk 264); cbn in Hx; lia. }
  fstep by (exact Es). rewrite fbind_assert by done.
  destruct (cached_store_list (range L (Z.to_nat sizeof_Super) SUPER) SUPER _ s5 C5) as (s6 & T6 & C6).
  { unfold range. rewrite length_map, length_seq. intros x Hx. apply (super_blk 264); lia. }
  fstep by (exact T6). destruct (cached_flush _ s6 Hg C6) as (s7 & T7 & C7 & D7). exists s7. split; [exact T7|]. split; [|done].
  assert (HL : forall a, puts SUPER (range L (Z.to_nat sizeof_Super) SUPER) (puts SUPER oops L) a = L a).
  { intros a. rewrite puts_range. destruct (Z.leb_spec SUPER a), (Z.ltb_spec a (SUPER + Z.of_nat (Z.to_nat sizeof_Super))); cbn [andb].
    { unfold L. replace (a - SUPER + SUPER) with a by lia. unfold u8. by rewrite Z.mod_small. }
    all: cbn [puts oops]; unfold put; rewrite !(proj2 (Z.eqb_neq a _)) by lia; done. }
  destruct C7 as [c1 c2 c3 c4 c5 c6 c7 c8 c9]. constructor; try done.
  - intros a Ha. by rewrite c7, HL.
  - intros Hd a Ha. by rewrite c8, HL.
Qed.

Lemma bc_init_run s : super s = 0 -> bitmap s = 0 -> bc_mapped s = ∅ -> bc_dirty s = ∅ -> (forall x, d_bad s x = false) -> 0 < fs_pages s ->
  (forall x, 0 <= d_disk s x < 256) ->
  exists s', bc_init s = FRet tt s' /\ cached s (λ a, d_disk s (a - DISKMAP)) s' /\ bc_dirty s' = ∅.
Proof.
  intros E1 E2 E3 E4 Hg Hp Hb. destruct (check_bc_run s) as (s1 & T1 & C1 & D1); try done. exists s1. split; [|done].
  unfold bc_init. fstep by (exact T1). fstep by (apply diskaddr_start; [apply (ca_super _ _ _ C1)|lia]). change (DISKMAP + 1 * BLKSIZE) with SUPER.
  fstep by (apply (cached_load_list _ s1 _ C1); intros x Hx; apply (super_blk 264); lia). done.
Qed.

(** ** The file system is found on the disk *)

(** The super block and the bitmap that [fs_init] accepts. *)
Record formatted (L : bmem) (n : Z) : Prop := {
  fm_magic : word_at L SUPER = FS_MAGIC;
  fm_nb : nb L = n;
  fm_range : 2 < n <= 786432;
  fm_meta : forall i, -2 <= i -> i * BLKBITSIZE < n -> isfree L (2 + i) = false
}.

Lemma check_bitmap_loop_ok m : forall i s,
  healthy s -> 0 <= i -> (m = 0%nat \/ (i + Z.of_nat m - 1) * BLKBITSIZE < nb (lview s)) ->
  exists s', check_bitmap_loop m i s = FRet tt s' /\ same_view s s'.
Proof.
  induction m as [|m IH]; intros i s H Hi Hm; [exists s; split; [done|by apply same_view_refl]|]. cbn [check_bitmap_loop].
  destruct Hm as [|Hm]; [done|]. destruct (block_is_free_ok s (2 + i) H) as (s1 & E1 & Hs1); [pose proof (h_nb _ H); lia|].
  fstep by (exact E1). rewrite fbind_assert by (rewrite (h_meta _ H) by lia; done). pose proof Hs1 as [Hh1 Hv1 _].
  destruct (IH (i + 1) s1 Hh1 ltac:(lia)) as (s2 & E2 & Hs2).
  { rewrite (nb_ext _ _ Hv1). destruct m; [by left|right]. lia. }
  exists s2. split; [done|]. by apply (same_view_trans _ s1).
Qed.

(** The state with both pointers set, before the bitmap is read. *)
Record found (L : bmem) (n : Z) (s : fsrv) : Prop := {
  fd_super : super s = SUPER;
  fd_bitmap : bitmap s = BITMAP;
  fd_good : forall x, d_bad s x = false;
  fd_mapped : bc_mapped s = {[1]};
  fd_dirty : bc_dirty s = ∅;
  fd_pages : n <= 1 + fs_pages s;
  fd_disk : forall a, d_disk s (a - DISKMAP) = L a;
  fd_mem : forall a, blk a = 1 -> fs_mem s a = L a
}.

Lemma found_view L n s a : found L n s -> in_diskmap a = true -> lview s a = L a.
Proof.
  intros H Ha. unfold lview, va_is_mapped. rewrite Ha, (fd_mapped _ _ _ H). case_bool_decide as E; cbn [negb andb]; [|apply H].
  apply H. set_solver.
Qed.

Lemma nblocks_found L n s : found L n s -> formatted L n -> nblocks s = FRet n s.
Proof.
  intros H Fm. unfold nblocks. rewrite fbind_get, (fd_super _ _ _ H). unfold fload32, touch. rewrite fbind_assoc, fbind_get, present_mapped by done.
  change (blk (SUPER + 4)) with 1. rewrite (fd_mapped _ _ _ H), bool_decide_eq_true_2, fbind_mret by set_solver. unfold fget. f_equal.
  rewrite <- (fm_nb _ _ Fm). apply word_at_ext. intros x Hx. apply H, blk_unique. lia.
Qed.

Lemma in_first b : b ∈ ({[1; 2]} : gset Z) <-> b = 1 \/ b = 2.
Proof. by rewrite elem_of_union, !elem_of_singleton. Qed.

Lemma first_size : size ({[1; 2]} : gset Z) = 2%nat.
Proof. reflexivity. Qed.

(** Reading the first bitmap block makes the state healthy. *)
Lemma found_touch L n s : found L n s -> formatted L n ->
  exists s', touch BITMAP s = FRet tt s' /\ healthy s' /\ forall a, in_diskmap a = true -> lview s' a = L a.
Proof.
  intros H Fm. pose proof (fm_range _ _ Fm) as Hn. pose proof (fd_mapped _ _ _ H) as Em. pose proof (fd_dirty _ _ _ H) as Ed.
  destruct (fill_run s 2) as (s1 & [F1 F2 F3 F4 F5 F6 F7 F8] & Ek); [apply H|lia|pose proof (fd_pages _ _ _ H); lia|]. exists s1.
  assert (M1 : bc_mapped s1 = {[1; 2]}) by (rewrite F5, Em; set_solver). assert (D1 : bc_dirty s1 = ∅) by (rewrite F7, Ed; set_solver).
  assert (V1 : forall a, in_diskmap a = true -> lview s1 a = L a).
  { intros a Ha. unfold lview, va_is_mapped. rewrite Ha, M1, F1. case_bool_decide as E; cbn [negb andb]; [|apply H].
    rewrite F8. case_bool_decide; [apply H|]. apply (fd_mem _ _ _ H). by destruct (proj1 (in_first _) E). }
  assert (Hnb : forall s', (forall a, in_diskmap a = true -> lview s' a = L a) -> nb (lview s') = n).
  { intros s' Hv. rewrite <- (fm_nb _ _ Fm). apply word_at_ext. intros x Hx. apply Hv, diskmap_blk. rewrite (blk_unique x 1) by lia. lia. }
  assert (Hfr : forall b, 0 <= b < n -> isfree (lview s1) b = isfree L b).
  { intros b Hb. unfold isfree. f_equal. apply word_at_ext. intros x Hx. apply V1, diskmap_blk. destruct (bword_in b ltac:(lia)) as [[H4 Hr] _].
    by rewrite (word_in_blk (bword b) x). }
  split; [|split; [|done]].
  - unfold touch. rewrite fbind_get, present_mapped by done. change (blk BITMAP) with 2. rewrite Em, bool_decide_eq_false_2 by set_solver.
    cbn [bc_pgfault]. change (blk BITMAP) with 2. rewrite fbind_assert, fbind_get, (fd_super _ _ _ H) by done. change (SUPER =? 0) with false. cbv iota.
    assert (Hn0 : forall fu, fload32_with (S fu) (SUPER + 4) s = FRet n s).
    { intros fu. rewrite load_mapped by (done || rewrite Em; set_solver). f_equal. apply (Hnb s). intros a Ha. by apply (found_view L n). }
    fstep by (exact (Hn0 4%nat)). rewrite (proj2 (Z.leb_gt n 2)) by lia. cbn [negb andb]. change (ROUNDDOWN BITMAP BLKSIZE) with (DISKMAP + 2 * BLKSIZE).
    rewrite Ek, fbind_get, F4, (fd_bitmap _ _ _ H). change (BITMAP =? 0) with false. cbv iota.
    fstep by (apply (load_mapped 4 s1 (SUPER + 4)); [done|rewrite M1; apply in_first; by left]). fold (nb (lview s1)). rewrite (Hnb s1 V1), (proj2 (Z.leb_gt n 2)) by lia. cbn [orb].
    fstep by (apply (load_mapped 4 s1 (bword 2)); [by apply bword_in|rewrite (proj2 (bword_in 2 ltac:(lia))), M1; apply in_first; by right]).
    change (hasbits _ _) with (isfree (lview s1) 2). unfold fassert. rewrite Hfr by lia. pose proof (fm_meta _ _ Fm 0 ltac:(lia) ltac:(lia)) as E2. change (2 + 0) with 2 in E2. by rewrite E2.
  - constructor; rewrite ?(Hnb s1 V1), ?F3, ?F4, ?F2, ?M1, ?D1; try apply H; try done.
    + intros b Hb%in_first. lia.
    + rewrite first_size, F6. pose proof (fd_pages _ _ _ H). lia.
    + intros a Ha Hb _. rewrite F1, F8. case_bool_decide; [done|]. rewrite (fd_disk _ _ _ H). apply H. by destruct (proj1 (in_first _) Hb).
    + intros i Hi Hlt. rewrite Hfr by lia. by apply (fm_meta _ _ Fm).
Qed.

(** The server has just been started: nothing is cached and there is memory
    for all [n] blocks. *)
Record fresh_server (n : Z) (s : fsrv) : Prop := {
  fr_super : super s = 0;
  fr_bitmap : bitmap s = 0;
  fr_mapped : bc_mapped s = ∅;
  fr_dirty : bc_dirty s = ∅;
  fr_good : forall x, d_bad s x = false;
  fr_pages : n <= fs_pages s
}.

Lemma block_is_free_found L n s : found L n s -> formatted L n ->
  exists s', block_is_free 2 s = FRet false s' /\ healthy s' /\ forall a, in_diskmap a = true -> lview s' a = L a.
Proof.
  intros H Fm. destruct (found_touch L n s H Fm) as (s1 & T1 & H1 & V1). exists s1. split; [|done]. pose proof (fm_range _ _ Fm).
  unfold block_is_free. rewrite fbind_get, (fd_super _ _ _ H). change (SUPER =? 0) with false. cbv iota. fstep by (by apply (nblocks_found L)).
  rewrite (proj2 (Z.leb_gt n 2)) by lia. rewrite fbind_get, (fd_bitmap _ _ _ H). change (BITMAP + 4 * (2 / 32)) with BITMAP.
  unfold fload32. rewrite fbind_assoc. fstep by (exact T1). rewrite fbind_get. rewrite word_mapped by (done || apply (h_res2 _ H1)).
  change (hasbits _ _) with (isfree (lview s1) 2). pose proof (h_nb _ H1). pose proof (h_meta _ H1 0 ltac:(lia) ltac:(lia)) as E2. change (2 + 0) with 2 in E2. by rewrite E2.
Qed.

Lemma check_bitmap_found L n s : found L n s -> formatted L n ->
  exists s', check_bitmap s = FRet tt s' /\ healthy s' /\ forall a, in_diskmap a = true -> lview s' a = L a.
Proof.
  intros H Fm. pose proof (fm_range _ _ Fm) as Hn. destruct (block_is_free_found L n s H Fm) as (s1 & T1 & H1 & V1).
  unfold check_bitmap. fstep by (by apply (nblocks_found L)).
  assert (Hb : n <= (n + 32767) / 32768 * 32768 < n + 32768) by (Z.to_euclidean_division_equations; lia).
  replace (n + BLKBITSIZE - 1) with (n + 32767) by lia. destruct (Z.to_nat ((n + 32767) / 32768)) as [|m] eqn:Em; [lia|].
  assert (Enb : nb (lview s1) = n).
  { rewrite <- (fm_nb _ _ Fm). apply word_at_ext. intros x Hx. apply V1, diskmap_blk. rewrite (blk_unique x 1) by lia. lia. }
  destruct (check_bitmap_loop_ok m 1 s1 H1 ltac:(lia)) as (s2 & T2 & [H2 V2 _]).
  { rewrite Enb. destruct m; [by left|right]. lia. }
  assert (El : check_bitmap_loop (S m) 0 s = FRet tt s2).
  { cbn [check_bitmap_loop]. change (2 + 0) with 2. fstep by (exact T1). rewrite fbind_assert by done. exact T2. }
  fstep by (exact El). pose proof (h_nb _ H2) as Hn2. destruct (block_is_free_ok s2 0 H2 ltac:(lia)) as (s3 & T3 & [H3 V3 _]). fstep by (exact T3).
  rewrite fbind_assert by (by rewrite (h_meta _ H2 (-2) ltac:(lia) ltac:(lia) : isfree (lview s2) 0 = false)). pose proof (h_nb _ H3) as Hn3.
  destruct (block_is_free_ok s3 1 H3 ltac:(lia)) as (s4 & T4 & [H4 V4 _]). fstep by (exact T4). exists s4.
  unfold fassert. rewrite (h_meta _ H3 (-1) ltac:(lia) ltac:(lia) : isfree (lview s3) 1 = false). split; [done|]. split; [done|]. intros a Ha. by rewrite V4, V3, V2, V1.
Qed.

Lemma fs_init_run n s : fresh_server n s -> (forall x, 0 <= d_disk s x < 256) -> formatted (λ a, d_disk s (a - DISKMAP)) n ->
  exists s', fs_init s = FRet tt s' /\ healthy s' /\ forall a, in_diskmap a = true -> lview s' a = d_disk s (a - DISKMAP).
Proof.
  intros [E1 E2 E3 E4 Hg Hp] Hb Fm. set (L := λ a, d_disk s (a - DISKMAP)) in *. pose proof (fm_range _ _ Fm) as Hn.
  destruct (bc_init_run s) as (s1 & T1 & C1 & D1); try done; [lia|]. unfold fs_init. fstep by (exact T1).
  fstep by (apply diskaddr_start; [apply C1|lia]). change (DISKMAP + 1 * BLKSIZE) with SUPER. rewrite fbind_modify.
  set (s2 := set_bitmap BITMAP (set_super SUPER s1)). set (s2' := set_super SUPER s1).
  assert (F2 : found L n s2).
  { constructor; try done; cbn [s2 set_bitmap set_super d_bad bc_mapped bc_dirty fs_pages d_disk fs_mem].
    - by rewrite (ca_bad _ _ _ C1).
    - apply C1.
    - rewrite (ca_pages _ _ _ C1). lia.
    - intros a. destruct (decide (blk a = 1)) as [E|E]; [|by apply (ca_disk _ _ _ C1)]. apply (ca_clean _ _ _ C1); [rewrite D1; set_solver|done].
    - apply C1. }
  assert (Ew : forall k, 0 <= k -> k + 4 <= BLKSIZE -> fload32 (SUPER + k) s2' = FRet (word_at L (SUPER + k)) s2').
  { intros k Hk Hk'. assert (Eb : blk (SUPER + k) = 1) by (apply blk_unique; lia). unfold fload32, touch.
    rewrite fbind_assoc, fbind_get, present_mapped, Eb by (by apply blk1_in). cbn [s2' set_super bc_mapped]. rewrite (ca_mapped _ _ _ C1).
    rewrite bool_decide_eq_true_2, fbind_mret by set_solver. unfold fget. f_equal. apply word_at_ext. intros x Hx. apply C1, blk_unique. lia. }
  assert (Enb : nblocks s2' = FRet n s2').
  { unfold nblocks. rewrite fbind_get. cbn [s2' set_super super]. fold s2'. rewrite Ew by lia. by rewrite <- (fm_nb _ _ Fm). }
  assert (Ecs : check_super s2' = FRet tt s2').
  { unfold check_super. rewrite fbind_get. cbn [s2' set_super super]. fold s2'. pose proof (Ew 0 ltac:(lia) ltac:(lia)) as E0. rewrite Z.add_0_r in E0. fstep by (exact E0).
    rewrite (fm_magic _ _ Fm), fbind_assert by done. fstep by (exact Enb). unfold fassert. change (DISKSIZE / BLKSIZE) with 786432. by rewrite (proj2 (Z.leb_le n 786432)) by lia. }
  fstep by (exact Ecs). assert (Ed : diskaddr 2 s2' = FRet BITMAP s2').
  { unfold diskaddr. rewrite fbind_get. cbn [s2' set_super super]. fold s2'. change (SUPER =? 0) with false. change (2 =? 0) with false. cbn [negb andb orb].
    fstep by (exact Enb). by rewrite (proj2 (Z.leb_gt n 2)) by lia. }
  fstep by (exact Ed). rewrite fbind_modify. fold s2. apply (check_bitmap_found L n s2 F2 Fm).
Qed.
