(* ===== verification/Format.v ===== *)
(** * The disk image builder ([fs/fsformat.c])

    The program runs on the host: it maps the image file, writes the super
    block, the bitmap, the files and the root directory, and marks the blocks
    it used.  Pointers go into the mapped image or into the memory that
    [malloc] gave for the directory entries, whose initial contents are
    [heap].  The files of the host are given by [host], and [rd p n] is what
    [read] returns at position [p] when [n] bytes are wanted; errors of [mmap],
    [ftruncate] and [msync] are not modelled. *)

From S2P Require Import Prelude LibString Mmu BlockCache BlockCacheSpec Fs FsSpec FsDir FsInit.

Abbreviation MAX_DIR_ENTS := 128 (only parsing).
Abbreviation FTYPE_REG := 0 (only parsing).
Abbreviation MAXFILESIZE := 4235264 (only parsing).

(** The globals; positions in the image are offsets from [diskmap]. *)
Record fmt := mkFmt {
  fm_nblocks : Z;
  fm_disk : bmem;
  fm_heap : bmem;
  diskpos : Z;
  fm_super : Z;
  fm_bitmap : Z
}.

Definition set_fm_disk (v : bmem) (s : fmt) : fmt := mkFmt (fm_nblocks s) v (fm_heap s) (diskpos s) (fm_super s) (fm_bitmap s).
Definition set_fm_heap (v : bmem) (s : fmt) : fmt := mkFmt (fm_nblocks s) (fm_disk s) v (diskpos s) (fm_super s) (fm_bitmap s).
Definition set_diskpos (v : Z) (s : fmt) : fmt := mkFmt (fm_nblocks s) (fm_disk s) (fm_heap s) v (fm_super s) (fm_bitmap s).
Definition set_fm_super (v : Z) (s : fmt) : fmt := mkFmt (fm_nblocks s) (fm_disk s) (fm_heap s) (diskpos s) v (fm_bitmap s).
Definition set_fm_bitmap (v : Z) (s : fmt) : fmt := mkFmt (fm_nblocks s) (fm_disk s) (fm_heap s) (diskpos s) (fm_super s) v.

(** A result, or [panic]. *)
Inductive hres (A : Type) :=
  | HRet (a : A) (s : fmt)
  | HPanic (msg : string).
Arguments HRet {A} a s.
Arguments HPanic {A} msg.

Definition HostM (A : Type) : Type := fmt -> hres A.

#[export] Instance H_ret : MRet HostM := λ A a s, HRet a s.
#[export] Instance H_bind : MBind HostM := λ A B f m s,
  match m s with
  | HRet a s' => f a s'
  | HPanic msg => HPanic msg
  end.

Definition hpanic {A} (msg : string) : HostM A := λ _, HPanic msg.
Definition hget {A} (f : fmt -> A) : HostM A := λ s, HRet (f s) s.
Definition hmodify (f : fmt -> fmt) : HostM unit := λ s, HRet tt (f s).

Inductive hptr := OnDisk (o : Z) | InHeap (o : Z).

Definition hwrite (f : Z -> bmem -> bmem) (p : hptr) : HostM unit :=
  match p with
  | OnDisk o => hmodify (λ s, set_fm_disk (f o (fm_disk s)) s)
  | InHeap o => hmodify (λ s, set_fm_heap (f o (fm_heap s)) s)
  end.

Definition padd (p : hptr) (k : Z) : hptr := match p with OnDisk o => OnDisk (o + k) | InHeap o => InHeap (o + k) end.

Definition hstore32 (p : hptr) (v : Z) : HostM unit := hwrite (λ o, put32 o v) p.
Definition hstores (p : hptr) (l : list Z) : HostM unit := hwrite (λ o, puts o l) p.
Definition hstrcpy (p : hptr) (name : list Z) : HostM unit := hstores p (name ++ [0]).

Fixpoint hfor (n : nat) (i : Z) (body : Z -> HostM unit) : HostM unit :=
  match n with
  | O => mret tt
  | S n' => body i ;; hfor n' (i + 1) body
  end.

(** [ROUNDUP] on [uint32_t] and on [int]. *)
Definition roundup_u (n v : Z) : Z := u32 (u32 (u32 (n - 1) + v) - u32 (n - 1) mod v).
Definition roundup_i (n v : Z) : Z := n - 1 + v - Z.rem (n - 1) v.

Definition blockof (pos : Z) : Z := u32 (Z.quot pos BLKSIZE).

Definition alloc (bytes : Z) : HostM Z :=
  start ← hget diskpos;
  hmodify (λ s, set_diskpos (diskpos s + roundup_u bytes BLKSIZE) s) ;;
  pos ← hget diskpos;
  n ← hget fm_nblocks;
  if n <=? blockof pos then hpanic "out of disk blocks" else mret start.

(** The image file is truncated and extended, so that it is all zero. *)
Definition opendisk : HostM unit :=
  hmodify (set_fm_disk (λ _, 0)) ;;
  hmodify (set_diskpos 0) ;;
  alloc BLKSIZE ;;
  sup ← alloc BLKSIZE;
  hmodify (set_fm_super sup) ;;
  n ← hget fm_nblocks;
  hstore32 (OnDisk sup) FS_MAGIC ;;
  hstore32 (OnDisk (sup + 4)) n ;;
  hstore32 (OnDisk (sup + 8 + F_TYPE)) FTYPE_DIR ;;
  hstrcpy (OnDisk (sup + 8)) [47] ;;
  let nbitblocks := u32 (n + BLKBITSIZE - 1) / BLKBITSIZE in
  bm ← alloc (u32 (nbitblocks * BLKSIZE));
  hmodify (set_fm_bitmap bm) ;;
  hstores (OnDisk bm) (replicate (Z.to_nat (u32 (nbitblocks * BLKSIZE))) 0xFF).

Definition finishdisk : HostM unit :=
  pos ← hget diskpos;
  bm ← hget fm_bitmap;
  hfor (Z.to_nat (blockof pos)) 0 (λ i,
    w ← hget (λ s, word_at (fm_disk s) (bm + 4 * (i / 32)));
    hstore32 (OnDisk (bm + 4 * (i / 32))) (Z.ldiff w (Z.shiftl 1 (i mod 32)))).

Definition finishfile (f : hptr) (start len : Z) : HostM unit :=
  hstore32 (padd f F_SIZE) len ;;
  let n := roundup_u len BLKSIZE / BLKSIZE in
  hfor (Z.to_nat (Z.min n NDIRECT)) 0 (λ i, hstore32 (padd f (F_DIRECT + 4 * i)) (u32 (start + i))) ;;
  if NDIRECT <=? n then
    ind ← alloc BLKSIZE;
    hstore32 (padd f F_INDIRECT) (blockof ind) ;;
    hfor (Z.to_nat (n - NDIRECT)) NDIRECT (λ i, hstore32 (OnDisk (ind + 4 * (i - NDIRECT))) (u32 (start + i)))
  else mret tt.

(** The entries are at the start of the heap block. *)
Record Dir := mkDir { d_f : hptr; d_n : Z }.

Definition startdir (heap : bmem) (f : hptr) : HostM Dir := hmodify (set_fm_heap heap) ;; mret (mkDir f 0).

Definition diradd (d : Dir) (type : Z) (name : list Z) : HostM (Dir * hptr) :=
  let out := InHeap (d_n d * sizeof_File) in
  let d := mkDir (d_f d) (d_n d + 1) in
  if MAX_DIR_ENTS <? d_n d then hpanic "too many directory entries"
  else
    hstrcpy out name ;;
    hstore32 (padd out F_TYPE) type ;;
    mret (d, out).

Definition finishdir (d : Dir) : HostM unit :=
  let size := d_n d * sizeof_File in
  start ← alloc size;
  heap ← hget fm_heap;
  hwrite (λ o, copy_in o size 0 heap) (OnDisk start) ;;
  finishfile (d_f d) (blockof start) (roundup_i size BLKSIZE).

(** What follows the last slash. *)
Fixpoint last_part (last name : list Z) : list Z :=
  match name with
  | [] => last
  | c :: name' => last_part (if c =? SLASH then name' else last) name'
  end.
Definition basename (name : list Z) : list Z := last_part name name.

Section Host.
  Context (host : list Z -> option (bool * list Z)) (rd : Z -> Z -> Z).

(** The loop of [readn] for the contents [data] of a file. *)
Fixpoint readn_loop (fuel : nat) (data : list Z) (out p n : Z) : HostM unit :=
  if n <=? p then mret tt
  else
    match fuel with
    | O => hpanic "readn"
    | S fu =>
        let m := Z.min (rd p (n - p)) (Z.of_nat (length data) - p) in
        hstores (OnDisk (out + p)) (take (Z.to_nat m) (drop (Z.to_nat p) data)) ;;
        if m =? 0 then hpanic "read: Unexpected EOF" else readn_loop fu data out (p + m) n
    end.

Definition readn (data : list Z) (out n : Z) : HostM unit := readn_loop (Z.to_nat n) data out 0 n.

Definition writefile (dir : Dir) (name : list Z) : HostM Dir :=
  match host name with
  | None => hpanic "open"
  | Some (regular, data) =>
      let size := Z.of_nat (length data) in
      if negb regular then hpanic "not a regular file"
      else if MAXFILESIZE <=? size then hpanic "too large"
      else
        r ← diradd dir FTYPE_REG (basename name);
        let '(dir, f) := r in
        start ← alloc size;
        readn data start size ;;
        finishfile f (blockof start) size ;;
        mret dir
  end.

Fixpoint writefiles (dir : Dir) (names : list (list Z)) : HostM Dir :=
  match names with
  | [] => mret dir
  | name :: names' => dir ← writefile dir name; writefiles dir names'
  end.

(** [nblocks] is the number that [strtol] read. *)
Definition main (heap : bmem) (nblocks : Z) (names : list (list Z)) : HostM unit :=
  if (nblocks <? 2) || (1024 <? nblocks) then hpanic "usage"
  else
    hmodify (λ s, mkFmt nblocks (fm_disk s) (fm_heap s) (diskpos s) (fm_super s) (fm_bitmap s)) ;;
    opendisk ;;
    sup ← hget fm_super;
    root ← startdir heap (OnDisk (sup + 8));
    root ← writefiles root names;
    finishdir root ;;
    finishdisk.
End Host.
