(* ===== verification/FormatSpec.v ===== *)
(** * What the image builder promises

    An image that [main] completes is one the file server accepts, and opening
    a file by its name and reading it there gives the bytes of the host's
    file. *)

From S2P Require Import Prelude LibString Mmu BlockCache BlockCacheSpec Fs FsSpec FsDir FsInit Format.

(** ** Steps *)

Lemma hbind_inv {A B} (m : HostM A) (f : A -> HostM B) s b s' : (m ≫= f) s = HRet b s' -> exists a s1, m s = HRet a s1 /\ f a s1 = HRet b s'.
Proof. unfold mbind, H_bind. destruct (m s) as [a s1|]; [|done]. eauto. Qed.

Definition region (p : hptr) (s : fmt) : bmem := match p with OnDisk _ => fm_disk s | InHeap _ => fm_heap s end.
Definition set_region (p : hptr) (m : bmem) (s : fmt) : fmt := match p with OnDisk _ => set_fm_disk m s | InHeap _ => set_fm_heap m s end.
Definition off (p : hptr) : Z := match p with OnDisk o | InHeap o => o end.

Lemma hwrite_run f p s : hwrite f p s = HRet tt (set_region p (f (off p) (region p s)) s).
Proof. by destruct p. Qed.

Lemma hstore32_run p v s : hstore32 p v s = HRet tt (set_region p (put32 (off p) v (region p s)) s).
Proof. apply hwrite_run. Qed.

Lemma hbind_Ret {A B} (m : HostM A) (f : A -> HostM B) s a s' : m s = HRet a s' -> (m ≫= f) s = f a s'.
Proof. intros E. unfold mbind, H_bind. by rewrite E. Qed.

Lemma hbind_modify {B} f (k : unit -> HostM B) s : (hmodify f ≫= k) s = k tt (f s).
Proof. done. Qed.

Lemma hbind_get {A B} (f : fmt -> A) (k : A -> HostM B) s : (hget f ≫= k) s = k (f s) s.
Proof. done. Qed.

Lemma hbind_mret {A B} (a : A) (k : A -> HostM B) s : (mret a ≫= k) s = k a s.
Proof. done. Qed.

Lemma set_region_twice p m m' s : set_region p m (set_region p m' s) = set_region p m s.
Proof. by destruct p. Qed.

Lemma region_set p m s : region p (set_region p m s) = m.
Proof. by destruct p. Qed.

Lemma set_region_padd p k m s : set_region (padd p k) m s = set_region p m s /\ region (padd p k) s = region p s /\ off (padd p k) = off p + k.
Proof. by destruct p. Qed.

(** ** Memory *)

Lemma puts_get l : forall a m x, puts a l m x = if decide (a <= x < a + Z.of_nat (length l)) then u8 (nth (Z.to_nat (x - a)) l 0) else m x.
Proof.
  induction l as [|b l IH]; intros a m x; cbn [puts length]; [case_decide; [lia|done]|]. rewrite IH. unfold put.
  destruct (Z.eqb_spec x a) as [->|]; repeat case_decide; try lia; try done.
  - replace (a - a) with 0 by lia. done.
  - replace (Z.to_nat (x - a)) with (S (Z.to_nat (x - (a + 1)))) by lia. done.
Qed.

(** A memory of bytes. *)
Definition bytes (m : bmem) : Prop := forall x, 0 <= m x < 256.

Lemma bytes_put m a v : bytes m -> bytes (put a (u8 v) m).
Proof. intros H x. unfold put. destruct (x =? a); [apply u8_range|apply H]. Qed.

Lemma bytes_put32 m a v : bytes m -> bytes (put32 a v m).
Proof. intros H. unfold put32. by repeat apply bytes_put. Qed.

Lemma bytes_puts l : forall a m, bytes m -> bytes (puts a l m).
Proof. induction l as [|b l IH]; intros a m H; [done|]. cbn [puts]. by apply IH, bytes_put. Qed.

Lemma nth_take_drop (l : list Z) n p k : (k < n)%nat -> nth k (take n (drop p l)) 0 = nth (p + k) l 0.
Proof.
  intros Hk. by rewrite !nth_lookup, lookup_take_lt, lookup_drop.
Qed.

(** The memory [m'] has the words [v i], ..., [v (i + n - 1)] from [a] on and is [m] elsewhere. *)
Definition has_words (a i : Z) (n : nat) (v : Z -> Z) (m m' : bmem) : Prop :=
  (forall j, i <= j < i + Z.of_nat n -> word_at m' (a + 4 * j) = u32 (v j)) /\
  (forall x, ~ (a + 4 * i <= x < a + 4 * (i + Z.of_nat n)) -> m' x = m x) /\
  (bytes m -> bytes m').

Lemma hfor_ext n (f g : Z -> HostM unit) : (forall i, f i = g i) -> forall i s, hfor n i f s = hfor n i g s.
Proof.
  intros Hfg. induction n as [|n IH]; intros i s; [done|]. cbn [hfor]. rewrite Hfg. unfold mbind, H_bind. destruct (g i s); [apply IH|done].
Qed.

Lemma hfor_words p a (v : Z -> Z) n : forall i s,
  exists m', hfor n i (λ i, hstore32 (padd p (a + 4 * i)) (v i)) s = HRet tt (set_region p m' s) /\ has_words (off p + a) i n v (region p s) m'.
Proof.
  induction n as [|n IH]; intros i s.
  { exists (region p s). split; [by destruct p, s|]. split; [lia|done]. }
  cbn [hfor]. rewrite (hbind_Ret _ _ _ _ _ (hstore32_run _ _ _)). destruct (set_region_padd p (a + 4 * i) (put32 (off p + (a + 4 * i)) (v i) (region p s)) s) as (E1 & E2 & E3).
  rewrite E2, E3, E1. set (s1 := set_region p _ s). destruct (IH (i + 1) s1) as (m' & E & Hw & Ho & Hb). exists m'. rewrite E. unfold s1 at 1.
  rewrite set_region_twice. split; [done|]. unfold s1 in Ho, Hb. rewrite region_set in Ho, Hb. split; [|split].
  - intros j Hj. destruct (decide (j = i)) as [->|]; [|apply Hw; lia].
    rewrite (word_at_ext (put32 (off p + (a + 4 * i)) (v i) (region p s)) m'); [|intros x Hx; apply Ho; lia].
    replace (off p + a + 4 * i) with (off p + (a + 4 * i)) by lia. apply word_at_put32.
  - intros x Hx. rewrite Ho by lia. apply put32_other. lia.
  - intros Hm. by apply Hb, bytes_put32.
Qed.

(** ** Space on the disk *)

(** The number of blocks of [len] bytes. *)
Definition nblk (len : Z) : Z := (len + 4095) / BLKSIZE.

Lemma roundup_u_blk n : 0 <= n < 2147483648 -> roundup_u n BLKSIZE = nblk n * BLKSIZE.
Proof.
  intros Hn. unfold roundup_u, nblk. destruct (decide (n = 0)) as [->|]; [reflexivity|].
  rewrite (u32_small (n - 1)), (u32_small (n - 1 + BLKSIZE)) by lia. pose proof (Z.mod_pos_bound (n - 1) 4096 ltac:(lia)).
  rewrite u32_small by lia. Z.to_euclidean_division_equations. lia.
Qed.

Lemma roundup_i_blk n : 0 < n -> roundup_i n BLKSIZE = nblk n * BLKSIZE.
Proof. intros Hn. unfold roundup_i, nblk. rewrite Z.rem_mod_nonneg by lia. Z.to_euclidean_division_equations. lia. Qed.

Lemma blockof_mul p : 0 <= p < 1048576 -> blockof (p * BLKSIZE) = p.
Proof. intros Hp. unfold blockof. rewrite Z.quot_mul by lia. apply u32_small. lia. Qed.

Lemma nblk_bound n : 0 <= n -> n <= nblk n * BLKSIZE < n + BLKSIZE /\ 0 <= nblk n.
Proof. intros. unfold nblk. Z.to_euclidean_division_equations. lia. Qed.

Lemma alloc_run n P s : 0 <= n < 2147483648 -> diskpos s = P * BLKSIZE -> 0 <= P -> P + nblk n < fm_nblocks s -> fm_nblocks s <= 1024 ->
  alloc n s = HRet (P * BLKSIZE) (set_diskpos ((P + nblk n) * BLKSIZE) s).
Proof.
  intros Hn Hpos HP Hlt Hmax. unfold alloc, mbind, H_bind, hget, hmodify. cbn [diskpos set_diskpos fm_nblocks].
  rewrite roundup_u_blk, Hpos by done. replace (P * BLKSIZE + nblk n * BLKSIZE) with ((P + nblk n) * BLKSIZE) by lia.
  pose proof (nblk_bound n ltac:(lia)) as [Hb1 Hb2]. rewrite blockof_mul by lia. by rewrite (proj2 (Z.leb_gt _ _)) by lia.
Qed.

Lemma alloc_one N P s : fm_nblocks s = N -> diskpos s = P * BLKSIZE -> 0 <= P -> P + 1 < N -> N <= 1024 ->
  alloc BLKSIZE s = HRet (P * BLKSIZE) (set_diskpos ((P + 1) * BLKSIZE) s).
Proof. intros <- Hp HP Hlt Hmax. by apply (alloc_run BLKSIZE P s). Qed.

(** ** Files *)

(** The entry [e] of a file with [len] bytes in the blocks from [start] on was finished. *)
Record finished (e start len : Z) (m m' : bmem) : Prop := {
  fn_size : word_at m' (e + F_SIZE) = u32 len;
  fn_slot : forall j, 0 <= j < NDIRECT -> j < nblk len -> word_at m' (e + F_DIRECT + 4 * j) = u32 (start + j);
  fn_rest : forall x, ~ (e + F_SIZE <= x < e + F_SIZE + 4) -> ~ (e + F_DIRECT <= x < e + F_DIRECT + 4 * Z.min (nblk len) NDIRECT) ->
    ~ (NDIRECT <= nblk len /\ e + F_INDIRECT <= x < e + F_INDIRECT + 4) -> m' x = m x;
  fn_bytes : bytes m -> bytes m'
}.

(** The words that are written in any case. *)
Lemma finish_words p start len s : 0 <= len < 2147483648 -> nblk len < 1048576 ->
  exists m', (hstore32 (padd p F_SIZE) len ;;
    hfor (Z.to_nat (Z.min (roundup_u len BLKSIZE / BLKSIZE) NDIRECT)) 0 (λ i, hstore32 (padd p (F_DIRECT + 4 * i)) (u32 (start + i)))) s = HRet tt (set_region p m' s) /\
    word_at m' (off p + F_SIZE) = u32 len /\
    (forall j, 0 <= j < NDIRECT -> j < nblk len -> word_at m' (off p + F_DIRECT + 4 * j) = u32 (start + j)) /\
    (forall x, ~ (off p + F_SIZE <= x < off p + F_SIZE + 4) -> ~ (off p + F_DIRECT <= x < off p + F_DIRECT + 4 * Z.min (nblk len) NDIRECT) -> m' x = region p s x) /\
    (bytes (region p s) -> bytes m').
Proof.
  intros Hl Hn. pose proof (nblk_bound len ltac:(lia)) as [Hb1 Hb2]. rewrite roundup_u_blk, Z.div_mul by lia.
  rewrite (hbind_Ret _ _ _ _ _ (hstore32_run _ _ _)). destruct (set_region_padd p F_SIZE (put32 (off p + F_SIZE) len (region p s)) s) as (E1 & E2 & E3).
  rewrite E2, E3, E1. destruct (hfor_words p F_DIRECT (λ i, u32 (start + i)) (Z.to_nat (Z.min (nblk len) NDIRECT)) 0 (set_region p (put32 (off p + F_SIZE) len (region p s)) s)) as (m' & E & Hw & Ho & Hb).
  rewrite E, set_region_twice. exists m'. rewrite region_set in Ho, Hb. split; [done|]. split; [|split; [|split]].
  - rewrite (word_at_ext (put32 (off p + F_SIZE) len (region p s)) m'); [apply word_at_put32|]. intros x Hx. apply Ho. lia.
  - intros j Hj Hj'. rewrite Hw by lia. unfold u32. by rewrite Z.mod_mod.
  - intros x H1 H2. rewrite Ho by lia. by apply put32_other.
  - intros Hm. by apply Hb, bytes_put32.
Qed.

Lemma hbind_assoc {A B C} (m : HostM A) (f : A -> HostM B) (g : B -> HostM C) s : ((m ≫= f) ≫= g) s = (m ≫= λ a, f a ≫= g) s.
Proof. unfold mbind, H_bind. by destruct (m s). Qed.

Lemma finishfile_small p start len s : 0 <= len < 2147483648 -> nblk len < NDIRECT ->
  exists m', finishfile p start len s = HRet tt (set_region p m' s) /\ finished (off p) start len (region p s) m'.
Proof.
  intros Hl Hn. destruct (finish_words p start len s Hl ltac:(lia)) as (m' & E & H1 & H2 & H3 & H4). exists m'. unfold finishfile. rewrite <- hbind_assoc.
  rewrite (hbind_Ret _ _ _ _ _ E). pose proof (nblk_bound len ltac:(lia)) as [Hb1 Hb2]. rewrite roundup_u_blk, Z.div_mul by lia.
  destruct (Z.leb_spec NDIRECT (nblk len)); [lia|]. split; [done|]. constructor; [done|done| |done]. intros x A B _. by apply H3.
Qed.

(** The indirect block that a file of [len] bytes gets. *)
Definition nind (len : Z) : Z := if NDIRECT <=? nblk len then 1 else 0.

Lemma finishfile_heap o start len s P : 0 <= len < 4235264 ->
  diskpos s = P * BLKSIZE -> 0 <= P -> P + nind len < fm_nblocks s -> fm_nblocks s <= 1024 ->
  exists m' d', finishfile (InHeap o) start len s = HRet tt (mkFmt (fm_nblocks s) d' m' ((P + nind len) * BLKSIZE) (fm_super s) (fm_bitmap s)) /\
    finished o start len (fm_heap s) m' /\
    (forall x, ~ (P * BLKSIZE <= x < (P + nind len) * BLKSIZE) -> d' x = fm_disk s x) /\ (bytes (fm_disk s) -> bytes d').
Proof.
  intros Hl Hpos HP Hlt Hnb. pose proof (nblk_bound len ltac:(lia)) as [Hb1 Hb2].
  destruct (finish_words (InHeap o) start len s ltac:(lia) ltac:(lia)) as (m1 & E1 & H1 & H2 & H3 & H4). unfold finishfile. rewrite <- hbind_assoc.
  rewrite (hbind_Ret _ _ _ _ _ E1). rewrite roundup_u_blk, Z.div_mul by lia. cbn [set_region off region] in *. unfold nind in *.
  destruct (Z.leb_spec NDIRECT (nblk len)) as [Hi|Hi].
  - rewrite (hbind_Ret _ _ _ _ _ (alloc_run BLKSIZE P (set_fm_heap m1 s) ltac:(lia) Hpos HP Hlt Hnb)). change (nblk BLKSIZE) with 1.
    rewrite (hbind_Ret _ _ _ _ _ (hstore32_run _ _ _)). cbn [padd set_region off region].
    set (s1 := set_fm_heap _ (set_diskpos _ _)). destruct (hfor_words (OnDisk (P * BLKSIZE - 40)) 0 (λ i, u32 (start + i)) (Z.to_nat (nblk len - NDIRECT)) NDIRECT s1) as (d' & E' & _ & Ho & Hbd).
    rewrite (hfor_ext _ _ (λ i, hstore32 (padd (OnDisk (P * BLKSIZE - 40)) (0 + 4 * i)) (u32 (start + i)))) by (intros i; cbn [padd]; do 2 f_equal; lia).
    rewrite E'. cbn [set_region off region] in *. eexists _, d'. split; [reflexivity|]. split.
    + constructor.
      * rewrite (word_at_ext m1); [done|]. intros x Hx. apply put32_other. lia.
      * intros j Hj Hj'. rewrite (word_at_ext m1); [by apply H2|]. intros x Hx. apply put32_other. lia.
      * intros x A B C. unfold s1. cbn [fm_heap set_diskpos set_fm_heap set_fm_disk]. rewrite put32_other by lia. by apply H3.
      * intros Hm. by apply bytes_put32, H4.
    + split; [|exact Hbd]. intros x Hx. rewrite Ho; [done|]. lia.
  - exists m1, (fm_disk s). split; [unfold set_fm_heap, mret, H_ret; by rewrite Hpos, Z.add_0_r|]. split; [|done].
    constructor; [done|done| |done]. intros x A B _. by apply H3.
Qed.

(** A file that was written: its name in the directory, its contents and its
    first block. *)
Record placed := mkPlaced { pl_name : list Z; pl_data : list Z; pl_start : Z }.
Definition pl_len (f : placed) : Z := Z.of_nat (length (pl_data f)).

Definition name_ok (name : list Z) : Prop := Forall (λ c, 0 < c < 256) name /\ (length name < 128)%nat.

(** Its directory entry at [e]. *)
Record entry (m : bmem) (e : Z) (f : placed) : Prop := {
  en_name : range m (length (pl_name f)) e = pl_name f;
  en_nul : m (e + Z.of_nat (length (pl_name f))) = 0;
  en_type : word_at m (e + F_TYPE) = FTYPE_REG;
  en_size : word_at m (e + F_SIZE) = pl_len f;
  en_slot : forall j, 0 <= j < NDIRECT -> j < nblk (pl_len f) -> word_at m (e + F_DIRECT + 4 * j) = pl_start f + j
}.

Lemma entry_ext m m' e e' f : (forall k, 0 <= k < sizeof_File -> m' (e' + k) = m (e + k)) -> (length (pl_name f) < 128)%nat -> entry m e f -> entry m' e' f.
Proof.
  intros Hm Hl [H1 H2 H3 H4 H5].
  assert (Hw : forall k, 0 <= k -> k + 4 <= sizeof_File -> word_at m' (e' + k) = word_at m (e + k)).
  { intros k Hk Hk'. unfold word_at. rewrite <- !Z.add_assoc, !Hm by lia. done. }
  constructor.
  - rewrite <- H1 at 2. apply map_ext_in. intros k Hk%list_elem_of_In%elem_of_seq. apply Hm. lia.
  - rewrite Hm by lia. done.
  - by rewrite Hw by lia.
  - by rewrite Hw by lia.
  - intros j Hj Hj'. rewrite <- H5 by done. rewrite <- !Z.add_assoc. apply Hw; lia.
Qed.

(** A new entry, whatever was in memory. *)
Lemma entry_new m m' o f : name_ok (pl_name f) -> 0 <= pl_start f -> pl_start f + nblk (pl_len f) <= 1024 -> pl_len f < 4235264 ->
  finished o (pl_start f) (pl_len f) (put32 (o + F_TYPE) FTYPE_REG (puts o (pl_name f ++ [0]) m)) m' -> entry m' o f.
Proof.
  intros [Hn Hl] Hs Hb Hlen [F1 F2 F3 _]. pose proof (nblk_bound (pl_len f) ltac:(unfold pl_len; lia)) as [Hb1 Hb2].
  assert (Hc : forall k, (k < length (pl_name f))%nat -> m' (o + Z.of_nat k) = nth k (pl_name f) 0).
  { intros k Hk. rewrite F3, put32_other, puts_get, length_app by lia. cbn [length]. rewrite decide_True by lia.
    replace (Z.to_nat (o + Z.of_nat k - o)) with k by lia. rewrite app_nth1 by done. unfold u8. apply Z.mod_small.
    rewrite Forall_nth in Hn. specialize (Hn k 0 Hk). lia. }
  constructor.
  - apply nth_ext with 0 0; unfold range; rewrite length_map, length_seq; [done|]. intros k Hk. rewrite (nth_indep _ 0 (m' (o + Z.of_nat 0))) by (rewrite length_map, length_seq; done).
    rewrite (map_nth (λ k, m' (o + Z.of_nat k))), seq_nth by done. by apply Hc.
  - rewrite F3, put32_other, puts_get, length_app by lia. cbn [length]. rewrite decide_True by lia.
    replace (Z.to_nat (_ - o)) with (length (pl_name f)) by lia. by rewrite nth_middle.
  - rewrite (word_at_ext (put32 (o + F_TYPE) FTYPE_REG (puts o (pl_name f ++ [0]) m))); [apply word_at_put32|]. intros x Hx. apply F3; lia.
  - rewrite F1. apply u32_small. unfold pl_len in *. lia.
  - intros j Hj Hj'. rewrite F2 by done. apply u32_small. lia.
Qed.

Section Host.
  Context (host : list Z -> option (bool * list Z)) (rd : Z -> Z -> Z).
  (* [read] returns at least one byte, and not more than were wanted. *)
  Hypothesis Hrd : forall p n, 0 < n -> 1 <= rd p n <= n.

Lemma readn_loop_run data out fuel : forall p s, 0 <= p <= Z.of_nat (length data) -> (length data - Z.to_nat p <= fuel)%nat ->
    exists d', readn_loop rd fuel data out p (Z.of_nat (length data)) s = HRet tt (set_fm_disk d' s) /\
      forall x, d' x = if decide (out + p <= x < out + Z.of_nat (length data)) then u8 (nth (Z.to_nat (x - out)) data 0) else fm_disk s x.
  Proof using Hrd.
    induction fuel as [|fuel IH]; intros p s Hp Hf; cbn [readn_loop]; destruct (Z.leb_spec (Z.of_nat (length data)) p); try lia;
      try (exists (fm_disk s); split; [by destruct s|]; intros x; case_decide; [lia|done]).
    set (n := Z.of_nat (length data)) in *. pose proof (Hrd p (n - p) ltac:(lia)) as Hr. set (m := Z.min _ _).
    assert (Em : m = rd p (n - p)) by lia. unfold hstores. rewrite (hbind_Ret _ _ _ _ _ (hwrite_run _ _ _)). rewrite (proj2 (Z.eqb_neq m 0)) by lia.
    cbn [set_region off region]. set (s1 := set_fm_disk _ s). destruct (IH (p + m) s1 ltac:(lia) ltac:(lia)) as (d' & E & Hd). exists d'. split; [exact E|].
    intros x. rewrite Hd. unfold s1. cbn [fm_disk set_fm_disk]. rewrite puts_get, length_take, length_drop.
    repeat case_decide; try lia; try done. f_equal. rewrite nth_take_drop by lia. f_equal. lia.
  Qed.

(** ** The image while it is built *)

(** The files [fs] were written, and the next free block is [P]; the blocks
    before the data are as in [D0]. *)
Record building (N : Z) (D0 : bmem) (fs : list placed) (P : Z) (s : fmt) : Prop := {
  bu_nb : fm_nblocks s = N;
  bu_super : fm_super s = BLKSIZE;
  bu_bitmap : fm_bitmap s = 2 * BLKSIZE;
  bu_pos : diskpos s = P * BLKSIZE;
  bu_P : 3 <= P < N;
  bu_new : forall x, P * BLKSIZE <= x -> fm_disk s x = 0;
  bu_low : forall x, x < 3 * BLKSIZE -> fm_disk s x = D0 x;
  bu_bytes : bytes (fm_disk s) /\ bytes (fm_heap s);
  bu_name : forall k f, fs !! k = Some f -> name_ok (pl_name f);
  bu_entry : forall k f, fs !! k = Some f -> entry (fm_heap s) (256 * Z.of_nat k) f;
  bu_data : forall k f p, fs !! k = Some f -> 0 <= p < pl_len f -> fm_disk s (pl_start f * BLKSIZE + p) = u8 (nth (Z.to_nat p) (pl_data f) 0);
  bu_range : forall k f, fs !! k = Some f -> 3 <= pl_start f /\ pl_start f + nblk (pl_len f) <= P;
  bu_apart : forall k k' f f', (k < k')%nat -> fs !! k = Some f -> fs !! k' = Some f' -> pl_start f + nblk (pl_len f) <= pl_start f'
}.

Lemma snoc_lookup {A} (l : list A) a k x : (l ++ [a]) !! k = Some x -> (l !! k = Some x /\ (k < length l)%nat) \/ (k = length l /\ x = a).
Proof.
  intros E. destruct (decide (k < length l)%nat) as [Hk|Hk].
  - left. rewrite lookup_app_l in E by done. done.
  - right. rewrite lookup_app_r in E by lia. apply list_lookup_singleton_Some in E as [E1 ->]. split; [lia|done].
Qed.

(** One more file: what the steps of [writefile] did to heap and disk. *)
Lemma building_file N D0 fs P s f h' d' :
    building N D0 fs P s -> N <= 1024 -> pl_start f = P -> name_ok (pl_name f) -> pl_len f < 4235264 -> P + nblk (pl_len f) + nind (pl_len f) < N ->
    finished (256 * Z.of_nat (length fs)) P (pl_len f)
      (put32 (256 * Z.of_nat (length fs) + F_TYPE) FTYPE_REG (puts (256 * Z.of_nat (length fs)) (pl_name f ++ [0]) (fm_heap s))) h' ->
    (forall x, d' x = if decide (P * BLKSIZE <= x < P * BLKSIZE + pl_len f) then u8 (nth (Z.to_nat (x - P * BLKSIZE)) (pl_data f) 0) else
      if decide ((P + nblk (pl_len f)) * BLKSIZE <= x < (P + nblk (pl_len f) + nind (pl_len f)) * BLKSIZE) then d' x else fm_disk s x) -> bytes d' ->
    building N D0 (fs ++ [f]) (P + nblk (pl_len f) + nind (pl_len f))
      (mkFmt N d' h' ((P + nblk (pl_len f) + nind (pl_len f)) * BLKSIZE) (fm_super s) (fm_bitmap s)).
  Proof using Type.
    intros B HN Es Hnm Hlen Hlt Hf Hd Hbd. pose proof (nblk_bound (pl_len f) ltac:(unfold pl_len; lia)) as [Hb1 Hb2]. set (o := 256 * Z.of_nat (length fs)) in *.
    assert (Hi : 0 <= nind (pl_len f) <= 1) by (unfold nind; destruct (_ <=? _); lia). pose proof (bu_P _ _ _ _ _ B) as HP.
    assert (Hrest : forall x, x < o \/ o + 256 <= x -> h' x = fm_heap s x).
    { intros x Hx. destruct Hnm as [_ Hl]. rewrite (fn_rest _ _ _ _ _ Hf), put32_other, puts_get, length_app by lia. cbn [length]. by rewrite decide_False by lia. }
    constructor; cbn [fm_nblocks fm_super fm_bitmap diskpos fm_disk fm_heap]; try apply B; try done; try lia.
    - intros x Hx. rewrite Hd. repeat case_decide; try lia. apply (bu_new _ _ _ _ _ B). lia.
    - intros x Hx. rewrite Hd. repeat case_decide; try lia. by apply (bu_low _ _ _ _ _ B).
    - split; [done|]. by apply (fn_bytes _ _ _ _ _ Hf), bytes_put32, bytes_puts, B.
    - intros k g Hg. apply snoc_lookup in Hg as [[Hg _]|[_ ->]]; [by apply (bu_name _ _ _ _ _ B k)|done].
    - intros k g Hg. apply snoc_lookup in Hg as [[Hg Hk]|[-> ->]].
      + apply (entry_ext (fm_heap s) _ (256 * Z.of_nat k)); [|apply (bu_name _ _ _ _ _ B k g Hg)|by apply (bu_entry _ _ _ _ _ B)].
        intros j Hj. apply Hrest. lia.
      + apply (entry_new (fm_heap s)); try done; rewrite ?Es; try lia. exact Hf.
    - intros k g p Hg Hp. apply snoc_lookup in Hg as [[Hg Hk]|[-> ->]].
      + destruct (bu_range _ _ _ _ _ B k g Hg) as [Hr1 Hr2]. pose proof (nblk_bound (pl_len g) ltac:(unfold pl_len; lia)) as [Hg1 Hg2].
        rewrite Hd. rewrite !decide_False by lia. by apply (bu_data _ _ _ _ _ B k).
      + rewrite Hd, Es, decide_True by lia. do 2 f_equal. lia.
    - intros k g Hg. apply snoc_lookup in Hg as [[Hg Hk]|[-> ->]]; [|lia]. pose proof (bu_range _ _ _ _ _ B k g Hg). lia.
    - intros k k' g g' Hkk Hg Hg'. apply snoc_lookup in Hg' as [[Hg' Hk']|[-> ->]].
      + apply snoc_lookup in Hg as [[Hg Hk]|[-> ->]]; [|lia]. by apply (bu_apart _ _ _ _ _ B k k').
      + apply snoc_lookup in Hg as [[Hg Hk]|[-> ->]]; [|lia]. rewrite Es. apply (bu_range _ _ _ _ _ B k g Hg).
  Qed.

(** The host has the file, and it can be written. *)
Definition fits (name : list Z) (f : placed) : Prop :=
  host name = Some (true, pl_data f) /\ basename name = pl_name f /\ name_ok (pl_name f) /\ pl_len f < MAXFILESIZE.

Lemma writefile_run N D0 fs P s root name f :
    building N D0 fs P s -> N <= 1024 -> (length fs < 128)%nat -> fits name f -> pl_start f = P -> P + nblk (pl_len f) + nind (pl_len f) < N ->
    exists s', writefile host rd (mkDir root (Z.of_nat (length fs))) name s = HRet (mkDir root (Z.of_nat (length (fs ++ [f])))) s' /\
      building N D0 (fs ++ [f]) (P + nblk (pl_len f) + nind (pl_len f)) s'.
  Proof using Hrd.
    intros B HN Hk (Eh & En & Hnm & Hlen) Es Hlt. pose proof (nblk_bound (pl_len f) ltac:(unfold pl_len; lia)) as [Hb1 Hb2].
    assert (Hi : 0 <= nind (pl_len f) <= 1) by (unfold nind; destruct (_ <=? _); lia). pose proof (bu_P _ _ _ _ _ B) as HP.
    unfold writefile. rewrite Eh. cbn [negb]. fold (pl_len f). rewrite (proj2 (Z.leb_gt _ _)) by lia. rewrite En.
    set (k := length fs) in *. set (h2 := put32 (256 * Z.of_nat k + F_TYPE) FTYPE_REG (puts (256 * Z.of_nat k) (pl_name f ++ [0]) (fm_heap s))).
    assert (Ed : diradd (mkDir root (Z.of_nat k)) FTYPE_REG (pl_name f) s = HRet (mkDir root (Z.of_nat k + 1), InHeap (256 * Z.of_nat k)) (set_fm_heap h2 s)).
    { unfold diradd. cbn [d_n d_f]. rewrite (proj2 (Z.ltb_ge _ _)) by lia. unfold hstrcpy, hstores. rewrite (hbind_Ret _ _ _ _ _ (hwrite_run _ _ _)).
      rewrite (hbind_Ret _ _ _ _ _ (hstore32_run _ _ _)). replace (Z.of_nat k * sizeof_File) with (256 * Z.of_nat k) by lia. reflexivity. }
    rewrite (hbind_Ret _ _ _ _ _ Ed). pose proof (bu_nb _ _ _ _ _ B) as Enb.
    rewrite (hbind_Ret _ _ _ _ _ (alloc_run (pl_len f) P (set_fm_heap h2 s) ltac:(unfold pl_len in *; lia) (bu_pos _ _ _ _ _ B) ltac:(lia) ltac:(cbn; lia) ltac:(cbn; lia))).
    set (s2 := set_diskpos _ _). destruct (readn_loop_run (pl_data f) (P * BLKSIZE) (Z.to_nat (pl_len f)) 0 s2 ltac:(lia) ltac:(unfold pl_len; lia)) as (d' & Er & Hd').
    unfold readn. rewrite (hbind_Ret _ _ _ _ _ Er). rewrite blockof_mul by lia.
    destruct (finishfile_heap (256 * Z.of_nat k) P (pl_len f) (set_fm_disk d' s2) (P + nblk (pl_len f)) ltac:(unfold pl_len in *; lia) eq_refl ltac:(lia) ltac:(cbn; lia) ltac:(cbn; lia)) as (h3 & d3 & Ef & Hf & Hd3 & Hb3).
    rewrite (hbind_Ret _ _ _ _ _ Ef). cbn [fm_nblocks fm_super fm_bitmap fm_heap set_fm_disk set_diskpos set_fm_heap s2] in *. rewrite Enb in *. eexists. split.
    { unfold mret, H_ret. rewrite length_app. cbn [length]. do 2 f_equal. lia. }
    apply building_file with (h' := h3); try done; [intros x; case_decide as E1|].
    - rewrite Hd3 by lia. rewrite Hd', decide_True by (unfold pl_len in *; lia). done.
    - case_decide; [done|]. rewrite Hd3 by lia. rewrite Hd', decide_False by (unfold pl_len in *; lia). done.
    - apply Hb3. intros x. rewrite Hd'. case_decide; [apply u8_range|apply B].
  Qed.

(** The files one after the other from block [P] on, and the next free block. *)
Fixpoint places (P : Z) (fs : list placed) : Prop :=
    match fs with [] => True | f :: fs' => pl_start f = P /\ places (P + nblk (pl_len f) + nind (pl_len f)) fs' end.
Fixpoint space (fs : list placed) : Z :=
    match fs with [] => 0 | f :: fs' => nblk (pl_len f) + nind (pl_len f) + space fs' end.

Lemma space_nonneg fs : 0 <= space fs.
  Proof using Type.
    induction fs as [|f fs IH]; cbn [space]; [lia|]. pose proof (nblk_bound (pl_len f) ltac:(unfold pl_len; lia)). unfold nind. destruct (_ <=? _); lia.
  Qed.

Lemma writefiles_run N D0 root gs names : Forall2 fits names gs -> forall fs P s,
    building N D0 fs P s -> N <= 1024 -> (length fs + length gs <= 128)%nat -> places P gs -> P + space gs < N ->
    exists s', writefiles host rd (mkDir root (Z.of_nat (length fs))) names s = HRet (mkDir root (Z.of_nat (length (fs ++ gs)))) s' /\
      building N D0 (fs ++ gs) (P + space gs) s'.
  Proof using Hrd.
    induction 1 as [|name f names gs Hf _ IH]; intros fs P s B HN Hl Hp Hs.
    { exists s. cbn [space]. by rewrite Z.add_0_r, app_nil_r. }
    cbn [writefiles places space length] in *. destruct Hp as [Es Hp]. pose proof (space_nonneg gs).
    destruct (writefile_run N D0 fs P s root name f B HN ltac:(lia) Hf Es ltac:(lia)) as (s1 & E1 & B1). rewrite (hbind_Ret _ _ _ _ _ E1).
    destruct (IH (fs ++ [f]) _ s1 B1 HN ltac:(rewrite length_app; cbn; lia) Hp ltac:(lia)) as (s2 & E2 & B2). exists s2.
    rewrite <- app_assoc in E2, B2. split; [exact E2|]. by replace (P + (_ + space gs)) with (P + nblk (pl_len f) + nind (pl_len f) + space gs) by lia.
  Qed.
End Host.

(** ** The first blocks *)

(** The image after [opendisk]. *)
Definition opened (N : Z) : bmem :=
  puts (2 * BLKSIZE) (replicate (Z.to_nat BLKSIZE) 255)
    (puts (BLKSIZE + 8) [47; 0] (put32 (BLKSIZE + 8 + F_TYPE) FTYPE_DIR (put32 (BLKSIZE + 4) N (put32 BLKSIZE FS_MAGIC (λ _, 0))))).

Lemma opendisk_run N s : fm_nblocks s = N -> 4 <= N <= 1024 ->
  opendisk s = HRet tt (mkFmt N (opened N) (fm_heap s) (3 * BLKSIZE) BLKSIZE (2 * BLKSIZE)).
Proof.
  intros En HN. unfold opendisk. set (s1 := set_diskpos 0 (set_fm_disk (λ _, 0) s)).
  rewrite !hbind_modify. fold s1.
  rewrite (hbind_Ret _ _ _ _ _ (alloc_one N 0 s1 En eq_refl ltac:(lia) ltac:(lia) ltac:(lia))). change ((0 + 1) * BLKSIZE) with BLKSIZE.
  rewrite (hbind_Ret _ _ _ _ _ (alloc_one N 1 (set_diskpos BLKSIZE s1) En eq_refl ltac:(lia) ltac:(lia) ltac:(lia))).
  change ((1 + 1) * BLKSIZE) with (2 * BLKSIZE). change (1 * BLKSIZE) with BLKSIZE.
  set (s2 := set_fm_super BLKSIZE (set_diskpos (2 * BLKSIZE) (set_diskpos BLKSIZE s1))). rewrite hbind_modify, hbind_get. fold s2. change (fm_nblocks s2) with (fm_nblocks s). rewrite En.
  do 3 rewrite (hbind_Ret _ _ _ _ _ (hstore32_run _ _ _)). unfold hstrcpy, hstores. rewrite (hbind_Ret _ _ _ _ _ (hwrite_run _ _ _)).
  replace (u32 (N + BLKBITSIZE - 1) / BLKBITSIZE) with 1 by (rewrite u32_small by lia; Z.to_euclidean_division_equations; lia).
  change (u32 (1 * BLKSIZE)) with BLKSIZE. set (s3 := set_region _ _ _).
  rewrite (hbind_Ret _ _ _ _ _ (alloc_one N 2 s3 En eq_refl ltac:(lia) ltac:(lia) ltac:(lia))). change ((2 + 1) * BLKSIZE) with (3 * BLKSIZE).
  rewrite hbind_modify, hwrite_run. cbn -[puts put32 replicate Z.mul Z.add opened]. unfold opened. by rewrite <- En.
Qed.

Lemma opened_zero N x : 2 * BLKSIZE + BLKSIZE <= x \/ BLKSIZE + 8 + F_DIRECT <= x < 2 * BLKSIZE -> opened N x = 0.
Proof.
  intros Hx. unfold opened. rewrite !puts_get, length_replicate. cbn [length]. rewrite !decide_False by lia. by rewrite !put32_other by lia.
Qed.

Lemma opened_words N : 0 <= N < 4294967296 ->
  word_at (opened N) BLKSIZE = FS_MAGIC /\ word_at (opened N) (BLKSIZE + 4) = N /\ word_at (opened N) (BLKSIZE + 8 + F_TYPE) = FTYPE_DIR.
Proof.
  intros HN. assert (Hp : forall x, x < 2 * BLKSIZE -> ~ (BLKSIZE + 8 <= x < BLKSIZE + 10) ->
    opened N x = put32 (BLKSIZE + 8 + F_TYPE) FTYPE_DIR (put32 (BLKSIZE + 4) N (put32 BLKSIZE FS_MAGIC (λ _, 0))) x).
  { intros x H1 H2. unfold opened. rewrite !puts_get, length_replicate. cbn [length]. by rewrite !decide_False by lia. }
  split_and!.
  - rewrite (word_at_ext (put32 BLKSIZE FS_MAGIC (λ _, 0))); [rewrite word_at_put32; reflexivity|]. intros x Hx. rewrite Hp by lia. by rewrite !put32_other by lia.
  - rewrite (word_at_ext (put32 (BLKSIZE + 4) N (put32 BLKSIZE FS_MAGIC (λ _, 0)))); [rewrite word_at_put32; by apply u32_small|].
    intros x Hx. rewrite Hp by lia. by rewrite put32_other by lia.
  - rewrite (word_at_ext (put32 (BLKSIZE + 8 + F_TYPE) FTYPE_DIR (put32 (BLKSIZE + 4) N (put32 BLKSIZE FS_MAGIC (λ _, 0))))); [rewrite word_at_put32; reflexivity|].
    intros x Hx. by rewrite Hp by lia.
Qed.

Lemma opened_bitmap N x : 2 * BLKSIZE <= x < 3 * BLKSIZE -> opened N x = 255.
Proof.
  intros Hx. unfold opened. rewrite puts_get, length_replicate, decide_True by lia. by rewrite nth_lookup, lookup_replicate_2 by lia.
Qed.

(** ** The bitmap *)

(** The image at the addresses of the server. *)
Definition mapped_at (d : bmem) : bmem := λ a, d (a - DISKMAP).

Lemma word_mapped_at d a : word_at (mapped_at d) a = word_at d (a - DISKMAP).
Proof. unfold word_at, mapped_at. by replace (a + 1 - DISKMAP) with (a - DISKMAP + 1) by lia; replace (a + 2 - DISKMAP) with (a - DISKMAP + 2) by lia; replace (a + 3 - DISKMAP) with (a - DISKMAP + 3) by lia. Qed.

Lemma put_mapped_at o v d a : mapped_at (put32 o v d) a = put32 (DISKMAP + o) v (mapped_at d) a.
Proof.
  destruct (decide (o <= a - DISKMAP < o + 4)) as [E|E].
  - unfold mapped_at, put32, put. replace (a - DISKMAP =? o + 3) with (a =? DISKMAP + o + 3) by lia. replace (a - DISKMAP =? o + 2) with (a =? DISKMAP + o + 2) by lia.
    replace (a - DISKMAP =? o + 1) with (a =? DISKMAP + o + 1) by lia. replace (a - DISKMAP =? o) with (a =? DISKMAP + o) by lia. done.
  - unfold mapped_at. by rewrite !put32_other by lia.
Qed.

Lemma clear_bits_run n : forall i s, 0 <= i -> i + Z.of_nat n <= 32768 ->
  exists d', hfor n i (λ i, w ← hget (λ s, word_at (fm_disk s) (2 * BLKSIZE + 4 * (i / 32)));
      hstore32 (OnDisk (2 * BLKSIZE + 4 * (i / 32))) (Z.ldiff w (Z.shiftl 1 (i mod 32)))) s = HRet tt (set_fm_disk d' s) /\
    (forall b, isfree (mapped_at d') b = isfree (mapped_at (fm_disk s)) b && negb (bool_decide (i <= b < i + Z.of_nat n))) /\
    (forall x, ~ (2 * BLKSIZE <= x < 3 * BLKSIZE) -> d' x = fm_disk s x) /\ (bytes (fm_disk s) -> bytes d').
Proof.
  induction n as [|n IH]; intros i s Hi Hn.
  { exists (fm_disk s). split; [by destruct s|]. split; [|done]. intros b. rewrite bool_decide_eq_false_2 by lia. by rewrite andb_true_r. }
  cbn [hfor]. rewrite hbind_assoc, hbind_get, (hbind_Ret _ _ _ _ _ (hstore32_run _ _ _)). cbn [set_region off region]. set (o := 2 * BLKSIZE + 4 * (i / 32)).
  set (v := Z.ldiff _ _). set (s1 := set_fm_disk _ s). destruct (IH (i + 1) s1 ltac:(lia) ltac:(lia)) as (d' & E & Hf & Ho & Hb). exists d'. rewrite E. split; [done|].
  unfold s1 in Hf, Ho, Hb. cbn [fm_disk set_fm_disk] in Hf, Ho, Hb. split; [|split].
  - intros b. rewrite Hf, (isfree_ext (put32 (bword i) v (mapped_at (fm_disk s)))).
    2:{ intros a. rewrite put_mapped_at. f_equal. unfold o, bword. lia. }
    replace v with (Z.ldiff (word_at (mapped_at (fm_disk s)) (bword i)) (Z.shiftl 1 (i mod 32))) by (unfold v; rewrite word_mapped_at; do 3 f_equal; unfold o, bword; lia).
    rewrite isfree_clear, <- andb_assoc. f_equal. repeat case_bool_decide; try done; lia.
  - intros x Hx. rewrite Ho by done. apply put32_other. unfold o. pose proof (Z.div_pos i 32 ltac:(lia) ltac:(lia)). pose proof (Z.div_lt_upper_bound i 32 1024 ltac:(lia) ltac:(lia)). lia.
  - intros Hm. by apply Hb, bytes_put32.
Qed.

Lemma all_free d b : (forall x, 2 * BLKSIZE <= x < 3 * BLKSIZE -> d x = 255) -> 0 <= b < 32768 -> isfree (mapped_at d) b = true.
Proof.
  intros Hd Hb. rewrite isfree_bit, word_mapped_at. unfold bword. pose proof (Z.div_pos b 32 ltac:(lia) ltac:(lia)). pose proof (Z.div_lt_upper_bound b 32 1024 ltac:(lia) ltac:(lia)).
  unfold word_at. rewrite !Hd by lia. change (255 + 256 * 255 + 65536 * 255 + 16777216 * 255) with (Z.ones 32).
  apply Z.ones_spec_low. apply Z.mod_pos_bound. lia.
Qed.

(** ** The finished image *)

(** The image [d] of [N] blocks has the files [fs], whose entries are in the
    [nd] blocks from [P] on, and nothing behind these. *)
Record image (N : Z) (fs : list placed) (P nd : Z) (d : bmem) : Prop := {
  im_bytes : bytes d;
  im_super : word_at d BLKSIZE = FS_MAGIC /\ word_at d (BLKSIZE + 4) = N;
  im_free : forall b, 0 <= b < N -> isfree (mapped_at d) b = (P + nd <=? b);
  im_P : 3 <= P /\ P + nd < N;
  im_root : word_at d (BLKSIZE + 8 + F_SIZE) = nd * BLKSIZE /\ word_at d (BLKSIZE + 8 + F_TYPE) = FTYPE_DIR;
  im_slot : forall j, 0 <= j < NDIRECT -> word_at d (BLKSIZE + 8 + F_DIRECT + 4 * j) = if j <? nd then P + j else 0;
  im_name : forall k f, fs !! k = Some f -> name_ok (pl_name f);
  im_entry : forall k f, fs !! k = Some f -> entry d (P * BLKSIZE + 256 * Z.of_nat k) f;
  im_rest : forall x, P * BLKSIZE + 256 * Z.of_nat (length fs) <= x -> d x = 0;
  im_data : forall k f p, fs !! k = Some f -> 0 <= p < pl_len f -> d (pl_start f * BLKSIZE + p) = u8 (nth (Z.to_nat p) (pl_data f) 0);
  im_range : forall k f, fs !! k = Some f -> 3 <= pl_start f /\ pl_start f + nblk (pl_len f) <= P;
  im_apart : forall k k' f f', (k < k')%nat -> fs !! k = Some f -> fs !! k' = Some f' -> pl_start f + nblk (pl_len f) <= pl_start f'
}.

Lemma finishdir_run N fs P s : building N (opened N) fs P s -> N <= 1024 -> (1 <= length fs <= 128)%nat ->
  let nd := nblk (256 * Z.of_nat (length fs)) in P + nd < N ->
  exists d', finishdir (mkDir (OnDisk (BLKSIZE + 8)) (Z.of_nat (length fs))) s = HRet tt (mkFmt N d' (fm_heap s) ((P + nd) * BLKSIZE) BLKSIZE (2 * BLKSIZE)) /\
    finished (BLKSIZE + 8) P (nd * BLKSIZE) (copy_in (P * BLKSIZE) (256 * Z.of_nat (length fs)) 0 (fm_heap s) (fm_disk s)) d'.
Proof.
  intros B HN Hl nd Hlt. pose proof (bu_P _ _ _ _ _ B) as HP. set (sz := 256 * Z.of_nat (length fs)) in *. unfold finishdir. cbn [d_n d_f].
  replace (Z.of_nat (length fs) * sizeof_File) with sz by lia. pose proof (nblk_bound sz ltac:(lia)) as [Hb1 Hb2]. fold nd in Hb1, Hb2.
  rewrite (hbind_Ret _ _ _ _ _ (alloc_run sz P s ltac:(lia) (bu_pos _ _ _ _ _ B) ltac:(lia) ltac:(rewrite (bu_nb _ _ _ _ _ B); done) ltac:(rewrite (bu_nb _ _ _ _ _ B); done))). fold nd.
  rewrite hbind_get, (hbind_Ret _ _ _ _ _ (hwrite_run _ _ _)). cbn [set_region off region]. set (s1 := set_fm_disk _ _). rewrite roundup_i_blk, blockof_mul by lia. fold nd.
  assert (End : nblk (nd * BLKSIZE) = nd) by (unfold nblk; Z.to_euclidean_division_equations; lia).
  destruct (finishfile_small (OnDisk (BLKSIZE + 8)) P (nd * BLKSIZE) s1 ltac:(lia) ltac:(lia)) as (d' & E & Hf). exists d'. split; [|exact Hf].
  rewrite E. unfold s1, set_region, set_fm_disk, set_diskpos. cbn [fm_nblocks fm_heap fm_super fm_bitmap diskpos].
  by rewrite (bu_nb _ _ _ _ _ B), (bu_super _ _ _ _ _ B), (bu_bitmap _ _ _ _ _ B).
Qed.

Lemma image_built N fs P s d1 d : building N (opened N) fs P s -> N <= 1024 -> (1 <= length fs <= 128)%nat ->
  let nd := nblk (256 * Z.of_nat (length fs)) in P + nd < N ->
  finished (BLKSIZE + 8) P (nd * BLKSIZE) (copy_in (P * BLKSIZE) (256 * Z.of_nat (length fs)) 0 (fm_heap s) (fm_disk s)) d1 ->
  (forall b, isfree (mapped_at d) b = isfree (mapped_at d1) b && negb (bool_decide (0 <= b < 0 + Z.of_nat (Z.to_nat (P + nd))))) ->
  (forall x, ~ (2 * BLKSIZE <= x < 3 * BLKSIZE) -> d x = d1 x) -> (bytes d1 -> bytes d) -> image N fs P nd d.
Proof.
  intros B HN Hl nd Hlt [F1 F2 F3 F4] Hfree Hd Hb. pose proof (bu_P _ _ _ _ _ B) as HP. set (sz := 256 * Z.of_nat (length fs)) in *.
  pose proof (nblk_bound sz ltac:(lia)) as [Hb1 Hb2]. fold nd in Hb1, Hb2. destruct (opened_words N ltac:(lia)) as (O1 & O2 & O3).
  assert (End : nblk (nd * BLKSIZE) = nd) by (unfold nblk; Z.to_euclidean_division_equations; lia). rewrite End in F2, F3.
  set (d0 := copy_in _ _ _ _ _) in *.
  assert (E0 : forall x, x < 3 * BLKSIZE -> d0 x = opened N x).
  { intros x Hx. unfold d0, copy_in. destruct (Z.leb_spec (P * BLKSIZE) x); [lia|]. cbn [andb]. by apply (bu_low _ _ _ _ _ B). }
  assert (E1 : forall x, x < BLKSIZE + 8 + F_SIZE \/ BLKSIZE + 8 + F_SIZE + 4 <= x < BLKSIZE + 8 + F_DIRECT \/ BLKSIZE + 8 + F_DIRECT + 4 * nd <= x -> d1 x = d0 x).
  { intros x Hx. apply F3; lia. }
  assert (Elow : forall x, x < BLKSIZE + 8 + F_SIZE \/ BLKSIZE + 8 + F_SIZE + 4 <= x < BLKSIZE + 8 + F_DIRECT \/ BLKSIZE + 8 + F_DIRECT + 4 * nd <= x < 2 * BLKSIZE -> d x = opened N x).
  { intros x Hx. rewrite Hd, E1 by lia. apply E0. lia. }
  assert (Ehigh : forall x, 3 * BLKSIZE <= x -> d x = d0 x) by (intros x Hx; rewrite Hd by lia; apply E1; lia).
  assert (Edata : forall x, 3 * BLKSIZE <= x < P * BLKSIZE -> d x = fm_disk s x).
  { intros x Hx. rewrite Ehigh by lia. unfold d0, copy_in. destruct (Z.leb_spec (P * BLKSIZE) x); [lia|done]. }
  constructor.
  - apply Hb, F4. intros x. unfold d0, copy_in. destruct (_ && _); apply B.
  - split; [rewrite <- O1|rewrite <- O2]; apply word_at_ext; intros x Hx; apply Elow; lia.
  - intros b Hbn. rewrite Hfree, all_free; [|intros x Hx; rewrite E1, E0 by lia; by apply opened_bitmap|lia]. cbn [andb].
    destruct (Z.leb_spec (P + nd) b); [rewrite bool_decide_eq_false_2 by lia|rewrite bool_decide_eq_true_2 by lia]; done.
  - lia.
  - split; [rewrite <- (u32_small (nd * BLKSIZE)), <- F1 by lia|rewrite <- O3]; apply word_at_ext; intros x Hx; [apply Hd; lia|apply Elow; lia].
  - intros j Hj. destruct (Z.ltb_spec j nd) as [Hj'|Hj'].
    + rewrite <- (u32_small (P + j)), <- F2 by lia. apply word_at_ext. intros x Hx. apply Hd. lia.
    + unfold word_at. rewrite !Elow by lia. by rewrite !opened_zero by lia.
  - intros k f Hf. by apply (bu_name _ _ _ _ _ B k).
  - intros k f Hf. pose proof (lookup_lt_Some _ _ _ Hf) as Hk. apply (entry_ext (fm_heap s) _ (256 * Z.of_nat k)); [|apply (bu_name _ _ _ _ _ B k f Hf)|by apply (bu_entry _ _ _ _ _ B)].
    intros j Hj. rewrite Ehigh by lia. unfold d0, copy_in. rewrite (proj2 (Z.leb_le _ _)), (proj2 (Z.ltb_lt _ _)) by lia. cbn [andb]. f_equal. lia.
  - intros x Hx. rewrite Ehigh by lia. unfold d0, copy_in. destruct (Z.ltb_spec x (P * BLKSIZE + sz)); [lia|]. rewrite andb_false_r. apply (bu_new _ _ _ _ _ B). lia.
  - intros k f p Hf Hp. destruct (bu_range _ _ _ _ _ B k f Hf) as [R1 R2]. pose proof (nblk_bound (pl_len f) ltac:(lia)) as [G1 G2].
    rewrite Edata by lia. by apply (bu_data _ _ _ _ _ B k).
  - intros k f Hf. by apply (bu_range _ _ _ _ _ B k).
  - intros k k' f f' Hkk Hf Hf'. by apply (bu_apart _ _ _ _ _ B k k').
Qed.

Lemma building_start N D0 heap : 3 < N -> (forall x, 3 * BLKSIZE <= x -> D0 x = 0) -> bytes D0 -> bytes heap ->
  building N D0 [] 3 (mkFmt N D0 heap (3 * BLKSIZE) BLKSIZE (2 * BLKSIZE)).
Proof. intros HN Hz Hb Hh. constructor; try done; try lia; try by (intros ? ? H; apply lookup_nil_Some in H). Qed.

Lemma main_run host rd heap N names fs s : (forall p n, 0 < n -> 1 <= rd p n <= n) -> bytes heap -> N <= 1024 -> Forall2 (fits host) names fs -> (1 <= length fs <= 128)%nat ->
  places 3 fs -> let P := 3 + space fs in let nd := nblk (256 * Z.of_nat (length fs)) in P + nd < N ->
  exists s', main host rd heap N names s = HRet tt s' /\ image N fs P nd (fm_disk s').
Proof.
  intros Hrd Hheap HN Hfit Hl Hpl P nd Hlt. pose proof (space_nonneg fs). pose proof (nblk_bound (256 * Z.of_nat (length fs)) ltac:(lia)) as [Hb1 Hb2]. fold nd in Hb1, Hb2.
  assert (Hnd : 1 <= nd) by lia. unfold main. destruct (Z.ltb_spec N 2); [lia|]. destruct (Z.ltb_spec 1024 N); [lia|]. cbn [orb].
  rewrite hbind_modify. set (s0 := mkFmt N _ _ _ _ _). rewrite (hbind_Ret _ _ _ _ _ (opendisk_run N s0 eq_refl ltac:(lia))), hbind_get. cbn [fm_super].
  unfold startdir. rewrite hbind_assoc, hbind_modify. set (s1 := set_fm_heap _ _).
  assert (B1 : building N (opened N) [] 3 s1).
  { apply (building_start N (opened N) heap); [lia|intros x Hx; apply opened_zero; lia| |done]. unfold opened. repeat apply bytes_puts. repeat apply bytes_put32. intros x. lia. }
  destruct (writefiles_run host rd Hrd N (opened N) (OnDisk (BLKSIZE + 8)) fs names Hfit [] 3 s1 B1 HN ltac:(cbn; lia) Hpl ltac:(lia)) as (s2 & E2 & B2).
  rewrite hbind_mret, (hbind_Ret _ _ _ _ _ E2). fold P in B2. cbn [app] in *.
  destruct (finishdir_run N fs P s2 B2 HN Hl Hlt) as (d3 & E3 & Hf). rewrite (hbind_Ret _ _ _ _ _ E3). unfold finishdisk. rewrite !hbind_get. cbn [diskpos fm_bitmap].
  fold nd. rewrite blockof_mul by lia.
  set (s3 := mkFmt _ _ _ _ _ _). destruct (clear_bits_run (Z.to_nat (P + nd)) 0 s3 ltac:(lia) ltac:(lia)) as (d4 & E4 & G1 & G2 & G3).
  exists (set_fm_disk d4 s3). split; [exact E4|]. by apply (image_built N fs P s2 d3).
Qed.

(** ** The server on such an image *)

Lemma find_first {A} (f : A -> bool) (g : Z -> A) n k : 0 <= k < n -> f (g k) = true -> (forall j, 0 <= j < k -> f (g j) = false) ->
  find f (map g (seqZ 0 n)) = Some (g k).
Proof.
  intros Hk Hf Hj. replace n with (k + (n - k)) by lia. rewrite seqZ_app, map_app, find_app by lia.
  destruct (find f (map g (seqZ 0 k))) as [x|] eqn:E.
  - apply find_some in E as [Hx Ex]. apply in_map_iff in Hx as (j & <- & Hj'%list_elem_of_In%elem_of_seqZ). rewrite Hj in Ex by lia. done.
  - rewrite seqZ_cons by lia. cbn [map find]. by rewrite Z.add_0_l, Hf.
Qed.

(** The entries of blocks that lie one after the other. *)
Lemma entries_flat a n :
  flat_map (λ i, block_entries (a + i * BLKSIZE)) (seqZ 0 (Z.of_nat n)) = map (λ k, a + 256 * k) (seqZ 0 (16 * Z.of_nat n)).
Proof.
  induction n as [|n IH]; [done|]. replace (Z.of_nat (S n)) with (Z.of_nat n + 1) by lia. rewrite seqZ_app, flat_map_app, IH by lia.
  replace (16 * (Z.of_nat n + 1)) with (16 * Z.of_nat n + 16) by lia. rewrite (seqZ_app 0 (16 * Z.of_nat n)), map_app by lia. f_equal.
  rewrite !Z.add_0_l, (seqZ_cons (Z.of_nat n) 1) by lia. change (seqZ (Z.succ (Z.of_nat n)) (Z.pred 1)) with (@nil Z). cbn [flat_map]. rewrite app_nil_r. unfold block_entries.
  rewrite <- (Z.add_0_r (16 * Z.of_nat n)), <- fmap_add_seqZ. change (seqZ 0 16) with [0; 1; 2; 3; 4; 5; 6; 7; 8; 9; 10; 11; 12; 13; 14; 15].
  cbn [map fmap list_fmap]. do 16 (apply (f_equal2 cons); [lia|]). reflexivity.
Qed.

(** A string in memory is determined by its address. *)
Lemma string_unique M a : forall e b, Forall (λ c, c <> 0) a -> Forall (λ c, c <> 0) b ->
  range M (length a) e = a -> M (e + Z.of_nat (length a)) = 0 -> range M (length b) e = b -> M (e + Z.of_nat (length b)) = 0 -> a = b.
Proof.
  induction a as [|c a IH]; intros e b Ha Hb E1 Z1 E2 Z2; destruct b as [|c' b]; [done|..]; cbn [length] in *; rewrite ?range_S, ?Z.add_0_r in *.
  - exfalso. injection E2 as E _. apply list.Forall_cons in Hb as [Hc _]. congruence.
  - exfalso. injection E1 as E _. apply list.Forall_cons in Ha as [Hc _]. congruence.
  - injection E1 as Ec E1. injection E2 as Ec' E2. f_equal; [congruence|]. apply list.Forall_cons in Ha as [_ Ha]. apply list.Forall_cons in Hb as [_ Hb].
    apply (IH (e + 1)); try done; rewrite <- Z.add_assoc; [rewrite <- Z1|rewrite <- Z2]; f_equal; lia.
Qed.

Lemma streq_entry M e f name : entry M e f -> name_ok (pl_name f) -> Forall (λ c, c <> 0) name -> streq M e name = bool_decide (name = pl_name f).
Proof.
  intros [E1 E2 _ _ _] [Hn _] Hz. assert (Hn' : Forall (λ c, c <> 0) (pl_name f)) by (eapply list.Forall_impl; [exact Hn|]; intros c Hc; cbn in Hc; lia).
  case_bool_decide as E.
  - subst. by apply streq_range.
  - destruct (streq M e name) eqn:Es; [|done]. apply streq_range in Es as [S1 S2]; [|done]. exfalso. apply E. by apply (string_unique M _ e).
Qed.

Section Server.
  Context {N : Z} {fs : list placed} {P nd : Z} {d M : bmem} (I : image N fs P nd d) (HN : N <= 1024) (Hnd : 1 <= nd < NDIRECT) (Hn : Z.of_nat (length fs) <= 16 * nd).
  Context (HM : forall x, 0 <= x < N * BLKSIZE -> M (DISKMAP + x) = d x).

Lemma word_on o : 0 <= o -> o + 4 <= N * BLKSIZE -> word_at M (DISKMAP + o) = word_at d o.
  Proof using I HN Hnd Hn HM. intros H1 H2. unfold word_at. rewrite <- !Z.add_assoc, !HM by lia. done. Qed.

Lemma isfree_on b : 0 <= b < N -> isfree M b = (P + nd <=? b).
  Proof using I HN Hnd Hn HM.
    intros Hb. rewrite <- (im_free _ _ _ _ _ I) by done. unfold isfree. f_equal. pose proof (Z.div_pos b 32 ltac:(lia) ltac:(lia)). pose proof (Z.div_lt_upper_bound b 32 1024 ltac:(lia) ltac:(lia)).
    pose proof (im_P _ _ _ _ _ I). rewrite word_mapped_at. replace (BITMAP + 4 * (b / 32)) with (DISKMAP + (8192 + 4 * (b / 32))) by lia. rewrite word_on by lia. f_equal. lia.
  Qed.

Lemma nb_on : nb M = N.
  Proof using I HN Hnd Hn HM. pose proof (im_P _ _ _ _ _ I). unfold nb. replace (SUPER + 4) with (DISKMAP + (BLKSIZE + 4)) by lia. rewrite word_on by lia. apply (im_super _ _ _ _ _ I). Qed.

(** The blocks that hold data. *)
Lemma data_on b : 3 <= b < P + nd -> used M b /\ data_block (nb M) b.
  Proof using I HN Hnd Hn HM.
    intros Hb. pose proof (im_P _ _ _ _ _ I). rewrite nb_on. unfold used, data_block. rewrite nb_on, isfree_on by lia.
    split; [split; [lia|]|lia]. by rewrite (proj2 (Z.leb_gt _ _)) by lia.
  Qed.

Lemma formatted_on : formatted M N.
  Proof using I HN Hnd Hn HM.
    pose proof (im_P _ _ _ _ _ I). constructor; [|apply nb_on|lia|].
    - replace SUPER with (DISKMAP + BLKSIZE) by lia. rewrite word_on by lia. apply (im_super _ _ _ _ _ I).
    - intros i Hi Hlt. rewrite isfree_on by lia. by rewrite (proj2 (Z.leb_gt _ _)) by lia.
  Qed.

Lemma root_slot j : 0 <= j < NDIRECT -> slot M (SUPER + 8) j = if j <? nd then P + j else 0.
  Proof using I HN Hnd Hn HM.
    intros Hj. pose proof (im_P _ _ _ _ _ I). unfold slot. replace (SUPER + 8 + F_DIRECT + 4 * j) with (DISKMAP + (BLKSIZE + 8 + F_DIRECT + 4 * j)) by lia.
    rewrite word_on by lia. by apply (im_slot _ _ _ _ _ I).
  Qed.

(** A [struct File] whose slots are the blocks from [start] on. *)
Lemma wf_slots f start n : file_ok M f -> 3 <= start -> start + n <= P + nd -> (blk f < start \/ start + n <= blk f) ->
    (forall j, 0 <= j < NDIRECT -> slot M f j = if j <? n then start + j else 0) -> file_wf M f.
  Proof using I HN Hnd Hn HM.
    intros Hok Hs Hn' Hb Hsl. constructor; [done| |].
    - intros j Hj Hz. rewrite Hsl in * by done. destruct (Z.ltb_spec j n); [|done]. destruct (data_on (start + j) ltac:(lia)). split; [done|]. split; [done|]. lia.
    - intros i j Hi Hj Hz E. rewrite !Hsl in * by done. destruct (Z.ltb_spec i n), (Z.ltb_spec j n); done || lia.
  Qed.

Lemma root_wf : dir_wf M (SUPER + 8) nd.
  Proof using I HN Hnd Hn HM.
    pose proof (im_P _ _ _ _ _ I). constructor; [|..|lia|].
    - apply (wf_slots _ P nd); [|lia|lia|left; change (blk (SUPER + 8)) with 1; lia|apply root_slot]. constructor; [done| |].
      + change (blk (SUPER + 8)) with 1. unfold used. rewrite nb_on, isfree_on by lia. split; [lia|]. by rewrite (proj2 (Z.leb_gt _ _)) by lia.
      + intros x Hx. split; [change (blk (SUPER + 8)) with 1; apply blk_unique; lia|]. unfold offmeta. lia.
    - unfold size_of. replace (SUPER + 8 + F_SIZE) with (DISKMAP + (BLKSIZE + 8 + F_SIZE)) by lia. rewrite word_on by lia. apply (im_root _ _ _ _ _ I).
    - intros i Hi. rewrite root_slot by lia. rewrite (proj2 (Z.ltb_lt _ _)) by lia. lia.
  Qed.

(** The address of entry [k]. *)
Definition entry_addr (k : Z) : Z := DISKMAP + P * BLKSIZE + 256 * k.

Lemma root_entries : dir_entries M (SUPER + 8) nd = map entry_addr (seqZ 0 (16 * nd)).
  Proof using I HN Hnd Hn HM.
    unfold dir_entries. transitivity (flat_map (λ i, block_entries (DISKMAP + P * BLKSIZE + i * BLKSIZE)) (seqZ 0 nd)).
    - rewrite !flat_map_concat_map. f_equal. apply map_ext_in. intros i Hi%list_elem_of_In%elem_of_seqZ. rewrite root_slot, (proj2 (Z.ltb_lt _ _)) by lia. f_equal. lia.
    - pose proof (entries_flat (DISKMAP + P * BLKSIZE) (Z.to_nat nd)) as E. rewrite Z2Nat.id in E by lia. exact E.
  Qed.

Lemma entry_on k f : fs !! k = Some f -> entry M (entry_addr (Z.of_nat k)) f.
  Proof using I HN Hnd Hn HM.
    intros Hf. pose proof (lookup_lt_Some _ _ _ Hf). pose proof (im_P _ _ _ _ _ I).
    apply (entry_ext d _ (P * BLKSIZE + 256 * Z.of_nat k)); [|apply (im_name _ _ _ _ _ I k f Hf)|by apply (im_entry _ _ _ _ _ I)].
    intros j Hj. rewrite <- HM by lia. f_equal. unfold entry_addr. lia.
  Qed.

Lemma entry_none k j : Z.of_nat (length fs) <= k < 16 * nd -> 0 <= j < 256 -> M (entry_addr k + j) = 0.
  Proof using I HN Hnd Hn HM.
    intros Hk Hj. pose proof (im_P _ _ _ _ _ I). replace (entry_addr k + j) with (DISKMAP + (P * BLKSIZE + 256 * k + j)) by (unfold entry_addr; lia).
    rewrite HM by lia. apply (im_rest _ _ _ _ _ I). lia.
  Qed.

Lemma root_tree : tree M (λ a, a = SUPER + 8).
  Proof using I HN Hnd Hn HM.
    assert (Es : size_of M (SUPER + 8) / BLKSIZE = nd) by (rewrite (dw_size _ _ _ root_wf); by apply Z.div_mul).
    constructor; [intros ? ->; rewrite Es; apply root_wf|]. intros ? e ->. rewrite Es. intros He Ht. exfalso. rewrite root_entries in He.
    apply list_elem_of_In, in_map_iff in He as (k & <- & Hk%list_elem_of_In%elem_of_seqZ). destruct (decide (k < Z.of_nat (length fs))) as [Hlt|Hge].
    - destruct (lookup_lt_is_Some_2 fs (Z.to_nat k) ltac:(lia)) as [f Hf]. pose proof (en_type _ _ _ (entry_on _ _ Hf)) as E. rewrite Z2Nat.id in E by lia. lia.
    - unfold word_at in Ht. rewrite <- !Z.add_assoc, !entry_none in Ht by lia. done.
  Qed.

(** The name of a file leads to its entry. *)
Lemma lookup_file k f : fs !! k = Some f -> pl_name f <> [] -> (forall j g, (j < k)%nat -> fs !! j = Some g -> pl_name g <> pl_name f) ->
    lookup_name M (SUPER + 8) nd (pl_name f) = Some (entry_addr (Z.of_nat k)).
  Proof using I HN Hnd Hn HM.
    intros Hf Hne Hfirst. pose proof (lookup_lt_Some _ _ _ Hf) as Hk. unfold lookup_name. rewrite root_entries.
    assert (Hz : Forall (λ c, c <> 0) (pl_name f)).
    { destruct (im_name _ _ _ _ _ I k f Hf) as [Hb _]. eapply list.Forall_impl; [exact Hb|]. intros c Hc. cbn in Hc. lia. }
    apply find_first; [lia| |].
    - rewrite (streq_entry _ _ f); [by apply bool_decide_eq_true_2|by apply entry_on|by apply (im_name _ _ _ _ _ I k)|done].
    - intros j Hj. destruct (lookup_lt_is_Some_2 fs (Z.to_nat j) ltac:(lia)) as [g Hg].
      pose proof (entry_on _ _ Hg) as Eg. rewrite Z2Nat.id in Eg by lia.
      rewrite (streq_entry _ _ g); [|done|by apply (im_name _ _ _ _ _ I (Z.to_nat j))|done]. apply bool_decide_eq_false_2. intros E. by apply (Hfirst (Z.to_nat j) g ltac:(lia)).
  Qed.

(** The entry is a file of the blocks of the data. *)
Lemma file_on k f : fs !! k = Some f -> nblk (pl_len f) <= NDIRECT ->
    file_ok M (entry_addr (Z.of_nat k)) /\ size_of M (entry_addr (Z.of_nat k)) = pl_len f /\
    (forall p, 0 <= p < pl_len f -> slot M (entry_addr (Z.of_nat k)) (p / BLKSIZE) <> 0 /\ used M (slot M (entry_addr (Z.of_nat k)) (p / BLKSIZE)) /\
       fbyte M (entry_addr (Z.of_nat k)) p = u8 (nth (Z.to_nat p) (pl_data f) 0)).
  Proof using I HN Hnd Hn HM.
    intros Hf Hs. pose proof (lookup_lt_Some _ _ _ Hf) as Hk. pose proof (im_P _ _ _ _ _ I) as HP. destruct (entry_on k f Hf) as [_ _ _ E4 E5].
    set (e := entry_addr (Z.of_nat k)) in *. destruct (im_range _ _ _ _ _ I k f Hf) as [R1 R2]. pose proof (nblk_bound (pl_len f) ltac:(unfold pl_len; lia)) as [Hb1 Hb2].
    assert (Hq : 0 <= Z.of_nat k / 16 < nd /\ Z.of_nat k = 16 * (Z.of_nat k / 16) + Z.of_nat k mod 16 /\ 0 <= Z.of_nat k mod 16 < 16) by (Z.to_euclidean_division_equations; lia).
    assert (Ebl : forall x, e <= x < e + 256 -> blk x = P + Z.of_nat k / 16) by (intros x Hx; apply blk_unique; unfold e, entry_addr in Hx; lia).
    split; [|split; [exact E4|]].
    - constructor.
      + unfold e, entry_addr. replace (DISKMAP + P * BLKSIZE + 256 * Z.of_nat k) with ((67108864 + P * 1024 + 64 * Z.of_nat k) * 4) by lia. apply Z_mod_mult.
      + rewrite Ebl by lia. apply data_on. lia.
      + intros x Hx. rewrite !Ebl by lia. split; [done|]. right. right. rewrite nb_on, Ebl by lia. lia.
    - intros p Hp. assert (Hpd : p = BLKSIZE * (p / BLKSIZE) + p mod BLKSIZE /\ 0 <= p mod BLKSIZE < BLKSIZE /\ 0 <= p / BLKSIZE < nblk (pl_len f)) by (Z.to_euclidean_division_equations; lia).
      assert (Esl : slot M e (p / BLKSIZE) = pl_start f + p / BLKSIZE) by (unfold slot; apply E5; lia).
      split; [lia|]. split; [rewrite Esl; apply data_on; lia|]. unfold fbyte, byte_addr. rewrite Esl, <- (im_data _ _ _ _ _ I k f p Hf Hp). rewrite <- HM by lia. f_equal. lia.
  Qed.
End Server.

(** ** Names in paths *)

Lemma last_part_clean name : forall pre, Forall (λ c, c <> SLASH) pre -> Forall (λ c, c <> SLASH) (last_part (pre ++ name) name).
Proof.
  induction name as [|c name IH]; intros pre Hp; cbn [last_part]; [by rewrite app_nil_r|]. destruct (Z.eqb_spec c SLASH) as [->|Hc].
  - apply (IH []). constructor.
  - replace (pre ++ c :: name) with ((pre ++ [c]) ++ name) by (by rewrite <- app_assoc). apply IH, list.Forall_app. split; [done|]. by repeat constructor.
Qed.

Lemma basename_clean name : Forall (λ c, c <> SLASH) (basename name).
Proof. apply (last_part_clean name []). constructor. Qed.

Lemma components_name name : forall cur, Forall (λ c, c <> SLASH) name -> cur ++ name <> [] -> components_from cur name = [cur ++ name].
Proof.
  induction name as [|c name IH]; intros cur Hn Hne; cbn [components_from].
  - rewrite app_nil_r in *. by destruct cur.
  - apply list.Forall_cons in Hn as [Hc Hn]. rewrite (proj2 (Z.eqb_neq _ _)), IH by (done || by destruct cur). by rewrite <- app_assoc.
Qed.

(** ** From the files of the host to the client of the server *)

Definition file_len (f : list Z * list Z) : Z := Z.of_nat (length f.2).

(** Where the files are put. *)
Fixpoint placement (P : Z) (files : list (list Z * list Z)) : list placed :=
  match files with
  | [] => []
  | f :: files' => mkPlaced f.1 f.2 P :: placement (P + nblk (file_len f) + nind (file_len f)) files'
  end.

(** The blocks that the files need. *)
Fixpoint needed (files : list (list Z * list Z)) : Z :=
  match files with [] => 0 | f :: files' => nblk (file_len f) + nind (file_len f) + needed files' end.

Lemma placement_facts files : forall P,
  places P (placement P files) /\ space (placement P files) = needed files /\ length (placement P files) = length files.
Proof. induction files as [|f files IH]; intros P; [done|]. cbn. destruct (IH (P + nblk (file_len f) + nind (file_len f))) as (H1 & H2 & H3). rewrite H2, H3. done. Qed.

Lemma placement_lookup files : forall P k,
  ((λ f, (pl_name f, pl_data f)) <$> placement P files !! k) = files !! k.
Proof.
  induction files as [|[n d] files IH]; intros P k; [done|]. destruct k as [|k]; [done|]. cbn. apply IH.
Qed.

(** The file that is given as [name] and can be written as [f]. *)
Definition hosted (host : list Z -> option (bool * list Z)) (name : list Z) (f : list Z * list Z) : Prop :=
  host name = Some (true, f.2) /\ basename name = f.1 /\ name_ok f.1 /\ file_len f < MAXFILESIZE.

Lemma hosted_fits host names files : Forall2 (hosted host) names files -> forall P, Forall2 (fits host) names (placement P files).
Proof. induction 1 as [|name f names files (H1 & H2 & H3 & H4) _ IH]; intros P; cbn; constructor; [done|apply IH]. Qed.

Lemma hosted_clean host names files k name data : Forall2 (hosted host) names files -> files !! k = Some (name, data) -> Forall (λ c, c <> SLASH) name /\ name_ok name.
Proof.
  intros HF Hk. destruct (Forall2_lookup_r _ _ _ _ _ HF Hk) as (n & _ & _ & E & Hn & _). split; [|done]. cbn [fst] in E. rewrite <- E. apply basename_clean.
Qed.

(** Opening a file of the image by its name. *)
Lemma open_on N fs P nd d srv k f : image N fs P nd d -> N <= 1024 -> 1 <= nd < NDIRECT -> Z.of_nat (length fs) <= 16 * nd ->
  healthy srv -> (forall x, 0 <= x < N * BLKSIZE -> lview srv (DISKMAP + x) = d x) ->
  fs !! k = Some f -> pl_name f <> [] -> Forall (λ c, c <> SLASH) (pl_name f) -> (forall j g, (j < k)%nat -> fs !! j = Some g -> pl_name g <> pl_name f) ->
  exists srv', file_open (SLASH :: pl_name f) srv = FRet (0, entry_addr (P := P) (Z.of_nat k)) srv' /\ same_view srv srv'.
Proof.
  intros I HN Hnd Hn H HM Hf Hne Hcl Hfirst. destruct (file_open_run srv (λ a, a = SUPER + 8) (SLASH :: pl_name f) H (root_tree I HN Hnd Hn HM) eq_refl) as (srv' & E & Hs).
  exists srv'. split; [|done]. rewrite E. unfold components. cbn [components_from]. rewrite Z.eqb_refl, (components_name (pl_name f) []) by done.
  cbn [app resolve]. destruct (im_name _ _ _ _ _ I k f Hf) as [_ Hl]. rewrite (proj2 (Z.leb_gt _ _)) by lia. pose proof (im_P _ _ _ _ _ I).
  replace (SUPER + 8 + F_TYPE) with (DISKMAP + (BLKSIZE + 8 + F_TYPE)) by lia. rewrite (word_on I HN Hnd Hn HM), (proj2 (im_root _ _ _ _ _ I)), Z.eqb_refl by lia. cbn [negb].
  rewrite (dw_size _ _ _ (root_wf I HN Hnd Hn HM)), Z.div_mul by lia. rewrite (lookup_file I HN Hnd Hn HM k f Hf Hne Hfirst). done.
Qed.

(** Reading a file of the image from the server. *)
Lemma read_on N fs P nd d srv k f count offset : image N fs P nd d -> N <= 1024 -> 1 <= nd < NDIRECT -> Z.of_nat (length fs) <= 16 * nd ->
  healthy srv -> (forall x, 0 <= x < N * BLKSIZE -> lview srv (DISKMAP + x) = d x) ->
  fs !! k = Some f -> nblk (pl_len f) <= NDIRECT -> 0 <= offset -> 0 <= count <= BLKSIZE ->
  let n := Z.max 0 (Z.min count (pl_len f - offset)) in
  exists srv', file_read (entry_addr (P := P) (Z.of_nat k)) FSREQ count offset srv = FRet n srv' /\
    forall i, 0 <= i < n -> lview srv' (FSREQ + i) = u8 (nth (Z.to_nat (offset + i)) (pl_data f) 0).
Proof.
  intros I HN Hnd Hn H HM Hf Hs Ho Hc n. destruct (file_on I HN Hnd Hn HM k f Hf Hs) as (Hok & Hz & Hb). assert (0 <= pl_len f) by (unfold pl_len; lia). pose proof (nblk_bound (pl_len f) ltac:(lia)) as [Hn1 _].
  destruct (file_read_there srv (entry_addr (P := P) (Z.of_nat k)) FSREQ count offset H) as (srv' & E & [_ Hv _]); [rewrite Hz; lia|lia|lia| |lia|lia|].
  { split; [done|]. rewrite Hz. intros p Hp. destruct (Hb p ltac:(lia)) as (? & ? & _). done. }
  rewrite Hz in E, Hv. fold n in E, Hv. exists srv'. split; [done|]. intros i Hi. rewrite Hv. unfold read_to.
  rewrite (proj2 (Z.leb_le _ _)), (proj2 (Z.ltb_lt _ _)) by lia. cbn [andb]. replace (offset + (FSREQ + i - FSREQ)) with (offset + i) by lia.
  destruct (Hb (offset + i) ltac:(lia)) as (_ & _ & ->). unfold u8. by rewrite Z.mod_mod by lia.
Qed.

(** C26: The image that [fsformat] builds from 1 to 128 files is served,
    whatever [malloc] returned as memory for the directory entries, which the
    program does not clear and copies to the image: the file server starts on
    it, and every file that the host gave is opened by its name and, when its
    data are in direct blocks, read back byte for byte. *)
Theorem fsformat_served host rd heap N names files s :
  (forall p n, 0 < n -> 1 <= rd p n <= n) -> bytes heap -> N <= 1024 -> Forall2 (hosted host) names files -> (1 <= length files <= 128)%nat ->
  3 + needed files + nblk (256 * Z.of_nat (length files)) < N ->
  exists s', main host rd heap N names s = HRet tt s' /\
    forall srv, fresh_server N srv -> d_disk srv = fm_disk s' ->
    exists srv1, fs_init srv = FRet tt srv1 /\
    forall k name data, files !! k = Some (name, data) -> name <> [] -> (forall j g, (j < k)%nat -> files !! j = Some g -> g.1 <> name) ->
    exists e srv2, file_open (SLASH :: name) srv1 = FRet (0, e) srv2 /\
    (nblk (file_len (name, data)) <= NDIRECT -> forall count offset, 0 <= offset -> 0 <= count <= BLKSIZE ->
      let n := Z.max 0 (Z.min count (file_len (name, data) - offset)) in
      exists srv3, file_read e FSREQ count offset srv2 = FRet n srv3 /\
        forall i, 0 <= i < n -> lview srv3 (FSREQ + i) = u8 (nth (Z.to_nat (offset + i)) data 0)).
Proof.
  intros Hrd Hheap HN HF Hl Hsp. destruct (placement_facts files 3) as (Hp1 & Hp2 & Hp3). set (fs := placement 3 files) in *.
  set (nd := nblk (256 * Z.of_nat (length files))) in *. pose proof (nblk_bound (256 * Z.of_nat (length files)) ltac:(lia)) as [Hb1 Hb2]. fold nd in Hb1, Hb2.
  destruct (main_run host rd heap N names fs s Hrd Hheap HN (hosted_fits _ _ _ HF 3) ltac:(by rewrite Hp3) Hp1) as (s' & E & I); [by rewrite Hp2, Hp3|].
  rewrite Hp3 in I. fold nd in I. assert (Hnd : 1 <= nd < NDIRECT) by lia. assert (Hn : Z.of_nat (length fs) <= 16 * nd) by lia.
  exists s'. split; [done|]. intros srv Hfr Ed. destruct (fs_init_run N srv Hfr) as (srv1 & E1 & Hh & Hv).
  { rewrite Ed. apply (im_bytes _ _ _ _ _ I). }
  { refine (formatted_on I HN Hnd Hn _). intros x _. rewrite Ed. f_equal. lia. }
  exists srv1. split; [done|]. intros k name data Hk Hne Hfirst.
  assert (HM : forall x, 0 <= x < N * BLKSIZE -> lview srv1 (DISKMAP + x) = fm_disk s' x).
  { intros x Hx. rewrite Hv, Ed; [f_equal; lia|]. unfold in_diskmap. rewrite (proj2 (Z.leb_le _ _)), (proj2 (Z.ltb_lt _ _)) by lia. done. }
  pose proof (placement_lookup files 3 k) as Hk'. rewrite Hk in Hk'. fold fs in Hk'. destruct (fs !! k) as [f|] eqn:Hf; [|done]. injection Hk' as En Ed'. subst name data.
  destruct (hosted_clean _ _ _ _ _ _ HF Hk) as [Hcl _].
  destruct (open_on N fs _ nd _ srv1 k f I HN Hnd Hn Hh HM Hf Hne Hcl) as (srv2 & E2 & [Hh2 Hv2 _]).
  { intros j g Hj Hg. apply (Hfirst j (pl_name g, pl_data g) Hj). rewrite <- (placement_lookup files 3 j). fold fs. by rewrite Hg. }
  eexists _, srv2. split; [exact E2|]. intros Hs count offset Ho Hc.
  apply (read_on N fs _ nd _ srv2 k f count offset I HN Hnd Hn Hh2); [|done..]. intros x Hx. rewrite Hv2. by apply HM.
Qed.

Definition sample_host (name : list Z) : option (bool * list Z) :=
  if bool_decide (name = [97; 47; 104]) then Some (true, [72; 105]) else if bool_decide (name = [98]) then Some (true, [1; 2; 3]) else None.

Lemma fsformat_served_witness :
  exists s', main sample_host (λ _ n, n) (λ _, 7) 16 [[97; 47; 104]; [98]] (mkFmt 0 (λ _, 7) (λ _, 7) 0 0 0) = HRet tt s' /\
  exists srv1, fs_init (mkFsrv (fm_disk s') (λ _, false) (λ _, 0) ∅ ∅ 16 0 0) = FRet tt srv1 /\
  exists e srv2, file_open [SLASH; 104] srv1 = FRet (0, e) srv2 /\
  exists srv3, file_read e FSREQ 100 0 srv2 = FRet 2 srv3 /\ lview srv3 FSREQ = 72 /\ lview srv3 (FSREQ + 1) = 105.
Proof.
  destruct (fsformat_served sample_host (λ _ n, n) (λ _, 7) 16 [[97; 47; 104]; [98]] [([104], [72; 105]); ([98], [1; 2; 3])] (mkFmt 0 (λ _, 7) (λ _, 7) 0 0 0))
    as (s' & E & Hsrv); [lia|intros x; lia|lia| |cbn; lia|vm_compute; reflexivity|].
  { repeat constructor; vm_compute; (reflexivity || congruence || lia). }
  exists s'. split; [exact E|]. destruct (Hsrv (mkFsrv (fm_disk s') (λ _, false) (λ _, 0) ∅ ∅ 16 0 0)) as (srv1 & E1 & Ho); [constructor; done || (cbn; lia)|done|].
  exists srv1. split; [exact E1|]. destruct (Ho 0%nat [104] [72; 105] eq_refl) as (e & srv2 & E2 & Hr); [done|lia|].
  exists e, srv2. split; [exact E2|]. destruct (Hr ltac:(vm_compute; congruence) 100 0) as (srv3 & E3 & Hb); [lia..|].
  exists srv3. split; [exact E3|]. split; [apply (Hb 0)|apply (Hb 1)]; vm_compute; split; congruence.
Defined.
