(* ===== verification/Serv.v ===== *)
(** * The file server's requests ([fs/serv.c])

    Clients send a request number and a page of arguments, which the server
    finds at [FSREQ]; the same page carries data back.  An open file is an
    entry of [opentab] together with a page with a [struct Fd] that the server
    shares with the clients that have the file open: the reference count of
    that page tells the server whether the entry is in use.  Fd pages are named
    by the server's address of them.  Console messages are left out. *)

From S2P Require Import Prelude LibString Mmu BlockCache Fs.

(** ** State with errors, for any state *)

Inductive mres (S A : Type) :=
  | Done (a : A) (s : S)
  | Panicked (msg : string).
Arguments Done {S A} a s.
Arguments Panicked {S A} msg.

Definition M (S A : Type) : Type := S -> mres S A.

#[export] Instance M_ret S : MRet (M S) := λ A a s, Done a s.
#[export] Instance M_bind S : MBind (M S) := λ A B f m s,
  match m s with
  | Done a s' => f a s'
  | Panicked msg => Panicked msg
  end.

Definition mget {S A} (f : S -> A) : M S A := λ s, Done (f s) s.
Definition mmodify {S} (f : S -> S) : M S unit := λ s, Done tt (f s).
Definition massert {S} (b : bool) (msg : string) : M S unit := λ s, if b then Done tt s else Panicked msg.

(** ** The state of the server *)

Record Fd := mkFd { fd_dev_id : Z; fd_offset : Z; fd_omode : Z; fd_file_id : Z }.
Record OpenFile := mkOpen { o_fileid : Z; o_file : Z; o_mode : Z; o_fd : Z }.

Record serv := mkServ {
  sv_fs : fsrv;
  opentab : Z -> OpenFile;
  fd_ref : Z -> Z;
  fd_page : Z -> Fd
}.

(** A table with entry [i] replaced. *)
Definition setat {A} (i : Z) (v : A) (f : Z -> A) : Z -> A := λ j, if j =? i then v else f j.

Definition set_sv_fs (v : fsrv) (s : serv) : serv := mkServ v (opentab s) (fd_ref s) (fd_page s).
Definition set_opentab (i : Z) (o : OpenFile) (s : serv) : serv := mkServ (sv_fs s) (setat i o (opentab s)) (fd_ref s) (fd_page s).
Definition set_fd_ref (va n : Z) (s : serv) : serv := mkServ (sv_fs s) (opentab s) (setat va n (fd_ref s)) (fd_page s).
Definition set_fd_page (va : Z) (f : Fd) (s : serv) : serv := mkServ (sv_fs s) (opentab s) (fd_ref s) (setat va f (fd_page s)).

(** An operation of the file system. *)
Definition lift {A} (m : F A) : M serv A := λ s,
  match m (sv_fs s) with
  | FRet a f => Done a (set_sv_fs f s)
  | FPanic msg => Panicked msg
  end.

Abbreviation MAXOPEN := 1024 (only parsing).
Abbreviation FILEVA := 0xD0000000 (only parsing).
Abbreviation O_RDONLY := 0 (only parsing).
Abbreviation O_WRONLY := 1 (only parsing).
Abbreviation O_ACCMODE := 3 (only parsing).
Abbreviation O_CREAT := 0x100 (only parsing).
Abbreviation O_TRUNC := 0x200 (only parsing).
Abbreviation O_EXCL := 0x400 (only parsing).
Abbreviation PTE_SHARE := 0x400 (only parsing).
(** ['f'] *)
Abbreviation DEVFILE_ID := 102 (only parsing).

(** ** The open-file table *)

Definition set_o_fileid v (o : OpenFile) : OpenFile := mkOpen v (o_file o) (o_mode o) (o_fd o).
Definition set_o_file v (o : OpenFile) : OpenFile := mkOpen (o_fileid o) v (o_mode o) (o_fd o).
Definition set_o_mode v (o : OpenFile) : OpenFile := mkOpen (o_fileid o) (o_file o) v (o_fd o).

Fixpoint serve_init_loop (n : nat) (i va : Z) : M serv unit :=
  match n with
  | O => mret tt
  | S n' =>
      o ← mget (λ s, opentab s i);
      mmodify (set_opentab i (mkOpen i (o_file o) (o_mode o) va)) ;;
      serve_init_loop n' (i + 1) (u32 (va + PGSIZE))
  end.

Definition serve_init : M serv unit := serve_init_loop (Z.to_nat MAXOPEN) 0 FILEVA.

(** [sys_page_alloc] for an Fd page. *)
Definition fd_page_alloc (va : Z) : M serv Z := λ s,
  if 0 <? fs_pages (sv_fs s)
  then Done 0 (set_fd_ref va 1 (set_fd_page va (mkFd 0 0 0 0) (set_sv_fs (set_pages_left (fs_pages (sv_fs s) - 1) (sv_fs s)) s)))
  else Done (- E_NO_MEM) s.

(** The result and the index of the entry. *)
Fixpoint openfile_loop (n : nat) (i : Z) : M serv (Z * Z) :=
  match n with
  | O => mret (- E_MAX_OPEN, 0)
  | S n' =>
      o ← mget (λ s, opentab s i);
      c ← mget (λ s, fd_ref s (o_fd o));
      if (c =? 0) || (c =? 1) then
        r ← (if c =? 0 then fd_page_alloc (o_fd o) else mret 0);
        if r <? 0 then mret (r, 0)
        else
          mmodify (set_opentab i (set_o_fileid (u32 (o_fileid o + MAXOPEN)) o)) ;;
          mmodify (set_fd_page (o_fd o) (mkFd 0 0 0 0)) ;;
          mret (s32 (o_fileid o + MAXOPEN), i)
      else openfile_loop n' (i + 1)
  end.

Definition openfile_alloc : M serv (Z * Z) := openfile_loop (Z.to_nat MAXOPEN) 0.

Definition openfile_lookup (fileid : Z) : M serv (Z * Z) :=
  let i := fileid mod MAXOPEN in
  o ← mget (λ s, opentab s i);
  c ← mget (λ s, fd_ref s (o_fd o));
  if (c <=? 1) || negb (o_fileid o =? fileid) then mret (- E_INVAL, 0) else mret (0, i).

(** ** Requests *)

(** The characters before the first NUL. *)
Fixpoint c_string (l : list Z) : list Z :=
  match l with
  | [] => []
  | c :: l' => if c =? 0 then [] else c :: c_string l'
  end.

(** The result and, on success, the page and its permissions. *)
Definition serve_open : M serv (Z * option (Z * Z)) :=
  l ← lift (fload_list (Z.to_nat MAXPATHLEN) FSREQ);
  let path := c_string (take (Z.to_nat (MAXPATHLEN - 1)) l) in
  a ← openfile_alloc;
  if a.1 <? 0 then mret (a.1, None)
  else
    let i := a.2 in
    omode ← lift (fload32 (FSREQ + MAXPATHLEN));
    r ← (if hasbits omode O_CREAT then
           r ← lift (file_create path);
           if (r.1 <? 0) && (negb (hasbits omode O_EXCL) && (r.1 =? - E_FILE_EXISTS)) then lift (file_open path)
           else mret r
         else lift (file_open path));
    if r.1 <? 0 then mret (r.1, None)
    else
      t ← (if hasbits omode O_TRUNC then lift (file_set_size r.2 0) else mret 0);
      if t <? 0 then mret (t, None)
      else
        r ← lift (file_open path);
        if r.1 <? 0 then mret (r.1, None)
        else
          o ← mget (λ s, opentab s i);
          mmodify (set_opentab i (set_o_mode omode (set_o_file r.2 o))) ;;
          fd ← mget (λ s, fd_page s (o_fd o));
          mmodify (set_fd_page (o_fd o) (mkFd DEVFILE_ID (fd_offset fd) (omode .& O_ACCMODE) (s32 (o_fileid o)))) ;;
          mret (0, Some (o_fd o, PTE_P .| PTE_U .| PTE_W .| PTE_SHARE)).

(** The first word of every other request is the file id. *)
Definition with_open (k : OpenFile -> M serv Z) : M serv Z :=
  fileid ← lift (fload32 FSREQ);
  r ← openfile_lookup fileid;
  if r.1 <? 0 then mret r.1
  else o ← mget (λ s, opentab s r.2); k o.

Definition serve_set_size : M serv Z := with_open (λ o,
  size ← lift (fload32 (FSREQ + 4));
  lift (file_set_size (o_file o) (s32 size))).

(** [fd->fd_offset += n] *)
Definition advance (va n : Z) : M serv unit :=
  fd ← mget (λ s, fd_page s va);
  mmodify (set_fd_page va (mkFd (fd_dev_id fd) (s32 (fd_offset fd + n)) (fd_omode fd) (fd_file_id fd))).

Definition serve_read : M serv Z := with_open (λ o,
  n ← lift (fload32 (FSREQ + 4));
  fd ← mget (λ s, fd_page s (o_fd o));
  r ← lift (file_read (o_file o) FSREQ n (fd_offset fd));
  if r <? 0 then mret r
  else advance (o_fd o) r ;; mret r).

(** [nbytes] is unsigned, so that it is never negative. *)
Definition serve_write : M serv Z := with_open (λ o,
  n ← lift (fload32 (FSREQ + 4));
  fd ← mget (λ s, fd_page s (o_fd o));
  r ← lift (file_write (o_file o) (FSREQ + 8) (Z.min n (PGSIZE - 8)) (fd_offset fd));
  let nbytes := u32 r in
  (if 0 <=? nbytes then advance (o_fd o) nbytes else mret tt) ;;
  mret (s32 nbytes)).

(** [strcpy]; a name has its NUL within the block. *)
Fixpoint fstrcpy (fuel : nat) (dst src : Z) : F unit :=
  match fuel with
  | O => fpanic "strcpy"
  | S fu =>
      b ← fload8 src;
      fstore8 dst b ;;
      if b =? 0 then mret tt else fstrcpy fu (dst + 1) (src + 1)
  end.

Definition serve_stat : M serv Z := with_open (λ o,
  lift (fstrcpy (Z.to_nat BLKSIZE) FSREQ (o_file o)) ;;
  size ← lift (fload32 (o_file o + F_SIZE));
  lift (fstore32 (FSREQ + MAXNAMELEN) size) ;;
  type ← lift (fload32 (o_file o + F_TYPE));
  lift (fstore32 (FSREQ + MAXNAMELEN + 4) (Z.b2z (type =? FTYPE_DIR))) ;;
  mret 0).

Definition serve_flush : M serv Z := with_open (λ o, lift (file_flush (o_file o)) ;; mret 0).

Definition serve_sync : M serv Z := lift fs_sync ;; mret 0.

(** ** The dispatcher *)

Abbreviation FSREQ_OPEN := 1 (only parsing).
Abbreviation FSREQ_SET_SIZE := 2 (only parsing).
Abbreviation FSREQ_READ := 3 (only parsing).
Abbreviation FSREQ_WRITE := 4 (only parsing).
Abbreviation FSREQ_STAT := 5 (only parsing).
Abbreviation FSREQ_FLUSH := 6 (only parsing).
Abbreviation FSREQ_SYNC := 8 (only parsing).

Definition handlers (req : Z) : option (M serv Z) :=
  if req =? FSREQ_SET_SIZE then Some serve_set_size
  else if req =? FSREQ_READ then Some serve_read
  else if req =? FSREQ_WRITE then Some serve_write
  else if req =? FSREQ_STAT then Some serve_stat
  else if req =? FSREQ_FLUSH then Some serve_flush
  else if req =? FSREQ_SYNC then Some serve_sync
  else None.

(** What [ipc_send] sends back: a value, a page and permissions. *)
Record reply := mkReply { rp_value : Z; rp_page : option Z; rp_perm : Z }.

(** One round of [serve]: the request that [ipc_recv] returned. *)
Definition serve (req perm : Z) : M serv (option reply) :=
  if negb (hasbits perm PTE_P) then mret None
  else if req =? FSREQ_OPEN then
    r ← serve_open;
    mret (Some (match r.2 with
                | Some (pg, perm') => mkReply r.1 (Some pg) perm'
                | None => mkReply r.1 None perm
                end))
  else
    match handlers req with
    | Some h => r ← h; mret (Some (mkReply r None perm))
    | None => mret (Some (mkReply (- E_INVAL) None perm))
    end.

Definition umain : M serv unit := serve_init ;; lift fs_init.
