(* ===== verification/FileLib.v ===== *)
(** * The file library of the user environments ([lib/file.c], [lib/fd.c])

    A file descriptor [i] is open when a page with a [struct Fd] is mapped at
    [INDEX2FD(i)]: [fdtab i] names that page.  The buffer [fsipcbuf] is the page
    the server sees at [FSREQ].  A request runs one round of the server, which
    is what [ipc_send] and [ipc_recv] achieve, and maps the page of the reply;
    the page table of the descriptor area is there.  Data buffers of the caller
    are lists of bytes.  Console messages are left out. *)

From S2P Require Import Prelude LibString Mmu BlockCache Fs Serv.

Record client := mkClient { cl_serv : serv; fdtab : Z -> option Z }.

Definition set_cl_serv (v : serv) (c : client) : client := mkClient v (fdtab c).
Definition set_fdtab (i : Z) (v : option Z) (c : client) : client := mkClient (cl_serv c) (setat i v (fdtab c)).

Abbreviation C := (M client).

Definition srv {A} (m : M serv A) : C A := λ c,
  match m (cl_serv c) with
  | Done a s => Done a (set_cl_serv s c)
  | Panicked msg => Panicked msg
  end.

Abbreviation MAXFD := 32 (only parsing).

(** Mapping and unmapping an Fd page. *)
Definition map_fd (i pg : Z) : C unit :=
  srv (n ← mget (λ s, fd_ref s pg); mmodify (set_fd_ref pg (n + 1))) ;;
  mmodify (set_fdtab i (Some pg)).

Definition unmap_fd (i : Z) : C unit :=
  p ← mget (λ c, fdtab c i);
  match p with
  | None => mret tt
  | Some pg =>
      srv (n ← mget (λ s, fd_ref s pg); mmodify (set_fd_ref pg (n - 1))) ;;
      mmodify (set_fdtab i None)
  end.

(** ** [lib/file.c] *)

(** [dst] is the descriptor at whose address the page of the reply is mapped. *)
Definition fsipc (type : Z) (dst : option Z) : C Z :=
  r ← srv (serve type (PTE_P .| PTE_W .| PTE_U));
  match r with
  | None => λ _, Panicked "no reply"
  | Some rp =>
      match rp_page rp, dst with
      | Some pg, Some i => map_fd i pg ;; mret (rp_value rp)
      | _, _ => mret (rp_value rp)
      end
  end.

(** Members of [fsipcbuf]. *)
Definition put_word (a v : Z) : C unit := srv (lift (fstore32 a v)).
Definition put_bytes (a : Z) (l : list Z) : C unit := srv (lift (fstore_list a l)).
Definition get_bytes (n : nat) (a : Z) : C (list Z) := srv (lift (fload_list n a)).
Definition get_word (a : Z) : C Z := srv (lift (fload32 a)).

(** The [struct Fd] of a page. *)
Definition get_fd (pg : Z) : C Fd := srv (mget (λ s, fd_page s pg)).

Definition devfile_flush (fd : Z) : C Z :=
  f ← get_fd fd;
  put_word FSREQ (fd_file_id f) ;;
  fsipc FSREQ_FLUSH None.

(** The result and the bytes copied to the buffer. *)
Definition devfile_read (fd n : Z) : C (Z * list Z) :=
  f ← get_fd fd;
  put_word FSREQ (fd_file_id f) ;;
  put_word (FSREQ + 4) n ;;
  r ← fsipc FSREQ_READ None;
  if r <? 0 then mret (r, [])
  else
    massert (u32 r <=? n) "assertion failed: r <= n" ;;
    massert (r <=? PGSIZE) "assertion failed: r <= PGSIZE" ;;
    l ← get_bytes (Z.to_nat r) FSREQ;
    mret (r, l).

Definition devfile_write (fd : Z) (buf : list Z) : C Z :=
  let n := Z.min (Z.of_nat (length buf)) (PGSIZE - 8) in
  f ← get_fd fd;
  put_word FSREQ (fd_file_id f) ;;
  put_word (FSREQ + 4) n ;;
  put_bytes (FSREQ + 8) (take (Z.to_nat n) buf) ;;
  r ← fsipc FSREQ_WRITE None;
  if r <? 0 then mret r
  else massert (u32 r <=? n) "assertion failed: r <= n" ;; mret r.

Record Stat := mkStat { st_name : list Z; st_size : Z; st_isdir : Z }.

Definition devfile_stat (fd : Z) : C (Z * Stat) :=
  f ← get_fd fd;
  put_word FSREQ (fd_file_id f) ;;
  r ← fsipc FSREQ_STAT None;
  if r <? 0 then mret (r, mkStat [] 0 0)
  else
    l ← get_bytes (Z.to_nat PGSIZE) FSREQ;
    size ← get_word (FSREQ + MAXNAMELEN);
    isdir ← get_word (FSREQ + MAXNAMELEN + 4);
    mret (0, mkStat (c_string l) (s32 size) (s32 isdir)).

Definition devfile_trunc (fd newsize : Z) : C Z :=
  f ← get_fd fd;
  put_word FSREQ (fd_file_id f) ;;
  put_word (FSREQ + 4) newsize ;;
  fsipc FSREQ_SET_SIZE None.

Definition sync : C Z := fsipc FSREQ_SYNC None.

(** ** [lib/fd.c] *)

(** The operations of a device; an operation that is missing is a null
    pointer. *)
Record Dev := mkDev {
  dev_id : Z;
  dev_read : option (Z -> Z -> C (Z * list Z));
  dev_write : option (Z -> list Z -> C Z);
  dev_close : option (Z -> C Z);
  dev_stat : option (Z -> C (Z * Stat));
  dev_trunc : option (Z -> Z -> C Z)
}.

Definition devfile : Dev :=
  mkDev DEVFILE_ID (Some devfile_read) (Some devfile_write) (Some devfile_flush) (Some devfile_stat) (Some devfile_trunc).

Fixpoint fd_alloc_loop (n : nat) (i : Z) : C (Z * Z) :=
  match n with
  | O => mret (- E_MAX_OPEN, 0)
  | S n' =>
      p ← mget (λ c, fdtab c i);
      match p with
      | None => mret (0, i)
      | Some _ => fd_alloc_loop n' (i + 1)
      end
  end.

Definition fd_alloc : C (Z * Z) := fd_alloc_loop (Z.to_nat MAXFD) 0.

(** The result and the page. *)
Definition fd_lookup (fdnum : Z) : C (Z * Z) :=
  if (fdnum <? 0) || (MAXFD <=? fdnum) then mret (- E_INVAL, 0)
  else
    p ← mget (λ c, fdtab c fdnum);
    match p with
    | None => mret (- E_INVAL, 0)
    | Some pg => mret (0, pg)
    end.

Section Devices.
(** Sockets, pipes and the console. *)
Context (others : list Dev).

Definition devtab : list Dev := devfile :: others.

Definition dev_lookup (id : Z) : option Dev := list_find (λ d, dev_id d = id) devtab ≫= λ p, Some p.2.

Definition fd_close (fd : Z) (must_exist : bool) : C Z :=
  r ← fd_lookup fd;
  if r.1 <? 0 then mret (if must_exist then r.1 else 0)
  else
    f ← get_fd r.2;
    r ← (match dev_lookup (fd_dev_id f) with
         | Some d => match dev_close d with Some k => k r.2 | None => mret 0 end
         | None => mret (- E_INVAL)
         end);
    unmap_fd fd ;;
    mret r.

Definition close (fdnum : Z) : C Z :=
  r ← fd_lookup fdnum;
  if r.1 <? 0 then mret r.1 else fd_close fdnum true.

Fixpoint close_loop (n : nat) (i : Z) : C unit :=
  match n with
  | O => mret tt
  | S n' => close i ;; close_loop n' (i + 1)
  end.

Definition close_all : C unit := close_loop (Z.to_nat MAXFD) 0.

(** [fd_lookup] and [dev_lookup]. *)
Definition with_dev {A} (fdnum : Z) (err : Z -> A) (k : Z -> Fd -> Dev -> C A) : C A :=
  r ← fd_lookup fdnum;
  if r.1 <? 0 then mret (err r.1)
  else
    f ← get_fd r.2;
    match dev_lookup (fd_dev_id f) with
    | None => mret (err (- E_INVAL))
    | Some d => k r.2 f d
    end.

Definition read (fdnum n : Z) : C (Z * list Z) :=
  with_dev fdnum (λ r, (r, [])) (λ fd f d,
    if fd_omode f .& O_ACCMODE =? O_WRONLY then mret (- E_INVAL, [])
    else
      match dev_read d with
      | None => mret (- E_NOT_SUPP, [])
      | Some k => k fd n
      end).

(** A round reads at least one byte. *)
Fixpoint readn_loop (fuel : nat) (fdnum tot n : Z) (acc : list Z) : C (Z * list Z) :=
  match fuel with
  | O => λ _, Panicked "readn"
  | S fu =>
      if u32 tot <? n then
        r ← read fdnum (u32 (n - tot));
        let m := r.1 in
        if m <? 0 then mret (m, acc ++ r.2)
        else if m =? 0 then mret (tot, acc)
        else readn_loop fu fdnum (s32 (tot + m)) n (acc ++ r.2)
      else mret (tot, acc)
  end.

Definition readn (fdnum n : Z) : C (Z * list Z) := readn_loop (S (Z.to_nat n)) fdnum 0 n [].

Definition write (fdnum : Z) (buf : list Z) : C Z :=
  with_dev fdnum id (λ fd f d,
    if fd_omode f .& O_ACCMODE =? O_RDONLY then mret (- E_INVAL)
    else
      match dev_write d with
      | None => mret (- E_NOT_SUPP)
      | Some k => k fd buf
      end).

Definition seek (fdnum offset : Z) : C Z :=
  r ← fd_lookup fdnum;
  if r.1 <? 0 then mret r.1
  else
    f ← get_fd r.2;
    srv (mmodify (set_fd_page r.2 (mkFd (fd_dev_id f) offset (fd_omode f) (fd_file_id f)))) ;;
    mret 0.

Definition ftruncate (fdnum newsize : Z) : C Z :=
  with_dev fdnum id (λ fd f d,
    if fd_omode f .& O_ACCMODE =? O_RDONLY then mret (- E_INVAL)
    else
      match dev_trunc d with
      | None => mret (- E_NOT_SUPP)
      | Some k => k fd newsize
      end).

Definition fstat (fdnum : Z) : C (Z * Stat) :=
  with_dev fdnum (λ r, (r, mkStat [] 0 0)) (λ fd f d,
    match dev_stat d with
    | None => mret (- E_NOT_SUPP, mkStat [] 0 0)
    | Some k => k fd
    end).

(** [path] without its NUL; the index of the descriptor or an error. *)
Definition open (path : list Z) (mode : Z) : C Z :=
  if MAXPATHLEN <=? Z.of_nat (length path) then mret (- E_BAD_PATH)
  else
    a ← fd_alloc;
    if a.1 <? 0 then mret a.1
    else
      put_bytes FSREQ (path ++ [0]) ;;
      put_word (FSREQ + MAXPATHLEN) mode ;;
      r ← fsipc FSREQ_OPEN (Some a.2);
      if r <? 0 then fd_close a.2 false ;; mret r
      else mret a.2.

Definition stat (path : list Z) : C (Z * Stat) :=
  fd ← open path O_RDONLY;
  if fd <? 0 then mret (fd, mkStat [] 0 0)
  else
    r ← fstat fd;
    close fd ;;
    mret r.

End Devices.
