(* ===== verification/FileSpec.v ===== *)
(** * What the file server promises its clients

    The open-file table keeps its shape under every request and file ids of
    closed files are rejected; a client that writes through a descriptor, seeks
    back and reads gets its bytes, through library, server, file system and
    block cache. *)

From S2P Require Import Prelude LibString Mmu BlockCache BlockCacheSpec Fs FsSpec Serv FileLib.

(** ** The monad *)

Lemma mbind_Done {S A B} (m : M S A) (f : A -> M S B) s a s' : m s = Done a s' -> (m ≫= f) s = f a s'.
Proof. intros H. unfold mbind, M_bind. by rewrite H. Qed.

Lemma mbind_inv {S A B} (m : M S A) (f : A -> M S B) s b s' :
  (m ≫= f) s = Done b s' -> exists a s1, m s = Done a s1 /\ f a s1 = Done b s'.
Proof. unfold mbind, M_bind. destruct (m s) as [a s1|]; [by exists a, s1|done]. Qed.

Lemma mbind_get {S A B} (f : S -> A) (k : A -> M S B) s : (mget f ≫= k) s = k (f s) s.
Proof. done. Qed.

Lemma mbind_modify {S B} (f : S -> S) (k : unit -> M S B) s : (mmodify f ≫= k) s = k tt (f s).
Proof. done. Qed.

Lemma mbind_mret {S A B} (a : A) (k : A -> M S B) s : (mret a ≫= k) s = k a s.
Proof. done. Qed.

Lemma lift_ok {A} (m : F A) s a f : m (sv_fs s) = FRet a f -> lift m s = Done a (set_sv_fs f s).
Proof. intros H. unfold lift. by rewrite H. Qed.

Lemma srv_ok {A} (m : M serv A) c a s : m (cl_serv c) = Done a s -> srv m c = Done a (set_cl_serv s c).
Proof. intros H. unfold srv. by rewrite H. Qed.

Lemma set_sv_fs_same s : set_sv_fs (sv_fs s) s = s.
Proof. by destruct s. Qed.

Tactic Notation "mstep" "by" tactic3(t) := erewrite mbind_Done by t; cbv beta iota.

(** ** The open-file table *)

(** Entry [i] has ids that are [i] modulo [MAXOPEN] and its own Fd page. *)
Definition tab_ok (s : serv) : Prop :=
  forall i, 0 <= i < MAXOPEN ->
    0 <= o_fileid (opentab s i) < 4294967296 /\ o_fileid (opentab s i) mod MAXOPEN = i /\ o_fd (opentab s i) = FILEVA + i * PGSIZE.

(** A computation that keeps a property of the state. *)
Definition keeps {S A} (P : S -> Prop) (m : M S A) : Prop := forall s a s', P s -> m s = Done a s' -> P s'.

Lemma keeps_bind {S A B} P (m : M S A) (f : A -> M S B) : keeps P m -> (forall a, keeps P (f a)) -> keeps P (m ≫= f).
Proof. intros Hm Hf s b s' HP E. destruct (mbind_inv _ _ _ _ _ E) as (a & s1 & E1 & E2). by apply (Hf a s1 b), E2; apply (Hm s a). Qed.

Lemma keeps_mret {S A} P (a : A) : keeps (S := S) P (mret a).
Proof. intros s b s' HP E. by injection E as _ <-. Qed.

Lemma keeps_get {S A} P (f : S -> A) : keeps P (mget f).
Proof. intros s b s' HP E. by injection E as _ <-. Qed.

Lemma keeps_modify {S} P (f : S -> S) : (forall s, P s -> P (f s)) -> keeps P (mmodify f).
Proof. intros Hf s b s' HP E. injection E as _ <-. auto. Qed.

(** Operations of the file system do not touch the table. *)
Lemma keeps_lift {A} (m : F A) : keeps tab_ok (lift m).
Proof. intros s a s' HP. unfold lift. destruct (m (sv_fs s)); [|done]. by intros [= _ <-]. Qed.

Create HintDb keeps.
#[export] Hint Resolve keeps_mret keeps_get keeps_lift : keeps.

Lemma keeps_fd_page va fd : keeps tab_ok (mmodify (set_fd_page va fd)).
Proof. by apply keeps_modify. Qed.

Lemma keeps_page_alloc va : keeps tab_ok (fd_page_alloc va).
Proof. intros s a s' HP. unfold fd_page_alloc. destruct (0 <? _); by intros [= _ <-]. Qed.

#[export] Hint Resolve keeps_fd_page keeps_page_alloc : keeps.

(** Follows the structure of a computation. *)
Ltac keeps :=
  repeat match goal with
  | |- keeps _ (_ ≫= _) => apply keeps_bind; [|intros ?]
  | |- keeps _ (match ?x with _ => _ end) => destruct x
  | |- keeps _ _ => solve [eauto with keeps]
  end.

Lemma keeps_advance va n : keeps tab_ok (advance va n).
Proof. unfold advance. keeps. Qed.

#[export] Hint Resolve keeps_advance : keeps.

(** Entry [j] was handed out. *)
Record handed (j : Z) (s s' : serv) : Prop := {
  hd_free : fd_ref s (o_fd (opentab s j)) = 0 \/ fd_ref s (o_fd (opentab s j)) = 1;
  hd_tab : forall k, opentab s' k =
    if k =? j then set_o_fileid (u32 (o_fileid (opentab s j) + MAXOPEN)) (opentab s j) else opentab s k;
  hd_fd : fd_page s' (o_fd (opentab s j)) = mkFd 0 0 0 0
}.

Definition in_use (s : serv) (j : Z) : Prop := fd_ref s (o_fd (opentab s j)) <> 0 /\ fd_ref s (o_fd (opentab s j)) <> 1.

(** The result of a search from entry [i] on. *)
Definition open_result (i : Z) (s : serv) (r : Z * Z) (s' : serv) : Prop :=
  (r = (- E_MAX_OPEN, 0) /\ s' = s /\ forall j, i <= j < MAXOPEN -> in_use s j) \/
  (r = (- E_NO_MEM, 0) /\ s' = s /\ fs_pages (sv_fs s) <= 0) \/
  exists j, i <= j < MAXOPEN /\ r = (s32 (o_fileid (opentab s j) + MAXOPEN), j) /\ handed j s s' /\ forall k, i <= k < j -> in_use s k.

Lemma setat_same {A} i (v : A) f : setat i v f i = v.
Proof. unfold setat. by rewrite Z.eqb_refl. Qed.

Lemma openfile_loop_ok n : forall i s,
  Z.of_nat n = MAXOPEN - i -> exists r s', openfile_loop n i s = Done r s' /\ open_result i s r s'.
Proof.
  induction n as [|n IH]; intros i s Hn.
  - exists (- E_MAX_OPEN, 0), s. split; [done|]. left. split; [done|]. split; [done|]. lia.
  - cbn [openfile_loop]. rewrite !mbind_get. destruct (Z.eqb_spec (fd_ref s (o_fd (opentab s i))) 0) as [E0|E0]; [|
      destruct (Z.eqb_spec (fd_ref s (o_fd (opentab s i))) 1) as [E1|E1]]; cbn [orb].
    + destruct (Z.ltb_spec 0 (fs_pages (sv_fs s))) as [Hp|Hp].
      * eexists _, _. split.
        { unfold fd_page_alloc at 1. unfold mbind, M_bind. rewrite (proj2 (Z.ltb_lt _ _)) by done. reflexivity. }
        right. right. exists i. split; [lia|]. split; [done|]. split; [|lia]. constructor; [by left|done|apply setat_same].
      * exists (- E_NO_MEM, 0), s. split; [|right; by left]. unfold fd_page_alloc, mbind, M_bind. by rewrite (proj2 (Z.ltb_ge _ _)) by lia.
    + eexists _, _. split; [reflexivity|]. right. right. exists i. split; [lia|]. split; [done|]. split; [|lia].
      constructor; [by right|done|apply setat_same].
    + destruct (IH (i + 1) s ltac:(lia)) as (r & s' & E & Hr). exists r, s'. split; [exact E|].
      assert (Hu : forall j, i <= j -> (i + 1 <= j -> in_use s j) -> in_use s j).
      { intros j Hj H1. destruct (decide (j = i)) as [->|]; [done|apply H1; lia]. }
      destruct Hr as [(-> & -> & Ha)|[Hr|(j & Hj & Hr & Hh & Ha)]]; [left|by right; left|right; right].
      * split; [done|]. split; [done|]. intros j Hj. apply Hu; [lia|]. intros. apply Ha. lia.
      * exists j. split; [lia|]. split; [done|]. split; [done|]. intros k Hk. apply Hu; [lia|]. intros. apply Ha. lia.
Qed.

Lemma next_id x : 0 <= x < 4294967296 -> u32 (x + MAXOPEN) mod MAXOPEN = x mod MAXOPEN /\ u32 (x + MAXOPEN) <> x.
Proof.
  intros Hx. unfold u32. split; [|Z.to_euclidean_division_equations; lia].
  change 4294967296 with (MAXOPEN * 4194304). rewrite Z.rem_mul_r by lia.
  rewrite Z.add_mod, Z.mul_comm, Z.mod_mul, Z.add_0_r, !Z.mod_mod by lia.
  rewrite Z.add_mod, Z.mod_same, Z.add_0_r, Z.mod_mod by lia. done.
Qed.

Lemma handed_tab j s s' : 0 <= j < MAXOPEN -> tab_ok s -> handed j s s' -> tab_ok s'.
Proof.
  intros Hj Ht Hh i Hi. rewrite !(hd_tab _ _ _ Hh). destruct (Z.eqb_spec i j) as [->|]; [|by apply Ht].
  destruct (Ht j Hj) as (H1 & H2 & H3). cbn [o_fileid o_fd set_o_fileid]. split; [apply u32_range|]. split; [|done].
  by rewrite (proj1 (next_id _ H1)).
Qed.

Lemma openfile_alloc_ok s : exists r s', openfile_alloc s = Done r s' /\ open_result 0 s r s'.
Proof. apply openfile_loop_ok. lia. Qed.

Lemma keeps_openfile_alloc : keeps tab_ok openfile_alloc.
Proof.
  intros s r s' Ht E. destruct (openfile_alloc_ok s) as (r' & s'' & E' & Hr). rewrite E in E'. injection E' as <- <-.
  destruct Hr as [(_ & -> & _)|[(_ & -> & _)|(j & Hj & _ & Hh & _)]]; [done..|]. by apply (handed_tab j s).
Qed.

Lemma keeps_set_file {A} i f m (k : OpenFile -> M serv A) :
  (forall o, keeps tab_ok (k o)) ->
  keeps tab_ok (o ← mget (λ s, opentab s i); mmodify (set_opentab i (set_o_mode m (set_o_file f o))) ;; k o).
Proof.
  intros Hk s a s' Ht. rewrite mbind_get, mbind_modify. apply Hk. intros j Hj. cbn [set_opentab opentab]. unfold setat.
  destruct (Z.eqb_spec j i) as [->|]; by apply Ht.
Qed.

#[export] Hint Resolve keeps_openfile_alloc : keeps.

Lemma keeps_serve_open : keeps tab_ok serve_open.
Proof.
  unfold serve_open. cbv zeta.
  repeat match goal with
  | |- keeps _ (mget (λ s, opentab s _) ≫= _) => apply keeps_set_file; intros ?; keeps
  | |- keeps _ (_ ≫= _) => apply keeps_bind; [solve [keeps]|intros ?]
  | |- keeps _ (if _ then _ else _) => case_match; [solve [keeps]|]
  end.
Qed.

Lemma keeps_with_open k : (forall o, keeps tab_ok (k o)) -> keeps tab_ok (with_open k).
Proof. intros Hk. unfold with_open, openfile_lookup. cbv zeta. keeps. Qed.

Lemma keeps_handlers req h : handlers req = Some h -> keeps tab_ok h.
Proof.
  unfold handlers. repeat case_match; intros [= <-].
  - apply keeps_with_open. intros o. keeps.
  - apply keeps_with_open. intros o. keeps.
  - apply keeps_with_open. intros o. cbv zeta. keeps.
  - apply keeps_with_open. intros o. keeps.
  - apply keeps_with_open. intros o. keeps.
  - unfold serve_sync. keeps.
Qed.

#[export] Hint Resolve keeps_serve_open keeps_handlers : keeps.

Lemma keeps_serve req perm : keeps tab_ok (serve req perm).
Proof.
  unfold serve. destruct (negb _); [keeps|]. destruct (req =? FSREQ_OPEN); [keeps|].
  destruct (handlers req) as [h|] eqn:E; keeps.
Qed.

Lemma serve_init_loop_ok n : forall i s s',
  0 <= i -> Z.of_nat n = MAXOPEN - i -> serve_init_loop n i (FILEVA + i * PGSIZE) s = Done tt s' ->
  (forall j, j < i -> opentab s' j = opentab s j) /\
  forall j, i <= j < MAXOPEN -> o_fileid (opentab s' j) = j /\ o_fd (opentab s' j) = FILEVA + j * PGSIZE.
Proof.
  induction n as [|n IH]; intros i s s' Hi Hn; [intros [= <-]; split; [done|lia]|].
  cbn [serve_init_loop]. rewrite mbind_get, mbind_modify, u32_small by lia.
  replace (FILEVA + i * PGSIZE + PGSIZE) with (FILEVA + (i + 1) * PGSIZE) by lia. intros E.
  destruct (IH (i + 1) _ s' ltac:(lia) ltac:(lia) E) as [Hlo Hhi]. cbn [set_opentab opentab] in Hlo. split.
  - intros j Hj. rewrite Hlo by lia. unfold setat. by rewrite (proj2 (Z.eqb_neq j i)) by lia.
  - intros j Hj. destruct (decide (j = i)) as [->|]; [|apply Hhi; lia]. by rewrite Hlo, setat_same by lia.
Qed.

Lemma serve_init_ok s s' : serve_init s = Done tt s' -> tab_ok s'.
Proof.
  unfold serve_init. assert (Hn : Z.of_nat (Z.to_nat MAXOPEN) = MAXOPEN) by (apply Z2Nat.id; lia). revert Hn.
  generalize (Z.to_nat MAXOPEN). intros n Hn. replace FILEVA with (FILEVA + 0 * PGSIZE) by lia. intros E i Hi.
  destruct (serve_init_loop_ok n 0 s s' ltac:(lia) ltac:(lia) E) as [_ H]. destruct (H i Hi) as [-> ->].
  split; [lia|]. split; [|done]. by apply Z.mod_small.
Qed.

Lemma umain_tab s s' : umain s = Done tt s' -> tab_ok s'.
Proof.
  unfold umain. intros E. destruct (mbind_inv _ _ _ _ _ E) as ([] & s1 & E1 & E2).
  exact (keeps_lift fs_init s1 tt s' (serve_init_ok s s1 E1) E2).
Qed.

(** ** Properties of the table *)

(** C21: The table of open files.  After the initialisation and after every
    request, whatever its number and arguments, entry [i] has its own Fd page
    and an id that is [i] modulo 1024.  [openfile_alloc] hands out the first
    entry whose page no client has mapped, with a cleared page and a new id;
    the old id of the entry is then rejected, and the new one is found as soon
    as a client maps the page. *)
Theorem open_table_correct :
  (forall s s', umain s = Done tt s' -> tab_ok s') /\
  (forall req perm s r s', tab_ok s -> serve req perm s = Done r s' -> tab_ok s') /\
  (forall s, tab_ok s -> exists r s', openfile_alloc s = Done r s' /\ tab_ok s' /\ open_result 0 s r s') /\
  (forall s s' j old, tab_ok s -> 0 <= j < MAXOPEN -> old = o_fileid (opentab s j) -> handed j s s' ->
     openfile_lookup old s' = Done (- E_INVAL, 0) s' /\
     (1 < fd_ref s' (o_fd (opentab s' j)) -> openfile_lookup (o_fileid (opentab s' j)) s' = Done (0, j) s')).
Proof.
  split_and!.
  - exact umain_tab.
  - intros req perm s r s'. apply keeps_serve.
  - intros s Ht. destruct (openfile_alloc_ok s) as (r & s' & E & Hr). exists r, s'.
    split; [exact E|]. split; [exact (keeps_openfile_alloc s r s' Ht E)|exact Hr].
  - intros s s' j old Ht Hj -> Hh. destruct (Ht j Hj) as (H1 & H2 & H3). destruct (next_id _ H1) as [Hm Hne].
    pose proof (hd_tab _ _ _ Hh j) as Hj'. rewrite Z.eqb_refl in Hj'. unfold openfile_lookup. split.
    + rewrite !mbind_get, H2, Hj'. cbn [o_fileid o_fd set_o_fileid]. rewrite (proj2 (Z.eqb_neq _ _) Hne). cbn [negb].
      by rewrite orb_true_r.
    + intros Hr. rewrite Hj' in *. cbn [o_fileid o_fd set_o_fileid] in *. rewrite Hm, H2, !mbind_get, Hj'.
      cbn [o_fileid o_fd set_o_fileid]. by rewrite (proj2 (Z.leb_gt _ _)), Z.eqb_refl by done.
Qed.

(** ** Signed words *)

Lemma s32_id x : -2147483648 <= x < 2147483648 -> s32 x = x.
Proof.
  intros Hx. unfold s32, u32. destruct (decide (0 <= x)); [rewrite Z.mod_small by lia|].
  - by rewrite (proj2 (Z.ltb_lt _ _)) by lia.
  - rewrite <- (Z.mod_unique x 4294967296 (-1) (x + 4294967296)) by lia. rewrite (proj2 (Z.ltb_ge _ _)) by lia. lia.
Qed.

Lemma s32_add_u32 a b : s32 (a + u32 b) = s32 (a + b).
Proof. unfold s32, u32. by rewrite Zplus_mod_idemp_r. Qed.

Lemma s32_u32 x : s32 (u32 x) = s32 x.
Proof. exact (s32_add_u32 0 x). Qed.

Lemma u32_s32 x : 0 <= x < 4294967296 -> u32 (s32 x) = x.
Proof.
  intros Hx. unfold s32. rewrite (u32_small x) by done. destruct (Z.ltb_spec x 2147483648); [by apply u32_small|].
  unfold u32. symmetry. apply (Z.mod_unique _ _ (-1)); lia.
Qed.

(** ** Requests on an open file *)

(** File [f] is open with id [id], and [pg] is its Fd page. *)
Record is_open (s : serv) (pg f id : Z) : Prop := {
  io_range : 0 <= id < 4294967296;
  io_id : o_fileid (opentab s (id mod MAXOPEN)) = id;
  io_file : o_file (opentab s (id mod MAXOPEN)) = f;
  io_fd : o_fd (opentab s (id mod MAXOPEN)) = pg;
  io_ref : 1 < fd_ref s pg;
  io_page : fd_file_id (fd_page s pg) = s32 id
}.

Definition at_offset (fd : Fd) (off : Z) : Fd := mkFd (fd_dev_id fd) off (fd_omode fd) (fd_file_id fd).

Lemma is_open_fs s fs pg f id : is_open s pg f id -> is_open (set_sv_fs fs s) pg f id.
Proof. by intros [? ? ? ? ? ?]. Qed.

Lemma is_open_moved s off pg f id : is_open s pg f id -> is_open (set_fd_page pg (at_offset (fd_page s pg) off) s) pg f id.
Proof. intros [? ? ? ? ? ?]. constructor; try done. cbn [set_fd_page fd_page]. by rewrite setat_same. Qed.

Lemma openfile_lookup_ok s pg f id : is_open s pg f id -> openfile_lookup id s = Done (0, id mod MAXOPEN) s.
Proof.
  intros [H1 H2 H3 H4 H5 H6]. unfold openfile_lookup. rewrite !mbind_get, H4, H2, Z.eqb_refl.
  by rewrite (proj2 (Z.leb_gt _ _)) by done.
Qed.

Lemma with_open_ok k s pg f id :
  is_open s pg f id -> word_at (lview (sv_fs s)) FSREQ = id -> with_open k s = k (opentab s (id mod MAXOPEN)) s.
Proof.
  intros Ho Hw. unfold with_open. mstep by (apply lift_ok, page_load32; lia). rewrite Hw, set_sv_fs_same.
  mstep by (by apply (openfile_lookup_ok s pg f)). done.
Qed.

Lemma advance_ok va n s : advance va n s = Done tt (set_fd_page va (at_offset (fd_page s va) (s32 (fd_offset (fd_page s va) + n))) s).
Proof. done. Qed.

(** A state of the server with another file system and offset. *)
Definition moved (pg off : Z) (fs : fsrv) (s : serv) : serv := set_fd_page pg (at_offset (fd_page s pg) off) (set_sv_fs fs s).

Lemma serve_write_ok s pg f id n perm :
  healthy (sv_fs s) -> is_open s pg f id -> file_wf (lview (sv_fs s)) f -> hasbits perm PTE_P = true ->
  word_at (lview (sv_fs s)) FSREQ = id -> word_at (lview (sv_fs s)) (FSREQ + 4) = n -> 0 <= n <= PGSIZE - 8 ->
  let off := fd_offset (fd_page s pg) in
  0 <= size_of (lview (sv_fs s)) f <= NDIRECT * BLKSIZE -> 0 <= off -> off + n <= NDIRECT * BLKSIZE ->
  exists r q fs, serve FSREQ_WRITE perm s = Done (Some (mkReply r None perm)) (moved pg (off + r) fs s) /\ healthy fs /\
    ((r = n /\ q = off + n) \/ (r = - E_NO_DISK /\ off <= q < off + n)) /\
    file_written f (FSREQ + 8) off q (off + n) (lview (sv_fs s)) (lview fs).
Proof.
  intros H Ho Hw Hp Hid Hn Hr off Hz Ho0 Hmax.
  destruct (file_write_run (sv_fs s) f (FSREQ + 8) n off H Hw Hz Ho0 ltac:(lia) Hmax ltac:(lia) ltac:(lia)) as (r & q & fs & E & Hh & Hres & Hfw).
  exists r, q, fs. split; [|done]. unfold serve. rewrite Hp. cbn [negb]. change (FSREQ_WRITE =? FSREQ_OPEN) with false.
  change (handlers FSREQ_WRITE) with (Some serve_write). cbv iota.
  enough (E' : serve_write s = Done r (moved pg (off + r) fs s)) by (mstep by (exact E'); done). unfold serve_write.
  rewrite (with_open_ok _ s pg f id Ho Hid). mstep by (apply lift_ok, page_load32; lia). rewrite Hn, set_sv_fs_same, mbind_get.
  rewrite (io_fd _ _ _ _ Ho), (io_file _ _ _ _ Ho), Z.min_l by lia. fold off. mstep by (apply lift_ok; exact E). cbv zeta.
  rewrite (proj2 (Z.leb_le 0 _)) by (apply u32_range). mstep by (apply advance_ok). cbn [set_sv_fs fd_page]. fold off.
  assert (-9 <= r <= PGSIZE) by lia. by rewrite s32_add_u32, s32_u32, !s32_id by lia.
Qed.

Lemma serve_read_ok s pg f id n perm :
  healthy (sv_fs s) -> is_open s pg f id -> file_wf (lview (sv_fs s)) f -> hasbits perm PTE_P = true ->
  word_at (lview (sv_fs s)) FSREQ = id -> word_at (lview (sv_fs s)) (FSREQ + 4) = n -> 0 <= n <= PGSIZE ->
  let off := fd_offset (fd_page s pg) in
  0 <= size_of (lview (sv_fs s)) f <= NDIRECT * BLKSIZE -> 0 <= off < 2147483648 - PGSIZE ->
  has_blocks (lview (sv_fs s)) f off (Z.min (off + n) (size_of (lview (sv_fs s)) f)) ->
  let r := Z.max 0 (Z.min n (size_of (lview (sv_fs s)) f - off)) in
  exists fs, serve FSREQ_READ perm s = Done (Some (mkReply r None perm)) (moved pg (off + r) fs s) /\
    wrote (read_to (lview (sv_fs s)) f FSREQ off (off + r)) (sv_fs s) fs.
Proof.
  intros H Ho Hw Hp Hid Hn Hr off Hz Ho0 Hb r.
  destruct (file_read_run (sv_fs s) f FSREQ n off H Hw Hz ltac:(lia) ltac:(lia) Hb ltac:(lia) ltac:(lia)) as (fs & E & Hwr). fold r in E, Hwr.
  exists fs. split; [|done]. unfold serve. rewrite Hp. cbn [negb]. change (FSREQ_READ =? FSREQ_OPEN) with false.
  change (handlers FSREQ_READ) with (Some serve_read). cbv iota.
  enough (E' : serve_read s = Done r (moved pg (off + r) fs s)) by (mstep by (exact E'); done).
  unfold serve_read. rewrite (with_open_ok _ s pg f id Ho Hid). mstep by (apply lift_ok, page_load32; lia).
  rewrite Hn, set_sv_fs_same, mbind_get. rewrite (io_fd _ _ _ _ Ho), (io_file _ _ _ _ Ho). fold off. mstep by (apply lift_ok; exact E).
  rewrite (proj2 (Z.ltb_ge r 0)) by lia. mstep by (apply advance_ok). cbn [set_sv_fs fd_page]. fold off. by rewrite s32_id by lia.
Qed.

(** ** The library *)

Abbreviation fsof c := (sv_fs (cl_serv c)).
Definition with_fs (c : client) (fs : fsrv) : client := set_cl_serv (set_sv_fs fs (cl_serv c)) c.

Lemma put_word_ok c a v :
  healthy (fsof c) -> FSREQ <= a -> a + 4 <= DISKMAP ->
  exists fs, put_word a v c = Done tt (with_fs c fs) /\ wrote (put32 a v (lview (fsof c))) (fsof c) fs.
Proof.
  intros H Hlo Hhi. destruct (page_store32 (fsof c) a v H Hlo Hhi) as (fs & E & Hw). exists fs. split; [|done].
  apply srv_ok, lift_ok, E.
Qed.

Lemma put_bytes_ok c a l :
  healthy (fsof c) -> FSREQ <= a -> a + Z.of_nat (length l) <= DISKMAP ->
  exists fs, put_bytes a l c = Done tt (with_fs c fs) /\ wrote (puts a l (lview (fsof c))) (fsof c) fs.
Proof.
  intros H Hlo Hhi. destruct (store_list_ok l a (fsof c) H) as (fs & E & Hw).
  - intros x Hx. split; left; lia.
  - exists fs. split; [|done]. apply srv_ok, lift_ok, E.
Qed.

Lemma get_bytes_ok c n a :
  healthy (fsof c) -> FSREQ <= a -> a + Z.of_nat n <= DISKMAP ->
  exists fs, get_bytes n a c = Done (range (lview (fsof c)) n a) (with_fs c fs) /\ same_view (fsof c) fs.
Proof.
  intros H Hlo Hhi. destruct (load_list_ok n a (fsof c) H) as (fs & E & Hs).
  - intros x Hx. left. lia.
  - exists fs. split; [|done]. apply srv_ok, lift_ok, E.
Qed.

(** The memory [L'] has the request [id], [n] in its page and the disk of [L]. *)
Definition requested (id n : Z) (L L' : bmem) : Prop :=
  word_at L' FSREQ = id /\ word_at L' (FSREQ + 4) = n /\ forall x, DISKMAP <= x -> L' x = L x.

(** Filling in a request. *)
Lemma request_ok c id n :
  healthy (fsof c) -> 0 <= id < 4294967296 -> 0 <= n < 4294967296 ->
  exists fs, (forall A (k : C A), (put_word FSREQ (s32 id) ;; put_word (FSREQ + 4) n ;; k) c = k (with_fs c fs)) /\ healthy fs /\
    requested id n (lview (fsof c)) (lview fs).
Proof.
  intros H Hid Hn. destruct (put_word_ok c FSREQ (s32 id) H) as (fs1 & E1 & [Hh1 Hv1 _]); [lia..|].
  destruct (put_word_ok (with_fs c fs1) (FSREQ + 4) n Hh1) as (fs2 & E2 & [Hh2 Hv2 _]); [lia..|].
  exists fs2. split; [intros A k; mstep by (exact E1); by mstep by (exact E2)|]. split; [done|]. cbn [with_fs set_cl_serv cl_serv set_sv_fs sv_fs] in Hv2. split_and!.
  - rewrite (word_at_ext _ _ _ (λ x _, Hv2 x)), word_at_put32_other, (word_at_ext _ _ _ (λ x _, Hv1 x)), word_at_put32 by lia.
    by apply u32_s32.
  - rewrite (word_at_ext _ _ _ (λ x _, Hv2 x)), word_at_put32. by apply u32_small.
  - intros x Hx. by rewrite Hv2, put32_other, Hv1, put32_other by lia.
Qed.

Lemma requested_after id n L L1 L2 :
  requested id n L L1 -> (forall x, ~ (FSREQ + 8 <= x < DISKMAP) -> L2 x = L1 x) -> requested id n L L2.
Proof.
  intros (H1 & H2 & H3) H. split_and!; [rewrite <- H1|rewrite <- H2|intros x Hx; rewrite <- H3 by done]; try apply word_at_ext; intros; apply H; lia.
Qed.

(** A file as the client sees it: the descriptor, its page, the open file. *)
Record has_file (c : client) (fdnum pg f id : Z) : Prop := {
  hf_num : 0 <= fdnum < MAXFD;
  hf_tab : fdtab c fdnum = Some pg;
  hf_open : is_open (cl_serv c) pg f id;
  hf_dev : fd_dev_id (fd_page (cl_serv c) pg) = DEVFILE_ID
}.

Definition c_moved (pg off : Z) (fs : fsrv) (c : client) : client := set_cl_serv (moved pg off fs (cl_serv c)) c.

Lemma fsipc_write c fs pg f id n :
  healthy fs -> is_open (cl_serv c) pg f id -> file_wf (lview fs) f ->
  word_at (lview fs) FSREQ = id -> word_at (lview fs) (FSREQ + 4) = n -> 0 <= n <= PGSIZE - 8 ->
  let off := fd_offset (fd_page (cl_serv c) pg) in
  0 <= size_of (lview fs) f <= NDIRECT * BLKSIZE -> 0 <= off -> off + n <= NDIRECT * BLKSIZE ->
  exists r q fs', fsipc FSREQ_WRITE None (with_fs c fs) = Done r (c_moved pg (off + r) fs' c) /\ healthy fs' /\
    ((r = n /\ q = off + n) \/ (r = - E_NO_DISK /\ off <= q < off + n)) /\
    file_written f (FSREQ + 8) off q (off + n) (lview fs) (lview fs').
Proof.
  intros H Ho Hw H1 H2 Hn off Hz Ho0 Hmax.
  destruct (serve_write_ok (set_sv_fs fs (cl_serv c)) pg f id n (PTE_P .| PTE_W .| PTE_U) H (is_open_fs _ _ _ _ _ Ho) Hw eq_refl H1 H2 Hn Hz Ho0 Hmax)
    as (r & q & fs' & E & Hrest). exists r, q, fs'. split; [|done]. unfold fsipc. mstep by (apply srv_ok; exact E). done.
Qed.

Lemma fsipc_read c fs pg f id n :
  healthy fs -> is_open (cl_serv c) pg f id -> file_wf (lview fs) f ->
  word_at (lview fs) FSREQ = id -> word_at (lview fs) (FSREQ + 4) = n -> 0 <= n <= PGSIZE ->
  let off := fd_offset (fd_page (cl_serv c) pg) in
  0 <= size_of (lview fs) f <= NDIRECT * BLKSIZE -> 0 <= off < 2147483648 - PGSIZE ->
  has_blocks (lview fs) f off (Z.min (off + n) (size_of (lview fs) f)) ->
  let r := Z.max 0 (Z.min n (size_of (lview fs) f - off)) in
  exists fs', fsipc FSREQ_READ None (with_fs c fs) = Done r (c_moved pg (off + r) fs' c) /\
    wrote (read_to (lview fs) f FSREQ off (off + r)) fs fs'.
Proof.
  intros H Ho Hw H1 H2 Hn off Hz Ho0 Hb r.
  destruct (serve_read_ok (set_sv_fs fs (cl_serv c)) pg f id n (PTE_P .| PTE_W .| PTE_U) H (is_open_fs _ _ _ _ _ Ho) Hw eq_refl H1 H2 Hn Hz Ho0 Hb)
    as (fs' & E & Hrest). exists fs'. split; [|done]. unfold fsipc. mstep by (apply srv_ok; exact E). done.
Qed.

Lemma puts_spec l : forall a m x,
  puts a l m x = if (a <=? x) && (x <? a + Z.of_nat (length l)) then u8 (nth (Z.to_nat (x - a)) l 0) else m x.
Proof.
  induction l as [|b l IH]; intros a m x; cbn [puts length].
  - destruct (Z.leb_spec a x), (Z.ltb_spec x (a + Z.of_nat 0)); done || lia.
  - rewrite IH. unfold put. destruct (Z.eqb_spec x a) as [->|].
    + destruct (Z.leb_spec (a + 1) a), (Z.leb_spec a a), (Z.ltb_spec a (a + Z.of_nat (S (length l)))); try lia. cbn [andb].
      by rewrite Z.sub_diag.
    + destruct (Z.leb_spec (a + 1) x), (Z.leb_spec a x), (Z.ltb_spec x (a + 1 + Z.of_nat (length l))), (Z.ltb_spec x (a + Z.of_nat (S (length l))));
        try done; try lia. cbn [andb]. replace (Z.to_nat (x - a)) with (S (Z.to_nat (x - (a + 1)))) by lia. done.
Qed.

(** What a write of [l] at [off] leaves of file [f], up to [q]. *)
Record wrote_list (f off q : Z) (l : list Z) (L L' : bmem) : Prop := {
  wl_wf : file_wf L' f;
  wl_size : size_of L' f = Z.max (size_of L f) (off + Z.of_nat (length l));
  wl_new : forall p, off <= p < q -> slot L' f (p / BLKSIZE) <> 0 /\ fbyte L' f p = u8 (nth (Z.to_nat (p - off)) l 0);
  wl_old : forall p, 0 <= p < NDIRECT * BLKSIZE -> ~ (off <= p < q) -> slot L f (p / BLKSIZE) <> 0 -> fbyte L' f p = fbyte L f p;
  wl_rest : forall a, used L (blk a) -> data_block (nb L) (blk a) -> blk a <> blk f ->
    (forall i, 0 <= i < NDIRECT -> slot L f i <> blk a) -> L' a = L a
}.

(** The same through the page of the request. *)
Lemma wrote_list_of f off q l L L1 L2 :
  2 < nb L <= 786432 -> file_wf L f -> 0 <= off -> q <= off + Z.of_nat (length l) -> (forall x, DISKMAP <= x -> L1 x = L x) ->
  (forall k, 0 <= k < Z.of_nat (length l) -> L1 (FSREQ + 8 + k) = u8 (nth (Z.to_nat k) l 0)) ->
  file_written f (FSREQ + 8) off q (off + Z.of_nat (length l)) L1 L2 -> wrote_list f off q l L L2.
Proof.
  intros Hn Hw Ho Hq Hd Hb [m z n o r]. destruct (disk_part_file L L1 f Hn Hd Hw) as (Hw1 & Hs1 & Hb1).
  pose proof (disk_part_map L L1 Hn Hd) as Hsm. pose proof (blk_spec f). pose proof (proj1 (fo_used _ _ (wf_ok _ _ Hw))).
  constructor.
  - apply m.
  - rewrite z. f_equal. apply word_at_ext. intros x Hx. apply Hd. lia.
  - intros p Hp. destruct (n p Hp) as [? ->]. split; [done|]. rewrite Hb by lia. unfold u8. by rewrite Z.mod_mod by lia.
  - intros p Hp Hnp Hz. rewrite o; [by apply Hb1|done|done|]. by rewrite Hs1 by (by apply (direct_index p (NDIRECT * BLKSIZE))).
  - intros a Hu Hdb Hnf Hns. pose proof (blk_spec a). pose proof (proj1 Hu).
    rewrite r; [apply Hd; lia|by apply (same_map_used L)|by rewrite (proj1 Hsm)|done|]. intros i Hi. rewrite Hs1 by done. by apply Hns.
Qed.

Lemma fd_lookup_ok c fdnum pg f id : has_file c fdnum pg f id -> fd_lookup fdnum c = Done (0, pg) c.
Proof.
  intros [Hnum Htab _ _]. unfold fd_lookup. rewrite (proj2 (Z.ltb_ge fdnum 0)), (proj2 (Z.leb_gt _ fdnum)) by lia. cbn [orb].
  by rewrite mbind_get, Htab.
Qed.

Lemma get_fd_ok c pg : get_fd pg c = Done (fd_page (cl_serv c) pg) c.
Proof. by destruct c. Qed.

Lemma with_dev_ok {A} others c fdnum pg f id (err : Z -> A) k :
  has_file c fdnum pg f id -> with_dev others fdnum err k c = k pg (fd_page (cl_serv c) pg) devfile c.
Proof.
  intros Hf. unfold with_dev. mstep by (by apply (fd_lookup_ok c fdnum pg f id)).
  cbn [fst snd]. change (0 <? 0) with false. cbv iota. mstep by (apply get_fd_ok).
  by rewrite (hf_dev _ _ _ _ _ Hf).
Qed.

Lemma write_ok others c fdnum pg f id l :
  healthy (fsof c) -> has_file c fdnum pg f id -> file_wf (lview (fsof c)) f ->
  fd_omode (fd_page (cl_serv c) pg) .& O_ACCMODE <> O_RDONLY -> Z.of_nat (length l) <= PGSIZE - 8 ->
  let off := fd_offset (fd_page (cl_serv c) pg) in let n := Z.of_nat (length l) in
  0 <= size_of (lview (fsof c)) f <= NDIRECT * BLKSIZE -> 0 <= off -> off + n <= NDIRECT * BLKSIZE ->
  exists r q fs, write others fdnum l c = Done r (c_moved pg (off + r) fs c) /\ healthy fs /\
    ((r = n /\ q = off + n) \/ (r = - E_NO_DISK /\ off <= q < off + n)) /\ wrote_list f off q l (lview (fsof c)) (lview fs).
Proof.
  intros H Hf Hw Hm Hl off n Hz Ho0 Hmax. pose proof (h_nb _ H) as Hnb. pose proof (hf_open _ _ _ _ _ Hf) as Ho.
  unfold write. rewrite (with_dev_ok _ _ _ pg f id _ _ Hf). rewrite (proj2 (Z.eqb_neq _ _) Hm). cbn [dev_write devfile].
  unfold devfile_write. cbv zeta. fold n. rewrite Z.min_l by lia. mstep by (apply get_fd_ok). rewrite (io_page _ _ _ _ Ho).
  destruct (request_ok c id n H (io_range _ _ _ _ Ho)) as (fs1 & E1 & Hh1 & Hr1); [lia|]. rewrite E1.
  rewrite take_ge by lia. destruct (put_bytes_ok (with_fs c fs1) (FSREQ + 8) l Hh1) as (fs2 & E2 & [Hh2 Hv2 _]); [lia..|].
  mstep by (exact E2). cbn [with_fs set_cl_serv cl_serv set_sv_fs sv_fs] in Hv2.
  destruct (requested_after id n _ _ (lview fs2) Hr1) as (Hid & Hn & Hd).
  { intros x Hx. rewrite Hv2, puts_spec. destruct (Z.leb_spec (FSREQ + 8) x), (Z.ltb_spec x (FSREQ + 8 + Z.of_nat (length l))); done || lia. }
  destruct (disk_part_file (lview (fsof c)) (lview fs2) f Hnb Hd Hw) as (Hw2 & _).
  pose proof (blk_spec f). pose proof (proj1 (fo_used _ _ (wf_ok _ _ Hw))).
  assert (Hz2 : size_of (lview fs2) f = size_of (lview (fsof c)) f) by (apply word_at_ext; intros x Hx; apply Hd; lia).
  destruct (fsipc_write c fs2 pg f id n Hh2 Ho Hw2 Hid Hn ltac:(lia) ltac:(lia) Ho0 Hmax) as (r & q & fs3 & E3 & Hh3 & Hr & Hfw).
  exists r, q, fs3. split_and!; [|done|done|].
  - mstep by (exact E3). destruct (Z.ltb_spec r 0); [done|]. unfold massert. mstep by (rewrite (proj2 (Z.leb_le _ _)); [done|rewrite u32_small; lia]). done.
  - apply (wrote_list_of f off q l _ (lview fs2)); [done|done|done|lia|done| |done]. intros k Hk. rewrite Hv2, puts_spec.
    rewrite (proj2 (Z.leb_le _ _)), (proj2 (Z.ltb_lt _ _)) by lia. cbn [andb]. do 2 f_equal. lia.
Qed.

(** Bytes [off] to [off + n] of file [f]. *)
Definition file_bytes (L : bmem) (f off : Z) (n : nat) : list Z := map (λ k, u8 (fbyte L f (off + Z.of_nat k))) (seq 0 n).

Lemma has_blocks_disk L L1 f pos stop :
  (forall i, 0 <= i < NDIRECT -> slot L1 f i = slot L f i) -> 0 <= pos -> stop <= NDIRECT * BLKSIZE ->
  has_blocks L f pos stop -> has_blocks L1 f pos stop.
Proof. intros Hs Hp Hm Hb p Hpp. rewrite Hs by (apply (direct_index p stop); lia). by apply Hb. Qed.

Lemma read_ok others c fdnum pg f id n :
  healthy (fsof c) -> has_file c fdnum pg f id -> file_wf (lview (fsof c)) f ->
  fd_omode (fd_page (cl_serv c) pg) .& O_ACCMODE <> O_WRONLY -> 0 <= n <= PGSIZE ->
  let off := fd_offset (fd_page (cl_serv c) pg) in let size := size_of (lview (fsof c)) f in
  0 <= size <= NDIRECT * BLKSIZE -> 0 <= off < 2147483648 - PGSIZE -> has_blocks (lview (fsof c)) f off (Z.min (off + n) size) ->
  let r := Z.max 0 (Z.min n (size - off)) in
  exists fs, read others fdnum n c = Done (r, file_bytes (lview (fsof c)) f off (Z.to_nat r)) (c_moved pg (off + r) fs c) /\ healthy fs /\
    forall x, DISKMAP <= x -> lview fs x = lview (fsof c) x.
Proof.
  intros H Hf Hw Hm Hn off size Hz Ho0 Hb r. pose proof (h_nb _ H) as Hnb. pose proof (hf_open _ _ _ _ _ Hf) as Ho.
  unfold read. rewrite (with_dev_ok _ _ _ pg f id _ _ Hf). rewrite (proj2 (Z.eqb_neq _ _) Hm). cbn [dev_read devfile].
  unfold devfile_read. mstep by (apply get_fd_ok). rewrite (io_page _ _ _ _ Ho).
  destruct (request_ok c id n H (io_range _ _ _ _ Ho)) as (fs1 & E1 & Hh1 & Hid & Hrn & Hd); [lia|]. rewrite E1.
  destruct (disk_part_file (lview (fsof c)) (lview fs1) f Hnb Hd Hw) as (Hw1 & Hs1 & Hb1).
  pose proof (blk_spec f). pose proof (proj1 (fo_used _ _ (wf_ok _ _ Hw))).
  assert (Hz1 : size_of (lview fs1) f = size) by (apply word_at_ext; intros x Hx; apply Hd; lia).
  destruct (fsipc_read c fs1 pg f id n Hh1 Ho Hw1 Hid Hrn Hn ltac:(lia) Ho0) as (fs2 & E2 & [Hh2 Hv2 _]).
  { rewrite Hz1. apply (has_blocks_disk (lview (fsof c))); [done|lia|lia|done]. }
  rewrite Hz1 in E2, Hv2. fold off r in E2, Hv2. mstep by (exact E2).
  rewrite (proj2 (Z.ltb_ge r 0)) by lia. unfold massert. mstep by (rewrite (proj2 (Z.leb_le _ _)); [done|rewrite u32_small; lia]).
  mstep by (rewrite (proj2 (Z.leb_le _ _)); [done|lia]).
  destruct (get_bytes_ok (c_moved pg (off + r) fs2 c) (Z.to_nat r) FSREQ Hh2) as (fs3 & E3 & [Hh3 Hv3 _]); [lia..|]. mstep by (exact E3).
  exists fs3. split_and!; [|done|].
  - apply f_equal2; [|done]. f_equal. unfold range, file_bytes. apply map_ext_in. intros k Hk%in_seq.
    cbn [c_moved set_cl_serv cl_serv moved set_fd_page set_sv_fs sv_fs]. rewrite Hv2. unfold read_to.
    rewrite (proj2 (Z.leb_le _ _)), (proj2 (Z.ltb_lt _ _)) by lia. cbn [andb].
    replace (off + (FSREQ + Z.of_nat k - FSREQ)) with (off + Z.of_nat k) by lia. rewrite Hb1; [done|lia|apply Hb; lia].
  - intros x Hx. rewrite Hv3. cbn [c_moved set_cl_serv cl_serv moved set_fd_page set_sv_fs sv_fs]. rewrite Hv2. unfold read_to.
    rewrite (proj2 (Z.ltb_ge _ _)), andb_false_r by lia. by apply Hd.
Qed.

Lemma seek_ok c fdnum pg f id off :
  has_file c fdnum pg f id -> seek fdnum off c = Done 0 (c_moved pg off (fsof c) c).
Proof.
  intros Hf. unfold seek. mstep by (by apply (fd_lookup_ok c fdnum pg f id)). cbn [fst snd]. change (0 <? 0) with false. cbv iota.
  mstep by (apply get_fd_ok). unfold c_moved, moved. by rewrite set_sv_fs_same.
Qed.

Lemma has_file_moved c fdnum pg f id off fs : has_file c fdnum pg f id -> has_file (c_moved pg off fs c) fdnum pg f id.
Proof.
  intros [H1 H2 H3 H4]. constructor; [done|done|by apply (is_open_moved (set_sv_fs fs (cl_serv c))), is_open_fs|].
  cbn [c_moved set_cl_serv cl_serv moved set_fd_page fd_page]. by rewrite setat_same.
Qed.

Lemma file_bytes_list L f off l :
  (forall p, off <= p < off + Z.of_nat (length l) -> fbyte L f p = u8 (nth (Z.to_nat (p - off)) l 0)) ->
  file_bytes L f off (length l) = map u8 l.
Proof.
  intros H. unfold file_bytes. apply (nth_ext _ _ 0 (u8 0)); [by rewrite !length_map, length_seq|]. intros k Hk.
  rewrite length_map, length_seq in Hk. rewrite map_nth, (nth_indep _ 0 (u8 (fbyte L f (off + Z.of_nat 0)))) by (by rewrite length_map, length_seq).
  rewrite (map_nth (λ k, u8 (fbyte L f (off + Z.of_nat k)))), seq_nth by done. cbn [Nat.add]. rewrite H by lia.
  replace (Z.to_nat (off + Z.of_nat k - off)) with k by lia. unfold u8. by rewrite Z.mod_mod by lia.
Qed.

(** A client of the sample file system, with one open file. *)
Definition client_sample : client :=
  mkClient (mkServ fs_sample (λ i, mkOpen (i + MAXOPEN) sample_file 2 (FILEVA + i * PGSIZE)) (λ _, 2) (λ va, mkFd DEVFILE_ID 4095 2 (MAXOPEN + (va - FILEVA) / PGSIZE)))
    (λ i, if i =? 0 then Some FILEVA else None).

Lemma client_sample_file : has_file client_sample 0 FILEVA sample_file MAXOPEN.
Proof. constructor; [lia|reflexivity| |reflexivity]. constructor; try reflexivity; cbn; lia. Qed.

(** ** Properties of the library *)

(** C20: A client that writes at most 4088 bytes to a file of direct blocks
    through a descriptor, seeks back and reads as many bytes gets the bytes it
    wrote, through library, server, file system and cache; each call leaves the
    offset behind the bytes it moved.  When the disk is full the write returns
    -E_NO_DISK and the offset moves back by nine. *)
Theorem write_seek_read others c fdnum pg f id l :
  healthy (fsof c) -> has_file c fdnum pg f id -> file_wf (lview (fsof c)) f ->
  fd_omode (fd_page (cl_serv c) pg) .& O_ACCMODE = 2 -> Z.of_nat (length l) <= PGSIZE - 8 ->
  let off := fd_offset (fd_page (cl_serv c) pg) in let n := Z.of_nat (length l) in
  0 <= size_of (lview (fsof c)) f <= NDIRECT * BLKSIZE -> 0 <= off -> off + n <= NDIRECT * BLKSIZE ->
  exists r c1, write others fdnum l c = Done r c1 /\ healthy (fsof c1) /\ has_file c1 fdnum pg f id /\
    ((r = - E_NO_DISK /\ fd_offset (fd_page (cl_serv c1) pg) = off - 9) \/
     (r = n /\ fd_offset (fd_page (cl_serv c1) pg) = off + n /\
      exists c2 c3, seek fdnum off c1 = Done 0 c2 /\ read others fdnum n c2 = Done (n, map u8 l) c3 /\
        fd_offset (fd_page (cl_serv c3) pg) = off + n)).
Proof.
  intros H Hf Hw Hm Hl off n Hz Ho0 Hmax.
  destruct (write_ok others c fdnum pg f id l H Hf Hw ltac:(lia) Hl Hz Ho0 Hmax) as (r & q & fs & E & Hh & Hr & [wf z nw _ _]).
  fold off n in E, Hr, z, nw. exists r, (c_moved pg (off + r) fs c). split; [done|]. split; [done|]. split; [by apply has_file_moved|].
  assert (Hoff : forall o fs c, fd_page (cl_serv (c_moved pg o fs c)) pg = at_offset (fd_page (cl_serv c) pg) o).
  { intros o fs' c'. cbn [c_moved set_cl_serv cl_serv moved set_fd_page fd_page]. by rewrite setat_same. }
  rewrite Hoff. destruct Hr as [[-> ->]|[-> Hq]]; [right|left; cbn [at_offset fd_offset]; lia]. split; [done|]. split; [done|].
  set (c1 := c_moved pg (off + n) fs c). pose proof (has_file_moved c fdnum pg f id (off + n) fs Hf) as Hf1. fold c1 in Hf1.
  set (c2 := c_moved pg off (fsof c1) c1). pose proof (has_file_moved c1 fdnum pg f id off (fsof c1) Hf1) as Hf2. fold c2 in Hf2.
  assert (Ho2 : fd_page (cl_serv c2) pg = at_offset (fd_page (cl_serv c) pg) off) by (unfold c2, c1; by rewrite !Hoff).
  destruct (read_ok others c2 fdnum pg f id n) as (fs3 & E3 & _); rewrite ?Ho2; cbn [at_offset fd_offset fd_omode]; try fold off; try done; try lia.
  { change (size_of (lview (fsof c2)) f) with (size_of (lview fs) f). lia. }
  { change (lview (fsof c2)) with (lview fs). intros p Hp. apply nw. lia. }
  change (lview (fsof c2)) with (lview fs) in E3. rewrite Ho2 in E3. cbn [at_offset fd_offset] in E3. fold off in E3. rewrite z in E3.
  replace (Z.max 0 _) with n in E3 by lia. exists c2, (c_moved pg (off + n) fs3 c2). split; [by apply (seek_ok c1 fdnum pg f id)|].
  rewrite E3, Hoff. unfold n at 2. rewrite Nat2Z.id. split; [|done]. do 2 f_equal. apply file_bytes_list. intros p Hp. apply nw. lia.
Qed.

Lemma write_seek_read_witness :
  exists r c1, write [] 0 [72; 105; 33] client_sample = Done r c1 /\
    (fd_offset (fd_page (cl_serv c1) FILEVA) = 4086 \/ fd_offset (fd_page (cl_serv c1) FILEVA) = 4098).
Proof.
  destruct (write_seek_read [] client_sample 0 FILEVA sample_file MAXOPEN [72; 105; 33] fs_sample_healthy client_sample_file sample_wf) as
    (r & c1 & E & _ & _ & Hr); [reflexivity|cbn; lia|change (fsof client_sample) with fs_sample; rewrite sample_size; lia|cbn; lia|cbn; lia|].
  exists r, c1. split; [exact E|]. destruct Hr as [[_ Ho]|(_ & Ho & _)]; rewrite Ho; [left|right]; reflexivity.
Defined.
