(* ===== verification/Pipe.v ===== *)
(** * Pipes ([lib/pipe.c])

    The transfer of bytes through a pipe.  [devpipe_read] and [devpipe_write]
    run in different environments, possibly on different CPUs, and share the
    page with the [struct Pipe]; they are programs of single accesses to that
    page that interleave freely.  [_pipeisclosed] is here a truth value chosen
    at every call.  One reader and one writer; what two readers of one pipe do
    to [p_rpos] is not covered. *)

From S2P Require Import Prelude.

(** ** The code *)

Abbreviation PIPEBUFSIZ := 32 (only parsing).

Record Pipe := mkPipe { p_rpos : Z; p_wpos : Z; p_buf : Z -> Z }.

Definition set_p_rpos (v : Z) (p : Pipe) : Pipe := mkPipe v (p_wpos p) (p_buf p).
Definition set_p_wpos (v : Z) (p : Pipe) : Pipe := mkPipe (p_rpos p) v (p_buf p).
Definition set_p_buf (i b : Z) (p : Pipe) : Pipe := mkPipe (p_rpos p) (p_wpos p) (λ j, if j =? i then b else p_buf p j).

(** Where a read of [n] bytes is that has filled [buf] so far: at the loop
    test, before the load of [p_rpos], before the load of [p_wpos], in the body
    of the waiting loop, before the byte is taken, before [p_rpos++]. *)
Inductive rpc :=
  | RIdle
  | RFor (n : Z) (buf : list Z)
  | RTest (n : Z) (buf : list Z)
  | RComp (n : Z) (buf : list Z) (rpos : Z)
  | REmpty (n : Z) (buf : list Z)
  | RTake (n : Z) (buf : list Z)
  | RInc (n : Z) (buf : list Z) (b : Z).

Definition zlen (l : list Z) : Z := Z.of_nat (length l).

(** One step of [devpipe_read]; the bytes of a read that returned.  It returns
    their number, and 0 at the end of the file. *)
Definition devpipe_read (closed : bool) (p : Pipe) (t : rpc) : Pipe * rpc * option (list Z) :=
  match t with
  | RIdle => (p, RIdle, None)
  | RFor n buf => if zlen buf <? n then (p, RTest n buf, None) else (p, RIdle, Some buf)
  | RTest n buf => (p, RComp n buf (p_rpos p), None)
  | RComp n buf rpos => if rpos =? p_wpos p then (p, REmpty n buf, None) else (p, RTake n buf, None)
  | REmpty n buf =>
      if 0 <? zlen buf then (p, RIdle, Some buf)
      else if closed then (p, RIdle, Some [])
      else (p, RTest n buf, None)
  | RTake n buf => (p, RInc n buf (p_buf p (Z.rem (p_rpos p) PIPEBUFSIZ)), None)
  | RInc n buf b => (set_p_rpos (s32 (p_rpos p + 1)) p, RFor n (buf ++ [b]), None)
  end.

(** Where a write of [buf] is that has stored [i] bytes so far. *)
Inductive wpc :=
  | WIdle
  | WFor (buf : list Z) (i : nat)
  | WTest (buf : list Z) (i : nat)
  | WComp (buf : list Z) (i : nat) (wpos : Z)
  | WFull (buf : list Z) (i : nat)
  | WStore (buf : list Z) (i : nat)
  | WInc (buf : list Z) (i : nat).

(** One step of [devpipe_write]; the number of bytes stored by a write that
    returned, and what it returned. *)
Definition devpipe_write (closed : bool) (p : Pipe) (t : wpc) : Pipe * wpc * option (nat * Z) :=
  match t with
  | WIdle => (p, WIdle, None)
  | WFor buf i => if (i <? length buf)%nat then (p, WTest buf i, None) else (p, WIdle, Some (i, Z.of_nat i))
  | WTest buf i => (p, WComp buf i (p_wpos p), None)
  | WComp buf i wpos => if u32 (p_rpos p + PIPEBUFSIZ) <=? u32 wpos then (p, WFull buf i, None) else (p, WStore buf i, None)
  | WFull buf i => if closed then (p, WIdle, Some (i, 0)) else (p, WTest buf i, None)
  | WStore buf i => (set_p_buf (Z.rem (p_wpos p) PIPEBUFSIZ) (nth i buf 0) p, WInc buf i, None)
  | WInc buf i => (set_p_wpos (s32 (p_wpos p + 1)) p, WFor buf (S i), None)
  end.

(** The pipe, the read and the write in progress, the bytes of the reads and
    the bytes stored by the writes that returned. *)
Record psys := mkSys { ps_pipe : Pipe; ps_rd : rpc; ps_wr : wpc; ps_got : list Z; ps_put : list Z }.

(** [struct Pipe] in the zeroed page of [pipe]. *)
Definition ps_init : psys := mkSys (mkPipe 0 0 (λ _, 0)) RIdle WIdle [] [].

Definition reader_step (closed : bool) (s : psys) : psys :=
  let '(p, t, r) := devpipe_read closed (ps_pipe s) (ps_rd s) in
  mkSys p t (ps_wr s) (ps_got s ++ default [] r) (ps_put s).

Definition wbuf (t : wpc) : list Z :=
  match t with
  | WIdle => []
  | WFor buf _ | WTest buf _ | WComp buf _ _ | WFull buf _ | WStore buf _ | WInc buf _ => buf
  end.

Definition writer_step (closed : bool) (s : psys) : psys :=
  let '(p, t, r) := devpipe_write closed (ps_pipe s) (ps_wr s) in
  mkSys p (ps_rd s) t (ps_got s) (ps_put s ++ match r with Some (i, _) => take i (wbuf (ps_wr s)) | None => [] end).

Definition call_read (n : Z) (s : psys) : psys := mkSys (ps_pipe s) (RFor n []) (ps_wr s) (ps_got s) (ps_put s).
Definition call_write (buf : list Z) (s : psys) : psys := mkSys (ps_pipe s) (ps_rd s) (WFor buf 0) (ps_got s) (ps_put s).

Inductive pstep : psys -> psys -> Prop :=
  | step_call_read n s : ps_rd s = RIdle -> pstep s (call_read n s)
  | step_call_write buf s : ps_wr s = WIdle -> pstep s (call_write buf s)
  | step_reader closed s : pstep s (reader_step closed s)
  | step_writer closed s : pstep s (writer_step closed s).

Abbreviation reachable := (rtc pstep ps_init) (only parsing).

(** ** Bytes sent and received *)

Definition rbuf (t : rpc) : list Z :=
  match t with
  | RIdle => []
  | RFor _ buf | RTest _ buf | RComp _ buf _ | REmpty _ buf | RTake _ buf | RInc _ buf _ => buf
  end.

Definition wdone (t : wpc) : list Z :=
  match t with
  | WIdle => []
  | WFor buf i | WTest buf i | WComp buf i _ | WFull buf i | WStore buf i | WInc buf i => take i buf
  end.

(** All bytes that reads have taken and that writes have stored so far. *)
Definition received (s : psys) : list Z := ps_got s ++ rbuf (ps_rd s).
Definition sent (s : psys) : list Z := ps_put s ++ wdone (ps_wr s).

Definition byte_at (l : list Z) (j : Z) : Z := nth (Z.to_nat j) l 0.

(** Positions stay below this, so that [p_wpos] and [p_rpos + PIPEBUFSIZ] do
    not overflow. *)
Definition PIPELIMIT : Z := 2147483647 - PIPEBUFSIZ.

Definition reader_ok (p : Pipe) (l : list Z) (t : rpc) : Prop :=
  match t with
  | RComp _ _ r => r = p_rpos p
  | RTake _ _ => p_rpos p < p_wpos p
  | RInc _ _ b => p_rpos p < p_wpos p /\ b = byte_at l (p_rpos p)
  | _ => True
  end.

Definition writer_ok (p : Pipe) (t : wpc) : Prop :=
  match t with
  | WIdle => True
  | WFor buf i => (i <= length buf)%nat
  | WTest buf i | WFull buf i => (i < length buf)%nat
  | WComp buf i w => (i < length buf)%nat /\ w = p_wpos p
  | WStore buf i => (i < length buf)%nat /\ p_wpos p < p_rpos p + PIPEBUFSIZ
  | WInc buf i => (i < length buf)%nat /\ p_wpos p < p_rpos p + PIPEBUFSIZ /\ p_buf p (p_wpos p mod PIPEBUFSIZ) = nth i buf 0
  end.

Record pinv (s : psys) : Prop := {
  pi_rpos : p_rpos (ps_pipe s) = zlen (received s);
  pi_wpos : p_wpos (ps_pipe s) = zlen (sent s);
  pi_prefix : received s `prefix_of` sent s;
  pi_room : zlen (sent s) <= zlen (received s) + PIPEBUFSIZ;
  pi_data : forall j, zlen (received s) <= j < zlen (sent s) -> p_buf (ps_pipe s) (j mod PIPEBUFSIZ) = byte_at (sent s) j;
  pi_reader : reader_ok (ps_pipe s) (sent s) (ps_rd s);
  pi_writer : writer_ok (ps_pipe s) (ps_wr s)
}.

Lemma zlen_app l l' : zlen (l ++ l') = zlen l + zlen l'.
Proof. unfold zlen. rewrite length_app. lia. Qed.

Lemma zlen_snoc l b : zlen (l ++ [b]) = zlen l + 1.
Proof. by rewrite zlen_app. Qed.

Lemma byte_at_app l l' j : 0 <= j < zlen l -> byte_at (l ++ l') j = byte_at l j.
Proof. unfold byte_at, zlen. intros. apply app_nth1. lia. Qed.

Lemma byte_at_end l b : byte_at (l ++ [b]) (zlen l) = b.
Proof. unfold byte_at, zlen. rewrite Nat2Z.id, app_nth2, Nat.sub_diag by lia. done. Qed.

Lemma prefix_next (l l' : list Z) : l `prefix_of` l' -> zlen l < zlen l' -> l ++ [byte_at l' (zlen l)] `prefix_of` l'.
Proof.
  intros [k ->] Hlt. rewrite zlen_app in Hlt. destruct k as [|b k]; [unfold zlen in Hlt; simpl in Hlt; lia|].
  unfold byte_at, zlen. rewrite Nat2Z.id, app_nth2, Nat.sub_diag by lia. simpl. exists k. by rewrite <- app_assoc.
Qed.

Lemma s32_next x : 0 <= x < PIPELIMIT -> s32 (x + 1) = x + 1.
Proof. unfold PIPELIMIT. intros. apply s32_small. lia. Qed.

Lemma rem_mod x : 0 <= x -> Z.rem x PIPEBUFSIZ = x mod PIPEBUFSIZ.
Proof. intros. apply Z.rem_mod_nonneg; lia. Qed.

Lemma pinv_order s : pinv s -> 0 <= p_rpos (ps_pipe s) <= p_wpos (ps_pipe s).
Proof.
  intros H. destruct (pi_prefix s H) as [k Hk]. apply (f_equal zlen) in Hk. rewrite zlen_app in Hk.
  rewrite (pi_rpos s H), (pi_wpos s H). unfold zlen in *. lia.
Qed.

(** A step of the reader that takes no byte. *)
Lemma pinv_reader s t got :
  pinv s -> got ++ rbuf t = received s -> reader_ok (ps_pipe s) (sent s) t ->
  pinv (mkSys (ps_pipe s) t (ps_wr s) got (ps_put s)).
Proof.
  intros [Hr Hw Hp Hm Hd Ht Hwr] Eg Ho.
  assert (E : received (mkSys (ps_pipe s) t (ps_wr s) got (ps_put s)) = received s) by exact Eg.
  constructor; rewrite ?E; done.
Qed.

Lemma reader_inv closed s : pinv s -> zlen (sent s) <= PIPELIMIT -> pinv (reader_step closed s).
Proof.
  intros H Hl. pose proof (pinv_order s H) as Ho. pose proof (pi_reader s H) as Ht. unfold reader_step.
  assert (Eg : ps_got s ++ rbuf (ps_rd s) = received s) by done.
  destruct (ps_rd s) as [|n buf|n buf|n buf r|n buf|n buf|n buf b] eqn:Et; cbn [devpipe_read rbuf reader_ok] in *.
  - apply pinv_reader; [done| |done]. by rewrite app_nil_r.
  - destruct (zlen buf <? n); apply pinv_reader; try done; by rewrite app_nil_r.
  - apply pinv_reader; [done| |done]. by rewrite app_nil_r.
  - destruct (Z.eqb_spec r (p_wpos (ps_pipe s))); apply pinv_reader; try done; try (by rewrite app_nil_r). cbn. lia.
  - destruct (0 <? zlen buf) eqn:Eb; [apply pinv_reader; try done; by rewrite app_nil_r|].
    assert (buf = []) as -> by (destruct buf; [done|unfold zlen in Eb; apply Z.ltb_ge in Eb; simpl in Eb; lia]).
    destruct closed; apply pinv_reader; try done; by rewrite !app_nil_r in *.
  - apply pinv_reader; [done|by rewrite app_nil_r|]. split; [done|]. rewrite rem_mod by lia.
    apply (pi_data s H). rewrite <- (pi_rpos s H), <- (pi_wpos s H). lia.
  - destruct Ht as [Hlt Hb]. set (s' := mkSys _ _ _ _ _).
    assert (Er : received s' = received s ++ [b]) by (unfold s', received at 1; cbn; by rewrite app_nil_r, <- Eg, app_assoc).
    assert (Es : sent s' = sent s) by done. rewrite (pi_rpos s H), (pi_wpos s H) in *. pose proof (pi_room s H).
    constructor; rewrite ?Er, ?Es, ?zlen_snoc; try done.
    + cbn. rewrite (pi_rpos s H). apply s32_next. lia.
    + apply (pi_wpos s H).
    + rewrite Hb. apply prefix_next; [apply (pi_prefix s H)|done].
    + lia.
    + intros j Hj. apply (pi_data s H). lia.
    + pose proof (pi_writer s H) as Hwr. cbn. rewrite (pi_rpos s H), s32_next by lia.
      destruct (ps_wr s); cbn [writer_ok p_wpos p_rpos p_buf set_p_rpos] in *; rewrite ?(pi_rpos s H) in *; naive_solver lia.
Qed.

(** A step of the writer that changes at most [p_buf]. *)
Lemma pinv_writer s p t put :
  pinv s -> put ++ wdone t = sent s -> p_rpos p = p_rpos (ps_pipe s) -> p_wpos p = p_wpos (ps_pipe s) ->
  (forall j, p_rpos p <= j < p_wpos p -> p_buf p (j mod PIPEBUFSIZ) = p_buf (ps_pipe s) (j mod PIPEBUFSIZ)) ->
  writer_ok p t -> pinv (mkSys p (ps_rd s) t (ps_got s) put).
Proof.
  intros [Hr Hw Hp Hm Hd Ht Hwr] Eg Er Ew Hb Ho.
  assert (E : sent (mkSys p (ps_rd s) t (ps_got s) put) = sent s) by exact Eg. rewrite Er, Ew in Hb.
  assert (E' : received (mkSys p (ps_rd s) t (ps_got s) put) = received s) by done.
  constructor; rewrite ?E, ?E'; cbn [ps_pipe ps_rd ps_wr]; try congruence; try done.
  - intros j Hj. rewrite Hb by (rewrite Hr, Hw; exact Hj). by apply Hd.
  - destruct (ps_rd s); cbn [reader_ok] in *; rewrite ?Er, ?Ew; done.
Qed.

Lemma take_next (l : list Z) i : (i < length l)%nat -> take (S i) l = take i l ++ [nth i l 0].
Proof.
  intros Hi. destruct (lookup_lt_is_Some_2 l i Hi) as [x Hx]. rewrite (take_S_r _ _ _ Hx). by rewrite (nth_lookup_Some _ _ _ _ Hx).
Qed.

(** Positions less than a buffer apart have different places in it. *)
Lemma place_ne j w : j < w < j + PIPEBUFSIZ -> j mod PIPEBUFSIZ <> w mod PIPEBUFSIZ.
Proof. intros H E. Z.to_euclidean_division_equations. lia. Qed.

Lemma writer_inv closed s : pinv s -> zlen (sent (writer_step closed s)) <= PIPELIMIT -> pinv (writer_step closed s).
Proof.
  intros H. pose proof (pinv_order s H) as Ho. pose proof (pi_writer s H) as Ht. unfold writer_step.
  assert (Eg : ps_put s ++ wdone (ps_wr s) = sent s) by done.
  destruct (ps_wr s) as [|buf i|buf i|buf i w|buf i|buf i|buf i] eqn:Et; cbn [devpipe_write wdone wbuf writer_ok] in *; intros Hl.
  - apply pinv_writer; try done. by rewrite app_nil_r.
  - destruct (Nat.ltb_spec i (length buf)); apply pinv_writer; try done; by rewrite app_nil_r.
  - apply pinv_writer; try done. by rewrite app_nil_r.
  - destruct Ht as [Hi ->]. destruct (Z.leb_spec (u32 (p_rpos (ps_pipe s) + PIPEBUFSIZ)) (u32 (p_wpos (ps_pipe s)))) as [Hle|Hle];
      apply pinv_writer; try done; try (by rewrite app_nil_r). split; [done|].
    assert (Es : sent (mkSys (ps_pipe s) (ps_rd s) (WStore buf i) (ps_got s) (ps_put s ++ [])) = sent s) by (unfold sent at 1; cbn; by rewrite app_nil_r).
    rewrite Es, <- (pi_wpos s H) in Hl. unfold PIPELIMIT in Hl. rewrite !u32_small in Hle by lia. lia.
  - destruct closed; apply pinv_writer; try done; by rewrite app_nil_r.
  - destruct Ht as [Hi Hlt]. apply pinv_writer; try done; [by rewrite app_nil_r|..].
    + cbn. intros j Hj. rewrite rem_mod by lia. destruct (Z.eqb_spec (j mod 32) (p_wpos (ps_pipe s) mod 32)) as [E|]; [|done].
      exfalso. apply (place_ne j (p_wpos (ps_pipe s))); [lia|done].
    + cbn. split; [done|]. split; [done|]. by rewrite rem_mod, Z.eqb_refl by lia.
  - destruct Ht as (Hi & Hlt & Hb). set (s' := mkSys _ _ _ _ _) in *.
    assert (Es : sent s' = sent s ++ [nth i buf 0]).
    { unfold s', sent at 1. cbn [ps_put ps_wr wdone]. by rewrite app_nil_r, take_next, app_assoc, Eg by done. }
    assert (Er : received s' = received s) by done. rewrite Es, zlen_snoc in Hl. pose proof (pi_room s H) as Hm.
    pose proof (pi_reader s H) as Hrd. rewrite (pi_rpos s H), (pi_wpos s H) in *.
    constructor; rewrite ?Er, ?Es, ?zlen_snoc; try done.
    + apply (pi_rpos s H).
    + cbn. rewrite (pi_wpos s H). apply s32_next. lia.
    + etransitivity; [apply (pi_prefix s H)|]. by exists [nth i buf 0].
    + lia.
    + intros j Hj. cbn. destruct (decide (j = zlen (sent s))) as [->|Hne]; [by rewrite byte_at_end|].
      rewrite byte_at_app by lia. apply (pi_data s H). lia.
    + cbn. rewrite (pi_wpos s H), s32_next by lia. destruct (ps_rd s); cbn [reader_ok p_wpos p_rpos set_p_wpos] in *; rewrite ?(pi_rpos s H), ?(pi_wpos s H) in *; try done; [lia|].
      destruct Hrd as [? ->]. split; [lia|]. rewrite byte_at_app by lia. done.
Qed.

(** ** Reachable states *)

(** No step takes back a byte that was sent. *)
Lemma step_mono s s' : pstep s s' -> zlen (sent s) <= zlen (sent s').
Proof.
  intros [n s1 _|buf s1 E|closed s1|closed s1].
  - done.
  - unfold sent, call_write. rewrite E. done.
  - unfold reader_step, sent. destruct (devpipe_read closed (ps_pipe s1) (ps_rd s1)) as [[p t] r]. done.
  - unfold writer_step, sent. destruct (ps_wr s1) as [|buf i|buf i|buf i w|buf i|buf i|buf i]; cbn [devpipe_write wbuf].
    + cbn. by rewrite !app_nil_r.
    + destruct (Nat.ltb i (length buf)); cbn; by rewrite !app_nil_r.
    + cbn. by rewrite !app_nil_r.
    + destruct (u32 _ <=? u32 _); cbn; by rewrite !app_nil_r.
    + destruct closed; cbn; by rewrite !app_nil_r.
    + cbn. by rewrite !app_nil_r.
    + cbn [ps_put ps_wr wdone]. rewrite app_nil_r, !zlen_app. unfold zlen. rewrite !length_take. lia.
Qed.

Lemma init_inv : pinv ps_init.
Proof. constructor; try done. intros j Hj. unfold zlen in Hj. simpl in Hj. lia. Qed.

Lemma reachable_inv s : reachable s -> zlen (sent s) <= PIPELIMIT -> pinv s.
Proof.
  revert s. apply (rtc_ind_r (λ s, zlen (sent s) <= PIPELIMIT -> pinv s)); [intros _; apply init_inv|].
  intros s s' _ Hst IH Hl. pose proof (step_mono _ _ Hst) as Hmono. assert (H : pinv s) by (apply IH; lia).
  destruct Hst as [n s E|buf s E|closed s|closed s].
  - apply pinv_reader; [done| |done]. unfold received. by rewrite E.
  - apply (pinv_writer s (ps_pipe s)); try done; [unfold sent; by rewrite E|cbn; lia].
  - apply reader_inv; [done|lia].
  - by apply writer_inv.
Qed.

(** ** Running alone *)

Lemma drop_next (l : list Z) i : (i < length l)%nat -> drop i l = nth i l 0 :: drop (S i) l.
Proof. intros Hi. destruct (lookup_lt_is_Some_2 l i Hi) as [x Hx]. rewrite (drop_S _ _ _ Hx). by rewrite (nth_lookup_Some _ _ _ _ Hx). Qed.

(** The reader or the writer makes steps and the other one does not. *)
Definition read_alone (closed : bool) : relation psys := rtc (λ s s', s' = reader_step closed s).
Definition write_alone (closed : bool) : relation psys := rtc (λ s s', s' = writer_step closed s).

Tactic Notation "alone" "by" tactic3(t) :=
  eapply rtc_l;
  [ cbv beta; unfold reader_step, writer_step; cbn [ps_pipe ps_rd ps_wr ps_got ps_put devpipe_read devpipe_write]; t;
    cbn [default]; rewrite ?app_nil_r; reflexivity | ].

(** Five steps take a byte that is there. *)
Lemma read_byte closed p n buf w got put :
  zlen buf < n -> p_rpos p <> p_wpos p ->
  read_alone closed (mkSys p (RFor n buf) w got put)
    (mkSys (set_p_rpos (s32 (p_rpos p + 1)) p) (RFor n (buf ++ [p_buf p (Z.rem (p_rpos p) PIPEBUFSIZ)])) w got put).
Proof.
  intros Hn Hne. apply Z.ltb_lt in Hn. apply Z.eqb_neq in Hne. unfold read_alone.
  alone by (rewrite Hn). alone by idtac. alone by (rewrite Hne). alone by idtac. alone by idtac. done.
Qed.

Lemma read_alone_inv closed s s' : read_alone closed s s' -> pinv s -> zlen (sent s) <= PIPELIMIT -> pinv s'.
Proof.
  intros Hs. assert (E : pinv s -> zlen (sent s) <= PIPELIMIT -> pinv s' /\ sent s' = sent s); [|tauto].
  induction Hs as [s|s s1 s' -> _ IH]; intros H Hl; [done|].
  assert (Es : sent (reader_step closed s) = sent s).
  { unfold reader_step, sent. by destruct (devpipe_read closed (ps_pipe s) (ps_rd s)) as [[p t] r]. }
  rewrite Es in IH. apply IH; [by apply reader_inv|done].
Qed.

(** What is pending, up to [n] bytes in all. *)
Lemma read_pending closed k : forall s n buf,
  pinv s -> zlen (sent s) <= PIPELIMIT -> ps_rd s = RFor n buf -> zlen buf <= n ->
  Z.of_nat k = Z.min (n - zlen buf) (zlen (sent s) - zlen (received s)) -> 0 < zlen buf \/ 0 < Z.of_nat k \/ n = 0 ->
  exists s', read_alone closed s s' /\ ps_rd s' = RIdle /\ ps_wr s' = ps_wr s /\ ps_put s' = ps_put s /\
    ps_got s' = received s ++ take k (drop (length (received s)) (sent s)).
Proof.
  induction k as [|k IH]; intros s n buf H Hl Et Hn Hk Hne; pose proof H as [Hr Hw Hp Hm Hd _ _];
    assert (H0 : 0 <= zlen buf /\ 0 <= zlen (received s)) by (unfold zlen; lia);
    destruct s as [p t w got put]; cbn [ps_pipe ps_rd ps_wr ps_got ps_put] in *; subst t.
  - exists (mkSys p RIdle w (got ++ buf) put). split; [|split_and!; try done; by rewrite take_0, app_nil_r].
    unfold read_alone. destruct (decide (zlen buf < n)) as [Hlt|Hge].
    + assert (Hz : 0 < zlen buf) by lia. apply Z.ltb_lt in Hlt, Hz.
      assert (Heq : (p_rpos p =? p_wpos p) = true) by (apply Z.eqb_eq; apply Z.ltb_lt in Hlt; lia).
      alone by (rewrite Hlt). alone by idtac. alone by (rewrite Heq). alone by (rewrite Hz). done.
    + alone by (rewrite (proj2 (Z.ltb_ge _ _)) by lia). done.
  - assert (Hlt : p_rpos p < p_wpos p) by lia. set (b := p_buf p (Z.rem (p_rpos p) PIPEBUFSIZ)).
    pose proof (read_byte closed p n buf w got put ltac:(lia) ltac:(lia)) as Hs. fold b in Hs.
    set (s1 := mkSys (set_p_rpos (s32 (p_rpos p + 1)) p) (RFor n (buf ++ [b])) w got put) in *.
    set (s := mkSys p (RFor n buf) w got put) in *.
    assert (Er : received s1 = received s ++ [b]) by (unfold received; cbn; by rewrite app_assoc).
    assert (Eb : b = nth (length (received s)) (sent s) 0).
    { unfold b. rewrite rem_mod, Hr, Hd by lia. unfold byte_at, zlen. by rewrite Nat2Z.id. }
    destruct (IH s1 n (buf ++ [b])) as (s' & Hs' & R1 & R2 & R3 & R4); try done.
    + by apply (read_alone_inv closed s).
    + rewrite zlen_snoc. lia.
    + rewrite Er, !zlen_snoc. change (sent s1) with (sent s). lia.
    + rewrite zlen_snoc. unfold zlen. lia.
    + exists s'. split; [etransitivity; [exact Hs|exact Hs']|]. split; [done|]. split; [done|]. split; [done|].
      rewrite R4, Er, <- app_assoc. change (sent s1) with (sent s). rewrite (drop_next (sent s) (length (received s))) by (unfold zlen in *; lia).
      rewrite length_app, Nat.add_1_r, Eb. done.
Qed.

(** Five steps store a byte for which there is room. *)
Lemma write_byte closed p t buf i got put :
  (i < length buf)%nat -> u32 (p_wpos p) < u32 (p_rpos p + PIPEBUFSIZ) ->
  write_alone closed (mkSys p t (WFor buf i) got put)
    (mkSys (set_p_wpos (s32 (p_wpos p + 1)) (set_p_buf (Z.rem (p_wpos p) PIPEBUFSIZ) (nth i buf 0) p)) t (WFor buf (S i)) got put).
Proof.
  intros Hi Hlt. apply Nat.ltb_lt in Hi. apply Z.leb_gt in Hlt. unfold write_alone.
  alone by (rewrite Hi). alone by idtac. alone by (rewrite Hlt). alone by idtac. alone by idtac. done.
Qed.

Lemma write_alone_inv closed s s' : write_alone closed s s' -> pinv s -> zlen (sent s') <= PIPELIMIT -> pinv s'.
Proof.
  intros Hs. assert (E : zlen (sent s) <= zlen (sent s') /\ (pinv s -> zlen (sent s') <= PIPELIMIT -> pinv s')); [|tauto].
  induction Hs as [s|s s1 s' -> _ [Hm IH]]; [done|]. pose proof (step_mono _ _ (step_writer closed s)) as Hst.
  split; [lia|]. intros H Hl. apply IH; [apply writer_inv; [done|lia]|done].
Qed.

Lemma write_room closed m : forall s buf i,
  pinv s -> ps_wr s = WFor buf i -> (i + m = length buf)%nat ->
  zlen (sent s) + Z.of_nat m <= zlen (received s) + PIPEBUFSIZ -> zlen (sent s) + Z.of_nat m <= PIPELIMIT ->
  exists s', write_alone closed s s' /\ ps_wr s' = WIdle /\ ps_rd s' = ps_rd s /\ ps_got s' = ps_got s /\
    ps_put s' = sent s ++ drop i buf.
Proof.
  induction m as [|m IH]; intros s buf i H Et Hm Hroom Hl; pose proof H as [Hr Hw Hp _ Hd Hrd _]; pose proof (pinv_order s H) as Ho;
    destruct s as [p t w got put]; cbn [ps_pipe ps_rd ps_wr ps_got ps_put] in *; subst w.
  - exists (mkSys p t WIdle got (put ++ take i buf)). rewrite Nat.add_0_r in Hm. subst i. split.
    + unfold write_alone. alone by (rewrite Nat.ltb_irrefl; cbn [wbuf]). done.
    + split_and!; try done. by rewrite drop_all, app_nil_r.
  - set (s := mkSys p t (WFor buf i) got put) in *. assert (Hi : (i < length buf)%nat) by lia.
    assert (Hu : u32 (p_wpos p) < u32 (p_rpos p + PIPEBUFSIZ)) by (unfold PIPELIMIT in Hl; rewrite !u32_small by lia; lia).
    pose proof (write_byte closed p t buf i got put Hi Hu) as Hs. fold s in Hs.
    set (s1 := mkSys _ t (WFor buf (S i)) got put) in Hs.
    assert (Es : sent s1 = sent s ++ [nth i buf 0]) by (unfold sent; cbn [s1 s ps_put ps_wr wdone]; by rewrite take_next, app_assoc).
    assert (H1 : pinv s1) by (apply (write_alone_inv closed s); [done..|rewrite Es, zlen_snoc; lia]).
    destruct (IH s1 buf (S i)) as (s' & Hs' & R1 & R2 & R3 & R4); try done; [lia|rewrite Es, zlen_snoc; change (received s1) with (received s); lia|rewrite Es, zlen_snoc; lia|].
    exists s'. split; [etransitivity; [exact Hs|exact Hs']|]. split; [done|]. split; [done|]. split; [done|].
    rewrite R4, Es, <- app_assoc. by rewrite (drop_next buf i Hi).
Qed.

(** ** Properties *)

(** C22: A pipe with one reader and one writer is a queue of at most 32 bytes, in
    every interleaving of their accesses: what the reads have taken is at every
    moment a prefix of what the writes have stored, no byte is overwritten
    before it is read, and the positions count the bytes, as long as less than
    2 GB went through the pipe. *)
Theorem pipe_fifo s :
  reachable s -> zlen (sent s) <= PIPELIMIT ->
  received s `prefix_of` sent s /\ zlen (sent s) - zlen (received s) <= PIPEBUFSIZ /\
  p_rpos (ps_pipe s) = zlen (received s) /\ p_wpos (ps_pipe s) = zlen (sent s) /\
  forall j, zlen (received s) <= j < zlen (sent s) -> p_buf (ps_pipe s) (j mod PIPEBUFSIZ) = byte_at (sent s) j.
Proof.
  intros Hs Hl. destruct (reachable_inv s Hs Hl). split_and!; try done. lia.
Qed.

(** [n] steps of each, in turns. *)
Fixpoint turns (n : nat) (s : psys) : psys :=
  match n with O => s | S n' => turns n' (writer_step false (reader_step false s)) end.

Lemma turns_reachable n s : reachable s -> reachable (turns n s).
Proof.
  revert s. induction n as [|n IH]; intros s Hs; [done|]. cbn. apply IH.
  eapply rtc_r; [eapply rtc_r; [exact Hs|apply step_reader]|apply step_writer].
Qed.

(** A write of 40 bytes and a read of 36. *)
Definition pipe_sample : psys := turns 250 (call_read 36 (call_write (seqZ 1 40) ps_init)).

Lemma pipe_fifo_witness : ps_got pipe_sample = seqZ 1 36 /\ received pipe_sample `prefix_of` sent pipe_sample.
Proof.
  split; [vm_compute; reflexivity|]. apply (pipe_fifo pipe_sample).
  - apply turns_reachable. eapply rtc_l; [apply step_call_write; reflexivity|]. apply rtc_once, step_call_read. reflexivity.
  - vm_compute. discriminate.
Defined.

(** C23: A read or write that can proceed does, whatever the other side does not do:
    a read that finds bytes returns up to [n] of them without waiting, a read
    from an empty pipe without writers returns the end of the file, and a write
    for which there is room stores the whole buffer. *)
Theorem pipe_progress s :
  reachable s -> zlen (sent s) <= PIPELIMIT ->
  (forall n closed, ps_rd s = RIdle -> 0 <= n -> zlen (received s) < zlen (sent s) ->
     exists s', read_alone closed (call_read n s) s' /\ ps_rd s' = RIdle /\ ps_wr s' = ps_wr s /\
       ps_got s' = ps_got s ++ take (Z.to_nat n) (drop (length (received s)) (sent s))) /\
  (forall n, ps_rd s = RIdle -> 0 < n -> zlen (received s) = zlen (sent s) ->
     exists s', read_alone true (call_read n s) s' /\ ps_rd s' = RIdle /\ ps_got s' = ps_got s) /\
  (forall buf closed, ps_wr s = WIdle -> zlen (sent s) + zlen buf <= zlen (received s) + PIPEBUFSIZ ->
     zlen (sent s) + zlen buf <= PIPELIMIT ->
     exists s', write_alone closed (call_write buf s) s' /\ ps_wr s' = WIdle /\ ps_rd s' = ps_rd s /\
       ps_put s' = ps_put s ++ buf).
Proof.
  intros Hs Hl. pose proof (reachable_inv s Hs Hl) as H. split_and!.
  - intros n closed Er Hn Hlt. assert (Erc : received (call_read n s) = received s) by (unfold received; by rewrite Er).
    assert (Eg : received s = ps_got s) by (unfold received; rewrite Er; apply app_nil_r).
    set (k := Z.to_nat (Z.min n (zlen (sent s) - zlen (received s)))).
    destruct (read_pending closed k (call_read n s) n []) as (s' & R1 & R2 & R3 & _ & R5); try done.
    + apply (reachable_inv (call_read n s)); [|done]. eapply rtc_r; [exact Hs|]. by apply step_call_read.
    + rewrite Erc. change (sent (call_read n s)) with (sent s). unfold zlen at 1. simpl. unfold k. lia.
    + unfold k. lia.
    + exists s'. split; [done|]. split; [done|]. split; [done|]. rewrite R5, Erc, Eg. change (sent (call_read n s)) with (sent s). f_equal.
      unfold k. rewrite <- Eg. destruct (Z.min_spec n (zlen (sent s) - zlen (received s))) as [[_ ->]|[Hle ->]]; [done|].
      rewrite !take_ge; [done|..]; rewrite length_drop; unfold zlen in *; lia.
  - intros n Er Hn Heq. pose proof (pi_rpos s H) as Hr. pose proof (pi_wpos s H) as Hw.
    assert (Eq : (p_rpos (ps_pipe s) =? p_wpos (ps_pipe s)) = true) by (apply Z.eqb_eq; lia).
    exists (mkSys (ps_pipe s) RIdle (ps_wr s) (ps_got s) (ps_put s)). split; [|done]. unfold read_alone, call_read.
    alone by (rewrite (proj2 (Z.ltb_lt _ _)) by (unfold zlen; simpl; lia)). alone by idtac. alone by (rewrite Eq). alone by (change (0 <? zlen []) with false; cbv iota). done.
  - intros buf closed Ew Hroom Hlim. assert (Es : sent (call_write buf s) = sent s) by (unfold sent; by rewrite Ew).
    destruct (write_room closed (length buf) (call_write buf s) buf 0) as (s' & R1 & R2 & R3 & _ & R5); try done.
    + apply (reachable_inv (call_write buf s)); [|rewrite Es; done]. eapply rtc_r; [exact Hs|]. by apply step_call_write.
    + rewrite Es. exact Hroom.
    + rewrite Es. exact Hlim.
    + exists s'. split; [done|]. split; [done|]. split; [done|]. rewrite R5, Es, drop_0. unfold sent. rewrite Ew. cbn. by rewrite app_nil_r.
Qed.

Lemma pipe_progress_witness :
  exists s', read_alone false (call_read 3 pipe_sample) s' /\ ps_got s' = seqZ 1 39.
Proof.
  assert (Hr : reachable pipe_sample).
  { apply turns_reachable. eapply rtc_l; [apply step_call_write; reflexivity|]. apply rtc_once, step_call_read. reflexivity. }
  destruct (pipe_progress pipe_sample Hr) as (T & _).
  - vm_compute. discriminate.
  - destruct (T 3 false) as (s' & R & _ & _ & Eg).
    + vm_compute. reflexivity.
    + lia.
    + vm_compute. reflexivity.
    + exists s'. split; [exact R|]. rewrite Eg. vm_compute. reflexivity.
Defined.
