(* ===== verification/Printf.v ===== *)
(** * Formatted output ([lib/printfmt.c])

    [vprintfmt] passes characters to a function [putch]; here it computes the
    list of the characters it passes, and how it ends.  A [va_list] is a list
    of 32-bit words and string literals.  Strings are read from memory, which can fault.  The
    kernel's [cprintf] and [vsnprintf] put the characters on the console or
    into a buffer. *)

From S2P Require Import Prelude Console LibString Mmu.

(** ** Data *)

(** How a call ends: it returns, reading a string faults, it reads an argument
    that was not passed (or an entry past [error_string]), or the fuel for
    strings is used up. *)
Inductive pend := PDone | PFault | PUndefined | PFuel.

Definition out : Type := list Z * pend.

Definition emit (l : list Z) (o : out) : out := (l ++ o.1, o.2).

(** Go on with [k] after a part that may have ended the call. *)
Definition andthen (o : out) (k : out) : out :=
  match o.2 with PDone => emit o.1 k | _ => o end.

(** An argument: a word, or a pointer to a string literal. *)
Inductive parg := AW (w : Z) | AS (l : string).

(** A string to print: a pointer to be read with [rd], or a literal. *)
Inductive csrc := Ptr (p : Z) | Lit (l : list Z).

Definition char_at (rd : Z -> option Z) (p : csrc) (k : nat) : option Z :=
  match p with
  | Ptr a => rd (u32 (a + Z.of_nat k))
  | Lit l => Some (default 0 (l !! k))
  end.

(** The flags of a conversion. *)
Record pflags := mkFlags { padc : Z; width : Z; precision : Z; lflag : Z; altflag : bool }.

Definition flags0 : pflags := mkFlags 32 (-1) (-1) 0 false.

Definition set_padc v f := mkFlags v (width f) (precision f) (lflag f) (altflag f).
Definition set_width v f := mkFlags (padc f) v (precision f) (lflag f) (altflag f).
Definition set_precision v f := mkFlags (padc f) (width f) v (lflag f) (altflag f).
Definition set_lflag v f := mkFlags (padc f) (width f) (precision f) v (altflag f).
Definition set_altflag f := mkFlags (padc f) (width f) (precision f) (lflag f) true.

Definition error_string : list (option string) :=
  [None; Some "unspecified error"; Some "bad environment"; Some "invalid parameter";
   Some "out of memory"; Some "out of environments"; Some "segmentation fault";
   Some "env is not recving"; Some "unexpected end of file"; Some "no free space on disk";
   Some "too many files are open"; Some "file or block not found"; Some "invalid path";
   Some "file already exists"; Some "file is not a valid executable";
   Some "operation not supported"]%string.

Abbreviation MAXERROR := 16 (only parsing).

(** ** Numbers *)

(** [Digit] of a value below 16. *)
Definition digit_char (d : Z) : Z := if d <? 10 then 48 + d else 97 + (d - 10).

Fixpoint printnum (fuel : nat) (num base width padc : Z) : list Z :=
  match fuel with
  | O => []
  | S f =>
      (if base <=? num then printnum f (num / base) base (width - 1) padc
       else replicate (Z.to_nat (width - 1)) padc) ++ [digit_char (num mod base)]
  end.

(** The 64 bits of a [long long] passed as two words, low word first. *)
Definition getuint (ap : list parg) (lflag : Z) : option (Z * list parg) :=
  if 2 <=? lflag then
    match ap with AW lo :: AW hi :: ap' => Some (u32 lo + 4294967296 * u32 hi, ap') | _ => None end
  else match ap with AW x :: ap' => Some (u32 x, ap') | _ => None end.

Definition getint (ap : list parg) (lflag : Z) : option (Z * list parg) :=
  if 2 <=? lflag then
    match ap with AW lo :: AW hi :: ap' => Some (u32 lo + 4294967296 * s32 hi, ap') | _ => None end
  else match ap with AW x :: ap' => Some (s32 x, ap') | _ => None end.

(** A [long long] has at most 20 decimal digits. *)
Definition number (num base : Z) (f : pflags) : list Z := printnum 64 num base (width f) (padc f).

(** ** Strings *)

Fixpoint src_strnlen (fuel : nat) (rd : Z -> option Z) (p : csrc) (k : nat) (size : Z) : option (option Z) :=
  match fuel with
  | O => None
  | S fu =>
      if size <=? 0 then Some (Some (Z.of_nat k))
      else match char_at rd p k with
           | None => Some None
           | Some c => if c =? 0 then Some (Some (Z.of_nat k)) else src_strnlen fu rd p (S k) (size - 1)
           end
  end.

(** The characters of the string; the width that is left. *)
Fixpoint print_chars (fuel : nat) (rd : Z -> option Z) (p : csrc) (k : nat) (prec width : Z) (alt : bool)
    : out * Z :=
  match fuel with
  | O => ([], PFuel, width)
  | S fu =>
      match char_at rd p k with
      | None => ([], PFault, width)
      | Some b =>
          if (b =? 0) || negb ((prec <? 0) || (0 <=? prec - 1)) then ([], PDone, width)
          else
            let ch := schar b in
            let c := if alt && ((ch <? 32) || (126 <? ch)) then 63 else ch in
            let '(o, w) := print_chars fu rd p (S k) (if prec <? 0 then prec else prec - 1) (width - 1) alt in
            (emit [c] o, w)
      end
  end.

Definition print_str (fuel : nat) (rd : Z -> option Z) (p : csrc) (f : pflags) : out :=
  let p := match p with Ptr 0 => Lit (codes "(null)") | _ => p end in
  let pad :=
    if (0 <? width f) && negb (padc f =? 45) then
      match src_strnlen fuel rd p 0 (u32 (precision f)) with
      | None => inr PFuel
      | Some None => inr PFault
      | Some (Some n) => inl (replicate (Z.to_nat (width f - n)) (padc f), Z.min (width f - n) 0)
      end
    else inl ([], width f) in
  match pad with
  | inr e => ([], e)
  | inl (l, w) =>
      let '(o, w') := print_chars fuel rd p 0 (precision f) w (altflag f) in
      emit l (andthen o (replicate (Z.to_nat w') 32, PDone))
  end.

(** ** The format string *)

Definition is_digit (c : Z) : bool := (48 <=? c) && (c <=? 57).

(** The digits after a first one that made [n]. *)
Fixpoint parse_digits (fmt : list Z) (n : Z) : Z * list Z :=
  match fmt with
  | c :: fmt' => if is_digit c then parse_digits fmt' (s32 (n * 10 + c - 48)) else (n, fmt)
  | [] => (n, [])
  end.

Definition process_precision (p : Z) (f : pflags) : pflags :=
  if width f <? 0 then set_precision (-1) (set_width p f) else set_precision p f.

(** From [reswitch] on: the flags, up to the conversion character, which is
    [0] at the end of the format. *)
Fixpoint reswitch (fuel : nat) (fmt : list Z) (ap : list parg) (f : pflags)
    : option (Z * list Z * list parg * pflags) :=
  match fuel with
  | O => None
  | S fu =>
      match fmt with
      | [] => Some (0, [], ap, f)
      | ch :: fmt' =>
          if ch =? 45 then reswitch fu fmt' ap (set_padc 45 f)
          else if ch =? 48 then reswitch fu fmt' ap (set_padc 48 f)
          else if is_digit ch then
            let '(p, fmt'') := parse_digits fmt' (ch - 48) in
            reswitch fu fmt'' ap (process_precision p f)
          else if ch =? 42 then
            match ap with
            | AW x :: ap' => reswitch fu fmt' ap' (process_precision (s32 x) f)
            | _ => None
            end
          else if ch =? 46 then reswitch fu fmt' ap (if width f <? 0 then set_width 0 f else f)
          else if ch =? 35 then reswitch fu fmt' ap (set_altflag f)
          else if ch =? 108 then reswitch fu fmt' ap (set_lflag (lflag f + 1) f)
          else Some (ch, fmt', ap, f)
      end
  end.

(** The conversions other than [%e]: the output and the arguments left;
    [None] when an argument is missing. *)
Definition convert (fuel : nat) (rd : Z -> option Z) (ch : Z) (ap : list parg) (f : pflags)
    : option (out * list parg) :=
  if ch =? 99 then (* c *)
    match ap with AW x :: ap' => Some (([s32 x], PDone), ap') | _ => None end
  else if ch =? 115 then (* s *)
    match ap with
    | AW p :: ap' => Some (print_str fuel rd (Ptr (u32 p)) f, ap')
    | AS l :: ap' => Some (print_str (S (String.length l)) rd (Lit (codes l)) f, ap')
    | [] => None
    end
  else if ch =? 100 then (* d *)
    '(num, ap') ← getint ap (lflag f);
    Some (if num <? 0 then (45 :: number (- num) 10 f, PDone) else (number num 10 f, PDone), ap')
  else if ch =? 117 then (* u *)
    '(num, ap') ← getuint ap (lflag f);
    Some ((number num 10 f, PDone), ap')
  else if ch =? 111 then Some (([88; 88; 88], PDone), ap) (* o *)
  else if ch =? 112 then (* p *)
    match ap with AW x :: ap' => Some ((48 :: 120 :: number (u32 x) 16 f, PDone), ap') | _ => None end
  else if ch =? 120 then (* x *)
    '(num, ap') ← getuint ap (lflag f);
    Some ((number num 16 f, PDone), ap')
  else Some (([37], PDone), ap).

Definition is_conversion (ch : Z) : bool :=
  existsb (Z.eqb ch) (codes "csduopx%").

(** [vprintfmt]; [errmsg] is what [%e] prints for an error number.  After an
    unknown conversion the format is read again from behind its [%]. *)
Fixpoint vprintfmt_with (errmsg : Z -> out) (n fuel : nat) (rd : Z -> option Z) (fmt : list Z)
    (ap : list parg) : out :=
  match n with
  | O => ([], PFuel)
  | S n' =>
      match fmt with
      | [] => ([], PDone)
      | ch :: fmt' =>
          if negb (ch =? 37) then emit [ch] (vprintfmt_with errmsg n' fuel rd fmt' ap)
          else
            match reswitch (S (length fmt')) fmt' ap flags0 with
            | None => ([], PUndefined)
            | Some (c, rest, ap', f) =>
                if c =? 101 then (* e *)
                  match ap' with
                  | AW x :: ap'' => andthen (errmsg (s32 x)) (vprintfmt_with errmsg n' fuel rd rest ap'')
                  | _ => ([], PUndefined)
                  end
                else if is_conversion c then
                  match convert fuel rd c ap' f with
                  | None => ([], PUndefined)
                  | Some (o, ap'') => andthen o (vprintfmt_with errmsg n' fuel rd rest ap'')
                  end
                else emit [37] (vprintfmt_with errmsg n' fuel rd fmt' ap')
            end
      end
  end.

(** What [%e] prints: the recursive calls have no [%e] of their own. *)
Definition print_error (err : Z) : out :=
  let err := if err <? 0 then s32 (- err) else err in
  if MAXERROR <=? err then vprintfmt_with (λ _, ([], PUndefined)) 9 1 (λ _, None) (codes "error %d") [AW err]
  else if err <? 0 then ([], PUndefined)
  else
    match error_string !! Z.to_nat err with
    | Some (Some p) => print_str 64 (λ _, None) (Lit (codes p)) flags0
    | _ => vprintfmt_with (λ _, ([], PUndefined)) 9 1 (λ _, None) (codes "error %d") [AW err]
    end.

Definition vprintfmt (fuel : nat) (rd : Z -> option Z) (fmt : list Z) (ap : list parg) : out :=
  vprintfmt_with print_error (S (length fmt)) fuel rd fmt ap.

(** ** [vsnprintf] *)

Record sprintbuf := mkSprint { sb_mem : bmem; sb_buf : Z; sb_ebuf : Z; sb_cnt : Z }.

Definition sprintputch (b : sprintbuf) (ch : Z) : sprintbuf :=
  if sb_buf b <? sb_ebuf b then
    mkSprint (put (sb_buf b) (u8 ch) (sb_mem b)) (sb_buf b + 1) (sb_ebuf b) (sb_cnt b + 1)
  else mkSprint (sb_mem b) (sb_buf b) (sb_ebuf b) (sb_cnt b + 1).

(** The strings printed are outside the buffer, so that what is read does not
    depend on what was written. *)
Definition vsnprintf (fuel : nat) (m : bmem) (buf n : Z) (fmt : list Z) (ap : list parg)
    : option (bmem * Z) :=
  if (buf =? 0) || (n <? 1) then Some (m, - E_INVAL)
  else
    let o := vprintfmt fuel (λ a, Some (m a)) fmt ap in
    match o.2 with
    | PDone =>
        let b := fold_left sprintputch o.1 (mkSprint m buf (buf + n - 1) 0) in
        Some (put (sb_buf b) 0 (sb_mem b), sb_cnt b)
    | _ => None
    end.

Example vprintfmt_ex :
  vprintfmt 10 (λ _, None) (codes "[%08x] %5d%% %e %q") [AW 0x1001; AW (-42); AW (-4)] =
    (codes "[00001001] -   42% out of memory %q", PDone).
Proof. vm_compute. reflexivity. Qed.

(** ** Numbers are printed in their base *)

Lemma digit_char_range d : 0 <= d < 16 -> 48 <= digit_char d < 103.
Proof. intros. unfold digit_char. destruct (Z.ltb_spec d 10); lia. Qed.

Lemma digit_of_char d : 0 <= d < 16 -> digit_of (digit_char d) = Some d.
Proof.
  intros Hd. unfold digit_char, digit_of.
  destruct (Z.ltb_spec d 10); cases_range; try lia; f_equal; lia.
Qed.

Lemma s32_u32_eq x y : u32 x = u32 y -> s32 x = s32 y.
Proof. unfold s32. by intros ->. Qed.

Lemma s32_mod x : exists k, s32 x = x + 4294967296 * k.
Proof.
  unfold s32, u32. pose proof (Z.div_mod x 4294967296 ltac:(lia)).
  destruct (Z.ltb_spec (x mod 4294967296) 2147483648); [exists (- (x / 4294967296))|exists (- (x / 4294967296) - 1)]; lia.
Qed.

Lemma s32_shift x k : s32 (x + 4294967296 * k) = s32 x.
Proof. apply s32_u32_eq. unfold u32. rewrite Z.mul_comm. by apply Z.mod_add. Qed.

Lemma s32_signed x : -2147483648 <= x < 2147483648 -> s32 x = x.
Proof.
  intros Hx. destruct (Z.le_gt_cases 0 x); [apply s32_small; lia|].
  rewrite <- (s32_shift x 1). unfold s32. rewrite u32_small by lia.
  destruct (Z.ltb_spec (x + 4294967296 * 1) 2147483648); lia.
Qed.

Lemma s32_step v b d : s32 (s32 v * b + d) = s32 (v * b + d).
Proof.
  destruct (s32_mod v) as (k & ->). rewrite <- (s32_shift (v * b + d) (k * b)). f_equal. lia.
Qed.

(** The digits alone, and their number. *)
Definition digits (f : nat) (num base : Z) : list Z := printnum f num base 0 0.
Definition ndigits (f : nat) (num base : Z) : Z := Z.of_nat (length (digits f num base)).

(** [printnum] pads the digits to the width. *)
Lemma printnum_pad f num base w c :
  2 <= base -> 0 <= num < base ^ Z.of_nat (S f) ->
  printnum (S f) num base w c =
    replicate (Z.to_nat (w - ndigits (S f) num base)) c ++ digits (S f) num base.
Proof.
  intros Hb. unfold ndigits, digits. revert num w c. induction f as [|f IH]; intros num w c Hn.
  - rewrite Z.pow_1_r in Hn. cbn [printnum]. destruct (Z.leb_spec base num); [lia|].
    change (Z.to_nat (0 - 1)) with O. done.
  - remember (S f) as g. cbn [printnum]. destruct (Z.leb_spec base num).
    + assert (Hq : 0 <= num / base < base ^ Z.of_nat g).
      { split; [apply Z.div_pos; lia|]. apply Z.div_lt_upper_bound; [lia|].
        rewrite Nat2Z.inj_succ, Z.pow_succ_r in Hn by lia. lia. }
      rewrite (IH _ (w - 1)), (IH _ (0 - 1) 0) by done. rewrite !length_app, length_replicate. cbn [length].
      rewrite <- !app_assoc. f_equal; [f_equal; lia|]. replace (Z.to_nat (0 - 1 - _)) with O by lia. done.
    + change (Z.to_nat (0 - 1)) with O. done.
Qed.

Lemma digits_step f num base :
  2 <= base -> 0 <= num < base ^ Z.of_nat (S (S f)) ->
  digits (S (S f)) num base =
    (if base <=? num then digits (S f) (num / base) base else []) ++ [digit_char (num mod base)].
Proof.
  intros Hb Hn. unfold digits at 1. remember (S f) as g. cbn [printnum]. f_equal.
  destruct (Z.leb_spec base num); [|done]. subst g. rewrite printnum_pad; [|done|].
  - by replace (Z.to_nat (0 - 1 - _)) with O by (unfold ndigits; lia).
  - split; [apply Z.div_pos; lia|]. apply Z.div_lt_upper_bound; [lia|].
    rewrite Nat2Z.inj_succ, Z.pow_succ_r in Hn by lia. lia.
Qed.

(** The characters [l] are at [p]. *)
Definition chars_at (m : bmem) (p : Z) (l : list Z) : Prop :=
  forall i c, l !! i = Some c -> m (p + Z.of_nat i) = c.

(** [strtol] reads back the digits of a number. *)
Lemma strtol_digits_step m p base v d fuel :
  0 <= d < base -> base <= 16 -> m p = digit_char d ->
  strtol_digits (S fuel) m p base v = strtol_digits fuel m (p + 1) base (s32 (v * base + d)).
Proof.
  intros Hd Hb Hm. cbn [strtol_digits]. rewrite Hm, digit_of_char by lia. by destruct (Z.leb_spec base d); [lia|].
Qed.

Lemma digits_parse f m base v fuel : forall num p,
  2 <= base <= 16 -> 0 <= num < base ^ Z.of_nat (S f) -> chars_at m p (digits (S f) num base) ->
  strtol_digits (length (digits (S f) num base) + fuel) m p base v =
    strtol_digits fuel m (p + ndigits (S f) num base) base (s32 (v * base ^ ndigits (S f) num base + num)).
Proof.
  unfold ndigits. revert fuel. induction f as [|f IH]; intros fuel num p Hb Hn Hc.
  - rewrite Z.pow_1_r in Hn. revert Hc. unfold digits. cbn [printnum]. destruct (Z.leb_spec base num); [lia|].
    rewrite Z.mod_small by lia. change (Z.to_nat (0 - 1)) with O. cbn [replicate app length Nat.add]. intros Hc.
    erewrite strtol_digits_step; [|apply Hn|lia|]; [|specialize (Hc O _ eq_refl); by rewrite Z.add_0_r in Hc].
    by rewrite Z.pow_1_r.
  - rewrite digits_step in * by (done || lia). pose proof (Z.mod_pos_bound num base ltac:(lia)) as Hm.
    assert (Hlast : m (p + Z.of_nat (length (if base <=? num then digits (S f) (num / base) base else []))) =
              digit_char (num mod base)).
    { apply Hc. rewrite lookup_app_r by lia. by rewrite Nat.sub_diag. }
    destruct (Z.leb_spec base num).
    + assert (Hq : 0 <= num / base < base ^ Z.of_nat (S f)).
      { split; [apply Z.div_pos; lia|]. apply Z.div_lt_upper_bound; [lia|].
        rewrite Nat2Z.inj_succ, Z.pow_succ_r in Hn by lia. lia. }
      rewrite length_app. cbn [length]. rewrite <- Nat.add_assoc. rewrite IH; [|done|done|].
      * cbn [Nat.add]. erewrite strtol_digits_step; [|exact Hm|lia|exact Hlast]. f_equal; [lia|].
        rewrite s32_step. f_equal. rewrite Nat2Z.inj_add. change (Z.of_nat 1) with 1.
        rewrite Z.pow_add_r, Z.pow_1_r by lia. pose proof (Z.div_mod num base). lia.
      * intros i c Hi. apply Hc. by apply lookup_app_l_Some.
    + rewrite Z.mod_small in * by lia. cbn [length app Nat.add] in *. rewrite Z.add_0_r in Hlast.
      erewrite strtol_digits_step; [|split; [apply Hn|done]|lia|exact Hlast]. by rewrite Z.pow_1_r.
Qed.

Lemma number_digits num base f :
  2 <= base -> 0 <= num < 18446744073709551616 -> width f <= 0 -> number num base f = digits 64 num base.
Proof.
  intros Hb Hn Hw. unfold number. rewrite printnum_pad; [|done|].
  - replace (Z.to_nat (width f - _)) with O by (unfold ndigits; lia). done.
  - split; [lia|]. apply Z.lt_le_trans with (2 ^ Z.of_nat 64); [|apply Z.pow_le_mono_l; lia].
    change (2 ^ Z.of_nat 64) with 18446744073709551616. lia.
Qed.

(** The first digit is no sign and no blank. *)
Lemma digits_first f num base :
  2 <= base <= 16 -> 0 <= num < base ^ Z.of_nat (S f) ->
  exists d l, digits (S f) num base = digit_char d :: l /\ 0 <= d < 16 /\ (d = 0 -> num = 0).
Proof.
  intros Hb. revert num. induction f as [|f IH]; intros num Hn.
  - rewrite Z.pow_1_r in Hn. unfold digits. cbn [printnum]. destruct (Z.leb_spec base num); [lia|].
    rewrite Z.mod_small by lia. exists num, []. split; [done|]. lia.
  - rewrite digits_step by (done || lia). pose proof (Z.mod_pos_bound num base ltac:(lia)).
    destruct (Z.leb_spec base num); [|exists (num mod base), []; rewrite Z.mod_small by lia; split; [done|lia]].
    destruct (IH (num / base)) as (d & l & -> & Hd & Hz).
    { split; [apply Z.div_pos; lia|]. apply Z.div_lt_upper_bound; [lia|].
      rewrite Nat2Z.inj_succ, Z.pow_succ_r in Hn by lia. lia. }
    exists d, (l ++ [digit_char (num mod base)]). split; [done|]. split; [done|]. intros E. specialize (Hz E).
    assert (1 <= num / base) by (apply Z.div_le_lower_bound; lia). lia.
Qed.

Lemma cstr_chars m p w : cstr m p w -> chars_at m p w /\ m (p + Z.of_nat (length w)) = 0.
Proof.
  revert p. induction w as [|a w IH]; intros p; cbn [cstr length].
  - intros H. rewrite Z.add_0_r. split; [|done]. intros i c Hi. done.
  - intros (Ha & _ & Hw). destruct (IH _ Hw) as [H1 H2]. split.
    + intros [|i] c Hi; simpl in Hi; [injection Hi as <-; by rewrite Z.add_0_r|].
      rewrite <- (H1 i c Hi). f_equal. lia.
    + rewrite <- H2. f_equal. lia.
Qed.

(** [strtol] in base 10 of an optional minus sign and digits. *)
Lemma strtol_unsigned f m p d :
  0 <= d < 16 -> m p = digit_char d ->
  strtol (S f) m p 10 = '(val, e) ← strtol_digits (S f) m p 10 0; Some (val, e).
Proof.
  intros Hd Hm. pose proof (digit_char_range d Hd). unfold strtol. cbn [skip_blanks].
  destruct (Z.eqb_spec (m p) 32), (Z.eqb_spec (m p) 9); try lia. cbn [orb mbind option_bind].
  destruct (Z.eqb_spec (m p) 43), (Z.eqb_spec (m p) 45); try lia. done.
Qed.

Lemma strtol_minus f m p :
  m p = 45 ->
  strtol (S f) m p 10 = '(val, e) ← strtol_digits (S f) m (p + 1) 10 0; Some (s32 (- val), e).
Proof.
  intros Hm. unfold strtol. cbn [skip_blanks]. rewrite Hm. cbn [Z.eqb Pos.eqb orb mbind option_bind].
  rewrite Hm. done.
Qed.

Lemma strtol_end m p base v f : m p = 0 -> strtol_digits (S f) m p base v = Some (v, p).
Proof. intros Hm. cbn [strtol_digits]. by rewrite Hm. Qed.

(** ** Output into a buffer *)

Lemma sprintputch_fold l : forall m buf ebuf cnt,
  buf <= ebuf ->
  let k := Z.min (Z.of_nat (length l)) (ebuf - buf) in
  let b := fold_left sprintputch l (mkSprint m buf ebuf cnt) in
  sb_cnt b = cnt + Z.of_nat (length l) /\ sb_buf b = buf + k /\
  forall a, sb_mem b a = if (buf <=? a) && (a <? buf + k) then u8 (default 0 (l !! Z.to_nat (a - buf))) else m a.
Proof.
  induction l as [|c l IH]; intros m buf ebuf cnt Hle k b.
  - subst b k. simpl. split; [lia|]. split; [lia|]. intros a. cases_range; lia || done.
  - subst b. cbn [fold_left]. unfold sprintputch at 2 4 6. cbn [sb_buf sb_ebuf sb_mem sb_cnt].
    destruct (Z.ltb_spec buf ebuf).
    + destruct (IH (put buf (u8 c) m) (buf + 1) ebuf (cnt + 1) ltac:(lia)) as (E1 & E2 & E3).
      subst k. cbn [length] in *. rewrite E1, E2. split; [lia|]. split; [lia|]. intros a. rewrite E3. unfold put.
      destruct (Z.eqb_spec a buf) as [->|].
      * rewrite Z.sub_diag. cases_range; lia || done.
      * cases_range; try lia; try done. do 2 f_equal. replace (Z.to_nat (a - buf)) with (S (Z.to_nat (a - (buf + 1)))) by lia. done.
    + destruct (IH m buf ebuf (cnt + 1) Hle) as (E1 & E2 & E3). subst k. cbn [length] in *.
      rewrite E1, E2. split; [lia|]. split; [lia|]. intros a. rewrite E3. cases_range; lia || done.
Qed.

(** ** Properties *)

(** Printing an [int] with [%d] and reading the text back with [strtol]
    gives the same [int], for every value. *)
Theorem print_int_roundtrip v fuel rd :
  -2147483648 <= v < 2147483648 ->
  exists w, vprintfmt fuel rd (codes "%d") [AW v] = (w, PDone) /\
    forall m p, cstr m p w -> strtol (S (length w)) m p 10 = Some (v, p + Z.of_nat (length w)).
Proof.
  intros Hv. exists (if v <? 0 then 45 :: digits 64 (- v) 10 else digits 64 v 10). split.
  - change (codes "%d") with [37; 100]. unfold vprintfmt. cbn -[number digits Z.ltb s32 is_conversion].
    replace (is_conversion 100) with true by (vm_compute; reflexivity).
    rewrite (s32_signed v Hv). destruct (Z.ltb_spec v 0); cbn -[number digits];
      rewrite number_digits by (simpl; lia); unfold emit; cbn [fst snd app]; by rewrite app_nil_r.
  - intros m p Hw. assert (Hp : 18446744073709551616 < 10 ^ Z.of_nat 64) by reflexivity.
    destruct (cstr_chars _ _ _ Hw) as [Hc H0]. destruct (Z.ltb_spec v 0).
    + rewrite strtol_minus by (specialize (Hc O _ eq_refl); by rewrite Z.add_0_r in Hc).
      cbn [length] in *. replace (S (S (length _))) with (length (digits 64 (- v) 10) + 2)%nat by lia.
      rewrite digits_parse; [|lia|lia|intros i c Hi; rewrite <- (Hc (S i) c Hi); f_equal; lia].
      unfold ndigits. rewrite strtol_end by (rewrite <- H0; f_equal; lia). cbn [mbind option_bind].
      rewrite Z.mul_0_l. do 2 f_equal; [|lia]. destruct (s32_mod (0 + - v)) as (k & ->).
      replace (- (0 + - v + 4294967296 * k)) with (v + 4294967296 * (- k)) by lia. by rewrite s32_shift, s32_signed.
    + destruct (digits_first 63 v 10 ltac:(lia) ltac:(lia)) as (d & l & Ed & Hd & _).
      rewrite (strtol_unsigned _ m p d Hd).
      * rewrite <- (Nat.add_1_r (length _)), digits_parse; [|lia|lia|exact Hc].
        unfold ndigits. rewrite strtol_end by exact H0. cbn [mbind option_bind]. by rewrite Z.mul_0_l, s32_signed by lia.
      * rewrite Ed in Hc. specialize (Hc O _ eq_refl). by rewrite Z.add_0_r in Hc.
Qed.

Lemma print_int_roundtrip_witness :
  exists w, vprintfmt 1 (λ _, None) (codes "%d") [AW (-2147483648)] = (w, PDone) /\ length w = 11%nat.
Proof.
  destruct (print_int_roundtrip (-2147483648) 1 (λ _, None)) as (w & Hw & _); [lia|].
  exists w. split; [exact Hw|]. vm_compute in Hw. injection Hw as <-. reflexivity.
Defined.

(** [%x] and the like: the number is printed in its base without leading
    zeros, padded on the left to the width; reading the digits back gives the
    number. *)
Theorem printnum_correct num base w c :
  2 <= base <= 16 -> 0 <= num < 18446744073709551616 ->
  exists ds, printnum 64 num base w c = replicate (Z.to_nat (w - Z.of_nat (length ds))) c ++ ds /\
    (forall m p, cstr m p ds -> 0 <= num < 2147483648 ->
       strtol_digits (S (length ds)) m p base 0 = Some (num, p + Z.of_nat (length ds))) /\
    (exists d l, ds = digit_char d :: l /\ 0 <= d < 16 /\ (d = 0 -> num = 0)).
Proof.
  intros Hb Hn. exists (digits 64 num base).
  assert (Hn' : 0 <= num < base ^ Z.of_nat 64).
  { split; [lia|]. apply Z.lt_le_trans with (2 ^ Z.of_nat 64); [|apply Z.pow_le_mono_l; lia].
    change (2 ^ Z.of_nat 64) with 18446744073709551616. lia. }
  split; [apply printnum_pad; [lia|exact Hn']|]. split; [|by apply digits_first].
  intros m p Hw Hs. destruct (cstr_chars _ _ _ Hw) as [Hc H0].
  rewrite <- (Nat.add_1_r (length _)), digits_parse; [|lia|exact Hn'|exact Hc].
  unfold ndigits. rewrite strtol_end by exact H0. rewrite Z.mul_0_l, Z.add_0_l. by rewrite s32_small.
Qed.

Lemma printnum_correct_witness :
  exists ds, printnum 64 255 16 4 48 = replicate (Z.to_nat (4 - Z.of_nat (length ds))) 48 ++ ds.
Proof.
  destruct (printnum_correct 255 16 4 48) as (ds & H & _); [lia|lia|]. exists ds. exact H.
Defined.

(** C39: [vsnprintf] returns the number of characters the format produces,
    stores as many of them as fit and a NUL, and changes no byte outside the
    buffer. *)
Theorem vsnprintf_correct fuel m buf n fmt ap w :
  buf <> 0 -> 1 <= n -> vprintfmt fuel (λ a, Some (m a)) fmt ap = (w, PDone) ->
  exists m', vsnprintf fuel m buf n fmt ap = Some (m', Z.of_nat (length w)) /\
    (let k := Z.min (Z.of_nat (length w)) (n - 1) in
     (forall i, 0 <= i < k -> m' (buf + i) = u8 (default 0 (w !! Z.to_nat i))) /\ m' (buf + k) = 0) /\
    forall a, a < buf \/ buf + n <= a -> m' a = m a.
Proof.
  intros Hb Hn Hw. unfold vsnprintf. destruct (Z.eqb_spec buf 0); [done|]. destruct (Z.ltb_spec n 1); [lia|].
  cbn [orb]. rewrite Hw. cbn [fst snd].
  destruct (sprintputch_fold w m buf (buf + n - 1) 0) as (E1 & E2 & E3); [lia|].
  replace (buf + n - 1 - buf) with (n - 1) in * by lia.
  exists (put (buf + Z.min (Z.of_nat (length w)) (n - 1)) 0 (sb_mem (fold_left sprintputch w (mkSprint m buf (buf + n - 1) 0)))).
  rewrite E1, E2. split; [done|]. cbv zeta. split; [split|].
  - intros i Hi. unfold put. destruct (Z.eqb_spec (buf + i) (buf + Z.min (Z.of_nat (length w)) (n - 1))); [lia|].
    rewrite E3. replace (buf + i - buf) with i by lia. cases_range; lia || done.
  - unfold put. by rewrite Z.eqb_refl.
  - intros a Ha. unfold put. destruct (Z.eqb_spec a (buf + Z.min (Z.of_nat (length w)) (n - 1))); [lia|].
    rewrite E3. cases_range; lia || done.
Qed.

Lemma vsnprintf_correct_witness :
  exists m', vsnprintf 10 str_sample 32 4 (codes "%s-%d") [AW 0; AW 7] = Some (m', 8).
Proof.
  destruct (vsnprintf_correct 10 str_sample 32 4 (codes "%s-%d") [AW 0; AW 7] (codes "(null)-7")) as (m' & H & _).
  - intros E. discriminate E.
  - lia.
  - vm_compute. reflexivity.
  - exists m'. exact H.
Defined.
