(* ===== verification/Machine.v ===== *)
(** * Kernel state and the kernel monad

    The data of [inc/memlayout.h] (struct PageInfo), [inc/trap.h], [inc/env.h]
    and [kern/cpu.h], the state the kernel code reads and writes, the monad in
    which the kernel functions are written, memory accesses, and the inline
    functions of [kern/pmap.h].

    Physical memory is a map from page numbers to pages of 1024 words; a page
    or word that was never written reads as zero.  Kernel code reaches it
    through two kinds of virtual addresses, as on the machine: addresses from
    [KERNBASE] up are the direct map of physical memory, which every page
    directory the kernel loads contains; any other address is translated by
    the hardware page walk of the page directory in [%cr3], and a failed walk
    is a page fault in kernel mode, on which the kernel panics
    ([kern/trap.c], [page_fault_handler]). *)

From S2P Require Import Prelude Console E1000 Mmu.

(** ** Data *)

(** [struct PageInfo]: a pointer to a [struct PageInfo] is an index of the
    array [pages], NULL is [None]. *)
Record PageInfo := mkPageInfo { pp_link : option Z; pp_ref : Z }.

(** [struct PushRegs] *)
Record PushRegs := mkPushRegs {
  reg_edi : Z; reg_esi : Z; reg_ebp : Z; reg_oesp : Z;
  reg_ebx : Z; reg_edx : Z; reg_ecx : Z; reg_eax : Z
}.

(** [struct Trapframe] (the padding words are not read by any code) *)
Record Trapframe := mkTrapframe {
  tf_regs : PushRegs; tf_es : Z; tf_ds : Z; tf_trapno : Z; tf_err : Z;
  tf_eip : Z; tf_cs : Z; tf_eflags : Z; tf_esp : Z; tf_ss : Z
}.

Inductive EnvStatus := ENV_FREE | ENV_DYING | ENV_RUNNABLE | ENV_RUNNING | ENV_NOT_RUNNABLE.

Inductive EnvType := ENV_TYPE_USER | ENV_TYPE_FS | ENV_TYPE_NS.

(** [struct Env]: a pointer to a [struct Env] is an index of [envs]. *)
Record Env := mkEnv {
  env_tf : Trapframe;
  env_link : option Z;
  env_id : Z;
  env_parent_id : Z;
  env_type : EnvType;
  env_status : EnvStatus;
  env_runs : Z;
  env_cpunum : Z;
  env_pgdir : Z;
  env_pgfault_upcall : Z;
  env_ipc_recving : bool;
  env_ipc_dstva : Z;
  env_ipc_value : Z;
  env_ipc_from : Z;
  env_ipc_perm : Z
}.

Inductive CpuStatus := CPU_UNUSED | CPU_STARTED | CPU_HALTED.

(** [struct spinlock]: [locked] and the CPU that holds it (an index of [cpus]). *)
Record spinlock := mkLock { locked : Z; lk_cpu : option Z }.

(** [struct CpuInfo], with the CPU's [%cr3] (a physical address) and the page
    numbers its TLB may hold. *)
Record CpuInfo := mkCpu {
  cpu_status : CpuStatus;
  cpu_env : option Z;
  cpu_cr3 : Z;
  cpu_tlb : gset Z
}.

#[export] Instance EnvStatus_eq_dec : EqDecision EnvStatus.
Proof. solve_decision. Defined.
#[export] Instance EnvType_eq_dec : EqDecision EnvType.
Proof. solve_decision. Defined.
#[export] Instance CpuStatus_eq_dec : EqDecision CpuStatus.
Proof. solve_decision. Defined.
#[export] Instance PageInfo_eq_dec : EqDecision PageInfo.
Proof. solve_decision. Defined.
#[export] Instance PushRegs_eq_dec : EqDecision PushRegs.
Proof. solve_decision. Defined.
#[export] Instance Trapframe_eq_dec : EqDecision Trapframe.
Proof. solve_decision. Defined.
#[export] Instance Env_eq_dec : EqDecision Env.
Proof. solve_decision. Defined.

Definition zero_regs : PushRegs := mkPushRegs 0 0 0 0 0 0 0 0.

Definition zero_tf : Trapframe := mkTrapframe zero_regs 0 0 0 0 0 0 0 0 0.

(** A [struct Env] whose bytes are all zero. *)
Definition zero_env : Env :=
  mkEnv zero_tf None 0 0 ENV_TYPE_USER ENV_FREE 0 0 0 0 false 0 0 0 0.

(** Field updates of [struct Trapframe] and [struct Env] *)

Definition set_tf_regs (v : PushRegs) (t : Trapframe) : Trapframe :=
  mkTrapframe v (tf_es t) (tf_ds t) (tf_trapno t) (tf_err t) (tf_eip t) (tf_cs t) (tf_eflags t)
    (tf_esp t) (tf_ss t).

Definition set_tf_es (v : Z) (t : Trapframe) : Trapframe :=
  mkTrapframe (tf_regs t) v (tf_ds t) (tf_trapno t) (tf_err t) (tf_eip t) (tf_cs t)
    (tf_eflags t) (tf_esp t) (tf_ss t).

Definition set_tf_ds (v : Z) (t : Trapframe) : Trapframe :=
  mkTrapframe (tf_regs t) (tf_es t) v (tf_trapno t) (tf_err t) (tf_eip t) (tf_cs t)
    (tf_eflags t) (tf_esp t) (tf_ss t).

Definition set_tf_trapno (v : Z) (t : Trapframe) : Trapframe :=
  mkTrapframe (tf_regs t) (tf_es t) (tf_ds t) v (tf_err t) (tf_eip t) (tf_cs t) (tf_eflags t)
    (tf_esp t) (tf_ss t).

Definition set_tf_err (v : Z) (t : Trapframe) : Trapframe :=
  mkTrapframe (tf_regs t) (tf_es t) (tf_ds t) (tf_trapno t) v (tf_eip t) (tf_cs t)
    (tf_eflags t) (tf_esp t) (tf_ss t).

Definition set_tf_eip (v : Z) (t : Trapframe) : Trapframe :=
  mkTrapframe (tf_regs t) (tf_es t) (tf_ds t) (tf_trapno t) (tf_err t) v (tf_cs t)
    (tf_eflags t) (tf_esp t) (tf_ss t).

Definition set_tf_cs (v : Z) (t : Trapframe) : Trapframe :=
  mkTrapframe (tf_regs t) (tf_es t) (tf_ds t) (tf_trapno t) (tf_err t) (tf_eip t) v
    (tf_eflags t) (tf_esp t) (tf_ss t).

Definition set_tf_eflags (v : Z) (t : Trapframe) : Trapframe :=
  mkTrapframe (tf_regs t) (tf_es t) (tf_ds t) (tf_trapno t) (tf_err t) (tf_eip t) (tf_cs t) v
    (tf_esp t) (tf_ss t).

Definition set_tf_esp (v : Z) (t : Trapframe) : Trapframe :=
  mkTrapframe (tf_regs t) (tf_es t) (tf_ds t) (tf_trapno t) (tf_err t) (tf_eip t) (tf_cs t)
    (tf_eflags t) v (tf_ss t).

Definition set_tf_ss (v : Z) (t : Trapframe) : Trapframe :=
  mkTrapframe (tf_regs t) (tf_es t) (tf_ds t) (tf_trapno t) (tf_err t) (tf_eip t) (tf_cs t)
    (tf_eflags t) (tf_esp t) v.

Definition set_reg_eax (v : Z) (r : PushRegs) : PushRegs :=
  mkPushRegs (reg_edi r) (reg_esi r) (reg_ebp r) (reg_oesp r) (reg_ebx r) (reg_edx r)
    (reg_ecx r) v.

Definition set_env_tf (v : Trapframe) (e : Env) : Env :=
  mkEnv v (env_link e) (env_id e) (env_parent_id e) (env_type e) (env_status e) (env_runs e)
    (env_cpunum e) (env_pgdir e) (env_pgfault_upcall e) (env_ipc_recving e) (env_ipc_dstva e)
    (env_ipc_value e) (env_ipc_from e) (env_ipc_perm e).

Definition set_env_link (v : option Z) (e : Env) : Env :=
  mkEnv (env_tf e) v (env_id e) (env_parent_id e) (env_type e) (env_status e) (env_runs e)
    (env_cpunum e) (env_pgdir e) (env_pgfault_upcall e) (env_ipc_recving e) (env_ipc_dstva e)
    (env_ipc_value e) (env_ipc_from e) (env_ipc_perm e).

Definition set_env_id (v : Z) (e : Env) : Env :=
  mkEnv (env_tf e) (env_link e) v (env_parent_id e) (env_type e) (env_status e) (env_runs e)
    (env_cpunum e) (env_pgdir e) (env_pgfault_upcall e) (env_ipc_recving e) (env_ipc_dstva e)
    (env_ipc_value e) (env_ipc_from e) (env_ipc_perm e).

Definition set_env_parent_id (v : Z) (e : Env) : Env :=
  mkEnv (env_tf e) (env_link e) (env_id e) v (env_type e) (env_status e) (env_runs e)
    (env_cpunum e) (env_pgdir e) (env_pgfault_upcall e) (env_ipc_recving e) (env_ipc_dstva e)
    (env_ipc_value e) (env_ipc_from e) (env_ipc_perm e).

Definition set_env_type (v : EnvType) (e : Env) : Env :=
  mkEnv (env_tf e) (env_link e) (env_id e) (env_parent_id e) v (env_status e) (env_runs e)
    (env_cpunum e) (env_pgdir e) (env_pgfault_upcall e) (env_ipc_recving e) (env_ipc_dstva e)
    (env_ipc_value e) (env_ipc_from e) (env_ipc_perm e).

Definition set_env_status (v : EnvStatus) (e : Env) : Env :=
  mkEnv (env_tf e) (env_link e) (env_id e) (env_parent_id e) (env_type e) v (env_runs e)
    (env_cpunum e) (env_pgdir e) (env_pgfault_upcall e) (env_ipc_recving e) (env_ipc_dstva e)
    (env_ipc_value e) (env_ipc_from e) (env_ipc_perm e).

Definition set_env_runs (v : Z) (e : Env) : Env :=
  mkEnv (env_tf e) (env_link e) (env_id e) (env_parent_id e) (env_type e) (env_status e) v
    (env_cpunum e) (env_pgdir e) (env_pgfault_upcall e) (env_ipc_recving e) (env_ipc_dstva e)
    (env_ipc_value e) (env_ipc_from e) (env_ipc_perm e).

Definition set_env_cpunum (v : Z) (e : Env) : Env :=
  mkEnv (env_tf e) (env_link e) (env_id e) (env_parent_id e) (env_type e) (env_status e)
    (env_runs e) v (env_pgdir e) (env_pgfault_upcall e) (env_ipc_recving e) (env_ipc_dstva e)
    (env_ipc_value e) (env_ipc_from e) (env_ipc_perm e).

Definition set_env_pgdir (v : Z) (e : Env) : Env :=
  mkEnv (env_tf e) (env_link e) (env_id e) (env_parent_id e) (env_type e) (env_status e)
    (env_runs e) (env_cpunum e) v (env_pgfault_upcall e) (env_ipc_recving e) (env_ipc_dstva e)
    (env_ipc_value e) (env_ipc_from e) (env_ipc_perm e).

Definition set_env_pgfault_upcall (v : Z) (e : Env) : Env :=
  mkEnv (env_tf e) (env_link e) (env_id e) (env_parent_id e) (env_type e) (env_status e)
    (env_runs e) (env_cpunum e) (env_pgdir e) v (env_ipc_recving e) (env_ipc_dstva e)
    (env_ipc_value e) (env_ipc_from e) (env_ipc_perm e).

Definition set_env_ipc_recving (v : bool) (e : Env) : Env :=
  mkEnv (env_tf e) (env_link e) (env_id e) (env_parent_id e) (env_type e) (env_status e)
    (env_runs e) (env_cpunum e) (env_pgdir e) (env_pgfault_upcall e) v (env_ipc_dstva e)
    (env_ipc_value e) (env_ipc_from e) (env_ipc_perm e).

Definition set_env_ipc_dstva (v : Z) (e : Env) : Env :=
  mkEnv (env_tf e) (env_link e) (env_id e) (env_parent_id e) (env_type e) (env_status e)
    (env_runs e) (env_cpunum e) (env_pgdir e) (env_pgfault_upcall e) (env_ipc_recving e) v
    (env_ipc_value e) (env_ipc_from e) (env_ipc_perm e).

Definition set_env_ipc_value (v : Z) (e : Env) : Env :=
  mkEnv (env_tf e) (env_link e) (env_id e) (env_parent_id e) (env_type e) (env_status e)
    (env_runs e) (env_cpunum e) (env_pgdir e) (env_pgfault_upcall e) (env_ipc_recving e)
    (env_ipc_dstva e) v (env_ipc_from e) (env_ipc_perm e).

Definition set_env_ipc_from (v : Z) (e : Env) : Env :=
  mkEnv (env_tf e) (env_link e) (env_id e) (env_parent_id e) (env_type e) (env_status e)
    (env_runs e) (env_cpunum e) (env_pgdir e) (env_pgfault_upcall e) (env_ipc_recving e)
    (env_ipc_dstva e) (env_ipc_value e) v (env_ipc_perm e).

Definition set_env_ipc_perm (v : Z) (e : Env) : Env :=
  mkEnv (env_tf e) (env_link e) (env_id e) (env_parent_id e) (env_type e) (env_status e)
    (env_runs e) (env_cpunum e) (env_pgdir e) (env_pgfault_upcall e) (env_ipc_recving e)
    (env_ipc_dstva e) (env_ipc_value e) (env_ipc_from e) v.

(** ** The kernel state *)

Record kstate := mkK {
  npages : Z; (* amount of physical memory, in pages *)
  npages_basemem : Z; (* amount of base memory, in pages *)
  pages : gmap Z PageInfo; (* the array [pages], one entry per physical page *)
  page_free_list : option Z; (* head of the free list, an index of [pages] *)
  nextfree : Z; (* [boot_alloc]'s static [nextfree], [0] for NULL *)
  mmio_base : Z; (* [mmio_map_region]'s static [base] *)
  kern_pgdir : Z; (* kernel virtual address of the initial page directory *)
  pages_va : Z; (* kernel virtual address of [pages] *)
  envs_va : Z; (* kernel virtual address of [envs] *)
  mem : gmap Z (gmap Z Z); (* physical memory: page number, word index, word *)
  envs : gmap Z Env; (* the array [envs] *)
  env_free_list : option Z; (* head of the free environment list *)
  cpunum : Z; (* index of the CPU that runs the kernel code *)
  cpus : gmap Z CpuInfo; (* per-CPU state *)
  user_mem_check_addr : Z; (* set by [user_mem_check] on error *)
  klock : spinlock; (* [kernel_lock] *)
  ticks : Z; (* [kern/time.c] ticks *)
  cons : console; (* [kern/console.c] *)
  netdev : nic (* [kern/e1000.c] *)
}.

Definition set_npages (v : Z) (s : kstate) : kstate :=
  mkK v (npages_basemem s) (pages s) (page_free_list s) (nextfree s) (mmio_base s)
    (kern_pgdir s) (pages_va s) (envs_va s) (mem s) (envs s) (env_free_list s) (cpunum s)
    (cpus s) (user_mem_check_addr s) (klock s) (ticks s) (cons s) (netdev s).

Definition set_npages_basemem (v : Z) (s : kstate) : kstate :=
  mkK (npages s) v (pages s) (page_free_list s) (nextfree s) (mmio_base s) (kern_pgdir s)
    (pages_va s) (envs_va s) (mem s) (envs s) (env_free_list s) (cpunum s) (cpus s)
    (user_mem_check_addr s) (klock s) (ticks s) (cons s) (netdev s).

Definition set_pages (v : gmap Z PageInfo) (s : kstate) : kstate :=
  mkK (npages s) (npages_basemem s) v (page_free_list s) (nextfree s) (mmio_base s)
    (kern_pgdir s) (pages_va s) (envs_va s) (mem s) (envs s) (env_free_list s) (cpunum s)
    (cpus s) (user_mem_check_addr s) (klock s) (ticks s) (cons s) (netdev s).

Definition set_page_free_list (v : option Z) (s : kstate) : kstate :=
  mkK (npages s) (npages_basemem s) (pages s) v (nextfree s) (mmio_base s) (kern_pgdir s)
    (pages_va s) (envs_va s) (mem s) (envs s) (env_free_list s) (cpunum s) (cpus s)
    (user_mem_check_addr s) (klock s) (ticks s) (cons s) (netdev s).

Definition set_nextfree (v : Z) (s : kstate) : kstate :=
  mkK (npages s) (npages_basemem s) (pages s) (page_free_list s) v (mmio_base s)
    (kern_pgdir s) (pages_va s) (envs_va s) (mem s) (envs s) (env_free_list s) (cpunum s)
    (cpus s) (user_mem_check_addr s) (klock s) (ticks s) (cons s) (netdev s).

Definition set_mmio_base (v : Z) (s : kstate) : kstate :=
  mkK (npages s) (npages_basemem s) (pages s) (page_free_list s) (nextfree s) v
    (kern_pgdir s) (pages_va s) (envs_va s) (mem s) (envs s) (env_free_list s) (cpunum s)
    (cpus s) (user_mem_check_addr s) (klock s) (ticks s) (cons s) (netdev s).

Definition set_kern_pgdir (v : Z) (s : kstate) : kstate :=
  mkK (npages s) (npages_basemem s) (pages s) (page_free_list s) (nextfree s) (mmio_base s)
    v (pages_va s) (envs_va s) (mem s) (envs s) (env_free_list s) (cpunum s) (cpus s)
    (user_mem_check_addr s) (klock s) (ticks s) (cons s) (netdev s).

Definition set_pages_va (v : Z) (s : kstate) : kstate :=
  mkK (npages s) (npages_basemem s) (pages s) (page_free_list s) (nextfree s) (mmio_base s)
    (kern_pgdir s) v (envs_va s) (mem s) (envs s) (env_free_list s) (cpunum s) (cpus s)
    (user_mem_check_addr s) (klock s) (ticks s) (cons s) (netdev s).

Definition set_envs_va (v : Z) (s : kstate) : kstate :=
  mkK (npages s) (npages_basemem s) (pages s) (page_free_list s) (nextfree s) (mmio_base s)
    (kern_pgdir s) (pages_va s) v (mem s) (envs s) (env_free_list s) (cpunum s) (cpus s)
    (user_mem_check_addr s) (klock s) (ticks s) (cons s) (netdev s).

Definition set_mem (v : gmap Z (gmap Z Z)) (s : kstate) : kstate :=
  mkK (npages s) (npages_basemem s) (pages s) (page_free_list s) (nextfree s) (mmio_base s)
    (kern_pgdir s) (pages_va s) (envs_va s) v (envs s) (env_free_list s) (cpunum s)
    (cpus s) (user_mem_check_addr s) (klock s) (ticks s) (cons s) (netdev s).

Definition set_envs (v : gmap Z Env) (s : kstate) : kstate :=
  mkK (npages s) (npages_basemem s) (pages s) (page_free_list s) (nextfree s) (mmio_base s)
    (kern_pgdir s) (pages_va s) (envs_va s) (mem s) v (env_free_list s) (cpunum s) (cpus s)
    (user_mem_check_addr s) (klock s) (ticks s) (cons s) (netdev s).

Definition set_env_free_list (v : option Z) (s : kstate) : kstate :=
  mkK (npages s) (npages_basemem s) (pages s) (page_free_list s) (nextfree s) (mmio_base s)
    (kern_pgdir s) (pages_va s) (envs_va s) (mem s) (envs s) v (cpunum s) (cpus s)
    (user_mem_check_addr s) (klock s) (ticks s) (cons s) (netdev s).

Definition set_cpunum (v : Z) (s : kstate) : kstate :=
  mkK (npages s) (npages_basemem s) (pages s) (page_free_list s) (nextfree s) (mmio_base s)
    (kern_pgdir s) (pages_va s) (envs_va s) (mem s) (envs s) (env_free_list s) v (cpus s)
    (user_mem_check_addr s) (klock s) (ticks s) (cons s) (netdev s).

Definition set_cpus (v : gmap Z CpuInfo) (s : kstate) : kstate :=
  mkK (npages s) (npages_basemem s) (pages s) (page_free_list s) (nextfree s) (mmio_base s)
    (kern_pgdir s) (pages_va s) (envs_va s) (mem s) (envs s) (env_free_list s) (cpunum s) v
    (user_mem_check_addr s) (klock s) (ticks s) (cons s) (netdev s).

Definition set_user_mem_check_addr (v : Z) (s : kstate) : kstate :=
  mkK (npages s) (npages_basemem s) (pages s) (page_free_list s) (nextfree s) (mmio_base s)
    (kern_pgdir s) (pages_va s) (envs_va s) (mem s) (envs s) (env_free_list s) (cpunum s)
    (cpus s) v (klock s) (ticks s) (cons s) (netdev s).

Definition set_klock (v : spinlock) (s : kstate) : kstate :=
  mkK (npages s) (npages_basemem s) (pages s) (page_free_list s) (nextfree s) (mmio_base s)
    (kern_pgdir s) (pages_va s) (envs_va s) (mem s) (envs s) (env_free_list s) (cpunum s)
    (cpus s) (user_mem_check_addr s) v (ticks s) (cons s) (netdev s).

Definition set_ticks (v : Z) (s : kstate) : kstate :=
  mkK (npages s) (npages_basemem s) (pages s) (page_free_list s) (nextfree s) (mmio_base s)
    (kern_pgdir s) (pages_va s) (envs_va s) (mem s) (envs s) (env_free_list s) (cpunum s)
    (cpus s) (user_mem_check_addr s) (klock s) v (cons s) (netdev s).

Definition set_cons (v : console) (s : kstate) : kstate :=
  mkK (npages s) (npages_basemem s) (pages s) (page_free_list s) (nextfree s) (mmio_base s)
    (kern_pgdir s) (pages_va s) (envs_va s) (mem s) (envs s) (env_free_list s) (cpunum s)
    (cpus s) (user_mem_check_addr s) (klock s) (ticks s) v (netdev s).

Definition set_netdev (v : nic) (s : kstate) : kstate :=
  mkK (npages s) (npages_basemem s) (pages s) (page_free_list s) (nextfree s) (mmio_base s)
    (kern_pgdir s) (pages_va s) (envs_va s) (mem s) (envs s) (env_free_list s) (cpunum s)
    (cpus s) (user_mem_check_addr s) (klock s) (ticks s) (cons s) v.

(** ** The kernel monad

    A kernel function returns a value, or leaves the kernel code for good:
    [panic], entering user mode in an environment ([env_run]), halting the CPU
    or the monitor loop ([sched_halt]), spinning on the kernel lock, or
    behaviour the C standard leaves undefined. *)

Inductive exit :=
  | Panic (msg : string)
  | EnvRun (e : Z)
  | CpuHalt
  | MonitorLoop
  | SpinForever
  | Undefined (what : string).

Inductive outcome (A : Type) :=
  | Ret (a : A) (s : kstate)
  | Exit (x : exit) (s : kstate).
Arguments Ret {A} a s.
Arguments Exit {A} x s.

Definition K (A : Type) : Type := kstate -> outcome A.

#[export] Instance K_ret : MRet K := λ A a s, Ret a s.
#[export] Instance K_bind : MBind K := λ A B f m s,
  match m s with
  | Ret a s' => f a s'
  | Exit x s' => Exit x s'
  end.

Definition panic {A} (msg : string) : K A := λ s, Exit (Panic msg) s.
Definition leave {A} (x : exit) : K A := λ s, Exit x s.
Definition get {A} (f : kstate -> A) : K A := λ s, Ret (f s) s.
Definition modify (f : kstate -> kstate) : K unit := λ s, Ret tt (f s).

(** [for] loops over the elements of a list, in order. *)
Fixpoint kfor {A} (l : list A) (body : A -> K unit) : K unit :=
  match l with
  | [] => mret tt
  | x :: l' => body x ;; kfor l' body
  end.

Lemma bind_Ret {A B} (m : K A) (f : A -> K B) s a s' :
  m s = Ret a s' -> (m ≫= f) s = f a s'.
Proof. intros H. unfold mbind, K_bind. by rewrite H. Qed.

Lemma bind_Exit {A B} (m : K A) (f : A -> K B) s x s' :
  m s = Exit x s' -> (m ≫= f) s = Exit x s'.
Proof. intros H. unfold mbind, K_bind. by rewrite H. Qed.

Lemma bind_assoc {A B C} (m : K A) (f : A -> K B) (g : B -> K C) s :
  ((m ≫= f) ≫= g) s = (m ≫= (λ a, f a ≫= g)) s.
Proof. unfold mbind, K_bind. by destruct (m s). Qed.

(** A bind that returns went through a return of its first part. *)
Lemma bind_Ret_inv {A B} (m : K A) (f : A -> K B) s b s' :
  (m ≫= f) s = Ret b s' -> exists a s1, m s = Ret a s1 /\ f a s1 = Ret b s'.
Proof. unfold mbind, K_bind. destruct (m s); naive_solver. Qed.

Lemma bind_get {A B} (f : kstate -> A) (k : A -> K B) s : (get f ≫= k) s = k (f s) s.
Proof. done. Qed.

Lemma bind_modify {B} (f : kstate -> kstate) (k : unit -> K B) s :
  (modify f ≫= k) s = k tt (f s).
Proof. done. Qed.

Lemma bind_mret {A B} (a : A) (k : A -> K B) s : (mret a ≫= k) s = k a s.
Proof. done. Qed.

#[export] Hint Rewrite @bind_get @bind_modify @bind_mret : jos.

(** The value a run returned, without its state. *)
Definition ret_val {A} (o : outcome A) : option A :=
  match o with Ret a _ => Some a | Exit _ _ => None end.

Lemma ret_val_Ret {A} (o : outcome A) a : ret_val o = Some a -> exists s, o = Ret a s.
Proof. destruct o; simpl; [|done]. intros [= ->]. eauto. Qed.

(** Run the first part of a bind, whose result the tactic [t] finds. *)
Tactic Notation "kstep" "by" tactic3(t) := erewrite bind_Ret by t; cbv beta iota.

(** ** Per-CPU state *)

Definition cpu0 : CpuInfo := mkCpu CPU_UNUSED None 0 ∅.

Definition thiscpu (s : kstate) : CpuInfo := default cpu0 (cpus s !! cpunum s).

Definition set_thiscpu (c : CpuInfo) (s : kstate) : kstate :=
  set_cpus (<[cpunum s := c]> (cpus s)) s.

(** [curenv] is [thiscpu->cpu_env]. *)
Definition curenv (s : kstate) : option Z := cpu_env (thiscpu s).

Definition set_curenv (e : option Z) (s : kstate) : kstate :=
  let c := thiscpu s in set_thiscpu (mkCpu (cpu_status c) e (cpu_cr3 c) (cpu_tlb c)) s.

Definition set_cpu_status (st : CpuStatus) (s : kstate) : kstate :=
  let c := thiscpu s in set_thiscpu (mkCpu st (cpu_env c) (cpu_cr3 c) (cpu_tlb c)) s.

(** Loading [%cr3] flushes the TLB. *)
Definition lcr3 (pa : Z) : K unit := modify (λ s,
  let c := thiscpu s in set_thiscpu (mkCpu (cpu_status c) (cpu_env c) pa ∅) s).

(** [invlpg va] drops the TLB entry of the page of [va]. *)
Definition invlpg (va : Z) : K unit := modify (λ s,
  let c := thiscpu s in
  set_thiscpu (mkCpu (cpu_status c) (cpu_env c) (cpu_cr3 c) (cpu_tlb c ∖ {[PGNUM va]})) s).

(** ** Physical memory *)

Definition page_of (m : gmap Z (gmap Z Z)) (pn : Z) : gmap Z Z := default ∅ (m !! pn).

Definition rdw (m : gmap Z (gmap Z Z)) (pn i : Z) : Z := default 0 (page_of m pn !! i).

Definition wrw (m : gmap Z (gmap Z Z)) (pn i v : Z) : gmap Z (gmap Z Z) :=
  <[pn := <[i := v]> (page_of m pn)]> m.

(** Word index of a physical address within its page. *)
Definition widx (pa : Z) : Z := pa mod 4096 / 4.

Definition phys_read (s : kstate) (pa : Z) : Z := rdw (mem s) (PGNUM pa) (widx pa).

Definition phys_write (s : kstate) (pa v : Z) : kstate :=
  set_mem (wrw (mem s) (PGNUM pa) (widx pa) v) s.

(** The processor's two-level page walk from the page directory at physical
    address [dir]: the physical address of [va], or [None] for a fault.  A
    write needs [PTE_W] at both levels, as [CR0_WP] is set. *)
Definition mmu_walk (s : kstate) (dir va : Z) (wr : bool) : option Z :=
  let pde := phys_read s (dir + 4 * PDX va) in
  if negb (hasbits pde PTE_P) || (wr && negb (hasbits pde PTE_W)) then None
  else
    let pte := phys_read s (PTE_ADDR pde + 4 * PTX va) in
    if negb (hasbits pte PTE_P) || (wr && negb (hasbits pte PTE_W)) then None
    else Some (PTE_ADDR pte + PGOFF va).

(** Translation of a kernel-mode access. *)
Definition kva2pa (s : kstate) (va : Z) (wr : bool) : option Z :=
  if KERNBASE <=? va then Some (va - KERNBASE)
  else mmu_walk s (cpu_cr3 (thiscpu s)) va wr.

Definition kernel_fault {A} : K A := panic " a page fault in the kernel".

(** Load and store of an aligned word. *)
Definition load (va : Z) : K Z := λ s,
  match kva2pa s va false with
  | Some pa => Ret (phys_read s pa) s
  | None => kernel_fault s
  end.

Definition store (va v : Z) : K unit := λ s,
  match kva2pa s va true with
  | Some pa => Ret tt (phys_write s pa (u32 v))
  | None => kernel_fault s
  end.

(** ** [kern/pmap.h] *)

(** [PADDR(kva)] *)
Definition PADDR (kva : Z) : K Z :=
  if kva <? KERNBASE then panic "PADDR called with invalid kva" else mret (kva - KERNBASE).

(** [KADDR(pa)] *)
Definition KADDR (pa : Z) : K Z :=
  n ← get npages;
  if n <=? PGNUM pa then panic "KADDR called with invalid pa" else mret (u32 (pa + KERNBASE)).

(** [page2pa(pp)]: [pp - pages] is the index. *)
Definition page2pa (pp : Z) : Z := u32 (Z.shiftl pp PGSHIFT).

(** [pa2page(pa)] *)
Definition pa2page (pa : Z) : K Z :=
  n ← get npages;
  if n <=? PGNUM pa then panic "pa2page called with invalid pa" else mret (PGNUM pa).

(** [page2kva(pp)] *)
Definition page2kva (pp : Z) : K Z := KADDR (page2pa pp).

(** ** Reading and writing [pages] and [envs] *)

Definition pg (s : kstate) (i : Z) : PageInfo := default (mkPageInfo None 0) (pages s !! i).

Definition set_pg (i : Z) (p : PageInfo) (s : kstate) : kstate :=
  set_pages (<[i := p]> (pages s)) s.

Definition set_pp_link (i : Z) (l : option Z) (s : kstate) : kstate :=
  set_pg i (mkPageInfo l (pp_ref (pg s i))) s.

Definition set_pp_ref (i : Z) (r : Z) (s : kstate) : kstate :=
  set_pg i (mkPageInfo (pp_link (pg s i)) r) s.

Definition env (s : kstate) (i : Z) : Env := default zero_env (envs s !! i).

Definition set_env (i : Z) (e : Env) (s : kstate) : kstate :=
  set_envs (<[i := e]> (envs s)) s.

(** [envs[i].field = ...] *)
Definition upd_env (i : Z) (f : Env -> Env) (s : kstate) : kstate := set_env i (f (env s i)) s.

(** Zeroing a whole page: [memset(page2kva(pp), 0, PGSIZE)]. *)
Definition zero_page (pn : Z) (s : kstate) : kstate := set_mem (<[pn := ∅]> (mem s)) s.

(** Zeroing the page at a page-aligned address of the direct map. *)
Definition memset0_page (kva : Z) : K unit := modify (zero_page (PGNUM (kva - KERNBASE))).

(** ** Facts about memory *)

Lemma page_of_insert_eq m pn g : page_of (<[pn := g]> m) pn = g.
Proof. unfold page_of. by rewrite lookup_insert_eq. Qed.

Lemma page_of_insert_ne m pn pn' g : pn <> pn' -> page_of (<[pn := g]> m) pn' = page_of m pn'.
Proof. intros. unfold page_of. by rewrite lookup_insert_ne. Qed.

Lemma rdw_wrw_eq m pn i v : rdw (wrw m pn i v) pn i = v.
Proof. unfold rdw, wrw. rewrite page_of_insert_eq. by rewrite lookup_insert_eq. Qed.

Lemma rdw_wrw_ne m pn i v pn' i' :
  pn <> pn' \/ i <> i' -> rdw (wrw m pn i v) pn' i' = rdw m pn' i'.
Proof.
  intros H. unfold rdw, wrw. destruct (decide (pn = pn')) as [->|].
  - rewrite page_of_insert_eq, lookup_insert_ne; [done|naive_solver].
  - by rewrite page_of_insert_ne.
Qed.

Lemma rdw_zero_eq m pn i : rdw (<[pn := ∅]> m) pn i = 0.
Proof. unfold rdw. by rewrite page_of_insert_eq, lookup_empty. Qed.

Lemma rdw_insert_ne m pn pn' g i : pn <> pn' -> rdw (<[pn := g]> m) pn' i = rdw m pn' i.
Proof. intros. unfold rdw. by rewrite page_of_insert_ne. Qed.

(** The kernel virtual address of word [i] of physical page [pn]. *)
Definition kptr (pn i : Z) : Z := KERNBASE + pn * 4096 + 4 * i.

Lemma PGNUM_word pn i : 0 <= i < 1024 -> PGNUM (pn * 4096 + 4 * i) = pn.
Proof. intros. rewrite PGNUM_div, Z.div_add_l, Z.div_small; lia. Qed.

Lemma widx_word pn i : 0 <= i < 1024 -> widx (pn * 4096 + 4 * i) = i.
Proof.
  intros. unfold widx. rewrite Z.add_comm, Z.mod_add, Z.mod_small by lia.
  rewrite Z.mul_comm, Z.div_mul; lia.
Qed.

Lemma kva2pa_kptr s pn i wr :
  0 <= pn -> 0 <= i -> kva2pa s (kptr pn i) wr = Some (pn * 4096 + 4 * i).
Proof.
  intros. unfold kva2pa, kptr.
  destruct (Z.leb_spec KERNBASE (KERNBASE + pn * 4096 + 4 * i)); [|lia].
  f_equal. lia.
Qed.

Lemma load_kptr s pn i :
  0 <= pn -> 0 <= i < 1024 -> load (kptr pn i) s = Ret (rdw (mem s) pn i) s.
Proof.
  intros. unfold load. rewrite kva2pa_kptr by lia. unfold phys_read.
  by rewrite PGNUM_word, widx_word by lia.
Qed.

Lemma store_kptr s pn i v :
  0 <= pn -> 0 <= i < 1024 ->
  store (kptr pn i) v s = Ret tt (set_mem (wrw (mem s) pn i (u32 v)) s).
Proof.
  intros. unfold store. rewrite kva2pa_kptr by lia. unfold phys_write.
  by rewrite PGNUM_word, widx_word by lia.
Qed.

Lemma page2pa_small p : 0 <= p < 1048576 -> page2pa p = p * 4096.
Proof. intros. unfold page2pa. rewrite shiftl12. apply u32_small. lia. Qed.

Lemma PGNUM_page p : PGNUM (p * 4096) = p.
Proof. rewrite PGNUM_div. by apply Z.div_mul. Qed.

Lemma KADDR_page s p :
  0 <= p < npages s -> npages s <= 65536 -> KADDR (p * 4096) s = Ret (kptr p 0) s.
Proof.
  intros. unfold KADDR. rewrite bind_get, PGNUM_page.
  destruct (Z.leb_spec (npages s) p); [lia|].
  unfold mret, K_ret, kptr. f_equal. rewrite u32_small; lia.
Qed.

Lemma pa2page_page s p : 0 <= p < npages s -> pa2page (p * 4096) s = Ret p s.
Proof.
  intros. unfold pa2page. rewrite bind_get, PGNUM_page.
  by destruct (Z.leb_spec (npages s) p); [lia|].
Qed.

Lemma page2kva_page s p :
  0 <= p < npages s -> npages s <= 65536 -> page2kva p s = Ret (kptr p 0) s.
Proof. intros. unfold page2kva. rewrite page2pa_small by lia. by apply KADDR_page. Qed.

Lemma memset0_page_kptr s p : 0 <= p -> memset0_page (kptr p 0) s = Ret tt (zero_page p s).
Proof.
  intros. unfold memset0_page, kptr, modify. do 2 f_equal.
  replace (KERNBASE + p * 4096 + 4 * 0 - KERNBASE) with (p * 4096) by lia. apply PGNUM_page.
Qed.

Lemma kptr_add p i : kptr p 0 + 4 * i = kptr p i.
Proof. unfold kptr. lia. Qed.

Lemma kptr_u32 p i : 0 <= p < 65536 -> 0 <= i < 1024 -> u32 (kptr p i) = kptr p i.
Proof. intros. unfold kptr. apply u32_small. lia. Qed.

Lemma kptr_nonnull p i : 0 <= p -> 0 <= i -> (kptr p i =? 0) = false.
Proof. intros. apply Z.eqb_neq. unfold kptr. lia. Qed.

(** ** Facts about [pages] *)

Lemma pg_set_pg_eq s i p : pg (set_pg i p s) i = p.
Proof. unfold pg, set_pg. simpl. by rewrite lookup_insert_eq. Qed.

Lemma pg_set_pg_ne s i j p : i <> j -> pg (set_pg i p s) j = pg s j.
Proof. intros. unfold pg, set_pg. simpl. by rewrite lookup_insert_ne. Qed.

Lemma pg_lookup s i p : pages s !! i = Some p -> pg s i = p.
Proof. intros H. unfold pg. by rewrite H. Qed.

Lemma pp_ref_set_pp_link s i l j : pp_ref (pg (set_pp_link i l s) j) = pp_ref (pg s j).
Proof.
  unfold set_pp_link. destruct (decide (i = j)) as [->|].
  - by rewrite pg_set_pg_eq.
  - by rewrite pg_set_pg_ne.
Qed.

Lemma pp_link_set_pp_ref s i r j : pp_link (pg (set_pp_ref i r s) j) = pp_link (pg s j).
Proof.
  unfold set_pp_ref. destruct (decide (i = j)) as [->|].
  - by rewrite pg_set_pg_eq.
  - by rewrite pg_set_pg_ne.
Qed.
