(* ===== verification/KernLib.v ===== *)
(** * Library routines of the kernel

    Byte access to memory, copying and filling, [cprintf] ([kern/printf.c],
    over the formatting of [Printf] and the console of [Console]) and the
    clock ([kern/time.c]). *)

From S2P Require Import Prelude Console LibString Mmu Printf E1000 Machine.

(** ** Bytes of memory *)

Definition byte_of (w i : Z) : Z := u8 (Z.shiftr w (8 * i)).

Definition with_byte (w i b : Z) : Z :=
  Z.ldiff w (Z.shiftl 0xFF (8 * i)) .| Z.shiftl (u8 b) (8 * i).

Definition load_byte (va : Z) : K Z := λ s,
  match kva2pa s va false with
  | Some pa => Ret (byte_of (phys_read s pa) (pa mod 4)) s
  | None => kernel_fault s
  end.

Definition store_byte (va b : Z) : K unit := λ s,
  match kva2pa s va true with
  | Some pa => Ret tt (phys_write s pa (with_byte (phys_read s pa) (pa mod 4) b))
  | None => kernel_fault s
  end.

(** [memcpy] and [memset], a byte at a time. *)
Fixpoint memcpy_bytes (n : nat) (dst src : Z) : K unit :=
  match n with
  | O => mret tt
  | S n' =>
      b ← load_byte src;
      store_byte dst b ;;
      memcpy_bytes n' (u32 (dst + 1)) (u32 (src + 1))
  end.

Fixpoint memset_bytes (n : nat) (dst c : Z) : K unit :=
  match n with
  | O => mret tt
  | S n' => store_byte dst c ;; memset_bytes n' (u32 (dst + 1)) c
  end.

(** ** [kern/printf.c] *)

(** The byte at a kernel virtual address, unless reading it faults. *)
Definition kread (s : kstate) (va : Z) : option Z :=
  match kva2pa s va false with
  | Some pa => Some (byte_of (phys_read s pa) (pa mod 4))
  | None => None
  end.

(** [putch] for a list of characters; it increments the pointer [cnt], not
    the count, so that the count stays [0]. *)
Definition putchs (l : list Z) (c : console) : console := fold_left (λ c ch, cputchar ch c) l c.

Definition vcprintf (fuel : nat) (fmt : string) (ap : list parg) : K Z := λ s,
  let o := vprintfmt fuel (kread s) (codes fmt) ap in
  let s' := set_cons (putchs o.1 (cons s)) s in
  match o.2 with
  | PDone => Ret 0 s'
  | PFault => kernel_fault s'
  | PUndefined => Exit (Undefined "va_arg") s'
  | PFuel => Exit SpinForever s'
  end.

(** The newline that ends a message. *)
Definition nl : string := String (Ascii.ascii_of_nat 10) EmptyString.

(** Messages without a string argument need no fuel. *)
Definition cprintf (fmt : string) (ap : list parg) : K Z := vcprintf 0 fmt ap.

(** ** [kern/time.c] *)

Definition time_init : K unit := modify (set_ticks 0).

Definition time_tick : K unit :=
  modify (λ s, set_ticks (u32 (ticks s + 1)) s) ;;
  t ← get ticks;
  if u32 (t * 10) <? t then panic "time_tick: time overflowed" else mret tt.

Definition time_msec : K Z := t ← get ticks; mret (u32 (t * 10)).

(** ** Facts *)

(** A message whose arguments are all there is printed. *)
Lemma cprintf_run fmt ap s :
  (vprintfmt 0 (kread s) (codes fmt) ap).2 = PDone ->
  exists c, cprintf fmt ap s = Ret 0 (set_cons c s).
Proof.
  intros H. unfold cprintf, vcprintf. rewrite H. by eexists.
Qed.
