(* ===== verification/Spinlock.v ===== *)
(** * The big kernel lock ([kern/spinlock.c], [kern/spinlock.h])

    First the lock operations as the kernel code of one CPU calls them; then
    every interleaving of several CPUs that execute [spin_lock] and
    [spin_unlock] as written, one access to the lock at a time. *)

From S2P Require Import Prelude Console E1000 Mmu Machine.

(** ** Operations of one CPU *)

Definition holding (s : kstate) : bool :=
  negb (locked (klock s) =? 0) && bool_decide (lk_cpu (klock s) = Some (cpunum s)).

Definition spin_initlock (s : kstate) : kstate := set_klock (mkLock 0 None) s.

(** While another CPU holds the lock this CPU spins. *)
Definition spin_lock : K unit :=
  h ← get holding;
  if (h : bool) then panic "cannot acquire: already holding"
  else
    l ← get klock;
    if negb (locked l =? 0) then leave SpinForever
    else modify (λ s, set_klock (mkLock 1 (Some (cpunum s))) s).

Definition spin_unlock : K unit :=
  h ← get holding;
  if negb h then panic "spin_unlock" else modify (set_klock (mkLock 0 None)).

Definition lock_kernel : K unit := spin_lock.
Definition unlock_kernel : K unit := spin_unlock.

(** ** Interleavings *)

(** Where a CPU is in its calls: outside, in the loop of [spin_lock], after
    the successful [xchg], holding the lock, in [spin_unlock] after the test
    of [holding], before the final [xchg]; or stopped by [panic]. *)
Inductive lock_pc := Outside | Spinning | Acquired | Critical | Checked | Releasing | Panicked.

#[export] Instance lock_pc_eq_dec : EqDecision lock_pc.
Proof. solve_decision. Defined.

Record lock_state := mkLS { ls_lock : spinlock; ls_pc : Z -> lock_pc }.

Definition ls_holding (st : lock_state) (c : Z) : bool :=
  negb (locked (ls_lock st) =? 0) && bool_decide (lk_cpu (ls_lock st) = Some c).

Definition goto (c : Z) (p : lock_pc) (l : spinlock) (st : lock_state) : lock_state :=
  mkLS l (λ c', if decide (c' = c) then p else ls_pc st c').

(** One atomic access by CPU [c]. *)
Inductive lock_step (c : Z) (st : lock_state) : lock_state -> Prop :=
  | step_lock_enter :
      ls_pc st c = Outside -> ls_holding st c = false ->
      lock_step c st (goto c Spinning (ls_lock st) st)
  | step_lock_panic :
      ls_pc st c = Outside -> ls_holding st c = true ->
      lock_step c st (goto c Panicked (ls_lock st) st)
  | step_xchg_fail :
      ls_pc st c = Spinning -> locked (ls_lock st) <> 0 ->
      lock_step c st (goto c Spinning (mkLock 1 (lk_cpu (ls_lock st))) st)
  | step_xchg_ok :
      ls_pc st c = Spinning -> locked (ls_lock st) = 0 ->
      lock_step c st (goto c Acquired (mkLock 1 (lk_cpu (ls_lock st))) st)
  | step_record :
      ls_pc st c = Acquired ->
      lock_step c st (goto c Critical (mkLock (locked (ls_lock st)) (Some c)) st)
  | step_unlock_check :
      ls_pc st c = Critical -> ls_holding st c = true ->
      lock_step c st (goto c Checked (ls_lock st) st)
  | step_unlock_panic :
      ls_pc st c = Critical -> ls_holding st c = false ->
      lock_step c st (goto c Panicked (ls_lock st) st)
  | step_clear :
      ls_pc st c = Checked ->
      lock_step c st (goto c Releasing (mkLock (locked (ls_lock st)) None) st)
  | step_release :
      ls_pc st c = Releasing ->
      lock_step c st (goto c Outside (mkLock 0 (lk_cpu (ls_lock st))) st).

(** States reachable from the initialised lock with every CPU outside. *)
Inductive lock_reachable : lock_state -> Prop :=
  | reach_init : lock_reachable (mkLS (mkLock 0 None) (λ _, Outside))
  | reach_step c st st' : lock_reachable st -> lock_step c st st' -> lock_reachable st'.

(** From the successful [xchg] to the releasing one. *)
Definition owns (p : lock_pc) : bool :=
  match p with Acquired | Critical | Checked | Releasing => true | _ => false end.

Record lock_inv (st : lock_state) : Prop := {
  li_one : forall c c', owns (ls_pc st c) = true -> owns (ls_pc st c') = true -> c = c';
  li_locked : forall c, owns (ls_pc st c) = true -> locked (ls_lock st) = 1;
  li_free : (forall c, owns (ls_pc st c) = false) -> locked (ls_lock st) = 0 /\ lk_cpu (ls_lock st) = None;
  li_cpu : forall c, lk_cpu (ls_lock st) = Some c -> ls_pc st c = Critical \/ ls_pc st c = Checked;
  li_crit : forall c, ls_pc st c = Critical \/ ls_pc st c = Checked -> lk_cpu (ls_lock st) = Some c;
  li_panic : forall c, ls_pc st c <> Panicked;
  li_bit : locked (ls_lock st) = 0 \/ locked (ls_lock st) = 1
}.

Lemma goto_eq c p l st : ls_pc (goto c p l st) c = p.
Proof. simpl. by rewrite decide_True. Qed.

Lemma goto_ne c c' p l st : c' <> c -> ls_pc (goto c p l st) c' = ls_pc st c'.
Proof. intros. simpl. by rewrite decide_False. Qed.

(** Case analysis on whether a CPU is the one that moved. *)
Ltac pcs c :=
  repeat match goal with
  | H : context [ls_pc (goto c _ _ _) ?x] |- _ =>
      destruct (decide (x = c)) as [->|?]; [rewrite goto_eq in H|rewrite goto_ne in H by done]
  | |- context [ls_pc (goto c _ _ _) ?x] =>
      destruct (decide (x = c)) as [->|?]; [rewrite goto_eq|rewrite goto_ne by done]
  end.

Lemma owner_other st c c' p :
  lock_inv st -> ls_pc st c = p -> owns p = true -> c' <> c -> owns (ls_pc st c') = false.
Proof.
  intros H Hp Ho Hne. destruct (owns (ls_pc st c')) eqn:E; [|done].
  exfalso. apply Hne. apply (li_one _ H); [done|by rewrite Hp].
Qed.

Lemma holding_spec st c :
  ls_holding st c = true <-> locked (ls_lock st) <> 0 /\ lk_cpu (ls_lock st) = Some c.
Proof.
  unfold ls_holding. rewrite andb_true_iff, negb_true_iff, Z.eqb_neq, bool_decide_eq_true. done.
Qed.

(** In the invariant, [holding] is exact: no call panics. *)
Lemma holding_outside st c : lock_inv st -> ls_pc st c = Outside -> ls_holding st c = false.
Proof.
  intros H Hp. apply not_true_iff_false. rewrite holding_spec. intros [_ Hc].
  destruct (li_cpu _ H c Hc); congruence.
Qed.

Lemma holding_critical st c : lock_inv st -> ls_pc st c = Critical -> ls_holding st c = true.
Proof.
  intros H Hp. apply holding_spec. split; [|apply (li_crit _ H); by left].
  rewrite (li_locked _ H c) by (by rewrite Hp). done.
Qed.

(** A step that changes whether [c] owns the lock neither to nor fro, and
    leaves the lock's fields alone. *)
Lemma goto_same_inv c p st :
  lock_inv st -> owns p = owns (ls_pc st c) -> p <> Panicked ->
  (p = Critical \/ p = Checked <-> ls_pc st c = Critical \/ ls_pc st c = Checked) ->
  lock_inv (goto c p (ls_lock st) st).
Proof.
  intros H Ho Hn Hc.
  assert (Howns : forall x, owns (ls_pc (goto c p (ls_lock st) st) x) = owns (ls_pc st x)).
  { intros x. pcs c; done. }
  constructor; cbn [ls_lock goto].
  - intros x y. rewrite !Howns. apply (li_one _ H).
  - intros x. rewrite Howns. apply (li_locked _ H).
  - intros Hall. apply (li_free _ H). intros x. rewrite <- Howns. apply Hall.
  - intros x Hx. pose proof (li_cpu _ H x Hx). pcs c; tauto.
  - intros x Hx. apply (li_crit _ H). pcs c; tauto.
  - intros x. pcs c; [done|apply (li_panic _ H)].
  - apply (li_bit _ H).
Qed.

Lemma acquire_inv c st :
  lock_inv st -> ls_pc st c = Spinning -> locked (ls_lock st) = 0 ->
  lock_inv (goto c Acquired (mkLock 1 (lk_cpu (ls_lock st))) st).
Proof.
  intros H Hp Hl.
  assert (Hnone : forall x, owns (ls_pc st x) = false).
  { intros x. destruct (owns (ls_pc st x)) eqn:E; [|done]. pose proof (li_locked _ H x E). congruence. }
  destruct (li_free _ H Hnone) as [_ Hcpu].
  constructor; cbn [ls_lock goto locked lk_cpu].
  - intros x y Hx Hy. pcs c; rewrite ?Hnone in *; congruence.
  - done.
  - intros Hall. specialize (Hall c). by rewrite goto_eq in Hall.
  - intros x. congruence.
  - intros x Hx. pcs c; [naive_solver|]. pose proof (Hnone x). destruct Hx as [E|E]; rewrite E in *; done.
  - intros x. pcs c; [done|apply (li_panic _ H)].
  - by right.
Qed.

(** The owner [c] moves from [p] to [q], both owning, and sets the field [cpu]. *)
Lemma owner_move_inv c p q o st :
  lock_inv st -> ls_pc st c = p -> owns p = true -> owns q = true ->
  (forall x, o = Some x <-> x = c /\ (q = Critical \/ q = Checked)) ->
  lock_inv (goto c q (mkLock (locked (ls_lock st)) o) st).
Proof.
  intros H Hp Hop Hoq Ho.
  assert (Hothers : forall x, x <> c -> owns (ls_pc st x) = false).
  { intros x Hx. by eapply owner_other. }
  constructor; cbn [ls_lock goto locked lk_cpu].
  - intros x y Hx Hy. pcs c; try done; rewrite ?Hothers in * by done; congruence.
  - intros x _. apply (li_locked _ H c). by rewrite Hp.
  - intros Hall. specialize (Hall c). rewrite goto_eq in Hall. congruence.
  - intros x Hx. apply Ho in Hx as [-> Hq]. by rewrite goto_eq.
  - intros x Hx. pcs c; [by apply Ho|]. pose proof (Hothers x ltac:(done)).
    destruct Hx as [E|E]; rewrite E in *; done.
  - intros x. pcs c; [by destruct q|apply (li_panic _ H)].
  - apply (li_bit _ H).
Qed.

Lemma release_inv c st :
  lock_inv st -> ls_pc st c = Releasing ->
  lock_inv (goto c Outside (mkLock 0 (lk_cpu (ls_lock st))) st).
Proof.
  intros H Hp.
  assert (Hothers : forall x, x <> c -> owns (ls_pc st x) = false).
  { intros x Hx. by eapply owner_other; [| |instantiate (1 := Releasing)|]. }
  assert (Hcpu : lk_cpu (ls_lock st) = None).
  { destruct (lk_cpu (ls_lock st)) as [x|] eqn:E; [|done]. exfalso.
    pose proof (li_cpu _ H x E) as Hx. destruct (decide (x = c)) as [->|Hne]; [naive_solver congruence|].
    pose proof (Hothers x Hne). destruct Hx as [Ex|Ex]; rewrite Ex in *; done. }
  assert (Hnone : forall x, owns (ls_pc (goto c Outside (mkLock 0 (lk_cpu (ls_lock st))) st) x) = false).
  { intros x. pcs c; [done|by apply Hothers]. }
  constructor; cbn [ls_lock goto locked lk_cpu].
  - intros x y Hx. by rewrite Hnone in Hx.
  - intros x Hx. by rewrite Hnone in Hx.
  - done.
  - intros x. congruence.
  - intros x Hx. pose proof (Hnone x). destruct Hx as [E|E]; rewrite E in *; done.
  - intros x. pcs c; [done|apply (li_panic _ H)].
  - by left.
Qed.

Lemma lock_step_inv c st st' : lock_inv st -> lock_step c st st' -> lock_inv st'.
Proof.
  intros H Hs. inversion Hs as [Hp Hh|Hp Hh|Hp Hl|Hp Hl|Hp|Hp Hh|Hp Hh|Hp|Hp]; subst st'.
  - apply goto_same_inv; try done; rewrite Hp; [done|naive_solver].
  - by rewrite (holding_outside _ _ H Hp) in Hh.
  - replace (mkLock 1 (lk_cpu (ls_lock st))) with (ls_lock st).
    + apply goto_same_inv; try done; rewrite Hp; [done|naive_solver].
    + pose proof (li_bit _ H). destruct (ls_lock st) as [l o]. simpl in *. f_equal. naive_solver.
  - by apply acquire_inv.
  - eapply owner_move_inv; [done|exact Hp|done|done|]. naive_solver.
  - apply goto_same_inv; try done; rewrite Hp; [done|naive_solver].
  - by rewrite (holding_critical _ _ H Hp) in Hh.
  - eapply owner_move_inv; [done|exact Hp|done|done|]. naive_solver.
  - by apply release_inv.
Qed.

Lemma lock_reachable_inv st : lock_reachable st -> lock_inv st.
Proof.
  induction 1 as [|c st st' _ IH Hs]; [|by eapply lock_step_inv].
  constructor; simpl; try done; [naive_solver|by left].
Qed.

(** ** Properties *)

(** C27: mutual exclusion and absence of lock panics: in every interleaving
    of CPUs that call [spin_lock] and [spin_unlock] in turn, at most one CPU
    is past the [xchg] that acquires the lock and not past the one that
    releases it, and no CPU fails a test of [holding]. *)
Theorem spinlock_mutual_exclusion st c c' :
  lock_reachable st -> owns (ls_pc st c) = true -> owns (ls_pc st c') = true ->
  c = c' /\ forall x, ls_pc st x <> Panicked.
Proof.
  intros H Hc Hc'. apply lock_reachable_inv in H. split; [by apply (li_one _ H)|apply (li_panic _ H)].
Qed.

Lemma spinlock_mutual_exclusion_witness :
  1 = 1 /\ forall x, ls_pc (goto 1 Acquired (mkLock 1 None)
    (goto 1 Spinning (mkLock 0 None) (mkLS (mkLock 0 None) (λ _, Outside)))) x <> Panicked.
Proof.
  apply (spinlock_mutual_exclusion _ 1 1); [|reflexivity|reflexivity].
  apply (reach_step 1 (goto 1 Spinning (mkLock 0 None) (mkLS (mkLock 0 None) (λ _, Outside)))).
  - apply (reach_step 1 (mkLS (mkLock 0 None) (λ _, Outside))); [apply reach_init|].
    apply (step_lock_enter 1 (mkLS (mkLock 0 None) (λ _, Outside))); reflexivity.
  - apply (step_xchg_ok 1 (goto 1 Spinning (mkLock 0 None) (mkLS (mkLock 0 None) (λ _, Outside))));
      reflexivity.
Defined.

(** Progress: as long as no CPU owns the lock, a CPU that wants it gets
    it by its own next steps. *)
Theorem spinlock_acquirable st c :
  lock_reachable st -> (forall x, owns (ls_pc st x) = false) -> ls_pc st c = Spinning ->
  exists st', lock_step c st st' /\ ls_pc st' c = Acquired.
Proof.
  intros H Hn Hp. apply lock_reachable_inv in H. destruct (li_free _ H Hn) as [Hl _].
  eexists. split; [by apply step_xchg_ok|apply goto_eq].
Qed.

Lemma spinlock_acquirable_witness :
  exists st', lock_step 1 (goto 1 Spinning (mkLock 0 None) (mkLS (mkLock 0 None) (λ _, Outside))) st' /\
    ls_pc st' 1 = Acquired.
Proof.
  apply spinlock_acquirable; [| |reflexivity].
  - apply (reach_step 1 (mkLS (mkLock 0 None) (λ _, Outside))); [apply reach_init|].
    apply (step_lock_enter 1 (mkLS (mkLock 0 None) (λ _, Outside))); reflexivity.
  - intros x. simpl. destruct (decide (x = 1)); reflexivity.
Defined.
