(* ===== verification/PageAlloc.v ===== *)
(** * Physical page allocator

    [boot_alloc], [page_init], [page_alloc], [page_free] and [page_decref] of
    [kern/pmap.c].  The free list threads through the [pp_link] fields of the
    array [pages]; [alloc_inv s fl] says that it is the list [fl] of page
    numbers. *)

From S2P Require Import Prelude Console E1000 Mmu Machine.

Abbreviation ALLOC_ZERO := 1 (only parsing).

(** ** Operations *)

(** [kend] is the linker symbol [end]. *)
Definition boot_alloc (kend n : Z) : K Z :=
  nf0 ← get nextfree;
  (if nf0 =? 0 then modify (set_nextfree (ROUNDUP kend PGSIZE)) else mret tt) ;;
  nf ← get nextfree;
  if negb (n =? 0) then
    let result := nf in
    let temp := u32 (nf + n) in
    modify (set_nextfree (ROUNDUP temp PGSIZE)) ;;
    mret result
  else mret nf.

(** The statement [pages[i].pp_ref = 0; pages[i].pp_link = page_free_list;
    page_free_list = &pages[i]]. *)
Definition init_free_page (i : Z) : K unit :=
  modify (set_pp_ref i 0) ;;
  fl ← get page_free_list;
  modify (set_pp_link i fl) ;;
  modify (set_page_free_list (Some i)).

(** One iteration of the loop of [page_init]. *)
Definition page_init_body (free_mem i : Z) : K unit :=
  nbase ← get npages_basemem;
  if i =? PGNUM MPENTRY_PADDR then modify (set_pp_link i None)
  else if i <? nbase then init_free_page i
  else if (IOPHYSMEM / PGSIZE <=? i) && (i <? EXTPHYSMEM / PGSIZE) then
    modify (set_pp_link i None)
  else if (EXTPHYSMEM / PGSIZE <=? i) && (i <? u32 (Z.quot free_mem PGSIZE)) then
    modify (set_pp_ref i 1) ;; modify (set_pp_link i None)
  else init_free_page i.

Definition page_init (kend : Z) : K unit :=
  modify (set_pp_ref 0 1) ;;
  nf ← boot_alloc kend 0;
  pa ← PADDR nf;
  let free_mem := s32 pa in
  n ← get npages;
  kfor (seqZ 1 (n - 1)) (page_init_body free_mem).

Definition page_alloc (alloc_flags : Z) : K (option Z) :=
  fl ← get page_free_list;
  match fl with
  | None => mret None
  | Some page_address =>
      link ← get (λ s, pp_link (pg s page_address));
      modify (set_page_free_list link) ;;
      modify (set_pp_link page_address None) ;;
      (if hasbits alloc_flags ALLOC_ZERO then
         kva ← page2kva page_address; memset0_page kva
       else mret tt) ;;
      mret (Some page_address)
  end.

Definition page_free (pp : Z) : K unit :=
  p ← get (λ s, pg s pp);
  if negb (pp_ref p =? 0) then panic "The pp_ref is not zero!!"
  else if negb (bool_decide (pp_link p = None)) then panic "The pp_link is not Null!"
  else
    fl ← get page_free_list;
    modify (set_pp_link pp fl) ;;
    modify (set_page_free_list (Some pp)).

Definition page_decref (pp : Z) : K unit :=
  r ← get (λ s, pp_ref (pg s pp));
  let r' := u16 (r - 1) in
  modify (set_pp_ref pp r') ;;
  if r' =? 0 then page_free pp else mret tt.

(** ** The free list *)

(** Following the links of [pgs] from [hd] visits exactly [l]. *)
Fixpoint chain (pgs : gmap Z PageInfo) (hd : option Z) (l : list Z) : Prop :=
  match l with
  | [] => hd = None
  | x :: l' => hd = Some x /\ exists p, pgs !! x = Some p /\ chain pgs (pp_link p) l'
  end.

Record alloc_inv (s : kstate) (fl : list Z) : Prop := {
  ai_np : 0 < npages s <= 65536;
  ai_dom : forall p, is_Some (pages s !! p) <-> 0 <= p < npages s;
  ai_chain : chain (pages s) (page_free_list s) fl;
  ai_nodup : NoDup fl;
  ai_free : forall p, p ∈ fl -> pp_ref (pg s p) = 0;
  ai_link : forall p, p ∉ fl -> pp_link (pg s p) = None;
  ai_ref : forall p, 0 <= pp_ref (pg s p) < 65536
}.

Lemma chain_insert_ne pgs hd l i p :
  i ∉ l -> chain (<[i := p]> pgs) hd l <-> chain pgs hd l.
Proof.
  revert hd. induction l as [|x l IH]; intros hd Hi; simpl; [done|].
  assert (i <> x) by set_solver. assert (i ∉ l) by set_solver.
  rewrite lookup_insert_ne by done.
  split; intros (? & q & ? & ?); (split; [done|]); exists q; (split; [done|]); by apply IH.
Qed.

(** Only the links matter. *)
Lemma chain_ext pgs pgs' hd l :
  (forall x p, x ∈ l -> pgs !! x = Some p -> exists p', pgs' !! x = Some p' /\ pp_link p' = pp_link p) ->
  chain pgs hd l -> chain pgs' hd l.
Proof.
  revert hd. induction l as [|x l IH]; intros hd H; simpl; [done|].
  intros (? & p & Hp & Hc). split; [done|].
  destruct (H x p) as (p' & ? & Hl); [set_solver|done|].
  exists p'. split; [done|]. rewrite Hl. apply IH; [|done].
  intros y q Hy. apply H. set_solver.
Qed.

Lemma chain_in_dom pgs hd l x : chain pgs hd l -> x ∈ l -> is_Some (pgs !! x).
Proof.
  revert hd. induction l as [|y l IH]; intros hd Hc Hx; [set_solver|].
  destruct Hc as (_ & p & Hp & Hc). apply elem_of_cons in Hx as [->|Hx]; eauto.
Qed.

Lemma chain_unique pgs hd l l' : chain pgs hd l -> chain pgs hd l' -> l = l'.
Proof.
  revert hd l'. induction l as [|x l IH]; intros hd [|y l'] H H'; simpl in *; try done.
  - destruct H' as (? & _). congruence.
  - destruct H as (? & _). congruence.
  - destruct H as (-> & p & Hp & Hc), H' as ([= <-] & p' & Hp' & Hc').
    f_equal. replace p' with p in Hc' by congruence. by eapply IH.
Qed.

Lemma ai_in_range s fl p : alloc_inv s fl -> p ∈ fl -> 0 <= p < npages s.
Proof.
  intros H Hp. apply (ai_dom _ _ H). eapply chain_in_dom; [apply (ai_chain _ _ H)|done].
Qed.

Lemma pages_pg s fl p : alloc_inv s fl -> 0 <= p < npages s -> pages s !! p = Some (pg s p).
Proof. intros H Hp. apply (ai_dom _ _ H) in Hp as [q Hq]. unfold pg. by rewrite Hq. Qed.

(** The invariant does not depend on memory or on environments. *)
Lemma alloc_inv_frame s s' fl :
  npages s' = npages s -> pages s' = pages s -> page_free_list s' = page_free_list s ->
  alloc_inv s fl -> alloc_inv s' fl.
Proof.
  intros H1 H2 H3 []. unfold pg in *.
  constructor; unfold pg; rewrite ?H1, ?H2, ?H3; done.
Qed.

(** Changing reference counts of pages off the free list keeps the invariant. *)
Lemma alloc_inv_set_ref s fl p r :
  alloc_inv s fl -> 0 <= p < npages s -> p ∉ fl -> 0 <= r < 65536 ->
  alloc_inv (set_pp_ref p r s) fl.
Proof.
  intros H Hp Hfl Hr. pose proof (pages_pg _ _ _ H Hp) as Hpg.
  constructor; simpl.
  - apply (ai_np _ _ H).
  - intros q. rewrite <- (ai_dom _ _ H). destruct (decide (p = q)) as [->|].
    + rewrite lookup_insert_eq, Hpg. split; eauto.
    + by rewrite lookup_insert_ne.
  - apply chain_insert_ne; [done|]. apply (ai_chain _ _ H).
  - apply (ai_nodup _ _ H).
  - intros q Hq. unfold set_pp_ref. rewrite pg_set_pg_ne by set_solver. by apply (ai_free _ _ H).
  - intros q Hq. rewrite pp_link_set_pp_ref. by apply (ai_link _ _ H).
  - intros q. unfold set_pp_ref. destruct (decide (p = q)) as [->|].
    + by rewrite pg_set_pg_eq.
    + rewrite pg_set_pg_ne by done. apply (ai_ref _ _ H).
Qed.

(** ** Taking a page from the free list and giving it back *)

(** The state after the head [p] of the free list was unlinked. *)
Definition take_page (p : Z) (s : kstate) : kstate :=
  set_pp_link p None (set_page_free_list (pp_link (pg s p)) s).

(** The state after [p] was pushed on the free list. *)
Definition give_page (p : Z) (s : kstate) : kstate :=
  set_page_free_list (Some p) (set_pp_link p (page_free_list s) s).

Lemma take_page_ref p q s : pp_ref (pg (take_page p s) q) = pp_ref (pg s q).
Proof. unfold take_page. by rewrite pp_ref_set_pp_link. Qed.

Lemma give_page_ref p q s : pp_ref (pg (give_page p s) q) = pp_ref (pg s q).
Proof. unfold give_page. exact (pp_ref_set_pp_link s p (page_free_list s) q). Qed.

Lemma take_page_inv s p fl : alloc_inv s (p :: fl) -> alloc_inv (take_page p s) fl.
Proof.
  intros H. pose proof (ai_chain _ _ H) as (Hhd & q & Hq & Hc).
  pose proof (ai_nodup _ _ H) as Hnd. apply list.NoDup_cons in Hnd as [Hp Hnd].
  constructor; simpl.
  - apply (ai_np _ _ H).
  - intros x. rewrite <- (ai_dom _ _ H). destruct (decide (p = x)) as [->|].
    + rewrite lookup_insert_eq, Hq. split; eauto.
    + by rewrite lookup_insert_ne.
  - rewrite (pg_lookup _ _ _ Hq). by apply chain_insert_ne.
  - done.
  - intros x Hx. rewrite take_page_ref. apply (ai_free _ _ H). set_solver.
  - intros x Hx. unfold take_page, set_pp_link. destruct (decide (p = x)) as [->|].
    + by rewrite pg_set_pg_eq.
    + rewrite pg_set_pg_ne by done. apply (ai_link _ _ H). set_solver.
  - intros x. rewrite take_page_ref. apply (ai_ref _ _ H).
Qed.

Lemma give_page_inv s p fl :
  alloc_inv s fl -> 0 <= p < npages s -> p ∉ fl -> pp_ref (pg s p) = 0 ->
  alloc_inv (give_page p s) (p :: fl).
Proof.
  intros H Hp Hfl Href. pose proof (pages_pg _ _ _ H Hp) as Hpg.
  constructor; simpl.
  - apply (ai_np _ _ H).
  - intros x. rewrite <- (ai_dom _ _ H). destruct (decide (p = x)) as [->|].
    + rewrite lookup_insert_eq, Hpg. split; eauto.
    + by rewrite lookup_insert_ne.
  - split; [done|]. eexists. rewrite lookup_insert_eq. split; [done|]. simpl.
    apply chain_insert_ne; [done|]. apply (ai_chain _ _ H).
  - apply list.NoDup_cons. split; [done|]. apply (ai_nodup _ _ H).
  - intros x Hx. rewrite give_page_ref. apply elem_of_cons in Hx as [->|Hx]; [done|].
    by apply (ai_free _ _ H).
  - intros x Hx. change (pg (give_page p s) x) with (pg (set_pp_link p (page_free_list s) s) x).
    unfold set_pp_link. rewrite pg_set_pg_ne by set_solver. apply (ai_link _ _ H). set_solver.
  - intros x. rewrite give_page_ref. apply (ai_ref _ _ H).
Qed.

(** ** Specifications of the operations *)

Lemma page_alloc_cons s p fl f :
  alloc_inv s (p :: fl) ->
  page_alloc f s =
    Ret (Some p) (if hasbits f ALLOC_ZERO then zero_page p (take_page p s) else take_page p s).
Proof.
  intros H. pose proof (ai_in_range _ _ p H ltac:(set_solver)). pose proof (ai_np _ _ H).
  pose proof (ai_chain _ _ H) as (Hhd & _).
  unfold page_alloc. rewrite bind_get, Hhd. autorewrite with jos.
  destruct (hasbits f ALLOC_ZERO); [|done].
  rewrite bind_assoc.
  erewrite bind_Ret by (apply page2kva_page; simpl; lia).
  by erewrite bind_Ret by (apply memset0_page_kptr; lia).
Qed.

Lemma page_alloc_nil s f : alloc_inv s [] -> page_alloc f s = Ret None s.
Proof.
  intros H. pose proof (ai_chain _ _ H) as Hc. simpl in Hc.
  unfold page_alloc. by rewrite bind_get, Hc.
Qed.

Lemma page_free_ok s fl p :
  alloc_inv s fl -> p ∉ fl -> pp_ref (pg s p) = 0 ->
  page_free p s = Ret tt (give_page p s).
Proof.
  intros H Hfl Href. unfold page_free. rewrite bind_get, Href, (ai_link _ _ H) by done.
  simpl. done.
Qed.

(** [page_decref] on a page with more references than one. *)
Lemma page_decref_many s p :
  1 < pp_ref (pg s p) < 65536 ->
  page_decref p s = Ret tt (set_pp_ref p (pp_ref (pg s p) - 1) s).
Proof.
  intros H. unfold page_decref. rewrite bind_get, u16_small, bind_modify by lia.
  by destruct (Z.eqb_spec (pp_ref (pg s p) - 1) 0); [lia|].
Qed.

(** Dropping the last reference frees the page. *)
Lemma page_decref_last s fl p :
  alloc_inv s fl -> 0 <= p < npages s -> p ∉ fl -> pp_ref (pg s p) = 1 ->
  page_decref p s = Ret tt (give_page p (set_pp_ref p 0 s)).
Proof.
  intros H Hp Hfl Href. unfold page_decref. rewrite bind_get, Href.
  change (u16 (1 - 1)) with 0. rewrite bind_modify. simpl.
  eapply page_free_ok; [|done|].
  - apply alloc_inv_set_ref; [done..|lia].
  - unfold set_pp_ref. by rewrite pg_set_pg_eq.
Qed.

(** [page_decref] in one equation. *)
Definition decref_state (p : Z) (s : kstate) : kstate :=
  if pp_ref (pg s p) =? 1 then give_page p (set_pp_ref p 0 s)
  else set_pp_ref p (pp_ref (pg s p) - 1) s.

Definition decref_free (p : Z) (s : kstate) (fl : list Z) : list Z :=
  if pp_ref (pg s p) =? 1 then p :: fl else fl.

Lemma page_decref_spec s fl p :
  alloc_inv s fl -> 0 <= p < npages s -> p ∉ fl -> 1 <= pp_ref (pg s p) ->
  page_decref p s = Ret tt (decref_state p s) /\
  alloc_inv (decref_state p s) (decref_free p s fl).
Proof.
  intros H Hp Hfl Hr. pose proof (ai_ref _ _ H p). unfold decref_state, decref_free.
  destruct (Z.eqb_spec (pp_ref (pg s p)) 1) as [E|E].
  - split; [by eapply page_decref_last|]. apply give_page_inv; try done.
    + apply alloc_inv_set_ref; [done..|lia].
    + unfold set_pp_ref. by rewrite pg_set_pg_eq.
  - split; [apply page_decref_many; lia|]. apply alloc_inv_set_ref; [done..|lia].
Qed.

Lemma decref_state_ref p s q :
  pp_ref (pg (decref_state p s) q) = pp_ref (pg s q) - (if decide (p = q) then 1 else 0).
Proof.
  unfold decref_state. destruct (Z.eqb_spec (pp_ref (pg s p)) 1) as [E|E];
    rewrite ?give_page_ref; unfold set_pp_ref; case_decide; subst;
    rewrite ?pg_set_pg_eq, ?pg_set_pg_ne by done; simpl; lia.
Qed.

Lemma decref_state_frame p s :
  npages (decref_state p s) = npages s /\ mem (decref_state p s) = mem s /\
  envs (decref_state p s) = envs s /\ cpus (decref_state p s) = cpus s /\
  cpunum (decref_state p s) = cpunum s /\ kern_pgdir (decref_state p s) = kern_pgdir s /\
  env_free_list (decref_state p s) = env_free_list s /\ klock (decref_state p s) = klock s.
Proof. unfold decref_state. by destruct (_ =? _). Qed.

(** A page that was already free, and is not the last of the list, is caught. *)
Lemma page_free_linked_panics s p :
  pp_ref (pg s p) = 0 -> is_Some (pp_link (pg s p)) ->
  page_free p s = Exit (Panic "The pp_link is not Null!") s.
Proof.
  intros Href [l Hl]. unfold page_free. by rewrite bind_get, Href, Hl.
Qed.

Lemma chain_last pgs hd l x :
  chain pgs hd (l ++ [x]) -> exists p, pgs !! x = Some p /\ pp_link p = None.
Proof.
  revert hd. induction l as [|y l IH]; intros hd; simpl.
  - intros (_ & p & ? & ?). eauto.
  - intros (_ & p & _ & Hc). eauto.
Qed.

(** If the last page of a list is linked back to its head, no walk ends. *)
Lemma chain_cycle pgs hd0 pre p r n : forall l hd pr,
  chain pgs hd0 (pre ++ [p]) -> p ∉ pre ->
  (length l <= n)%nat -> chain pgs hd (pr ++ [p]) -> p ∉ pr ->
  ~ chain (<[p := mkPageInfo hd0 r]> pgs) hd l.
Proof.
  induction n as [|n IH]; intros l hd pr H0 Hpre Hlen Hch Hp Hl;
    (destruct l as [|x l]; [simpl in Hl; subst; destruct pr; simpl in Hch; by destruct Hch|]);
    simpl in Hlen; [lia|].
  simpl in Hl. destruct Hl as (-> & y & Hy & Hl).
  destruct pr as [|z pr]; simpl in Hch; destruct Hch as ([= ->] & w & Hw & Hch).
  - rewrite lookup_insert_eq in Hy. injection Hy as <-. simpl in Hl.
    by eapply (IH l hd0 pre); [..|lia|done|done|].
  - rewrite lookup_insert_ne in Hy by set_solver. replace y with w in Hl by congruence.
    by eapply (IH l (pp_link w) pr); [..|lia|done|set_solver|].
Qed.

(** ** The free list that [page_init] builds *)

(** Which pages [page_init] frees, with [nbase] pages of base memory and
    kernel data up to page [kfree]. *)
Definition page_is_free (nbase kfree i : Z) : bool :=
  negb (i =? 7) &&
  ((i <? nbase) ||
   (negb ((160 <=? i) && (i <? 256)) && negb ((256 <=? i) && (i <? kfree)))).

Lemma page_is_free_iff nbase kfree p :
  nbase <= 160 -> page_is_free nbase kfree p = true <-> p <> 7 /\ ~ (160 <= p < 256) /\ ~ (256 <= p < kfree).
Proof.
  intros Hb. unfold page_is_free.
  destruct (Z.eqb_spec p 7), (Z.ltb_spec p nbase), (Z.leb_spec 160 p), (Z.ltb_spec p 256); simpl;
    try (split; intros; exfalso; naive_solver lia);
    destruct (Z.leb_spec 256 p), (Z.ltb_spec p kfree); simpl; naive_solver lia.
Qed.

Lemma init_free_page_eq i s :
  init_free_page i s = Ret tt (give_page i (set_pp_ref i 0 s)).
Proof. done. Qed.

(** Pages the loop body does not touch keep their entry. *)
Lemma set_pp_link_None_id s fl i :
  alloc_inv s fl -> 0 <= i < npages s -> i ∉ fl -> set_pp_link i None s = s.
Proof.
  intros H Hi Hfl. unfold set_pp_link, set_pg.
  replace (mkPageInfo None (pp_ref (pg s i))) with (pg s i).
  - rewrite insert_id by (by eapply pages_pg). by destruct s.
  - pose proof (ai_link _ _ H i Hfl). by destruct (pg s i); simpl in *; subst.
Qed.

(** Nothing but the array [pages] and the head of the free list changes. *)
Definition pages_only (s s' : kstate) : Prop :=
  s' = set_page_free_list (page_free_list s') (set_pages (pages s') s).

Lemma pages_only_trans s s1 s2 : pages_only s s1 -> pages_only s1 s2 -> pages_only s s2.
Proof. unfold pages_only. intros H1 ->. by rewrite H1. Qed.

(** A page of the kernel's image or boot data. *)
Definition kernel_page (nbase kfree i : Z) : Prop := nbase <= i /\ 256 <= i < kfree.

Lemma page_init_body_spec s fl free_mem i :
  alloc_inv s fl -> 1 <= i < npages s -> i ∉ fl -> 0 <= free_mem < 2147483648 ->
  exists s', page_init_body free_mem i s = Ret tt s' /\
    alloc_inv s' (if page_is_free (npages_basemem s) (free_mem / 4096) i then i :: fl else fl) /\
    pages_only s s' /\ (forall j, j <> i -> pg s' j = pg s j) /\
    (kernel_page (npages_basemem s) (free_mem / 4096) i -> pp_ref (pg s' i) = 1).
Proof.
  intros H Hi Hfl Hfm. unfold page_init_body, page_is_free. rewrite bind_get.
  change (PGNUM MPENTRY_PADDR) with 7. change (IOPHYSMEM / PGSIZE) with 160.
  change (EXTPHYSMEM / PGSIZE) with 256.
  rewrite Z.quot_div_nonneg by lia. rewrite u32_small.
  2:{ split; [apply Z.div_pos; lia|apply Z.div_lt_upper_bound; lia]. }
  assert (Hgive : exists s', init_free_page i s = Ret tt s' /\ alloc_inv s' (i :: fl) /\
    pages_only s s' /\ (forall j, j <> i -> pg s' j = pg s j)).
  { rewrite init_free_page_eq. eexists. split; [done|]. split_and!; try done.
    - apply give_page_inv; [apply alloc_inv_set_ref; [done|lia|done|lia]|simpl; lia|done|].
      unfold set_pp_ref. by rewrite pg_set_pg_eq.
    - intros j Hj. unfold give_page, pg. simpl. rewrite !lookup_insert_ne by done. done. }
  assert (Hskip : exists s', modify (set_pp_link i None) s = Ret tt s' /\ alloc_inv s' fl /\
    pages_only s s' /\ (forall j, j <> i -> pg s' j = pg s j)).
  { exists s. unfold modify. rewrite (set_pp_link_None_id s fl) by (try done; lia). split_and!; try done. by destruct s. }
  assert (Hkern : exists s', (modify (set_pp_ref i 1) ;; modify (set_pp_link i None)) s = Ret tt s' /\
    alloc_inv s' fl /\ pages_only s s' /\ (forall j, j <> i -> pg s' j = pg s j) /\ pp_ref (pg s' i) = 1).
  { exists (set_pp_ref i 1 s). assert (alloc_inv (set_pp_ref i 1 s) fl).
    { apply alloc_inv_set_ref; [done|lia|done|lia]. }
    rewrite bind_modify. unfold modify. rewrite (set_pp_link_None_id _ fl) by (simpl; done || lia).
    split_and!; try done; [intros j Hj|]; unfold set_pp_ref; [by rewrite pg_set_pg_ne|by rewrite pg_set_pg_eq]. }
  set (kf := free_mem / 4096) in *. unfold kernel_page.
  destruct (Z.eqb_spec i 7); [naive_solver lia|]. simpl.
  destruct (Z.ltb_spec i (npages_basemem s)); [naive_solver lia|]. simpl.
  destruct (Z.leb_spec 160 i), (Z.ltb_spec i 256), (Z.leb_spec 256 i), (Z.ltb_spec i kf); simpl; naive_solver lia.
Qed.

Lemma page_init_loop l : forall s fl free_mem,
  alloc_inv s fl -> (forall i, i ∈ l -> 1 <= i < npages s /\ i ∉ fl) -> NoDup l ->
  0 <= free_mem < 2147483648 ->
  exists s', kfor l (page_init_body free_mem) s = Ret tt s' /\
    alloc_inv s' (rev (filter (λ i, page_is_free (npages_basemem s) (free_mem / 4096) i = true) l) ++ fl) /\
    pages_only s s' /\ (forall j, j ∉ l -> pg s' j = pg s j) /\
    (forall j, j ∈ l -> kernel_page (npages_basemem s) (free_mem / 4096) j -> pp_ref (pg s' j) = 1).
Proof.
  induction l as [|i l IH]; intros s fl free_mem H Hl Hnd Hfm; simpl.
  - exists s. split_and!; try done; [by destruct s|]. intros j Hj. by apply elem_of_nil in Hj.
  - apply list.NoDup_cons in Hnd as [Hil Hnd]. destruct (Hl i) as [Hi Hfl]; [set_solver|].
    destruct (page_init_body_spec s fl free_mem i H Hi Hfl Hfm) as (s1 & He & H1 & Ho & Hpg & Hk).
    assert (Hnp : npages s1 = npages s) by (by rewrite Ho). assert (Hnb : npages_basemem s1 = npages_basemem s) by (by rewrite Ho).
    erewrite bind_Ret by exact He.
    edestruct (IH s1) as (s2 & He2 & H2 & Ho2 & Hpg2 & Hk2); [exact H1| |done|exact Hfm|].
    { intros j Hj. destruct (Hl j) as [Hj1 Hj2]; [set_solver|]. rewrite Hnp. split; [done|].
      destruct page_is_free; set_solver. }
    exists s2. rewrite Hnb in H2, Hk2. split_and!; [done| |by eapply pages_only_trans| |].
    + rewrite filter_cons. case_decide as Hd.
      * rewrite Hd in H2. simpl. by rewrite <- app_assoc.
      * apply not_true_is_false in Hd. by rewrite Hd in H2.
    + intros j Hj. rewrite Hpg2, Hpg; set_solver.
    + intros j Hj Hkj. destruct (decide (j = i)) as [->|Hne]; [rewrite Hpg2 by done; by apply Hk|]. apply Hk2; [set_solver|done].
Qed.

(** The array after [memset(pages, 0, npages * sizeof(struct PageInfo))]. *)
Definition zero_pages (n : Z) : gmap Z PageInfo :=
  list_to_map ((λ i, (i, mkPageInfo None 0)) <$> seqZ 0 n).

Lemma zero_pages_lookup n p : zero_pages n !! p = if decide (0 <= p < n) then Some (mkPageInfo None 0) else None.
Proof.
  unfold zero_pages. case_decide.
  - apply elem_of_list_to_map_1'.
    + intros y Hy. apply list_elem_of_fmap in Hy as (? & [= _ ->] & _). done.
    + apply list_elem_of_fmap. exists p. split; [done|]. apply elem_of_seqZ. lia.
  - apply not_elem_of_list_to_map_1. intros Hp.
    apply list_elem_of_fmap in Hp as ([q x] & -> & Hp).
    apply list_elem_of_fmap in Hp as (? & [= -> _] & Hq%elem_of_seqZ). simpl in *. lia.
Qed.

Lemma zero_pages_dom n p : is_Some (zero_pages n !! p) <-> 0 <= p < n.
Proof. rewrite zero_pages_lookup. case_decide; split; try done; intros []; done. Qed.

(** The state before [page_init]: [pages] was zeroed by [memset] and the
    kernel's data ends at [nextfree]. *)
Record pre_page_init (s : kstate) : Prop := {
  pp_np : 0 < npages s <= 65536;
  pp_dom : forall p, is_Some (pages s !! p) <-> 0 <= p < npages s;
  pp_zero : forall p, pg s p = mkPageInfo None 0;
  pp_list : page_free_list s = None;
  pp_next : KERNBASE < nextfree s < 4294967296
}.

Lemma pre_page_init_inv s : pre_page_init s -> alloc_inv s [].
Proof.
  intros []. constructor; try done.
  - apply NoDup_nil_2.
  - intros p Hp. by apply elem_of_nil in Hp.
  - intros p _. by rewrite pp_zero0.
  - intros p. rewrite pp_zero0. simpl. lia.
Qed.

Lemma page_init_spec s kend :
  pre_page_init s ->
  exists s', page_init kend s = Ret tt s' /\
    alloc_inv s' (rev (filter (λ i, page_is_free (npages_basemem s)
                                      ((nextfree s - KERNBASE) / 4096) i = true)
                              (seqZ 1 (npages s - 1)))) /\
    pages_only s s' /\ pp_ref (pg s' 0) = 1 /\
    (forall p, 0 < p < npages s -> kernel_page (npages_basemem s) ((nextfree s - KERNBASE) / 4096) p -> pp_ref (pg s' p) = 1).
Proof.
  intros Hp. pose proof (pre_page_init_inv _ Hp) as Hinv. destruct Hp.
  set (s1 := set_pp_ref 0 1 s).
  assert (H1 : alloc_inv s1 []). { apply alloc_inv_set_ref; [done|lia|set_solver|lia]. }
  unfold page_init. rewrite bind_modify. fold s1.
  assert (Hb : boot_alloc kend 0 s1 = Ret (nextfree s) s1).
  { unfold boot_alloc. rewrite bind_get. change (nextfree s1) with (nextfree s).
    destruct (Z.eqb_spec (nextfree s) 0); [lia|]. done. }
  erewrite bind_Ret by exact Hb.
  assert (Hpa : PADDR (nextfree s) s1 = Ret (nextfree s - KERNBASE) s1).
  { unfold PADDR. destruct (Z.ltb_spec (nextfree s) KERNBASE); [lia|]. done. }
  erewrite bind_Ret by exact Hpa. rewrite bind_get.
  rewrite s32_small by lia. change (npages s1) with (npages s).
  edestruct (page_init_loop (seqZ 1 (npages s - 1)) s1 []) as (s' & He & H' & Ho & Hpg & Hk);
    [exact H1| |apply NoDup_seqZ| |].
  - intros i Hi. apply elem_of_seqZ in Hi. simpl. split; [lia|set_solver].
  - shelve.
  - exists s'. rewrite app_nil_r in H'. split; [exact He|]. split_and!; [exact H'|by rewrite Ho| |].
    2:{ intros p Hp. apply Hk. apply elem_of_seqZ. lia. }
    rewrite Hpg; [|rewrite elem_of_seqZ; lia]. unfold s1, set_pp_ref. by rewrite pg_set_pg_eq.
  Unshelve. lia.
Qed.

(** ** Deciding the invariant of a concrete state *)

Fixpoint chainb (pgs : gmap Z PageInfo) (hd : option Z) (l : list Z) : bool :=
  match l with
  | [] => bool_decide (hd = None)
  | x :: l' => bool_decide (hd = Some x) &&
      match pgs !! x with Some p => chainb pgs (pp_link p) l' | None => false end
  end.

Definition alloc_invb (s : kstate) (fl : list Z) : bool :=
  (0 <? npages s) && (npages s <=? 65536) &&
  forallb (λ p, bool_decide (is_Some (pages s !! p))) (seqZ 0 (npages s)) &&
  bool_decide (map_Forall (λ p _, 0 <= p < npages s) (pages s)) &&
  chainb (pages s) (page_free_list s) fl && bool_decide (NoDup fl) &&
  forallb (λ p, pp_ref (pg s p) =? 0) fl &&
  bool_decide (map_Forall (λ p q, p ∈ fl \/ pp_link q = None) (pages s)) &&
  bool_decide (map_Forall (λ _ q, 0 <= pp_ref q < 65536) (pages s)).

Lemma chainb_sound pgs hd l : chainb pgs hd l = true -> chain pgs hd l.
Proof.
  revert hd. induction l as [|x l IH]; intros hd; simpl.
  - apply bool_decide_eq_true.
  - destruct (pgs !! x) as [p|] eqn:E; [|by rewrite andb_false_r].
    intros [H1%bool_decide_eq_true H2]%andb_prop. eauto.
Qed.

Lemma alloc_invb_sound s fl : alloc_invb s fl = true -> alloc_inv s fl.
Proof.
  unfold alloc_invb. intros H.
  repeat match goal with H : (_ && _)%bool = true |- _ => apply andb_prop in H as [H ?] end.
  repeat match goal with H : bool_decide _ = true |- _ => apply bool_decide_eq_true in H end.
  repeat match goal with H : forallb _ _ = true |- _ => rewrite forallb_forall in H end.
  bool_prop. constructor; try done.
  - intros p. split.
    + intros [q Hq].
      match goal with H : map_Forall (λ p _, 0 <= p < npages s) _ |- _ => exact (H p q Hq) end.
    + intros Hp. eapply bool_decide_eq_true.
      match goal with H : forall x, In x (seqZ _ _) -> _ |- _ => apply H end.
      apply list_elem_of_In, elem_of_seqZ. lia.
  - by apply chainb_sound.
  - intros p Hp. apply Z.eqb_eq.
    match goal with H : forall x, In x fl -> _ |- _ => apply H end. by apply list_elem_of_In.
  - intros p Hp. unfold pg. destruct (pages s !! p) as [q|] eqn:E; [|done]. simpl.
    match goal with H : map_Forall (λ p q, p ∈ fl \/ pp_link q = None) _ |- _ =>
      by destruct (H p q E) end.
  - intros p. unfold pg. destruct (pages s !! p) as [q|] eqn:E; simpl; [|lia].
    match goal with H : map_Forall (λ _ q, 0 <= pp_ref q < 65536) _ |- _ =>
      exact (H p q E) end.
Qed.

(** ** Sample states *)

(** A machine with [n] pages before [page_init], kernel data up to 1.0625MB. *)
Definition boot_sample (n : Z) : kstate :=
  mkK n 160 (zero_pages n) None (KERNBASE + 0x110000) MMIOBASE 0 0 0 ∅ ∅ None 0 ∅ 0
    (mkLock 0 None) 0 console0 (nic0 arr_sample).

(** The sample machine after [page_init]. *)
Definition page_sample : kstate :=
  match page_init 0 (boot_sample 280) with Ret _ s => s | Exit _ s => s end.

Definition page_sample_free : list Z :=
  rev (filter (λ i, page_is_free 160 272 i = true) (seqZ 1 279)).

Lemma pre_page_init_sample : pre_page_init (boot_sample 280).
Proof.
  constructor; try done.
  - apply zero_pages_dom.
  - intros p. unfold pg. change (pages (boot_sample 280)) with (zero_pages 280). rewrite zero_pages_lookup. by case_decide.
Qed.

Lemma page_sample_inv : alloc_inv page_sample page_sample_free.
Proof. apply alloc_invb_sound. vm_compute. reflexivity. Qed.

(** ** Properties *)

(** [page_init] returns, and leaves on the free list exactly the pages
    that are neither page 0, nor the page at [MPENTRY_PADDR], nor in the I/O
    hole, nor occupied by the kernel's image and boot data; the list is
    acyclic, its pages have no references, every other page is unlinked. *)
Theorem page_init_free_list s kend :
  pre_page_init s -> npages_basemem s <= 160 ->
  exists s' fl, page_init kend s = Ret tt s' /\ alloc_inv s' fl /\
    forall p, p ∈ fl <-> 1 <= p < npages s /\ p <> PGNUM MPENTRY_PADDR /\
      ~ (IOPHYSMEM / PGSIZE <= p < EXTPHYSMEM / PGSIZE) /\
      ~ (EXTPHYSMEM / PGSIZE <= p < (nextfree s - KERNBASE) / PGSIZE).
Proof.
  intros Hp Hb. destruct (page_init_spec s kend Hp) as (s' & He & H & _).
  eexists s', _. split; [done|]. split; [exact H|]. intros p.
  rewrite list_elem_of_In, <- in_rev, <- list_elem_of_In, list_elem_of_filter, elem_of_seqZ.
  change (PGNUM MPENTRY_PADDR) with 7. change (IOPHYSMEM / PGSIZE) with 160.
  change (EXTPHYSMEM / PGSIZE) with 256. rewrite page_is_free_iff by done. naive_solver lia.
Qed.

Lemma page_init_free_list_witness :
  exists s' fl, page_init 0 (boot_sample 280) = Ret tt s' /\ alloc_inv s' fl /\ 272 ∈ fl.
Proof.
  destruct (page_init_free_list (boot_sample 280) 0 pre_page_init_sample
              ltac:(vm_compute; discriminate)) as (s' & fl & H1 & H2 & H3).
  exists s', fl. split; [exact H1|]. split; [exact H2|]. apply H3. vm_compute. intuition congruence.
Defined.

(** [page_alloc] takes the head of the free list, whatever the flags:
    the page is unlinked, no reference count and no other page's contents
    change, with [ALLOC_ZERO] the page reads as zero, and when memory is
    exhausted the result is NULL and nothing changes. *)
Theorem page_alloc_correct s fl flags :
  alloc_inv s fl ->
  match fl with
  | [] => page_alloc flags s = Ret None s
  | p :: fl' => exists s', page_alloc flags s = Ret (Some p) s' /\ alloc_inv s' fl' /\
      p ∉ fl' /\ pp_ref (pg s' p) = 0 /\ pp_link (pg s' p) = None /\
      (forall q, pp_ref (pg s' q) = pp_ref (pg s q)) /\
      (forall q i, q <> p -> rdw (mem s') q i = rdw (mem s) q i) /\
      (forall i, rdw (mem s') p i = if hasbits flags ALLOC_ZERO then 0 else rdw (mem s) p i)
  end.
Proof.
  intros H. destruct fl as [|p fl]; [by apply page_alloc_nil|].
  rewrite (page_alloc_cons _ _ _ _ H). eexists. split; [done|].
  pose proof (take_page_inv _ _ _ H) as H'. pose proof (ai_nodup _ _ H) as Hnd.
  apply list.NoDup_cons in Hnd as [Hp _].
  pose proof (ai_free _ _ H p ltac:(set_solver)) as Hr.
  destruct (hasbits flags ALLOC_ZERO).
  - split_and!; try done.
    + by eapply (alloc_inv_frame (take_page p s)).
    + change (pp_ref (pg (take_page p s) p) = 0). by rewrite take_page_ref.
    + by apply (ai_link _ _ H').
    + intros q. exact (take_page_ref p q s).
    + intros q i Hq. simpl. by rewrite rdw_insert_ne.
    + intros i. simpl. by rewrite rdw_zero_eq.
  - split_and!; try done.
    + by rewrite take_page_ref.
    + by apply (ai_link _ _ H').
    + intros q. exact (take_page_ref p q s).
Qed.

Lemma page_alloc_correct_witness :
  exists s', page_alloc ALLOC_ZERO page_sample = Ret (Some 279) s' /\ pp_link (pg s' 279) = None.
Proof.
  pose proof (page_alloc_correct page_sample page_sample_free ALLOC_ZERO page_sample_inv) as H.
  replace page_sample_free with (279 :: tl page_sample_free) in H by (vm_compute; reflexivity).
  destruct H as (s' & H1 & _ & _ & _ & H2 & _). exists s'. split; [exact H1|exact H2].
Defined.

(** [page_free]'s guard against freeing a page twice misses the last page
    of the free list, whose [pp_link] is NULL: the call returns, and the free
    list is then a cycle, on which no list walk ends. *)
Theorem page_free_tail_undetected s fl p :
  alloc_inv s (fl ++ [p]) ->
  exists s', page_free p s = Ret tt s' /\
    forall l, ~ chain (pages s') (page_free_list s') l.
Proof.
  intros H. destruct (chain_last _ _ _ _ (ai_chain _ _ H)) as (q & Hq & Hl).
  pose proof (ai_free _ _ H p ltac:(set_solver)) as Hr.
  pose proof (ai_chain _ _ H) as Hch.
  assert (p ∉ fl) as Hp.
  { pose proof (ai_nodup _ _ H) as Hnd. apply list.NoDup_app in Hnd as (_ & Hd & _).
    intros Hin. apply (Hd p Hin). set_solver. }
  exists (give_page p s). split.
  - unfold page_free. rewrite bind_get, Hr. by rewrite (pg_lookup _ _ _ Hq), Hl.
  - intros [|x l] Hc; simpl in Hc; [done|]. destruct Hc as ([= <-] & y & Hy & Hc).
    rewrite lookup_insert_eq in Hy. injection Hy as <-. simpl in Hc.
    by eapply (chain_cycle _ _ fl p _ (length l) l _ fl).
Qed.

Lemma page_free_tail_undetected_witness :
  exists s', page_free 1 page_sample = Ret tt s' /\
    forall l, ~ chain (pages s') (page_free_list s') l.
Proof.
  apply (page_free_tail_undetected page_sample (removelast page_sample_free) 1).
  replace (removelast page_sample_free ++ [1]) with page_sample_free by (vm_compute; reflexivity).
  exact page_sample_inv.
Defined.
