(* ===== verification/PageTable.v ===== *)
(** * Page tables

    [pgdir_walk], [boot_map_region], [page_insert], [page_lookup],
    [page_remove], [tlb_invalidate], [mmio_map_region], [user_mem_check] and
    [check_va2pa] of [kern/pmap.c], over the physical memory of [Machine].
    A [pte_t *] is a kernel virtual address, NULL is [0]. *)

From S2P Require Import Prelude Mmu Machine PageAlloc.

(** ** Operations *)

Definition pgdir_walk (pgdir va : Z) (create : bool) : K Z :=
  let pde := u32 (pgdir + 4 * PDX va) in
  d ← load pde;
  let page_table := PTE_ADDR d in
  kva ← KADDR page_table;
  let pte := u32 (kva + 4 * PTX va) in
  d' ← load pde;
  if hasbits PTE_P d' then mret pte
  else if create then
    new_page_table ← page_alloc ALLOC_ZERO;
    match new_page_table with
    | Some pp =>
        modify (λ s, set_pp_ref pp (u16 (pp_ref (pg s pp) + 1)) s) ;;
        store pde (page2pa pp .| PTE_P .| PTE_W .| PTE_U) ;;
        x ← load pde;
        store (u32 (pgdir + 4 * PDX va)) x ;;
        y ← load pde;
        k ← KADDR (PTE_ADDR y);
        mret (u32 (k + 4 * PTX va))
    | None => mret 0
    end
  else mret 0.

Fixpoint boot_map_loop (n : nat) (pgdir va pa perm : Z) : K unit :=
  match n with
  | O => mret tt
  | S n' =>
      pte ← pgdir_walk pgdir va true;
      store pte (PTE_ADDR pa .| perm .| PTE_P) ;;
      boot_map_loop n' pgdir (u32 (va + PGSIZE)) (u32 (pa + PGSIZE)) perm
  end.

Definition boot_map_region (pgdir va size pa perm : Z) : K unit :=
  let size_r := ROUNDUP size PGSIZE in
  boot_map_loop (Z.to_nat (size_r / PGSIZE)) pgdir va pa perm.

Definition tlb_invalidate (pgdir va : Z) : K unit :=
  c ← get curenv;
  match c with
  | None => invlpg va
  | Some e =>
      d ← get (λ s, env_pgdir (env s e));
      if d =? pgdir then invlpg va else mret tt
  end.

(** The page mapped at [va] and the address of its entry; the entry is read
    before the test for NULL. *)
Definition page_lookup (pgdir va : Z) : K (option (Z * Z)) :=
  pte ← pgdir_walk pgdir va false;
  v ← load pte;
  if negb (hasbits v PTE_P) || (pte =? 0) then mret None
  else
    pp ← pa2page (PTE_ADDR v);
    mret (Some (pp, pte)).

Definition page_remove (pgdir va : Z) : K unit :=
  r ← page_lookup pgdir va;
  match r with
  | None => mret tt
  | Some (pp, pte) =>
      page_decref pp ;;
      store pte 0 ;;
      tlb_invalidate pgdir va
  end.

Definition page_insert (pgdir pp va perm : Z) : K Z :=
  pte ← pgdir_walk pgdir va true;
  if pte =? 0 then mret (- E_NO_MEM)
  else
    modify (λ s, set_pp_ref pp (u16 (pp_ref (pg s pp) + 1)) s) ;;
    v ← load pte;
    (if hasbits v PTE_P then page_remove pgdir va else mret tt) ;;
    store pte (page2pa pp .| perm .| PTE_P) ;;
    mret 0.

Definition mmio_map_region (pa size : Z) : K Z :=
  let size_r := ROUNDUP size PGSIZE in
  base ← get mmio_base;
  if (MMIOLIM <? u32 (base + size)) || (u32 (base + size) <? base) then
    panic "mmio_map region .... memory is not enough"
  else
    d ← get kern_pgdir;
    boot_map_region d base size pa (PTE_PCD .| PTE_PWT .| PTE_W .| PTE_P) ;;
    modify (set_mmio_base (u32 (base + size_r))) ;;
    mret base.

(** The loop of [user_mem_check]: [n] iterations are left, [i] is the loop
    variable. *)
Fixpoint user_mem_loop (n : nat) (pgdir va va_r i perm : Z) : K Z :=
  match n with
  | O => mret 0
  | S n' =>
      pte_check ← pgdir_walk pgdir i false;
      let bad :=
        modify (set_user_mem_check_addr (if i =? va_r then va else i)) ;; mret (- E_FAULT) in
      if (ULIM <=? i) || (pte_check =? 0) then bad
      else
        v ← load pte_check;
        if negb (v .& perm =? perm) then bad
        else user_mem_loop n' pgdir va va_r (u32 (i + PGSIZE)) perm
  end.

(** [i] and the bound are page-aligned, so the test [i < end] holds
    [(end - va_r) / PGSIZE] times. *)
Definition user_mem_check (e va len perm : Z) : K Z :=
  let last := ROUNDUP (u32 (va + len)) PGSIZE in
  let va_r := ROUNDDOWN va PGSIZE in
  pgdir ← get (λ s, env_pgdir (env s e));
  user_mem_loop (Z.to_nat ((last - va_r) / PGSIZE)) pgdir va va_r va_r perm.

(** [check_va2pa]: the walk done in software; [~0] when [va] is not mapped. *)
Definition check_va2pa (pgdir va : Z) : K Z :=
  d ← load (u32 (pgdir + 4 * PDX va));
  if negb (hasbits d PTE_P) then mret 0xFFFFFFFF
  else
    p ← KADDR (PTE_ADDR d);
    x ← load (u32 (p + 4 * PTX va));
    if negb (hasbits x PTE_P) then mret 0xFFFFFFFF
    else
      y ← load (u32 (p + 4 * PTX va));
      mret (PTE_ADDR y).

(** ** The address space of a page directory

    [v] is a virtual page number, [d] the physical page of the directory. *)

(** The physical page of the page table for [v], if there is one. *)
Definition pt_page (m : gmap Z (gmap Z Z)) (d v : Z) : option Z :=
  let e := rdw m d (v / 1024) in if hasbits e PTE_P then Some (PGNUM e) else None.

(** The page table entry that maps [v], if it is present. *)
Definition vmap (m : gmap Z (gmap Z Z)) (d v : Z) : option Z :=
  match pt_page m d v with
  | Some t => let e := rdw m t (v mod 1024) in if hasbits e PTE_P then Some e else None
  | None => None
  end.

(** The directory at page [d] can be walked at [v]: its entry is zero or
    leads to a page of physical memory. *)
Definition walkable (s : kstate) (d v : Z) : Prop :=
  0 <= d < npages s /\ npages s <= 65536 /\
  match pt_page (mem s) d v with
  | Some t => 0 <= t < npages s
  | None => rdw (mem s) d (v / 1024) = 0
  end.

(** A virtual address and the number of its page. *)
Definition va_ok (va : Z) : Prop := 0 <= va < 4294967296.

Lemma hasbits_comm a b : hasbits a b = hasbits b a.
Proof. unfold hasbits. by rewrite Z.land_comm. Qed.

Lemma PGNUM_bound va : va_ok va -> 0 <= PGNUM va < 1048576.
Proof.
  intros [? ?]. rewrite PGNUM_div.
  split; [apply Z.div_pos; lia|apply Z.div_lt_upper_bound; lia].
Qed.

(** Where the walk finds the directory entry and the table entry. *)
Lemma pde_ptr d va :
  va_ok va -> 0 <= d < 65536 ->
  u32 (kptr d 0 + 4 * PDX va) = kptr d (PGNUM va / 1024) /\ 0 <= PGNUM va / 1024 < 1024.
Proof.
  intros Hva Hd. rewrite (PDX_of_PGNUM va) by done. pose proof (PGNUM_bound va Hva).
  assert (0 <= PGNUM va / 1024 < 1024).
  { split; [apply Z.div_pos; lia|apply Z.div_lt_upper_bound; lia]. }
  rewrite kptr_add, kptr_u32 by lia. done.
Qed.

Lemma pte_ptr t va :
  0 <= t < 65536 -> u32 (kptr t 0 + 4 * PTX va) = kptr t (PGNUM va mod 1024).
Proof.
  intros. rewrite PTX_of_PGNUM. pose proof (Z.mod_pos_bound (PGNUM va) 1024 ltac:(lia)).
  rewrite kptr_add. apply kptr_u32; lia.
Qed.

(** The walk when the page table exists. *)
Lemma pgdir_walk_present s d va t c :
  walkable s d (PGNUM va) -> va_ok va -> pt_page (mem s) d (PGNUM va) = Some t ->
  pgdir_walk (kptr d 0) va c s = Ret (kptr t (PGNUM va mod 1024)) s.
Proof.
  intros (Hd & Hnp & Hw) Hva Ht. rewrite Ht in Hw.
  destruct (pde_ptr d va Hva ltac:(lia)) as [Hpde Hi].
  unfold pt_page in Ht. destruct (hasbits _ PTE_P) eqn:Hp in Ht; [|done].
  injection Ht as Ht. unfold pgdir_walk. rewrite Hpde.
  erewrite bind_Ret by (apply load_kptr; lia).
  rewrite PTE_ADDR_eq, <- PGNUM_div, Ht.
  erewrite bind_Ret by (apply KADDR_page; lia).
  erewrite bind_Ret by (apply load_kptr; lia).
  rewrite hasbits_comm, Hp, pte_ptr by lia. done.
Qed.

Lemma pgdir_walk_absent s d va :
  walkable s d (PGNUM va) -> va_ok va -> pt_page (mem s) d (PGNUM va) = None ->
  pgdir_walk (kptr d 0) va false s = Ret 0 s.
Proof.
  intros (Hd & Hnp & Hw) Hva Ht. rewrite Ht in Hw.
  destruct (pde_ptr d va Hva ltac:(lia)) as [Hpde Hi].
  unfold pgdir_walk. rewrite Hpde.
  erewrite bind_Ret by (apply load_kptr; lia). rewrite Hw. change (PTE_ADDR 0) with (0 * 4096).
  erewrite bind_Ret by (apply KADDR_page; lia).
  erewrite bind_Ret by (apply load_kptr; lia). by rewrite Hw.
Qed.

Lemma pgdir_walk_nomem s d va :
  walkable s d (PGNUM va) -> va_ok va -> pt_page (mem s) d (PGNUM va) = None ->
  alloc_inv s [] -> pgdir_walk (kptr d 0) va true s = Ret 0 s.
Proof.
  intros (Hd & Hnp & Hw) Hva Ht Ha. rewrite Ht in Hw.
  destruct (pde_ptr d va Hva ltac:(lia)) as [Hpde Hi].
  unfold pgdir_walk. rewrite Hpde.
  erewrite bind_Ret by (apply load_kptr; lia). rewrite Hw. change (PTE_ADDR 0) with (0 * 4096).
  erewrite bind_Ret by (apply KADDR_page; lia).
  erewrite bind_Ret by (apply load_kptr; lia). rewrite Hw. simpl.
  by erewrite bind_Ret by (by apply page_alloc_nil).
Qed.

Lemma wrw_wrw m pn i v w : wrw (wrw m pn i v) pn i w = wrw m pn i w.
Proof. unfold wrw. by rewrite page_of_insert_eq, insert_insert_eq, insert_insert_eq. Qed.

(** The state after a page table was allocated at [p] for entry [i] of [d]. *)
Definition new_table (d i p : Z) (s : kstate) : kstate :=
  let s1 := set_pp_ref p 1 (zero_page p (take_page p s)) in
  set_mem (wrw (mem s1) d i (p * 4096 + 7)) s1.

Lemma pde_new_value p : 0 <= p < 65536 ->
  page2pa p .| PTE_P .| PTE_W .| PTE_U = p * 4096 + 7.
Proof.
  intros. rewrite page2pa_small by lia. rewrite <- !Z.lor_assoc.
  change (1 .| (2 .| 4)) with 7. apply lor_page_low. lia.
Qed.

Lemma pgdir_walk_create s d va p fl :
  walkable s d (PGNUM va) -> va_ok va -> pt_page (mem s) d (PGNUM va) = None ->
  alloc_inv s (p :: fl) -> d ∉ p :: fl ->
  pgdir_walk (kptr d 0) va true s =
    Ret (kptr p (PGNUM va mod 1024)) (new_table d (PGNUM va / 1024) p s).
Proof.
  intros (Hd & Hnp & Hw) Hva Ht Ha Hdp. rewrite Ht in Hw.
  destruct (pde_ptr d va Hva ltac:(lia)) as [Hpde Hi].
  pose proof (ai_in_range _ _ p Ha ltac:(set_solver)) as Hp.
  assert (Hne : d <> p) by set_solver.
  unfold pgdir_walk. rewrite Hpde.
  erewrite bind_Ret by (apply load_kptr; lia). rewrite Hw. change (PTE_ADDR 0) with (0 * 4096).
  erewrite bind_Ret by (apply KADDR_page; lia).
  erewrite bind_Ret by (apply load_kptr; lia). rewrite Hw. simpl.
  erewrite bind_Ret by (by eapply page_alloc_cons). simpl.
  rewrite bind_modify.
  assert (Hr : pp_ref (pg (zero_page p (take_page p s)) p) = 0).
  { change (pp_ref (pg (take_page p s) p) = 0). rewrite take_page_ref.
    apply (ai_free _ _ Ha). set_solver. }
  rewrite Hr. change (u16 (0 + 1)) with 1. rewrite pde_new_value by lia.
  erewrite bind_Ret by (apply store_kptr; lia).
  erewrite bind_Ret by (apply load_kptr; lia). simpl. rewrite rdw_wrw_eq.
  erewrite bind_Ret by (apply store_kptr; lia). simpl. rewrite u32_idem, wrw_wrw.
  erewrite bind_Ret by (apply load_kptr; lia). simpl. rewrite rdw_wrw_eq.
  rewrite u32_small, PTE_ADDR_page by lia.
  erewrite bind_Ret by (apply KADDR_page; simpl; lia).
  rewrite pte_ptr by lia. done.
Qed.

(** Looking an address up whose page table exists. *)
Lemma page_lookup_present s d va t e :
  walkable s d (PGNUM va) -> va_ok va -> pt_page (mem s) d (PGNUM va) = Some t ->
  vmap (mem s) d (PGNUM va) = Some e -> 0 <= PGNUM e < npages s ->
  page_lookup (kptr d 0) va s = Ret (Some (PGNUM e, kptr t (PGNUM va mod 1024))) s.
Proof.
  intros Hw Hva Ht He Hr. pose proof Hw as (? & ? & Hw'). rewrite Ht in Hw'.
  pose proof (Z.mod_pos_bound (PGNUM va) 1024 ltac:(lia)).
  unfold vmap in He. rewrite Ht in He.
  destruct (hasbits _ PTE_P) eqn:Hp in He; [|done]. injection He as He. rewrite He in Hp.
  unfold page_lookup. erewrite bind_Ret by (by apply pgdir_walk_present).
  erewrite bind_Ret by (apply load_kptr; lia). rewrite He, Hp, kptr_nonnull by lia. simpl.
  rewrite PTE_ADDR_eq, <- PGNUM_div. erewrite bind_Ret by (apply pa2page_page; lia). done.
Qed.

Lemma page_lookup_not_present s d va t :
  walkable s d (PGNUM va) -> va_ok va -> pt_page (mem s) d (PGNUM va) = Some t ->
  vmap (mem s) d (PGNUM va) = None -> page_lookup (kptr d 0) va s = Ret None s.
Proof.
  intros Hw Hva Ht He. pose proof Hw as (? & ? & Hw'). rewrite Ht in Hw'.
  pose proof (Z.mod_pos_bound (PGNUM va) 1024 ltac:(lia)).
  unfold vmap in He. rewrite Ht in He. destruct (hasbits _ PTE_P) eqn:Hp in He; [done|].
  unfold page_lookup. erewrite bind_Ret by (by apply pgdir_walk_present).
  erewrite bind_Ret by (apply load_kptr; lia). by rewrite Hp.
Qed.

(** Without a page table the entry is read through NULL: the kernel faults
    unless the address space in [%cr3] maps page 0. *)
Lemma page_lookup_null s d va :
  walkable s d (PGNUM va) -> va_ok va -> pt_page (mem s) d (PGNUM va) = None ->
  page_lookup (kptr d 0) va s =
    match mmu_walk s (cpu_cr3 (thiscpu s)) 0 false with
    | Some _ => Ret None s
    | None => Exit (Panic " a page fault in the kernel") s
    end.
Proof.
  intros Hw Hva Ht. unfold page_lookup.
  erewrite bind_Ret by (by apply pgdir_walk_absent).
  unfold load, kva2pa. simpl. unfold mbind, K_bind.
  destruct (mmu_walk _ _ 0 false); [|done]. by rewrite orb_true_r.
Qed.

Lemma walkable_frame s s' d v :
  npages s' = npages s -> mem s' = mem s -> walkable s d v -> walkable s' d v.
Proof. intros H1 H2. unfold walkable. by rewrite H1, H2. Qed.
