(* ===== verification/Vm.v ===== *)
(** * Address spaces and reference counts

    The invariant that ties the page tables of all environments to the
    reference counts in [pages], and the refinement of [page_insert],
    [page_remove] and [page_lookup] to updates of an abstract address space.

    A slot is a place that holds a reference to a physical page: a page
    directory, an entry of a page directory below [UTOP], or an entry of a
    user page table.  [vm_inv s ds fl kref] says that, with page directories
    [ds] and free list [fl], the count of every page is the number of slots
    that refer to it plus the references [kref] the kernel itself holds. *)

From S2P Require Import Prelude Mmu Machine PageAlloc PageTable.

(** ** Slots *)

Inductive slot :=
  | SDir (d : Z)
  | STable (d i : Z)
  | SData (d v : Z).

#[export] Instance slot_eq_dec : EqDecision slot.
Proof. solve_decision. Defined.

(** [PDX(UTOP)] and [PGNUM(UTOP)]. *)
Definition NUPDE : Z := 955.
Definition NUVPN : Z := 977920.

Definition slots (ds : list Z) : list slot :=
  ds ≫= λ d, SDir d :: (STable d <$> seqZ 0 NUPDE) ++ (SData d <$> seqZ 0 NUVPN).

Definition in_slots (ds : list Z) (x : slot) : Prop :=
  match x with
  | SDir d => d ∈ ds
  | STable d i => d ∈ ds /\ 0 <= i < NUPDE
  | SData d v => d ∈ ds /\ 0 <= v < NUVPN
  end.

(** The page a slot refers to. *)
Definition target (m : gmap Z (gmap Z Z)) (x : slot) : option Z :=
  match x with
  | SDir d => Some d
  | STable d i => pt_page m d (i * 1024)
  | SData d v => PGNUM <$> vmap m d v
  end.

(** Slots whose page is used as a page directory or page table. *)
Definition structural (x : slot) : bool :=
  match x with SData _ _ => false | _ => true end.

Lemma elem_of_slots ds x : x ∈ slots ds <-> in_slots ds x.
Proof.
  unfold slots. rewrite list_elem_of_bind. setoid_rewrite elem_of_cons.
  setoid_rewrite elem_of_app. setoid_rewrite list_elem_of_fmap. setoid_rewrite elem_of_seqZ.
  destruct x; simpl; split.
  - intros (d' & [[= ->]|[(? & ? & _)|(? & ? & _)]] & ?); done.
  - intros. exists d. auto.
  - intros (d' & [?|[(? & [= -> ->] & ?)|(? & ? & _)]] & ?); [done| |done]. split; [done|lia].
  - intros [? ?]. exists d. split; [|done]. right. left. exists i. split; [done|lia].
  - intros (d' & [?|[(? & ? & _)|(? & [= -> ->] & ?)]] & ?); [done|done|]. split; [done|lia].
  - intros [? ?]. exists d. split; [|done]. right. right. exists v. split; [done|lia].
Qed.

Lemma NoDup_slots1 d :
  NoDup (SDir d :: (STable d <$> seqZ 0 NUPDE) ++ (SData d <$> seqZ 0 NUVPN)).
Proof.
  apply list.NoDup_cons. split.
  - rewrite elem_of_app, !list_elem_of_fmap. naive_solver.
  - apply list.NoDup_app. split_and!.
    + apply NoDup_fmap_2; [by intros ?? [= ->]|apply NoDup_seqZ].
    + intros x (? & -> & _)%list_elem_of_fmap. rewrite list_elem_of_fmap. naive_solver.
    + apply NoDup_fmap_2; [by intros ?? [= ->]|apply NoDup_seqZ].
Qed.

Lemma slots_cons d ds :
  slots (d :: ds) =
  (SDir d :: (STable d <$> seqZ 0 NUPDE) ++ (SData d <$> seqZ 0 NUVPN)) ++ slots ds.
Proof. done. Qed.

(** The directory a slot belongs to. *)
Definition slot_dir (x : slot) : Z :=
  match x with SDir d => d | STable d _ => d | SData d _ => d end.

Lemma in_slots_dir ds x : in_slots ds x -> slot_dir x ∈ ds.
Proof. destruct x; simpl; tauto. Qed.

#[global] Opaque slots.

Lemma NoDup_slots ds : NoDup ds -> NoDup (slots ds).
Proof.
  induction ds as [|d ds IH]; intros Hnd.
  - Transparent slots. apply NoDup_nil_2.
  - Opaque slots. apply list.NoDup_cons in Hnd as [Hd Hnd]. rewrite slots_cons.
    apply list.NoDup_app. split_and!; [apply NoDup_slots1| |by apply IH].
    intros x Hx Hx'. apply elem_of_slots, in_slots_dir in Hx'.
    assert (slot_dir x = d) as <-; [|done].
    apply elem_of_cons in Hx as [->|Hx]; [done|].
    apply elem_of_app in Hx as [(? & -> & _)%list_elem_of_fmap|(? & -> & _)%list_elem_of_fmap]; done.
Qed.

(** ** Counting references *)

Definition count {A} (f : A -> option Z) (l : list A) (p : Z) : Z :=
  Z.of_nat (length (filter (λ x, f x = Some p) l)).

Definition is_ref (o : option Z) (p : Z) : Z := if decide (o = Some p) then 1 else 0.

Section Count.
  Context {A : Type} `{EqDecision A}.
  Implicit Types (f g : A -> option Z) (l : list A).

Lemma count_cons f x l p : count f (x :: l) p = is_ref (f x) p + count f l p.
  Proof.
    unfold count, is_ref. rewrite filter_cons. case_decide; simpl; lia.
  Qed.

Lemma count_app f l l' p : count f (l ++ l') p = count f l p + count f l' p.
  Proof. unfold count. rewrite list.filter_app, length_app. lia. Qed.

Lemma count_nonneg f l p : 0 <= count f l p.
  Proof. unfold count. lia. Qed.

Lemma count_ext f g l p : (forall x, x ∈ l -> f x = g x) -> count f l p = count g l p.
  Proof.
    induction l as [|x l IH]; intros H; [done|].
    rewrite !count_cons, IH by set_solver. f_equal. unfold is_ref. by rewrite H by set_solver.
  Qed.

  (** Changing one slot moves one reference. *)
Lemma count_update f g l x0 p :
    NoDup l -> x0 ∈ l -> (forall x, x ∈ l -> x <> x0 -> f x = g x) ->
    count g l p = count f l p - is_ref (f x0) p + is_ref (g x0) p.
  Proof.
    induction l as [|x l IH]; intros Hnd Hx0 H; [set_solver|].
    apply list.NoDup_cons in Hnd as [Hx Hnd]. rewrite !count_cons.
    destruct (decide (x = x0)) as [->|Hne].
    - rewrite (count_ext f g l p); [lia|]. intros y Hy. apply H; set_solver.
    - rewrite IH; [|done|set_solver|intros; apply H; set_solver].
      replace (is_ref (g x) p) with (is_ref (f x) p); [lia|].
      unfold is_ref. by rewrite H by set_solver.
  Qed.

Lemma count_pos f l x p : x ∈ l -> f x = Some p -> 1 <= count f l p.
  Proof.
    induction l as [|y l IH]; intros Hx Hf; [set_solver|]. rewrite count_cons.
    apply elem_of_cons in Hx as [->|Hx].
    - unfold is_ref. rewrite decide_True by done. pose proof (count_nonneg f l p). lia.
    - unfold is_ref. pose proof (IH Hx Hf). case_decide; lia.
  Qed.

  (** A page with one reference is referred to by one slot. *)
Lemma count_one f l x y p :
    NoDup l -> x ∈ l -> y ∈ l -> f x = Some p -> f y = Some p -> count f l p <= 1 -> x = y.
  Proof.
    induction l as [|z l IH]; intros Hnd Hx Hy Hfx Hfy Hc; [set_solver|].
    apply list.NoDup_cons in Hnd as [Hz Hnd]. rewrite count_cons in Hc.
    apply elem_of_cons in Hx as [->|Hx], Hy as [->|Hy]; [done|..].
    - pose proof (count_pos f l y p Hy Hfy). unfold is_ref in Hc.
      rewrite decide_True in Hc by done. lia.
    - pose proof (count_pos f l x p Hx Hfx). unfold is_ref in Hc.
      rewrite decide_True in Hc by done. lia.
    - apply IH; try done. unfold is_ref in Hc. case_decide; lia.
  Qed.

Lemma count_zero f l x p : count f l p = 0 -> x ∈ l -> f x <> Some p.
  Proof. intros Hc Hx Hf. pose proof (count_pos f l x p Hx Hf). lia. Qed.
End Count.

Lemma is_ref_eq p : is_ref (Some p) p = 1.
Proof. unfold is_ref. by rewrite decide_True. Qed.

Lemma is_ref_ne p q : p <> q -> is_ref (Some p) q = 0.
Proof. intros. unfold is_ref. rewrite decide_False; [done|congruence]. Qed.

Lemma is_ref_None q : is_ref None q = 0.
Proof. done. Qed.

Lemma is_ref_range o q : 0 <= is_ref o q <= 1.
Proof. unfold is_ref. case_decide; lia. Qed.

(** The count after one slot changed. *)
Lemma count_target ds m m' x0 q :
  NoDup ds -> in_slots ds x0 ->
  (forall x, in_slots ds x -> x <> x0 -> target m' x = target m x) ->
  count (target m') (slots ds) q =
    count (target m) (slots ds) q - is_ref (target m x0) q + is_ref (target m' x0) q.
Proof.
  intros Hnd Hx0 H. apply count_update; [by apply NoDup_slots|by apply elem_of_slots|].
  intros x Hx Hne. symmetry. apply H; [by apply elem_of_slots|done].
Qed.

(** ** The invariant *)

(** The word of a page directory entry: that of its page table, writable by the
    user, or zero. *)
Definition pde_word (t : option Z) : Z := match t with Some t => t * 4096 + 7 | None => 0 end.

(** The page table entry of [v], zero without a page table. *)
Definition pte_at (m : gmap Z (gmap Z Z)) (d v : Z) : Z :=
  match pt_page m d v with Some t => rdw m t (v mod 1024) | None => 0 end.

Lemma vmap_pte_at m d v : vmap m d v = if hasbits (pte_at m d v) PTE_P then Some (pte_at m d v) else None.
Proof. unfold vmap, pte_at. by destruct (pt_page m d v). Qed.

Lemma pte_at_ext m m' d v :
  pt_page m' d v = pt_page m d v ->
  (forall t, pt_page m d v = Some t -> rdw m' t (v mod 1024) = rdw m t (v mod 1024)) ->
  pte_at m' d v = pte_at m d v.
Proof. intros E H. unfold pte_at. rewrite E. destruct (pt_page m d v); auto. Qed.

Record vm_inv (s : kstate) (ds fl : list Z) (kref : Z -> Z) : Prop := {
  vi_alloc : alloc_inv s fl;
  vi_nodup : NoDup ds;
  vi_kref : forall p, 0 <= kref p;
  vi_ref : forall p, 0 <= p < npages s ->
    pp_ref (pg s p) = kref p + count (target (mem s)) (slots ds) p;
  vi_excl : forall x p, in_slots ds x -> structural x = true -> target (mem s) x = Some p ->
    kref p + count (target (mem s)) (slots ds) p = 1;
  vi_range : forall x p, in_slots ds x -> target (mem s) x = Some p -> 0 <= p < npages s;
  vi_pde : forall d i, d ∈ ds -> 0 <= i < NUPDE ->
    rdw (mem s) d i = pde_word (pt_page (mem s) d (i * 1024));
  vi_pte : forall d v, d ∈ ds -> 0 <= v < NUVPN ->
    hasbits (pte_at (mem s) d v) PTE_P = false -> pte_at (mem s) d v = 0
}.

(** A user virtual address. *)
Definition uva (va : Z) : Prop := 0 <= va < UTOP.

Lemma uva_ok va : uva va -> va_ok va.
Proof. unfold uva, va_ok. lia. Qed.

Lemma uva_vpn va : uva va -> 0 <= PGNUM va < NUVPN.
Proof.
  unfold uva, NUVPN. intros. rewrite PGNUM_div.
  split; [apply Z.div_pos; lia|apply Z.div_lt_upper_bound; lia].
Qed.

Lemma vpn_pde v : 0 <= v < NUVPN -> 0 <= v / 1024 < NUPDE.
Proof.
  unfold NUVPN, NUPDE. intros. split; [apply Z.div_pos; lia|apply Z.div_lt_upper_bound; lia].
Qed.

Lemma pt_page_div m d v : pt_page m d v = pt_page m d (v / 1024 * 1024).
Proof. unfold pt_page. by rewrite Z.div_mul. Qed.

Lemma pt_page_table m d i v : v / 1024 = i -> pt_page m d v = pt_page m d (i * 1024).
Proof. intros <-. apply pt_page_div. Qed.

(** ** Structural pages are not shared *)

(** [p] is not a page directory, nor a page table below [UTOP]. *)
Definition plain (m : gmap Z (gmap Z Z)) (ds : list Z) (p : Z) : Prop :=
  forall x, in_slots ds x -> structural x = true -> target m x <> Some p.

(** What the operations leave alone in memory: the contents of allocated
    pages outside the tables, and the kernel's part of every directory. *)
Definition mem_frame (ds fl : list Z) (m m' : gmap Z (gmap Z Z)) : Prop :=
  (forall q k, plain m ds q -> q ∉ fl -> rdw m' q k = rdw m q k) /\
  (forall d k, d ∈ ds -> NUPDE <= k -> rdw m' d k = rdw m d k).

Section Inv.
  Context {s : kstate} {ds fl : list Z} {kref : Z -> Z} (Hinv : vm_inv s ds fl kref).

  Local Abbreviation m := (mem s) (only parsing).

Lemma vi_np : 0 < npages s <= 65536.
  Proof using Hinv. apply (ai_np _ _ (vi_alloc _ _ _ _ Hinv)). Qed.

Lemma target_ref x p :
    in_slots ds x -> target m x = Some p -> 1 <= pp_ref (pg s p).
  Proof using Hinv.
    intros Hx Ht. rewrite (vi_ref _ _ _ _ Hinv) by (by eapply (vi_range _ _ _ _ Hinv)).
    pose proof (vi_kref _ _ _ _ Hinv p).
    pose proof (count_pos (target (mem s)) (slots ds) x p (proj2 (elem_of_slots ds x) Hx) Ht). lia.
  Qed.

Lemma target_not_free x p : in_slots ds x -> target m x = Some p -> p ∉ fl.
  Proof using Hinv.
    intros Hx Ht Hp. pose proof (target_ref x p Hx Ht).
    pose proof (ai_free _ _ (vi_alloc _ _ _ _ Hinv) p Hp). lia.
  Qed.

Lemma struct_unique x y p :
    in_slots ds x -> structural x = true -> in_slots ds y ->
    target m x = Some p -> target m y = Some p -> y = x.
  Proof using Hinv.
    intros Hx Hs Hy Hxp Hyp. pose proof (vi_excl _ _ _ _ Hinv x p Hx Hs Hxp).
    pose proof (vi_kref _ _ _ _ Hinv p).
    eapply (count_one (target m) (slots ds)); rewrite ?elem_of_slots; try done.
    - apply NoDup_slots, (vi_nodup _ _ _ _ Hinv).
    - lia.
  Qed.

Lemma dir_range d : d ∈ ds -> 0 <= d < npages s.
  Proof using Hinv. intros Hd. by apply (vi_range _ _ _ _ Hinv (SDir d)). Qed.

Lemma table_slot d v : d ∈ ds -> 0 <= v < NUVPN -> in_slots ds (STable d (v / 1024)).
  Proof using Hinv. intros. split; [done|by apply vpn_pde]. Qed.

Lemma table_target d v t :
    pt_page m d v = Some t -> target m (STable d (v / 1024)) = Some t.
  Proof using Hinv. intros H. simpl. by rewrite <- pt_page_div. Qed.

Lemma table_range d v t :
    d ∈ ds -> 0 <= v < NUVPN -> pt_page m d v = Some t -> 0 <= t < npages s.
  Proof using Hinv.
    intros Hd Hv Ht. eapply (vi_range _ _ _ _ Hinv); [by eapply table_slot|by apply table_target].
  Qed.

Lemma vm_walkable d v : d ∈ ds -> 0 <= v < NUVPN -> walkable s d v.
  Proof using Hinv.
    intros Hd Hv. split; [by apply dir_range|]. split; [apply vi_np|].
    destruct (pt_page (mem s) d v) as [t|] eqn:Ht.
    - by eapply table_range.
    - rewrite (vi_pde _ _ _ _ Hinv) by (done || by apply vpn_pde). by rewrite <- pt_page_div, Ht.
  Qed.

  (** A page table is not a page directory, and belongs to one directory entry. *)
Lemma table_not_dir d v t d' :
    d ∈ ds -> 0 <= v < NUVPN -> pt_page m d v = Some t -> d' ∈ ds -> t <> d'.
  Proof using Hinv.
    intros Hd Hv Ht Hd' ->.
    assert (SDir d' = STable d (v / 1024)); [|done].
    eapply struct_unique; [by eapply table_slot|done|done|by apply table_target|done].
  Qed.

Lemma table_inj d v t d' v' :
    d ∈ ds -> 0 <= v < NUVPN -> pt_page m d v = Some t ->
    d' ∈ ds -> 0 <= v' < NUVPN -> pt_page m d' v' = Some t -> d' = d /\ v' / 1024 = v / 1024.
  Proof using Hinv.
    intros Hd Hv Ht Hd' Hv' Ht'.
    assert (STable d' (v' / 1024) = STable d (v / 1024)) as [= -> ->]; [|done].
    eapply struct_unique; [by eapply table_slot|done|by eapply table_slot|..]; by apply table_target.
  Qed.

Lemma free_not_target x p : p ∈ fl -> in_slots ds x -> target m x <> Some p.
  Proof using Hinv. intros Hp Hx Ht. by apply (target_not_free x p). Qed.

Lemma free_plain p : p ∈ fl -> plain m ds p.
  Proof using Hinv. intros Hp x Hx _. by apply free_not_target. Qed.

Lemma free_count p : p ∈ fl -> kref p = 0 /\ count (target m) (slots ds) p = 0.
  Proof using Hinv.
    intros Hp. pose proof (ai_free _ _ (vi_alloc _ _ _ _ Hinv) p Hp) as H0.
    rewrite (vi_ref _ _ _ _ Hinv) in H0
      by (eapply ai_in_range; [apply (vi_alloc _ _ _ _ Hinv)|done]).
    pose proof (vi_kref _ _ _ _ Hinv p). pose proof (count_nonneg (target m) (slots ds) p).
    lia.
  Qed.

  (** ** What a store to a page table changes *)

Lemma pt_page_wrw_table d v t i e d' v' :
    d ∈ ds -> 0 <= v < NUVPN -> pt_page m d v = Some t -> d' ∈ ds ->
    pt_page (wrw m t i e) d' v' = pt_page m d' v'.
  Proof using Hinv.
    intros Hd Hv Ht Hd'. unfold pt_page. rewrite rdw_wrw_ne; [done|].
    left. exact (table_not_dir d v t d' Hd Hv Ht Hd').
  Qed.

Lemma vmap_wrw_same d v t e :
    d ∈ ds -> 0 <= v < NUVPN -> pt_page m d v = Some t ->
    vmap (wrw m t (v mod 1024) e) d v = if hasbits e PTE_P then Some e else None.
  Proof using Hinv.
    intros Hd Hv Ht. unfold vmap. rewrite (pt_page_wrw_table d v t) by done.
    by rewrite Ht, rdw_wrw_eq.
  Qed.

Lemma pte_at_wrw_other d v t e d' v' :
    d ∈ ds -> 0 <= v < NUVPN -> pt_page m d v = Some t ->
    d' ∈ ds -> 0 <= v' < NUVPN -> (d', v') <> (d, v) ->
    pte_at (wrw m t (v mod 1024) e) d' v' = pte_at m d' v'.
  Proof using Hinv.
    intros Hd Hv Ht Hd' Hv' Hne. apply pte_at_ext; [by apply (pt_page_wrw_table d v t)|].
    intros t' Ht'. rewrite rdw_wrw_ne; [done|]. destruct (decide (t = t')) as [<-|]; [right|by left].
    destruct (table_inj d v t d' v') as [-> Hq]; try done.
    intros Hmod. apply Hne. f_equal. rewrite (Z.div_mod v 1024), (Z.div_mod v' 1024) by lia. lia.
  Qed.

Lemma vmap_wrw_other d v t e d' v' :
    d ∈ ds -> 0 <= v < NUVPN -> pt_page m d v = Some t ->
    d' ∈ ds -> 0 <= v' < NUVPN -> (d', v') <> (d, v) ->
    vmap (wrw m t (v mod 1024) e) d' v' = vmap m d' v'.
  Proof using Hinv. intros. rewrite !vmap_pte_at. by rewrite (pte_at_wrw_other d v t). Qed.

Lemma pte_at_wrw_same d v t e :
    d ∈ ds -> 0 <= v < NUVPN -> pt_page m d v = Some t -> pte_at (wrw m t (v mod 1024) e) d v = e.
  Proof using Hinv.
    intros Hd Hv Ht. unfold pte_at. by rewrite (pt_page_wrw_table d v t), Ht, rdw_wrw_eq by done.
  Qed.

(** After writing an entry that is present or zero. *)
Lemma pte_zero_wrw d v t e d' v' :
    d ∈ ds -> 0 <= v < NUVPN -> pt_page m d v = Some t -> (hasbits e PTE_P = false -> e = 0) ->
    d' ∈ ds -> 0 <= v' < NUVPN -> hasbits (pte_at (wrw m t (v mod 1024) e) d' v') PTE_P = false ->
    pte_at (wrw m t (v mod 1024) e) d' v' = 0.
  Proof using Hinv.
    intros Hd Hv Ht He Hd' Hv'. destruct (decide ((d', v') = (d, v))) as [[= -> ->]|Hne].
    - by rewrite pte_at_wrw_same by done.
    - rewrite (pte_at_wrw_other d v t) by done. by apply (vi_pte _ _ _ _ Hinv).
  Qed.

Lemma plain_not_table d v t q :
    d ∈ ds -> 0 <= v < NUVPN -> pt_page m d v = Some t -> plain m ds q -> q <> t.
  Proof using Hinv.
    intros Hd Hv Ht Hq ->. apply (Hq (STable d (v / 1024))); [by apply table_slot|done|].
    by apply table_target.
  Qed.

Lemma mem_frame_table d v t i e :
    d ∈ ds -> 0 <= v < NUVPN -> pt_page m d v = Some t -> mem_frame ds fl m (wrw m t i e).
  Proof using Hinv.
    intros Hd Hv Ht. split.
    - intros q k Hq _. rewrite rdw_wrw_ne; [done|]. left. apply not_eq_sym.
      by apply (plain_not_table d v t).
    - intros d' k Hd' _. rewrite rdw_wrw_ne; [done|]. left. by apply (table_not_dir d v t).
  Qed.

Lemma target_wrw_pte d v t e x :
    d ∈ ds -> 0 <= v < NUVPN -> pt_page m d v = Some t -> in_slots ds x -> x <> SData d v ->
    target (wrw m t (v mod 1024) e) x = target m x.
  Proof using Hinv.
    intros Hd Hv Ht Hx Hne. destruct x as [d'|d' i'|d' v']; simpl in *; [done|..].
    - by rewrite (pt_page_wrw_table d v t) by tauto.
    - f_equal. apply (vmap_wrw_other d v); try tauto. intros [= -> ->]. done.
  Qed.
End Inv.

(** ** Steps that keep the invariant *)

(** The invariant is about [pages], the free list and memory only. *)
Lemma vm_inv_frame s s' ds fl kref :
  npages s' = npages s -> pages s' = pages s -> page_free_list s' = page_free_list s ->
  mem s' = mem s -> vm_inv s ds fl kref -> vm_inv s' ds fl kref.
Proof.
  intros H1 H2 H3 H4 []. constructor; rewrite ?H4, ?H1; try done.
  - by eapply alloc_inv_frame.
  - intros p Hp. rewrite <- vi_ref0 by done. unfold pg. by rewrite H2.
Qed.

(** Taking one more kernel reference to a plain page. *)
Lemma vm_incref s ds fl kref p :
  vm_inv s ds fl kref -> 0 <= p < npages s -> p ∉ fl -> plain (mem s) ds p ->
  pp_ref (pg s p) < 65535 ->
  vm_inv (set_pp_ref p (pp_ref (pg s p) + 1) s) ds fl (λ q, kref q + is_ref (Some p) q).
Proof.
  intros H Hp Hfl Hpl Hr. pose proof (ai_ref _ _ (vi_alloc _ _ _ _ H) p).
  constructor; simpl.
  - apply alloc_inv_set_ref; [apply (vi_alloc _ _ _ _ H)|done|done|lia].
  - apply (vi_nodup _ _ _ _ H).
  - intros q. pose proof (vi_kref _ _ _ _ H q). pose proof (is_ref_range (Some p) q). lia.
  - intros q Hq. pose proof (vi_ref _ _ _ _ H q Hq) as Hv. unfold set_pp_ref.
    destruct (decide (p = q)) as [->|Hne].
    + rewrite pg_set_pg_eq, is_ref_eq. simpl. lia.
    + rewrite pg_set_pg_ne, is_ref_ne by done. lia.
  - intros x q Hx Hs Ht. pose proof (vi_excl _ _ _ _ H x q Hx Hs Ht).
    rewrite is_ref_ne; [lia|]. intros ->. by apply (Hpl x Hx Hs).
  - apply (vi_range _ _ _ _ H).
  - apply (vi_pde _ _ _ _ H).
  - apply (vi_pte _ _ _ _ H).
Qed.

(** Writing an entry into an empty slot moves a kernel reference there. *)
Lemma vm_install s ds fl kref kref' d v t p f :
  vm_inv s ds fl kref' -> (forall q, kref' q = kref q + is_ref (Some p) q) ->
  (forall q, 0 <= kref q) -> d ∈ ds -> 0 <= v < NUVPN ->
  pt_page (mem s) d v = Some t -> vmap (mem s) d v = None ->
  0 <= p < npages s -> 0 <= f < 4096 -> hasbits f PTE_P = true -> plain (mem s) ds p ->
  vm_inv (set_mem (wrw (mem s) t (v mod 1024) (p * 4096 + f)) s) ds fl kref.
Proof.
  intros H Hk Hk0 Hd Hv Ht Hn Hp Hf Hfp Hpl.
  set (e := p * 4096 + f).
  assert (HeP : hasbits e PTE_P = true) by (unfold e; rewrite hasbits_page; done || lia).
  assert (Hpn : PGNUM e = p).
  { unfold e. rewrite PGNUM_div, Z.div_add_l, Z.div_small; lia. }
  assert (Hnew : target (wrw (mem s) t (v mod 1024) e) (SData d v) = Some p).
  { simpl. erewrite vmap_wrw_same by eauto. rewrite HeP. simpl. by rewrite Hpn. }
  assert (Hold : target (mem s) (SData d v) = None) by (simpl; by rewrite Hn).
  assert (Hoth : forall x, in_slots ds x -> x <> SData d v ->
     target (wrw (mem s) t (v mod 1024) e) x = target (mem s) x).
  { intros x Hx Hne. eapply target_wrw_pte; eauto. }
  assert (Hcnt : forall q, count (target (wrw (mem s) t (v mod 1024) e)) (slots ds) q =
            count (target (mem s)) (slots ds) q + is_ref (Some p) q).
  { intros q. rewrite (count_target ds (mem s) _ (SData d v));
      [rewrite Hnew, Hold, is_ref_None; lia|apply (vi_nodup _ _ _ _ H)|done|done]. }
  constructor; simpl; fold e.
  - eapply alloc_inv_frame; [..|apply (vi_alloc _ _ _ _ H)]; done.
  - apply (vi_nodup _ _ _ _ H).
  - done.
  - intros q Hq. rewrite Hcnt. pose proof (vi_ref _ _ _ _ H q Hq) as Hr. rewrite Hk in Hr.
    change (pg (set_mem (wrw (mem s) t (v mod 1024) e) s) q) with (pg s q). lia.
  - intros x q Hx Hs Hq. rewrite Hcnt. assert (x <> SData d v) by (by intros ->).
    rewrite Hoth in Hq by done. pose proof (vi_excl _ _ _ _ H x q Hx Hs Hq) as Hr.
    rewrite Hk in Hr. lia.
  - intros x q Hx Hq. destruct (decide (x = SData d v)) as [->|].
    + rewrite Hnew in Hq. by injection Hq as <-.
    + rewrite Hoth in Hq by done. by eapply (vi_range _ _ _ _ H).
  - intros d' i Hd' Hi. rewrite (pt_page_wrw_table H d v t) by done.
    rewrite rdw_wrw_ne; [by apply (vi_pde _ _ _ _ H)|]. left. by apply (table_not_dir H d v t).
  - intros d' v' Hd' Hv'. apply (pte_zero_wrw H d v t); try done. by rewrite HeP.
Qed.

(** Clearing an entry and dropping the reference it held. *)
Lemma vm_clear s ds fl kref d v t e :
  vm_inv s ds fl kref -> d ∈ ds -> 0 <= v < NUVPN ->
  pt_page (mem s) d v = Some t -> vmap (mem s) d v = Some e ->
  let p := PGNUM e in
  vm_inv (set_mem (wrw (mem s) t (v mod 1024) 0) (decref_state p s)) ds (decref_free p s fl) kref.
Proof.
  intros H Hd Hv Ht He p.
  assert (Hold : target (mem s) (SData d v) = Some p) by (simpl; by rewrite He).
  assert (Hin : in_slots ds (SData d v)) by done.
  pose proof (vi_range _ _ _ _ H _ _ Hin Hold) as Hp.
  pose proof (target_ref H _ _ Hin Hold) as Hr.
  pose proof (target_not_free H _ _ Hin Hold) as Hfl.
  destruct (page_decref_spec _ _ _ (vi_alloc _ _ _ _ H) Hp Hfl Hr) as [_ Ha].
  destruct (decref_state_frame p s) as (Hnp & Hmem & _).
  assert (Hnew : target (wrw (mem s) t (v mod 1024) 0) (SData d v) = None).
  { simpl. erewrite vmap_wrw_same by eauto. by rewrite hasbits_0. }
  assert (Hoth : forall x, in_slots ds x -> x <> SData d v ->
     target (wrw (mem s) t (v mod 1024) 0) x = target (mem s) x).
  { intros x Hx Hne. eapply target_wrw_pte; eauto. }
  assert (Hcnt : forall q, count (target (wrw (mem s) t (v mod 1024) 0)) (slots ds) q =
            count (target (mem s)) (slots ds) q - is_ref (Some p) q).
  { intros q. rewrite (count_target ds (mem s) _ (SData d v));
      [rewrite Hnew, Hold, is_ref_None; lia|apply (vi_nodup _ _ _ _ H)|done|done]. }
  constructor; simpl; rewrite ?Hnp.
  - eapply alloc_inv_frame; [..|exact Ha]; done.
  - apply (vi_nodup _ _ _ _ H).
  - apply (vi_kref _ _ _ _ H).
  - intros q Hq. rewrite Hcnt. pose proof (vi_ref _ _ _ _ H q Hq) as Hq'.
    change (pg (set_mem _ (decref_state p s)) q) with (pg (decref_state p s) q).
    rewrite decref_state_ref. case_decide; [subst q; rewrite is_ref_eq; lia|].
    rewrite is_ref_ne by done. lia.
  - intros x q Hx Hs Hq. assert (x <> SData d v) by (by intros ->).
    rewrite Hoth in Hq by done. rewrite Hcnt. pose proof (vi_excl _ _ _ _ H x q Hx Hs Hq).
    rewrite is_ref_ne; [lia|]. intros <-.
    by assert (SData d v = x) by (by eapply (struct_unique H)).
  - intros x q Hx Hq. destruct (decide (x = SData d v)) as [->|]; [by rewrite Hnew in Hq|].
    rewrite Hoth in Hq by done. by eapply (vi_range _ _ _ _ H).
  - intros d' i Hd' Hi. rewrite (pt_page_wrw_table H d v t) by done.
    rewrite rdw_wrw_ne; [by apply (vi_pde _ _ _ _ H)|]. left. by apply (table_not_dir H d v t).
  - intros d' v' Hd' Hv'. by apply (pte_zero_wrw H d v t).
Qed.

(** ** Allocating a page table *)

Section NewTable.
  Context {s : kstate} {ds fl : list Z} {kref : Z -> Z} {d v p : Z}.
  Context (H : vm_inv s ds (p :: fl) kref) (Hd : d ∈ ds) (Hv : 0 <= v < NUVPN).
  Context (Hn : pt_page (mem s) d v = None).

  Local Abbreviation s' := (new_table d (v / 1024) p s) (only parsing).

Lemma new_table_page : 0 <= p < npages s.
  Proof using All. eapply ai_in_range; [apply (vi_alloc _ _ _ _ H)|set_solver]. Qed.

Lemma new_table_not_dir d' : d' ∈ ds -> p <> d'.
  Proof using All.
    intros Hd' ->. by apply (free_not_target H (SDir d') d'); [set_solver| |].
  Qed.

Lemma new_table_pde d' i' : d' ∈ ds ->
    rdw (mem s') d' i' = if decide (d' = d /\ i' = v / 1024) then p * 4096 + 7 else rdw (mem s) d' i'.
  Proof using All.
    intros Hd'. simpl. case_decide as E.
    - destruct E as [-> ->]. apply rdw_wrw_eq.
    - rewrite rdw_wrw_ne by (destruct (decide (d = d')) as [<-|]; [right|by left]; naive_solver).
      rewrite rdw_insert_ne; [done|by apply new_table_not_dir].
  Qed.

Lemma new_table_pt_page d' v' : d' ∈ ds ->
    pt_page (mem s') d' v' =
      if decide (d' = d /\ v' / 1024 = v / 1024) then Some p else pt_page (mem s) d' v'.
  Proof using All.
    intros Hd'. unfold pt_page. rewrite (new_table_pde d' (v' / 1024) Hd').
    case_decide; [|done]. pose proof new_table_page.
    rewrite hasbits_page by lia. rewrite PGNUM_div, Z.div_add_l, Z.div_small by lia.
    simpl. f_equal. lia.
  Qed.

Lemma new_table_pte_at d' v' : d' ∈ ds -> 0 <= v' < NUVPN ->
    pte_at (mem s') d' v' = pte_at (mem s) d' v'.
  Proof using All.
    intros Hd' Hv'. unfold pte_at. rewrite new_table_pt_page by done. case_decide as E.
    - destruct E as [Hdd E]. rewrite Hdd, (pt_page_table _ _ _ v' E), <- pt_page_div, Hn.
      simpl. rewrite rdw_wrw_ne by (left; intros Hdp; exact (new_table_not_dir d Hd (eq_sym Hdp))).
      by rewrite rdw_zero_eq.
    - destruct (pt_page (mem s) d' v') as [t|] eqn:Ht; [|done].
      assert (t <> p).
      { intros Htp. eapply (free_not_target H (STable d' (v' / 1024)) p);
          [set_solver|by apply (table_slot H)|]. rewrite <- Htp. by apply (table_target H). }
      assert (d <> t) by (intros Hdt; exact (table_not_dir H d' v' t d Hd' Hv' Ht Hd (eq_sym Hdt))).
      simpl. by rewrite rdw_wrw_ne, rdw_insert_ne by (done || by left).
  Qed.

Lemma new_table_vmap d' v' : d' ∈ ds -> 0 <= v' < NUVPN ->
    vmap (mem s') d' v' = vmap (mem s) d' v'.
  Proof using All. intros. by rewrite !vmap_pte_at, new_table_pte_at. Qed.

Lemma new_table_target x : in_slots ds x -> x <> STable d (v / 1024) ->
    target (mem s') x = target (mem s) x.
  Proof using All.
    intros Hx Hne. destruct x as [d'|d' i'|d' v']; simpl in Hx; unfold target.
    - done.
    - rewrite new_table_pt_page, Z.div_mul by (tauto || lia). rewrite decide_False; [done|].
      intros [-> ->]. done.
    - by rewrite new_table_vmap by tauto.
  Qed.

Lemma new_table_target_new : target (mem s') (STable d (v / 1024)) = Some p.
  Proof using All. unfold target. rewrite new_table_pt_page, Z.div_mul, decide_True; done. Qed.

Lemma new_table_ref q :
    pp_ref (pg s' q) = pp_ref (pg s q) + is_ref (Some p) q.
  Proof using All.
    unfold new_table. change (pg (set_mem _ ?x) q) with (pg x q).
    pose proof (ai_free _ _ (vi_alloc _ _ _ _ H) p ltac:(set_solver)) as H0.
    unfold set_pp_ref. destruct (decide (p = q)) as [<-|].
    - rewrite pg_set_pg_eq, is_ref_eq. simpl. lia.
    - rewrite pg_set_pg_ne, is_ref_ne by done.
      change (pg (zero_page p (take_page p s)) q) with (pg (take_page p s) q).
      rewrite take_page_ref. lia.
  Qed.

Lemma new_table_alloc : alloc_inv s' fl.
  Proof using All.
    pose proof (vi_alloc _ _ _ _ H) as Ha. pose proof new_table_page.
    pose proof (ai_nodup _ _ Ha) as Hnd. apply list.NoDup_cons in Hnd as [Hp _].
    eapply (alloc_inv_frame (set_pp_ref p 1 (zero_page p (take_page p s)))); try done.
    apply alloc_inv_set_ref; [|done|done|lia].
    eapply (alloc_inv_frame (take_page p s)); try done. by apply take_page_inv.
  Qed.

Lemma new_table_mem_frame : mem_frame ds (p :: fl) (mem s) (mem s').
  Proof using All.
    split.
    - intros q k Hq Hqf. cbn [mem set_mem new_table]. rewrite rdw_wrw_ne.
      + simpl. apply rdw_insert_ne. intros ->. apply Hqf, list_elem_of_here.
      + left. intros ->. by apply (Hq (SDir q)).
    - intros d' k Hd' Hk. rewrite new_table_pde by done. rewrite decide_False; [done|].
      intros [_ ->]. pose proof (vpn_pde v Hv). lia.
  Qed.

Lemma vm_new_table : vm_inv s' ds fl kref.
  Proof using All.
    pose proof new_table_page as Hp.
    destruct (free_count H p ltac:(set_solver)) as [Hk0 Hc0].
    assert (Hin : in_slots ds (STable d (v / 1024))) by (by apply (table_slot H)).
    assert (Hcnt : forall q, count (target (mem s')) (slots ds) q =
              count (target (mem s)) (slots ds) q + is_ref (Some p) q).
    { intros q. rewrite (count_target ds (mem s) _ (STable d (v / 1024)));
        [|apply (vi_nodup _ _ _ _ H)|done|by apply new_table_target].
      rewrite new_table_target_new. unfold target at 2. rewrite <- pt_page_div, Hn, is_ref_None. lia. }
    constructor.
    - apply new_table_alloc.
    - apply (vi_nodup _ _ _ _ H).
    - apply (vi_kref _ _ _ _ H).
    - intros q Hq. rewrite Hcnt, new_table_ref, (vi_ref _ _ _ _ H) by done. lia.
    - intros x q Hx Hs Hq. rewrite Hcnt. destruct (decide (x = STable d (v / 1024))) as [->|].
      + rewrite new_table_target_new in Hq. injection Hq as <-. rewrite is_ref_eq. lia.
      + rewrite new_table_target in Hq by done. pose proof (vi_excl _ _ _ _ H x q Hx Hs Hq).
        rewrite is_ref_ne; [lia|]. intros <-. by apply (free_not_target H x p ltac:(set_solver) Hx).
    - intros x q Hx Hq. destruct (decide (x = STable d (v / 1024))) as [->|].
      + rewrite new_table_target_new in Hq. by injection Hq as <-.
      + rewrite new_table_target in Hq by done. by eapply (vi_range _ _ _ _ H).
    - intros d' i Hd' Hi. rewrite new_table_pt_page, Z.div_mul by (done || lia).
      rewrite new_table_pde by done. case_decide; [done|]. by apply (vi_pde _ _ _ _ H).
    - intros d' v' Hd' Hv'. rewrite new_table_pte_at by done. by apply (vi_pte _ _ _ _ H).
  Qed.
End NewTable.

(** ** What the page table operations leave alone *)

Record vm_frame (s s' : kstate) : Prop := {
  vf_npages : npages s' = npages s;
  vf_kern_pgdir : kern_pgdir s' = kern_pgdir s;
  vf_envs : envs s' = envs s;
  vf_env_free_list : env_free_list s' = env_free_list s;
  vf_cpunum : cpunum s' = cpunum s;
  vf_klock : klock s' = klock s;
  vf_other_cpus : forall c, c <> cpunum s -> cpus s' !! c = cpus s !! c;
  vf_status : cpu_status (thiscpu s') = cpu_status (thiscpu s);
  vf_curenv : curenv s' = curenv s;
  vf_cr3 : cpu_cr3 (thiscpu s') = cpu_cr3 (thiscpu s)
}.

Lemma vm_frame_eq s s' :
  npages s' = npages s -> kern_pgdir s' = kern_pgdir s -> envs s' = envs s ->
  env_free_list s' = env_free_list s -> cpunum s' = cpunum s -> klock s' = klock s ->
  cpus s' = cpus s -> vm_frame s s'.
Proof.
  intros. constructor; try done; unfold curenv, thiscpu; congruence.
Qed.

#[export] Instance vm_frame_refl : Reflexive vm_frame.
Proof. intros s. by apply vm_frame_eq. Qed.

#[export] Instance vm_frame_trans : Transitive vm_frame.
Proof.
  intros s1 s2 s3 [] []. constructor; try congruence.
  intros c Hc. rewrite vf_other_cpus1 by congruence. by apply vf_other_cpus0.
Qed.

Lemma vm_frame_decref p s : vm_frame s (decref_state p s).
Proof. destruct (decref_state_frame p s) as (?&?&?&?&?&?&?&?). by apply vm_frame_eq. Qed.

(** [tlb_invalidate] as a function of the state. *)
Definition invlpg_state (va : Z) (s : kstate) : kstate :=
  let c := thiscpu s in
  set_thiscpu (mkCpu (cpu_status c) (cpu_env c) (cpu_cr3 c) (cpu_tlb c ∖ {[PGNUM va]})) s.

Definition tlb_state (pgdir va : Z) (s : kstate) : kstate :=
  match curenv s with
  | None => invlpg_state va s
  | Some e => if env_pgdir (env s e) =? pgdir then invlpg_state va s else s
  end.

Lemma tlb_invalidate_eq pgdir va s :
  tlb_invalidate pgdir va s = Ret tt (tlb_state pgdir va s).
Proof.
  unfold tlb_invalidate, tlb_state. rewrite bind_get.
  destruct (curenv s); [|done]. rewrite bind_get. by destruct (_ =? _).
Qed.

Lemma thiscpu_set s c : thiscpu (set_thiscpu c s) = c.
Proof. unfold thiscpu, set_thiscpu. simpl. by rewrite lookup_insert_eq. Qed.

Lemma vm_frame_invlpg va s : vm_frame s (invlpg_state va s).
Proof.
  constructor; try done; unfold invlpg_state.
  - intros c Hc. simpl. by rewrite lookup_insert_ne.
  - by rewrite thiscpu_set.
  - unfold curenv. by rewrite thiscpu_set.
  - by rewrite thiscpu_set.
Qed.

Lemma vm_frame_tlb pgdir va s : vm_frame s (tlb_state pgdir va s).
Proof.
  unfold tlb_state. destruct (curenv s); [|apply vm_frame_invlpg].
  destruct (_ =? _); [apply vm_frame_invlpg|done].
Qed.

Lemma tlb_state_vm pgdir va s :
  npages (tlb_state pgdir va s) = npages s /\ pages (tlb_state pgdir va s) = pages s /\
  page_free_list (tlb_state pgdir va s) = page_free_list s /\ mem (tlb_state pgdir va s) = mem s.
Proof. unfold tlb_state. destruct (curenv s); [destruct (_ =? _)|]; done. Qed.

(** ** The operations on a user address *)

Section Ops.
  Context {s : kstate} {ds fl : list Z} {kref : Z -> Z} {d va : Z}.
  Context (H : vm_inv s ds fl kref) (Hd : d ∈ ds) (Hva : uva va).

  Local Abbreviation v := (PGNUM va) (only parsing).

Lemma op_vpn : 0 <= v < NUVPN.
  Proof using Hva. by apply uva_vpn. Qed.

Lemma op_walkable : walkable s d v.
  Proof using All. apply (vm_walkable H); [done|apply op_vpn]. Qed.

  (** The state after the mapping [e] at [va] in table [t] was removed. *)
Definition removed (t e : Z) : kstate :=
    tlb_state (kptr d 0) va
      (set_mem (wrw (mem s) t (v mod 1024) 0) (decref_state (PGNUM e) s)).

Lemma page_remove_mapped t e :
    pt_page (mem s) d v = Some t -> vmap (mem s) d v = Some e ->
    page_remove (kptr d 0) va s = Ret tt (removed t e) /\
    vm_inv (removed t e) ds (decref_free (PGNUM e) s fl) kref /\
    mem (removed t e) = wrw (mem s) t (v mod 1024) 0 /\ vm_frame s (removed t e).
  Proof using All.
    intros Ht He. pose proof op_vpn as Hv.
    assert (Hin : in_slots ds (SData d v)) by done.
    assert (Hold : target (mem s) (SData d v) = Some (PGNUM e)) by (simpl; by rewrite He).
    pose proof (vi_range _ _ _ _ H _ _ Hin Hold) as Hp.
    pose proof (target_ref H _ _ Hin Hold) as Hr.
    pose proof (target_not_free H _ _ Hin Hold) as Hfl.
    pose proof (table_range H d v t Hd Hv Ht) as Htr.
    pose proof (Z.mod_pos_bound v 1024 ltac:(lia)).
    destruct (page_decref_spec _ _ _ (vi_alloc _ _ _ _ H) Hp Hfl Hr) as [Hdec _].
    destruct (decref_state_frame (PGNUM e) s) as (_ & Hmem & _).
    pose proof (tlb_state_vm (kptr d 0) va
      (set_mem (wrw (mem s) t (v mod 1024) 0) (decref_state (PGNUM e) s))) as (T1 & T2 & T3 & T4).
    split_and!.
    - unfold page_remove.
      kstep by (eapply page_lookup_present; eauto using op_walkable, uva_ok).
      kstep by exact Hdec.
      kstep by (apply store_kptr; lia).
      rewrite Hmem. change (u32 0) with 0. apply tlb_invalidate_eq.
    - eapply vm_inv_frame; [exact T1|exact T2|exact T3|exact T4|].
      by apply (vm_clear s ds fl kref d v t e).
    - exact T4.
    - etransitivity; [apply (vm_frame_decref (PGNUM e))|].
      etransitivity; [|apply vm_frame_tlb]. by apply vm_frame_eq.
  Qed.

Lemma page_remove_unmapped t :
    pt_page (mem s) d v = Some t -> vmap (mem s) d v = None ->
    page_remove (kptr d 0) va s = Ret tt s.
  Proof using All.
    intros Ht He. unfold page_remove.
    kstep by (eapply page_lookup_not_present; eauto using op_walkable, uva_ok).
    done.
  Qed.

  (** [pgdir_walk] with [create]: no memory, or a page table exists afterwards
      and no mapping changed. *)
Lemma walk_create :
    (pt_page (mem s) d v = None /\ fl = [] /\ pgdir_walk (kptr d 0) va true s = Ret 0 s) \/
    (exists s' fl' t, pgdir_walk (kptr d 0) va true s = Ret (kptr t (v mod 1024)) s' /\
      vm_inv s' ds fl' kref /\ pt_page (mem s') d v = Some t /\ vm_frame s s' /\
      (forall d' v', d' ∈ ds -> 0 <= v' < NUVPN -> vmap (mem s') d' v' = vmap (mem s) d' v') /\
      (forall q, plain (mem s) ds q -> q ∉ fl -> plain (mem s') ds q) /\
      (forall q, q ∉ fl -> pp_ref (pg s' q) = pp_ref (pg s q)) /\
      (forall q, q ∉ fl -> q ∉ fl') /\ mem_frame ds fl (mem s) (mem s')).
  Proof using All.
    pose proof op_vpn as Hv. pose proof (op_walkable) as Hw. pose proof (uva_ok _ Hva) as Hok.
    destruct (pt_page (mem s) d v) as [t|] eqn:Ht.
    - right. exists s, fl, t. split; [by apply pgdir_walk_present|]. split_and!; try done.
    - destruct fl as [|p fl0].
      + left. split_and!; [done|done|]. apply pgdir_walk_nomem; try done. apply (vi_alloc _ _ _ _ H).
      + right. exists (new_table d (v / 1024) p s), fl0, p.
        assert (d ∉ p :: fl0) by (by apply (target_not_free H (SDir d))).
        split; [eapply pgdir_walk_create; try done; apply (vi_alloc _ _ _ _ H)|].
        split_and!.
        * by apply vm_new_table.
        * rewrite (new_table_pt_page H Hd Hv Ht) by done. by rewrite decide_True.
        * by apply vm_frame_eq.
        * intros. by apply (new_table_vmap H Hd Hv Ht).
        * intros q Hq Hqf x Hx Hs Hxq. destruct (decide (x = STable d (v / 1024))) as [->|].
          -- rewrite (new_table_target_new H Hd Hv Ht) in Hxq. injection Hxq as <-. set_solver.
          -- rewrite (new_table_target H Hd Hv Ht) in Hxq by done. by apply (Hq x).
        * intros q Hq. rewrite (new_table_ref H Hd Hv Ht), is_ref_ne by set_solver. lia.
        * set_solver.
        * by apply (new_table_mem_frame H Hd Hv Ht).
  Qed.
End Ops.

(** The entry [page_insert] writes. *)
Definition pte_value (pp perm : Z) : Z := pp * 4096 + (perm .| PTE_P).

Lemma perm_P_range perm : 0 <= perm < 4096 -> 0 <= perm .| PTE_P < 4096.
Proof. intros. change 4096 with (2 ^ 12). apply lor_small; lia. Qed.

Lemma pte_value_eq pp perm : 0 <= pp < 65536 -> 0 <= perm < 4096 ->
  u32 (page2pa pp .| perm .| PTE_P) = pte_value pp perm.
Proof.
  intros. pose proof (perm_P_range perm ltac:(lia)). unfold pte_value.
  rewrite page2pa_small, <- Z.lor_assoc, lor_page_low by lia. apply u32_small. lia.
Qed.

Lemma pte_value_P pp perm : 0 <= perm < 4096 -> hasbits (pte_value pp perm) PTE_P = true.
Proof.
  intros. pose proof (perm_P_range perm ltac:(lia)). unfold pte_value.
  rewrite hasbits_page by lia. by apply hasbits_lor_r.
Qed.

Lemma PGNUM_pte_value pp perm : 0 <= perm < 4096 -> PGNUM (pte_value pp perm) = pp.
Proof.
  intros. pose proof (perm_P_range perm ltac:(lia)). unfold pte_value.
  rewrite PGNUM_div, Z.div_add_l, Z.div_small; lia.
Qed.

(** [page_insert] first clears the slot if it is in use. *)
Lemma clear_slot s ds fl kref d va t :
  vm_inv s ds fl kref -> d ∈ ds -> uva va -> pt_page (mem s) d (PGNUM va) = Some t ->
  exists s1 fl1,
    (if hasbits (rdw (mem s) t (PGNUM va mod 1024)) PTE_P then page_remove (kptr d 0) va
     else mret tt) s = Ret tt s1 /\
    vm_inv s1 ds fl1 kref /\ vm_frame s s1 /\ vmap (mem s1) d (PGNUM va) = None /\
    pt_page (mem s1) d (PGNUM va) = Some t /\
    (forall q, plain (mem s) ds q -> plain (mem s1) ds q) /\
    (forall d' v', d' ∈ ds -> 0 <= v' < NUVPN -> (d', v') <> (d, PGNUM va) ->
       vmap (mem s1) d' v' = vmap (mem s) d' v') /\
    exists w, mem s1 = wrw (mem s) t (PGNUM va mod 1024) w \/ mem s1 = mem s.
Proof.
  intros H Hd Hva Ht. set (v := PGNUM va) in *.
  pose proof (uva_vpn va Hva) as Hv. fold v in Hv.
  destruct (hasbits (rdw (mem s) t (v mod 1024)) PTE_P) eqn:Hpres.
  - assert (He : vmap (mem s) d v = Some (rdw (mem s) t (v mod 1024))).
    { unfold vmap. by rewrite Ht, Hpres. }
    destruct (page_remove_mapped H Hd Hva t _ Ht He) as (Hr & Hi & Hm & Hf). fold v in Hm.
    eexists _, _. split; [exact Hr|]. split; [exact Hi|]. split; [exact Hf|].
    rewrite Hm. split_and!.
    + rewrite (vmap_wrw_same H) by done. by rewrite hasbits_0.
    + by rewrite (pt_page_wrw_table H d v t) by done.
    + intros q Hpl x Hx Hs. rewrite (target_wrw_pte H d v t) by (try done; by intros ->).
      by apply (Hpl x).
    + intros. by apply (vmap_wrw_other H d v t).
    + exists 0. by left.
  - exists s, fl. split_and!; try done; [|exists 0; by right]. unfold vmap. by rewrite Ht, Hpres.
Qed.

(** The tail of [page_insert], once the page table is there and the reference
    was counted: the old mapping goes, the new one is written. *)
Lemma insert_into_table s ds fl kref kref' d va t pp perm :
  vm_inv s ds fl kref' -> (forall q, kref' q = kref q + is_ref (Some pp) q) ->
  (forall q, 0 <= kref q) -> d ∈ ds -> uva va -> pt_page (mem s) d (PGNUM va) = Some t ->
  0 <= pp < npages s -> 0 <= perm < 4096 -> plain (mem s) ds pp ->
  exists s' fl',
    (v ← load (kptr t (PGNUM va mod 1024));
     (if hasbits v PTE_P then page_remove (kptr d 0) va else mret tt) ;;
     store (kptr t (PGNUM va mod 1024)) (page2pa pp .| perm .| PTE_P) ;; mret 0) s = Ret 0 s' /\
    vm_inv s' ds fl' kref /\ vm_frame s s' /\
    vmap (mem s') d (PGNUM va) = Some (pte_value pp perm) /\
    (forall d' v', d' ∈ ds -> 0 <= v' < NUVPN -> (d', v') <> (d, PGNUM va) ->
       vmap (mem s') d' v' = vmap (mem s) d' v') /\
    mem_frame ds fl (mem s) (mem s').
Proof.
  intros H Hk Hk0 Hd Hva Ht Hpp Hperm Hpl.
  pose proof (uva_vpn va Hva) as Hv. pose proof (Z.mod_pos_bound (PGNUM va) 1024 ltac:(lia)).
  pose proof (vi_np H). pose proof (table_range H d _ t Hd Hv Ht) as Htr.
  pose proof (perm_P_range perm Hperm).
  destruct (clear_slot _ _ _ _ _ _ _ H Hd Hva Ht)
    as (s1 & fl1 & Hrun & Hi1 & Hf & Hn & Ht1 & Hpl1 & Hoth & w & Hw).
  eexists _, fl1. split; [|split].
  - kstep by (apply load_kptr; lia). kstep by exact Hrun.
    kstep by (apply store_kptr; lia). rewrite pte_value_eq by lia. done.
  - apply (vm_install s1 ds fl1 kref kref' d (PGNUM va) t pp (perm .| PTE_P)); try done.
    + by rewrite (vf_npages _ _ Hf).
    + by apply hasbits_lor_r.
    + by apply Hpl1.
  - split_and!.
    + etransitivity; [exact Hf|]. by apply vm_frame_eq.
    + simpl. rewrite (vmap_wrw_same Hi1) by done. by rewrite pte_value_P.
    + intros d' v' Hd' Hv' Hne. simpl.
      rewrite (vmap_wrw_other Hi1 d (PGNUM va) t) by done. by apply Hoth.
    + cbn [mem set_mem].
      destruct Hw as [->| ->]; rewrite ?wrw_wrw; by apply (mem_frame_table H d (PGNUM va) t).
Qed.

(** [page_insert] on a user address. *)
Lemma page_insert_spec s ds fl kref d va pp perm :
  vm_inv s ds fl kref -> d ∈ ds -> uva va -> 0 <= pp < npages s -> pp ∉ fl ->
  plain (mem s) ds pp -> pp_ref (pg s pp) < 65535 -> 0 <= perm < 4096 ->
  (pt_page (mem s) d (PGNUM va) = None /\ fl = [] /\
   page_insert (kptr d 0) pp va perm s = Ret (- E_NO_MEM) s) \/
  (exists s' fl', page_insert (kptr d 0) pp va perm s = Ret 0 s' /\
    vm_inv s' ds fl' kref /\ vm_frame s s' /\
    vmap (mem s') d (PGNUM va) = Some (pte_value pp perm) /\
    (forall d' v', d' ∈ ds -> 0 <= v' < NUVPN -> (d', v') <> (d, PGNUM va) ->
       vmap (mem s') d' v' = vmap (mem s) d' v') /\
    mem_frame ds fl (mem s) (mem s')).
Proof.
  intros H Hd Hva Hpp Hfl Hpl Hr Hperm.
  destruct (walk_create H Hd Hva) as [(Hn & -> & Hw)|(s1 & fl1 & t & Hw & Hi1 & Ht & Hf & Hvm & Hpl1 & Hr1 & Hfl1 & Hmf)].
  - left. split_and!; [done|done|]. unfold page_insert. by kstep by exact Hw.
  - right. pose proof (uva_vpn va Hva) as Hv. pose proof (table_range Hi1 d _ t Hd Hv Ht).
    pose proof (Z.mod_pos_bound (PGNUM va) 1024 ltac:(lia)).
    assert (Hpp1 : 0 <= pp < npages s1) by (by rewrite (vf_npages _ _ Hf)).
    pose proof (ai_ref _ _ (vi_alloc _ _ _ _ Hi1) pp).
    assert (Hrr : pp_ref (pg s1 pp) < 65535) by (by rewrite Hr1).
    pose proof (vm_incref _ _ _ _ pp Hi1 Hpp1 (Hfl1 _ Hfl) (Hpl1 _ Hpl Hfl) Hrr) as Hi2.
    edestruct (insert_into_table _ ds fl1 kref _ d va t pp perm Hi2)
      as (s' & fl' & Hrun & H' & Hf' & Hnew & Hoth & Hmf'); try done; [|by apply Hpl1|].
    { apply (vi_kref _ _ _ _ H). }
    exists s', fl'. split_and!; try done.
    + unfold page_insert. kstep by exact Hw. rewrite kptr_nonnull by lia.
      rewrite bind_modify, u16_small by lia. exact Hrun.
    + etransitivity; [exact Hf|]. etransitivity; [|exact Hf']. by apply vm_frame_eq.
    + intros d' v' Hd' Hv' Hne. rewrite Hoth by done. by apply Hvm.
    + destruct Hmf as [A1 A2], Hmf' as [B1 B2]. split.
      * intros q k Hq Hqf. rewrite B1; [by apply A1|by apply Hpl1|by apply Hfl1].
      * intros d' k Hd' Hk. rewrite B2 by done. by apply A2.
Qed.

(** ** Adding a page directory *)

Lemma count_all_None {A} (f : A -> option Z) l p :
  (forall x, x ∈ l -> f x = None) -> count f l p = 0.
Proof.
  induction l as [|x l IH]; intros H; [done|].
  rewrite count_cons, H, is_ref_None, IH by set_solver. done.
Qed.

(** A directory with no entry below [UTOP] refers to nothing. *)
Lemma empty_dir_target m d :
  (forall i, 0 <= i < NUPDE -> rdw m d i = 0) ->
  (forall i, 0 <= i < NUPDE -> pt_page m d (i * 1024) = None) /\
  (forall v, 0 <= v < NUVPN -> vmap m d v = None).
Proof.
  intros H0.
  assert (Hp : forall v, 0 <= v < NUVPN -> pt_page m d v = None).
  { intros v Hv. unfold pt_page. by rewrite H0, hasbits_0 by (by apply vpn_pde). }
  split.
  - intros i Hi. apply Hp. unfold NUPDE, NUVPN in *. lia.
  - intros v Hv. unfold vmap. by rewrite Hp.
Qed.

Lemma count_empty_dir m d q :
  (forall i, 0 <= i < NUPDE -> rdw m d i = 0) ->
  count (target m) (SDir d :: (STable d <$> seqZ 0 NUPDE) ++ (SData d <$> seqZ 0 NUVPN)) q =
  is_ref (Some d) q.
Proof.
  intros H0. destruct (empty_dir_target m d H0) as [Ht Hv].
  rewrite count_cons, count_app, !count_all_None; [simpl; lia|..].
  - intros x (v & -> & Hi%elem_of_seqZ)%list_elem_of_fmap. simpl. rewrite Hv by lia. done.
  - intros x (i & -> & Hi%elem_of_seqZ)%list_elem_of_fmap. simpl. apply Ht. lia.
Qed.

(** Slots of [ds] only read pages they refer to. *)
Lemma target_frame s ds fl kref m' x :
  vm_inv s ds fl kref ->
  (forall y p i, in_slots ds y -> structural y = true -> target (mem s) y = Some p ->
     rdw m' p i = rdw (mem s) p i) ->
  in_slots ds x -> target m' x = target (mem s) x.
Proof.
  intros H Hm Hx.
  assert (Hd : forall d v, d ∈ ds -> pt_page m' d v = pt_page (mem s) d v).
  { intros d v Hd. unfold pt_page. by rewrite (Hm (SDir d) d). }
  destruct x as [d|d i|d v]; simpl in *; [done|by apply Hd; tauto|].
  f_equal. unfold vmap. rewrite Hd by tauto.
  destruct (pt_page (mem s) d v) as [t|] eqn:Ht; [|done].
  rewrite (Hm (STable d (v / 1024)) t); [done| |done|].
  - apply (table_slot H); tauto.
  - by apply (table_target H).
Qed.

Lemma vm_add_dir s s' ds fl kref p :
  vm_inv s ds (p :: fl) kref -> alloc_inv s' fl -> npages s' = npages s ->
  (forall q, pp_ref (pg s' q) = pp_ref (pg s q) + is_ref (Some p) q) ->
  (forall q i, q <> p -> rdw (mem s') q i = rdw (mem s) q i) ->
  (forall i, 0 <= i < NUPDE -> rdw (mem s') p i = 0) ->
  vm_inv s' (p :: ds) fl kref.
Proof.
  intros H Ha Hnp Hr Hm Hz.
  assert (Hpfl : p ∈ p :: fl) by set_solver.
  pose proof (ai_in_range _ _ p (vi_alloc _ _ _ _ H) Hpfl) as Hp.
  destruct (free_count H p Hpfl) as [Hk0 Hc0].
  assert (Hfr : forall x, in_slots ds x -> target (mem s') x = target (mem s) x).
  { intros x Hx. eapply target_frame; [done| |done]. intros y q i Hy _ Hq.
    apply Hm. intros ->. by apply (free_not_target H y p Hpfl Hy). }
  assert (Hcnt : forall q, count (target (mem s')) (slots (p :: ds)) q =
            is_ref (Some p) q + count (target (mem s)) (slots ds) q).
  { intros q. rewrite slots_cons, count_app, count_empty_dir by done. f_equal.
    apply count_ext. intros x Hx. apply Hfr. by apply elem_of_slots. }
  destruct (empty_dir_target (mem s') p Hz) as [Het Hev].
  assert (Hcase : forall x q, in_slots (p :: ds) x -> target (mem s') x = Some q ->
      (x = SDir p /\ q = p) \/ (in_slots ds x /\ target (mem s) x = Some q)).
  { intros x q Hx Hq. destruct (decide (slot_dir x = p)) as [E|E].
    - left. destruct x as [d|d i|d v]; simpl in *; subst; [by injection Hq as ->|..].
      + by rewrite Het in Hq by tauto.
      + by rewrite Hev in Hq by tauto.
    - right. assert (Hx' : in_slots ds x) by (destruct x; simpl in *; set_solver).
      by rewrite Hfr in Hq. }
  constructor.
  - done.
  - apply list.NoDup_cons. split; [|apply (vi_nodup _ _ _ _ H)].
    intros Hin. by apply (free_not_target H (SDir p) p Hpfl).
  - apply (vi_kref _ _ _ _ H).
  - intros q Hq. rewrite Hcnt, Hr, (vi_ref _ _ _ _ H) by lia. lia.
  - intros x q Hx Hs Hq. rewrite Hcnt. destruct (Hcase x q Hx Hq) as [[-> ->]|[Hx' Hq']].
    + rewrite is_ref_eq. lia.
    + pose proof (vi_excl _ _ _ _ H x q Hx' Hs Hq'). rewrite is_ref_ne; [lia|].
      intros ->. by apply (free_not_target H x q Hpfl Hx').
  - intros x q Hx Hq. rewrite Hnp. destruct (Hcase x q Hx Hq) as [[-> ->]|[Hx' Hq']]; [done|].
    by eapply (vi_range _ _ _ _ H).
  - intros d i Hd Hi. destruct (decide (d = p)) as [->|Hne].
    { unfold pt_page. rewrite Z.div_mul, Hz by lia. done. }
    assert (Hd' : d ∈ ds) by set_solver. rewrite Hm by done.
    rewrite (vi_pde _ _ _ _ H) by done. f_equal.
    pose proof (Hfr (STable d i) ltac:(done)) as Hfr'. simpl in Hfr'. congruence.
  - intros d v Hd Hv. destruct (decide (d = p)) as [->|Hne].
    { unfold pte_at, pt_page. by rewrite Hz by (by apply vpn_pde). }
    assert (Hd' : d ∈ ds) by set_solver. rewrite (pte_at_ext (mem s) (mem s')); [by apply (vi_pte _ _ _ _ H)|..].
    + unfold pt_page. by rewrite Hm.
    + intros t Ht. apply Hm. intros ->. by apply (free_not_target H (STable d (v / 1024)) p Hpfl);
        [apply (table_slot H)|apply (table_target H)].
Qed.

(** Before any environment exists, every reference is the kernel's. *)
Lemma vm_inv_nil s fl : alloc_inv s fl -> vm_inv s [] fl (λ p, pp_ref (pg s p)).
Proof.
  intros H. constructor; try done.
  - apply NoDup_nil_2.
  - intros p. apply (ai_ref _ _ H).
  - intros p Hp. Transparent slots. unfold slots. simpl. Opaque slots. unfold count. simpl. lia.
  - intros [d|d i|d v] p Hx; simpl in Hx; set_solver.
  - intros [d|d i|d v] p Hx; simpl in Hx; set_solver.
  - intros d i Hd. set_solver.
  - intros d v Hd. set_solver.
Qed.

(** The state after an empty page directory was allocated at [p]. *)
Definition empty_dir (p : Z) (s : kstate) : kstate :=
  set_pp_ref p 1 (zero_page p (take_page p s)).

Lemma empty_dir_ref s ds fl kref p q :
  vm_inv s ds (p :: fl) kref -> pp_ref (pg (empty_dir p s) q) = pp_ref (pg s q) + is_ref (Some p) q.
Proof.
  intros H. pose proof (ai_free _ _ (vi_alloc _ _ _ _ H) p ltac:(set_solver)) as H0.
  unfold empty_dir, set_pp_ref. destruct (decide (p = q)) as [<-|].
  - rewrite pg_set_pg_eq, is_ref_eq. simpl. lia.
  - rewrite pg_set_pg_ne, is_ref_ne by done.
    change (pg (zero_page p (take_page p s)) q) with (pg (take_page p s) q).
    rewrite take_page_ref. lia.
Qed.

Lemma empty_dir_alloc s ds fl kref p :
  vm_inv s ds (p :: fl) kref -> alloc_inv (empty_dir p s) fl.
Proof.
  intros H. pose proof (vi_alloc _ _ _ _ H) as Ha.
  pose proof (ai_in_range _ _ p Ha ltac:(set_solver)).
  pose proof (ai_nodup _ _ Ha) as Hnd. apply list.NoDup_cons in Hnd as [Hp _].
  apply alloc_inv_set_ref; [|done|done|lia].
  eapply (alloc_inv_frame (take_page p s)); try done. by apply take_page_inv.
Qed.

Lemma vm_empty_dir s ds fl kref p :
  vm_inv s ds (p :: fl) kref -> vm_inv (empty_dir p s) (p :: ds) fl kref.
Proof.
  intros H. eapply vm_add_dir; [exact H|by eapply empty_dir_alloc|done|..].
  - intros q. by eapply empty_dir_ref.
  - intros q i Hq. simpl. by rewrite rdw_insert_ne.
  - intros i _. apply rdw_zero_eq.
Qed.

(** ** Steps that leave the page tables alone *)

(** No page of the tables is written. *)
Definition tables_same (m m' : gmap Z (gmap Z Z)) (ds : list Z) : Prop :=
  forall x p i, in_slots ds x -> structural x = true -> target m x = Some p ->
    rdw m' p i = rdw m p i.

Section Same.
  Context {s : kstate} {ds fl : list Z} {kref : Z -> Z} (Hinv : vm_inv s ds fl kref).
  Context {m' : gmap Z (gmap Z Z)} (Hm : tables_same (mem s) m' ds).

Lemma same_target x : in_slots ds x -> target m' x = target (mem s) x.
  Proof using All. intros Hx. by eapply target_frame. Qed.

Lemma same_pt_page d v : d ∈ ds -> pt_page m' d v = pt_page (mem s) d v.
  Proof using All. intros Hd. unfold pt_page. by rewrite (Hm (SDir d) d). Qed.

Lemma same_pte_at d v : d ∈ ds -> 0 <= v < NUVPN -> pte_at m' d v = pte_at (mem s) d v.
  Proof using All.
    intros Hd Hv. apply pte_at_ext; [by apply same_pt_page|]. intros t Ht.
    apply (Hm (STable d (v / 1024)) t); [|done|].
    - by apply (table_slot Hinv d v).
    - by apply (table_target Hinv d v t).
  Qed.

Lemma same_vmap d v : d ∈ ds -> 0 <= v < NUVPN -> vmap m' d v = vmap (mem s) d v.
  Proof using All. intros. by rewrite !vmap_pte_at, same_pte_at. Qed.

Lemma same_plain p : plain (mem s) ds p -> plain m' ds p.
  Proof using All. intros H x Hx Hs. rewrite same_target by done. by apply H. Qed.

Lemma vm_same s' fl' :
    mem s' = m' -> alloc_inv s' fl' -> npages s' = npages s ->
    (forall q, pp_ref (pg s' q) = pp_ref (pg s q)) -> vm_inv s' ds fl' kref.
  Proof using All.
    intros Em Ha Hnp Hr.
    assert (Hc : forall p, count (target m') (slots ds) p =
                           count (target (mem s)) (slots ds) p).
    { intros p. apply count_ext. intros x Hx. apply same_target. by apply elem_of_slots. }
    constructor; rewrite ?Em.
    - done.
    - apply (vi_nodup _ _ _ _ Hinv).
    - apply (vi_kref _ _ _ _ Hinv).
    - intros p Hp. rewrite Hr, Hc. apply (vi_ref _ _ _ _ Hinv). lia.
    - intros x p Hx Hs. rewrite same_target, Hc by done. by apply (vi_excl _ _ _ _ Hinv).
    - intros x p Hx. rewrite same_target, Hnp by done. by apply (vi_range _ _ _ _ Hinv).
    - intros d i Hd Hi. rewrite same_pt_page by done. rewrite (Hm (SDir d) d) by done.
      by apply (vi_pde _ _ _ _ Hinv).
    - intros d v Hd Hv. rewrite same_pte_at by done. by apply (vi_pte _ _ _ _ Hinv).
  Qed.
End Same.

Lemma tables_same_plain s ds fl kref p m' :
  vm_inv s ds fl kref -> plain (mem s) ds p ->
  (forall q i, q <> p -> rdw m' q i = rdw (mem s) q i) -> tables_same (mem s) m' ds.
Proof.
  intros H Hp Hm x q i Hx Hs Hq. apply Hm. intros ->. by apply (Hp x Hx Hs).
Qed.

(** What [page_alloc] leaves when it hands out [p]. *)
Definition alloc_state (flags p : Z) (s : kstate) : kstate :=
  if hasbits flags ALLOC_ZERO then zero_page p (take_page p s) else take_page p s.

Lemma vm_frame_alloc flags p s : vm_frame s (alloc_state flags p s).
Proof. unfold alloc_state. destruct (hasbits _ _); by apply vm_frame_eq. Qed.

Lemma vm_page_alloc s ds fl kref flags p :
  vm_inv s ds (p :: fl) kref ->
  page_alloc flags s = Ret (Some p) (alloc_state flags p s) /\
  vm_inv (alloc_state flags p s) ds fl kref /\
  tables_same (mem s) (mem (alloc_state flags p s)) ds /\
  p ∉ fl /\ 0 <= p < npages s /\ plain (mem (alloc_state flags p s)) ds p /\
  pp_ref (pg (alloc_state flags p s) p) = 0.
Proof.
  intros H. pose proof (vi_alloc _ _ _ _ H) as Ha.
  assert (Hin : p ∈ p :: fl) by set_solver.
  assert (Hts : tables_same (mem s) (mem (alloc_state flags p s)) ds).
  { apply (tables_same_plain s ds (p :: fl) kref p); [done|by apply (free_plain H)|].
    intros q i Hq. unfold alloc_state. destruct (hasbits _ _); [|done].
    simpl. by rewrite rdw_insert_ne. }
  assert (Hr : forall q, pp_ref (pg (alloc_state flags p s) q) = pp_ref (pg s q)).
  { intros q. unfold alloc_state. destruct (hasbits _ _); exact (take_page_ref p q s). }
  split_and!.
  - rewrite (page_alloc_cons _ _ _ _ Ha). done.
  - eapply (vm_same H Hts); [done| | |done].
    + unfold alloc_state. destruct (hasbits _ _); [|by apply take_page_inv].
      eapply (alloc_inv_frame (take_page p s)); try done. by apply take_page_inv.
    + unfold alloc_state. by destruct (hasbits _ _).
  - done.
  - pose proof (ai_nodup _ _ Ha) as Hnd. by apply list.NoDup_cons in Hnd as [Hp _].
  - apply (ai_in_range _ _ p Ha Hin).
  - apply (ai_in_range _ _ p Ha Hin).
  - apply (same_plain H Hts). by apply (free_plain H).
  - rewrite Hr. by apply (ai_free _ _ Ha).
Qed.

(** Giving an unreferenced page back. *)
Lemma vm_page_free s ds fl kref p :
  vm_inv s ds fl kref -> 0 <= p < npages s -> p ∉ fl -> pp_ref (pg s p) = 0 ->
  page_free p s = Ret tt (give_page p s) /\ vm_inv (give_page p s) ds (p :: fl) kref /\
  vm_frame s (give_page p s).
Proof.
  intros H Hp Hfl Hr. pose proof (vi_alloc _ _ _ _ H) as Ha. split_and!.
  - by eapply page_free_ok.
  - eapply (vm_same H (m' := mem s)); [by intros x q i|done|by apply give_page_inv|done|].
    intros q. apply give_page_ref.
  - by apply vm_frame_eq.
Qed.
