(* ===== verification/FreeList.v ===== *)
(** * Checking and ordering the free list

    [check_page_free_list] of [kern/pmap.c]: the boot-time walk that moves the
    pages below 4 MB to the front of the free list in place, overwrites the
    free pages, and asserts that no page in use is on the list. *)

From S2P Require Import Prelude Console LibString Mmu Printf E1000 Machine KernLib PageAlloc Vm.

(** ** The code *)

(** [assert] of [inc/assert.h] *)
Definition kassert (b : bool) (what : string) : K unit :=
  if b then mret tt else panic ("assertion failed: " +:+ what).

(** [for (pp = page_free_list; pp; pp = pp->pp_link)], with the variables the
    body changes; a list longer than [fuel] is taken as endless. *)
Fixpoint kwalk {A} (body : A -> Z -> K A) (fuel : nat) (pp : option Z) (a : A) : K A :=
  match pp with
  | None => mret a
  | Some p =>
      match fuel with
      | O => leave SpinForever
      | S fuel' =>
          a' ← body a p;
          next ← get (λ s, pp_link (pg s p));
          kwalk body fuel' next a'
      end
  end.

(** The locals [pp1] and [pp2], and where [tp[0]] and [tp[1]] point: to that
    local ([None]) or to the [pp_link] of a page.  The locals are not
    initialised; both are assigned before they are read. *)
Record halves := mkHalves { pp1 : option Z; pp2 : option Z; tp0 : option Z; tp1 : option Z }.

(** [*tp[pagetype] = v] *)
Definition put_tp (pagetype : bool) (v : option Z) (c : halves) : K halves :=
  match (if pagetype then tp1 c else tp0 c) with
  | Some x => modify (set_pp_link x v) ;; mret c
  | None => mret (if pagetype then mkHalves (pp1 c) v (tp0 c) (tp1 c) else mkHalves v (pp2 c) (tp0 c) (tp1 c))
  end.

Definition split_body (pdx_limit : Z) (c : halves) (pp : Z) : K halves :=
  let pagetype := pdx_limit <=? PDX (page2pa pp) in
  c ← put_tp pagetype (Some pp) c;
  mret (if pagetype then mkHalves (pp1 c) (pp2 c) (tp0 c) (Some pp) else mkHalves (pp1 c) (pp2 c) (Some pp) (tp1 c)).

Definition reorder (fuel : nat) (pdx_limit : Z) : K unit :=
  fl ← get page_free_list;
  c ← kwalk (split_body pdx_limit) fuel fl (mkHalves None None None None);
  c ← put_tp true None c;
  c ← put_tp false (pp2 c) c;
  modify (set_page_free_list (pp1 c)).

Definition scribble_body (pdx_limit : Z) (_ : unit) (pp : Z) : K unit :=
  if PDX (page2pa pp) <? pdx_limit then kva ← page2kva pp; memset_bytes 128 kva 0x97 else mret tt.

(** The counts are [nfree_basemem] and [nfree_extmem]. *)
Definition check_body (first_free_page : Z) (n : Z * Z) (pp : Z) : K (Z * Z) :=
  np ← get npages;
  kassert (0 <=? pp) "pp >= pages" ;;
  kassert (pp <? np) "pp < pages + npages" ;;
  kassert ((pp * 8) mod 8 =? 0) "((char *) pp - (char *) pages) % sizeof(*pp) == 0" ;;
  kassert (negb (page2pa pp =? 0)) "page2pa(pp) != 0" ;;
  kassert (negb (page2pa pp =? IOPHYSMEM)) "page2pa(pp) != IOPHYSMEM" ;;
  kassert (negb (page2pa pp =? EXTPHYSMEM - PGSIZE)) "page2pa(pp) != EXTPHYSMEM - PGSIZE" ;;
  kassert (negb (page2pa pp =? EXTPHYSMEM)) "page2pa(pp) != EXTPHYSMEM" ;;
  (if page2pa pp <? EXTPHYSMEM then mret tt
   else
     kva ← page2kva pp;
     kassert (first_free_page <=? kva) "page2pa(pp) < EXTPHYSMEM || (char *) page2kva(pp) >= first_free_page") ;;
  kassert (negb (page2pa pp =? MPENTRY_PADDR)) "page2pa(pp) != MPENTRY_PADDR" ;;
  mret (if page2pa pp <? EXTPHYSMEM then (n.1 + 1, n.2) else (n.1, n.2 + 1)).

Definition check_page_free_list (kend : Z) (only_low_memory : bool) : K unit :=
  let pdx_limit := if only_low_memory then 1 else NPDENTRIES in
  fl ← get page_free_list;
  np ← get npages;
  let fuel := Z.to_nat np in
  match fl with
  | None => panic "'page_free_list' is a null pointer!"
  | Some _ =>
      (if only_low_memory then reorder fuel pdx_limit else mret tt) ;;
      fl ← get page_free_list;
      kwalk (scribble_body pdx_limit) fuel fl tt ;;
      first_free_page ← boot_alloc kend 0;
      fl ← get page_free_list;
      n ← kwalk (check_body first_free_page) fuel fl (0, 0);
      kassert (0 <? n.1) "nfree_basemem > 0" ;;
      kassert (0 <? n.2) "nfree_extmem > 0" ;;
      cprintf (" check_page_free_list() succeeded " +:+ nl) [] ;;
      mret tt
  end.

(** ** Walking the list *)

(** A walk with an invariant [I] of the pages seen so far; the body may change
    the links of pages that were passed. *)
Lemma kwalk_run {A} (body : A -> Z -> K A) (fl : list Z) (I : list Z -> A -> kstate -> Prop) rest : forall seen hd a s fuel,
  seen ++ rest = fl -> chain (pages s) hd rest -> (length rest <= fuel)%nat -> I seen a s ->
  (forall seen p rest a s, seen ++ p :: rest = fl -> chain (pages s) (Some p) (p :: rest) -> I seen a s ->
     exists a' s', body a p s = Ret a' s' /\ I (seen ++ [p]) a' s' /\ chain (pages s') (Some p) (p :: rest)) ->
  exists a' s', kwalk body fuel hd a s = Ret a' s' /\ I fl a' s'.
Proof.
  induction rest as [|p rest IH]; intros seen hd a s fuel Hfl Hc Hf HI Hb.
  - simpl in Hc. subst hd. rewrite app_nil_r in Hfl. subst seen. exists a, s. by destruct fuel.
  - destruct fuel as [|fuel]; simpl in Hf; [lia|]. pose proof (proj1 Hc) as ->.
    destruct (Hb seen p rest a s Hfl Hc HI) as (a1 & s1 & E & HI1 & _ & q & Hq & Hc1).
    destruct (IH (seen ++ [p]) (pp_link q) a1 s1 fuel) as (a2 & s2 & E2 & HI2); try done; [by rewrite <- app_assoc|lia|].
    exists a2, s2. split; [|done]. cbn [kwalk]. rewrite (bind_Ret _ _ _ _ _ E), bind_get, (pg_lookup _ _ _ Hq). done.
Qed.

(** Following the links from [hd] visits [l] and then holds [e]. *)
Fixpoint path (pgs : gmap Z PageInfo) (hd : option Z) (l : list Z) (e : option Z) : Prop :=
  match l with
  | [] => hd = e
  | x :: l' => hd = Some x /\ exists p, pgs !! x = Some p /\ path pgs (pp_link p) l' e
  end.

Lemma path_chain pgs hd l : path pgs hd l None <-> chain pgs hd l.
Proof.
  revert hd. induction l as [|x l IH]; intros hd; [done|]. cbn. split; intros (? & p & ? & ?); (split; [done|]); exists p; (split; [done|]); by apply IH.
Qed.

Lemma path_app pgs l l' e : forall hd m, path pgs hd l m -> path pgs m l' e -> path pgs hd (l ++ l') e.
Proof.
  induction l as [|x l IH]; intros hd m H1 H2; simpl in *; [by subst|]. destruct H1 as (? & p & ? & ?). split; [done|]. exists p. split; [done|]. by eapply IH.
Qed.

Lemma path_insert_ne pgs l e i p : i ∉ l -> forall hd, path pgs hd l e -> path (<[i := p]> pgs) hd l e.
Proof.
  induction l as [|x l IH]; intros Hi hd H; [done|]. apply not_elem_of_cons in Hi as [Hx Hi]. destruct H as (? & q & ? & ?).
  split; [done|]. exists q. rewrite lookup_insert_ne by done. split; [done|]. by apply IH.
Qed.

(** Redirecting the last link. *)
Lemma path_set_last pgs l x e e' r : x ∉ l -> forall hd, path pgs hd (l ++ [x]) e -> path (<[x := mkPageInfo e' r]> pgs) hd (l ++ [x]) e'.
Proof.
  induction l as [|y l IH]; intros Hx hd H; simpl in *.
  - destruct H as (? & p & ? & ?). split; [done|]. eexists. by rewrite lookup_insert_eq.
  - apply not_elem_of_cons in Hx as [Hy Hx]. destruct H as (? & q & ? & ?). split; [done|]. exists q. rewrite lookup_insert_ne by done. split; [done|]. by apply IH.
Qed.

(** ** Moving the low pages to the front *)

(** One of the two lists under construction: only its last link is open, and
    the tail pointer leads to it. *)
Record half (pgs : gmap Z PageInfo) (hd t : option Z) (l : list Z) : Prop := {
  hf_tail : t = list.last l;
  hf_path : l = [] \/ exists e, path pgs hd l e
}.

Record split_inv (s0 s : kstate) (c : halves) (l0 l1 : list Z) : Prop := {
  si_state : s = set_pages (pages s) s0;
  si_ref : pp_ref <$> pages s = pp_ref <$> pages s0;
  si_out : forall x, x ∉ l0 ++ l1 -> pages s !! x = pages s0 !! x;
  si_low : half (pages s) (pp1 c) (tp0 c) l0;
  si_high : half (pages s) (pp2 c) (tp1 c) l1;
  si_nodup : NoDup (l0 ++ l1)
}.

(** Writing through a tail pointer closes that list with the value written. *)
Lemma half_put pgs hd t l v :
  half pgs hd t l -> NoDup l ->
  match t with
  | None => l = []
  | Some x => x ∈ l /\ is_Some (pgs !! x) /\ (forall r, path (<[x := mkPageInfo v r]> pgs) hd l v)
  end.
Proof.
  intros [-> Hp] Hn. destruct l as [|x l] using rev_ind; [done|]. clear IHl. rewrite last_snoc.
  apply list.NoDup_app in Hn as (_ & Hx & _). assert (Hxl : x ∉ l) by (intros Hin; apply (Hx x Hin), list_elem_of_here).
  destruct Hp as [E|[e Hp]]; [by destruct l|]. split; [apply elem_of_app; right; apply list_elem_of_here|]. split; [|intros r; by eapply path_set_last].
  clear Hx Hxl. revert hd Hp. induction l as [|y l IH]; simpl; intros hd (_ & p & Hp & H); [done|]. by eapply IH.
Qed.

Lemma half_insert_ne pgs hd t l i p : i ∉ l -> half pgs hd t l -> half (<[i := p]> pgs) hd t l.
Proof. intros Hi [Ht [Hp|[e Hp]]]; constructor; try done; [by left|right]. exists e. by apply path_insert_ne. Qed.

Lemma ref_insert (pgs : gmap Z PageInfo) x v : is_Some (pgs !! x) ->
  pp_ref <$> <[x := mkPageInfo v (pp_ref (default (mkPageInfo None 0) (pgs !! x)))]> pgs = pp_ref <$> pgs.
Proof. intros [p Hp]. rewrite fmap_insert, Hp. simpl. apply insert_id. by rewrite lookup_fmap, Hp. Qed.

Lemma put_low_run s0 s c l0 l1 v :
  split_inv s0 s c l0 l1 ->
  exists c' s', put_tp false v c s = Ret c' s' /\ split_inv s0 s' c' l0 l1 /\ tp1 c' = tp1 c /\ pp2 c' = pp2 c /\
    path (pages s') (pp1 c') l0 v /\ (forall hd e, path (pages s) hd l1 e -> path (pages s') hd l1 e).
Proof.
  intros [S1 S2 S3 S4 S5 S6]. pose proof S6 as (N0 & N01 & N1)%list.NoDup_app. pose proof (half_put _ _ _ _ v S4 N0) as Hput.
  unfold put_tp. destruct (tp0 c) as [x|] eqn:Et.
  - destruct Hput as (Hx & Hs & Hp). exists c, (set_pp_link x v s). rewrite bind_modify. split; [done|]. split; [|split_and!; try done].
    + constructor; try done; cbn [pages set_pp_link set_pg set_pages].
      * by rewrite S1.
      * unfold pg. by rewrite ref_insert.
      * intros y Hy. rewrite lookup_insert_ne; [by apply S3|]. intros <-. apply Hy, elem_of_app. by left.
      * rewrite Et. constructor; [apply S4|]. right. eexists. apply Hp.
      * apply half_insert_ne; [by apply N01|done].
    + apply Hp.
    + intros hd e. apply path_insert_ne. by apply N01.
  - subst l0. eexists _, s. split; [done|]. split; [|done]. constructor; try done. constructor; [done|by left].
Qed.

Lemma put_high_run s0 s c l0 l1 v :
  split_inv s0 s c l0 l1 ->
  exists c' s', put_tp true v c s = Ret c' s' /\ split_inv s0 s' c' l0 l1 /\ tp0 c' = tp0 c /\ pp1 c' = pp1 c /\
    path (pages s') (pp2 c') l1 v /\ (forall hd e, path (pages s) hd l0 e -> path (pages s') hd l0 e).
Proof.
  intros [S1 S2 S3 S4 S5 S6]. pose proof S6 as (N0 & N01 & N1)%list.NoDup_app. pose proof (half_put _ _ _ _ v S5 N1) as Hput.
  unfold put_tp. destruct (tp1 c) as [x|] eqn:Et.
  - destruct Hput as (Hx & Hs & Hp). assert (Hx0 : x ∉ l0) by (intros Hin; by apply (N01 x)).
    exists c, (set_pp_link x v s). rewrite bind_modify. split; [done|]. split; [|split_and!; try done].
    + constructor; try done; cbn [pages set_pp_link set_pg set_pages].
      * by rewrite S1.
      * unfold pg. by rewrite ref_insert.
      * intros y Hy. rewrite lookup_insert_ne; [by apply S3|]. intros <-. apply Hy, elem_of_app. by right.
      * by apply half_insert_ne.
      * rewrite Et. constructor; [apply S5|]. right. eexists. apply Hp.
    + apply Hp.
    + intros hd e. by apply path_insert_ne.
  - subst l1. eexists _, s. split; [done|]. split; [|done]. constructor; try done. constructor; [done|by left].
Qed.

(** Appending a page to the list that was just closed with it. *)
Lemma half_snoc pgs hd l p : path pgs hd l (Some p) -> is_Some (pgs !! p) -> half pgs hd (Some p) (l ++ [p]).
Proof.
  intros H [q Hq]. constructor; [by rewrite last_snoc|]. right. exists (pp_link q). eapply path_app; [done|]. split; [done|]. by exists q.
Qed.

Definition low_page (p : Z) : Prop := p < 1024.

Lemma PDX_page p : 0 <= p < 65536 -> PDX (page2pa p) = p / 1024.
Proof. intros Hp. rewrite page2pa_small by lia. rewrite PDX_of_PGNUM by lia. by rewrite PGNUM_page. Qed.

Lemma page_type p : 0 <= p < 65536 -> (1 <=? PDX (page2pa p)) = negb (bool_decide (low_page p)).
Proof.
  intros Hp. rewrite PDX_page by done. unfold low_page. destruct (Z.leb_spec 1 (p / 1024)), (bool_decide_reflect (p < 1024)); try done.
  - rewrite Z.div_small in H by lia. lia.
  - assert (1 <= p / 1024) by (apply Z.div_le_lower_bound; lia). lia.
Qed.

Lemma split_body_run s0 s c l0 l1 p :
  split_inv s0 s c l0 l1 -> 0 <= p < 65536 -> p ∉ l0 ++ l1 -> is_Some (pages s0 !! p) ->
  exists c' s', split_body 1 c p s = Ret c' s' /\
    split_inv s0 s' c' (if bool_decide (low_page p) then l0 ++ [p] else l0) (if bool_decide (low_page p) then l1 else l1 ++ [p]) /\
    (forall x, x ∉ l0 ++ l1 -> pages s' !! x = pages s0 !! x).
Proof.
  intros S Hp Hnew Hd. unfold split_body. rewrite page_type by done. destruct (bool_decide (low_page p)); cbn [negb].
  - destruct (put_low_run s0 s c l0 l1 (Some p) S) as (c1 & s1 & E & [S1 S2 S3 S4 S5 S6] & _ & _ & Hpath & _).
    eexists _, s1. rewrite (bind_Ret _ _ _ _ _ E). split; [done|]. split; [|done]. pose proof (S3 p Hnew) as Ep.
    assert (Hperm : (l0 ++ [p]) ++ l1 ≡ₚ p :: l0 ++ l1) by (rewrite <- app_assoc; symmetry; apply Permutation_middle).
    constructor; try done.
    + intros x Hx. apply S3. intros Hin. apply Hx. rewrite Hperm. by apply list_elem_of_further.
    + apply half_snoc; [done|]. by rewrite Ep.
    + rewrite Hperm. by apply list.NoDup_cons.
  - destruct (put_high_run s0 s c l0 l1 (Some p) S) as (c1 & s1 & E & [S1 S2 S3 S4 S5 S6] & _ & _ & Hpath & _).
    eexists _, s1. rewrite (bind_Ret _ _ _ _ _ E). split; [done|]. split; [|done]. pose proof (S3 p Hnew) as Ep.
    assert (Hperm : l0 ++ l1 ++ [p] ≡ₚ p :: l0 ++ l1) by (rewrite app_assoc; symmetry; apply Permutation_cons_append).
    constructor; try done.
    + intros x Hx. apply S3. intros Hin. apply Hx. rewrite Hperm. by apply list_elem_of_further.
    + apply half_snoc; [done|]. by rewrite Ep.
    + rewrite Hperm. by apply list.NoDup_cons.
Qed.

(** The pages below 4 MB first, otherwise in the order of the list. *)
Definition low_first (fl : list Z) : list Z := filter low_page fl ++ filter (λ p, ~ low_page p) fl.

Lemma low_first_perm fl : low_first fl ≡ₚ fl.
Proof.
  unfold low_first. induction fl as [|p fl IH]; [done|]. rewrite !filter_cons. destruct (decide (low_page p)).
  - rewrite (decide_False (P := ~ low_page p)) by tauto. simpl. by f_equiv.
  - rewrite (decide_True (P := ~ low_page p)) by done. by rewrite <- Permutation_middle, IH.
Qed.

(** What changes the links only. *)
Definition links_only (s s' : kstate) : Prop :=
  pages_only s s' /\ pp_ref <$> pages s' = pp_ref <$> pages s.

Lemma pp_ref_pg s s' p : pp_ref <$> pages s' = pp_ref <$> pages s -> pp_ref (pg s' p) = pp_ref (pg s p).
Proof.
  intros E. assert (Ep : (pp_ref <$> pages s') !! p = (pp_ref <$> pages s) !! p) by (by rewrite E). rewrite !lookup_fmap in Ep.
  unfold pg. destruct (pages s' !! p), (pages s !! p); simpl in *; congruence.
Qed.

Lemma relinked s s' fl fl' :
  alloc_inv s fl -> links_only s s' -> fl' ≡ₚ fl -> chain (pages s') (page_free_list s') fl' ->
  (forall p, p ∉ fl -> pages s' !! p = pages s !! p) -> alloc_inv s' fl'.
Proof.
  intros H [E Er] Hp Hc Hout. assert (En : npages s' = npages s) by (by rewrite E). constructor.
  - rewrite En. apply (ai_np _ _ H).
  - intros p. rewrite En, <- (ai_dom _ _ H).
    assert (Ep : (pp_ref <$> pages s') !! p = (pp_ref <$> pages s) !! p) by (by rewrite Er). rewrite !lookup_fmap in Ep.
    destruct (pages s' !! p), (pages s !! p); simpl in Ep; try done; split; intros [? ?]; done.
  - done.
  - rewrite Hp. apply (ai_nodup _ _ H).
  - intros p Hin. rewrite (pp_ref_pg s s' p Er). apply (ai_free _ _ H). by rewrite <- Hp.
  - intros p Hin. rewrite Hp in Hin. unfold pg. rewrite Hout by done. by apply (ai_link _ _ H).
  - intros p. rewrite (pp_ref_pg s s' p Er). apply (ai_ref _ _ H).
Qed.

Lemma filter_snoc (P : Z -> Prop) `{!forall x, Decision (P x)} l p : filter P (l ++ [p]) = if bool_decide (P p) then filter P l ++ [p] else filter P l.
Proof. rewrite list.filter_app, filter_cons. case_bool_decide; case_decide; try done. apply app_nil_r. Qed.

Lemma low_first_sub seen p : p ∈ filter low_page seen ++ filter (λ p, ~ low_page p) seen -> p ∈ seen.
Proof. intros [H|H]%elem_of_app; by apply list_elem_of_filter in H as [_ ?]. Qed.

Lemma reorder_run s fl fuel :
  alloc_inv s fl -> (length fl <= fuel)%nat ->
  exists s', reorder fuel 1 s = Ret tt s' /\ alloc_inv s' (low_first fl) /\ links_only s s'.
Proof.
  intros H Hf. pose proof (ai_nodup _ _ H) as Hn. pose proof (ai_np _ _ H) as Hnp.
  destruct (kwalk_run (split_body 1) fl (λ seen c s1, split_inv s s1 c (filter low_page seen) (filter (λ p, ~ low_page p) seen))
    fl [] (page_free_list s) (mkHalves None None None None) s fuel) as (c & s1 & E & S); [done|apply (ai_chain _ _ H)|done| | |].
  { constructor; try done; [by destruct s|constructor; [done|by left]..|apply NoDup_nil_2]. }
  { intros seen p rest c s1 Efl Hc S. assert (Hin : p ∈ fl) by (rewrite <- Efl; apply elem_of_app; right; apply list_elem_of_here).
    pose proof (ai_in_range _ _ p H Hin) as Hr. rewrite <- Efl in Hn. apply list.NoDup_app in Hn as (_ & Hn & _).
    assert (Hout : forall x, x ∈ p :: rest -> x ∉ filter low_page seen ++ filter (λ p, ~ low_page p) seen).
    { intros x Hx Hx'. apply low_first_sub in Hx'. by apply (Hn x). }
    destruct (split_body_run s s1 c _ _ p S ltac:(lia) (Hout p (list_elem_of_here _ _)) ltac:(by apply (ai_dom _ _ H))) as (c' & s' & E & S' & Hx).
    exists c', s'. split; [done|]. split.
    - rewrite !filter_snoc. rewrite bool_decide_not. by destruct (bool_decide (low_page p)).
    - eapply chain_ext; [|exact Hc]. intros x q Hxin Hq. exists q. split; [|done]. rewrite Hx by (by apply Hout).
      rewrite <- (si_out _ _ _ _ _ S x) by (by apply Hout). done. }
  destruct (put_high_run s s1 c _ _ None S) as (c2 & s2 & E2 & S2 & Et & Ep & P2 & _).
  destruct (put_low_run s s2 c2 _ _ (pp2 c2) S2) as (c3 & s3 & E3 & S3 & _ & _ & P3 & Hkeep).
  exists (set_page_free_list (pp1 c3) s3). unfold reorder. rewrite bind_get, (bind_Ret _ _ _ _ _ E), (bind_Ret _ _ _ _ _ E2), (bind_Ret _ _ _ _ _ E3).
  assert (Hl : links_only s (set_page_free_list (pp1 c3) s3)).
  { split; [cbn; by rewrite (si_state _ _ _ _ _ S3)|apply (si_ref _ _ _ _ _ S3)]. }
  split; [done|]. split; [|done]. eapply relinked; [done|done|apply low_first_perm| |].
  - apply path_chain. eapply path_app; [exact P3|]. by apply Hkeep.
  - intros p Hp. apply (si_out _ _ _ _ _ S3). intros Hin. by apply Hp, low_first_sub.
Qed.

(** ** The walks after that *)

Lemma memset_page n : forall a c s p,
  0 <= p < 65536 -> n = O \/ KERNBASE + p * 4096 <= a /\ a + Z.of_nat n <= KERNBASE + p * 4096 + 4096 ->
  exists m, memset_bytes n a c s = Ret tt (set_mem m s) /\ forall q k, q <> p -> rdw m q k = rdw (mem s) q k.
Proof.
  induction n as [|n IH]; intros a c s p Hp Ha; [exists (mem s); split; [by destruct s|done]|].
  destruct Ha as [?|[Ha Hn]]; [done|]. cbn [memset_bytes].
  assert (E : exists v, store_byte a c s = Ret tt (set_mem (wrw (mem s) p (widx (a - KERNBASE)) v) s)).
  { unfold store_byte, kva2pa. destruct (Z.leb_spec KERNBASE a); [|lia]. eexists. unfold phys_write.
    assert (Epn : PGNUM (a - KERNBASE) = p); [|by rewrite Epn]. rewrite PGNUM_div. symmetry. apply (Z.div_unique _ _ _ (a - KERNBASE - p * 4096)); lia. }
  destruct E as [v E]. rewrite (bind_Ret _ _ _ _ _ E). set (s1 := set_mem _ s).
  destruct (IH (u32 (a + 1)) c s1 p Hp) as (m & E2 & Hm).
  { destruct n as [|n]; [by left|right]. rewrite u32_small by lia. lia. }
  exists m. split; [exact E2|]. intros q k Hq. rewrite Hm by done. apply rdw_wrw_ne. by left.
Qed.

Lemma chain_length s fl : alloc_inv s fl -> (length fl <= Z.to_nat (npages s))%nat.
Proof.
  intros H. pose proof (ai_np _ _ H). rewrite <- (length_seqZ 0 (npages s)). apply submseteq_length, NoDup_submseteq; [apply (ai_nodup _ _ H)|].
  intros p Hp. apply elem_of_seqZ. pose proof (ai_in_range _ _ p H Hp). lia.
Qed.

Lemma scribble_run s fl lim :
  alloc_inv s fl ->
  exists m, kwalk (scribble_body lim) (Z.to_nat (npages s)) (page_free_list s) tt s = Ret tt (set_mem m s) /\
    forall q k, q ∉ fl -> rdw m q k = rdw (mem s) q k.
Proof.
  intros H. pose proof (ai_np _ _ H) as Hnp.
  destruct (kwalk_run (scribble_body lim) fl (λ _ _ s1, exists m, s1 = set_mem m s /\ forall q k, q ∉ fl -> rdw m q k = rdw (mem s) q k)
    fl [] (page_free_list s) tt s (Z.to_nat (npages s))) as ([] & s' & E & m & -> & Hm); [done|apply (ai_chain _ _ H)|by apply chain_length| | |].
  { exists (mem s). split; [by destruct s|done]. }
  { intros seen p rest [] s1 Efl Hc (m & -> & Hm). unfold scribble_body.
    assert (Hin : p ∈ fl) by (rewrite <- Efl; apply elem_of_app; right; apply list_elem_of_here). pose proof (ai_in_range _ _ p H Hin) as Hr.
    destruct (_ <? lim).
    - destruct (memset_page 128 (kptr p 0) 0x97 (set_mem m s) p ltac:(lia)) as (m' & E & Hm'); [right; unfold kptr; lia|].
      exists tt, (set_mem m' (set_mem m s)). kstep by (apply page2kva_page; cbn [npages set_mem]; lia). split; [exact E|]. split; [|exact Hc].
      exists m'. split; [done|]. intros q k Hq. rewrite Hm' by (intros ->; done). by apply Hm.
    - exists tt, (set_mem m s). split; [done|]. split; [|exact Hc]. by exists m. }
  exists m. by split.
Qed.

(** A page that may be on the free list. *)
Definition may_be_free (first_free_page p : Z) : Prop :=
  p <> 0 /\ p <> 7 /\ p <> 160 /\ p <> 255 /\ p <> 256 /\ (256 <= p -> first_free_page <= kptr p 0).

Lemma check_body_run s ff n p :
  0 <= p < npages s -> npages s <= 65536 -> may_be_free ff p ->
  check_body ff n p s = Ret (if p <? 256 then (n.1 + 1, n.2) else (n.1, n.2 + 1)) s.
Proof.
  intros Hp Hnp (H0 & H7 & H160 & H255 & H256 & Hff). unfold check_body, kassert. rewrite bind_get.
  destruct (Z.leb_spec 0 p); [|lia]. destruct (Z.ltb_spec p (npages s)); [|lia]. rewrite Z.mod_mul by lia. rewrite page2pa_small by lia.
  destruct (Z.eqb_spec (p * 4096) 0); [lia|]. destruct (Z.eqb_spec (p * 4096) IOPHYSMEM); [lia|].
  destruct (Z.eqb_spec (p * 4096) (EXTPHYSMEM - PGSIZE)); [lia|]. destruct (Z.eqb_spec (p * 4096) EXTPHYSMEM); [lia|].
  destruct (Z.eqb_spec (p * 4096) MPENTRY_PADDR); [lia|]. change (0 =? 0) with true. cbn [negb]. rewrite !bind_mret.
  destruct (Z.ltb_spec (p * 4096) EXTPHYSMEM), (Z.ltb_spec p 256); try lia; rewrite ?bind_mret; [done|].
  rewrite bind_assoc. kstep by (by apply page2kva_page). destruct (Z.leb_spec ff (kptr p 0)); [|lia]. by rewrite !bind_mret.
Qed.

Lemma check_run s fl ff :
  alloc_inv s fl -> (forall p, p ∈ fl -> may_be_free ff p) ->
  kwalk (check_body ff) (Z.to_nat (npages s)) (page_free_list s) (0, 0) s =
    Ret (Z.of_nat (length (filter (λ p, p < 256) fl)), Z.of_nat (length (filter (λ p, 256 <= p) fl))) s.
Proof.
  intros H Hok. pose proof (ai_np _ _ H) as Hnp.
  destruct (kwalk_run (check_body ff) fl (λ seen n s1, s1 = s /\ n = (Z.of_nat (length (filter (λ p, p < 256) seen)), Z.of_nat (length (filter (λ p, 256 <= p) seen))))
    fl [] (page_free_list s) (0, 0) s (Z.to_nat (npages s))) as (n & s' & E & -> & ->); [done|apply (ai_chain _ _ H)|by apply chain_length|done| |done].
  intros seen p rest n s1 Efl Hc [-> ->]. assert (Hin : p ∈ fl) by (rewrite <- Efl; apply elem_of_app; right; apply list_elem_of_here).
  eexists _, s. rewrite check_body_run by (try apply (ai_in_range _ _ p H Hin); try apply Hok; done || lia).
  split; [done|]. split; [|done]. split; [done|]. rewrite !filter_snoc. do 2 case_bool_decide; destruct (Z.ltb_spec p 256); try lia;
    rewrite length_app; simpl; f_equal; lia.
Qed.

(** The check succeeds when no page in use is on the list, and base and
    extended memory both have free pages; it leaves a list with the same pages. *)
Lemma check_page_free_list_run s fl kend low :
  alloc_inv s fl -> nextfree s <> 0 -> (forall p, p ∈ fl -> may_be_free (nextfree s) p) ->
  (exists p, p ∈ fl /\ p < 256) -> (exists p, p ∈ fl /\ 256 <= p) ->
  exists s1 m c, check_page_free_list kend low s = Ret tt (set_cons c (set_mem m s1)) /\ links_only s s1 /\
    alloc_inv s1 (if low then low_first fl else fl) /\ forall q k, q ∉ fl -> rdw m q k = rdw (mem s) q k.
Proof.
  intros H Hnf Hok [b [Hb Hb']] [x [Hx Hx']].
  assert (H1 : exists s1, (if low then reorder (Z.to_nat (npages s)) 1 else mret tt) s = Ret tt s1 /\ links_only s s1 /\
    alloc_inv s1 (if low then low_first fl else fl)).
  { destruct low; [|exists s; split; [done|]; split; [|done]; split; [by destruct s|done]].
    destruct (reorder_run s fl (Z.to_nat (npages s)) H (chain_length s fl H)) as (s1 & E & Ha & Hl). by exists s1. }
  destruct H1 as (s1 & E1 & L1 & A1). set (fl1 := if low then low_first fl else fl) in *.
  assert (Hperm : fl1 ≡ₚ fl) by (unfold fl1; destruct low; [apply low_first_perm|done]).
  assert (En : npages s1 = npages s) by (by rewrite (proj1 L1)). assert (Enf : nextfree s1 = nextfree s) by (by rewrite (proj1 L1)).
  assert (Em : mem s1 = mem s) by (by rewrite (proj1 L1)).
  destruct (scribble_run s1 fl1 (if low then 1 else NPDENTRIES) A1) as (m & E2 & Hm).
  assert (A2 : alloc_inv (set_mem m s1) fl1) by (by eapply alloc_inv_frame; [..|exact A1]).
  pose proof (check_run (set_mem m s1) fl1 (nextfree s) A2) as E3.
  destruct (cprintf_run (" check_page_free_list() succeeded " +:+ nl) [] (set_mem m s1)) as (c & E4); [reflexivity|].
  exists s1, m, c. split; [|split; [done|split; [done|]]].
  2:{ intros q k Hq. rewrite Hm, Em; [done|]. by rewrite Hperm. }
  assert (Hc : forall P (y : Z) `{!forall x, Decision (P x)}, y ∈ fl -> P y -> 0 < Z.of_nat (length (filter P fl1))).
  { intros P y Hd Hy HP. assert (Hin : y ∈ filter P fl1) by (apply list_elem_of_filter; split; [done|by rewrite Hperm]).
    destruct (filter P fl1); [by apply elem_of_nil in Hin|simpl; lia]. }
  unfold check_page_free_list. rewrite bind_get, bind_get. destruct (page_free_list s) as [h|] eqn:Eh.
  2:{ pose proof (ai_chain _ _ H) as Hch. rewrite Eh in Hch. destruct fl; [by apply elem_of_nil in Hb|by destruct Hch]. }
  assert (E1' : (if low then reorder (Z.to_nat (npages s)) (if low then 1 else NPDENTRIES) else mret tt) s = Ret tt s1) by (by destruct low).
  rewrite (bind_Ret _ _ _ _ _ E1'), bind_get. rewrite En in E2. rewrite (bind_Ret _ _ _ _ _ E2).
  assert (Eb : boot_alloc kend 0 (set_mem m s1) = Ret (nextfree s) (set_mem m s1)).
  { unfold boot_alloc. rewrite bind_get. cbn [nextfree set_mem]. rewrite Enf. destruct (Z.eqb_spec (nextfree s) 0); [done|].
    rewrite bind_mret, bind_get. cbn [nextfree set_mem]. by rewrite Enf. }
  rewrite (bind_Ret _ _ _ _ _ Eb), bind_get. cbn [npages set_mem] in E3. rewrite En in E3.
  rewrite (bind_Ret _ _ _ _ _ (E3 ltac:(intros p Hp; apply Hok; by rewrite <- Hperm))). cbn [fst snd]. unfold kassert.
  pose proof (Hc (λ p, p < 256) b _ Hb Hb') as C1. pose proof (Hc (λ p, 256 <= p) x _ Hx Hx') as C2. cbn beta in C1, C2.
  apply Z.ltb_lt in C1, C2. rewrite C1, C2, !bind_mret, (bind_Ret _ _ _ _ _ E4). done.
Qed.
