(* ===== verification/VmSpec.v ===== *)
(** * What the page-mapping routines promise

    The contract of [page_insert], [page_remove], [page_lookup] and
    [check_va2pa] of [kern/pmap.c]: an abstract address space is a partial map
    from a page directory and a virtual page number to a page table entry, and
    the routines implement its update, deletion and lookup, keeping the
    reference counts exact. Also the corners the routines do not cover: a
    missing page table and a full reference counter. *)

From S2P Require Import Prelude Mmu Machine PageAlloc PageTable Vm.

(** ** Abstract address spaces *)

Definition aspace : Type := Z -> Z -> option Z.

Definition view (s : kstate) : aspace := vmap (mem s).

Definition as_update (A : aspace) (d v : Z) (o : option Z) : aspace :=
  λ d' v', if decide ((d', v') = (d, v)) then o else A d' v'.

(** Equal on the user part of the directories [ds]. *)
Definition as_equiv (ds : list Z) (A B : aspace) : Prop :=
  forall d v, d ∈ ds -> 0 <= v < NUVPN -> A d v = B d v.

#[export] Instance as_equiv_equivalence ds : Equivalence (as_equiv ds).
Proof.
  split.
  - by intros A d v.
  - intros A B H d v Hd Hv. by rewrite H.
  - intros A B C H1 H2 d v Hd Hv. by rewrite H1, H2.
Qed.

#[export] Instance as_update_proper ds :
  Proper (as_equiv ds ==> eq ==> eq ==> eq ==> as_equiv ds) as_update.
Proof.
  intros A B H d ? <- v ? <- o ? <- d' v' Hd Hv. unfold as_update.
  case_decide; [done|by apply H].
Qed.

Lemma as_update_intro ds A B d v o :
  A d v = o ->
  (forall d' v', d' ∈ ds -> 0 <= v' < NUVPN -> (d', v') <> (d, v) -> A d' v' = B d' v') ->
  as_equiv ds A (as_update B d v o).
Proof.
  intros He Ho d' v' Hd Hv. unfold as_update. case_decide as E; [|by apply Ho].
  by injection E as -> ->.
Qed.

(** The last write wins, and writes of different pages commute. *)
Lemma as_update_twice A d v o o' ds :
  as_equiv ds (as_update (as_update A d v o) d v o') (as_update A d v o').
Proof. intros d' v' _ _. unfold as_update. by case_decide. Qed.

Lemma view_update_get ds s A d v o :
  as_equiv ds (view s) (as_update A d v o) -> d ∈ ds -> 0 <= v < NUVPN -> vmap (mem s) d v = o.
Proof. intros H Hd Hv. unfold view in H. rewrite H by done. unfold as_update. by rewrite decide_True. Qed.

Lemma vmap_pt_page m d v e : vmap m d v = Some e -> exists t, pt_page m d v = Some t.
Proof. unfold vmap. destruct (pt_page m d v); [eauto|done]. Qed.

(** ** The routines over the invariant *)

Section Contract.
  Context {s : kstate} {ds fl : list Z} {kref : Z -> Z}.
  Hypothesis Hinv : vm_inv s ds fl kref.
  Context {d va : Z}.
  Hypothesis Hd : d ∈ ds.
  Hypothesis Hva : uva va.

Lemma contract_insert pp perm :
    0 <= pp < npages s -> pp ∉ fl -> plain (mem s) ds pp -> pp_ref (pg s pp) < 65535 ->
    0 <= perm < 4096 ->
    (pt_page (mem s) d (PGNUM va) = None /\ fl = [] /\
     page_insert (kptr d 0) pp va perm s = Ret (- E_NO_MEM) s) \/
    exists s' fl', page_insert (kptr d 0) pp va perm s = Ret 0 s' /\
      vm_inv s' ds fl' kref /\ vm_frame s s' /\ mem_frame ds fl (mem s) (mem s') /\
      as_equiv ds (view s') (as_update (view s) d (PGNUM va) (Some (pte_value pp perm))).
  Proof using Hinv Hd Hva.
    intros Hp Hfl Hpl Hr Hperm.
    destruct (page_insert_spec s ds fl kref d va pp perm) as [H|H]; try done; [by left|right].
    destruct H as (s' & fl' & He & Hi & Hf & Hm & Ho & Hmf). exists s', fl'.
    split_and!; try done. by apply as_update_intro.
  Qed.

Lemma contract_remove :
    is_Some (pt_page (mem s) d (PGNUM va)) ->
    exists s', page_remove (kptr d 0) va s = Ret tt s' /\
      vm_inv s' ds (match vmap (mem s) d (PGNUM va) with
                    | Some e => decref_free (PGNUM e) s fl
                    | None => fl end) kref /\ vm_frame s s' /\ mem_frame ds fl (mem s) (mem s') /\
      as_equiv ds (view s') (as_update (view s) d (PGNUM va) None).
  Proof using Hinv Hd Hva.
    intros [t Ht]. destruct (vmap (mem s) d (PGNUM va)) as [e|] eqn:He.
    - destruct (page_remove_mapped Hinv Hd Hva t e Ht He) as (H1 & H2 & H3 & H4).
      eexists. split; [exact H1|]. split; [exact H2|]. split; [exact H4|].
      split; [rewrite H3; apply (mem_frame_table Hinv d (PGNUM va) t); try done; by apply uva_vpn|].
      apply as_update_intro; unfold view; rewrite H3.
      + by rewrite (vmap_wrw_same Hinv d (PGNUM va) t) by (done || by apply uva_vpn).
      + intros d' v' Hd' Hv' Hne. apply (vmap_wrw_other Hinv d (PGNUM va) t); try done. by apply uva_vpn.
    - exists s. split; [by eapply page_remove_unmapped|]. split; [done|]. split; [done|]. split; [done|].
      apply as_update_intro; done.
  Qed.

End Contract.

(** [check_va2pa] walks the tables in software: it agrees with [vmap]. *)
Lemma check_va2pa_walk s d va :
  walkable s d (PGNUM va) -> va_ok va ->
  check_va2pa (kptr d 0) va s =
    Ret (match vmap (mem s) d (PGNUM va) with Some e => PTE_ADDR e | None => 0xFFFFFFFF end) s.
Proof.
  intros (Hd & Hnp & Hw) Hva. destruct (pde_ptr d va Hva ltac:(lia)) as [Hpde Hi].
  pose proof (Z.mod_pos_bound (PGNUM va) 1024 ltac:(lia)).
  unfold check_va2pa. rewrite Hpde. kstep by (apply load_kptr; lia).
  unfold vmap. destruct (pt_page (mem s) d (PGNUM va)) as [t|] eqn:Ht.
  - unfold pt_page in Ht. destruct (hasbits _ PTE_P) eqn:Hp in Ht; [|done].
    injection Ht as Ht. rewrite Hp. cbn [negb].
    rewrite PTE_ADDR_eq, <- PGNUM_div, Ht. kstep by (apply KADDR_page; lia).
    rewrite pte_ptr by lia. kstep by (apply load_kptr; lia).
    destruct (hasbits (rdw _ t _) PTE_P); [|done]. cbn [negb]. kstep by (apply load_kptr; lia). done.
  - rewrite Hw. done.
Qed.

(** ** Samples *)

(** The machine after [page_init], with the largest possible count on page
    256, which the kernel's image occupies. *)
Definition vm_base : kstate := set_pp_ref 256 65535 page_sample.

Lemma vm_base_inv : alloc_inv vm_base page_sample_free.
Proof.
  apply alloc_inv_set_ref; [exact page_sample_inv|split; vm_compute; congruence| |lia].
  apply (bool_decide_unpack _). vm_compute. exact I.
Qed.

(** An environment's directory at page 279, and page 278 allocated. *)
Definition vm_sample : kstate := alloc_state 0 278 (empty_dir 279 vm_base).
Definition vm_sample_free : list Z := tl (tl page_sample_free).
Definition vm_sample_kref (p : Z) : Z := pp_ref (pg vm_base p).

Lemma vm_sample_facts :
  vm_inv vm_sample [279] vm_sample_free vm_sample_kref /\ 278 ∉ vm_sample_free /\
  plain (mem vm_sample) [279] 278 /\ pp_ref (pg vm_sample 278) < 65535 /\
  0 <= 278 < npages vm_sample.
Proof.
  pose proof (vm_inv_nil _ _ vm_base_inv) as H0.
  replace page_sample_free with (279 :: 278 :: vm_sample_free) in H0 by (vm_compute; reflexivity).
  apply vm_empty_dir in H0.
  destruct (vm_page_alloc _ _ _ _ 0 278 H0) as (_ & H1 & _ & H2 & _ & H3 & H4).
  split; [exact H1|]. split; [exact H2|]. split; [exact H3|]. clear H1 H2 H3.
  split; [unfold vm_sample; rewrite H4; reflexivity|].
  split; vm_compute; [discriminate|reflexivity].
Qed.

(** The same with page 278 mapped at 0x400000. *)
Definition vm_sample2 : kstate :=
  match page_insert (kptr 279 0) 278 0x400000 7 vm_sample with Ret _ s => s | Exit _ s => s end.

Lemma vm_sample2_facts :
  exists fl, vm_inv vm_sample2 [279] fl vm_sample_kref /\
    vmap (mem vm_sample2) 279 (PGNUM 0x400000) = Some (pte_value 278 7).
Proof.
  destruct vm_sample_facts as (H1 & H2 & H3 & H4 & H5).
  destruct (contract_insert H1 (d := 279) (va := 0x400000) (list_elem_of_here 279 [])
              ltac:(done) 278 7 H5 H2 H3 H4 ltac:(done)) as [(_ & Hn & _)|(s' & fl' & He & Hi & _ & _ & Hv)].
  - vm_compute in Hn. discriminate Hn.
  - unfold vm_sample2. rewrite He. exists fl'. split; [exact Hi|].

    eapply view_update_get; [exact Hv|exact (list_elem_of_here 279 [])|done].
Qed.

Lemma vm_sample_uva : uva 0x400000 /\ uva 0x800000.
Proof. done. Qed.

(** ** Properties *)

(** C1: [page_insert] implements the update of an abstract address space.
    When a page table is needed and no page is free it returns [-E_NO_MEM] and
    changes nothing. Otherwise it returns 0; exactly the mapping of [va]
    changes, to the frame [pp] with [perm | PTE_P]; no contents of an
    allocated page outside the tables and no kernel entry of a directory change;
    and the reference counts stay exact, whether [va] was unmapped, mapped to another page or mapped to
    [pp] itself. *)
Theorem page_insert_refines s ds fl kref d va pp perm :
  vm_inv s ds fl kref -> d ∈ ds -> uva va ->
  0 <= pp < npages s -> pp ∉ fl -> plain (mem s) ds pp -> pp_ref (pg s pp) < 65535 ->
  0 <= perm < 4096 ->
  (pt_page (mem s) d (PGNUM va) = None /\ fl = [] /\
   page_insert (kptr d 0) pp va perm s = Ret (- E_NO_MEM) s) \/
  exists s' fl', page_insert (kptr d 0) pp va perm s = Ret 0 s' /\
    vm_inv s' ds fl' kref /\ vm_frame s s' /\ mem_frame ds fl (mem s) (mem s') /\
    as_equiv ds (view s') (as_update (view s) d (PGNUM va) (Some (pte_value pp perm))).
Proof. intros. by apply contract_insert. Qed.

Lemma page_insert_refines_witness :
  exists s' fl', page_insert (kptr 279 0) 278 0x400000 7 vm_sample = Ret 0 s' /\
    vm_inv s' [279] fl' vm_sample_kref /\
    vmap (mem s') 279 (PGNUM 0x400000) = Some (pte_value 278 7).
Proof.
  destruct vm_sample_facts as (H1 & H2 & H3 & H4 & H5).
  destruct (page_insert_refines vm_sample [279] vm_sample_free vm_sample_kref 279 0x400000 278 7
              H1 (list_elem_of_here 279 []) ltac:(done) H5 H2 H3 H4 ltac:(done))
    as [(_ & Hn & _)|(s' & fl' & He & Hi & _ & _ & Hv)].
  - vm_compute in Hn. discriminate Hn.
  - exists s', fl'. split; [exact He|]. split; [exact Hi|].
    eapply view_update_get; [exact Hv|exact (list_elem_of_here 279 [])|done].
Defined.

(** C2: [page_remove] implements deletion: when the page table of [va] exists
    the mapping of [va] goes, no other mapping changes, the reference counts
    stay exact, and the page goes back to the free list exactly when this was
    its last reference. *)
Theorem page_remove_refines s ds fl kref d va :
  vm_inv s ds fl kref -> d ∈ ds -> uva va -> is_Some (pt_page (mem s) d (PGNUM va)) ->
  exists s', page_remove (kptr d 0) va s = Ret tt s' /\
    vm_inv s' ds (match vmap (mem s) d (PGNUM va) with
                  | Some e => if pp_ref (pg s (PGNUM e)) =? 1 then PGNUM e :: fl else fl
                  | None => fl end) kref /\ vm_frame s s' /\ mem_frame ds fl (mem s) (mem s') /\
    as_equiv ds (view s') (as_update (view s) d (PGNUM va) None).
Proof. intros. by apply contract_remove. Qed.

Lemma page_remove_refines_witness :
  exists s', page_remove (kptr 279 0) 0x400000 vm_sample2 = Ret tt s' /\
    vmap (mem s') 279 (PGNUM 0x400000) = None.
Proof.
  destruct vm_sample2_facts as (fl & Hi & Hv).
  destruct (page_remove_refines vm_sample2 [279] fl vm_sample_kref 279 0x400000 Hi
              (list_elem_of_here 279 []) (proj1 vm_sample_uva) (vmap_pt_page _ _ _ _ Hv))
    as (s' & He & _ & _ & _ & Hu).
  exists s'. split; [exact He|].
  eapply view_update_get; [exact Hu|exact (list_elem_of_here 279 [])|exact (uva_vpn _ (proj1 vm_sample_uva))].
Defined.

(** What [page_insert] put at [va] is what [page_lookup] finds there, and
    after [page_remove] it finds nothing. *)
Theorem page_insert_lookup_remove s ds fl kref d va pp perm s1 :
  vm_inv s ds fl kref -> d ∈ ds -> uva va ->
  0 <= pp < npages s -> pp ∉ fl -> plain (mem s) ds pp -> pp_ref (pg s pp) < 65535 ->
  0 <= perm < 4096 ->
  page_insert (kptr d 0) pp va perm s = Ret 0 s1 ->
  (exists pte, page_lookup (kptr d 0) va s1 = Ret (Some (pp, pte)) s1 /\
     load pte s1 = Ret (pte_value pp perm) s1) /\
  exists s2, page_remove (kptr d 0) va s1 = Ret tt s2 /\ page_lookup (kptr d 0) va s2 = Ret None s2.
Proof.
  intros Hi Hd Hva Hpp Hfl Hpl Hr Hpm He.
  destruct (contract_insert Hi Hd Hva pp perm) as [(_ & _ & He')|(s' & fl' & He' & Hi1 & Hf & _ & Hv)];
    [done..|by rewrite He in He'|].
  rewrite He in He'. injection He' as <-. pose proof (uva_vpn va Hva) as Hvp.
  pose proof (view_update_get _ _ _ _ _ _ Hv Hd Hvp) as Hm.
  destruct (vmap_pt_page _ _ _ _ Hm) as [t Ht].
  pose proof (vm_walkable Hi1 d _ Hd Hvp) as Hw. pose proof Hw as (_ & Hnp & Hw'). rewrite Ht in Hw'.
  split.
  - exists (kptr t (PGNUM va mod 1024)). split.
    + erewrite page_lookup_present; [|done|by apply uva_ok|done|done|];
        rewrite PGNUM_pte_value by done; [done|]. rewrite (vf_npages _ _ Hf). done.
    + rewrite load_kptr by (try apply Z.mod_pos_bound; lia).
      unfold vmap in Hm. rewrite Ht in Hm. destruct (hasbits _ _) in Hm; [|done]. by injection Hm as ->.
  - destruct (contract_remove Hi1 Hd Hva (ex_intro _ t Ht)) as (s2 & Hrm & Hi2 & Hf2 & _ & Hv2).
    exists s2. split; [done|]. pose proof (view_update_get _ _ _ _ _ _ Hv2 Hd Hvp) as Hm2.
    destruct (page_remove_mapped Hi1 Hd Hva t _ Ht Hm) as (Hrm' & _ & Hmem & _).
    rewrite Hrm in Hrm'. injection Hrm' as ->.
    eapply (page_lookup_not_present _ _ _ t); [by eapply vm_walkable|by apply uva_ok| |done].
    rewrite Hmem, (pt_page_wrw_table Hi1 d (PGNUM va) t) by done. done.
Qed.

Lemma page_insert_lookup_remove_witness :
  exists s1 s2, page_insert (kptr 279 0) 278 0x400000 7 vm_sample = Ret 0 s1 /\
    page_remove (kptr 279 0) 0x400000 s1 = Ret tt s2 /\
    page_lookup (kptr 279 0) 0x400000 s2 = Ret None s2.
Proof.
  destruct vm_sample_facts as (H1 & H2 & H3 & H4 & H5).
  destruct (ret_val_Ret (page_insert (kptr 279 0) 278 0x400000 7 vm_sample) 0) as [s1 He];
    [vm_compute; reflexivity|].
  destruct (page_insert_lookup_remove vm_sample [279] vm_sample_free vm_sample_kref 279 0x400000 278 7 s1
              H1 (list_elem_of_here 279 []) ltac:(done) H5 H2 H3 H4 ltac:(done) He) as (_ & s2 & Hs2).
  exists s1, s2. split; [exact He|exact Hs2].
Defined.

(** [page_lookup] reads the entry before it tests the pointer, so looking
    up or removing an address whose page table does not exist faults in the
    kernel, although the documented result is NULL and no effect. *)
Theorem page_remove_no_table_faults s ds fl kref d va :
  vm_inv s ds fl kref -> d ∈ ds -> uva va -> pt_page (mem s) d (PGNUM va) = None ->
  mmu_walk s (cpu_cr3 (thiscpu s)) 0 false = None ->
  page_lookup (kptr d 0) va s = Exit (Panic " a page fault in the kernel") s /\
  page_remove (kptr d 0) va s = Exit (Panic " a page fault in the kernel") s.
Proof.
  intros Hi Hd Hva Ht Hc. pose proof (uva_ok va Hva).
  pose proof (vm_walkable Hi d _ Hd (uva_vpn va Hva)) as Hw.
  pose proof (page_lookup_null _ _ _ Hw ltac:(done) Ht) as Hl. rewrite Hc in Hl.
  split; [done|]. unfold page_remove. by apply bind_Exit.
Qed.

Lemma page_remove_no_table_faults_witness :
  page_remove (kptr 279 0) 0x800000 vm_sample2 = Exit (Panic " a page fault in the kernel") vm_sample2.
Proof.
  destruct vm_sample2_facts as (fl & Hi & Hv).
  apply (page_remove_no_table_faults vm_sample2 [279] fl vm_sample_kref 279 0x800000 Hi
              (list_elem_of_here 279 [])); [exact (proj2 vm_sample_uva)|vm_compute; reflexivity|vm_compute; reflexivity].
Defined.

(** Reference counts are 16 bits wide and [page_insert] does not test
    them: mapping a page that has 65535 references succeeds and leaves it
    mapped with a count of zero. *)
Theorem page_insert_ref_wraps s ds fl kref d va pp perm :
  vm_inv s ds fl kref -> d ∈ ds -> uva va -> 0 <= pp < npages s -> 0 <= perm < 4096 ->
  is_Some (pt_page (mem s) d (PGNUM va)) -> vmap (mem s) d (PGNUM va) = None ->
  pp_ref (pg s pp) = 65535 ->
  exists s', page_insert (kptr d 0) pp va perm s = Ret 0 s' /\
    pp_ref (pg s' pp) = 0 /\ vmap (mem s') d (PGNUM va) = Some (pte_value pp perm).
Proof.
  intros Hi Hd Hva Hpp Hpm [t Ht] Hn Hr. pose proof (uva_vpn va Hva) as Hvp.
  pose proof (vm_walkable Hi d _ Hd Hvp) as Hw. pose proof Hw as (_ & Hnp & Ht').
  rewrite Ht in Ht'. pose proof (Z.mod_pos_bound (PGNUM va) 1024 ltac:(lia)).
  pose proof (uva_ok va Hva). unfold page_insert.
  kstep by (by apply pgdir_walk_present). rewrite kptr_nonnull by lia.
  rewrite bind_modify, Hr. change (u16 (65535 + 1)) with 0.
  kstep by (apply load_kptr; simpl; lia). simpl.
  pose proof Hn as Hn'. unfold vmap in Hn'. rewrite Ht in Hn'.
  destruct (hasbits (rdw _ t _) _) in Hn' |- *; [done|]. rewrite bind_mret.
  kstep by (apply store_kptr; simpl; lia). eexists. split; [done|].
  rewrite pte_value_eq by lia. simpl. split.
  - unfold pg, set_mem. simpl. by rewrite lookup_insert_eq.
  - rewrite (vmap_wrw_same Hi d (PGNUM va) t) by done. by rewrite pte_value_P.
Qed.

Lemma page_insert_ref_wraps_witness :
  exists s', page_insert (kptr 279 0) 256 0x401000 5 vm_sample2 = Ret 0 s' /\
    pp_ref (pg s' 256) = 0 /\ vmap (mem s') 279 (PGNUM 0x401000) = Some (pte_value 256 5).
Proof.
  destruct vm_sample2_facts as (fl & Hi & _).
  apply (page_insert_ref_wraps vm_sample2 [279] fl vm_sample_kref 279 0x401000 256 5 Hi
           (list_elem_of_here 279 []));
    [split; vm_compute; congruence..|eexists; vm_compute; reflexivity|vm_compute; reflexivity|
     vm_compute; reflexivity].
Defined.
