(* ===== verification/UserMem.v ===== *)
(** * Checking the memory a user program names

    [user_mem_check] of [kern/pmap.c] against its contract: below [ULIM], every
    page of the range has an entry with the permissions asked for. Where the
    range wraps around the end of the address space the contract fails. *)

From S2P Require Import Prelude Mmu Machine PageAlloc PageTable Vm VmSpec.

(** The first [n] pages of the directory at page [d] can be walked. *)
Definition walkable_to (s : kstate) (d n : Z) : Prop := forall v, 0 <= v < n -> walkable s d v.

(** The page of address [a] is below [ULIM] and its entry has all of [perm]. *)
Definition user_ok (s : kstate) (d perm a : Z) : bool :=
  (a <? ULIM) &&
  match pt_page (mem s) d (PGNUM a) with
  | Some t => rdw (mem s) t (PGNUM a mod 1024) .& perm =? perm
  | None => false
  end.

Lemma user_ok_page s d perm a b :
  a / 4096 = b / 4096 -> user_ok s d perm a = user_ok s d perm b.
Proof.
  intros H. unfold user_ok. rewrite !PGNUM_div, H. f_equal.
  destruct (Z.ltb_spec a ULIM), (Z.ltb_spec b ULIM); try done; exfalso;
    pose proof (Z.div_mod a 4096); pose proof (Z.div_mod b 4096);
    pose proof (Z.mod_pos_bound a 4096); pose proof (Z.mod_pos_bound b 4096); lia.
Qed.

Section UserMem.
  Context (s : kstate) (d top : Z) (Hw : walkable_to s d top).
  Context (va va_r perm : Z).

(** One iteration of the loop. *)
Lemma user_mem_loop_step n i :
    va_ok i -> i < top * 4096 ->
    user_mem_loop (S n) (kptr d 0) va va_r i perm s =
      if user_ok s d perm i then user_mem_loop n (kptr d 0) va va_r (u32 (i + PGSIZE)) perm s
      else Ret (- E_FAULT) (set_user_mem_check_addr (if i =? va_r then va else i) s).
  Proof using Hw.
    intros Hi Hit.
    assert (Hr : 0 <= PGNUM i < top).
    { split; [apply (PGNUM_bound i Hi)|]. rewrite PGNUM_div. apply Z.div_lt_upper_bound; lia. }
    pose proof (Hw _ Hr) as Hwi. cbn [user_mem_loop]. unfold user_ok.
    pose proof (Z.mod_pos_bound (PGNUM i) 1024 ltac:(lia)).
    rewrite (Z.leb_antisym i ULIM). destruct (pt_page (mem s) d (PGNUM i)) as [t|] eqn:Ht.
    - kstep by (by apply pgdir_walk_present). pose proof Hwi as (_ & ? & Ht'). rewrite Ht in Ht'.
      rewrite kptr_nonnull by lia. rewrite orb_false_r.
      destruct (i <? ULIM); cbn [negb andb]; [|done].
      kstep by (apply load_kptr; lia). by destruct (_ =? perm).
    - kstep by (by apply pgdir_walk_absent). by rewrite orb_true_r, andb_false_r.
  Qed.

Lemma user_mem_loop_spec n : forall i,
    0 <= i -> i + PGSIZE * Z.of_nat n < 4294967296 -> i + PGSIZE * Z.of_nat n <= top * 4096 ->
    ((forall k, 0 <= k < Z.of_nat n -> user_ok s d perm (i + PGSIZE * k) = true) /\
     user_mem_loop n (kptr d 0) va va_r i perm s = Ret 0 s) \/
    exists k, 0 <= k < Z.of_nat n /\
      (forall j, 0 <= j < k -> user_ok s d perm (i + PGSIZE * j) = true) /\
      user_ok s d perm (i + PGSIZE * k) = false /\
      user_mem_loop n (kptr d 0) va va_r i perm s =
        Ret (- E_FAULT)
          (set_user_mem_check_addr (if i + PGSIZE * k =? va_r then va else i + PGSIZE * k) s).
  Proof using Hw.
    induction n as [|n IH]; intros i Hi Hb Ht; [left; split; [lia|done]|].
    rewrite user_mem_loop_step by (lia || split; lia).
    destruct (user_ok s d perm i) eqn:Hok.
    - rewrite u32_small by lia.
      destruct (IH (i + PGSIZE)) as [[Ha He]|(k & Hk & Hj & Hbad & He)]; [lia..| |].
      + left. split; [|done]. intros k Hk. destruct (decide (k = 0)) as [->|].
        * by rewrite Z.mul_0_r, Z.add_0_r.
        * replace (i + PGSIZE * k) with (i + PGSIZE + PGSIZE * (k - 1)) by lia. apply Ha. lia.
      + right. exists (k + 1). replace (i + PGSIZE * (k + 1)) with (i + PGSIZE + PGSIZE * k) by lia.
        split_and!; try done; try lia. intros j Hjk. destruct (decide (j = 0)) as [->|].
        * by rewrite Z.mul_0_r, Z.add_0_r.
        * replace (i + PGSIZE * j) with (i + PGSIZE + PGSIZE * (j - 1)) by lia. apply Hj. lia.
    - right. exists 0. rewrite Z.mul_0_r, Z.add_0_r. split_and!; try done; lia.
  Qed.
End UserMem.

(** Every address of the range lies in one of the pages tested, and the page
    tested [k]-th holds an address of the range. *)
Lemma addr_page va len a :
  0 <= va -> va <= a < va + len ->
  exists k, 0 <= k < (va + len + 4095) / 4096 - va / 4096 /\
    a / 4096 = (va / 4096 * 4096 + 4096 * k) / 4096.
Proof.
  intros. exists (a / 4096 - va / 4096). split.
  - pose proof (Z.div_le_mono va a 4096 ltac:(lia) ltac:(lia)).
    pose proof (Z.div_le_mono (a + 1 * 4096) (va + len + 4095) 4096 ltac:(lia) ltac:(lia)) as Hle.
    rewrite Z.div_add in Hle by lia. lia.
  - replace (va / 4096 * 4096 + 4096 * (a / 4096 - va / 4096)) with (a / 4096 * 4096) by lia.
    by rewrite Z.div_mul.
Qed.

Lemma page_addr va len k :
  0 <= va -> 0 < len -> 0 <= k < (va + len + 4095) / 4096 - va / 4096 ->
  let i := va / 4096 * 4096 + 4096 * k in
  let a := if i =? va / 4096 * 4096 then va else i in
  va <= a < va + len /\ a / 4096 = i / 4096.
Proof.
  intros Hva Hlen Hk i a. subst i a.
  pose proof (Z.div_mod va 4096 ltac:(lia)). pose proof (Z.mod_pos_bound va 4096 ltac:(lia)).
  pose proof (Z.div_mod (va + len + 4095) 4096 ltac:(lia)).
  pose proof (Z.mod_pos_bound (va + len + 4095) 4096 ltac:(lia)).
  destruct (Z.eqb_spec (va / 4096 * 4096 + 4096 * k) (va / 4096 * 4096)).
  - assert (k = 0) as -> by lia. rewrite Z.mul_0_r, Z.add_0_r, Z.div_mul by lia. lia.
  - split; [lia|done].
Qed.

(** ** Deciding [walkable_to] *)

Definition walkableb (s : kstate) (d : Z) : bool :=
  (0 <=? d) && (d <? npages s) && (npages s <=? 65536) &&
  forallb (λ i, let e := rdw (mem s) d i in
                if hasbits e PTE_P then (0 <=? PGNUM e) && (PGNUM e <? npages s) else e =? 0)
    (seqZ 0 1024).

Lemma walkableb_sound s d : walkableb s d = true -> walkable_to s d 1048576.
Proof.
  unfold walkableb. rewrite !andb_true_iff, !Z.leb_le, Z.ltb_lt. intros [[[? ?] ?] Hall] v Hv.
  rewrite forallb_forall in Hall. specialize (Hall (v / 1024)).
  assert (Hin : v / 1024 ∈ seqZ 0 1024).
  { apply elem_of_seqZ. split; [apply Z.div_pos; lia|apply Z.div_lt_upper_bound; lia]. }
  apply list_elem_of_In in Hin. specialize (Hall Hin). cbv zeta in Hall.
  unfold walkable, pt_page. cbv zeta. destruct (hasbits _ _).
  - apply andb_true_iff in Hall. rewrite Z.leb_le, Z.ltb_lt in Hall. done.
  - by apply Z.eqb_eq in Hall.
Qed.

(** The result of the check. *)
Lemma user_mem_check_run s e d va len perm :
  env_pgdir (env s e) = kptr d 0 -> walkable_to s d ((va + len + 4095) / 4096) ->
  0 <= va -> 0 < len -> va + len <= 4294967296 - PGSIZE ->
  (user_mem_check e va len perm s = Ret 0 s /\
   forall a, va <= a < va + len -> user_ok s d perm a = true) \/
  exists a, va <= a < va + len /\ user_ok s d perm a = false /\
    (forall b, va <= b < a -> user_ok s d perm b = true) /\
    user_mem_check e va len perm s = Ret (- E_FAULT) (set_user_mem_check_addr a s).
Proof.
  intros He Hw Hva Hlen Hb. unfold user_mem_check. rewrite bind_get, He.
  rewrite u32_small, ROUNDUP_page, ROUNDDOWN_page by lia.
  set (n := (va + len + 4095) / 4096 - va / 4096).
  replace (((va + len + 4095) / 4096 * 4096 - va / 4096 * 4096) / PGSIZE) with n
    by (subst n; rewrite <- Z.mul_sub_distr_r, Z.div_mul; lia).
  assert (Hn : 0 < n).
  { destruct (addr_page va len va) as (k & Hk & _); [lia..|]. subst n. lia. }
  assert (Hsum : va / 4096 * 4096 + PGSIZE * n < 4294967296).
  { subst n. pose proof (Z.mul_div_le (va + len + 4095) 4096 ltac:(lia)). lia. }
  pose proof (Z.div_pos va 4096 Hva ltac:(lia)).
  destruct (user_mem_loop_spec s d _ Hw va (va / 4096 * 4096) perm (Z.to_nat n) (va / 4096 * 4096))
    as [[Ha Hr]|(k & Hk & Hj & Hbad & Hr)]; [lia|lia|lia|left|right]; rewrite Z2Nat.id in * by lia.
  - split; [done|]. intros a Hr'. destruct (addr_page va len a) as (k & Hk & Hp); [lia..|].
    rewrite (user_ok_page _ _ _ _ _ Hp). by apply Ha.
  - destruct (page_addr va len k) as [Hin Hp]; [lia|lia|exact Hk|]. eexists. split_and!; [apply Hin..| | |exact Hr].
    + by rewrite (user_ok_page _ _ _ _ _ Hp).
    + intros b Hb'. destruct (addr_page va len b) as (j & Hj' & Hpb); [lia..|].
      rewrite (user_ok_page _ _ _ _ _ Hpb). destruct (decide (j < k)) as [Hlt|Hge]; [apply Hj; lia|].
      exfalso. destruct Hb' as [Hb1 Hb2]. revert Hb2.
      pose proof (Z.div_mod b 4096 ltac:(lia)). pose proof (Z.mod_pos_bound b 4096 ltac:(lia)).
      rewrite (Z.mul_comm 4096 j), <- Z.mul_add_distr_r, Z.div_mul in Hpb by lia.
      destruct (Z.eqb_spec (va / 4096 * 4096 + 4096 * k) (va / 4096 * 4096)); lia.
Qed.

(** The sample address space as that of environment 0. *)
Definition user_sample : kstate := set_env 0 (set_env_pgdir (kptr 279 0) zero_env) vm_sample2.

(** ** Properties *)

(** An entry that is not present is zero, up to page [n]. *)
Definition clean_to (s : kstate) (d n : Z) : Prop :=
  forall v, 0 <= v < n -> hasbits (pte_at (mem s) d v) PTE_P = false -> pte_at (mem s) d v = 0.

(** The user part of an address space of the system is like that. *)
Lemma vm_clean s ds fl kref d n : vm_inv s ds fl kref -> d ∈ ds -> n <= NUVPN -> walkable_to s d n /\ clean_to s d n.
Proof. intros H Hd Hn. split; intros v Hv; [apply (vm_walkable H); [done|lia]|apply (vi_pte _ _ _ _ H); [done|lia]]. Qed.

(** What the contract asks of an address: below [ULIM], and mapped with the
    permissions [perm | PTE_P].  With [perm = 0] the code is content with a
    page table. *)
Definition may_access (s : kstate) (d perm a : Z) : bool :=
  if perm =? 0 then (a <? ULIM) && bool_decide (is_Some (pt_page (mem s) d (PGNUM a))) else user_ok s d (perm .| PTE_P) a.

Lemma land_lor_sub e a b : e .& (a .| b) = a .| b <-> e .& a = a /\ e .& b = b.
Proof.
  rewrite Z.land_lor_distr_r. split; [|by intros [-> ->]]. intros E.
  assert (F : forall x y, (e .& x) .| (e .& y) = x .| y -> e .& x = x).
  { intros x y Exy. apply Z.bits_inj'. intros n Hn. apply (f_equal (λ z, Z.testbit z n)) in Exy. revert Exy.
    rewrite !Z.lor_spec, !Z.land_spec. by destruct (Z.testbit e n), (Z.testbit x n), (Z.testbit y n). }
  split; [by apply (F a b)|]. apply (F b a). by rewrite (Z.lor_comm _ (e .& a)), (Z.lor_comm b).
Qed.

Lemma user_ok_access s d n perm a : clean_to s d n -> 0 <= PGNUM a < n -> user_ok s d perm a = may_access s d perm a.
Proof.
  intros Hc Ha. unfold may_access, user_ok. specialize (Hc _ Ha). unfold pte_at in Hc. destruct (pt_page (mem s) d (PGNUM a)) as [t|] eqn:Ht.
  - set (e := rdw (mem s) t (PGNUM a mod 1024)) in *. destruct (Z.eqb_spec perm 0) as [->|Hp].
    + by rewrite Z.land_0_r, bool_decide_eq_true_2 by eauto.
    + f_equal. apply eq_true_iff_eq. rewrite !Z.eqb_eq, land_lor_sub. split; [|by intros [? _]]. intros E. split; [done|].
      destruct (hasbits e PTE_P) eqn:EP; [|rewrite Hc, Z.land_0_l in E by done; congruence]. unfold hasbits in EP. apply negb_true_iff, Z.eqb_neq in EP.
      change PTE_P with (Z.ones 1) in *. rewrite land_low in * by lia. change (2 ^ 1) with 2 in *. change (Z.ones 1) with 1. pose proof (Z.mod_pos_bound e 2 ltac:(lia)). lia.
  - destruct (perm =? 0); [|done]. by rewrite bool_decide_eq_false_2 by (intros [? ?]; done).
Qed.

(** C3: for a nonempty range that does not reach the last page of the address
    space, and permissions other than 0, [user_mem_check] returns 0 exactly
    when every address of the range is below [ULIM] and mapped with the
    permissions [perm | PTE_P]; otherwise it returns [-E_FAULT] and
    [user_mem_check_addr] is the first address of the range that fails.
    Nothing else changes.  The code tests [perm] only, so that this rests on
    entries that are not present being zero, as they are in every address
    space below [UTOP] ([vm_clean]); and with the permissions 0, which the
    comment allows, it accepts addresses that are not mapped wherever there is
    a page table, against the comment. *)
Theorem user_mem_check_correct s e d va len perm :
  env_pgdir (env s e) = kptr d 0 -> walkable_to s d ((va + len + 4095) / 4096) -> clean_to s d ((va + len + 4095) / 4096) ->
  0 <= va -> 0 < len -> va + len <= 4294967296 - PGSIZE ->
  (user_mem_check e va len perm s = Ret 0 s /\
   forall a, va <= a < va + len -> may_access s d perm a = true) \/
  exists a, va <= a < va + len /\ may_access s d perm a = false /\
    (forall b, va <= b < a -> may_access s d perm b = true) /\
    user_mem_check e va len perm s = Ret (- E_FAULT) (set_user_mem_check_addr a s).
Proof.
  intros Hpg Hw Hc Hva Hlen Hend.
  assert (Ha : forall a, va <= a < va + len -> user_ok s d perm a = may_access s d perm a).
  { intros a Ha. apply (user_ok_access s d _ perm a Hc). rewrite PGNUM_div. split; [apply Z.div_pos; lia|].
    pose proof (Z.div_le_mono (a + 1 * 4096) (va + len + 4095) 4096 ltac:(lia) ltac:(lia)) as Hle. rewrite Z.div_add in Hle by lia. lia. }
  destruct (user_mem_check_run s e d va len perm Hpg Hw Hva Hlen Hend) as [[E Hok]|(a & Hr & Hf & Hp & E)].
  - left. split; [done|]. intros a Hr. rewrite <- Ha by done. by apply Hok.
  - right. exists a. rewrite <- Ha by done. split_and!; try done; try lia. intros b Hb. rewrite <- Ha by lia. by apply Hp.
Qed.

Lemma may_access_page s d perm a b : a / 4096 = b / 4096 -> may_access s d perm a = may_access s d perm b.
Proof.
  intros E. unfold may_access. destruct (perm =? 0); [|by apply user_ok_page]. pose proof (user_ok_page s d 0 a b E) as H. unfold user_ok in H. rewrite !PGNUM_div, E in *.
  destruct (pt_page (mem s) d (b / 4096)); [by rewrite !Z.land_0_r in H; rewrite !bool_decide_eq_true_2 by eauto|]. by rewrite !bool_decide_eq_false_2, !andb_false_r by (intros [? ?]; done).
Qed.

Lemma user_sample_facts n : n <= NUVPN -> walkable_to user_sample 279 n /\ clean_to user_sample 279 n.
Proof.
  intros Hn. destruct vm_sample2_facts as (fl & Hi & _). revert Hi. unfold user_sample. generalize vm_sample2. intros s Hi.
  apply (vm_clean _ [279] fl vm_sample_kref); [|exact (list_elem_of_here 279 [])|exact Hn]. by apply (vm_inv_frame s).
Qed.

Lemma user_sample_access a : 0x400000 <= a < 0x402000 ->
  may_access user_sample 279 7 a = (a <? 0x401000) /\ may_access user_sample 279 0 a = true.
Proof.
  intros Ha. destruct (Z.ltb_spec a 0x401000).
  - rewrite !(may_access_page _ _ _ a 0x400000) by (symmetry; apply (Z.div_unique a 4096 0x400 (a - 0x400000)); lia). split; vm_compute; reflexivity.
  - rewrite !(may_access_page _ _ _ a 0x401000) by (symmetry; apply (Z.div_unique a 4096 0x401 (a - 0x401000)); lia). split; vm_compute; reflexivity.
Qed.

(** A mapped range, a range that leaves the mapped page, and that range with
    the permissions 0. *)
Lemma user_mem_check_correct_witness :
  user_mem_check 0 0x400100 0x100 7 user_sample = Ret 0 user_sample /\
  user_mem_check 0 0x400ff0 0x100 7 user_sample = Ret (- E_FAULT) (set_user_mem_check_addr 0x401000 user_sample) /\
  user_mem_check 0 0x400ff0 0x100 0 user_sample = Ret 0 user_sample.
Proof.
  assert (He : env_pgdir (env user_sample 0) = kptr 279 0) by (vm_compute; reflexivity).
  pose proof user_sample_facts as Hw. pose proof user_sample_access as Hm. revert He Hw Hm. generalize user_sample. intros s He Hw Hm. split; [|split].
  - destruct (Hw ((0x400100 + 0x100 + 4095) / 4096) ltac:(vm_compute; congruence)) as [W C].
    destruct (user_mem_check_correct s 0 279 0x400100 0x100 7 He W C) as [[H _]|(a & Ha & Hf & _)]; [lia..|exact H|].
    destruct (Hm a ltac:(lia)) as [Ea _]. rewrite Hf in Ea. symmetry in Ea. apply Z.ltb_ge in Ea. lia.
  - destruct (Hw ((0x400ff0 + 0x100 + 4095) / 4096) ltac:(vm_compute; congruence)) as [W C].
    destruct (user_mem_check_correct s 0 279 0x400ff0 0x100 7 He W C) as [[_ H]|(a & Ha & Hf & Hp & H)]; [lia..| |].
    + specialize (H 0x401000 ltac:(lia)). destruct (Hm 0x401000 ltac:(lia)) as [Ea _]. rewrite H in Ea. discriminate Ea.
    + assert (a = 0x401000) as ->; [|exact H]. destruct (Hm a ltac:(lia)) as [Ea _]. rewrite Hf in Ea. symmetry in Ea. apply Z.ltb_ge in Ea.
      destruct (Z.eq_dec a 0x401000) as [E|E]; [exact E|]. specialize (Hp 0x401000 ltac:(lia)). destruct (Hm 0x401000 ltac:(lia)) as [Eb _]. rewrite Hp in Eb. discriminate Eb.
  - destruct (Hw ((0x400ff0 + 0x100 + 4095) / 4096) ltac:(vm_compute; congruence)) as [W C].
    destruct (user_mem_check_correct s 0 279 0x400ff0 0x100 0 He W C) as [[H _]|(a & Ha & Hf & _)]; [lia..|exact H|].
    destruct (Hm a ltac:(lia)) as [_ Ea]. rewrite Hf in Ea. discriminate Ea.
Defined.

(** [user_mem_check] computes the end of the range in 32 bits: a range
    that wraps around the end of the address space, and ends before its first
    page, is accepted with any permissions, whatever is mapped there and
    although it lies above [ULIM]. *)
Theorem user_mem_check_wraps s e va len perm :
  0 <= va < 4294967296 -> len < 4294967296 -> 4294967296 <= va + len ->
  va + len - 4294967296 <= ROUNDDOWN va PGSIZE ->
  user_mem_check e va len perm s = Ret 0 s.
Proof.
  intros Hva Hlen Hw Hle. unfold user_mem_check. rewrite bind_get.
  assert (Hu : u32 (va + len) = va + len - 4294967296).
  { symmetry. apply (Z.mod_unique _ _ 1); lia. }
  rewrite Hu. rewrite (ROUNDDOWN_page va) in * by lia.
  assert (Hr : ROUNDUP (va + len - 4294967296) PGSIZE <= va / 4096 * 4096).
  { destruct (Z_le_gt_dec (va + len - 4294967296) (4294967296 - 4096)).
    - rewrite ROUNDUP_page by lia.
      assert ((va + len - 4294967296 + 4095) / 4096 < va / 4096 + 1); [|lia].
      apply Z.div_lt_upper_bound; lia.
    - rewrite ROUNDUP_page_wrap by lia. pose proof (Z.div_pos va 4096). lia. }
  destruct (Z.to_nat _) as [|n] eqn:En; [done|].
  assert (0 < (ROUNDUP (va + len - 4294967296) PGSIZE - va / 4096 * 4096) / PGSIZE) as Hp by lia.
  pose proof (Z.div_le_upper_bound
    (ROUNDUP (va + len - 4294967296) PGSIZE - va / 4096 * 4096) PGSIZE 0 ltac:(lia) ltac:(lia)). lia.
Qed.

Lemma user_mem_check_wraps_witness :
  user_mem_check 0 0xF0000000 0x10000000 7 user_sample = Ret 0 user_sample.
Proof.
  apply user_mem_check_wraps; [split; vm_compute; congruence|reflexivity|vm_compute; congruence|].
  vm_compute. congruence.
Defined.
