(* ===== verification/Env.v ===== *)
(** * Environments ([kern/env.c])

    [envid2env], [env_init], [env_setup_vm], [env_alloc], [region_alloc],
    [load_icode], [env_create], [env_free] and [env_run].  ([env_destroy]
    calls the scheduler and is in [Sched].)  A [struct Env *] is an index of
    [envs], NULL is [None]; [env_pop_tf] leaves the kernel. *)

From S2P Require Import Prelude Console LibString Mmu Printf E1000 Machine KernLib Spinlock PageAlloc PageTable.

Abbreviation ENVGENSHIFT := 12 (only parsing).
Abbreviation ELF_MAGIC := 0x464C457F (only parsing).
Abbreviation ELF_PROG_LOAD := 1 (only parsing).

(** ** Access to [curenv] and to pages *)

(** Dereferencing [curenv]: a fault in the kernel when it is NULL. *)
Definition the_curenv : K Z :=
  c ← get curenv;
  match c with Some e => mret e | None => kernel_fault end.

(** [memcpy] of a whole page between page-aligned addresses of the direct map. *)
Definition memcpy_page (dst src : Z) : K unit := modify (λ s,
  set_mem (<[PGNUM (dst - KERNBASE) := page_of (mem s) (PGNUM (src - KERNBASE))]> (mem s)) s).

(** ** Operations *)

(** The result and what is stored in [*env_store]. *)
Definition envid2env (envid : Z) (checkperm : bool) : K (Z * option Z) :=
  if envid =? 0 then
    c ← get curenv;
    mret (0, c)
  else
    let e := ENVX envid in
    st ← get (λ s, env_status (env s e));
    id ← get (λ s, env_id (env s e));
    if bool_decide (st = ENV_FREE) || negb (id =? envid) then mret (- E_BAD_ENV, None)
    else if checkperm then
      c ← get curenv;
      if bool_decide (c = Some e) then mret (0, Some e)
      else
        parent ← get (λ s, env_parent_id (env s e));
        cur ← the_curenv;
        cid ← get (λ s, env_id (env s cur));
        if negb (parent =? cid) then mret (- E_BAD_ENV, None) else mret (0, Some e)
    else mret (0, Some e).

Definition env_init_body (i : Z) : K unit :=
  modify (λ s, upd_env i (set_env_link (env_free_list s)) s) ;;
  modify (set_env_free_list (Some i)) ;;
  modify (upd_env i (set_env_id 0)) ;;
  modify (upd_env i (set_env_status ENV_FREE)).

(** [env_init]; [env_init_percpu] loads segment registers only. *)
Definition env_init : K unit :=
  modify (set_env_free_list None) ;;
  kfor (reverse (seqZ 0 NENV)) env_init_body.

Definition env_setup_vm (e : Z) : K Z :=
  p ← page_alloc ALLOC_ZERO;
  match p with
  | None => mret (- E_NO_MEM)
  | Some p =>
      kva ← page2kva p;
      modify (upd_env e (set_env_pgdir kva)) ;;
      src ← get kern_pgdir;
      dir ← get (λ s, env_pgdir (env s e));
      memcpy_page dir src ;;
      modify (λ s, set_pp_ref p (u16 (pp_ref (pg s p) + 1)) s) ;;
      pa ← PADDR dir;
      store (u32 (dir + 4 * PDX UVPT)) (pa .| PTE_P .| PTE_U) ;;
      mret 0
  end.

(** The identifier of the next environment in slot [i]. *)
Definition next_env_id (id i : Z) : Z :=
  let generation := Z.land (s32 (id + Z.shiftl 1 ENVGENSHIFT)) (Z.lnot (NENV - 1)) in
  let generation := if generation <=? 0 then Z.shiftl 1 ENVGENSHIFT else generation in
  generation .| i.

(** The register state of a new environment. *)
Definition new_tf : Trapframe :=
  mkTrapframe zero_regs (GD_UD .| 3) (GD_UD .| 3) 0 0 0 (GD_UT .| 3) (0 .| FL_IF) USTACKTOP
    (GD_UD .| 3).

(** The fields [env_alloc] sets in the environment of slot [i]. *)
Definition fresh_env (i parent_id : Z) (e : Env) : Env :=
  set_env_ipc_recving false (set_env_pgfault_upcall 0 (set_env_tf new_tf
    (set_env_runs 0 (set_env_status ENV_RUNNABLE (set_env_type ENV_TYPE_USER
      (set_env_parent_id parent_id (set_env_id (next_env_id (env_id e) i) e))))))).

(** The result and what is stored in [*newenv_store]. *)
Definition env_alloc (parent_id : Z) : K (Z * option Z) :=
  h ← get env_free_list;
  match h with
  | None => mret (- E_NO_FREE_ENV, None)
  | Some e =>
      r ← env_setup_vm e;
      if r <? 0 then mret (r, None)
      else
        modify (upd_env e (fresh_env e parent_id)) ;;
        l ← get (λ s, env_link (env s e));
        modify (set_env_free_list l) ;;
        mret (0, Some e)
  end.

(** The loop of [region_alloc], [n] iterations left. *)
Fixpoint region_loop (n : nat) (e i : Z) : K unit :=
  match n with
  | O => mret tt
  | S n' =>
      p ← page_alloc 0;
      match p with
      | None => panic " caused by page_alloc : not enough memory "
      | Some pp =>
          dir ← get (λ s, env_pgdir (env s e));
          r ← page_insert dir pp i (PTE_P .| PTE_U .| PTE_W);
          if negb (r =? 0) then panic " caused by page_insert : not enough memory "
          else region_loop n' e (u32 (i + PGSIZE))
      end
  end.

Definition region_alloc (e va len : Z) : K unit :=
  let last := ROUNDUP (u32 (va + len)) PGSIZE in
  let va_r := ROUNDDOWN va PGSIZE in
  region_loop (Z.to_nat ((last - va_r) / PGSIZE)) e va_r.

(** The loop over the program headers, [n] of them left from [ph] on. *)
Fixpoint load_segments (n : nat) (e binary ph : Z) : K unit :=
  match n with
  | O => mret tt
  | S n' =>
      p_type ← load ph;
      (if p_type =? ELF_PROG_LOAD then
         p_offset ← load (u32 (ph + 4));
         p_va ← load (u32 (ph + 8));
         p_filesz ← load (u32 (ph + 16));
         p_memsz ← load (u32 (ph + 20));
         region_alloc e p_va p_memsz ;;
         memcpy_bytes (Z.to_nat p_filesz) p_va (u32 (binary + p_offset)) ;;
         memset_bytes (Z.to_nat (u32 (p_memsz - p_filesz))) (u32 (p_va + p_filesz)) 0
       else mret tt) ;;
      load_segments n' e binary (u32 (ph + 32))
  end.

Definition load_icode (e binary : Z) : K unit :=
  e_magic ← load binary;
  if negb (e_magic =? ELF_MAGIC) then panic " incorrect ELF file "
  else
    e_phoff ← load (u32 (binary + 28));
    e_phnum ← load (u32 (binary + 44));
    dir ← get (λ s, env_pgdir (env s e));
    pa ← PADDR dir;
    lcr3 pa ;;
    load_segments (Z.to_nat (u16 e_phnum)) e binary (u32 (binary + e_phoff)) ;;
    region_alloc e (USTACKTOP - PGSIZE) PGSIZE ;;
    e_entry ← load (u32 (binary + 24));
    modify (upd_env e (λ x, set_env_tf (set_tf_eip e_entry (env_tf x)) x)) ;;
    kd ← get kern_pgdir;
    kpa ← PADDR kd;
    lcr3 kpa.

Definition env_create (binary : Z) (type : EnvType) : K unit :=
  r ← env_alloc 0;
  match r with
  | (re, Some e) =>
      if re <? 0 then panic " couldn't allocate an evironment"
      else
        (if bool_decide (type = ENV_TYPE_FS) then
           modify (upd_env e (λ x,
             set_env_tf (set_tf_eflags (tf_eflags (env_tf x) .| FL_IOPL_3) (env_tf x)) x))
         else mret tt) ;;
        load_icode e binary ;;
        modify (upd_env e (set_env_type type))
  | (_, None) => panic " couldn't allocate an evironment"
  end.

(** Unmapping the entries of one page table, and the table itself. *)
Definition env_free_pte (dir pt pdeno pteno : Z) : K unit :=
  x ← load (u32 (pt + 4 * pteno));
  if hasbits x PTE_P then page_remove dir (PGADDR pdeno pteno 0) else mret tt.

Definition env_free_pde (e pdeno : Z) : K unit :=
  dir ← get (λ s, env_pgdir (env s e));
  pde ← load (u32 (dir + 4 * pdeno));
  if negb (hasbits pde PTE_P) then mret tt
  else
    pde' ← load (u32 (dir + 4 * pdeno));
    let pa := PTE_ADDR pde' in
    pt ← KADDR pa;
    kfor (seqZ 0 1024) (env_free_pte dir pt pdeno) ;;
    store (u32 (dir + 4 * pdeno)) 0 ;;
    pp ← pa2page pa;
    page_decref pp.

Definition env_free (e : Z) : K unit :=
  c ← get curenv;
  (if bool_decide (c = Some e) then
     kd ← get kern_pgdir;
     kpa ← PADDR kd;
     lcr3 kpa
   else mret tt) ;;
  kfor (seqZ 0 (PDX UTOP)) (env_free_pde e) ;;
  dir ← get (λ s, env_pgdir (env s e));
  pa ← PADDR dir;
  modify (upd_env e (set_env_pgdir 0)) ;;
  pp ← pa2page pa;
  page_decref pp ;;
  modify (upd_env e (set_env_status ENV_FREE)) ;;
  modify (λ s, upd_env e (set_env_link (env_free_list s)) s) ;;
  modify (set_env_free_list (Some e)).

(** [env_pop_tf(&curenv->env_tf)]: user mode in the current environment. *)
Definition env_pop_tf : K unit :=
  e ← the_curenv;
  c ← get cpunum;
  modify (upd_env e (set_env_cpunum c)) ;;
  leave (EnvRun e).

Definition env_run (e : Z) : K unit :=
  c ← get curenv;
  (if negb (bool_decide (c = Some e)) then
     match c with
     | Some c0 =>
         modify (λ s, if decide (env_status (env s c0) = ENV_RUNNING)
                      then upd_env c0 (set_env_status ENV_RUNNABLE) s else s)
     | None => mret tt
     end ;;
     modify (set_curenv (Some e)) ;;
     modify (upd_env e (set_env_status ENV_RUNNING)) ;;
     modify (upd_env e (λ x, set_env_runs (u32 (env_runs x + 1)) x)) ;;
     dir ← get (λ s, env_pgdir (env s e));
     pa ← PADDR dir;
     lcr3 pa
   else mret tt) ;;
  unlock_kernel ;;
  env_pop_tf.
