(* ===== verification/EnvVm.v ===== *)
(** * The address spaces of environments

    [env_setup_vm] creates an empty user address space over the kernel's part;
    [env_free] gives every page of an environment back.  Both are proved
    against the reference-counting invariant of [Vm]. *)

From S2P Require Import Prelude Console LibString Mmu Printf E1000 Machine KernLib Spinlock PageAlloc PageTable Vm VmSpec Env.

(** ** Pages that come back *)

(** From [s] to [s'] references were only dropped, and the free list gained
    exactly the pages that lost their last one. *)
Record returned (s : kstate) (fl : list Z) (s' : kstate) (fl' : list Z) : Prop := {
  rt_le : forall p, 0 <= pp_ref (pg s' p) <= pp_ref (pg s p);
  rt_list : forall p, p ∈ fl' <-> p ∈ fl \/ 0 < pp_ref (pg s p) /\ pp_ref (pg s' p) = 0
}.

Lemma returned_trans s fl s1 fl1 s2 fl2 : returned s fl s1 fl1 -> returned s1 fl1 s2 fl2 -> returned s fl s2 fl2.
Proof.
  intros [A1 A2] [B1 B2]. constructor; intros p; specialize (A1 p); specialize (B1 p); [lia|]. rewrite B2, A2.
  split; [intros [[?|?]|?]|intros [?|?]]; (by left; left) || (by left) || (right; lia) || (destruct (decide (pp_ref (pg s1 p) = 0)); [left; right|right]; lia).
Qed.

(** Only the reference counts matter. *)
Lemma returned_refs s fl s0 s' s0' fl' :
  returned s0 fl s0' fl' -> (forall p, pp_ref (pg s p) = pp_ref (pg s0 p)) -> (forall p, pp_ref (pg s' p) = pp_ref (pg s0' p)) -> returned s fl s' fl'.
Proof. intros [A1 A2] E E'. constructor; intros p; by rewrite E, E'. Qed.

Lemma returned_refl s fl : (forall p, 0 <= pp_ref (pg s p)) -> returned s fl s fl.
Proof. intros H. constructor; intros p; specialize (H p); [lia|]. split; [by left|]. intros [?|?]; [done|lia]. Qed.

Lemma returned_decref s fl p : alloc_inv s fl -> 1 <= pp_ref (pg s p) -> returned s fl (decref_state p s) (decref_free p s fl).
Proof.
  intros Ha Hr. constructor; intros q; pose proof (ai_ref _ _ Ha q) as Hq; rewrite decref_state_ref.
  - case_decide; [subst|]; lia.
  - unfold decref_free. destruct (Z.eqb_spec (pp_ref (pg s p)) 1) as [E|E]; rewrite ?elem_of_cons; case_decide as Eq; try subst q.
    + split; [right; lia|by left].
    + split; [intros [->|?]; [done|by left]|intros [?|?]; [by right|lia]].
    + split; [by left|intros [?|?]; [done|lia]].
    + split; [by left|intros [?|?]; [done|lia]].
Qed.

(** ** Dropping a page table and a directory *)

Section DropTable.
  Context {s : kstate} {ds fl : list Z} {kref : Z -> Z} (H : vm_inv s ds fl kref).
  Context {d i t : Z} (Hd : d ∈ ds) (Hi : 0 <= i < NUPDE).
  Context (Ht : pt_page (mem s) d (i * 1024) = Some t).
  Context (Hempty : forall v, 0 <= v < NUVPN -> v / 1024 = i -> vmap (mem s) d v = None).

Let m' := wrw (mem s) d i 0.

Lemma drop_pt_page d' v : pt_page m' d' v = if decide (d' = d /\ v / 1024 = i) then None else pt_page (mem s) d' v.
  Proof using All.
    unfold m', pt_page. case_decide as E.
    - destruct E as [E1 E2]. rewrite E1, E2. by rewrite rdw_wrw_eq.
    - rewrite rdw_wrw_ne; [done|]. destruct (decide (d = d')); [right|by left]. intros E'. apply E. by split.
  Qed.

Lemma drop_pte_at d' v : d' ∈ ds -> 0 <= v < NUVPN ->
    pte_at m' d' v = if decide (d' = d /\ v / 1024 = i) then 0 else pte_at (mem s) d' v.
  Proof using All.
    intros Hd' Hv. case_decide as E; [by unfold pte_at; rewrite drop_pt_page, decide_True|].
    apply pte_at_ext; [by rewrite drop_pt_page, decide_False|]. intros t' Ht'.
    unfold m'. rewrite rdw_wrw_ne; [done|]. left. apply not_eq_sym. by apply (table_not_dir H d' v t').
  Qed.

Lemma drop_vmap d' v : d' ∈ ds -> 0 <= v < NUVPN -> vmap m' d' v = vmap (mem s) d' v.
  Proof using All.
    intros Hd' Hv. rewrite vmap_pte_at, drop_pte_at by done. case_decide as E; [|by rewrite vmap_pte_at].
    destruct E as [-> E]. by rewrite hasbits_0, Hempty.
  Qed.

Lemma drop_target x : in_slots ds x -> x <> STable d i -> target m' x = target (mem s) x.
  Proof using All.
    intros Hx Hne. destruct x as [d'|d' i'|d' v]; simpl in *; [done| |].
    - rewrite drop_pt_page, Z.div_mul by lia. rewrite decide_False; [done|]. naive_solver.
    - by rewrite drop_vmap by tauto.
  Qed.

Lemma drop_table_page : 0 <= t < npages s /\ t ∉ fl /\ pp_ref (pg s t) = 1.
  Proof using All.
    assert (Hin : in_slots ds (STable d i)) by done.
    pose proof (vi_range _ _ _ _ H _ _ Hin Ht) as Hr. split; [done|].
    split; [by apply (target_not_free H _ _ Hin)|].
    rewrite (vi_ref _ _ _ _ H) by done. by apply (vi_excl _ _ _ _ H (STable d i)).
  Qed.

Lemma vm_drop_table :
    page_decref t (set_mem m' s) = Ret tt (decref_state t (set_mem m' s)) /\
    vm_inv (decref_state t (set_mem m' s)) ds (t :: fl) kref.
  Proof using All.
    destruct drop_table_page as (Hr & Hfl & Href).
    assert (Hin : in_slots ds (STable d i)) by done.
    assert (Ha : alloc_inv (set_mem m' s) fl) by (eapply alloc_inv_frame; [..|apply (vi_alloc _ _ _ _ H)]; done).
    destruct (page_decref_spec (set_mem m' s) fl t Ha) as [He Ha']; [done|done| |].
    { change (pg (set_mem m' s) t) with (pg s t). lia. }
    split; [done|].
    assert (decref_free t (set_mem m' s) fl = t :: fl) as Efl.
    { unfold decref_free. change (pg (set_mem m' s) t) with (pg s t). by rewrite Href. }
    rewrite Efl in Ha'. destruct (decref_state_frame t (set_mem m' s)) as (Hnp & Hmem & _).
    assert (Hnew : target m' (STable d i) = None).
    { simpl. rewrite drop_pt_page, Z.div_mul by lia. by rewrite decide_True. }
    assert (Hcnt : forall q, count (target m') (slots ds) q = count (target (mem s)) (slots ds) q - is_ref (Some t) q).
    { intros q. rewrite (count_target ds (mem s) m' (STable d i));
        [rewrite Hnew; simpl; rewrite Ht, is_ref_None; lia|apply (vi_nodup _ _ _ _ H)|done|by apply drop_target]. }
    constructor; rewrite ?Hmem, ?Hnp; cbn [mem set_mem npages].
    - done.
    - apply (vi_nodup _ _ _ _ H).
    - apply (vi_kref _ _ _ _ H).
    - intros q Hq. rewrite Hcnt, decref_state_ref. change (pg (set_mem m' s) q) with (pg s q).
      rewrite (vi_ref _ _ _ _ H) by done. unfold is_ref. repeat case_decide; simplify_eq; lia.
    - intros x q Hx Hs Hq. destruct (decide (x = STable d i)) as [->|Hne]; [by rewrite Hnew in Hq|].
      rewrite drop_target in Hq by done. rewrite Hcnt. pose proof (vi_excl _ _ _ _ H x q Hx Hs Hq).
      rewrite is_ref_ne; [lia|]. intros <-. apply Hne.
      by eapply (struct_unique H (STable d i) x t).
    - intros x q Hx Hq. destruct (decide (x = STable d i)) as [->|Hne]; [by rewrite Hnew in Hq|].
      rewrite drop_target in Hq by done. by eapply (vi_range _ _ _ _ H).
    - intros d' i' Hd' Hi'. rewrite drop_pt_page, Z.div_mul by lia. unfold m'.
      destruct (decide (d' = d /\ i' = i)) as [[-> ->]|Hne]; [apply rdw_wrw_eq|].
      rewrite rdw_wrw_ne; [by apply (vi_pde _ _ _ _ H)|].
      destruct (decide (d = d')); [right; naive_solver|by left].
    - intros d' v Hd' Hv. rewrite drop_pte_at by done. case_decide; [done|]. by apply (vi_pte _ _ _ _ H).
  Qed.

Lemma drop_returned : returned s fl (decref_state t (set_mem m' s)) (t :: fl).
  Proof using All.
    destruct drop_table_page as (_ & _ & Href). assert (Ha : alloc_inv (set_mem m' s) fl) by (eapply alloc_inv_frame; [..|apply (vi_alloc _ _ _ _ H)]; done).
    pose proof (returned_decref (set_mem m' s) fl t Ha) as R. unfold decref_free in R. change (pg (set_mem m' s) t) with (pg s t) in R. rewrite Href in R.
    by apply (returned_refs _ _ (set_mem m' s) _ _ _ (R ltac:(lia))).
  Qed.
End DropTable.

(** The order of the directories does not matter. *)
Lemma slots_perm ds ds' : ds ≡ₚ ds' -> slots ds ≡ₚ slots ds'.
Proof.
  induction 1 as [|x l l' _ IH|x y l|l1 l2 l3 _ IH1 _ IH2]; [done|..].
  - rewrite !slots_cons. by rewrite IH.
  - rewrite !slots_cons, !app_assoc. f_equiv. apply Permutation_app_comm.
  - by etrans.
Qed.

Lemma count_perm {A} (f : A -> option Z) l l' p : l ≡ₚ l' -> count f l p = count f l' p.
Proof.
  induction 1 as [|x l l' _ IH|x y l|l1 l2 l3 _ IH1 _ IH2]; [done|..].
  - by rewrite !count_cons, IH.
  - rewrite !count_cons. lia.
  - by rewrite IH1.
Qed.

Lemma in_slots_perm ds ds' x : ds ≡ₚ ds' -> in_slots ds x <-> in_slots ds' x.
Proof. intros E. rewrite <- !elem_of_slots. by rewrite (slots_perm _ _ E). Qed.

Lemma vm_inv_perm s ds ds' fl kref : ds ≡ₚ ds' -> vm_inv s ds fl kref -> vm_inv s ds' fl kref.
Proof.
  intros E []. pose proof (slots_perm _ _ E) as Es.
  assert (Hc : forall p, count (target (mem s)) (slots ds') p = count (target (mem s)) (slots ds) p).
  { intros p. symmetry. by apply count_perm. }
  constructor; try done.
  - by rewrite <- E.
  - intros p Hp. rewrite Hc. auto.
  - intros x p Hx. rewrite Hc. apply vi_excl. by rewrite (in_slots_perm _ _ _ E).
  - intros x p Hx. apply vi_range. by rewrite (in_slots_perm _ _ _ E).
  - intros d i Hd. apply vi_pde. by rewrite E.
  - intros d v Hd. apply vi_pte. by rewrite E.
Qed.

Lemma vm_drop_dir s ds fl kref d :
  vm_inv s (d :: ds) fl kref -> (forall i, 0 <= i < NUPDE -> rdw (mem s) d i = 0) ->
  page_decref d s = Ret tt (decref_state d s) /\ vm_inv (decref_state d s) ds (d :: fl) kref.
Proof.
  intros H Hz. assert (Hin : in_slots (d :: ds) (SDir d)) by (simpl; set_solver).
  pose proof (vi_range _ _ _ _ H (SDir d) d Hin eq_refl) as Hr.
  pose proof (target_not_free H (SDir d) d Hin eq_refl) as Hfl.
  pose proof (vi_excl _ _ _ _ H (SDir d) d Hin eq_refl eq_refl) as Hex.
  assert (Href : pp_ref (pg s d) = 1) by (rewrite (vi_ref _ _ _ _ H) by done; done).
  destruct (page_decref_spec s fl d (vi_alloc _ _ _ _ H) Hr Hfl ltac:(lia)) as [He Ha].
  unfold decref_free in Ha. rewrite Href in Ha. split; [done|].
  destruct (decref_state_frame d s) as (Hnp & Hmem & _).
  assert (Hcnt : forall q, count (target (mem s)) (slots (d :: ds)) q =
            is_ref (Some d) q + count (target (mem s)) (slots ds) q).
  { intros q. by rewrite slots_cons, count_app, count_empty_dir. }
  pose proof (vi_nodup _ _ _ _ H) as Hnd. apply list.NoDup_cons in Hnd as [Hnin Hnd].
  assert (Hsub : forall x, in_slots ds x -> in_slots (d :: ds) x) by (intros []; simpl; set_solver).
  constructor; rewrite ?Hmem, ?Hnp.
  - done.
  - done.
  - apply (vi_kref _ _ _ _ H).
  - intros q Hq. rewrite decref_state_ref, (vi_ref _ _ _ _ H), Hcnt by done.
    unfold is_ref. repeat case_decide; simplify_eq; lia.
  - intros x q Hx Hs Hq. pose proof (vi_excl _ _ _ _ H x q (Hsub x Hx) Hs Hq) as Hx'. rewrite Hcnt in Hx'.
    rewrite is_ref_ne in Hx'; [lia|]. intros <-.
    assert (x = SDir d) as -> by (eapply (struct_unique H (SDir d) x d); auto).
    simpl in Hx. done.
  - intros x q Hx. apply (vi_range _ _ _ _ H); auto.
  - intros d' i Hd'. apply (vi_pde _ _ _ _ H). set_solver.
  - intros d' v Hd'. apply (vi_pte _ _ _ _ H). set_solver.
Qed.

Lemma dir_returned s ds fl kref d : vm_inv s (d :: ds) fl kref -> returned s fl (decref_state d s) (d :: fl).
Proof.
  intros H. assert (Hin : in_slots (d :: ds) (SDir d)) by (simpl; set_solver). pose proof (vi_range _ _ _ _ H (SDir d) d Hin eq_refl) as Hr.
  assert (Href : pp_ref (pg s d) = 1) by (rewrite (vi_ref _ _ _ _ H) by done; by apply (vi_excl _ _ _ _ H (SDir d))).
  pose proof (returned_decref s fl d (vi_alloc _ _ _ _ H)) as R. unfold decref_free in R. rewrite Href in R. by apply R.
Qed.

(** ** [env_free] *)

Lemma kfor_app {A} (l l' : list A) body s s' :
  kfor l body s = Ret tt s' -> kfor (l ++ l') body s = kfor l' body s'.
Proof.
  revert s. induction l as [|x l IH]; intros s H; simpl in *; [by injection H as ->|].
  apply bind_Ret_inv in H as ([] & s1 & H1 & H2). rewrite (bind_Ret _ _ _ _ _ H1). by apply IH.
Qed.

Lemma PGADDR_vpn i j :
  0 <= i < NUPDE -> 0 <= j < 1024 ->
  uva (PGADDR i j 0) /\ PGNUM (PGADDR i j 0) = i * 1024 + j.
Proof.
  unfold NUPDE. intros Hi Hj. rewrite PGADDR_sum by lia. split; [unfold uva; lia|].
  rewrite PGNUM_div. replace (i * 4194304 + j * 4096 + 0) with ((i * 1024 + j) * 4096) by lia.
  by rewrite Z.div_mul.
Qed.

(** A page that holds part of the tables of directory [d]. *)
Definition table_page (s : kstate) (d q : Z) : Prop :=
  q = d \/ exists v, 0 <= v < NUVPN /\ pt_page (mem s) d v = Some q.

(** Removing a mapping returns its page when this was the last reference. *)
Lemma removed_returned {s ds fl kref d va} (H : vm_inv s ds fl kref) (Hd : d ∈ ds) (Hu : uva va) t e :
  vmap (mem s) d (PGNUM va) = Some e -> returned s fl (@removed s d va t e) (decref_free (PGNUM e) s fl).
Proof.
  intros He. pose proof (uva_vpn _ Hu) as Hv. assert (Hold : target (mem s) (SData d (PGNUM va)) = Some (PGNUM e)) by (simpl; by rewrite He).
  pose proof (target_ref H (SData d (PGNUM va)) _ (conj Hd Hv) Hold) as Hr.
  apply (returned_refs _ _ s _ (decref_state (PGNUM e) s)); [by apply returned_decref; [apply (vi_alloc _ _ _ _ H)|]|done|].
  intros p. unfold removed. pose proof (tlb_state_vm (kptr d 0) va (set_mem (wrw (mem s) t (PGNUM va mod 1024) 0) (decref_state (PGNUM e) s))) as (_ & T & _).
  unfold pg. by rewrite T.
Qed.

Section FreeEntries.
  Context {ds : list Z} {kref : Z -> Z} {d : Z} (Hd : d ∈ ds).

Lemma env_free_pte_spec s fl i t j :
    vm_inv s ds fl kref -> 0 <= i < NUPDE -> 0 <= j < 1024 ->
    pt_page (mem s) d (i * 1024) = Some t ->
    exists s' fl', env_free_pte (kptr d 0) (kptr t 0) i j s = Ret tt s' /\ vm_inv s' ds fl' kref /\ returned s fl s' fl' /\
      vm_frame s s' /\ (forall q k, q <> t -> rdw (mem s') q k = rdw (mem s) q k) /\
      (forall d' v', d' ∈ ds -> 0 <= v' < NUVPN ->
         vmap (mem s') d' v' = if decide (d' = d /\ v' = i * 1024 + j) then None else vmap (mem s) d' v').
  Proof using Hd.
    intros H Hi Hj Ht. destruct (PGADDR_vpn i j Hi Hj) as [Hu Hvpn].
    pose proof (uva_vpn _ Hu) as Hv. rewrite Hvpn in Hv.
    assert (Ediv : (i * 1024 + j) / 1024 = i) by (rewrite Z.div_add_l, Z.div_small; lia).
    assert (Emod : (i * 1024 + j) mod 1024 = j) by (rewrite Z.add_comm, Z.mod_add, Z.mod_small; lia).
    assert (Ht' : pt_page (mem s) d (i * 1024 + j) = Some t) by (by rewrite (pt_page_table _ _ i)).
    pose proof (table_range H d _ t Hd Hv Ht') as Htr. pose proof (vi_np H) as Hnp.
    unfold env_free_pte. rewrite kptr_add, kptr_u32 by lia. kstep by (apply load_kptr; lia).
    destruct (vmap (mem s) d (i * 1024 + j)) as [e|] eqn:He.
    - pose proof He as He'. unfold vmap in He'. rewrite Ht', Emod in He'.
      destruct (hasbits (rdw _ t _) _) eqn:Hb; [|done].
      rewrite <- Hvpn in Ht', He. destruct (page_remove_mapped H Hd Hu t e Ht' He) as (H1 & H2 & H3 & H4).
      eexists _, _. split; [exact H1|]. split; [exact H2|].
      split; [apply (removed_returned H Hd Hu t e He)|]. split; [exact H4|]. rewrite H3, Hvpn. split.
      + intros q k Hq. rewrite rdw_wrw_ne; [done|]. by left.
      + intros d' v' Hd' Hv'. rewrite Hvpn in Ht'. case_decide as E.
        * destruct E as [-> ->]. by rewrite (vmap_wrw_same H d (i * 1024 + j) t).
        * apply (vmap_wrw_other H d (i * 1024 + j) t); try done. naive_solver.
    - exists s, fl. split; [|split; [done|]; split; [apply returned_refl; intros p; apply (ai_ref _ _ (vi_alloc _ _ _ _ H))|]; split; [done|]; split; [done|]].
      + unfold vmap in He. rewrite Ht', Emod in He. by destruct (hasbits (rdw _ t _) _).
      + intros d' v' Hd' Hv'. case_decide as E; [|done]. by destruct E as [-> ->].
  Qed.

Lemma env_free_ptes_spec i t l : 0 <= i < NUPDE -> Forall (λ j, 0 <= j < 1024) l -> forall s fl,
    vm_inv s ds fl kref -> pt_page (mem s) d (i * 1024) = Some t ->
    exists s' fl', kfor l (env_free_pte (kptr d 0) (kptr t 0) i) s = Ret tt s' /\
      vm_inv s' ds fl' kref /\ returned s fl s' fl' /\ vm_frame s s' /\ (forall q k, q <> t -> rdw (mem s') q k = rdw (mem s) q k) /\
      (forall d' v', d' ∈ ds -> 0 <= v' < NUVPN ->
         vmap (mem s') d' v' =
           if decide (d' = d /\ v' - i * 1024 ∈ l) then None else vmap (mem s) d' v').
  Proof using Hd.
    intros Hi. induction 1 as [|j l Hj Hl IH]; intros s fl H Ht.
    - exists s, fl. split_and!; try done; [apply returned_refl; intros p; apply (ai_ref _ _ (vi_alloc _ _ _ _ H))|]. intros d' v' _ _. rewrite decide_False; [done|]. set_solver.
    - destruct (env_free_pte_spec s fl i t j) as (s1 & fl1 & He & H1 & Hb & Hf & Hm & Hv); try done.
      assert (Htd : t <> d).
      { assert (Hi0 : 0 <= i * 1024 < NUVPN) by (unfold NUPDE, NUVPN in *; lia).
        by apply (table_not_dir H d (i * 1024) t). }
      assert (Ht1 : pt_page (mem s1) d (i * 1024) = Some t) by (unfold pt_page; by rewrite Hm).
      destruct (IH s1 fl1 H1 Ht1) as (s2 & fl2 & He2 & H2 & Hb2 & Hf2 & Hm2 & Hv2).
      exists s2, fl2. split_and!; [|done|by eapply returned_trans|by etrans| |].
      + simpl. by rewrite (bind_Ret _ _ _ _ _ He).
      + intros q k Hq. by rewrite Hm2, Hm.
      + intros d' v' Hd' Hv'. rewrite Hv2, Hv by done. clear. repeat case_decide; try done;
        exfalso; rewrite ?elem_of_cons in *; intuition lia.
  Qed.
End FreeEntries.

Lemma vm_frame_set_mem m s : vm_frame s (set_mem m s).
Proof. by apply vm_frame_eq. Qed.

Lemma vmap_empty_pte m d v : pt_page m d v = None -> vmap m d v = None.
Proof. unfold vmap. by intros ->. Qed.

(** What freeing directory entry [i] of [d] does. *)
Definition pde_freed (ds : list Z) (d i : Z) (s s' : kstate) : Prop :=
  vm_frame s s' /\ rdw (mem s') d i = 0 /\
  (forall k, k <> i -> rdw (mem s') d k = rdw (mem s) d k) /\
  (forall q k, ~ table_page s d q -> rdw (mem s') q k = rdw (mem s) q k) /\
  (forall d' v', d' ∈ ds -> 0 <= v' < NUVPN ->
     vmap (mem s') d' v' = if decide (d' = d /\ v' / 1024 = i) then None else vmap (mem s) d' v').

Lemma env_free_pde_spec ds kref d e s fl i :
  d ∈ ds -> vm_inv s ds fl kref -> env_pgdir (env s e) = kptr d 0 -> 0 <= i < NUPDE ->
  exists s' fl', env_free_pde e i s = Ret tt s' /\ vm_inv s' ds fl' kref /\ returned s fl s' fl' /\ pde_freed ds d i s s'.
Proof.
  intros Hd H Hpg Hi. pose proof (vi_np H) as Hnp. pose proof (dir_range H d Hd) as Hdr.
  assert (Hi0 : 0 <= i * 1024 < NUVPN) by (unfold NUPDE, NUVPN in *; lia).
  assert (Hi1 : 0 <= i < 1024) by (unfold NUPDE in *; lia).
  unfold env_free_pde. rewrite bind_get, Hpg, kptr_add, kptr_u32 by lia. kstep by (apply load_kptr; lia).
  destruct (pt_page (mem s) d (i * 1024)) as [t|] eqn:Ht.
  - pose proof Ht as Ht'. unfold pt_page in Ht'. rewrite Z.div_mul in Ht' by lia.
    destruct (hasbits (rdw _ d _) _) eqn:Hb; [|done]. injection Ht' as Ht'. cbn [negb].
    kstep by (apply load_kptr; lia). rewrite PTE_ADDR_eq, <- PGNUM_div, Ht'.
    pose proof (table_range H d _ t Hd Hi0 Ht) as Htr. kstep by (apply KADDR_page; lia).
    assert (Hl : Forall (λ j, 0 <= j < 1024) (seqZ 0 1024)).
    { apply list.Forall_forall. intros j Hj%elem_of_seqZ. lia. }
    destruct (env_free_ptes_spec Hd i t (seqZ 0 1024) Hi Hl s fl H Ht)
      as (s1 & fl1 & He1 & H1 & Hb1 & Hf1 & Hm1 & Hv1).
    kstep by (exact He1).
    assert (Htd : t <> d) by (by apply (table_not_dir H d (i * 1024) t)).
    assert (Ht1 : pt_page (mem s1) d (i * 1024) = Some t) by (unfold pt_page; by rewrite Hm1).
    assert (Hall : forall v, 0 <= v < NUVPN -> v / 1024 = i -> vmap (mem s1) d v = None).
    { intros v Hv Ev. rewrite Hv1 by done. rewrite decide_True; [done|]. split; [done|].
      apply elem_of_seqZ. pose proof (Z.div_mod v 1024). pose proof (Z.mod_pos_bound v 1024). lia. }
    destruct (vm_drop_table H1 Hd Hi Ht1 Hall) as [Hdec Hinv].
    kstep by (apply store_kptr; lia). change (u32 0) with 0.
    rewrite <- (vf_npages _ _ Hf1) in Htr. kstep by (by apply pa2page_page).
    eexists _, _. split; [exact Hdec|]. split; [exact Hinv|].
    split; [apply (returned_trans _ _ _ _ _ _ Hb1), (drop_returned H1 Hd Hi Ht1 Hall)|].
    destruct (decref_state_frame t (set_mem (wrw (mem s1) d i 0) s1)) as (_ & Hmem & _).
    unfold pde_freed. rewrite Hmem. cbn [mem set_mem]. split_and!.
    + etrans; [exact Hf1|]. etrans; [apply vm_frame_set_mem|apply vm_frame_decref].
    + apply rdw_wrw_eq.
    + intros k Hk. rewrite rdw_wrw_ne by (right; congruence). by apply Hm1.
    + intros q k Hq. rewrite rdw_wrw_ne; [|left; intros <-; apply Hq; by left].
      apply Hm1. intros ->. apply Hq. right. by exists (i * 1024).
    + intros d' v' Hd' Hv'. rewrite (drop_vmap H1 Hd Hi Ht1 Hall) by done. rewrite Hv1 by done.
      pose proof (Z.div_mod v' 1024). pose proof (Z.mod_pos_bound v' 1024).
      repeat case_decide; try done; exfalso; rewrite elem_of_seqZ in *; intuition lia.
  - pose proof (vi_pde _ _ _ _ H d i Hd Hi) as H0. rewrite Ht in H0. rewrite H0, hasbits_0. cbn [negb].
    exists s, fl. split; [done|]. split; [done|]. split; [apply returned_refl; intros p; apply (ai_ref _ _ (vi_alloc _ _ _ _ H))|]. split_and!; try done.
    intros d' v' Hd' Hv'. case_decide as E; [|done]. destruct E as [-> E].
    apply vmap_empty_pte. by rewrite (pt_page_table _ _ i).
Qed.

(** Entries freed one after the other. *)
Lemma env_free_pdes_spec ds kref d e l : d ∈ ds -> Forall (λ i, 0 <= i < NUPDE) l -> forall s fl,
  vm_inv s ds fl kref -> env_pgdir (env s e) = kptr d 0 ->
  exists s' fl', kfor l (env_free_pde e) s = Ret tt s' /\ vm_inv s' ds fl' kref /\ returned s fl s' fl' /\ vm_frame s s' /\
    (forall k, k ∈ l -> rdw (mem s') d k = 0) /\
    (forall k, k ∉ l -> rdw (mem s') d k = rdw (mem s) d k) /\
    (forall q k, ~ table_page s d q -> rdw (mem s') q k = rdw (mem s) q k) /\
    (forall d' v', d' ∈ ds -> d' <> d -> 0 <= v' < NUVPN -> vmap (mem s') d' v' = vmap (mem s) d' v').
Proof.
  intros Hd. induction 1 as [|i l Hi Hl IH]; intros s fl H Hpg.
  - exists s, fl. split_and!; try done; [apply returned_refl; intros p; apply (ai_ref _ _ (vi_alloc _ _ _ _ H))|]. set_solver.
  - destruct (env_free_pde_spec ds kref d e s fl i Hd H Hpg Hi) as (s1 & fl1 & He1 & H1 & Hb1 & Hf1 & Hz1 & Hk1 & Hm1 & Hv1).
    destruct (IH s1 fl1 H1) as (s2 & fl2 & He2 & H2 & Hb2 & Hf2 & Hz2 & Hk2 & Hm2 & Hv2).
    { unfold env. by rewrite (vf_envs _ _ Hf1). }
    exists s2, fl2. split_and!; [|done|by eapply returned_trans|by etrans| | | |].
    + simpl. by rewrite (bind_Ret _ _ _ _ _ He1).
    + intros k Hk. destruct (decide (k ∈ l)) as [Hin|Hout]; [by apply Hz2|].
      rewrite Hk2 by done. by apply elem_of_cons in Hk as [->|].
    + intros k Hk. rewrite Hk2, Hk1 by set_solver. done.
    + intros q k Hq. rewrite Hm2; [by apply Hm1|]. intros [->|(v & Hv & Hp)]; apply Hq; [by left|].
      right. exists v. split; [done|]. unfold pt_page in *.
      destruct (decide (v / 1024 = i)) as [E|E]; [by rewrite E, Hz1, hasbits_0 in Hp|]. by rewrite Hk1 in Hp.
    + intros d' v' Hd' Hne Hv'. rewrite Hv2, Hv1 by done. rewrite decide_False; [done|]. naive_solver.
Qed.

Lemma PADDR_kptr p i s : 0 <= p -> 0 <= i -> PADDR (kptr p i) s = Ret (p * 4096 + 4 * i) s.
Proof.
  intros. unfold PADDR. destruct (Z.ltb_spec (kptr p i) KERNBASE); unfold kptr in *; [lia|].
  unfold mret, K_ret. f_equal. lia.
Qed.

Lemma PDX_UTOP : PDX UTOP = NUPDE.
Proof. done. Qed.

(** The part of the state that [env_free] and its callers rely on. *)
Record env_frame (s s' : kstate) : Prop := {
  ef_npages : npages s' = npages s;
  ef_kern_pgdir : kern_pgdir s' = kern_pgdir s;
  ef_cpunum : cpunum s' = cpunum s;
  ef_klock : klock s' = klock s;
  ef_other_cpus : forall c, c <> cpunum s -> cpus s' !! c = cpus s !! c;
  ef_status : cpu_status (thiscpu s') = cpu_status (thiscpu s);
  ef_curenv : curenv s' = curenv s
}.

Lemma vm_env_frame s s' : vm_frame s s' -> env_frame s s'.
Proof. intros []. by constructor. Qed.

#[export] Instance env_frame_trans : Transitive env_frame.
Proof.
  intros s1 s2 s3 H1 H2. destruct H1 as [A1 A2 A3 A4 A5 A6 A7], H2 as [B1 B2 B3 B4 B5 B6 B7].
  constructor; try congruence. intros c Hc. rewrite B5 by congruence. by apply A5.
Qed.

(** Loading [%cr3] with the kernel's directory. *)
Definition cr3_state (pa : Z) (s : kstate) : kstate :=
  set_thiscpu (mkCpu (cpu_status (thiscpu s)) (cpu_env (thiscpu s)) pa ∅) s.

Lemma thiscpu_set_thiscpu c s : thiscpu (set_thiscpu c s) = c.
Proof. unfold thiscpu, set_thiscpu. simpl. by rewrite lookup_insert_eq. Qed.

Lemma env_frame_cr3 pa s : env_frame s (cr3_state pa s).
Proof.
  constructor; try done; unfold cr3_state, curenv; rewrite ?thiscpu_set_thiscpu; try done.
  intros c Hc. simpl. by rewrite lookup_insert_ne.
Qed.

Lemma env_upd_eq i f s : env (upd_env i f s) i = f (env s i).
Proof. unfold env at 1. simpl. by rewrite lookup_insert_eq. Qed.

Lemma env_upd_ne i j f s : i <> j -> env (upd_env i f s) j = env s j.
Proof. intros. unfold env at 1. simpl. by rewrite lookup_insert_ne. Qed.

Lemma env_frame_upd i f s : env_frame s (upd_env i f s).
Proof. by constructor. Qed.

(** After [env_free]: the environment's slot heads the free list, its pages
    are free, the other environments and address spaces are as before. *)
Record env_freed (ds' : list Z) (d e : Z) (s s' : kstate) : Prop := {
  fr_frame : env_frame s s';
  fr_env : env s' e = set_env_link (env_free_list s)
                        (set_env_status ENV_FREE (set_env_pgdir 0 (env s e)));
  fr_others : forall e', e' <> e -> env s' e' = env s e';
  fr_dom : dom (envs s') = dom (envs s) ∪ {[e]};
  fr_list : env_free_list s' = Some e;
  fr_mem : forall q k, ~ table_page s d q -> rdw (mem s') q k = rdw (mem s) q k;
  fr_view : forall d' v', d' ∈ ds' -> 0 <= v' < NUVPN -> vmap (mem s') d' v' = vmap (mem s) d' v'
}.

(** The body of [env_free] after the possible switch to the kernel's directory. *)
Definition env_free_rest (e : Z) : K unit :=
  kfor (seqZ 0 (PDX UTOP)) (env_free_pde e) ;;
  dir ← get (λ s, env_pgdir (env s e));
  pa ← PADDR dir;
  modify (upd_env e (set_env_pgdir 0)) ;;
  pp ← pa2page pa;
  page_decref pp ;;
  modify (upd_env e (set_env_status ENV_FREE)) ;;
  modify (λ s, upd_env e (set_env_link (env_free_list s)) s) ;;
  modify (set_env_free_list (Some e)).

Lemma env_free_rest_spec s ds ds' fl kref d e :
  vm_inv s ds fl kref -> ds ≡ₚ d :: ds' -> env_pgdir (env s e) = kptr d 0 ->
  exists s' fl', env_free_rest e s = Ret tt s' /\ vm_inv s' ds' (d :: fl') kref /\ returned s fl s' (d :: fl') /\ env_freed ds' d e s s'.
Proof.
  intros H Hp Hpg. assert (Hd : d ∈ ds) by (rewrite Hp; apply list_elem_of_here).
  unfold env_free_rest. rewrite PDX_UTOP.
  assert (Hl : Forall (λ i, 0 <= i < NUPDE) (seqZ 0 NUPDE)).
  { apply list.Forall_forall. intros i Hi%elem_of_seqZ. lia. }
  destruct (env_free_pdes_spec ds kref d e _ Hd Hl s fl H Hpg)
    as (s1 & fl1 & He1 & H1 & Hb1 & Hf1 & Hz1 & _ & Hm1 & Hv1).
  kstep by (exact He1). rewrite bind_get.
  assert (Hpg1 : env s1 e = env s e) by (unfold env; by rewrite (vf_envs _ _ Hf1)).
  rewrite Hpg1, Hpg. pose proof (dir_range H1 d Hd) as Hdr. kstep by (apply PADDR_kptr; lia).
  rewrite bind_modify, Z.add_0_r. kstep by (by apply pa2page_page).
  set (s2 := upd_env e (set_env_pgdir 0) s1).
  assert (H2 : vm_inv s2 (d :: ds') fl1 kref).
  { eapply vm_inv_perm; [exact Hp|]. by eapply (vm_inv_frame s1). }
  destruct (vm_drop_dir s2 ds' fl1 kref d H2) as [He2 H3].
  { intros i Hi. apply Hz1. apply elem_of_seqZ. lia. }
  kstep by (exact He2). rewrite !bind_modify. set (s3 := decref_state d s2) in *.
  destruct (decref_state_frame d s2) as (Hnp & Hmem & Henv & Hcpus & Hcn & Hkp & Hfl & Hkl).
  fold s3 in Hnp, Hmem, Henv, Hcpus, Hcn, Hkp, Hfl, Hkl.
  assert (Henv3 : forall x, env s3 x = env s2 x) by (intros x; unfold env; by rewrite Henv).
  eexists _, _. split; [done|]. split; [by eapply (vm_inv_frame s3)|].
  split; [apply (returned_trans _ _ _ _ _ _ Hb1), (returned_refs _ _ s2 _ s3); [by apply (dir_returned s2 ds' fl1 kref d)|done..]|].
  assert (Hfree : env_free_list s3 = env_free_list s) by (rewrite Hfl; apply (vf_env_free_list _ _ Hf1)).
  constructor.
  - etrans; [apply vm_env_frame, Hf1|].
    constructor; simpl; try done; unfold curenv, thiscpu; simpl; rewrite ?Hcpus, ?Hcn; done.
  - change (env (set_env_free_list ?v ?x) e) with (env x e). rewrite !env_upd_eq.
    change (env_free_list (upd_env e ?f ?x)) with (env_free_list x). rewrite Hfree, Henv3.
    subst s2. by rewrite env_upd_eq, Hpg1.
  - intros e' Hne. change (env (set_env_free_list ?v ?x) e') with (env x e').
    rewrite !env_upd_ne, Henv3 by done. subst s2. rewrite env_upd_ne by done.
    unfold env. by rewrite (vf_envs _ _ Hf1).
  - simpl. rewrite !dom_insert_L, Henv. simpl. rewrite dom_insert_L, (vf_envs _ _ Hf1). clear. set_solver.
  - done.
  - intros q k Hq. simpl. rewrite Hmem. simpl. by apply Hm1.
  - intros d' v' Hd' Hv'. simpl. rewrite Hmem. simpl. apply Hv1; [|..|done].
    + rewrite Hp. by apply list_elem_of_further.
    + intros ->. pose proof (vi_nodup _ _ _ _ H2) as Hnd. by apply list.NoDup_cons in Hnd as [? _].
Qed.

Lemma env_free_spec s ds ds' fl kref kd d e :
  vm_inv s ds fl kref -> ds ≡ₚ d :: ds' -> env_pgdir (env s e) = kptr d 0 ->
  kern_pgdir s = kptr kd 0 -> 0 <= kd ->
  exists s' fl', env_free e s = Ret tt s' /\ vm_inv s' ds' (d :: fl') kref /\ returned s fl s' (d :: fl') /\ env_freed ds' d e s s'.
Proof.
  intros H Hp Hpg Hkd Hkd0.
  change (env_free e) with
    (c ← get curenv;
     (if bool_decide (c = Some e) then kd ← get kern_pgdir; kpa ← PADDR kd; lcr3 kpa else mret tt) ;;
     env_free_rest e).
  rewrite bind_get. case_bool_decide as Hc.
  - rewrite bind_assoc, bind_get, Hkd, bind_assoc. kstep by (by apply PADDR_kptr).
    unfold lcr3. rewrite bind_modify. set (s0 := set_thiscpu _ s).
    destruct (env_free_rest_spec s0 ds ds' fl kref d e) as (s' & fl' & He & Hi & Hb & Hfr); [|done|done|].
    { by eapply (vm_inv_frame s). }
    exists s', fl'. split; [done|]. split; [done|]. split; [by apply (returned_refs _ _ s0 _ s')|]. destruct Hfr. constructor; try done.
    etrans; [apply (env_frame_cr3 (kd * 4096 + 4 * 0))|done].
  - rewrite bind_mret. by eapply env_free_rest_spec.
Qed.

(** ** [env_setup_vm] *)

(** The kernel's directory: page [kd], nothing mapped below [UTOP]. *)
Record kern_dir (s : kstate) (kd : Z) (ds fl : list Z) : Prop := {
  kd_ptr : kern_pgdir s = kptr kd 0;
  kd_range : 0 <= kd < npages s;
  kd_free : kd ∉ fl;
  kd_user : forall i, 0 <= i < NUPDE -> rdw (mem s) kd i = 0
}.

(** The state after [env_setup_vm] gave environment [e] the directory at [p]. *)
Definition setup_state (e p kd : Z) (s : kstate) : kstate :=
  let s1 := upd_env e (set_env_pgdir (kptr p 0)) (zero_page p (take_page p s)) in
  let s2 := set_mem (<[p := page_of (mem s1) kd]> (mem s1)) s1 in
  let s3 := set_pp_ref p 1 s2 in
  set_mem (wrw (mem s3) p (PDX UVPT) (p * 4096 + 5)) s3.

Lemma env_setup_vm_nomem s e : alloc_inv s [] -> env_setup_vm e s = Ret (- E_NO_MEM) s.
Proof. intros H. unfold env_setup_vm. by kstep by (by apply page_alloc_nil). Qed.

Lemma PGNUM_kptr p : PGNUM (kptr p 0 - KERNBASE) = p.
Proof. unfold kptr. rewrite PGNUM_div. replace (KERNBASE + p * 4096 + 4 * 0 - KERNBASE) with (p * 4096) by lia. by rewrite Z.div_mul. Qed.

Lemma env_setup_vm_run s ds fl kref e p kd :
  vm_inv s ds (p :: fl) kref -> kern_dir s kd ds (p :: fl) ->
  env_setup_vm e s = Ret 0 (setup_state e p kd s).
Proof.
  intros H Hk. pose proof (vi_np H) as Hnp. pose proof (vi_alloc _ _ _ _ H) as Ha.
  pose proof (ai_in_range _ _ p Ha (list_elem_of_here p fl)) as Hp.
  unfold env_setup_vm. kstep by (by eapply page_alloc_cons). change (hasbits ALLOC_ZERO ALLOC_ZERO) with true.
  cbv iota. kstep by (apply page2kva_page; simpl; lia). rewrite bind_modify, !bind_get.
  rewrite env_upd_eq. cbn [env_pgdir set_env_pgdir].
  change (kern_pgdir (upd_env e ?f ?x)) with (kern_pgdir s). rewrite (kd_ptr _ _ _ _ Hk).
  unfold memcpy_page. rewrite bind_modify, !PGNUM_kptr, bind_modify.
  set (s2 := set_mem _ (upd_env e _ _)).
  assert (pp_ref (pg s2 p) = 0) as ->.
  { change (pp_ref (pg (take_page p s) p) = 0). rewrite take_page_ref.
    apply (ai_free _ _ Ha). apply list_elem_of_here. }
  kstep by (apply PADDR_kptr; lia). change (u16 (0 + 1)) with 1.
  rewrite kptr_add, kptr_u32 by (try done; lia).
  kstep by (apply store_kptr; [lia|done]). unfold mret, K_ret. f_equal. unfold setup_state.
  change (set_mem (<[p := _]> _) _) with s2. do 3 f_equal.
  rewrite <- Z.lor_assoc. change (PTE_P .| PTE_U) with 5. rewrite Z.mul_0_r, Z.add_0_r.
  rewrite lor_page_low by lia. apply u32_small. lia.
Qed.

Lemma setup_state_mem s ds fl kref e p kd q i :
  vm_inv s ds (p :: fl) kref -> kern_dir s kd ds (p :: fl) ->
  rdw (mem (setup_state e p kd s)) q i =
    if decide (q = p) then if decide (i = PDX UVPT) then p * 4096 + 5 else rdw (mem s) kd i
    else rdw (mem s) q i.
Proof.
  intros H Hk. assert (Hkp : kd <> p) by (intros ->; apply (kd_free _ _ _ _ Hk); apply list_elem_of_here).
  unfold setup_state. cbn [mem set_mem]. case_decide as Eq; [subst q; case_decide as Ei; [subst i|]|].
  - apply rdw_wrw_eq.
  - rewrite rdw_wrw_ne by (right; congruence). cbn [mem set_mem upd_env set_pp_ref set_pg set_pages set_env set_envs].
    unfold rdw. rewrite page_of_insert_eq. simpl. by rewrite page_of_insert_ne.
  - rewrite rdw_wrw_ne by (left; congruence). cbn [mem set_mem upd_env set_pp_ref set_pg set_pages set_env set_envs].
    rewrite rdw_insert_ne by congruence. simpl. by rewrite rdw_insert_ne.
Qed.

Lemma setup_state_ref s ds fl kref e p kd q :
  vm_inv s ds (p :: fl) kref ->
  pp_ref (pg (setup_state e p kd s) q) = pp_ref (pg s q) + is_ref (Some p) q.
Proof.
  intros H. pose proof (ai_free _ _ (vi_alloc _ _ _ _ H) p (list_elem_of_here p fl)) as H0.
  unfold setup_state. change (pg (set_mem ?m ?x) q) with (pg x q). unfold set_pp_ref.
  destruct (decide (p = q)) as [<-|].
  - rewrite pg_set_pg_eq, is_ref_eq. simpl. lia.
  - rewrite pg_set_pg_ne, is_ref_ne by done. change (pg (set_mem ?m ?x) q) with (pg (take_page p s) q).
    rewrite take_page_ref. lia.
Qed.

Lemma vm_setup s ds fl kref e p kd :
  vm_inv s ds (p :: fl) kref -> kern_dir s kd ds (p :: fl) ->
  vm_inv (setup_state e p kd s) (p :: ds) fl kref.
Proof.
  intros H Hk. pose proof (vi_alloc _ _ _ _ H) as Ha.
  eapply vm_add_dir; [exact H| |done|..].
  - pose proof (ai_in_range _ _ p Ha (list_elem_of_here p fl)).
    pose proof (ai_nodup _ _ Ha) as Hnd. apply list.NoDup_cons in Hnd as [Hp _].
    eapply (alloc_inv_frame (set_pp_ref p 1 (take_page p s))); try done.
    apply alloc_inv_set_ref; [by apply take_page_inv|done|done|lia].
  - intros q. by eapply setup_state_ref.
  - intros q i Hq. erewrite setup_state_mem by done. by rewrite decide_False.
  - intros i Hi. erewrite setup_state_mem by done. rewrite decide_True, decide_False; [|unfold NUPDE in *; vm_compute; lia|done].
    by apply (kd_user _ _ _ _ Hk).
Qed.
