(* ===== verification/EnvInv.v ===== *)
(** * The environment table

    Identifiers and their reuse, the free list of environments, and the
    invariant that ties the environment table to the page tables: every
    environment in use has its own page directory, every directory belongs to
    an environment, and all share the kernel's part of the address space. *)

From S2P Require Import Prelude Console LibString Mmu Printf E1000 Machine KernLib Spinlock PageAlloc PageTable Vm VmSpec Env EnvVm.

(** ** Identifiers *)

(** The identifiers slot [i] can have: generation [g] in the bits from 12 up. *)
Definition env_gen_id (i g : Z) : Z := 4096 * g + i.

Definition NGEN : Z := 524288.

Definition id_ok (i id : Z) : Prop := id = 0 \/ exists g, 1 <= g < NGEN /\ id = env_gen_id i g.

Lemma land_lnot_1023 x : Z.land x (Z.lnot (NENV - 1)) = x / 1024 * 1024.
Proof.
  change (NENV - 1) with (Z.ones 10). rewrite <- Z.ldiff_land, Z.ldiff_ones_r, Z.shiftl_mul_pow2, Z.shiftr_div_pow2 by lia.
  done.
Qed.

Lemma lor_slot x i : 0 <= i < 1024 -> x * 1024 .| i = x * 1024 + i.
Proof.
  intros Hi. pose proof (Z.add_lor_land (x * 1024) i) as H.
  assert (Z.land (x * 1024) i = 0) as E; [|lia].
  apply Z.bits_inj'. intros n Hn. rewrite Z.land_spec, Z.bits_0.
  destruct (Z.ltb_spec n 10).
  - replace (x * 1024) with (Z.shiftl x 10) by (rewrite Z.shiftl_mul_pow2; done).
    by rewrite Z.shiftl_spec_low.
  - assert (Z.testbit i n = false) as ->; [|apply andb_false_r].
    destruct (decide (i = 0)) as [->|]; [apply Z.bits_0|]. apply Z.bits_above_log2; [lia|].
    assert (Z.log2 i < 10) by (apply Z.log2_lt_pow2; lia). lia.
Qed.

Lemma next_env_id_0 i : 0 <= i < NENV -> next_env_id 0 i = env_gen_id i 1.
Proof. intros. unfold next_env_id, env_gen_id. change (_ <=? 0) with false. apply (lor_slot 4). lia. Qed.

Lemma next_env_id_gen i g :
  0 <= i < NENV -> 1 <= g < NGEN ->
  next_env_id (env_gen_id i g) i = env_gen_id i (if g + 1 =? NGEN then 1 else g + 1).
Proof.
  unfold NGEN. intros Hi Hg. unfold next_env_id, env_gen_id. change (Z.shiftl 1 ENVGENSHIFT) with 4096.
  rewrite land_lnot_1023. destruct (Z.eqb_spec (g + 1) 524288).
  - assert (s32 (4096 * g + i + 4096) = i - 2147483648) as ->.
    { unfold s32. rewrite (u32_small (4096 * g + i + 4096)) by lia.
      destruct (Z.ltb_spec (4096 * g + i + 4096) 2147483648); lia. }
    assert ((i - 2147483648) / 1024 * 1024 <=? 0 = true) as ->.
    { apply Z.leb_le. pose proof (Z.div_le_upper_bound (i - 2147483648) 1024 0). lia. }
    rewrite <- (lor_slot 4) by lia. done.
  - assert (s32 (4096 * g + i + 4096) = (4 * (g + 1)) * 1024 + i) as ->.
    { unfold s32. rewrite u32_small by lia. destruct (Z.ltb_spec (4096 * g + i + 4096) 2147483648); lia. }
    rewrite Z.div_add_l, (Z.div_small i), Z.add_0_r by lia.
    destruct (Z.leb_spec (4 * (g + 1) * 1024) 0); [lia|]. rewrite lor_slot by lia. lia.
Qed.

Lemma ENVX_gen i g : 0 <= i < NENV -> ENVX (env_gen_id i g) = i.
Proof.
  intros. rewrite ENVX_mod. unfold env_gen_id. replace (4096 * g + i) with (i + (4 * g) * 1024) by lia.
  rewrite Z.mod_add by lia. apply Z.mod_small. lia.
Qed.

Lemma next_env_id_ok i id :
  0 <= i < NENV -> id_ok i id ->
  id_ok i (next_env_id id i) /\ 0 < next_env_id id i < 2147483648 /\ ENVX (next_env_id id i) = i /\
  next_env_id id i <> id.
Proof.
  intros Hi [->|(g & Hg & ->)].
  - rewrite next_env_id_0 by done. rewrite ENVX_gen by done. unfold NGEN, env_gen_id, id_ok, env_gen_id.
    split_and!; try lia. right. exists 1. unfold NGEN. lia.
  - rewrite next_env_id_gen by done. rewrite ENVX_gen by done. unfold NGEN in *.
    destruct (Z.eqb_spec (g + 1) 524288); unfold env_gen_id, id_ok, env_gen_id, NGEN; split_and!; try lia; right; eexists; split; try reflexivity; lia.
Qed.

(** The identifier after the slot was reused [k] times. *)
Definition reuse_id (i : Z) (k : nat) (id : Z) : Z := Nat.iter k (λ x, next_env_id x i) id.

Lemma reuse_id_gen i g k :
  0 <= i < NENV -> 1 <= g < NGEN ->
  reuse_id i k (env_gen_id i g) = env_gen_id i ((g - 1 + Z.of_nat k) mod (NGEN - 1) + 1).
Proof.
  intros Hi Hg. induction k as [|k IH].
  - change (reuse_id i 0 ?x) with x. change (Z.of_nat 0) with 0. rewrite Z.add_0_r, Z.mod_small by lia. f_equal. lia.
  - change (reuse_id i (S k) ?x) with (next_env_id (reuse_id i k x) i). rewrite IH. set (r := (g - 1 + Z.of_nat k) mod (NGEN - 1)).
    pose proof (Z.mod_pos_bound (g - 1 + Z.of_nat k) (NGEN - 1) ltac:(unfold NGEN; lia)) as Hr. fold r in Hr.
    rewrite next_env_id_gen by lia. f_equal.
    replace (g - 1 + Z.of_nat (S k)) with (g - 1 + Z.of_nat k + 1) by lia.
    rewrite <- (Zplus_mod_idemp_l (g - 1 + Z.of_nat k)). fold r. unfold NGEN in *.
    destruct (Z.eqb_spec (r + 1 + 1) 524288).
    + replace (r + 1) with (524288 - 1) by lia. by rewrite Z.mod_same.
    + rewrite (Z.mod_small (r + 1)); lia.
Qed.

(** ** The system invariant *)

(** The environments on the list that starts at [hd]. *)
Fixpoint echain (E : Z -> Env) (hd : option Z) (l : list Z) : Prop :=
  match l with
  | [] => hd = None
  | x :: l' => hd = Some x /\ echain E (env_link (E x)) l'
  end.

Lemma echain_ext E E' hd l :
  (forall x, x ∈ l -> env_link (E' x) = env_link (E x)) -> echain E hd l -> echain E' hd l.
Proof.
  revert hd. induction l as [|x l IH]; intros hd H; simpl; [done|].
  intros [-> Hc]. split; [done|]. rewrite H by apply list_elem_of_here. apply IH; [|done].
  intros y Hy. apply H. by apply list_elem_of_further.
Qed.

Definition live (e : Env) : Prop := env_status e <> ENV_FREE.

(** [ds]: the directories of the environments in use; [fl]: the free pages;
    [el]: the free environments; [kref]: the kernel's own references;
    [kd]: the kernel's directory. *)
Record sys_inv (s : kstate) (ds fl el : list Z) (kref : Z -> Z) (kd : Z) : Prop := {
  sy_vm : vm_inv s ds fl kref;
  sy_kptr : kern_pgdir s = kptr kd 0;
  sy_krange : 0 <= kd < npages s;
  sy_kref : 1 <= kref kd;
  sy_kuser : forall i, 0 <= i < NUPDE -> rdw (mem s) kd i = 0;
  sy_chain : echain (env s) (env_free_list s) el;
  sy_nodup : NoDup el;
  sy_free : forall i, i ∈ el <-> 0 <= i < NENV /\ env_status (env s i) = ENV_FREE;
  sy_id : forall i, 0 <= i < NENV -> id_ok i (env_id (env s i)) /\
            (live (env s i) -> env_id (env s i) <> 0);
  sy_dir : forall i, 0 <= i < NENV -> live (env s i) ->
             exists d, d ∈ ds /\ env_pgdir (env s i) = kptr d 0;
  sy_inj : forall i j, 0 <= i < NENV -> 0 <= j < NENV -> live (env s i) -> live (env s j) ->
             env_pgdir (env s i) = env_pgdir (env s j) -> i = j;
  sy_owner : forall d, d ∈ ds -> exists i, 0 <= i < NENV /\ live (env s i) /\ env_pgdir (env s i) = kptr d 0;
  sy_kern : forall d i, d ∈ ds -> NUPDE <= i < 1024 ->
              rdw (mem s) d i = if decide (i = PDX UVPT) then d * 4096 + 5 else rdw (mem s) kd i
}.

Lemma kptr_inj p q i : kptr p i = kptr q i -> p = q.
Proof. unfold kptr. lia. Qed.

Section SysInv.
  Context {s : kstate} {ds fl el : list Z} {kref : Z -> Z} {kd : Z} (H : sys_inv s ds fl el kref kd).

(** The kernel's directory is neither free nor part of an environment's tables. *)
Lemma sy_kd_plain : plain (mem s) ds kd /\ kd ∉ fl.
  Proof using H.
    destruct H as [Hvm _ Hr Hk _ _ _ _ _ _ _ _ _]. split.
    - intros x Hx Hs Ht. pose proof (vi_excl _ _ _ _ Hvm x kd Hx Hs Ht).
      assert (1 <= count (target (mem s)) (slots ds) kd); [|lia].
      apply (count_pos _ _ x); [by apply elem_of_slots|done].
    - intros Hin. destruct (free_count Hvm kd Hin) as [E _]. lia.
  Qed.

Lemma sy_kern_dir : kern_dir s kd ds fl.
  Proof using H.
    destruct sy_kd_plain as [_ Hf]. destruct H. by constructor.
  Qed.

(** A step of the page table code. *)
Lemma sys_vm_step s' fl' kref' :
    vm_inv s' ds fl' kref' -> kref' kd = kref kd -> vm_frame s s' -> mem_frame ds fl (mem s) (mem s') ->
    sys_inv s' ds fl' el kref' kd.
  Proof using H.
    intros Hv Hk Hf [Hm1 Hm2]. destruct sy_kd_plain as [Hp Hfl].
    assert (Henv : forall i, env s' i = env s i) by (intros i; unfold env; by rewrite (vf_envs _ _ Hf)).
    destruct H. constructor; try done.
    - by rewrite (vf_kern_pgdir _ _ Hf).
    - by rewrite (vf_npages _ _ Hf).
    - lia.
    - intros i Hi. rewrite Hm1 by done. auto.
    - rewrite (vf_env_free_list _ _ Hf). eapply echain_ext; [|done]. intros x _. by rewrite Henv.
    - intros i. rewrite Henv. apply sy_free0.
    - intros i. rewrite Henv. apply sy_id0.
    - intros i. rewrite Henv. apply sy_dir0.
    - intros i j. rewrite !Henv. apply sy_inj0.
    - intros d Hd. destruct (sy_owner0 d Hd) as (i & Hi). exists i. by rewrite Henv.
    - intros d i Hd Hi. rewrite Hm2, Hm1 by (done || lia). auto.
  Qed.

(** A step that updates fields of one environment in use, leaving alone its
    identifier, directory and list link. *)
Lemma sys_env_step s' e :
    vm_inv s' ds fl kref -> mem s' = mem s -> kern_pgdir s' = kern_pgdir s -> npages s' = npages s ->
    env_free_list s' = env_free_list s -> 0 <= e < NENV -> live (env s e) -> live (env s' e) ->
    env_id (env s' e) = env_id (env s e) -> env_pgdir (env s' e) = env_pgdir (env s e) ->
    (forall i, i <> e -> env s' i = env s i) ->
    sys_inv s' ds fl el kref kd.
  Proof using H.
    intros Hv Hm Hkp Hnp Hfl He Hl Hl' Hid Hpg Hoth.
    assert (Hlive : forall i, live (env s' i) <-> live (env s i)).
    { intros i. destruct (decide (i = e)) as [->|]; [tauto|]. by rewrite Hoth. }
    assert (Hids : forall i, env_id (env s' i) = env_id (env s i)).
    { intros i. destruct (decide (i = e)) as [->|]; [done|]. by rewrite Hoth. }
    assert (Hpgs : forall i, env_pgdir (env s' i) = env_pgdir (env s i)).
    { intros i. destruct (decide (i = e)) as [->|]; [done|]. by rewrite Hoth. }
    destruct H. constructor; try done; rewrite ?Hm, ?Hkp, ?Hnp, ?Hfl; try done.
    - eapply echain_ext; [|done]. intros x Hx. rewrite Hoth; [done|]. intros ->. by apply sy_free0 in Hx as [_ ?].
    - intros i. rewrite sy_free0. unfold live in *. destruct (decide (i = e)) as [->|]; [tauto|]. by rewrite Hoth.
    - intros i. rewrite Hids, Hlive. apply sy_id0.
    - intros i. rewrite Hpgs, Hlive. apply sy_dir0.
    - intros i j. rewrite !Hpgs, !Hlive. apply sy_inj0.
    - intros d Hd. destruct (sy_owner0 d Hd) as (i & Hi). exists i. by rewrite Hpgs, Hlive.
  Qed.
End SysInv.

(** ** Allocating an environment *)

Definition alloc_env_state (e p kd parent : Z) (s : kstate) : kstate :=
  let s1 := upd_env e (fresh_env e parent) (setup_state e p kd s) in
  set_env_free_list (env_link (env s1 e)) s1.

(** Only the environment table changes after [env_setup_vm]. *)
Lemma alloc_env_frame e p kd parent s :
  let s1 := setup_state e p kd s in
  mem (alloc_env_state e p kd parent s) = mem s1 /\ npages (alloc_env_state e p kd parent s) = npages s1 /\
  pages (alloc_env_state e p kd parent s) = pages s1 /\
  page_free_list (alloc_env_state e p kd parent s) = page_free_list s1 /\
  kern_pgdir (alloc_env_state e p kd parent s) = kern_pgdir s1.
Proof.
  intros s1. unfold alloc_env_state. fold s1. clearbody s1. unfold upd_env, set_env.
  cbn [mem npages pages page_free_list kern_pgdir set_env_free_list set_envs]. done.
Qed.

Lemma env_setup_env e p kd s i :
  env (setup_state e p kd s) i = if decide (i = e) then set_env_pgdir (kptr p 0) (env s e) else env s i.
Proof.
  assert (envs (setup_state e p kd s) = envs (upd_env e (set_env_pgdir (kptr p 0)) s)) as Es.
  { unfold setup_state, set_pp_ref, set_pg. cbn [envs set_mem set_pages]. done. }
  unfold env at 1. rewrite Es. fold (env (upd_env e (set_env_pgdir (kptr p 0)) s) i).
  case_decide as E; [subst; by rewrite env_upd_eq|by rewrite env_upd_ne by congruence].
Qed.

Lemma alloc_env_env e p kd parent s i :
  env (alloc_env_state e p kd parent s) i =
    if decide (i = e) then fresh_env e parent (set_env_pgdir (kptr p 0) (env s e)) else env s i.
Proof.
  unfold alloc_env_state. generalize (env_setup_env e p kd s). generalize (setup_state e p kd s).
  intros s1 Hs1. cbv zeta. generalize (env_link (env (upd_env e (fresh_env e parent) s1) e)). intros l.
  assert (env (set_env_free_list l (upd_env e (fresh_env e parent) s1)) i =
          env (upd_env e (fresh_env e parent) s1) i) as -> by done.
  case_decide as E.
  - subst. rewrite env_upd_eq, Hs1. by rewrite decide_True.
  - rewrite env_upd_ne by congruence. rewrite Hs1. by rewrite decide_False.
Qed.

Lemma setup_state_frame e p kd s :
  npages (setup_state e p kd s) = npages s /\ kern_pgdir (setup_state e p kd s) = kern_pgdir s.
Proof.
  unfold setup_state, set_pp_ref, set_pg, upd_env, set_env, take_page, set_pp_link, set_pg.
  cbn [npages kern_pgdir set_mem set_pages set_envs zero_page set_page_free_list]. done.
Qed.

Lemma env_alloc_run s ds fl el kref kd e p parent :
  sys_inv s ds (p :: fl) (e :: el) kref kd ->
  env_alloc parent s = Ret (0, Some e) (alloc_env_state e p kd parent s).
Proof.
  intros H. destruct (sy_chain _ _ _ _ _ _ H) as [Hhd _]. unfold env_alloc. rewrite bind_get, Hhd.
  kstep by (eapply env_setup_vm_run; [apply (sy_vm _ _ _ _ _ _ H)|apply (sy_kern_dir H)]).
  change (0 <? 0) with false. cbv iota. by rewrite bind_modify, bind_get, bind_modify.
Qed.

Lemma env_alloc_nomem s ds e el kref kd parent :
  sys_inv s ds [] (e :: el) kref kd -> env_alloc parent s = Ret (- E_NO_MEM, None) s.
Proof.
  intros H. destruct (sy_chain _ _ _ _ _ _ H) as [Hhd _]. unfold env_alloc. rewrite bind_get, Hhd.
  by kstep by (apply env_setup_vm_nomem, (vi_alloc _ _ _ _ (sy_vm _ _ _ _ _ _ H))).
Qed.

Lemma env_alloc_noenv s ds fl kref kd parent :
  sys_inv s ds fl [] kref kd -> env_alloc parent s = Ret (- E_NO_FREE_ENV, None) s.
Proof.
  intros H. unfold env_alloc. rewrite bind_get. by rewrite (sy_chain _ _ _ _ _ _ H).
Qed.

Lemma alloc_env_inv s ds fl el kref kd e p parent :
  sys_inv s ds (p :: fl) (e :: el) kref kd ->
  sys_inv (alloc_env_state e p kd parent s) (p :: ds) fl el kref kd.
Proof.
  intros H. pose proof (sy_vm _ _ _ _ _ _ H) as Hv. pose proof (sy_kern_dir H) as Hk.
  destruct (sy_kd_plain H) as [Hkp Hkf].
  assert (Hkdp : kd <> p) by (intros ->; apply Hkf, list_elem_of_here).
  assert (Hpd : p ∉ ds).
  { intros Hin. by apply (free_not_target Hv (SDir p) p (list_elem_of_here p fl)). }
  pose proof (sy_nodup _ _ _ _ _ _ H) as Hnd. apply list.NoDup_cons in Hnd as [Hne Hnd].
  destruct (proj1 (sy_free _ _ _ _ _ _ H e) (list_elem_of_here e el)) as [He Hfree].
  destruct (alloc_env_frame e p kd parent s) as (Emem & Enp & Epg & Efl & Ekp).
  assert (Hmem : forall q i, rdw (mem (alloc_env_state e p kd parent s)) q i =
    if decide (q = p) then if decide (i = PDX UVPT) then p * 4096 + 5 else rdw (mem s) kd i
    else rdw (mem s) q i) by (intros q i; rewrite Emem; by eapply setup_state_mem).
  destruct (setup_state_frame e p kd s) as [Enp' Ekp'].
  assert (Hoth : forall i, live (env s i) -> i <> e) by (intros i Hi ->; by apply Hi).
  pose proof (alloc_env_env e p kd parent s) as Henv.
  constructor.
  - apply (vm_inv_frame _ _ _ _ _ Enp Epg Efl Emem). by apply vm_setup.
  - rewrite Ekp, Ekp'. apply (sy_kptr _ _ _ _ _ _ H).
  - rewrite Enp, Enp'. apply (sy_krange _ _ _ _ _ _ H).
  - apply (sy_kref _ _ _ _ _ _ H).
  - intros i Hi. rewrite Hmem, decide_False by done. by apply (sy_kuser _ _ _ _ _ _ H).
  - destruct (sy_chain _ _ _ _ _ _ H) as [_ Hc]. unfold alloc_env_state at 2. cbn [env_free_list set_env_free_list].
    rewrite env_upd_eq, env_setup_env, decide_True by done.
    cbn [env_link fresh_env set_env_ipc_recving set_env_pgfault_upcall set_env_tf set_env_runs
         set_env_status set_env_type set_env_parent_id set_env_id set_env_pgdir].
    eapply echain_ext; [|exact Hc]. intros x Hx. rewrite Henv. rewrite decide_False; [done|]. by intros ->.
  - done.
  - intros i. rewrite Henv. case_decide as E.
    + subst. split; [done|]. by intros [_ ?].
    + rewrite <- (sy_free _ _ _ _ _ _ H i), elem_of_cons. naive_solver.
  - intros i Hi. rewrite Henv. case_decide as E; [subst|by apply (sy_id _ _ _ _ _ _ H)].
    destruct (sy_id _ _ _ _ _ _ H e He) as [Hid _]. destruct (next_env_id_ok e _ He Hid) as (A & B & _).
    split; [exact A|]. cbn [env_id fresh_env]. intros _. cbn. lia.
  - intros i Hi. rewrite Henv. case_decide as E.
    + intros _. exists p. split; [apply list_elem_of_here|done].
    + intros Hl. destruct (sy_dir _ _ _ _ _ _ H i Hi Hl) as (d & Hd & Hp). exists d.
      split; [by apply list_elem_of_further|done].
  - intros i j Hi Hj. rewrite !Henv. case_decide as E1; case_decide as E2; try congruence.
    + intros _ Hl Hp. destruct (sy_dir _ _ _ _ _ _ H j Hj Hl) as (d & Hd & Hp').
      cbn [env_pgdir fresh_env] in Hp. cbn in Hp. rewrite Hp' in Hp. apply kptr_inj in Hp. subst. done.
    + intros Hl _ Hp. destruct (sy_dir _ _ _ _ _ _ H i Hi Hl) as (d & Hd & Hp').
      cbn in Hp. rewrite Hp' in Hp. apply kptr_inj in Hp. subst. done.
    + by apply (sy_inj _ _ _ _ _ _ H).
  - intros d [->|Hd]%elem_of_cons.
    + exists e. rewrite Henv, decide_True by done. done.
    + destruct (sy_owner _ _ _ _ _ _ H d Hd) as (i & Hi & Hl & Hp). exists i.
      rewrite Henv, decide_False by auto. done.
  - intros d i Hd Hi. rewrite (Hmem kd), (decide_False (P := kd = p)) by done. rewrite Hmem.
    case_decide as E; [by subst|]. apply (sy_kern _ _ _ _ _ _ H); [|done].
    apply elem_of_cons in Hd as [?|?]; done.
Qed.

(** ** Freeing an environment *)

Lemma env_free_inv s ds fl el kref kd e :
  sys_inv s ds fl el kref kd -> 0 <= e < NENV -> live (env s e) ->
  exists s' d ds' fl', env_free e s = Ret tt s' /\ ds ≡ₚ d :: ds' /\ env_pgdir (env s e) = kptr d 0 /\
    sys_inv s' ds' (d :: fl') (e :: el) kref kd /\ returned s fl s' (d :: fl') /\ env_freed ds' d e s s'.
Proof.
  intros H He Hl. destruct (sy_dir _ _ _ _ _ _ H e He Hl) as (d & Hd & Hpg).
  apply elem_of_Permutation in Hd as Hperm. destruct Hperm as (ds' & Hp).
  pose proof (sy_vm _ _ _ _ _ _ H) as Hv. destruct (sy_kd_plain H) as [Hkp Hkf].
  pose proof (sy_krange _ _ _ _ _ _ H) as Hkr.
  destruct (env_free_spec s ds ds' fl kref kd d e Hv Hp Hpg (sy_kptr _ _ _ _ _ _ H) ltac:(lia))
    as (s' & fl' & Hrun & Hv' & Hret & Hfr). exists s', d, ds', fl'. split_and!; try done.
  assert (Hnd : d ∉ ds').
  { pose proof (vi_nodup _ _ _ _ Hv) as Hnd. rewrite Hp in Hnd. by apply list.NoDup_cons in Hnd as [? _]. }
  assert (Hsub : forall x, x ∈ ds' -> x ∈ ds) by (intros x Hx; rewrite Hp; by apply list_elem_of_further).
  assert (Hntab : forall q, q ∈ ds' \/ q = kd -> ~ table_page s d q).
  { intros q Hq [->|(v & Hvr & Ht)].
    - destruct Hq as [Hq| ->]; [done|]. by apply (Hkp (SDir kd)).
    - destruct Hq as [Hq| ->]; [by apply (table_not_dir Hv d v q q Hd Hvr Ht (Hsub q Hq))|].
      by apply (plain_not_table Hv d v kd kd). }
  assert (Henv : forall i, i <> e -> env s' i = env s i) by apply (fr_others _ _ _ _ _ Hfr).
  assert (Hee : env_status (env s' e) = ENV_FREE) by (by rewrite (fr_env _ _ _ _ _ Hfr)).
  assert (Hnel : e ∉ el).
  { intros Hin. by apply (sy_free _ _ _ _ _ _ H) in Hin as [_ ?]. }
  assert (Hlv : forall i, live (env s' i) -> i <> e /\ live (env s i)).
  { intros i Hi. destruct (decide (i = e)) as [->|Hne]; [done|]. by rewrite Henv in Hi. }
  destruct Hfr as [Hframe Hfe _ _ Hfl' Hmem _].
  constructor.
  - done.
  - rewrite (ef_kern_pgdir _ _ Hframe). apply (sy_kptr _ _ _ _ _ _ H).
  - rewrite (ef_npages _ _ Hframe). done.
  - apply (sy_kref _ _ _ _ _ _ H).
  - intros i Hi. rewrite Hmem by (apply Hntab; by right). by apply (sy_kuser _ _ _ _ _ _ H).
  - split; [done|]. rewrite Hfe. cbn [env_link set_env_link]. eapply echain_ext; [|apply (sy_chain _ _ _ _ _ _ H)].
    intros x Hx. rewrite Henv; [done|]. by intros ->.
  - apply list.NoDup_cons. split; [done|apply (sy_nodup _ _ _ _ _ _ H)].
  - intros i. rewrite elem_of_cons, (sy_free _ _ _ _ _ _ H i). destruct (decide (i = e)) as [->|Hne]; [naive_solver|].
    rewrite Henv by done. naive_solver.
  - intros i Hi. destruct (sy_id _ _ _ _ _ _ H i Hi) as [A B]. destruct (decide (i = e)) as [->|Hne].
    + rewrite Hfe. split; [exact A|]. intros Hlive. exfalso. by apply Hlive.
    + by rewrite Henv.
  - intros i Hi Hli. destruct (Hlv i Hli) as [Hne Hls]. rewrite Henv by done.
    destruct (sy_dir _ _ _ _ _ _ H i Hi Hls) as (d' & Hd' & Hp'). exists d'. split; [|done].
    rewrite Hp in Hd'. apply elem_of_cons in Hd' as [->|]; [|done].
    exfalso. apply Hne. by apply (sy_inj _ _ _ _ _ _ H); try done; congruence.
  - intros i j Hi Hj Hli Hlj. destruct (Hlv i Hli) as [Hni Hlsi], (Hlv j Hlj) as [Hnj Hlsj].
    rewrite !Henv by done. by apply (sy_inj _ _ _ _ _ _ H).
  - intros d' Hd'. destruct (sy_owner _ _ _ _ _ _ H d' (Hsub d' Hd')) as (i & Hi & Hli & Hpi).
    exists i. assert (i <> e). { intros ->. rewrite Hpg in Hpi. apply kptr_inj in Hpi. by subst. }
    by rewrite Henv.
  - intros d' i Hd' Hi. rewrite !Hmem by (apply Hntab; auto). by apply (sy_kern _ _ _ _ _ _ H); auto.
Qed.

(** Steps that touch neither memory management nor the environment table. *)
Lemma sys_inv_same s s' ds fl el kref kd :
  npages s' = npages s -> pages s' = pages s -> page_free_list s' = page_free_list s ->
  mem s' = mem s -> kern_pgdir s' = kern_pgdir s -> envs s' = envs s ->
  env_free_list s' = env_free_list s ->
  sys_inv s ds fl el kref kd -> sys_inv s' ds fl el kref kd.
Proof.
  intros E1 E2 E3 E4 E5 E6 E7 H. assert (Henv : forall i, env s' i = env s i) by (intros i; unfold env; by rewrite E6).
  destruct H. constructor; rewrite ?E1, ?E4, ?E5, ?E7; try done.
  - by apply (vm_inv_frame s _ _ _ _ E1 E2 E3 E4).
  - eapply echain_ext; [|done]. intros x _. by rewrite Henv.
  - intros i. rewrite Henv. apply sy_free0.
  - intros i. rewrite Henv. apply sy_id0.
  - intros i. rewrite Henv. apply sy_dir0.
  - intros i j. rewrite !Henv. apply sy_inj0.
  - intros d Hd. destruct (sy_owner0 d Hd) as (i & Hi). exists i. by rewrite Henv.
Qed.

Lemma sys_inv_thiscpu c s ds fl el kref kd :
  sys_inv s ds fl el kref kd -> sys_inv (set_thiscpu c s) ds fl el kref kd.
Proof. by apply sys_inv_same. Qed.

Lemma sys_inv_klock l s ds fl el kref kd :
  sys_inv s ds fl el kref kd -> sys_inv (set_klock l s) ds fl el kref kd.
Proof. by apply sys_inv_same. Qed.

Lemma curenv_set_curenv e s : curenv (set_curenv e s) = e.
Proof. unfold curenv, set_curenv. by rewrite thiscpu_set_thiscpu. Qed.

Lemma env_set_thiscpu c s i : env (set_thiscpu c s) i = env s i.
Proof. done. Qed.
