(* ===== verification/EnvSpec.v ===== *)
(** * What the environment code promises

    [env_init], [env_alloc], [env_free] and [envid2env] against the system
    invariant of [EnvInv], and how long identifiers stay unique. *)

From S2P Require Import Prelude Console LibString Mmu Printf E1000 Machine KernLib Spinlock PageAlloc PageTable Vm VmSpec Env EnvVm EnvInv.

(** ** [env_init] *)

Definition init_env_state (i : Z) (s : kstate) : kstate :=
  upd_env i (set_env_status ENV_FREE) (upd_env i (set_env_id 0)
    (set_env_free_list (Some i) (upd_env i (set_env_link (env_free_list s)) s))).

Lemma init_env_env i s j :
  env (init_env_state i s) j =
    if decide (j = i) then set_env_status ENV_FREE (set_env_id 0 (set_env_link (env_free_list s) (env s i)))
    else env s j.
Proof.
  unfold init_env_state. generalize (env_free_list s). intros l. case_decide as E.
  - subst. rewrite !env_upd_eq. f_equal. f_equal.
    assert (env (set_env_free_list (Some i) (upd_env i (set_env_link l) s)) i =
            env (upd_env i (set_env_link l) s) i) as -> by done.
    by rewrite env_upd_eq.
  - rewrite !env_upd_ne by congruence.
    assert (env (set_env_free_list (Some i) (upd_env i (set_env_link l) s)) j =
            env (upd_env i (set_env_link l) s) j) as -> by done.
    by rewrite env_upd_ne by congruence.
Qed.

(** What a stretch of the loop leaves alone. *)
Definition env_only (s s' : kstate) : Prop :=
  npages s' = npages s /\ pages s' = pages s /\ page_free_list s' = page_free_list s /\
  mem s' = mem s /\ kern_pgdir s' = kern_pgdir s /\ cpus s' = cpus s /\ cpunum s' = cpunum s /\
  klock s' = klock s.

Lemma env_init_loop l s :
  NoDup l -> env_free_list s = None ->
  exists s', kfor (reverse l) env_init_body s = Ret tt s' /\ echain (env s') (env_free_list s') l /\
    (forall i, i ∈ l -> env_status (env s' i) = ENV_FREE /\ env_id (env s' i) = 0) /\ env_only s s'.
Proof.
  intros Hnd Hn. induction l as [|x l IH].
  - exists s. split_and!; try done. intros i Hi. by apply elem_of_nil in Hi.
  - apply list.NoDup_cons in Hnd as [Hx Hnd]. destruct (IH Hnd) as (s1 & Hrun & Hc & Hall & Hf).
    exists (init_env_state x s1). pose proof (init_env_env x s1) as Henv. split_and!.
    + rewrite reverse_cons. by rewrite (kfor_app _ _ _ _ _ Hrun).
    + split; [done|]. rewrite Henv, decide_True by done. cbn [env_link set_env_status set_env_id set_env_link].
      eapply echain_ext; [|exact Hc]. intros y Hy. rewrite Henv. rewrite decide_False; [done|]. by intros ->.
    + intros i Hi. rewrite Henv. case_decide; [done|]. apply elem_of_cons in Hi as [?|?]; [done|by apply Hall].
    + exact Hf.
Qed.

Lemma env_init_list l s fl kref kd :
  NoDup l -> (forall i, i ∈ l <-> 0 <= i < NENV) ->
  vm_inv s [] fl kref -> kern_pgdir s = kptr kd 0 -> 0 <= kd < npages s -> 1 <= kref kd ->
  (forall i, 0 <= i < NUPDE -> rdw (mem s) kd i = 0) ->
  exists s', kfor (reverse l) env_init_body (set_env_free_list None s) = Ret tt s' /\
    sys_inv s' [] fl l kref kd /\ env_only s s'.
Proof.
  intros Hnd Hin Hv Hkp Hkr Hk Hz.
  destruct (env_init_loop l (set_env_free_list None s)) as (s' & Hrun & Hc & Hall & Hf); [done|done|].
  exists s'. destruct Hf as (F1 & F2 & F3 & F4 & F5 & F6 & F7 & F8).
  split; [done|]. split; [|done].
  assert (Hdead : forall i, 0 <= i < NENV -> ~ live (env s' i)).
  { intros i Hi Hl. by apply Hl, Hall, Hin. }
  constructor.
  - by apply (vm_inv_frame s _ _ _ _ F1 F2 F3 F4).
  - by rewrite F5.
  - by rewrite F1.
  - done.
  - by rewrite F4.
  - done.
  - done.
  - intros i. rewrite Hin. split; [|tauto]. intros Hi. split; [done|]. by apply Hall, Hin.
  - intros i Hi. destruct (Hall i) as [A B]; [by apply Hin|]. rewrite B. split; [by left|]. intros Hl. by apply Hl in A.
  - intros i Hi Hl. by apply Hdead in Hl.
  - intros i j Hi _ Hl. by apply Hdead in Hl.
  - intros d Hd. by apply elem_of_nil in Hd.
  - intros d i Hd. by apply elem_of_nil in Hd.
Qed.

Lemma env_init_inv s fl kref kd :
  vm_inv s [] fl kref -> kern_pgdir s = kptr kd 0 -> 0 <= kd < npages s -> 1 <= kref kd ->
  (forall i, 0 <= i < NUPDE -> rdw (mem s) kd i = 0) ->
  exists s', env_init s = Ret tt s' /\ sys_inv s' [] fl (seqZ 0 NENV) kref kd /\ env_only s s'.
Proof.
  intros Hv Hkp Hkr Hk Hz. unfold env_init. rewrite bind_modify.
  assert (Hin : forall i, i ∈ seqZ 0 NENV <-> 0 <= i < NENV) by (intros i; rewrite elem_of_seqZ; lia).
  pose proof (NoDup_seqZ 0 NENV) as Hnd. revert Hin Hnd. generalize (seqZ 0 NENV). intros l Hin Hnd.
  by apply env_init_list.
Qed.

(** ** A sample system: no environment yet, the kernel's directory at page 256 *)

Definition sys_boot : kstate := set_kern_pgdir (kptr 256 0) vm_base.
Definition sys_sample : kstate := match env_init sys_boot with Ret _ s => s | Exit _ s => s end.

Lemma vm_inv_set_kern_pgdir s v ds fl kref :
  vm_inv s ds fl kref -> vm_inv (set_kern_pgdir v s) ds fl kref.
Proof. by apply vm_inv_frame. Qed.

Lemma sys_sample_inv : sys_inv sys_sample [] page_sample_free (seqZ 0 NENV) vm_sample_kref 256.
Proof.
  destruct (env_init_inv sys_boot page_sample_free vm_sample_kref 256) as (s' & He & Hi & _).
  - apply vm_inv_set_kern_pgdir, vm_inv_nil, vm_base_inv.
  - reflexivity.
  - split; vm_compute; congruence.
  - vm_compute. congruence.
  - intros i Hi. assert (mem sys_boot = ∅) as -> by (vm_compute; reflexivity). reflexivity.
  - unfold sys_sample. rewrite He. exact Hi.
Qed.

(** The same with environment 0 allocated at directory 279, and current on this CPU. *)
Definition sys_sample1 : kstate := set_curenv (Some 0) (alloc_env_state 0 279 256 0 sys_sample).

Definition sys_sample1_free : list Z := tl page_sample_free.

Lemma sys_sample_split : sys_inv sys_sample [] (279 :: sys_sample1_free) (0 :: seqZ 1 1023) vm_sample_kref 256.
Proof.
  pose proof sys_sample_inv as H.
  replace page_sample_free with (279 :: sys_sample1_free) in H by (vm_compute; reflexivity).
  rewrite seqZ_cons in H by lia. exact H.
Qed.

Lemma sys_sample1_inv : sys_inv sys_sample1 [279] sys_sample1_free (seqZ 1 1023) vm_sample_kref 256.
Proof. apply sys_inv_thiscpu, alloc_env_inv, sys_sample_split. Qed.

Lemma sys_sample1_env :
  env sys_sample1 0 = fresh_env 0 0 (set_env_pgdir (kptr 279 0) (env sys_sample 0)) /\
  curenv sys_sample1 = Some 0.
Proof.
  split; [|apply curenv_set_curenv]. unfold sys_sample1, set_curenv. cbv zeta.
  rewrite env_set_thiscpu, alloc_env_env. by rewrite decide_True.
Qed.

Lemma sys_sample1_live : live (env sys_sample1 0).
Proof. rewrite (proj1 sys_sample1_env). intros E. discriminate E. Qed.

(** ** Lookup by identifier *)

Lemma live_id s ds fl el kref kd i :
  sys_inv s ds fl el kref kd -> 0 <= i < NENV -> live (env s i) ->
  ENVX (env_id (env s i)) = i /\ env_id (env s i) <> 0.
Proof.
  intros H Hi Hl. destruct (sy_id _ _ _ _ _ _ H i Hi) as [[E|(g & Hg & E)] Hn]; [by apply Hn in Hl|].
  split; [|by apply Hn]. rewrite E. by apply ENVX_gen.
Qed.

(** An environment in use is found by its identifier, and only so. *)
Lemma envid2env_nocheck s envid :
  envid2env envid false s =
    if envid =? 0 then Ret (0, curenv s) s
    else if bool_decide (live (env s (ENVX envid)) /\ env_id (env s (ENVX envid)) = envid)
         then Ret (0, Some (ENVX envid)) s else Ret (- E_BAD_ENV, None) s.
Proof.
  unfold envid2env, live. destruct (envid =? 0); [by rewrite bind_get|]. rewrite !bind_get.
  case_bool_decide as E1; cbn [orb]; [by rewrite bool_decide_eq_false_2 by tauto|].
  destruct (Z.eqb_spec (env_id (env s (ENVX envid))) envid); cbn [negb];
    [by rewrite bool_decide_eq_true_2|by rewrite bool_decide_eq_false_2 by tauto].
Qed.

Lemma envid2env_check s envid c :
  curenv s = Some c ->
  envid2env envid true s =
    if envid =? 0 then Ret (0, Some c) s
    else if bool_decide (live (env s (ENVX envid)) /\ env_id (env s (ENVX envid)) = envid /\
             (ENVX envid = c \/ env_parent_id (env s (ENVX envid)) = env_id (env s c)))
         then Ret (0, Some (ENVX envid)) s else Ret (- E_BAD_ENV, None) s.
Proof.
  intros Hc. unfold envid2env, live. destruct (envid =? 0); [by rewrite bind_get, Hc|]. rewrite !bind_get.
  case_bool_decide as E1; cbn [orb]; [by rewrite bool_decide_eq_false_2 by tauto|].
  destruct (Z.eqb_spec (env_id (env s (ENVX envid))) envid); cbn [negb];
    [|by rewrite bool_decide_eq_false_2 by tauto].
  rewrite bind_get, Hc. case_bool_decide as E2.
  - injection E2 as ->. by rewrite bool_decide_eq_true_2 by tauto.
  - rewrite bind_get. unfold the_curenv. rewrite bind_assoc, bind_get, Hc, bind_mret, bind_get.
    destruct (Z.eqb_spec (env_parent_id (env s (ENVX envid))) (env_id (env s c))); cbn [negb].
    + by rewrite bool_decide_eq_true_2 by tauto.
    + rewrite bool_decide_eq_false_2; [done|]. intros (_ & _ & [E|?]); [|done]. by rewrite E in E2.
Qed.

(** The address spaces after [env_alloc]. *)
Lemma alloc_env_views s ds fl el kref kd e p parent :
  sys_inv s ds (p :: fl) (e :: el) kref kd ->
  (forall v, 0 <= v < NUVPN -> vmap (mem (alloc_env_state e p kd parent s)) p v = None) /\
  as_equiv ds (view (alloc_env_state e p kd parent s)) (view s).
Proof.
  intros H. pose proof (sy_vm _ _ _ _ _ _ H) as Hv. pose proof (sy_kern_dir H) as Hk. unfold view.
  destruct (alloc_env_frame e p kd parent s) as (Emem & _). rewrite Emem. split.
  - intros v Hvr. apply vmap_empty_pte. unfold pt_page. erewrite setup_state_mem by done.
    pose proof (vpn_pde v Hvr) as Hi. rewrite decide_True, decide_False; [|change (PDX UVPT) with 957; unfold NUPDE in Hi; lia|done].
    by rewrite (sy_kuser _ _ _ _ _ _ H), hasbits_0.
  - intros d v Hd Hvr. apply (same_vmap Hv); try done. intros x q i Hx Hs Hq. erewrite setup_state_mem by done.
    rewrite decide_False; [done|]. intros ->. by apply (free_not_target Hv x p (list_elem_of_here p fl)).
Qed.

(** ** Properties *)

(** C4: [env_alloc] either fails without effect, with [-E_NO_FREE_ENV] or
    [-E_NO_MEM], or takes the first free slot: the new environment is runnable
    with the parent given and cleared registers, has a page directory of its
    own with nothing mapped below [UTOP] and the kernel's mappings above, and a
    positive identifier that names its slot, differs from the slot's last one
    and from those of all environments in use; everything else is unchanged. *)
Theorem env_alloc_correct s ds fl el kref kd parent :
  sys_inv s ds fl el kref kd ->
  match el, fl with
  | [], _ => env_alloc parent s = Ret (- E_NO_FREE_ENV, None) s
  | _ :: _, [] => env_alloc parent s = Ret (- E_NO_MEM, None) s
  | e :: el', p :: fl' => exists s', env_alloc parent s = Ret (0, Some e) s' /\
      sys_inv s' (p :: ds) fl' el' kref kd /\
      env_status (env s' e) = ENV_RUNNABLE /\ env_parent_id (env s' e) = parent /\
      env_tf (env s' e) = new_tf /\ env_pgdir (env s' e) = kptr p 0 /\
      0 < env_id (env s' e) < 2147483648 /\ ENVX (env_id (env s' e)) = e /\
      env_id (env s' e) <> env_id (env s e) /\
      (forall i, 0 <= i < NENV -> i <> e -> env s' i = env s i /\
         (live (env s i) -> env_id (env s' i) <> env_id (env s' e))) /\
      (forall v, 0 <= v < NUVPN -> vmap (mem s') p v = None) /\
      (forall d v, d ∈ ds -> 0 <= v < NUVPN -> vmap (mem s') d v = vmap (mem s) d v)
  end.
Proof.
  intros H. destruct el as [|e el]; [by eapply env_alloc_noenv|].
  destruct fl as [|p fl]; [by eapply env_alloc_nomem|].
  exists (alloc_env_state e p kd parent s). split; [by eapply env_alloc_run|].
  split; [by apply alloc_env_inv|].
  destruct (proj1 (sy_free _ _ _ _ _ _ H e) (list_elem_of_here e el)) as [He Hfree].
  destruct (sy_id _ _ _ _ _ _ H e He) as [Hid _]. destruct (next_env_id_ok e _ He Hid) as (A & B & C & D).
  pose proof (alloc_env_env e p kd parent s) as Henv.
  destruct (alloc_env_views _ _ _ _ _ _ _ _ parent H) as [Hnew Hold].
  rewrite !(Henv e), !decide_True by done. do 4 (split; [done|]).
  split; [exact B|]. split; [exact C|]. split; [exact D|]. split; [|split].
  - intros i Hi Hne. rewrite Henv, decide_False by done. split; [done|]. intros Hl Heq.
    destruct (live_id _ _ _ _ _ _ i H Hi Hl) as [Ei _]. rewrite Heq in Ei. apply Hne. rewrite <- Ei. exact C.
  - exact Hnew.
  - exact Hold.
Qed.

Lemma env_alloc_correct_witness :
  exists s', env_alloc 0 sys_sample = Ret (0, Some 0) s' /\ env_status (env s' 0) = ENV_RUNNABLE /\
    ENVX (env_id (env s' 0)) = 0.
Proof.
  destruct (env_alloc_correct _ _ _ _ _ _ 0 sys_sample_split) as (s' & H1 & _ & H2 & _ & _ & _ & _ & H3 & _).
  exists s'. split; [exact H1|]. split; [exact H2|exact H3].
Defined.

(** The slots of the remaining address spaces keep their targets, so a page
    loses exactly the references that the freed directory held. *)
Lemma env_freed_refs s s' ds ds' fl fl' kref d e p :
  vm_inv s ds fl kref -> vm_inv s' ds' fl' kref -> ds ≡ₚ d :: ds' -> env_freed ds' d e s s' -> 0 <= p < npages s ->
  pp_ref (pg s' p) = pp_ref (pg s p) - count (target (mem s)) (slots [d]) p.
Proof.
  intros Hv Hv' Hp Hfr Hr. rewrite (vi_ref _ _ _ _ Hv') by (by rewrite (ef_npages _ _ (fr_frame _ _ _ _ _ Hfr))).
  assert (Hd : d ∈ ds) by (rewrite Hp; apply list_elem_of_here).
  rewrite (vi_ref _ _ _ _ Hv), (count_perm _ _ _ _ (slots_perm _ _ Hp)), (slots_cons d ds'), (slots_cons d []), !count_app by done.
  rewrite (count_ext (target (mem s')) (target (mem s)) (slots ds') p); [|].
  { assert (E0 : count (target (mem s)) (slots []) p = 0) by exact eq_refl. rewrite E0. generalize (count (target (mem s)) (slots ds') p).
    match goal with |- context [count (target (mem s)) ?l p] => generalize (count (target (mem s)) l p) end. intros. lia. }
  intros x Hx%elem_of_slots. pose proof (in_slots_dir _ _ Hx) as Hx'.
  assert (Hnt : ~ table_page s d (slot_dir x)).
  { pose proof (vi_nodup _ _ _ _ Hv) as Hnd. rewrite Hp in Hnd. apply list.NoDup_cons in Hnd as [Hnd _].
    intros [E|(v & Hvr & Ht)]; [by rewrite E in Hx'|]. apply (table_not_dir Hv d v _ (slot_dir x) Hd Hvr Ht); [|done].
    rewrite Hp. by apply list_elem_of_further. }
  destruct x as [d'|d' i|d' v]; cbn [target slot_dir] in *; [done| |].
  - unfold pt_page. by rewrite (fr_mem _ _ _ _ _ Hfr).
  - by rewrite (fr_view _ _ _ _ _ Hfr) by apply Hx.
Qed.

(** C5: [env_free] returns, and gives back everything: every page loses
    exactly as many references as the environment's directory, its directory
    entries and its page table entries held on it; the new page free list
    consists of the old one and of exactly the pages that lost their last
    reference so, the directory first; the slot is first on the environment
    free list with the status free; no other environment, no mapping of
    another environment and no contents of a page outside the freed tables
    change. *)
Theorem env_free_correct s ds fl el kref kd e :
  sys_inv s ds fl el kref kd -> 0 <= e < NENV -> live (env s e) ->
  exists s' d ds' fl', env_free e s = Ret tt s' /\ ds ≡ₚ d :: ds' /\ env_pgdir (env s e) = kptr d 0 /\
    sys_inv s' ds' (d :: fl') (e :: el) kref kd /\ env_status (env s' e) = ENV_FREE /\
    (forall p, 0 <= p < npages s -> pp_ref (pg s' p) = pp_ref (pg s p) - count (target (mem s)) (slots [d]) p) /\
    (forall p, p ∈ d :: fl' <-> p ∈ fl \/ 0 < pp_ref (pg s p) /\ pp_ref (pg s' p) = 0) /\
    (forall i, i <> e -> env s' i = env s i) /\
    (forall d' v, d' ∈ ds' -> 0 <= v < NUVPN -> vmap (mem s') d' v = vmap (mem s) d' v) /\
    (forall q k, ~ table_page s d q -> rdw (mem s') q k = rdw (mem s) q k).
Proof.
  intros H He Hl. destruct (env_free_inv s ds fl el kref kd e H He Hl) as (s' & d & ds' & fl' & Hrun & Hp & Hpg & Hi & Hret & Hfr).
  exists s', d, ds', fl'. split_and!; try done; [by rewrite (fr_env _ _ _ _ _ Hfr)| |apply Hret|apply Hfr..].
  intros p Hr. by apply (env_freed_refs s s' ds ds' fl (d :: fl') kref d e p (sy_vm _ _ _ _ _ _ H) (sy_vm _ _ _ _ _ _ Hi)).
Qed.

Lemma env_free_correct_witness :
  exists s2 fl', env_free 0 sys_sample1 = Ret tt s2 /\ env_status (env s2 0) = ENV_FREE /\ 279 ∉ sys_sample1_free /\
    alloc_inv s2 (279 :: fl') /\ page_free_list s2 = Some 279 /\ forall p, p ∈ sys_sample1_free -> p ∈ 279 :: fl'.
Proof.
  destruct (env_free_correct _ _ _ _ _ _ 0 sys_sample1_inv) as (s2 & d & ds' & fl' & Hf & Hp & _ & Hi & Hs & _ & Hl & _).
  - split; lia || reflexivity.
  - exact sys_sample1_live.
  - assert (d = 279) as -> by (apply Permutation_length_1 in Hp || (apply Permutation_singleton_l in Hp); congruence).
    pose proof (vi_alloc _ _ _ _ (sy_vm _ _ _ _ _ _ Hi)) as Ha. exists s2, fl'. split; [exact Hf|]. split; [exact Hs|].
    pose proof (ai_nodup _ _ (vi_alloc _ _ _ _ (sy_vm _ _ _ _ _ _ sys_sample_split))) as Hnd.
    split; [by apply list.NoDup_cons in Hnd as [? _]|]. split; [exact Ha|]. split; [apply (ai_chain _ _ Ha)|]. intros p Hin. apply Hl. by left.
Defined.

(** An identifier comes back only when its slot was reused 524287 times:
    before that no later identifier of the slot equals it, so that a stale
    identifier is not taken for a new environment. *)
Theorem env_ids_unique i g k :
  0 <= i < NENV -> 1 <= g < NGEN ->
  reuse_id i k (env_gen_id i g) = env_gen_id i g <-> (Z.of_nat k) mod (NGEN - 1) = 0.
Proof.
  intros Hi Hg. rewrite reuse_id_gen by done. unfold env_gen_id.
  assert (Hm : NGEN - 1 <> 0) by done.
  pose proof (Z.mod_pos_bound (g - 1 + Z.of_nat k) (NGEN - 1) ltac:(done)) as Hr.
  split; intros E.
  - assert (Er : (g - 1 + Z.of_nat k) mod (NGEN - 1) = (g - 1) mod (NGEN - 1)).
    { rewrite (Z.mod_small (g - 1)) by (unfold NGEN in *; lia). lia. }
    replace (Z.of_nat k) with (g - 1 + Z.of_nat k - (g - 1)) by lia.
    rewrite Zminus_mod, Er, Z.sub_diag. done.
  - rewrite <- Z.add_mod_idemp_r, E, Z.add_0_r, Z.mod_small by (unfold NGEN in *; lia). lia.
Qed.

Lemma env_ids_unique_witness :
  reuse_id 3 5 (env_gen_id 3 7) = env_gen_id 3 7 <-> (Z.of_nat 5) mod (NGEN - 1) = 0.
Proof. apply env_ids_unique; unfold NGEN; lia. Defined.

(** C29: [envid2env] with [checkperm] returns an environment exactly when the
    identifier names one in use (0 names the caller) that is the caller or a
    child of the caller, and otherwise [-E_BAD_ENV]; identifiers name at most
    one environment. *)
Theorem envid2env_permission s ds fl el kref kd c envid :
  sys_inv s ds fl el kref kd -> curenv s = Some c -> 0 <= c < NENV -> live (env s c) ->
  (exists e, envid2env envid true s = Ret (0, Some e) s /\ 0 <= e < NENV /\ live (env s e) /\
     (envid = 0 /\ e = c \/ envid = env_id (env s e)) /\
     (e = c \/ env_parent_id (env s e) = env_id (env s c)) /\
     forall e', 0 <= e' < NENV -> live (env s e') -> envid = env_id (env s e') -> e' = e) \/
  (envid2env envid true s = Ret (- E_BAD_ENV, None) s /\ envid <> 0 /\
     forall e, 0 <= e < NENV -> live (env s e) -> envid = env_id (env s e) ->
       e <> c /\ env_parent_id (env s e) <> env_id (env s c)).
Proof.
  intros H Hc Hcr Hcl. rewrite (envid2env_check s envid c Hc).
  assert (Hname : forall e, 0 <= e < NENV -> live (env s e) -> envid = env_id (env s e) ->
            ENVX envid = e /\ envid <> 0).
  { intros e He Hl ->. by eapply live_id. }
  destruct (Z.eqb_spec envid 0) as [->|Hn].
  - left. exists c. split; [done|]. split; [done|]. split; [done|]. split; [by left|]. split; [by left|].
    intros e' He' Hl' E. by destruct (Hname e' He' Hl' E).
  - case_bool_decide as E.
    + destruct E as (Hl & Hid & Hp). left. exists (ENVX envid).
      assert (0 <= ENVX envid < NENV) by (rewrite ENVX_mod; by apply Z.mod_pos_bound).
      split; [done|]. split; [done|]. split; [done|]. split; [by right|]. split; [done|].
      intros e' He' Hl' E. by destruct (Hname e' He' Hl' E).
    + right. split; [done|]. split; [done|]. intros e He Hl Eid.
      destruct (Hname e He Hl Eid) as [Ex _]. rewrite Ex in E. split; intros Eq; apply E; naive_solver.
Qed.

Lemma envid2env_permission_witness :
  (exists e, envid2env 0 true sys_sample1 = Ret (0, Some e) sys_sample1) /\
  envid2env 5 true sys_sample1 = Ret (- E_BAD_ENV, None) sys_sample1.
Proof.
  pose proof (proj2 sys_sample1_env) as Hc.
  split.
  - destruct (envid2env_permission _ _ _ _ _ _ 0 0 sys_sample1_inv Hc) as [(e & He & _ & _ & _ & _ & _)|(He & Hn & _)];
      [split; lia|exact sys_sample1_live| |exfalso; apply Hn; reflexivity].
    exists e. exact He.
  - destruct (envid2env_permission _ _ _ _ _ _ 0 5 sys_sample1_inv Hc) as [(e & _ & He & Hl & Hid & _)|(He & _)];
      [split; lia|exact sys_sample1_live| |exact He].
    exfalso. destruct Hid as [[Hid _]|Hid]; [discriminate Hid|].
    destruct (sy_id _ _ _ _ _ _ sys_sample1_inv e He) as [[E|(g & Hg & E)] _].
    + rewrite E in Hid. discriminate Hid.
    + unfold env_gen_id in E. unfold NGEN in Hg. rewrite E in Hid. lia.
Defined.
