(* ===== verification/Boot.v ===== *)
(** * Setting up virtual memory ([mem_init] of [kern/pmap.c])

    The boot-time construction of the kernel's address space: the amount of
    memory, the page directory, the arrays [pages] and [envs], the free list
    and its check, and the mappings above [UTOP].  The result is compared with
    the memory layout of [inc/memlayout.h] and with the invariant the system
    calls rely on.

    The contents of the clock's memory ([cmos], [kern/kclock.c]) and the
    addresses the linker chooses ([end], [bootstack], [percpu_kstacks]) are
    parameters.  The model reaches physical memory through the direct map from
    the start, where the code uses the 4 MB that [entry_pgdir] maps; that the
    page tables are all below 4 MB is part of what is proved.  The self-tests
    [check_page_alloc], [check_page], [check_kern_pgdir] and
    [check_page_installed_pgdir] and the flags of [%cr0] are left out. *)

From S2P Require Import Prelude Console LibString Mmu Printf E1000 Machine KernLib Spinlock PageAlloc PageTable Vm VmSpec FreeList Env EnvVm EnvInv EnvSpec.

Abbreviation sizeof_PageInfo := 8 (only parsing).
Abbreviation sizeof_Env := 124 (only parsing).
Abbreviation NVRAM_BASELO := 0x15 (only parsing).
Abbreviation NVRAM_EXTLO := 0x17 (only parsing).

(** ** The code *)

Section Code.
  Context (cmos : Z -> Z) (kend bootstack : Z) (percpu_kstacks : Z -> Z).

Definition mc146818_read (reg : Z) : Z := cmos reg.

Definition nvram_read (r : Z) : Z := s32 (mc146818_read r .| Z.shiftl (mc146818_read (r + 1)) 8).

Definition i386_detect_memory : K unit :=
  modify (set_npages_basemem (u32 (Z.quot (nvram_read NVRAM_BASELO * 1024) PGSIZE))) ;;
  let npages_extmem := u32 (Z.quot (nvram_read NVRAM_EXTLO * 1024) PGSIZE) in
  nb ← get npages_basemem;
  modify (set_npages (if negb (npages_extmem =? 0) then u32 (EXTPHYSMEM / PGSIZE + npages_extmem) else nb)) ;;
  n ← get npages;
  cprintf ("Physical memory: %uM available, base = %uK, extended = %uM" +:+ nl)
    [AW (u32 (n * PGSIZE) / (1024 * 1024)); AW (u32 (nb * PGSIZE) / 1024); AW (u32 (npages_extmem * PGSIZE) / (1024 * 1024))] ;;
  mret tt.

(** [boot_map_region(kern_pgdir, va, size, PADDR(kva), perm)] *)
Definition kern_map (va size kva perm : Z) : K unit :=
  pa ← PADDR kva;
  d ← get kern_pgdir;
  boot_map_region d va size pa perm.

Definition mem_init_mp : K unit :=
  kfor (seqZ 0 NCPU) (λ i,
    let stack_top := u32 (KSTACKTOP - i * (KSTKSIZE + KSTKGAP)) in
    let stack_bottom := u32 (stack_top - KSTKSIZE) in
    kern_map stack_bottom KSTKSIZE (percpu_kstacks i) (PTE_W .| PTE_P)).

(** The mappings of [mem_init]. *)
Definition mem_init_map (pages envs : Z) : K unit :=
  n ← get npages;
  kern_map UPAGES (u32 (sizeof_PageInfo * n)) pages (PTE_U .| PTE_P) ;;
  kern_map pages (u32 (sizeof_PageInfo * n)) pages (PTE_W .| PTE_P) ;;
  kern_map UENVS (sizeof_Env * NENV) envs (PTE_U .| PTE_P) ;;
  kern_map envs (sizeof_Env * NENV) envs (PTE_W .| PTE_P) ;;
  kern_map (KSTACKTOP - KSTKSIZE) KSTKSIZE bootstack (PTE_W .| PTE_P) ;;
  d ← get kern_pgdir;
  boot_map_region d KERNBASE (0xFFFFFFFF - KERNBASE) 0 (PTE_W .| PTE_P) ;;
  mem_init_mp.

(** The kernel's data structures and the free list. *)
Definition mem_init_data : K unit :=
  d ← boot_alloc kend PGSIZE;
  modify (set_kern_pgdir d) ;;
  memset0_page d ;;
  pa ← PADDR d;
  store (u32 (d + 4 * PDX UVPT)) (pa .| PTE_U .| PTE_P) ;;
  n ← get npages;
  pages ← boot_alloc kend (u32 (n * sizeof_PageInfo));
  modify (set_pages_va pages) ;;
  modify (set_pages (zero_pages n)) ;;
  envs ← boot_alloc kend (NENV * sizeof_Env);
  modify (set_envs_va envs) ;;
  page_init kend.

(** [mem_init] without the self-tests [check_page_alloc], [check_page],
    [check_kern_pgdir] and [check_page_installed_pgdir], and without the flags
    of [%cr0], which are not part of the state. *)
Definition mem_init : K unit :=
  i386_detect_memory ;;
  mem_init_data ;;
  check_page_free_list kend true ;;
  pages ← get pages_va;
  envs ← get envs_va;
  mem_init_map pages envs ;;
  d ← get kern_pgdir;
  pa ← PADDR d;
  lcr3 pa ;;
  check_page_free_list kend false.
End Code.

(** ** The kernel's page directory *)

(** How many entries above [UTOP] have no page table. *)
Definition absent (s : kstate) (kd : Z) : Z := count (λ i, Some (rdw (mem s) kd i)) (seqZ 955 69) 0.

(** The directory at page [kd] while the kernel is set up: every entry but the
    recursive one is empty or leads to a page table of its own, which is below
    4 MB and not on the free list; neither are the pages that the missing
    tables will take. *)
Record boot_inv (s : kstate) (kd : Z) (fl : list Z) : Prop := {
  bo_alloc : alloc_inv s fl;
  bo_range : 0 <= kd < npages s;
  bo_dir : kd ∉ fl;
  bo_ref : 1 <= pp_ref (pg s kd);
  bo_low : forall p, p ∈ take (Z.to_nat (absent s kd)) fl -> p < 1024;
  bo_pde : forall i, 0 <= i < 1024 -> i <> 957 -> rdw (mem s) kd i = 0 \/
    exists t, rdw (mem s) kd i = t * 4096 + 7 /\ 0 <= t < npages s /\ t <> kd /\ t ∉ fl /\ t < 1024;
  bo_inj : forall i j, 0 <= i < 1024 -> 0 <= j < 1024 -> i <> 957 -> j <> 957 ->
    rdw (mem s) kd i <> 0 -> rdw (mem s) kd i = rdw (mem s) kd j -> i = j
}.

(** A page that can be mapped: not above the recursive entry. *)
Definition mappable (v : Z) : Prop := 0 <= v < 1048576 /\ v / 1024 <> 957.

Lemma vpn_index v : 0 <= v < 1048576 -> 0 <= v / 1024 < 1024 /\ 0 <= v mod 1024 < 1024.
Proof. intros. split; [split; [apply Z.div_pos; lia|apply Z.div_lt_upper_bound; lia]|apply Z.mod_pos_bound; lia]. Qed.

Section Boot.
  Context {s : kstate} {kd : Z} {fl : list Z} (H : boot_inv s kd fl).

Lemma boot_np : 0 < npages s <= 65536.
  Proof using H. apply (ai_np _ _ (bo_alloc _ _ _ H)). Qed.

Lemma boot_table v : mappable v ->
    pt_page (mem s) kd v = None /\ rdw (mem s) kd (v / 1024) = 0 \/
    exists t, pt_page (mem s) kd v = Some t /\ rdw (mem s) kd (v / 1024) = t * 4096 + 7 /\ 0 <= t < npages s /\ t <> kd /\ t ∉ fl.
  Proof using H.
    intros [Hv Hi]. destruct (vpn_index v Hv) as [Hr _]. unfold pt_page.
    destruct (bo_pde _ _ _ H (v / 1024) Hr Hi) as [E|(t & E & Ht & Htk & Htf & _)]; rewrite E.
    - left. by rewrite hasbits_0.
    - right. exists t. rewrite hasbits_page by lia. split; [|done]. simpl. f_equal. rewrite PGNUM_div, Z.div_add_l, Z.div_small by lia. lia.
  Qed.

Lemma boot_walkable v : mappable v -> walkable s kd v.
  Proof using H.
    intros Hv. split; [apply (bo_range _ _ _ H)|]. split; [apply boot_np|].
    destruct (boot_table v Hv) as [[-> E]|(t & -> & _ & Ht & _)]; done.
  Qed.

(** Two pages share a page table only when they share the entry. *)
Lemma boot_table_inj u v t : mappable u -> mappable v ->
    pt_page (mem s) kd u = Some t -> pt_page (mem s) kd v = Some t -> u / 1024 = v / 1024.
  Proof using H.
    intros Hu Hv Eu Ev.
    destruct (boot_table u Hu) as [[E _]|(t1 & E1 & R1 & _)]; [congruence|].
    destruct (boot_table v Hv) as [[E _]|(t2 & E2 & R2 & _)]; [congruence|].
    destruct Hu as [Hu Hu'], Hv as [Hv Hv']. destruct (vpn_index u Hu), (vpn_index v Hv).
    apply (bo_inj _ _ _ H); try done; [|congruence]. rewrite R1. assert (0 <= t1); [|lia].
    destruct (bo_pde _ _ _ H (u / 1024)) as [E|(t' & E & ? & _)]; [done..|lia|lia].
  Qed.
End Boot.

(** What the mapping code leaves alone. *)
Definition boot_frame (s s' : kstate) : Prop := vm_frame s s' /\ nextfree s' = nextfree s.

#[export] Instance boot_frame_trans : Transitive boot_frame.
Proof. intros s s1 s2 [A1 A2] [B1 B2]. split; [by etransitivity|congruence]. Qed.

(** What mapping the pages [v] to [v + n - 1] changes: entry [f u] for page [u]. *)
Record mapped (kd v n : Z) (f : Z -> Z) (s : kstate) (fl : list Z) (s' : kstate) (fl' : list Z) : Prop := {
  ma_inv : boot_inv s' kd fl';
  ma_list : absent s' kd <= absent s kd /\ fl' = drop (Z.to_nat (absent s kd - absent s' kd)) fl;
  ma_absent : absent s' kd <= Z.of_nat (length fl');
  ma_frame : boot_frame s s';
  ma_map : forall u, mappable u -> vmap (mem s') kd u = if decide (v <= u < v + n) then Some (f u) else vmap (mem s) kd u;
  ma_pde : forall i, 0 <= i < 1024 -> (forall u, v <= u < v + n -> u / 1024 <> i) -> rdw (mem s') kd i = rdw (mem s) kd i
}.

(** Storing an entry in a page table that exists. *)
Lemma boot_store s kd fl v t e :
  boot_inv s kd fl -> absent s kd <= Z.of_nat (length fl) -> mappable v -> pt_page (mem s) kd v = Some t -> hasbits e PTE_P = true ->
  mapped kd v 1 (λ _, e) s fl (set_mem (wrw (mem s) t (v mod 1024) e) s) fl.
Proof.
  intros H Ha Hv Ht He. destruct (boot_table H v Hv) as [[E _]|(t' & E & Hr & Htr & Htk & Htf)]; [congruence|].
  rewrite Ht in E. injection E as <-.
  assert (Hpde : forall i, rdw (wrw (mem s) t (v mod 1024) e) kd i = rdw (mem s) kd i).
  { intros i. apply rdw_wrw_ne. by left. }
  assert (Hpt : forall u, pt_page (wrw (mem s) t (v mod 1024) e) kd u = pt_page (mem s) kd u).
  { intros u. unfold pt_page. by rewrite Hpde. }
  assert (Hab : absent (set_mem (wrw (mem s) t (v mod 1024) e) s) kd = absent s kd).
  { unfold absent. cbn [mem set_mem]. apply count_ext. intros i _. cbn. by rewrite Hpde. }
  constructor; cbn [mem set_mem].
  - constructor; cbn [mem set_mem npages].
    + eapply alloc_inv_frame; [..|apply (bo_alloc _ _ _ H)]; done.
    + apply (bo_range _ _ _ H).
    + apply (bo_dir _ _ _ H).
    + apply (bo_ref _ _ _ H).
    + rewrite Hab. apply (bo_low _ _ _ H).
    + intros i Hi Hn. rewrite Hpde. by apply (bo_pde _ _ _ H).
    + intros i j Hi Hj. rewrite !Hpde. by apply (bo_inj _ _ _ H).
  - rewrite Hab, Z.sub_diag. by split.
  - by rewrite Hab.
  - split; [by apply vm_frame_eq|done].
  - intros u Hu. unfold vmap. rewrite Hpt. destruct (decide (v <= u < v + 1)) as [Ein|Eout].
    + assert (u = v) as -> by lia. by rewrite Ht, rdw_wrw_eq, He.
    + destruct (pt_page (mem s) kd u) as [t'|] eqn:Hu'; [|done]. rewrite rdw_wrw_ne; [done|].
      destruct (decide (t = t')) as [<-|]; [right|by left]. pose proof (boot_table_inj H u v t Hu Hv Hu' Ht) as Eq.
      intros Em. apply Eout. pose proof (Z.div_mod u 1024). pose proof (Z.div_mod v 1024). lia.
  - intros i _ _. apply Hpde.
Qed.

(** Creating a page table. *)
Section Create.
  Context {s : kstate} {kd v p : Z} {fl : list Z}.
  Context (H : boot_inv s kd (p :: fl)) (Hv : mappable v) (Hn : pt_page (mem s) kd v = None).

  Local Abbreviation s' := (new_table kd (v / 1024) p s) (only parsing).

Lemma create_page : 0 <= p < npages s /\ p <> kd.
  Proof using H.
    split; [apply (ai_in_range _ _ _ (bo_alloc _ _ _ H)), list_elem_of_here|].
    intros ->. apply (bo_dir _ _ _ H), list_elem_of_here.
  Qed.

Lemma create_pde i : rdw (mem s') kd i = if decide (i = v / 1024) then p * 4096 + 7 else rdw (mem s) kd i.
  Proof using H.
    destruct create_page as [_ Hpk]. cbn [new_table mem set_mem]. case_decide as E; [subst; apply rdw_wrw_eq|].
    rewrite rdw_wrw_ne by (right; congruence). cbn [mem set_pp_ref set_pg set_pages zero_page take_page set_mem].
    by apply rdw_insert_ne.
  Qed.

Lemma create_other q k : q <> kd -> q <> p -> rdw (mem s') q k = rdw (mem s) q k.
  Proof using H.
    intros Hk Hp. cbn [new_table mem set_mem]. rewrite rdw_wrw_ne by (left; congruence).
    cbn [mem set_pp_ref set_pg set_pages zero_page take_page set_mem]. apply rdw_insert_ne. congruence.
  Qed.

Lemma create_zero k : rdw (mem s') p k = 0.
  Proof using H.
    destruct create_page as [_ Hpk]. cbn [new_table mem set_mem]. rewrite rdw_wrw_ne by (left; congruence).
    cbn [mem set_pp_ref set_pg set_pages zero_page take_page set_mem]. apply rdw_zero_eq.
  Qed.

Lemma create_pt u : mappable u -> pt_page (mem s') kd u = if decide (u / 1024 = v / 1024) then Some p else pt_page (mem s) kd u.
  Proof using H.
    intros Hu. unfold pt_page. rewrite create_pde. case_decide; [|done]. rewrite hasbits_page by lia.
    rewrite PGNUM_div, Z.div_add_l, Z.div_small by lia. simpl. f_equal. lia.
  Qed.

Lemma create_alloc : alloc_inv s' fl.
  Proof using H.
    pose proof (bo_alloc _ _ _ H) as Ha. destruct create_page as [Hp _].
    pose proof (ai_nodup _ _ Ha) as Hnd. apply list.NoDup_cons in Hnd as [Hpf _].
    eapply (alloc_inv_frame (set_pp_ref p 1 (zero_page p (take_page p s)))); try done.
    apply alloc_inv_set_ref; [|done|done|lia].
    eapply (alloc_inv_frame (take_page p s)); try done. by apply take_page_inv.
  Qed.

Lemma create_absent : 955 <= v / 1024 -> absent s' kd = absent s kd - 1.
  Proof using All.
    intros Hlow. destruct Hv as [Hvr Hvi]. destruct (vpn_index v Hvr) as [Hi _]. destruct create_page as [Hp _].
    assert (H0 : rdw (mem s) kd (v / 1024) = 0).
    { destruct (boot_table H v Hv) as [[_ E]|(t & E & _)]; [done|congruence]. }
    unfold absent. rewrite (count_update (λ i, Some (rdw (mem s) kd i)) _ _ (v / 1024)).
    - rewrite H0, create_pde, decide_True, is_ref_eq by done. rewrite is_ref_ne by lia. lia.
    - apply NoDup_seqZ.
    - apply elem_of_seqZ. lia.
    - intros i _ Hne. by rewrite create_pde, decide_False.
  Qed.
Lemma create_inv : 955 <= v / 1024 -> boot_inv s' kd fl.
  Proof using All.
    intros Hlow.
    destruct create_page as [Hp Hpk]. pose proof (ai_nodup _ _ (bo_alloc _ _ _ H)) as Hnd. apply list.NoDup_cons in Hnd as [Hpf _].
    destruct Hv as [Hvr Hvi]. destruct (vpn_index v Hvr) as [Hi _].
    assert (H0 : rdw (mem s) kd (v / 1024) = 0).
    { destruct (boot_table H v Hv) as [[_ E]|(t & E & _)]; [done|congruence]. }
    assert (Hpos : 1 <= absent s kd) by (apply (count_pos _ _ (v / 1024)); [apply elem_of_seqZ; lia|cbn; by rewrite H0]).
    assert (Hne : forall i, 0 <= i < 1024 -> i <> 957 -> rdw (mem s) kd i <> p * 4096 + 7).
    { intros i Hir Hi' E. destruct (bo_pde _ _ _ H i Hir Hi') as [E'|(t & E' & _ & _ & Htf & _)]; [lia|].
      assert (t = p) as -> by lia. apply Htf, list_elem_of_here. }
    constructor.
    - apply create_alloc.
    - apply (bo_range _ _ _ H).
    - intros Hin. apply (bo_dir _ _ _ H). by apply list_elem_of_further.
    - etransitivity; [apply (bo_ref _ _ _ H)|]. cbn [new_table]. unfold set_pp_ref. apply Z.eq_le_incl. symmetry.
      transitivity (pp_ref (pg (set_pp_ref p 1 (zero_page p (take_page p s))) kd)); [done|]. unfold set_pp_ref. rewrite pg_set_pg_ne by congruence.
      apply (take_page_ref p kd s).
    - intros q Hq. apply (bo_low _ _ _ H). rewrite (create_absent Hlow) in Hq.
      replace (Z.to_nat (absent s kd)) with (S (Z.to_nat (absent s kd - 1))) by lia. by apply list_elem_of_further.
    - intros i Hir Hi'. rewrite create_pde. case_decide.
      + right. exists p. split; [done|]. split; [exact Hp|]. split; [done|]. split; [done|]. apply (bo_low _ _ _ H).
        replace (Z.to_nat (absent s kd)) with (S (Z.to_nat (absent s kd - 1))) by lia. apply list_elem_of_here.
      + destruct (bo_pde _ _ _ H i Hir Hi') as [E|(t & E & Ht & Htk & Htf & Htl)]; [by left|right]. exists t.
        split; [done|]. split; [exact Ht|]. split; [done|]. split; [|done]. intros Hin. apply Htf. by apply list_elem_of_further.
    - intros i j Hir Hjr Hi' Hj'. rewrite !create_pde. repeat case_decide; try congruence.
      + intros _ E. exfalso. by apply (Hne j).
      + intros _ E. exfalso. by apply (Hne i).
      + by apply (bo_inj _ _ _ H).
  Qed.

Lemma create_map u : mappable u -> vmap (mem s') kd u = vmap (mem s) kd u.
  Proof using All.
    intros Hu. unfold vmap. rewrite create_pt by done. case_decide as E.
    - rewrite create_zero, hasbits_0. unfold pt_page. rewrite E. fold (pt_page (mem s) kd v). by rewrite Hn.
    - destruct (boot_table H u Hu) as [[-> _]|(t & -> & _ & _ & Htk & Htf)]; [done|].
      rewrite create_other; [done..|]. intros ->. apply Htf, list_elem_of_here.
  Qed.

End Create.

(** One page. *)
Lemma boot_map_page s kd fl v e :
  boot_inv s kd fl -> absent s kd <= Z.of_nat (length fl) -> mappable v -> 955 <= v / 1024 ->
  0 <= e < 4294967296 -> hasbits e PTE_P = true ->
  exists s' fl', (pte ← pgdir_walk (kptr kd 0) (v * 4096) true; store pte e) s = Ret tt s' /\ mapped kd v 1 (λ _, e) s fl s' fl'.
Proof.
  intros H Ha Hv Hlow Her He. destruct (proj1 (conj Hv I)) as [Hvr Hvi]. destruct (vpn_index v Hvr) as [Hi Hj].
  assert (Hva : va_ok (v * 4096)) by (unfold va_ok; lia). assert (Epn : PGNUM (v * 4096) = v) by (rewrite PGNUM_div; by apply Z.div_mul).
  pose proof (boot_walkable H v Hv) as Hw. destruct (boot_table H v Hv) as [[Hn H0]|(t & Ht & _ & Htr & _)].
  - destruct fl as [|p fl].
    { exfalso. assert (1 <= absent s kd); [|simpl in Ha; lia].
      apply (count_pos _ _ (v / 1024)); [apply elem_of_seqZ; lia|cbn; by rewrite H0]. }
    destruct (create_page H) as [Hp _].
    set (s1 := new_table kd (v / 1024) p s).
    assert (Ht1 : pt_page (mem s1) kd v = Some p) by (unfold s1; rewrite (create_pt H) by done; by rewrite decide_True).
    pose proof (create_inv H Hv Hn Hlow) as H1. pose proof (create_absent H Hv Hn Hlow) as Ha1. fold s1 in H1, Ha1.
    assert (Hl1 : absent s1 kd <= Z.of_nat (length fl)) by (simpl in Ha; lia).
    assert (Hab1 : absent (set_mem (wrw (mem s1) p (v mod 1024) e) s1) kd = absent s1 kd).
    { unfold absent. cbn [mem set_mem]. apply count_ext. intros i _. cbn. rewrite rdw_wrw_ne; [done|]. left. by apply (create_page H). }
    pose proof (boot_store s1 kd fl v p e H1 Hl1 Hv Ht1 He) as [M1 [_ M6] M2 M3 M4 M5].
    eexists _, fl. split.
    + kstep by (eapply pgdir_walk_create; rewrite ?Epn; [done|done|done|apply (bo_alloc _ _ _ H)|apply (bo_dir _ _ _ H)]).
      rewrite Epn, store_kptr by lia. rewrite u32_small by lia. reflexivity.
    + clear M6. constructor; try done.
      * fold s1. rewrite Hab1, Ha1. split; [lia|]. by replace (absent s kd - (absent s kd - 1)) with 1 by lia.
      * intros u Hu. rewrite M4 by done. case_decide; [done|]. by apply (create_map H Hv Hn).
      * intros i Hir Hout. rewrite M5 by done. unfold s1. rewrite (create_pde H), decide_False; [done|]. intros ->. by apply (Hout v); [lia|].
  - exists (set_mem (wrw (mem s) t (v mod 1024) e) s), fl. split; [|by apply boot_store].
    kstep by (eapply pgdir_walk_present; rewrite ?Epn; done). rewrite Epn, store_kptr by lia. by rewrite u32_small by lia.
Qed.

Lemma mapped_nil s kd v f fl : boot_inv s kd fl -> absent s kd <= Z.of_nat (length fl) -> mapped kd v 0 f s fl s fl.
Proof. intros H Ha. constructor; try done.
  - by rewrite Z.sub_diag.
  - intros u Hu. by rewrite decide_False by lia. Qed.

Lemma mapped_cons kd v n f s s1 s2 fl fl1 fl2 :
  0 <= n -> mapped kd v 1 (λ _, f v) s fl s1 fl1 -> mapped kd (v + 1) n f s1 fl1 s2 fl2 -> mapped kd v (n + 1) f s fl s2 fl2.
Proof.
  intros Hn [A1 [A6 ->] A2 A3 A4 A5] [B1 [B6 ->] B2 B3 B4 B5]. constructor; try done.
  - split; [lia|]. rewrite drop_drop. f_equal. lia.
  - by etransitivity.
  - intros u Hu. rewrite B4, A4 by done. repeat case_decide; try lia; try done. by assert (u = v) as -> by lia.
  - intros i Hi Hout. rewrite B5, A5; [done|done| |done|]; intros u Hu; apply Hout; lia.
Qed.

Lemma boot_entry q perm : 0 <= q < 1048576 -> 0 <= perm < 4096 ->
  PTE_ADDR (q * 4096) .| perm .| PTE_P = pte_value q perm /\ 0 <= pte_value q perm < 4294967296.
Proof.
  intros Hq Hp. pose proof (perm_P_range perm ltac:(lia)). unfold pte_value.
  rewrite <- (Z.add_0_r (q * 4096)) at 1. rewrite PTE_ADDR_page by lia. rewrite <- Z.lor_assoc, lor_page_low by lia. lia.
Qed.

Lemma boot_map_loop_run n : forall s kd fl v q perm,
  boot_inv s kd fl -> absent s kd <= Z.of_nat (length fl) -> NUVPN <= v -> v + Z.of_nat n <= 1048576 ->
  (forall u, v <= u < v + Z.of_nat n -> u / 1024 <> 957) -> 0 <= q -> q + Z.of_nat n <= 1048576 -> 0 <= perm < 4096 ->
  exists s' fl', boot_map_loop n (kptr kd 0) (v * 4096) (q * 4096) perm s = Ret tt s' /\
    mapped kd v (Z.of_nat n) (λ u, pte_value (q + (u - v)) perm) s fl s' fl'.
Proof.
  induction n as [|n IH]; intros s kd fl v q perm H Ha Hv Hvn Hu Hq Hqn Hp.
  { exists s, fl. split; [done|]. by apply mapped_nil. }
  destruct (boot_entry q perm ltac:(lia) Hp) as [Ee Her].
  assert (Hvl : 977920 <= v) by exact Hv. assert (Hm : mappable v) by (split; [lia|apply Hu; lia]).
  destruct (boot_map_page s kd fl v (pte_value q perm) H Ha Hm ltac:(apply Z.div_le_lower_bound; lia) Her (pte_value_P q perm Hp)) as (s1 & fl1 & E1 & M1).
  apply bind_Ret_inv in E1 as (pte & s0 & Ew & Est). cbn [boot_map_loop]. rewrite (bind_Ret _ _ _ _ _ Ew), Ee, (bind_Ret _ _ _ _ _ Est).
  assert (Hf : q + (v - v) = q) by lia.
  assert (M1' : mapped kd v 1 (λ _, pte_value (q + (v - v)) perm) s fl s1 fl1) by (by rewrite Hf).
  replace (Z.of_nat (S n)) with (Z.of_nat n + 1) by lia. destruct n as [|n].
  - exists s1, fl1. split; [done|]. exact (mapped_cons kd v 0 _ s s1 s1 fl fl1 fl1 ltac:(lia) M1' (mapped_nil _ _ _ _ _ (ma_inv _ _ _ _ _ _ _ _ M1) (ma_absent _ _ _ _ _ _ _ _ M1))).
  - replace (u32 (v * 4096 + PGSIZE)) with ((v + 1) * 4096) by (rewrite u32_small; lia).
    replace (u32 (q * 4096 + PGSIZE)) with ((q + 1) * 4096) by (rewrite u32_small; lia).
    destruct (IH s1 kd fl1 (v + 1) (q + 1) perm (ma_inv _ _ _ _ _ _ _ _ M1) (ma_absent _ _ _ _ _ _ _ _ M1)) as (s2 & fl2 & E2 & M2); try lia.
    { intros u Hu'. apply Hu. lia. }
    exists s2, fl2. split; [exact E2|]. eapply mapped_cons; [lia|exact M1'|].
    destruct M2 as [B1 B0 B2 B3 B4 B5]. constructor; try done. intros u Hu'. rewrite B4 by done. case_decide; [|done]. do 2 f_equal. lia.
Qed.

(** [boot_map_region] of whole pages, from a kernel address. *)
Lemma boot_map_region_run s kd fl v n q perm size :
  boot_inv s kd fl -> absent s kd <= Z.of_nat (length fl) -> NUVPN <= v -> 0 <= n -> v + n <= 1048576 ->
  (forall u, v <= u < v + n -> u / 1024 <> 957) -> 0 <= q -> q + n <= 1048576 -> 0 <= perm < 4096 ->
  ROUNDUP size PGSIZE = n * 4096 ->
  exists s' fl', boot_map_region (kptr kd 0) (v * 4096) size (q * 4096) perm s = Ret tt s' /\
    mapped kd v n (λ u, pte_value (q + (u - v)) perm) s fl s' fl'.
Proof.
  intros H Ha Hv Hn Hvn Hu Hq Hqn Hp Hs. unfold boot_map_region. rewrite Hs, Z.div_mul by lia.
  destruct (boot_map_loop_run (Z.to_nat n) s kd fl v q perm H Ha Hv) as (s' & fl' & E & M); try (rewrite ?Z2Nat.id by lia; done).
  exists s', fl'. rewrite Z2Nat.id in M by lia. done.
Qed.

(** ** The kernel's address space *)

(** The entries of [A] with the pages from [v] on mapped to the frames from [q] on. *)
Definition over (v n q perm : Z) (A : Z -> option Z) : Z -> option Z := λ u,
  if decide (v <= u < v + n) then Some (pte_value (q + (u - v)) perm) else A u.

(** The kernel's directory maps [A], nothing below [UTOP], and itself at
    [UVPT]; the page tables were taken from the front of the free list [fl0]. *)
Record kspace (fl0 : list Z) (s : kstate) (kd : Z) (fl : list Z) (A : Z -> option Z) : Prop := {
  ks_inv : boot_inv s kd fl;
  ks_absent : absent s kd <= Z.of_nat (length fl);
  ks_list : absent s kd <= 68 /\ fl = drop (Z.to_nat (68 - absent s kd)) fl0;
  ks_dir : kern_pgdir s = kptr kd 0;
  ks_user : forall i, 0 <= i < NUPDE -> rdw (mem s) kd i = 0;
  ks_self : rdw (mem s) kd 957 = kd * 4096 + 5;
  ks_map : forall u, mappable u -> vmap (mem s) kd u = A u
}.

Lemma PADDR_page q s : 0 <= q -> PADDR (kptr q 0) s = Ret (q * 4096) s.
Proof.
  intros Hq. unfold PADDR, kptr. destruct (Z.ltb_spec (KERNBASE + q * 4096 + 4 * 0) KERNBASE); [lia|]. unfold mret, K_ret. f_equal. lia.
Qed.

Lemma kspace_mapped fl0 s s' kd fl fl' A v n q perm :
  kspace fl0 s kd fl A -> NUVPN <= v -> 0 < n -> (forall u, v <= u < v + n -> u / 1024 <> 957) ->
  mapped kd v n (λ u, pte_value (q + (u - v)) perm) s fl s' fl' -> kspace fl0 s' kd fl' (over v n q perm A).
Proof.
  intros [K1 K2 [K7 K8] K3 K4 K5 K6] Hv Hn Hu [M1 [M6 M7] M2 M3 M4 M5]. constructor; try done.
  - split; [lia|]. rewrite M7, K8, drop_drop. f_equal. lia.
  - by rewrite (vf_kern_pgdir _ _ (proj1 M3)).
  - intros i Hi. rewrite M5; [by apply K4|unfold NUPDE in Hi; lia|]. intros u Hur E.
    assert (955 <= u / 1024) by (apply Z.div_le_lower_bound; unfold NUVPN in Hv; lia). unfold NUPDE in Hi. lia.
  - rewrite M5; [done|lia|]. intros u Hur E. by apply (Hu u).
  - intros u Hm. rewrite M4 by done. unfold over. case_decide; [done|]. by apply K6.
Qed.

Lemma region_run fl0 s kd fl A v n q perm va size pa :
  kspace fl0 s kd fl A -> va = v * 4096 -> pa = q * 4096 -> ROUNDUP size PGSIZE = n * 4096 ->
  NUVPN <= v -> 0 < n -> v + n <= 1048576 -> (forall u, v <= u < v + n -> u / 1024 <> 957) ->
  0 <= q -> q + n <= 1048576 -> 0 <= perm < 4096 ->
  exists s' fl', boot_map_region (kern_pgdir s) va size pa perm s = Ret tt s' /\ kspace fl0 s' kd fl' (over v n q perm A) /\ boot_frame s s'.
Proof.
  intros K -> -> Hs Hv Hn Hvn Hu Hq Hqn Hp. pose proof Hv as Hv'. unfold NUVPN in Hv'.
  destruct (boot_map_region_run s kd fl v n q perm size (ks_inv _ _ _ _ _ K) (ks_absent _ _ _ _ _ K)) as (s' & fl' & E & M); try done; try lia.
  exists s', fl'. rewrite (ks_dir _ _ _ _ _ K). split; [exact E|]. split; [by eapply kspace_mapped|apply (ma_frame _ _ _ _ _ _ _ _ M)].
Qed.

Lemma kern_map_run fl0 s kd fl A v n q perm va size :
  kspace fl0 s kd fl A -> va = v * 4096 -> ROUNDUP size PGSIZE = n * 4096 ->
  NUVPN <= v -> 0 < n -> v + n <= 1048576 -> (forall u, v <= u < v + n -> u / 1024 <> 957) ->
  0 <= q -> q + n <= 1048576 -> 0 <= perm < 4096 ->
  exists s' fl', kern_map va size (kptr q 0) perm s = Ret tt s' /\ kspace fl0 s' kd fl' (over v n q perm A) /\ boot_frame s s'.
Proof.
  intros K Hva Hs Hv Hn Hvn Hu Hq Hqn Hp.
  destruct (region_run fl0 s kd fl A v n q perm va size (q * 4096) K Hva eq_refl Hs Hv Hn Hvn Hu Hq Hqn Hp) as (s' & fl' & E & KF).
  exists s', fl'. split; [|exact KF]. unfold kern_map. kstep by (by apply PADDR_page). rewrite bind_get. exact E.
Qed.

(** The stacks of the CPUs in [l]. *)
Definition stacks (pk : Z -> Z) (l : list Z) (A : Z -> option Z) : Z -> option Z :=
  foldl (λ A i, over (983040 - 16 * i - 8) 8 (pk i) (PTE_W .| PTE_P) A) A l.

Lemma mem_init_mp_run fl0 kstack pk l : forall s kd fl A,
  kspace fl0 s kd fl A -> (forall i, i ∈ l -> 0 <= i < NCPU) ->
  (forall i, 0 <= i < NCPU -> kstack i = kptr (pk i) 0 /\ 0 <= pk i /\ pk i + 8 <= 65536) ->
  exists s' fl', kfor l (λ i,
      let stack_top := u32 (KSTACKTOP - i * (KSTKSIZE + KSTKGAP)) in
      let stack_bottom := u32 (stack_top - KSTKSIZE) in
      kern_map stack_bottom KSTKSIZE (kstack i) (PTE_W .| PTE_P)) s = Ret tt s' /\
    kspace fl0 s' kd fl' (stacks pk l A) /\ boot_frame s s'.
Proof.
  induction l as [|i l IH]; intros s kd fl A K Hl Hk; [by exists s, fl|].
  destruct (Hk i) as (Ek & Hp1 & Hp2); [apply Hl, list_elem_of_here|]. pose proof (Hl i (list_elem_of_here i l)) as Hi.
  destruct (kern_map_run fl0 s kd fl A (983040 - 16 * i - 8) 8 (pk i) (PTE_W .| PTE_P) ((983040 - 16 * i - 8) * 4096) KSTKSIZE K eq_refl eq_refl)
    as (s1 & fl1 & E1 & K1 & F1); try done; try (unfold NUVPN; lia).
  { intros u Hu. assert (959 <= u / 1024) by (apply Z.div_le_lower_bound; lia). lia. }
  destruct (IH s1 kd fl1 _ K1) as (s2 & fl2 & E2 & K2 & F2); [intros j Hj; apply Hl; by apply list_elem_of_further|done|].
  exists s2, fl2. split; [|split; [exact K2|by etransitivity]]. cbn [kfor]. cbv zeta.
  replace (u32 (u32 (KSTACKTOP - i * (KSTKSIZE + KSTKGAP)) - KSTKSIZE)) with ((983040 - 16 * i - 8) * 4096)
    by (rewrite (u32_small (KSTACKTOP - _)) by lia; rewrite u32_small; lia).
  rewrite Ek. kstep by exact E1. exact E2.
Qed.

(** The layout of [inc/memlayout.h] above [UTOP], by page number: all of
    physical memory at [KERNBASE], the kernel stacks with unmapped pages below
    each of them, [pages] and [envs] readable by the user; nothing else, and
    nothing at [UVPT] but the directory itself. *)
Definition kernel_map (pp pe : Z) (pk : Z -> Z) (np u : Z) : option Z :=
  if 983040 <=? u then Some (pte_value (u - 983040) (PTE_W .| PTE_P))
  else if 982016 <=? u then
    let k := 983039 - u in
    if (k / 16 <? NCPU) && (k mod 16 <? 8) then Some (pte_value (pk (k / 16) + 7 - k mod 16) (PTE_W .| PTE_P)) else None
  else if (978944 <=? u) && (u <? 978944 + np) then Some (pte_value (pp + (u - 978944)) (PTE_U .| PTE_P))
  else if (977920 <=? u) && (u <? 977920 + 31) then Some (pte_value (pe + (u - 977920)) (PTE_U .| PTE_P))
  else None.

(** The pages of the array [pages]. *)
Definition pages_size (s : kstate) : Z := (8 * npages s + 4095) / 4096.

Lemma pages_size_range s : 0 < npages s <= 65536 -> 0 < pages_size s <= 128 /\ ROUNDUP (u32 (sizeof_PageInfo * npages s)) PGSIZE = pages_size s * 4096.
Proof.
  intros Hn. unfold pages_size. split.
  - split; [apply Z.div_str_pos; lia|]. apply Z.lt_succ_r, Z.div_lt_upper_bound; lia.
  - rewrite u32_small by lia. rewrite ROUNDUP_page by lia. done.
Qed.

Ltac overs := repeat first [rewrite decide_False by lia | rewrite decide_True by lia]; try done; do 2 f_equal; lia.

Lemma kernel_map_eq pp pe pb pk np u :
  0 < np <= 128 -> 0 <= pp -> pp + np <= 65536 -> 0 <= pe -> pe + 31 <= 65536 -> mappable u ->
  stacks pk (seqZ 0 NCPU)
    (over 983040 65536 0 (PTE_W .| PTE_P) (over (983040 - 8) 8 pb (PTE_W .| PTE_P)
      (over (983040 + pe) 31 pe (PTE_W .| PTE_P) (over 977920 31 pe (PTE_U .| PTE_P)
        (over (983040 + pp) np pp (PTE_W .| PTE_P) (over 978944 np pp (PTE_U .| PTE_P) (λ _, None))))))) u =
  kernel_map pp pe pk np u.
Proof.
  intros Hnp Hpp Hpp' Hpe Hpe' [Hu Hu']. unfold kernel_map.
  change (seqZ 0 NCPU) with [0; 1; 2; 3; 4; 5; 6; 7]. unfold stacks, foldl, over.
  destruct (Z.leb_spec 983040 u); [by overs|]. destruct (Z.leb_spec 982016 u).
  - set (k := 983039 - u). assert (Hk : u = 983039 - k) by (unfold k; lia). pose proof (Z.div_mod k 16). pose proof (Z.mod_pos_bound k 16).
    clearbody k. subst u.
    destruct (Z.ltb_spec (k / 16) 8), (Z.ltb_spec (k mod 16) 8); cbn [andb]; [|by overs..].
    assert (E : k / 16 = 0 \/ k / 16 = 1 \/ k / 16 = 2 \/ k / 16 = 3 \/ k / 16 = 4 \/ k / 16 = 5 \/ k / 16 = 6 \/ k / 16 = 7) by lia.
    destruct E as [E|[E|[E|[E|[E|[E|[E|E]]]]]]]; rewrite E; by overs.
  - destruct (Z.leb_spec 978944 u), (Z.ltb_spec u (978944 + np)), (Z.leb_spec 977920 u), (Z.ltb_spec u (977920 + 31)); cbn [andb]; by overs.
Qed.

Lemma kspace_ext fl0 s kd fl A B : (forall u, mappable u -> A u = B u) -> kspace fl0 s kd fl A -> kspace fl0 s kd fl B.
Proof. intros E [K1 K2 K7 K3 K4 K5 K6]. constructor; try done. intros u Hu. by rewrite K6, E. Qed.

Lemma high_pde v n : 980992 <= v -> forall u, v <= u < v + n -> u / 1024 <> 957.
Proof. intros Hv u Hu E. assert (958 <= u / 1024) by (apply Z.div_le_lower_bound; lia). lia. Qed.

Lemma low_pde v n : v + n <= 979968 -> forall u, v <= u < v + n -> u / 1024 <> 957.
Proof. intros Hv u Hu E. assert (u / 1024 < 957) by (apply Z.div_lt_upper_bound; lia). lia. Qed.

Lemma mem_init_map_run fl0 s kd fl pp pe pb pk bootstack kstack :
  kspace fl0 s kd fl (λ _, None) -> 0 <= pp -> pp + pages_size s <= 65536 -> 0 <= pe -> pe + 31 <= 65536 ->
  bootstack = kptr pb 0 -> 0 <= pb -> pb + 8 <= 65536 ->
  (forall i, 0 <= i < NCPU -> kstack i = kptr (pk i) 0 /\ 0 <= pk i /\ pk i + 8 <= 65536) ->
  exists s' fl', mem_init_map bootstack kstack (kptr pp 0) (kptr pe 0) s = Ret tt s' /\
    kspace fl0 s' kd fl' (kernel_map pp pe pk (pages_size s)) /\ boot_frame s s'.
Proof.
  intros K Hpp Hpp' Hpe Hpe' -> Hpb Hpb' Hk. destruct (pages_size_range s (boot_np (ks_inv _ _ _ _ _ K))) as [Hnp Hru].
  assert (Ekp : forall q, kptr q 0 = (983040 + q) * 4096) by (intros q; unfold kptr; lia).
  destruct (kern_map_run fl0 s kd fl _ 978944 (pages_size s) pp (PTE_U .| PTE_P) UPAGES _ K eq_refl Hru) as (s1 & fl1 & E1 & K1 & F1); try (done || unfold NUVPN; lia).
  { apply low_pde. lia. }
  destruct (kern_map_run fl0 s1 kd fl1 _ (983040 + pp) (pages_size s) pp (PTE_W .| PTE_P) (kptr pp 0) _ K1 (Ekp pp) Hru) as (s2 & fl2 & E2 & K2 & F2); try (done || unfold NUVPN; lia).
  { apply high_pde. lia. }
  destruct (kern_map_run fl0 s2 kd fl2 _ 977920 31 pe (PTE_U .| PTE_P) UENVS (sizeof_Env * NENV) K2 eq_refl eq_refl) as (s3 & fl3 & E3 & K3 & F3); try (done || unfold NUVPN; lia).
  { apply low_pde. lia. }
  destruct (kern_map_run fl0 s3 kd fl3 _ (983040 + pe) 31 pe (PTE_W .| PTE_P) (kptr pe 0) (sizeof_Env * NENV) K3 (Ekp pe) eq_refl) as (s4 & fl4 & E4 & K4 & F4); try (done || unfold NUVPN; lia).
  { apply high_pde. lia. }
  destruct (kern_map_run fl0 s4 kd fl4 _ (983040 - 8) 8 pb (PTE_W .| PTE_P) (KSTACKTOP - KSTKSIZE) KSTKSIZE K4 eq_refl eq_refl) as (s5 & fl5 & E5 & K5 & F5); try (done || unfold NUVPN; lia).
  { apply high_pde. lia. }
  destruct (region_run fl0 s5 kd fl5 _ 983040 65536 0 (PTE_W .| PTE_P) KERNBASE (0xFFFFFFFF - KERNBASE) 0 K5 eq_refl eq_refl eq_refl) as (s6 & fl6 & E6 & K6 & F6); try (done || unfold NUVPN; lia).
  { apply high_pde. lia. }
  destruct (mem_init_mp_run fl0 kstack pk (seqZ 0 NCPU) s6 kd fl6 _ K6) as (s7 & fl7 & E7 & K7 & F7); [intros i Hi%elem_of_seqZ; lia|done|].
  exists s7, fl7. split; [|split].
  - unfold mem_init_map. rewrite bind_get, (bind_Ret _ _ _ _ _ E1), (bind_Ret _ _ _ _ _ E2), (bind_Ret _ _ _ _ _ E3), (bind_Ret _ _ _ _ _ E4), (bind_Ret _ _ _ _ _ E5).
    rewrite bind_get, (bind_Ret _ _ _ _ _ E6). exact E7.
  - eapply kspace_ext; [|exact K7]. intros u Hu. by apply kernel_map_eq.
  - do 6 (etransitivity; [eassumption|]). done.
Qed.
