(* ===== verification/BootSpec.v ===== *)
(** * The memory system after boot

    [mem_init] followed by [env_init], from a machine that has just started:
    they return, the kernel's address space is laid out as [inc/memlayout.h]
    says, and the state satisfies the invariant [sys_inv] on which the
    theorems about environments, system calls and traps rest. *)

From S2P Require Import Prelude Console LibString Mmu Printf E1000 Machine KernLib Spinlock PageAlloc PageTable Vm VmSpec FreeList Env EnvVm EnvInv EnvSpec Boot.

(** ** The machine *)

(** The pages of memory, of the array [pages], and the first page of the
    kernel's data. *)
Definition mem_pages (cmos : Z -> Z) : Z := 256 + nvram_read cmos NVRAM_EXTLO / 4.
Definition data_page (kend : Z) : Z := (kend - KERNBASE + 4095) / 4096.
Definition array_pages (n : Z) : Z := (8 * n + 4095) / 4096.

(** The first page after the kernel's data: a directory, [pages] and [envs]. *)
Definition first_free (cmos : Z -> Z) (kend : Z) : Z := data_page kend + 1 + array_pages (mem_pages cmos) + 31.

(** A machine the kernel can boot on: at most 640 KB of base memory, the
    kernel's image above 1 MB, and room below 4 MB for the page tables. *)
Record bootable (cmos : Z -> Z) (kend : Z) (s : kstate) : Prop := {
  bt_next : nextfree s = 0;
  bt_list : page_free_list s = None;
  bt_cmos : forall r, 0 <= cmos r < 256;
  bt_base : 8 <= nvram_read cmos NVRAM_BASELO <= 640;
  bt_end : KERNBASE + EXTPHYSMEM <= kend < 4294967296;
  bt_mem : first_free cmos kend + 69 <= mem_pages cmos;
  bt_low : first_free cmos kend + 69 <= 1024
}.

Lemma nvram_range cmos r : (forall r, 0 <= cmos r < 256) -> 0 <= nvram_read cmos r < 65536.
Proof.
  intros Hc. pose proof (Hc r). pose proof (Hc (r + 1)). unfold nvram_read, mc146818_read.
  pose proof (lor_small (cmos r) (Z.shiftl (cmos (r + 1)) 8) 16) as Hl. rewrite Z.shiftl_mul_pow2 in * by lia.
  change (2 ^ 16) with 65536 in Hl. change (2 ^ 8) with 256 in *. rewrite s32_small by lia. lia.
Qed.

Section Detect.
  Context {cmos : Z -> Z} {kend : Z} {s : kstate} (H : bootable cmos kend s).

Lemma mem_pages_range : 256 <= mem_pages cmos <= 16639.
  Proof using H.
    pose proof (nvram_range cmos NVRAM_EXTLO (bt_cmos _ _ _ H)). unfold mem_pages.
    assert (0 <= nvram_read cmos NVRAM_EXTLO / 4 <= 16383); [|lia].
    split; [apply Z.div_pos; lia|apply Z.lt_succ_r, Z.div_lt_upper_bound; lia].
  Qed.

Lemma data_page_range : 256 <= data_page kend < 65537 /\ ROUNDUP kend PGSIZE = kptr (data_page kend) 0.
  Proof using H.
    pose proof (bt_end _ _ _ H) as He. pose proof (bt_low _ _ _ H) as Hl. pose proof mem_pages_range as Hm. unfold first_free in Hl.
    assert (0 <= array_pages (mem_pages cmos)) by (apply Z.div_pos; lia).
    assert (256 <= data_page kend) by (apply Z.div_le_lower_bound; lia).
    split; [lia|]. assert (kend <= 4294967296 - 4096).
    { unfold data_page in *. pose proof (Z.div_mod (kend - KERNBASE + 4095) 4096). pose proof (Z.mod_pos_bound (kend - KERNBASE + 4095) 4096). lia. }
    rewrite ROUNDUP_page by lia. unfold kptr, data_page. pose proof (Z.div_mod (kend - KERNBASE + 4095) 4096).
    replace (kend + 4095) with (kend - KERNBASE + 4095 + 983040 * 4096) by lia. rewrite Z.div_add by lia. lia.
  Qed.

Lemma detect_run :
    exists c, i386_detect_memory cmos s =
      Ret tt (set_cons c (set_npages (mem_pages cmos) (set_npages_basemem (nvram_read cmos NVRAM_BASELO / 4) s))).
  Proof using H.
    pose proof (nvram_range cmos NVRAM_EXTLO (bt_cmos _ _ _ H)) as Hx. pose proof (bt_base _ _ _ H) as Hb.
    assert (Q : forall x, 0 <= x < 65536 -> u32 (Z.quot (x * 1024) PGSIZE) = x / 4).
    { intros x Hr. rewrite Z.quot_div_nonneg by lia. replace PGSIZE with (4 * 1024) by lia. rewrite Z.div_mul_cancel_r by lia.
      apply u32_small. split; [apply Z.div_pos; lia|apply Z.div_lt_upper_bound; lia]. }
    unfold i386_detect_memory. rewrite bind_modify, !Q by lia. cbv zeta. rewrite bind_get, bind_modify, bind_get.
    assert (E : (if negb (nvram_read cmos NVRAM_EXTLO / 4 =? 0) then u32 (EXTPHYSMEM / PGSIZE + nvram_read cmos NVRAM_EXTLO / 4)
                 else npages_basemem (set_npages_basemem (nvram_read cmos NVRAM_BASELO / 4) s)) = mem_pages cmos).
    { pose proof mem_pages_range as Hm. pose proof (bt_mem _ _ _ H) as Hf. pose proof data_page_range as [Hd _]. unfold first_free in Hf.
      assert (0 <= array_pages (mem_pages cmos)) by (apply Z.div_pos; lia). unfold mem_pages in *.
      destruct (Z.eqb_spec (nvram_read cmos NVRAM_EXTLO / 4) 0); [lia|]. cbn [negb]. change (EXTPHYSMEM / PGSIZE) with 256. apply u32_small. lia. }
    rewrite E. edestruct cprintf_run as (c & Ec); [|exists c; rewrite (bind_Ret _ _ _ _ _ Ec); done]. reflexivity.
  Qed.
End Detect.

Lemma boot_alloc_run kend s q n m :
  nextfree s = kptr q 0 -> 0 <= q -> n <> 0 -> 0 <= kptr q 0 + n <= 4294967296 - 4096 -> (n + 4095) / 4096 = m ->
  boot_alloc kend n s = Ret (kptr q 0) (set_nextfree (kptr (q + m) 0) s).
Proof.
  intros Hn Hq Hz Hr Hm. unfold boot_alloc. rewrite bind_get, Hn, kptr_nonnull by lia. rewrite bind_mret, bind_get, Hn.
  destruct (Z.eqb_spec n 0); [done|]. cbn [negb]. rewrite bind_modify. unfold mret, K_ret. f_equal. f_equal.
  rewrite u32_small by lia. rewrite ROUNDUP_page by lia. unfold kptr in *.
  replace (KERNBASE + q * 4096 + 4 * 0 + n + 4095) with (n + 4095 + (983040 + q) * 4096) by lia. rewrite Z.div_add by lia. lia.
Qed.

Lemma boot_alloc_first kend n s q :
  nextfree s = 0 -> ROUNDUP kend PGSIZE = kptr q 0 -> 0 <= q -> boot_alloc kend n s = boot_alloc kend n (set_nextfree (kptr q 0) s).
Proof.
  intros Hn Hr Hq. unfold boot_alloc. rewrite !bind_get, Hn. cbn [nextfree set_nextfree]. rewrite kptr_nonnull by lia.
  change (0 =? 0) with true. cbv iota. by rewrite bind_modify, Hr, bind_mret.
Qed.

(** The free list [page_init] builds. *)
Definition init_list (nb F np : Z) : list Z := rev (filter (λ i, page_is_free nb F i = true) (seqZ 1 (np - 1))).

(** ** The data structures *)

(** The directory is at page [D], the free pages start at [F]. *)
Record data_ready (s0 s : kstate) (D ps F : Z) : Prop := {
  dr_alloc : alloc_inv s (init_list (npages_basemem s0) F (npages s0));
  dr_np : npages s = npages s0;
  dr_next : nextfree s = kptr F 0;
  dr_dir : kern_pgdir s = kptr D 0;
  dr_pages : pages_va s = kptr (D + 1) 0;
  dr_envs : envs_va s = kptr (D + 1 + ps) 0;
  dr_mem : forall i, rdw (mem s) D i = if decide (i = 957) then D * 4096 + 5 else 0;
  dr_ref : pp_ref (pg s D) = 1
}.

Lemma mem_init_data_run kend s D ps F :
  nextfree s = 0 -> page_free_list s = None -> 0 < npages s <= 16639 -> npages_basemem s <= 160 ->
  ROUNDUP kend PGSIZE = kptr D 0 -> 256 <= D -> ps = array_pages (npages s) -> F = D + 1 + ps + 31 -> F < npages s ->
  exists s', mem_init_data kend s = Ret tt s' /\ data_ready s s' D ps F.
Proof.
  intros Hn Hl Hnp Hb Hr HD -> -> HF. set (ps := array_pages (npages s)) in *.
  assert (Hps : 0 <= ps) by (apply Z.div_pos; lia).
  unfold mem_init_data. rewrite (bind_Ret _ _ s (kptr D 0) (set_nextfree (kptr (D + 1) 0) (set_nextfree (kptr D 0) s))).
  2:{ rewrite (boot_alloc_first _ _ _ D) by (done || lia). apply boot_alloc_run; try done; unfold kptr; lia. }
  rewrite bind_modify. kstep by (apply memset0_page_kptr; lia). kstep by (apply PADDR_page; lia).
  change (PDX UVPT) with 957. rewrite kptr_add, kptr_u32 by lia. kstep by (apply store_kptr; lia).
  assert (Ee : u32 (D * 4096 .| PTE_U .| PTE_P) = D * 4096 + 5).
  { rewrite <- Z.lor_assoc. change (PTE_U .| PTE_P) with 5. rewrite lor_page_low by lia. apply u32_small. lia. }
  rewrite Ee, bind_get. cbn [npages set_mem zero_page set_kern_pgdir set_nextfree].
  rewrite (u32_small (npages s * sizeof_PageInfo)) by lia.
  kstep by (apply (boot_alloc_run kend _ (D + 1) (npages s * sizeof_PageInfo) ps); [done|lia|lia|unfold kptr; lia|unfold ps, array_pages; f_equal; lia]).
  rewrite !bind_modify.
  kstep by (apply (boot_alloc_run kend _ (D + 1 + ps) (NENV * sizeof_Env) 31); [done|lia|lia|unfold kptr; lia|reflexivity]).
  rewrite bind_modify. match goal with |- exists s', page_init kend ?s5 = _ /\ _ => set (s' := s5) end.
  assert (Hpre : pre_page_init s').
  { constructor; [unfold s'; cbn; lia| | |done|unfold s', kptr; cbn; lia].
    - intros p. apply zero_pages_dom.
    - intros p. unfold pg. change (pages s') with (zero_pages (npages s)). rewrite zero_pages_lookup. by case_decide. }
  destruct (page_init_spec s' kend Hpre) as (s2 & E & Ha & Ho & _ & Hk). exists s2. split; [exact E|].
  assert (EF : (nextfree s' - KERNBASE) / 4096 = D + 1 + ps + 31).
  { unfold s', kptr. cbn. replace (KERNBASE + (D + 1 + ps + 31) * 4096 + 4 * 0 - KERNBASE) with ((D + 1 + ps + 31) * 4096) by lia. by rewrite Z.div_mul. }
  rewrite EF in Ha, Hk. constructor; try (by rewrite Ho).
  - exact Ha.
  - intros i. rewrite Ho. unfold s'. cbn [mem set_page_free_list set_pages set_envs_va set_nextfree set_pages_va set_mem zero_page set_kern_pgdir].
    case_decide as E9; [subst; apply rdw_wrw_eq|]. rewrite rdw_wrw_ne by (right; congruence). apply rdw_zero_eq.
  - apply Hk; [change (npages s') with (npages s); lia|]. split; [change (npages_basemem s') with (npages_basemem s); lia|lia].
Qed.

(** ** The free list *)

(** A page of the free list is not in use; the pages from [F] up to 4 MB come
    first, pages of base memory follow. *)
Lemma init_list_elem nb F np p :
  nb <= 160 -> p ∈ init_list nb F np <-> 1 <= p < np /\ p <> 7 /\ ~ (160 <= p < 256) /\ ~ (256 <= p < F).
Proof.
  intros Hb. unfold init_list. rewrite list_elem_of_In, <- in_rev, <- list_elem_of_In, list_elem_of_filter, elem_of_seqZ, page_is_free_iff by done. lia.
Qed.

Lemma filter_all (P : Z -> Prop) `{!forall x, Decision (P x)} (l : list Z) : (forall x, x ∈ l -> P x) -> filter P l = l.
Proof.
  induction l as [|x l IH]; intros HP; [done|]. rewrite filter_cons, decide_True by apply HP, list_elem_of_here.
  f_equal. apply IH. intros y Hy. by apply HP, list_elem_of_further.
Qed.

Lemma init_list_split nb F np :
  nb <= 160 -> 256 <= F < np ->
  init_list nb F np = rev (seqZ F (np - F)) ++ rev (filter (λ i, page_is_free nb F i = true) (seqZ 1 (F - 1))).
Proof.
  intros Hb HF. unfold init_list. replace (np - 1) with ((F - 1) + (np - F)) by lia. rewrite seqZ_app by lia.
  rewrite list.filter_app, rev_app_distr. f_equal. f_equal. replace (1 + (F - 1)) with F by lia.
  apply filter_all. intros p Hp%elem_of_seqZ. apply page_is_free_iff; [done|]. lia.
Qed.

Lemma low_list nb F np :
  nb <= 160 -> 2 <= nb -> 256 <= F -> F + 69 <= np -> F + 69 <= 1024 ->
  exists X W, low_first (init_list nb F np) = X ++ W /\ (69 <= length X)%nat /\ (forall p, p ∈ X -> F <= p < 1024) /\ 1 ∈ W.
Proof.
  intros Hb Hb2 HF Hnp Hlow. unfold low_first. rewrite (init_list_split nb F np) by lia. rewrite (list.filter_app low_page).
  eexists (filter low_page (rev (seqZ F (np - F)))), _. rewrite <- app_assoc. split; [done|]. split; [|split].
  - change 69%nat with (Z.to_nat 69). rewrite <- (length_seqZ F 69). apply submseteq_length, NoDup_submseteq; [apply NoDup_seqZ|]. intros p Hp%elem_of_seqZ.
    apply list_elem_of_filter. split; [unfold low_page; lia|]. rewrite list_elem_of_In, <- in_rev, <- list_elem_of_In, elem_of_seqZ. lia.
  - intros p [Hl Hp]%list_elem_of_filter. rewrite list_elem_of_In, <- in_rev, <- list_elem_of_In, elem_of_seqZ in Hp. unfold low_page in Hl. lia.
  - apply elem_of_app. left. apply list_elem_of_filter. split; [done|].
    rewrite list_elem_of_In, <- in_rev, <- list_elem_of_In, list_elem_of_filter, elem_of_seqZ, page_is_free_iff by done. lia.
Qed.

(** ** Joining the parts *)

Lemma absent_fresh s D : 0 <= D -> (forall i, rdw (mem s) D i = if decide (i = 957) then D * 4096 + 5 else 0) -> absent s D = 68.
Proof.
  intros HD Hm. unfold absent. rewrite (count_update (λ _, Some 0) _ _ 957).
  - cbv beta. rewrite Hm, decide_True by done. rewrite is_ref_eq, is_ref_ne by lia. reflexivity.
  - apply NoDup_seqZ.
  - apply elem_of_seqZ. lia.
  - intros i _ Hi. cbv beta. by rewrite Hm, decide_False.
Qed.

Lemma kspace_start s D fl0 :
  alloc_inv s fl0 -> 0 <= D < npages s -> D ∉ fl0 -> 1 <= pp_ref (pg s D) -> kern_pgdir s = kptr D 0 ->
  (forall i, rdw (mem s) D i = if decide (i = 957) then D * 4096 + 5 else 0) ->
  (68 <= length fl0)%nat -> (forall p, p ∈ take 68 fl0 -> p < 1024) -> kspace fl0 s D fl0 (λ _, None).
Proof.
  intros Ha HD Hf Hr Hk Hm Hl Ht. pose proof (absent_fresh s D ltac:(lia) Hm) as Hab.
  assert (H0 : forall i, i <> 957 -> rdw (mem s) D i = 0) by (intros i Hi; by rewrite Hm, decide_False).
  constructor; rewrite ?Hab; try done.
  - constructor; rewrite ?Hab; try done.
    + intros i _ Hi. left. by apply H0.
    + intros i j _ _ Hi Hj Hn. by rewrite H0 in Hn.
  - lia.
  - intros i Hi. apply H0. unfold NUPDE in Hi. lia.
  - intros u [Hu Hi]. unfold vmap, pt_page. by rewrite H0, hasbits_0.
Qed.

(** Overwriting free pages, and relinking them, changes nothing. *)
Lemma kspace_scribbled fl0 s s' D fl A :
  kspace fl0 s D fl A -> alloc_inv s' fl -> npages s' = npages s -> kern_pgdir s' = kern_pgdir s ->
  (forall p, pp_ref (pg s' p) = pp_ref (pg s p)) -> (forall q k, q ∉ fl -> rdw (mem s') q k = rdw (mem s) q k) -> kspace fl0 s' D fl A.
Proof.
  intros [[B1 B2 B3 B4 B5 B6 B7] K2 K3 K4 K5 K6 K7] Ha Hn Hk Hr Hm. assert (HD : forall i, rdw (mem s') D i = rdw (mem s) D i) by (intros i; by apply Hm).
  assert (Hab : absent s' D = absent s D) by (unfold absent; apply count_ext; intros i _; cbn; by rewrite HD).
  pose proof (Build_boot_inv s D fl B1 B2 B3 B4 B5 B6 B7) as HB.
  constructor; rewrite ?Hab, ?Hk, ?HD; try done.
  - constructor; rewrite ?Hab, ?Hn, ?Hr; try done.
    + intros i Hi Hi'. rewrite HD. by apply B6.
    + intros i j Hi Hj Hi' Hj'. rewrite !HD. by apply B7.
  - intros i Hi. rewrite HD. by apply K5.
  - intros u Hu. rewrite <- K7 by done. unfold vmap, pt_page. rewrite HD. fold (pt_page (mem s) D u).
    destruct (boot_table HB u Hu) as [[-> _]|(t & -> & _ & _ & _ & Htf)]; [done|]. by rewrite Hm.
Qed.

Lemma links_refs s s1 s' : links_only s s1 -> pages s' = pages s1 -> forall p, pp_ref (pg s' p) = pp_ref (pg s p).
Proof. intros [_ L] E p. apply pp_ref_pg. by rewrite E. Qed.

(** What the rest of the kernel finds: the layout [kernel_map], the page
    directory loaded, every page table below 4 MB. *)
Record booted (s : kstate) (D pe ps F : Z) (pk : Z -> Z) (fl : list Z) : Prop := {
  bd_map : forall u, mappable u -> vmap (mem s) D u = kernel_map (D + 1) pe pk ps u;
  bd_user : forall i, 0 <= i < NUPDE -> rdw (mem s) D i = 0;
  bd_self : rdw (mem s) D 957 = D * 4096 + 5;
  bd_low : forall u t, mappable u -> pt_page (mem s) D u = Some t -> 0 <= t < 1024;
  bd_cr3 : cpu_cr3 (thiscpu s) = D * 4096;
  bd_free : forall p, p ∈ fl -> 1 <= p < npages s /\ p <> 7 /\ ~ (160 <= p < 256) /\ ~ (256 <= p < F)
}.

Section Assemble.
  Context {cmos : Z -> Z} {kend bootstack : Z} {kstack pk : Z -> Z} {pb : Z} {s : kstate}.
  Context (H : bootable cmos kend s) (Hpb : bootstack = kptr pb 0 /\ 0 <= pb /\ pb + 8 <= 65536).
  Context (Hpk : forall i, 0 <= i < NCPU -> kstack i = kptr (pk i) 0 /\ 0 <= pk i /\ pk i + 8 <= 65536).

  Local Abbreviation D := (data_page kend) (only parsing).
  Local Abbreviation np := (mem_pages cmos) (only parsing).
  Local Abbreviation F := (first_free cmos kend) (only parsing).
  Local Abbreviation nb := (nvram_read cmos NVRAM_BASELO / 4) (only parsing).
  Local Abbreviation ps := (array_pages np) (only parsing).
  Local Abbreviation fl0 := (low_first (init_list nb F np)) (only parsing).

Lemma layout_range : 256 <= D /\ 0 < ps <= 128 /\ F = D + 1 + ps + 31 /\ F + 69 <= np <= 16639 /\ F + 69 <= 1024 /\ 2 <= nb <= 160.
  Proof using H.
    pose proof (data_page_range H) as [HD _]. pose proof (mem_pages_range H) as Hm. pose proof (bt_mem _ _ _ H). pose proof (bt_low _ _ _ H).
    pose proof (bt_base _ _ _ H) as Hb. split_and!; try lia; try done.
    - apply Z.div_str_pos. lia.
    - apply Z.lt_succ_r, Z.div_lt_upper_bound; lia.
    - apply Z.div_le_lower_bound; lia.
    - apply Z.lt_succ_r, Z.div_lt_upper_bound; lia.
  Qed.

Lemma may_be_free_list p : p ∈ init_list nb F np -> may_be_free (kptr F 0) p.
  Proof using H.
    pose proof layout_range as HR. intros Hp. apply init_list_elem in Hp; [|lia]. unfold may_be_free, kptr. lia.
  Qed.

(** Up to the mappings. *)
Lemma prepare_run :
    exists s3, (i386_detect_memory cmos ;; mem_init_data kend ;; check_page_free_list kend true) s = Ret tt s3 /\
      kspace fl0 s3 D fl0 (λ _, None) /\ npages s3 = np /\ nextfree s3 = kptr F 0 /\ pages_va s3 = kptr (D + 1) 0 /\ envs_va s3 = kptr (D + 1 + ps) 0.
  Proof using H.
    pose proof layout_range as (HD & Hps & EF & Hnp & HF & Hb). destruct (detect_run H) as (c & E1).
    set (s1 := set_cons c _) in E1. destruct (data_page_range H) as [_ HR].
    destruct (mem_init_data_run kend s1 D ps F) as (s2 & E2 & [A N X K P V M R]);
      [apply (bt_next _ _ _ H)|apply (bt_list _ _ _ H)|change (npages s1) with np; lia|change (npages_basemem s1) with nb; lia|done..|change (npages s1) with np; lia|].
    change (npages s1) with np in *. change (npages_basemem s1) with nb in *.
    assert (Hin : forall p, p ∈ init_list nb F np <-> 1 <= p < np /\ p <> 7 /\ ~ (160 <= p < 256) /\ ~ (256 <= p < F)) by (intros p; apply init_list_elem; lia).
    destruct (check_page_free_list_run s2 (init_list nb F np) kend true A) as (s2' & m & c' & E3 & L & A3 & Hm).
    { rewrite X. unfold kptr. lia. }
    { rewrite X. apply may_be_free_list. }
    { exists 1. split; [apply Hin; lia|lia]. }
    { exists F. split; [apply Hin; lia|lia]. }
    exists (set_cons c' (set_mem m s2')). rewrite (bind_Ret _ _ _ _ _ E1), (bind_Ret _ _ _ _ _ E2). split; [exact E3|].
    pose proof (proj1 L) as Lo. split; [|cbn; rewrite Lo; done].
    destruct (low_list nb F np) as (Xl & W & Ex & Hl & HX & _); try lia.
    apply kspace_start.
    - by eapply alloc_inv_frame; [..|exact A3].
    - cbn. rewrite Lo. cbn. rewrite N. lia.
    - rewrite low_first_perm, Hin. lia.
    - rewrite (links_refs s2 s2'), R by done. done.
    - cbn. rewrite Lo. cbn. done.
    - intros i. cbn [mem set_cons set_mem]. rewrite Hm, M; [done|]. rewrite Hin. lia.
    - rewrite Ex, length_app. lia.
    - intros p. rewrite Ex, take_app_le by lia. intros Hp%elem_of_take. destruct Hp as (i & Hp & _). apply list_elem_of_lookup_2, HX in Hp. lia.
  Qed.

(** The pages left after the page tables were taken. *)
Lemma rest_list k : (k <= 68)%nat ->
    (forall p, p ∈ drop k fl0 -> p ∈ init_list nb F np) /\ (exists p, p ∈ drop k fl0 /\ p < 256) /\ (exists p, p ∈ drop k fl0 /\ 256 <= p).
  Proof using H.
    intros Hk. pose proof layout_range as HR. destruct (low_list nb F np) as (X & W & E & Hl & HX & HW); try lia. split; [|split].
    - intros p Hp. rewrite <- (low_first_perm (init_list nb F np)). rewrite <- (take_drop k fl0). apply elem_of_app. by right.
    - exists 1. split; [|lia]. rewrite E, drop_app_le by lia. apply elem_of_app. by right.
    - destruct (X !! k) as [p|] eqn:Ep; [|apply lookup_ge_None in Ep; lia]. exists p. split; [|apply list_elem_of_lookup_2, HX in Ep; lia].
      rewrite E, drop_app_le by lia. apply elem_of_app. left. apply (list_elem_of_lookup_2 _ 0). rewrite lookup_drop. by rewrite Nat.add_0_r.
  Qed.

(** The mappings, loading the directory, and the second check. *)
Lemma finish_run s3 :
    kspace fl0 s3 D fl0 (λ _, None) -> npages s3 = np -> nextfree s3 = kptr F 0 ->
    exists s6 fl, (mem_init_map bootstack kstack (kptr (D + 1) 0) (kptr (D + 1 + ps) 0) ;;
        d ← get kern_pgdir; pa ← PADDR d; lcr3 pa ;; check_page_free_list kend false) s3 = Ret tt s6 /\
      kspace fl0 s6 D fl (kernel_map (D + 1) (D + 1 + ps) pk ps) /\ cpu_cr3 (thiscpu s6) = D * 4096 /\ npages s6 = np /\
      (forall p, p ∈ fl -> p ∈ init_list nb F np).
  Proof using All.
    intros K3 Hn Hx. pose proof layout_range as (HD & Hps & EF & Hnp & HF & Hb). destruct Hpb as (Eb & Hb1 & Hb2).
    assert (Eps : pages_size s3 = ps) by (unfold pages_size, array_pages; by rewrite Hn).
    destruct (mem_init_map_run fl0 s3 D fl0 (D + 1) (D + 1 + ps) pb pk bootstack kstack K3) as (s4 & fl & E4 & K4 & F4 & X4); rewrite ?Eps; try done; try lia.
    rewrite Eps in K4. rewrite (bind_Ret _ _ _ _ _ E4), bind_get, (ks_dir _ _ _ _ _ K4). kstep by (apply PADDR_page; lia).
    unfold lcr3. rewrite bind_modify. set (s5 := set_thiscpu _ s4).
    destruct (ks_list _ _ _ _ _ K4) as [_ Efl]. pose proof (count_nonneg (λ i, Some (rdw (mem s4) D i)) (seqZ 955 69) 0) as Hab.
    change (0 <= absent s4 D) in Hab. destruct (rest_list (Z.to_nat (68 - absent s4 D))) as (R1 & R2 & R3); [lia|]. rewrite <- Efl in R1, R2, R3.
    assert (A5 : alloc_inv s5 fl) by (eapply alloc_inv_frame; [..|apply (bo_alloc _ _ _ (ks_inv _ _ _ _ _ K4))]; done).
    assert (X5 : nextfree s5 = kptr F 0) by (change (nextfree s4 = kptr F 0); congruence).
    destruct (check_page_free_list_run s5 fl kend false A5) as (s5' & m & c & E6 & L & A6 & Hm); try done.
    { rewrite X5. unfold kptr. lia. }
    { rewrite X5. intros p Hp. by apply may_be_free_list, R1. }
    pose proof (proj1 L) as Lo. exists (set_cons c (set_mem m s5')), fl. split; [exact E6|]. split; [|split; [|split; [|exact R1]]].
    - apply (kspace_scribbled fl0 s4).
      + done.
      + by eapply alloc_inv_frame; [..|exact A6].
      + cbn. by rewrite Lo.
      + cbn. by rewrite Lo.
      + intros p. by rewrite (links_refs s5 s5').
      + exact Hm.
    - unfold thiscpu. cbn. rewrite Lo. cbn. unfold s5. by rewrite lookup_insert_eq.
    - cbn. rewrite Lo. cbn. rewrite (vf_npages _ _ F4). done.
  Qed.

End Assemble.

(** ** The property *)


