(* ===== verification/Stab.v ===== *)
(** * Finding the source of an instruction ([kern/kdebug.c])

    [stab_binsearch], the search of a table of debugging symbols sorted by
    address for each type of symbol, and [debuginfo_eip], which finds file,
    function and line of an address with it. *)

From S2P Require Import Prelude Console LibString Mmu Printf E1000 Machine KernLib Spinlock PageAlloc PageTable Env.

Abbreviation N_FUN := 0x24 (only parsing).
Abbreviation N_SLINE := 0x44 (only parsing).
Abbreviation N_SO := 0x64 (only parsing).
Abbreviation N_SOL := 0x84 (only parsing).
Abbreviation N_PSYM := 0xA0 (only parsing).
Abbreviation USTABDATA := 0x200000 (only parsing).

(** ** The code *)

(** [struct Stab] *)
Record Stab := mkStab { n_strx : Z; n_type : Z; n_other : Z; n_desc : Z; n_value : Z }.

(** [stabs[i]] *)
Definition stab_load (stabs i : Z) : K Stab :=
  let p := u32 (stabs + 12 * i) in
  strx ← load p;
  type ← load_byte (u32 (p + 4));
  other ← load_byte (u32 (p + 5));
  d0 ← load_byte (u32 (p + 6));
  d1 ← load_byte (u32 (p + 7));
  value ← load (u32 (p + 8));
  mret (mkStab strx type other (d0 + 256 * d1) value).

(** The search reads the table with [rd]. *)
Section Search.
  Context (rd : Z -> K Stab) (type : Z).

(** [while (m >= l && stabs[m].n_type != type) m--] *)
Fixpoint scan_down (fuel : nat) (l m : Z) : K Z :=
  if l <=? m then
    st ← rd m;
    if n_type st =? type then mret m
    else match fuel with
         | O => leave SpinForever
         | S fuel' => scan_down fuel' l (m - 1)
         end
  else mret m.

(** The variables of the loop: [l], [r], [any_matches], [*region_left],
    [*region_right], [addr]. *)
Record bsearch := mkSearch { bs_l : Z; bs_r : Z; bs_any : bool; bs_left : Z; bs_right : Z; bs_addr : Z }.

(** The indices are far below the range of [int]. *)
Fixpoint bsearch_loop (fuel : nat) (b : bsearch) : K bsearch :=
  if bs_l b <=? bs_r b then
    match fuel with
    | O => leave SpinForever
    | S fuel' =>
        let true_m := Z.quot (bs_l b + bs_r b) 2 in
        m ← scan_down (Z.to_nat (true_m - bs_l b + 1)) (bs_l b) true_m;
        if m <? bs_l b then bsearch_loop fuel' (mkSearch (true_m + 1) (bs_r b) (bs_any b) (bs_left b) (bs_right b) (bs_addr b))
        else
          st ← rd m;
          if n_value st <? bs_addr b then bsearch_loop fuel' (mkSearch (true_m + 1) (bs_r b) true m (bs_right b) (bs_addr b))
          else if bs_addr b <? n_value st then bsearch_loop fuel' (mkSearch (bs_l b) (m - 1) true (bs_left b) (m - 1) (bs_addr b))
          else bsearch_loop fuel' (mkSearch m (bs_r b) true m (bs_right b) (u32 (bs_addr b + 1)))
    end
  else mret b.

(** The new values of [*region_left] and [*region_right]. *)
Definition stab_binsearch (region_left region_right addr : Z) : K (Z * Z) :=
  b ← bsearch_loop (Z.to_nat (2 * (region_right - region_left + 2))) (mkSearch region_left region_right false region_left region_right addr);
  if negb (bs_any b) then mret (bs_left b, bs_left b - 1)
  else
    l ← scan_down (Z.to_nat (bs_right b - bs_left b)) (bs_left b + 1) (bs_right b);
    mret (l, bs_right b).
End Search.

(** ** The search *)

Section Correct.
  Context (rd : Z -> K Stab) (type : Z) (f : Z -> Stab) (L R a : Z) (s : kstate).

(** The entries the search looks for. *)
Definition hit (i : Z) : Prop := n_type (f i) = type.

  Context (Hrd : forall i, L <= i <= R -> rd i s = Ret (f i) s).
  Context (Hsort : forall i j, L <= i -> i <= j -> j <= R -> hit i -> hit j -> n_value (f i) <= n_value (f j)).
  Context (Hgap : forall i, L <= i <= R -> hit i -> n_value (f i) <> a + 1).
  Context (Ha : 0 <= a < 0xFFFFFFFF).

Lemma scan_down_run fuel : forall l m, L <= l -> m <= R -> m - l + 1 <= Z.of_nat fuel ->
    exists k, scan_down rd type fuel l m s = Ret k s /\
      (l <= k <= m /\ hit k /\ (forall i, k < i <= m -> ~ hit i) \/ k = Z.min m (l - 1) /\ (forall i, l <= i <= m -> ~ hit i)).
  Proof using Hrd.
    induction fuel as [|fuel IH]; intros l m Hl Hm Hf; cbn [scan_down]; destruct (Z.leb_spec l m).
    1: lia.
    1, 3: exists m; split; [done|right; split; [lia|intros; lia]].
    kstep by (apply Hrd; lia). destruct (Z.eqb_spec (n_type (f m)) type) as [E|E].
    - exists m. split; [done|]. left. split; [lia|]. split; [done|]. intros; lia.
    - destruct (IH l (m - 1)) as (k & Ek & Hk); [lia..|]. exists k. split; [exact Ek|].
      assert (Hx : forall i, m - 1 < i <= m -> ~ hit i) by (intros i Hi; by replace i with m by lia).
      destruct Hk as [(Hk1 & Hk2 & Hk3)|(Hk1 & Hk2)]; [left|right].
      + split; [lia|]. split; [done|]. intros i Hi. destruct (decide (i <= m - 1)); [apply Hk3; lia|apply Hx; lia].
      + split; [lia|]. intros i Hi. destruct (decide (i <= m - 1)); [apply Hk2; lia|apply Hx; lia].
  Qed.

(** The part of the table that is still searched is [bs_l] to [bs_r]. *)
Record search_inv (b : bsearch) : Prop := {
  se_l : L <= bs_l b <= bs_r b + 1;
  se_r : bs_r b <= R /\ bs_right b = bs_r b;
  se_below : forall i, L <= i < bs_l b -> hit i -> n_value (f i) <= a;
  se_above : forall i, bs_r b < i <= R -> hit i -> a < n_value (f i);
  se_next : bs_r b = R \/ hit (bs_r b + 1);
  se_addr : bs_addr b = a \/ bs_addr b = a + 1;
  se_left : hit (bs_left b) /\ n_value (f (bs_left b)) <= a /\ L <= bs_left b <= bs_r b \/
            bs_left b = L /\ (forall i, L <= i < bs_l b -> ~ hit i);
  se_any : if bs_any b then exists i, L <= i <= R /\ hit i
           else bs_left b = L /\ bs_r b = R /\ (forall i, L <= i < bs_l b -> ~ hit i)
}.

(** Three steps: nothing between [l] and the middle, an entry at or below the
    address, one above it. *)
Lemma search_none b t : search_inv b -> bs_l b <= t <= bs_r b -> (forall i, bs_l b <= i <= t -> ~ hit i) ->
    search_inv (mkSearch (t + 1) (bs_r b) (bs_any b) (bs_left b) (bs_right b) (bs_addr b)).
  Proof using Type.
    intros [I1 I2 I3 I4 I5 I6 I7 I8] Ht Hn.
    assert (Hx : forall i, L <= i < t + 1 -> hit i -> L <= i < bs_l b).
    { intros i Hi Hh. destruct (decide (i < bs_l b)); [lia|]. exfalso. apply (Hn i); [lia|done]. }
    constructor; cbn; try done; try lia.
    - intros i Hi Hh. apply I3; [by apply Hx|done].
    - destruct I7 as [?|[-> Hno]]; [by left|right]. split; [done|]. intros i Hi Hh. by apply (Hno i (Hx i Hi Hh)).
    - destruct (bs_any b); [done|]. destruct I8 as (? & ? & Hno). split; [done|]. split; [done|]. intros i Hi Hh. by apply (Hno i (Hx i Hi Hh)).
  Qed.

Lemma search_low b l' m a' : search_inv b -> bs_l b <= m <= bs_r b -> hit m -> n_value (f m) <= a -> m <= l' <= bs_r b + 1 ->
    (forall i, m < i < l' -> ~ hit i) -> a' = a \/ a' = a + 1 ->
    search_inv (mkSearch l' (bs_r b) true m (bs_right b) a').
  Proof using Hsort.
    intros [I1 I2 I3 I4 I5 I6 I7 I8] Hm Hh Hv Hl Hn Ha'. constructor; cbn; try done; try lia.
    - intros i Hi Hhi. destruct (decide (i <= m)); [|exfalso; by apply (Hn i); [lia|]].
      transitivity (n_value (f m)); [|done]. apply Hsort; try done; lia.
    - left. split; [done|]. split; [done|]. lia.
    - exists m. split; [lia|done].
  Qed.

Lemma search_high b m : search_inv b -> bs_l b <= m <= bs_r b -> hit m -> a < n_value (f m) ->
    search_inv (mkSearch (bs_l b) (m - 1) true (bs_left b) (m - 1) (bs_addr b)).
  Proof using Hsort.
    intros [I1 I2 I3 I4 I5 I6 I7 I8] Hm Hh Hv. constructor; cbn; try done; try lia.
    - intros i Hi Hhi. apply (Z.lt_le_trans _ (n_value (f m))); [done|]. apply Hsort; try done; lia.
    - right. by replace (m - 1 + 1) with m by lia.
    - destruct I7 as [(H1 & H2 & H3)|?]; [left|by right]. split; [done|]. split; [done|].
      destruct (decide (bs_left b <= m - 1)); [lia|]. exfalso. assert (n_value (f m) <= n_value (f (bs_left b))); [|lia]. apply Hsort; try done; lia.
    - exists m. split; [lia|done].
  Qed.

Lemma bsearch_loop_run fuel : forall b, search_inv b ->
    2 * (bs_r b - bs_l b + 1) + (if decide (bs_addr b = a) then 1 else 0) <= Z.of_nat fuel ->
    exists b', bsearch_loop rd type fuel b s = Ret b' s /\ search_inv b' /\ bs_r b' < bs_l b'.
  Proof using Hrd Hsort Hgap Ha.
    induction fuel as [|fuel IH]; intros b I Hf; cbn [bsearch_loop]; destruct (Z.leb_spec (bs_l b) (bs_r b)) as [Hle|Hgt].
    1: case_decide; lia.
    1, 3: exists b; split; [done|split; [done|lia]].
    pose proof (se_l _ I) as Hl. pose proof (se_r _ I) as [Hr _]. set (t := Z.quot (bs_l b + bs_r b) 2).
    assert (Ht : bs_l b <= t <= bs_r b).
    { clear -Hle Hl. unfold t. Z.to_euclidean_division_equations. lia. }
    destruct (scan_down_run (Z.to_nat (t - bs_l b + 1)) (bs_l b) t) as (m & Em & Hm); [lia..|]. kstep by exact Em.
    destruct Hm as [(Hm & Hh & Hno)|(-> & Hno)].
    2:{ destruct (Z.ltb_spec (Z.min t (bs_l b - 1)) (bs_l b)); [|lia]. apply IH; [by apply search_none|cbn; lia]. }
    destruct (Z.ltb_spec m (bs_l b)); [lia|]. kstep by (apply Hrd; lia). pose proof (se_addr _ I) as Had.
    pose proof (Hgap m ltac:(lia) Hh) as Hg. destruct (Z.ltb_spec (n_value (f m)) (bs_addr b)) as [Hlt|Hge].
    { apply IH; [apply search_low; try done; try lia; intros i Hi; apply Hno; lia|cbn; lia]. }
    destruct (Z.ltb_spec (bs_addr b) (n_value (f m))) as [Hgt|Heq].
    { apply IH; [apply search_high; try done; lia|cbn; lia]. }
    assert (bs_addr b = a) as Eb by lia. rewrite Eb, u32_small by lia. apply IH.
    - apply search_low; try done; lia.
    - cbn. rewrite decide_True in Hf by done. rewrite decide_False by lia. lia.
  Qed.

(** What the search returns: the entries up to [right] are the ones at or below
    the address, and [left] is the last of them. *)
Record found (left right : Z) : Prop := {
  fo_none : (forall i, L <= i <= R -> ~ hit i) -> left = L /\ right = L - 1;
  fo_below : forall i, L <= i <= right -> hit i -> n_value (f i) <= a;
  fo_above : (exists i, L <= i <= R /\ hit i) -> forall i, right < i <= R -> hit i -> a < n_value (f i);
  fo_next : (exists i, L <= i <= R /\ hit i) -> right <= R /\ (right = R \/ hit (right + 1));
  fo_last : (exists i, L <= i <= right /\ hit i) -> L <= left <= right /\ hit left /\ (forall i, left < i <= right -> ~ hit i);
  fo_before : (exists i, L <= i <= R /\ hit i) -> (forall i, L <= i <= right -> ~ hit i) -> left = Z.min L right
}.

Lemma stab_binsearch_run : L <= R + 1 -> exists left right, stab_binsearch rd type L R a s = Ret (left, right) s /\ found left right.
  Proof using Hrd Hsort Hgap Ha.
    intros HLR. unfold stab_binsearch.
    destruct (bsearch_loop_run (Z.to_nat (2 * (R - L + 2))) (mkSearch L R false L R a)) as (b & E & [I1 [I2 I2'] I3 I4 I5 I6 I7 I8] & Hend).
    { constructor; cbn; try done; try lia; try (by left); try (right; split; [done|lia]); split; [done|]; split; [done|lia]. }
    { cbn. case_decide; lia. }
    kstep by exact E. assert (El : bs_l b = bs_r b + 1) by lia. rewrite El in *. destruct (bs_any b); cbn [negb].
    - destruct (scan_down_run (Z.to_nat (bs_right b - bs_left b)) (bs_left b + 1) (bs_right b)) as (k & Ek & Hk).
      { destruct I7 as [(_ & _ & ?)|[HeL _]]; lia. }
      { lia. }
      { lia. }
      exists k, (bs_right b). split; [kstep by exact Ek; done|]. rewrite I2' in *.
      assert (Hw : forall i, L <= i <= bs_r b -> hit i -> L <= k <= bs_r b /\ hit k /\ (forall j, k < j <= bs_r b -> ~ hit j)).
      { intros i Hi Hh. destruct Hk as [(K1 & K2 & K3)|(K1 & K2)].
        - split; [|done]. destruct I7 as [(_ & _ & ?)|[HeL _]]; lia.
        - destruct I7 as [(H1 & H2 & H3)|[_ Hno]]; [|exfalso; apply (Hno i); [lia|done]].
          replace k with (bs_left b) by lia. split; [lia|]. split; [done|]. intros j Hj. apply K2. lia. }
      constructor.
      + intros Hno. destruct I8 as (i & Hi & Hh). by apply Hno in Hi.
      + intros i Hi. apply I3. lia.
      + intros _. apply I4.
      + intros _. split; done.
      + intros (i & Hi & Hh). by apply (Hw i).
      + intros _ Hno. destruct Hk as [(K1 & K2 & K3)|(K1 & K2)].
        * exfalso. apply (Hno k); [|done]. destruct I7 as [(_ & _ & ?)|[HeL _]]; lia.
        * destruct I7 as [(H1 & H2 & H3)|[HeL _]]; [|lia]. exfalso. by apply (Hno (bs_left b)).
    - destruct I8 as (HeL & Er & Hno). rewrite HeL. eexists _, _. split; [done|]. constructor; try done.
      + intros i Hi. lia.
      + intros (i & Hi & Hh). exfalso. apply (Hno i); [lia|done].
      + intros (i & Hi & Hh). exfalso. apply (Hno i); [lia|done].
      + intros (i & Hi & Hh). lia.
      + intros (i & Hi & Hh). exfalso. apply (Hno i); [lia|done].
  Qed.
End Correct.

(** ** [debuginfo_eip] *)

(** [struct Eipdebuginfo]; strings are addresses. *)
Record Eipdebuginfo := mkInfo {
  eip_file : Z; eip_line : Z; eip_fn_name : Z; eip_fn_namelen : Z; eip_fn_addr : Z; eip_fn_narg : Z
}.

(** [strfind] of a string in memory. *)
Fixpoint kstrfind (fuel : nat) (p c : Z) : K Z :=
  b ← load_byte p;
  if (b =? 0) || (b =? c) then mret p
  else match fuel with
       | O => leave SpinForever
       | S fuel' => kstrfind fuel' (u32 (p + 1)) c
       end.

Section Code.
  (* The addresses the linker chooses: the tables, and the string "<unknown>". *)
  Context (STAB_BEGIN STAB_END STABSTR_BEGIN STABSTR_END unknown : Z).

(** Back to the last file name from [lline]. *)
Fixpoint file_loop (fuel : nat) (stabs lfile lline : Z) : K Z :=
  if lfile <=? lline then
    st ← stab_load stabs lline;
    if negb (n_type st =? N_SOL) && (negb (n_type st =? N_SO) || (n_value st =? 0)) then
      match fuel with
      | O => leave SpinForever
      | S fuel' => file_loop fuel' stabs lfile (lline - 1)
      end
    else mret lline
  else mret lline.

(** The number of [N_PSYM] entries from [lline] on. *)
Fixpoint narg_loop (fuel : nat) (stabs lline rfun narg : Z) : K Z :=
  if lline <? rfun then
    st ← stab_load stabs lline;
    if n_type st =? N_PSYM then
      match fuel with
      | O => leave SpinForever
      | S fuel' => narg_loop fuel' stabs (lline + 1) rfun (narg + 1)
      end
    else mret narg
  else mret narg.

(** The part after the tables were found. *)
Definition debuginfo_tables (addr stabs stab_end stabstr stabstr_end : Z) : K (Z * Eipdebuginfo) :=
  let info := mkInfo unknown 0 unknown 9 addr 0 in
  if stabstr_end <=? stabstr then mret (-1, info)
  else
    last ← load_byte (u32 (stabstr_end - 1));
    if negb (last =? 0) then mret (-1, info)
    else
      '(lfile, rfile) ← stab_binsearch (stab_load stabs) N_SO 0 (Z.quot (s32 (stab_end - stabs)) 12 - 1) addr;
      if lfile =? 0 then mret (-1, info)
      else
        '(lfun, rfun) ← stab_binsearch (stab_load stabs) N_FUN lfile rfile addr;
        fn ← (if lfun <=? rfun then
                st ← stab_load stabs lfun;
                mret (if n_strx st <? stabstr_end - stabstr then u32 (stabstr + n_strx st) else unknown, n_value st,
                      u32 (addr - n_value st), lfun, rfun)
              else mret (unknown, addr, addr, lfile, rfile));
        let '(name, fn_addr, addr', lline, rline) := fn in
        colon ← kstrfind (Z.to_nat (stabstr_end - stabstr + 9)) name 58;
        '(lline, rline) ← stab_binsearch (stab_load stabs) N_SLINE lline rline addr';
        line ← stab_load stabs lline;
        lline' ← file_loop (Z.to_nat (lline - lfile + 1)) stabs lfile lline;
        file ← (if lfile <=? lline' then
                  st ← stab_load stabs lline';
                  mret (if n_strx st <? stabstr_end - stabstr then u32 (stabstr + n_strx st) else unknown)
                else mret unknown);
        narg ← (if lfun <? rfun then narg_loop (Z.to_nat (rfun - lfun)) stabs (lfun + 1) rfun 0 else mret 0);
        mret (0, mkInfo file (s32 (n_value line)) name (u32 (colon - name)) fn_addr narg).

(** The tests of the user's tables are the wrong way round: [user_mem_check]
    returns [0] when the memory is readable. *)
Definition debuginfo_eip (addr : Z) : K (Z * Eipdebuginfo) :=
  let info := mkInfo unknown 0 unknown 9 addr 0 in
  if ULIM <=? addr then debuginfo_tables addr STAB_BEGIN STAB_END STABSTR_BEGIN STABSTR_END
  else
    e ← the_curenv;
    r ← user_mem_check e USTABDATA 16 (PTE_U .| PTE_P);
    if r =? 0 then mret (-1, info)
    else
      stabs ← load USTABDATA;
      stab_end ← load (USTABDATA + 4);
      stabstr ← load (USTABDATA + 8);
      stabstr_end ← load (USTABDATA + 12);
      r ← user_mem_check e stabs (u32 (Z.quot (s32 (stab_end - stabs)) 12)) (PTE_U .| PTE_P);
      if r =? 0 then mret (-1, info)
      else
        r ← user_mem_check e stabstr (u32 (stabstr_end - stabstr)) (PTE_U .| PTE_P);
        if r =? 0 then mret (-1, info)
        else debuginfo_tables addr stabs stab_end stabstr stabstr_end.
End Code.

(** ** Properties *)

(** C40: [stab_binsearch] returns for every table whose entries of the type are
    sorted, reading only entries of the region: without an entry of the type
    the region becomes empty; otherwise [*region_right] is the last index
    before the first entry above the address, and [*region_left] the last entry
    at or below it.  The entry after the address must not be at the very next
    address.  When all entries are above the address, [*region_left] is not
    above [*region_right], although the comment says so. *)
Theorem stab_binsearch_correct rd type f L R a s :
  (forall i, L <= i <= R -> rd i s = Ret (f i) s) ->
  (forall i j, L <= i -> i <= j -> j <= R -> hit type f i -> hit type f j -> n_value (f i) <= n_value (f j)) ->
  (forall i, L <= i <= R -> hit type f i -> n_value (f i) <> a + 1) ->
  0 <= a < 0xFFFFFFFF -> L <= R + 1 ->
  exists left right, stab_binsearch rd type L R a s = Ret (left, right) s /\ found type f L R a left right.
Proof. intros Hrd Hsort Hgap Ha HLR. by apply stab_binsearch_run. Qed.

(** The table of the comment in [kern/kdebug.c]; other entries are no files. *)
Definition example_stabs (i : Z) : Stab :=
  let so v := mkStab 0 N_SO 0 0 v in
  if i =? 0 then so 0xF0100000 else if i =? 13 then so 0xF0100040 else if i =? 117 then so 0xF0100176
  else if i =? 118 then so 0xF0100178 else if i =? 555 then so 0xF0100652 else if i =? 556 then so 0xF0100654
  else if i =? 657 then so 0xF0100849 else mkStab 0 N_FUN 0 0 0.

Lemma stab_binsearch_correct_witness :
  stab_binsearch (λ i, mret (example_stabs i)) N_SO 0 657 0xF0100184 (boot_sample 0) = Ret (118, 554) (boot_sample 0) /\
  found N_SO example_stabs 0 657 0xF0100184 118 554.
Proof.
  assert (E : stab_binsearch (λ i, mret (example_stabs i)) N_SO 0 657 0xF0100184 (boot_sample 0) = Ret (118, 554) (boot_sample 0))
    by (vm_compute; reflexivity).
  split; [exact E|]. destruct (stab_binsearch_correct (λ i, Ret (example_stabs i)) N_SO example_stabs 0 657 0xF0100184 (boot_sample 0))
    as (left & right & E' & Hf).
  - done.
  - intros i j _ Hij _. unfold hit, example_stabs. repeat (case_match; bool_prop; subst; try lia); cbn; try lia.
  - intros i _. unfold hit, example_stabs. repeat (case_match; bool_prop; subst; try lia); cbn; lia.
  - lia.
  - lia.
  - pose proof (eq_trans (eq_sym E) E') as Eq. injection Eq as <- <-. exact Hf.
Defined.

(** Two entries at adjacent addresses: the search for the first finds the
    second, which is above the address. *)
Example stab_binsearch_adjacent s :
  stab_binsearch (λ i, mret (mkStab 0 N_SLINE 0 0 (0x10 + i))) N_SLINE 0 1 0x10 s = Ret (1, 1) s.
Proof. reflexivity. Qed.
