(* ===== verification/Sched.v ===== *)
(** * The scheduler ([kern/sched.c]) and [env_destroy]

    [sched_yield] searches the environment table round robin; [sched_halt]
    halts the CPU.  Neither returns, so [env_destroy] of the current
    environment does not return either; [user_mem_assert] of [kern/pmap.c]
    calls it. *)

From S2P Require Import Prelude Console LibString Mmu Printf E1000 Machine KernLib Spinlock PageAlloc PageTable Env.

(** ** Operations *)

(** The search loop, [n] iterations left.  [env_run] does not return, so what
    follows the loop runs only when the search found nothing. *)
Fixpoint sched_loop (n : nat) (j : Z) : K unit :=
  match n with
  | O => mret tt
  | S n' =>
      if NENV <=? j then leave (Undefined "envs[NENV]")
      else
        st ← get (λ s, env_status (env s j));
        if bool_decide (st = ENV_RUNNABLE) then env_run j
        else sched_loop n' ((j + 1) .& (NENV - 1))
  end.

Definition may_run (st : EnvStatus) : bool :=
  match st with ENV_RUNNABLE | ENV_RUNNING | ENV_DYING => true | _ => false end.

Definition sched_halt : K unit :=
  b ← get (λ s, existsb (λ i, may_run (env_status (env s i))) (seqZ 0 NENV));
  if negb b then
    cprintf ("No runnable environments in the system!" +:+ nl) [] ;;
    leave MonitorLoop
  else
    modify (set_curenv None) ;;
    kd ← get kern_pgdir;
    pa ← PADDR kd;
    lcr3 pa ;;
    modify (set_cpu_status CPU_HALTED) ;;
    unlock_kernel ;;
    leave CpuHalt.

(** [sched_yield] once it is known where the search starts. *)
Definition sched_from (j : Z) : K unit :=
  sched_loop (Z.to_nat NENV) j ;;
  c ← get curenv;
  match c with
  | Some e =>
      st ← get (λ s, env_status (env s e));
      if bool_decide (st = ENV_RUNNING) then env_run e else mret tt
  | None => mret tt
  end ;;
  sched_halt.

Definition sched_yield : K unit :=
  c ← get curenv;
  j ← match c with
      | Some e => get (λ s, ENVX (env_id (env s e)) + 1)
      | None => mret 0
      end;
  sched_from j.

Definition env_destroy (e : Z) : K unit :=
  st ← get (λ s, env_status (env s e));
  c ← get curenv;
  if bool_decide (st = ENV_RUNNING) && negb (bool_decide (c = Some e)) then
    modify (upd_env e (set_env_status ENV_DYING))
  else
    env_free e ;;
    c ← get curenv;
    if bool_decide (c = Some e) then
      modify (set_curenv None) ;;
      sched_yield
    else mret tt.

Definition user_mem_assert (e va len perm : Z) : K unit :=
  r ← user_mem_check e va len (perm .| PTE_U);
  if r <? 0 then
    id ← get (λ s, env_id (env s e));
    addr ← get user_mem_check_addr;
    cprintf ("[%08x] user_mem_check assertion failure for va %08x" +:+ nl) [AW id; AW addr] ;;
    env_destroy e
  else mret tt.
