(* ===== verification/SchedSpec.v ===== *)
(** * What the scheduler promises

    [env_run] switches to an environment and releases the kernel lock;
    [sched_yield] picks the first runnable environment in round-robin order
    after the current one, falls back to the current one, and otherwise halts
    the CPU. *)

From S2P Require Import Prelude Console LibString Mmu Printf E1000 Machine KernLib Spinlock PageAlloc PageTable Vm VmSpec Env EnvVm EnvInv EnvSpec Sched.

(** ** [env_run] *)

(** The environment that was running becomes runnable. *)
Definition demote (s : kstate) : kstate :=
  match curenv s with
  | Some c => if decide (env_status (env s c) = ENV_RUNNING)
              then upd_env c (set_env_status ENV_RUNNABLE) s else s
  | None => s
  end.

Definition switch_state (e d : Z) (s : kstate) : kstate :=
  cr3_state (d * 4096)
    (upd_env e (λ x, set_env_runs (u32 (env_runs x + 1)) x)
      (upd_env e (set_env_status ENV_RUNNING) (set_curenv (Some e) (demote s)))).

(** The state in which user mode is entered. *)
Definition run_state (e d : Z) (s : kstate) : kstate :=
  let s1 := if decide (curenv s = Some e) then s else switch_state e d s in
  upd_env e (set_env_cpunum (cpunum s)) (set_klock (mkLock 0 None) s1).

Lemma demote_frame s :
  npages (demote s) = npages s /\ pages (demote s) = pages s /\
  page_free_list (demote s) = page_free_list s /\ mem (demote s) = mem s /\
  kern_pgdir (demote s) = kern_pgdir s /\ env_free_list (demote s) = env_free_list s /\
  cpunum (demote s) = cpunum s /\ klock (demote s) = klock s /\ cpus (demote s) = cpus s.
Proof. unfold demote. destruct (curenv s); [|done]. by destruct (decide _). Qed.

Lemma demote_env s i :
  env (demote s) i =
    if decide (curenv s = Some i /\ env_status (env s i) = ENV_RUNNING)
    then set_env_status ENV_RUNNABLE (env s i) else env s i.
Proof.
  unfold demote. destruct (curenv s) as [c|]; [|by rewrite decide_False by naive_solver].
  destruct (decide (env_status (env s c) = ENV_RUNNING)) as [Er|Er].
  - destruct (decide (c = i)) as [->|Hne].
    + rewrite decide_True by done. by rewrite env_upd_eq.
    + rewrite decide_False by naive_solver. by rewrite env_upd_ne.
  - rewrite decide_False; [done|]. intros [[= ->] ?]. done.
Qed.

Lemma switch_env e d s i :
  curenv s <> Some e ->
  env (switch_state e d s) i =
    if decide (i = e) then set_env_runs (u32 (env_runs (env s e) + 1)) (set_env_status ENV_RUNNING (env s e))
    else env (demote s) i.
Proof.
  intros Hc. unfold switch_state, cr3_state. rewrite env_set_thiscpu. case_decide as E.
  - subst i. rewrite !env_upd_eq. unfold set_curenv. rewrite env_set_thiscpu, demote_env.
    rewrite decide_False; [done|]. by intros [? _].
  - rewrite !env_upd_ne by congruence. unfold set_curenv. by rewrite env_set_thiscpu.
Qed.

Lemma switch_frame e d s :
  klock (switch_state e d s) = klock s /\ cpunum (switch_state e d s) = cpunum s /\
  curenv (switch_state e d s) = Some e /\ cpu_cr3 (thiscpu (switch_state e d s)) = d * 4096 /\
  mem (switch_state e d s) = mem s.
Proof.
  destruct (demote_frame s) as (_ & _ & _ & Hm & _ & _ & Hc & Hk & _).
  unfold switch_state. generalize dependent (demote s). intros s1 Hm Hc Hk.
  unfold cr3_state, curenv. rewrite thiscpu_set_thiscpu.
  split_and!; try done; cbn [cpu_env]; unfold upd_env, set_env, thiscpu, set_envs; cbn [cpus cpunum];
    unfold set_curenv, set_thiscpu, set_cpus; cbn [cpus cpunum]; by rewrite lookup_insert_eq.
Qed.

Lemma switch_mm e d s :
  npages (switch_state e d s) = npages s /\ pages (switch_state e d s) = pages s /\
  page_free_list (switch_state e d s) = page_free_list s /\ mem (switch_state e d s) = mem s /\
  kern_pgdir (switch_state e d s) = kern_pgdir s /\ env_free_list (switch_state e d s) = env_free_list s.
Proof.
  destruct (demote_frame s) as (D1 & D2 & D3 & D4 & D5 & D6 & _). unfold switch_state.
  revert D1 D2 D3 D4 D5 D6. generalize (demote s). intros s1 D1 D2 D3 D4 D5 D6.
  unfold cr3_state, upd_env, set_env, set_curenv, set_thiscpu, set_cpus, set_envs.
  cbn [npages pages page_free_list mem kern_pgdir env_free_list]. split_and!; assumption.
Qed.

Lemma holding_klock s s' : klock s' = klock s -> cpunum s' = cpunum s -> holding s' = holding s.
Proof. intros E1 E2. unfold holding. by rewrite E1, E2. Qed.

Lemma unlock_pop s e :
  holding s = true -> curenv s = Some e ->
  (unlock_kernel ;; env_pop_tf) s =
    Exit (EnvRun e) (upd_env e (set_env_cpunum (cpunum s)) (set_klock (mkLock 0 None) s)).
Proof.
  intros Hh Hc. unfold unlock_kernel, spin_unlock. rewrite bind_assoc, bind_get, Hh. cbn [negb].
  rewrite bind_modify. unfold env_pop_tf, the_curenv. rewrite bind_assoc, bind_get.
  assert (curenv (set_klock (mkLock 0 None) s) = Some e) as -> by done.
  by rewrite bind_mret, bind_get, bind_modify.
Qed.

Lemma env_run_spec s e d :
  holding s = true -> env_pgdir (env s e) = kptr d 0 -> 0 <= d ->
  env_run e s = Exit (EnvRun e) (run_state e d s).
Proof.
  intros Hh Hpg Hd. unfold env_run. rewrite bind_get. unfold run_state.
  case_bool_decide as Ec; cbn [negb].
  - rewrite bind_mret, decide_True by done. by apply unlock_pop.
  - rewrite decide_False by done.
    destruct (switch_frame e d s) as (F1 & F2 & F3 & _).
    assert (Hsw : (match curenv s with
                   | Some c0 => modify (λ s, if decide (env_status (env s c0) = ENV_RUNNING)
                                  then upd_env c0 (set_env_status ENV_RUNNABLE) s else s)
                   | None => mret tt
                   end ;;
                   modify (set_curenv (Some e)) ;; modify (upd_env e (set_env_status ENV_RUNNING)) ;;
                   modify (upd_env e (λ x, set_env_runs (u32 (env_runs x + 1)) x)) ;;
                   dir ← get (λ s, env_pgdir (env s e)); pa ← PADDR dir; lcr3 pa) s =
                  Ret tt (switch_state e d s)).
    { rewrite (bind_Ret _ _ s tt (demote s)) by (unfold demote; by destruct (curenv s)).
      rewrite !bind_modify, bind_get.
      set (s1 := upd_env e (λ x, _) (upd_env e _ (set_curenv (Some e) (demote s)))).
      assert (env_pgdir (env s1 e) = kptr d 0) as ->.
      { subst s1. rewrite !env_upd_eq. cbn [env_pgdir set_env_runs set_env_status]. unfold set_curenv.
        rewrite env_set_thiscpu, demote_env. rewrite decide_False; [done|]. by intros [? _]. }
      kstep by (by apply PADDR_kptr). rewrite Z.mul_0_r, Z.add_0_r. done. }
    kstep by (exact Hsw). rewrite (unlock_pop _ e); [by rewrite F2| |done]. by rewrite (holding_klock s).
Qed.

(** [run_state] changes only the environments switched from and to. *)
Lemma run_env e d s i :
  env (run_state e d s) i =
    let x := if decide (curenv s = Some e) then env s i
             else if decide (i = e)
                  then set_env_runs (u32 (env_runs (env s e) + 1)) (set_env_status ENV_RUNNING (env s e))
                  else env (demote s) i in
    if decide (i = e) then set_env_cpunum (cpunum s) x else x.
Proof.
  unfold run_state. cbv zeta.
  assert (Hk : forall l s1 j, env (set_klock l s1) j = env s1 j) by done.
  destruct (decide (i = e)) as [->|Hne].
  - rewrite env_upd_eq, Hk. destruct (decide (curenv s = Some e)); [done|].
    rewrite switch_env by done. by rewrite decide_True.
  - rewrite env_upd_ne, Hk by congruence. destruct (decide (curenv s = Some e)); [done|].
    rewrite switch_env by done. by rewrite decide_False.
Qed.

Lemma run_frame e d s :
  npages (run_state e d s) = npages s /\ pages (run_state e d s) = pages s /\
  page_free_list (run_state e d s) = page_free_list s /\ mem (run_state e d s) = mem s /\
  kern_pgdir (run_state e d s) = kern_pgdir s /\ env_free_list (run_state e d s) = env_free_list s /\
  klock (run_state e d s) = mkLock 0 None /\
  curenv (run_state e d s) = Some e /\
  (curenv s <> Some e -> cpu_cr3 (thiscpu (run_state e d s)) = d * 4096).
Proof.
  destruct (switch_frame e d s) as (_ & _ & F3 & F4 & _).
  destruct (switch_mm e d s) as (M1 & M2 & M3 & M4 & M5 & M6).
  unfold run_state. destruct (decide (curenv s = Some e)) as [E|E]; [split_and!; done|].
  revert F3 F4 M1 M2 M3 M4 M5 M6. generalize (switch_state e d s). intros s1 F3 F4 M1 M2 M3 M4 M5 M6.
  unfold upd_env, set_env, set_klock, set_envs, curenv, thiscpu.
  cbn [npages pages page_free_list mem kern_pgdir env_free_list klock cpus cpunum]. split_and!; try assumption; done.
Qed.

(** Statuses change, but no environment becomes free or used. *)
Lemma run_sys_inv e d s ds fl el kref kd :
  sys_inv s ds fl el kref kd -> 0 <= e < NENV -> live (env s e) ->
  sys_inv (run_state e d s) ds fl el kref kd.
Proof.
  intros H He Hl. destruct (run_frame e d s) as (F1 & F2 & F3 & F4 & F5 & F6 & _).
  assert (Henv : forall i, env_id (env (run_state e d s) i) = env_id (env s i) /\
            env_pgdir (env (run_state e d s) i) = env_pgdir (env s i) /\
            env_link (env (run_state e d s) i) = env_link (env s i) /\
            (live (env (run_state e d s) i) <-> live (env s i))).
  { intros i. rewrite run_env. cbv zeta. unfold live in *.
    destruct (decide (i = e)) as [->|]; destruct (decide (curenv s = Some e)); try done.
    rewrite demote_env. case_decide as E; [|done]. destruct E as [_ E]. simpl. by rewrite E. }
  destruct H as [V1 V2 V3 V4 V5 V6 V7 V8 V9 V10 V11 V12 V13].
  constructor; rewrite ?F1, ?F4, ?F5, ?F6; try assumption.
  - by apply (vm_inv_frame s _ _ _ _ F1 F2 F3 F4).
  - eapply echain_ext; [|done]. intros x _. apply Henv.
  - intros i. rewrite V8. destruct (Henv i) as (_ & _ & _ & Hlv). unfold live in Hlv.
    destruct (decide (env_status (env s i) = ENV_FREE)),
      (decide (env_status (env (run_state e d s) i) = ENV_FREE)); tauto.
  - intros i Hi. destruct (Henv i) as (-> & _ & _ & ->). by apply V9.
  - intros i Hi. destruct (Henv i) as (_ & -> & _ & ->). by apply V10.
  - intros i j Hi Hj. destruct (Henv i) as (_ & -> & _ & ->), (Henv j) as (_ & -> & _ & ->). by apply V11.
  - intros x Hx. destruct (V12 x Hx) as (i & Hi). exists i. destruct (Henv i) as (_ & -> & _ & ->). done.
Qed.

(** ** The search *)

Lemma next_slot j : (j + 1) .& (NENV - 1) = (j + 1) mod NENV.
Proof. apply land_0x3FF. Qed.

Definition slot (j k : Z) : Z := (j + k) mod NENV.

Lemma slot_succ j k : slot ((j + 1) mod NENV) k = slot j (k + 1).
Proof. unfold slot. rewrite Z.add_mod_idemp_l by lia. f_equal. lia. Qed.

Lemma slot_0 j : 0 <= j < NENV -> slot j 0 = j.
Proof. intros. unfold slot. rewrite Z.add_0_r. apply Z.mod_small. lia. Qed.

Lemma sched_loop_none n s : forall j,
  0 <= j < NENV -> (forall k, 0 <= k < Z.of_nat n -> env_status (env s (slot j k)) <> ENV_RUNNABLE) ->
  sched_loop n j s = Ret tt s.
Proof.
  induction n as [|n IH]; intros j Hj Hk; [done|]. cbn [sched_loop].
  destruct (Z.leb_spec NENV j); [lia|]. rewrite bind_get.
  pose proof (Hk 0 ltac:(lia)) as H0. rewrite slot_0 in H0 by done.
  rewrite bool_decide_eq_false_2 by done. rewrite next_slot. apply IH; [by apply Z.mod_pos_bound|].
  intros k Hk'. rewrite slot_succ. apply Hk. lia.
Qed.

Lemma sched_loop_first n s : forall j k,
  0 <= j < NENV -> 0 <= k < Z.of_nat n -> env_status (env s (slot j k)) = ENV_RUNNABLE ->
  (forall k', 0 <= k' < k -> env_status (env s (slot j k')) <> ENV_RUNNABLE) ->
  sched_loop n j s = env_run (slot j k) s.
Proof.
  induction n as [|n IH]; intros j k Hj Hk Hr Hb; [lia|]. cbn [sched_loop].
  destruct (Z.leb_spec NENV j); [lia|]. rewrite bind_get.
  destruct (decide (k = 0)) as [->|Hk0].
  - rewrite slot_0 in * by done. by rewrite bool_decide_eq_true_2.
  - pose proof (Hb 0 ltac:(lia)) as H0. rewrite slot_0 in H0 by done.
    rewrite bool_decide_eq_false_2 by done. rewrite next_slot.
    rewrite (IH _ (k - 1)); [|by apply Z.mod_pos_bound|lia|..].
    + rewrite slot_succ. by replace (k - 1 + 1) with k by lia.
    + rewrite slot_succ. by replace (k - 1 + 1) with k by lia.
    + intros k' Hk'. rewrite slot_succ. apply Hb. lia.
Qed.

(** Where the search starts. *)
Definition sched_start (s : kstate) (j : Z) : Prop :=
  curenv s = None /\ j = 0 \/
  exists c, curenv s = Some c /\ 0 <= c < NENV - 1 /\ live (env s c) /\ j = c + 1.

Lemma sched_yield_start s ds fl el kref kd j :
  sys_inv s ds fl el kref kd -> sched_start s j -> sched_yield s = sched_from j s /\ 0 <= j < NENV.
Proof.
  intros H Hs. unfold sched_yield. rewrite bind_get. destruct Hs as [[-> ->]|(c & -> & Hc & Hl & ->)].
  - rewrite bind_mret. split; [done|lia].
  - rewrite bind_get. destruct (live_id _ _ _ _ _ _ c H ltac:(lia) Hl) as [-> _]. split; [done|lia].
Qed.

(** With nothing runnable in the table the search falls through. *)
Lemma sched_from_none s j :
  0 <= j < NENV -> (forall i, 0 <= i < NENV -> env_status (env s i) <> ENV_RUNNABLE) ->
  sched_from j s =
    match curenv s with
    | Some c => if bool_decide (env_status (env s c) = ENV_RUNNING) then (env_run c ;; sched_halt) s
                else sched_halt s
    | None => sched_halt s
    end.
Proof.
  intros Hj Hn. unfold sched_from. kstep by (apply sched_loop_none; [done|]; intros k Hk; apply Hn, Z.mod_pos_bound; done).
  rewrite bind_get. destruct (curenv s); [|done]. rewrite bind_assoc, bind_get. by case_bool_decide.
Qed.

Lemma sched_from_run s j k :
  0 <= j < NENV -> 0 <= k < NENV -> env_status (env s (slot j k)) = ENV_RUNNABLE ->
  (forall k', 0 <= k' < k -> env_status (env s (slot j k')) <> ENV_RUNNABLE) ->
  forall x s', env_run (slot j k) s = Exit x s' -> sched_from j s = Exit x s'.
Proof.
  intros Hj Hk Hr Hb x s' He. unfold sched_from. apply bind_Exit. rewrite <- He.
  apply sched_loop_first; [done| |done|done]. rewrite Z2Nat.id; [done|lia].
Qed.

(** [existsb] over the table. *)
Lemma table_existsb f :
  existsb f (seqZ 0 NENV) = true <-> exists i, 0 <= i < NENV /\ f i = true.
Proof.
  rewrite existsb_exists. split.
  - intros (i & Hi & Hf). exists i. split; [|done]. apply list_elem_of_In, elem_of_seqZ in Hi. lia.
  - intros (i & Hi & Hf). exists i. split; [|done]. apply list_elem_of_In, elem_of_seqZ. lia.
Qed.

(** The state in which a CPU halts. *)
Definition halt_state (kd : Z) (s : kstate) : kstate :=
  set_klock (mkLock 0 None) (set_cpu_status CPU_HALTED (cr3_state (kd * 4096) (set_curenv None s))).

Lemma sched_halt_run s kd :
  holding s = true -> kern_pgdir s = kptr kd 0 -> 0 <= kd ->
  exists c, sched_halt s =
    if existsb (λ i, may_run (env_status (env s i))) (seqZ 0 NENV)
    then Exit CpuHalt (halt_state kd s) else Exit MonitorLoop (set_cons c s).
Proof.
  intros Hh Hkp Hk. unfold sched_halt. rewrite bind_get.
  generalize (existsb (λ i, may_run (env_status (env s i))) (seqZ 0 NENV)). intros b.
  destruct (cprintf_run ("No runnable environments in the system!" +:+ nl) [] s eq_refl) as (c & Hc). exists c.
  destruct b; cbn [negb]; [|by rewrite (bind_Ret _ _ _ _ _ Hc)].
  rewrite bind_modify, bind_get.
  assert (kern_pgdir (set_curenv None s) = kptr kd 0) as -> by done.
  kstep by (by apply PADDR_kptr). rewrite Z.mul_0_r, Z.add_0_r.
  kstep by (reflexivity). rewrite bind_modify. unfold unlock_kernel, spin_unlock.
  rewrite bind_assoc, bind_get. rewrite (holding_klock s) by done. rewrite Hh. cbn [negb]. done.
Qed.

(** The first of the numbers below [n] with a decidable property. *)
Lemma first_below (P : Z -> Prop) `{forall k, Decision (P k)} n :
  (exists k, 0 <= k < Z.of_nat n /\ P k /\ forall k', 0 <= k' < k -> ~ P k') \/
  forall k, 0 <= k < Z.of_nat n -> ~ P k.
Proof.
  induction n as [|n [(k & Hk & HP & Hb)|IH]].
  - right. intros k Hk. lia.
  - left. exists k. split; [lia|done].
  - destruct (decide (P (Z.of_nat n))).
    + left. exists (Z.of_nat n). split; [lia|done].
    + right. intros k Hk. destruct (decide (k = Z.of_nat n)) as [->|]; [done|]. apply IH. lia.
Qed.

Lemma slot_onto j i : 0 <= i < NENV -> exists k, 0 <= k < NENV /\ slot j k = i.
Proof.
  intros Hi. exists ((i - j) mod NENV). split; [by apply Z.mod_pos_bound|].
  unfold slot. rewrite Z.add_mod_idemp_r by lia. replace (j + (i - j)) with i by lia. by apply Z.mod_small.
Qed.

Lemma first_runnable s j :
  (exists k, 0 <= k < NENV /\ env_status (env s (slot j k)) = ENV_RUNNABLE /\
     forall k', 0 <= k' < k -> env_status (env s (slot j k')) <> ENV_RUNNABLE) \/
  forall i, 0 <= i < NENV -> env_status (env s i) <> ENV_RUNNABLE.
Proof.
  destruct (first_below (λ k, env_status (env s (slot j k)) = ENV_RUNNABLE) (Z.to_nat NENV)) as [?|Hn];
    rewrite Z2Nat.id in * by lia; [by left|]. right. intros i Hi.
  destruct (slot_onto j i Hi) as (k & Hk & <-). by apply Hn.
Qed.

(** The page directory of an environment in use. *)
Lemma live_dir s ds fl el kref kd e :
  sys_inv s ds fl el kref kd -> 0 <= e < NENV -> live (env s e) ->
  exists d, d ∈ ds /\ env_pgdir (env s e) = kptr d 0 /\ 0 <= d.
Proof.
  intros H He Hl. destruct (sy_dir _ _ _ _ _ _ H e He Hl) as (d & Hd & Hpg). exists d.
  pose proof (dir_range (sy_vm _ _ _ _ _ _ H) d Hd). split; [done|]. split; [done|]. lia.
Qed.

(** An environment before and after scheduling: it can be marked running or
    runnable again, but keeps its registers, identity and address space. *)
Definition active (st : EnvStatus) : Prop := st = ENV_RUNNABLE \/ st = ENV_RUNNING.

Definition same_task (x y : Env) : Prop :=
  env_tf y = env_tf x /\ env_id y = env_id x /\ env_pgdir y = env_pgdir x /\
  (env_status y = env_status x \/ active (env_status x) /\ active (env_status y)).

Lemma same_task_refl x : same_task x x.
Proof. unfold same_task. auto. Qed.

Lemma run_tasks e d s i :
  active (env_status (env s e)) -> mem (run_state e d s) = mem s /\ same_task (env s i) (env (run_state e d s) i).
Proof.
  intros Ha. split; [apply (run_frame e d s)|]. rewrite run_env. cbv zeta.
  destruct (decide (curenv s = Some e)).
  - destruct (decide (i = e)) as [->|]; [|apply same_task_refl]. unfold same_task. simpl. auto.
  - destruct (decide (i = e)) as [->|Hne]; [unfold same_task, active in *; simpl; tauto|].
    rewrite demote_env. case_decide as E; [|apply same_task_refl].
    unfold same_task, active. simpl. tauto.
Qed.

(** Halting leaves memory and the environment table alone. *)
Lemma sched_halt_exits s ds fl el kref kd :
  sys_inv s ds fl el kref kd -> holding s = true ->
  exists x s', sched_halt s = Exit x s' /\ (x = CpuHalt \/ x = MonitorLoop) /\
    sys_inv s' ds fl el kref kd /\ mem s' = mem s /\ forall i, env s' i = env s i.
Proof.
  intros H Hh. pose proof (sy_krange _ _ _ _ _ _ H) as Hkr.
  destruct (sched_halt_run s kd Hh (sy_kptr _ _ _ _ _ _ H) ltac:(lia)) as (c & ->).
  destruct (existsb (λ i, may_run (env_status (env s i))) (seqZ 0 NENV)).
  - exists CpuHalt, (halt_state kd s). split; [done|]. split; [by left|]. split; [|done].
    apply sys_inv_klock. unfold set_cpu_status, cr3_state, set_curenv. cbv zeta. by do 3 apply sys_inv_thiscpu.
  - exists MonitorLoop, (set_cons c s). split; [done|]. split; [by right|]. split; [|done]. by apply (sys_inv_same s).
Qed.

Lemma env_run_exits s ds fl el kref kd e :
  sys_inv s ds fl el kref kd -> holding s = true -> 0 <= e < NENV -> live (env s e) ->
  exists s', env_run e s = Exit (EnvRun e) s' /\ curenv s' = Some e /\ sys_inv s' ds fl el kref kd /\
    forall i, i <> e -> env_status (env s i) <> ENV_RUNNING -> env s' i = env s i.
Proof.
  intros H Hh He Hl. destruct (live_dir _ _ _ _ _ _ _ H He Hl) as (d & Hd & Hpg & Hd0).
  exists (run_state e d s). split; [by apply env_run_spec|]. split; [apply (run_frame e d s)|].
  split; [by apply run_sys_inv|]. intros i Hi Hr. rewrite run_env. cbv zeta.
  rewrite !(decide_False (P := i = e)) by done. destruct (decide (curenv s = Some e)); [done|].
  rewrite demote_env, decide_False; [done|]. by intros [_ ?].
Qed.

(** Wherever it starts within the table, the search ends outside the kernel. *)
Lemma sched_yield_exits s ds fl el kref kd j :
  sys_inv s ds fl el kref kd -> holding s = true -> sched_start s j ->
  exists x s', sched_yield s = Exit x s' /\ sys_inv s' ds fl el kref kd /\
    (forall i, env_status (env s i) = ENV_NOT_RUNNABLE -> env s' i = env s i) /\
    mem s' = mem s /\ (forall i, same_task (env s i) (env s' i)) /\
    ((exists e, x = EnvRun e /\ 0 <= e < NENV /\ curenv s' = Some e /\
        (env_status (env s e) = ENV_RUNNABLE \/ curenv s = Some e /\ env_status (env s e) = ENV_RUNNING)) \/
     (x = CpuHalt \/ x = MonitorLoop) /\ forall c, curenv s = Some c -> env_status (env s c) <> ENV_RUNNING).
Proof.
  intros H Hh Hs. destruct (sched_yield_start _ _ _ _ _ _ _ H Hs) as [-> Hj].
  assert (Hrun : forall e, env_status (env s e) = ENV_RUNNABLE \/ curenv s = Some e /\ env_status (env s e) = ENV_RUNNING ->
    0 <= e < NENV -> exists s', env_run e s = Exit (EnvRun e) s' /\ curenv s' = Some e /\ sys_inv s' ds fl el kref kd /\
    (forall i, env_status (env s i) = ENV_NOT_RUNNABLE -> env s' i = env s i) /\
    mem s' = mem s /\ forall i, same_task (env s i) (env s' i)).
  { intros e Hst He. assert (Ha : active (env_status (env s e))) by (unfold active; tauto).
    assert (Hl : live (env s e)) by (unfold live; by destruct Ha as [-> | ->]).
    destruct (env_run_exits _ _ _ _ _ _ e H Hh He Hl) as (s1 & E & Hc & Hi & Ho).
    destruct (live_dir _ _ _ _ _ _ _ H He Hl) as (d & _ & Hpg & Hd0).
    pose proof (env_run_spec s e d Hh Hpg Hd0) as E'. rewrite E in E'. injection E' as ->.
    eexists. split; [done|]. split; [done|]. split; [done|]. split.
    - intros i Hn. apply Ho; [|by rewrite Hn]. intros ->. by destruct Ha as [E'|E']; rewrite E' in Hn.
    - split; [|intros i]; by apply run_tasks. }
  destruct (first_runnable s j) as [(k & Hk & Hr & Hb)|Hn].
  - pose proof (Z.mod_pos_bound (j + k) NENV ltac:(done)) as He. fold (slot j k) in He.
    destruct (Hrun _ (or_introl Hr) He) as (s' & E & Hc & Hi & Ho & Ht). exists (EnvRun (slot j k)), s'.
    split; [by apply (sched_from_run s j k Hj Hk Hr Hb)|]. split; [done|]. split; [done|]. split; [apply Ht|].
    split; [apply Ht|]. left. eauto 10.
  - rewrite sched_from_none by done. destruct (sched_halt_exits _ _ _ _ _ _ H Hh) as (x & s' & E & Hx & Hi & Hm & Ho).
    assert (Hh' : exists x s', sched_halt s = Exit x s' /\ sys_inv s' ds fl el kref kd /\
      (forall i, env_status (env s i) = ENV_NOT_RUNNABLE -> env s' i = env s i) /\
      mem s' = mem s /\ (forall i, same_task (env s i) (env s' i)) /\ (x = CpuHalt \/ x = MonitorLoop)).
    { exists x, s'. split_and!; try done. intros i. rewrite Ho. apply same_task_refl. }
    clear x s' E Hx Hi Hm Ho. destruct Hh' as (x & s' & E & Hi & Hn' & Hm & Ht & Hx).
    destruct Hs as [[Hc ->]|(c & Hc & Hcr & Hl & ->)]; rewrite Hc;
      [exists x, s'; by rewrite ?Hc; split_and!; try done; right|].
    case_bool_decide as Er; [|exists x, s'; split_and!; try done; right; split; [done|by intros c' [= <-]]].
    destruct (Hrun c (or_intror (conj Hc Er)) ltac:(lia)) as (s1 & E1 & Hc1 & Hi1 & Ho1 & Ht1).
    exists (EnvRun c), s1. split; [by apply bind_Exit|]. split; [done|]. split; [done|]. split; [apply Ht1|].
    split; [apply Ht1|]. left. exists c. split; [done|]. split; [lia|]. by auto.
Qed.

(** ** [env_destroy] *)

Lemma env_destroy_run s ds fl el kref kd e :
  sys_inv s ds fl el kref kd -> 0 <= e < NENV -> live (env s e) ->
  (env_status (env s e) = ENV_RUNNING /\ curenv s <> Some e /\
     env_destroy e s = Ret tt (upd_env e (set_env_status ENV_DYING) s)) \/
  ((env_status (env s e) = ENV_RUNNING -> curenv s = Some e) /\
   exists s1 d ds' fl', ds ≡ₚ d :: ds' /\ sys_inv s1 ds' fl' (e :: el) kref kd /\ env_freed ds' d e s s1 /\
     env_destroy e s = if decide (curenv s = Some e) then sched_yield (set_curenv None s1) else Ret tt s1).
Proof.
  intros H He Hl. unfold env_destroy. rewrite !bind_get.
  destruct (env_free_inv _ _ _ _ _ _ e H He Hl) as (s1 & d & ds' & fl' & Hf & Hp & _ & Hi & _ & Hfr).
  assert (Hrest : (env_free e ;; c ← get curenv; if bool_decide (c = Some e) then
             modify (set_curenv None) ;; sched_yield else mret tt) s =
           if decide (curenv s = Some e) then sched_yield (set_curenv None s1) else Ret tt s1).
  { kstep by (exact Hf). rewrite bind_get, (ef_curenv _ _ (fr_frame _ _ _ _ _ Hfr)).
    case_bool_decide; by case_decide. }
  destruct (bool_decide (env_status (env s e) = ENV_RUNNING) && negb (bool_decide (curenv s = Some e))) eqn:E.
  - apply andb_true_iff in E as [E1 E2]. apply bool_decide_eq_true in E1.
    apply negb_true_iff, bool_decide_eq_false in E2. by left.
  - right. split; [|exists s1, d, ds', (d :: fl'); by split_and!]. intros Er. rewrite bool_decide_eq_true_2 in E by done.
    by apply negb_false_iff, bool_decide_eq_true in E.
Qed.

(** Changing the status of an environment in use to another such status. *)
Lemma set_status_inv s ds fl el kref kd e st :
  sys_inv s ds fl el kref kd -> 0 <= e < NENV -> live (env s e) -> st <> ENV_FREE ->
  sys_inv (upd_env e (set_env_status st) s) ds fl el kref kd.
Proof.
  intros H He Hl Hst. apply (sys_env_step H _ e); try done.
  - apply (vm_inv_frame s); try done. apply H.
  - by rewrite env_upd_eq.
  - by rewrite env_upd_eq.
  - by rewrite env_upd_eq.
  - intros i Hi. by rewrite env_upd_ne by congruence.
Qed.

(** A sample: environment 0 is current and this CPU holds the kernel lock. *)
Definition held (s : kstate) : kstate := set_klock (mkLock 1 (Some (cpunum s))) s.

Lemma held_holding s : holding (held s) = true.
Proof. unfold holding, held. cbn. by rewrite bool_decide_eq_true_2. Qed.

Lemma held_sys s ds fl el kref kd : sys_inv s ds fl el kref kd -> sys_inv (held s) ds fl el kref kd.
Proof. apply sys_inv_klock. Qed.

Lemma held_env s i : env (held s) i = env s i.
Proof. done. Qed.

Lemma held_curenv s : curenv (held s) = curenv s.
Proof. done. Qed.

(** A sample whose only environment is in the last slot. *)
Definition sys_last_list : list Z := (NENV - 1) :: seqZ 0 (NENV - 1).

Definition sys_last_boot : kstate :=
  match kfor (reverse sys_last_list) env_init_body (set_env_free_list None sys_boot) with
  | Ret _ s => s
  | Exit _ s => s
  end.

Definition sys_last : kstate := set_curenv (Some (NENV - 1)) (alloc_env_state (NENV - 1) 279 256 0 sys_last_boot).

Lemma sys_last_boot_inv :
  sys_inv sys_last_boot [] (279 :: sys_sample1_free) ((NENV - 1) :: seqZ 0 (NENV - 1)) vm_sample_kref 256.
Proof.
  destruct (env_init_list sys_last_list sys_boot page_sample_free vm_sample_kref 256) as (s' & He & Hi & _).
  - apply list.NoDup_cons. split; [|apply NoDup_seqZ]. rewrite elem_of_seqZ. lia.
  - intros i. unfold sys_last_list. rewrite elem_of_cons, elem_of_seqZ. lia.
  - apply vm_inv_set_kern_pgdir, vm_inv_nil, vm_base_inv.
  - reflexivity.
  - split; vm_compute; congruence.
  - vm_compute. congruence.
  - intros i Hi. assert (mem sys_boot = ∅) as -> by (vm_compute; reflexivity). reflexivity.
  - unfold sys_last_boot. rewrite He.
    replace page_sample_free with (279 :: sys_sample1_free) in Hi by (vm_compute; reflexivity). exact Hi.
Qed.

(** ** Properties *)

(** C6: [sched_yield] enters user mode in the first runnable environment
    found round robin after the one this CPU ran last: that environment is now
    current and its page directory is loaded, the kernel lock is free, the
    environment switched from is runnable again if it was running, the rest of
    the environment table is unchanged and the system invariant holds. *)
Theorem sched_yield_round_robin s ds fl el kref kd j k :
  sys_inv s ds fl el kref kd -> holding s = true -> sched_start s j -> 0 <= k < NENV ->
  env_status (env s (slot j k)) = ENV_RUNNABLE ->
  (forall k', 0 <= k' < k -> env_status (env s (slot j k')) <> ENV_RUNNABLE) ->
  exists s' d, sched_yield s = Exit (EnvRun (slot j k)) s' /\ sys_inv s' ds fl el kref kd /\
    curenv s' = Some (slot j k) /\ locked (klock s') = 0 /\
    (curenv s <> Some (slot j k) -> env_pgdir (env s (slot j k)) = kptr d 0 /\
       cpu_cr3 (thiscpu s') = d * 4096 /\ env_status (env s' (slot j k)) = ENV_RUNNING) /\
    (forall i, i <> slot j k -> env s' i =
       if decide (curenv s = Some i /\ curenv s <> Some (slot j k) /\ env_status (env s i) = ENV_RUNNING)
       then set_env_status ENV_RUNNABLE (env s i) else env s i).
Proof.
  intros H Hh Hs Hk Hr Hb. destruct (sched_yield_start _ _ _ _ _ _ _ H Hs) as [-> Hj].
  pose proof (Z.mod_pos_bound (j + k) NENV ltac:(done)) as He. fold (slot j k) in He.
  assert (Hl : live (env s (slot j k))) by (unfold live; by rewrite Hr).
  destruct (sy_dir _ _ _ _ _ _ H _ He Hl) as (d & Hd & Hpg).
  assert (Hd0 : 0 <= d) by (pose proof (dir_range (sy_vm _ _ _ _ _ _ H) d Hd); lia).
  exists (run_state (slot j k) d s), d. revert Hb Hr He Hl Hpg Hk.
  intros Hb Hr He Hl Hpg Hk. split.
  { by apply (sched_from_run s j k Hj Hk Hr Hb), env_run_spec. }
  destruct (run_frame (slot j k) d s) as (_ & _ & _ & _ & _ & _ & F7 & F8 & F9).
  split; [by apply run_sys_inv|]. split; [done|]. split; [by rewrite F7|]. split.
  - intros Hc. split; [done|]. split; [by apply F9|]. rewrite run_env. cbv zeta.
    destruct (decide (slot j k = slot j k)); [|done]. by destruct (decide (curenv s = Some (slot j k))).
  - intros i Hi. rewrite run_env. cbv zeta. rewrite !(decide_False (P := i = slot j k)) by done.
    destruct (decide (curenv s = Some (slot j k))) as [E|E].
    + rewrite decide_False; [done|]. tauto.
    + rewrite demote_env. apply decide_ext. tauto.
Qed.

Lemma sched_yield_round_robin_witness :
  exists s', sched_yield (held (set_curenv None sys_sample1)) = Exit (EnvRun 0) s' /\
    env_status (env s' 0) = ENV_RUNNING.
Proof.
  destruct (sched_yield_round_robin (held (set_curenv None sys_sample1)) [279] sys_sample1_free
    (seqZ 1 1023) vm_sample_kref 256 0 0) as (s' & d & H1 & _ & _ & _ & H2 & _).
  - apply held_sys, sys_inv_thiscpu, sys_sample1_inv.
  - apply held_holding.
  - left. split; [|reflexivity]. rewrite held_curenv. apply curenv_set_curenv.
  - split; [apply Z.le_refl|reflexivity].
  - rewrite slot_0 by lia. rewrite held_env. unfold set_curenv. cbv zeta.
    rewrite env_set_thiscpu, (proj1 sys_sample1_env). reflexivity.
  - intros k' Hk'. exfalso. lia.
  - exists s'. split; [exact H1|]. destruct H2 as (_ & _ & H2); [|exact H2].
    rewrite held_curenv, curenv_set_curenv. intros E. discriminate E.
Defined.

(** When nothing is runnable [sched_yield] goes back to the environment
    this CPU was running, if it still is; otherwise it halts the CPU, with no
    current environment, the kernel's page directory loaded and the kernel
    lock released, or enters the monitor when no environment can ever run. *)
Theorem sched_yield_idle s ds fl el kref kd j :
  sys_inv s ds fl el kref kd -> holding s = true -> sched_start s j ->
  (forall i, 0 <= i < NENV -> env_status (env s i) <> ENV_RUNNABLE) ->
  (exists c s', curenv s = Some c /\ env_status (env s c) = ENV_RUNNING /\
     sched_yield s = Exit (EnvRun c) s' /\ curenv s' = Some c /\ locked (klock s') = 0 /\
     sys_inv s' ds fl el kref kd) \/
  ((forall c, curenv s = Some c -> env_status (env s c) <> ENV_RUNNING) /\
   ((exists i s', 0 <= i < NENV /\ may_run (env_status (env s i)) = true /\
       sched_yield s = Exit CpuHalt s' /\ curenv s' = None /\ cpu_status (thiscpu s') = CPU_HALTED /\
       cpu_cr3 (thiscpu s') = kd * 4096 /\ locked (klock s') = 0 /\ envs s' = envs s /\ mem s' = mem s) \/
    ((forall i, 0 <= i < NENV -> may_run (env_status (env s i)) = false) /\
       exists s', sched_yield s = Exit MonitorLoop s' /\ envs s' = envs s /\ mem s' = mem s))).
Proof.
  intros H Hh Hs Hn. destruct (sched_yield_start _ _ _ _ _ _ _ H Hs) as [-> Hj].
  pose proof (sy_kptr _ _ _ _ _ _ H) as Hkp. pose proof (sy_krange _ _ _ _ _ _ H) as Hkr.
  rewrite sched_from_none by done.
  assert (Hhalt : (exists i s', 0 <= i < NENV /\ may_run (env_status (env s i)) = true /\
       sched_halt s = Exit CpuHalt s' /\ curenv s' = None /\ cpu_status (thiscpu s') = CPU_HALTED /\
       cpu_cr3 (thiscpu s') = kd * 4096 /\ locked (klock s') = 0 /\ envs s' = envs s /\ mem s' = mem s) \/
    ((forall i, 0 <= i < NENV -> may_run (env_status (env s i)) = false) /\
       exists s', sched_halt s = Exit MonitorLoop s' /\ envs s' = envs s /\ mem s' = mem s)).
  { destruct (sched_halt_run s kd Hh Hkp ltac:(lia)) as (cc & ->). pose proof (table_existsb (λ i, may_run (env_status (env s i)))) as Ht.
    destruct (existsb (λ i, may_run (env_status (env s i))) (seqZ 0 NENV)).
    - destruct (proj1 Ht eq_refl) as (i & Hi & Hm). left. exists i, (halt_state kd s).
      assert (Hth : thiscpu (halt_state kd s) = mkCpu CPU_HALTED None (kd * 4096) ∅).
      { unfold halt_state, cr3_state, set_cpu_status, set_curenv. cbv zeta.
        assert (forall l s1, thiscpu (set_klock l s1) = thiscpu s1) as -> by done.
        by rewrite !thiscpu_set_thiscpu. }
      unfold curenv. rewrite Hth. done.
    - right. split; [|by exists (set_cons cc s)]. intros i Hi. destruct (may_run (env_status (env s i))) eqn:E; [|done].
      discriminate (proj2 Ht (ex_intro _ i (conj Hi E))). }
  destruct Hs as [[Hc ->]|(c & Hc & Hcr & Hl & ->)]; rewrite Hc; [right; split; [done|exact Hhalt]|].
  case_bool_decide as Er; [|right; split; [by intros c' [= <-]|exact Hhalt]].
  left. destruct (sy_dir _ _ _ _ _ _ H c ltac:(lia) Hl) as (d & Hd & Hpg).
  assert (Hd0 : 0 <= d) by (pose proof (dir_range (sy_vm _ _ _ _ _ _ H) d Hd); lia).
  exists c, (run_state c d s). destruct (run_frame c d s) as (_ & _ & _ & _ & _ & _ & F7 & F8 & _).
  split; [done|]. split; [done|]. split; [by apply bind_Exit, env_run_spec|].
  split; [done|]. split; [by rewrite F7|]. apply run_sys_inv; [done|lia|done].
Qed.

Lemma sched_yield_idle_witness : exists s', sched_yield (held sys_sample) = Exit MonitorLoop s'.
Proof.
  assert (Hall : forall i, 0 <= i < NENV -> env_status (env (held sys_sample) i) = ENV_FREE).
  { intros i Hi. rewrite held_env. apply (sy_free _ _ _ _ _ _ sys_sample_inv), elem_of_seqZ. lia. }
  assert (Hc : curenv (held sys_sample) = None) by (vm_compute; reflexivity).
  destruct (sched_yield_idle (held sys_sample) [] page_sample_free (seqZ 0 NENV) vm_sample_kref 256 0)
    as [(c & s' & E & _)|(_ & [(i & s' & Hi & E & _)|(_ & s' & E & _)])].
  - apply held_sys, sys_sample_inv.
  - apply held_holding.
  - left. split; [exact Hc|reflexivity].
  - intros i Hi. rewrite (Hall i Hi). intros E. discriminate E.
  - rewrite Hc in E. discriminate E.
  - rewrite (Hall i Hi) in E. discriminate E.
  - exists s'. exact E.
Defined.

(** After running the environment in the last slot of the table the
    search starts at [envs[NENV]], one element past the end of the array,
    whatever the rest of the state is. *)
Theorem sched_yield_last_slot s ds fl el kref kd :
  sys_inv s ds fl el kref kd -> curenv s = Some (NENV - 1) -> live (env s (NENV - 1)) ->
  sched_yield s = Exit (Undefined "envs[NENV]") s.
Proof.
  intros H Hc Hl. unfold sched_yield. rewrite bind_get, Hc, bind_get.
  destruct (live_id _ _ _ _ _ _ (NENV - 1) H ltac:(lia) Hl) as [-> _].
  unfold sched_from. by apply bind_Exit.
Qed.

Lemma sched_yield_last_slot_witness : sched_yield sys_last = Exit (Undefined "envs[NENV]") sys_last.
Proof.
  apply (sched_yield_last_slot sys_last [279] sys_sample1_free (seqZ 0 (NENV - 1)) vm_sample_kref 256).
  - apply sys_inv_thiscpu, alloc_env_inv, sys_last_boot_inv.
  - apply curenv_set_curenv.
  - unfold sys_last, set_curenv. cbv zeta. rewrite env_set_thiscpu, alloc_env_env.
    destruct (decide (NENV - 1 = NENV - 1)) as [_|E]; [intros E; discriminate E|exfalso; apply E; reflexivity].
Defined.

(** [env_destroy] of an environment that another CPU runs only marks it
    as dying; of any other environment it frees the environment completely,
    and of the current one it does not return: this CPU goes on in another
    environment, halts or enters the monitor, never in the destroyed one. *)
Theorem env_destroy_correct s ds fl el kref kd e :
  sys_inv s ds fl el kref kd -> holding s = true -> 0 <= e < NENV -> live (env s e) ->
  (env_status (env s e) = ENV_RUNNING /\ curenv s <> Some e /\
   exists s', env_destroy e s = Ret tt s' /\ sys_inv s' ds fl el kref kd /\
     env_status (env s' e) = ENV_DYING /\ forall i, i <> e -> env s' i = env s i) \/
  (exists s1 d ds' fl', ds ≡ₚ d :: ds' /\ sys_inv s1 ds' fl' (e :: el) kref kd /\
     env_status (env s1 e) = ENV_FREE /\ (forall i, i <> e -> env s1 i = env s i) /\
     ((curenv s <> Some e /\ env_destroy e s = Ret tt s1) \/
      (curenv s = Some e /\ exists x s', env_destroy e s = Exit x s' /\
         ((exists e', x = EnvRun e' /\ e' <> e /\ live (env s e') /\ curenv s' = Some e' /\
             sys_inv s' ds' fl' (e :: el) kref kd) \/ x = CpuHalt \/ x = MonitorLoop)))).
Proof.
  intros H Hh He Hl.
  destruct (env_destroy_run _ _ _ _ _ _ _ H He Hl) as [(Hr & Hc & Hd)|(_ & s1 & d & ds' & fl' & Hp & Hi & Hf & Hd)].
  - left. split; [done|]. split; [done|]. exists (upd_env e (set_env_status ENV_DYING) s).
    split; [done|]. split; [by apply set_status_inv|]. split; [by rewrite env_upd_eq|].
    intros i Hn. by rewrite env_upd_ne by congruence.
  - right. exists s1, d, ds', fl'. split; [done|]. split; [done|]. pose proof (fr_env _ _ _ _ _ Hf) as Hfe.
    split; [by rewrite Hfe|]. split; [apply Hf|]. destruct (decide (curenv s = Some e)) as [Hc|Hc]; [right|by left].
    split; [done|]. destruct (fr_frame _ _ _ _ _ Hf) as [_ _ Hcpu Hk _ _ _].
    destruct (sched_yield_exits (set_curenv None s1) ds' fl' (e :: el) kref kd 0) as (x & s' & E & Hi' & _ & _ & _ & Hx).
    + by apply sys_inv_thiscpu.
    + rewrite <- Hh. by apply holding_klock.
    + left. split; [apply curenv_set_curenv|done].
    + exists x, s'. rewrite Hd. split; [done|]. destruct Hx as [(e' & -> & He' & Hc' & Hst)|Hx]; [left|by destruct Hx; right].
      exists e'. unfold set_curenv in Hst. cbv zeta in Hst. rewrite env_set_thiscpu in Hst.
      assert (Hl' : live (env s1 e')) by (unfold live; by destruct Hst as [-> |[_ ->]]).
      destruct (decide (e' = e)) as [->|Hne]; [by rewrite Hfe in Hl'|].
      rewrite (fr_others _ _ _ _ _ Hf _ Hne) in Hl'. done.
Qed.

Lemma env_destroy_correct_witness : exists x s', env_destroy 0 (held sys_sample1) = Exit x s' /\ x <> EnvRun 0.
Proof.
  pose proof (proj2 sys_sample1_env) as Hc.
  destruct (env_destroy_correct (held sys_sample1) [279] sys_sample1_free (seqZ 1 1023) vm_sample_kref 256 0)
    as [(_ & E & _)|(s1 & d & ds' & fl' & _ & _ & _ & _ & [(E & _)|(_ & x & s' & E & Hx)])].
  - apply held_sys, sys_sample1_inv.
  - apply held_holding.
  - split; [apply Z.le_refl|reflexivity].
  - rewrite held_env. exact sys_sample1_live.
  - exfalso. apply E. rewrite held_curenv. exact Hc.
  - exfalso. apply E. rewrite held_curenv. exact Hc.
  - exists x, s'. split; [exact E|]. intros ->. destruct Hx as [(e' & Ee & Hn & _)|[Ee|Ee]]; try discriminate Ee.
    apply Hn. congruence.
Defined.
