(* ===== verification/Syscall.v ===== *)
(** * System calls ([kern/syscall.c])

    Every system call and the dispatcher [syscall].  The arguments are the
    32-bit registers of the caller; user memory is reached through the page
    directory the CPU has loaded, as the kernel does. *)

From S2P Require Import Prelude Console LibString Mmu Printf E1000 Machine KernLib Spinlock PageAlloc PageTable Env Sched.

Abbreviation SYS_cputs := 0 (only parsing).
Abbreviation SYS_cgetc := 1 (only parsing).
Abbreviation SYS_getenvid := 2 (only parsing).
Abbreviation SYS_env_destroy := 3 (only parsing).
Abbreviation SYS_page_alloc := 4 (only parsing).
Abbreviation SYS_page_map := 5 (only parsing).
Abbreviation SYS_page_unmap := 6 (only parsing).
Abbreviation SYS_exofork := 7 (only parsing).
Abbreviation SYS_env_set_status := 8 (only parsing).
Abbreviation SYS_env_set_trapframe := 9 (only parsing).
Abbreviation SYS_env_set_pgfault_upcall := 10 (only parsing).
Abbreviation SYS_yield := 11 (only parsing).
Abbreviation SYS_ipc_try_send := 12 (only parsing).
Abbreviation SYS_ipc_recv := 13 (only parsing).
Abbreviation SYS_time_msec := 14 (only parsing).
Abbreviation SYS_send_packet := 15 (only parsing).
Abbreviation SYS_rcv_packet := 16 (only parsing).

(** ** Access to user memory, at any alignment *)

Fixpoint load_bytes (n : nat) (va : Z) : K (list Z) :=
  match n with
  | O => mret []
  | S n' =>
      b ← load_byte va;
      l ← load_bytes n' (u32 (va + 1));
      mret (b :: l)
  end.

Fixpoint store_bytes (va : Z) (l : list Z) : K unit :=
  match l with
  | [] => mret tt
  | b :: l' => store_byte va b ;; store_bytes (u32 (va + 1)) l'
  end.

(** Little-endian numbers. *)
Fixpoint le_value (l : list Z) : Z :=
  match l with
  | [] => 0
  | b :: l' => b + 256 * le_value l'
  end.

Definition load_le (n : nat) (va : Z) : K Z := l ← load_bytes n va; mret (le_value l).

Definition store_le32 (va v : Z) : K unit :=
  store_bytes va [byte_of v 0; byte_of v 1; byte_of v 2; byte_of v 3].

(** Reading a [struct PushRegs] and a [struct Trapframe]. *)
Definition load_regs (va : Z) : K PushRegs :=
  edi ← load_le 4 va;
  esi ← load_le 4 (u32 (va + 4));
  ebp ← load_le 4 (u32 (va + 8));
  oesp ← load_le 4 (u32 (va + 12));
  ebx ← load_le 4 (u32 (va + 16));
  edx ← load_le 4 (u32 (va + 20));
  ecx ← load_le 4 (u32 (va + 24));
  eax ← load_le 4 (u32 (va + 28));
  mret (mkPushRegs edi esi ebp oesp ebx edx ecx eax).

Definition load_tf (va : Z) : K Trapframe :=
  regs ← load_regs va;
  es ← load_le 2 (u32 (va + 32));
  ds ← load_le 2 (u32 (va + 36));
  trapno ← load_le 4 (u32 (va + 40));
  err ← load_le 4 (u32 (va + 44));
  eip ← load_le 4 (u32 (va + 48));
  cs ← load_le 2 (u32 (va + 52));
  eflags ← load_le 4 (u32 (va + 56));
  esp ← load_le 4 (u32 (va + 60));
  ss ← load_le 2 (u32 (va + 64));
  mret (mkTrapframe regs es ds trapno err eip cs eflags esp ss).

Abbreviation sizeof_Trapframe := 68 (only parsing).

(** ** The system calls *)

(** The fuel covers the characters printed: the precision, or all of the
    address space when the length is negative as an [int]. *)
Definition sys_cputs (s len : Z) : K unit :=
  c ← the_curenv;
  user_mem_assert c s len (PTE_U .| PTE_P) ;;
  let fuel := if s32 len <? 0 then Z.to_nat 4294967296 else S (Z.to_nat len) in
  vcprintf fuel "%.*s" [AW len; AW s] ;;
  mret tt.

Definition sys_cgetc : K Z := λ s,
  let '(c, cons') := cons_getc (cons s) in Ret c (set_cons cons' s).

Definition sys_getenvid : K Z := c ← the_curenv; get (λ s, env_id (env s c)).

(** [if ((r = envid2env(envid, &e, 1)) < 0) return r;] and the rest [k] of the
    system call, for the environment found; using [e] when it is NULL faults. *)
Definition with_env (envid : Z) (k : Z -> K Z) : K Z :=
  r ← envid2env envid true;
  if r.1 <? 0 then mret r.1
  else match r.2 with Some e => k e | None => kernel_fault end.

Definition sys_env_destroy (envid : Z) : K Z :=
  with_env envid (λ e,
    c ← the_curenv;
    cid ← get (λ s, env_id (env s c));
    eid ← get (λ s, env_id (env s e));
    (if e =? c then cprintf (nl +:+ nl +:+ "[%08x] exiting gracefully" +:+ nl) [AW cid]
     else cprintf ("[%08x] destroying %08x" +:+ nl) [AW cid; AW eid]) ;;
    env_destroy e ;;
    mret 0).

Definition sys_yield : K unit := sched_yield.

Definition sys_exofork : K Z :=
  c ← the_curenv;
  parent_id ← get (λ s, env_id (env s c));
  r ← env_alloc parent_id;
  match r with
  | (ret, Some child) =>
      if ret <? 0 then mret ret
      else
        modify (upd_env child (set_env_status ENV_NOT_RUNNABLE)) ;;
        modify (λ s, upd_env child (set_env_tf (env_tf (env s c))) s) ;;
        modify (upd_env child (λ x, set_env_tf (set_tf_regs (set_reg_eax 0 (tf_regs (env_tf x))) (env_tf x)) x)) ;;
        get (λ s, env_id (env s child))
  | (ret, None) => mret ret
  end.

(** The status numbers of [inc/env.h]. *)
Definition status_of (n : Z) : option EnvStatus :=
  if n =? 2 then Some ENV_RUNNABLE else if n =? 4 then Some ENV_NOT_RUNNABLE else None.

Definition sys_env_set_status (envid status : Z) : K Z :=
  with_env envid (λ e,
    match status_of status with
    | None => mret (- E_INVAL)
    | Some st => modify (upd_env e (set_env_status st)) ;; mret 0
    end).

(** The error of [envid2env] can only be [-E_BAD_ENV]; the selector whose low
    bits are set is the one in the caller's frame. *)
Definition sys_env_set_trapframe (envid tf : Z) : K Z :=
  with_env envid (λ e,
    r ← user_mem_check e tf sizeof_Trapframe (PTE_W .| PTE_U);
    if r <? 0 then mret r
    else
      t ← load_tf tf;
      modify (upd_env e (set_env_tf t)) ;;
      modify (upd_env e (λ x, set_env_tf (set_tf_eflags (tf_eflags (env_tf x) .| FL_IF) (env_tf x)) x)) ;;
      cs ← load_le 2 (u32 (tf + 52));
      store_bytes (u32 (tf + 52)) [byte_of (cs .| 3) 0; byte_of (cs .| 3) 1] ;;
      mret 0).

Definition sys_env_set_pgfault_upcall (envid func : Z) : K Z :=
  with_env envid (λ e,
    modify (upd_env e (set_env_pgfault_upcall func)) ;;
    mret 0).

(** An address a system call accepts: below [UTOP] and page-aligned. *)
Definition bad_va (va : Z) : bool := (UTOP <=? va) || negb (va mod PGSIZE =? 0).

Definition sys_page_alloc (envid va perm : Z) : K Z :=
  with_env envid (λ e,
    if bad_va va then mret (- E_INVAL)
    else
      let perm := PTE_U .| PTE_P .| perm in
      if negb (perm .& Z.lnot (PTE_U .| PTE_P .| PTE_AVAIL .| PTE_W) =? 0) then mret (- E_INVAL)
      else
        pp ← page_alloc ALLOC_ZERO;
        match pp with
        | None => mret (- E_NO_MEM)
        | Some pp =>
            dir ← get (λ s, env_pgdir (env s e));
            ret ← page_insert dir pp va perm;
            if ret <? 0 then page_free pp ;; mret ret else mret 0
        end).

Definition sys_page_map (srcenvid srcva dstenvid dstva perm : Z) : K Z :=
  with_env srcenvid (λ srce,
    with_env dstenvid (λ dste,
      if bad_va srcva || bad_va dstva then mret (- E_INVAL)
      else
        sdir ← get (λ s, env_pgdir (env s srce));
        pp ← page_lookup sdir srcva;
        match pp with
        | None => mret (- E_INVAL)
        | Some (pp, _) =>
            ddir ← get (λ s, env_pgdir (env s dste));
            ret ← page_insert ddir pp dstva perm;
            if ret <? 0 then mret ret else mret 0
        end)).

Definition sys_page_unmap (envid va : Z) : K Z :=
  with_env envid (λ e,
    if bad_va va then mret (- E_INVAL)
    else
      dir ← get (λ s, env_pgdir (env s e));
      page_remove dir va ;;
      mret 0).

(** The checks of [sys_ipc_try_send] on a source address below [UTOP]. *)
Definition ipc_page_ok (srcva perm : Z) (pp : option (Z * Z)) : K bool :=
  if negb (srcva mod PGSIZE =? 0) then mret false
  else if negb (perm .& PTE_U =? PTE_U) || negb (perm .& PTE_P =? PTE_P) ||
          negb (perm .& Z.lnot PTE_SYSCALL =? 0) then mret false
  else
    match pp with
    | None => mret false
    | Some (_, pte) =>
        if hasbits perm PTE_W then v ← load pte; mret (hasbits v PTE_W) else mret true
    end.

(** The page is transferred when both sides want it. *)
Definition ipc_transfer (dst srcva dstva perm : Z) (pp : option (Z * Z)) : K Z :=
  if (dstva <? UTOP) && (srcva <? UTOP) then
    match pp with
    | Some (pp, _) =>
        dir ← get (λ s, env_pgdir (env s dst));
        page_insert dir pp dstva perm
    | None => kernel_fault
    end
  else mret 0.

Definition sys_ipc_try_send (envid value srcva perm : Z) : K Z :=
  c ← the_curenv;
  cdir ← get (λ s, env_pgdir (env s c));
  pp ← page_lookup cdir srcva;
  r ← envid2env envid false;
  if r.1 <? 0 then mret (- E_BAD_ENV)
  else
    match r.2 with
    | None => kernel_fault
    | Some dst =>
        recving ← get (λ s, env_ipc_recving (env s dst));
        if negb recving then mret (- E_IPC_NOT_RECV)
        else
          ok ← if srcva <? UTOP then ipc_page_ok srcva perm pp else mret true;
          if negb ok then mret (- E_INVAL)
          else
            dstva ← get (λ s, env_ipc_dstva (env s dst));
            ret ← ipc_transfer dst srcva dstva perm pp;
            if ret <? 0 then mret (- E_NO_MEM)
            else
              modify (upd_env dst (set_env_ipc_perm
                (if (srcva <? UTOP) && (dstva <? UTOP) then perm else 0))) ;;
              modify (upd_env dst (set_env_ipc_recving false)) ;;
              modify (upd_env dst (set_env_ipc_value value)) ;;
              cid ← get (λ s, env_id (env s c));
              modify (upd_env dst (set_env_ipc_from cid)) ;;
              modify (upd_env dst (set_env_status ENV_RUNNABLE)) ;;
              mret 0
    end.

Definition sys_ipc_recv (dstva : Z) : K Z :=
  if (dstva <? UTOP) && negb (dstva mod PGSIZE =? 0) then mret (- E_INVAL)
  else
    c ← the_curenv;
    modify (upd_env c (set_env_ipc_dstva dstva)) ;;
    modify (upd_env c (set_env_ipc_recving true)) ;;
    modify (upd_env c (λ x, set_env_tf (set_tf_regs (set_reg_eax 0 (tf_regs (env_tf x))) (env_tf x)) x)) ;;
    modify (upd_env c (set_env_status ENV_NOT_RUNNABLE)) ;;
    sched_yield ;;
    mret 0.

Definition sys_time_msec : K Z := time_msec.

(** The packet is read only after the driver's tests. *)
Definition sys_send_packet (va len : Z) : K Z :=
  c ← the_curenv;
  r ← user_mem_check c va len PTE_U;
  if negb (r =? 0) then mret (- E_INVAL)
  else
    ok ← get (λ s, nic_tx_ok len (netdev s));
    data ← (if (ok : bool) then load_bytes (Z.to_nat len) va else mret []);
    r ← get (λ s, nic_transmit data len (netdev s));
    modify (set_netdev r.2) ;;
    mret r.1.

(** [*len] is the caller's memory, before and after. *)
Definition sys_rcv_packet (va len : Z) : K Z :=
  c ← the_curenv;
  n ← load_le 4 len;
  r ← user_mem_check c va n (PTE_U .| PTE_W);
  if negb (r =? 0) then mret (- E_INVAL)
  else
    p ← get (λ s, e1000_receive (netdev s));
    let '(ret, pkt, dev) := p in
    if ret <? 0 then mret ret
    else
      n ← get (λ s, rx_length (netdev s) (rx_tail (netdev s)));
      store_le32 len n ;;
      store_bytes va pkt ;;
      modify (set_netdev dev) ;;
      mret ret.

(** ** The dispatcher *)

Definition syscall (no a1 a2 a3 a4 a5 : Z) : K Z :=
  if no =? SYS_cputs then sys_cputs a1 a2 ;; mret 0
  else if no =? SYS_cgetc then sys_cgetc
  else if no =? SYS_getenvid then sys_getenvid
  else if no =? SYS_env_destroy then sys_env_destroy (s32 a1)
  else if no =? SYS_yield then sys_yield ;; mret 0
  else if no =? SYS_exofork then sys_exofork
  else if no =? SYS_env_set_status then sys_env_set_status (s32 a1) (s32 a2)
  else if no =? SYS_page_map then sys_page_map (s32 a1) a2 (s32 a3) a4 (s32 a5)
  else if no =? SYS_page_unmap then sys_page_unmap (s32 a1) a2
  else if no =? SYS_page_alloc then sys_page_alloc (s32 a1) a2 (s32 a3)
  else if no =? SYS_env_set_pgfault_upcall then sys_env_set_pgfault_upcall (s32 a1) a2
  else if no =? SYS_ipc_recv then sys_ipc_recv a1
  else if no =? SYS_ipc_try_send then sys_ipc_try_send (s32 a1) a2 a3 a4
  else if no =? SYS_env_set_trapframe then sys_env_set_trapframe (s32 a1) a2
  else if no =? SYS_time_msec then sys_time_msec
  else if no =? SYS_send_packet then sys_send_packet a1 a2
  else if no =? SYS_rcv_packet then sys_rcv_packet a1 a2
  else mret (- E_INVAL).
