(* ===== verification/SyscallSpec.v ===== *)
(** * What the system calls promise

    The system calls that change environments and address spaces, against the
    system invariant of [EnvInv] and the abstract address spaces of [VmSpec]:
    what they do on every branch for a caller that is a valid environment. *)

From S2P Require Import Prelude Console LibString Mmu Printf E1000 Machine KernLib Spinlock PageAlloc PageTable Vm VmSpec Env EnvVm EnvInv EnvSpec Sched SchedSpec Syscall.

(** ** The caller and the environments it may change *)

Definition caller (s : kstate) (c : Z) : Prop := curenv s = Some c /\ 0 <= c < NENV /\ live (env s c).

(** The environment [e] is what [envid] names for the caller [c], with the
    permission check of [envid2env]. *)
Definition permitted (s : kstate) (c envid e : Z) : Prop :=
  0 <= e < NENV /\ live (env s e) /\
  (envid = 0 /\ e = c \/
   envid = env_id (env s e) /\ (e = c \/ env_parent_id (env s e) = env_id (env s c))).

Section WithEnv.
  Context {s : kstate} {ds fl el : list Z} {kref : Z -> Z} {kd c : Z}.
  Context (H : sys_inv s ds fl el kref kd) (Hc : caller s c).

Lemma with_env_permitted envid e k : permitted s c envid e -> with_env envid k s = k e s.
  Proof using H Hc.
    destruct Hc as (Hcur & Hcr & Hcl). intros (He & Hl & Hp). unfold with_env.
    assert (Hrun : envid2env envid true s = Ret (0, Some e) s).
    { rewrite (envid2env_check s envid c Hcur). destruct Hp as [[-> ->]|[-> Hp]]; [done|].
      destruct (live_id _ _ _ _ _ _ e H He Hl) as [Ex Hn]. rewrite Ex.
      destruct (Z.eqb_spec (env_id (env s e)) 0); [done|].
      by rewrite bool_decide_eq_true_2 by (split_and!; naive_solver). }
    by kstep by exact Hrun.
  Qed.

Lemma with_env_refused envid k :
    (forall e, ~ permitted s c envid e) -> with_env envid k s = Ret (- E_BAD_ENV) s.
  Proof using H Hc.
    destruct Hc as (Hcur & Hcr & Hcl). intros Hn. unfold with_env.
    assert (Hrun : envid2env envid true s = Ret (- E_BAD_ENV, None) s).
    { rewrite (envid2env_check s envid c Hcur). destruct (Z.eqb_spec envid 0) as [->|].
      - exfalso. apply (Hn c). split; [done|]. split; [done|]. by left.
      - case_bool_decide as E; [|done]. exfalso. apply (Hn (ENVX envid)).
        destruct E as (E1 & E2 & E3). split; [rewrite ENVX_mod; by apply Z.mod_pos_bound|].
        split; [done|]. right. done. }
    by kstep by exact Hrun.
  Qed.
End WithEnv.

(** ** Memory frames of allocation *)

Lemma alloc_state_rdw flags p q k s :
  rdw (mem (alloc_state flags p s)) q k =
    if decide (q = p /\ hasbits flags ALLOC_ZERO = true) then 0 else rdw (mem s) q k.
Proof.
  unfold alloc_state. destruct (hasbits flags ALLOC_ZERO); [|by rewrite decide_False by naive_solver].
  simpl. destruct (decide (q = p)) as [->|].
  - rewrite decide_True by done. apply rdw_zero_eq.
  - rewrite decide_False by naive_solver. by apply rdw_insert_ne.
Qed.

(** Allocating a page writes at most that page. *)
Lemma mem_frame_alloc s ds fl kref flags p :
  vm_inv s ds (p :: fl) kref -> mem_frame ds (p :: fl) (mem s) (mem (alloc_state flags p s)).
Proof.
  intros Hv. split.
  - intros q k _ Hq. rewrite alloc_state_rdw, decide_False; [done|]. intros [-> _]. apply Hq, list_elem_of_here.
  - intros d k Hd _. rewrite alloc_state_rdw, decide_False; [done|]. intros [-> _].
    by apply (free_not_target Hv (SDir p) p (list_elem_of_here p fl)).
Qed.

Lemma mem_frame_trans s ds fl fl1 kref m1 m2 :
  vm_inv s ds fl kref -> tables_same (mem s) m1 ds -> (forall q, q ∉ fl -> q ∉ fl1) ->
  mem_frame ds fl (mem s) m1 -> mem_frame ds fl1 m1 m2 -> mem_frame ds fl (mem s) m2.
Proof.
  intros Hv Hs Hfl [A1 A2] [B1 B2]. split.
  - intros q k Hq Hf. rewrite B1; [by apply A1|by apply (same_plain Hv Hs)|by apply Hfl].
  - intros d k Hd Hk. rewrite B2 by done. by apply A2.
Qed.

(** ** Permission bits *)

Lemma perm_subset x m : 0 <= m -> x .& Z.lnot m = 0 -> 0 <= x <= m.
Proof.
  intros Hm Hx. assert (E : x .& m = x).
  { apply Z.bits_inj'. intros i Hi. apply (f_equal (λ z, Z.testbit z i)) in Hx.
    rewrite Z.land_spec, Z.lnot_spec, Z.bits_0 in Hx by done. rewrite Z.land_spec.
    destruct (Z.testbit x i), (Z.testbit m i); done. }
  assert (0 <= x) by (rewrite <- E; apply Z.land_nonneg; lia).
  split; [done|]. rewrite <- E. rewrite <- (Z2N.id x), <- (Z2N.id m), <- N2Z.inj_land by done. apply N2Z.inj_le, N.land_le_r.
Qed.

Lemma bad_va_uva va : 0 <= va -> bad_va va = false -> uva va.
Proof. unfold bad_va, uva. intros ? E. apply orb_false_iff in E as [E _]. apply Z.leb_gt in E. lia. Qed.

(** ** Allocating and mapping a page *)

(** A new zeroed page at a user address: a page from the free list is mapped,
    or nothing changed but the contents of a free page. *)
Lemma alloc_insert_run s ds fl el kref kd d va perm p :
  sys_inv s ds (p :: fl) el kref kd -> d ∈ ds -> uva va -> 0 <= perm < 4096 ->
  let s1 := alloc_state ALLOC_ZERO p s in
  (pt_page (mem s) d (PGNUM va) = None /\ fl = [] /\
   page_insert (kptr d 0) p va perm s1 = Ret (- E_NO_MEM) s1 /\
   exists s', page_free p s1 = Ret tt s' /\ sys_inv s' ds [p] el kref kd /\ vm_frame s s' /\
     mem_frame ds [p] (mem s) (mem s') /\ as_equiv ds (view s') (view s)) \/
  (exists s' fl', page_insert (kptr d 0) p va perm s1 = Ret 0 s' /\
     sys_inv s' ds fl' el kref kd /\ vm_frame s s' /\ mem_frame ds (p :: fl) (mem s) (mem s') /\
     as_equiv ds (view s') (as_update (view s) d (PGNUM va) (Some (pte_value p perm))) /\
     forall k, rdw (mem s') p k = 0).
Proof.
  intros H Hd Hva Hp s1. pose proof (sy_vm _ _ _ _ _ _ H) as Hv.
  destruct (vm_page_alloc s ds fl kref ALLOC_ZERO p Hv) as (_ & Hv1 & Hts & Hpf & Hpr & Hpl & Hr). fold s1 in Hv1, Hts, Hpl, Hr.
  pose proof (mem_frame_alloc s ds fl kref ALLOC_ZERO p Hv) as Hmf. fold s1 in Hmf.
  pose proof (vm_frame_alloc ALLOC_ZERO p s) as Hf1. fold s1 in Hf1.
  assert (Heq : as_equiv ds (view s1) (view s)) by (intros d' v Hd' Hv'; by apply (same_vmap Hv Hts)).
  assert (Hpr1 : 0 <= p < npages s1) by (by rewrite (vf_npages _ _ Hf1)).
  destruct (contract_insert Hv1 Hd Hva p perm Hpr1 Hpf Hpl ltac:(lia) Hp)
    as [(Hn & -> & He)|(s' & fl' & He & Hv' & Hf' & Hm' & Hu)].
  - left. rewrite (same_pt_page Hv Hts) in Hn by done. split; [done|]. split; [done|]. split; [done|].
    destruct (vm_page_free s1 ds [] kref p Hv1 Hpr1 Hpf Hr) as (Hfr & Hv2 & Hf2). exists (give_page p s1).
    assert (Hf3 : vm_frame s (give_page p s1)) by (etransitivity; eassumption).
    split; [done|]. split; [|split; [done|split; [exact Hmf|exact Heq]]].
    apply (sys_vm_step H _ _ _ Hv2 eq_refl Hf3). exact Hmf.
  - right. exists s', fl'. split; [done|].
    assert (Hmf2 : mem_frame ds (p :: fl) (mem s) (mem s')).
    { apply (mem_frame_trans s ds (p :: fl) fl kref (mem s1)); try done. set_solver. }
    split; [|split_and!].
    + apply (sys_vm_step H _ _ _ Hv' eq_refl); [by etransitivity|done].
    + by etransitivity.
    + done.
    + etransitivity; [exact Hu|]. by rewrite Heq.
    + intros k. destruct Hm' as [Hm' _]. rewrite Hm' by done. unfold s1. by rewrite alloc_state_rdw, decide_True.
Qed.

Lemma page_alloc_none s ds el kref kd flags :
  sys_inv s ds [] el kref kd -> page_alloc flags s = Ret None s.
Proof. intros H. apply page_alloc_nil, (vi_alloc _ _ _ _ (sy_vm _ _ _ _ _ _ H)). Qed.

(** A page mapped below [UTOP] is an allocated page outside the tables. *)
Lemma mapped_page s ds fl kref d v x :
  vm_inv s ds fl kref -> d ∈ ds -> 0 <= v < NUVPN -> vmap (mem s) d v = Some x ->
  0 <= PGNUM x < npages s /\ PGNUM x ∉ fl /\ plain (mem s) ds (PGNUM x).
Proof.
  intros H Hd Hv Hx. assert (Hin : in_slots ds (SData d v)) by done.
  assert (Ht : target (mem s) (SData d v) = Some (PGNUM x)) by (simpl; by rewrite Hx).
  split; [by apply (vi_range _ _ _ _ H _ _ Hin Ht)|]. split; [by apply (target_not_free H _ _ Hin Ht)|].
  intros y Hy Hs Hty. pose proof (struct_unique H y (SData d v) (PGNUM x) Hy Hs Hin Hty Ht) as E.
  by rewrite <- E in Hs.
Qed.

(** [page_lookup] in an address space whose table exists. *)
Lemma lookup_run s ds fl kref d va :
  vm_inv s ds fl kref -> d ∈ ds -> uva va -> is_Some (pt_page (mem s) d (PGNUM va)) ->
  exists pte, page_lookup (kptr d 0) va s =
      Ret (match vmap (mem s) d (PGNUM va) with Some x => Some (PGNUM x, pte) | None => None end) s /\
    forall x, vmap (mem s) d (PGNUM va) = Some x -> load pte s = Ret x s.
Proof.
  intros H Hd Hva [t Ht]. pose proof (uva_vpn va Hva) as Hv. pose proof (vm_walkable H d _ Hd Hv) as Hw.
  pose proof (table_range H d _ t Hd Hv Ht) as Htr. exists (kptr t (PGNUM va mod 1024)).
  destruct (vmap (mem s) d (PGNUM va)) as [x|] eqn:Hx.
  - split; [|intros x' [= <-]].
    + eapply page_lookup_present; [done|by apply uva_ok|done|done|].
      by destruct (mapped_page _ _ _ _ _ _ _ H Hd Hv Hx).
    + rewrite load_kptr by (try apply Z.mod_pos_bound; lia).
      unfold vmap in Hx. rewrite Ht in Hx. destruct (hasbits _ _) in Hx; [|done]. by injection Hx as ->.
  - split; [|done]. eapply page_lookup_not_present; [done|by apply uva_ok|done|done].
Qed.

(** Mapping a page again, in the same or another address space. *)
Lemma share_run s ds fl el kref kd d v x d' va perm :
  sys_inv s ds fl el kref kd -> d ∈ ds -> 0 <= v < NUVPN -> vmap (mem s) d v = Some x ->
  d' ∈ ds -> uva va -> 0 <= perm < 4096 -> pp_ref (pg s (PGNUM x)) < 65535 ->
  (pt_page (mem s) d' (PGNUM va) = None /\ fl = [] /\
   page_insert (kptr d' 0) (PGNUM x) va perm s = Ret (- E_NO_MEM) s) \/
  exists s' fl', page_insert (kptr d' 0) (PGNUM x) va perm s = Ret 0 s' /\
    sys_inv s' ds fl' el kref kd /\ vm_frame s s' /\ mem_frame ds fl (mem s) (mem s') /\
    as_equiv ds (view s') (as_update (view s) d' (PGNUM va) (Some (pte_value (PGNUM x) perm))).
Proof.
  intros H Hd Hv Hx Hd' Hva Hp Hr. pose proof (sy_vm _ _ _ _ _ _ H) as Hi.
  destruct (mapped_page _ _ _ _ _ _ _ Hi Hd Hv Hx) as (Hpr & Hfl & Hpl).
  destruct (contract_insert Hi Hd' Hva (PGNUM x) perm Hpr Hfl Hpl Hr Hp)
    as [E|(s' & fl' & He & Hi' & Hf & Hm & Hu)]; [by left|].
  right. exists s', fl'. split; [done|]. split; [|done]. by apply (sys_vm_step H _ _ _ Hi' eq_refl Hf).
Qed.

(** A page table for [va] exists or can be taken from the free list [fl]. *)
Definition table_room (m : gmap Z (gmap Z Z)) (d va : Z) (fl : list Z) : bool :=
  match pt_page m d (PGNUM va), fl with None, [] => false | _, _ => true end.

(** A mapping nearby shows that there is a table. *)
Lemma table_room_near m d va va' x fl :
  vmap m d (PGNUM va) = Some x -> PGNUM va / 1024 = PGNUM va' / 1024 -> table_room m d va' fl = true.
Proof. intros Hx E. destruct (vmap_pt_page _ _ _ _ Hx) as [t Ht]. unfold table_room. unfold pt_page in *. rewrite <- E. by rewrite Ht. Qed.

Lemma insert_no_room s ds fl kref d va pp perm :
  vm_inv s ds fl kref -> d ∈ ds -> uva va -> table_room (mem s) d va fl = false ->
  page_insert (kptr d 0) pp va perm s = Ret (- E_NO_MEM) s.
Proof.
  intros H Hd Hva Hn. unfold table_room in Hn. destruct (pt_page (mem s) d (PGNUM va)) eqn:Ht; [done|]. destruct fl; [|done].
  unfold page_insert. kstep by (apply pgdir_walk_nomem; [by apply (vm_walkable H), uva_vpn|by apply uva_ok|done|apply (vi_alloc _ _ _ _ H)]). done.
Qed.

(** Sharing a mapped page fails exactly when there is no room for a page table. *)
Lemma share_exact s ds fl el kref kd d v x d' va perm :
  sys_inv s ds fl el kref kd -> d ∈ ds -> 0 <= v < NUVPN -> vmap (mem s) d v = Some x ->
  d' ∈ ds -> uva va -> 0 <= perm < 4096 -> pp_ref (pg s (PGNUM x)) < 65535 ->
  if table_room (mem s) d' va fl then
    exists s' fl', page_insert (kptr d' 0) (PGNUM x) va perm s = Ret 0 s' /\
      sys_inv s' ds fl' el kref kd /\ vm_frame s s' /\
      as_equiv ds (view s') (as_update (view s) d' (PGNUM va) (Some (pte_value (PGNUM x) perm)))
  else page_insert (kptr d' 0) (PGNUM x) va perm s = Ret (- E_NO_MEM) s.
Proof.
  intros H Hd Hv Hx Hd' Hva Hp Hr. destruct (table_room (mem s) d' va fl) eqn:Hn; [|by eapply insert_no_room; [apply H|..]].
  destruct (share_run _ _ _ _ _ _ d v x d' va perm H Hd Hv Hx Hd' Hva Hp Hr) as [(E1 & E2 & _)|(s' & fl' & E & Hi & Hf & _ & Hu)].
  - unfold table_room in Hn. by rewrite E1, E2 in Hn.
  - by exists s', fl'.
Qed.

(** ** Updates of one environment *)

(** Changing fields of an environment in use that the invariant does not mention. *)
Lemma upd_env_inv s ds fl el kref kd e f :
  sys_inv s ds fl el kref kd -> 0 <= e < NENV -> live (env s e) -> live (f (env s e)) ->
  env_id (f (env s e)) = env_id (env s e) -> env_pgdir (f (env s e)) = env_pgdir (env s e) ->
  sys_inv (upd_env e f s) ds fl el kref kd.
Proof.
  intros H He Hl Hl' Hid Hpg. apply (sys_env_step H _ e); try done; rewrite ?env_upd_eq; try done.
  - apply (vm_inv_frame s); try done. apply H.
  - intros i Hi. by rewrite env_upd_ne by congruence.
Qed.

Lemma upd_env_upd e f g s : upd_env e f (upd_env e g s) = upd_env e (λ x, f (g x)) s.
Proof.
  unfold upd_env, set_env, env, set_envs. cbn [envs]. rewrite lookup_insert_eq. cbn [default].
  by rewrite insert_insert_eq.
Qed.

(** The child [sys_exofork] makes: the parent's registers, [0] in [%eax]. *)
Definition forked (tf : Trapframe) (x : Env) : Env :=
  let x := set_env_tf tf (set_env_status ENV_NOT_RUNNABLE x) in
  set_env_tf (set_tf_regs (set_reg_eax 0 (tf_regs (env_tf x))) (env_tf x)) x.

(** An environment that received a message. *)
Definition delivered (from value perm : Z) (x : Env) : Env :=
  set_env_status ENV_RUNNABLE (set_env_ipc_from from (set_env_ipc_value value
    (set_env_ipc_recving false (set_env_ipc_perm perm x)))).

(** An environment that waits for a message. *)
Definition blocked (dstva : Z) (x : Env) : Env :=
  let x := set_env_ipc_recving true (set_env_ipc_dstva dstva x) in
  set_env_status ENV_NOT_RUNNABLE
    (set_env_tf (set_tf_regs (set_reg_eax 0 (tf_regs (env_tf x))) (env_tf x)) x).

(** The end of [sys_ipc_try_send], once the page is transferred. *)
Lemma deliver_run s c dst value perm :
  (modify (upd_env dst (set_env_ipc_perm perm)) ;;
   modify (upd_env dst (set_env_ipc_recving false)) ;;
   modify (upd_env dst (set_env_ipc_value value)) ;;
   cid ← get (λ s, env_id (env s c));
   modify (upd_env dst (set_env_ipc_from cid)) ;;
   modify (upd_env dst (set_env_status ENV_RUNNABLE)) ;;
   mret 0) s = Ret 0 (upd_env dst (delivered (env_id (env s c)) value perm) s).
Proof.
  rewrite !bind_modify, bind_get, !bind_modify. rewrite !upd_env_upd.
  replace (env_id (env (upd_env dst _ s) c)) with (env_id (env s c)); [done|].
  destruct (decide (dst = c)) as [->|]; [by rewrite env_upd_eq|by rewrite env_upd_ne].
Qed.

(** Looking up the receiver: no permission is needed. *)
Lemma receiver_run s ds fl el kref kd dst :
  sys_inv s ds fl el kref kd -> 0 <= dst < NENV -> live (env s dst) ->
  envid2env (env_id (env s dst)) false s = Ret (0, Some dst) s.
Proof.
  intros H Hd Hl. destruct (live_id _ _ _ _ _ _ dst H Hd Hl) as [Ex Hn]. rewrite envid2env_nocheck, Ex.
  destruct (Z.eqb_spec (env_id (env s dst)) 0); [done|]. by rewrite bool_decide_eq_true_2.
Qed.

(** The permissions a message may carry. *)
Definition ipc_perm_ok (perm : Z) : bool :=
  (perm .& PTE_U =? PTE_U) && (perm .& PTE_P =? PTE_P) && (perm .& Z.lnot PTE_SYSCALL =? 0).

Lemma ipc_page_ok_run s srcva perm x pte :
  load pte s = Ret x s ->
  ipc_page_ok srcva perm (Some (PGNUM x, pte)) s =
    Ret ((srcva mod PGSIZE =? 0) && ipc_perm_ok perm && (negb (hasbits perm PTE_W) || hasbits x PTE_W)) s.
Proof.
  intros Hl. unfold ipc_page_ok, ipc_perm_ok. destruct (srcva mod PGSIZE =? 0); [|done]. cbn [negb andb].
  destruct (perm .& PTE_U =? PTE_U), (perm .& PTE_P =? PTE_P), (perm .& Z.lnot PTE_SYSCALL =? 0); try done.
  cbn [negb orb andb]. destruct (hasbits perm PTE_W); [|done]. by kstep by exact Hl.
Qed.

(** ** A sample: environment 0 with a page mapped at 0x400000 *)

Lemma sys_sample1_caller : caller sys_sample1 0 /\ permitted sys_sample1 0 0 0.
Proof.
  pose proof sys_sample1_live as Hl. pose proof (proj2 sys_sample1_env) as Hc.
  split; [split; [exact Hc|]|]; (split; [split; [apply Z.le_refl|reflexivity]|]); [exact Hl|].
  split; [exact Hl|]. left. split; reflexivity.
Qed.

Lemma frame_caller s s' c : vm_frame s s' -> caller s c -> caller s' c.
Proof. intros Hf (H1 & H2 & H3). unfold caller, env. by rewrite (vf_curenv _ _ Hf), (vf_envs _ _ Hf). Qed.

Lemma frame_env s s' i : vm_frame s s' -> env s' i = env s i.
Proof. intros Hf. unfold env. by rewrite (vf_envs _ _ Hf). Qed.

Definition sample_at (va : Z) : kstate :=
  match page_insert (kptr 279 0) 278 va 7 (alloc_state ALLOC_ZERO 278 sys_sample1) with
  | Ret _ s => s
  | Exit _ s => s
  end.

Lemma sample_at_facts va :
  uva va -> ret_val (page_insert (kptr 279 0) 278 va 7 (alloc_state ALLOC_ZERO 278 sys_sample1)) = Some 0 ->
  exists fl, sys_inv (sample_at va) [279] fl (seqZ 1 1023) vm_sample_kref 256 /\
    vm_frame sys_sample1 (sample_at va) /\ vmap (mem (sample_at va)) 279 (PGNUM va) = Some (pte_value 278 7).
Proof.
  intros Hva Hret. pose proof sys_sample1_inv as H.
  replace sys_sample1_free with (278 :: tl sys_sample1_free) in H by (vm_compute; reflexivity).
  assert (Hd : 279 ∈ [279]) by exact (list_elem_of_here 279 []).
  destruct (alloc_insert_run _ _ _ _ _ _ 279 va 7 278 H Hd) as [(_ & _ & E & _)|(s' & fl' & E & Hi & Hf & _ & Hv & _)].
  - exact Hva.
  - lia.
  - exfalso. destruct (ret_val_Ret _ _ Hret) as [s' E']. rewrite E in E'. apply (f_equal ret_val) in E'. discriminate E'.
  - exists fl'. unfold sample_at. rewrite E. split; [exact Hi|]. split; [exact Hf|].
    eapply view_update_get; [exact Hv|exact Hd|exact (uva_vpn _ Hva)].
Qed.

Definition sys_sample2 : kstate := sample_at 0x400000.

Lemma sys_sample2_facts :
  exists fl, sys_inv sys_sample2 [279] fl (seqZ 1 1023) vm_sample_kref 256 /\
    vm_frame sys_sample1 sys_sample2 /\ vmap (mem sys_sample2) 279 (PGNUM 0x400000) = Some (pte_value 278 7).
Proof. apply sample_at_facts; [exact (proj1 vm_sample_uva)|vm_compute; reflexivity]. Qed.

(** ** Properties *)

Lemma perm_syscall perm : (PTE_U .| PTE_P .| perm) .& Z.lnot (PTE_U .| PTE_P .| PTE_AVAIL .| PTE_W) = perm .& Z.lnot PTE_SYSCALL.
Proof. by rewrite Z.land_lor_distr_l. Qed.

(** [sys_page_alloc], with what it leaves of memory. *)
Lemma sys_page_alloc_exact s ds fl el kref kd c envid e d va perm :
  sys_inv s ds fl el kref kd -> caller s c -> permitted s c envid e -> env_pgdir (env s e) = kptr d 0 -> 0 <= va < 4294967296 ->
  if bad_va va || negb (perm .& Z.lnot PTE_SYSCALL =? 0) then sys_page_alloc envid va perm s = Ret (- E_INVAL) s
  else
    match fl with
    | [] => sys_page_alloc envid va perm s = Ret (- E_NO_MEM) s
    | p :: fl1 =>
        exists s' fl', sys_inv s' ds fl' el kref kd /\ vm_frame s s' /\ mem_frame ds fl (mem s) (mem s') /\
          if table_room (mem s) d va fl1 then
            sys_page_alloc envid va perm s = Ret 0 s' /\
            as_equiv ds (view s') (as_update (view s) d (PGNUM va) (Some (pte_value p (PTE_U .| PTE_P .| perm)))) /\
            forall k, rdw (mem s') p k = 0
          else sys_page_alloc envid va perm s = Ret (- E_NO_MEM) s' /\ fl' = fl /\ as_equiv ds (view s') (view s)
    end.
Proof.
  intros H Hc Hp Hpg Hva. unfold sys_page_alloc. rewrite (with_env_permitted H Hc _ e) by done. cbv zeta. rewrite perm_syscall.
  destruct (bad_va va) eqn:Eva; [done|]. cbn [orb]. destruct (_ =? 0) eqn:Eperm; [|done]. cbn [negb].
  apply Z.eqb_eq in Eperm. pose proof (bad_va_uva va ltac:(lia) Eva) as Hu.
  assert (Hpr : 0 <= PTE_U .| PTE_P .| perm < 4096).
  { rewrite <- perm_syscall in Eperm. pose proof (perm_subset _ (PTE_U .| PTE_P .| PTE_AVAIL .| PTE_W) ltac:(done) Eperm) as Hs.
    change (PTE_U .| PTE_P .| PTE_AVAIL .| PTE_W) with 3591 in Hs. lia. }
  destruct Hp as (He & Hl & _). destruct (sy_dir _ _ _ _ _ _ H e He Hl) as (d0 & Hd & Hpg0). rewrite Hpg in Hpg0. apply kptr_inj in Hpg0 as <-.
  destruct fl as [|p fl]; [by kstep by (by eapply page_alloc_none)|].
  destruct (vm_page_alloc s ds fl kref ALLOC_ZERO p (sy_vm _ _ _ _ _ _ H)) as (Ha & Hv1 & Hts & _).
  assert (Hpg1 : env_pgdir (env (alloc_state ALLOC_ZERO p s) e) = kptr d 0).
  { unfold env. rewrite (vf_envs _ _ (vm_frame_alloc ALLOC_ZERO p s)). exact Hpg. }
  destruct (alloc_insert_run _ _ _ _ _ _ d va _ p H Hd Hu Hpr)
    as [(Hn & -> & Hi & s' & Hfr & Hs' & Hf & Hm & Hv)|(s' & fl' & Hi & Hs' & Hf & Hm & Hv & Hz)].
  - exists s', [p]. split; [done|]. split; [done|]. split; [done|]. unfold table_room. rewrite Hn. split; [|done].
    kstep by exact Ha. rewrite bind_get, Hpg1. kstep by exact Hi. change (- E_NO_MEM <? 0) with true. cbv iota. by kstep by exact Hfr.
  - exists s', fl'. split; [done|]. split; [done|]. split; [done|]. destruct (table_room (mem s) d va fl) eqn:Hr.
    + split; [|done]. kstep by exact Ha. rewrite bind_get, Hpg1. by kstep by exact Hi.
    + exfalso. unfold table_room in Hr. rewrite <- (same_pt_page (sy_vm _ _ _ _ _ _ H) Hts) in Hr by done.
      by rewrite (insert_no_room _ _ _ _ d va p _ Hv1 Hd Hu Hr) in Hi.
Qed.

Lemma sys_page_alloc_run s ds fl el kref kd c envid e va perm :
  sys_inv s ds fl el kref kd -> caller s c -> permitted s c envid e -> 0 <= va < 4294967296 ->
  if bad_va va || negb ((PTE_U .| PTE_P .| perm) .& Z.lnot (PTE_U .| PTE_P .| PTE_AVAIL .| PTE_W) =? 0)
  then sys_page_alloc envid va perm s = Ret (- E_INVAL) s
  else exists s' fl', sys_inv s' ds fl' el kref kd /\ vm_frame s s' /\ mem_frame ds fl (mem s) (mem s') /\
    ((sys_page_alloc envid va perm s = Ret (- E_NO_MEM) s' /\ as_equiv ds (view s') (view s) /\ fl' = fl /\ (length fl <= 1)%nat) \/
     exists d p, env_pgdir (env s e) = kptr d 0 /\ p ∈ fl /\ sys_page_alloc envid va perm s = Ret 0 s' /\
       as_equiv ds (view s') (as_update (view s) d (PGNUM va) (Some (pte_value p (PTE_U .| PTE_P .| perm)))) /\
       forall k, rdw (mem s') p k = 0).
Proof.
  intros H Hc Hp Hva. destruct Hp as (He & Hl & Hp'). destruct (sy_dir _ _ _ _ _ _ H e He Hl) as (d & Hd & Hpg). rewrite perm_syscall.
  pose proof (sys_page_alloc_exact s ds fl el kref kd c envid e d va perm H Hc (conj He (conj Hl Hp')) Hpg Hva) as T.
  destruct (bad_va va || _); [done|]. destruct fl as [|p fl].
  - exists s, []. split; [done|]. split; [done|]. split; [done|]. left. simpl. by split_and!; [..|lia].
  - destruct T as (s' & fl' & Hi & Hf & Hm & T). exists s', fl'. split; [done|]. split; [done|]. split; [done|].
    unfold table_room in T. destruct (pt_page (mem s) d (PGNUM va)), fl as [|q fl]; try (right; exists d, p; split; [done|]; split; [apply list_elem_of_here|done]).
    destruct T as (E & -> & Hv). by left.
Qed.

(** C7: [sys_page_alloc] on an environment the caller may change.  A bad
    address and permission bits outside [PTE_SYSCALL] are refused without
    effect.  Otherwise the first page of the free list is mapped, all zero, at
    exactly that address of exactly that address space, keeping the system
    invariant; [-E_NO_MEM] is returned exactly when no page is free or the only
    free page would be needed as page table, with every address space and the
    free list unchanged.  The permissions are those asked for with [PTE_U] and
    [PTE_P] added: the comment of the function asks to refuse permissions
    without these two bits, which the code treats as if they were set. *)
Theorem sys_page_alloc_correct s ds fl el kref kd c envid e d va perm :
  sys_inv s ds fl el kref kd -> caller s c -> permitted s c envid e -> env_pgdir (env s e) = kptr d 0 -> 0 <= va < 4294967296 ->
  (if bad_va va || negb (perm .& Z.lnot PTE_SYSCALL =? 0) then sys_page_alloc envid va perm s = Ret (- E_INVAL) s
   else
     match fl with
     | [] => sys_page_alloc envid va perm s = Ret (- E_NO_MEM) s
     | p :: fl1 =>
         if table_room (mem s) d va fl1 then
           exists s' fl', sys_page_alloc envid va perm s = Ret 0 s' /\ sys_inv s' ds fl' el kref kd /\ vm_frame s s' /\
             as_equiv ds (view s') (as_update (view s) d (PGNUM va) (Some (pte_value p (PTE_U .| PTE_P .| perm)))) /\
             forall k, rdw (mem s') p k = 0
         else
           exists s', sys_page_alloc envid va perm s = Ret (- E_NO_MEM) s' /\ sys_inv s' ds fl el kref kd /\ vm_frame s s' /\
             as_equiv ds (view s') (view s)
     end) /\
  sys_page_alloc envid va perm s = sys_page_alloc envid va (PTE_U .| PTE_P .| perm) s.
Proof.
  intros H Hc Hp Hpg Hva. split; [|unfold sys_page_alloc; by rewrite (Z.lor_assoc (PTE_U .| PTE_P)), Z.lor_diag].
  pose proof (sys_page_alloc_exact s ds fl el kref kd c envid e d va perm H Hc Hp Hpg Hva) as T.
  destruct (bad_va va || _); [done|]. destruct fl as [|p fl]; [done|]. destruct T as (s' & fl' & Hi & Hf & _ & T).
  destruct (table_room _ _ _ _); [exists s', fl'; by destruct T|]. destruct T as (E & -> & Hv). by exists s'.
Qed.

Lemma sys_page_alloc_correct_witness :
  exists s', sys_page_alloc 0 0x400000 7 sys_sample1 = Ret 0 s' /\ vmap (mem s') 279 (PGNUM 0x400000) = Some (pte_value 278 7) /\
    sys_page_alloc 0 0x400000 0 sys_sample1 = sys_page_alloc 0 0x400000 5 sys_sample1.
Proof.
  destruct sys_sample1_caller as [Hc Hp]. pose proof sys_sample1_inv as H.
  replace sys_sample1_free with (278 :: tl sys_sample1_free) in H by (vm_compute; reflexivity).
  assert (Hpg : env_pgdir (env sys_sample1 0) = kptr 279 0) by (rewrite (proj1 sys_sample1_env); reflexivity).
  destruct (sys_page_alloc_correct _ _ _ _ _ _ 0 0 0 279 0x400000 7 H Hc Hp Hpg ltac:(lia)) as [T _].
  change (bad_va 0x400000 || negb (7 .& Z.lnot PTE_SYSCALL =? 0)) with false in T.
  replace (table_room (mem sys_sample1) 279 0x400000 (tl sys_sample1_free)) with true in T by (vm_compute; reflexivity).
  destruct T as (s' & fl' & E & _ & _ & Hu & _). exists s'. split; [exact E|]. split.
  - exact (view_update_get _ _ _ _ _ _ Hu (list_elem_of_here 279 []) (uva_vpn _ (proj1 vm_sample_uva))).
  - exact (proj2 (sys_page_alloc_correct _ _ _ _ _ _ 0 0 0 279 0x400000 0 H Hc Hp Hpg ltac:(lia))).
Defined.

(** [sys_page_map], with what it leaves of memory. *)
Lemma sys_page_map_run s ds fl el kref kd c srcid src srcva dstid dst dstva perm d :
  sys_inv s ds fl el kref kd -> caller s c -> permitted s c srcid src -> permitted s c dstid dst ->
  0 <= srcva < 4294967296 -> 0 <= dstva < 4294967296 -> 0 <= perm < 4096 ->
  env_pgdir (env s src) = kptr d 0 -> is_Some (pt_page (mem s) d (PGNUM srcva)) ->
  (forall x, vmap (mem s) d (PGNUM srcva) = Some x -> pp_ref (pg s (PGNUM x)) < 65535) ->
  match bad_va srcva || bad_va dstva, vmap (mem s) d (PGNUM srcva) with
  | true, _ | false, None => sys_page_map srcid srcva dstid dstva perm s = Ret (- E_INVAL) s
  | false, Some x =>
      sys_page_map srcid srcva dstid dstva perm s = Ret (- E_NO_MEM) s /\ fl = [] \/
      exists s' fl' d', env_pgdir (env s dst) = kptr d' 0 /\
        sys_page_map srcid srcva dstid dstva perm s = Ret 0 s' /\ sys_inv s' ds fl' el kref kd /\ vm_frame s s' /\ mem_frame ds fl (mem s) (mem s') /\
        as_equiv ds (view s') (as_update (view s) d' (PGNUM dstva) (Some (pte_value (PGNUM x) perm)))
  end.
Proof.
  intros H Hc Hps Hpd Hsva Hdva Hperm Hpg Ht Hr. unfold sys_page_map.
  rewrite (with_env_permitted H Hc _ src), (with_env_permitted H Hc _ dst) by done.
  destruct (bad_va srcva) eqn:Es; [done|]. destruct (bad_va dstva) eqn:Ed; [done|]. cbn [orb].
  apply bad_va_uva in Es, Ed; [|lia..]. pose proof (uva_vpn srcva Es) as Hv.
  destruct Hps as (Hs1 & Hs2 & _), Hpd as (Hd1 & Hd2 & _).
  destruct (sy_dir _ _ _ _ _ _ H src Hs1 Hs2) as (d0 & Hd & Hpg0).
  destruct (sy_dir _ _ _ _ _ _ H dst Hd1 Hd2) as (d' & Hd' & Hpg').
  rewrite Hpg in Hpg0. apply kptr_inj in Hpg0 as <-.
  destruct (lookup_run _ _ _ _ d srcva (sy_vm _ _ _ _ _ _ H) Hd Es Ht) as (pte & Hlk & _).
  rewrite bind_get, Hpg. rewrite (bind_Ret _ _ _ _ _ Hlk). destruct (vmap (mem s) d (PGNUM srcva)) as [x|] eqn:Hx; [|done].
  rewrite bind_get, Hpg'.
  destruct (share_run _ _ _ _ _ _ d _ x d' dstva perm H Hd Hv Hx Hd' Ed Hperm (Hr x eq_refl))
    as [(_ & Hfl & E)|(s' & fl' & E & Hi & Hf & Hu)].
  - left. split; [by kstep by exact E|done].
  - right. exists s', fl', d'. split; [done|]. split; [by kstep by exact E|]. done.
Qed.

(** What [page_lookup] does without a page table: it reads through NULL. *)
Definition null_lookup {A} (s : kstate) (a : A) : outcome A :=
  match mmu_walk s (cpu_cr3 (thiscpu s)) 0 false with
  | Some _ => Ret a s
  | None => Exit (Panic " a page fault in the kernel") s
  end.

Lemma sys_page_map_null s ds fl el kref kd c srcid src srcva dstid dst dstva perm d :
  sys_inv s ds fl el kref kd -> caller s c -> permitted s c srcid src -> permitted s c dstid dst ->
  0 <= srcva < 4294967296 -> bad_va srcva = false -> bad_va dstva = false -> env_pgdir (env s src) = kptr d 0 ->
  pt_page (mem s) d (PGNUM srcva) = None -> sys_page_map srcid srcva dstid dstva perm s = null_lookup s (- E_INVAL).
Proof.
  intros H Hc Hps Hpd Hva Es Ed Hpg Ht. unfold sys_page_map.
  rewrite (with_env_permitted H Hc _ src), (with_env_permitted H Hc _ dst) by done. rewrite Es, Ed. cbn [orb]. rewrite bind_get, Hpg.
  apply bad_va_uva in Es; [|lia]. destruct Hps as (Hs1 & Hs2 & _). destruct (sy_dir _ _ _ _ _ _ H src Hs1 Hs2) as (d0 & Hd & Hpg0).
  rewrite Hpg in Hpg0. apply kptr_inj in Hpg0 as <-.
  pose proof (page_lookup_null s d srcva (vm_walkable (sy_vm _ _ _ _ _ _ H) d _ Hd (uva_vpn _ Es)) (uva_ok _ Es) Ht) as E.
  unfold null_lookup. unfold mbind, K_bind. rewrite E. by destruct (mmu_walk _ _ _ _).
Qed.

(** C8: [sys_page_map] between environments the caller may change, on every
    branch.  Bad addresses and unmapped sources are refused without effect;
    a source whose page table does not exist faults in the kernel, unless the
    loaded address space maps page 0.  Otherwise the page mapped at the source
    is mapped at the destination and nothing else changes; [-E_NO_MEM] is
    returned without effect exactly when the destination has no page table and
    no page is free.  The permissions (below [4096]) become those of the new
    mapping whatever they are and whatever the source's were: the comment of
    the function promises [-E_INVAL] for inappropriate ones and for [PTE_W] on
    a read-only source, and the code has no such test. *)
Theorem sys_page_map_correct s ds fl el kref kd c srcid src srcva dstid dst dstva perm d d' :
  sys_inv s ds fl el kref kd -> caller s c -> permitted s c srcid src -> permitted s c dstid dst ->
  0 <= srcva < 4294967296 -> 0 <= dstva < 4294967296 -> 0 <= perm < 4096 ->
  env_pgdir (env s src) = kptr d 0 -> env_pgdir (env s dst) = kptr d' 0 ->
  (forall x, vmap (mem s) d (PGNUM srcva) = Some x -> pp_ref (pg s (PGNUM x)) < 65535) ->
  if bad_va srcva || bad_va dstva then sys_page_map srcid srcva dstid dstva perm s = Ret (- E_INVAL) s
  else
    match pt_page (mem s) d (PGNUM srcva), vmap (mem s) d (PGNUM srcva) with
    | None, _ => sys_page_map srcid srcva dstid dstva perm s = null_lookup s (- E_INVAL)
    | Some _, None => sys_page_map srcid srcva dstid dstva perm s = Ret (- E_INVAL) s
    | Some _, Some x =>
        if table_room (mem s) d' dstva fl then
          exists s' fl', sys_page_map srcid srcva dstid dstva perm s = Ret 0 s' /\ sys_inv s' ds fl' el kref kd /\ vm_frame s s' /\
            as_equiv ds (view s') (as_update (view s) d' (PGNUM dstva) (Some (pte_value (PGNUM x) perm)))
        else sys_page_map srcid srcva dstid dstva perm s = Ret (- E_NO_MEM) s
    end.
Proof.
  intros H Hc Hps Hpd Hsva Hdva Hperm Hpg Hpg' Hr.
  destruct (bad_va srcva) eqn:Es; [unfold sys_page_map; by rewrite (with_env_permitted H Hc _ src), (with_env_permitted H Hc _ dst), Es by done|].
  destruct (bad_va dstva) eqn:Ed; [unfold sys_page_map; by rewrite (with_env_permitted H Hc _ src), (with_env_permitted H Hc _ dst), Es, Ed by done|]. cbn [orb].
  destruct (pt_page (mem s) d (PGNUM srcva)) as [t|] eqn:Ht; [|by eapply sys_page_map_null].
  unfold sys_page_map. rewrite (with_env_permitted H Hc _ src), (with_env_permitted H Hc _ dst) by done. rewrite Es, Ed. cbn [orb].
  apply bad_va_uva in Es, Ed; [|lia..]. pose proof (uva_vpn srcva Es) as Hv.
  destruct Hps as (Hs1 & Hs2 & _), Hpd as (Hd1 & Hd2 & _).
  destruct (sy_dir _ _ _ _ _ _ H src Hs1 Hs2) as (d0 & Hd & Hpg0). rewrite Hpg in Hpg0. apply kptr_inj in Hpg0 as <-.
  destruct (sy_dir _ _ _ _ _ _ H dst Hd1 Hd2) as (d1 & Hd' & Hpg1). rewrite Hpg' in Hpg1. apply kptr_inj in Hpg1 as <-.
  destruct (lookup_run _ _ _ _ d srcva (sy_vm _ _ _ _ _ _ H) Hd Es (ex_intro _ t Ht)) as (pte & Hlk & _).
  rewrite bind_get, Hpg, (bind_Ret _ _ _ _ _ Hlk). destruct (vmap (mem s) d (PGNUM srcva)) as [x|] eqn:Hx; [|done].
  rewrite bind_get, Hpg'. pose proof (share_exact _ _ _ _ _ _ d _ x d' dstva perm H Hd Hv Hx Hd' Ed Hperm (Hr x eq_refl)) as T.
  destruct (table_room (mem s) d' dstva fl); [|by kstep by exact T]. destruct T as (s' & fl' & E & T). exists s', fl'. split; [by kstep by exact E|done].
Qed.

Lemma sys_sample2_null :
  pt_page (mem sys_sample2) 279 (PGNUM 0x800000) = None /\ mmu_walk sys_sample2 (cpu_cr3 (thiscpu sys_sample2)) 0 false = None.
Proof. split; vm_compute; reflexivity. Qed.

(** A page with permissions 7 is mapped again, and an address in the next
    4 MB, which has no page table, makes the kernel fault. *)
Lemma sys_page_map_correct_witness :
  (exists s', sys_page_map 0 0x400000 0 0x401000 5 sys_sample2 = Ret 0 s' /\ vmap (mem s') 279 (PGNUM 0x401000) = Some (pte_value 278 5)) /\
  sys_page_map 0 0x800000 0 0x401000 5 sys_sample2 = Exit (Panic " a page fault in the kernel") sys_sample2.
Proof.
  destruct sys_sample2_facts as (fl & Hi & Hf & Hx). destruct sys_sample1_caller as [Hc Hp].
  assert (Hp2 : permitted sys_sample2 0 0 0) by (unfold permitted; rewrite !(frame_env _ _ 0 Hf); exact Hp).
  assert (Hpg : env_pgdir (env sys_sample2 0) = kptr 279 0) by (rewrite (frame_env _ _ 0 Hf), (proj1 sys_sample1_env); reflexivity).
  assert (Hr : pp_ref (pg sys_sample2 (PGNUM (pte_value 278 7))) < 65535) by (apply (bool_decide_unpack _); vm_compute; exact I).
  pose proof sys_sample2_null as [Hn Hw]. pose proof (frame_caller _ _ _ Hf Hc) as Hc'. clear Hf Hc Hp.
  revert Hi Hx Hp2 Hpg Hr Hn Hw Hc'. generalize sys_sample2. intros s Hi Hx Hp2 Hpg Hr Hn Hw Hc'. split.
  - pose proof (sys_page_map_correct s _ _ _ _ _ 0 0 0 0x400000 0 0 0x401000 5 279 279 Hi Hc' Hp2 Hp2 ltac:(lia) ltac:(lia) ltac:(lia) Hpg Hpg) as T.
    rewrite Hx in T. destruct (vmap_pt_page _ _ _ _ Hx) as [t Ht]. rewrite Ht in T. change (bad_va 0x400000 || bad_va 0x401000) with false in T.
    rewrite (table_room_near _ _ 0x400000 0x401000 _ fl Hx) in T by reflexivity.
    destruct T as (s' & fl' & E & _ & _ & Hu); [intros x Hx'; injection Hx' as <-; exact Hr|]. exists s'. split; [exact E|].
    rewrite PGNUM_pte_value in Hu by lia. exact (view_update_get _ _ _ _ _ _ Hu (list_elem_of_here 279 []) (uva_vpn 0x401000 ltac:(split; [discriminate|reflexivity]))).
  - pose proof (sys_page_map_correct s _ _ _ _ _ 0 0 0 0x800000 0 0 0x401000 5 279 279 Hi Hc' Hp2 Hp2 ltac:(lia) ltac:(lia) ltac:(lia) Hpg Hpg) as T.
    assert (Hv : vmap (mem s) 279 (PGNUM 0x800000) = None) by (unfold vmap; rewrite Hn; reflexivity).
    rewrite Hn, Hv in T. change (bad_va 0x800000 || bad_va 0x401000) with false in T. unfold null_lookup in T. rewrite Hw in T.
    apply T. intros x Hx'. discriminate Hx'.
Defined.

(** C9: [sys_ipc_try_send] of a page to an environment that waits for one.
    A misaligned source, unsuitable permissions or a writable mapping of a
    read-only page are refused without effect.  Otherwise the receiver gets
    the value, the sender's identifier and the permissions, is runnable again,
    and shares the sender's page at the address it asked for; no other
    environment and no other mapping changes.  It fails, without effect,
    exactly when the receiver has no page table for that address and no page is
    free. *)
Theorem sys_ipc_send_page s ds fl el kref kd c dst value srcva perm d d' x :
  sys_inv s ds fl el kref kd -> caller s c -> 0 <= dst < NENV -> live (env s dst) ->
  env_ipc_recving (env s dst) = true -> uva (env_ipc_dstva (env s dst)) -> uva srcva ->
  env_pgdir (env s c) = kptr d 0 -> env_pgdir (env s dst) = kptr d' 0 -> vmap (mem s) d (PGNUM srcva) = Some x -> pp_ref (pg s (PGNUM x)) < 65535 ->
  if (srcva mod PGSIZE =? 0) && ipc_perm_ok perm && (negb (hasbits perm PTE_W) || hasbits x PTE_W) then
    if table_room (mem s) d' (env_ipc_dstva (env s dst)) fl then
      exists s' fl', sys_ipc_try_send (env_id (env s dst)) value srcva perm s = Ret 0 s' /\
      sys_inv s' ds fl' el kref kd /\
      as_equiv ds (view s')
        (as_update (view s) d' (PGNUM (env_ipc_dstva (env s dst))) (Some (pte_value (PGNUM x) perm))) /\
      env s' dst = delivered (env_id (env s c)) value perm (env s dst) /\ forall i, i <> dst -> env s' i = env s i
    else sys_ipc_try_send (env_id (env s dst)) value srcva perm s = Ret (- E_NO_MEM) s
  else sys_ipc_try_send (env_id (env s dst)) value srcva perm s = Ret (- E_INVAL) s.
Proof.
  intros H (Hcur & Hcr & Hcl) Hdr Hdl Hrecv Hdva Hsva Hpg Hpg' Hx Hr.
  destruct (sy_dir _ _ _ _ _ _ H c Hcr Hcl) as (d0 & Hd & Hpg0). rewrite Hpg in Hpg0. apply kptr_inj in Hpg0 as <-.
  destruct (sy_dir _ _ _ _ _ _ H dst Hdr Hdl) as (d1 & Hd' & Hpg1). rewrite Hpg' in Hpg1. apply kptr_inj in Hpg1 as <-.
  pose proof (uva_vpn srcva Hsva) as Hv.
  destruct (lookup_run _ _ _ _ d srcva (sy_vm _ _ _ _ _ _ H) Hd Hsva (vmap_pt_page _ _ _ _ Hx)) as (pte & Hlk & Hld).
  specialize (Hld x Hx). rewrite Hx in Hlk. unfold sys_ipc_try_send, the_curenv.
  rewrite bind_assoc, bind_get, Hcur, bind_mret, bind_get, Hpg, (bind_Ret _ _ _ _ _ Hlk).
  rewrite (bind_Ret _ _ _ _ _ (receiver_run _ _ _ _ _ _ dst H Hdr Hdl)). cbn [fst snd].
  change (0 <? 0) with false. cbv iota. rewrite bind_get, Hrecv. cbn [negb].
  assert ((srcva <? UTOP) = true) as Hslt by (apply Z.ltb_lt; apply Hsva). rewrite Hslt.
  rewrite (bind_Ret _ _ _ _ _ (ipc_page_ok_run s srcva perm x pte Hld)).
  destruct (_ && _ && _) eqn:E; [|done]. cbn [negb]. rewrite bind_get.
  assert ((env_ipc_dstva (env s dst) <? UTOP) = true) as Hlt by (apply Z.ltb_lt; apply Hdva).
  apply andb_true_iff in E as [E _]. apply andb_true_iff in E as [_ E]. apply andb_true_iff in E as [_ E].
  apply Z.eqb_eq in E. assert (Hperm : 0 <= perm < 4096).
  { pose proof (perm_subset perm PTE_SYSCALL ltac:(done) E) as Hs. change PTE_SYSCALL with 3591 in Hs. lia. }
  unfold ipc_transfer. rewrite Hlt, Hslt. cbn [andb]. rewrite bind_assoc, bind_get, Hpg'.
  pose proof (share_exact _ _ _ _ _ _ d _ x d' _ perm H Hd Hv Hx Hd' Hdva Hperm Hr) as T.
  destruct (table_room (mem s) d' _ fl); [|by rewrite (bind_Ret _ _ _ _ _ T)].
  destruct T as (s' & fl' & Ei & Hi & Hf & Hu). rewrite (bind_Ret _ _ _ _ _ Ei).
  change (0 <? 0) with false. cbv iota. rewrite deliver_run. rewrite !(frame_env _ _ _ Hf).
  exists (upd_env dst (delivered (env_id (env s c)) value perm) s'), fl'. split; [done|].
  split; [apply upd_env_inv; by rewrite ?(frame_env _ _ _ Hf)|]. split; [exact Hu|].
  split; [by rewrite env_upd_eq, (frame_env _ _ _ Hf)|]. intros i Hi'. by rewrite env_upd_ne, (frame_env _ _ _ Hf) by congruence.
Qed.

(** An environment that waits for a page at [dstva]. *)
Definition wait_at (dstva e : Z) (s : kstate) : kstate :=
  upd_env e (λ x, set_env_ipc_recving true (set_env_ipc_dstva dstva x)) s.

Lemma wait_at_facts dstva e s ds fl el kref kd c :
  sys_inv s ds fl el kref kd -> caller s c -> 0 <= e < NENV -> live (env s e) ->
  sys_inv (wait_at dstva e s) ds fl el kref kd /\ caller (wait_at dstva e s) c /\
  live (env (wait_at dstva e s) e) /\ env_ipc_recving (env (wait_at dstva e s) e) = true /\
  env_ipc_dstva (env (wait_at dstva e s) e) = dstva /\ env_pgdir (env (wait_at dstva e s) c) = env_pgdir (env s c) /\
  mem (wait_at dstva e s) = mem s /\ pages (wait_at dstva e s) = pages s.
Proof.
  intros H (Hc1 & Hc2 & Hc3) He Hl. unfold wait_at, caller. rewrite env_upd_eq.
  destruct (decide (e = c)) as [->|Hne].
  - rewrite env_upd_eq. split; [by apply upd_env_inv|]. done.
  - rewrite env_upd_ne by done. split; [by apply upd_env_inv|]. done.
Qed.

Lemma wait_sample_facts :
  exists fl, let s := wait_at 0x402000 0 sys_sample2 in
    sys_inv s [279] fl (seqZ 1 1023) vm_sample_kref 256 /\ caller s 0 /\ live (env s 0) /\
    env_ipc_recving (env s 0) = true /\ env_ipc_dstva (env s 0) = 0x402000 /\ env_pgdir (env s 0) = kptr 279 0 /\
    vmap (mem s) 279 (PGNUM 0x400000) = Some (pte_value 278 7) /\ pp_ref (pg s (PGNUM (pte_value 278 7))) < 65535.
Proof.
  destruct sys_sample2_facts as (fl & Hi & Hf & Hx). destruct sys_sample1_caller as [Hc _]. exists fl. cbv zeta.
  assert (Hr : pp_ref (pg sys_sample2 (PGNUM (pte_value 278 7))) < 65535) by (apply (bool_decide_unpack _); vm_compute; exact I).
  pose proof (frame_caller _ _ _ Hf Hc) as Hc'.
  assert (Hpg : env_pgdir (env sys_sample2 0) = kptr 279 0)
    by (rewrite (frame_env _ _ 0 Hf), (proj1 sys_sample1_env); reflexivity).
  clear Hf Hc. revert Hi Hx Hr Hc' Hpg. generalize sys_sample2. intros s Hi Hx Hr Hc' Hpg.
  pose proof Hc' as (Hc1 & Hc2 & Hc3).
  destruct (wait_at_facts 0x402000 0 s _ _ _ _ _ 0 Hi Hc' Hc2 Hc3) as (W1 & W2 & W3 & W4 & W5 & W6 & W7 & W8).
  unfold pg. rewrite W6, W7, W8. split_and!; try assumption; apply W2.
Qed.

Lemma sys_ipc_send_page_witness :
  exists s', sys_ipc_try_send (env_id (env (wait_at 0x402000 0 sys_sample2) 0)) 42 0x400000 7 (wait_at 0x402000 0 sys_sample2) = Ret 0 s' /\
    vmap (mem s') 279 (PGNUM 0x402000) = Some (pte_value 278 7) /\ env_ipc_value (env s' 0) = 42 /\ env_status (env s' 0) = ENV_RUNNABLE.
Proof.
  assert (Hu : uva 0x402000) by (split; [discriminate|reflexivity]).
  destruct wait_sample_facts as (fl & W). revert W. generalize (wait_at 0x402000 0 sys_sample2). intros s (W1 & W2 & W3 & W4 & W5 & W6 & Hx & Hr).
  pose proof (sys_ipc_send_page s [279] fl (seqZ 1 1023) vm_sample_kref 256 0 0 42
    0x400000 7 279 279 (pte_value 278 7) W1 W2 ltac:(clear; lia) W3 W4) as T.
  rewrite W5 in T. specialize (T Hu (proj1 vm_sample_uva) W6 W6 Hx Hr). change ((0x400000 mod PGSIZE =? 0) && ipc_perm_ok 7 && (negb (hasbits 7 PTE_W) || hasbits (pte_value 278 7) PTE_W)) with true in T.
  rewrite (table_room_near _ _ 0x400000 0x402000 _ fl Hx) in T by reflexivity.
  destruct T as (s' & fl' & E & _ & Hv & Hd & _). exists s'. split; [exact E|]. split; [|rewrite Hd; split; reflexivity].
  rewrite PGNUM_pte_value in Hv by lia. exact (view_update_get _ _ _ _ _ _ Hv (list_elem_of_here 279 []) (uva_vpn _ Hu)).
Defined.

(** C10: [sys_ipc_recv] refuses a misaligned address below [UTOP]; otherwise
    the caller waits: it records the address, is not runnable, will see [0] in
    [%eax], and this CPU goes on with another environment, halts or enters the
    monitor. *)
Theorem sys_ipc_recv_blocks s ds fl el kref kd c dstva :
  sys_inv s ds fl el kref kd -> caller s c -> c < NENV - 1 -> holding s = true ->
  if (dstva <? UTOP) && negb (dstva mod PGSIZE =? 0) then sys_ipc_recv dstva s = Ret (- E_INVAL) s
  else exists x s', sys_ipc_recv dstva s = Exit x s' /\ sys_inv s' ds fl el kref kd /\
    env s' c = blocked dstva (env s c) /\
    ((exists e, x = EnvRun e /\ e <> c /\ curenv s' = Some e) \/ x = CpuHalt \/ x = MonitorLoop).
Proof.
  intros H (Hcur & Hcr & Hcl) Hlast Hh. unfold sys_ipc_recv. destruct (_ && _); [done|].
  unfold the_curenv. rewrite bind_assoc, bind_get, Hcur, bind_mret, !bind_modify, !upd_env_upd.
  change (λ x, set_env_status _ _) with (blocked dstva). set (s1 := upd_env c (blocked dstva) s).
  assert (H1 : sys_inv s1 ds fl el kref kd) by (by apply upd_env_inv).
  assert (He : env s1 c = blocked dstva (env s c)) by (apply env_upd_eq).
  destruct (sched_yield_exits s1 ds fl el kref kd (c + 1)) as (x & s' & E & Hi & Ho & _ & _ & Hx).
  - done.
  - rewrite <- Hh. by apply holding_klock.
  - right. exists c. rewrite He. split; [done|]. split; [lia|]. done.
  - exists x, s'. split; [by apply bind_Exit|]. split; [done|]. split; [by rewrite Ho; rewrite He|].
    destruct Hx as [(e & -> & _ & Hc & Hst)|Hx]; [|by destruct Hx; right]. left. exists e. split; [done|]. split; [|done].
    intros ->. rewrite He in Hst. by destruct Hst as [Hst|[_ Hst]].
Qed.

Lemma held_caller s c : caller s c -> caller (held s) c.
Proof. done. Qed.

Lemma sys_ipc_recv_blocks_witness :
  exists x s', sys_ipc_recv 0x402000 (held sys_sample1) = Exit x s' /\ x <> EnvRun 0.
Proof.
  destruct sys_sample1_caller as [Hc _].
  pose proof (sys_ipc_recv_blocks (held sys_sample1) _ _ _ _ _ 0 0x402000 (held_sys _ _ _ _ _ _ sys_sample1_inv)
    (held_caller _ _ Hc) ltac:(clear; lia) (held_holding _)) as T.
  destruct T as (x & s' & E & _ & _ & Hx). exists x, s'. split; [exact E|]. intros ->.
  destruct Hx as [(e & Ee & Hn & _)|[Ee|Ee]]; try discriminate Ee. apply Hn. congruence.
Defined.

(** What [env_alloc] leaves of the rest of the machine. *)
Lemma alloc_env_rest e p kd parent s ds fl kref :
  vm_inv s ds (p :: fl) kref -> kern_dir s kd ds (p :: fl) ->
  let s' := alloc_env_state e p kd parent s in
  cpus s' = cpus s /\ cpunum s' = cpunum s /\ npages s' = npages s /\
  forall q k, q <> p -> rdw (mem s') q k = rdw (mem s) q k.
Proof.
  intros Hv Hk s'. destruct (alloc_env_frame e p kd parent s) as (Em & En & _). destruct (setup_state_frame e p kd s) as [En' _].
  split; [done|]. split; [done|]. split; [unfold s'; by rewrite En|]. intros q k Hq. unfold s'. rewrite Em.
  erewrite setup_state_mem by done. by rewrite decide_False.
Qed.

(** [sys_exofork], with what it leaves of the machine. *)
Lemma sys_exofork_run s ds fl el kref kd c :
  sys_inv s ds fl el kref kd -> caller s c ->
  match el, fl with
  | [], _ => sys_exofork s = Ret (- E_NO_FREE_ENV) s
  | _ :: _, [] => sys_exofork s = Ret (- E_NO_MEM) s
  | e :: el', p :: fl' => exists s' x, sys_exofork s = Ret (env_id x) s' /\ env s' e = x /\
      sys_inv s' (p :: ds) fl' el' kref kd /\ 0 < env_id x /\ env_status x = ENV_NOT_RUNNABLE /\
      env_parent_id x = env_id (env s c) /\ env_pgdir x = kptr p 0 /\
      env_tf x = set_tf_regs (set_reg_eax 0 (tf_regs (env_tf (env s c)))) (env_tf (env s c)) /\
      (forall i, i <> e -> env s' i = env s i) /\
      (forall v, 0 <= v < NUVPN -> vmap (mem s') p v = None) /\ as_equiv ds (view s') (view s) /\
      cpus s' = cpus s /\ cpunum s' = cpunum s /\ npages s' = npages s /\
      forall q k, q <> p -> rdw (mem s') q k = rdw (mem s) q k
  end.
Proof.
  intros H (Hcur & Hcr & Hcl). unfold sys_exofork, the_curenv. rewrite bind_assoc, bind_get, Hcur, bind_mret, bind_get.
  destruct el as [|e el]; [by kstep by (by eapply env_alloc_noenv)|].
  destruct fl as [|p fl]; [by kstep by (by eapply env_alloc_nomem)|].
  kstep by (by eapply env_alloc_run). change (0 <? 0) with false. cbv iota.
  destruct (proj1 (sy_free _ _ _ _ _ _ H e) (list_elem_of_here e el)) as [He Hfree].
  assert (Hne : c <> e) by (intros ->; by apply Hcl in Hfree).
  pose proof (alloc_env_inv _ _ _ _ _ _ _ _ (env_id (env s c)) H) as Hi.
  pose proof (alloc_env_env e p kd (env_id (env s c)) s) as Henv.
  destruct (alloc_env_views _ _ _ _ _ _ _ _ (env_id (env s c)) H) as [Hnew Hold].
  destruct (sy_id _ _ _ _ _ _ H e He) as [Hid _]. destruct (next_env_id_ok e _ He Hid) as (_ & Hpos & _).
  pose proof (alloc_env_rest e p kd (env_id (env s c)) s _ _ _ (sy_vm _ _ _ _ _ _ H) (sy_kern_dir H)) as Hrest.
  revert Hi Henv Hnew Hold Hrest. generalize (alloc_env_state e p kd (env_id (env s c)) s). intros s1 Hi Henv Hnew Hold Hrest.
  rewrite !bind_modify. rewrite env_upd_ne, Henv, decide_False by congruence. rewrite !upd_env_upd.
  change (λ x, set_env_tf _ _) with (forked (env_tf (env s c))).
  exists (upd_env e (forked (env_tf (env s c))) s1), (forked (env_tf (env s c)) (env s1 e)).
  split; [unfold get; by rewrite env_upd_eq|]. split; [apply env_upd_eq|].
  split; [apply upd_env_inv; try done; by rewrite Henv, decide_True|]. rewrite Henv, decide_True by done.
  split; [apply Hpos|]. do 4 (split; [done|]). split; [|split; [exact Hnew|split; [exact Hold|exact Hrest]]].
  intros i Hi'. by rewrite env_upd_ne, Henv, decide_False by congruence.
Qed.

(** [sys_exofork] returns the identifier of a new environment that is a
    copy of the caller's registers with [0] in [%eax], a child of the caller,
    not runnable, with an empty address space of its own; or an error, without
    effect. *)
Theorem sys_exofork_correct s ds fl el kref kd c :
  sys_inv s ds fl el kref kd -> caller s c ->
  match el, fl with
  | [], _ => sys_exofork s = Ret (- E_NO_FREE_ENV) s
  | _ :: _, [] => sys_exofork s = Ret (- E_NO_MEM) s
  | e :: el', p :: fl' => exists s' x, sys_exofork s = Ret (env_id x) s' /\ env s' e = x /\
      sys_inv s' (p :: ds) fl' el' kref kd /\ 0 < env_id x /\ env_status x = ENV_NOT_RUNNABLE /\
      env_parent_id x = env_id (env s c) /\ env_pgdir x = kptr p 0 /\
      env_tf x = set_tf_regs (set_reg_eax 0 (tf_regs (env_tf (env s c)))) (env_tf (env s c)) /\
      (forall i, i <> e -> env s' i = env s i) /\
      (forall v, 0 <= v < NUVPN -> vmap (mem s') p v = None) /\ as_equiv ds (view s') (view s)
  end.
Proof.
  intros H Hc. pose proof (sys_exofork_run s ds fl el kref kd c H Hc) as T.
  destruct el as [|e el]; [done|]. destruct fl as [|p fl]; [done|]. naive_solver.
Qed.

Lemma sys_exofork_correct_witness :
  exists s' x, sys_exofork sys_sample1 = Ret (env_id x) s' /\ env_status x = ENV_NOT_RUNNABLE.
Proof.
  destruct sys_sample1_caller as [Hc _]. pose proof sys_sample1_inv as H.
  replace sys_sample1_free with (278 :: tl sys_sample1_free) in H by (vm_compute; reflexivity).
  rewrite seqZ_cons in H by (clear; lia).
  destruct (sys_exofork_correct _ _ _ _ _ _ 0 H Hc) as (s' & x & E & _ & _ & _ & Hs & _).
  exists s', x. split; [exact E|exact Hs].
Defined.

(** [sys_page_unmap] where the page table exists, with what it leaves of memory. *)
Lemma sys_page_unmap_run s ds fl el kref kd c envid e va d :
  sys_inv s ds fl el kref kd -> caller s c -> permitted s c envid e -> 0 <= va < 4294967296 -> bad_va va = false ->
  env_pgdir (env s e) = kptr d 0 -> is_Some (pt_page (mem s) d (PGNUM va)) ->
  exists s' fl', sys_page_unmap envid va s = Ret 0 s' /\ sys_inv s' ds fl' el kref kd /\ vm_frame s s' /\
    mem_frame ds fl (mem s) (mem s') /\ as_equiv ds (view s') (as_update (view s) d (PGNUM va) None).
Proof.
  intros H Hc Hp Hva Eva Hpg Ht. unfold sys_page_unmap. rewrite (with_env_permitted H Hc _ e) by done.
  rewrite Eva. apply bad_va_uva in Eva; [|lia]. rewrite bind_get, Hpg.
  destruct Hp as (He & Hl & _). destruct (sy_dir _ _ _ _ _ _ H e He Hl) as (d0 & Hd & Hpg0).
  rewrite Hpg in Hpg0. apply kptr_inj in Hpg0 as <-.
  destruct (contract_remove (sy_vm _ _ _ _ _ _ H) Hd Eva Ht) as (s' & Hr & Hi & Hf & Hm & Hu).
  eexists s', _. split; [by kstep by exact Hr|]. split; [|done]. by apply (sys_vm_step H _ _ _ Hi eq_refl Hf).
Qed.

(** [sys_page_unmap]: with a page table the mapping is gone afterwards and
    nothing else changed; without one the kernel faults, although unmapping
    nothing is documented to succeed. *)
Theorem sys_page_unmap_correct s ds fl el kref kd c envid e va d :
  sys_inv s ds fl el kref kd -> caller s c -> permitted s c envid e -> 0 <= va < 4294967296 ->
  env_pgdir (env s e) = kptr d 0 ->
  if bad_va va then sys_page_unmap envid va s = Ret (- E_INVAL) s
  else match pt_page (mem s) d (PGNUM va) with
    | Some _ => exists s' fl', sys_page_unmap envid va s = Ret 0 s' /\ sys_inv s' ds fl' el kref kd /\ vm_frame s s' /\
        as_equiv ds (view s') (as_update (view s) d (PGNUM va) None)
    | None => mmu_walk s (cpu_cr3 (thiscpu s)) 0 false = None ->
        sys_page_unmap envid va s = Exit (Panic " a page fault in the kernel") s
    end.
Proof.
  intros H Hc Hp Hva Hpg. destruct (bad_va va) eqn:Eva.
  { unfold sys_page_unmap. rewrite (with_env_permitted H Hc _ e) by done. by rewrite Eva. }
  destruct (pt_page (mem s) d (PGNUM va)) as [t|] eqn:Ht.
  - destruct (sys_page_unmap_run s ds fl el kref kd c envid e va d H Hc Hp Hva Eva Hpg (ex_intro _ t Ht)) as (s' & fl' & ? & ? & ? & _ & ?).
    by exists s', fl'.
  - intros Hm. unfold sys_page_unmap. rewrite (with_env_permitted H Hc _ e) by done. rewrite Eva.
    apply bad_va_uva in Eva; [|lia]. rewrite bind_get, Hpg.
    destruct Hp as (He & Hl & _). destruct (sy_dir _ _ _ _ _ _ H e He Hl) as (d0 & Hd & Hpg0).
    rewrite Hpg in Hpg0. apply kptr_inj in Hpg0 as <-. apply bind_Exit. unfold page_remove. apply bind_Exit.
    pose proof (page_lookup_null s d va (vm_walkable (sy_vm _ _ _ _ _ _ H) d _ Hd (uva_vpn va Eva)) (uva_ok va Eva) Ht) as Hl'.
    by rewrite Hm in Hl'.
Qed.

Lemma sys_page_unmap_correct_witness : exists s', sys_page_unmap 0 0x400000 sys_sample2 = Ret 0 s'.
Proof.
  destruct sys_sample2_facts as (fl & Hi & Hf & Hx). destruct sys_sample1_caller as [Hc Hp].
  assert (Hp2 : permitted sys_sample2 0 0 0) by (unfold permitted; rewrite !(frame_env _ _ 0 Hf); exact Hp).
  pose proof (sys_page_unmap_correct _ _ _ _ _ _ 0 0 0 0x400000 279 Hi (frame_caller _ _ _ Hf Hc) Hp2 ltac:(clear; lia)) as T.
  destruct (vmap_pt_page _ _ _ _ Hx) as (t & Ht). rewrite Ht in T.
  change (bad_va 0x400000) with false in T. cbv iota in T. destruct T as (s' & fl' & E & _).
  - rewrite (frame_env _ _ 0 Hf), (proj1 sys_sample1_env). reflexivity.
  - exists s'. exact E.
Defined.

(** ** Corners *)

(** The loads of user memory change nothing, the stores only memory. *)
Lemma load_bytes_state n : forall va s l s', load_bytes n va s = Ret l s' -> s' = s.
Proof.
  induction n as [|n IH]; intros va s l s' E; cbn [load_bytes] in E; [by injection E as _ ->|].
  apply bind_Ret_inv in E as (b & s1 & E1 & E). apply bind_Ret_inv in E as (l1 & s2 & E2 & E).
  injection E as _ ->. apply IH in E2 as ->. unfold load_byte in E1. destruct (kva2pa s va false); [by injection E1|done].
Qed.

Lemma load_le_state n va s v s' : load_le n va s = Ret v s' -> s' = s.
Proof.
  intros E. unfold load_le in E. apply bind_Ret_inv in E as (l & s1 & E1 & E). injection E as _ ->.
  by eapply load_bytes_state.
Qed.

Lemma store_bytes_envs l : forall va s u s', store_bytes va l s = Ret u s' -> envs s' = envs s.
Proof.
  induction l as [|b l IH]; intros va s u s' E; cbn [store_bytes] in E; [by injection E as _ ->|].
  apply bind_Ret_inv in E as (u1 & s1 & E1 & E). apply IH in E as ->.
  unfold store_byte in E1. destruct (kva2pa s va true); [by injection E1 as _ <-|done].
Qed.

(** A computation that only reads the state. *)
Definition reads {A} (m : K A) : Prop := forall s a s', m s = Ret a s' -> s' = s.

Lemma reads_bind {A B} (m : K A) (f : A -> K B) : reads m -> (forall a, reads (f a)) -> reads (m ≫= f).
Proof.
  intros Hm Hf s b s' E. apply bind_Ret_inv in E as (a & s1 & E1 & E2). apply Hm in E1 as ->. by eapply Hf.
Qed.

Lemma reads_mret {A} (a : A) : reads (mret a).
Proof. intros s b s' E. by injection E. Qed.

Lemma reads_get {A} (f : kstate -> A) : reads (get f).
Proof. intros s b s' E. by injection E. Qed.

Lemma reads_load va : reads (load va).
Proof. intros s b s' E. unfold load in E. destruct (kva2pa s va false); [by injection E|done]. Qed.

Lemma reads_load_le n va : reads (load_le n va).
Proof. intros s b s' E. by eapply load_le_state. Qed.

Lemma reads_panic {A} msg : reads (@panic A msg).
Proof. by intros s b s' E. Qed.

Create HintDb reads.
#[export] Hint Resolve reads_bind reads_mret reads_get reads_load reads_load_le reads_panic : reads.

Lemma reads_walk pgdir va : reads (pgdir_walk pgdir va false).
Proof.
  unfold pgdir_walk. apply reads_bind; [auto with reads|]. intros d. apply reads_bind.
  - unfold KADDR. apply reads_bind; [auto with reads|]. intros n. destruct (n <=? _); auto with reads.
  - intros k. apply reads_bind; [auto with reads|]. intros d'. destruct (hasbits _ _); auto with reads.
Qed.

Lemma reads_load_tf va : reads (load_tf va).
Proof. unfold load_tf, load_regs. repeat (apply reads_bind; [auto with reads|intros ?]); auto 20 with reads. Qed.

(** A successful [user_mem_check] changes nothing. *)
Lemma user_mem_loop_state n pgdir va r perm s s' : forall i,
  user_mem_loop n pgdir va r i perm s = Ret 0 s' -> s' = s.
Proof.
  induction n as [|n IH]; intros i E; cbn [user_mem_loop] in E; [by injection E|].
  apply bind_Ret_inv in E as (pte & s1 & E1 & E). apply reads_walk in E1 as ->.
  destruct (_ || _); [done|]. apply bind_Ret_inv in E as (v & s1 & E1 & E).
  apply reads_load in E1 as ->. destruct (negb _); [done|]. by eapply IH.
Qed.

Lemma user_mem_check_state e va len perm s s' : user_mem_check e va len perm s = Ret 0 s' -> s' = s.
Proof. unfold user_mem_check. rewrite bind_get. apply user_mem_loop_state. Qed.

(** [sys_env_set_trapframe] leaves the code segment selector as the caller
    gave it: the privilege bits are set in the caller's copy, not in the frame
    the environment will run with. *)
Theorem sys_env_set_trapframe_cs s ds fl el kref kd c envid e tf t s' :
  sys_inv s ds fl el kref kd -> caller s c -> permitted s c envid e ->
  user_mem_check e tf sizeof_Trapframe (PTE_W .| PTE_U) s = Ret 0 s -> load_tf tf s = Ret t s ->
  sys_env_set_trapframe envid tf s = Ret 0 s' ->
  env_tf (env s' e) = set_tf_eflags (tf_eflags t .| FL_IF) t /\ tf_cs (env_tf (env s' e)) = tf_cs t.
Proof.
  intros H Hc Hp Hm Ht E. unfold sys_env_set_trapframe in E. rewrite (with_env_permitted H Hc _ e) in E by done.
  rewrite (bind_Ret _ _ _ _ _ Hm) in E. change (0 <? 0) with false in E. cbv iota in E.
  rewrite (bind_Ret _ _ _ _ _ Ht), !bind_modify, upd_env_upd in E.
  apply bind_Ret_inv in E as (cs & s1 & E1 & E). apply load_le_state in E1 as ->.
  apply bind_Ret_inv in E as (u & s2 & E2 & E). injection E as <-. apply store_bytes_envs in E2.
  unfold env. rewrite E2. fold (env (upd_env e (λ x, set_env_tf (set_tf_eflags (tf_eflags (env_tf (set_env_tf t x)) .| FL_IF)
    (env_tf (set_env_tf t x))) (set_env_tf t x)) s) e). by rewrite env_upd_eq.
Qed.

(** The sample with the directory of environment 0 loaded. *)
Definition sys_sample4 : kstate := cr3_state (279 * 4096) sys_sample2.

Lemma cr3_facts pa s ds fl el kref kd c envid e :
  sys_inv s ds fl el kref kd -> caller s c -> permitted s c envid e ->
  sys_inv (cr3_state pa s) ds fl el kref kd /\ caller (cr3_state pa s) c /\ permitted (cr3_state pa s) c envid e.
Proof.
  intros H Hc Hp. split; [by apply sys_inv_thiscpu|]. split; [|exact Hp].
  unfold caller, cr3_state, curenv in *. cbv zeta. by rewrite thiscpu_set_thiscpu.
Qed.

Lemma sys_sample4_facts :
  exists fl, sys_inv sys_sample4 [279] fl (seqZ 1 1023) vm_sample_kref 256 /\ caller sys_sample4 0 /\
    permitted sys_sample4 0 0 0.
Proof.
  destruct sys_sample2_facts as (fl & Hi & Hf & _). destruct sys_sample1_caller as [Hc Hp].
  assert (Hp2 : permitted sys_sample2 0 0 0) by (unfold permitted; rewrite !(frame_env _ _ 0 Hf); exact Hp).
  exists fl. exact (cr3_facts _ _ _ _ _ _ _ _ _ _ Hi (frame_caller _ _ _ Hf Hc) Hp2).
Qed.

Lemma sys_env_set_trapframe_cs_witness :
  exists s', sys_env_set_trapframe 0 0x400000 sys_sample4 = Ret 0 s' /\ tf_cs (env_tf (env s' 0)) = 0.
Proof.
  destruct sys_sample4_facts as (fl & Hi & Hc & Hp).
  destruct (ret_val_Ret (sys_env_set_trapframe 0 0x400000 sys_sample4) 0) as (s' & E); [vm_compute; reflexivity|].
  exists s'. split; [exact E|].
  destruct (ret_val_Ret (user_mem_check 0 0x400000 sizeof_Trapframe (PTE_W .| PTE_U) sys_sample4) 0) as (s1 & Hm);
    [vm_compute; reflexivity|]. pose proof (user_mem_check_state _ _ _ _ _ _ Hm) as E1. rewrite E1 in Hm.
  destruct (ret_val_Ret (load_tf 0x400000 sys_sample4) zero_tf) as (s2 & Ht);
    [vm_compute; reflexivity|]. pose proof (reads_load_tf _ _ _ _ Ht) as E2. rewrite E2 in Ht.
  destruct (sys_env_set_trapframe_cs _ _ _ _ _ _ _ _ _ _ _ _ Hi Hc Hp Hm Ht E) as [_ R]. exact R.
Defined.

(** [page_insert] with an existing table and no mapping at the address, for any
    permission word. *)
Lemma page_insert_raw s ds fl kref d va t pp perm :
  vm_inv s ds fl kref -> d ∈ ds -> uva va -> pt_page (mem s) d (PGNUM va) = Some t ->
  vmap (mem s) d (PGNUM va) = None ->
  exists s', page_insert (kptr d 0) pp va perm s = Ret 0 s' /\
    mem s' = wrw (mem s) t (PGNUM va mod 1024) (u32 (page2pa pp .| perm .| PTE_P)).
Proof.
  intros H Hd Hva Ht Hx. pose proof (uva_vpn va Hva) as Hv. pose proof (table_range H d _ t Hd Hv Ht) as Htr.
  pose proof (Z.mod_pos_bound (PGNUM va) 1024 ltac:(lia)) as Hm. pose proof (vi_np H) as Hnp.
  unfold page_insert. kstep by (apply pgdir_walk_present; [by apply (vm_walkable H)|by apply uva_ok|exact Ht]).
  rewrite kptr_nonnull by lia. rewrite bind_modify. kstep by (apply load_kptr; lia).
  unfold vmap in Hx. rewrite Ht in Hx. destruct (hasbits (rdw (mem s) t (PGNUM va mod 1024)) PTE_P) eqn:E; [done|].
  change (mem (set_pp_ref pp _ s)) with (mem s). rewrite E, bind_mret.
  kstep by (apply store_kptr; lia). eexists. split; [done|]. done.
Qed.

(** The permission word of [sys_page_map] is not checked, so that it can
    carry a frame number: the frame mapped is that of the source page or'ed with
    the one in the permissions, whatever memory that is. *)
Theorem sys_page_map_any_frame s ds fl el kref kd c srcid src srcva dstid dst dstva perm d x d' :
  sys_inv s ds fl el kref kd -> caller s c -> permitted s c srcid src -> permitted s c dstid dst ->
  bad_va srcva = false -> 0 <= srcva -> bad_va dstva = false -> 0 <= dstva -> 0 <= perm < 2147483648 ->
  env_pgdir (env s src) = kptr d 0 -> vmap (mem s) d (PGNUM srcva) = Some x ->
  env_pgdir (env s dst) = kptr d' 0 -> is_Some (pt_page (mem s) d' (PGNUM dstva)) ->
  vmap (mem s) d' (PGNUM dstva) = None ->
  exists s' y, sys_page_map srcid srcva dstid dstva perm s = Ret 0 s' /\
    vmap (mem s') d' (PGNUM dstva) = Some y /\ PGNUM y = Z.lor (PGNUM x) (PGNUM perm) /\
    (hasbits perm PTE_W = true -> hasbits y PTE_W = true).
Proof.
  intros H Hc Hps Hpd Es Hs0 Ed Hd0 Hperm Hpg Hx Hpg' [t Ht] Hn. pose proof (sy_vm _ _ _ _ _ _ H) as Hv.
  unfold sys_page_map. rewrite (with_env_permitted H Hc _ src), (with_env_permitted H Hc _ dst) by done.
  rewrite Es, Ed. cbn [orb]. apply bad_va_uva in Es, Ed; [|done..].
  destruct Hps as (Hs1 & Hs2 & _), Hpd as (Hd1 & Hd2 & _).
  destruct (sy_dir _ _ _ _ _ _ H src Hs1 Hs2) as (d0 & Hd & Hpg0). rewrite Hpg in Hpg0. apply kptr_inj in Hpg0 as <-.
  destruct (sy_dir _ _ _ _ _ _ H dst Hd1 Hd2) as (d0 & Hd' & Hpg0). rewrite Hpg' in Hpg0. apply kptr_inj in Hpg0 as <-.
  destruct (lookup_run _ _ _ _ d srcva Hv Hd Es (vmap_pt_page _ _ _ _ Hx)) as (pte & Hlk & _).
  rewrite bind_get, Hpg, (bind_Ret _ _ _ _ _ Hlk), Hx, bind_get, Hpg'.
  destruct (page_insert_raw _ _ _ _ d' dstva t (PGNUM x) perm Hv Hd' Ed Ht Hn) as (s' & Hi & Hm).
  destruct (mapped_page _ _ _ _ _ _ _ Hv Hd (uva_vpn _ Es) Hx) as (Hpr & _). pose proof (vi_np Hv).
  assert (Hy : u32 (page2pa (PGNUM x) .| perm .| PTE_P) = PGNUM x * 4096 .| perm .| PTE_P).
  { rewrite page2pa_small by lia. apply u32_small. apply (lor_small _ _ 32); [lia| |simpl; lia].
    apply lor_small; simpl; lia. }
  rewrite Hy in Hm. exists s', (PGNUM x * 4096 .| perm .| PTE_P). split; [by kstep by exact Hi|].
  assert (HP : hasbits (PGNUM x * 4096 .| perm .| PTE_P) PTE_P = true).
  { unfold hasbits. apply negb_true_iff, Z.eqb_neq. intros E. apply (f_equal (λ z, Z.testbit z 0)) in E.
    rewrite Z.land_spec, Z.lor_spec, Z.bits_0 in E. change (Z.testbit PTE_P 0) with true in E.
    rewrite orb_true_r in E. done. }
  rewrite Hm, (vmap_wrw_same Hv d' (PGNUM dstva) t _ Hd' (uva_vpn _ Ed) Ht), HP. split; [done|]. split.
  - unfold PGNUM at 1 3. rewrite !Z.shiftr_lor. change (Z.shiftr PTE_P 12) with 0. rewrite Z.lor_0_r. f_equal.
    exact (PGNUM_page (PGNUM x)).
  - unfold hasbits. intros E. apply negb_true_iff, Z.eqb_neq in E. apply negb_true_iff, Z.eqb_neq. intros E'. apply E.
    apply Z.bits_inj'. intros i Hi'. apply (f_equal (λ z, Z.testbit z i)) in E'.
    rewrite Z.land_spec, !Z.lor_spec, Z.bits_0 in E'. rewrite Z.land_spec, Z.bits_0.
    destruct (Z.testbit perm i), (Z.testbit PTE_W i); rewrite ?orb_true_r in E'; done.
Qed.

(** In the sample: the page at 0x400000 is page 278; the permission word maps
    page 279, the directory itself, writable. *)
Lemma sys_page_map_any_frame_witness :
  exists s' y, sys_page_map 0 0x400000 0 0x401000 (279 * 4096 + 7) sys_sample2 = Ret 0 s' /\
    vmap (mem s') 279 (PGNUM 0x401000) = Some y /\ PGNUM y = 279.
Proof.
  destruct sys_sample2_facts as (fl & Hi & Hf & Hx). destruct sys_sample1_caller as [Hc Hp].
  assert (Hp2 : permitted sys_sample2 0 0 0) by (unfold permitted; rewrite !(frame_env _ _ 0 Hf); exact Hp).
  assert (Hpg : env_pgdir (env sys_sample2 0) = kptr 279 0)
    by (rewrite (frame_env _ _ 0 Hf), (proj1 sys_sample1_env); reflexivity).
  assert (Hpt : forall m, pt_page m 279 (PGNUM 0x401000) = pt_page m 279 (PGNUM 0x400000)) by (intros m; reflexivity).
  pose proof (vmap_pt_page _ _ _ _ Hx) as Ht. rewrite <- Hpt in Ht. clear Hpt.
  destruct (sys_page_map_any_frame _ _ _ _ _ _ 0 0 0 0x400000 0 0 0x401000 (279 * 4096 + 7) 279 (pte_value 278 7) 279
    Hi (frame_caller _ _ _ Hf Hc) Hp2 Hp2) as (s' & y & E & Hy & Hn & _).
  - reflexivity.
  - clear; lia.
  - reflexivity.
  - clear; lia.
  - clear; lia.
  - exact Hpg.
  - exact Hx.
  - exact Hpg.
  - exact Ht.
  - vm_compute. reflexivity.
  - exists s', y. split; [exact E|]. split; [exact Hy|]. rewrite Hn. reflexivity.
Defined.

(** ** [sys_cputs] *)

(** The bytes [l] are readable from [va] on, and none is NUL. *)
Definition text_at (s : kstate) (va : Z) (l : list Z) : Prop :=
  forall k b, l !! k = Some b -> kread s (u32 (va + Z.of_nat k)) = Some b /\ b <> 0.

(** With the precision of its length a string is printed in full, and the byte
    after it is read. *)
Lemma print_chars_run s va l : forall fuel l0 w,
  text_at s va (l0 ++ l) -> fuel = S (length l) ->
  print_chars fuel (kread s) (Ptr va) (length l0) (Z.of_nat (length l)) w false =
    ((schar <$> l, match kread s (u32 (va + Z.of_nat (length (l0 ++ l)))) with Some _ => PDone | None => PFault end),
     w - Z.of_nat (length l)).
Proof.
  induction l as [|b l IH]; intros [|fuel] l0 w Ht Hf; try done; injection Hf as Hf; cbn [length print_chars char_at].
  - rewrite app_nil_r. destruct (kread s (u32 (va + Z.of_nat (length l0)))) as [b|]; simpl;
      [rewrite orb_true_r|]; do 2 f_equal; lia.
  - destruct (Ht (length l0) b) as [-> Hb]; [by rewrite lookup_app_r, Nat.sub_diag by lia|].
    destruct (Z.eqb_spec b 0); [done|]. cbn [orb].
    destruct (Z.ltb_spec (Z.of_nat (S (length l))) 0); [lia|]. destruct (Z.leb_spec 0 (Z.of_nat (S (length l)) - 1)); [|lia].
    cbn [negb orb andb]. replace (Z.of_nat (S (length l)) - 1) with (Z.of_nat (length l)) by lia.
    specialize (IH fuel (l0 ++ [b]) (w - 1)). rewrite <- app_assoc in IH. cbn [app] in IH.
    rewrite (length_app l0 [b]), Nat.add_1_r in IH. rewrite IH by done. unfold emit. cbn [fst snd app fmap list_fmap].
    f_equal. lia.
Qed.

Lemma cputs_format fuel rd va len :
  0 <= len < 2147483648 -> u32 va <> 0 ->
  vprintfmt fuel rd (codes "%.*s") [AW len; AW va] =
    let '(o, w) := print_chars fuel rd (Ptr (u32 va)) 0 len 0 false in
    andthen o (andthen (replicate (Z.to_nat w) 32, PDone) ([], PDone)).
Proof.
  intros Hl Hva. change (codes "%.*s") with [37; 46; 42; 115]. unfold vprintfmt. cbn -[print_str s32 u32 is_conversion].
  replace (is_conversion 115) with true by (vm_compute; reflexivity). rewrite s32_signed by lia.
  unfold print_str, process_precision. cbn [width set_width flags0 precision set_precision padc altflag Z.ltb Z.compare andb].
  destruct (u32 va) eqn:E; [done|..]; cbn -[print_chars];
    destruct (print_chars fuel rd _ 0 len 0 false) as [[l e] w]; unfold andthen, emit; cbn [fst snd app];
    destruct e; cbn [fst snd]; rewrite ?app_nil_r; done.
Qed.

(** [sys_cputs] of readable text prints exactly that text; but it also
    reads the byte after it, so that text at the end of the caller's memory
    makes the kernel fault. *)
Theorem sys_cputs_output s c va l :
  caller s c -> 0 < va < 4294967296 -> text_at s va l -> Z.of_nat (length l) < 2147483648 ->
  user_mem_check c va (Z.of_nat (length l)) (PTE_U .| PTE_P .| PTE_U) s = Ret 0 s ->
  let s' := set_cons (putchs (schar <$> l) (cons s)) s in
  sys_cputs va (Z.of_nat (length l)) s =
    match kread s (u32 (va + Z.of_nat (length l))) with
    | Some _ => Ret tt s'
    | None => Exit (Panic " a page fault in the kernel") s'
    end.
Proof.
  intros (Hcur & _ & _) Hva Ht Hl Hm s'. unfold sys_cputs, the_curenv, user_mem_assert.
  rewrite bind_assoc, bind_get, Hcur, bind_mret, bind_assoc, (bind_Ret _ _ _ _ _ Hm).
  change (0 <? 0) with false. cbv iota. rewrite bind_mret, s32_signed by lia.
  destruct (Z.ltb_spec (Z.of_nat (length l)) 0); [lia|]. rewrite Nat2Z.id.
  pose proof (print_chars_run s va l (S (length l)) [] 0 Ht eq_refl) as Hp. cbn [app length] in Hp.
  assert (Hf : vprintfmt (S (length l)) (kread s) (codes "%.*s") [AW (Z.of_nat (length l)); AW va] =
    (schar <$> l, match kread s (u32 (va + Z.of_nat (length l))) with Some _ => PDone | None => PFault end)).
  { rewrite cputs_format by (rewrite ?u32_small; lia). rewrite u32_small, Hp by lia.
    replace (Z.to_nat (0 - Z.of_nat (length l))) with O by lia. unfold andthen, emit. cbn [fst snd replicate app].
    destruct (kread s _); cbn [fst snd]; by rewrite ?app_nil_r. }
  destruct (kread s (u32 (va + Z.of_nat (length l)))).
  - rewrite (bind_Ret _ _ _ 0 s'); [done|]. unfold vcprintf. by rewrite Hf.
  - apply bind_Exit. unfold vcprintf. by rewrite Hf.
Qed.

(** The sample with an A in the last byte of the page at 0x400000. *)
Definition sys_sample5 : kstate := set_mem (wrw (mem sys_sample4) 278 1023 (65 * 16777216)) sys_sample4.

Lemma caller_set_mem m s c : caller s c -> caller (set_mem m s) c.
Proof. done. Qed.

Lemma sys_cputs_output_witness :
  exists s', sys_cputs 0x400fff 1 sys_sample5 = Exit (Panic " a page fault in the kernel") s'.
Proof.
  destruct sys_sample4_facts as (fl & _ & Hc & _).
  destruct (ret_val_Ret (user_mem_check 0 0x400fff 1 (PTE_U .| PTE_P .| PTE_U) sys_sample5) 0) as (s1 & Hm);
    [vm_compute; reflexivity|]. pose proof (user_mem_check_state _ _ _ _ _ _ Hm) as E1. rewrite E1 in Hm.
  assert (Ht : text_at sys_sample5 0x400fff [65]).
  { intros [|k] b Hb; [|discriminate Hb]. injection Hb as <-. split; [vm_compute; reflexivity|intros E; discriminate E]. }
  assert (Hn : kread sys_sample5 (u32 (0x400fff + Z.of_nat (length [65]))) = None) by (vm_compute; reflexivity).
  pose proof (sys_cputs_output sys_sample5 0 0x400fff [65] (caller_set_mem _ _ _ Hc) ltac:(clear; lia) Ht
    ltac:(clear; simpl; lia) Hm) as T.
  cbv zeta in T. rewrite Hn in T. eexists. exact T.
Defined.
