(* ===== verification/UserAccess.v ===== *)
(** * The kernel's access to user memory

    The processor's page walk over the tables the kernel maintains is the
    abstract address space of [Vm]; reading and writing bytes through it; and
    what [user_mem_check] guarantees for the accesses that follow it. *)

From S2P Require Import Prelude Console LibString Mmu Printf E1000 Machine KernLib Spinlock PageAlloc PageTable Vm VmSpec UserMem Env EnvVm EnvInv EnvSpec Sched SchedSpec Syscall SyscallSpec.

(** ** Bytes of a page *)

(** Byte [o] of physical page [p]. *)
Definition pbyte (m : gmap Z (gmap Z Z)) (p o : Z) : Z := byte_of (rdw m p (o / 4)) (o mod 4).

Lemma testbit_byte_of w i k : 0 <= i -> 0 <= k ->
  Z.testbit (byte_of w i) k = (k <? 8) && Z.testbit w (8 * i + k).
Proof.
  intros Hi Hk. unfold byte_of, u8. change 256 with (2 ^ 8).
  destruct (Z.ltb_spec k 8).
  - rewrite Z.mod_pow2_bits_low, Z.shiftr_spec by lia. simpl. f_equal. lia.
  - by rewrite Z.mod_pow2_bits_high by lia.
Qed.

Lemma byte_of_with w i j b : 0 <= i -> 0 <= j ->
  byte_of (with_byte w i b) j = if decide (i = j) then u8 b else byte_of w j.
Proof.
  intros Hi Hj. apply Z.bits_inj'. intros k Hk. rewrite testbit_byte_of by done. unfold with_byte.
  rewrite Z.lor_spec, Z.ldiff_spec, !Z.shiftl_spec by lia. change 255 with (Z.ones 8).
  assert (Hu : forall n, Z.testbit (u8 b) n = true -> 0 <= n < 8).
  { intros n E. destruct (Z.ltb_spec n 0); [by rewrite Z.testbit_neg_r in E|].
    destruct (Z.ltb_spec n 8); [done|]. unfold u8 in E. change 256 with (2 ^ 8) in E.
    by rewrite Z.mod_pow2_bits_high in E by lia. }
  case_decide as E; [subst j|rewrite testbit_byte_of by done]; destruct (Z.ltb_spec k 8); cbn [andb].
  - rewrite Z.ones_spec_low by lia. cbn [negb]. rewrite andb_false_r. simpl. f_equal. lia.
  - destruct (Z.testbit (u8 b) k) eqn:Et; [|done]. apply Hu in Et. lia.
  - assert (Z.testbit (u8 b) (8 * j + k - 8 * i) = false) as ->.
    { destruct (Z.testbit (u8 b) _) eqn:Et; [|done]. apply Hu in Et. lia. }
    rewrite orb_false_r. destruct (Z.ltb_spec (8 * j + k - 8 * i) 0).
    + rewrite (Z.testbit_neg_r (Z.ones 8)) by lia. apply andb_true_r.
    + rewrite Z.ones_spec_high by lia. apply andb_true_r.
  - done.
Qed.

(** Memory after byte [o] of page [p] was written. *)
Definition poke (p o b : Z) (m : gmap Z (gmap Z Z)) : gmap Z (gmap Z Z) :=
  wrw m p (o / 4) (with_byte (rdw m p (o / 4)) (o mod 4) b).

Lemma pbyte_poke m p o b q k :
  pbyte (poke p o b m) q k = if decide (q = p /\ k = o) then u8 b else pbyte m q k.
Proof.
  unfold pbyte, poke. pose proof (Z.mod_pos_bound o 4). pose proof (Z.mod_pos_bound k 4).
  pose proof (Z.div_mod o 4). pose proof (Z.div_mod k 4).
  destruct (decide (q = p /\ k / 4 = o / 4)) as [[-> E]|E].
  - rewrite E, rdw_wrw_eq, byte_of_with by lia. apply decide_ext. lia.
  - rewrite rdw_wrw_ne by (destruct (decide (p = q)); [right; intros ?; apply E; by split|by left]).
    rewrite decide_False; [done|]. intros [-> ->]. by apply E.
Qed.

Lemma rdw_poke_ne m p o b q i : q <> p -> rdw (poke p o b m) q i = rdw m q i.
Proof. intros. unfold poke. rewrite rdw_wrw_ne; [done|by left]. Qed.

(** ** The page walk *)

Lemma addr_parts p o : 0 <= o < 4096 ->
  PGNUM (p * 4096 + o) = p /\ widx (p * 4096 + o) = o / 4 /\ (p * 4096 + o) mod 4 = o mod 4.
Proof.
  intros Ho. rewrite PGNUM_div. unfold widx. rewrite Z.div_add_l, Z.div_small by lia.
  rewrite (Z.add_comm (p * 4096)), Z.mod_add, (Z.mod_small o) by lia. split; [lia|]. split; [done|].
  replace (o + p * 4096) with (o + p * 1024 * 4) by lia. by rewrite Z.mod_add.
Qed.

(** The processor's walk follows the abstract address space. *)
Lemma walk_user s ds fl kref d va wr :
  vm_inv s ds fl kref -> d ∈ ds -> uva va ->
  mmu_walk s (d * 4096) va wr =
    match vmap (mem s) d (PGNUM va) with
    | Some e => if wr && negb (hasbits e PTE_W) then None else Some (PGNUM e * 4096 + va mod 4096)
    | None => None
    end.
Proof.
  intros H Hd Hva. pose proof (uva_vpn va Hva) as Hv. unfold mmu_walk, phys_read.
  rewrite PGNUM_word, widx_word by apply PDX_range.
  rewrite PDX_of_PGNUM by (apply uva_ok in Hva; unfold va_ok in Hva; lia).
  rewrite (vi_pde _ _ _ _ H d) by (done || by apply vpn_pde). rewrite <- pt_page_div.
  unfold vmap. destruct (pt_page (mem s) d (PGNUM va)) as [t|]; cbn [pde_word]; [|by rewrite hasbits_0].
  rewrite !(hasbits_page t 7) by lia. cbn [negb orb andb]. rewrite andb_false_r. cbn [orb].
  rewrite PTE_ADDR_page by lia. rewrite PGNUM_word, widx_word, PTX_of_PGNUM by apply PTX_range.
  rewrite PGOFF_mod, PTE_ADDR_eq, !PGNUM_div.
  destruct (hasbits (rdw _ t _) PTE_P); cbn [negb orb]; [by rewrite PGNUM_div|done].
Qed.

(** ** Bytes in the loaded address space *)

Section Access.
  Context {s : kstate} {ds fl : list Z} {kref : Z -> Z} {d va e : Z}.
  Context (H : vm_inv s ds fl kref) (Hd : d ∈ ds) (Hcr3 : cpu_cr3 (thiscpu s) = d * 4096).
  Context (Hva : uva va) (He : vmap (mem s) d (PGNUM va) = Some e).

Lemma user_kva2pa wr :
    (wr = true -> hasbits e PTE_W = true) -> kva2pa s va wr = Some (PGNUM e * 4096 + va mod 4096).
  Proof using All.
    intros Hw. unfold kva2pa. destruct (Z.leb_spec KERNBASE va); [unfold uva in Hva; lia|].
    rewrite Hcr3, (walk_user s ds fl kref) by done. rewrite He. destruct wr; [by rewrite Hw|done].
  Qed.

Lemma load_byte_user : load_byte va s = Ret (pbyte (mem s) (PGNUM e) (va mod 4096)) s.
  Proof using All.
    unfold load_byte. rewrite user_kva2pa by done. unfold phys_read.
    destruct (addr_parts (PGNUM e) (va mod 4096)) as (-> & -> & ->); [by apply Z.mod_pos_bound|done].
  Qed.

Lemma store_byte_user b : hasbits e PTE_W = true ->
    store_byte va b s = Ret tt (set_mem (poke (PGNUM e) (va mod 4096) b (mem s)) s).
  Proof using All.
    intros Hw. unfold store_byte. rewrite user_kva2pa by done. unfold phys_write, phys_read, poke.
    destruct (addr_parts (PGNUM e) (va mod 4096)) as (-> & -> & ->); [by apply Z.mod_pos_bound|done].
  Qed.
End Access.

(** Writing a mapped page keeps the page tables. *)
Lemma data_tables s ds fl kref d v e m' :
  vm_inv s ds fl kref -> d ∈ ds -> 0 <= v < NUVPN -> vmap (mem s) d v = Some e ->
  (forall q i, q <> PGNUM e -> rdw m' q i = rdw (mem s) q i) -> tables_same (mem s) m' ds.
Proof.
  intros H Hd Hv He. eapply tables_same_plain; [exact H|]. by apply (mapped_page s ds fl kref d v e).
Qed.

Lemma data_vm_inv s ds fl kref m' :
  vm_inv s ds fl kref -> tables_same (mem s) m' ds -> vm_inv (set_mem m' s) ds fl kref.
Proof.
  intros H Ht. apply (vm_same H Ht); try done. eapply alloc_inv_frame; [..|apply (vi_alloc _ _ _ _ H)]; done.
Qed.

(** The system invariant after writing a page that the kernel does not use. *)
Lemma data_sys_inv s ds fl el kref kd d v e m' :
  sys_inv s ds fl el kref kd -> d ∈ ds -> 0 <= v < NUVPN -> vmap (mem s) d v = Some e -> kref (PGNUM e) = 0 ->
  (forall q i, q <> PGNUM e -> rdw m' q i = rdw (mem s) q i) -> sys_inv (set_mem m' s) ds fl el kref kd.
Proof.
  intros H Hd Hv He Hk Hm. pose proof (sy_vm _ _ _ _ _ _ H) as Hvm.
  pose proof (data_tables s ds fl kref d v e m' Hvm Hd Hv He Hm) as Ht.
  assert (Hkd : kd <> PGNUM e) by (intros E; pose proof (sy_kref _ _ _ _ _ _ H); rewrite E in *; lia).
  pose proof (data_vm_inv _ _ _ _ _ Hvm Ht) as Hvm'. destruct H. constructor; try done; cbn [mem set_mem].
  - intros i Hi. rewrite Hm by done. auto.
  - intros d' i Hd' Hi. rewrite (Ht (SDir d') d'), Hm by done. auto.
Qed.

(** ** Runs of bytes within a page *)

Fixpoint pokes (p o : Z) (l : list Z) (m : gmap Z (gmap Z Z)) : gmap Z (gmap Z Z) :=
  match l with
  | [] => m
  | b :: l' => pokes p (o + 1) l' (poke p o b m)
  end.

Lemma rdw_pokes_ne p l : forall o m q i, q <> p -> rdw (pokes p o l m) q i = rdw m q i.
Proof. induction l as [|b l IH]; intros; simpl; [done|]. by rewrite IH, rdw_poke_ne. Qed.

Lemma pbyte_pokes p l : forall o m q k,
  pbyte (pokes p o l m) q k =
    if decide (q = p /\ o <= k < o + Z.of_nat (length l)) then u8 (l !!! Z.to_nat (k - o)) else pbyte m q k.
Proof.
  induction l as [|b l IH]; intros o m q k; cbn [pokes length].
  - rewrite decide_False; [done|]. lia.
  - rewrite IH, pbyte_poke. destruct (decide (q = p /\ k = o)) as [[-> ->]|Hne].
    + rewrite decide_False, decide_True, Z.sub_diag by lia. done.
    + destruct (decide (q = p /\ o + 1 <= k < o + 1 + Z.of_nat (length l))) as [E|E].
      * rewrite decide_True by lia. by replace (Z.to_nat (k - o)) with (S (Z.to_nat (k - (o + 1)))) by lia.
      * rewrite decide_False; [done|]. lia.
Qed.

(** Where the kernel can write a user page: [v] is mapped writable to [p] in
    the address space that is loaded. *)
Record window (ds fl : list Z) (kref : Z -> Z) (d v p : Z) (s : kstate) : Prop := {
  wi_inv : vm_inv s ds fl kref;
  wi_dir : d ∈ ds;
  wi_cr3 : cpu_cr3 (thiscpu s) = d * 4096;
  wi_page : 0 <= v < NUVPN;
  wi_map : exists e, vmap (mem s) d v = Some e /\ hasbits e PTE_W = true /\ PGNUM e = p
}.

Lemma window_uva ds fl kref d v p s va : window ds fl kref d v p s -> PGNUM va = v -> uva va.
Proof.
  intros [_ _ _ Hv _] E. rewrite PGNUM_div in E. unfold NUVPN in Hv. unfold uva.
  pose proof (Z.div_mod va 4096 ltac:(lia)). pose proof (Z.mod_pos_bound va 4096 ltac:(lia)). lia.
Qed.

Lemma window_write ds fl kref d v p s m' :
  window ds fl kref d v p s -> (forall q i, q <> p -> rdw m' q i = rdw (mem s) q i) ->
  window ds fl kref d v p (set_mem m' s).
Proof.
  intros [H Hd Hc Hv (e & He & Hw & <-)] Hm.
  pose proof (data_tables s ds fl kref d v e m' H Hd Hv He Hm) as Ht.
  constructor; try done; [by apply data_vm_inv|]. exists e. by rewrite (same_vmap H Ht).
Qed.

Lemma store_bytes_window ds fl kref d v p l : forall s va,
  window ds fl kref d v p s -> PGNUM va = v -> va mod 4096 + Z.of_nat (length l) <= 4096 ->
  store_bytes va l s = Ret tt (set_mem (pokes p (va mod 4096) l (mem s)) s).
Proof.
  induction l as [|b l IH]; intros s va Hw Hva Hl; [by destruct s|]. cbn [store_bytes pokes length] in *.
  pose proof (window_uva _ _ _ _ _ _ _ _ Hw Hva) as Hu. pose proof Hw as [H Hd Hc Hv (e & He & Hew & Hp)].
  rewrite <- Hva in He. kstep by (by apply (store_byte_user H Hd Hc Hu He)). rewrite Hp.
  assert (Hw' : window ds fl kref d v p (set_mem (poke p (va mod 4096) b (mem s)) s)).
  { apply window_write; [done|]. intros. by apply rdw_poke_ne. }
  destruct l as [|b' l]; [done|]. cbn [length] in *.
  assert (Hnext : u32 (va + 1) = va + 1) by (apply u32_small; unfold uva in Hu; lia).
  pose proof (Z.div_mod va 4096 ltac:(lia)). pose proof (Z.mod_pos_bound va 4096 ltac:(lia)).
  destruct (addr_parts (va / 4096) (va mod 4096 + 1)) as (E1 & _); [lia|].
  replace (va / 4096 * 4096 + (va mod 4096 + 1)) with (va + 1) in E1 by lia.
  assert (E2 : (va + 1) mod 4096 = va mod 4096 + 1).
  { symmetry. apply (Z.mod_unique _ _ (va / 4096)); lia. }
  rewrite Hnext, IH; [by rewrite E2|done|rewrite E1, <- PGNUM_div; done|rewrite E2; lia].
Qed.

(** ** Words within a page *)

Definition le32 (x : Z) : list Z := [byte_of x 0; byte_of x 1; byte_of x 2; byte_of x 3].

(** Memory after the word [x] was written at byte [o] of page [p]. *)
Definition wr4 (p o x : Z) (m : gmap Z (gmap Z Z)) : gmap Z (gmap Z Z) := pokes p o (le32 x) m.

Lemma pbyte_wr4 p o x m q k :
  pbyte (wr4 p o x m) q k = if decide (q = p /\ o <= k < o + 4) then byte_of x (k - o) else pbyte m q k.
Proof.
  unfold wr4. rewrite pbyte_pokes. cbn [length le32].
  destruct (decide (q = p /\ o <= k < o + 4)) as [[-> Hk]|E]; [rewrite decide_True by lia|rewrite decide_False by lia; done].
  assert (Hb : forall i, u8 (byte_of x i) = byte_of x i) by (intros i; apply Z.mod_mod; lia).
  destruct (decide (k - o = 0)) as [->|]; [apply Hb|]. destruct (decide (k - o = 1)) as [->|]; [apply Hb|].
  destruct (decide (k - o = 2)) as [->|]; [apply Hb|]. destruct (decide (k - o = 3)) as [->|]; [apply Hb|]. lia.
Qed.

Section Words.
  Context {ds fl : list Z} {kref : Z -> Z} {d v p : Z} {s : kstate} (Hw : window ds fl kref d v p s).
  Context {va : Z} (Hva : PGNUM va = v).

(** Memory that differs from that of [s] in page [p] only. *)
Definition agrees (m : gmap Z (gmap Z Z)) : Prop := forall q i, q <> p -> rdw m q i = rdw (mem s) q i.

Lemma agrees_wr4 o x m : agrees m -> agrees (wr4 p o x m).
  Proof using Type. intros H q i Hq. unfold wr4. rewrite rdw_pokes_ne by done. by apply H. Qed.

Lemma in_page j : 0 <= j -> va mod 4096 + j < 4096 ->
    u32 (va + j) = va + j /\ PGNUM (va + j) = v /\ (va + j) mod 4096 = va mod 4096 + j.
  Proof using All.
    intros Hj Hb. pose proof (window_uva _ _ _ _ _ _ _ _ Hw Hva) as Hu. unfold uva in Hu.
    pose proof (Z.div_mod va 4096 ltac:(lia)). pose proof (Z.mod_pos_bound va 4096 ltac:(lia)).
    split; [apply u32_small; lia|]. rewrite <- Hva, !PGNUM_div.
    split; symmetry; [apply (Z.div_unique _ _ _ (va mod 4096 + j))|apply (Z.mod_unique _ _ (va / 4096))]; lia.
  Qed.

Lemma store_word {B} j x m (k : K B) :
    agrees m -> 0 <= j -> va mod 4096 + j + 4 <= 4096 ->
    (store_le32 (va + j) x ;; k) (set_mem m s) = k (set_mem (wr4 p (va mod 4096 + j) x m) s).
  Proof using All.
    intros Hm Hj Hb. destruct (in_page j Hj ltac:(lia)) as (_ & Hp & Ho).
    pose proof (window_write _ _ _ _ _ _ _ m Hw Hm) as Hw'.
    unfold store_le32. kstep by (apply (store_bytes_window ds fl kref d v p _ _ _ Hw' Hp); rewrite Ho; cbn [length]; lia).
    by rewrite Ho.
  Qed.

Lemma store_word0 {B} x m (k : K B) :
    agrees m -> va mod 4096 + 4 <= 4096 ->
    (store_le32 va x ;; k) (set_mem m s) = k (set_mem (wr4 p (va mod 4096) x m) s).
  Proof using All.
    intros Hm Hb. pose proof (store_word 0 x m k Hm ltac:(lia) ltac:(lia)) as E. by rewrite !Z.add_0_r in E.
  Qed.
End Words.

(** ** What [user_mem_check] accepts *)

Lemma hasbits_sub e perm m : e .& perm = perm -> hasbits perm m = true -> hasbits e m = true.
Proof.
  unfold hasbits. rewrite !negb_true_iff, !Z.eqb_neq. intros E Hp Hm. apply Hp.
  rewrite <- E, (Z.land_comm e perm), <- Z.land_assoc, Hm. apply Z.land_0_r.
Qed.

Lemma user_ok_mapped s ds fl kref d perm a :
  vm_inv s ds fl kref -> d ∈ ds -> uva a -> perm <> 0 -> user_ok s d perm a = true ->
  exists e, vmap (mem s) d (PGNUM a) = Some e /\ e .& perm = perm.
Proof.
  intros H Hd Ha Hp Hok. pose proof (vi_pte _ _ _ _ H d (PGNUM a) Hd (uva_vpn a Ha)) as Hz.
  unfold user_ok in Hok. apply andb_true_iff in Hok as [_ Hok]. rewrite vmap_pte_at. unfold pte_at in *.
  destruct (pt_page (mem s) d (PGNUM a)) as [t|]; [|done]. apply Z.eqb_eq in Hok.
  destruct (hasbits (rdw (mem s) t (PGNUM a mod 1024)) PTE_P); [by eexists|].
  rewrite Hz in Hok by done. by rewrite Z.land_0_l in Hok.
Qed.

(** ** Properties *)

(** After [user_mem_check] accepted a range of the current environment,
    whose address space is loaded, the kernel reads every byte of it, and
    writes it when [PTE_W] was asked for, without a fault: at the physical page
    that the address space maps there, changing one byte of memory and keeping
    the system invariant. *)
Theorem user_mem_check_access s ds fl el kref kd c d va len perm s1 :
  sys_inv s ds fl el kref kd -> 0 <= c < NENV -> live (env s c) -> env_pgdir (env s c) = kptr d 0 ->
  cpu_cr3 (thiscpu s) = d * 4096 -> 0 <= va -> 0 < len -> va + len <= UTOP -> perm <> 0 ->
  user_mem_check c va len perm s = Ret 0 s1 ->
  s1 = s /\ forall a, va <= a < va + len ->
    exists e, vmap (mem s) d (PGNUM a) = Some e /\
      load_byte a s = Ret (pbyte (mem s) (PGNUM e) (a mod 4096)) s /\
      (hasbits perm PTE_W = true -> kref (PGNUM e) = 0 -> forall b, exists s2,
         store_byte a b s = Ret tt s2 /\ sys_inv s2 ds fl el kref kd /\
         forall q k, pbyte (mem s2) q k =
           if decide (q = PGNUM e /\ k = a mod 4096) then u8 b else pbyte (mem s) q k).
Proof.
  intros H Hc Hl Hpg Hcr Hva Hlen Htop Hp Hchk. pose proof (sy_vm _ _ _ _ _ _ H) as Hvm.
  assert (Hd : d ∈ ds).
  { destruct (sy_dir _ _ _ _ _ _ H c Hc Hl) as (d' & Hd' & E). rewrite E in Hpg. by apply kptr_inj in Hpg as <-. }
  assert (Hw : walkable_to s d ((va + len + 4095) / 4096)).
  { intros v Hv. apply (vm_walkable Hvm); [done|]. split; [lia|].
    assert ((va + len + 4095) / 4096 < NUVPN + 1); [|lia]. apply Z.div_lt_upper_bound; unfold NUVPN; lia. }
  destruct (user_mem_check_run s c d va len perm Hpg Hw Hva Hlen ltac:(lia)) as [[E Hall]|(a & _ & _ & _ & E)];
    rewrite E in Hchk; [|discriminate Hchk]. injection Hchk as <-. split; [done|]. intros a Ha.
  assert (Hu : uva a) by (unfold uva; lia).
  destruct (user_ok_mapped _ _ _ _ _ _ _ Hvm Hd Hu Hp (Hall a Ha)) as (e & He & Hbits).
  exists e. split; [done|]. split; [by apply (load_byte_user Hvm Hd Hcr Hu He)|].
  intros Hpw Hk b. eexists. split; [apply (store_byte_user Hvm Hd Hcr Hu He), (hasbits_sub _ _ _ Hbits Hpw)|].
  split; [|intros q k; apply pbyte_poke].
  apply (data_sys_inv s ds fl el kref kd d (PGNUM a) e); try done; [by apply uva_vpn|].
  intros q i Hq. by apply rdw_poke_ne.
Qed.

Lemma cr3_state_views pa s i :
  mem (cr3_state pa s) = mem s /\ env (cr3_state pa s) i = env s i /\ cpu_cr3 (thiscpu (cr3_state pa s)) = pa.
Proof. unfold cr3_state. by rewrite thiscpu_set_thiscpu. Qed.

(** The page of the sample, in the loaded address space. *)
Lemma sys_sample4_map :
  vmap (mem sys_sample4) 279 1024 = Some (pte_value 278 7) /\ env_pgdir (env sys_sample4 0) = kptr 279 0 /\
  cpu_cr3 (thiscpu sys_sample4) = 279 * 4096.
Proof.
  destruct sys_sample2_facts as (fl & _ & Hf & Hx). change (PGNUM 0x400000) with 1024 in Hx.
  destruct (cr3_state_views (279 * 4096) sys_sample2 0) as (E1 & E2 & E3). unfold sys_sample4.
  rewrite E1, E2, E3, (frame_env _ _ 0 Hf), (proj1 sys_sample1_env). split; [exact Hx|]. split; reflexivity.
Qed.

Lemma user_mem_check_access_witness :
  exists s2, store_byte 0x400010 65 sys_sample4 = Ret tt s2 /\ pbyte (mem s2) 278 16 = 65.
Proof.
  destruct sys_sample4_facts as (fl & Hi & (_ & Hc & Hl) & _). destruct sys_sample4_map as (Hx & Hpg & Hcr).
  destruct (ret_val_Ret (user_mem_check 0 0x400010 4 7 sys_sample4) 0) as (s1 & Hm); [vm_compute; reflexivity|].
  destruct (user_mem_check_access _ _ _ _ _ _ 0 279 0x400010 4 7 s1 Hi Hc Hl Hpg Hcr ltac:(clear; lia)
    ltac:(clear; lia) ltac:(clear; lia) ltac:(clear; lia) Hm) as [_ Ha].
  destruct (Ha 0x400010 ltac:(clear; lia)) as (e & He & _ & Hs).
  assert (Ee : Some (pte_value 278 7) = Some e) by (rewrite <- Hx; exact He). injection Ee as <-.
  destruct (Hs eq_refl eq_refl 65) as (s2 & E & _ & Hb). exists s2. split; [exact E|].
  rewrite (Hb 278 16). reflexivity.
Defined.
