(* ===== verification/Trap.v ===== *)
(** * Traps ([kern/trap.c])

    The interrupt gates, the dumps of a trap frame, [trap_dispatch], [trap] and
    [page_fault_handler].  What the hardware supplies is an argument of [trap]:
    the frame the processor pushed and its address on the kernel stack, [%cr2],
    the interrupt flag, and whether another CPU panicked.  Handling a trap ends
    outside the kernel. *)

From S2P Require Import Prelude Console LibString Mmu Printf E1000 Machine KernLib Spinlock PageAlloc PageTable Env Sched Syscall.

Abbreviation T_BRKPT := 3 (only parsing).
Abbreviation T_PGFLT := 14 (only parsing).
Abbreviation T_SYSCALL := 48 (only parsing).
Abbreviation IRQ_OFFSET := 32 (only parsing).
Abbreviation IRQ_TIMER := 0 (only parsing).
Abbreviation IRQ_KBD := 1 (only parsing).
Abbreviation IRQ_SERIAL := 4 (only parsing).
Abbreviation IRQ_SPURIOUS := 7 (only parsing).
Abbreviation sizeof_Env := 124 (only parsing).
Abbreviation sizeof_UTrapframe := 52 (only parsing).

(** ** Names and gates *)

Definition excnames : list string :=
  ["Divide error"; "Debug"; "Non-Maskable Interrupt"; "Breakpoint"; "Overflow";
   "BOUND Range Exceeded"; "Invalid Opcode"; "Device Not Available"; "Double Fault";
   "Coprocessor Segment Overrun"; "Invalid TSS"; "Segment Not Present"; "Stack Fault";
   "General Protection"; "Page Fault"; "(unknown trap)"; "x87 FPU Floating-Point Error";
   "Alignment Check"; "Machine-Check"; "SIMD Floating-Point Exception"]%string.

(** The comparison with the size of the table is unsigned. *)
Definition trapname (trapno : Z) : string :=
  match excnames !! Z.to_nat (u32 trapno) with
  | Some n => n
  | None =>
      if (trapno =? T_SYSCALL)%Z then "System call"
      else if ((IRQ_OFFSET <=? trapno) && (trapno <? IRQ_OFFSET + 16))%Z then "Hardware Interrupt"
      else "(unknown trap)"
  end%string.

(** A gate: interrupt or trap gate, the selector, the number its handler
    pushes ([kern/trapentry.S]) and its privilege level. *)
Record Gatedesc := mkGate { gd_istrap : bool; gd_sel : Z; gd_num : Z; gd_dpl : Z }.

Definition SETGATE (n dpl : Z) (idt : gmap Z Gatedesc) : gmap Z Gatedesc :=
  <[n := mkGate false GD_KT n dpl]> idt.

Definition trap_init (idt : gmap Z Gatedesc) : gmap Z Gatedesc :=
  let idt := fold_left (λ t n, SETGATE n 0 t) [0; 1; 2] idt in
  let idt := SETGATE 3 3 idt in
  let idt := fold_left (λ t n, SETGATE n 0 t) [4; 5; 6; 7; 8] idt in
  let idt := fold_left (λ t n, SETGATE n 0 t) [10; 11; 12; 13; 14] idt in
  let idt := fold_left (λ t n, SETGATE n 0 t) [16; 17; 18; 19] idt in
  let idt := SETGATE 48 3 idt in
  fold_left (λ t n, SETGATE n 0 t) [32; 33; 34; 35; 36; 37; 38; 39; 40; 41; 42; 43] idt.

(** The stack a CPU enters the kernel on: [ts_esp0] of its task state. *)
Definition ts_esp0 (cpu_id : Z) : Z := u32 (KSTACKTOP - cpu_id * (KSTKSIZE + KSTKGAP)).

(** ** The current frame *)

(** [struct Trapframe *]: the frame on the kernel stack, with its address, or
    that of an environment. *)
Inductive tfptr := OnStack (a : Z) (t : Trapframe) | EnvTf (e : Z).

Definition the_tf (p : tfptr) (s : kstate) : Trapframe :=
  match p with OnStack _ t => t | EnvTf e => env_tf (env s e) end.

Definition tf_addr (p : tfptr) (s : kstate) : Z :=
  match p with OnStack a _ => a | EnvTf e => u32 (envs_va s + sizeof_Env * e) end.

(** Writing through the pointer; a frame on the stack is not read again. *)
Definition upd_tf (p : tfptr) (f : Trapframe -> Trapframe) : K unit :=
  match p with
  | OnStack _ _ => mret tt
  | EnvTf e => modify (upd_env e (λ x, set_env_tf (f (env_tf x)) x))
  end.

(** A message with string literals. *)
Definition cprintf_s (fmt : string) (ap : list parg) : K unit := vcprintf 0 (fmt +:+ nl) ap ;; mret tt.

Definition print_regs (r : PushRegs) : K unit :=
  cprintf_s "  edi  0x%08x" [AW (reg_edi r)] ;;
  cprintf_s "  esi  0x%08x" [AW (reg_esi r)] ;;
  cprintf_s "  ebp  0x%08x" [AW (reg_ebp r)] ;;
  cprintf_s "  oesp 0x%08x" [AW (reg_oesp r)] ;;
  cprintf_s "  ebx  0x%08x" [AW (reg_ebx r)] ;;
  cprintf_s "  edx  0x%08x" [AW (reg_edx r)] ;;
  cprintf_s "  ecx  0x%08x" [AW (reg_ecx r)] ;;
  cprintf_s "  eax  0x%08x" [AW (reg_eax r)].

(** [last] is [tf == last_tf]. *)
Definition print_trapframe (last : bool) (cr2 : Z) (p : tfptr) : K unit :=
  t ← get (the_tf p);
  a ← get (tf_addr p);
  c ← get cpunum;
  cprintf_s "TRAP frame at %p from CPU %d" [AW a; AW c] ;;
  print_regs (tf_regs t) ;;
  cprintf_s "  es   0x----%04x" [AW (tf_es t)] ;;
  cprintf_s "  ds   0x----%04x" [AW (tf_ds t)] ;;
  cprintf_s "  trap 0x%08x %s" [AW (tf_trapno t); AS (trapname (tf_trapno t))] ;;
  (if last && (tf_trapno t =? T_PGFLT) then cprintf_s "  cr2  0x%08x" [AW cr2] else mret tt) ;;
  vcprintf 0 "  err  0x%08x" [AW (tf_err t)] ;;
  (if tf_trapno t =? T_PGFLT then
     cprintf_s " [%s, %s, %s]"
       [AS (if hasbits (tf_err t) 4 then "user" else "kernel"); AS (if hasbits (tf_err t) 2 then "write" else "read");
        AS (if hasbits (tf_err t) 1 then "protection" else "not-present")]
   else cprintf_s "" []) ;;
  cprintf_s "  eip  0x%08x" [AW (tf_eip t)] ;;
  cprintf_s "  cs   0x----%04x" [AW (tf_cs t)] ;;
  cprintf_s "  flag 0x%08x" [AW (tf_eflags t)] ;;
  if hasbits (tf_cs t) 3 then
    cprintf_s "  esp  0x%08x" [AW (tf_esp t)] ;;
    cprintf_s "  ss   0x----%04x" [AW (tf_ss t)]
  else mret tt.

(** ** Page faults *)

(** [utrapframe->utf_regs = tf->tf_regs] *)
Definition store_regs (va : Z) (r : PushRegs) : K unit :=
  store_le32 va (reg_edi r) ;;
  store_le32 (u32 (va + 4)) (reg_esi r) ;;
  store_le32 (u32 (va + 8)) (reg_ebp r) ;;
  store_le32 (u32 (va + 12)) (reg_oesp r) ;;
  store_le32 (u32 (va + 16)) (reg_ebx r) ;;
  store_le32 (u32 (va + 20)) (reg_edx r) ;;
  store_le32 (u32 (va + 24)) (reg_ecx r) ;;
  store_le32 (u32 (va + 28)) (reg_eax r).

(** Where the frame for the user's handler goes: below the current exception
    frame with one word left free, or at the top of the exception stack. *)
Definition utf_addr (esp : Z) : Z :=
  if (esp <? UXSTACKTOP) && (UXSTACKTOP - PGSIZE <=? esp)
  then u32 (esp - sizeof_UTrapframe - 4) else UXSTACKTOP - sizeof_UTrapframe.

Definition page_fault_handler (fault_va : Z) (p : tfptr) : K unit :=
  t ← get (the_tf p);
  if negb (hasbits (tf_cs t) 3) then
    print_trapframe true fault_va p ;;
    panic " a page fault in the kernel"
  else
    c ← the_curenv;
    upcall ← get (λ s, env_pgfault_upcall (env s c));
    (if (upcall =? 0) || ((USTACKTOP <? tf_esp t) && (tf_esp t <? UXSTACKTOP - PGSIZE)) then
       id ← get (λ s, env_id (env s c));
       cprintf_s "[%08x] user fault va %08x ip %08x" [AW id; AW fault_va; AW (tf_eip t)] ;;
       print_trapframe true fault_va p ;;
       cprintf_s " the env wil be destroyed in page_fault_handler() " [] ;;
       env_destroy c
     else mret tt) ;;
    let utf := utf_addr (tf_esp t) in
    user_mem_assert c utf sizeof_UTrapframe (PTE_W .| PTE_U .| PTE_P) ;;
    store_regs (u32 (utf + 8)) (tf_regs t) ;;
    store_le32 (u32 (utf + 40)) (tf_eip t) ;;
    store_le32 (u32 (utf + 4)) (tf_err t) ;;
    store_le32 (u32 (utf + 48)) (tf_esp t) ;;
    store_le32 utf fault_va ;;
    store_le32 (u32 (utf + 44)) (tf_eflags t) ;;
    upd_tf p (set_tf_eip upcall) ;;
    upd_tf p (set_tf_esp utf) ;;
    env_run c.

(** ** Dispatch *)

Definition trap_dispatch (cr2 : Z) (p : tfptr) : K unit :=
  t ← get (the_tf p);
  let no := tf_trapno t in
  if no =? T_PGFLT then page_fault_handler cr2 p
  else if no =? T_BRKPT then leave MonitorLoop
  else if no =? T_SYSCALL then
    let r := tf_regs t in
    v ← syscall (reg_eax r) (reg_edx r) (reg_ecx r) (reg_ebx r) (reg_edi r) (reg_esi r);
    upd_tf p (λ t, set_tf_regs (set_reg_eax (u32 v) (tf_regs t)) t)
  else if no =? IRQ_OFFSET + IRQ_SPURIOUS then
    cprintf_s "Spurious interrupt on irq 7" [] ;;
    print_trapframe true cr2 p
  else if no =? IRQ_OFFSET + IRQ_TIMER then time_tick ;; sched_yield
  else if no =? IRQ_OFFSET + IRQ_KBD then modify (λ s, set_cons (kbd_intr (cons s)) s)
  else if no =? IRQ_OFFSET + IRQ_SERIAL then modify (λ s, set_cons (serial_intr (cons s)) s)
  else
    print_trapframe true cr2 p ;;
    if tf_cs t =? GD_KT then panic "unhandled trap in kernel"
    else
      cprintf_s "the env will be destroyed by trap_dispatch bcz it asked for an invalid interrupt " [] ;;
      c ← the_curenv;
      env_destroy c.

(** The end of [trap]: back to the current environment, or to another one. *)
Definition trap_return : K unit :=
  c ← get curenv;
  match c with
  | Some c =>
      st ← get (λ s, env_status (env s c));
      if bool_decide (st = ENV_RUNNING) then env_run c else sched_yield
  | None => sched_yield
  end.

(** A trap from user mode saves the frame in the environment. *)
Definition trap_user (tf : Trapframe) : K tfptr :=
  lock_kernel ;;
  c ← get curenv;
  match c with
  | None => panic "assertion failed: curenv"
  | Some c =>
      st ← get (λ s, env_status (env s c));
      (if bool_decide (st = ENV_DYING) then
         env_free c ;;
         modify (set_curenv None) ;;
         sched_yield
       else mret tt) ;;
      c ← the_curenv;
      modify (upd_env c (set_env_tf tf)) ;;
      mret (EnvTf c)
  end.

Definition trap (panicked intr : bool) (cr2 a : Z) (tf : Trapframe) : K unit :=
  if panicked then leave CpuHalt
  else
    st ← get (λ s, cpu_status (thiscpu s));
    modify (set_cpu_status CPU_STARTED) ;;
    (if bool_decide (st = CPU_HALTED) then lock_kernel else mret tt) ;;
    if intr then panic "assertion failed: !(read_eflags() & FL_IF)"
    else
      p ← (if tf_cs tf .& 3 =? 3 then trap_user tf else mret (OnStack a tf));
      trap_dispatch cr2 p ;;
      trap_return.
