(* ===== verification/TrapSpec.v ===== *)
(** * What the trap handler promises

    The entry from user mode, the return of system calls, preemption by the
    clock, the end of dying environments and the delivery of page faults. *)

From S2P Require Import Prelude Console LibString Mmu Printf E1000 Machine KernLib Spinlock PageAlloc PageTable Vm VmSpec UserMem Env EnvVm EnvInv EnvSpec Sched SchedSpec Syscall SyscallSpec UserAccess Trap.

(** ** The entry from user mode *)

(** Environment [c] runs on this CPU in user mode. *)
Record in_user (s : kstate) (c : Z) : Prop := {
  iu_cur : curenv s = Some c;
  iu_range : 0 <= c < NENV;
  iu_live : live (env s c);
  iu_free : locked (klock s) = 0;
  iu_cpu : cpu_status (thiscpu s) = CPU_STARTED
}.

(** The kernel state after the lock was taken, and after the frame was saved. *)
Definition entered (s : kstate) : kstate := held (set_cpu_status CPU_STARTED s).

Definition saved (c : Z) (tf : Trapframe) (s : kstate) : kstate := upd_env c (set_env_tf tf) (entered s).

Lemma entered_sys s ds fl el kref kd : sys_inv s ds fl el kref kd -> sys_inv (entered s) ds fl el kref kd.
Proof. intros H. by apply sys_inv_klock, sys_inv_thiscpu. Qed.

Lemma entered_views s i :
  env (entered s) i = env s i /\ curenv (entered s) = curenv s /\ mem (entered s) = mem s /\
  holding (entered s) = true /\ cpu_cr3 (thiscpu (entered s)) = cpu_cr3 (thiscpu s).
Proof.
  assert (Et : forall x, thiscpu (held x) = thiscpu x) by done.
  unfold entered, curenv. rewrite !Et. unfold set_cpu_status. cbv zeta. rewrite thiscpu_set_thiscpu.
  split_and!; try done. apply held_holding.
Qed.

Lemma saved_sys s ds fl el kref kd c tf :
  sys_inv s ds fl el kref kd -> in_user s c -> sys_inv (saved c tf s) ds fl el kref kd.
Proof. intros H [_ Hr Hl _ _]. apply upd_env_inv; try done. by apply entered_sys. Qed.

Lemma saved_views s c tf i :
  env (saved c tf s) i = (if decide (i = c) then set_env_tf tf (env s c) else env s i) /\
  curenv (saved c tf s) = curenv s /\ mem (saved c tf s) = mem s /\ holding (saved c tf s) = true /\
  cpu_cr3 (thiscpu (saved c tf s)) = cpu_cr3 (thiscpu s).
Proof.
  destruct (entered_views s i) as (E1 & E2 & E3 & E4 & E5). unfold saved. split.
  - case_decide as E; [subst i; by rewrite env_upd_eq, E1|by rewrite env_upd_ne by congruence].
  - split_and!; done.
Qed.

Lemma lock_entry s : locked (klock s) = 0 -> lock_kernel (set_cpu_status CPU_STARTED s) = Ret tt (entered s).
Proof.
  intros Hl. unfold lock_kernel, spin_lock. rewrite bind_get. unfold holding.
  change (klock (set_cpu_status CPU_STARTED s)) with (klock s). rewrite Hl. cbn [Z.eqb negb andb].
  rewrite bind_get. change (klock (set_cpu_status CPU_STARTED s)) with (klock s). by rewrite Hl.
Qed.

(** The way of a trap from user mode to the dispatcher. *)
Lemma trap_entry s c cr2 a tf :
  in_user s c -> tf_cs tf .& 3 = 3 ->
  trap false false cr2 a tf s =
    (p ← (st ← get (λ s, env_status (env s c));
          (if bool_decide (st = ENV_DYING) then env_free c ;; modify (set_curenv None) ;; sched_yield else mret tt) ;;
          c ← the_curenv; modify (upd_env c (set_env_tf tf)) ;; mret (EnvTf c));
     trap_dispatch cr2 p ;; trap_return) (entered s).
Proof.
  intros [Hc Hr Hl Hk Hst] Hcs. unfold trap. rewrite bind_get, bind_modify, Hst.
  rewrite bool_decide_eq_false_2 by done. rewrite bind_mret, Hcs. change (3 =? 3) with true. cbv iota.
  unfold trap_user. rewrite !bind_assoc. kstep by (by apply lock_entry). rewrite bind_assoc, bind_get.
  destruct (entered_views s c) as (_ & -> & _). rewrite Hc. done.
Qed.

Lemma trap_saved s c cr2 a tf :
  in_user s c -> tf_cs tf .& 3 = 3 -> env_status (env s c) <> ENV_DYING ->
  trap false false cr2 a tf s = (trap_dispatch cr2 (EnvTf c) ;; trap_return) (saved c tf s).
Proof.
  intros Hu Hcs Hst. rewrite (trap_entry s c) by done. destruct (entered_views s c) as (E1 & E2 & _).
  rewrite bind_assoc, bind_get, E1, bool_decide_eq_false_2 by done. rewrite bind_assoc, bind_mret.
  unfold the_curenv. rewrite !bind_assoc, bind_get, E2, (iu_cur _ _ Hu), bind_mret.
  by rewrite bind_assoc, bind_modify, bind_mret.
Qed.

(** ** Messages *)

(** Printing changes the console only. *)
Definition shows (m : K unit) : Prop := forall s, exists c, m s = Ret tt (set_cons c s).

Lemma shows_seq m k : shows m -> shows k -> shows (m ;; k).
Proof.
  intros Hm Hk s. destruct (Hm s) as (c & E). destruct (Hk (set_cons c s)) as (c' & E').
  exists c'. by rewrite (bind_Ret _ _ _ _ _ E).
Qed.

Lemma shows_get {A} (g : kstate -> A) (f : A -> K unit) : (forall a, shows (f a)) -> shows (get g ≫= f).
Proof. intros H s. rewrite bind_get. apply H. Qed.

Lemma shows_mret : shows (mret tt).
Proof. intros s. exists (cons s). by destruct s. Qed.

Lemma shows_vcprintf fmt ap :
  (forall rd, (vprintfmt 0 rd (codes fmt) ap).2 = PDone) -> shows (vcprintf 0 fmt ap ;; mret tt).
Proof.
  intros H s. destruct (cprintf_run fmt ap s (H _)) as (c & E). exists c. by rewrite (bind_Ret _ _ _ _ _ E).
Qed.

Lemma shows_vcprintf_seq fmt ap k :
  (forall rd, (vprintfmt 0 rd (codes fmt) ap).2 = PDone) -> shows k -> shows (vcprintf 0 fmt ap ;; k).
Proof.
  intros H Hk s. destruct (cprintf_run fmt ap s (H _)) as (c & E). destruct (Hk (set_cons c s)) as (c' & E').
  exists c'. unfold cprintf in E. by rewrite (bind_Ret _ _ _ _ _ E).
Qed.

Create HintDb shows.
#[export] Hint Resolve shows_seq shows_get shows_mret : shows.
#[export] Hint Extern 5 (shows (cprintf_s _ _)) => (apply shows_vcprintf; intros rd; reflexivity) : shows.

(** The names of traps are printed by [%s]. *)
Lemma shows_trapname w n : shows (cprintf_s "  trap 0x%08x %s" [AW w; AS (trapname n)]).
Proof.
  assert (Hall : Forall (λ l, forall w, shows (cprintf_s "  trap 0x%08x %s" [AW w; AS l]))
    (excnames ++ ["System call"; "Hardware Interrupt"]%string)).
  { unfold excnames. cbn [app]. repeat (apply Forall_cons_2; [auto with shows|]). apply Forall_nil_2. }
  rewrite Forall_forall in Hall. apply Hall, list_elem_of_In, elem_of_app. unfold trapname.
  destruct (excnames !! Z.to_nat (u32 n)) as [l|] eqn:E; [left; by eapply list_elem_of_lookup_2|].
  destruct (n =? T_SYSCALL); [right; apply list_elem_of_here|].
  destruct (_ && _); [right; apply list_elem_of_further, list_elem_of_here|].
  left. by apply (list_elem_of_lookup_2 _ 15).
Qed.

Lemma shows_frame_header a c : shows (cprintf_s "TRAP frame at %p from CPU %d" [AW a; AW c]).
Proof.
  apply shows_vcprintf. intros rd. lazy -[number s32 u32 Z.ltb].
  match goal with |- context [if ?b then _ else _] => destruct b end; reflexivity.
Qed.

Lemma shows_fault_bits b1 b2 b3 :
  shows (cprintf_s " [%s, %s, %s]" [AS (if b1 : bool then "user" else "kernel"); AS (if b2 : bool then "write" else "read");
        AS (if b3 : bool then "protection" else "not-present")]).
Proof. destruct b1, b2, b3; auto with shows. Qed.

#[export] Hint Resolve shows_trapname shows_frame_header shows_fault_bits : shows.

Lemma shows_regs r : shows (print_regs r).
Proof. unfold print_regs. auto 20 with shows. Qed.

Lemma shows_trapframe last cr2 p : shows (print_trapframe last cr2 p).
Proof.
  unfold print_trapframe. apply shows_get. intros t. apply shows_get. intros a. apply shows_get. intros c.
  apply shows_seq; [auto with shows|]. apply shows_seq; [apply shows_regs|].
  do 3 (apply shows_seq; [auto with shows|]). apply shows_seq; [destruct (_ && _); auto with shows|].
  apply shows_vcprintf_seq; [reflexivity|]. apply shows_seq; [destruct (_ =? _); auto with shows|].
  do 3 (apply shows_seq; [auto with shows|]). destruct (hasbits _ _); auto with shows.
Qed.

(** ** The clock *)

Lemma time_tick_run s : 0 <= ticks s < 429496728 -> time_tick s = Ret tt (set_ticks (ticks s + 1) s).
Proof.
  intros Ht. unfold time_tick. rewrite bind_modify, bind_get, (u32_small (ticks s + 1)) by lia.
  cbn [ticks set_ticks]. rewrite u32_small by lia. by destruct (Z.ltb_spec ((ticks s + 1) * 10) (ticks s + 1)); [lia|].
Qed.

(** ** The end of an environment *)

(** Environment [c] is gone, with everything it owned, and the CPU went on. *)
Definition gone (ds el : list Z) (kref : Z -> Z) (kd c : Z) (s : kstate) (x : exit) (s' : kstate) : Prop :=
  exists d ds' fl', ds ≡ₚ d :: ds' /\ sys_inv s' ds' fl' (c :: el) kref kd /\ env_status (env s' c) = ENV_FREE /\
    (forall i, i <> c -> same_task (env s i) (env s' i)) /\
    ((exists e, x = EnvRun e /\ e <> c /\ 0 <= e < NENV /\ curenv s' = Some e) \/ x = CpuHalt \/ x = MonitorLoop).

Lemma yield_gone s ds fl el kref kd c s1 d ds' fl' :
  sys_inv s ds fl el kref kd -> holding s = true -> ds ≡ₚ d :: ds' -> sys_inv s1 ds' fl' (c :: el) kref kd ->
  env_freed ds' d c s s1 ->
  exists x s', sched_yield (set_curenv None s1) = Exit x s' /\ gone ds el kref kd c s x s'.
Proof.
  intros H Hh Hp Hi Hf. pose proof (fr_env _ _ _ _ _ Hf) as Hfe.
  destruct (fr_frame _ _ _ _ _ Hf) as [_ _ Hcpu Hk _ _ _].
  destruct (sched_yield_exits (set_curenv None s1) ds' fl' (c :: el) kref kd 0)
    as (x & s' & E & Hi' & _ & _ & Ht & Hx).
  - by apply sys_inv_thiscpu.
  - rewrite <- Hh. by apply holding_klock.
  - left. split; [apply curenv_set_curenv|done].
  - unfold set_curenv in Ht, Hx. cbv zeta in Ht, Hx.
    assert (Hs : forall i, same_task (env s1 i) (env s' i)) by exact Ht.
    exists x, s'. split; [done|]. exists d, ds', fl'. split; [done|]. split; [done|]. split.
    { destruct (Hs c) as (_ & _ & _ & [T|[T _]]); rewrite Hfe in T; [done|by destruct T]. }
    split; [intros i Hne; rewrite <- (fr_others _ _ _ _ _ Hf _ Hne); apply Hs|].
    destruct Hx as [(e & -> & He & Hc & Hst)|[Hx _]]; [left|by right]. exists e. split; [done|]. split; [|done].
    rewrite env_set_thiscpu in Hst. intros ->. rewrite Hfe in Hst. by destruct Hst as [?|[_ ?]].
Qed.

Lemma destroy_current s ds fl el kref kd c :
  sys_inv s ds fl el kref kd -> holding s = true -> 0 <= c < NENV -> live (env s c) -> curenv s = Some c ->
  exists x s', env_destroy c s = Exit x s' /\ gone ds el kref kd c s x s'.
Proof.
  intros H Hh Hr Hl Hc. destruct (env_destroy_run _ _ _ _ _ _ _ H Hr Hl)
    as [(_ & Hn & _)|(_ & s1 & d & ds' & fl' & Hp & Hi & Hf & ->)]; [done|].
  rewrite decide_True by done. by apply (yield_gone s ds fl el kref kd c s1 d ds' fl').
Qed.

(** The other environments of [s] and [s0] are the same. *)
Lemma gone_from ds el kref kd c s s0 x s' :
  (forall i, i <> c -> env s i = env s0 i) -> gone ds el kref kd c s x s' -> gone ds el kref kd c s0 x s'.
Proof.
  intros He (d & ds' & fl' & Hp & Hi & Hst & Ht & Hx). exists d, ds', fl'. split_and!; try done.
  intros i Hi'. rewrite <- He by done. by apply Ht.
Qed.

(** What ends an environment: it was marked as dying, its page fault has no
    handler or its stack pointer is between the stacks, or the trap is one
    the kernel does not expect. *)
Definition fatal (s : kstate) (c : Z) (tf : Trapframe) : Prop :=
  env_status (env s c) = ENV_DYING \/
  tf_trapno tf = T_PGFLT /\
    (env_pgfault_upcall (env s c) = 0 \/ USTACKTOP < tf_esp tf < UXSTACKTOP - PGSIZE) \/
  tf_trapno tf ∉ [T_PGFLT; T_BRKPT; T_SYSCALL; IRQ_OFFSET + IRQ_SPURIOUS; IRQ_OFFSET + IRQ_TIMER;
                  IRQ_OFFSET + IRQ_KBD; IRQ_OFFSET + IRQ_SERIAL].

(** [c] is the current environment and can be destroyed. *)
Record doomed (ds fl el : list Z) (kref : Z -> Z) (kd c : Z) (s : kstate) : Prop := {
  dm_inv : sys_inv s ds fl el kref kd;
  dm_hold : holding s = true;
  dm_range : 0 <= c < NENV;
  dm_live : live (env s c);
  dm_cur : curenv s = Some c
}.

(** The code [m] ends the current environment [c]. *)
Definition kills {A} (c : Z) (m : K A) : Prop :=
  forall ds fl el kref kd s, doomed ds fl el kref kd c s ->
    exists x s', m s = Exit x s' /\ gone ds el kref kd c s x s'.

Lemma kills_destroy c : kills c (env_destroy c).
Proof. intros ds fl el kref kd s []. by apply (destroy_current s ds fl). Qed.

Lemma kills_shows {A} c (m : K unit) (k : K A) : shows m -> kills c k -> kills c (m ;; k).
Proof.
  intros Hm Hk ds fl el kref kd s [H1 H2 H3 H4 H5]. destruct (Hm s) as (k' & E). rewrite (bind_Ret _ _ _ _ _ E).
  destruct (Hk ds fl el kref kd (set_cons k' s)) as (x & s' & E' & Hg).
  - constructor; try done. by apply (sys_inv_same s).
  - exists x, s'. split; [done|]. by apply (gone_from _ _ _ _ _ (set_cons k' s)).
Qed.

Lemma kills_get {A B} c (g : kstate -> A) (f : A -> K B) : (forall a, kills c (f a)) -> kills c (get g ≫= f).
Proof. intros H ds fl el kref kd s Hd. rewrite bind_get. by apply (H _ ds fl). Qed.

Lemma kills_l {A B} c (m : K A) (f : A -> K B) : kills c m -> kills c (m ≫= f).
Proof.
  intros H ds fl el kref kd s Hd. destruct (H ds fl el kref kd s Hd) as (x & s' & E & Hg).
  exists x, s'. split; [by apply bind_Exit|done].
Qed.

Lemma kills_curenv {B} c (f : Z -> K B) : kills c (f c) -> kills c (the_curenv ≫= f).
Proof.
  intros H ds fl el kref kd s Hd. unfold the_curenv. rewrite bind_assoc, bind_get, (dm_cur _ _ _ _ _ _ _ Hd), bind_mret.
  by apply (H ds fl).
Qed.

(** Going back to the current environment. *)
Lemma resume_current s ds fl el kref kd c :
  doomed ds fl el kref kd c s ->
  exists s', env_run c s = Exit (EnvRun c) s' /\ sys_inv s' ds fl el kref kd /\
    env_tf (env s' c) = env_tf (env s c) /\ (forall i, i <> c -> env s' i = env s i) /\
    mem s' = mem s /\ curenv s' = Some c /\ locked (klock s') = 0.
Proof.
  intros [H Hh Hr Hl Hc]. destruct (live_dir _ _ _ _ _ _ _ H Hr Hl) as (d & _ & Hpg & Hd0).
  destruct (run_frame c d s) as (_ & _ & _ & F4 & _ & _ & F7 & F8 & _).
  exists (run_state c d s). split; [by apply env_run_spec|]. split; [by apply run_sys_inv|].
  split; [rewrite run_env, decide_True by done; cbv zeta; by rewrite decide_True|].
  split; [|by rewrite F7, F8, F4]. intros i Hi. rewrite run_env, decide_False by done. cbv zeta. by rewrite decide_True.
Qed.

(** A page fault that no handler can take. *)
Lemma fault_kills c cr2 s tf ds fl el kref kd :
  doomed ds fl el kref kd c s -> env_tf (env s c) = tf -> tf_cs tf .& 3 = 3 ->
  env_pgfault_upcall (env s c) = 0 \/ USTACKTOP < tf_esp tf < UXSTACKTOP - PGSIZE ->
  exists x s', page_fault_handler cr2 (EnvTf c) s = Exit x s' /\ gone ds el kref kd c s x s'.
Proof.
  intros Hd Ht Hcs Hbad. unfold page_fault_handler. rewrite bind_get. cbn [the_tf]. rewrite Ht.
  unfold hasbits. rewrite Hcs. change (negb (negb (3 =? 0))) with false. cbv iota.
  unfold the_curenv. rewrite bind_assoc, bind_get, (dm_cur _ _ _ _ _ _ _ Hd), bind_mret, bind_get.
  assert ((env_pgfault_upcall (env s c) =? 0) || (USTACKTOP <? tf_esp tf) && (tf_esp tf <? UXSTACKTOP - PGSIZE) = true) as ->.
  { destruct Hbad as [-> |[? ?]]; [done|]. apply orb_true_iff. right. apply andb_true_iff. rewrite !Z.ltb_lt. done. }
  cbv zeta. refine (kills_l c _ _ _ ds fl el kref kd s Hd). apply kills_get. intros id.
  apply kills_shows; [auto with shows|]. apply kills_shows; [apply shows_trapframe|].
  apply kills_shows; [auto with shows|]. apply kills_destroy.
Qed.

(** A trap the kernel does not expect. *)
Lemma unexpected_kills c cr2 s tf ds fl el kref kd :
  doomed ds fl el kref kd c s -> env_tf (env s c) = tf -> tf_cs tf .& 3 = 3 ->
  tf_trapno tf ∉ [T_PGFLT; T_BRKPT; T_SYSCALL; IRQ_OFFSET + IRQ_SPURIOUS; IRQ_OFFSET + IRQ_TIMER;
                  IRQ_OFFSET + IRQ_KBD; IRQ_OFFSET + IRQ_SERIAL] ->
  exists x s', trap_dispatch cr2 (EnvTf c) s = Exit x s' /\ gone ds el kref kd c s x s'.
Proof.
  intros Hd Ht Hcs Hno. unfold trap_dispatch. rewrite bind_get. cbn [the_tf]. rewrite Ht. cbv zeta.
  rewrite !not_elem_of_cons in Hno. rewrite !(proj2 (Z.eqb_neq (tf_trapno tf) _)) by tauto.
  destruct (Z.eqb_spec (tf_cs tf) GD_KT) as [E|_]; [by rewrite E in Hcs|].
  refine (kills_shows c _ _ _ _ ds fl el kref kd s Hd); [apply shows_trapframe|]. apply kills_shows; [auto with shows|].
  apply kills_curenv, kills_destroy.
Qed.

Lemma saved_doomed s ds fl el kref kd c tf :
  sys_inv s ds fl el kref kd -> in_user s c -> doomed ds fl el kref kd c (saved c tf s).
Proof.
  intros H Hu. destruct (saved_views s c tf c) as (Ec & Ecur & _ & Eh & _). rewrite decide_True in Ec by done.
  constructor; [by apply saved_sys|done|apply (iu_range _ _ Hu)|rewrite Ec; apply (iu_live _ _ Hu)|].
  rewrite Ecur. apply (iu_cur _ _ Hu).
Qed.

(** ** Delivering a page fault *)

(** [struct UTrapframe] in memory order. *)
Definition utf_words (cr2 : Z) (t : Trapframe) : list Z :=
  let r := tf_regs t in
  [cr2; tf_err t; reg_edi r; reg_esi r; reg_ebp r; reg_oesp r; reg_ebx r; reg_edx r; reg_ecx r; reg_eax r;
   tf_eip t; tf_eflags t; tf_esp t].

(** Memory after the frame was written at byte [o] of page [p], in the order of
    the code. *)
Definition push_regs (p o : Z) (r : PushRegs) (m : gmap Z (gmap Z Z)) : gmap Z (gmap Z Z) :=
  wr4 p (o + 36) (reg_eax r) (wr4 p (o + 32) (reg_ecx r) (wr4 p (o + 28) (reg_edx r) (wr4 p (o + 24) (reg_ebx r)
    (wr4 p (o + 20) (reg_oesp r) (wr4 p (o + 16) (reg_ebp r) (wr4 p (o + 12) (reg_esi r) (wr4 p (o + 8) (reg_edi r) m))))))).

Definition push_frame (p o cr2 : Z) (t : Trapframe) (m : gmap Z (gmap Z Z)) : gmap Z (gmap Z Z) :=
  wr4 p (o + 44) (tf_eflags t) (wr4 p o cr2 (wr4 p (o + 48) (tf_esp t) (wr4 p (o + 4) (tf_err t)
    (wr4 p (o + 40) (tf_eip t) (push_regs p o (tf_regs t) m))))).

Lemma push_frame_words p o cr2 t m j w i :
  utf_words cr2 t !! j = Some w -> 0 <= i < 4 ->
  pbyte (push_frame p o cr2 t m) p (o + 4 * Z.of_nat j + i) = byte_of w i.
Proof.
  intros Hj Hi. unfold push_frame, push_regs. rewrite !pbyte_wr4.
  do 13 (destruct j as [|j]; [injection Hj as <-; clear -Hi; repeat (rewrite decide_False by lia);
    rewrite decide_True by lia; f_equal; lia|]). done.
Qed.

Lemma push_frame_other p o cr2 t m q k :
  ~ (q = p /\ o <= k < o + 52) -> pbyte (push_frame p o cr2 t m) q k = pbyte m q k.
Proof.
  intros H. unfold push_frame, push_regs. rewrite !pbyte_wr4. by repeat (rewrite decide_False by lia).
Qed.

Section Push.
  Context {ds fl : list Z} {kref : Z -> Z} {d v p : Z} {s : kstate} (Hw : window ds fl kref d v p s).
  Context {utf : Z} (Hva : PGNUM utf = v) (Hfit : utf mod 4096 + 52 <= 4096).

  Local Abbreviation o := (utf mod 4096) (only parsing).

Lemma agrees_regs r m : agrees (p := p) (s := s) m -> agrees (p := p) (s := s) (push_regs p o r m).
  Proof using Type. intros H. unfold push_regs. repeat apply agrees_wr4. exact H. Qed.

Lemma store_regs_run {B} r m (k : K B) :
    agrees (p := p) (s := s) m ->
    (store_regs (u32 (utf + 8)) r ;; k) (set_mem m s) = k (set_mem (push_regs p o r m) s).
  Proof using All.
    intros Hm. assert (Ha : forall j, 0 <= j <= 40 -> u32 (utf + 8 + j) = utf + (8 + j)).
    { intros j Hj. rewrite <- Z.add_assoc. by destruct (in_page Hw Hva (8 + j)) as (-> & _); [lia..|]. }
    destruct (in_page Hw Hva 8) as (-> & _); [lia..|]. unfold store_regs, push_regs. rewrite !Ha by lia.
    rewrite bind_assoc, (store_word Hw Hva); [|exact Hm|clear -Hfit; lia|clear -Hfit; lia]. do 7 (rewrite ?bind_assoc; rewrite (store_word Hw Hva);
      [|repeat apply agrees_wr4; exact Hm|clear -Hfit; lia|clear -Hfit; lia]). done.
  Qed.
End Push.

Lemma utf_addr_user esp : 0 <= esp -> uva (utf_addr esp) /\ utf_addr esp + 52 <= UTOP.
Proof.
  intros He. unfold utf_addr, uva. destruct (Z.ltb_spec esp UXSTACKTOP), (Z.leb_spec (UXSTACKTOP - PGSIZE) esp);
    cbn [andb]; rewrite ?u32_small by lia; lia.
Qed.

(** A range within one page that is mapped with the permissions passes. *)
Lemma user_mem_assert_page s ds fl el kref kd c d va len perm e :
  doomed ds fl el kref kd c s -> env_pgdir (env s c) = kptr d 0 -> uva va -> va + len <= UTOP -> 0 < len ->
  va mod 4096 + len <= 4096 -> vmap (mem s) d (PGNUM va) = Some e -> e .& (perm .| PTE_U) = perm .| PTE_U ->
  user_mem_assert c va len perm s = Ret tt s.
Proof.
  intros Hd Hpg Hva Htop Hlen Hfit He Hp. pose proof (dm_inv _ _ _ _ _ _ _ Hd) as H.
  assert (Hdd : d ∈ ds).
  { destruct (sy_dir _ _ _ _ _ _ H c (dm_range _ _ _ _ _ _ _ Hd) (dm_live _ _ _ _ _ _ _ Hd)) as (d' & Hd' & E).
    rewrite E in Hpg. by apply kptr_inj in Hpg as <-. }
  assert (Hok : user_ok s d (perm .| PTE_U) va = true).
  { unfold user_ok. rewrite vmap_pte_at in He. unfold pte_at in He. unfold uva in Hva.
    destruct (Z.ltb_spec va ULIM); [|lia]. destruct (pt_page (mem s) d (PGNUM va)) as [t|]; [|by rewrite hasbits_0 in He].
    destruct (hasbits _ _) in He; [|done]. injection He as ->. by rewrite Hp, Z.eqb_refl. }
  unfold user_mem_assert.
  destruct (user_mem_check_run s c d va len (perm .| PTE_U) Hpg) as [[E _]|(b & Hb & Hbad & _)].
  - intros v Hv. apply (vm_walkable (sy_vm _ _ _ _ _ _ H)); [done|]. split; [lia|].
    assert ((va + len + 4095) / 4096 < NUVPN + 1); [|lia]. apply Z.div_lt_upper_bound; unfold NUVPN; lia.
  - apply Hva.
  - done.
  - lia.
  - kstep by (exact E). done.
  - rewrite (user_ok_page s d _ b va) in Hbad; [congruence|]. pose proof (Z.div_mod va 4096 ltac:(lia)).
    pose proof (Z.mod_pos_bound va 4096 ltac:(lia)).
    symmetry. apply (Z.div_unique _ _ _ (b - va / 4096 * 4096)); lia.
Qed.

(** The state in which the user's handler is entered. *)
Definition upcall_state (c cr2 p utf : Z) (tf : Trapframe) (s : kstate) : kstate :=
  upd_env c (λ x, set_env_tf (set_tf_esp utf (set_tf_eip (env_pgfault_upcall (env s c)) (env_tf x))) x)
    (set_mem (push_frame p (utf mod 4096) cr2 tf (mem s)) s).

Lemma upcall_run s ds fl el kref kd c d e cr2 tf :
  let utf := utf_addr (tf_esp tf) in
  doomed ds fl el kref kd c s -> env_tf (env s c) = tf -> tf_cs tf .& 3 = 3 -> 0 <= tf_esp tf ->
  env_pgfault_upcall (env s c) <> 0 -> ~ USTACKTOP < tf_esp tf < UXSTACKTOP - PGSIZE ->
  env_pgdir (env s c) = kptr d 0 -> cpu_cr3 (thiscpu s) = d * 4096 ->
  utf mod 4096 + 52 <= 4096 -> vmap (mem s) d (PGNUM utf) = Some e -> e .& 7 = 7 ->
  page_fault_handler cr2 (EnvTf c) s = env_run c (upcall_state c cr2 (PGNUM e) utf tf s).
Proof.
  intros utf Hd Ht Hcs Hesp Hup Hst Hpg Hcr Hfit He Hp. destruct (utf_addr_user _ Hesp) as [Hu Htop]. fold utf in Hu, Htop.
  pose proof (dm_inv _ _ _ _ _ _ _ Hd) as H.
  assert (Hw : window ds fl kref d (PGNUM utf) (PGNUM e) s).
  { destruct (sy_dir _ _ _ _ _ _ H c (dm_range _ _ _ _ _ _ _ Hd) (dm_live _ _ _ _ _ _ _ Hd)) as (d' & Hd' & E).
    rewrite E in Hpg. apply kptr_inj in Hpg as <-. constructor; try done; [apply H|by apply uva_vpn|].
    exists e. split; [done|]. split; [|done]. by apply (hasbits_sub e 7). }
  unfold page_fault_handler. rewrite bind_get. cbn [the_tf]. rewrite Ht.
  unfold hasbits. rewrite Hcs. change (negb (negb (3 =? 0))) with false. cbv iota.
  unfold the_curenv. rewrite bind_assoc, bind_get, (dm_cur _ _ _ _ _ _ _ Hd), bind_mret, bind_get.
  assert ((env_pgfault_upcall (env s c) =? 0) || (USTACKTOP <? tf_esp tf) && (tf_esp tf <? UXSTACKTOP - PGSIZE) = false) as ->.
  { apply orb_false_iff. rewrite Z.eqb_neq, andb_false_iff, !Z.ltb_ge. lia. }
  rewrite bind_mret. cbv zeta. fold utf.
  kstep by (apply (user_mem_assert_page s ds fl el kref kd c d utf 52 _ e); done).
  assert (Es : s = set_mem (mem s) s) by (by destruct s). rewrite Es at 1.
  assert (Ha : agrees (p := PGNUM e) (s := s) (mem s)) by (by intros ? ?).
  rewrite (store_regs_run Hw eq_refl Hfit) by exact Ha.
  assert (Haddr : forall j, 0 <= j <= 48 -> u32 (utf + j) = utf + j).
  { intros j Hj. by destruct (in_page Hw eq_refl j) as (-> & _); [lia..|]. }
  rewrite !Haddr by lia. pose proof (agrees_regs (utf := utf) (tf_regs tf) (mem s) Ha) as Hr.
  rewrite (store_word Hw eq_refl 40); [|exact Hr|lia|lia].
  rewrite (store_word Hw eq_refl 4); [|do 1 apply agrees_wr4; exact Hr|lia|lia].
  rewrite (store_word Hw eq_refl 48); [|do 2 apply agrees_wr4; exact Hr|lia|lia].
  rewrite (store_word0 Hw eq_refl); [|do 3 apply agrees_wr4; exact Hr|lia].
  rewrite (store_word Hw eq_refl 44); [|do 4 apply agrees_wr4; exact Hr|lia|lia].
  cbn [upd_tf]. rewrite !bind_modify, upd_env_upd. unfold upcall_state, push_frame. cbn [env_tf set_env_tf]. reflexivity.
Qed.

Lemma upcall_inv s ds fl el kref kd c d e cr2 utf tf :
  doomed ds fl el kref kd c s -> env_pgdir (env s c) = kptr d 0 -> 0 <= PGNUM utf < NUVPN ->
  vmap (mem s) d (PGNUM utf) = Some e -> kref (PGNUM e) = 0 ->
  doomed ds fl el kref kd c (upcall_state c cr2 (PGNUM e) utf tf s).
Proof.
  intros [H Hh Hr Hl Hc] Hpg Hv He Hk.
  assert (Hdir : d ∈ ds).
  { destruct (sy_dir _ _ _ _ _ _ H c Hr Hl) as (d' & Hd' & E). rewrite E in Hpg. by apply kptr_inj in Hpg as <-. }
  assert (Hu : sys_inv (upcall_state c cr2 (PGNUM e) utf tf s) ds fl el kref kd).
  { apply upd_env_inv; try done. apply (data_sys_inv _ _ _ _ _ _ d (PGNUM utf) e); try done.
    intros q i Hq. unfold push_frame, push_regs, wr4. by rewrite !rdw_pokes_ne by done. }
  constructor; [done|rewrite <- Hh; by apply holding_klock|done| |exact Hc].
  unfold upcall_state. by rewrite env_upd_eq.
Qed.

Lemma getenvid_state a1 a2 a3 a4 a5 v s s' : syscall SYS_getenvid a1 a2 a3 a4 a5 s = Ret v s' -> s' = s.
Proof.
  unfold syscall. change (SYS_getenvid =? SYS_cputs) with false. change (SYS_getenvid =? SYS_cgetc) with false.
  change (SYS_getenvid =? SYS_getenvid) with true. cbv iota. unfold sys_getenvid, the_curenv.
  rewrite bind_assoc, bind_get. destruct (curenv s); [rewrite bind_mret|done]. by intros [= _ <-].
Qed.

(** ** A sample: environment 0 in user mode, with a page mapped at [va] *)

Definition ready (upcall : Z) (s : kstate) : kstate :=
  upd_env 0 (λ x, set_env_pgfault_upcall upcall (set_env_status ENV_RUNNING x))
    (set_klock (mkLock 0 None) (set_cpu_status CPU_STARTED (cr3_state (279 * 4096) s))).

Lemma ready_facts upcall s ds fl el kref kd :
  sys_inv s ds fl el kref kd -> caller s 0 -> env_pgdir (env s 0) = kptr 279 0 ->
  let s' := ready upcall s in
  sys_inv s' ds fl el kref kd /\ in_user s' 0 /\ env_status (env s' 0) = ENV_RUNNING /\
  env_pgfault_upcall (env s' 0) = upcall /\ env_pgdir (env s' 0) = kptr 279 0 /\
  cpu_cr3 (thiscpu s') = 279 * 4096 /\ mem s' = mem s /\ ticks s' = ticks s.
Proof.
  intros H (Hc & Hr & Hl) Hpg s'.
  assert (Et : thiscpu s' = mkCpu CPU_STARTED (Some 0) (279 * 4096) ∅).
  { unfold s', ready, set_cpu_status, cr3_state. cbv zeta.
    assert (forall f l x, thiscpu (upd_env 0 f (set_klock l x)) = thiscpu x) as -> by done.
    rewrite !thiscpu_set_thiscpu. cbn [cpu_env cpu_cr3 cpu_tlb]. by rewrite <- Hc. }
  assert (Ee : env s' 0 = set_env_pgfault_upcall upcall (set_env_status ENV_RUNNING (env s 0))) by apply env_upd_eq.
  split_and!; try (rewrite ?Ee, ?Et; done).
  - apply upd_env_inv; try done. apply sys_inv_klock. by do 2 apply sys_inv_thiscpu.
  - constructor; try (unfold curenv; rewrite ?Ee, ?Et); done.
Qed.

Lemma sample_ready va upcall :
  uva va -> ret_val (page_insert (kptr 279 0) 278 va 7 (alloc_state ALLOC_ZERO 278 sys_sample1)) = Some 0 ->
  let s := ready upcall (sample_at va) in
  exists fl, sys_inv s [279] fl (seqZ 1 1023) vm_sample_kref 256 /\ in_user s 0 /\
    env_status (env s 0) = ENV_RUNNING /\ env_pgfault_upcall (env s 0) = upcall /\
    env_pgdir (env s 0) = kptr 279 0 /\ cpu_cr3 (thiscpu s) = 279 * 4096 /\
    vmap (mem s) 279 (PGNUM va) = Some (pte_value 278 7).
Proof.
  intros Hva Hret s. destruct (sample_at_facts va Hva Hret) as (fl & Hi & Hf & Hx). exists fl.
  destruct sys_sample1_caller as [Hc _]. destruct (ready_facts upcall _ _ _ _ _ _ Hi (frame_caller _ _ _ Hf Hc))
    as (H1 & H2 & H3 & H4 & H5 & H6 & H7 & _).
  - rewrite (frame_env _ _ 0 Hf), (proj1 sys_sample1_env). reflexivity.
  - fold s in H1, H2, H3, H4, H5, H6, H7. rewrite H7. split_and!; assumption.
Qed.

(** A frame from user mode. *)
Definition tf_sample (no eax esp : Z) : Trapframe :=
  set_tf_trapno no (set_tf_cs 27 (set_tf_esp esp (set_tf_regs (set_reg_eax eax zero_regs) zero_tf))).

Lemma status_set_tf t x : env_status (set_env_tf t x) = env_status x.
Proof. done. Qed.

Lemma getenvid_sample :
  let s := ready 0 (sample_at 0x400000) in let tf := tf_sample 48 2 0 in let s1 := saved 0 tf s in
  exists fl, in_user s 0 /\ env_status (env s 0) <> ENV_DYING /\
    syscall (reg_eax (tf_regs tf)) (reg_edx (tf_regs tf)) (reg_ecx (tf_regs tf)) (reg_ebx (tf_regs tf))
      (reg_edi (tf_regs tf)) (reg_esi (tf_regs tf)) s1 = Ret 4096 s1 /\
    sys_inv s1 [279] fl (seqZ 1 1023) vm_sample_kref 256 /\ curenv s1 = Some 0 /\ holding s1 = true /\
    env_status (env s1 0) = ENV_RUNNING.
Proof.
  intros s tf s1. destruct (sample_ready 0x400000 0) as (fl & H1 & H2 & H3 & _); [exact (proj1 vm_sample_uva)|vm_compute; reflexivity|].
  pose proof (saved_doomed _ _ _ _ _ _ _ tf H1 H2) as [D1 D2 D3 D4 D5].
  destruct (saved_views s 0 tf 0) as (Ec & _). destruct (decide (0 = 0)) as [_|N] in Ec; [|by destruct N].
  destruct (ret_val_Ret (syscall SYS_getenvid 0 0 0 0 0 s1) 4096) as (s2 & Hsys); [vm_compute; reflexivity|].
  pose proof (getenvid_state _ _ _ _ _ _ _ _ Hsys) as E1. rewrite E1 in Hsys.
  exists fl. split; [exact H2|]. fold s in H3. split; [rewrite H3; intros E; discriminate E|]. split; [exact Hsys|].
  split; [exact D1|]. split; [exact D5|]. split; [exact D2|]. unfold s1. rewrite Ec, status_set_tf. exact H3.
Qed.

(** ** Properties *)

(** C16: a system call that returns [v] continues in the environment that made
    it, with [v] in [%eax] and the registers otherwise as the call left them;
    the kernel lock is free again, memory and all other environments are as
    the call left them. *)
Theorem trap_syscall_result s kref kd c cr2 a tf v s1 ds1 fl1 el1 :
  in_user s c -> tf_cs tf .& 3 = 3 -> env_status (env s c) <> ENV_DYING -> tf_trapno tf = T_SYSCALL ->
  syscall (reg_eax (tf_regs tf)) (reg_edx (tf_regs tf)) (reg_ecx (tf_regs tf)) (reg_ebx (tf_regs tf))
    (reg_edi (tf_regs tf)) (reg_esi (tf_regs tf)) (saved c tf s) = Ret v s1 ->
  sys_inv s1 ds1 fl1 el1 kref kd -> curenv s1 = Some c -> holding s1 = true -> env_status (env s1 c) = ENV_RUNNING ->
  exists s', trap false false cr2 a tf s = Exit (EnvRun c) s' /\ sys_inv s' ds1 fl1 el1 kref kd /\
    env_tf (env s' c) = set_tf_regs (set_reg_eax (u32 v) (tf_regs (env_tf (env s1 c)))) (env_tf (env s1 c)) /\
    (forall i, i <> c -> env s' i = env s1 i) /\ mem s' = mem s1 /\ curenv s' = Some c /\ locked (klock s') = 0.
Proof.
  intros Hu Hcs Hst Hno Hsys H1 Hc1 Hh1 Hr1. rewrite (trap_saved s c) by done.
  destruct (saved_views s c tf c) as (Ec & _). rewrite decide_True in Ec by done.
  unfold trap_dispatch. rewrite bind_assoc, bind_get. cbn [the_tf]. rewrite Ec. cbn [env_tf set_env_tf]. rewrite Hno.
  change (T_SYSCALL =? T_PGFLT) with false. change (T_SYSCALL =? T_BRKPT) with false.
  change (T_SYSCALL =? T_SYSCALL) with true. cbv iota zeta. rewrite bind_assoc, (bind_Ret _ _ _ _ _ Hsys).
  cbn [upd_tf]. rewrite bind_modify.
  set (s2 := upd_env c (λ x, set_env_tf (set_tf_regs (set_reg_eax (u32 v) (tf_regs (env_tf x))) (env_tf x)) x) s1).
  pose proof (iu_range _ _ Hu) as Hr.
  assert (Hl1 : live (env s1 c)) by (unfold live; by rewrite Hr1).
  assert (H2 : sys_inv s2 ds1 fl1 el1 kref kd) by (by apply upd_env_inv).
  assert (E2 : env s2 c = set_env_tf (set_tf_regs (set_reg_eax (u32 v) (tf_regs (env_tf (env s1 c)))) (env_tf (env s1 c))) (env s1 c))
    by (unfold s2; by rewrite env_upd_eq).
  assert (Hl2 : live (env s2 c)) by (by rewrite E2).
  assert (Hc2 : curenv s2 = Some c) by done. assert (Hh2 : holding s2 = true) by (rewrite <- Hh1; by apply holding_klock).
  unfold trap_return. rewrite bind_get, Hc2, bind_get, E2. cbn [env_status set_env_tf]. rewrite Hr1, bool_decide_eq_true_2 by done.
  destruct (resume_current s2 ds1 fl1 el1 kref kd c) as (s' & E & Hi & Et & Ho & Hm & Hcl); [by constructor|].
  exists s'. split; [done|]. split; [done|]. split; [by rewrite Et, E2|]. split; [|by rewrite Hm].
  intros i Hi'. rewrite Ho by done. unfold s2. by rewrite env_upd_ne by congruence.
Qed.

Lemma trap_syscall_result_witness :
  exists s', trap false false 0 0xEFFFFFBC (tf_sample 48 2 0) (ready 0 (sample_at 0x400000)) = Exit (EnvRun 0) s' /\
    reg_eax (tf_regs (env_tf (env s' 0))) = 4096.
Proof.
  destruct getenvid_sample as (fl & Hu & Hst & Hsys & D1 & D2 & D3 & D4).
  destruct (trap_syscall_result _ vm_sample_kref 256 0 0 0xEFFFFFBC (tf_sample 48 2 0) 4096
    (saved 0 (tf_sample 48 2 0) (ready 0 (sample_at 0x400000))) [279] fl (seqZ 1 1023) Hu eq_refl Hst eq_refl Hsys D1 D2 D3 D4)
    as (s' & E & _ & Et & _).
  exists s'. split; [exact E|]. rewrite Et. reflexivity.
Defined.

(** C14: a clock interrupt in user mode preempts the environment: its registers
    are saved, and the CPU goes on in another runnable environment or in the
    interrupted one; that one stays ready to run.  Memory, the registers of
    all other environments and the system invariant are kept. *)
Theorem trap_timer_preempts s ds fl el kref kd c cr2 a tf :
  in_user s c -> c < NENV - 1 -> tf_cs tf .& 3 = 3 -> env_status (env s c) = ENV_RUNNING ->
  tf_trapno tf = IRQ_OFFSET + IRQ_TIMER -> sys_inv s ds fl el kref kd ->
  0 <= ticks s < 429496728 ->
  exists e s', trap false false cr2 a tf s = Exit (EnvRun e) s' /\ 0 <= e < NENV /\
    (e = c \/ env_status (env s e) = ENV_RUNNABLE) /\ curenv s' = Some e /\
    sys_inv s' ds fl el kref kd /\ mem s' = mem s /\
    env_tf (env s' c) = tf /\ active (env_status (env s' c)) /\
    (forall i, i <> c -> same_task (env s i) (env s' i)).
Proof.
  intros Hu Hlast Hcs Hst Hno H Ht. rewrite (trap_saved s c) by (done || by rewrite Hst).
  destruct (saved_views s c tf c) as (Ec & Ecur & Em & Eh & _). rewrite decide_True in Ec by done.
  unfold trap_dispatch. rewrite bind_assoc, bind_get. cbn [the_tf]. rewrite Ec. cbn [env_tf set_env_tf]. rewrite Hno.
  change (IRQ_OFFSET + IRQ_TIMER =? T_PGFLT) with false. change (IRQ_OFFSET + IRQ_TIMER =? T_BRKPT) with false.
  change (IRQ_OFFSET + IRQ_TIMER =? T_SYSCALL) with false.
  change (IRQ_OFFSET + IRQ_TIMER =? IRQ_OFFSET + IRQ_SPURIOUS) with false.
  change (IRQ_OFFSET + IRQ_TIMER =? IRQ_OFFSET + IRQ_TIMER) with true. cbv iota zeta.
  set (s1 := set_ticks (ticks s + 1) (saved c tf s)).
  assert (Htick : time_tick (saved c tf s) = Ret tt s1) by (by apply time_tick_run).
  rewrite bind_assoc, (bind_Ret _ _ _ _ _ Htick).
  assert (H1 : sys_inv s1 ds fl el kref kd) by (apply (sys_inv_same (saved c tf s)); try done; by apply saved_sys).
  assert (He1 : forall i, env s1 i = env (saved c tf s) i) by done.
  assert (Hst1 : env_status (env s1 c) = ENV_RUNNING) by (by rewrite He1, Ec).
  destruct (sched_yield_exits s1 ds fl el kref kd (c + 1)) as (x & s' & E & Hi & _ & Hm & Htask & Hx).
  - done.
  - rewrite <- Eh. by apply holding_klock.
  - right. exists c. pose proof (iu_range _ _ Hu). unfold live. rewrite Hst1. split; [by rewrite <- (iu_cur _ _ Hu), <- Ecur|].
    split; [lia|done].
  - destruct Hx as [(e & -> & He & Hc & Hrun)|[_ Hx]]; [|exfalso; apply (Hx c); [by rewrite <- (iu_cur _ _ Hu), <- Ecur|done]].
    exists e, s'. split; [by apply bind_Exit|]. split; [done|]. split.
    { destruct Hrun as [Hrun|[Hcur _]]; [|left; change (curenv s1) with (curenv (saved c tf s)) in Hcur; rewrite Ecur, (iu_cur _ _ Hu) in Hcur; congruence].
      rewrite He1 in Hrun. destruct (saved_views s c tf e) as (Ee & _). rewrite Ee in Hrun.
      destruct (decide (e = c)); [by left|by right]. }
    split; [done|]. split; [done|]. split; [by rewrite Hm, <- Em|].
    destruct (Htask c) as (T1 & _ & _ & T4). rewrite He1, Ec in T1. split; [done|]. split.
    + rewrite Hst1 in T4. destruct T4 as [-> |[_ T4]]; [by right|done].
    + intros i Hi'. destruct (saved_views s c tf i) as (Ei & _). rewrite decide_False in Ei by done.
      rewrite <- Ei, <- He1. apply Htask.
Qed.

Lemma trap_timer_preempts_witness :
  exists e s', trap false false 0 0xEFFFFFBC (tf_sample 32 7 0) (ready 0 (sample_at 0x400000)) = Exit (EnvRun e) s' /\
    env_tf (env s' 0) = tf_sample 32 7 0.
Proof.
  destruct (sample_ready 0x400000 0) as (fl & H1 & H2 & H3 & _); [exact (proj1 vm_sample_uva)|vm_compute; reflexivity|].
  destruct (trap_timer_preempts _ _ _ _ _ _ 0 0 0xEFFFFFBC (tf_sample 32 7 0) H2 ltac:(clear; lia) eq_refl H3 eq_refl H1)
    as (e & s' & E & _ & _ & _ & _ & _ & Et & _).
  - split; vm_compute; congruence.
  - exists e, s'. split; [exact E|exact Et].
Defined.

(** C15: an environment that is dying, whose page fault has no handler, or that
    raises a trap the kernel does not expect is destroyed by the trap: all it
    owned is free again, no other environment is affected, and this CPU goes
    on in another environment, halts or enters the monitor. *)
Theorem trap_fatal s ds fl el kref kd c cr2 a tf :
  in_user s c -> tf_cs tf .& 3 = 3 -> sys_inv s ds fl el kref kd -> fatal s c tf ->
  exists x s', trap false false cr2 a tf s = Exit x s' /\ gone ds el kref kd c s x s'.
Proof.
  intros Hu Hcs H Hf. destruct (decide (env_status (env s c) = ENV_DYING)) as [Hst|Hst].
  - rewrite (trap_entry s c) by done. destruct (entered_views s c) as (Ec & _ & _ & Eh & _).
    rewrite bind_assoc, bind_get, Ec, Hst, bool_decide_eq_true_2 by done. pose proof (entered_sys _ _ _ _ _ _ H) as H1.
    destruct (env_free_inv _ _ _ _ _ _ c H1 (iu_range _ _ Hu)) as (s1 & d & ds' & fl' & E & Hp & _ & Hi & _ & Hfr);
      [rewrite Ec; apply Hu|].
    destruct (yield_gone _ _ _ _ _ _ c s1 d ds' (d :: fl') H1 Eh Hp Hi Hfr) as (x & s' & Ey & Hg). exists x, s'. split.
    + apply bind_Exit, bind_Exit. rewrite (bind_Ret _ _ _ _ _ E), bind_modify. exact Ey.
    + by apply (gone_from _ _ _ _ _ (entered s)).
  - rewrite (trap_saved s c) by done. destruct (saved_views s c tf c) as (Ec & _). rewrite decide_True in Ec by done.
    pose proof (saved_doomed s ds fl el kref kd c tf H Hu) as Hd.
    assert (Hg : exists x s', trap_dispatch cr2 (EnvTf c) (saved c tf s) = Exit x s' /\ gone ds el kref kd c (saved c tf s) x s').
    { destruct Hf as [?|[[Hno Hbad]|Hno]]; [done| |].
      - unfold trap_dispatch. rewrite bind_get. cbn [the_tf]. rewrite Ec. cbn [env_tf set_env_tf]. rewrite Hno.
        apply (fault_kills c cr2 _ tf ds fl); rewrite ?Ec; done.
      - apply (unexpected_kills c cr2 _ tf ds fl); rewrite ?Ec; done. }
    destruct Hg as (x & s' & E & Hg). exists x, s'. split; [by apply bind_Exit|].
    apply (gone_from _ _ _ _ _ (saved c tf s)); [|done]. intros i Hi. destruct (saved_views s c tf i) as (-> & _).
    by rewrite decide_False.
Qed.

Lemma trap_fatal_witness :
  exists x s', trap false false 0 0xEFFFFFBC (tf_sample 13 0 0) (ready 0 (sample_at 0x400000)) = Exit x s' /\ x <> EnvRun 0.
Proof.
  destruct (sample_ready 0x400000 0) as (fl & H1 & H2 & _); [exact (proj1 vm_sample_uva)|vm_compute; reflexivity|].
  destruct (trap_fatal _ _ _ _ _ _ 0 0 0xEFFFFFBC (tf_sample 13 0 0) H2 eq_refl H1) as (x & s' & E & Hg).
  - right. right. apply (bool_decide_unpack _). vm_compute. exact I.
  - exists x, s'. split; [exact E|]. destruct Hg as (_ & _ & _ & _ & _ & _ & _ & [(e & -> & Hn & _)|[-> | ->]]).
    + intros Ee. apply Hn. congruence.
    + intros Ee. discriminate Ee.
    + intros Ee. discriminate Ee.
Defined.

(** C13: a page fault with a handler, when the exception stack is mapped
    writable: the environment continues in its handler, with the stack pointer
    at a [UTrapframe] on the exception stack that holds the fault address, the
    error code and the registers at the time of the fault, below the current
    frame when the fault happened in the handler itself.  No other byte of
    memory and no other environment changes. *)
Theorem trap_page_fault_upcall s ds fl el kref kd c d e cr2 a tf :
  let utf := utf_addr (tf_esp tf) in
  in_user s c -> tf_cs tf .& 3 = 3 -> env_status (env s c) <> ENV_DYING -> tf_trapno tf = T_PGFLT ->
  sys_inv s ds fl el kref kd -> 0 <= tf_esp tf ->
  env_pgfault_upcall (env s c) <> 0 -> ~ USTACKTOP < tf_esp tf < UXSTACKTOP - PGSIZE ->
  env_pgdir (env s c) = kptr d 0 -> cpu_cr3 (thiscpu s) = d * 4096 -> utf mod 4096 + 52 <= 4096 ->
  vmap (mem s) d (PGNUM utf) = Some e -> e .& 7 = 7 -> kref (PGNUM e) = 0 ->
  exists s', trap false false cr2 a tf s = Exit (EnvRun c) s' /\ sys_inv s' ds fl el kref kd /\
    env_tf (env s' c) = set_tf_esp utf (set_tf_eip (env_pgfault_upcall (env s c)) tf) /\
    (forall i, i <> c -> env s' i = env s i) /\ curenv s' = Some c /\
    (forall j w i, utf_words cr2 tf !! j = Some w -> 0 <= i < 4 ->
       pbyte (mem s') (PGNUM e) (utf mod 4096 + 4 * Z.of_nat j + i) = byte_of w i) /\
    (forall q k, ~ (q = PGNUM e /\ utf mod 4096 <= k < utf mod 4096 + 52) -> pbyte (mem s') q k = pbyte (mem s) q k).
Proof.
  intros utf Hu Hcs Hdy Hno H Hesp Hup Hst Hpg Hcr Hfit He Hp Hk. rewrite (trap_saved s c) by done.
  destruct (saved_views s c tf c) as (Ec & Ecur & Em & Eh & Ecr). rewrite decide_True in Ec by done.
  pose proof (saved_doomed s ds fl el kref kd c tf H Hu) as Hd.
  assert (Hvpn : 0 <= PGNUM utf < NUVPN) by (apply uva_vpn, (utf_addr_user _ Hesp)).
  set (s1 := upcall_state c cr2 (PGNUM e) utf tf (saved c tf s)).
  assert (Hrun : trap_dispatch cr2 (EnvTf c) (saved c tf s) = env_run c s1).
  { unfold trap_dispatch. rewrite bind_get. cbn [the_tf]. rewrite Ec. cbn [env_tf set_env_tf]. rewrite Hno.
    apply (upcall_run _ ds fl el kref kd c d e); rewrite ?Ec, ?Em, ?Ecr; done. }
  assert (Hd1 : doomed ds fl el kref kd c s1).
  { apply (upcall_inv _ _ _ _ _ _ _ d); rewrite ?Ec, ?Em; done. }
  assert (Ec1 : env s1 c = set_env_tf (set_tf_esp utf (set_tf_eip (env_pgfault_upcall (env s c)) tf)) (env s c)).
  { unfold s1, upcall_state. rewrite env_upd_eq. change (env (set_mem ?m ?x) c) with (env x c). by rewrite Ec. }
  destruct (resume_current s1 ds fl el kref kd c Hd1) as (s' & E & Hi & Et & Ho & Hm & Hc & _).
  exists s'. split; [apply bind_Exit; by rewrite Hrun|]. split; [done|]. split; [by rewrite Et, Ec1|]. split.
  { intros i Hi'. rewrite Ho by done. unfold s1, upcall_state. rewrite env_upd_ne by congruence.
    destruct (saved_views s c tf i) as (Ei & _). rewrite decide_False in Ei by done. exact Ei. }
  split; [done|].
  assert (Em1 : mem s1 = push_frame (PGNUM e) (utf mod 4096) cr2 tf (mem s)) by (unfold s1, upcall_state; rewrite Em; reflexivity).
  rewrite Hm, Em1. split; [intros j w i; apply push_frame_words|intros q k; apply push_frame_other].
Qed.

Lemma trap_page_fault_upcall_witness :
  exists s', trap false false 0xdead0000 0xEFFFFFBC (tf_sample 14 0 0xEEBFD000) (ready 0x800020 (sample_at 0xEEBFF000)) =
      Exit (EnvRun 0) s' /\ tf_eip (env_tf (env s' 0)) = 0x800020 /\ tf_esp (env_tf (env s' 0)) = 0xEEBFFFCC /\
      pbyte (mem s') 278 4047 = 0xde.
Proof.
  destruct (sample_ready 0xEEBFF000 0x800020) as (fl & H1 & H2 & H3 & H4 & H5 & H6 & H7);
    [split; [clear; lia|reflexivity]|vm_compute; reflexivity|].
  destruct (trap_page_fault_upcall _ [279] fl (seqZ 1 1023) vm_sample_kref 256 0 279 (pte_value 278 7) 0xdead0000 0xEFFFFFBC
    (tf_sample 14 0 0xEEBFD000) H2) as (s' & E & _ & Et & _ & _ & Hb & _).
  - reflexivity.
  - rewrite H3. intros E. discriminate E.
  - reflexivity.
  - exact H1.
  - clear; vm_compute; congruence.
  - rewrite H4. clear; lia.
  - clear; cbn; lia.
  - exact H5.
  - exact H6.
  - clear; vm_compute; congruence.
  - exact H7.
  - reflexivity.
  - reflexivity.
  - exists s'. split; [exact E|]. rewrite Et, H4. split; [reflexivity|]. split; [reflexivity|].
    exact (Hb 0%nat 0xdead0000 3 eq_refl ltac:(clear; lia)).
Defined.
