(* ===== verification/UserLib.v ===== *)
(** * User environments: memory and system calls ([lib/syscall.c], [lib/pgfault.c])

    What the library code of a running environment does to the machine: loads
    and stores of its own memory through the page tables, with the processor's
    checks for user mode, and system calls.  A computation can end in a panic
    of the environment or in a page fault that it does not handle; a system
    call that does not return leaves the computation as the kernel does.

    The accesses of the C code to its stack and variables are not modelled:
    addresses the linker chooses are parameters. *)

From S2P Require Import Prelude LibString Mmu Printf Machine KernLib Spinlock PageAlloc PageTable Env Sched Syscall.

Inductive ures (A : Type) :=
  | UOk (a : A)
  | UPanic (msg : string)
  | UFault (va : Z).
Arguments UOk {A} a.
Arguments UPanic {A} msg.
Arguments UFault {A} va.

Definition U (A : Type) : Type := kstate -> outcome (ures A).

#[export] Instance U_ret : MRet U := λ A a s, Ret (UOk a) s.
#[export] Instance U_bind : MBind U := λ A B f m s,
  match m s with
  | Ret (UOk a) s' => f a s'
  | Ret (UPanic msg) s' => Ret (UPanic msg) s'
  | Ret (UFault va) s' => Ret (UFault va) s'
  | Exit x s' => Exit x s'
  end.

Definition upanic {A} (msg : string) : U A := λ s, Ret (UPanic msg) s.
Definition uget {A} (f : kstate -> A) : U A := λ s, Ret (UOk (f s)) s.

(** ** Memory *)

(** The page walk of an access in user mode. *)
Definition user_walk (s : kstate) (dir va : Z) (wr : bool) : option Z :=
  let denied e := negb (hasbits e PTE_P) || negb (hasbits e PTE_U) || (wr && negb (hasbits e PTE_W)) in
  let pde := phys_read s (dir + 4 * PDX va) in
  if denied pde then None
  else
    let pte := phys_read s (PTE_ADDR pde + 4 * PTX va) in
    if denied pte then None else Some (PTE_ADDR pte + PGOFF va).

Definition uload (va : Z) : U Z := λ s,
  match user_walk s (cpu_cr3 (thiscpu s)) va false with
  | Some pa => Ret (UOk (phys_read s pa)) s
  | None => Ret (UFault va) s
  end.

Definition ustore (va v : Z) : U unit := λ s,
  match user_walk s (cpu_cr3 (thiscpu s)) va true with
  | Some pa => Ret (UOk tt) (phys_write s pa (u32 v))
  | None => Ret (UFault va) s
  end.

(** [uvpt] is the page table of the page tables, [uvpd] the page directory. *)
Abbreviation UVPD := 0xEF7BD000 (only parsing).
Definition uvpt (n : Z) : U Z := uload (u32 (UVPT + 4 * n)).
Definition uvpd (i : Z) : U Z := uload (u32 (UVPD + 4 * i)).

(** [memmove] of whole words between different pages. *)
Fixpoint ucopy (n : nat) (dst src : Z) : U unit :=
  match n with
  | O => mret tt
  | S n' => v ← uload src; ustore dst v ;; ucopy n' (u32 (dst + 4)) (u32 (src + 4))
  end.

(** A member of [*thisenv], which the kernel maps at [UENVS]. *)
Definition thisenv {A} (f : Env -> A) : U A := λ s,
  match curenv s with
  | Some c => Ret (UOk (f (env s c))) s
  | None => Ret (UFault 0xEEC00000) s
  end.

(** ** [lib/syscall.c] *)

Definition usyscall (num : Z) (check : bool) (a1 a2 a3 a4 a5 : Z) : U Z := λ s,
  match syscall num (u32 a1) (u32 a2) (u32 a3) (u32 a4) (u32 a5) s with
  | Exit x s' => Exit x s'
  | Ret r s' => let ret := s32 r in if check && (0 <? ret) then Ret (UPanic "syscall returned > 0") s' else Ret (UOk ret) s'
  end.

Definition lib_sys_cputs (s len : Z) : U Z := usyscall SYS_cputs false s len 0 0 0.
Definition lib_sys_cgetc : U Z := usyscall SYS_cgetc false 0 0 0 0 0.
Definition lib_sys_env_destroy (envid : Z) : U Z := usyscall SYS_env_destroy true envid 0 0 0 0.
Definition lib_sys_getenvid : U Z := usyscall SYS_getenvid false 0 0 0 0 0.
Definition lib_sys_yield : U Z := usyscall SYS_yield false 0 0 0 0 0.
Definition lib_sys_page_alloc (envid va perm : Z) : U Z := usyscall SYS_page_alloc true envid va perm 0 0.
Definition lib_sys_page_map (srcenv srcva dstenv dstva perm : Z) : U Z := usyscall SYS_page_map true srcenv srcva dstenv dstva perm.
Definition lib_sys_page_unmap (envid va : Z) : U Z := usyscall SYS_page_unmap true envid va 0 0 0.
Definition lib_sys_env_set_status (envid status : Z) : U Z := usyscall SYS_env_set_status true envid status 0 0 0.
Definition lib_sys_env_set_trapframe (envid tf : Z) : U Z := usyscall SYS_env_set_trapframe true envid tf 0 0 0.
Definition lib_sys_env_set_pgfault_upcall (envid upcall : Z) : U Z := usyscall SYS_env_set_pgfault_upcall true envid upcall 0 0 0.
Definition lib_sys_ipc_try_send (envid value srcva perm : Z) : U Z := usyscall SYS_ipc_try_send false envid value srcva perm 0.
Definition lib_sys_ipc_recv (dstva : Z) : U Z := usyscall SYS_ipc_recv true dstva 0 0 0 0.
Definition lib_sys_time_msec : U Z := usyscall SYS_time_msec false 0 0 0 0 0.
Definition lib_sys_send_packet (va len : Z) : U Z := usyscall SYS_send_packet true va len 0 0 0.
Definition lib_sys_rcv_packet (va len : Z) : U Z := usyscall SYS_rcv_packet true va len 0 0 0.
(** Inlined in [inc/lib.h]. *)
Definition lib_sys_exofork : U Z := usyscall SYS_exofork false 0 0 0 0 0.

(** ** [lib/pgfault.c] *)

(** [first]: [_pgfault_handler == 0]; [upcall]: the address of
    [_pgfault_upcall]. *)
Definition set_pgfault_handler (first : bool) (upcall : Z) : U unit :=
  if first then
    id ← thisenv env_id;
    r ← lib_sys_page_alloc id (UXSTACKTOP - PGSIZE) (PTE_U .| PTE_P .| PTE_W);
    if r <? 0 then upanic "set_pgfault_handler : sys_page_alloc failed."
    else
      id ← thisenv env_id;
      lib_sys_env_set_pgfault_upcall id upcall ;;
      mret tt
  else mret tt.

(** ** [lib/fork.c] *)

Abbreviation PTE_COW := 0x800 (only parsing).
Abbreviation PTE_SHARED := 0x400 (only parsing).
Abbreviation PFTEMP := 0x7FF000 (only parsing).

(** A system call that must succeed. *)
Definition must (msg : string) (m : U Z) : U unit := r ← m; if r <? 0 then upanic msg else mret tt.

(** The page fault handler; the tests of the error code and of the entry are
    commented out. *)
Definition pgfault (fault_va err : Z) : U unit :=
  pte ← uvpt (PGNUM fault_va);
  let addr := ROUNDDOWN fault_va PGSIZE in
  must "error in pgfault after returning from sys_page_alloc" (lib_sys_page_alloc 0 PFTEMP (PTE_U .| PTE_P .| PTE_W)) ;;
  ucopy 1024 PFTEMP addr ;;
  must "error in pgfault after returning from sys_page_map" (lib_sys_page_map 0 PFTEMP 0 addr (PTE_U .| PTE_P .| PTE_W)) ;;
  must "error in pgfault after returning from sys_page_unmap" (lib_sys_page_unmap 0 PFTEMP).

Definition duppage (envid pn : Z) : U unit :=
  let va := u32 (pn * PGSIZE) in
  pte ← uvpt pn;
  if hasbits pte PTE_SHARED then
    must "duppage : sys_page_map error" (lib_sys_page_map 0 va envid va (pte .& PTE_SYSCALL))
  else if hasbits pte PTE_W || hasbits pte PTE_COW then
    let perm_w := PTE_P .| PTE_COW in
    must "duppage error : when calling sys_page_map" (lib_sys_page_map 0 va envid va (perm_w .| PTE_U .| PTE_P)) ;;
    must "duppage error: when calling sys_page_map" (lib_sys_page_map 0 va 0 va (perm_w .| PTE_U .| PTE_P))
  else must "duppage error : when calling sys_page_map" (lib_sys_page_map 0 va envid va (PTE_U .| PTE_P)).

(** [(uvpd[PDX(va)] & PTE_P) && (uvpt[PGNUM(va)] & PTE_P) && (uvpt[PGNUM(va)] & PTE_U)] *)
Definition user_page (va : Z) : U bool :=
  pde ← uvpd (PDX va);
  if negb (hasbits pde PTE_P) then mret false
  else pte ← uvpt (PGNUM va); mret (hasbits pte PTE_P && hasbits pte PTE_U).

Fixpoint fork_loop (n : nat) (va envid : Z) : U unit :=
  match n with
  | O => mret tt
  | S n' =>
      b ← user_page va;
      (if (b : bool) then duppage envid (PGNUM va) else mret tt) ;;
      fork_loop n' (u32 (va + PGSIZE)) envid
  end.

(** The parent's side of [fork]; the child starts with 0 in [%eax], sets
    [thisenv] and returns 0. *)
Definition fork (first : bool) (upcall : Z) : U Z :=
  set_pgfault_handler first upcall ;;
  envid ← lib_sys_exofork;
  if envid <? 0 then upanic "fork : sys_exofork error"
  else if envid =? 0 then mret 0
  else
    fork_loop (Z.to_nat (USTACKTOP / PGSIZE)) 0 envid ;;
    must "fork : sys_page_alloc failed." (lib_sys_page_alloc envid (UXSTACKTOP - PGSIZE) (PTE_U .| PTE_P .| PTE_W)) ;;
    up ← thisenv env_pgfault_upcall;
    must "sys_env_set_pgfault_upcall in fork()   error" (lib_sys_env_set_pgfault_upcall envid up) ;;
    must "sys_env_set_status in fork    error" (lib_sys_env_set_status envid 2) ;;
    mret envid.
