(* ===== verification/ForkSpec.v ===== *)
(** * Copy-on-write [fork] ([lib/fork.c] over the kernel)

    What [fork] and its page-fault handler do to the address spaces of the
    kernel, through the system calls and the page tables that user code reads
    at [UVPT]: the child gets every page of the parent, copy-on-write where it
    was writable, no contents change, and a fault on such a page gives the
    faulting environment a copy of its own. *)

From S2P Require Import Prelude Console LibString Mmu Printf E1000 Machine KernLib Spinlock PageAlloc PageTable Vm VmSpec UserMem Env EnvVm EnvInv EnvSpec Sched SchedSpec Syscall SyscallSpec UserAccess UserLib.

(** ** Steps *)

Lemma ubind_Ok {A B} (m : U A) (f : A -> U B) s a s' : m s = Ret (UOk a) s' -> (m ≫= f) s = f a s'.
Proof. intros E. unfold mbind, U_bind. by rewrite E. Qed.

Lemma ubind_Panic {A B} (m : U A) (f : A -> U B) s msg s' : m s = Ret (UPanic msg) s' -> (m ≫= f) s = Ret (UPanic msg) s'.
Proof. intros E. unfold mbind, U_bind. by rewrite E. Qed.

Tactic Notation "ustep" "by" tactic3(t) := (erewrite ubind_Ok; [|solve [t]]); cbv beta.

(** ** Access to memory in user mode *)

Lemma va_parts i j k :
  0 <= i < 1024 -> 0 <= j < 1024 -> 0 <= k < 1024 ->
  let va := (i * 1024 + j) * 4096 + 4 * k in PDX va = i /\ PTX va = j /\ PGOFF va = 4 * k.
Proof.
  intros Hi Hj Hk va. unfold va. rewrite PDX_div, PTX_div, PGOFF_mod. clear va.
  split_and!; Z.to_euclidean_division_equations; lia.
Qed.

(** The word at word [k] of the page that entry [j] of the table in entry [i]
    maps. *)
Lemma user_walk_run s d i j k t f q g wr :
  0 <= i < 1024 -> 0 <= j < 1024 -> 0 <= k < 1024 -> 0 <= f < 4096 -> 0 <= g < 4096 ->
  rdw (mem s) d i = t * 4096 + f -> rdw (mem s) t j = q * 4096 + g ->
  hasbits f PTE_P && hasbits f PTE_U && hasbits g PTE_P && hasbits g PTE_U = true ->
  (wr = true -> hasbits f PTE_W && hasbits g PTE_W = true) ->
  user_walk s (d * 4096) ((i * 1024 + j) * 4096 + 4 * k) wr = Some (q * 4096 + 4 * k).
Proof.
  intros Hi Hj Hk Hf Hg E1 E2 Hb Hw. destruct (va_parts i j k Hi Hj Hk) as (Ei & Ej & Ek).
  unfold user_walk, phys_read. rewrite Ei, PGNUM_word, widx_word, E1 by done.
  rewrite PTE_ADDR_page, Ej, PGNUM_word, widx_word, E2, Ek, PTE_ADDR_page by done. rewrite !hasbits_page by lia.
  rewrite !andb_true_iff in Hb. destruct Hb as [[[-> ->] ->] ->].
  destruct wr; [|done]. specialize (Hw eq_refl). apply andb_true_iff in Hw as [-> ->]. done.
Qed.

Lemma phys_word s q k : 0 <= k < 1024 -> phys_read s (q * 4096 + 4 * k) = rdw (mem s) q k.
Proof. intros. unfold phys_read. by rewrite PGNUM_word, widx_word. Qed.

Section Access.
  Context {s : kstate} {ds fl el : list Z} {kref : Z -> Z} {kd d : Z}.
  Context (H : sys_inv s ds fl el kref kd) (Hd : d ∈ ds) (Hcr : cpu_cr3 (thiscpu s) = d * 4096).

(** The page directory maps itself at [UVPT]. *)
Lemma uvpt_slot : rdw (mem s) d 957 = d * 4096 + 5.
  Proof using H Hd. rewrite (sy_kern _ _ _ _ _ _ H) by (done || unfold NUPDE; lia). done. Qed.

Lemma uvpd_run i : 0 <= i < NUPDE -> uvpd i s = Ret (UOk (pde_word (pt_page (mem s) d (i * 1024)))) s.
  Proof using H Hd Hcr.
    unfold NUPDE. intros Hi. unfold uvpd, uload. rewrite u32_small, Hcr by lia.
    replace (UVPD + 4 * i) with ((957 * 1024 + 957) * 4096 + 4 * i) by lia.
    rewrite (user_walk_run s d 957 957 i d 5 d 5) by (try apply uvpt_slot; try done; lia).
    rewrite phys_word by lia. by rewrite (vi_pde _ _ _ _ (sy_vm _ _ _ _ _ _ H)).
  Qed.

Lemma uvpt_run v t : 0 <= v < NUVPN -> pt_page (mem s) d v = Some t -> uvpt v s = Ret (UOk (pte_at (mem s) d v)) s.
  Proof using H Hd Hcr.
    intros Hv Ht. pose proof (vpn_pde v Hv) as Hi. unfold NUVPN, NUPDE in *. unfold uvpt, uload. rewrite u32_small, Hcr by lia.
    pose proof (Z.mod_pos_bound v 1024 ltac:(lia)).
    replace (UVPT + 4 * v) with ((957 * 1024 + v / 1024) * 4096 + 4 * (v mod 1024)) by (pose proof (Z.div_mod v 1024); lia).
    rewrite (user_walk_run s d 957 (v / 1024) (v mod 1024) d 5 t 7); try lia; try done.
    - rewrite phys_word by lia. unfold pte_at. by rewrite Ht.
    - apply uvpt_slot.
    - rewrite (vi_pde _ _ _ _ (sy_vm _ _ _ _ _ _ H)) by done. by rewrite <- pt_page_div, Ht.
  Qed.

(** A word of a page the environment has mapped for itself. *)
Lemma user_walk_data v k x wr :
    0 <= v < NUVPN -> 0 <= k < 1024 -> vmap (mem s) d v = Some x -> hasbits x PTE_U = true ->
    (wr = true -> hasbits x PTE_W = true) ->
    user_walk s (cpu_cr3 (thiscpu s)) (v * 4096 + 4 * k) wr = Some (PGNUM x * 4096 + 4 * k).
  Proof using H Hd Hcr.
    intros Hv Hk Hx Hu Hw. destruct (vmap_pt_page _ _ _ _ Hx) as [t Ht]. pose proof (vpn_pde v Hv) as Hi. unfold NUPDE in Hi.
    pose proof Hx as Hx'. unfold vmap in Hx'. rewrite Ht in Hx'. destruct (hasbits _ PTE_P) eqn:HP in Hx'; [|done].
    injection Hx' as Hx'. rewrite Hx' in HP.
    assert (Ex : x = PGNUM x * 4096 + x mod 4096) by (rewrite PGNUM_div; pose proof (Z.div_mod x 4096); lia).
    pose proof (Z.mod_pos_bound x 4096 ltac:(lia)). rewrite Hcr.
    replace (v * 4096) with ((v / 1024 * 1024 + v mod 1024) * 4096) by (pose proof (Z.div_mod v 1024); lia).
    apply (user_walk_run s d _ _ k t 7 (PGNUM x) (x mod 4096)); try lia.
    - apply Z.mod_pos_bound. lia.
    - rewrite (vi_pde _ _ _ _ (sy_vm _ _ _ _ _ _ H)) by done. by rewrite <- pt_page_div, Ht.
    - rewrite <- !hasbits_mod by done. by rewrite HP, Hu.
    - intros E. rewrite <- hasbits_mod by done. by rewrite Hw.
  Qed.
End Access.

(** ** References to mapped pages *)

(** The page a data slot of an abstract address space refers to. *)
Definition dtarget (A : aspace) (x : Vm.slot) : option Z :=
  match x with SData d v => PGNUM <$> A d v | _ => None end.

Definition refs (A : aspace) (ds : list Z) (q : Z) : Z := count (dtarget A) (slots ds) q.

Lemma count_iff {A} (f g : A -> option Z) l q :
  (forall x, x ∈ l -> f x = Some q <-> g x = Some q) -> count f l q = count g l q.
Proof.
  induction l as [|x l IH]; intros H; [done|]. rewrite !count_cons, IH by (intros y Hy; apply H; by apply list_elem_of_further).
  f_equal. unfold is_ref. apply decide_ext, H, list_elem_of_here.
Qed.

Lemma count_le {A} (f g : A -> option Z) l q :
  (forall x, x ∈ l -> f x = Some q -> g x = Some q) -> count f l q <= count g l q.
Proof.
  induction l as [|x l IH]; intros H; [done|]. rewrite !count_cons.
  assert (count f l q <= count g l q) by (apply IH; intros y Hy; apply H; by apply list_elem_of_further).
  specialize (H x (list_elem_of_here x l)). unfold is_ref. repeat case_decide; try lia. tauto.
Qed.

Lemma count_fmap {A B} (h : B -> A) (f : A -> option Z) l q : count f (h <$> l) q = count (λ x, f (h x)) l q.
Proof. induction l as [|x l IH]; [done|]. by rewrite fmap_cons, !count_cons, IH. Qed.

Lemma count_none {A} (f : A -> option Z) l q : (forall x, x ∈ l -> f x <> Some q) -> count f l q = 0.
Proof.
  induction l as [|x l IH]; intros H; [done|]. rewrite count_cons, IH by (intros y Hy; apply H; by apply list_elem_of_further).
  unfold is_ref. rewrite decide_False; [done|]. apply H, list_elem_of_here.
Qed.

Lemma refs_cons A d ds q : refs A (d :: ds) q = count (λ v, PGNUM <$> A d v) (seqZ 0 NUVPN) q + refs A ds q.
Proof.
  unfold refs. rewrite slots_cons, count_app. apply (f_equal2 Z.add); [|reflexivity]. rewrite count_cons, count_app, !count_fmap.
  rewrite (count_none (λ x, dtarget A (STable d x)) (seqZ 0 NUPDE)) by (intros ? _ E; discriminate E).
  cbn [dtarget]. rewrite is_ref_None, !Z.add_0_l. reflexivity.
Qed.

(** One address space holds at most all references. *)
Lemma refs_dir A d ds q : d ∈ ds -> count (λ v, PGNUM <$> A d v) (seqZ 0 NUVPN) q <= refs A ds q.
Proof.
  induction ds as [|d' ds IH]; intros Hd; [by apply not_elem_of_nil in Hd|]. rewrite refs_cons.
  apply elem_of_cons in Hd as [->|Hd].
  - pose proof (count_nonneg (dtarget A) (slots ds) q). unfold refs. lia.
  - pose proof (IH Hd). pose proof (count_nonneg (λ v, PGNUM <$> A d' v) (seqZ 0 NUVPN) q). lia.
Qed.

(** The count of a page outside the tables. *)
Lemma plain_refs s ds fl kref q :
  vm_inv s ds fl kref -> 0 <= q < npages s -> plain (mem s) ds q ->
  pp_ref (pg s q) = kref q + refs (view s) ds q.
Proof.
  intros H Hq Hp. rewrite (vi_ref _ _ _ _ H) by done. f_equal. apply count_iff. intros x Hx%elem_of_slots.
  destruct x as [d|d i|d v]; [split; [|done]..|done]; intros E; exfalso; by eapply Hp.
Qed.

Lemma refs_equiv A B ds q : as_equiv ds A B -> refs A ds q = refs B ds q.
Proof.
  intros H. apply count_ext. intros x Hx%elem_of_slots. destruct x as [| |d v]; [done..|]. destruct Hx. cbn [dtarget]. by rewrite H.
Qed.

(** The parent's directory [dp] and the directories [ds] map the pages they
    mapped in [A]; the child's [dc] maps only pages of the parent. *)
Definition shares (ds : list Z) (dp dc : Z) (A B : aspace) : Prop :=
  (forall d v, d ∈ ds -> 0 <= v < NUVPN -> PGNUM <$> B d v = PGNUM <$> A d v) /\
  (forall v y, 0 <= v < NUVPN -> B dc v = Some y -> PGNUM <$> A dp v = Some (PGNUM y)).

(** Sharing at most doubles the references. *)
Lemma shares_refs ds dp dc A B q :
  dp ∈ ds -> shares ds dp dc A B -> refs B (dc :: ds) q <= 2 * refs A ds q.
Proof.
  intros Hdp [H1 H2]. rewrite refs_cons.
  assert (refs B ds q = refs A ds q) as ->.
  { apply count_ext. intros x Hx%elem_of_slots. destruct x as [| |d v]; [done..|]. destruct Hx. by apply H1. }
  assert (count (λ v, PGNUM <$> B dc v) (seqZ 0 NUVPN) q <= count (λ v, PGNUM <$> A dp v) (seqZ 0 NUVPN) q).
  { apply count_le. intros v Hv%elem_of_seqZ E. apply fmap_Some in E as (y & E & ->). apply H2; [lia|done]. }
  pose proof (refs_dir A dp ds q Hdp). lia.
Qed.

(** ** System calls from user code *)

(** [m] is the stub of the system call [k], for calls that return at most 0. *)
Definition stub (m : U Z) (k : K Z) : Prop :=
  forall s r s', k s = Ret r s' -> -2147483648 <= r <= 0 -> m s = Ret (UOk r) s'.

Lemma usyscall_stub n check a1 a2 a3 a4 a5 :
  stub (usyscall n check a1 a2 a3 a4 a5) (syscall n (u32 a1) (u32 a2) (u32 a3) (u32 a4) (u32 a5)).
Proof.
  intros s r s' E Hr. unfold usyscall. rewrite E. cbv zeta.
  assert (s32 r = r) as -> by (unfold s32, u32; destruct (Z.ltb_spec (r mod 4294967296) 2147483648); Z.to_euclidean_division_equations; lia).
  destruct (Z.ltb_spec 0 r); [lia|]. by rewrite andb_false_r.
Qed.

Lemma s32_arg x : 0 <= x < 2147483648 -> s32 (u32 x) = x.
Proof.
  intros. rewrite u32_small by lia. unfold s32. rewrite u32_small by lia. destruct (Z.ltb_spec x 2147483648); lia.
Qed.

Section Stubs.
  Context (id va : Z) (Hid : 0 <= id < 2147483648) (Hva : 0 <= va < 4294967296).

Lemma stub_page_map sva perm :
    0 <= sva < 4294967296 -> 0 <= perm < 4096 -> stub (lib_sys_page_map 0 sva id va perm) (sys_page_map 0 sva id va perm).
  Proof using Hid Hva.
    intros Hs Hp. pose proof (usyscall_stub SYS_page_map true 0 sva id va perm) as T.
    unfold syscall in T. cbn [Z.eqb Pos.eqb] in T. by rewrite !s32_arg, !u32_small in T by lia.
  Qed.

Lemma stub_page_alloc perm : 0 <= perm < 4096 -> stub (lib_sys_page_alloc id va perm) (sys_page_alloc id va perm).
  Proof using Hid Hva.
    intros Hp. pose proof (usyscall_stub SYS_page_alloc true id va perm 0 0) as T.
    unfold syscall in T. cbn [Z.eqb Pos.eqb] in T. by rewrite !s32_arg, !u32_small in T by lia.
  Qed.

Lemma stub_page_unmap : stub (lib_sys_page_unmap id va) (sys_page_unmap id va).
  Proof using Hid Hva.
    pose proof (usyscall_stub SYS_page_unmap true id va 0 0 0) as T.
    unfold syscall in T. cbn [Z.eqb Pos.eqb] in T. by rewrite !s32_arg, !u32_small in T by lia.
  Qed.

Lemma stub_set_upcall : stub (lib_sys_env_set_pgfault_upcall id va) (sys_env_set_pgfault_upcall id va).
  Proof using Hid Hva.
    pose proof (usyscall_stub SYS_env_set_pgfault_upcall true id va 0 0 0) as T.
    unfold syscall in T. cbn [Z.eqb Pos.eqb] in T. by rewrite !s32_arg, !u32_small in T by lia.
  Qed.

Lemma stub_set_status st : 0 <= st < 2147483648 -> stub (lib_sys_env_set_status id st) (sys_env_set_status id st).
  Proof using Hid.
    intros Hst. pose proof (usyscall_stub SYS_env_set_status true id st 0 0 0) as T.
    unfold syscall in T. cbn [Z.eqb Pos.eqb] in T. by rewrite !s32_arg in T by lia.
  Qed.
End Stubs.

Lemma must_ok m k msg s s' : stub m k -> k s = Ret 0 s' -> must msg m s = Ret (UOk tt) s'.
Proof. intros Hs E. unfold must. by ustep by (apply Hs; [exact E|lia]). Qed.

Lemma must_fail m k msg s e s' : stub m k -> k s = Ret (- e) s' -> 0 < e < 100 -> must msg m s = Ret (UPanic msg) s'.
Proof.
  intros Hs E He. unfold must. ustep by (apply Hs; [exact E|lia]). destruct (Z.ltb_spec (- e) 0); [done|lia].
Qed.

(** ** Copying the address space *)

(** The entries [duppage] makes for an entry [x] of the parent: pages marked
    [PTE_SHARE] are shared, writable and copy-on-write pages become
    copy-on-write in both, other pages are read-only. *)
Definition is_cow (x : Z) : bool := negb (hasbits x PTE_SHARED) && (hasbits x PTE_W || hasbits x PTE_COW).

Definition child_entry (x : Z) : Z :=
  pte_value (PGNUM x)
    (if hasbits x PTE_SHARED then x .& PTE_SYSCALL else if is_cow x then PTE_P .| PTE_COW .| PTE_U .| PTE_P else PTE_U .| PTE_P).

Definition parent_entry (x : Z) : Z :=
  if is_cow x then pte_value (PGNUM x) (PTE_P .| PTE_COW .| PTE_U .| PTE_P) else x.

(** The address spaces when the first [n] pages are copied. *)
Definition fork_view (dp dc n : Z) (A : aspace) : aspace := λ d v,
  if v <? n then
    match A dp v with
    | Some x =>
        if negb (hasbits x PTE_U) then A d v
        else if decide (d = dc) then Some (child_entry x)
        else if decide (d = dp) then Some (parent_entry x)
        else A d v
    | None => A d v
    end
  else A d v.

Lemma perm_range_share x : 0 <= x .& PTE_SYSCALL < 4096.
Proof.
  assert (E : (x .& PTE_SYSCALL) .& Z.lnot PTE_SYSCALL = 0) by (rewrite <- Z.land_assoc; apply Z.land_0_r).
  pose proof (perm_subset _ PTE_SYSCALL ltac:(done) E) as T. change PTE_SYSCALL with 3591 in T |- *. lia.
Qed.

Lemma PGNUM_child_entry x : PGNUM (child_entry x) = PGNUM x.
Proof.
  unfold child_entry. apply PGNUM_pte_value. pose proof (perm_range_share x). destruct (hasbits x PTE_SHARED); [done|].
  destruct (is_cow x); done.
Qed.

Lemma PGNUM_parent_entry x : PGNUM (parent_entry x) = PGNUM x.
Proof. unfold parent_entry. destruct (is_cow x); [by apply PGNUM_pte_value|done]. Qed.

Lemma vpn_addr v : 0 <= v < NUVPN -> 0 <= v * 4096 < 4294967296 /\ u32 (v * PGSIZE) = v * 4096 /\
  PGNUM (v * 4096) = v /\ bad_va (v * 4096) = false.
Proof.
  unfold NUVPN. intros Hv. split; [lia|]. split; [rewrite u32_small; lia|]. split; [rewrite PGNUM_div; by apply Z.div_mul|].
  unfold bad_va. rewrite Z.mod_mul by done. destruct (Z.leb_spec UTOP (v * 4096)); [lia|done].
Qed.

(** The pages below [USTACKTOP], and the page of the exception stack. *)
Definition NSTACK : Z := 977918.
Definition XPAGE : Z := 977919.

Lemma live_id_range s ds fl el kref kd i :
  sys_inv s ds fl el kref kd -> 0 <= i < NENV -> live (env s i) -> 0 < env_id (env s i) < 2147483648.
Proof.
  intros H Hi Hl. destruct (sy_id _ _ _ _ _ _ H i Hi) as [[E|(g & Hg & E)] Hn]; [by apply Hn in Hl|].
  rewrite E. unfold env_gen_id, NGEN in *. lia.
Qed.

Lemma exofork_stub s x s' : sys_exofork s = Ret x s' -> -2147483648 <= x < 2147483648 -> lib_sys_exofork s = Ret (UOk x) s'.
Proof.
  intros E Hx. unfold lib_sys_exofork, usyscall, syscall. cbn [Z.eqb Pos.eqb]. rewrite E. cbn [andb].
  f_equal. f_equal. unfold s32, u32. destruct (Z.ltb_spec (x mod 4294967296) 2147483648); Z.to_euclidean_division_equations; lia.
Qed.

Lemma thisenv_run {A} (f : Env -> A) s c : caller s c -> thisenv f s = Ret (UOk (f (env s c))) s.
Proof. intros (Hcur & _). unfold thisenv. by rewrite Hcur. Qed.

(** A system call that updates one environment. *)
Lemma set_upcall_run s ds fl el kref kd c id e f :
  sys_inv s ds fl el kref kd -> caller s c -> permitted s c id e -> 0 <= id < 2147483648 -> 0 <= f < 4294967296 ->
  lib_sys_env_set_pgfault_upcall id f s = Ret (UOk 0) (upd_env e (set_env_pgfault_upcall f) s).
Proof.
  intros H Hc Hp Hid Hf. apply stub_set_upcall; [done..| |done]. unfold sys_env_set_pgfault_upcall.
  by rewrite (with_env_permitted H Hc _ e) by done.
Qed.

Lemma set_runnable_run s ds fl el kref kd c id e :
  sys_inv s ds fl el kref kd -> caller s c -> permitted s c id e -> 0 <= id < 2147483648 ->
  lib_sys_env_set_status id 2 s = Ret (UOk 0) (upd_env e (set_env_status ENV_RUNNABLE) s).
Proof.
  intros H Hc Hp Hid. apply stub_set_status; [done..| |done]. unfold sys_env_set_status.
  by rewrite (with_env_permitted H Hc _ e) by done.
Qed.

(** What [fork] makes of [s]: [s'], with the child in slot [e] and directory
    [dc]; [q] is the page of its exception stack. *)
Record fork_result (s : kstate) (ds : list Z) (c dp e dc q : Z) (s' : kstate) : Prop := {
  fk_parent : forall v, 0 <= v < NUVPN ->
    view s' dp v = (λ x, if (v <? NSTACK) && hasbits x PTE_U then parent_entry x else x) <$> view s dp v;
  fk_child : forall v, 0 <= v < NUVPN ->
    view s' dc v =
      if decide (v = XPAGE) then Some (pte_value q (PTE_U .| PTE_P .| PTE_W))
      else x ← view s dp v; if (v <? NSTACK) && hasbits x PTE_U then Some (child_entry x) else None;
  fk_others : forall d v, d ∈ ds -> d <> dp -> 0 <= v < NUVPN -> view s' d v = view s d v;
  fk_contents : forall d v x k, d ∈ ds -> 0 <= v < NUVPN -> view s d v = Some x ->
    PGNUM x <> q /\ rdw (mem s') (PGNUM x) k = rdw (mem s) (PGNUM x) k;
  fk_xstack : forall k, rdw (mem s') q k = 0;
  fk_env : env_status (env s' e) = ENV_RUNNABLE /\ env_parent_id (env s' e) = env_id (env s c) /\
    env_pgdir (env s' e) = kptr dc 0 /\ env_pgfault_upcall (env s' e) = env_pgfault_upcall (env s c) /\
    env_tf (env s' e) = set_tf_regs (set_reg_eax 0 (tf_regs (env_tf (env s c)))) (env_tf (env s c));
  fk_envs : forall i, i <> e -> env s' i = env s i
}.

(** At most one page is free. *)
Definition starved (s : kstate) (ds el : list Z) (kref : Z -> Z) (kd : Z) : Prop :=
  exists fl, sys_inv s ds fl el kref kd /\ (length fl <= 1)%nat.

Section Copy.
  Context {s0 : kstate} {ds el : list Z} {kref : Z -> Z} {kd c e dp dc id : Z}.
  Context (Hc : caller s0 c) (Hdp : dp ∈ ds) (Hpg : env_pgdir (env s0 c) = kptr dp 0) (Hcr : cpu_cr3 (thiscpu s0) = dp * 4096).
  Context (Hid : 0 <= id < 2147483648) (Hperm : permitted s0 c id e) (Hpge : env_pgdir (env s0 e) = kptr dc 0).
  Context (Hne : dp <> dc) (Hnew : forall v, 0 <= v < NUVPN -> view s0 dc v = None).
  Context (Hrefs : forall v x, 0 <= v < NUVPN -> view s0 dp v = Some x ->
             kref (PGNUM x) + 2 * refs (view s0) ds (PGNUM x) < 65535).

(** The contents of all mapped pages are those of [s0]. *)
Definition contents (s : kstate) : Prop :=
  forall d v x k, d ∈ ds -> 0 <= v < NUVPN -> view s0 d v = Some x -> rdw (mem s) (PGNUM x) k = rdw (mem s0) (PGNUM x) k.

Definition copying (s : kstate) : Prop :=
  (exists fl, sys_inv s (dc :: ds) fl el kref kd) /\ vm_frame s0 s /\ shares ds dp dc (view s0) (view s) /\ contents s.

Lemma shares_update s v x y dd B :
    shares ds dp dc (view s0) (view s) -> 0 <= v < NUVPN -> view s dp v = Some x -> PGNUM y = PGNUM x ->
    dd = dp \/ dd = dc -> dc ∉ ds -> as_equiv (dc :: ds) B (as_update (view s) dd v (Some y)) ->
    shares ds dp dc (view s0) B.
  Proof using Hdp Hne.
    intros [S1 S2] Hv Hx Hy Hdd Hdc HB. split.
    - intros d u Hd Hu. rewrite HB by (done || by apply list_elem_of_further). unfold as_update.
      case_decide as E; [|by apply S1]. injection E as -> ->. destruct Hdd as [->| ->]; [|done].
      rewrite <- (S1 dp v Hdp Hv), Hx. simpl. by rewrite Hy.
    - intros u z Hu. rewrite HB by (done || apply list_elem_of_here). unfold as_update.
      case_decide as E; [|by apply S2]. injection E as <- <-. intros [= <-].
      rewrite <- (S1 dp u Hdp Hv), Hx. simpl. by rewrite Hy.
  Qed.

Lemma copying_caller s : copying s -> caller s c /\ cpu_cr3 (thiscpu s) = dp * 4096 /\
    permitted s c 0 c /\ permitted s c id e /\ env_pgdir (env s c) = kptr dp 0 /\ env_pgdir (env s e) = kptr dc 0.
  Proof using Hc Hpg Hcr Hperm Hpge.
    intros (_ & Hf & _). pose proof (frame_caller _ _ _ Hf Hc) as Hcs. unfold permitted.
    rewrite !(frame_env _ _ _ Hf), (vf_cr3 _ _ Hf). pose proof Hcs as (_ & ? & Hl).
    rewrite (frame_env _ _ _ Hf) in Hl.
    split; [done|]. split; [done|]. split; [split; [done|split; [done|by left]]|]. done.
  Qed.

Lemma copying_dc s : copying s -> dc ∉ ds.
  Proof. intros ((fl & H) & _). by apply list.NoDup_cons, (vi_nodup _ _ _ _ (sy_vm _ _ _ _ _ _ H)). Qed.

(** The pages of [s0] are still mapped. *)
Lemma copying_frame s d v x :
    copying s -> d ∈ ds -> 0 <= v < NUVPN -> view s0 d v = Some x ->
    exists y, view s d v = Some y /\ PGNUM y = PGNUM x.
  Proof. intros (_ & _ & [S _] & _) Hd Hv Hx. specialize (S d v Hd Hv). rewrite Hx in S. by apply fmap_Some in S as (y & ? & ?); exists y. Qed.

(** One call of [sys_page_map] for page [v] of the parent. *)
Lemma map_step s v x perm dstid dst dd msg :
    copying s -> 0 <= v < NUVPN -> view s dp v = Some x -> 0 <= perm < 4096 ->
    (dstid, dst, dd) = (id, e, dc) \/ (dstid, dst, dd) = (0, c, dp) ->
    must msg (lib_sys_page_map 0 (v * 4096) dstid (v * 4096) perm) s = Ret (UPanic msg) s /\ starved s (dc :: ds) el kref kd \/
    exists s', must msg (lib_sys_page_map 0 (v * 4096) dstid (v * 4096) perm) s = Ret (UOk tt) s' /\ copying s' /\
      as_equiv (dc :: ds) (view s') (as_update (view s) dd v (Some (pte_value (PGNUM x) perm))).
  Proof using All.
    intros Hs Hv Hx Hp Hdst. destruct (copying_caller s Hs) as (Hcs & Hcr' & Hp0 & Hpe & Hpgc & Hpge').
    pose proof (copying_dc s Hs) as Hdc. pose proof Hs as ((fl & H) & Hf & Hsh & Hct).
    destruct (vpn_addr v Hv) as (Hva & _ & Epn & Ebad).
    assert (Hpd : permitted s c dstid dst /\ 0 <= dstid < 2147483648 /\ env_pgdir (env s dst) = kptr dd 0 /\ (dd = dp \/ dd = dc)).
    { destruct Hdst as [E|E]; injection E as -> -> ->; split_and!; auto; lia. }
    destruct Hpd as (Hpd & Hdid & Hpgd & Hdd). assert (Hdin : dp ∈ dc :: ds) by (by apply list_elem_of_further).
    assert (Hr : pp_ref (pg s (PGNUM x)) < 65535).
    { destruct (mapped_page _ _ _ _ _ _ _ (sy_vm _ _ _ _ _ _ H) Hdin Hv Hx) as (Hq & _ & Hpl).
      rewrite (plain_refs _ _ _ _ _ (sy_vm _ _ _ _ _ _ H) Hq Hpl).
      pose proof (shares_refs ds dp dc _ _ (PGNUM x) Hdp Hsh). pose proof (proj1 Hsh dp v Hdp Hv) as E. rewrite Hx in E.
      symmetry in E. apply fmap_Some in E as (y & Hy & Ey). rewrite Ey in *. pose proof (Hrefs v y Hv Hy). lia. }
    pose proof (sys_page_map_run s _ fl el kref kd c 0 c (v * 4096) dstid dst (v * 4096) perm dp H Hcs Hp0 Hpd Hva Hva Hp Hpgc) as T.
    rewrite Epn, Ebad in T. unfold view in Hx. rewrite Hx in T. cbn [orb] in T.
    destruct T as [[T ->]|(s' & fl' & d' & Hd' & T & H' & Hf' & Hm & Hu)].
    - by destruct (vmap_pt_page _ _ _ _ Hx) as [t Ht]; exists t.
    - by intros ? [= <-].
    - left. split; [|exists []; split; [done|simpl; lia]]. eapply must_fail; [by apply stub_page_map|exact T|done].
    - right. rewrite Hpgd in Hd'. apply kptr_inj in Hd' as <-. exists s'.
      split; [eapply must_ok; [by apply stub_page_map|exact T]|]. split; [|done]. split; [by exists fl'|].
      split; [by etransitivity|]. split; [apply (shares_update s v x (pte_value (PGNUM x) perm) dd); try done; by apply PGNUM_pte_value|].
      intros d u y k Hd Hu' Hy. destruct (copying_frame s d u y Hs Hd Hu' Hy) as (z & Hz & Ez).
      destruct (mapped_page _ _ _ _ _ _ _ (sy_vm _ _ _ _ _ _ H) (list_elem_of_further _ dc _ Hd) Hu' Hz) as (_ & Hnf & Hpl).
      destruct Hm as [Hm _]. rewrite <- (Hct d u y k Hd Hu' Hy), <- Ez. by apply Hm.
  Qed.

Lemma view_pte_at s v x : view s dp v = Some x -> pte_at (mem s) dp v = x.
  Proof. unfold view. rewrite vmap_pte_at. destruct (hasbits _ _); [|done]. by intros [= <-]. Qed.

Lemma as_update_same A d v o : A d v = o -> as_equiv (dc :: ds) (as_update A d v o) A.
  Proof. intros E d' v' _ _. unfold as_update. case_decide as E'; [|done]. by injection E' as -> ->. Qed.

(** [duppage] for a page of the parent. *)
Lemma duppage_run s v x :
    copying s -> 0 <= v < NUVPN -> view s dp v = Some x ->
    exists r s', duppage id v s = Ret r s' /\ copying s' /\
      ((exists msg, r = UPanic msg /\ starved s' (dc :: ds) el kref kd) \/ r = UOk tt /\
       as_equiv (dc :: ds) (view s')
         (as_update (as_update (view s) dc v (Some (child_entry x))) dp v (Some (parent_entry x)))).
  Proof using All.
    intros Hs Hv Hx. destruct (copying_caller s Hs) as (_ & Hcr' & _). pose proof Hs as ((fl & H) & _).
    assert (Hdin : dp ∈ dc :: ds) by (by apply list_elem_of_further). destruct (vmap_pt_page _ _ _ _ Hx) as [t Ht].
    destruct (vpn_addr v Hv) as (_ & Eva & _). unfold duppage. rewrite Eva.
    ustep by (by apply (uvpt_run H Hdin Hcr' v t)). rewrite (view_pte_at s v x Hx).
    assert (Hone : forall perm msg, 0 <= perm < 4096 -> child_entry x = pte_value (PGNUM x) perm -> is_cow x = false ->
      exists r s', must msg (lib_sys_page_map 0 (v * 4096) id (v * 4096) perm) s = Ret r s' /\ copying s' /\
      ((exists msg, r = UPanic msg /\ starved s' (dc :: ds) el kref kd) \/ r = UOk tt /\
       as_equiv (dc :: ds) (view s')
         (as_update (as_update (view s) dc v (Some (child_entry x))) dp v (Some (parent_entry x))))).
    { intros perm msg Hp Ec Hcow. destruct (map_step s v x perm id e dc msg Hs Hv Hx Hp (or_introl eq_refl)) as [[E Hst]|(s' & E & Hs' & Hu)].
      - exists (UPanic msg), s. split; [exact E|]. split; [done|]. left. by exists msg.
      - exists (UOk tt), s'. split; [exact E|]. split; [done|]. right. split; [done|]. rewrite Hu, <- Ec.
        symmetry. apply as_update_same. unfold as_update, parent_entry. rewrite decide_False, Hcow by congruence. done. }
    unfold child_entry, is_cow in *. destruct (hasbits x PTE_SHARED) eqn:Esh; [apply Hone; [apply perm_range_share|done..]|].
    cbn [negb andb] in *. destruct (hasbits x PTE_W || hasbits x PTE_COW) eqn:Ew; [|by apply Hone].
    cbv zeta. set (pm := PTE_P .| PTE_COW .| PTE_U .| PTE_P).
    destruct (map_step s v x pm id e dc "duppage error : when calling sys_page_map" Hs Hv Hx ltac:(done) (or_introl eq_refl)) as [[E Hst]|(s1 & E & Hs1 & Hu1)].
    { eexists _, s. split; [eapply ubind_Panic, E|]. split; [done|]. left. eauto. }
    assert (Hx1 : view s1 dp v = Some x) by (rewrite Hu1 by done; unfold as_update; rewrite decide_False by congruence; done).
    destruct (map_step s1 v x pm 0 c dp "duppage error: when calling sys_page_map" Hs1 Hv Hx1 ltac:(done) (or_intror eq_refl)) as [[E2 Hst]|(s2 & E2 & Hs2 & Hu2)].
    - eexists _, s1. split; [ustep by exact E; exact E2|]. split; [done|]. left. eauto.
    - exists (UOk tt), s2. split; [ustep by exact E; exact E2|]. split; [done|]. right. split; [done|].
      rewrite Hu2, Hu1. unfold parent_entry, is_cow. rewrite Esh, Ew. done.
  Qed.

Lemma user_page_run s v :
    copying s -> 0 <= v < NUVPN ->
    user_page (v * 4096) s = Ret (UOk (match view s dp v with Some x => hasbits x PTE_U | None => false end)) s.
  Proof using Hc Hdp Hpg Hcr Hperm Hpge.
    intros Hs Hv. destruct (copying_caller s Hs) as (_ & Hcr' & _). pose proof Hs as ((fl & H) & _).
    assert (Hdin : dp ∈ dc :: ds) by (by apply list_elem_of_further). destruct (vpn_addr v Hv) as (Hva & _ & Epn & _).
    unfold user_page. rewrite PDX_of_PGNUM, Epn by done. ustep by (apply (uvpd_run H Hdin Hcr'); by apply vpn_pde).
    rewrite <- pt_page_div. unfold view. rewrite vmap_pte_at. destruct (pt_page (mem s) dp v) as [t|] eqn:Ht.
    - unfold pde_word. rewrite hasbits_page by lia. cbn [negb]. change (negb (hasbits 7 PTE_P)) with false. cbv iota.
      ustep by (by apply (uvpt_run H Hdin Hcr' v t)). by destruct (hasbits _ PTE_P).
    - unfold pte_at. by rewrite Ht, !hasbits_0.
  Qed.

(** One page more is copied. *)
Lemma fork_view_step n x :
    dc ∉ ds -> 0 <= n < NUVPN -> view s0 dp n = Some x -> hasbits x PTE_U = true ->
    as_equiv (dc :: ds) (fork_view dp dc (n + 1) (view s0))
      (as_update (as_update (fork_view dp dc n (view s0)) dc n (Some (child_entry x))) dp n (Some (parent_entry x))).
  Proof using Hdp Hne.
    intros Hdc Hn Hx Hu d v Hd Hv. unfold as_update, fork_view. destruct (Z.ltb_spec v (n + 1)), (Z.ltb_spec v n); try lia.
    - rewrite !decide_False by (intros E; injection E as -> ->; lia). done.
    - assert (v = n) as -> by lia. rewrite Hx, Hu. cbn [negb].
      destruct (decide (d = dc)) as [->|Hd1]; [rewrite decide_False, decide_True by congruence; done|].
      destruct (decide (d = dp)) as [->|Hd2]; [by rewrite decide_True|]. rewrite !decide_False by congruence. done.
    - rewrite !decide_False by (intros E; injection E as -> ->; lia). done.
  Qed.

Lemma fork_view_skip n :
    (forall x, view s0 dp n = Some x -> hasbits x PTE_U = false) ->
    as_equiv (dc :: ds) (fork_view dp dc (n + 1) (view s0)) (fork_view dp dc n (view s0)).
  Proof.
    intros Hn d v Hd Hv. unfold fork_view. destruct (Z.ltb_spec v (n + 1)), (Z.ltb_spec v n); try lia; try done.
    assert (v = n) as -> by lia. destruct (view s0 dp n) as [x|]; [|done]. by rewrite (Hn x).
  Qed.

Lemma fork_loop_run k n s :
    copying s -> as_equiv (dc :: ds) (view s) (fork_view dp dc n (view s0)) -> 0 <= n -> n + Z.of_nat k <= NUVPN ->
    exists r s', fork_loop k (n * 4096) id s = Ret r s' /\ copying s' /\
      ((exists msg, r = UPanic msg /\ starved s' (dc :: ds) el kref kd) \/ r = UOk tt /\
       as_equiv (dc :: ds) (view s') (fork_view dp dc (n + Z.of_nat k) (view s0))).
  Proof using All.
    revert n s. induction k as [|k IH]; intros n s Hs Hv H0 Hk.
    { exists (UOk tt), s. split; [done|]. split; [done|]. right. split; [done|]. by replace (n + Z.of_nat 0) with n by lia. }
    assert (Hn : 0 <= n < NUVPN) by lia. pose proof (copying_dc s Hs) as Hdc.
    assert (Hx : view s dp n = view s0 dp n).
    { rewrite Hv by (done || by apply list_elem_of_further). unfold fork_view. destruct (Z.ltb_spec n n); [lia|done]. }
    destruct (vpn_addr n Hn) as (Hva & _ & Epn & _). cbn [fork_loop]. ustep by (by apply user_page_run). rewrite Epn, Hx.
    replace (u32 (n * 4096 + PGSIZE)) with ((n + 1) * 4096) by (unfold NUVPN in *; rewrite u32_small; lia).
    replace (n + Z.of_nat (S k)) with (n + 1 + Z.of_nat k) by lia.
    destruct (match view s0 dp n with Some x => hasbits x PTE_U | None => false end) eqn:Eu.
    - destruct (view s0 dp n) as [x|] eqn:Ex; [|done].
      destruct (duppage_run s n x Hs Hn Hx) as (r & s1 & E & Hs1 & [(msg & -> & Hst)|[-> Hu]]).
      + exists (UPanic msg), s1. split; [by eapply ubind_Panic|]. split; [done|]. left. by exists msg.
      + ustep by exact E. apply IH; [done| |lia..]. rewrite Hu, Hv. symmetry. by apply fork_view_step.
    - ustep by reflexivity. apply IH; [done| |lia..]. rewrite Hv. symmetry. apply fork_view_skip.
      intros x Ex. by rewrite Ex in Eu.
  Qed.

(** The end of [fork], once the pages are copied. *)
Lemma fork_finish_run s m1 m2 m3 :
    copying s -> c <> e -> 0 <= env_pgfault_upcall (env s0 c) < 4294967296 ->
    exists r s', (must m1 (lib_sys_page_alloc id (UXSTACKTOP - PGSIZE) (PTE_U .| PTE_P .| PTE_W)) ;;
        up ← thisenv env_pgfault_upcall;
        must m2 (lib_sys_env_set_pgfault_upcall id up) ;;
        must m3 (lib_sys_env_set_status id 2) ;; mret id) s = Ret r s' /\
      ((exists msg, r = UPanic msg /\ starved s' (dc :: ds) el kref kd) \/ r = UOk id /\ exists fl q, sys_inv s' (dc :: ds) fl el kref kd /\
        as_equiv (dc :: ds) (view s') (as_update (view s) dc XPAGE (Some (pte_value q (PTE_U .| PTE_P .| PTE_W)))) /\
        (forall k, rdw (mem s') q k = 0) /\
        (forall d v x k, d ∈ ds -> 0 <= v < NUVPN -> view s0 d v = Some x ->
           PGNUM x <> q /\ rdw (mem s') (PGNUM x) k = rdw (mem s0) (PGNUM x) k) /\
        env s' e = set_env_status ENV_RUNNABLE (set_env_pgfault_upcall (env_pgfault_upcall (env s0 c)) (env s0 e)) /\
        forall i, i <> e -> env s' i = env s0 i).
  Proof using All.
    intros Hs Hce Hup. destruct (copying_caller s Hs) as (Hcs & _ & _ & Hpe & _ & Hpge').
    pose proof Hs as ((fl & H) & Hf & _ & Hct).
    pose proof (sys_page_alloc_run s _ fl el kref kd c id e (UXSTACKTOP - PGSIZE) (PTE_U .| PTE_P .| PTE_W) H Hcs Hpe ltac:(done)) as T.
    change (bad_va (UXSTACKTOP - PGSIZE) || _) with false in T. cbv iota in T.
    destruct T as (s3 & fl3 & H3 & Hf3 & Hm3 & [(E & _ & -> & Hl)|(d & q & Hd & Hq & E & Hu & Hz)]).
    { exists (UPanic m1), s3. split; [|left; exists m1; split; [done|by exists fl]]. eapply ubind_Panic, must_fail; [by apply stub_page_alloc|exact E|done]. }
    rewrite Hpge' in Hd. apply kptr_inj in Hd as <-.
    assert (Hf03 : vm_frame s0 s3) by (by etransitivity). pose proof (frame_caller _ _ _ Hf03 Hc) as Hc3.
    assert (Hp3 : permitted s3 c id e) by (unfold permitted in *; by rewrite !(frame_env _ _ _ Hf03)).
    assert (Ec3 : env s3 c = env s0 c) by apply (frame_env _ _ _ Hf03).
    assert (Hle : live (env s3 e)) by apply Hp3. assert (Her : 0 <= e < NENV) by apply Hp3.
    set (s4 := upd_env e (set_env_pgfault_upcall (env_pgfault_upcall (env s0 c))) s3).
    assert (H4 : sys_inv s4 (dc :: ds) fl3 el kref kd) by (by apply upd_env_inv).
    assert (Ee4 : env s4 e = set_env_pgfault_upcall (env_pgfault_upcall (env s0 c)) (env s0 e)).
    { unfold s4. by rewrite env_upd_eq, (frame_env _ _ _ Hf03). }
    assert (Hoth : forall i, i <> e -> env s4 i = env s0 i).
    { intros i Hi. unfold s4. by rewrite env_upd_ne, (frame_env _ _ _ Hf03) by congruence. }
    assert (Hc4 : caller s4 c).
    { destruct Hc3 as (? & ? & ?). split; [done|]. split; [done|]. by rewrite Hoth, <- Ec3. }
    assert (Hp4 : permitted s4 c id e).
    { unfold permitted in Hperm |- *. by rewrite Ee4, (Hoth c Hce). }
    exists (UOk id), (upd_env e (set_env_status ENV_RUNNABLE) s4). split.
    { ustep by (eapply must_ok; [by apply stub_page_alloc|exact E]). ustep by (by apply thisenv_run). rewrite Ec3. ustep by (unfold must; ustep by (by eapply set_upcall_run); done). fold s4.
      ustep by (unfold must; ustep by (by eapply set_runnable_run); done). done. }
    right. split; [done|]. exists fl3, q. split; [apply upd_env_inv; try done; apply Hp4|].
    split; [exact Hu|]. split; [exact Hz|]. split; [|split].
    - intros d v x k Hd Hv Hx. destruct (copying_frame s d v x Hs Hd Hv Hx) as (y & Hy & Ey).
      destruct (mapped_page _ _ _ _ _ _ _ (sy_vm _ _ _ _ _ _ H) (list_elem_of_further _ dc _ Hd) Hv Hy) as (_ & Hnf & Hpl).
      rewrite Ey in *. split; [intros Eq; by rewrite Eq in Hnf|]. rewrite <- (Hct d v x k Hd Hv Hx). exact (proj1 Hm3 _ k Hpl Hnf).
    - by rewrite env_upd_eq, Ee4.
    - intros i Hi. by rewrite env_upd_ne, Hoth by congruence.
  Qed.
End Copy.

(** The address spaces at the end of [fork]. *)
Lemma fork_views ds dp dc o (A A1 B : aspace) :
  dp ∈ ds -> dc ∉ ds -> as_equiv ds A1 A -> (forall v, 0 <= v < NUVPN -> A1 dc v = None) ->
  as_equiv (dc :: ds) B (as_update (fork_view dp dc NSTACK A1) dc XPAGE o) ->
  (forall v, 0 <= v < NUVPN ->
    B dp v = (λ x, if (v <? NSTACK) && hasbits x PTE_U then parent_entry x else x) <$> A dp v) /\
  (forall v, 0 <= v < NUVPN ->
    B dc v = if decide (v = XPAGE) then o
             else x ← A dp v; if (v <? NSTACK) && hasbits x PTE_U then Some (child_entry x) else None) /\
  (forall d v, d ∈ ds -> d <> dp -> 0 <= v < NUVPN -> B d v = A d v).
Proof.
  intros Hdp Hdc HA Hnew HB. assert (Hne : dp <> dc) by congruence. split_and!.
  - intros v Hv. rewrite HB by (done || by apply list_elem_of_further). unfold as_update. rewrite decide_False by congruence.
    unfold fork_view. rewrite (HA dp v Hdp Hv). destruct (A dp v) as [x|]; cbn [fmap option_fmap option_map]; [|by destruct (v <? NSTACK)].
    destruct (v <? NSTACK); [|done]. destruct (hasbits x PTE_U); cbn [negb andb]; [|done].
    by rewrite decide_False, decide_True.
  - intros v Hv. rewrite HB by (done || apply list_elem_of_here). unfold as_update.
    destruct (decide (v = XPAGE)) as [->|Hx]; [by rewrite decide_True|]. rewrite decide_False by congruence.
    unfold fork_view. rewrite (Hnew v Hv), (HA dp v Hdp Hv). destruct (A dp v) as [x|]; cbn [mbind option_bind]; [|by destruct (v <? NSTACK)].
    destruct (v <? NSTACK); [|done]. destruct (hasbits x PTE_U); cbn [negb andb]; [|done]. by rewrite decide_True.
  - intros d v Hd Hn Hv. rewrite HB by (done || by apply list_elem_of_further). unfold as_update.
    rewrite decide_False by congruence. unfold fork_view. rewrite (HA d v Hd Hv), (HA dp v Hdp Hv).
    destruct (v <? NSTACK); [|done]. destruct (A dp v) as [x|]; [|done]. destruct (hasbits x PTE_U); cbn [negb]; [|done].
    rewrite !decide_False by congruence. done.
Qed.

Lemma fork_pages : Z.of_nat (Z.to_nat (USTACKTOP / PGSIZE)) = NSTACK.
Proof. rewrite Z2Nat.id; [reflexivity|discriminate]. Qed.

Lemma fork_view_0 ds dp dc (A : aspace) : as_equiv ds A (fork_view dp dc 0 A).
Proof. intros d v _ Hv. unfold fork_view. destruct (Z.ltb_spec v 0); [lia|done]. Qed.

(** The bound on the references while the address space is copied. *)
Lemma refs_bound s ds fl kref dp (A : aspace) v x :
  vm_inv s ds fl kref -> dp ∈ ds -> as_equiv ds A (view s) -> 0 <= v < NUVPN -> A dp v = Some x ->
  pp_ref (pg s (PGNUM x)) <= 32767 -> kref (PGNUM x) + 2 * refs A ds (PGNUM x) < 65535.
Proof.
  intros H Hdp HA Hv Hx Hle. rewrite HA in Hx by done. rewrite (refs_equiv _ _ _ _ HA).
  destruct (mapped_page _ _ _ _ _ _ _ H Hdp Hv Hx) as (Hq & _ & Hpl). rewrite (plain_refs _ _ _ _ _ H Hq Hpl) in Hle.
  pose proof (vi_kref _ _ _ _ H (PGNUM x)). lia.
Qed.

(** The state in which the parent starts to copy: [s1] after [sys_exofork]
    from [s], with the child in slot [e]. *)
Record fork_start (s : kstate) (ds el : list Z) (kref : Z -> Z) (kd c dp e dc : Z) (s1 : kstate) : Prop := {
  fs_caller : caller s1 c;
  fs_dp : dp ∈ ds;
  fs_pgdir : env_pgdir (env s1 c) = kptr dp 0;
  fs_cr3 : cpu_cr3 (thiscpu s1) = dp * 4096;
  fs_id : 0 < env_id (env s1 e) < 2147483648;
  fs_permitted : permitted s1 c (env_id (env s1 e)) e;
  fs_child : env_pgdir (env s1 e) = kptr dc 0;
  fs_ne : dp <> dc;
  fs_new : forall v, 0 <= v < NUVPN -> view s1 dc v = None;
  fs_old : as_equiv ds (view s1) (view s);
  fs_refs : forall v x, 0 <= v < NUVPN -> view s1 dp v = Some x ->
    kref (PGNUM x) + 2 * refs (view s1) ds (PGNUM x) < 65535;
  fs_copying : @copying s1 ds el kref kd dp dc s1;
  fs_mem : forall q k, q <> dc -> rdw (mem s1) q k = rdw (mem s) q k;
  fs_env : c <> e /\ env_parent_id (env s1 e) = env_id (env s c) /\
    env_tf (env s1 e) = set_tf_regs (set_reg_eax 0 (tf_regs (env_tf (env s c)))) (env_tf (env s c));
  fs_envs : forall i, i <> e -> env s1 i = env s i
}.

Lemma exofork_start s ds fl el kref kd c dp :
  sys_inv s ds fl el kref kd -> caller s c -> env_pgdir (env s c) = kptr dp 0 -> cpu_cr3 (thiscpu s) = dp * 4096 ->
  (forall v x, 0 <= v < NUVPN -> view s dp v = Some x -> pp_ref (pg s (PGNUM x)) <= 32767) ->
  (exists r, lib_sys_exofork s = Ret (UOk r) s /\ r < 0 /\ (el = [] \/ fl = [])) \/
  exists s1 e el' dc, el = e :: el' /\ lib_sys_exofork s = Ret (UOk (env_id (env s1 e))) s1 /\
    fork_start s ds el' kref kd c dp e dc s1.
Proof.
  intros H Hc Hpg Hcr Hr. pose proof Hc as (Hcur & Hcr0 & Hcl).
  destruct (sy_dir _ _ _ _ _ _ H c Hcr0 Hcl) as (d0 & Hdp & Hpg0). rewrite Hpg in Hpg0. apply kptr_inj in Hpg0 as <-.
  pose proof (sys_exofork_run s ds fl el kref kd c H Hc) as T.
  destruct el as [|e el]; [left; eexists; split; [by apply (exofork_stub _ _ _ T)|split; [done|by auto]]|].
  destruct fl as [|dc fl]; [left; eexists; split; [by apply (exofork_stub _ _ _ T)|split; [done|by auto]]|].
  destruct T as (s1 & x & Ex & <- & H1 & Hid & Hst & Hpar & Hpge & Htf & Hoth & Hnew & Hold & Hcpus & Hcn & Hnp & Hmem).
  destruct (proj1 (sy_free _ _ _ _ _ _ H e) (list_elem_of_here e el)) as [He Hfree].
  assert (Hce : c <> e) by (intros ->; by apply Hcl in Hfree).
  assert (Hlx : live (env s1 e)) by (unfold live; by rewrite Hst).
  pose proof (live_id_range _ _ _ _ _ _ e H1 He Hlx) as Hid1.
  pose proof (vi_nodup _ _ _ _ (sy_vm _ _ _ _ _ _ H1)) as Hnd. apply list.NoDup_cons in Hnd as [Hdc _].
  right. exists s1, e, el, dc. split; [done|]. split; [apply (exofork_stub _ _ _ Ex); lia|].
  constructor; try done.
  - split; [unfold curenv, thiscpu; by rewrite Hcpus, Hcn|]. split; [done|]. by rewrite (Hoth c).
  - by rewrite (Hoth c).
  - unfold thiscpu. by rewrite Hcpus, Hcn.
  - split; [done|]. split; [done|]. right. split; [done|]. right. by rewrite (Hoth c).
  - congruence.
  - intros v y Hv Hy. eapply refs_bound; [apply H|done..|]. apply (Hr v y Hv). by rewrite <- (Hold dp v).
  - split; [by exists fl|]. split; [done|]. split; [|done]. split; [done|]. intros v y Hv. unfold view at 1. by rewrite Hnew.
Qed.

(** [fork] once the handler is installed. *)
Lemma fork_run s ds fl el kref kd c dp upcall :
  sys_inv s ds fl el kref kd -> caller s c -> env_pgdir (env s c) = kptr dp 0 -> cpu_cr3 (thiscpu s) = dp * 4096 ->
  0 <= env_pgfault_upcall (env s c) < 4294967296 ->
  (forall v x, 0 <= v < NUVPN -> view s dp v = Some x -> pp_ref (pg s (PGNUM x)) <= 32767) ->
  (exists msg s', fork false upcall s = Ret (UPanic msg) s' /\ (el = [] \/ exists ds' el', starved s' ds' el' kref kd)) \/
  exists s' e el' dc fl' q, el = e :: el' /\ fork false upcall s = Ret (UOk (env_id (env s' e))) s' /\
    sys_inv s' (dc :: ds) fl' el' kref kd /\ fork_result s ds c dp e dc q s'.
Proof.
  intros H Hc Hpg Hcr Hup Hr. unfold fork, set_pgfault_handler. ustep by reflexivity.
  destruct (exofork_start s ds fl el kref kd c dp H Hc Hpg Hcr Hr) as [(r & E & Hneg & Hfail)|(s1 & e & el' & dc & -> & E & F)].
  { left. exists "fork : sys_exofork error", s. split; [ustep by exact E; destruct (Z.ltb_spec r 0); [done|lia]|].
    destruct Hfail as [->| ->]; [by left|right]. exists ds, el, []. split; [done|simpl; lia]. }
  destruct F as [Hc1 Hdp Hpg1 Hcr1 Hid Hp1 Hpge1 Hne Hnew Hold Hrefs Hcopy Hmem (Hce & Hpar & Htf) Hoth].
  ustep by exact E. destruct (Z.ltb_spec (env_id (env s1 e)) 0); [lia|]. destruct (Z.eqb_spec (env_id (env s1 e)) 0); [lia|].
  assert (Hid2 : 0 <= env_id (env s1 e) < 2147483648) by lia.
  assert (Hup1 : 0 <= env_pgfault_upcall (env s1 c) < 4294967296) by (by rewrite Hoth).
  generalize fork_pages. generalize (Z.to_nat (USTACKTOP / PGSIZE)). intros k Hk.
  assert (Hv0 : as_equiv (dc :: ds) (view s1) (fork_view dp dc 0 (view s1))) by apply fork_view_0.
  destruct (fork_loop_run Hc1 Hdp Hpg1 Hcr1 Hid2 Hp1 Hpge1 Hne Hnew Hrefs k 0 s1 Hcopy Hv0 ltac:(lia)) as (r & s2 & E2 & Hs2 & [(msg & -> & Hst2)|[-> Hv2]]).
  { rewrite Hk. done. }
  { left. exists msg, s2. split; [by eapply ubind_Panic|]. right. by exists (dc :: ds), el'. }
  ustep by exact E2. rewrite Hk in Hv2.
  destruct (fork_finish_run Hc1 Hdp Hpg1 Hcr1 Hid2 Hp1 Hpge1 Hne Hnew Hrefs s2 "fork : sys_page_alloc failed."
      "sys_env_set_pgfault_upcall in fork()   error" "sys_env_set_status in fork    error" Hs2 Hce Hup1)
    as (r & s3 & E3 & [(msg & -> & Hst3)|[-> (fl3 & q & H3 & Hv3 & Hz & Hct & Hee & Ho3)]]).
  { left. exists msg, s3. split; [exact E3|]. right. by exists (dc :: ds), el'. }
  right. exists s3, e, el', dc, fl3, q. split; [done|]. split; [rewrite E3, Hee; done|]. split; [done|].
  pose proof (copying_dc _ Hcopy) as Hdc. pose proof Hcopy as ((fl1 & H1) & _).
  rewrite Hv2 in Hv3. destruct (fork_views _ _ _ _ _ _ _ Hdp Hdc Hold Hnew Hv3) as (V1 & V2 & V3). constructor; try done.
  - intros d v y k' Hd Hv Hy. rewrite <- (Hold d v Hd Hv) in Hy. destruct (Hct d v y k' Hd Hv Hy) as [? Ec]. split; [done|].
    rewrite Ec. apply Hmem. intros Eq.
    destruct (mapped_page _ _ _ _ _ _ _ (sy_vm _ _ _ _ _ _ H1) (list_elem_of_further _ dc _ Hd) Hv Hy) as (_ & _ & Hpl).
    apply (Hpl (SDir dc)); [apply list_elem_of_here|done|]. by rewrite Eq.
  - rewrite Hee, Hoth by done. cbn. by split_and!.
  - intros i Hi. by rewrite Ho3, Hoth.
Qed.

(** ** Installing the handler *)

(** [s1] is [s] with a new exception stack and the upcall of [c] set. *)
Record handler_set (s : kstate) (ds fl : list Z) (c dp upcall : Z) (s1 : kstate) : Prop := {
  hs_view : exists p, p ∈ fl /\ (forall k, rdw (mem s1) p k = 0) /\
    as_equiv ds (view s1) (as_update (view s) dp XPAGE (Some (pte_value p (PTE_U .| PTE_P .| PTE_W))));
  hs_contents : forall d v x k, d ∈ ds -> 0 <= v < NUVPN -> view s d v = Some x ->
    rdw (mem s1) (PGNUM x) k = rdw (mem s) (PGNUM x) k;
  hs_env : env s1 c = set_env_pgfault_upcall upcall (env s c);
  hs_envs : forall i, i <> c -> env s1 i = env s i
}.

Lemma refs_update A ds d v o q :
  NoDup ds -> d ∈ ds -> 0 <= v < NUVPN ->
  refs (as_update A d v o) ds q = refs A ds q - is_ref (PGNUM <$> A d v) q + is_ref (PGNUM <$> o) q.
Proof.
  intros Hnd Hd Hv. unfold refs.
  rewrite (count_update (dtarget A) (dtarget (as_update A d v o)) (slots ds) (SData d v));
    [|by apply NoDup_slots|by apply elem_of_slots|].
  - cbn [dtarget]. unfold as_update. by rewrite decide_True.
  - intros x Hx Hne. destruct x as [| |d' v']; [done..|]. cbn [dtarget]. unfold as_update. rewrite decide_False; [done|].
    intros E. injection E as -> ->. done.
Qed.

(** Mapping a page that was free leaves every count within the bound. *)
Lemma fresh_bound s ds fl kref s1 fl1 dp va p perm v x :
  vm_inv s ds fl kref -> vm_inv s1 ds fl1 kref -> npages s1 = npages s -> dp ∈ ds -> 0 <= va < NUVPN -> p ∈ fl -> 0 <= perm < 4096 ->
  as_equiv ds (view s1) (as_update (view s) dp va (Some (pte_value p perm))) ->
  (forall v x, 0 <= v < NUVPN -> view s dp v = Some x -> pp_ref (pg s (PGNUM x)) <= 32767) ->
  0 <= v < NUVPN -> view s1 dp v = Some x -> pp_ref (pg s1 (PGNUM x)) <= 32767.
Proof.
  intros H H1 Hnp Hdp Hva Hp Hperm Hu Hr Hv Hx.
  destruct (mapped_page _ _ _ _ _ _ _ H1 Hdp Hv Hx) as (Hq & _ & Hpl). rewrite Hnp in Hq.
  assert (Hold : plain (mem s) ds (PGNUM x) /\ pp_ref (pg s (PGNUM x)) <= 32767 /\ (PGNUM x = p -> pp_ref (pg s p) = 0)).
  { rewrite Hu in Hx by done. unfold as_update in Hx. case_decide as E.
    - injection Hx as <-. rewrite PGNUM_pte_value by done. pose proof (ai_free _ _ (vi_alloc _ _ _ _ H) p Hp) as H0.
      split; [by apply (free_plain H)|]. split; [lia|done].
    - destruct (mapped_page _ _ _ _ _ _ _ H Hdp Hv Hx) as (_ & Hnf & Hpl'). split; [done|]. split; [by apply (Hr v)|]. by intros <-. }
  destruct Hold as (Hpl0 & Hle & H0). rewrite (plain_refs _ _ _ _ _ H1) by (done || by rewrite Hnp).
  rewrite (plain_refs _ _ _ _ _ H Hq Hpl0) in Hle. rewrite (refs_equiv _ _ _ _ Hu), refs_update by (done || apply (vi_nodup _ _ _ _ H)).
  pose proof (is_ref_range (PGNUM <$> view s dp va) (PGNUM x)). cbn [fmap option_fmap option_map].
  rewrite PGNUM_pte_value by done. destruct (decide (PGNUM x = p)) as [E|E].
  - rewrite <- E in H0. specialize (H0 eq_refl). rewrite (plain_refs _ _ _ _ _ H Hq Hpl0) in H0.
    pose proof (is_ref_range (Some p) (PGNUM x)). lia.
  - rewrite is_ref_ne by done. lia.
Qed.

Lemma set_pgfault_handler_run s ds fl el kref kd c dp upcall :
  sys_inv s ds fl el kref kd -> caller s c -> env_pgdir (env s c) = kptr dp 0 -> 0 <= upcall < 4294967296 ->
  (exists msg s', set_pgfault_handler true upcall s = Ret (UPanic msg) s' /\ starved s' ds el kref kd) \/
  exists s1 fl1, set_pgfault_handler true upcall s = Ret (UOk tt) s1 /\ sys_inv s1 ds fl1 el kref kd /\
    caller s1 c /\ cpu_cr3 (thiscpu s1) = cpu_cr3 (thiscpu s) /\ npages s1 = npages s /\ handler_set s ds fl c dp upcall s1.
Proof.
  intros H Hc Hpg Hup. pose proof Hc as (Hcur & Hcr0 & Hcl). pose proof (live_id_range _ _ _ _ _ _ c H Hcr0 Hcl) as Hid.
  assert (Hp : permitted s c (env_id (env s c)) c) by (split; [done|split; [done|right; split; [done|by left]]]).
  pose proof (sys_page_alloc_run s ds fl el kref kd c (env_id (env s c)) c (UXSTACKTOP - PGSIZE) (PTE_U .| PTE_P .| PTE_W) H Hc Hp ltac:(done)) as T.
  change (bad_va (UXSTACKTOP - PGSIZE) || _) with false in T. cbv iota in T.
  destruct T as (s3 & fl3 & H3 & Hf3 & Hm3 & T). assert (Hid' : 0 <= env_id (env s c) < 2147483648) by lia.
  assert (Hstub := stub_page_alloc (env_id (env s c)) (UXSTACKTOP - PGSIZE) Hid' ltac:(done) (PTE_U .| PTE_P .| PTE_W) ltac:(done)).
  unfold set_pgfault_handler. ustep by (by apply thisenv_run).
  destruct T as [(E & _ & -> & Hl)|(d & q & Hd & Hq & E & Hu & Hz)]; (ustep by (apply Hstub; [exact E|lia])).
  { left. eexists _, s3. split; [done|]. by exists fl. }
  right. change (0 <? 0) with false. cbv iota. pose proof (frame_caller _ _ _ Hf3 Hc) as Hc3. pose proof (frame_env _ _ c Hf3) as Ec3.
  ustep by (by apply thisenv_run). rewrite Ec3.
  assert (Hp3 : permitted s3 c (env_id (env s c)) c) by (unfold permitted in *; by rewrite !Ec3).
  exists (upd_env c (set_env_pgfault_upcall upcall) s3), fl3.
  split; [ustep by (by eapply set_upcall_run); done|]. split; [apply upd_env_inv; try done; by rewrite Ec3|].
  rewrite Hpg in Hd. apply kptr_inj in Hd as <-. split; [|split; [apply (vf_cr3 _ _ Hf3)|split; [apply (vf_npages _ _ Hf3)|constructor]]].
  - split; [apply Hc3|]. split; [done|]. rewrite env_upd_eq, Ec3. done.
  - by exists q.
  - intros d' v x k Hd' Hv Hx. destruct (mapped_page _ _ _ _ _ _ _ (sy_vm _ _ _ _ _ _ H) Hd' Hv Hx) as (_ & Hnf & Hpl).
    exact (proj1 Hm3 _ k Hpl Hnf).
  - by rewrite env_upd_eq, Ec3.
  - intros i Hi. by rewrite env_upd_ne, (frame_env _ _ i Hf3) by congruence.
Qed.

(** [fork] in both cases. *)
Lemma fork_handler first upcall s s1 :
  set_pgfault_handler first upcall s = Ret (UOk tt) s1 -> fork first upcall s = fork false upcall s1.
Proof.
  intros E. unfold fork. rewrite (ubind_Ok (set_pgfault_handler first upcall) _ _ _ _ E).
  by rewrite (ubind_Ok (set_pgfault_handler false upcall) _ s1 tt s1 eq_refl).
Qed.

(** ** The page-fault handler *)

(** [memmove] of the words from [i] on of page [x] to page [y]. *)
Lemma ucopy_run ds fl el kref kd d vs x vd y n : forall s i,
  sys_inv s ds fl el kref kd -> d ∈ ds -> cpu_cr3 (thiscpu s) = d * 4096 -> 0 <= vs < NUVPN -> 0 <= vd < NUVPN ->
  view s d vs = Some x -> hasbits x PTE_U = true -> view s d vd = Some y -> hasbits y PTE_U = true -> hasbits y PTE_W = true ->
  PGNUM x <> PGNUM y -> kref (PGNUM y) = 0 -> 0 <= i -> i + Z.of_nat n <= 1024 ->
  exists m', ucopy n (vd * 4096 + 4 * i) (vs * 4096 + 4 * i) s = Ret (UOk tt) (set_mem m' s) /\
    sys_inv (set_mem m' s) ds fl el kref kd /\ as_equiv ds (view (set_mem m' s)) (view s) /\
    forall q k, rdw m' q k =
      if decide (q = PGNUM y /\ i <= k < i + Z.of_nat n) then u32 (rdw (mem s) (PGNUM x) k) else rdw (mem s) q k.
Proof.
  induction n as [|n IH]; intros s i H Hd Hcr Hvs Hvd Hx Hxu Hy Hyu Hyw Hne Hk Hi Hn.
  { exists (mem s). split; [by destruct s|]. replace (set_mem (mem s) s) with s by (by destruct s). split; [done|]. split; [done|].
    intros q k. rewrite decide_False by lia. done. }
  cbn [ucopy]. set (m1 := wrw (mem s) (PGNUM y) i (u32 (rdw (mem s) (PGNUM x) i))).
  assert (Hm1 : forall q k, q <> PGNUM y -> rdw m1 q k = rdw (mem s) q k).
  { intros q k Hq. unfold m1. rewrite rdw_wrw_ne; [done|]. left. congruence. }
  pose proof (data_sys_inv s ds fl el kref kd d vd y m1 H Hd Hvd Hy Hk Hm1) as H1.
  assert (Hv1 : as_equiv ds (view (set_mem m1 s)) (view s)).
  { intros d' v' Hd' Hv'. by apply (same_vmap (sy_vm _ _ _ _ _ _ H) (data_tables _ _ _ _ _ _ _ _ (sy_vm _ _ _ _ _ _ H) Hd Hvd Hy Hm1)). }
  ustep by (unfold uload; rewrite (user_walk_data H Hd Hcr vs i x false Hvs ltac:(lia) Hx Hxu ltac:(done)), phys_word by lia; reflexivity).
  assert (Est : ustore (vd * 4096 + 4 * i) (rdw (mem s) (PGNUM x) i) s = Ret (UOk tt) (set_mem m1 s)).
  { unfold ustore. rewrite (user_walk_data H Hd Hcr vd i y true Hvd ltac:(lia) Hy Hyu ltac:(done)).
    unfold phys_write. by rewrite PGNUM_word, widx_word by lia. }
  ustep by exact Est. unfold NUVPN in Hvs, Hvd.
  replace (u32 (vd * 4096 + 4 * i + 4)) with (vd * 4096 + 4 * (i + 1)) by (rewrite u32_small; lia).
  replace (u32 (vs * 4096 + 4 * i + 4)) with (vs * 4096 + 4 * (i + 1)) by (rewrite u32_small; lia).
  destruct (IH (set_mem m1 s) (i + 1) H1 Hd Hcr Hvs Hvd) as (m' & E & H' & Hv' & Hw'); try (done || lia); try (by rewrite Hv1).
  exists m'. split; [exact E|]. split; [exact H'|]. split; [by rewrite <- Hv1|].
  intros q k. rewrite Hw'. cbn [mem set_mem]. rewrite (Hm1 (PGNUM x)) by done. destruct (decide (q = PGNUM y /\ k = i)) as [[-> ->]|Hqk].
  - rewrite decide_False, decide_True by lia. unfold m1. by rewrite rdw_wrw_eq.
  - assert (rdw m1 q k = rdw (mem s) q k) as ->.
    { unfold m1. apply rdw_wrw_ne. destruct (decide (q = PGNUM y)); [right; intros <-; by apply Hqk|left; congruence]. }
    apply decide_ext. split; intros [? ?]; split; try done; [lia|]. assert (k <> i) by (intros ->; by apply Hqk). lia.
Qed.

(** A free page has no references. *)
Lemma free_refs {s ds fl kref p} : vm_inv s ds fl kref -> p ∈ fl -> kref p = 0 /\ refs (view s) ds p = 0.
Proof.
  intros H Hp. pose proof (ai_in_range _ _ _ (vi_alloc _ _ _ _ H) Hp) as Hr.
  pose proof (ai_free _ _ (vi_alloc _ _ _ _ H) p Hp) as H0. rewrite (plain_refs _ _ _ _ _ H Hr (free_plain H p Hp)) in H0.
  pose proof (vi_kref _ _ _ _ H p). pose proof (count_nonneg (dtarget (view s)) (slots ds) p). unfold refs in *. lia.
Qed.

Lemma refs_slot A ds d u p : d ∈ ds -> 0 <= u < NUVPN -> is_ref (PGNUM <$> A d u) p <= refs A ds p.
Proof.
  intros Hd Hu. unfold is_ref. case_decide as E; [|apply count_nonneg].
  apply (count_pos (dtarget A) (slots ds) (SData d u) p); [by apply elem_of_slots|done].
Qed.

(** A page without references, mapped once. *)
Lemma refs_fresh A ds d u p f :
  NoDup ds -> refs A ds p = 0 -> d ∈ ds -> 0 <= u < NUVPN -> 0 <= f < 4096 ->
  refs (as_update A d u (Some (pte_value p f))) ds p = 1.
Proof.
  intros Hnd H0 Hd Hu Hf. rewrite refs_update by done. pose proof (refs_slot A ds d u p Hd Hu).
  pose proof (is_ref_range (PGNUM <$> A d u) p). cbn [fmap option_fmap option_map]. rewrite PGNUM_pte_value, is_ref_eq by done. lia.
Qed.

(** The page of [PFTEMP]. *)
Definition PFT : Z := 2047.

Section Fault.
  Context {s : kstate} {ds fl el : list Z} {kref : Z -> Z} {kd c dp v x : Z}.
  Context (H : sys_inv s ds fl el kref kd) (Hc : caller s c) (Hpg : env_pgdir (env s c) = kptr dp 0) (Hdp : dp ∈ ds).
  Context (Hcr : cpu_cr3 (thiscpu s) = dp * 4096) (Hv : 0 <= v < NUVPN) (Hvt : v <> PFT).
  Context (Hx : view s dp v = Some x) (Hxu : hasbits x PTE_U = true).

  Local Abbreviation perm := (PTE_U .| PTE_P .| PTE_W) (only parsing).

Lemma fault_permitted s' : vm_frame s s' ->
    caller s' c /\ permitted s' c 0 c /\ env_pgdir (env s' c) = kptr dp 0 /\ cpu_cr3 (thiscpu s') = dp * 4096.
  Proof using Hc Hpg Hcr.
    intros Hf. pose proof (frame_caller _ _ _ Hf Hc) as Hc'. pose proof Hc' as (_ & ? & ?). unfold permitted.
    rewrite (frame_env _ _ _ Hf), (vf_cr3 _ _ Hf). rewrite (frame_env _ _ _ Hf) in *. split; [done|]. split; [|done].
    split; [done|]. split; [done|]. by left.
  Qed.

(** A new page at [PFTEMP] with the words of the page at [v]. *)
Lemma fault_copy_run msg :
    (exists s', must msg (lib_sys_page_alloc 0 PFTEMP perm) s = Ret (UPanic msg) s' /\ starved s' ds el kref kd) \/
    exists s1 s2 fl2 p, must msg (lib_sys_page_alloc 0 PFTEMP perm) s = Ret (UOk tt) s1 /\
      ucopy 1024 PFTEMP (v * 4096) s1 = Ret (UOk tt) s2 /\ sys_inv s2 ds fl2 el kref kd /\ vm_frame s s2 /\ p ∈ fl /\
      as_equiv ds (view s2) (as_update (view s) dp PFT (Some (pte_value p perm))) /\
      (forall k, 0 <= k < 1024 -> rdw (mem s2) p k = u32 (rdw (mem s) (PGNUM x) k)) /\
      (forall d u y k, d ∈ ds -> 0 <= u < NUVPN -> view s d u = Some y -> rdw (mem s2) (PGNUM y) k = rdw (mem s) (PGNUM y) k).
  Proof using All.
    destruct (fault_permitted s ltac:(done)) as (_ & Hp0 & _).
    pose proof (sys_page_alloc_run s ds fl el kref kd c 0 c PFTEMP perm H Hc Hp0 ltac:(done)) as T.
    change (bad_va PFTEMP || _) with false in T. cbv iota in T. destruct T as (s1 & fl1 & H1 & Hf1 & Hm1 & T).
    assert (Hstub := stub_page_alloc 0 PFTEMP ltac:(done) ltac:(done) perm ltac:(done)).
    destruct T as [(E & _ & -> & Hl)|(d & p & Hd & Hp & E & Hu & _)].
    { left. exists s1. split; [by eapply must_fail|]. by exists fl. }
    right. change (PGNUM PFTEMP) with PFT in Hu. rewrite Hpg in Hd. apply kptr_inj in Hd as <-. destruct (fault_permitted s1 Hf1) as (_ & _ & _ & Hcr1).
    assert (Hq : PGNUM (pte_value p perm) = p) by (by apply PGNUM_pte_value).
    assert (Hpte : hasbits (pte_value p perm) PTE_U = true /\ hasbits (pte_value p perm) PTE_W = true).
    { unfold pte_value. rewrite !hasbits_page by done. done. }
    assert (Hpx : PGNUM x <> p).
    { destruct (mapped_page _ _ _ _ _ _ _ (sy_vm _ _ _ _ _ _ H) Hdp Hv Hx) as (_ & Hnf & _). by intros <-. }
    assert (Hx1 : view s1 dp v = Some x) by (rewrite Hu by done; unfold as_update; rewrite decide_False by congruence; done).
    assert (Hy1 : view s1 dp PFT = Some (pte_value p perm)) by (by eapply view_update_get).
    destruct (ucopy_run ds fl1 el kref kd dp v x PFT (pte_value p perm) 1024 s1 0) as (m' & Ec & H2 & Hv2 & Hw); try done.
    - apply Hpte.
    - apply Hpte.
    - by rewrite Hq.
    - rewrite Hq. by apply (free_count (sy_vm _ _ _ _ _ _ H)).
    - rewrite Hq in Hw. rewrite !Z.mul_0_r, !Z.add_0_r in Ec. exists s1, (set_mem m' s1), fl1, p.
      split; [by eapply must_ok|]. split; [exact Ec|]. split; [exact H2|]. split; [etransitivity; [exact Hf1|apply vm_frame_set_mem]|].
      split; [done|]. split; [by rewrite Hv2|]. cbn [mem set_mem]. split.
      + intros k Hk. rewrite Hw, decide_True by lia. f_equal.
        destruct (mapped_page _ _ _ _ _ _ _ (sy_vm _ _ _ _ _ _ H) Hdp Hv Hx) as (_ & Hnf & Hpl). exact (proj1 Hm1 _ k Hpl Hnf).
      + intros d u y k Hd Hu' Hy. destruct (mapped_page _ _ _ _ _ _ _ (sy_vm _ _ _ _ _ _ H) Hd Hu' Hy) as (_ & Hnf & Hpl).
        rewrite Hw, decide_False; [exact (proj1 Hm1 _ k Hpl Hnf)|]. intros [E' _]. by rewrite E' in Hnf.
  Qed.

(** The new page moves from [PFTEMP] to [v]. *)
Lemma fault_move_run s2 fl2 p m1 m2 :
    sys_inv s2 ds fl2 el kref kd -> vm_frame s s2 -> p ∈ fl ->
    as_equiv ds (view s2) (as_update (view s) dp PFT (Some (pte_value p perm))) ->
    (must m1 (lib_sys_page_map 0 PFTEMP 0 (v * 4096) perm) s2 = Ret (UPanic m1) s2 /\ starved s2 ds el kref kd) \/
    exists s3 s4 fl4, must m1 (lib_sys_page_map 0 PFTEMP 0 (v * 4096) perm) s2 = Ret (UOk tt) s3 /\
      must m2 (lib_sys_page_unmap 0 PFTEMP) s3 = Ret (UOk tt) s4 /\ sys_inv s4 ds fl4 el kref kd /\ vm_frame s s4 /\
      as_equiv ds (view s4) (as_update (as_update (view s2) dp v (Some (pte_value p perm))) dp PFT None) /\
      (forall d u y k, d ∈ ds -> 0 <= u < NUVPN -> view s4 d u = Some y -> rdw (mem s4) (PGNUM y) k = rdw (mem s2) (PGNUM y) k).
  Proof using All.
    intros H2 Hf2 Hp Hu. assert (HT : 0 <= PFT < NUVPN) by done. destruct (fault_permitted s2 Hf2) as (Hc2 & Hp2 & Hpg2 & _).
    assert (Hq : PGNUM (pte_value p perm) = p) by (by apply PGNUM_pte_value).
    assert (Hy : view s2 dp PFT = Some (pte_value p perm)) by (by eapply view_update_get).
    destruct (vpn_addr v Hv) as (Hva & _ & Epn & Ebad).
    assert (Hr : pp_ref (pg s2 p) < 65535).
    { destruct (mapped_page _ _ _ _ _ _ _ (sy_vm _ _ _ _ _ _ H2) Hdp HT Hy) as (Hq2 & _ & Hpl). rewrite Hq in Hq2, Hpl.
      rewrite (plain_refs _ _ _ _ _ (sy_vm _ _ _ _ _ _ H2) Hq2 Hpl), (refs_equiv _ _ _ _ Hu).
      destruct (free_refs (sy_vm _ _ _ _ _ _ H) Hp). rewrite refs_fresh by (try done; apply (vi_nodup _ _ _ _ (sy_vm _ _ _ _ _ _ H))). lia. }
    pose proof (sys_page_map_run s2 ds fl2 el kref kd c 0 c PFTEMP 0 c (v * 4096) perm dp H2 Hc2 Hp2 Hp2 ltac:(done) Hva ltac:(done) Hpg2) as T.
    change (PGNUM PFTEMP) with PFT in T. unfold view in Hy. rewrite Hy, Epn, Ebad in T. change (bad_va PFTEMP || false) with false in T.
    destruct T as [[T ->]|(s3 & fl3 & d' & Hd' & T & H3 & Hf3 & Hm3 & Hu3)].
    { destruct (vmap_pt_page _ _ _ _ Hy) as [t Ht]. by exists t. }
    { intros y [= <-]. by rewrite Hq. }
    { left. split; [eapply must_fail; [by apply stub_page_map|exact T|done]|]. exists []. split; [done|simpl; lia]. }
    right. rewrite Hpg2 in Hd'. apply kptr_inj in Hd' as <-. rewrite Hq in Hu3.
    assert (Hf03 : vm_frame s s3) by (by etransitivity). destruct (fault_permitted s3 Hf03) as (Hc3 & Hp3 & Hpg3 & _).
    assert (Hy3 : view s3 dp PFT = Some (pte_value p perm)) by (rewrite Hu3 by done; unfold as_update; rewrite decide_False by congruence; exact Hy).
    destruct (sys_page_unmap_run s3 ds fl3 el kref kd c 0 c PFTEMP dp H3 Hc3 Hp3 ltac:(done) ltac:(done) Hpg3) as (s4 & fl4 & E4 & H4 & Hf4 & Hm4 & Hu4).
    { destruct (vmap_pt_page _ _ _ _ Hy3) as [t Ht]. by exists t. }
    change (PGNUM PFTEMP) with PFT in Hu4. exists s3, s4, fl4.
    split; [eapply must_ok; [by apply stub_page_map|exact T]|]. split; [eapply must_ok; [by apply stub_page_unmap|exact E4]|].
    split; [done|]. split; [by etransitivity|]. split; [by rewrite Hu4, Hu3|].
    intros d u y k Hd Hu' Hy4. rewrite Hu4 in Hy4 by done. unfold as_update in Hy4 at 1. case_decide as E; [done|].
    destruct (mapped_page _ _ _ _ _ _ _ (sy_vm _ _ _ _ _ _ H3) Hd Hu' Hy4) as (_ & Hnf3 & Hpl3).
    rewrite (proj1 Hm4 _ k Hpl3 Hnf3). rewrite Hu3 in Hy4 by done. unfold as_update in Hy4. case_decide as E'.
    - injection Hy4 as <-. rewrite Hq. destruct (mapped_page _ _ _ _ _ _ _ (sy_vm _ _ _ _ _ _ H2) Hdp HT Hy) as (_ & Hnf & Hpl).
      rewrite Hq in Hnf, Hpl. exact (proj1 Hm3 _ k Hpl Hnf).
    - destruct (mapped_page _ _ _ _ _ _ _ (sy_vm _ _ _ _ _ _ H2) Hd Hu' Hy4) as (_ & Hnf & Hpl). exact (proj1 Hm3 _ k Hpl Hnf).
  Qed.
End Fault.

(** ** Samples *)

(** A page that is mapped has a count above the kernel's own references. *)
Lemma mapped_ref s ds fl kref d v x :
  vm_inv s ds fl kref -> d ∈ ds -> 0 <= v < NUVPN -> view s d v = Some x -> kref (PGNUM x) < pp_ref (pg s (PGNUM x)).
Proof.
  intros H Hd Hv Hx. assert (Hin : in_slots ds (SData d v)) by done.
  assert (T : target (mem s) (SData d v) = Some (PGNUM x)) by (cbn [target]; unfold view in Hx; by rewrite Hx).
  rewrite (vi_ref _ _ _ _ H) by (by eapply (vi_range _ _ _ _ H)).
  pose proof (count_pos (target (mem s)) (slots ds) _ _ (proj2 (elem_of_slots _ _) Hin) T). lia.
Qed.

Lemma sample_counts : Forall (λ q, pp_ref (pg sys_sample4 q) <= 32767 \/ pp_ref (pg sys_sample4 q) = vm_sample_kref q) (seqZ 0 (npages sys_sample4)).
Proof. apply (bool_decide_unpack _). vm_compute. exact I. Qed.

(** No page an environment of the sample maps is near the limit. *)
Lemma sample_refs v x :
  0 <= v < NUVPN -> view sys_sample4 279 v = Some x -> pp_ref (pg sys_sample4 (PGNUM x)) <= 32767.
Proof.
  destruct sys_sample4_facts as (fl & Hi & _). pose proof (sy_vm _ _ _ _ _ _ Hi) as Hvm. clear Hi. pose proof sample_counts as Hall.
  revert Hvm Hall. generalize sys_sample4, vm_sample_kref. intros s kref Hvm Hall Hv Hx.
  pose proof (mapped_ref _ _ _ _ _ _ _ Hvm (list_elem_of_here 279 []) Hv Hx) as Hlt.
  destruct (mapped_page _ _ _ _ _ _ _ Hvm (list_elem_of_here 279 []) Hv Hx) as (Hq & _).
  rewrite list.Forall_forall in Hall. destruct (Hall (PGNUM x)) as [?|E]; [apply elem_of_seqZ; lia|done|lia].
Qed.

(** ** Properties *)

(** C11: Copy-on-write [fork], with the handler installed first when it is not yet:
    it returns the identifier of a new runnable environment that is a child of
    the caller and starts with the caller's registers and [0] in [%eax].  The
    child maps every user page of the caller below [USTACKTOP] at the same
    address: pages marked [PTE_SHARE] with the same permissions, writable and
    copy-on-write pages copy-on-write, other pages read-only; and it has a new
    zeroed exception stack of its own.  In the caller exactly its writable
    pages become copy-on-write.  No content of a mapped page, no other address
    space and no other environment changes, and the system invariant holds
    with the child added.  [fork] panics only when no environment or at most
    one page is free. *)
Theorem fork_copies s ds fl el kref kd c dp first upcall :
  sys_inv s ds fl el kref kd -> caller s c -> env_pgdir (env s c) = kptr dp 0 -> cpu_cr3 (thiscpu s) = dp * 4096 ->
  0 <= upcall < 4294967296 -> 0 <= env_pgfault_upcall (env s c) < 4294967296 ->
  (forall v x, 0 <= v < NUVPN -> view s dp v = Some x -> pp_ref (pg s (PGNUM x)) <= 32767) ->
  (exists msg s', fork first upcall s = Ret (UPanic msg) s' /\ (el = [] \/ exists ds' el', starved s' ds' el' kref kd)) \/
  exists s1 s' e el' dc fl' q, el = e :: el' /\ fork first upcall s = Ret (UOk (env_id (env s' e))) s' /\
    sys_inv s' (dc :: ds) fl' el' kref kd /\ fork_result s1 ds c dp e dc q s' /\
    if first : bool then handler_set s ds fl c dp upcall s1 else s1 = s.
Proof.
  intros H Hc Hpg Hcr Hup Hup0 Hr. destruct first.
  - destruct (set_pgfault_handler_run s ds fl el kref kd c dp upcall H Hc Hpg Hup)
      as [(msg & s' & E & Hst)|(s1 & fl1 & E & H1 & Hc1 & Hcr1 & Hnp & Hh)].
    { left. exists msg, s'. split; [by eapply ubind_Panic|]. right. by exists ds, el. }
    destruct (sy_dir _ _ _ _ _ _ H c ltac:(apply Hc) ltac:(apply Hc)) as (d0 & Hdp & Hpg0). rewrite Hpg in Hpg0. apply kptr_inj in Hpg0 as <-.
    rewrite (fork_handler _ _ _ _ E). destruct (hs_view _ _ _ _ _ _ _ Hh) as (p & Hp & _ & Hu).
    destruct (fork_run s1 ds fl1 el kref kd c dp upcall H1 Hc1) as [F|(s' & e & el' & dc & fl' & q & F)].
    + by rewrite (hs_env _ _ _ _ _ _ _ Hh).
    + by rewrite Hcr1.
    + by rewrite (hs_env _ _ _ _ _ _ _ Hh).
    + intros v x Hv Hx. by apply (fresh_bound s ds fl kref s1 fl1 dp XPAGE p (PTE_U .| PTE_P .| PTE_W) v x (sy_vm _ _ _ _ _ _ H) (sy_vm _ _ _ _ _ _ H1)).
    + by left.
    + right. exists s1, s', e, el', dc, fl', q. naive_solver.
  - destruct (fork_run s ds fl el kref kd c dp upcall H Hc Hpg Hcr Hup0 Hr) as [F|(s' & e & el' & dc & fl' & q & F)]; [by left|].
    right. exists s, s', e, el', dc, fl', q. naive_solver.
Qed.

Lemma fork_copies_witness :
  exists r s', fork true 0x800040 sys_sample4 = Ret r s' /\ (forall va, r <> UFault va).
Proof.
  destruct sys_sample4_facts as (fl & Hi & Hcal & _). destruct sys_sample4_map as (_ & Hpg & Hcr).
  destruct (fork_copies _ _ _ _ _ _ 0 279 true 0x800040 Hi Hcal Hpg Hcr ltac:(clear; lia)) as [(msg & s' & E & _)|(s1 & s' & e & el' & dc & fl' & q & _ & E & _)].
  - apply (bool_decide_unpack _). vm_compute. exact I.
  - exact sample_refs.
  - exists (UPanic msg), s'. split; [exact E|]. intros va Ev. discriminate Ev.
  - eexists _, s'. split; [exact E|]. intros va Ev. discriminate Ev.
Defined.

(** C12: The page-fault handler of [fork], on a page the environment can read: it
    maps a page from the free list at the faulting address, writable, with
    the words the old page has; the environment holds the only reference to
    it.  Nothing else is mapped differently, except that [PFTEMP] is unmapped,
    and no other mapped page changes its content, so that whoever shares the
    old page is not affected.  It does so for every such page, copy-on-write or
    not, since the tests of the entry are commented out; it panics only when at
    most one page is free. *)
Theorem pgfault_private s ds fl el kref kd c dp va err x :
  sys_inv s ds fl el kref kd -> caller s c -> env_pgdir (env s c) = kptr dp 0 -> cpu_cr3 (thiscpu s) = dp * 4096 ->
  uva va -> PGNUM va <> PFT -> view s dp (PGNUM va) = Some x -> hasbits x PTE_U = true ->
  (exists msg s', pgfault va err s = Ret (UPanic msg) s' /\ starved s' ds el kref kd) \/
  exists s' fl' p, pgfault va err s = Ret (UOk tt) s' /\ sys_inv s' ds fl' el kref kd /\ vm_frame s s' /\
    p ∈ fl /\ pp_ref (pg s' p) = 1 /\
    as_equiv ds (view s')
      (as_update (as_update (view s) dp PFT None) dp (PGNUM va) (Some (pte_value p (PTE_U .| PTE_P .| PTE_W)))) /\
    (forall k, 0 <= k < 1024 -> rdw (mem s') p k = u32 (rdw (mem s) (PGNUM x) k)) /\
    (forall d u y k, d ∈ ds -> 0 <= u < NUVPN -> (d, u) <> (dp, PFT) -> (d, u) <> (dp, PGNUM va) ->
       view s d u = Some y -> rdw (mem s') (PGNUM y) k = rdw (mem s) (PGNUM y) k).
Proof.
  intros H Hc Hpg Hcr Hva Hvt Hx Hxu. pose proof (uva_vpn va Hva) as Hv. pose proof Hc as (_ & Hcr0 & Hcl).
  destruct (sy_dir _ _ _ _ _ _ H c Hcr0 Hcl) as (d0 & Hdp & Hpg0). rewrite Hpg in Hpg0. apply kptr_inj in Hpg0 as <-.
  destruct (vmap_pt_page _ _ _ _ Hx) as [t Ht]. unfold pgfault. ustep by (by apply (uvpt_run H Hdp Hcr _ t)).
  replace (ROUNDDOWN va PGSIZE) with (PGNUM va * 4096) by (unfold uva in Hva; rewrite ROUNDDOWN_page, PGNUM_div by lia; done). cbv zeta.
  destruct (fault_copy_run H Hc Hpg Hdp Hcr Hv Hvt Hx Hxu "error in pgfault after returning from sys_page_alloc")
    as [(s' & E & Hst)|(s1 & s2 & fl2 & p & E1 & E2 & H2 & Hf2 & Hp & Hu2 & Hw & Hm2)].
  { left. eexists _, s'. split; [by eapply ubind_Panic|done]. }
  ustep by exact E1. ustep by exact E2.
  destruct (fault_move_run H Hc Hpg Hdp Hcr Hv Hvt Hx Hxu s2 fl2 p "error in pgfault after returning from sys_page_map"
    "error in pgfault after returning from sys_page_unmap" H2 Hf2 Hp Hu2) as [[E Hst]|(s3 & s4 & fl4 & E3 & E4 & H4 & Hf4 & Hu4 & Hm4)].
  { left. eexists _, s2. split; [by eapply ubind_Panic|done]. }
  right. exists s4, fl4, p. split; [by ustep by exact E3|]. split; [done|]. split; [done|]. split; [done|].
  pose proof (vi_nodup _ _ _ _ (sy_vm _ _ _ _ _ _ H)) as Hnd. destruct (free_refs (sy_vm _ _ _ _ _ _ H) Hp) as [Hk0 Hr0].
  assert (HV : as_equiv ds (view s4) (as_update (as_update (view s) dp PFT None) dp (PGNUM va) (Some (pte_value p (PTE_U .| PTE_P .| PTE_W))))).
  { rewrite Hu4, Hu2. intros d u Hd Hu. unfold as_update. repeat case_decide; congruence. }
  pose proof (view_update_get _ _ _ _ _ _ HV Hdp Hv) as Hp4. assert (Hq : PGNUM (pte_value p (PTE_U .| PTE_P .| PTE_W)) = p) by (by apply PGNUM_pte_value).
  split; [|split; [exact HV|split]].
  - destruct (mapped_page _ _ _ _ _ _ _ (sy_vm _ _ _ _ _ _ H4) Hdp Hv Hp4) as (Hq4 & _ & Hpl). rewrite Hq in Hq4, Hpl.
    rewrite (plain_refs _ _ _ _ _ (sy_vm _ _ _ _ _ _ H4) Hq4 Hpl), (refs_equiv _ _ _ _ HV), refs_fresh; try done; [lia|].
    rewrite refs_update by done. pose proof (refs_slot (view s) ds dp PFT p Hdp ltac:(done)).
    pose proof (is_ref_range (PGNUM <$> view s dp PFT) p). cbn [fmap option_fmap option_map]. rewrite is_ref_None. lia.
  - intros k Hk. rewrite <- Hw by done. rewrite <- Hq. by apply (Hm4 dp (PGNUM va)).
  - intros d u y k Hd Hu Hn1 Hn2 Hy. rewrite <- (Hm2 d u y k Hd Hu Hy). apply (Hm4 d u y k Hd Hu).
    rewrite HV by done. unfold as_update. by rewrite !decide_False.
Qed.

Lemma pgfault_private_witness :
  exists r s', pgfault 0x400010 7 sys_sample4 = Ret r s' /\
    (r = UOk tt -> exists p, vmap (mem s') 279 1024 = Some (pte_value p 7) /\ pp_ref (pg s' p) = 1).
Proof.
  destruct sys_sample4_facts as (fl & Hi & Hcal & _). destruct sys_sample4_map as (Hx & Hpg & Hcr).
  destruct (pgfault_private _ _ _ _ _ _ 0 279 0x400010 7 (pte_value 278 7) Hi Hcal Hpg Hcr) as [(msg & s' & E & _)|(s' & fl' & p & E & _ & _ & _ & Hr & Hu & _)].
  - split; [clear; lia|reflexivity].
  - intros E. vm_compute in E. discriminate E.
  - exact Hx.
  - vm_compute. reflexivity.
  - exists (UPanic msg), s'. split; [exact E|]. intros Ev. discriminate Ev.
  - exists (UOk tt), s'. split; [exact E|]. intros _. exists p. split; [|exact Hr].
    apply (view_update_get _ _ _ _ _ _ Hu (list_elem_of_here 279 [])). apply uva_vpn. split; [clear; lia|reflexivity].
Defined.
