(* ===== verification/UserSteps.v ===== *)
(** * Steps of a running environment

    What a system call or a memory access of the running environment does to
    the address spaces, in a form that programs of several such steps can be
    followed with: [running] says that the system invariant holds and that only
    memory has changed since the program started. *)

From S2P Require Import Prelude Console LibString Mmu Printf E1000 Machine KernLib Spinlock PageAlloc PageTable Vm VmSpec UserMem Env EnvVm EnvInv EnvSpec Sched SchedSpec Syscall SyscallSpec UserAccess UserLib ForkSpec.

(** No page that was mapped changes its contents. *)
Definition keeps (ds : list Z) (s s' : kstate) : Prop :=
  forall d u y k, d ∈ ds -> 0 <= u < NUVPN -> view s d u = Some y -> rdw (mem s') (PGNUM y) k = rdw (mem s) (PGNUM y) k.

Lemma mem_frame_keeps s s' ds fl kref :
  vm_inv s ds fl kref -> mem_frame ds fl (mem s) (mem s') -> keeps ds s s'.
Proof.
  intros H Hm d u y k Hd Hu Hy. destruct (mapped_page _ _ _ _ _ _ _ H Hd Hu Hy) as (_ & Hnf & Hpl). exact (proj1 Hm _ k Hpl Hnf).
Qed.

(** The state after a step: [s'], with the free pages [fl'] and the view [A]. *)
Record stepped (s0 : kstate) (ds el : list Z) (kref : Z -> Z) (kd : Z) (s : kstate) (A : aspace) (s' : kstate) (fl' : list Z) : Prop := {
  sp_inv : sys_inv s' ds fl' el kref kd;
  sp_frame : vm_frame s0 s';
  sp_view : as_equiv ds (view s') A;
  sp_keeps : keeps ds s s'
}.

Section Self.
  Context {s0 : kstate} {ds el : list Z} {kref : Z -> Z} {kd c dp : Z}.
  Context (Hc : caller s0 c) (Hpg : env_pgdir (env s0 c) = kptr dp 0) (Hdp : dp ∈ ds) (Hcr : cpu_cr3 (thiscpu s0) = dp * 4096).

(** The program that started in [s0] has reached [s]. *)
Definition running (fl : list Z) (s : kstate) : Prop := sys_inv s ds fl el kref kd /\ vm_frame s0 s.

  Context {s : kstate} {fl : list Z} (R : running fl s).

Lemma running_self : caller s c /\ permitted s c 0 c /\ env_pgdir (env s c) = kptr dp 0 /\ cpu_cr3 (thiscpu s) = dp * 4096.
  Proof using Hc Hpg Hcr R.
    destruct R as [_ Hf]. pose proof (frame_caller _ _ _ Hf Hc) as Hc'. pose proof Hc' as (_ & ? & ?). unfold permitted.
    rewrite (frame_env _ _ _ Hf), (vf_cr3 _ _ Hf). rewrite (frame_env _ _ _ Hf) in *. split; [done|]. split; [|done].
    split; [done|]. split; [done|]. by left.
  Qed.

Lemma self_alloc v perm : 0 <= v < NUVPN -> (PTE_U .| PTE_P .| perm) .& Z.lnot (PTE_U .| PTE_P .| PTE_AVAIL .| PTE_W) = 0 -> 0 <= perm < 4096 ->
    exists s' fl',
      (lib_sys_page_alloc 0 (v * 4096) perm s = Ret (UOk (- E_NO_MEM)) s' /\ stepped s0 ds el kref kd s (view s) s' fl' /\ (length fl <= 1)%nat) \/
      exists p, lib_sys_page_alloc 0 (v * 4096) perm s = Ret (UOk 0) s' /\ p ∈ fl /\
        stepped s0 ds el kref kd s (as_update (view s) dp v (Some (pte_value p (PTE_U .| PTE_P .| perm)))) s' fl' /\ forall k, rdw (mem s') p k = 0.
  Proof using Hc Hpg Hcr R.
    intros Hv Hperm Hpr. destruct running_self as (Hc' & Hp & Hpg' & _). destruct R as [H Hf]. destruct (vpn_addr v Hv) as (Hva & _ & Epn & Ebad).
    pose proof (sys_page_alloc_run s ds fl el kref kd c 0 c (v * 4096) perm H Hc' Hp Hva) as T. rewrite Ebad, Hperm in T. cbn [orb negb Z.eqb] in T.
    destruct T as (s' & fl' & H' & Hf' & Hm' & T). pose proof (stub_page_alloc 0 (v * 4096) ltac:(lia) Hva perm Hpr) as Hstub.
    pose proof (mem_frame_keeps _ _ _ _ _ (sy_vm _ _ _ _ _ _ H) Hm') as Hk. assert (Hf2 : vm_frame s0 s') by (by etransitivity).
    exists s', fl'. destruct T as [(E & Hu & -> & Hl)|(d & p & Hd & Hp' & E & Hu & Hz)]; [left|right].
    - split; [apply Hstub; [exact E|lia]|]. split; [by constructor|done].
    - exists p. split; [apply Hstub; [exact E|lia]|]. split; [done|]. split; [|done]. rewrite Hpg' in Hd. apply kptr_inj in Hd as <-.
      rewrite Epn in Hu. by constructor.
  Qed.

Lemma self_map vs x vd perm : 0 <= vs < NUVPN -> 0 <= vd < NUVPN -> 0 <= perm < 4096 ->
    view s dp vs = Some x -> pp_ref (pg s (PGNUM x)) < 65535 ->
    (lib_sys_page_map 0 (vs * 4096) 0 (vd * 4096) perm s = Ret (UOk (- E_NO_MEM)) s /\ fl = []) \/
    exists s' fl', lib_sys_page_map 0 (vs * 4096) 0 (vd * 4096) perm s = Ret (UOk 0) s' /\
      stepped s0 ds el kref kd s (as_update (view s) dp vd (Some (pte_value (PGNUM x) perm))) s' fl'.
  Proof using Hc Hpg Hcr R.
    intros Hvs Hvd Hpr Hx Hr. destruct running_self as (Hc' & Hp & Hpg' & _). destruct R as [H Hf].
    destruct (vpn_addr vs Hvs) as (Hvas & _ & Eps & Ebs). destruct (vpn_addr vd Hvd) as (Hvad & _ & Epd & Ebd).
    pose proof (sys_page_map_run s ds fl el kref kd c 0 c (vs * 4096) 0 c (vd * 4096) perm dp H Hc' Hp Hp Hvas Hvad Hpr Hpg') as T.
    unfold view in Hx. rewrite Eps, Epd, Ebs, Ebd, Hx in T. cbn [orb] in T.
    pose proof (stub_page_map 0 (vd * 4096) ltac:(lia) Hvad (vs * 4096) perm Hvas Hpr) as Hstub.
    destruct T as [[E ->]|(s' & fl' & d' & Hd' & E & H' & Hf' & Hm' & Hu)].
    { destruct (vmap_pt_page _ _ _ _ Hx) as [t Ht]. by exists t. }
    { by intros y [= <-]. }
    - left. split; [apply Hstub; [exact E|lia]|done].
    - right. exists s', fl'. split; [apply Hstub; [exact E|lia]|]. rewrite Hpg' in Hd'. apply kptr_inj in Hd' as <-. constructor; try done.
      + by etransitivity.
      + by apply (mem_frame_keeps _ _ _ fl kref (sy_vm _ _ _ _ _ _ H)).
  Qed.

Lemma self_unmap v : 0 <= v < NUVPN -> is_Some (pt_page (mem s) dp v) ->
    exists s' fl', lib_sys_page_unmap 0 (v * 4096) s = Ret (UOk 0) s' /\ stepped s0 ds el kref kd s (as_update (view s) dp v None) s' fl'.
  Proof using Hc Hpg Hcr R.
    intros Hv Ht. destruct running_self as (Hc' & Hp & Hpg' & _). destruct R as [H Hf]. destruct (vpn_addr v Hv) as (Hva & _ & Epn & Ebad).
    pose proof (sys_page_unmap_run s ds fl el kref kd c 0 c (v * 4096) dp H Hc' Hp Hva Ebad Hpg') as T. rewrite Epn in T.
    destruct (T Ht) as (s' & fl' & E & H' & Hf' & Hm' & Hu). exists s', fl'.
    split; [apply (stub_page_unmap 0 (v * 4096) ltac:(lia) Hva); [exact E|lia]|]. constructor; try done.
    - by etransitivity.
    - by apply (mem_frame_keeps _ _ _ fl kref (sy_vm _ _ _ _ _ _ H)).
  Qed.

Lemma self_load v k x : 0 <= v < NUVPN -> 0 <= k < 1024 -> view s dp v = Some x -> hasbits x PTE_U = true ->
    uload (v * 4096 + 4 * k) s = Ret (UOk (rdw (mem s) (PGNUM x) k)) s.
  Proof using Hc Hpg Hdp Hcr R.
    intros Hv Hk Hx Hu. destruct running_self as (_ & _ & _ & Hcr'). destruct R as [H _].
    unfold uload. by rewrite (user_walk_data H Hdp Hcr' v k x false Hv Hk Hx Hu ltac:(done)), phys_word.
  Qed.

Lemma self_store v k x w : 0 <= v < NUVPN -> 0 <= k < 1024 -> view s dp v = Some x -> hasbits x PTE_U = true -> hasbits x PTE_W = true ->
    kref (PGNUM x) = 0 ->
    exists s', ustore (v * 4096 + 4 * k) w s = Ret (UOk tt) s' /\ running fl s' /\ as_equiv ds (view s') (view s) /\
      pages s' = pages s /\ (forall q j, rdw (mem s') q j = if decide (q = PGNUM x /\ j = k) then u32 w else rdw (mem s) q j).
  Proof using Hc Hpg Hdp Hcr R.
    intros Hv Hk Hx Hu Hw Hkr. destruct running_self as (_ & _ & _ & Hcr'). destruct R as [H Hf].
    set (m1 := wrw (mem s) (PGNUM x) k (u32 w)). assert (Hm1 : forall q j, q <> PGNUM x -> rdw m1 q j = rdw (mem s) q j).
    { intros q j Hq. unfold m1. rewrite rdw_wrw_ne; [done|]. left. congruence. }
    exists (set_mem m1 s). split; [|split; [split|split; [|split; [done|]]]].
    - unfold ustore. rewrite (user_walk_data H Hdp Hcr' v k x true Hv Hk Hx Hu ltac:(done)). unfold phys_write. by rewrite PGNUM_word, widx_word.
    - by apply (data_sys_inv s ds fl el kref kd dp v x m1 H Hdp Hv Hx Hkr).
    - etransitivity; [exact Hf|apply vm_frame_set_mem].
    - intros d' v' Hd' Hv'. by apply (same_vmap (sy_vm _ _ _ _ _ _ H) (data_tables _ _ _ _ _ _ _ _ (sy_vm _ _ _ _ _ _ H) Hdp Hv Hx Hm1)).
    - intros q j. cbn [mem set_mem]. unfold m1. case_decide as E; [destruct E as [-> ->]; apply rdw_wrw_eq|].
      apply rdw_wrw_ne. destruct (decide (PGNUM x = q)) as [<-|]; [right|by left]. intros ->. by apply E.
  Qed.
End Self.
Arguments running : clear implicits.
