(* ===== verification/PipeLib.v ===== *)
(** * Creating and closing pipes ([lib/pipe.c], [lib/pageref.c], [lib/fd.c])

    The descriptor table of an environment is a range of its address space:
    descriptor [i] is open when the page [INDEX2FD(i)] is mapped.  [pipe] makes
    two descriptors whose data pages are the same page; an end is closed when
    the other end has as many references as that page.

    The messages the library prints are left out, and so are the members of
    [struct Stat] that [devpipe_stat] fills in with constants.  A program runs without being interrupted
    here; [Pipe] models the reads and writes of two programs that are. *)

From S2P Require Import Prelude Console LibString Mmu Printf E1000 Machine KernLib Spinlock PageAlloc PageTable Vm VmSpec UserMem Env EnvVm EnvInv EnvSpec Sched SchedSpec Syscall SyscallSpec UserAccess UserLib ForkSpec UserSteps.

Abbreviation MAXFD := 32 (only parsing).
Abbreviation FDTABLE := 0xD0000000 (only parsing).
Abbreviation FILEDATA := 0xD0020000 (only parsing).
Abbreviation DEVPIPE_ID := 112 (only parsing).
Abbreviation O_RDONLY := 0 (only parsing).
Abbreviation O_WRONLY := 1 (only parsing).

(** ** The code *)

Definition INDEX2FD (i : Z) : Z := u32 (FDTABLE + i * PGSIZE).
Definition INDEX2DATA (i : Z) : Z := u32 (FILEDATA + i * PGSIZE).
Definition fd2num (fd : Z) : Z := s32 (u32 (fd - FDTABLE) / PGSIZE).
Definition fd2data (fd : Z) : Z := INDEX2DATA (fd2num fd).

(** [(uvpd[PDX(va)] & PTE_P) && (uvpt[PGNUM(va)] & PTE_P)] *)
Definition umapped (va : Z) : U bool :=
  pde ← uvpd (PDX va);
  if negb (hasbits pde PTE_P) then mret false
  else pte ← uvpt (PGNUM va); mret (hasbits pte PTE_P).

(** The result and [*fd_store]. *)
Fixpoint fd_alloc_loop (n : nat) (i : Z) : U (Z * Z) :=
  match n with
  | O => mret (- E_MAX_OPEN, 0)
  | S n' =>
      b ← umapped (INDEX2FD i);
      if negb b then mret (0, INDEX2FD i) else fd_alloc_loop n' (i + 1)
  end.

Definition fd_alloc : U (Z * Z) := fd_alloc_loop (Z.to_nat MAXFD) 0.

Definition fd_lookup (fdnum : Z) : U (Z * Z) :=
  if (fdnum <? 0) || (MAXFD <=? fdnum) then mret (- E_INVAL, 0)
  else
    b ← umapped (INDEX2FD fdnum);
    if negb b then mret (- E_INVAL, 0) else mret (0, INDEX2FD fdnum).

(** [pages[PGNUM(pte)].pp_ref], which the kernel maps at [UPAGES]. *)
Definition pageref (v : Z) : U Z :=
  pde ← uvpd (PDX v);
  if negb (hasbits pde PTE_P) then mret 0
  else
    pte ← uvpt (PGNUM v);
    if negb (hasbits pte PTE_P) then mret 0 else uget (λ s, pp_ref (pg s (PGNUM pte))).

Abbreviation perm_share := (PTE_P .| PTE_W .| PTE_U .| PTE_SHARED) (only parsing).

(** The result and [pfd]. *)
Definition pipe : U (Z * (Z * Z)) :=
  a0 ← fd_alloc;
  let fd0 := a0.2 in
  r ← (if a0.1 <? 0 then mret a0.1 else lib_sys_page_alloc 0 fd0 perm_share);
  if r <? 0 then mret (r, (0, 0))
  else
    a1 ← fd_alloc;
    let fd1 := a1.2 in
    r ← (if a1.1 <? 0 then mret a1.1 else lib_sys_page_alloc 0 fd1 perm_share);
    if r <? 0 then lib_sys_page_unmap 0 fd0 ;; mret (r, (0, 0))
    else
      let va := fd2data fd0 in
      r ← lib_sys_page_alloc 0 va perm_share;
      if r <? 0 then lib_sys_page_unmap 0 fd1 ;; lib_sys_page_unmap 0 fd0 ;; mret (r, (0, 0))
      else
        r ← lib_sys_page_map 0 va 0 (fd2data fd1) perm_share;
        if r <? 0 then lib_sys_page_unmap 0 va ;; lib_sys_page_unmap 0 fd1 ;; lib_sys_page_unmap 0 fd0 ;; mret (r, (0, 0))
        else
          ustore fd0 DEVPIPE_ID ;;
          ustore (u32 (fd0 + 8)) O_RDONLY ;;
          ustore fd1 DEVPIPE_ID ;;
          ustore (u32 (fd1 + 8)) O_WRONLY ;;
          mret (0, (fd2num fd0, fd2num fd1)).

(** The number of rounds is one more than the times the environment is
    interrupted between the two reads of [env_runs]. *)
Fixpoint pipeisclosed_loop (fuel : nat) (fd p : Z) : U Z :=
  match fuel with
  | O => λ s, Exit SpinForever s
  | S fuel' =>
      n ← thisenv env_runs;
      a ← pageref fd;
      b ← pageref p;
      nn ← thisenv env_runs;
      if n =? nn then mret (if a =? b then 1 else 0) else pipeisclosed_loop fuel' fd p
  end.

Definition pipeisclosed (fdnum : Z) : U Z :=
  r ← fd_lookup fdnum;
  if r.1 <? 0 then mret r.1 else pipeisclosed_loop 1 r.2 (fd2data r.2).

(** The size of the pipe. *)
Definition devpipe_stat (fd : Z) : U Z :=
  let p := fd2data fd in
  w ← uload (u32 (p + 4));
  r ← uload p;
  mret (s32 (w - r)).

Definition devpipe_close (fd : Z) : U Z :=
  lib_sys_page_unmap 0 fd ;;
  lib_sys_page_unmap 0 (fd2data fd).

Section Devices.
  (* The device table without pipes: the close operation of a device, if the device is known and has one. *)
  Context (other_close : Z -> option (option (Z -> U Z))).

Definition dev_close (id : Z) : option (option (Z -> U Z)) :=
  if id =? DEVPIPE_ID then Some (Some devpipe_close) else other_close id.

Definition fd_close (fd : Z) (must_exist : bool) : U Z :=
  r ← fd_lookup (fd2num fd);
  if (r.1 <? 0) || negb (fd =? r.2) then mret (if must_exist then r.1 else 0)
  else
    id ← uload fd;
    r ← (match dev_close (s32 id) with
         | Some (Some k) => k fd
         | Some None => mret 0
         | None => mret (- E_INVAL)
         end);
    lib_sys_page_unmap 0 fd ;;
    mret r.

Definition close (fdnum : Z) : U Z :=
  r ← fd_lookup fdnum;
  if r.1 <? 0 then mret r.1 else fd_close r.2 true.

Fixpoint close_all_loop (n : nat) (i : Z) : U unit :=
  match n with
  | O => mret tt
  | S n' => close i ;; close_all_loop n' (i + 1)
  end.

Definition close_all : U unit := close_all_loop (Z.to_nat MAXFD) 0.

Definition dup (oldfdnum newfdnum : Z) : U Z :=
  r ← fd_lookup oldfdnum;
  if r.1 <? 0 then mret r.1
  else
    let oldfd := r.2 in
    close newfdnum ;;
    let newfd := INDEX2FD newfdnum in
    let ova := fd2data oldfd in
    let nva := fd2data newfd in
    let fail r := lib_sys_page_unmap 0 newfd ;; lib_sys_page_unmap 0 nva ;; mret r in
    b ← umapped ova;
    r ← (if (b : bool) then pte ← uvpt (PGNUM ova); lib_sys_page_map 0 ova 0 nva (pte .& PTE_SYSCALL) else mret 0);
    if r <? 0 then fail r
    else
      pte ← uvpt (PGNUM oldfd);
      r ← lib_sys_page_map 0 oldfd 0 newfd (pte .& PTE_SYSCALL);
      if r <? 0 then fail r else mret newfdnum.
End Devices.

(** ** Descriptors *)

(** The page numbers of descriptor [i] and of its data. *)
Definition FDV (i : Z) : Z := 851968 + i.
Definition FDD (i : Z) : Z := 852000 + i.

Lemma fd_addresses i : 0 <= i < 32 ->
  INDEX2FD i = FDV i * 4096 /\ fd2num (FDV i * 4096) = i /\ fd2data (FDV i * 4096) = FDD i * 4096 /\ 0 <= FDV i < NUVPN /\ 0 <= FDD i < NUVPN.
Proof.
  intros Hi. assert (E : fd2num (FDV i * 4096) = i).
  { unfold fd2num, FDV. replace ((851968 + i) * 4096 - FDTABLE) with (i * 4096) by lia. rewrite u32_small, Z.div_mul by lia. apply s32_small. lia. }
  unfold fd2data, INDEX2FD, INDEX2DATA. rewrite E. unfold FDV, FDD, NUVPN. rewrite !u32_small by lia. lia.
Qed.

(** An open descriptor of a pipe: its entry. *)
Definition pipe_entry (p : Z) : Z := pte_value p perm_share.

Lemma pipe_entry_facts p : PGNUM (pipe_entry p) = p /\ hasbits (pipe_entry p) PTE_U = true /\ hasbits (pipe_entry p) PTE_W = true.
Proof. split; [by apply PGNUM_pte_value|]. unfold pipe_entry, pte_value. by rewrite !hasbits_page. Qed.

Lemma pipe_entry_page p : PGNUM (pipe_entry p) = p.
Proof. apply pipe_entry_facts. Qed.

Section Descriptors.
  Context {s0 : kstate} {ds el : list Z} {kref : Z -> Z} {kd c dp : Z}.
  Context (Hc : caller s0 c) (Hpg : env_pgdir (env s0 c) = kptr dp 0) (Hdp : dp ∈ ds) (Hcr : cpu_cr3 (thiscpu s0) = dp * 4096).

  Local Abbreviation run := (running s0 ds el kref kd) (only parsing).
  Local Abbreviation step := (stepped s0 ds el kref kd) (only parsing).

Lemma stepped_running s A s' fl : step s A s' fl -> run fl s'.
  Proof using Type. intros [? ? _ _]. by split. Qed.

(** Reading the tables. *)
Lemma umapped_run s fl v : run fl s -> 0 <= v < NUVPN ->
    umapped (v * 4096) s = Ret (UOk (bool_decide (is_Some (view s dp v)))) s.
  Proof using Hc Hpg Hdp Hcr.
    intros R Hv. destruct (running_self Hc Hpg Hcr R) as (_ & _ & _ & Hcr'). destruct R as [H _]. pose proof (vpn_pde v Hv) as Hi.
    destruct (vpn_addr v Hv) as (Hva & _ & Epn & _). unfold umapped. rewrite PDX_of_PGNUM, Epn by done. ustep by (by apply (uvpd_run H Hdp Hcr')).
    rewrite <- pt_page_div. unfold view. destruct (pt_page (mem s) dp v) as [t|] eqn:Ht.
    - unfold pde_word. rewrite hasbits_page by done. change (negb (hasbits 7 PTE_P)) with false. cbv iota. ustep by (by apply (uvpt_run H Hdp Hcr' v t)).
      rewrite vmap_pte_at. destruct (hasbits (pte_at (mem s) dp v) PTE_P); [rewrite bool_decide_eq_true_2 by eauto|rewrite bool_decide_eq_false_2 by (by intros [? ?])]; done.
    - cbn [pde_word]. rewrite hasbits_0. cbn [negb]. unfold vmap. rewrite Ht. by rewrite bool_decide_eq_false_2 by (by intros [? ?]).
  Qed.

Lemma pageref_run s fl v : run fl s -> 0 <= v < NUVPN ->
    pageref (v * 4096) s = Ret (UOk (match view s dp v with Some x => pp_ref (pg s (PGNUM x)) | None => 0 end)) s.
  Proof using Hc Hpg Hdp Hcr.
    intros R Hv. destruct (running_self Hc Hpg Hcr R) as (_ & _ & _ & Hcr'). destruct R as [H _]. pose proof (vpn_pde v Hv) as Hi.
    destruct (vpn_addr v Hv) as (Hva & _ & Epn & _). unfold pageref. rewrite PDX_of_PGNUM, Epn by done. ustep by (by apply (uvpd_run H Hdp Hcr')).
    rewrite <- pt_page_div. unfold view. destruct (pt_page (mem s) dp v) as [t|] eqn:Ht.
    - unfold pde_word. rewrite hasbits_page by done. change (negb (hasbits 7 PTE_P)) with false. cbv iota. ustep by (by apply (uvpt_run H Hdp Hcr' v t)).
      rewrite vmap_pte_at. by destruct (hasbits (pte_at (mem s) dp v) PTE_P).
    - cbn [pde_word]. rewrite hasbits_0. cbn [negb]. unfold vmap. by rewrite Ht.
  Qed.

Lemma fd_alloc_loop_run s fl n : run fl s -> forall i, 0 <= i -> i + Z.of_nat n <= 32 ->
    (fd_alloc_loop n i s = Ret (UOk (- E_MAX_OPEN, 0)) s /\ forall k, i <= k < i + Z.of_nat n -> is_Some (view s dp (FDV k))) \/
    exists j, i <= j < i + Z.of_nat n /\ fd_alloc_loop n i s = Ret (UOk (0, FDV j * 4096)) s /\ view s dp (FDV j) = None /\
      forall k, i <= k < j -> is_Some (view s dp (FDV k)).
  Proof using Hc Hpg Hdp Hcr.
    intros R. induction n as [|n IH]; intros i Hi Hn.
    { left. split; [done|]. intros. lia. }
    cbn [fd_alloc_loop]. destruct (fd_addresses i ltac:(lia)) as (-> & _ & _ & Hv & _). rewrite (ubind_Ok _ _ _ _ _ (umapped_run s fl _ R Hv)).
    case_bool_decide as Em; cbn [negb].
    - destruct (IH (i + 1) ltac:(lia) ltac:(lia)) as [(E & Hall)|(j & Hj & E & Hn' & Hall)]; [left|right].
      + split; [exact E|]. intros k Hk. destruct (decide (k = i)) as [->|]; [done|apply Hall; lia].
      + exists j. split; [lia|]. split; [exact E|]. split; [done|]. intros k Hk. destruct (decide (k = i)) as [->|]; [done|apply Hall; lia].
    - right. exists i. split; [lia|]. split; [done|]. split; [|intros; lia]. destruct (view s dp (FDV i)); [|done]. exfalso. by apply Em.
  Qed.

Lemma fd_alloc_run s fl : run fl s ->
    (fd_alloc s = Ret (UOk (- E_MAX_OPEN, 0)) s /\ forall k, 0 <= k < 32 -> is_Some (view s dp (FDV k))) \/
    exists j, 0 <= j < 32 /\ fd_alloc s = Ret (UOk (0, FDV j * 4096)) s /\ view s dp (FDV j) = None /\ forall k, 0 <= k < j -> is_Some (view s dp (FDV k)).
  Proof using Hc Hpg Hdp Hcr. intros R. by apply (fd_alloc_loop_run s fl 32 R 0). Qed.

Lemma fd_lookup_run s fl i : run fl s -> 0 <= i < 32 ->
    fd_lookup i s = Ret (UOk (if view s dp (FDV i) then (0, FDV i * 4096) else (- E_INVAL, 0))) s.
  Proof using Hc Hpg Hdp Hcr.
    intros R Hi. unfold fd_lookup. destruct (Z.ltb_spec i 0); [lia|]. destruct (Z.leb_spec 32 i); [lia|]. cbn [orb].
    destruct (fd_addresses i Hi) as (-> & _ & _ & Hv & _). rewrite (ubind_Ok _ _ _ _ _ (umapped_run s fl _ R Hv)).
    destruct (view s dp (FDV i)); [rewrite bool_decide_eq_true_2 by eauto|rewrite bool_decide_eq_false_2 by (by intros [? ?])]; done.
  Qed.

(** A page taken from the free list is mapped nowhere, and keeps its entries
    apart from those of other pages. *)
Lemma fresh_page s fl p : run fl s -> p ∈ fl ->
    kref p = 0 /\ refs (view s) ds p = 0 /\ (forall d u x, d ∈ ds -> 0 <= u < NUVPN -> view s d u = Some x -> PGNUM x <> p).
  Proof using Type.
    intros [H _] Hp. destruct (free_refs (sy_vm _ _ _ _ _ _ H) Hp) as [H1 H2]. split; [done|]. split; [done|].
    intros d u x Hd Hu Hx E. destruct (mapped_page _ _ _ _ _ _ _ (sy_vm _ _ _ _ _ _ H) Hd Hu Hx) as (_ & Hnf & _). by rewrite E in Hnf.
  Qed.

Lemma mapped_not_free s fl u x : run fl s -> 0 <= u < NUVPN -> view s dp u = Some x -> PGNUM x ∉ fl.
  Proof using Hdp.
    intros [H _] Hu Hx. by destruct (mapped_page _ _ _ _ _ _ _ (sy_vm _ _ _ _ _ _ H) Hdp Hu Hx) as (_ & Hnf & _).
  Qed.

(** The count of a mapped page is what the view says. *)
Lemma mapped_count s fl u x : run fl s -> 0 <= u < NUVPN -> view s dp u = Some x -> pp_ref (pg s (PGNUM x)) = kref (PGNUM x) + refs (view s) ds (PGNUM x).
  Proof using Hdp.
    intros [H _] Hu Hx. destruct (mapped_page _ _ _ _ _ _ _ (sy_vm _ _ _ _ _ _ H) Hdp Hu Hx) as (Hq & _ & Hpl).
    by apply (plain_refs _ _ _ _ _ (sy_vm _ _ _ _ _ _ H)).
  Qed.

Lemma mapped_table s u x : view s dp u = Some x -> is_Some (pt_page (mem s) dp u).
  Proof using Type. intros Hx. destruct (vmap_pt_page _ _ _ _ Hx) as [t Ht]. by exists t. Qed.
End Descriptors.

(** ** Creating a pipe *)

(** Mappings and contents of [s] are still there in [s']. *)
Definition extends (ds : list Z) (s s' : kstate) : Prop :=
  (forall d u y, d ∈ ds -> 0 <= u < NUVPN -> view s d u = Some y -> view s' d u = Some y) /\ keeps ds s s'.

Lemma extends_trans ds s s1 s2 : extends ds s s1 -> extends ds s1 s2 -> extends ds s s2.
Proof.
  intros [A1 B1] [A2 B2]. split; [by auto|]. intros d u y k Hd Hu Hy. rewrite (B2 d u y k Hd Hu), (B1 d u y k Hd Hu Hy); [done|by apply A1].
Qed.

Lemma as_update_get A d v o : as_update A d v o d v = o.
Proof. unfold as_update. by rewrite decide_True. Qed.

Lemma as_update_other A d v o u : u <> v -> as_update A d v o d u = A d u.
Proof. intros. unfold as_update. rewrite decide_False; [done|]. congruence. Qed.

(** Mapping something where nothing was. *)
Lemma stepped_extends s0 ds el kref kd s dp v o s' fl :
  view s dp v = None -> stepped s0 ds el kref kd s (as_update (view s) dp v o) s' fl -> extends ds s s'.
Proof.
  intros Hn [_ _ Hv Hk]. split; [|done]. intros d u y Hd Hu Hy. rewrite Hv by done. unfold as_update.
  rewrite decide_False; [done|]. congruence.
Qed.

(** The pages of a new pipe with the descriptors [i] and [j]. *)
Definition pipe_view (dp i j p0 p1 p2 : Z) (A : aspace) : aspace :=
  as_update (as_update (as_update (as_update A dp (FDV i) (Some (pipe_entry p0))) dp (FDV j) (Some (pipe_entry p1)))
    dp (FDD i) (Some (pipe_entry p2))) dp (FDD j) (Some (pipe_entry p2)).

(** The slots [i] and [j] are unused, and the only unused ones up to [j]. *)
Definition next_two (dp i j : Z) (A : aspace) : Prop :=
  0 <= i < j /\ j < 32 /\ A dp (FDV i) = None /\ A dp (FDV j) = None /\ forall k, 0 <= k < j -> k <> i -> is_Some (A dp (FDV k)).

Section Make.
  Context {s0 : kstate} {ds el fl0 : list Z} {kref : Z -> Z} {kd c dp : Z}.
  Context (Hc : caller s0 c) (Hpg : env_pgdir (env s0 c) = kptr dp 0) (Hdp : dp ∈ ds) (Hcr : cpu_cr3 (thiscpu s0) = dp * 4096).
  Context (H0 : sys_inv s0 ds fl0 el kref kd).
  (* The data page of a closed descriptor is not mapped. *)
  Context (Hdata : forall i, 0 <= i < 32 -> view s0 dp (FDV i) = None -> view s0 dp (FDD i) = None).

  Local Abbreviation run := (running s0 ds el kref kd) (only parsing).

(** The state has the view [A], and more pages than at the start. *)
Definition at_view (fl : list Z) (A : aspace) (s : kstate) : Prop := run fl s /\ as_equiv ds (view s) A /\ extends ds s0 s.

Lemma at_start : at_view fl0 (view s0) s0.
  Proof using H0. split; [by split|]. split; [done|]. split; done. Qed.

(** Allocating a page of the pipe; undoing it. *)
Lemma make_alloc s fl A v : at_view fl A s -> 0 <= v < NUVPN -> A dp v = None ->
    exists s' fl', (lib_sys_page_alloc 0 (v * 4096) perm_share s = Ret (UOk (- E_NO_MEM)) s' /\ at_view fl' A s' /\ (length fl <= 1)%nat) \/
      exists p, lib_sys_page_alloc 0 (v * 4096) perm_share s = Ret (UOk 0) s' /\ p ∈ fl /\
        at_view fl' (as_update A dp v (Some (pipe_entry p))) s' /\ (forall k, rdw (mem s') p k = 0) /\ extends ds s s'.
  Proof using Hc Hpg Hdp Hcr.
    intros (R & Hv & Hx) Hr Hn. rewrite <- Hv in Hn by done.
    destruct (self_alloc Hc Hpg Hcr R v perm_share Hr ltac:(done) ltac:(done)) as (s' & fl' & T). exists s', fl'.
    destruct T as [(E & S & Hl)|(p & E & Hp & S & Hz)]; [left|right].
    - split; [done|]. split; [|done]. split; [by eapply stepped_running|]. split; [by rewrite (sp_view _ _ _ _ _ _ _ _ _ S)|].
      eapply extends_trans; [exact Hx|]. split; [|apply (sp_keeps _ _ _ _ _ _ _ _ _ S)]. intros d u y Hd Hu. by rewrite (sp_view _ _ _ _ _ _ _ _ _ S).
    - exists p. pose proof (stepped_extends _ _ _ _ _ _ _ _ _ _ _ Hn S) as Hx'.
      split; [done|]. split; [done|]. split; [|done]. split; [by eapply stepped_running|].
      split; [|by eapply extends_trans]. rewrite (sp_view _ _ _ _ _ _ _ _ _ S). change (PTE_U .| PTE_P .| perm_share) with perm_share.
      by rewrite Hv.
  Qed.

(** Unmapping a page that was not mapped at the start. *)
Lemma make_undo s fl A v e : at_view fl (as_update A dp v (Some e)) s -> 0 <= v < NUVPN -> A dp v = None -> view s0 dp v = None ->
    exists s' fl', lib_sys_page_unmap 0 (v * 4096) s = Ret (UOk 0) s' /\ at_view fl' A s'.
  Proof using Hc Hpg Hdp Hcr.
    intros (R & Hv & Hx) Hr Hn Hn0. assert (Hy : view s dp v = Some e) by (rewrite Hv by done; apply as_update_get).
    destruct (self_unmap Hc Hpg Hcr R v Hr (mapped_table s v e Hy)) as (s' & fl' & E & S). exists s', fl'. split; [done|].
    assert (HV : as_equiv ds (view s') A).
    { rewrite (sp_view _ _ _ _ _ _ _ _ _ S), Hv. intros d u Hd Hu. unfold as_update. repeat case_decide; congruence. }
    split; [by eapply stepped_running|]. split; [done|]. destruct Hx as [Hx1 Hx2]. split.
    - intros d u y Hd Hu Hy0. rewrite (sp_view _ _ _ _ _ _ _ _ _ S) by done. unfold as_update. rewrite decide_False; [by apply Hx1|]. congruence.
    - intros d u y k Hd Hu Hy0. rewrite (sp_keeps _ _ _ _ _ _ _ _ _ S d u y k Hd Hu) by (by apply Hx1). by apply (Hx2 d u).
  Qed.

(** Writing a word of a page of the pipe. *)
Lemma make_store s fl A v k p w : at_view fl A s -> 0 <= v < NUVPN -> 0 <= k < 1024 -> A dp v = Some (pipe_entry p) -> kref p = 0 ->
    (forall d u x, d ∈ ds -> 0 <= u < NUVPN -> view s0 d u = Some x -> PGNUM x <> p) -> 0 <= w < 4294967296 ->
    exists s', ustore (u32 (v * 4096 + 4 * k)) w s = Ret (UOk tt) s' /\ at_view fl A s' /\ pages s' = pages s /\
      forall q j, rdw (mem s') q j = if decide (q = p /\ j = k) then w else rdw (mem s) q j.
  Proof using Hc Hpg Hdp Hcr.
    intros (R & Hv & Hx) Hr Hk Hy Hkr Hnew Hw. rewrite <- Hv in Hy by done. destruct (pipe_entry_facts p) as (Hq & Hu & Hpw).
    assert (Ea : u32 (v * 4096 + 4 * k) = v * 4096 + 4 * k) by (unfold NUVPN in Hr; apply u32_small; lia). rewrite Ea.
    destruct (self_store Hc Hpg Hdp Hcr R v k _ w Hr Hk Hy Hu Hpw ltac:(by rewrite Hq)) as (s' & E & R' & Hv' & Hpp & Hm).
    exists s'. rewrite Hq, (u32_small w) in Hm by done. split; [done|]. split; [|done]. split; [done|]. split; [by rewrite Hv'|].
    destruct Hx as [Hx1 Hx2]. split; [intros d u y Hd Hu' Hy0; rewrite Hv' by done; by apply Hx1|].
    intros d u y j Hd Hu' Hy0. rewrite Hm, decide_False; [by apply (Hx2 d u)|]. intros [E' _]. by apply (Hnew d u y).
  Qed.

(** A descriptor: the first unused slot, and a page for it. *)
Lemma make_end s fl A : at_view fl A s -> (forall k, 0 <= k < 32 -> A dp (FDV k) = None -> view s0 dp (FDV k) = None) ->
    (exists a r s' fl', fd_alloc s = Ret (UOk a) s /\ (if a.1 <? 0 then mret a.1 else lib_sys_page_alloc 0 a.2 perm_share) s = Ret (UOk r) s' /\
      r < 0 /\ at_view fl' A s') \/
    exists i p s' fl', fd_alloc s = Ret (UOk (0, FDV i * 4096)) s /\ lib_sys_page_alloc 0 (FDV i * 4096) perm_share s = Ret (UOk 0) s' /\
      0 <= i < 32 /\ A dp (FDV i) = None /\ (forall k, 0 <= k < i -> is_Some (A dp (FDV k))) /\ p ∈ fl /\
      at_view fl' (as_update A dp (FDV i) (Some (pipe_entry p))) s' /\ (forall k, rdw (mem s') p k = 0) /\ extends ds s s'.
  Proof using Hc Hpg Hdp Hcr.
    intros V Hn. pose proof V as (R & Hv & _). assert (HA : forall k, 0 <= k < 32 -> view s dp (FDV k) = A dp (FDV k)).
    { intros k Hk. apply Hv; [done|]. by apply fd_addresses. }
    destruct (fd_alloc_run Hc Hpg Hdp Hcr s fl R) as [(E & _)|(i & Hi & E & Hni & Hall)].
    { left. exists (- E_MAX_OPEN, 0), (- E_MAX_OPEN), s, fl. split; [done|]. split; [done|]. split; [lia|done]. }
    rewrite HA in Hni by done. destruct (fd_addresses i Hi) as (_ & _ & _ & Hr & _).
    destruct (make_alloc s fl A (FDV i) V Hr Hni) as (s' & fl' & [(Ea & V' & _)|(p & Ea & Hp & V' & Hz & Hx)]).
    - left. exists (0, FDV i * 4096), (- E_NO_MEM), s', fl'. split; [done|]. split; [exact Ea|]. split; [lia|done].
    - right. exists i, p, s', fl'. split_and!; try done; try lia. intros k Hk. rewrite <- HA by lia. apply Hall. lia.
  Qed.

(** A page taken later was not mapped at the start either. *)
Lemma new_page s fl A p : at_view fl A s -> p ∈ fl ->
    kref p = 0 /\ (forall d u x, d ∈ ds -> 0 <= u < NUVPN -> view s0 d u = Some x -> PGNUM x <> p) /\
    (forall u x, 0 <= u < NUVPN -> A dp u = Some x -> PGNUM x <> p).
  Proof using Hdp.
    intros (R & Hv & [Hx _]) Hp. destruct (fresh_page s fl p R Hp) as (Hk & _ & Hn). split; [done|]. split.
    - intros d u x Hd Hu Hy. apply (Hn d u x Hd Hu). by apply Hx.
    - intros u x Hu Hy. apply (Hn dp u x Hdp Hu). by rewrite Hv.
  Qed.

Lemma new_refs p : (forall d u x, d ∈ ds -> 0 <= u < NUVPN -> view s0 d u = Some x -> PGNUM x <> p) -> refs (view s0) ds p = 0.
  Proof using Type.
    intros Hn. unfold refs. apply count_none. intros x Hx%elem_of_slots E. destruct x as [| |d u]; [discriminate E..|].
    destruct Hx as [Hd Hu]. cbn [dtarget] in E. apply fmap_Some in E as (y & Hy & E). by apply (Hn d u y Hd Hu Hy).
  Qed.

Record new_pages (p0 p1 p2 : Z) : Prop := {
  np_kref : kref p0 = 0 /\ kref p1 = 0 /\ kref p2 = 0;
  np_new : forall p, p ∈ [p0; p1; p2] -> forall d u x, d ∈ ds -> 0 <= u < NUVPN -> view s0 d u = Some x -> PGNUM x <> p;
  np_distinct : p0 <> p1 /\ p0 <> p2 /\ p1 <> p2
}.

Lemma pipe_refs i j p0 p1 p2 : next_two dp i j (view s0) -> new_pages p0 p1 p2 ->
    let B := pipe_view dp i j p0 p1 p2 (view s0) in refs B ds p0 = 1 /\ refs B ds p1 = 1 /\ refs B ds p2 = 2.
  Proof using H0 Hdp Hdata.
    clear Hc Hpg Hcr. intros (Hij & Hj & Hni & Hnj & _) [_ Hnew (D01 & D02 & D12)] B. pose proof (vi_nodup _ _ _ _ (sy_vm _ _ _ _ _ _ H0)) as Hnd.
    destruct (fd_addresses i ltac:(lia)) as (_ & _ & _ & Hi1 & Hi2). destruct (fd_addresses j ltac:(lia)) as (_ & _ & _ & Hj1 & Hj2).
    assert (Z0 : forall p, p ∈ [p0; p1; p2] -> refs (view s0) ds p = 0) by (intros p Hp; apply new_refs; by apply Hnew).
    assert (Hr : forall p, p ∈ [p0; p1; p2] -> refs B ds p = is_ref (Some p0) p + is_ref (Some p1) p + 2 * is_ref (Some p2) p).
    { intros p Hp. unfold B, pipe_view. rewrite !refs_update by done. cbn [fmap option_fmap option_map].
      rewrite !pipe_entry_page. rewrite !as_update_other by (unfold FDV, FDD; lia).
      rewrite Hni, Hnj, (Hdata i), (Hdata j) by (done || lia). cbn [fmap option_fmap option_map]. rewrite is_ref_None, Z0 by done. lia. }
    rewrite !Hr by set_solver. rewrite !is_ref_eq. rewrite !is_ref_ne by congruence. lia.
  Qed.

(** What is left of [pipe] once its pages are mapped. *)
Definition pipe_words (i j : Z) : U (Z * (Z * Z)) :=
    ustore (FDV i * 4096) DEVPIPE_ID ;;
    ustore (u32 (FDV i * 4096 + 8)) O_RDONLY ;;
    ustore (FDV j * 4096) DEVPIPE_ID ;;
    ustore (u32 (FDV j * 4096 + 8)) O_WRONLY ;;
    mret (0, (fd2num (FDV i * 4096), fd2num (FDV j * 4096))).

Lemma pipe_words_run fl i j p0 p1 p2 s :
    next_two dp i j (view s0) -> new_pages p0 p1 p2 -> at_view fl (pipe_view dp i j p0 p1 p2 (view s0)) s ->
    exists s', pipe_words i j s = Ret (UOk (0, (i, j))) s' /\ at_view fl (pipe_view dp i j p0 p1 p2 (view s0)) s' /\
      rdw (mem s') p0 0 = DEVPIPE_ID /\ rdw (mem s') p0 2 = O_RDONLY /\ rdw (mem s') p1 0 = DEVPIPE_ID /\ rdw (mem s') p1 2 = O_WRONLY /\
      forall k, rdw (mem s') p2 k = rdw (mem s) p2 k.
  Proof using Hc Hpg Hdp Hcr.
    clear H0 Hdata. intros (Hij & Hj & _) [(K0 & K1 & K2) Hnew (D01 & D02 & D12)] V.
    destruct (fd_addresses i ltac:(lia)) as (_ & Ei & _ & Hi1 & Hi2). destruct (fd_addresses j ltac:(lia)) as (_ & Ej & _ & Hj1 & Hj2).
    set (B := pipe_view dp i j p0 p1 p2 (view s0)) in *. assert (Bi : B dp (FDV i) = Some (pipe_entry p0)).
    { unfold B, pipe_view. rewrite !as_update_other by (unfold FDV, FDD; lia). apply as_update_get. }
    assert (Bj : B dp (FDV j) = Some (pipe_entry p1)).
    { unfold B, pipe_view. rewrite !as_update_other by (unfold FDV, FDD; lia). apply as_update_get. }
    pose proof (Hnew p0 ltac:(set_solver)) as N0. pose proof (Hnew p1 ltac:(set_solver)) as N1.
    destruct (make_store s fl B _ 0 p0 DEVPIPE_ID V Hi1 ltac:(lia) Bi K0 N0 ltac:(lia)) as (s1 & E1 & V1 & _ & M1).
    destruct (make_store s1 fl B _ 2 p0 O_RDONLY V1 Hi1 ltac:(lia) Bi K0 N0 ltac:(lia)) as (s2 & E2 & V2 & _ & M2).
    destruct (make_store s2 fl B _ 0 p1 DEVPIPE_ID V2 Hj1 ltac:(lia) Bj K1 N1 ltac:(lia)) as (s3 & E3 & V3 & _ & M3).
    destruct (make_store s3 fl B _ 2 p1 O_WRONLY V3 Hj1 ltac:(lia) Bj K1 N1 ltac:(lia)) as (s4 & E4 & V4 & _ & M4).
    assert (forall v, 0 <= v < NUVPN -> u32 (v * 4096 + 4 * 0) = v * 4096) as Hu by (unfold NUVPN; intros v Hv; rewrite u32_small by lia; lia).
    rewrite Hu in E1, E3 by done. exists s4. split.
    { unfold pipe_words. ustep by exact E1. ustep by exact E2. ustep by exact E3. ustep by exact E4. by rewrite Ei, Ej. }
    split; [done|]. split_and!; intros; rewrite M4, M3, M2, M1; repeat case_decide; try done; naive_solver lia.
  Qed.

(** What is left of [pipe] once it has two descriptors. *)
Definition pipe_data (i j : Z) : U (Z * (Z * Z)) :=
    r ← lib_sys_page_alloc 0 (FDD i * 4096) perm_share;
    if r <? 0 then lib_sys_page_unmap 0 (FDV j * 4096) ;; lib_sys_page_unmap 0 (FDV i * 4096) ;; mret (r, (0, 0))
    else
      r ← lib_sys_page_map 0 (FDD i * 4096) 0 (FDD j * 4096) perm_share;
      if r <? 0 then
        lib_sys_page_unmap 0 (FDD i * 4096) ;; lib_sys_page_unmap 0 (FDV j * 4096) ;; lib_sys_page_unmap 0 (FDV i * 4096) ;; mret (r, (0, 0))
      else pipe_words i j.

(** The views while the pipe is made. *)
Definition ends_view (i j p0 p1 : Z) : aspace :=
    as_update (as_update (view s0) dp (FDV i) (Some (pipe_entry p0))) dp (FDV j) (Some (pipe_entry p1)).
Definition data_view (i j p0 p1 p2 : Z) : aspace := as_update (ends_view i j p0 p1) dp (FDD i) (Some (pipe_entry p2)).

(** The failing outcome: an error, and the address spaces as before. *)
Definition pipe_fails (o : outcome (ures (Z * (Z * Z)))) : Prop :=
    exists r s' fl', o = Ret (UOk (r, (0, 0))) s' /\ r < 0 /\ at_view fl' (view s0) s'.

(** Two descriptors, or none. *)
Lemma pipe_ends :
    pipe_fails (pipe s0) \/
    exists i j p0 p1 s fl, pipe s0 = pipe_data i j s /\ next_two dp i j (view s0) /\ at_view fl (ends_view i j p0 p1) s /\
      kref p0 = 0 /\ kref p1 = 0 /\ p0 <> p1 /\
      forall d u x, d ∈ ds -> 0 <= u < NUVPN -> view s0 d u = Some x -> PGNUM x <> p0 /\ PGNUM x <> p1.
  Proof using Hc Hpg Hdp Hcr H0.
    unfold pipe. destruct (make_end s0 fl0 _ at_start ltac:(done)) as [(a & r & s1 & fl1 & Ea & Er & Hr & V1)|(i & p0 & s1 & fl1 & Ea & Er & Hi & Hni & Hlow & Hp0 & V1 & _ & X1)].
    { left. exists r, s1, fl1. split; [|done]. ustep by exact Ea. ustep by exact Er. by rewrite (proj2 (Z.ltb_lt r 0) Hr). }
    rewrite (ubind_Ok _ _ _ _ _ Ea). cbn [fst snd Z.ltb Z.compare]. rewrite (ubind_Ok _ _ _ _ _ Er). cbn [Z.ltb Z.compare].
    destruct (fd_addresses i Hi) as (_ & _ & Edi & Hi1 & Hi2). rewrite Edi. clear Ea Er.
    set (A1 := as_update (view s0) dp (FDV i) (Some (pipe_entry p0))) in *.
    assert (O1 : forall k, k <> i -> A1 dp (FDV k) = view s0 dp (FDV k)) by (intros k Hk; apply as_update_other; unfold FDV; lia).
    assert (O2 : A1 dp (FDV i) = Some (pipe_entry p0)) by apply as_update_get.
    destruct (make_end s1 fl1 A1 V1) as [(a & r & s2 & fl2 & Ea & Er & Hr & V2)|(j & p1 & s2 & fl2 & Ea & Er & Hj & Hnj & Hlow1 & Hp1 & V2 & _ & X2)].
    { intros k Hk Hn. destruct (decide (k = i)) as [->|]; [congruence|by rewrite <- O1]. }
    { destruct (make_undo s2 fl2 _ _ _ V2 Hi1 Hni Hni) as (s3 & fl3 & E3 & V3). left. exists r, s3, fl3. split; [|done].
      ustep by exact Ea. ustep by exact Er. rewrite (proj2 (Z.ltb_lt r 0) Hr). by ustep by exact E3. }
    rewrite (ubind_Ok _ _ _ _ _ Ea). cbn [fst snd Z.ltb Z.compare]. rewrite (ubind_Ok _ _ _ _ _ Er). cbn [Z.ltb Z.compare].
    destruct (fd_addresses j Hj) as (_ & _ & Edj & Hj1 & Hj2). rewrite Edj. clear Ea Er.
    assert (Nij : j <> i) by congruence. rewrite O1 in Hnj by done.
    assert (Lij : i < j). { destruct (decide (i < j)); [done|]. destruct (Hlow j ltac:(lia)). congruence. }
    right. exists i, j, p0, p1, s2, fl2. split; [reflexivity|]. split; [|split; [exact V2|]].
    { split; [lia|]. split; [lia|]. split; [done|]. split; [done|]. intros k Hk Nk. rewrite <- O1 by done. by apply Hlow1. }
    destruct (new_page _ _ _ _ at_start Hp0) as (K0 & N0 & _). destruct (new_page _ _ _ _ V1 Hp1) as (K1 & N1 & N1').
    split; [done|]. split; [done|]. split; [|eauto]. intros ->. by apply (N1' (FDV i) (pipe_entry p1)); [..|apply pipe_entry_facts].
  Qed.

Section Data.
  Context {i j p0 p1 : Z} (N : next_two dp i j (view s0)).

Lemma undo_ends s fl r : at_view fl (ends_view i j p0 p1) s -> r < 0 ->
    pipe_fails ((lib_sys_page_unmap 0 (FDV j * 4096) ;; lib_sys_page_unmap 0 (FDV i * 4096) ;; mret (r, (0, 0)) : U (Z * (Z * Z))) s).
  Proof using Hc Hpg Hdp Hcr N.
    intros V Hr. destruct N as (Hij & Hj & Hni & Hnj & _).
    destruct (fd_addresses i ltac:(lia)) as (_ & _ & _ & Hi1 & _). destruct (fd_addresses j ltac:(lia)) as (_ & _ & _ & Hj1 & _).
    destruct (make_undo s fl _ _ _ V Hj1) as (s1 & fl1 & E1 & V1); [rewrite as_update_other by (unfold FDV; lia); done|done|].
    destruct (make_undo s1 fl1 _ _ _ V1 Hi1 Hni Hni) as (s2 & fl2 & E2 & V2).
    exists r, s2, fl2. split; [|done]. ustep by exact E1. by ustep by exact E2.
  Qed.

Lemma pipe_data_run s fl : at_view fl (ends_view i j p0 p1) s -> kref p0 = 0 -> kref p1 = 0 -> p0 <> p1 ->
    (forall d u x, d ∈ ds -> 0 <= u < NUVPN -> view s0 d u = Some x -> PGNUM x <> p0 /\ PGNUM x <> p1) ->
    pipe_fails (pipe_data i j s) \/
    exists p2 s' fl', pipe_data i j s = pipe_words i j s' /\ new_pages p0 p1 p2 /\
      at_view fl' (pipe_view dp i j p0 p1 p2 (view s0)) s' /\ forall k, rdw (mem s') p2 k = 0.
  Proof using Hc Hpg Hdp Hcr H0 Hdata N.
    intros V K0 K1 D01 Hnew. pose proof N as (Hij & Hj & Hni & Hnj & _). unfold pipe_data.
    destruct (fd_addresses i ltac:(lia)) as (_ & _ & _ & Hi1 & Hi2). destruct (fd_addresses j ltac:(lia)) as (_ & _ & _ & Hj1 & Hj2).
    assert (E0 : forall u, u <> FDV i -> u <> FDV j -> ends_view i j p0 p1 dp u = view s0 dp u).
    { intros u Hui Huj. unfold ends_view. by rewrite !as_update_other. }
    assert (Hdi : ends_view i j p0 p1 dp (FDD i) = None) by (rewrite E0 by (unfold FDV, FDD; lia); apply Hdata; [lia|done]).
    assert (Hdj : ends_view i j p0 p1 dp (FDD j) = None) by (rewrite E0 by (unfold FDV, FDD; lia); apply Hdata; [lia|done]).
    destruct (make_alloc s fl _ _ V Hi2 Hdi) as (s1 & fl1 & [(E1 & V1 & _)|(p2 & E1 & Hp2 & V1 & Hz & X1)]).
    { left. rewrite (ubind_Ok _ _ _ _ _ E1). cbn [Z.ltb Z.compare Z.opp]. by apply (undo_ends s1 fl1). }
    rewrite (ubind_Ok _ _ _ _ _ E1). cbn [Z.ltb Z.compare]. clear E1.
    destruct (new_page _ _ _ _ V Hp2) as (K2 & N2 & N2'). pose proof V as ((I & _) & HV & _). pose proof (sy_vm _ _ _ _ _ _ I) as Ivm.
    assert (NP : new_pages p0 p1 p2).
    { split; [done| |split; [done|]].
      - intros p Hp d u x Hd Hu Hx. destruct (Hnew d u x Hd Hu Hx). set_solver.
      - split; intros <-; [apply (N2' (FDV i) (pipe_entry p0))|apply (N2' (FDV j) (pipe_entry p1))]; try done; try apply pipe_entry_facts; unfold ends_view;
          rewrite ?as_update_other by (unfold FDV; lia); apply as_update_get. }
    pose proof V1 as (R1 & HV1 & Hx1). assert (Hx : view s1 dp (FDD i) = Some (pipe_entry p2)) by (rewrite HV1 by done; apply as_update_get).
    assert (Hq : PGNUM (pipe_entry p2) = p2) by apply pipe_entry_facts.
    assert (Hcnt : pp_ref (pg s1 p2) = 1).
    { pose proof (mapped_count Hdp s1 fl1 _ _ R1 Hi2 Hx) as T. rewrite Hq in T. rewrite T, K2, (refs_equiv _ _ _ _ HV1). unfold pipe_entry.
      rewrite refs_fresh; try done; [apply (vi_nodup _ _ _ _ Ivm)|]. rewrite <- (refs_equiv _ _ _ _ HV). by apply (free_refs Ivm Hp2). }
    destruct (self_map Hc Hpg Hcr R1 _ _ (FDD j) perm_share Hi2 Hj2 ltac:(done) Hx) as [(E2 & _)|(s2 & fl2 & E2 & S2)]; [rewrite Hq; lia| |].
    - left. rewrite (ubind_Ok _ _ _ _ _ E2).
      destruct (make_undo s1 fl1 _ _ _ V1 Hi2 Hdi) as (s3 & fl3 & E3 & V3); [apply Hdata; [lia|done]|].
      change (- E_NO_MEM <? 0) with true. cbv iota. rewrite (ubind_Ok _ _ _ _ _ E3). by apply (undo_ends s3 fl3).
    - right. exists p2, s2, fl2. rewrite (ubind_Ok _ _ _ _ _ E2). split; [reflexivity|]. split; [done|]. rewrite Hq in S2.
      assert (Hnj1 : view s1 dp (FDD j) = None) by (rewrite HV1, as_update_other by (done || unfold FDD; lia); done).
      split; [|intros k; rewrite <- Hq, (sp_keeps _ _ _ _ _ _ _ _ _ S2 dp (FDD i)) by done; rewrite Hq; apply Hz].
      split; [by eapply stepped_running|]. split; [rewrite (sp_view _ _ _ _ _ _ _ _ _ S2), HV1; done|].
      eapply extends_trans; [exact Hx1|]. by eapply stepped_extends.
  Qed.
End Data.

(** A pipe is made completely or not at all. *)
Lemma pipe_run :
    pipe_fails (pipe s0) \/
    exists i j p0 p1 p2 s fl, pipe s0 = Ret (UOk (0, (i, j))) s /\ next_two dp i j (view s0) /\ new_pages p0 p1 p2 /\
      at_view fl (pipe_view dp i j p0 p1 p2 (view s0)) s /\
      rdw (mem s) p0 0 = DEVPIPE_ID /\ rdw (mem s) p0 2 = O_RDONLY /\ rdw (mem s) p1 0 = DEVPIPE_ID /\ rdw (mem s) p1 2 = O_WRONLY /\
      forall k, rdw (mem s) p2 k = 0.
  Proof using Hc Hpg Hdp Hcr H0 Hdata.
    destruct pipe_ends as [F|(i & j & p0 & p1 & s & fl & E & N & V & K0 & K1 & D & Hnew)]; [by left|]. rewrite E.
    destruct (pipe_data_run N s fl V K0 K1 D Hnew) as [F|(p2 & s1 & fl1 & E1 & NP & V1 & Hz)]; [by left|right]. rewrite E1.
    destruct (pipe_words_run fl1 i j p0 p1 p2 s1 N NP V1) as (s2 & E2 & V2 & W1 & W2 & W3 & W4 & W5).
    exists i, j, p0, p1, p2, s2, fl1. split_and!; try done. intros k. by rewrite W5.
  Qed.
End Make.
Arguments at_view : clear implicits.

(** ** Closing an end *)

(** What is mapped in [s'] was mapped in [s], with the same contents. *)
Definition shrinks (ds : list Z) (s s' : kstate) : Prop :=
  forall d u y, d ∈ ds -> 0 <= u < NUVPN -> view s' d u = Some y -> view s d u = Some y /\ forall k, rdw (mem s') (PGNUM y) k = rdw (mem s) (PGNUM y) k.

Lemma shrinks_trans ds s s1 s2 : shrinks ds s s1 -> shrinks ds s1 s2 -> shrinks ds s s2.
Proof.
  intros A B d u y Hd Hu Hy. destruct (B d u y Hd Hu Hy) as [Hy1 E1]. destruct (A d u y Hd Hu Hy1) as [Hy0 E0]. split; [done|].
  intros k. by rewrite E1.
Qed.

(** The view without the pages of descriptor [a]. *)
Definition closed_view (dp a : Z) (A : aspace) : aspace := as_update (as_update A dp (FDV a) None) dp (FDD a) None.

Section Close.
  Context {s0 : kstate} {ds el : list Z} {kref : Z -> Z} {kd c dp : Z} (other_close : Z -> option (option (Z -> U Z))).
  Context (Hc : caller s0 c) (Hpg : env_pgdir (env s0 c) = kptr dp 0) (Hdp : dp ∈ ds) (Hcr : cpu_cr3 (thiscpu s0) = dp * 4096).

  Local Abbreviation run := (running s0 ds el kref kd) (only parsing).

Lemma unmap_run s fl v u x : run fl s -> 0 <= v < NUVPN -> view s dp u = Some x -> u / 1024 = v / 1024 ->
    exists s' fl', lib_sys_page_unmap 0 (v * 4096) s = Ret (UOk 0) s' /\ run fl' s' /\
      as_equiv ds (view s') (as_update (view s) dp v None) /\ shrinks ds s s'.
  Proof using Hc Hpg Hcr.
    intros R Hv Hx Hd. assert (Ht : is_Some (pt_page (mem s) dp v)).
    { rewrite pt_page_div, <- Hd, <- pt_page_div. by eapply mapped_table. }
    destruct (self_unmap Hc Hpg Hcr R v Hv Ht) as (s' & fl' & E & S). exists s', fl'. split; [done|]. split; [by eapply stepped_running|].
    split; [apply (sp_view _ _ _ _ _ _ _ _ _ S)|]. intros d w y Hd' Hw Hy. rewrite (sp_view _ _ _ _ _ _ _ _ _ S) in Hy by done.
    unfold as_update in Hy. case_decide; [done|]. split; [done|]. intros k. by apply (sp_keeps _ _ _ _ _ _ _ _ _ S d w).
  Qed.

(** Closing a pipe unmaps the descriptor and its data page, and nothing else. *)
Lemma close_run s fl a b p y x : run fl s -> 0 <= a < 32 -> 0 <= b < 32 -> a <> b ->
    view s dp (FDV a) = Some (pipe_entry p) -> rdw (mem s) p 0 = DEVPIPE_ID -> view s dp (FDD a) = Some y -> view s dp (FDV b) = Some x ->
    exists s' fl', close other_close a s = Ret (UOk 0) s' /\ run fl' s' /\ as_equiv ds (view s') (closed_view dp a (view s)) /\ shrinks ds s s'.
  Proof using Hc Hpg Hdp Hcr.
    intros R Ha Hb Nab Hp Hid Hy Hx. destruct (fd_addresses a Ha) as (Ea & En & Ed & Hv & Hd).
    assert (Hdiv : FDV b / 1024 = FDV a / 1024 /\ FDV b / 1024 = FDD a / 1024).
    { unfold FDV, FDD. Z.to_euclidean_division_equations; lia. }
    destruct (unmap_run s fl (FDV a) _ _ R Hv Hx (proj1 Hdiv)) as (s1 & fl1 & E1 & R1 & V1 & X1).
    assert (Hx1 : view s1 dp (FDV b) = Some x) by (rewrite V1, as_update_other by (done || (try unfold FDV; lia) || by apply fd_addresses); done).
    destruct (unmap_run s1 fl1 (FDD a) _ _ R1 Hd Hx1 (proj2 Hdiv)) as (s2 & fl2 & E2 & R2 & V2 & X2).
    assert (Hx2 : view s2 dp (FDV b) = Some x) by (rewrite V2, as_update_other by (done || (try unfold FDV, FDD; lia) || by apply fd_addresses); done).
    destruct (unmap_run s2 fl2 (FDV a) _ _ R2 Hv Hx2 (proj1 Hdiv)) as (s3 & fl3 & E3 & R3 & V3 & X3).
    exists s3, fl3. split.
    - unfold close. rewrite (ubind_Ok _ _ _ _ _ (fd_lookup_run Hc Hpg Hdp Hcr s fl a R Ha)), Hp. cbn [fst snd Z.ltb Z.compare].
      unfold fd_close. rewrite En. rewrite (ubind_Ok _ _ _ _ _ (fd_lookup_run Hc Hpg Hdp Hcr s fl a R Ha)), Hp. cbn [fst snd Z.ltb Z.compare orb].
      rewrite Z.eqb_refl. cbn [negb]. destruct (pipe_entry_facts p) as (Hq & Hu & _).
      pose proof (self_load Hc Hpg Hdp Hcr R (FDV a) 0 _ Hv ltac:(lia) Hp Hu) as L. rewrite Hq, Hid, Z.add_0_r in L.
      rewrite (ubind_Ok _ _ _ _ _ L). change (dev_close other_close (s32 DEVPIPE_ID)) with (Some (Some devpipe_close)). cbv iota.
      assert (Ec : devpipe_close (FDV a * 4096) s = Ret (UOk 0) s2) by (unfold devpipe_close; rewrite Ed; by ustep by exact E1).
      ustep by exact Ec. by ustep by exact E3.
    - split; [done|]. split; [|by eapply shrinks_trans; [eapply shrinks_trans|]]. rewrite V3, V2, V1. intros d u Hd' Hu. unfold closed_view, as_update.
      repeat case_decide; congruence.
  Qed.

(** The test compares the counts of the two pages. *)
Lemma pipeisclosed_run s fl a x y : run fl s -> 0 <= a < 32 -> view s dp (FDV a) = Some x -> view s dp (FDD a) = Some y ->
    pipeisclosed a s = Ret (UOk (if pp_ref (pg s (PGNUM x)) =? pp_ref (pg s (PGNUM y)) then 1 else 0)) s.
  Proof using Hc Hpg Hdp Hcr.
    intros R Ha Hx Hy. destruct (fd_addresses a Ha) as (_ & _ & Ed & Hv & Hd). unfold pipeisclosed.
    rewrite (ubind_Ok _ _ _ _ _ (fd_lookup_run Hc Hpg Hdp Hcr s fl a R Ha)), Hx. cbn [fst snd Z.ltb Z.compare]. rewrite Ed.
    destruct (running_self Hc Hpg Hcr R) as ((Hcur & _) & _). cbn [pipeisclosed_loop].
    assert (T : thisenv env_runs s = Ret (UOk (env_runs (env s c))) s) by (unfold thisenv; by rewrite Hcur).
    ustep by exact T. ustep by exact (pageref_run Hc Hpg Hdp Hcr s fl _ R Hv). ustep by exact (pageref_run Hc Hpg Hdp Hcr s fl _ R Hd).
    ustep by exact T. by rewrite Hx, Hy, Z.eqb_refl.
  Qed.
End Close.

(** ** A pipe between two descriptors *)

Section Ends.
  Context {s0 : kstate} {ds el fl0 : list Z} {kref : Z -> Z} {kd c dp : Z} (other_close : Z -> option (option (Z -> U Z))).
  Context (Hc : caller s0 c) (Hpg : env_pgdir (env s0 c) = kptr dp 0) (Hdp : dp ∈ ds) (Hcr : cpu_cr3 (thiscpu s0) = dp * 4096).
  Context {s : kstate} {fl : list Z} {a b pa pb p2 : Z} (R : running s0 ds el kref kd fl s).
  Context (Ha : 0 <= a < 32) (Hb : 0 <= b < 32) (Nab : a <> b).
  Context (Va : view s dp (FDV a) = Some (pipe_entry pa)) (Da : view s dp (FDD a) = Some (pipe_entry p2)).
  Context (Vb : view s dp (FDV b) = Some (pipe_entry pb)) (Db : view s dp (FDD b) = Some (pipe_entry p2)).
  Context (Kb : kref pb = 0) (K2 : kref p2 = 0) (Nb : pa <> pb) (N2a : p2 <> pa) (N2b : p2 <> pb).
  Context (Cb : refs (view s) ds pb = 1) (C2 : refs (view s) ds p2 = 2).

Lemma pair_counts : pp_ref (pg s pb) = 1 /\ pp_ref (pg s p2) = 2.
  Proof using Hdp R Hb Vb Db Kb K2 Cb C2.
    destruct (fd_addresses b Hb) as (_ & _ & _ & Hv & Hd). pose proof (mapped_count Hdp s fl _ _ R Hv Vb) as E1.
    pose proof (mapped_count Hdp s fl _ _ R Hd Db) as E2. rewrite pipe_entry_page in E1, E2. lia.
  Qed.

(** Both ends are open: the test says so. *)
Lemma pair_open : pipeisclosed b s = Ret (UOk 0) s.
  Proof using Hc Hpg Hdp Hcr R Hb Vb Db Kb K2 Cb C2.
    destruct pair_counts as [E1 E2]. rewrite (pipeisclosed_run Hc Hpg Hdp Hcr s fl b _ _ R Hb Vb Db).
    by rewrite !pipe_entry_page, E1, E2.
  Qed.

(** One end is closed: the other one finds out. *)
Lemma pair_closed : rdw (mem s) pa 0 = DEVPIPE_ID ->
    exists s' fl', close other_close a s = Ret (UOk 0) s' /\ running s0 ds el kref kd fl' s' /\
      as_equiv ds (view s') (closed_view dp a (view s)) /\ shrinks ds s s' /\ pipeisclosed b s' = Ret (UOk 1) s'.
  Proof using Hc Hpg Hdp Hcr R Ha Hb Nab Va Da Vb Db Kb K2 Nb N2a N2b Cb C2.
    intros Hid. destruct (close_run other_close Hc Hpg Hdp Hcr s fl a b pa _ _ R Ha Hb Nab Va Hid Da Vb) as (s' & fl' & E & R' & V' & X').
    exists s', fl'. split; [done|]. split; [done|]. split; [done|]. split; [done|].
    destruct (fd_addresses a Ha) as (_ & _ & _ & Hav & Had). destruct (fd_addresses b Hb) as (_ & _ & _ & Hv & Hd).
    assert (Nd : NoDup ds) by apply (vi_nodup _ _ _ _ (sy_vm _ _ _ _ _ _ (proj1 R))).
    assert (Vb' : view s' dp (FDV b) = Some (pipe_entry pb)).
    { rewrite V' by done. unfold closed_view. by rewrite !as_update_other by (unfold FDV, FDD; lia). }
    assert (Db' : view s' dp (FDD b) = Some (pipe_entry p2)).
    { rewrite V' by done. unfold closed_view. by rewrite !as_update_other by (unfold FDV, FDD; lia). }
    assert (Hr : forall p, refs (view s') ds p = refs (view s) ds p - is_ref (Some pa) p - is_ref (Some p2) p).
    { intros p. rewrite (refs_equiv _ _ _ _ V'). unfold closed_view. rewrite !refs_update by done. rewrite as_update_other by (unfold FDV, FDD; lia).
      rewrite Va, Da. cbn [fmap option_fmap option_map]. rewrite is_ref_None, !pipe_entry_page. lia. }
    rewrite (pipeisclosed_run Hc Hpg Hdp Hcr s' fl' b _ _ R' Hb Vb' Db').
    rewrite (mapped_count Hdp s' fl' _ _ R' Hv Vb'), (mapped_count Hdp s' fl' _ _ R' Hd Db'), !pipe_entry_page, !Hr, Kb, K2, Cb, C2.
    by rewrite is_ref_eq, !is_ref_ne by congruence.
  Qed.
End Ends.

(** The entries and the counts of a new pipe. *)
Lemma pipe_view_facts s0 s ds fl0 el kref kd dp i j p0 p1 p2 :
  sys_inv s0 ds fl0 el kref kd -> dp ∈ ds -> (forall i, 0 <= i < 32 -> view s0 dp (FDV i) = None -> view s0 dp (FDD i) = None) ->
  next_two dp i j (view s0) -> new_pages (s0 := s0) (ds := ds) (kref := kref) p0 p1 p2 -> as_equiv ds (view s) (pipe_view dp i j p0 p1 p2 (view s0)) ->
  view s dp (FDV i) = Some (pipe_entry p0) /\ view s dp (FDD i) = Some (pipe_entry p2) /\
  view s dp (FDV j) = Some (pipe_entry p1) /\ view s dp (FDD j) = Some (pipe_entry p2) /\
  refs (view s) ds p0 = 1 /\ refs (view s) ds p1 = 1 /\ refs (view s) ds p2 = 2.
Proof.
  intros H0 Hdp Hdata N NP V. pose proof (pipe_refs Hdp H0 Hdata i j p0 p1 p2 N NP) as Hr. destruct N as (Hij & Hj & _).
  destruct (fd_addresses i ltac:(lia)) as (_ & _ & _ & Hi1 & Hi2). destruct (fd_addresses j ltac:(lia)) as (_ & _ & _ & Hj1 & Hj2).
  rewrite !(refs_equiv _ _ _ _ V), !V by done. unfold pipe_view at 1 2 3 4.
  split_and!; try apply Hr; rewrite ?as_update_other by (unfold FDV, FDD; lia); apply as_update_get.
Qed.

(** Every closed descriptor has no data page. *)
Definition fds_clean (dp : Z) (s : kstate) : Prop :=
  forall i, 0 <= i < 32 -> view s dp (FDV i) = None -> view s dp (FDD i) = None.

(** C24: [pipe] succeeds completely or leaves the address spaces as they were.  On
    success the descriptors are the first two unused ones; each has a page of its own,
    with the device and the mode of the end, and they share a third page, the
    empty pipe, which has two references.  Nothing that was mapped changes. *)
Theorem pipe_creates s ds fl el kref kd c dp :
  sys_inv s ds fl el kref kd -> caller s c -> env_pgdir (env s c) = kptr dp 0 -> dp ∈ ds -> cpu_cr3 (thiscpu s) = dp * 4096 -> fds_clean dp s ->
  exists r s' fl', pipe s = Ret (UOk r) s' /\ sys_inv s' ds fl' el kref kd /\ vm_frame s s' /\ extends ds s s' /\
    ((r.1 < 0 /\ as_equiv ds (view s') (view s)) \/
     exists i j p0 p1 p2, r = (0, (i, j)) /\ next_two dp i j (view s) /\ as_equiv ds (view s') (pipe_view dp i j p0 p1 p2 (view s)) /\
       (forall p d u x, p ∈ [p0; p1; p2] -> d ∈ ds -> 0 <= u < NUVPN -> view s d u = Some x -> PGNUM x <> p) /\ NoDup [p0; p1; p2] /\
       pp_ref (pg s' p0) = 1 /\ pp_ref (pg s' p1) = 1 /\ pp_ref (pg s' p2) = 2 /\
       rdw (mem s') p0 0 = DEVPIPE_ID /\ rdw (mem s') p0 2 = O_RDONLY /\ rdw (mem s') p1 0 = DEVPIPE_ID /\ rdw (mem s') p1 2 = O_WRONLY /\
       forall k, rdw (mem s') p2 k = 0).
Proof.
  intros H Hc Hpg Hdp Hcr Hcl.
  destruct (pipe_run Hc Hpg Hdp Hcr H Hcl) as [(r & s' & fl' & E & Hr & (I & F) & V & X)|(i & j & p0 & p1 & p2 & s' & fl' & E & N & NP & (R & V & X) & W)].
  { exists (r, (0, 0)), s', fl'. split_and!; try done. left. done. }
  destruct (pipe_view_facts _ _ _ _ _ _ _ _ _ _ _ _ _ H Hdp Hcl N NP V) as (V1 & D1 & V2 & D2 & C0 & C1 & C2). pose proof N as (Hij & Hj & _).
  destruct NP as [(K0 & K1 & K2) Hnew (D01 & D02 & D12)]. assert (Hi' : 0 <= i < 32) by lia. assert (Hj' : 0 <= j < 32) by lia.
  destruct (pair_counts Hdp R Hi' V1 D1 K0 K2 C0 C2) as [Q0 Q2].
  destruct (pair_counts Hdp R Hj' V2 D2 K1 K2 C1 C2) as [Q1 _].
  exists (0, (i, j)), s', fl'. split; [done|]. split; [apply R|]. split; [apply R|]. split; [done|]. right. exists i, j, p0, p1, p2.
  split_and!; try done; try apply W; [eauto|]. rewrite !list.NoDup_cons, !not_elem_of_cons. split_and!; try done; try apply not_elem_of_nil. constructor.
Qed.

Lemma sample_fds_clean : fds_clean 279 sys_sample4.
Proof.
  intros i Hi _. assert (T : Forall (λ i, vmap (mem sys_sample4) 279 (FDD i) = None) (seqZ 0 32)) by (apply (bool_decide_unpack _); vm_compute; exact I).
  rewrite list.Forall_forall in T. apply T, elem_of_seqZ. lia.
Qed.

Lemma pipe_creates_witness :
  exists s' p0, pipe sys_sample4 = Ret (UOk (0, (0, 1))) s' /\ vmap (mem s') 279 (FDV 0) = Some (pipe_entry p0) /\ pp_ref (pg s' p0) = 1.
Proof.
  destruct sys_sample4_facts as (fl & Hi & Hcal & _). destruct sys_sample4_map as (_ & Hpg & Hcr).
  destruct (pipe_creates _ _ _ _ _ _ 0 279 Hi Hcal Hpg (list_elem_of_here 279 []) Hcr sample_fds_clean) as (r & s' & fl' & E & _ & _ & _ & T).
  destruct (ret_val_Ret (pipe sys_sample4) (UOk (0, (0, 1)))) as (s1 & E1); [vm_compute; reflexivity|].
  rewrite E in E1. injection E1 as -> _. destruct T as [[Hr _]|(i & j & p0 & p1 & p2 & Hr & _ & V & _ & _ & C0 & _)].
  - exfalso. clear - Hr. cbn in Hr. lia.
  - injection Hr as <- <-. exists s', p0. split; [exact E|]. split; [|exact C0].
    change (view s' 279 (FDV 0) = Some (pipe_entry p0)). rewrite V; [|exact (list_elem_of_here 279 [])|split; vm_compute; congruence].
    unfold pipe_view. rewrite !as_update_other by (vm_compute; congruence). apply as_update_get.
Defined.

(** C25: As long as both ends of a new pipe are open, neither is told that the other
    is closed; when either end is closed, its two pages are unmapped and nothing else, and
    the end that remains is told so. *)
Theorem pipe_close_detected s ds fl el kref kd c dp i j s1 oc :
  sys_inv s ds fl el kref kd -> caller s c -> env_pgdir (env s c) = kptr dp 0 -> dp ∈ ds -> cpu_cr3 (thiscpu s) = dp * 4096 -> fds_clean dp s ->
  pipe s = Ret (UOk (0, (i, j))) s1 ->
  pipeisclosed i s1 = Ret (UOk 0) s1 /\ pipeisclosed j s1 = Ret (UOk 0) s1 /\
  forall a b, (a, b) = (i, j) \/ (a, b) = (j, i) ->
    exists s2 fl2, close oc a s1 = Ret (UOk 0) s2 /\ sys_inv s2 ds fl2 el kref kd /\ as_equiv ds (view s2) (closed_view dp a (view s1)) /\
      shrinks ds s1 s2 /\ pipeisclosed b s2 = Ret (UOk 1) s2.
Proof.
  intros H Hc Hpg Hdp Hcr Hcl E1.
  destruct (pipe_run Hc Hpg Hdp Hcr H Hcl) as [(r & s' & fl' & E & Hr & _)|(i' & j' & p0 & p1 & p2 & s' & fl' & E & N & NP & (R & V & X) & W0 & _ & W1 & _)].
  { rewrite E1 in E. injection E as <- _ _ _. lia. }
  rewrite E1 in E. injection E as <- <- <-.
  destruct (pipe_view_facts _ _ _ _ _ _ _ _ _ _ _ _ _ H Hdp Hcl N NP V) as (V1 & D1 & V2 & D2 & C0 & C1 & C2). destruct N as (Hij & Hj & _).
  destruct NP as [(K0 & K1 & K2) Hnew (D01 & D02 & D12)]. assert (Hi' : 0 <= i < 32) by lia. assert (Hj' : 0 <= j < 32) by lia.
  split; [by apply (pair_open Hc Hpg Hdp Hcr R Hi' V1 D1)|]. split; [by apply (pair_open Hc Hpg Hdp Hcr R Hj' V2 D2)|].
  intros a b [[= -> ->]|[= -> ->]].
  - destruct (pair_closed oc Hc Hpg Hdp Hcr R Hi' Hj' ltac:(lia) V1 D1 V2 D2 K1 K2 D01 (not_eq_sym D02) (not_eq_sym D12) C1 C2 W0) as (s2 & fl2 & T & [I _] & T').
    by exists s2, fl2.
  - destruct (pair_closed oc Hc Hpg Hdp Hcr R Hj' Hi' ltac:(lia) V2 D2 V1 D1 K0 K2 (not_eq_sym D01) (not_eq_sym D12) (not_eq_sym D02) C0 C2 W1) as (s2 & fl2 & T & [I _] & T').
    by exists s2, fl2.
Qed.

Lemma pipe_close_detected_witness :
  exists s1 s2, pipe sys_sample4 = Ret (UOk (0, (0, 1))) s1 /\ close (λ _, None) 1 s1 = Ret (UOk 0) s2 /\ pipeisclosed 0 s2 = Ret (UOk 1) s2.
Proof.
  destruct sys_sample4_facts as (fl & Hi & Hcal & _). destruct sys_sample4_map as (_ & Hpg & Hcr).
  destruct (ret_val_Ret (pipe sys_sample4) (UOk (0, (0, 1)))) as (s1 & E); [vm_compute; reflexivity|].
  destruct (pipe_close_detected _ _ _ _ _ _ 0 279 0 1 s1 (λ _, None) Hi Hcal Hpg (list_elem_of_here 279 []) Hcr sample_fds_clean E) as (_ & _ & T).
  destruct (T 1 0 (or_intror eq_refl)) as (s2 & fl2 & E2 & _ & _ & _ & E3). exists s1, s2. split; [exact E|]. split; [exact E2|exact E3].
Defined.

(** ** Duplicating a descriptor *)

(** The view in which the page at [u], if there is one, is also mapped at [v]. *)
Definition share_view (dp u v : Z) (A : aspace) : aspace :=
  match A dp u with Some x => as_update A dp v (Some (pte_value (PGNUM x) (x .& PTE_SYSCALL))) | None => A end.

Section Dup.
  Context {s0 : kstate} {ds el : list Z} {kref : Z -> Z} {kd c dp : Z}.
  Context (Hc : caller s0 c) (Hpg : env_pgdir (env s0 c) = kptr dp 0) (Hdp : dp ∈ ds) (Hcr : cpu_cr3 (thiscpu s0) = dp * 4096).

  Local Abbreviation at_ := (at_view s0 ds el kref kd) (only parsing).

(** Unmapping what is not mapped. *)
Lemma unmap_none s fl A v u x : at_ fl A s -> 0 <= v < NUVPN -> A dp v = None -> view s dp u = Some x -> u / 1024 = v / 1024 ->
    exists s' fl', lib_sys_page_unmap 0 (v * 4096) s = Ret (UOk 0) s' /\ at_ fl' A s'.
  Proof using Hc Hpg Hdp Hcr.
    intros (R & V & X1 & X2) Hv Hn Hx Hd. destruct (unmap_run Hc Hpg Hcr s fl v u x R Hv Hx Hd) as (s' & fl' & E & R' & V' & S'). exists s', fl'. split; [done|].
    assert (V2 : as_equiv ds (view s') (view s)).
    { rewrite V'. intros d w Hd' Hw. unfold as_update. case_decide as T; [|done]. injection T as -> ->. by rewrite V. }
    split; [done|]. split; [by rewrite V2|]. split; [intros d w y Hd' Hw Hy; rewrite V2 by done; by apply X1|].
    intros d w y k Hd' Hw Hy. rewrite <- (X2 d w y k Hd' Hw Hy). apply (S' d w y Hd' Hw). rewrite V2 by done. by apply X1.
  Qed.

(** Sharing a page. *)
Lemma map_again s fl A u x v : at_ fl A s -> 0 <= u < NUVPN -> 0 <= v < NUVPN -> A dp u = Some x -> A dp v = None -> view s0 dp v = None ->
    pp_ref (pg s (PGNUM x)) < 65535 ->
    exists s' fl' r, lib_sys_page_map 0 (u * 4096) 0 (v * 4096) (x .& PTE_SYSCALL) s = Ret (UOk r) s' /\
      ((r < 0 /\ at_ fl' A s') \/ (r = 0 /\ at_ fl' (share_view dp u v A) s')).
  Proof using Hc Hpg Hdp Hcr.
    intros (R & V & X) Hu Hv Hx Hn Hn0 Hr. assert (Hx' : view s dp u = Some x) by (by rewrite V).
    destruct (self_map Hc Hpg Hcr R u x v (x .& PTE_SYSCALL) Hu Hv (perm_range_share x) Hx' Hr) as [(E & _)|(s' & fl' & E & S)].
    - exists s, fl, (- E_NO_MEM). split; [done|]. left. split; [lia|done].
    - exists s', fl', 0. split; [done|]. right. split; [done|]. split; [by eapply stepped_running|].
      split; [rewrite (sp_view _ _ _ _ _ _ _ _ _ S); unfold share_view; rewrite Hx; by rewrite V|].
      eapply extends_trans; [exact X|]. eapply stepped_extends; [|exact S]. by rewrite V.
  Qed.

(** The entry of a mapped page, as the program reads it. *)
Lemma uvpt_mapped s fl u x : running s0 ds el kref kd fl s -> 0 <= u < NUVPN -> view s dp u = Some x ->
    uvpt (PGNUM (u * 4096)) s = Ret (UOk x) s.
  Proof using Hc Hpg Hdp Hcr.
    intros R Hu Hx. destruct (running_self Hc Hpg Hcr R) as (_ & _ & _ & Hcr'). destruct R as [H _].
    destruct (mapped_table s u x Hx) as [t Ht]. destruct (vpn_addr u Hu) as (_ & _ & -> & _). rewrite (uvpt_run H Hdp Hcr' u t Hu Ht).
    unfold view in Hx. rewrite vmap_pte_at in Hx. destruct (hasbits (pte_at (mem s) dp u) PTE_P); [|done]. by injection Hx as ->.
  Qed.

  Context {s : kstate} {fl : list Z} (A0 : aspace) (V0 : at_ fl A0 s) (a b x : Z) (Ha : 0 <= a < 32) (Hb : 0 <= b < 32) (Hx : A0 dp (FDV a) = Some x).
  Context (Hn : A0 dp (FDV b) = None) (Hnd : A0 dp (FDD b) = None).

Lemma dup_undo s' fl' r e : at_ fl' (match e with Some y => as_update A0 dp (FDD b) (Some y) | None => A0 end) s' -> view s0 dp (FDD b) = None ->
    exists s'' fl'', (lib_sys_page_unmap 0 (FDV b * 4096) ;; lib_sys_page_unmap 0 (FDD b * 4096) ;; mret r : U Z) s' = Ret (UOk r) s'' /\ at_ fl'' A0 s''.
  Proof using Hc Hpg Hdp Hcr Ha Hb Hx Hn Hnd.
    intros V Hn0. destruct (fd_addresses a Ha) as (_ & _ & _ & Hav & _). destruct (fd_addresses b Hb) as (_ & _ & _ & Hbv & Hbd).
    assert (Hdiv : FDV a / 1024 = FDV b / 1024 /\ FDV a / 1024 = FDD b / 1024).
    { unfold FDV, FDD. Z.to_euclidean_division_equations; lia. }
    set (A1 := match e with Some y => _ | None => _ end) in V.
    assert (Ho : forall k, 0 <= k < 32 -> A1 dp (FDV k) = A0 dp (FDV k)).
    { intros k Hk. unfold A1. destruct e; [|done]. apply as_update_other. unfold FDV, FDD. lia. }
    destruct (unmap_none s' fl' A1 (FDV b) (FDV a) x V Hbv) as (s1 & fl1 & E1 & V1); [by rewrite Ho|destruct V as (_ & V & _); by rewrite V, Ho|apply Hdiv|].
    assert (T : exists s2 fl2, lib_sys_page_unmap 0 (FDD b * 4096) s1 = Ret (UOk 0) s2 /\ at_ fl2 A0 s2).
    { unfold A1 in V1. destruct e as [y|]; [by apply (make_undo Hc Hpg Hdp Hcr s1 fl1 A0 _ y)|].
      apply (unmap_none s1 fl1 A0 (FDD b) (FDV a) x V1 Hbd Hnd); [destruct V1 as (_ & V1 & _); by rewrite V1|apply Hdiv]. }
    destruct T as (s2 & fl2 & E2 & V2). exists s2, fl2. split; [|done]. ustep by exact E1. by ustep by exact E2.
  Qed.
End Dup.

Lemma ubind_assoc {A B C} (m : U A) (f : A -> U B) (g : B -> U C) s : ((m ≫= f) ≫= g) s = (m ≫= λ a, f a ≫= g) s.
Proof. unfold mbind, U_bind. by destruct (m s) as [[a|msg|va] s'|e s']. Qed.

Lemma share_view_other dp u v A w : w <> v -> share_view dp u v A dp w = A dp w.
Proof. intros Hw. unfold share_view. destruct (A dp u); [by apply as_update_other|done]. Qed.

Lemma share_view_refs ds dp u v A p : NoDup ds -> dp ∈ ds -> 0 <= v < NUVPN -> refs (share_view dp u v A) ds p <= refs A ds p + 1.
Proof.
  intros Hnd Hdp Hv. unfold share_view. destruct (A dp u); [|lia]. rewrite refs_update by done.
  pose proof (is_ref_range (PGNUM <$> A dp v) p). pose proof (is_ref_range (PGNUM <$> Some (pte_value (PGNUM z) (z .& PTE_SYSCALL))) p). lia.
Qed.

(** The first half of [dup]: the data page. *)
Lemma dup_data s ds fl el kref kd c dp a b :
  caller s c -> env_pgdir (env s c) = kptr dp 0 -> dp ∈ ds -> cpu_cr3 (thiscpu s) = dp * 4096 ->
  at_view s ds el kref kd fl (view s) s -> 0 <= a < 32 -> 0 <= b < 32 -> view s dp (FDD b) = None ->
  (forall y, view s dp (FDD a) = Some y -> pp_ref (pg s (PGNUM y)) < 65535) ->
  exists r s1 fl1,
    (m ← umapped (FDD a * 4096);
     if (m : bool) then pte ← uvpt (PGNUM (FDD a * 4096)); lib_sys_page_map 0 (FDD a * 4096) 0 (FDD b * 4096) (pte .& PTE_SYSCALL) else mret 0) s = Ret (UOk r) s1 /\
    ((r < 0 /\ at_view s ds el kref kd fl1 (view s) s1) \/ (r = 0 /\ at_view s ds el kref kd fl1 (share_view dp (FDD a) (FDD b) (view s)) s1)).
Proof.
  intros Hc Hpg Hdp Hcr V Ha Hb Hn Hr. pose proof (proj1 V) as R.
  destruct (fd_addresses a Ha) as (_ & _ & _ & _ & Had). destruct (fd_addresses b Hb) as (_ & _ & _ & _ & Hbd).
  rewrite (ubind_Ok _ _ _ _ _ (umapped_run Hc Hpg Hdp Hcr s fl _ R Had)). destruct (view s dp (FDD a)) as [y|] eqn:Hy.
  - rewrite bool_decide_eq_true_2 by eauto. rewrite (ubind_Ok _ _ _ _ _ (uvpt_mapped Hc Hpg Hdp Hcr s fl _ y R Had Hy)).
    destruct (map_again Hc Hpg Hdp Hcr s fl _ (FDD a) y (FDD b) V Had Hbd Hy Hn Hn (Hr y eq_refl)) as (s1 & fl1 & r & E & D). by exists r, s1, fl1.
  - rewrite bool_decide_eq_false_2 by (by intros [? ?]). exists 0, s, fl. split; [done|]. right. split; [done|]. unfold share_view. by rewrite Hy.
Qed.

(** Duplicating an open descriptor onto an unused one: either it fails, and the
    address spaces are as before, or the new descriptor has the same page and
    the same data page as the old one, with the same permissions, and nothing
    else is mapped differently. *)
Theorem dup_shares s ds fl el kref kd c dp a b x oc :
  sys_inv s ds fl el kref kd -> caller s c -> env_pgdir (env s c) = kptr dp 0 -> dp ∈ ds -> cpu_cr3 (thiscpu s) = dp * 4096 -> fds_clean dp s ->
  0 <= a < 32 -> 0 <= b < 32 -> view s dp (FDV a) = Some x -> view s dp (FDV b) = None ->
  pp_ref (pg s (PGNUM x)) < 65534 -> (forall y, view s dp (FDD a) = Some y -> pp_ref (pg s (PGNUM y)) < 65535) ->
  exists r s' fl', dup oc a b s = Ret (UOk r) s' /\ sys_inv s' ds fl' el kref kd /\ vm_frame s s' /\ extends ds s s' /\
    ((r < 0 /\ as_equiv ds (view s') (view s)) \/
     (r = b /\ as_equiv ds (view s') (share_view dp (FDV a) (FDV b) (share_view dp (FDD a) (FDD b) (view s))))).
Proof.
  intros H Hc Hpg Hdp Hcr Hcl Ha Hb Hx Hn Hrx Hry. pose proof (at_start H) as V. pose proof (Hcl b Hb Hn) as Hnd. pose proof (proj1 V) as R.
  destruct (fd_addresses a Ha) as (_ & _ & Eda & Hav & Had). destruct (fd_addresses b Hb) as (Eb & _ & Edb & Hbv & Hbd).
  unfold dup. rewrite (ubind_Ok _ _ _ _ _ (fd_lookup_run Hc Hpg Hdp Hcr s fl a R Ha)), Hx. cbn [fst snd Z.ltb Z.compare].
  assert (Ec : close oc b s = Ret (UOk (- E_INVAL)) s).
  { unfold close. rewrite (ubind_Ok _ _ _ _ _ (fd_lookup_run Hc Hpg Hdp Hcr s fl b R Hb)), Hn. reflexivity. }
  rewrite (ubind_Ok _ _ _ _ _ Ec), Eb, Eda, Edb, <- ubind_assoc.
  destruct (dup_data s ds fl el kref kd c dp a b Hc Hpg Hdp Hcr V Ha Hb Hnd Hry) as (r & s1 & fl1 & E1 & D1). rewrite (ubind_Ok _ _ _ _ _ E1).
  destruct D1 as [(Hr & V1)|(-> & V1)].
  { rewrite (proj2 (Z.ltb_lt r 0) Hr). destruct (dup_undo Hc Hpg Hdp Hcr (view s) a b x Ha Hb Hx Hn Hnd s1 fl1 r None V1 Hnd) as (s2 & fl2 & E2 & (I & F) & V2 & X2).
    exists r, s2, fl2. split_and!; try done. by left. }
  set (A1 := share_view dp (FDD a) (FDD b) (view s)) in *. cbn [Z.ltb Z.compare].
  assert (O1 : forall k, 0 <= k < 32 -> A1 dp (FDV k) = view s dp (FDV k)) by (intros k Hk; apply share_view_other; unfold FDV, FDD; lia).
  pose proof V1 as (R1 & HV1 & _). assert (Hx1 : view s1 dp (FDV a) = Some x) by (rewrite HV1, O1 by done; done).
  assert (Hrx1 : pp_ref (pg s1 (PGNUM x)) < 65535).
  { rewrite (mapped_count Hdp s fl _ x R Hav Hx) in Hrx. rewrite (mapped_count Hdp s1 fl1 _ x R1 Hav Hx1), (refs_equiv _ _ _ _ HV1).
    pose proof (share_view_refs ds dp (FDD a) (FDD b) (view s) (PGNUM x) (vi_nodup _ _ _ _ (sy_vm _ _ _ _ _ _ H)) Hdp Hbd) as T. fold A1 in T. lia. }
  rewrite (ubind_Ok _ _ _ _ _ (uvpt_mapped Hc Hpg Hdp Hcr s1 fl1 _ x R1 Hav Hx1)).
  destruct (map_again Hc Hpg Hdp Hcr s1 fl1 A1 (FDV a) x (FDV b) V1 Hav Hbv ltac:(by rewrite O1) ltac:(by rewrite O1) Hn Hrx1) as (s2 & fl2 & r & E2 & D2).
  rewrite (ubind_Ok _ _ _ _ _ E2). destruct D2 as [(Hr & V2)|(-> & (I & F) & V2 & X2)].
  - rewrite (proj2 (Z.ltb_lt r 0) Hr). set (e := (λ y, pte_value (PGNUM y) (y .& PTE_SYSCALL)) <$> view s dp (FDD a)).
    assert (V2' : at_view s ds el kref kd fl2 (match e with Some y => as_update (view s) dp (FDD b) (Some y) | None => view s end) s2).
    { unfold e. unfold A1, share_view in V2. by destruct (view s dp (FDD a)). }
    destruct (dup_undo Hc Hpg Hdp Hcr (view s) a b x Ha Hb Hx Hn Hnd s2 fl2 r e V2' Hnd) as (s3 & fl3 & E3 & (I & F) & V3 & X3).
    exists r, s3, fl3. split_and!; try done. by left.
  - exists b, s2, fl2. split_and!; try done. by right.
Qed.

(** A state with a pipe open. *)
Definition pipe_sample : kstate := match pipe sys_sample4 with Ret _ s => s | Exit _ s => s end.

Lemma pipe_sample_inv : exists fl, running sys_sample4 [279] (seqZ 1 1023) vm_sample_kref 256 fl pipe_sample.
Proof.
  destruct sys_sample4_facts as (fl & Hi & Hcal & _). destruct sys_sample4_map as (_ & Hpg & Hcr).
  destruct (pipe_run Hcal Hpg (list_elem_of_here 279 []) Hcr Hi sample_fds_clean) as [(r & s' & fl' & E & _ & R & _)|(i & j & p0 & p1 & p2 & s' & fl' & E & _ & _ & (R & _) & _)];
    exists fl'; unfold pipe_sample; rewrite E; exact R.
Qed.

Lemma pipe_sample_clean : fds_clean 279 pipe_sample.
Proof.
  intros i Hi. assert (T : Forall (λ i, vmap (mem pipe_sample) 279 (FDV i) = None -> vmap (mem pipe_sample) 279 (FDD i) = None) (seqZ 0 32))
    by (apply (bool_decide_unpack _); vm_compute; exact I).
  rewrite list.Forall_forall in T. apply T, elem_of_seqZ. lia.
Qed.

Lemma dup_shares_witness :
  exists s', dup (λ _, None) 0 2 pipe_sample = Ret (UOk 2) s' /\ view s' 279 (FDV 2) = view pipe_sample 279 (FDV 0).
Proof.
  destruct pipe_sample_inv as (fl & Hrun). destruct sys_sample4_facts as (_ & _ & Hcal & _). destruct sys_sample4_map as (_ & Hpg & Hcr).
  destruct (running_self Hcal Hpg Hcr Hrun) as (Hcal' & _ & Hpg' & Hcr'). destruct Hrun as [Hi _].
  destruct (ret_val_Ret (dup (λ _, None) 0 2 pipe_sample) (UOk 2)) as (s1 & E1); [vm_compute; reflexivity|].
  assert (Ex : view pipe_sample 279 (FDV 0) = Some (pipe_entry 276)) by (vm_compute; reflexivity).
  destruct (dup_shares _ _ _ _ _ _ 0 279 0 2 (pipe_entry 276) (λ _, None) Hi Hcal' Hpg' (list_elem_of_here 279 []) Hcr' pipe_sample_clean) as (r & s' & fl' & E & _ & _ & _ & T).
  - clear. lia.
  - clear. lia.
  - exact Ex.
  - vm_compute. reflexivity.
  - vm_compute. reflexivity.
  - intros y Hy. vm_compute in Hy. injection Hy as <-. vm_compute. reflexivity.
  - rewrite E in E1. injection E1 as -> _. destruct T as [[Hr _]|[_ V]]; [exfalso; clear - Hr; lia|]. exists s'. split; [exact E|].
    rewrite V; [|exact (list_elem_of_here 279 [])|split; vm_compute; congruence].
    unfold share_view at 1. rewrite share_view_other by (vm_compute; congruence). rewrite Ex, as_update_get. vm_compute. reflexivity.
Defined.
